(* ===== verification/_CoqProject ===== *)
-Q . S2P
Prelude.v
Lists.v
JsString.v
JsRegExp.v
CaseFolding.v
JsDate.v
Timezone.v
SqlPolicy.v
CrucibleLib.v
PhpString.v
Pcre.v
QueryGuard.v
SqlLexer.v
StatementAnalyzer.v
DeploymentPolicy.v
Permissions.v
DeploymentPreflight.v
Workflow.v
WorkflowSafety.v
Access.v
Sessions.v
SessionSafety.v
SessionRuns.v
SessionRest.v
ProxyPolicy.v
Leases.v
LeaseSafety.v
NativeSafety.v
ControlRequests.v
PolicyPreview.v
Hooks.v
Cookies.v
View.v
SqlEditor.v
ConnectionCombobox.v
Badges.v
Navigation.v
Shell.v
TwoFactor.v
Settings.v
UserRoles.v
RoleForm.v
RoleFormView.v
RequestForm.v
RequestFormView.v
Results.v
Pagination.v
QuerySession.v
QuerySessionView.v
SessionEditor.v
AppDatabase.v
SqlPolicySettings.v
NativePanel.v
Forms.v
Auth.v
Account.v
Device.v
ConnectionForm.v
Setup.v
SetupServer.v
GroupForm.v
ConnectionList.v
ConnectionShow.v
AccessPages.v
RequestList.v
AuditLogs.v
Registries.v
SystemPages.v
Dashboard.v
RequestShow.v
RequestShowView.v
