(* ===== verification/Prelude.v ===== *)
(** * Crucible DB: verification library

    Crucible DB puts reviews and policies between people and production databases.  Its web front
    end (TypeScript and React, [src/resources/js]) is where requests are written, classified,
    scheduled and followed, where governed query sessions run, where roles, connections and policies
    are kept, and where an administrator sets the instance up and moves its data to another database.
    Its server (PHP, [src/app]) judges every statement, decides who may do what, takes a batch
    from its draft to its execution, runs the queries of governed sessions, and admits the database
    clients of native sessions through a proxy.  This library models the front end, and the core of the server,
    and proves what makes them correct.

    ** The parts of the program and the files that model them

    A page is a React component.  The server sends its properties, the page keeps state, renders
    a tree of controls, and changes its state in event handlers, effects, timers and the answers
    of requests.  The pages share a vocabulary ([lib/crucible.ts]), conversions
    ([lib/timezone.ts]), hooks and small components.  What a page posts is checked again by the
    server, by services that a handler of the workflow calls within a transaction.

    The language and the shared code:

    - [Prelude]: notation, tactics, the hint database [crucible], lemmas on lists.  [Lists]: arrays
      updated by index, swaps, maps in insertion order.
    - [JsString], [JsRegExp], [JsDate]: what the source uses of the language's standard library.
      Patterns are written as in the source and parsed into syntax trees; [re_match] is the
      backtracking matcher, [matches] its declarative specification, [re_match_iff] the
      equivalence of the two.  [CaseFolding] shows that matching commutes with folding the case.
    - [PhpString], [Pcre]: the same for the server: trims, line ends, and patterns of bytes.
    - [View]: the language of rendered pages: elements, attributes, handlers, the payload a form
      posts, and components inside others ([embed]).  [Forms]: what the forms of the pages share.
    - [CrucibleLib]: [lib/crucible.ts].  [Timezone]: [lib/timezone.ts], over a time zone database
      that is a parameter.  [Badges], [Pagination], [ConnectionCombobox], [Results]: small
      components and the tables of results.  [SqlEditor]: the editor of statements.
    - [SqlPolicy]: [pages/query-requests/create.tsx], lines 104-285, the classification of SQL
      ([topLevelGovernedSql], [policyMessageForSql] and the functions around them).
    - [PolicyPreview]: [hooks/use-deployment-policy-preview.ts], a state machine whose steps are
      the renders, timers, responses and failures, in any order.
    - [Hooks]: [use-flash-toast], [use-two-factor-auth], [use-appearance], [use-current-url],
      [use-clipboard] and [use-initials].  [Cookies]: what the server reads before the first paint.

    The server's core, each file requiring the services it calls:

    - [QueryGuard]: [Services/QueryGuard.php], the guard of every statement.  [SqlLexer]: the grammar
      of what its scanner skips.  [StatementAnalyzer]: [SqlPolicyStatementAnalyzer.php], tokens and
      shapes of statements.
    - [DeploymentPolicy]: [DeploymentStatementPolicy.php], [SqlPolicyManager.php] and
      [SqlPolicyCandidateRecorder.php]: the verdict on a statement of a batch, and the rules that
      administrators make of what no policy knows.
    - [Permissions]: [Models/User.php], the permission of a user on a connection.
    - [DeploymentPreflight]: [DeploymentPreflight.php], which combines the two for a whole batch.
    - [Workflow]: [QueryRequestWorkflow.php] for deployment batches, with the checks of
      [EffectiveQueryRequestPolicy.php], the gates of [Policies/QueryRequestPolicy.php] and the job
      [Jobs/ExecuteQueryRequest.php]: [perform] is every operation on a batch as a function on its
      state.  [WorkflowSafety]: its histories ([reachable]) and what they guarantee.
    - [Access]: the same workflow for requests of access to databases, with the rules of the form and the
      policy of the requester.  [Sessions]: [QuerySessionWorkflow.php], the sessions such a request
      opens, their queries and the processes -- controllers, workers, commands -- that work on them;
      a step is one transaction of one process ([advance]), or something a person or a command does
      ([perform]).  [SessionSafety], [SessionRuns], [SessionRest]: their histories.
    - [ProxyPolicy]: [NativeProxy/ProxyStatementPolicy.php] and the policies of the two drivers, what a
      native client may send.  [Leases]: [LeaseWorkflow.php], [DeviceAuthorizationWorkflow.php],
      [ConnectionAdmission.php] and [StatementWorkflow.php], over the rows of all sessions
      ([nperform]).  [LeaseSafety]: what an operation does to each table ([effect]).  [NativeSafety]:
      what follows for every history.  [ControlRequests]: [VerifyNativeProxyControlRequest.php] and its
      cipher, through which the proxy calls these operations.
    - [SetupServer]: the set-up of an instance, from the middleware to the first administrator.
    - In the files of the pages they answer: the status guards of
      [ApplicationDatabaseMigrationManager.php], the role assignment, the TLS rules and checks, the
      settings of the policy as they are saved and read, the device codes, the counts of
      [DashboardOverview.php], [SystemStatus.php], the rows of [DatabaseSchemaBrowser.php], the guards
      of deletions and the readings of filters.

    The pages, each a record of state with its initial value, its handlers and what it derives at
    a render, and the page as a function from properties and state to a tree:

    - [RequestForm], [RequestFormView]: [query-requests/create.tsx].  [RequestShow],
      [RequestShowView]: [query-requests/show.tsx], with its effects, toasts and dialogs.
      [RequestList]: [query-requests/index.tsx] and its filters.
    - [QuerySession], [QuerySessionView], [SessionEditor]: [query-sessions/show.tsx] and its editor.
      [NativePanel]: [components/native-proxy/session-panel.tsx], the credentials of a native client.
    - [RoleForm], [RoleFormView]: [roles/form.tsx].  [UserRoles]: [users/index.tsx].
      [AccessPages]: [roles/show.tsx] and [connection-groups/show.tsx].  [Registries]: the lists of
      roles, connection groups and notifications.
    - [ConnectionForm], [ConnectionShow], [ConnectionList]: [connections/form.tsx], [show.tsx] and
      [index.tsx].  [GroupForm]: [connection-groups/form.tsx].
    - [SqlPolicySettings]: [settings/admin/sql-policy.tsx].  [AppDatabase]:
      [settings/admin/application-database.tsx].  [Settings]: notifications, preferences, sign-in
      methods, SSO providers, access workflows, application settings.  [SystemPages]: the system
      status and the list of SSO providers.  [TwoFactor]: the management of two-factor
      authentication.
    - [Setup]: the pages of the set-up.  [Auth]: the sign-in pages.  [Account]: profile, password,
      passkeys and invitations.  [Device]: the approval of a device code.
    - [Dashboard]: [dashboard.tsx].  [AuditLogs]: [audit-logs/index.tsx].  [Navigation]: the links of
      the side bar and the header.  [Shell]: the side bar's provider and parts, the layouts and the
      entry [app.tsx].

    Definitions keep the source's names.  Fields of records are named after the properties.

    ** What the theorems show

    - The life of a batch: in every history, what a job runs has been approved by somebody else, as
      far as the requester's policy asks for it, and has passed a preflight, as it is
      ([what_runs_is_approved]); a dispatched batch is fixed until its job is over, and runs alone
      and not before its time ([dispatched_batch_is_fixed]).  The preflight passes what the
      submission accepts ([preflight_passes_runnable]), and a review lifts what it blocks
      ([allowed_candidate_unblocks]).
    - Query sessions: what is sent to a database is governed by an approved request and the present
      permissions, in every interleaving ([what_is_sent_is_governed]); the queries of a session run
      one at a time ([queries_run_one_by_one]); nothing is sent after its end
      ([nothing_sent_after_the_end]); every process comes to its end and leaves no query open
      ([sessions_come_to_rest]); lengths and timeouts keep their limits ([sessions_keep_limits]).
    - Native clients: each statement that is authorized comes over an approved session, current
      credentials and an approved device ([native_statements_governed]) and is one the statement policy
      admits ([native_statements_vetted]); what is revoked stays revoked, with all that depends on it
      ([revocation_is_final]); connections, tokens and codes keep their limits
      ([native_access_bounded]).  A request of the proxy is authentic and is not handled again within
      sixty seconds, nor later unless it waited between its verification and its handling
      ([control_requests_run_once]), and a repetition gets the first answer ([repetitions_answered]).
    - The server's policy: [executable_sql_lexes] says what the guard takes for code,
      [guard_agrees_with_form] that its verdict is the one the form previews, [validated_once] that
      validating again changes nothing; [inspect_as_promised] is the refinement of an abstract
      verdict in which the order of rules does not occur; decisions take effect
      ([resolution_takes_effect]) and never contradict each other ([rules_stay_consistent]);
      [shape_of_one_kind] says what a shape stands for, [groups_restrict] what overlapping groups
      grant.
    - The policy in the form: it ignores the case of letters ([policy_case_insensitive]), always
      blocks administrative keywords ([blocked_words_always_blocked]), is monotone in the enabled
      families ([policy_monotone]); [allowed_statement] and [topLevelGovernedSql_spec] say
      exactly what it allows and which part of a WITH query it judges.  What the settings page posts is
      accepted by the server, and the policy it then reads is the one on the page
      ([saved_policy_governs]).
    - The request form: what it posts ([write_session_within_policy],
      [statements_posted_in_order], [reopened_batch_unchanged]), which states its controls can
      reach ([statement_keys_distinct], [batch_size_bounded], by induction over the events of the
      page) and its buttons ([submit_or_policy_review]).
    - The request page: the outcome of an execution is announced with the first completed version of the
      request, and what may follow until the timer fires ([execution_outcome_announced]); the record of a
      failure is posted as it is shown ([failure_record_posts]).
    - Roles and users: the page makes no policy of a role ill-formed ([role_policies_well_formed]); the
      policies are posted ([role_form_posts_policies]), the two presentations of a policy are equivalent
      ([policy_views_equivalent]), the precedence of a user's roles survives being saved
      ([role_precedence_saved]).
    - Set-up and devices: nobody gets hold of an instance without the token
      ([nothing_without_token]), and its pages lead to the end, when what is entered
      and the database it names can be used ([setup_completes]); a device code
      that can be sent is one the server accepts ([device_code_posted]).
    - Agreement with the server: [tls_checks_agree] (connection form), [offered_operation_accepted]
      and [next_operation_offered] (migration page), [queue_counts] (overview), and
      [offered_deletions_accepted], [filters_applied_again], [similar_connection_prefilled],
      [sidebar_survives_reload] and [first_paint_matches].
    - Concurrency of requests and timers: previews are never stale and settle
      ([previews_never_stale], [preview_settles]), the filters of the connection list settle on what
      was chosen last ([filters_settle]), no query is sent after the expiry of its session
      ([no_query_after_expiry]), what is run is what is selected ([run_selected_posts_selection]), a
      result page on display belongs to the latest query ([result_page_of_latest_query]), a
      credential on display was issued to this panel, which has asked for no other since
      ([shown_credential_current]), no recovery codes are on
      display while two-factor authentication is off ([no_codes_while_disabled]), toasts are not
      repeated ([toasts_deduplicated]).  [session_page_refines_steps] lists the controls that the page of a
      session offers, with what each does and when, and shows that they perform only the steps these
      theorems speak about.
    - Conversions: local times of the years 1000 to 9998 survive the round trip through ISO instants, in zones
      with a transition ([local_time_roundtrip], [skipped_local_time]); the pager of a result
      ([pager_in_range]).
    - Defects are recorded as theorems: [guard_misses_file_access] (a backslash before a quote, or a
      name in backticks, hides any text from the guard), [hint_not_reported] (a preflight that fails
      instead of reporting), [lone_terminator_accepted], [precedence_does_not_restrict],
      [cte_name_misclassified] (a keyword at the end of the name of a common table expression hides the
      statement after it), [query_access_cannot_submit] (a request for query access that can no longer be
      submitted), [collapsed_exceptions_not_posted] (policies lost by collapsing their section),
      [retry_announces_old_failure], [stale_recovery_codes], [missing_ca_not_shown] (a refusal
      without a reason on the page), [run_after_switch_posts_selection], [same_name_merged],
      [reopened_dialog_reverts_roles], [failed_creation_offers_no_rotation]; on the server
      [closed_query_sent], [native_session_runs_browser_queries] and [cancelled_request_completed]
      (query sessions), [set_hides_more], [writable_transaction_allowed] and [quoted_timeout_unlimited]
      (statements of native clients), [late_poll_locks_out] (one device closes the connections of
      others), [handled_twice_when_stalled] and [handled_twice_at_boundary] (a replay); on the pages
      [outdated_credential_shown] (a rotation elsewhere that the panel does not show), [announced_again] (an
      outcome announced twice) and [early_years_changed] (local times before the year 1000); where the
      documentation says otherwise [trigger_passes_fallback]; and the exception in
      [queue_counts] (a count that includes what its list leaves out).

    ** Modelling decisions

    - A string is a sequence of code units below 256; on the server, of bytes.  Numbers are integers
      ([Z]) where the source computes with whole numbers; [NaN] is [None].
    - The current time is an argument of what reads the clock.
    - A handler is a function on the page's state and runs in the state of the last render, as
      React guarantees for discrete events.  Effects with dependencies are functions applied at a
      commit.  Requests that a handler sends are values; those under way are fields of the state of
      a step relation.  The callbacks of a request are those of the render that sent it.
    - On the server a [ValidationException] is a value ([checked]); a transaction that throws changes
      nothing.  Tables are lists; the order a query leaves open is the order of the list.  Users,
      connections, settings, rules and the time are an argument of every step of [Workflow], so that
      they may change between any two steps; so are they in [Sessions] and [Leases], together with
      the switches of the workflows.  The lock against overlapping jobs does not expire while its job
      works, a job that throws is reported as failed at once, and PCRE stays within its backtracking
      limit.
    - In [Sessions] a process holds what it has read and works a transaction at a time, so that what it
      holds can be out of date; a worker can be lost or killed at every step.  In [Leases] each
      operation is one transaction on the rows of all sessions, with one exception in two steps:
      collecting the leases to revoke, and revoking them.  Rows are not deleted while they are referred
      to.  Passwords, codes and tokens that are drawn are arguments.
    - Rendered trees leave out class names, icons and other visual attributes.  The content of a
      closed [Collapsible] or of a closed controlled dialog is not in the document; dialogs and
      menus that keep their own state are rendered open.
    - What the browser holds of uncontrolled fields is an argument ([typed] of a payload).  A
      [select] posts the option it has selected.
    - Records of server data keep the fields their page reads.
    - Code outside the repository is a parameter: the time zone database, the formatting of
      dates and numbers for the locale, the SQL formatter, the URL parser, the generated routes,
      the framework's string functions and validator on the server, the passkey library, the input
      for one-time codes, the mapping of selections in CodeMirror, digests, ciphers and
      encodings, the answers of servers and databases.
    - Fuel: the matcher of a repetition and [replace] get the length of the rest of the string plus
      one; an iteration consumes a character or is dropped, so this is enough ([re_match_iff] for
      the matcher, [replace_from_fuel] for the replacement).  The parser of patterns gets twice
      the length of the pattern's text plus two; each pattern is evaluated when it is defined, and
      one that did not parse would not have the type [regexp].  The tokens of a statement get its
      length plus one ([tokens_from_fuel]), the removal of terminators its length
      ([strip_loop_spec]).

    ** What is not modelled

    The primitives of the user interface kit and the static welcome page (presentation), the inside of
    CodeMirror (third-party); of the server the notifications, the audit log, single sign-on, the
    copying of the application database and its files (file system and two databases at once), the
    drivers that execute queries, the deletion of old rows, the template under which a statement of a
    native client is stored, and the health checks; and the Go proxy, a separate program. *)

From Stdlib Require Export Ascii ZArith Lia.
From Stdlib Require Import String.
From stdpp Require Export base list strings pretty option relations.

(** Notations of the development live in their own scope. *)
Declare Scope crucible_scope.
Delimit Scope crucible_scope with crucible.

(** [x ?? d] of JavaScript on a nullable value. *)
Notation "x ?? d" := (default d x) (at level 50, left associativity) : crucible_scope.
#[global] Open Scope crucible_scope.

(** ** Automation *)

(** Lemmas about JavaScript strings, regular expressions and rendered nodes that rewrite
    from left to right. *)
Create HintDb crucible discriminated.

(** Splits the booleans and the matches a handler branches on, then cleans up. *)
Ltac branch :=
  repeat (case_match || case_decide); simplify_eq/=.

(** Linear arithmetic with division and modulo by constants. *)
Ltac div_lia := Z.to_euclidean_division_equations; lia.

(** Turns boolean hypotheses built from [&&], [||] and [negb] into propositions. *)
Ltac bool_hyps :=
  repeat match goal with
  | H : (_ && _)%bool = true |- _ => apply andb_true_iff in H; destruct H
  | H : (_ || _)%bool = false |- _ => apply orb_false_iff in H; destruct H
  | H : negb _ = true |- _ => apply negb_true_iff in H
  | H : negb _ = false |- _ => apply negb_false_iff in H
  end.

(** ** Options and booleans *)

(** [cond && <node/>] of JSX, as the list of children it contributes. *)
Definition when {A} (b : bool) (l : list A) : list A := if b then l else [].

(** [x !== null], and [x !== undefined] where the source reads a property. *)
Definition is_some {A} (x : option A) : bool :=
  match x with Some _ => true | None => false end.

Lemma is_some_true {A} (x : option A) : is_some x = true <-> is_Some x.
Proof. destruct x; simpl; split; intros H; try discriminate; eauto; destruct H; discriminate. Qed.

Lemma is_some_false {A} (x : option A) : is_some x = false <-> x = None.
Proof. destruct x; simpl; split; congruence. Qed.

(** An early return: the guarded computation returns nothing exactly when the guard is off. *)
Lemma early_return_none {A} (b : bool) (m : A) (x : option A) :
  (if b then Some m else x) = None <-> b = false /\ x = None.
Proof. destruct b; naive_solver. Qed.

(** ** Lists *)

Section lists.
Context {A B : Type}.
Implicit Types (l : list A) (p q : A -> bool).

Lemma forallb_forall_elem p l : forallb p l = true <-> (forall x, x ∈ l -> p x = true).
Proof.
  rewrite forallb_forall. setoid_rewrite list_elem_of_In. done.
Qed.

Lemma existsb_exists_elem p l : existsb p l = true <-> (exists x, x ∈ l /\ p x = true).
Proof.
  rewrite existsb_exists. setoid_rewrite list_elem_of_In. done.
Qed.

Lemma existsb_false_elem p l : existsb p l = false <-> (forall x, x ∈ l -> p x = false).
Proof.
  rewrite <- not_true_iff_false, existsb_exists_elem. split.
  - intros H x Hx. apply not_true_iff_false. intros Hp. apply H. eauto.
  - intros H (x & Hx & Hp). rewrite (H x Hx) in Hp. discriminate.
Qed.

(** JavaScript's [find]: the first element that satisfies the predicate. *)
Fixpoint find_first p l : option A :=
  match l with
  | [] => None
  | x :: l' => if p x then Some x else find_first p l'
  end.

Lemma find_first_Some p l x :
  find_first p l = Some x -> x ∈ l /\ p x = true.
Proof.
  induction l as [|y l IH]; simpl; [done|]. destruct (p y) eqn:Hy.
  - intros [= ->]. split; [apply list_elem_of_here|done].
  - intros H. destruct (IH H). split; [by apply list_elem_of_further|done].
Qed.

Lemma find_first_None p l :
  find_first p l = None <-> (forall x, x ∈ l -> p x = false).
Proof.
  induction l as [|y l IH]; simpl.
  - split; [|done]. intros _ x Hx. by apply elem_of_nil in Hx.
  - destruct (p y) eqn:Hy; split.
    + done.
    + intros H. rewrite (H y) in Hy; [done|apply list_elem_of_here].
    + rewrite IH. intros H x Hx. apply elem_of_cons in Hx as [->|Hx]; auto.
    + intros H. apply IH. intros x Hx. apply H. by apply list_elem_of_further.
Qed.

Lemma existsb_find_first p l : existsb p l = is_some (find_first p l).
Proof. induction l as [|x l IH]; simpl; [done|]. by destruct (p x). Qed.

Lemma find_first_ext p q l :
  (forall x, x ∈ l -> p x = q x) -> find_first p l = find_first q l.
Proof.
  induction l as [|y l IH]; simpl; [done|]. intros H.
  rewrite (H y) by apply list_elem_of_here. destruct (q y); [done|].
  apply IH. intros x Hx. apply H. by apply list_elem_of_further.
Qed.

Lemma flat_map_ext_elem (f g : A -> list B) l :
  (forall x, x ∈ l -> f x = g x) -> flat_map f l = flat_map g l.
Proof.
  induction l as [|y l IH]; simpl; [done|]. intros H.
  rewrite (H y) by apply list_elem_of_here. f_equal.
  apply IH. intros x Hx. apply H. by apply list_elem_of_further.
Qed.

Lemma elem_of_flat_map (f : A -> list B) l (y : B) :
  y ∈ flat_map f l <-> exists x, x ∈ l /\ y ∈ f x.
Proof.
  rewrite list_elem_of_In, in_flat_map. setoid_rewrite list_elem_of_In. done.
Qed.
End lists.

Lemma forallb_flat_map {A B} (p : B -> bool) (f : A -> list B) (l : list A) :
  forallb p (flat_map f l) = true <-> (forall x, x ∈ l -> forallb p (f x) = true).
Proof.
  rewrite forallb_forall_elem. setoid_rewrite forallb_forall_elem.
  setoid_rewrite elem_of_flat_map. naive_solver.
Qed.

Lemma flat_map_nonempty {A B} (f : A -> list B) (l : list A) :
  (0 < length (flat_map f l))%nat <-> exists x, x ∈ l /\ f x <> [].
Proof.
  induction l as [|x l IH]; simpl.
  - split; [lia|]. intros (x & Hx & _). by apply elem_of_nil in Hx.
  - rewrite length_app. setoid_rewrite elem_of_cons. destruct (f x) as [|y ys] eqn:E; simpl.
    + rewrite IH. naive_solver.
    + split; [|lia]. intros _. exists x. rewrite E. by split; [left|].
Qed.

Lemma map_flat_map {A B C} (f : B -> C) (g : A -> list B) (l : list A) :
  map f (flat_map g l) = flat_map (fun x => map f (g x)) l.
Proof. induction l as [|x l IH]; simpl; [done|]. by rewrite map_app, IH. Qed.

Lemma flat_map_map {A B C} (f : B -> list C) (g : A -> B) (l : list A) :
  flat_map f (map g l) = flat_map (fun x => f (g x)) l.
Proof. induction l as [|x l IH]; simpl; [done|]. by rewrite IH. Qed.

Lemma flat_map_nil_all {A B} (f : A -> list B) l : (forall x, f x = []) -> flat_map f l = [].
Proof. intros H. induction l as [|x l IH]; simpl; [done|]. by rewrite H, IH. Qed.

Lemma elem_of_when {A} (b : bool) (l : list A) x : x ∈ when b l <-> b = true /\ x ∈ l.
Proof.
  destruct b; simpl; [naive_solver|]. split; [by intros H%elem_of_nil|naive_solver].
Qed.

(** [list.length > 0 && ...] around what lists the elements of [list] *)
Lemma when_nonempty {A B} (f : nat -> A -> list B) (l : list A) :
  when (0 <? length l)%nat (concat (imap f l)) = concat (imap f l).
Proof. by destruct l. Qed.

Lemma flat_map_concat_imap {A B C} (f : B -> list C) (g : nat -> A -> list B) (l : list A) :
  flat_map f (concat (imap g l)) = concat (imap (fun i x => flat_map f (g i x)) l).
Proof.
  revert g. induction l as [|x l IH]; intros g; simpl; [done|].
  by rewrite flat_map_app, IH.
Qed.

Lemma concat_imap_single {A B} (h : nat -> A -> list B) (l : list A) k :
  (forall i x, i <> k -> l !! i = Some x -> h i x = []) ->
  concat (imap h l) = match l !! k with Some x => h k x | None => [] end.
Proof.
  revert h k. induction l as [|x l IH]; intros h k H; simpl; [by destruct k|].
  destruct k as [|k].
  - rewrite (IH (h ∘ S) (length l)), lookup_ge_None_2 by
      (lia || (intros i y _ Hy; by apply (H (S i)))). apply app_nil_r.
  - rewrite (H 0 x) by done. simpl. apply (IH (h ∘ S)). intros i y Hi Hy.
    apply (H (S i)); [lia|done].
Qed.

Lemma flat_map_imap {A B C} (f : B -> list C) (g : nat -> A -> B) (l : list A) :
  flat_map f (imap g l) = concat (imap (fun i x => f (g i x)) l).
Proof. revert g. induction l as [|x l IH]; intros g; simpl; [done|]. f_equal. apply (IH (g ∘ S)). Qed.

Lemma length_concat_imap {A B} n (g : nat -> A -> list B) (l : list A) :
  (forall i x, length (g i x) = n) -> length (concat (imap g l)) = (n * length l)%nat.
Proof.
  revert g. induction l as [|x l IH]; intros g H; simpl; [lia|].
  rewrite length_app, H, (IH (g ∘ S)) by (intros; apply H). lia.
Qed.

Lemma existsb_map {A B} (p : B -> bool) (f : A -> B) (l : list A) :
  existsb p (map f l) = existsb (fun x => p (f x)) l.
Proof. induction l as [|x l IH]; simpl; [done|]. by rewrite IH. Qed.

Lemma filter_list_Permutation {A} (p : A -> bool) (l l' : list A) :
  l ≡ₚ l' -> List.filter p l ≡ₚ List.filter p l'.
Proof.
  induction 1 as [|x l l' _ IH|x y l|l l' l'' _ IH _ IH']; simpl.
  - done.
  - destruct (p x); by rewrite IH.
  - destruct (p x), (p y); [apply perm_swap|done..].
  - by rewrite IH.
Qed.

Lemma filter_NoDup {A} (p : A -> bool) (l : list A) : NoDup l -> NoDup (List.filter p l).
Proof. intros H%NoDup_ListNoDup. by apply NoDup_ListNoDup, List.NoDup_filter. Qed.

Lemma map_imap {A B C} (f : B -> C) (g : nat -> A -> B) (l : list A) :
  map f (imap g l) = imap (fun i x => f (g i x)) l.
Proof. revert g. induction l as [|x l IH]; intros g; simpl; [done|]. f_equal. apply (IH (g ∘ S)). Qed.

Lemma imap_const {A B} (f : A -> B) (l : list A) : imap (fun _ => f) l = map f l.
Proof. induction l as [|x l IH]; simpl; [done|]. f_equal. apply IH. Qed.
