(* ===== verification/Lists.v ===== *)
(** * Lists updated by position

    The updates of an array held in React state: the element at a position replaced, removed, or
    exchanged with another.  A position out of range leaves the array as it is, as in the source
    ([map] and [filter] with a test of the index).  And JavaScript's [Map] with numbers as keys. *)

From S2P Require Import Prelude.

(** [current.map((x, i) => i === index ? f(x) : x)] *)
Definition map_at {A} (index : nat) (f : A -> A) (l : list A) : list A :=
  imap (fun i x => if (i =? index)%nat then f x else x) l.

(** [current.filter((_, i) => i !== index)] *)
Fixpoint remove_at {A} (index : nat) (l : list A) : list A :=
  match l, index with
  | [], _ => []
  | _ :: l', O => l'
  | x :: l', S index' => x :: remove_at index' l'
  end.

(** [[reordered[i], reordered[j]] = [reordered[j], reordered[i]]] on positions of the list *)
Definition swap {A} (i j : nat) (l : list A) : list A :=
  match l !! i, l !! j with
  | Some x, Some y => <[j := x]> (<[i := y]> l)
  | _, _ => l
  end.

(** [map.set(k, v)]: the place of a key in a JavaScript [Map] is that of its first insertion. *)
Fixpoint map_set {V} (k : Z) (v : V) (m : list (Z * V)) : list (Z * V) :=
  match m with
  | [] => [(k, v)]
  | e :: m' => if (fst e =? k)%Z then (k, v) :: m' else e :: map_set k v m'
  end.

(** [new Map(entries)] *)
Definition map_of {V} (entries : list (Z * V)) : list (Z * V) :=
  fold_left (fun m e => map_set (fst e) (snd e) m) entries [].

(** [map.get(k)] *)
Definition map_get {V} (k : Z) (m : list (Z * V)) : option V :=
  snd <$> find_first (fun e => (fst e =? k)%Z) m.

(** ** Their properties *)

Section positions.
Context {A : Type}.
Implicit Types (l : list A).

Lemma map_at_lookup i f l j : map_at i f l !! j = (fun x => if (j =? i)%nat then f x else x) <$> l !! j.
Proof. unfold map_at. by rewrite list_lookup_imap. Qed.

Lemma map_at_length i f l : length (map_at i f l) = length l.
Proof. apply length_imap. Qed.

Lemma map_at_map {B} (g : A -> B) i f l :
  (forall x, g (f x) = g x) -> map g (map_at i f l) = map g l.
Proof.
  intros Hg. apply list_eq. intros j. change (@map A B) with (@fmap list _ A B).
  rewrite !list_lookup_fmap, map_at_lookup.
  destruct (l !! j); simpl; [|done]. f_equal. by destruct (j =? i)%nat.
Qed.

Lemma swap_in_range i j l x y : l !! i = Some x -> l !! j = Some y ->
  swap i j l !! j = Some x /\ swap i j l !! i = Some y /\
  (forall k, k <> i -> k <> j -> swap i j l !! k = l !! k) /\ swap i j l ≡ₚ l.
Proof.
  intros Hi Hj. unfold swap. rewrite Hi, Hj.
  assert (i < length l)%nat by eauto using lookup_lt_Some.
  assert (j < length l)%nat by eauto using lookup_lt_Some.
  split_and!.
  - apply list_lookup_insert_eq. by rewrite length_insert.
  - destruct (decide (i = j)) as [->|].
    + rewrite list_lookup_insert_eq by (by rewrite length_insert). congruence.
    + by rewrite list_lookup_insert_ne, list_lookup_insert_eq.
  - intros k Hki Hkj. by rewrite !list_lookup_insert_ne.
  - destruct (decide (i = j)) as [->|Hne].
    + simplify_eq. by rewrite list_insert_insert_eq, list_insert_id.
    + apply Permutation_inj. rewrite !length_insert. split; [done|].
      exists (fun k => if decide (k = i) then j else if decide (k = j) then i else k). split.
      * intros a b. repeat case_decide; congruence.
      * intros k. repeat case_decide; subst.
        -- by rewrite list_lookup_insert_ne, list_lookup_insert_eq, Hj.
        -- rewrite list_lookup_insert_eq; [done|by rewrite length_insert].
        -- by rewrite !list_lookup_insert_ne.
Qed.

Lemma swap_involutive i j l : swap i j (swap i j l) = l.
Proof.
  destruct (l !! i) as [x|] eqn:Hi; [|unfold swap; by rewrite Hi, Hi].
  destruct (l !! j) as [y|] eqn:Hj; [|unfold swap; by rewrite Hi, Hj, Hi, Hj].
  destruct (swap_in_range i j l x y Hi Hj) as (H1 & H2 & H3 & _).
  destruct (swap_in_range i j (swap i j l) y x H2 H1) as (H4 & H5 & H6 & _).
  apply list_eq. intros k. destruct (decide (k = i)) as [->|]; [congruence|].
  destruct (decide (k = j)) as [->|]; [congruence|]. by rewrite H6, H3.
Qed.

Lemma swap_comm i j l : swap i j l = swap j i l.
Proof.
  destruct (decide (i = j)) as [->|Hne]; [done|]. unfold swap.
  destruct (l !! i), (l !! j); try done. by apply list_insert_insert_ne.
Qed.

Lemma remove_at_spec i l : remove_at i l = (take i l ++ drop (S i) l)%list.
Proof.
  revert i. induction l as [|x l IH]; intros [|i]; simpl; try done. by rewrite IH.
Qed.

Lemma remove_at_length i l : (i < length l)%nat -> length (remove_at i l) = (length l - 1)%nat.
Proof. intros H. rewrite remove_at_spec, length_app, length_take, length_drop. lia. Qed.

Lemma map_remove_at {B} (g : A -> B) i l : map g (remove_at i l) `sublist_of` map g l.
Proof.
  revert i. induction l as [|x l IH]; intros [|i]; simpl; [done..| |].
  - by apply sublist_cons.
  - by apply sublist_skip.
Qed.

Lemma remove_at_sublist i l : remove_at i l `sublist_of` l.
Proof. pose proof (map_remove_at id i l) as H. by rewrite !List.map_id in H. Qed.

Lemma Forall_map_at (P : A -> Prop) i f l :
  (forall x, P x -> P (f x)) -> Forall P l -> Forall P (map_at i f l).
Proof.
  intros Hf H. rewrite Forall_lookup in H |- *. intros j y. rewrite map_at_lookup.
  intros (x & Hx & ->)%fmap_Some. destruct (j =? i)%nat; eauto.
Qed.

Lemma Forall_remove_at (P : A -> Prop) i l : Forall P l -> Forall P (remove_at i l).
Proof.
  rewrite !Forall_forall. intros H x Hx. apply H.
  eapply elem_of_submseteq; [exact Hx|]. apply sublist_submseteq, remove_at_sublist.
Qed.
End positions.

(** ** Properties of maps *)

Section maps.
Context {V : Type}.
Implicit Types (m entries : list (Z * V)).

Lemma map_set_keys k v m x : x ∈ map fst (map_set k v m) <-> x = k \/ x ∈ map fst m.
Proof.
  induction m as [|[k' v'] m IH]; simpl.
  - rewrite list_elem_of_singleton, elem_of_nil. naive_solver.
  - destruct (Z.eqb_spec k' k) as [->|]; simpl; rewrite !elem_of_cons, ?IH; naive_solver.
Qed.

Lemma map_set_NoDup k v m : NoDup (map fst m) -> NoDup (map fst (map_set k v m)).
Proof.
  induction m as [|[k' v'] m IH]; simpl; intros H; [apply NoDup_singleton|].
  destruct (Z.eqb_spec k' k) as [->|]; simpl; [done|].
  apply NoDup_cons in H as [H1 H2]. apply NoDup_cons. split; [|auto].
  rewrite map_set_keys. naive_solver.
Qed.

Lemma map_set_get k v m x : map_get x (map_set k v m) = if (k =? x)%Z then Some v else map_get x m.
Proof.
  unfold map_get. induction m as [|[k' v'] m IH]; simpl; [by destruct (k =? x)%Z|].
  destruct (Z.eqb_spec k' k) as [->|]; simpl.
  - by destruct (k =? x)%Z.
  - destruct (Z.eqb_spec k' x) as [->|]; [|done]. destruct (Z.eqb_spec k x); [congruence|done].
Qed.

(** A map has the keys of its entries, each once. *)
Lemma map_of_keys entries :
  NoDup (map fst (map_of entries)) /\
  forall x, x ∈ map fst (map_of entries) <-> x ∈ map fst entries.
Proof.
  unfold map_of. cut (forall m, NoDup (map fst m) ->
    NoDup (map fst (fold_left (fun m e => map_set (fst e) (snd e) m) entries m)) /\
    forall x, x ∈ map fst (fold_left (fun m e => map_set (fst e) (snd e) m) entries m) <->
      x ∈ map fst m \/ x ∈ map fst entries).
  { intros H. destruct (H [] (NoDup_nil_2)) as [H1 H2]. split; [done|]. intros x.
    rewrite H2. simpl. rewrite elem_of_nil. naive_solver. }
  induction entries as [|[k v] entries IH]; intros m Hm; simpl.
  - split; [done|]. intros x. rewrite elem_of_nil. naive_solver.
  - destruct (IH _ (map_set_NoDup k v m Hm)) as [H1 H2]. split; [done|]. intros x.
    rewrite H2, map_set_keys, elem_of_cons. naive_solver.
Qed.

(** The value of a key is that of its last entry. *)
Lemma map_of_get entries x :
  map_get x (map_of entries) = snd <$> last (List.filter (fun e => (fst e =? x)%Z) entries).
Proof.
  unfold map_of. cut (forall m, map_get x (fold_left (fun m e => map_set (fst e) (snd e) m) entries m) =
    match last (List.filter (fun e => (fst e =? x)%Z) entries) with
    | Some e => Some (snd e)
    | None => map_get x m
    end).
  { intros ->. by destruct (last _). }
  induction entries as [|[k v] entries IH]; intros m; simpl; [done|].
  rewrite IH, map_set_get. destruct (k =? x)%Z; [|done]. rewrite last_cons. by destruct (last _).
Qed.

Lemma map_set_new k v m : k ∉ map fst m -> map_set k v m = (m ++ [(k, v)])%list.
Proof.
  induction m as [|[k' v'] m IH]; simpl; [done|]. intros [Hk Hm]%not_elem_of_cons.
  destruct (Z.eqb_spec k' k); [by subst|]. by rewrite IH.
Qed.

(** Entries with different keys are the map. *)
Lemma map_of_NoDup entries : NoDup (map fst entries) -> map_of entries = entries.
Proof.
  unfold map_of. cut (forall m, NoDup (map fst (m ++ entries)%list) ->
    fold_left (fun m e => map_set (fst e) (snd e) m) entries m = (m ++ entries)%list).
  { intros H. apply (H []). }
  induction entries as [|[k v] entries IH]; intros m H; simpl; [by rewrite app_nil_r|].
  rewrite map_set_new.
  - rewrite IH, <- app_assoc; [done|by rewrite <- app_assoc].
  - rewrite map_app in H. simpl in H. apply NoDup_app in H as (_ & H & _).
    intros Hk. apply (H k Hk). apply list_elem_of_here.
Qed.
End maps.

(** ** Counting *)

(** How many elements satisfy a predicate. *)
Definition countb {A} (p : A -> bool) (l : list A) : nat := length (List.filter p l).

Arguments countb : simpl never.

Section count.
Context {A : Type}.
Implicit Types (p : A -> bool) (l : list A).

Lemma countb_nil p : countb p [] = 0%nat.
Proof. done. Qed.

Lemma countb_app p l l' : countb p (l ++ l') = (countb p l + countb p l')%nat.
Proof. unfold countb. by rewrite List.filter_app, length_app. Qed.

Lemma countb_cons p x l : countb p (x :: l) = ((if p x then 1 else 0) + countb p l)%nat.
Proof. unfold countb. cbn. by destruct (p x). Qed.

Lemma countb_Permutation p l l' : l ≡ₚ l' -> countb p l = countb p l'.
Proof. intros H. unfold countb. by rewrite (filter_list_Permutation p _ _ H). Qed.

Lemma countb_zero p l : countb p l = 0%nat <-> forall x, x ∈ l -> p x = false.
Proof.
  induction l as [|x l IH]; [split; [intros _ y Hy; by apply elem_of_nil in Hy|done]|].
  rewrite countb_cons. setoid_rewrite elem_of_cons. destruct (p x) eqn:Hx.
  - split; [done|]. intros H. rewrite (H x) in Hx by auto. done.
  - cbn. rewrite IH. naive_solver.
Qed.

Lemma countb_positive p l x : x ∈ l -> p x = true -> (0 < countb p l)%nat.
Proof. intros Hx Hp. destruct (countb p l) eqn:E; [|lia]. rewrite countb_zero in E. by rewrite (E x Hx) in Hp. Qed.
End count.
