(* ===== verification/JsString.v ===== *)
(** * JavaScript strings and numbers

    The part of the standard library's [String] and [Number] that the source uses.  A string
    is a Rocq [string]: a sequence of code units below 256 (Latin-1).  Text of the user
    interface outside of that range is only ever compared for equality. *)

From Stdlib Require Import String.
From S2P Require Import Prelude.

Open Scope Z_scope.
Open Scope string_scope.

#[global] Arguments String.append : simpl nomatch.

Definition code (c : ascii) : N := N_of_ascii c.

Definition is_code (n : N) (c : ascii) : bool := (code c =? n)%N.

Definition in_range (lo hi : N) (c : ascii) : bool :=
  ((lo <=? code c) && (code c <=? hi))%N.

(** WhiteSpace and LineTerminator code units: what [\s] matches and [trim] removes. *)
Definition is_space (c : ascii) : bool :=
  in_range 9 13 c || is_code 32 c || is_code 160 c.

Definition is_line_terminator (c : ascii) : bool :=
  is_code 10 c || is_code 13 c.

Definition is_digit (c : ascii) : bool := in_range 48 57 c.

(** The word characters of [\b]: [A-Z], [a-z], [0-9] and the underscore. *)
Definition is_word (c : ascii) : bool :=
  in_range 65 90 c || in_range 97 122 c || is_digit c || is_code 95 c.

(** Simple upper and lower casing of one code unit. *)
Definition upper_unit (c : ascii) : ascii :=
  if in_range 97 122 c || (in_range 224 254 c && negb (is_code 247 c))
  then ascii_of_N (code c - 32) else c.

Definition lower_unit (c : ascii) : ascii :=
  if in_range 65 90 c || (in_range 192 222 c && negb (is_code 215 c))
  then ascii_of_N (code c + 32) else c.

Fixpoint smap (f : ascii -> ascii) (s : string) : string :=
  match s with
  | EmptyString => EmptyString
  | String c s' => String (f c) (smap f s')
  end.

Definition toUpperCase (s : string) : string := smap upper_unit s.
Definition toLowerCase (s : string) : string := smap lower_unit s.

(** [s === t] *)
Definition str_eq (s t : string) : bool := String.eqb s t.

Fixpoint trimStart (s : string) : string :=
  match s with
  | EmptyString => EmptyString
  | String c s' => if is_space c then trimStart s' else s
  end.

Fixpoint trimEnd (s : string) : string :=
  match s with
  | EmptyString => EmptyString
  | String c s' =>
      match trimEnd s' with
      | EmptyString => if is_space c then EmptyString else String c EmptyString
      | t => String c t
      end
  end.

Definition trim (s : string) : string := trimEnd (trimStart s).

(** [s.slice(n)] for a non-negative [n] *)
Fixpoint drop_str (n : nat) (s : string) : string :=
  match n, s with
  | O, _ => s
  | _, EmptyString => EmptyString
  | S n', String _ s' => drop_str n' s'
  end.

(** [s.slice(0, n)] for a non-negative [n] *)
Fixpoint take_str (n : nat) (s : string) : string :=
  match n, s with
  | O, _ | _, EmptyString => EmptyString
  | S n', String c s' => String c (take_str n' s')
  end.

Fixpoint startsWith (s p : string) : bool :=
  match p, s with
  | EmptyString, _ => true
  | String a p', String b s' => Ascii.eqb a b && startsWith s' p'
  | _, EmptyString => false
  end.

Fixpoint includes (s p : string) : bool :=
  startsWith s p ||
  match s with
  | EmptyString => false
  | String _ s' => includes s' p
  end.

(** [s.split(c)] for a one-unit separator *)
Fixpoint split_on (c : ascii) (s : string) : list string :=
  match s with
  | EmptyString => [""]
  | String a s' =>
      let rest := split_on c s' in
      if Ascii.eqb a c then "" :: rest
      else match rest with
           | [] => [String a ""]
           | w :: ws => String a w :: ws
           end
  end.

Definition join (sep : string) (l : list string) : string := String.concat sep l.

(** [s.replaceAll(c, d)] for one-unit strings *)
Definition replace_unit (c d : ascii) (s : string) : string :=
  smap (fun a => if Ascii.eqb a c then d else a) s.

(** [s.padStart(n, c)] *)
Definition pad_start (n : nat) (c : ascii) (s : string) : string :=
  String.append (String.string_of_list_ascii (replicate (n - String.length s) c)) s.

(** [String(n)] of an integer, [n.toString()] *)
Definition str_of_Z (n : Z) : string := pretty n.
Definition str_of_nat (n : nat) : string := pretty n.

(** [Number(s)] of a decimal numeral; the empty string is 0, anything else is [NaN] ([None]). *)
Fixpoint digits_value (acc : Z) (s : string) : option Z :=
  match s with
  | EmptyString => Some acc
  | String c s' =>
      if is_digit c then digits_value (10 * acc + (Z.of_N (code c) - 48)) s' else None
  end.

Definition str_to_number (s : string) : option Z := digits_value 0 (trim s).

(** The content of a number input that is not empty.  The browser submits whole numbers only; for
    any other number the text that was typed stands for it. *)
Inductive number := Whole (n : Z) | OtherNumber (text : string).

(** [Number(text)] *)
Definition number_of (text : string) : number :=
  match str_to_number text with Some n => Whole n | None => OtherNumber text end.

(** [String(number)] *)
Definition text_of (x : number) : string :=
  match x with Whole n => str_of_Z n | OtherNumber text => text end.

(** Truthiness of a string: [Boolean(s)]. *)
Definition truthy (s : string) : bool :=
  match s with EmptyString => false | _ => true end.

(** Truthiness of a nullable string. *)
Definition truthy_opt (s : option string) : bool :=
  match s with Some s => truthy s | None => false end.

(** ** Properties *)

Lemma str_eq_true s t : str_eq s t = true <-> s = t.
Proof. apply String.eqb_eq. Qed.

Lemma str_eq_false s t : str_eq s t = false <-> s <> t.
Proof. apply String.eqb_neq. Qed.

Lemma str_eq_refl s : str_eq s s = true.
Proof. by apply str_eq_true. Qed.

#[export] Hint Rewrite str_eq_refl : crucible.

Lemma app_nil_r_str s : s ++ "" = s.
Proof. induction s; simpl; congruence. Qed.

Lemma app_assoc_str s t u : (s ++ t) ++ u = s ++ (t ++ u).
Proof. induction s; simpl; congruence. Qed.

Lemma app_split_str (s1 s2 t1 t2 : string) :
  s1 ++ t1 = s2 ++ t2 -> (String.length s1 <= String.length s2)%nat -> exists m, s2 = s1 ++ m /\ t1 = m ++ t2.
Proof.
  revert s2. induction s1 as [|c s1 IH]; intros s2 H Hl; [by exists s2|].
  destruct s2 as [|d s2]; simpl in *; [lia|]. injection H as <- H.
  destruct (IH s2 H ltac:(lia)) as (m & -> & ->). by exists m.
Qed.

Lemma length_app_str s t : String.length (s ++ t) = (String.length s + String.length t)%nat.
Proof. induction s; simpl; congruence. Qed.

Lemma app_inj_l_str s t u : s ++ t = s ++ u -> t = u.
Proof. induction s; simpl; [done|]. intros [= H]. auto. Qed.

Lemma drop_take_str n s : take_str n s ++ drop_str n s = s.
Proof. revert s; induction n as [|n IH]; intros [|c s]; simpl; auto. by rewrite IH. Qed.

Lemma length_drop_str n s : String.length (drop_str n s) = (String.length s - n)%nat.
Proof. revert s; induction n as [|n IH]; intros [|c s]; simpl; auto. Qed.

Lemma drop_app_str s t : drop_str (String.length s) (s ++ t) = t.
Proof. induction s; simpl; [by destruct t|done]. Qed.

Lemma take_app_str s t : take_str (String.length s) (s ++ t) = s.
Proof. induction s; simpl; [by destruct t|congruence]. Qed.

Lemma length_smap f s : String.length (smap f s) = String.length s.
Proof. induction s; simpl; congruence. Qed.

Lemma smap_app f s t : smap f (s ++ t) = smap f s ++ smap f t.
Proof. induction s; simpl; congruence. Qed.

Lemma smap_smap f g s : smap f (smap g s) = smap (fun c => f (g c)) s.
Proof. induction s; simpl; congruence. Qed.

Lemma smap_drop f n s : drop_str n (smap f s) = smap f (drop_str n s).
Proof. revert s; induction n as [|n IH]; intros [|c s]; simpl; auto. Qed.

Lemma smap_take f n s : take_str n (smap f s) = smap f (take_str n s).
Proof. revert s; induction n as [|n IH]; intros [|c s]; simpl; auto. by rewrite IH. Qed.

(** [trim] is preserved by a mapping of code units that keeps the spaces. *)
Section trim_map.
Context (f : ascii -> ascii) (Hf : forall c, is_space (f c) = is_space c).

Lemma trimStart_smap s : trimStart (smap f s) = smap f (trimStart s).
Proof. induction s as [|c s IH]; simpl; [done|]. rewrite Hf. by destruct (is_space c). Qed.

Lemma trimEnd_smap s : trimEnd (smap f s) = smap f (trimEnd s).
Proof.
  induction s as [|c s IH]; simpl; [done|]. rewrite IH, Hf.
  destruct (trimEnd s); simpl; [by destruct (is_space c)|done].
Qed.

Lemma trim_smap s : trim (smap f s) = smap f (trim s).
Proof. unfold trim. by rewrite trimStart_smap, trimEnd_smap. Qed.
End trim_map.

Lemma trimEnd_idem s : trimEnd (trimEnd s) = trimEnd s.
Proof.
  induction s as [|c s IH]; simpl; [done|]. destruct (trimEnd s) as [|a t] eqn:E.
  - destruct (is_space c) eqn:Hc; simpl; [done|]. by rewrite Hc.
  - change (match trimEnd (String a t) with
            | "" => if is_space c then "" else String c ""
            | String _ _ as t' => String c t' end = String c (String a t)).
    by rewrite IH.
Qed.

(** [join] undoes [split_on]. *)
Lemma split_on_nonempty c s : split_on c s <> [].
Proof. destruct s as [|a s]; simpl; [done|]. destruct (Ascii.eqb a c), (split_on c s); done. Qed.

Lemma join_cons sep w ws : ws <> [] -> join sep (w :: ws) = w ++ sep ++ join sep ws.
Proof. destruct ws; done. Qed.

Lemma join_head_cons sep a w ws : join sep (String a w :: ws) = String a (join sep (w :: ws)).
Proof. destruct ws; done. Qed.

Lemma join_split c s : join (String c "") (split_on c s) = s.
Proof.
  induction s as [|a s IH]; simpl; [done|].
  destruct (Ascii.eqb_spec a c) as [->|Hne].
  - rewrite join_cons by apply split_on_nonempty. simpl. by rewrite IH.
  - destruct (split_on c s) as [|w ws] eqn:E; [by apply split_on_nonempty in E|].
    by rewrite join_head_cons, IH.
Qed.

(** *** Strings over a set of code units *)

Fixpoint all_chars (p : ascii -> bool) (s : string) : bool :=
  match s with EmptyString => true | String c s' => p c && all_chars p s' end.

Lemma all_chars_app p s t : all_chars p (s ++ t)%string = all_chars p s && all_chars p t.
Proof. induction s as [|c s IH]; simpl; [done|]. by rewrite IH, andb_assoc. Qed.

Lemma smap_id_on p f s :
  (forall c, p c = true -> f c = c) -> all_chars p s = true -> smap f s = s.
Proof.
  intros Hf. induction s as [|c s IH]; simpl; [done|]. intros [Hc Hs]%andb_true_iff.
  by rewrite Hf, IH.
Qed.

(** A separator that is not in the set splits a string in one way. *)
Lemma all_chars_split p c u u' v v' :
  all_chars p u = true -> all_chars p u' = true -> p c = false ->
  u ++ String c v = u' ++ String c v' -> u = u' /\ v = v'.
Proof.
  intros Hu Hu' Hc. revert u' Hu'. induction u as [|a u IH]; intros [|a' u'] Hu'; simpl in *.
  - intros [= ->]. done.
  - intros [= -> _]. bool_hyps. congruence.
  - intros [= <- _]. bool_hyps. congruence.
  - intros [= <- H]. bool_hyps. destruct (IH ltac:(done) u' ltac:(done) H) as [-> ->]. done.
Qed.

Lemma all_chars_no_split p c u u' v :
  all_chars p u = true -> all_chars p u' = true -> p c = false -> u <> u' ++ String c v.
Proof.
  intros Hu Hu' Hc ->. revert Hu. induction u' as [|a u' IH]; simpl in *.
  - by rewrite Hc.
  - intros [_ H]%andb_true_iff. apply andb_true_iff in Hu' as [_ Hu']. auto.
Qed.

Lemma all_chars_weaken (p q : ascii -> bool) s :
  (forall c, p c = true -> q c = true) -> all_chars p s = true -> all_chars q s = true.
Proof. intros H. induction s as [|a s IH]; simpl; [done|]. intros [Ha Hs]%andb_true_iff. by rewrite H, IH. Qed.

Lemma split_on_one p c u : all_chars p u = true -> p c = false -> split_on c u = [u].
Proof.
  intros Hu Hc. induction u as [|a u IH]; simpl in *; [done|]. apply andb_true_iff in Hu as [Ha Hu].
  rewrite IH by done. destruct (Ascii.eqb_spec a c) as [->|]; [congruence|done].
Qed.

Lemma split_on_first p c u v : all_chars p u = true -> p c = false ->
  split_on c (u ++ String c v) = u :: split_on c v.
Proof.
  intros Hu Hc. induction u as [|a u IH]; simpl in *; [by rewrite Ascii.eqb_refl|].
  apply andb_true_iff in Hu as [Ha Hu]. rewrite IH by done.
  destruct (Ascii.eqb_spec a c) as [->|]; [congruence|done].
Qed.

Lemma pretty_N_go_digits x s : all_chars is_digit s = true ->
  all_chars is_digit (pretty_N_go x s) = true.
Proof.
  revert s. induction (N.lt_wf_0 x) as [x _ IH]; intros s Hs.
  destruct (decide (x = 0)%N) as [->|Hx]; [by rewrite pretty_N_go_0|].
  rewrite pretty_N_go_step by lia. apply IH; [apply N.div_lt; lia|]. simpl. rewrite Hs, andb_true_r.
  unfold pretty_N_char. by repeat case_match.
Qed.

Lemma str_of_nat_digits n : all_chars is_digit (str_of_nat n) = true.
Proof.
  unfold str_of_nat, pretty, pretty_nat, pretty, pretty_N. case_decide; [done|].
  by apply pretty_N_go_digits.
Qed.

Lemma str_of_Z_digits n : 0 <= n -> all_chars is_digit (str_of_Z n) = true.
Proof.
  intros Hn. destruct n as [|q|q]; [done| |lia].
  change (str_of_Z (Z.pos q)) with (pretty_N_go (N.pos q) ""). by apply pretty_N_go_digits.
Qed.

(** The text of a number has digits and a sign only. *)
Lemma str_of_Z_chars n (p : ascii -> bool) :
  (forall c, is_digit c = true -> p c = true) -> p "-"%char = true -> all_chars p (str_of_Z n) = true.
Proof.
  intros Hd Hm. destruct n as [|q|q].
  - simpl. by rewrite Hd.
  - apply (all_chars_weaken is_digit); [done|]. by apply str_of_Z_digits.
  - change (str_of_Z (Z.neg q)) with (String "-" (pretty_N_go (N.pos q) "")). simpl. rewrite Hm.
    apply (all_chars_weaken is_digit); [done|]. by apply pretty_N_go_digits.
Qed.

Lemma str_of_nat_inj n m : str_of_nat n = str_of_nat m -> n = m.
Proof. unfold str_of_nat. by intros H%(inj pretty). Qed.

Lemma str_of_Z_inj n m : str_of_Z n = str_of_Z m -> n = m.
Proof. unfold str_of_Z. by intros H%(inj pretty). Qed.

Lemma trim_all_chars p s :
  (forall c, p c = true -> is_space c = false) -> all_chars p s = true -> trim s = s.
Proof.
  intros Hp Hs. unfold trim. replace (trimStart s) with s.
  - induction s as [|c s IH]; simpl in *; [done|]. apply andb_true_iff in Hs as [Hc Hs].
    rewrite IH by done. destruct s; [by rewrite (Hp c Hc)|done].
  - destruct s as [|c s]; simpl in *; [done|]. apply andb_true_iff in Hs as [Hc _]. by rewrite Hp.
Qed.

Lemma digit_not_space c : is_digit c = true -> is_space c = false.
Proof. destruct c as [[] [] [] [] [] [] [] []]; vm_compute; congruence. Qed.

(** The names [prefix[index][field]] of the fields of a list. *)
Lemma indexed_field_inj prefix i j f g :
  prefix ++ "[" ++ str_of_nat i ++ "][" ++ f ++ "]" = prefix ++ "[" ++ str_of_nat j ++ "][" ++ g ++ "]" ->
  i = j /\ f = g.
Proof.
  intros H%app_inj_l_str%app_inj_l_str. cbn [String.append] in H.
  apply (all_chars_split is_digit) in H as [H1 H2]; [|apply str_of_nat_digits..|done].
  split; [by apply str_of_nat_inj|]. injection H2 as H2.
  revert g H2. clear. induction f as [|c f IH]; intros [|d g]; simpl; try done.
  - intros [= <- H]. by destruct g.
  - intros [= -> H]. by destruct f.
  - intros [= -> H]. f_equal. auto.
Qed.

Lemma digits_value_pretty x s :
  digits_value 0 (pretty_N_go x s) = digits_value (Z.of_N x) s.
Proof.
  revert s. induction (N.lt_wf_0 x) as [x _ IH]; intros s.
  destruct (decide (x = 0)%N) as [->|Hx]; [by rewrite pretty_N_go_0|].
  rewrite pretty_N_go_step by lia. rewrite IH by (apply N.div_lt; lia). simpl.
  assert (Hd : (x `mod` 10 < 10)%N) by (apply N.mod_lt; lia).
  replace (Z.of_N x) with (10 * Z.of_N (x `div` 10) + Z.of_N (x `mod` 10)).
  2: { rewrite N2Z.inj_div, N2Z.inj_mod. pose proof (Z.div_mod (Z.of_N x) 10). lia. }
  generalize (x `mod` 10)%N, Hd. clear. intros d Hd.
  assert (d = 0 \/ d = 1 \/ d = 2 \/ d = 3 \/ d = 4 \/ d = 5 \/ d = 6 \/ d = 7 \/ d = 8 \/ d = 9)%N
    as H by lia.
  destruct_or! H; subst d; cbn [digits_value]; f_equal; vm_compute (Z.of_N _); lia.
Qed.

(** [Number(String(n))] of a natural number *)
Lemma str_to_number_str_of_Z n : 0 <= n -> str_to_number (str_of_Z n) = Some n.
Proof.
  intros Hn. unfold str_to_number.
  rewrite (trim_all_chars is_digit); [|apply digit_not_space|by apply str_of_Z_digits].
  destruct n as [|q|q]; [done| |lia].
  change (str_of_Z (Z.pos q)) with (pretty_N_go (N.pos q) ""). by rewrite digits_value_pretty.
Qed.

(** Statements about every code unit are decided by enumeration. *)
Definition all_units : list ascii := map ascii_of_nat (seq 0 256).


Lemma elem_of_all_units c : c ∈ all_units.
Proof.
  unfold all_units. apply list_elem_of_In, in_map_iff.
  exists (nat_of_ascii c). split; [apply ascii_nat_embedding|].
  apply in_seq. pose proof (nat_ascii_bounded c). lia.
Qed.

Lemma all_units_forall (p : ascii -> bool) :
  forallb p all_units = true -> forall c, p c = true.
Proof. intros H c. exact (proj1 (forallb_forall_elem _ _) H c (elem_of_all_units c)). Qed.

Lemma all_units_eq {A} (eqb : A -> A -> bool) (f g : ascii -> A) :
  (forall x y, eqb x y = true -> x = y) ->
  forallb (fun c => eqb (f c) (g c)) all_units = true -> forall c, f c = g c.
Proof. intros He H c. apply He. exact (all_units_forall _ H c). Qed.

(** Decides [forall c, f c = g c] on code units. *)
Ltac by_units :=
  match goal with
  | |- forall c, ?f = ?g =>
      first [ apply (all_units_eq Bool.eqb); [by intros [] []|vm_compute; reflexivity]
            | apply (all_units_eq Ascii.eqb); [apply Ascii.eqb_eq|vm_compute; reflexivity] ]
  end.

#[global] Opaque all_units.
