(* ===== verification/JsRegExp.v ===== *)
(** * JavaScript regular expressions

    The regular expressions of the source are written in the development as the source writes
    them: [regex "^(select|show)\b" "i"] parses the pattern text into the syntax tree [re].
    [re_match] is the backtracking matcher of ECMAScript (22.2.2) for that syntax: it returns
    every way to match, in the order in which a backtracking engine tries them, so its head is
    the engine's answer.  [matches] is the declarative reading of a pattern; [re_match_iff]
    shows that the matcher finds exactly those ways, so its fuel is always enough. *)

From Stdlib Require Import String.
From S2P Require Import Prelude JsString.

Open Scope string_scope.
Open Scope nat_scope.

(** ** Syntax *)

(** Sets of code units a pattern character stands for. *)
Inductive cset :=
| CUnit (c : ascii)
| CRange (lo hi : ascii)
| CSpace
| CDigit
| CDot
| CNot (s : cset)
| CUnion (s t : cset).

Inductive re :=
| REmpty
| RSet (s : cset)
| RSeq (a b : re)
| RAlt (a b : re)
| RStar (greedy : bool) (a : re)
| ROpt (a : re)
| RGroup (n : nat) (a : re)
| RWordB
| RBegin
| REnd.

Record regexp := RegExp {
  re_body : re;
  re_ignore_case : bool;
  re_multiline : bool;
}.

(** ** Parsing a pattern *)

Fixpoint re_repeat (n : nat) (a : re) : re :=
  match n with
  | O => REmpty
  | S O => a
  | S n' => RSeq a (re_repeat n' a)
  end.

Definition parse_escape (c : ascii) : option cset :=
  match c with
  | "s"%char => Some CSpace
  | "S"%char => Some (CNot CSpace)
  | "d"%char => Some CDigit
  | _ => if is_word c then None else Some (CUnit c)
  end.

(** The items of a character class, up to its closing bracket. *)
Fixpoint parse_class (fuel : nat) (s : string) : option (cset * string) :=
  match fuel with
  | O => None
  | S fuel' =>
      let item :=
        match s with
        | String "\" (String c s') =>
            match parse_escape c with Some i => Some (i, s') | None => None end
        | String lo (String "-" (String hi s')) =>
            if (Ascii.eqb hi "]") then None else Some (CRange lo hi, s')
        | String c s' => Some (CUnit c, s')
        | EmptyString => None
        end in
      match item with
      | None => None
      | Some (i, String "]" s') => Some (i, s')
      | Some (i, s') =>
          match parse_class fuel' s' with
          | Some (t, s'') => Some (CUnion i t, s'')
          | None => None
          end
      end
  end.

Fixpoint parse_count (acc : nat) (s : string) : option (nat * string) :=
  match s with
  | String "}" s' => Some (acc, s')
  | String c s' =>
      if is_digit c then parse_count (10 * acc + N.to_nat (code c - 48)) s' else None
  | EmptyString => None
  end.

(** A quantifier after an atom, if there is one. *)
Definition parse_quantifier (a : re) (s : string) : option (re * string) :=
  match s with
  | String "*" (String "?" s') => Some (RStar false a, s')
  | String "*" s' => Some (RStar true a, s')
  | String "+" (String "?" s') => Some (RSeq a (RStar false a), s')
  | String "+" s' => Some (RSeq a (RStar true a), s')
  | String "?" s' => Some (ROpt a, s')
  | String "{" s' =>
      match parse_count 0 s' with
      | Some (n, s'') => Some (re_repeat n a, s'')
      | None => None
      end
  | _ => Some (a, s)
  end.

(** [parse_alt] reads a disjunction and [parse_seq] an alternative; [n] numbers the groups.  A negated class
    has no letters in the source: its meaning does not depend on the flag [i]. *)
Fixpoint parse_alt (fuel n : nat) (s : string) : option (re * nat * string) :=
  match fuel with
  | O => None
  | S fuel' =>
      match parse_seq fuel' n s with
      | Some (a, n', String "|" s') =>
          match parse_alt fuel' n' s' with
          | Some (b, n'', s'') => Some (RAlt a b, n'', s'')
          | None => None
          end
      | r => r
      end
  end
with parse_seq (fuel n : nat) (s : string) : option (re * nat * string) :=
  match fuel with
  | O => None
  | S fuel' =>
      let atom :=
        match s with
        | String "(" (String "?" (String ":" s')) =>
            match parse_alt fuel' n s' with
            | Some (a, n', String ")" s'') => Some (a, n', s'')
            | _ => None
            end
        | String "(" s' =>
            match parse_alt fuel' (S n) s' with
            | Some (a, n', String ")" s'') => Some (RGroup n a, n', s'')
            | _ => None
            end
        | String "[" (String "^" s') =>
            match parse_class fuel' s' with
            | Some (c, s'') => Some (RSet (CNot c), n, s'')
            | None => None
            end
        | String "[" s' =>
            match parse_class fuel' s' with
            | Some (c, s'') => Some (RSet c, n, s'')
            | None => None
            end
        | String "\" (String "b" s') => Some (RWordB, n, s')
        | String "\" (String c s') =>
            match parse_escape c with Some i => Some (RSet i, n, s') | None => None end
        | String "^" s' => Some (RBegin, n, s')
        | String "$" s' => Some (REnd, n, s')
        | String "." s' => Some (RSet CDot, n, s')
        | String c s' => Some (RSet (CUnit c), n, s')
        | EmptyString => None
        end in
      match s with
      | EmptyString | String ")" _ | String "|" _ => Some (REmpty, n, s)
      | _ =>
          match atom with
          | None => None
          | Some (a, n', s') =>
              match parse_quantifier a s' with
              | None => None
              | Some (q, s'') =>
                  match parse_seq fuel' n' s'' with
                  | Some (REmpty, n'', s3) => Some (q, n'', s3)
                  | Some (b, n'', s3) => Some (RSeq q b, n'', s3)
                  | None => None
                  end
              end
          end
      end
  end.

Definition regex (pattern flags : string) : option regexp :=
  match parse_alt (2 * String.length pattern + 2) 1 pattern with
  | Some (a, _, EmptyString) =>
      Some (RegExp a (includes flags "i") (includes flags "m"))
  | _ => None
  end.

(** The parsed pattern: a term of type [regexp] only when the pattern is well formed. *)
Definition parsed {A} (o : option A) : match o with Some _ => A | None => unit end :=
  match o with Some a => a | None => tt end.

(** ** Matching *)

(** A point of the subject string: the unit before it, the rest after it, and the groups
    captured so far, the latest first. *)
Record mstate := MState {
  ms_prev : option ascii;
  ms_rest : string;
  ms_caps : list (nat * string);
}.

Fixpoint cset_mem (s : cset) (c : ascii) : bool :=
  match s with
  | CUnit d => Ascii.eqb c d
  | CRange lo hi => in_range (code lo) (code hi) c
  | CSpace => is_space c
  | CDigit => is_digit c
  | CDot => negb (is_line_terminator c)
  | CNot t => negb (cset_mem t c)
  | CUnion t u => cset_mem t c || cset_mem u c
  end.

(** Canonicalize(ch) of a pattern with the flag [i] and without [u]. *)
Definition canon (c : ascii) : ascii := upper_unit c.

(** CharacterSetMatcher: with the flag [i], a unit matches when some member of the set has
    the same canonical form.  The only candidates are the unit itself, its canonical form and
    the lower case of that ([set_match_ic] below). *)
Definition set_match (ic : bool) (s : cset) (c : ascii) : bool :=
  cset_mem s c ||
  (ic && (cset_mem s (canon c) || cset_mem s (lower_unit (canon c)))).

#[global] Arguments set_match : simpl never.
#[global] Arguments canon : simpl never.

Definition word_before (st : mstate) : bool :=
  match ms_prev st with Some c => is_word c | None => false end.

Definition word_after (st : mstate) : bool :=
  match ms_rest st with String c _ => is_word c | EmptyString => false end.

Fixpoint groups (a : re) : list nat :=
  match a with
  | RSeq a b | RAlt a b => groups a ++ groups b
  | RStar _ a | ROpt a => groups a
  | RGroup n a => n :: groups a
  | _ => []
  end%list.

(** An iteration of a quantifier starts with the groups of its body undefined. *)
Definition reset_groups (ns : list nat) (st : mstate) : mstate :=
  MState (ms_prev st) (ms_rest st)
    (List.filter (fun p => negb (existsb (Nat.eqb (fst p)) ns)) (ms_caps st)).

Definition capture (n : nat) (st st' : mstate) : mstate :=
  MState (ms_prev st') (ms_rest st')
    ((n, take_str (String.length (ms_rest st) - String.length (ms_rest st')) (ms_rest st))
       :: ms_caps st').

(** RepeatMatcher rejects an iteration that consumes nothing. *)
Definition advanced (st st' : mstate) : bool :=
  String.length (ms_rest st') <? String.length (ms_rest st).

Definition iterations (m : mstate -> list mstate) (ns : list nat) (st : mstate) : list mstate :=
  List.filter (fun st' => advanced st st') (m (reset_groups ns st)).

Fixpoint star (m : mstate -> list mstate) (ns : list nat) (greedy : bool) (fuel : nat)
    (st : mstate) : list mstate :=
  match fuel with
  | O => []
  | S fuel' =>
      let more := flat_map (star m ns greedy fuel') (iterations m ns st) in
      if greedy then (more ++ [st])%list else st :: more
  end.

Section matcher.
Context (ic ml : bool).

Definition at_begin (st : mstate) : bool :=
  match ms_prev st with
  | None => true
  | Some c => ml && is_line_terminator c
  end.

Definition at_end (st : mstate) : bool :=
  match ms_rest st with
  | EmptyString => true
  | String c _ => ml && is_line_terminator c
  end.

Fixpoint re_match (r : re) (st : mstate) : list mstate :=
  match r with
  | REmpty => [st]
  | RSet s =>
      match ms_rest st with
      | String c rest => if set_match ic s c then [MState (Some c) rest (ms_caps st)] else []
      | EmptyString => []
      end
  | RSeq a b => flat_map (re_match b) (re_match a st)
  | RAlt a b => (re_match a st ++ re_match b st)%list
  | RStar g a => star (re_match a) (groups a) g (S (String.length (ms_rest st))) st
  | ROpt a => (iterations (re_match a) (groups a) st ++ [st])%list
  | RGroup n a => map (capture n st) (re_match a st)
  | RWordB => if xorb (word_before st) (word_after st) then [st] else []
  | RBegin => if at_begin st then [st] else []
  | REnd => if at_end st then [st] else []
  end.
End matcher.

Definition run (p : regexp) (st : mstate) : list mstate :=
  re_match (re_ignore_case p) (re_multiline p) (re_body p) st.

(** The leftmost match: where it starts and where it ends. *)
Fixpoint search (p : regexp) (prev : option ascii) (s : string) : option (mstate * mstate) :=
  match run p (MState prev s []) with
  | st :: _ => Some (MState prev s [], st)
  | [] =>
      match s with
      | EmptyString => None
      | String c s' => search p (Some c) s'
      end
  end.

(** The result of [exec] and [match]: the text of the match and its groups. *)
Record match_result := MatchResult {
  match_text : string;
  match_groups : list (nat * string);
}.

Definition consumed (st st' : mstate) : string :=
  take_str (String.length (ms_rest st) - String.length (ms_rest st')) (ms_rest st).

(** [s.match(p)] for a pattern without the flag [g] *)
Definition exec (p : regexp) (s : string) : option match_result :=
  match search p None s with
  | Some (st, st') => Some (MatchResult (consumed st st') (ms_caps st'))
  | None => None
  end.

(** [p.test(s)] *)
Definition test (p : regexp) (s : string) : bool := is_some (search p None s).

(** Group [n] of a match, [None] for [undefined]. *)
Definition group (m : match_result) (n : nat) : option string :=
  snd <$> find_first (fun g => Nat.eqb (fst g) n) (match_groups m).

(** [s.replace(p, by)] for a pattern with the flag [g] *)
Fixpoint replace_from (fuel : nat) (p : regexp) (by_ : string) (prev : option ascii) (s : string)
    : string :=
  match fuel with
  | O => s
  | S fuel' =>
      let skip :=
        match s with
        | EmptyString => EmptyString
        | String c s' => String c (replace_from fuel' p by_ (Some c) s')
        end in
      match run p (MState prev s []) with
      | st :: _ =>
          if String.length (ms_rest st) <? String.length s
          then by_ ++ replace_from fuel' p by_ (ms_prev st) (ms_rest st)
          else by_ ++ skip
      | [] => skip
      end
  end.

Definition replace_all (p : regexp) (by_ : string) (s : string) : string :=
  replace_from (S (String.length s)) p by_ None s.

(** [s.replace(p, by)] without the flag [g]: the leftmost match only. *)
Definition replace_first (p : regexp) (by_ : string) (s : string) : string :=
  match search p None s with
  | Some (st, st') =>
      take_str (String.length s - String.length (ms_rest st)) s ++ by_ ++ ms_rest st'
  | None => s
  end.

(** [replace_all] has fuel enough: more of it gives the same result. *)
Lemma replace_from_fuel p by_ n m prev s :
  String.length s < n -> String.length s < m ->
  replace_from n p by_ prev s = replace_from m p by_ prev s.
Proof.
  revert m prev s. induction n as [|n IH]; intros [|m] prev s Hn Hm; try lia.
  cbn [replace_from].
  assert (Hskip : match s with
    | EmptyString => EmptyString | String c s' => String c (replace_from n p by_ (Some c) s') end =
    match s with
    | EmptyString => EmptyString | String c s' => String c (replace_from m p by_ (Some c) s') end).
  { destruct s as [|c s]; [done|]. simpl in Hn, Hm. f_equal. apply IH; lia. }
  rewrite Hskip. destruct (run p _) as [|st sts]; [done|].
  destruct (Nat.ltb_spec (String.length (ms_rest st)) (String.length s)); [|done].
  f_equal. apply IH; lia.
Qed.

Lemma canon_idem c : canon (canon c) = canon c.
Proof. revert c. by_units. Qed.

Lemma canon_lower_canon c : canon (lower_unit (canon c)) = canon c.
Proof. revert c. by_units. Qed.

Lemma canon_cases c : c = canon c \/ c = lower_unit (canon c).
Proof.
  assert (H : forall a, Ascii.eqb a (canon a) || Ascii.eqb a (lower_unit (canon a)) = true).
  { apply all_units_forall. vm_compute. reflexivity. }
  specialize (H c). apply orb_true_iff in H as [H|H]; apply Ascii.eqb_eq in H; auto.
Qed.

(** With the flag [i], [set_match] is the specification's test. *)
Lemma set_match_ic s c :
  set_match true s c = true <-> exists a, canon a = canon c /\ cset_mem s a = true.
Proof.
  unfold set_match. rewrite andb_true_l, !orb_true_iff. split.
  - intros [H|[H|H]]; eauto using canon_idem, canon_lower_canon.
  - intros (a & Ha & Hm). destruct (canon_cases a) as [E|E]; rewrite E, Ha in Hm; auto.
Qed.

Lemma set_match_cs s c : set_match false s c = cset_mem s c.
Proof. unfold set_match. by rewrite orb_false_r. Qed.

(** ** The declarative reading of a pattern *)

Section spec.
Context (ic ml : bool).

Inductive matches : re -> mstate -> mstate -> Prop :=
| M_empty st : matches REmpty st st
| M_set s prev c rest caps :
    set_match ic s c = true ->
    matches (RSet s) (MState prev (String c rest) caps) (MState (Some c) rest caps)
| M_seq a b st st1 st2 :
    matches a st st1 -> matches b st1 st2 -> matches (RSeq a b) st st2
| M_alt_l a b st st' : matches a st st' -> matches (RAlt a b) st st'
| M_alt_r a b st st' : matches b st st' -> matches (RAlt a b) st st'
| M_star_stop g a st : matches (RStar g a) st st
| M_star_more g a st st1 st2 :
    matches a (reset_groups (groups a) st) st1 -> advanced st st1 = true ->
    matches (RStar g a) st1 st2 -> matches (RStar g a) st st2
| M_opt_none a st : matches (ROpt a) st st
| M_opt_some a st st' :
    matches a (reset_groups (groups a) st) st' -> advanced st st' = true ->
    matches (ROpt a) st st'
| M_group n a st st' : matches a st st' -> matches (RGroup n a) st (capture n st st')
| M_wordb st : xorb (word_before st) (word_after st) = true -> matches RWordB st st
| M_begin st : at_begin ml st = true -> matches RBegin st st
| M_end st : at_end ml st = true -> matches REnd st st.

Lemma elem_of_iterations m ns st st' :
  st' ∈ iterations m ns st <-> st' ∈ m (reset_groups ns st) /\ advanced st st' = true.
Proof. unfold iterations. by rewrite !list_elem_of_In, filter_In. Qed.

Lemma elem_of_star_S m ns g fuel st st' :
  st' ∈ star m ns g (S fuel) st <->
  st' = st \/ exists st1, st1 ∈ iterations m ns st /\ st' ∈ star m ns g fuel st1.
Proof.
  simpl. destruct g.
  - rewrite elem_of_app, list_elem_of_singleton, elem_of_flat_map. tauto.
  - rewrite elem_of_cons, elem_of_flat_map. tauto.
Qed.

Lemma elem_of_if_singleton {A} (b : bool) (x y : A) :
  y ∈ (if b then [x] else []) <-> b = true /\ y = x.
Proof. destruct b; rewrite ?list_elem_of_singleton, ?elem_of_nil; naive_solver. Qed.

Lemma star_iff g a :
  (forall st st', st' ∈ re_match ic ml a st <-> matches a st st') ->
  forall fuel st st', String.length (ms_rest st) < fuel ->
  st' ∈ star (re_match ic ml a) (groups a) g fuel st <-> matches (RStar g a) st st'.
Proof.
  intros Ha fuel. induction fuel as [|fuel IH]; intros st st' Hlen; [lia|].
  rewrite elem_of_star_S. split.
  - intros [->|(st1 & H1 & H2)]; [constructor|].
    apply elem_of_iterations in H1 as [H1 Hadv]. apply Ha in H1.
    assert (Hlt := Hadv). apply Nat.ltb_lt in Hlt.
    apply (IH st1) in H2; [|lia]. by econstructor.
  - inversion 1 as [| | | | | |? ? ? st1 ? H1 Hadv H2| | | | | |]; subst; [by left|right].
    assert (Hlt := Hadv). apply Nat.ltb_lt in Hlt.
    exists st1. rewrite elem_of_iterations, Ha, IH by lia. done.
Qed.

(** The matcher finds exactly the ways to match: it is sound, complete, and never runs out
    of fuel. *)
Lemma re_match_iff r st st' : st' ∈ re_match ic ml r st <-> matches r st st'.
Proof.
  revert st st'. induction r as [|s|a IHa b IHb|a IHa b IHb|g a IHa|a IHa|n a IHa| | |];
    intros st st'; cbn [re_match].
  - rewrite list_elem_of_singleton. split; [intros ->; constructor|by inversion 1].
  - destruct st as [prev [|c rest] caps]; simpl.
    + rewrite elem_of_nil. split; [done|by inversion 1].
    + rewrite elem_of_if_singleton. split; [intros [? ->]; by constructor|by inversion 1].
  - rewrite elem_of_flat_map. setoid_rewrite IHa. setoid_rewrite IHb. split.
    + intros (st1 & ? & ?). by econstructor.
    + inversion 1; eauto.
  - rewrite elem_of_app, IHa, IHb. split.
    + intros [?|?]; [by apply M_alt_l|by apply M_alt_r].
    + inversion 1; auto.
  - apply star_iff; [done|lia].
  - rewrite elem_of_app, elem_of_iterations, list_elem_of_singleton, IHa. split.
    + intros [[? ?]| ->]; [by apply M_opt_some|constructor].
    + inversion 1; auto.
  - rewrite list_elem_of_In, in_map_iff. setoid_rewrite <- list_elem_of_In.
    setoid_rewrite IHa. split.
    + intros (st1 & <- & ?). by constructor.
    + inversion 1; eauto.
  - rewrite elem_of_if_singleton. split; [intros [? ->]; by constructor|by inversion 1].
  - rewrite elem_of_if_singleton. split; [intros [? ->]; by constructor|by inversion 1].
  - rewrite elem_of_if_singleton. split; [intros [? ->]; by constructor|by inversion 1].
Qed.
End spec.

(** A match reads the subject from left to right: what is left is a suffix. *)
Lemma matches_suffix ic ml r st st' :
  matches ic ml r st st' -> exists w, ms_rest st = w ++ ms_rest st'.
Proof.
  induction 1 as [ |s p c rest caps H| ? ? ? ? ? ? [w Hw] ? [v Hv]| | | |
    ? ? ? ? ? ? [w Hw] ? ? [v Hv]| | | | | | ]; simpl in *; try done; try (by exists "").
  - by exists (String c "").
  - exists (w ++ v). by rewrite Hw, Hv, app_assoc_str.
  - exists (w ++ v). by rewrite Hw, Hv, app_assoc_str.
Qed.

(** [p.test(s)] holds exactly when the pattern matches at some point of the string. *)
Fixpoint before_at (prev : option ascii) (w : string) : option ascii :=
  match w with
  | EmptyString => prev
  | String c w' => before_at (Some c) w'
  end.

Definition matches_at (p : regexp) (st st' : mstate) : Prop :=
  matches (re_ignore_case p) (re_multiline p) (re_body p) st st'.

Lemma run_nil p st : run p st = [] <-> forall st', ~ matches_at p st st'.
Proof.
  unfold matches_at, run. split.
  - intros H st' Hm. apply re_match_iff in Hm. rewrite H in Hm. by apply elem_of_nil in Hm.
  - intros H. destruct (re_match _ _ _ st) as [|st' l] eqn:E; [done|].
    exfalso. apply (H st'), re_match_iff. rewrite E. apply list_elem_of_here.
Qed.

Lemma run_cons p st st' l : run p st = st' :: l -> matches_at p st st'.
Proof. intros H. apply re_match_iff. unfold run in H. rewrite H. apply list_elem_of_here. Qed.

Lemma search_unfold p prev s :
  search p prev s =
  match run p (MState prev s []) with
  | st :: _ => Some (MState prev s [], st)
  | [] => match s with EmptyString => None | String c s' => search p (Some c) s' end
  end.
Proof. by destruct s. Qed.

Lemma search_Some p prev s st st' :
  search p prev s = Some (st, st') ->
  exists w, s = w ++ ms_rest st /\ ms_prev st = before_at prev w /\ ms_caps st = [] /\
    matches_at p st st'.
Proof.
  revert prev. induction s as [|c s IH]; intros prev; rewrite search_unfold;
    destruct (run p _) as [|st1 l] eqn:E; intros H; simplify_eq.
  - exists "". split_and!; try done. by eapply run_cons.
  - apply IH in H as (w & -> & Hp & Hc & Hm). by exists (String c w).
  - exists "". split_and!; try done. by eapply run_cons.
Qed.

Lemma search_None p prev s :
  search p prev s = None ->
  forall w v st', s = w ++ v -> ~ matches_at p (MState (before_at prev w) v []) st'.
Proof.
  revert prev. induction s as [|c s IH]; intros prev; rewrite search_unfold;
    destruct (run p _) as [|st1 l] eqn:E; intros H w v st' Hs; simplify_eq.
  - destruct w, v; try done. by apply run_nil.
  - destruct w as [|d w]; simpl in Hs |- *.
    + subst v. by apply run_nil.
    + injection Hs as <- ->. by eapply IH.
Qed.

Lemma test_iff p s :
  test p s = true <->
  exists w v st', s = w ++ v /\ matches_at p (MState (before_at None w) v []) st'.
Proof.
  unfold test. split.
  - destruct (search p None s) as [[st st']|] eqn:E; [intros _|done].
    apply search_Some in E as (w & Hs & Hp & Hc & Hm).
    exists w, (ms_rest st), st'. split; [done|]. destruct st; simpl in *. by subst.
  - intros (w & v & st' & Hs & Hm). destruct (search p None s) eqn:E; [done|].
    exfalso. eapply search_None; eauto.
Qed.

(** A pattern that begins with [^], without the flag [m], only matches at the start. *)
Lemma search_anchored p k s :
  re_body p = RSeq RBegin k -> re_multiline p = false ->
  search p None s =
  match run p (MState None s []) with
  | st :: _ => Some (MState None s [], st)
  | [] => None
  end.
Proof.
  intros Hb Hm.
  assert (Hrun : forall c t, run p (MState (Some c) t []) = []).
  { intros c t. unfold run. by rewrite Hb, Hm. }
  assert (Hsearch : forall t c, search p (Some c) t = None).
  { induction t as [|d t IH]; intros c; rewrite search_unfold, Hrun; [done|apply IH]. }
  rewrite search_unfold. destruct (run p _); [|done]. destruct s; [done|apply Hsearch].
Qed.
