(* ===== verification/CaseFolding.v ===== *)
(** * Case folding

    A pattern with the flag [i], and a pattern whose sets do not tell the two cases of a letter
    apart, gives the same answer on a string and on its case folding: matching commutes with
    folding.  The lemmas are equations, so that a proof that a function does not depend on the
    case of its argument is a chain of rewrites. *)

From Stdlib Require Import String.
From S2P Require Import Prelude JsString JsRegExp.

Open Scope string_scope.
Open Scope nat_scope.

(** The case folding of a string: every unit in its canonical form. *)
Definition fold_case (s : string) : string := smap canon s.

(** [s] and [t] differ only in the case of letters. *)
Definition same_letters (s t : string) : Prop := fold_case s = fold_case t.

#[export] Instance same_letters_equiv : Equivalence same_letters.
Proof.
  split; unfold same_letters.
  - by intros s.
  - by intros s t.
  - intros s t u H1 H2. congruence.
Qed.

Lemma is_space_canon c : is_space (canon c) = is_space c.
Proof. revert c. by_units. Qed.

Lemma is_word_canon c : is_word (canon c) = is_word c.
Proof. revert c. by_units. Qed.

Lemma is_line_terminator_canon c : is_line_terminator (canon c) = is_line_terminator c.
Proof. revert c. by_units. Qed.

Lemma fold_case_idem s : fold_case (fold_case s) = fold_case s.
Proof. unfold fold_case. induction s; simpl; [done|]. by rewrite canon_idem, IHs. Qed.

Lemma length_fold s : String.length (fold_case s) = String.length s.
Proof. apply length_smap. Qed.

Lemma drop_fold n s : drop_str n (fold_case s) = fold_case (drop_str n s).
Proof. apply smap_drop. Qed.

Lemma trim_fold s : trim (fold_case s) = fold_case (trim s).
Proof. apply trim_smap, is_space_canon. Qed.

(** ** Patterns that do not tell cases apart *)

Fixpoint fold_safe (ic : bool) (r : re) : bool :=
  match r with
  | RSet s => ic || forallb (fun c => Bool.eqb (cset_mem s (canon c)) (cset_mem s c)) all_units
  | RSeq a b | RAlt a b => fold_safe ic a && fold_safe ic b
  | RStar _ a | ROpt a | RGroup _ a => fold_safe ic a
  | _ => true
  end.

Lemma set_match_fold ic s c :
  fold_safe ic (RSet s) = true -> set_match ic s (canon c) = set_match ic s c.
Proof.
  simpl. destruct ic; simpl; intros H.
  - apply eq_true_iff_eq. by rewrite !set_match_ic, canon_idem.
  - rewrite !set_match_cs. apply Bool.eqb_prop, (all_units_forall _ H).
Qed.

Definition fold_group (g : nat * string) : nat * string := (fst g, fold_case (snd g)).

Definition fold_state (st : mstate) : mstate :=
  MState (canon <$> ms_prev st) (fold_case (ms_rest st)) (map fold_group (ms_caps st)).

Lemma word_before_fold st : word_before (fold_state st) = word_before st.
Proof. unfold word_before. destruct st as [[c|] s l]; simpl; [apply is_word_canon|done]. Qed.

Lemma word_after_fold st : word_after (fold_state st) = word_after st.
Proof. unfold word_after. destruct st as [p [|c s] l]; simpl; [done|apply is_word_canon]. Qed.

Lemma advanced_fold st st' : advanced (fold_state st) (fold_state st') = advanced st st'.
Proof. unfold advanced. simpl. by rewrite !length_fold. Qed.

Lemma reset_groups_fold ns st : reset_groups ns (fold_state st) = fold_state (reset_groups ns st).
Proof.
  unfold reset_groups, fold_state. simpl. f_equal.
  induction (ms_caps st) as [|[n t] l IH]; simpl; [done|].
  destruct (existsb _ ns); simpl; by rewrite IH.
Qed.

Lemma capture_fold n st st' :
  capture n (fold_state st) (fold_state st') = fold_state (capture n st st').
Proof.
  unfold capture, fold_state, fold_group. simpl. rewrite !length_fold.
  unfold fold_case. by rewrite smap_take.
Qed.

Lemma iterations_fold m ns st :
  (forall st, m (fold_state st) = map fold_state (m st)) ->
  iterations m ns (fold_state st) = map fold_state (iterations m ns st).
Proof.
  intros Hm. unfold iterations. rewrite reset_groups_fold, Hm.
  induction (m (reset_groups ns st)) as [|st1 l IH]; simpl; [done|].
  rewrite advanced_fold. destruct (advanced st st1); simpl; by rewrite IH.
Qed.

Lemma star_fold m ns g fuel st :
  (forall st, m (fold_state st) = map fold_state (m st)) ->
  star m ns g fuel (fold_state st) = map fold_state (star m ns g fuel st).
Proof.
  intros Hm. revert st. induction fuel as [|fuel IH]; intros st; [done|].
  cbn [star]. rewrite iterations_fold by done.
  assert (Hmore : flat_map (star m ns g fuel) (map fold_state (iterations m ns st)) =
    map fold_state (flat_map (star m ns g fuel) (iterations m ns st))).
  { rewrite map_flat_map, flat_map_map. apply flat_map_ext_elem. intros x _. apply IH. }
  rewrite Hmore. destruct g; [by rewrite map_app|done].
Qed.

Lemma map_if_singleton (b : bool) (st : mstate) :
  map fold_state (if b then [st] else []) = if b then [fold_state st] else [].
Proof. by destruct b. Qed.

Lemma at_begin_fold ml st : at_begin ml (fold_state st) = at_begin ml st.
Proof.
  unfold at_begin. destruct st as [[c|] s l]; simpl; [|done].
  by rewrite is_line_terminator_canon.
Qed.

Lemma at_end_fold ml st : at_end ml (fold_state st) = at_end ml st.
Proof.
  unfold at_end. destruct st as [p [|c s] l]; simpl; [done|].
  by rewrite is_line_terminator_canon.
Qed.

(** Matching commutes with case folding. *)
Lemma re_match_fold ic ml r st :
  fold_safe ic r = true ->
  re_match ic ml r (fold_state st) = map fold_state (re_match ic ml r st).
Proof.
  revert st. induction r as [|s|a IHa b IHb|a IHa b IHb|g a IHa|a IHa|n a IHa| | |];
    intros st Hs; cbn [re_match].
  - done.
  - destruct st as [p [|c rest] l]; simpl; [done|].
    rewrite set_match_fold by done. by destruct (set_match ic s c).
  - simpl in Hs. bool_hyps. rewrite IHa by done.
    rewrite map_flat_map, flat_map_map. apply flat_map_ext_elem. intros x _. by apply IHb.
  - simpl in Hs. bool_hyps. by rewrite IHa, IHb, map_app.
  - simpl ms_rest. rewrite length_fold. apply star_fold. intros x. by apply IHa.
  - rewrite map_app, iterations_fold; [done|]. intros x. by apply IHa.
  - rewrite IHa by done. rewrite !map_map. apply map_ext. intros x. apply capture_fold.
  - by rewrite map_if_singleton, word_before_fold, word_after_fold.
  - by rewrite map_if_singleton, at_begin_fold.
  - by rewrite map_if_singleton, at_end_fold.
Qed.

Definition pattern_fold_safe (p : regexp) : bool := fold_safe (re_ignore_case p) (re_body p).

Section folding.
Context (p : regexp) (Hp : pattern_fold_safe p = true).

Lemma run_fold st : run p (fold_state st) = map fold_state (run p st).
Proof. by apply re_match_fold. Qed.

Lemma run_fold_nil prev s :
  run p (MState (canon <$> prev) (fold_case s) []) =
  map fold_state (run p (MState prev s [])).
Proof. exact (run_fold (MState prev s [])). Qed.

Lemma search_fold prev s :
  search p (canon <$> prev) (fold_case s) =
  (fun r => (fold_state (fst r), fold_state (snd r))) <$> search p prev s.
Proof.
  revert prev. induction s as [|c s IH]; intros prev;
    rewrite (search_unfold p (canon <$> prev)), (search_unfold p prev), run_fold_nil;
    destruct (run p (MState prev _ [])) as [|st l]; try done.
  exact (IH (Some c)).
Qed.

Lemma test_fold s : test p (fold_case s) = test p s.
Proof.
  unfold test. change (@None ascii) with (canon <$> None) at 1. rewrite search_fold.
  by destruct (search p None s).
Qed.

Lemma exec_fold s :
  exec p (fold_case s) =
  (fun m => MatchResult (fold_case (match_text m)) (map fold_group (match_groups m)))
    <$> exec p s.
Proof.
  unfold exec. change (@None ascii) with (canon <$> None) at 1. rewrite search_fold.
  destruct (search p None s) as [[st st']|]; simpl; [|done].
  f_equal. unfold consumed. simpl. rewrite !length_fold.
  unfold fold_case. by rewrite smap_take.
Qed.

Lemma replace_from_fold fuel by_ prev s :
  fold_case by_ = by_ ->
  replace_from fuel p by_ (canon <$> prev) (fold_case s) =
  fold_case (replace_from fuel p by_ prev s).
Proof.
  intros Hby. revert prev s. induction fuel as [|fuel IH]; intros prev s; [done|].
  cbn [replace_from]. rewrite run_fold_nil.
  assert (Hskip :
    match fold_case s with
    | "" => ""
    | String c s' => String c (replace_from fuel p by_ (Some c) s')
    end =
    fold_case match s with
              | "" => ""
              | String c s' => String c (replace_from fuel p by_ (Some c) s')
              end).
  { destruct s as [|c s]; [done|].
    change (String (canon c) (replace_from fuel p by_ (canon <$> Some c) (fold_case s)) =
      String (canon c) (fold_case (replace_from fuel p by_ (Some c) s))).
    by rewrite IH. }
  destruct (run p (MState prev s [])) as [|st l]; [done|].
  cbn [map fold_state ms_rest ms_prev]. rewrite !length_fold, Hskip.
  assert (Hb : forall t, by_ ++ fold_case t = fold_case (by_ ++ t)).
  { intros t. unfold fold_case in *. by rewrite smap_app, Hby. }
  destruct (_ <? _); [|apply Hb]. rewrite IH. apply Hb.
Qed.

Lemma replace_all_fold by_ s :
  fold_case by_ = by_ -> replace_all p by_ (fold_case s) = fold_case (replace_all p by_ s).
Proof.
  intros Hby. unfold replace_all. rewrite length_fold.
  exact (replace_from_fold _ by_ None s Hby).
Qed.
End folding.

Lemma group_fold t gs n :
  group (MatchResult (fold_case t) (map fold_group gs)) n = fold_case <$> group (MatchResult t gs) n.
Proof.
  unfold group. simpl. induction gs as [|[k u] gs IH]; simpl; [done|].
  by destruct (Nat.eqb k n).
Qed.

(** ** Keywords

    A word of a pattern with the flag [i], and what it matches. *)

#[export] Instance cset_eq_dec : EqDecision cset.
Proof. solve_decision. Defined.

#[export] Instance re_eq_dec : EqDecision re.
Proof. solve_decision. Defined.

(** The tree of a literal word, and of a literal word followed by [k]. *)
Fixpoint lit (w : string) : re :=
  match w with
  | EmptyString => REmpty
  | String c EmptyString => RSet (CUnit c)
  | String c w' => RSeq (RSet (CUnit c)) (lit w')
  end.

Fixpoint lit_then (w : string) (k : re) : re :=
  match w with
  | EmptyString => k
  | String c w' => RSeq (RSet (CUnit c)) (lit_then w' k)
  end.

(** The alternatives of a disjunction. *)
Fixpoint branches (r : re) : list re :=
  match r with
  | RAlt a b => a :: branches b
  | _ => [r]
  end.

(** Reading [u] from the state [st]. *)
Definition advance (st : mstate) (u rest : string) : mstate :=
  MState (before_at (ms_prev st) u) rest (ms_caps st).

Lemma before_at_app p u v : before_at p (u ++ v) = before_at (before_at p u) v.
Proof. revert p. induction u as [|c u IH]; intros p; simpl; [done|]. apply IH. Qed.

Lemma set_match_unit a c : set_match true (CUnit a) c = true <-> canon c = canon a.
Proof.
  rewrite set_match_ic. split.
  - intros (b & Hb & Hm). apply Ascii.eqb_eq in Hm. congruence.
  - intros H. exists a. simpl. by rewrite Ascii.eqb_refl.
Qed.

Section keywords.
Context (ml : bool).

Lemma matches_branch r b st st' :
  b ∈ branches r -> matches true ml b st st' -> matches true ml r st st'.
Proof.
  intros Hb Hm. induction r; simpl in Hb; try (apply list_elem_of_singleton in Hb; by subst).
  apply elem_of_cons in Hb as [->|Hb]; [by apply M_alt_l|apply M_alt_r; auto].
Qed.

Lemma matches_branch_inv r st st' :
  matches true ml r st st' -> exists b, b ∈ branches r /\ matches true ml b st st'.
Proof.
  revert st st'. induction r as [|s|a IHa b IHb|a IHa b IHb|g a IHa|a IHa|n a IHa| | |];
    intros st st' Hm; try (eexists; split; [by apply list_elem_of_singleton|done]).
  inversion Hm; subst.
  - exists a. split; [apply list_elem_of_here|done].
  - destruct (IHb st st') as (r & Hr & Hm'); [done|].
    exists r. split; [by apply list_elem_of_further|done].
Qed.

Lemma matches_unit a st st' :
  matches true ml (RSet (CUnit a)) st st' <->
  exists c v, ms_rest st = String c v /\ canon c = canon a /\ st' = advance st (String c "") v.
Proof.
  split.
  - inversion 1 as [|s p c rest caps Hm| | | | | | | | | | |]; subst.
    exists c, rest. by rewrite <- set_match_unit.
  - intros (c & v & Hr & Hc & ->). destruct st as [p r l]; simpl in Hr; subst.
    apply (M_set true ml (CUnit a) p c v l). by apply set_match_unit.
Qed.

Lemma same_letters_cons_inv c u a w :
  same_letters (String c u) (String a w) <-> canon c = canon a /\ same_letters u w.
Proof.
  unfold same_letters, fold_case. simpl.
  split; [by intros [= H1 H2]|intros [H1 H2]; congruence].
Qed.

Lemma same_letters_nil u : same_letters u "" <-> u = "".
Proof. unfold same_letters, fold_case. destruct u; simpl; naive_solver. Qed.

Lemma matches_lit_then w k st st' :
  matches true ml (lit_then w k) st st' <->
  exists u v, ms_rest st = u ++ v /\ same_letters u w /\ matches true ml k (advance st u v) st'.
Proof.
  revert st. induction w as [|a w IH]; intros st; simpl.
  - split.
    + intros H. exists "", (ms_rest st). split_and!; [done|done|by destruct st].
    + intros (u & v & Hr & Hu & Hm). apply same_letters_nil in Hu as ->.
      destruct st; simpl in *; by subst.
  - split.
    + inversion 1 as [| |? ? ? st1 ? H1 H2| | | | | | | | | |]; subst.
      apply matches_unit in H1 as (c & v & Hr & Hc & ->).
      apply IH in H2 as (u & v' & Hr' & Hu & Hm). simpl in Hr'. subst v.
      exists (String c u), v'. split_and!; [done|by apply same_letters_cons_inv|done].
    + intros (u & v & Hr & Hu & Hm). destruct u as [|c u]; [by inversion Hu|].
      apply same_letters_cons_inv in Hu as [Hc Hu].
      apply M_seq with (advance st (String c "") (u ++ v)).
      * apply matches_unit. by exists c, (u ++ v).
      * apply IH. by exists u, v.
Qed.

Lemma matches_lit w st st' :
  matches true ml (lit w) st st' <->
  exists u v, ms_rest st = u ++ v /\ same_letters u w /\ st' = advance st u v.
Proof.
  assert (H : matches true ml (lit w) st st' <-> matches true ml (lit_then w REmpty) st st').
  { revert st. induction w as [|a [|b w] IH]; intros st; [done| |].
    - simpl. split; [intros H; by econstructor; [done|constructor]|].
      inversion 1 as [| |? ? ? st1 ? H1 H2| | | | | | | | | |]; subst. by inversion H2; subst.
    - change (matches true ml (RSeq (RSet (CUnit a)) (lit (String b w))) st st' <->
        matches true ml (RSeq (RSet (CUnit a)) (lit_then (String b w) REmpty)) st st').
      split; inversion 1; subst; econstructor; try done; by apply IH. }
  rewrite H, matches_lit_then. split; intros (u & v & Hr & Hu & Hm); exists u, v.
  - by inversion Hm; subst.
  - split_and!; [done|done|]. subst. constructor.
Qed.
End keywords.

(** [s] begins with the word [w], in any case, and the word ends there. *)
Definition starts_with_unit (p : ascii -> bool) (s : string) : bool :=
  match s with String c _ => p c | EmptyString => false end.

Definition head_word (w s : string) : Prop :=
  exists u v, s = u ++ v /\ same_letters u w /\ starts_with_unit is_word v = false.

(** Every unit of [w] is a word character, and there is one. *)
Fixpoint all_word (w : string) : bool :=
  match w with EmptyString => true | String c w' => is_word c && all_word w' end.

Definition is_keyword (w : string) : bool := all_word w && truthy w.

Lemma all_word_letters u w : same_letters u w -> all_word u = all_word w.
Proof.
  revert w. induction u as [|c u IH]; intros [|a w] H; try done; try by inversion H.
  apply same_letters_cons_inv in H as [Hc Hu]. simpl. rewrite (IH w Hu).
  by rewrite <- (is_word_canon c), Hc, is_word_canon.
Qed.

Lemma before_at_keyword p u : is_keyword u = true -> exists c, before_at p u = Some c /\ is_word c = true.
Proof.
  unfold is_keyword. destruct u as [|c u]; [done|]. intros H. simpl in H. bool_hyps.
  clear H0. simpl. revert c H. induction u as [|d u IH]; intros c H; simpl in *; bool_hyps; eauto.
Qed.

Lemma keyword_letters u w : same_letters u w -> is_keyword u = is_keyword w.
Proof.
  intros H. unfold is_keyword. rewrite (all_word_letters u w H). f_equal.
  destruct u, w; try done; by inversion H.
Qed.

Lemma keyword_first u : is_keyword u = true -> starts_with_unit is_word u = true.
Proof. unfold is_keyword. destruct u as [|c u]; [done|]. simpl. intros H. by bool_hyps. Qed.

(** The word boundary at the end of a keyword. *)
Lemma wordb_after_keyword st u v w :
  same_letters u w -> is_keyword w = true ->
  xorb (word_before (advance st u v)) (word_after (advance st u v)) =
  negb (starts_with_unit is_word v).
Proof.
  intros Hu Hw. rewrite <- (keyword_letters u w Hu) in Hw.
  destruct (before_at_keyword (ms_prev st) u Hw) as (c & Hc & Hcw).
  unfold word_before, word_after. simpl. rewrite Hc, Hcw. by destruct v.
Qed.
