(* ===== verification/JsDate.v ===== *)
(** * JavaScript dates

    The part of [Date] the source uses: time values (milliseconds since 1970, as integers),
    [Date.UTC], [toISOString] and the parsing of ISO 8601 date-times by [new Date(s)].  An
    invalid date is [None]. *)

From Stdlib Require Import String.
From S2P Require Import Prelude JsString.

Open Scope string_scope.
Open Scope Z_scope.

(** ** Days and civil dates (ECMAScript 21.4.1) *)

Definition day_from_year (y : Z) : Z :=
  365 * (y - 1970) + (y - 1969) / 4 - (y - 1901) / 100 + (y - 1601) / 400.

Definition leap_day (y : Z) : Z := day_from_year (y + 1) - day_from_year y - 365.

(** The day of the year on which month [m] (from 0) starts. *)
Definition month_start (leap m : Z) : Z :=
  match m with
  | 0 => 0
  | 1 => 31
  | 2 => 59 + leap
  | 3 => 90 + leap
  | 4 => 120 + leap
  | 5 => 151 + leap
  | 6 => 181 + leap
  | 7 => 212 + leap
  | 8 => 243 + leap
  | 9 => 273 + leap
  | 10 => 304 + leap
  | 11 => 334 + leap
  | _ => 365 + leap
  end.

Definition ms_per_day : Z := 86400000.

(** MakeDay: the month (from 0) may be any integer, the date counts from 1. *)
Definition make_day (y m d : Z) : Z :=
  let ym := y + m / 12 in
  day_from_year ym + month_start (leap_day ym) (m mod 12) + d - 1.

(** [Date.UTC(y, m, d, h, mi, s)]: years 0 to 99 stand for 1900 to 1999. *)
Definition date_utc (y m d h mi s : Z) : Z :=
  let yr := if (0 <=? y) && (y <=? 99) then 1900 + y else y in
  make_day yr m d * ms_per_day + h * 3600000 + mi * 60000 + s * 1000.

Definition year_from_day (day : Z) : Z :=
  let y := 400 * day / 146097 + 1970 in
  if day_from_year (y + 1) <=? day then y + 1
  else if day <? day_from_year y then y - 1 else y.

Fixpoint month_search (n : nat) (leap doy : Z) : Z :=
  match n with
  | O => 0
  | S n' => if month_start leap (Z.of_nat n) <=? doy then Z.of_nat n else month_search n' leap doy
  end.

(** The fields of a time value in UTC; the month counts from 1. *)
Record fields := Fields {
  f_year : Z; f_month : Z; f_day : Z; f_hour : Z; f_minute : Z; f_second : Z;
}.

Definition fields_of_time (t : Z) : fields :=
  let day := t / ms_per_day in
  let ms := t mod ms_per_day in
  let y := year_from_day day in
  let leap := leap_day y in
  let doy := day - day_from_year y in
  let m := month_search 11 leap doy in
  Fields y (m + 1) (doy - month_start leap m + 1)
    (ms / 3600000) (ms / 60000 mod 60) (ms / 1000 mod 60).

#[global] Arguments month_search : simpl never.
#[global] Arguments year_from_day : simpl never.
#[global] Arguments fields_of_time : simpl never.

(** [String(n).padStart(w, '0')] *)
Definition padded (w : nat) (n : Z) : string := pad_start w "0" (str_of_Z n).

(** [date.toISOString()] *)
Definition iso_year (y : Z) : string :=
  if (0 <=? y) && (y <=? 9999) then padded 4 y
  else if y <? 0 then "-" ++ padded 6 (- y) else "+" ++ padded 6 y.

Definition to_iso_string (t : Z) : string :=
  let f := fields_of_time t in
  iso_year (f_year f) ++ "-" ++ padded 2 (f_month f) ++ "-" ++ padded 2 (f_day f) ++ "T" ++
  padded 2 (f_hour f) ++ ":" ++ padded 2 (f_minute f) ++ ":" ++ padded 2 (f_second f) ++ "." ++
  padded 3 (t mod 1000) ++ "Z".

(** ** Parsing *)

(** [n] digits at the front of a string: their value and the rest. *)
Fixpoint take_digits (n : nat) (acc : Z) (s : string) : option (Z * string) :=
  match n, s with
  | O, _ => Some (acc, s)
  | S n', String c s' =>
      if is_digit c then take_digits n' (10 * acc + (Z.of_N (code c) - 48)) s' else None
  | _, EmptyString => None
  end.

Definition take_unit (c : ascii) (s : string) : option string :=
  match s with
  | String a s' => if Ascii.eqb a c then Some s' else None
  | EmptyString => None
  end.

(** The fraction of a second: the first three digits count, the others are dropped. *)
Fixpoint take_fraction (weight acc : Z) (s : string) : Z * string :=
  match s with
  | String c s' =>
      if is_digit c then take_fraction (weight / 10) (acc + weight * (Z.of_N (code c) - 48)) s'
      else (acc, s)
  | EmptyString => (acc, s)
  end.

(** [Z], [+hh:mm] or [-hh:mm], in milliseconds east of UTC. *)
Definition parse_zone (s : string) : option Z :=
  match s with
  | String "Z" EmptyString => Some 0
  | String sign s' =>
      '(h, s1) ← take_digits 2 0 s';
      s2 ← take_unit ":" s1;
      '(m, s3) ← take_digits 2 0 s2;
      match s3 with
      | EmptyString =>
          if Ascii.eqb sign "+" then Some (h * 3600000 + m * 60000)
          else if Ascii.eqb sign "-" then Some (- (h * 3600000 + m * 60000))
          else None
      | _ => None
      end
  | EmptyString => None
  end.

Definition days_in_month (y m : Z) : Z :=
  month_start (leap_day y) m - month_start (leap_day y) (m - 1).

(** [new Date(s).getTime()] of an ISO 8601 date-time with a time zone. *)
Definition parse_date (s : string) : option Z :=
  '(y, s) ← take_digits 4 0 s; s ← take_unit "-" s;
  '(m, s) ← take_digits 2 0 s; s ← take_unit "-" s;
  '(d, s) ← take_digits 2 0 s; s ← take_unit "T" s;
  '(h, s) ← take_digits 2 0 s; s ← take_unit ":" s;
  '(mi, s) ← take_digits 2 0 s; s ← take_unit ":" s;
  '(sec, s) ← take_digits 2 0 s;
  let '(ms, s) :=
    match s with
    | String "." s' => take_fraction 100 0 s'
    | _ => (0, s)
    end in
  zone ← parse_zone s;
  if (1 <=? m) && (m <=? 12) && (1 <=? d) && (d <=? days_in_month y m) &&
     (h <=? 23) && (mi <=? 59) && (sec <=? 59)
  then Some (make_day y (m - 1) d * ms_per_day + h * 3600000 + mi * 60000 + sec * 1000 + ms - zone)
  else None.

Example parse_iso : parse_date "2026-10-02T08:30:15.250Z" = Some 1790929815250.
Proof. vm_compute. reflexivity. Qed.

Example parse_laravel : parse_date "2026-10-02T10:30:15+02:00" = Some 1790929815000.
Proof. vm_compute. reflexivity. Qed.

Example print_iso : to_iso_string 1790929815250 = "2026-10-02T08:30:15.250Z".
Proof. vm_compute. reflexivity. Qed.

(** ** The calendar *)

(** Statements about the integers below [n] are decided by enumeration. *)
Lemma below_forall (p : Z -> bool) (n : nat) :
  forallb p (map Z.of_nat (seq 0 n)) = true -> forall x, 0 <= x < Z.of_nat n -> p x = true.
Proof.
  intros H x Hx. refine (proj1 (forallb_forall_elem _ _) H x _).
  apply list_elem_of_In, in_map_iff. exists (Z.to_nat x). rewrite in_seq. lia.
Qed.

Lemma day_from_year_period y k : day_from_year (y + 400 * k) = day_from_year y + 146097 * k.
Proof.
  unfold day_from_year.
  replace (y + 400 * k - 1969) with (y - 1969 + 100 * k * 4) by lia.
  replace (y + 400 * k - 1901) with (y - 1901 + 4 * k * 100) by lia.
  replace (y + 400 * k - 1601) with (y - 1601 + k * 400) by lia.
  rewrite !Z.div_add by lia. lia.
Qed.

Lemma leap_day_period y : leap_day y = leap_day (y mod 400).
Proof.
  assert (H : forall k z, leap_day (z + 400 * k) = leap_day z).
  { intros k z. unfold leap_day. rewrite day_from_year_period.
    replace (z + 400 * k + 1) with (z + 1 + 400 * k) by lia.
    rewrite day_from_year_period. lia. }
  rewrite (Z.div_mod y 400) at 1 by lia.
  replace (400 * (y / 400) + y mod 400) with (y mod 400 + 400 * (y / 400)) by lia. apply H.
Qed.

Lemma leap_day_range y : 0 <= leap_day y <= 1.
Proof.
  rewrite leap_day_period.
  assert (H : forall x, 0 <= x < 400 -> (0 <=? leap_day x) && (leap_day x <=? 1) = true).
  { apply (below_forall _ 400). vm_compute. reflexivity. }
  specialize (H (y mod 400) (Z.mod_pos_bound y 400 ltac:(lia))). lia.
Qed.

Lemma day_from_year_mono y1 y2 : y1 < y2 -> day_from_year y1 + 365 <= day_from_year y2.
Proof.
  intros H. assert (Hstep : forall z, day_from_year z + 365 <= day_from_year (z + 1)).
  { intros z. pose proof (leap_day_range z). unfold leap_day in *. lia. }
  assert (Hn : forall n : nat, day_from_year y1 + 365 <= day_from_year (y1 + 1 + Z.of_nat n)).
  { induction n as [|n IH]; [rewrite Z.add_0_r; apply Hstep|].
    specialize (Hstep (y1 + 1 + Z.of_nat n)).
    replace (y1 + 1 + Z.of_nat (S n)) with (y1 + 1 + Z.of_nat n + 1) by lia. lia. }
  specialize (Hn (Z.to_nat (y2 - y1 - 1))).
  replace (y1 + 1 + Z.of_nat (Z.to_nat (y2 - y1 - 1))) with y2 in Hn by lia. done.
Qed.

Lemma year_from_day_spec day :
  day_from_year (year_from_day day) <= day < day_from_year (year_from_day day + 1).
Proof.
  unfold year_from_day. set (y := 400 * day / 146097 + 1970).
  assert (Hlo : day_from_year (y - 1) <= day) by (unfold day_from_year, y; div_lia).
  assert (Hhi : day < day_from_year (y + 2)) by (unfold day_from_year, y; div_lia).
  destruct (Z.leb_spec (day_from_year (y + 1)) day).
  - replace (y + 1 + 1) with (y + 2) by lia. lia.
  - destruct (Z.ltb_spec day (day_from_year y)); [|lia].
    replace (y - 1 + 1) with y by lia. lia.
Qed.

Lemma year_from_day_unique y day :
  day_from_year y <= day < day_from_year (y + 1) -> year_from_day day = y.
Proof.
  intros H. pose proof (year_from_day_spec day) as H'.
  destruct (Z.lt_trichotomy (year_from_day day) y) as [Hl|[He|Hg]]; [|done|].
  - destruct (Z.eq_dec (year_from_day day + 1) y) as [He|Hne]; [subst; lia|].
    pose proof (day_from_year_mono (year_from_day day + 1) y). lia.
  - destruct (Z.eq_dec (y + 1) (year_from_day day)) as [He|Hne]; [rewrite He in H; lia|].
    pose proof (day_from_year_mono (y + 1) (year_from_day day)). lia.
Qed.

Lemma month_search_spec leap doy :
  0 <= leap <= 1 -> 0 <= doy < 365 + leap ->
  0 <= month_search 11 leap doy <= 11 /\
  month_start leap (month_search 11 leap doy) <= doy <
    month_start leap (month_search 11 leap doy + 1).
Proof.
  intros Hl Hd.
  assert (H : forall l, 0 <= l < 2 -> forallb (fun d =>
    (365 + l <=? d) ||
    let m := month_search 11 l d in
    (0 <=? m) && (m <=? 11) && (month_start l m <=? d) && (d <? month_start l (m + 1)))
    (map Z.of_nat (seq 0 366)) = true).
  { apply (below_forall _ 2). vm_compute. reflexivity. }
  specialize (H leap ltac:(lia)).
  pose proof (below_forall _ 366 H doy ltac:(lia)) as Hx. cbn beta in Hx.
  apply orb_true_iff in Hx as [Hx|Hx]; [lia|]. cbv zeta in Hx. bool_hyps. lia.
Qed.

Lemma month_start_mono leap m1 m2 :
  0 <= leap <= 1 -> 0 <= m1 -> m1 < m2 -> m2 <= 12 -> month_start leap m1 < month_start leap m2.
Proof.
  intros Hl H1 H2 H3.
  assert (H : forall l, 0 <= l < 2 -> forallb (fun a =>
    forallb (fun b => (b <=? a) || (month_start l a <? month_start l b))
      (map Z.of_nat (seq 0 13))) (map Z.of_nat (seq 0 13)) = true).
  { apply (below_forall _ 2). vm_compute. reflexivity. }
  specialize (H leap ltac:(lia)).
  pose proof (below_forall _ 13 H m1 ltac:(lia)) as Hx. cbn beta in Hx.
  pose proof (below_forall _ 13 Hx m2 ltac:(lia)) as Hy. cbn beta in Hy. lia.
Qed.

Lemma month_search_unique leap m doy :
  0 <= leap <= 1 -> 0 <= m <= 11 -> month_start leap m <= doy < month_start leap (m + 1) ->
  month_search 11 leap doy = m.
Proof.
  intros Hl Hm Hd.
  assert (H0 : 0 <= doy).
  { destruct (Z.eq_dec m 0) as [->|]; [simpl in Hd; lia|].
    pose proof (month_start_mono leap 0 m Hl ltac:(lia) ltac:(lia) ltac:(lia)). simpl in *. lia. }
  assert (Hmax : doy < 365 + leap).
  { destruct (Z.eq_dec m 11) as [->|]; [simpl in Hd; lia|].
    pose proof (month_start_mono leap (m + 1) 12 Hl ltac:(lia) ltac:(lia) ltac:(lia)).
    simpl in *. lia. }
  destruct (month_search_spec leap doy Hl ltac:(lia)) as [Hr Hs].
  set (m' := month_search 11 leap doy) in *.
  destruct (Z.lt_trichotomy m' m) as [Hlt|[He|Hgt]]; [|done|].
  - destruct (Z.eq_dec (m' + 1) m) as [He|]; [rewrite He in Hs; lia|].
    pose proof (month_start_mono leap (m' + 1) m Hl ltac:(lia) ltac:(lia) ltac:(lia)). lia.
  - destruct (Z.eq_dec (m + 1) m') as [He|]; [rewrite He in Hd; lia|].
    pose proof (month_start_mono leap (m + 1) m' Hl ltac:(lia) ltac:(lia) ltac:(lia)). lia.
Qed.

(** A date and a time of day that exist. *)
Definition valid_fields (f : fields) : Prop :=
  1 <= f_month f <= 12 /\ 1 <= f_day f <= days_in_month (f_year f) (f_month f) /\
  0 <= f_hour f <= 23 /\ 0 <= f_minute f <= 59 /\ 0 <= f_second f <= 59.

(** The time value of a date and a time of day. *)
Definition time_of_fields (f : fields) : Z :=
  make_day (f_year f) (f_month f - 1) (f_day f) * ms_per_day +
  f_hour f * 3600000 + f_minute f * 60000 + f_second f * 1000.

Lemma make_day_small y m d : 0 <= m <= 11 ->
  make_day y m d = day_from_year y + month_start (leap_day y) m + d - 1.
Proof.
  intros Hm. unfold make_day. rewrite Z.div_small, Z.mod_small, Z.add_0_r by lia. done.
Qed.

Lemma time_of_day_bounds f : valid_fields f ->
  0 <= f_hour f * 3600000 + f_minute f * 60000 + f_second f * 1000 /\
  f_hour f * 3600000 + f_minute f * 60000 + f_second f * 1000 + 999 < ms_per_day.
Proof. unfold valid_fields, ms_per_day. lia. Qed.

Lemma time_of_day_split h mi s ms :
  0 <= mi <= 59 -> 0 <= s <= 59 -> 0 <= ms < 1000 ->
  let tod := h * 3600000 + mi * 60000 + s * 1000 + ms in
  tod / 3600000 = h /\ tod / 60000 mod 60 = mi /\ tod / 1000 mod 60 = s.
Proof.
  intros Hmi Hs Hms tod. split_and!.
  - symmetry. apply Z.div_unique with (mi * 60000 + s * 1000 + ms); unfold tod; lia.
  - replace (tod / 60000) with (mi + h * 60).
    + rewrite Z.mod_add, Z.mod_small by lia. done.
    + apply Z.div_unique with (s * 1000 + ms); unfold tod; lia.
  - replace (tod / 1000) with (s + (h * 60 + mi) * 60).
    + rewrite Z.mod_add, Z.mod_small by lia. done.
    + apply Z.div_unique with ms; unfold tod; lia.
Qed.

(** The fields of the time value of valid fields are those fields. *)
Lemma fields_of_time_of_fields f ms :
  valid_fields f -> 0 <= ms < 1000 -> fields_of_time (time_of_fields f + ms) = f.
Proof.
  intros Hv Hms. pose proof (time_of_day_bounds f Hv) as Hb.
  destruct f as [y m d h mi s]. unfold valid_fields, days_in_month in Hv. simpl in *.
  destruct Hv as (Hm & Hd & Hh & Hmi & Hs). pose proof (leap_day_range y) as Hl.
  unfold time_of_fields, fields_of_time. cbn [f_year f_month f_day f_hour f_minute f_second].
  rewrite make_day_small by lia.
  set (day := day_from_year y + month_start (leap_day y) (m - 1) + d - 1).
  set (tod := h * 3600000 + mi * 60000 + s * 1000 + ms).
  replace (day * ms_per_day + h * 3600000 + mi * 60000 + s * 1000 + ms)
    with (tod + day * ms_per_day) by (unfold tod; lia).
  rewrite Z.div_add, Z.mod_add by (unfold ms_per_day; lia).
  rewrite (Z.div_small tod), (Z.mod_small tod), Z.add_0_l by (unfold tod; lia).
  assert (Hdoy : month_start (leap_day y) (m - 1) <= day - day_from_year y <
    month_start (leap_day y) (m - 1 + 1)).
  { replace (m - 1 + 1) with m by lia. unfold day. lia. }
  assert (Hy : year_from_day day = y).
  { apply year_from_day_unique. unfold leap_day in *.
    assert (0 <= month_start (leap_day y) (m - 1)).
    { destruct (Z.eq_dec m 1) as [->|]; [done|].
      pose proof (month_start_mono (leap_day y) 0 (m - 1) (leap_day_range y)
        ltac:(lia) ltac:(lia) ltac:(lia)). simpl in *. lia. }
    assert (month_start (leap_day y) m <= 365 + leap_day y).
    { destruct (Z.eq_dec m 12) as [->|]; [done|].
      pose proof (month_start_mono (leap_day y) m 12 (leap_day_range y)
        ltac:(lia) ltac:(lia) ltac:(lia)). simpl in *. lia. }
    unfold day, leap_day in *. lia. }
  rewrite Hy, (month_search_unique _ (m - 1)) by (done || lia).
  pose proof (time_of_day_split h mi s ms Hmi Hs Hms) as Hsplit. cbv zeta in Hsplit.
  fold tod in Hsplit. destruct Hsplit as (-> & -> & ->).
  unfold day. f_equal; lia.
Qed.

(** Every time value has valid fields, and is their time value up to the millisecond. *)
Lemma time_of_fields_of_time t :
  valid_fields (fields_of_time t) /\ time_of_fields (fields_of_time t) = t - t mod 1000.
Proof.
  unfold fields_of_time. set (day := t / ms_per_day). set (tod := t mod ms_per_day).
  pose proof (year_from_day_spec day) as Hy. set (y := year_from_day day) in *.
  pose proof (leap_day_range y) as Hl.
  destruct (month_search_spec (leap_day y) (day - day_from_year y)) as [Hm Hd]; [done| |].
  { unfold leap_day in *. lia. }
  set (m := month_search 11 (leap_day y) (day - day_from_year y)) in *.
  assert (Ht : t = day * ms_per_day + tod) by (unfold day, tod, ms_per_day; div_lia).
  assert (Htod : 0 <= tod < ms_per_day) by (apply Z.mod_pos_bound; done).
  assert (Hmod : t mod 1000 = tod mod 1000).
  { rewrite Ht. replace (day * ms_per_day + tod) with (tod + day * 86400 * 1000)
      by (unfold ms_per_day; lia). apply Z.mod_add. lia. }
  split.
  - unfold valid_fields, days_in_month. cbn [f_year f_month f_day f_hour f_minute f_second].
    replace (m + 1 - 1) with m by lia. unfold ms_per_day in *. clear Ht Hmod. split_and!; try lia; clearbody tod; clear -Htod; div_lia.
  - unfold time_of_fields. cbn [f_year f_month f_day f_hour f_minute f_second].
    rewrite make_day_small by lia.
    replace (m + 1 - 1) with m by lia. rewrite Hmod.
    replace (day_from_year y + month_start (leap_day y) m +
      (day - day_from_year y - month_start (leap_day y) m + 1) - 1) with day by lia.
    rewrite Ht. unfold ms_per_day in *. clearbody tod day. clear -Htod. div_lia.
Qed.

(** ** Printing and parsing *)

Lemma days_in_month_le y m : 1 <= m <= 12 -> days_in_month y m <= 31.
Proof.
  intros Hm. pose proof (leap_day_range y) as Hl. unfold days_in_month.
  assert (Hx : forall l, 0 <= l < 2 -> forallb (fun m => month_start l (m + 1) - month_start l m <=? 31)
    (map Z.of_nat (seq 0 12)) = true) by (apply (below_forall _ 2); vm_compute; reflexivity).
  specialize (Hx (leap_day y) ltac:(lia)).
  pose proof (below_forall _ 12 Hx (m - 1) ltac:(lia)) as Hb. cbn beta in Hb.
  replace (m - 1 + 1) with m in Hb by lia. lia.
Qed.

Lemma take_digits_app n acc s v t :
  take_digits n acc s = Some (v, "") -> take_digits n acc (s ++ t) = Some (v, t).
Proof.
  revert acc s. induction n as [|n IH]; intros acc s H; simpl in *.
  - by injection H as -> ->.
  - destruct s as [|c s]; [done|]. simpl. destruct (is_digit c); [|done]. by apply IH.
Qed.

Definition reads_back (w : nat) (n : Z) : bool :=
  bool_decide (take_digits w 0 (padded w n) = Some (n, "")).

Lemma padded_2 n t : 0 <= n < 100 -> take_digits 2 0 (padded 2 n ++ t) = Some (n, t).
Proof.
  intros Hn. apply take_digits_app. apply (bool_decide_eq_true_1 _).
  refine (below_forall (reads_back 2) 100 _ n Hn). vm_compute. reflexivity.
Qed.

Lemma padded_4 n t : 0 <= n < 10000 -> take_digits 4 0 (padded 4 n ++ t) = Some (n, t).
Proof.
  intros Hn. apply take_digits_app. apply (bool_decide_eq_true_1 _).
  refine (below_forall (reads_back 4) (Z.to_nat 10000) _ n ltac:(lia)). vm_compute. reflexivity.
Qed.

Lemma padded_fraction n : 0 <= n < 1000 -> take_fraction 100 0 (padded 3 n ++ "Z") = (n, "Z").
Proof.
  intros Hn.
  apply (bool_decide_eq_true_1 _).
  refine (below_forall (fun n => bool_decide (take_fraction 100 0 (padded 3 n ++ "Z") = (n, "Z")))
    (Z.to_nat 1000) _ n ltac:(lia)).
  vm_compute. reflexivity.
Qed.

(** Parsing undoes printing, for the years an ISO string writes with four digits. *)
Lemma parse_to_iso_string t :
  0 <= f_year (fields_of_time t) <= 9999 -> parse_date (to_iso_string t) = Some t.
Proof.
  intros Hy. destruct (time_of_fields_of_time t) as [Hv Ht].
  unfold to_iso_string. destruct (fields_of_time t) as [y m d h mi s].
  pose proof Hv as Hv'. unfold valid_fields in Hv.
  cbn [f_year f_month f_day f_hour f_minute f_second] in *.
  destruct Hv as (Hm & Hd & Hh & Hmi & Hs).
  pose proof (days_in_month_le y m Hm) as Hd31.
  unfold iso_year, parse_date.
  replace ((0 <=? y) && (y <=? 9999)) with true by lia.
  rewrite padded_4 by lia. cbn -[padded take_digits take_fraction make_day days_in_month].
  rewrite padded_2 by lia. cbn -[padded take_digits take_fraction make_day days_in_month].
  rewrite padded_2 by lia. cbn -[padded take_digits take_fraction make_day days_in_month].
  rewrite padded_2 by lia. cbn -[padded take_digits take_fraction make_day days_in_month].
  rewrite padded_2 by lia. cbn -[padded take_digits take_fraction make_day days_in_month].
  rewrite padded_2 by lia. cbn -[padded take_digits take_fraction make_day days_in_month].
  rewrite padded_fraction by (apply Z.mod_pos_bound; lia).
  cbn -[make_day days_in_month].
  case_match eqn:E; [|exfalso; revert E; lia].
  f_equal. unfold time_of_fields in Ht. cbn -[make_day] in Ht. lia.
Qed.
