(* ===== verification/Timezone.v ===== *)
(** * Time zones of scheduled requests

    [resources/js/lib/timezone.ts]: the conversion between the value of a [datetime-local]
    input, read in the user's time zone, and the ISO instant the server stores.

    The time zone database is the parameter [tz_offset]: the offset of a zone from UTC, in
    milliseconds, at an instant.  [None] stands for a thrown [RangeError]. *)

From Stdlib Require Import String.
From S2P Require Import Prelude JsString JsRegExp JsDate.

Open Scope string_scope.
Open Scope Z_scope.

Record DateTimeParts := {
  year : Z; month : Z; day : Z; hour : Z; minute : Z; second : Z;
}.

Definition LOCAL_PATTERN : regexp := Eval vm_compute in
  parsed (regex "^(\d{4})-(\d{2})-(\d{2})T(\d{2}):(\d{2})$" "").

Section timezone.
Context (tz_offset : string -> Z -> Z).

(** [Intl.DateTimeFormat('en-US', ...).formatToParts(date)] with the options of the source:
    numeric year (counted from 1, also before the common era), two-digit fields and the 24-hour
    cycle, in the wall clock of the zone. *)
Definition format_to_parts (timezone : string) (t : Z) : list (string * string) :=
  let f := fields_of_time (t + tz_offset timezone t) in
  [ ("month", padded 2 (f_month f)); ("literal", "/"); ("day", padded 2 (f_day f));
    ("literal", "/"); ("year", str_of_Z (if f_year f <=? 0 then 1 - f_year f else f_year f));
    ("literal", ", ");
    ("hour", padded 2 (f_hour f)); ("literal", ":"); ("minute", padded 2 (f_minute f));
    ("literal", ":"); ("second", padded 2 (f_second f)) ].

(** [Object.fromEntries(entries)[key]] *)
Definition from_entries {A} (entries : list (string * A)) (key : string) : option A :=
  snd <$> find_first (fun p => str_eq (fst p) key) (rev entries).

Definition partsForTimezone (date : option Z) (timezone : string) : option DateTimeParts :=
  t ← date;
  let entries :=
    map (fun part => (fst part, str_to_number (snd part)))
      (List.filter (fun part => negb (str_eq (fst part) "literal")) (format_to_parts timezone t)) in
  let parts key missing := from_entries entries key ?? Some missing in
  year ← parts "year" 1970;
  month ← parts "month" 1;
  day ← parts "day" 1;
  hour ← parts "hour" 0;
  minute ← parts "minute" 0;
  second ← parts "second" 0;
  Some (Build_DateTimeParts year month day hour minute second).

Definition timezoneOffsetMilliseconds (date : Z) (timezone : string) : option Z :=
  parts ← partsForTimezone (Some date) timezone;
  let zonedTimestamp :=
    date_utc (year parts) (month parts - 1) (day parts) (hour parts) (minute parts)
      (second parts) in
  Some (zonedTimestamp - date).

Definition zonedDateTimeLocalToIso (value timezone : string) : option string :=
  match exec LOCAL_PATTERN value with
  | None => Some ""
  | Some m =>
      let number n := str_to_number (group m n ?? "") in
      year ← number 1%nat; month ← number 2%nat; day ← number 3%nat;
      hour ← number 4%nat; minute ← number 5%nat;
      let localAsUtc := date_utc year (month - 1) day hour minute 0 in
      firstOffset ← timezoneOffsetMilliseconds localAsUtc timezone;
      let firstUtc := localAsUtc - firstOffset in
      secondOffset ← timezoneOffsetMilliseconds firstUtc timezone;
      let utcTimestamp := localAsUtc - secondOffset in
      Some (to_iso_string utcTimestamp)
  end.

Definition isoToZonedDateTimeLocal (value timezone : string) : option string :=
  parts ← partsForTimezone (parse_date value) timezone;
  let pad part := padded 2 part in
  Some (str_of_Z (year parts) ++ "-" ++ pad (month parts) ++ "-" ++ pad (day parts) ++ "T" ++
        pad (hour parts) ++ ":" ++ pad (minute parts)).
End timezone.

(** ** Examples: a zone one hour east of UTC, two hours from its transition on *)

Definition two_offsets (transition before after : Z) (_ : string) (t : Z) : Z :=
  if t <? transition then before else after.

Definition example_zone : string -> Z -> Z := two_offsets 1774746000000 3600000 7200000.

Example to_iso_winter :
  zonedDateTimeLocalToIso example_zone "2026-01-15T09:30" "Europe/Paris" =
  Some "2026-01-15T08:30:00.000Z".
Proof. vm_compute. reflexivity. Qed.

Example to_iso_summer :
  zonedDateTimeLocalToIso example_zone "2026-07-15T09:30" "Europe/Paris" =
  Some "2026-07-15T07:30:00.000Z".
Proof. vm_compute. reflexivity. Qed.

Example from_iso_summer :
  isoToZonedDateTimeLocal example_zone "2026-07-15T07:30:00.000Z" "Europe/Paris" =
  Some "2026-07-15T09:30".
Proof. vm_compute. reflexivity. Qed.

(** ** Wall clocks *)

Lemma str_to_number_padded n : 0 <= n < 100 -> str_to_number (padded 2 n) = Some n.
Proof.
  intros Hn. apply (bool_decide_eq_true_1 _).
  refine (below_forall (fun n => bool_decide (str_to_number (padded 2 n) = Some n)) 100 _ n Hn).
  vm_compute. reflexivity.
Qed.

Lemma valid_fields_two_digits f : valid_fields f ->
  0 <= f_month f < 100 /\ 0 <= f_day f < 100 /\ 0 <= f_hour f < 100 /\
  0 <= f_minute f < 100 /\ 0 <= f_second f < 100.
Proof.
  intros Hv. pose proof (days_in_month_le (f_year f) (f_month f)) as Hd.
  destruct Hv as (Hm & Hr). specialize (Hd Hm). lia.
Qed.

Definition parts_of_fields (f : fields) : DateTimeParts :=
  Build_DateTimeParts (f_year f) (f_month f) (f_day f) (f_hour f) (f_minute f) (f_second f).

Section wall_clock.
Context (tz_offset : string -> Z -> Z) (tz : string).

(** What a clock of the zone shows at an instant. *)
Definition wall_clock (t : Z) : Z := t + tz_offset tz t.

(** The wall clock at [t] is in a year an ISO string writes with four digits (and [Date.UTC]
    does not take for a year of the twentieth century). *)
Definition readable (t : Z) : Prop := 100 <= f_year (fields_of_time (wall_clock t)) <= 9999.

Lemma partsForTimezone_fields t : readable t ->
  partsForTimezone tz_offset (Some t) tz = Some (parts_of_fields (fields_of_time (wall_clock t))).
Proof.
  unfold readable, partsForTimezone, format_to_parts, wall_clock. intros Hy.
  destruct (time_of_fields_of_time (t + tz_offset tz t)) as [Hv _].
  cbn -[padded str_of_Z str_to_number fields_of_time].
  destruct (fields_of_time (t + tz_offset tz t)) as [y m d h mi s].
  destruct (valid_fields_two_digits _ Hv) as (H1 & H2 & H3 & H4 & H5).
  cbn [f_year f_month f_day f_hour f_minute f_second] in *.
  destruct (Z.leb_spec y 0); [lia|].
  rewrite str_to_number_str_of_Z by lia. cbn -[padded str_of_Z str_to_number].
  rewrite !str_to_number_padded by lia. done.
Qed.

Lemma date_utc_fields f : 100 <= f_year f ->
  date_utc (f_year f) (f_month f - 1) (f_day f) (f_hour f) (f_minute f) (f_second f) =
  time_of_fields f.
Proof.
  intros Hy. unfold date_utc, time_of_fields.
  replace ((0 <=? f_year f) && (f_year f <=? 99)) with false by lia. done.
Qed.

(** The computed offset is the offset of the zone, for a wall clock on a whole second. *)
Lemma timezoneOffsetMilliseconds_offset t :
  readable t -> wall_clock t mod 1000 = 0 ->
  timezoneOffsetMilliseconds tz_offset t tz = Some (tz_offset tz t).
Proof.
  intros Hr Hs. unfold timezoneOffsetMilliseconds. rewrite partsForTimezone_fields by done.
  unfold readable in Hr.
  destruct (time_of_fields_of_time (wall_clock t)) as [_ Ht]. cbn.
  rewrite date_utc_fields, Ht, Hs by lia. unfold wall_clock. f_equal. lia.
Qed.
End wall_clock.

(** ** The format of a [datetime-local] value *)

(** [n] digits at the front of a string, as text. *)
Fixpoint digit_text (n : nat) (s : string) : option (string * string) :=
  match n, s with
  | O, _ => Some ("", s)
  | S n', String c s' =>
      if is_digit c then
        match digit_text n' s' with
        | Some (u, v) => Some (String c u, v)
        | None => None
        end
      else None
  | _, EmptyString => None
  end.

Definition local_groups (s : string) : option (list (nat * string)) :=
  '(y, s) ← digit_text 4 s; s ← take_unit "-" s;
  '(m, s) ← digit_text 2 s; s ← take_unit "-" s;
  '(d, s) ← digit_text 2 s; s ← take_unit "T" s;
  '(h, s) ← digit_text 2 s; s ← take_unit ":" s;
  '(mi, s) ← digit_text 2 s;
  match s with
  | EmptyString => Some [(5%nat, mi); (4%nat, h); (3%nat, d); (2%nat, m); (1%nat, y)]
  | _ => None
  end.

Lemma digit_text_app n s u v : digit_text n s = Some (u, v) -> s = u ++ v.
Proof.
  revert s u. induction n as [|n IH]; intros s u H; simpl in H.
  - by injection H as <- <-.
  - destruct s as [|c s]; [done|]. destruct (is_digit c); [|done].
    destruct (digit_text n s) as [[u' v']|] eqn:E; [|done]. injection H as <- <-.
    simpl. f_equal. by apply IH.
Qed.

(** How the pattern reads a group of digits, and one separator. *)
Lemma match_digits n prev s caps :
  re_match false false (re_repeat (S n) (RSet CDigit)) (MState prev s caps) =
  match digit_text (S n) s with
  | Some (u, v) => [MState (before_at prev u) v caps]
  | None => []
  end.
Proof.
  revert prev s. induction n as [|n IH]; intros prev s.
  - destruct s as [|c s]; [done|]. simpl. rewrite set_match_cs. simpl. by destruct (is_digit c).
  - change (re_repeat (S (S n)) (RSet CDigit)) with
      (RSeq (RSet CDigit) (re_repeat (S n) (RSet CDigit))).
    cbn [re_match ms_rest]. destruct s as [|c s]; [done|].
    rewrite set_match_cs. cbn [cset_mem].
    change (digit_text (S (S n)) (String c s)) with
      (if is_digit c then match digit_text (S n) s with
        | Some (u, v) => Some (String c u, v) | None => None end else None).
    destruct (is_digit c); [|done]. cbn [flat_map ms_caps]. rewrite IH, app_nil_r.
    by destruct (digit_text (S n) s) as [[u v]|].
Qed.

Lemma match_digit_group k n prev s caps :
  re_match false false (RGroup k (re_repeat (S n) (RSet CDigit))) (MState prev s caps) =
  match digit_text (S n) s with
  | Some (u, v) => [MState (before_at prev u) v ((k, u) :: caps)]
  | None => []
  end.
Proof.
  change (map (capture k (MState prev s caps))
    (re_match false false (re_repeat (S n) (RSet CDigit)) (MState prev s caps)) =
    match digit_text (S n) s with
    | Some (u, v) => [MState (before_at prev u) v ((k, u) :: caps)] | None => [] end).
  rewrite match_digits. destruct (digit_text (S n) s) as [[u v]|] eqn:E; [|done].
  apply digit_text_app in E as ->. simpl. unfold capture. simpl.
  rewrite length_app_str, Nat.add_sub, take_app_str. done.
Qed.

Lemma match_separator a prev s caps :
  re_match false false (RSet (CUnit a)) (MState prev s caps) =
  match take_unit a s with
  | Some v => [MState (Some a) v caps]
  | None => []
  end.
Proof.
  destruct s as [|c s]; [done|]. simpl. rewrite set_match_cs. simpl.
  destruct (Ascii.eqb_spec c a) as [->|]; done.
Qed.

Lemma local_pattern_shape :
  re_body LOCAL_PATTERN =
  RSeq RBegin (RSeq (RGroup 1 (re_repeat 4 (RSet CDigit))) (RSeq (RSet (CUnit "-"))
    (RSeq (RGroup 2 (re_repeat 2 (RSet CDigit))) (RSeq (RSet (CUnit "-"))
    (RSeq (RGroup 3 (re_repeat 2 (RSet CDigit))) (RSeq (RSet (CUnit "T"))
    (RSeq (RGroup 4 (re_repeat 2 (RSet CDigit))) (RSeq (RSet (CUnit ":"))
    (RSeq (RGroup 5 (re_repeat 2 (RSet CDigit))) REnd))))))))).
Proof. reflexivity. Qed.

Lemma re_match_seq ic ml a b st :
  re_match ic ml (RSeq a b) st = flat_map (re_match ic ml b) (re_match ic ml a st).
Proof. done. Qed.

(** The groups of a match are those the format describes. *)
Lemma exec_local_groups s :
  match_groups <$> exec LOCAL_PATTERN s = local_groups s.
Proof.
  unfold exec. rewrite (search_anchored LOCAL_PATTERN _ s local_pattern_shape eq_refl).
  unfold run. rewrite local_pattern_shape. cbn [re_ignore_case re_multiline LOCAL_PATTERN].
  unfold local_groups. rewrite re_match_seq.
  change (re_match false false RBegin (MState None s [])) with [MState None s []].
  cbn [flat_map].
  repeat (rewrite ?app_nil_r, re_match_seq;
    first [rewrite match_digit_group | rewrite match_separator];
    match goal with
    | |- context [flat_map _ (match ?x with _ => _ end)] =>
        destruct x as [[? ?]|] || destruct x as [?|]
    end;
    cbn [flat_map mbind option_bind]; [|reflexivity]).
  rewrite !app_nil_r. cbn [re_match]. unfold at_end. cbn [ms_rest].
  match goal with |- context [match ?x with EmptyString => _ | String _ _ => _ end] =>
    by destruct x end.
Qed.

(** The text of a [datetime-local] input for a date and a time. *)
Definition local_value (f : fields) : string :=
  str_of_Z (f_year f) ++ "-" ++ padded 2 (f_month f) ++ "-" ++ padded 2 (f_day f) ++ "T" ++
  padded 2 (f_hour f) ++ ":" ++ padded 2 (f_minute f).

Lemma digit_text_more n s u t : digit_text n s = Some (u, "") -> digit_text n (s ++ t) = Some (u, t).
Proof.
  revert s u. induction n as [|n IH]; intros s u H; simpl in *.
  - by injection H as <- ->.
  - destruct s as [|c s]; [done|]. simpl. destruct (is_digit c); [|done].
    destruct (digit_text n s) as [[u' v']|] eqn:E; [|done]. injection H as <- ->.
    by rewrite (IH s u' E).
Qed.

Lemma digit_text_padded n t : 0 <= n < 100 -> digit_text 2 (padded 2 n ++ t) = Some (padded 2 n, t).
Proof.
  intros Hn. apply digit_text_more, (bool_decide_eq_true_1 _).
  refine (below_forall (fun n => bool_decide (digit_text 2 (padded 2 n) = Some (padded 2 n, "")))
    100 _ n Hn).
  vm_compute. reflexivity.
Qed.

Lemma digit_text_year y t : 1000 <= y < 10000 -> digit_text 4 (str_of_Z y ++ t) = Some (str_of_Z y, t).
Proof.
  intros Hy. apply digit_text_more, (bool_decide_eq_true_1 _).
  assert (H : forall n, 0 <= n < 10000 -> (n <? 1000) ||
    bool_decide (digit_text 4 (str_of_Z n) = Some (str_of_Z n, "")) = true).
  { refine (below_forall _ (Z.to_nat 10000) _). vm_compute. reflexivity. }
  specialize (H y ltac:(lia)). by replace (y <? 1000) with false in H by lia.
Qed.

Lemma local_groups_value f : valid_fields f -> 1000 <= f_year f < 10000 ->
  local_groups (local_value f) =
  Some [(5%nat, padded 2 (f_minute f)); (4%nat, padded 2 (f_hour f)); (3%nat, padded 2 (f_day f));
        (2%nat, padded 2 (f_month f)); (1%nat, str_of_Z (f_year f))].
Proof.
  intros Hv Hy. destruct (valid_fields_two_digits f Hv) as (H1 & H2 & H3 & H4 & H5).
  unfold local_groups, local_value. rewrite digit_text_year by lia.
  cbn -[padded digit_text str_of_Z]. rewrite digit_text_padded by lia.
  cbn -[padded digit_text str_of_Z]. rewrite digit_text_padded by lia.
  cbn -[padded digit_text str_of_Z]. rewrite digit_text_padded by lia.
  cbn -[padded digit_text str_of_Z].
  rewrite <- (app_nil_r_str (padded 2 (f_minute f))) at 1. by rewrite digit_text_padded by lia.
Qed.

Lemma to_iso_string_nonempty t : to_iso_string t <> "".
Proof.
  unfold to_iso_string. cbv zeta. destruct (iso_year _) as [|c y]; done.
Qed.

(** A value that is not of the form YYYY-MM-DDThh:mm (in digits) is converted to the empty
    string, whatever the time zone; a value of that form never is converted to it. *)
Theorem zonedDateTimeLocalToIso_format tz_offset value timezone :
  zonedDateTimeLocalToIso tz_offset value timezone = Some "" <-> local_groups value = None.
Proof.
  rewrite <- exec_local_groups. unfold zonedDateTimeLocalToIso.
  destruct (exec LOCAL_PATTERN value) as [m|]; [|done]. split; [|done]. cbv beta zeta.
  intros H. repeat (apply bind_Some in H as (? & _ & H)).
  injection H as H. by apply to_iso_string_nonempty in H.
Qed.

Lemma groups_listed m y mo d h mi :
  match_groups m = [(5%nat, mi); (4%nat, h); (3%nat, d); (2%nat, mo); (1%nat, y)] ->
  group m 1 = Some y /\ group m 2 = Some mo /\ group m 3 = Some d /\ group m 4 = Some h /\
  group m 5 = Some mi.
Proof. intros Hm. unfold group. rewrite Hm. done. Qed.

(** The conversion of a value whose numbers and offsets are known. *)
Lemma zonedDateTimeLocalToIso_numbers tz_offset tz value m y mo d h mi o1 o2 :
  exec LOCAL_PATTERN value = Some m ->
  str_to_number (group m 1 ?? "") = Some y -> str_to_number (group m 2 ?? "") = Some mo ->
  str_to_number (group m 3 ?? "") = Some d -> str_to_number (group m 4 ?? "") = Some h ->
  str_to_number (group m 5 ?? "") = Some mi ->
  timezoneOffsetMilliseconds tz_offset (date_utc y (mo - 1) d h mi 0) tz = Some o1 ->
  timezoneOffsetMilliseconds tz_offset (date_utc y (mo - 1) d h mi 0 - o1) tz = Some o2 ->
  zonedDateTimeLocalToIso tz_offset value tz =
  Some (to_iso_string (date_utc y (mo - 1) d h mi 0 - o2)).
Proof.
  intros He H1 H2 H3 H4 H5 Ho1 Ho2. unfold zonedDateTimeLocalToIso. rewrite He. cbv zeta.
  apply bind_Some. exists y. split; [exact H1|]. apply bind_Some. exists mo. split; [exact H2|].
  apply bind_Some. exists d. split; [exact H3|]. apply bind_Some. exists h. split; [exact H4|].
  apply bind_Some. exists mi. split; [exact H5|]. apply bind_Some. exists o1. split; [exact Ho1|].
  apply bind_Some. exists o2. split; [exact Ho2|]. done.
Qed.

(** ** The instant of a local time *)

Section conversion.
Context (tz_offset : string -> Z -> Z) (tz : string).
Context (Hbound : forall t, - ms_per_day < tz_offset tz t < ms_per_day).
Context (Hsecond : forall t, tz_offset tz t mod 1000 = 0).

(** The instant the two rounds of the conversion arrive at. *)
Definition resolved (L : Z) : Z := L - tz_offset tz (L - tz_offset tz L).

Lemma time_of_fields_year g : valid_fields g ->
  day_from_year (f_year g) * ms_per_day <= time_of_fields g <
  day_from_year (f_year g + 1) * ms_per_day.
Proof.
  intros Hg. pose proof (fields_of_time_of_fields g 0 Hg ltac:(lia)) as He.
  rewrite Z.add_0_r in He. pose proof (year_from_day_spec (time_of_fields g / ms_per_day)) as Hs.
  assert (Hyg : f_year (fields_of_time (time_of_fields g)) =
    year_from_day (time_of_fields g / ms_per_day)) by (unfold fields_of_time; reflexivity).
  rewrite He in Hyg. rewrite <- Hyg in Hs. clear He Hyg.
  pose proof (Z.div_mod (time_of_fields g) ms_per_day ltac:(done)) as Hd.
  pose proof (Z.mod_pos_bound (time_of_fields g) ms_per_day ltac:(done)) as Hm.
  set (q := time_of_fields g / ms_per_day) in *. set (r := time_of_fields g mod ms_per_day) in *.
  rewrite Hd. unfold ms_per_day in *. lia.
Qed.

Lemma year_near f t : valid_fields f ->
  - 3 * ms_per_day <= t - time_of_fields f <= 3 * ms_per_day ->
  f_year f - 1 <= f_year (fields_of_time t) <= f_year f + 1.
Proof.
  intros Hv Ht. destruct (time_of_fields_of_time t) as [Hv' Ht'].
  pose proof (time_of_fields_year f Hv) as H1. pose proof (time_of_fields_year _ Hv') as H2. rewrite Ht' in H2.
  pose proof (Z.mod_pos_bound t 1000 ltac:(lia)) as Hms.
  set (y := f_year f) in *. set (y' := f_year (fields_of_time t)) in *.
  unfold ms_per_day in *. split; apply Z.nlt_ge; intros Hlt.
  - pose proof (day_from_year_mono (y' + 1) y ltac:(lia)). lia.
  - pose proof (day_from_year_mono (y + 1) y' ltac:(lia)). lia.
Qed.

Context (f : fields) (Hv : valid_fields f) (Hf0 : f_second f = 0).
Context (Hyear : 1000 <= f_year f <= 9998).

Lemma time_of_fields_second : time_of_fields f mod 1000 = 0.
Proof.
  unfold time_of_fields. rewrite Hf0. unfold ms_per_day.
  match goal with |- (?d * _ + _ + _ + _) mod _ = _ =>
    replace (d * 86400000 + f_hour f * 3600000 + f_minute f * 60000 + 0 * 1000) with
      ((d * 86400 + f_hour f * 3600 + f_minute f * 60) * 1000) by lia end.
  apply Z.mod_mul. lia.
Qed.

Lemma offset_at t : t mod 1000 = 0 -> - 2 * ms_per_day <= t - time_of_fields f <= 2 * ms_per_day ->
  timezoneOffsetMilliseconds tz_offset t tz = Some (tz_offset tz t).
Proof.
  intros Hs Ht. apply timezoneOffsetMilliseconds_offset.
  - unfold readable, wall_clock. specialize (Hbound t).
    pose proof (year_near f (t + tz_offset tz t) Hv). unfold ms_per_day in *. lia.
  - unfold wall_clock. rewrite Z.add_mod, Hs, Hsecond by lia. done.
Qed.

Lemma resolved_second : resolved (time_of_fields f) mod 1000 = 0.
Proof.
  unfold resolved. rewrite Zminus_mod, time_of_fields_second, Hsecond. done.
Qed.

Lemma zonedDateTimeLocalToIso_resolved :
  zonedDateTimeLocalToIso tz_offset (local_value f) tz =
  Some (to_iso_string (resolved (time_of_fields f))).
Proof.
  pose proof (exec_local_groups (local_value f)) as Hg.
  rewrite local_groups_value in Hg by (done || lia).
  apply fmap_Some in Hg as (m & He & Hg). symmetry in Hg.
  apply groups_listed in Hg as (G1 & G2 & G3 & G4 & G5).
  destruct (valid_fields_two_digits f Hv) as (H1 & H2 & H3 & H4 & H5).
  pose proof time_of_fields_second as Hs.
  assert (Hu : date_utc (f_year f) (f_month f - 1) (f_day f) (f_hour f) (f_minute f) 0 =
    time_of_fields f) by (rewrite <- Hf0; apply date_utc_fields; lia).
  unfold resolved. rewrite <- Hu.
  eapply zonedDateTimeLocalToIso_numbers;
    [ exact He | rewrite G1; apply str_to_number_str_of_Z; lia
    | rewrite G2; apply str_to_number_padded; done | rewrite G3; apply str_to_number_padded; done
    | rewrite G4; apply str_to_number_padded; done | rewrite G5; apply str_to_number_padded; done
    | .. ].
  - rewrite Hu. apply offset_at; [done|unfold ms_per_day; lia].
  - rewrite Hu. apply offset_at.
    + rewrite Zminus_mod, Hs, Hsecond. done.
    + specialize (Hbound (time_of_fields f)). unfold ms_per_day in *. lia.
Qed.

Lemma isoToZoned_local t :
  isoToZonedDateTimeLocal tz_offset (to_iso_string t) tz =
  Some (local_value (fields_of_time (wall_clock tz_offset tz t))) \/ 
  ~ (- ms_per_day <= t - time_of_fields f <= ms_per_day).
Proof.
  destruct (decide (- ms_per_day <= t - time_of_fields f <= ms_per_day)) as [Ht|]; [left|by right].
  assert (Hy : 0 <= f_year (fields_of_time t) <= 9999).
  { pose proof (year_near f t Hv). unfold ms_per_day in *. lia. }
  unfold isoToZonedDateTimeLocal. rewrite parse_to_iso_string by done.
  rewrite partsForTimezone_fields; [done|].
  unfold readable, wall_clock. specialize (Hbound t).
  pose proof (year_near f (t + tz_offset tz t) Hv). unfold ms_per_day in *. lia.
Qed.

End conversion.

(** ** One transition *)

Section transition.
Context (T before after : Z) (tz : string).
Context (Hbefore : - ms_per_day < before < ms_per_day) (Hafter : - ms_per_day < after < ms_per_day).
Context (Hsecond : before mod 1000 = 0 /\ after mod 1000 = 0).

Notation zone := (two_offsets T before after).

Lemma two_offsets_bound t : - ms_per_day < zone tz t < ms_per_day.
Proof. unfold two_offsets. by destruct (t <? T). Qed.

Lemma two_offsets_second t : zone tz t mod 1000 = 0.
Proof. unfold two_offsets. by destruct (t <? T), Hsecond. Qed.

(** When a clock of the zone shows [L] at some instant, it shows [L] at the instant found. *)
Lemma resolved_shown L :
  (exists t, wall_clock zone tz t = L) -> wall_clock zone tz (resolved zone tz L) = L.
Proof.
  intros [t Ht]. unfold wall_clock, resolved, two_offsets in *.
  destruct (Z.ltb_spec t T), (Z.ltb_spec L T);
    repeat match goal with |- context [?a <? ?b] => destruct (Z.ltb_spec a b) end; lia.
Qed.

(** In a gap the clock is advanced or put back by its width, according to the side of the
    transition on which the local time falls when it is read as UTC. *)
Lemma resolved_gap L : T + before <= L < T + after ->
  wall_clock zone tz (resolved zone tz L) =
  if L <? T then L - (after - before) else L + (after - before).
Proof.
  intros HL. unfold wall_clock, resolved, two_offsets.
  destruct (Z.ltb_spec L T);
    repeat match goal with |- context [?a <? ?b] => destruct (Z.ltb_spec a b) end; lia.
Qed.

Lemma zone_roundtrip f : valid_fields f -> f_second f = 0 -> 1000 <= f_year f <= 9998 ->
  (iso ← zonedDateTimeLocalToIso zone (local_value f) tz; isoToZonedDateTimeLocal zone iso tz) =
  Some (local_value (fields_of_time
    (wall_clock zone tz (resolved zone tz (time_of_fields f))))).
Proof.
  intros Hv Hs Hy.
  rewrite (zonedDateTimeLocalToIso_resolved zone tz two_offsets_bound two_offsets_second f)
    by done.
  change (isoToZonedDateTimeLocal zone
    (to_iso_string (resolved zone tz (time_of_fields f))) tz =
    Some (local_value (fields_of_time (wall_clock zone tz
      (resolved zone tz (time_of_fields f)))))).
  destruct (isoToZoned_local zone tz two_offsets_bound f Hv Hy
    (resolved zone tz (time_of_fields f))) as [H|H]; [exact H|].
  exfalso. apply H. unfold resolved.
  pose proof (two_offsets_bound (time_of_fields f - zone tz (time_of_fields f))). lia.
Qed.
End transition.

(** C38.  In a zone that changes its offset once (from and to an offset of whole seconds and less than a day), a
    [datetime-local] value of a year from 1000 to 9998 that a clock of the zone shows at some instant survives
    the conversion to an ISO instant and back, also when the clock shows it twice.  Years before 1000 do not
    ([early_years_changed]), and in the last year before 10000 an offset can lead to a year of five digits. *)
Theorem local_time_roundtrip T before after tz f :
  - ms_per_day < before < ms_per_day -> - ms_per_day < after < ms_per_day ->
  before mod 1000 = 0 /\ after mod 1000 = 0 ->
  valid_fields f -> f_second f = 0 -> 1000 <= f_year f <= 9998 ->
  (exists t, wall_clock (two_offsets T before after) tz t = time_of_fields f) ->
  (iso ← zonedDateTimeLocalToIso (two_offsets T before after) (local_value f) tz;
   isoToZonedDateTimeLocal (two_offsets T before after) iso tz) = Some (local_value f).
Proof.
  intros Hb Ha Hm Hv Hs Hy Ht. rewrite zone_roundtrip by done.
  rewrite resolved_shown by done. rewrite <- (Z.add_0_r (time_of_fields f)).
  by rewrite fields_of_time_of_fields by (done || lia).
Qed.

Lemma local_time_roundtrip_witness :
  local_value (Fields 2026 3 29 3 0 0) = "2026-03-29T03:00" /\
  (iso ← zonedDateTimeLocalToIso (two_offsets 1774746000000 3600000 7200000)
     (local_value (Fields 2026 3 29 3 0 0)) "Europe/Paris";
   isoToZonedDateTimeLocal (two_offsets 1774746000000 3600000 7200000) iso "Europe/Paris") =
  Some (local_value (Fields 2026 3 29 3 0 0)).
Proof.
  split; [vm_compute; reflexivity|].
  refine (local_time_roundtrip _ _ _ _ (Fields 2026 3 29 3 0 0) _ _ _ _ _ _ _).
  - vm_compute. split; congruence.
  - vm_compute. split; congruence.
  - vm_compute. split; congruence.
  - vm_compute. repeat split; congruence.
  - reflexivity.
  - vm_compute. split; congruence.
  - exists 1774746000000. vm_compute. reflexivity.
Defined.

(** The years before 1000, in a zone without offset: [Date.UTC] takes a year below 100 for one of the twentieth
    century, and a year of three digits comes back without its zero, which is no [datetime-local] value. *)
Lemma early_years_changed :
  let back value := iso ← zonedDateTimeLocalToIso (two_offsets 0 0 0) value "UTC";
                    isoToZonedDateTimeLocal (two_offsets 0 0 0) iso "UTC" in
  back "0999-06-15T12:00" = Some "999-06-15T12:00" /\ back "0050-06-15T12:00" = Some "1950-06-15T12:00" /\
  zonedDateTimeLocalToIso (two_offsets 0 0 0) "999-06-15T12:00" "UTC" = Some "".
Proof. split_and!; vm_compute; reflexivity. Qed.

(** A local time that the zone skips is moved by the width of the gap: forward when it does
    not lie before the transition read as UTC (zones east of Greenwich), backward otherwise. *)
Theorem skipped_local_time T before after tz f :
  - ms_per_day < before < ms_per_day -> - ms_per_day < after < ms_per_day ->
  before mod 1000 = 0 /\ after mod 1000 = 0 ->
  valid_fields f -> f_second f = 0 -> 1000 <= f_year f <= 9998 ->
  T + before <= time_of_fields f < T + after ->
  (iso ← zonedDateTimeLocalToIso (two_offsets T before after) (local_value f) tz;
   isoToZonedDateTimeLocal (two_offsets T before after) iso tz) =
  Some (local_value (fields_of_time (time_of_fields f +
    if time_of_fields f <? T then before - after else after - before))).
Proof.
  intros Hb Ha Hm Hv Hs Hy Ht. rewrite zone_roundtrip by done.
  rewrite resolved_gap by done. do 3 f_equal. destruct (time_of_fields f <? T); lia.
Qed.

Lemma skipped_local_time_witness :
  local_value (Fields 2026 3 29 2 30 0) = "2026-03-29T02:30" /\
  local_value (fields_of_time (time_of_fields (Fields 2026 3 29 2 30 0) +
    if time_of_fields (Fields 2026 3 29 2 30 0) <? 1774746000000
    then 3600000 - 7200000 else 7200000 - 3600000)) = "2026-03-29T03:30" /\
  (iso ← zonedDateTimeLocalToIso (two_offsets 1774746000000 3600000 7200000)
     (local_value (Fields 2026 3 29 2 30 0)) "Europe/Paris";
   isoToZonedDateTimeLocal (two_offsets 1774746000000 3600000 7200000) iso "Europe/Paris") =
  Some (local_value (fields_of_time (time_of_fields (Fields 2026 3 29 2 30 0) +
    if time_of_fields (Fields 2026 3 29 2 30 0) <? 1774746000000
    then 3600000 - 7200000 else 7200000 - 3600000))).
Proof.
  split; [vm_compute; reflexivity|]. split; [vm_compute; reflexivity|].
  refine (skipped_local_time _ _ _ _ (Fields 2026 3 29 2 30 0) _ _ _ _ _ _ _).
  - vm_compute. split; congruence.
  - vm_compute. split; congruence.
  - vm_compute. split; congruence.
  - vm_compute. repeat split; congruence.
  - reflexivity.
  - vm_compute. split; congruence.
  - vm_compute. split; congruence.
Defined.
