(* ===== verification/SqlPolicy.v ===== *)
(** * The governed SQL policy of the request form

    [resources/js/pages/query-requests/create.tsx], lines 104 to 285: the client's copy of the
    workspace SQL policy, which classifies one SQL statement and says why it is blocked.  The
    patterns are the source's own. *)

From Stdlib Require Import String.
From S2P Require Import Prelude JsString JsRegExp CaseFolding.

Open Scope string_scope.
Open Scope nat_scope.

Record SqlStatementPolicy := {
  sql_emergency_fallback_enabled : bool;
  sql_read_queries_enabled : bool;
  sql_insert_enabled : bool;
  sql_update_enabled : bool;
  sql_delete_enabled : bool;
  sql_create_table_enabled : bool;
  sql_alter_table_enabled : bool;
  sql_drop_table_enabled : bool;
  sql_truncate_table_enabled : bool;
}.

(** The keys of the policy that name a statement family. *)
Inductive family_key :=
| Kread | Kinsert | Kupdate | Kdelete | Kcreate_table | Kalter_table | Kdrop_table
| Ktruncate_table.

#[export] Instance family_key_eq_dec : EqDecision family_key.
Proof. solve_decision. Defined.

(** [policy[key]] *)
Definition policy_get (policy : SqlStatementPolicy) (k : family_key) : bool :=
  match k with
  | Kread => sql_read_queries_enabled policy
  | Kinsert => sql_insert_enabled policy
  | Kupdate => sql_update_enabled policy
  | Kdelete => sql_delete_enabled policy
  | Kcreate_table => sql_create_table_enabled policy
  | Kalter_table => sql_alter_table_enabled policy
  | Kdrop_table => sql_drop_table_enabled policy
  | Ktruncate_table => sql_truncate_table_enabled policy
  end.

Record statement_family := Family {
  family_id : family_key;
  family_label : string;
  family_pattern : regexp;
}.

Definition SQL_STATEMENT_FAMILIES : list statement_family := Eval vm_compute in
  [ Family Kread "Read queries" (parsed (regex "^(select|show|describe|desc|explain)\b" "i"));
    Family Kinsert "INSERT" (parsed (regex "^insert\b" "i"));
    Family Kupdate "UPDATE" (parsed (regex "^update\b" "i"));
    Family Kdelete "DELETE" (parsed (regex "^delete\b" "i"));
    Family Kcreate_table "CREATE TABLE" (parsed (regex "^create\s+(temporary\s+)?table\b" "i"));
    Family Kalter_table "ALTER TABLE" (parsed (regex "^alter\s+table\b" "i"));
    Family Kdrop_table "DROP TABLE" (parsed (regex "^drop\s+(temporary\s+)?table\b" "i"));
    Family Ktruncate_table "TRUNCATE TABLE" (parsed (regex "^truncate(?:\s+table)?\b" "i")) ].

Definition EMERGENCY_FALLBACK_BLOCKED_SQL_PATTERN : regexp := Eval vm_compute in
  parsed (regex "\b(grant|revoke|create\s+(?:user|role|database|extension|function|procedure|trigger|rule|foreign\s+data\s+wrapper|server|publication|subscription)|alter\s+(?:user|role|database|system|function|procedure|trigger|rule)|drop\s+(?:user|role|database|extension|function|procedure|trigger|rule|foreign\s+data\s+wrapper|server|publication|subscription)|copy|load\s+data|load_file|into\s+outfile|vacuum|analyze|reindex|cluster|checkpoint|call|prepare|execute|deallocate|discard|lock|listen|notify|unlisten|reset)\b" "i").

Definition UNSUPPORTED_SQL_POLICY_MESSAGE : string :=
  "This SQL statement is not supported by the governed SQL policy.".

(** The patterns the functions below write inline. *)
Definition WITH_PATTERN : regexp := Eval vm_compute in parsed (regex "^with\b" "i").
Definition TOP_LEVEL_PATTERN : regexp := Eval vm_compute in
  parsed (regex "^\s*(select|insert|update|delete)\b" "i").
Definition BLOCK_COMMENT_PATTERN : regexp := Eval vm_compute in
  parsed (regex "\/\*[\s\S]*?\*\/" "g").
Definition LINE_COMMENT_PATTERN : regexp := Eval vm_compute in parsed (regex "--.*$" "gm").
Definition EXPLAIN_PATTERN : regexp := Eval vm_compute in parsed (regex "^explain\b" "i").
Definition ANALYZE_PATTERN : regexp := Eval vm_compute in parsed (regex "\banalyze\b" "i").
Definition DO_PATTERN : regexp := Eval vm_compute in parsed (regex "^do\b" "i").
Definition TRANSACTION_PATTERN : regexp := Eval vm_compute in
  parsed (regex "^(begin|start\s+transaction|commit|rollback|savepoint|release\s+savepoint|set\s+transaction)\b" "i").
Definition ON_CONFLICT_PATTERN : regexp := Eval vm_compute in
  parsed (regex "\bon\s+conflict\b[\s\S]*\bdo\s+update\b" "i").
Definition ON_DUPLICATE_KEY_PATTERN : regexp := Eval vm_compute in
  parsed (regex "\bon\s+duplicate\s+key\s+update\b" "i").

(** The loop of [topLevelGovernedSql]: [rest] is [executableSql.slice(index)]. *)
Fixpoint top_level_from (parenthesisDepth : nat) (rest : string) : option string :=
  match rest with
  | EmptyString => None
  | String character rest' =>
      if Ascii.eqb character "(" then top_level_from (parenthesisDepth + 1) rest'
      else if Ascii.eqb character ")" then top_level_from (parenthesisDepth - 1) rest'
      else if negb (parenthesisDepth =? 0) then top_level_from parenthesisDepth rest'
      else
        match exec TOP_LEVEL_PATTERN rest with
        | Some statementMatch =>
            Some (drop_str (String.length (match_text statementMatch) -
                            String.length (group statementMatch 1 ?? "")) rest)
        | None => top_level_from parenthesisDepth rest'
        end
  end.

Definition topLevelGovernedSql (executableSql : string) : string :=
  if negb (test WITH_PATTERN executableSql) then executableSql
  else top_level_from 0 (drop_str 4 executableSql) ?? executableSql.

(** The comment-free, trimmed statement both functions below start from. *)
Definition executable_sql (sql : string) : string :=
  trim (replace_all LINE_COMMENT_PATTERN " " (replace_all BLOCK_COMMENT_PATTERN " " sql)).

Definition statement_family_of (topLevelSql : string) : option statement_family :=
  find_first (fun family => test (family_pattern family) topLevelSql) SQL_STATEMENT_FAMILIES.

Definition insert_performs_update (topLevelSql : string) : bool :=
  test ON_CONFLICT_PATTERN topLevelSql || test ON_DUPLICATE_KEY_PATTERN topLevelSql.

Definition EXPLAIN_ANALYZE_MESSAGE : string :=
  "EXPLAIN ANALYZE is not supported because it can execute the explained statement.".
Definition ADMINISTRATIVE_MESSAGE : string :=
  "Administrative, file, security-management, and procedural SQL statements remain blocked.".
Definition TRANSACTION_MESSAGE : string :=
  "Transaction-control SQL statements are blocked. Submit each executable statement in its own batch position.".
Definition disabled_message (label : string) : string :=
  label ++ " statements are disabled by the workspace administrator.".

Definition sqlStatementPolicyMessage (sql : string) (policy : SqlStatementPolicy)
    : option string :=
  let executableSql := executable_sql sql in
  if test EXPLAIN_PATTERN executableSql && test ANALYZE_PATTERN executableSql
  then Some EXPLAIN_ANALYZE_MESSAGE
  else if test DO_PATTERN executableSql ||
          test EMERGENCY_FALLBACK_BLOCKED_SQL_PATTERN executableSql
  then Some ADMINISTRATIVE_MESSAGE
  else if test TRANSACTION_PATTERN executableSql
  then Some TRANSACTION_MESSAGE
  else
    let topLevelSql := topLevelGovernedSql executableSql in
    match statement_family_of topLevelSql with
    | None =>
        if sql_emergency_fallback_enabled policy then None
        else Some UNSUPPORTED_SQL_POLICY_MESSAGE
    | Some statementFamily =>
        if negb (policy_get policy (family_id statementFamily))
        then Some (disabled_message (family_label statementFamily))
        else
          let insertPerformsUpdate :=
            bool_decide (family_id statementFamily = Kinsert) &&
            insert_performs_update topLevelSql in
          if insertPerformsUpdate && negb (sql_update_enabled policy)
          then Some "UPDATE statements are disabled by the workspace administrator."
          else None
    end.

Definition usesEmergencySqlFallback (sql : string) (policy : SqlStatementPolicy) : bool :=
  if negb (sql_emergency_fallback_enabled policy) then false
  else
    let executableSql := executable_sql sql in
    negb (existsb (fun family => test (family_pattern family) (topLevelGovernedSql executableSql))
            SQL_STATEMENT_FAMILIES).

(** ** Examples *)

Definition permissive : SqlStatementPolicy :=
  Build_SqlStatementPolicy true true true true true true true true true.
Definition read_only_policy : SqlStatementPolicy :=
  Build_SqlStatementPolicy false true false false false false false false false.

Example message_select : sqlStatementPolicyMessage "select 1" read_only_policy = None.
Proof. vm_compute. reflexivity. Qed.

Example message_commented_delete :
  sqlStatementPolicyMessage "/* x */ DELETE -- all of it" read_only_policy =
  Some "DELETE statements are disabled by the workspace administrator.".
Proof. vm_compute. reflexivity. Qed.

Example message_cte :
  topLevelGovernedSql "with a as (select 1) update t set x = 1" = "update t set x = 1".
Proof. vm_compute. reflexivity. Qed.

(** ** The policy does not depend on the case of letters *)

Lemma executable_sql_fold sql : executable_sql (fold_case sql) = fold_case (executable_sql sql).
Proof.
  unfold executable_sql. rewrite !replace_all_fold by (vm_compute; reflexivity).
  apply trim_fold.
Qed.

Lemma paren_open_fold c : Ascii.eqb (canon c) "(" = Ascii.eqb c "(".
Proof. revert c. by_units. Qed.

Lemma paren_close_fold c : Ascii.eqb (canon c) ")" = Ascii.eqb c ")".
Proof. revert c. by_units. Qed.

Lemma top_level_from_fold depth rest :
  top_level_from depth (fold_case rest) = fold_case <$> top_level_from depth rest.
Proof.
  revert depth. induction rest as [|c rest IH]; intros depth; [done|].
  change (fold_case (String c rest)) with (String (canon c) (fold_case rest)).
  cbn [top_level_from]. rewrite paren_open_fold, paren_close_fold, !IH.
  change (String (canon c) (fold_case rest)) with (fold_case (String c rest)).
  rewrite exec_fold by (vm_compute; reflexivity).
  destruct (Ascii.eqb c "("), (Ascii.eqb c ")"), (negb (depth =? 0)); try done.
  destruct (exec TOP_LEVEL_PATTERN (String c rest)) as [[t gs]|]; simpl; [|done].
  rewrite group_fold, length_fold. f_equal.
  assert (Hlen : String.length ((fold_case <$> group (MatchResult t gs) 1) ?? "") =
                 String.length (group (MatchResult t gs) 1 ?? "")).
  { destruct (group _ 1); simpl; [apply length_fold|done]. }
  rewrite Hlen. apply drop_fold.
Qed.

Lemma topLevelGovernedSql_fold sql :
  topLevelGovernedSql (fold_case sql) = fold_case (topLevelGovernedSql sql).
Proof.
  unfold topLevelGovernedSql. rewrite test_fold by (vm_compute; reflexivity).
  destruct (negb _); [done|]. rewrite drop_fold, top_level_from_fold.
  by destruct (top_level_from 0 _).
Qed.

Lemma families_fold_safe :
  forallb (fun f => pattern_fold_safe (family_pattern f)) SQL_STATEMENT_FAMILIES = true.
Proof. vm_compute. reflexivity. Qed.

Lemma family_test_fold f sql :
  f ∈ SQL_STATEMENT_FAMILIES ->
  test (family_pattern f) (fold_case sql) = test (family_pattern f) sql.
Proof.
  intros Hf. apply test_fold. exact (proj1 (forallb_forall_elem _ _) families_fold_safe f Hf).
Qed.

Lemma statement_family_of_fold sql : statement_family_of (fold_case sql) = statement_family_of sql.
Proof. apply find_first_ext. intros f Hf. by apply family_test_fold. Qed.

Lemma insert_performs_update_fold sql :
  insert_performs_update (fold_case sql) = insert_performs_update sql.
Proof. unfold insert_performs_update. by rewrite !test_fold by (vm_compute; reflexivity). Qed.

Lemma message_fold sql policy :
  sqlStatementPolicyMessage (fold_case sql) policy = sqlStatementPolicyMessage sql policy.
Proof.
  unfold sqlStatementPolicyMessage.
  by rewrite executable_sql_fold, !test_fold, topLevelGovernedSql_fold, statement_family_of_fold,
    insert_performs_update_fold by (vm_compute; reflexivity).
Qed.

Lemma fallback_existsb sql :
  existsb (fun f => test (family_pattern f) sql) SQL_STATEMENT_FAMILIES =
  is_some (statement_family_of sql).
Proof.
  unfold statement_family_of. induction SQL_STATEMENT_FAMILIES as [|f l IH]; simpl; [done|].
  by destruct (test (family_pattern f) sql).
Qed.

Lemma fallback_fold sql policy :
  usesEmergencySqlFallback (fold_case sql) policy = usesEmergencySqlFallback sql policy.
Proof.
  unfold usesEmergencySqlFallback.
  by rewrite executable_sql_fold, !fallback_existsb, topLevelGovernedSql_fold,
    statement_family_of_fold.
Qed.

(** C14.  The classification of a statement does not depend on the case of its letters: two
    statements that differ only in case get the same policy message, and the same answer to
    whether they need the emergency fallback, under every policy. *)
Theorem policy_case_insensitive sql sql' policy :
  same_letters sql sql' ->
  sqlStatementPolicyMessage sql policy = sqlStatementPolicyMessage sql' policy /\
  usesEmergencySqlFallback sql policy = usesEmergencySqlFallback sql' policy.
Proof.
  intros H. rewrite <- (message_fold sql), <- (fallback_fold sql), H.
  by rewrite message_fold, fallback_fold.
Qed.

Lemma policy_case_insensitive_witness :
  same_letters "delete FROM t" "DELETE from T" /\
  sqlStatementPolicyMessage "delete FROM t" read_only_policy =
    sqlStatementPolicyMessage "DELETE from T" read_only_policy.
Proof.
  split; [vm_compute; reflexivity|].
  apply (policy_case_insensitive "delete FROM t" "DELETE from T" read_only_policy).
  vm_compute. reflexivity.
Defined.

(** ** The order on policies *)

(** [q] permits at least what [p] permits. *)
Definition policy_le (p q : SqlStatementPolicy) : Prop :=
  (forall k, policy_get p k = true -> policy_get q k = true) /\
  (sql_emergency_fallback_enabled p = true -> sql_emergency_fallback_enabled q = true).

#[export] Instance policy_le_preorder : PreOrder policy_le.
Proof. split; [done|]. intros p q r [H1 H2] [H3 H4]. split; auto. Qed.

(** Enabling more statement families, or the emergency fallback, never blocks a statement
    that was allowed. *)
Theorem policy_monotone sql p q :
  policy_le p q -> sqlStatementPolicyMessage sql p = None ->
  sqlStatementPolicyMessage sql q = None.
Proof.
  intros [Hfam Hfb]. unfold sqlStatementPolicyMessage.
  destruct (test EXPLAIN_PATTERN _ && _); [done|].
  destruct (test DO_PATTERN _ || _); [done|]. destruct (test TRANSACTION_PATTERN _); [done|].
  destruct (statement_family_of _) as [f|].
  - destruct (policy_get p (family_id f)) eqn:Hp; [|done]. rewrite (Hfam _ Hp). simpl.
    destruct (bool_decide (family_id f = Kinsert) && _); simpl; [|done].
    destruct (sql_update_enabled p) eqn:Hu; [|done].
    specialize (Hfam Kupdate Hu). simpl in Hfam. by rewrite Hfam.
  - destruct (sql_emergency_fallback_enabled p); [|done]. by rewrite Hfb.
Qed.

Lemma policy_monotone_witness :
  policy_le read_only_policy permissive /\
  sqlStatementPolicyMessage "select 1" permissive = None.
Proof.
  assert (H : policy_le read_only_policy permissive) by (split; [by intros []|done]).
  split; [exact H|]. apply (policy_monotone "select 1" read_only_policy permissive H).
  vm_compute. reflexivity.
Defined.

(** ** Statements no policy admits *)

(** The body of [EMERGENCY_FALLBACK_BLOCKED_SQL_PATTERN] is [\b(...)\b]; these are the
    alternatives of its group, and those of them that are a single word. *)
Definition blocked_branches : list re :=
  match re_body EMERGENCY_FALLBACK_BLOCKED_SQL_PATTERN with
  | RSeq RWordB (RSeq (RGroup 1 r) RWordB) => branches r
  | _ => []
  end.

Definition blocked_words : list string :=
  [ "grant"; "revoke"; "copy"; "load_file"; "vacuum"; "analyze"; "reindex"; "cluster";
    "checkpoint"; "call"; "prepare"; "execute"; "deallocate"; "discard"; "lock"; "listen";
    "notify"; "unlisten"; "reset" ].

Lemma blocked_words_branches w :
  w ∈ blocked_words -> is_keyword w = true /\ lit w ∈ blocked_branches.
Proof.
  intros Hw.
  assert (H : forallb (fun w => is_keyword w && bool_decide (lit w ∈ blocked_branches))
    blocked_words = true) by (vm_compute; reflexivity).
  pose proof (proj1 (forallb_forall_elem _ _) H w Hw) as Hx. simpl in Hx.
  apply andb_true_iff in Hx as [? Hx]. split; [done|]. by apply bool_decide_eq_true in Hx.
Qed.

(** The unit before the end of a string, and whether a word can start after it. *)
Definition ends_with_word (a : string) : bool :=
  match before_at None a with Some c => is_word c | None => false end.

Lemma blocked_word_test w a u b :
  w ∈ blocked_words -> same_letters u w ->
  ends_with_word a = false -> starts_with_unit is_word b = false ->
  test EMERGENCY_FALLBACK_BLOCKED_SQL_PATTERN (a ++ u ++ b) = true.
Proof.
  intros Hw Hu Ha Hb. destruct (blocked_words_branches w Hw) as [Hkw Hbr].
  set (st := MState (before_at None a) (u ++ b) []).
  apply test_iff. exists a, (u ++ b), (capture 1 st (advance st u b)).
  split; [done|]. fold st. eapply M_seq.
  - apply M_wordb. unfold ends_with_word in Ha.
    assert (word_before st = false) as -> by exact Ha.
    pose proof (keyword_first u) as Hfirst. rewrite (keyword_letters u w Hu) in Hfirst.
    specialize (Hfirst Hkw). by destruct u.
  - eapply M_seq.
    + apply M_group. apply matches_branch with (lit w); [exact Hbr|].
      apply matches_lit. by exists u, b.
    + apply M_wordb.
      transitivity (xorb (word_before (advance st u b)) (word_after (advance st u b)));
        [done|]. by rewrite (wordb_after_keyword st u b w), Hb.
Qed.

(** C15.  An administrative, security or file keyword standing anywhere in the statement as a
    word of its own, in any case, blocks it under every policy, the emergency fallback
    included; the message says so (or that it is an EXPLAIN ANALYZE). *)
Theorem blocked_words_always_blocked sql w a u b policy :
  w ∈ blocked_words -> same_letters u w ->
  executable_sql sql = a ++ u ++ b ->
  ends_with_word a = false -> starts_with_unit is_word b = false ->
  sqlStatementPolicyMessage sql policy = Some ADMINISTRATIVE_MESSAGE \/
  sqlStatementPolicyMessage sql policy = Some EXPLAIN_ANALYZE_MESSAGE.
Proof.
  intros Hw Hu Hsql Ha Hb. unfold sqlStatementPolicyMessage.
  rewrite Hsql, (blocked_word_test w a u b) by done. rewrite orb_true_r.
  destruct (test EXPLAIN_PATTERN _ && _); auto.
Qed.

Lemma blocked_words_always_blocked_witness :
  sqlStatementPolicyMessage "select 1; GRANT all" permissive = Some ADMINISTRATIVE_MESSAGE \/
  sqlStatementPolicyMessage "select 1; GRANT all" permissive = Some EXPLAIN_ANALYZE_MESSAGE.
Proof.
  apply (blocked_words_always_blocked "select 1; GRANT all" "grant" "select 1; " "GRANT" " all");
    [|vm_compute; reflexivity|vm_compute; reflexivity|reflexivity|reflexivity].
  apply list_elem_of_here.
Defined.

(** ** Allowed statements *)

(** What an allowed statement is: it is not an EXPLAIN ANALYZE, contains nothing
    administrative and is no transaction control; and either its family is enabled (with the
    UPDATE family too when an INSERT updates on conflict), or it belongs to no family, in which
    case the emergency fallback is enabled and the statement is reported as using it. *)
Theorem allowed_statement sql policy :
  sqlStatementPolicyMessage sql policy = None <->
  (test EXPLAIN_PATTERN (executable_sql sql) = false \/
   test ANALYZE_PATTERN (executable_sql sql) = false) /\
  test DO_PATTERN (executable_sql sql) = false /\
  test EMERGENCY_FALLBACK_BLOCKED_SQL_PATTERN (executable_sql sql) = false /\
  test TRANSACTION_PATTERN (executable_sql sql) = false /\
  ((exists f, statement_family_of (topLevelGovernedSql (executable_sql sql)) = Some f /\
      policy_get policy (family_id f) = true /\
      usesEmergencySqlFallback sql policy = false /\
      (family_id f = Kinsert ->
       insert_performs_update (topLevelGovernedSql (executable_sql sql)) = true ->
       policy_get policy Kupdate = true)) \/
   (statement_family_of (topLevelGovernedSql (executable_sql sql)) = None /\
    usesEmergencySqlFallback sql policy = true)).
Proof.
  unfold sqlStatementPolicyMessage, usesEmergencySqlFallback.
  rewrite fallback_existsb, !early_return_none, andb_false_iff, orb_false_iff.
  set (e := executable_sql sql). set (t := topLevelGovernedSql e).
  assert (Htail :
    match statement_family_of t with
    | None => if sql_emergency_fallback_enabled policy then None
              else Some UNSUPPORTED_SQL_POLICY_MESSAGE
    | Some f =>
        if negb (policy_get policy (family_id f)) then Some (disabled_message (family_label f))
        else if (bool_decide (family_id f = Kinsert) && insert_performs_update t) &&
                negb (sql_update_enabled policy)
             then Some "UPDATE statements are disabled by the workspace administrator."
             else None
    end = None <->
    (exists f, statement_family_of t = Some f /\ policy_get policy (family_id f) = true /\
      (family_id f = Kinsert -> insert_performs_update t = true ->
       policy_get policy Kupdate = true)) \/
    (statement_family_of t = None /\ sql_emergency_fallback_enabled policy = true)).
  { destruct (statement_family_of t) as [f|].
    - rewrite !early_return_none, negb_false_iff, !andb_false_iff, negb_false_iff,
        bool_decide_eq_false. simpl.
      destruct (decide (family_id f = Kinsert)), (insert_performs_update t),
        (sql_update_enabled policy); naive_solver.
    - destruct (sql_emergency_fallback_enabled policy); naive_solver. }
  rewrite Htail. destruct (statement_family_of t); simpl;
    destruct (sql_emergency_fallback_enabled policy); simpl; naive_solver.
Qed.

(** ** The top-level statement of a common-table expression *)

Definition dml_words : list string := ["select"; "insert"; "update"; "delete"].

(** The parenthesis depth the loop has reached after reading [s]. *)
Fixpoint depth_after (depth : nat) (s : string) : nat :=
  match s with
  | EmptyString => depth
  | String c s' =>
      depth_after
        (if Ascii.eqb c "(" then depth + 1 else if Ascii.eqb c ")" then depth - 1 else depth) s'
  end.

Fixpoint all_space (s : string) : bool :=
  match s with EmptyString => true | String c s' => is_space c && all_space s' end.

Definition top_level_group : re :=
  match re_body TOP_LEVEL_PATTERN with
  | RSeq RBegin (RSeq (RStar true (RSet CSpace)) (RSeq (RGroup 1 r) RWordB)) => r
  | _ => REmpty
  end.

Lemma top_level_branches : branches top_level_group = map lit dml_words.
Proof. vm_compute. reflexivity. Qed.

Lemma dml_keyword w : w ∈ dml_words -> is_keyword w = true.
Proof.
  intros Hw. refine (proj1 (forallb_forall_elem is_keyword dml_words) _ w Hw).
  vm_compute. reflexivity.
Qed.

Lemma space_not_word c : is_space c = true -> is_word c = false.
Proof.
  assert (H : forall c, implb (is_space c) (negb (is_word c)) = true).
  { apply all_units_forall. vm_compute. reflexivity. }
  specialize (H c). intros Hc. rewrite Hc in H. by apply negb_true_iff in H.
Qed.

Lemma head_word_unit w c s : is_keyword w = true -> is_word c = false -> ~ head_word w (String c s).
Proof.
  intros Hw Hc (u & v & Hs & Hu & _). rewrite <- (keyword_letters u w Hu) in Hw.
  apply keyword_first in Hw. destruct u as [|d u]; [done|]. injection Hs as <- _.
  simpl in Hw. congruence.
Qed.

Lemma space_not_paren c : is_space c = true -> Ascii.eqb c "(" = false /\ Ascii.eqb c ")" = false.
Proof.
  assert (H : forall c, implb (is_space c) (negb (Ascii.eqb c "(" || Ascii.eqb c ")")) = true).
  { apply all_units_forall. vm_compute. reflexivity. }
  specialize (H c). intros Hc. rewrite Hc in H. apply negb_true_iff, orb_false_iff in H. done.
Qed.

Lemma depth_after_space d s : all_space s = true -> depth_after d s = d.
Proof.
  induction s as [|c s IH]; simpl; [done|]. intros H. bool_hyps.
  destruct (space_not_paren c) as [-> ->]; auto.
Qed.

Lemma reset_groups_nil st : reset_groups [] st = st.
Proof.
  destruct st as [p r l]. unfold reset_groups. simpl. f_equal.
  induction l as [|g l IH]; simpl; congruence.
Qed.

Lemma matches_spaces ic ml st st' :
  matches ic ml (RStar true (RSet CSpace)) st st' ->
  exists sp, ms_rest st = sp ++ ms_rest st' /\ (ic = true -> all_space sp = true) /\
    ms_caps st' = ms_caps st.
Proof.
  remember (RStar true (RSet CSpace)) as r eqn:Hr. induction 1 as
    [| | | | |g a st|g a st st1 st2 H1 _ Hadv H2 IH| | | | | |]; simplify_eq.
  - by exists "".
  - destruct (IH eq_refl) as (sp & Hs & Hsp & Hc). simpl in H1.
    rewrite reset_groups_nil in H1. inversion H1 as [|s p c rest caps Hm| | | | | | | | | | |]; subst.
    simpl in *. exists (String c sp). split_and!; [by rewrite Hs| |done].
    intros ->. simpl. rewrite Hsp, andb_true_r by done.
    apply set_match_ic in Hm as (b & Hb & Hm). simpl in Hm.
    by rewrite <- is_space_canon, <- Hb, is_space_canon.
Qed.

Lemma exec_top_level_Some rest m :
  exec TOP_LEVEL_PATTERN rest = Some m ->
  exists sp out, rest = sp ++ out /\ all_space sp = true /\
    String.length (match_text m) - String.length (group m 1 ?? "") = String.length sp /\
    exists w, w ∈ dml_words /\ head_word w out.
Proof.
  unfold exec. destruct (search _ _ _) as [[st st']|] eqn:E; [|done]. intros [= <-].
  apply search_Some in E as (w & Hrest & Hprev & Hcaps & Hm).
  unfold matches_at in Hm. simpl in Hm.
  inversion Hm as [| |? ? ? st1 ? Hbegin Htail| | | | | | | | | |]; subst; clear Hm.
  inversion Hbegin as [| | | | | | | | | | |? Hat|]; subst; clear Hbegin.
  inversion Htail as [| |? ? ? st2 ? Hsp Hend| | | | | | | | | |]; subst; clear Htail.
  inversion Hend as [| |? ? ? st3 ? Hgroup Hword| | | | | | | | | |]; subst; clear Hend.
  inversion Hgroup as [| | | | | | | | |? ? ? st4 Hdml| | |]; subst; clear Hgroup.
  inversion Hword as [| | | | | | | | | |? Hb| |]; subst; clear Hword.
  apply matches_spaces in Hsp as (sp & Hs1 & Hspace & Hc1). specialize (Hspace eq_refl).
  apply matches_branch_inv in Hdml as (b & Hbr & Hlit).
  change (b ∈ branches top_level_group) in Hbr. rewrite top_level_branches in Hbr.
  apply list_elem_of_In, in_map_iff in Hbr as (kw & <- & Hkw). apply list_elem_of_In in Hkw.
  apply matches_lit in Hlit as (u & v & Hs2 & Hu & ->).
  destruct w as [|c w]; simpl in Hprev.
  2:{ unfold at_begin in Hat. rewrite Hprev in Hat. exfalso.
      assert (forall c, is_Some (before_at (Some c) w)) as Hs by
        (clear; induction w; simpl; eauto).
      destruct (Hs c) as [d Hd]. rewrite Hd in Hat. done. }
  exists sp, (u ++ v).
  assert (Hstart : ms_rest st1 = sp ++ u ++ v) by (by rewrite Hs1, Hs2).
  split_and!; [done|done| |].
  - unfold consumed, capture, group. simpl. rewrite Hstart, Hs2, !length_app_str.
    replace (String.length sp + (String.length u + String.length v) - String.length v)
      with (String.length (sp ++ u)) by (rewrite length_app_str; lia).
    replace (String.length u + String.length v - String.length v)
      with (String.length u) by lia.
    rewrite <- app_assoc_str, !take_app_str, length_app_str. lia.
  - exists kw. split; [done|]. exists u, v. split_and!; [done|done|].
    change (xorb (word_before (advance st2 u v)) (word_after (advance st2 u v)) = true) in Hb.
    rewrite (wordb_after_keyword st2 u v kw) in Hb by auto using dml_keyword.
    by apply negb_true_iff in Hb.
Qed.

Lemma exec_top_level_None rest w :
  exec TOP_LEVEL_PATTERN rest = None -> w ∈ dml_words -> ~ head_word w rest.
Proof.
  unfold exec. destruct (search _ _ _) as [[st st']|] eqn:E; [done|]. intros _ Hw (u & v & -> & Hu & Hv).
  set (st := MState None (u ++ v) []).
  apply (search_None _ _ _ E "" (u ++ v) (capture 1 st (advance st u v)) eq_refl).
  change (before_at None "") with (@None ascii). fold st.
  eapply M_seq; [by apply M_begin|]. eapply M_seq; [apply M_star_stop|]. eapply M_seq.
  - apply M_group. apply matches_branch with (lit w); [|apply matches_lit; by exists u, v].
    change (lit w ∈ branches top_level_group). rewrite top_level_branches.
    by apply list_elem_of_In, in_map, list_elem_of_In.
  - apply M_wordb.
    change (xorb (word_before (advance st u v)) (word_after (advance st u v)) = true).
    by rewrite (wordb_after_keyword st u v w), Hv by auto using dml_keyword.
Qed.

(** No earlier point of [rest] at depth 0 starts a statement. *)
Definition no_statement_before (depth len : nat) (rest : string) : Prop :=
  forall pre tail w, rest = pre ++ tail -> String.length pre < len ->
    depth_after depth pre = 0 -> w ∈ dml_words -> ~ head_word w tail.

Lemma no_statement_in_spaces d sp out : all_space sp = true ->
  no_statement_before d (String.length sp) (sp ++ out).
Proof.
  revert d. induction sp as [|c sp IH]; intros d Hsp pre tail w Heq Hlen Hd Hw; simpl in Hlen; [lia|].
  simpl in Hsp. bool_hyps. destruct pre as [|a pre].
  - simpl in Heq. subst tail. apply head_word_unit; auto using dml_keyword, space_not_word.
  - simpl in Heq. injection Heq as <- Heq. simpl in Hlen, Hd.
    destruct (space_not_paren c) as [Ho Hc]; [done|]. rewrite Ho, Hc in Hd.
    eapply IH; eauto. lia.
Qed.

Lemma no_statement_cons d d' c rest len :
  (d = 0 -> forall w, w ∈ dml_words -> ~ head_word w (String c rest)) ->
  d' = (if Ascii.eqb c "(" then d + 1 else if Ascii.eqb c ")" then d - 1 else d) ->
  no_statement_before d' len rest -> no_statement_before d (S len) (String c rest).
Proof.
  intros Hhead -> Hrest pre tail w Heq Hlen Hd Hw. destruct pre as [|a pre].
  - simpl in Heq, Hd. subst tail. auto.
  - simpl in Heq, Hlen, Hd. injection Heq as <- Heq. eapply Hrest; eauto. lia.
Qed.

Lemma paren_not_head c rest w :
  w ∈ dml_words -> Ascii.eqb c "(" || Ascii.eqb c ")" = true -> ~ head_word w (String c rest).
Proof.
  intros Hw Hc. apply head_word_unit; [by apply dml_keyword|].
  apply orb_true_iff in Hc as [Hc|Hc]; apply Ascii.eqb_eq in Hc; by subst c.
Qed.

Lemma top_level_from_spec rest d :
  match top_level_from d rest with
  | Some out => exists pre, rest = pre ++ out /\ depth_after d pre = 0 /\
      (exists w, w ∈ dml_words /\ head_word w out) /\
      no_statement_before d (String.length pre) rest
  | None => no_statement_before d (String.length rest) rest
  end.
Proof.
  revert d. induction rest as [|c rest IH]; intros d; cbn [top_level_from].
  { intros pre tail w _ Hlen. simpl in Hlen. lia. }
  (* one step of the loop that only moves on to the next character *)
  assert (Hstep : forall d',
    (d = 0 -> forall w, w ∈ dml_words -> ~ head_word w (String c rest)) ->
    d' = (if Ascii.eqb c "(" then d + 1 else if Ascii.eqb c ")" then d - 1 else d) ->
    match top_level_from d' rest with
    | Some out => exists pre, String c rest = pre ++ out /\ depth_after d pre = 0 /\
        (exists w, w ∈ dml_words /\ head_word w out) /\
        no_statement_before d (String.length pre) (String c rest)
    | None => no_statement_before d (String.length (String c rest)) (String c rest)
    end).
  { intros d' Hhead Hd'. specialize (IH d'). destruct (top_level_from d' rest) as [out|].
    - destruct IH as (pre & -> & Hd & Hw & Hno). exists (String c pre). split_and!; try done.
      + simpl. by rewrite <- Hd'.
      + by eapply no_statement_cons.
    - by eapply no_statement_cons. }
  destruct (Ascii.eqb c "(") eqn:Ho; [|destruct (Ascii.eqb c ")") eqn:Hc].
  - apply Hstep; [|done]. intros _ w Hw. apply paren_not_head; [done|by rewrite Ho].
  - apply Hstep; [|done]. intros _ w Hw. apply paren_not_head; [done|by rewrite Hc, orb_true_r].
  - destruct (Nat.eqb_spec d 0) as [->|Hd]; simpl; [|apply Hstep; [by intros ->|done]].
    destruct (exec TOP_LEVEL_PATTERN (String c rest)) as [m|] eqn:E.
    + apply exec_top_level_Some in E as (sp & out & Hrest & Hsp & Hlen & Hw).
      rewrite Hlen, Hrest, drop_app_str. exists sp.
      split_and!; [done|by apply depth_after_space|done|by apply no_statement_in_spaces].
    + apply Hstep; [|done]. intros _ w Hw. by apply exec_top_level_None.
Qed.

(** What [topLevelGovernedSql] returns.  A statement that does not begin with WITH is
    returned unchanged.  Otherwise the result is the first suffix, after the WITH and at
    parenthesis depth 0, that begins with one of SELECT, INSERT, UPDATE and DELETE; the whole
    statement is returned when there is no such point. *)
Theorem topLevelGovernedSql_spec sql :
  (test WITH_PATTERN sql = false /\ topLevelGovernedSql sql = sql) \/
  (test WITH_PATTERN sql = true /\ topLevelGovernedSql sql = sql /\
   no_statement_before 0 (String.length (drop_str 4 sql)) (drop_str 4 sql)) \/
  (test WITH_PATTERN sql = true /\ exists pre,
   sql = take_str 4 sql ++ pre ++ topLevelGovernedSql sql /\
   depth_after 0 pre = 0 /\
   (exists w, w ∈ dml_words /\ head_word w (topLevelGovernedSql sql)) /\
   no_statement_before 0 (String.length pre) (drop_str 4 sql)).
Proof.
  unfold topLevelGovernedSql. destruct (test WITH_PATTERN sql); cbn [negb]; [right|by left].
  pose proof (top_level_from_spec (drop_str 4 sql) 0) as H.
  destruct (top_level_from 0 (drop_str 4 sql)) as [out|]; cbn [default]; [right|by left].
  destruct H as (pre & Heq & Hd & Hw & Hno). split; [done|]. exists pre.
  split_and!; try done.
  transitivity (take_str 4 sql ++ drop_str 4 sql); [by rewrite drop_take_str|by rewrite Heq at 1].
Qed.

(** ** Names that end in a keyword *)

Lemma word_depth d p : all_word p = true -> depth_after d p = d.
Proof.
  induction p as [|c p IH]; [done|]. cbn [all_word depth_after]. intros [Hc Hp]%andb_true_iff.
  destruct (Ascii.eqb_spec c "(") as [->|_]; [done|]. destruct (Ascii.eqb_spec c ")") as [->|_]; [done|]. auto.
Qed.

Lemma all_word_app s t : all_word (s ++ t) = all_word s && all_word t.
Proof. induction s as [|c s IH]; [done|]. cbn [String.append all_word]. by rewrite IH, andb_assoc. Qed.

Lemma dml_length u w : w ∈ dml_words -> same_letters u w -> String.length u = 6.
Proof.
  intros Hw Hu. unfold same_letters in Hu. apply (f_equal String.length) in Hu. rewrite !length_fold in Hu.
  rewrite Hu. unfold dml_words in Hw. set_unfold. naive_solver.
Qed.

(** A keyword that ends with the word cannot begin in an earlier part of it. *)
Lemma head_word_inside w w' m u rest :
  w ∈ dml_words -> w' ∈ dml_words -> same_letters u w' -> all_word m = true -> m <> "" ->
  ~ head_word w (m ++ u ++ rest).
Proof.
  intros Hw Hw' Hu Hm Hne (u' & v & Heq & Hu' & Hv).
  pose proof (dml_length _ _ Hw Hu') as L1. pose proof (dml_length _ _ Hw' Hu) as L2.
  rewrite <- app_assoc_str in Heq. symmetry in Heq. apply app_split_str in Heq as (x & Hx & ->).
  2:{ rewrite length_app_str. lia. }
  assert (Hword : all_word (m ++ u) = true).
  { rewrite all_word_app, Hm. rewrite (all_word_letters u w' Hu). pose proof (dml_keyword w' Hw') as Hk.
    unfold is_keyword in Hk. by apply andb_true_iff in Hk as [-> _]. }
  rewrite Hx, all_word_app in Hword. apply andb_true_iff in Hword as [_ Hword].
  apply (f_equal String.length) in Hx. rewrite !length_app_str in Hx.
  destruct x as [|c x]; [destruct m; simpl in *; [done|lia]|].
  simpl in Hv, Hword. by rewrite Hv in Hword.
Qed.

Lemma top_level_in_name p u w rest :
  all_word p = true -> w ∈ dml_words -> same_letters u w -> starts_with_unit is_word rest = false ->
  top_level_from 0 (String " " (p ++ u ++ rest)) = Some (u ++ rest).
Proof.
  intros Hp Hw Hu Hr. pose proof (top_level_from_spec (String " " (p ++ u ++ rest)) 0) as H.
  assert (Hd : depth_after 0 (String " " p) = 0) by (simpl; by apply word_depth).
  assert (Hh : head_word w (u ++ rest)) by (by exists u, rest).
  destruct (top_level_from _ _) as [out|].
  - destruct H as (pre & Heq & _ & (w' & Hw' & Hh') & Hno). f_equal.
    destruct (decide (String.length (String " " p) < String.length pre)) as [Hl|Hl].
    { by destruct (Hno (String " " p) (u ++ rest) w eq_refl Hl Hd Hw Hh). }
    change (String " " (p ++ u ++ rest)) with (String " " p ++ u ++ rest) in Heq.
    symmetry in Heq. apply app_split_str in Heq as (m & Hm & ->); [|lia].
    destruct (decide (m = "")) as [->|Hne]; [done|]. exfalso. destruct pre as [|c pre].
    + simpl in Hm. subst m. revert Hh'. apply head_word_unit; auto using dml_keyword.
    + injection Hm as <- ->. rewrite all_word_app in Hp. apply andb_true_iff in Hp as [_ Hp].
      by apply (head_word_inside w' w m u rest) in Hh'.
  - exfalso. refine (H (String " " p) (u ++ rest) w eq_refl _ Hd Hw Hh).
    simpl. rewrite !length_app_str, (dml_length u w) by done. lia.
Qed.

(** What begins with WITH is an administrative statement, if at all, by a word inside it. *)
Lemma with_starts z :
  test EXPLAIN_PATTERN ("with " ++ z) = false /\ test DO_PATTERN ("with " ++ z) = false /\
  test TRANSACTION_PATTERN ("with " ++ z) = false /\ test WITH_PATTERN ("with " ++ z) = true.
Proof.
  unfold test. split_and!; (erewrite search_anchored; [|vm_compute; reflexivity..]); vm_compute; reflexivity.
Qed.

Lemma select_is_read u rest : same_letters u "select" -> starts_with_unit is_word rest = false ->
  statement_family_of (u ++ rest) = head SQL_STATEMENT_FAMILIES.
Proof.
  intros Hu Hr. unfold statement_family_of, SQL_STATEMENT_FAMILIES. cbn [find_first family_pattern head].
  match goal with |- context [test ?p _] => assert (H : test p (u ++ rest) = true) end; [|by rewrite H].
  set (st := MState None (u ++ rest) []).
  apply test_iff. exists "", (u ++ rest), (capture 1 st (advance st u rest)). split; [done|].
  change (before_at None "") with (@None ascii). fold st. unfold matches_at. cbn [re_body].
  eapply M_seq; [by apply M_begin|]. eapply M_seq.
  - apply M_group. apply matches_branch with (lit "select"); [vm_compute; constructor|].
    apply matches_lit. by exists u, rest.
  - apply M_wordb.
    change (xorb (word_before (advance st u rest)) (word_after (advance st u rest)) = true).
    by rewrite (wordb_after_keyword st u rest "select"), Hr.
Qed.

(** A DELETE that a read-only policy allows, and the same with another name. *)
Example delete_as_read :
  sqlStatementPolicyMessage "with my_select as (select 1) delete from users" read_only_policy = None /\
  sqlStatementPolicyMessage "with mine as (select 1) delete from users" read_only_policy =
    Some "DELETE statements are disabled by the workspace administrator.".
Proof. split; vm_compute; reflexivity. Qed.

(** C40.  The point the loop finds need not start a word.  After WITH and a blank, a name of word
    characters that ends in SELECT, INSERT, UPDATE or DELETE, in any case, is taken for that
    statement, whatever comes after it.  So when the name ends in SELECT, the statement passes
    under every policy that allows read queries, whatever it is -- a DELETE or an UPDATE after the
    common-table expression, too: unless it contains a word that is always blocked, there
    is no message. *)
Theorem cte_name_misclassified p u w rest :
  all_word p = true -> w ∈ dml_words -> same_letters u w -> starts_with_unit is_word rest = false ->
  topLevelGovernedSql ("with " ++ p ++ u ++ rest) = u ++ rest /\
  (w = "select" -> forall sql policy, executable_sql sql = "with " ++ p ++ u ++ rest ->
   sql_read_queries_enabled policy = true ->
   sqlStatementPolicyMessage sql policy =
     if test EMERGENCY_FALLBACK_BLOCKED_SQL_PATTERN (executable_sql sql)
     then Some ADMINISTRATIVE_MESSAGE else None).
Proof.
  intros Hp Hw Hu Hr. destruct (with_starts (p ++ u ++ rest)) as (He & Hd & Ht & Hwith).
  assert (Htop : topLevelGovernedSql ("with " ++ p ++ u ++ rest) = u ++ rest).
  { unfold topLevelGovernedSql. rewrite Hwith. cbn [negb].
    change (drop_str 4 ("with " ++ p ++ u ++ rest)) with (String " " (p ++ u ++ rest)).
    by rewrite (top_level_in_name p u w rest). }
  split; [done|]. intros -> sql policy Hsql Hread. unfold sqlStatementPolicyMessage.
  rewrite Hsql, He, Hd, Ht, Htop, (select_is_read u rest) by done.
  cbn [andb orb head]. destruct (test _ _); [done|]. cbn. by rewrite Hread.
Qed.

Lemma cte_name_misclassified_witness :
  topLevelGovernedSql "with my_select as (select 1) delete from users" =
    "select as (select 1) delete from users" /\
  sqlStatementPolicyMessage "with my_select as (select 1) delete from users" read_only_policy = None.
Proof.
  destruct (cte_name_misclassified "my_" "select" "select" " as (select 1) delete from users")
    as [Htop Hmessage]; [reflexivity|constructor|reflexivity|reflexivity|].
  split; [exact Htop|].
  rewrite (Hmessage eq_refl "with my_select as (select 1) delete from users");
    [vm_compute; reflexivity..].
Defined.
