(* ===== verification/CrucibleLib.v ===== *)
(** * The shared vocabulary of the front end

    [resources/js/lib/crucible.ts]: the statuses and kinds of a query request, and the functions
    that show them.  The current time ([Date.now()]) is an argument. *)

From Stdlib Require Import String.
From S2P Require Import Prelude JsString JsDate.

Open Scope string_scope.
Open Scope Z_scope.

Inductive AccessMode := AccessNone | AccessRead | AccessWrite.

Inductive QueryRequestStatus :=
  | Draft | PendingReview | Approved | Rejected | Scheduled | Running | Completed | Failed
  | Cancelled.

Inductive QueryType := ReadQuery | WriteQuery.

Inductive QueryRequestKind := SingleExecution | QueryAccess.

Inductive AccessTransport := Browser | NativeProxy.

Inductive ExecutionStatus :=
  | ExecQueued | ExecRunning | ExecCancelling | ExecSucceeded | ExecFailed | ExecCancelled
  | ExecTimedOut.

#[global] Instance AccessMode_eq_dec : EqDecision AccessMode.
Proof. solve_decision. Defined.
#[global] Instance QueryRequestStatus_eq_dec : EqDecision QueryRequestStatus.
Proof. solve_decision. Defined.
#[global] Instance QueryType_eq_dec : EqDecision QueryType.
Proof. solve_decision. Defined.
#[global] Instance QueryRequestKind_eq_dec : EqDecision QueryRequestKind.
Proof. solve_decision. Defined.
#[global] Instance AccessTransport_eq_dec : EqDecision AccessTransport.
Proof. solve_decision. Defined.
#[global] Instance ExecutionStatus_eq_dec : EqDecision ExecutionStatus.
Proof. solve_decision. Defined.

(** The string literal of each constructor. *)
Definition access_mode_text (m : AccessMode) : string :=
  match m with AccessNone => "none" | AccessRead => "read" | AccessWrite => "write" end.

Definition request_status_text (s : QueryRequestStatus) : string :=
  match s with
  | Draft => "draft" | PendingReview => "pending_review" | Approved => "approved"
  | Rejected => "rejected" | Scheduled => "scheduled" | Running => "running"
  | Completed => "completed" | Failed => "failed" | Cancelled => "cancelled"
  end.

Definition query_type_text (t : QueryType) : string :=
  match t with ReadQuery => "read" | WriteQuery => "write" end.

Definition request_kind_text (k : QueryRequestKind) : string :=
  match k with SingleExecution => "single_execution" | QueryAccess => "query_access" end.

Definition transport_text (t : AccessTransport) : string :=
  match t with Browser => "browser" | NativeProxy => "native_proxy" end.

Definition execution_status_text (s : ExecutionStatus) : string :=
  match s with
  | ExecQueued => "queued" | ExecRunning => "running" | ExecCancelling => "cancelling"
  | ExecSucceeded => "succeeded" | ExecFailed => "failed" | ExecCancelled => "cancelled"
  | ExecTimedOut => "timed_out"
  end.

(** [visibleQueryRequestStatus(request)] reads these three fields. *)
Record VisibleRequest := {
  request_kind : QueryRequestKind;
  request_status : QueryRequestStatus;
  latest_session_expires_at : option string;
}.

(** [new Date(value).getTime() <= now], false for an invalid date *)
Definition passed_by (now : Z) (value : string) : bool :=
  match parse_date value with Some t => t <=? now | None => false end.

Definition visibleQueryRequestStatus (now : Z) (request : VisibleRequest) : QueryRequestStatus :=
  if bool_decide (request_kind request = QueryAccess) &&
     bool_decide (request_status request = Running) &&
     match latest_session_expires_at request with
     | Some value => truthy value && passed_by now value
     | None => false
     end
  then Completed
  else request_status request.

(** [formatDate(value, timezone)]; [intl] is the locale's date and time of an instant in a zone. *)
Definition formatDate (intl : string -> option string -> string) (value timezone : option string)
    : string :=
  match value with
  | None | Some EmptyString => "Not set"
  | Some value => intl value timezone
  end.

(** The template literal of a number that may be [NaN]. *)
Definition number_text (n : option Z) : string :=
  match n with Some n => str_of_Z n | None => "NaN" end.

Definition formatRemaining (now : Z) (value : option string) : string :=
  match value with
  | None | Some EmptyString => "Not active"
  | Some value =>
      let seconds := (fun t => Z.max 0 ((t - now) / 1000)) <$> parse_date value in
      if match seconds with Some s => s <=? 0 | None => false end then "Expired"
      else
        let hours := (fun s => s / 3600) <$> seconds in
        let minutes := (fun s => s mod 3600 / 60) <$> seconds in
        if match hours with Some h => 0 <? h | None => false end
        then number_text hours ++ "h " ++ number_text minutes ++ "m left"
        else number_text (Z.max 1 <$> minutes) ++ "m left"
  end.

(** [part.charAt(0).toUpperCase() + part.slice(1)] *)
Definition capitalized (part : string) : string :=
  toUpperCase (take_str 1 part) ++ drop_str 1 part.

Definition statusLabel (value : string) : string :=
  join " " (map capitalized (split_on "_" value)).

Definition queryRequestKindLabel (value : QueryRequestKind)
    (accessTransport : option AccessTransport) : string :=
  match value with
  | SingleExecution => "Deployment Batch"
  | QueryAccess =>
      if bool_decide (accessTransport = Some NativeProxy) then "Native Client Access"
      else "Query Access"
  end.

Definition driverLabel (value : string) : string :=
  if str_eq value "pgsql" then "PostgreSQL" else "MySQL".

Inductive Tone := ToneDefault | ToneSecondary | ToneDestructive | ToneOutline.

Definition statusTone (status : string) : Tone :=
  if str_eq status "failed" || str_eq status "rejected" || str_eq status "timed_out"
  then ToneDestructive
  else if str_eq status "completed" || str_eq status "succeeded" then ToneDefault
  else if str_eq status "queued" || str_eq status "running" || str_eq status "cancelling" ||
          str_eq status "approved"
  then ToneSecondary
  else ToneOutline.

Example label_pending : statusLabel "pending_review" = "Pending Review".
Proof. reflexivity. Qed.

Example remaining_hours :
  formatRemaining 1790929815250 (Some "2026-10-02T10:00:00Z") = "1h 29m left".
Proof. vm_compute. reflexivity. Qed.

Example remaining_seconds :
  formatRemaining 1790929815250 (Some "2026-10-02T08:30:45.000Z") = "1m left".
Proof. vm_compute. reflexivity. Qed.

Example remaining_invalid : formatRemaining 0 (Some "soon") = "NaNm left".
Proof. vm_compute. reflexivity. Qed.

(** ** Expiry *)

Lemma visible_completed now request :
  visibleQueryRequestStatus now request = Completed <->
  request_status request = Completed \/
  request_kind request = QueryAccess /\ request_status request = Running /\
  exists value t, latest_session_expires_at request = Some value /\ parse_date value = Some t /\
    t <= now.
Proof.
  unfold visibleQueryRequestStatus, passed_by.
  destruct request as [kind status [value|]]; simpl.
  - destruct (parse_date value) as [t|] eqn:Ht.
    + assert (Hne : truthy value = true) by (by destruct value).
      rewrite Hne. simpl.
      repeat case_bool_decide; simpl; destruct (Z.leb_spec t now); naive_solver lia.
    + rewrite !andb_false_r. naive_solver.
  - rewrite !andb_false_r. naive_solver.
Qed.

(** The text of the time that remains until [t]. *)
Lemma formatRemaining_at now value t :
  parse_date value = Some t ->
  let r := (t - now) / 1000 in
  formatRemaining now (Some value) =
  if r <=? 0 then "Expired"
  else if 0 <? r / 3600
       then str_of_Z (r / 3600) ++ "h " ++ str_of_Z (r mod 3600 / 60) ++ "m left"
       else str_of_Z (Z.max 1 (r mod 3600 / 60)) ++ "m left".
Proof.
  intros Ht. cbv zeta. unfold formatRemaining.
  destruct value as [|a value]; [done|]. rewrite Ht. cbn -[Z.div Z.modulo Z.max Z.leb Z.ltb].
  destruct (Z.leb_spec ((t - now) / 1000) 0).
  - by rewrite Z.max_l by done.
  - rewrite Z.max_r by lia. destruct (Z.leb_spec ((t - now) / 1000) 0); [lia|]. done.
Qed.

(** The remaining time of a session is shown in hours and minutes that add up to the whole
    minutes left (at least one), with fewer than sixty minutes beside the hours; with less than
    one second left, or none, it is shown as expired. *)
Theorem formatRemaining_spec now value t :
  parse_date value = Some t ->
  (t - now < 1000 /\ formatRemaining now (Some value) = "Expired") \/
  (1000 <= t - now /\
   exists hours minutes,
     0 <= hours /\ 0 <= minutes < 60 /\
     60 * hours + minutes = Z.max 1 ((t - now) / 60000) /\
     formatRemaining now (Some value) =
       if 0 <? hours then str_of_Z hours ++ "h " ++ str_of_Z minutes ++ "m left"
       else str_of_Z minutes ++ "m left").
Proof.
  intros Ht. rewrite (formatRemaining_at now value t Ht). set (d := t - now).
  destruct (Z.leb_spec (d / 1000) 0).
  - left. split; [div_lia|done].
  - right. split; [div_lia|]. exists (d / 1000 / 3600).
    assert (Hd : d / 60000 = d / 1000 / 60) by (rewrite Z.div_div by lia; done).
    rewrite Hd. set (r := d / 1000) in *. clearbody r. clear Hd Ht.
    destruct (Z.ltb_spec 0 (r / 3600)).
    + exists (r mod 3600 / 60). split_and!; [div_lia..|done].
    + exists (Z.max 1 (r mod 3600 / 60)). split_and!; [div_lia..|done].
Qed.

Lemma formatRemaining_spec_witness :
  exists hours minutes, 60 * hours + minutes = 89 /\ 0 <= minutes < 60 /\
  formatRemaining 1790929815250 (Some "2026-10-02T10:00:00Z") =
    if 0 <? hours then str_of_Z hours ++ "h " ++ str_of_Z minutes ++ "m left"
    else str_of_Z minutes ++ "m left".
Proof.
  destruct (formatRemaining_spec 1790929815250 "2026-10-02T10:00:00Z" 1790935200000)
    as [[H _]|(_ & h & m & _ & Hm & Hs & Ht)].
  - vm_compute. reflexivity.
  - vm_compute in H. discriminate H.
  - exists h, m. split; [exact Hs|]. split; [exact Hm|exact Ht].
Defined.

(** A query access request that runs is shown as completed from the instant its session
    expires on and for good: the status shown as completed stays so as time passes, and at that
    time the remaining time of the same session reads as expired. *)
Theorem visible_completed_stable now later request value :
  now <= later -> latest_session_expires_at request = Some value ->
  request_status request = Running ->
  visibleQueryRequestStatus now request = Completed ->
  visibleQueryRequestStatus later request = Completed /\
  formatRemaining later (Some value) = "Expired".
Proof.
  intros Hle Hv Hr [Hc|(Hk & _ & v & t & Hv' & Ht & Hn)]%visible_completed; [congruence|].
  assert (v = value) as -> by congruence. split.
  - apply visible_completed. right. split_and!; [done..|]. exists value, t. split_and!; [done..|lia].
  - rewrite (formatRemaining_at later value t Ht).
    destruct (Z.leb_spec ((t - later) / 1000) 0); [done|]. exfalso. div_lia.
Qed.

Lemma visible_completed_stable_witness :
  visibleQueryRequestStatus 1790935200001
    (Build_VisibleRequest QueryAccess Running (Some "2026-10-02T10:00:00Z")) = Completed /\
  formatRemaining 1790935200001 (Some "2026-10-02T10:00:00Z") = "Expired".
Proof.
  apply (visible_completed_stable 1790935200000); [lia|reflexivity|reflexivity|].
  vm_compute. reflexivity.
Defined.

(** ** Labels *)

(** The status a label stands for. *)
Definition label_status (label : string) : string :=
  smap (fun c => if Ascii.eqb c " " then "_"%char else lower_unit c) label.

Definition lower_word (c : ascii) : bool :=
  in_range 97 122 c || is_digit c || Ascii.eqb c "_".

Lemma label_unit c : lower_word c = true ->
  (if Ascii.eqb c " " then "_"%char else lower_unit c) = c /\
  (if Ascii.eqb (upper_unit c) " " then "_"%char else lower_unit (upper_unit c)) = c.
Proof.
  intros Hc.
  assert (H : forall c, negb (lower_word c) ||
    (Ascii.eqb (if Ascii.eqb c " " then "_"%char else lower_unit c) c &&
     Ascii.eqb (if Ascii.eqb (upper_unit c) " " then "_"%char else lower_unit (upper_unit c)) c)
    = true) by (apply all_units_forall; vm_compute; reflexivity).
  specialize (H c). rewrite Hc in H. simpl in H. apply andb_true_iff in H as [H1 H2].
  split; by apply Ascii.eqb_eq.
Qed.

Lemma capitalized_status part : all_chars lower_word part = true ->
  label_status (capitalized part) = part.
Proof.
  intros Hp. unfold label_status, capitalized. rewrite smap_app. destruct part as [|c part]; [done|].
  cbn [all_chars] in Hp. apply andb_true_iff in Hp as [Hc Hp]. cbn -[upper_unit lower_unit].
  rewrite (proj2 (label_unit c Hc)). destruct part as [|c' part]; [done|]. f_equal.
  apply (smap_id_on lower_word); [|done]. intros a Ha. apply label_unit, Ha.
Qed.

Lemma split_on_all_chars p c s : all_chars p s = true ->
  Forall (fun w => all_chars p w = true) (split_on c s).
Proof.
  induction s as [|a s IH]; simpl; [by repeat constructor|]. intros [Ha Hs]%andb_true_iff.
  specialize (IH Hs). destruct (Ascii.eqb a c); [by constructor|].
  destruct (split_on c s) as [|w ws]; simpl; [constructor; simpl; [by rewrite Ha|constructor]|].
  inversion IH; subst. constructor; simpl; [by rewrite Ha|done].
Qed.

Lemma label_status_join ws : Forall (fun w => all_chars lower_word w = true) ws ->
  label_status (join " " (map capitalized ws)) = join "_" ws.
Proof.
  induction 1 as [|w ws Hw Hws IH]; [done|]. destruct ws as [|w' ws].
  - simpl. by apply capitalized_status.
  - rewrite (join_cons "_") by done. cbn [map] in *. rewrite join_cons by done.
    rewrite <- IH. unfold label_status. rewrite !smap_app. f_equal.
    by apply capitalized_status.
Qed.

(** The label of a status determines it: lowering the label's letters and putting
    underscores for its spaces gives back the status, for every status written in lower case
    letters, digits and underscores (all of those the program has). *)
Theorem statusLabel_roundtrip status :
  all_chars lower_word status = true -> label_status (statusLabel status) = status.
Proof.
  intros H. unfold statusLabel. rewrite label_status_join by by apply split_on_all_chars.
  apply join_split.
Qed.

Lemma statusLabel_roundtrip_witness :
  label_status (statusLabel (execution_status_text ExecTimedOut)) = "timed_out" /\
  statusLabel (execution_status_text ExecTimedOut) = "Timed Out".
Proof. split; [apply statusLabel_roundtrip|]; reflexivity. Defined.
