(* ===== verification/PhpString.v ===== *)
(** * The strings of PHP

    Trimming and replacing on strings of bytes, as the server does it. *)

From Stdlib Require Import String.
From S2P Require Import Prelude JsString.

Open Scope string_scope.
Open Scope nat_scope.

(** What [trim] removes. *)
Definition php_space (c : ascii) : bool :=
  is_code 32 c || is_code 9 c || is_code 10 c || is_code 13 c || is_code 0 c || is_code 11 c.

(** The bytes of [p] at the end of [s], removed. *)
Fixpoint rstrip (p : ascii -> bool) (s : string) : string :=
  match s with
  | EmptyString => EmptyString
  | String c s' =>
      match rstrip p s' with
      | EmptyString => if p c then EmptyString else String c EmptyString
      | t => String c t
      end
  end.

Fixpoint lstrip (p : ascii -> bool) (s : string) : string :=
  match s with
  | EmptyString => EmptyString
  | String c s' => if p c then lstrip p s' else s
  end.

Definition rtrim : string -> string := rstrip php_space.
Definition ltrim : string -> string := lstrip php_space.

(** Whether [s[n]] is [c]. *)
Definition unit_at (n : nat) (s : string) (c : ascii) : bool :=
  match drop_str n s with String d _ => Ascii.eqb d c | EmptyString => false end.

(** The first replacement of [str_replace]: CR LF by LF. *)
Fixpoint replace_crlf (s : string) : string :=
  match s with
  | EmptyString => EmptyString
  | String c s' =>
      if Ascii.eqb c "013" && unit_at 0 s' "010" then replace_crlf s' else String c (replace_crlf s')
  end.

(** [substr(s, 0, -1)] *)
Fixpoint drop_last (s : string) : string :=
  match s with
  | EmptyString | String _ EmptyString => EmptyString
  | String c s' => String c (drop_last s')
  end.

Fixpoint ends_with (c : ascii) (s : string) : bool :=
  match s with
  | EmptyString => false
  | String d EmptyString => Ascii.eqb d c
  | String _ s' => ends_with c s'
  end.

(** ** Lemmas *)

Section strip.
Context (p : ascii -> bool).

Lemma rstrip_prefix s : exists t, s = rstrip p s ++ t /\ all_chars p t = true.
Proof.
  induction s as [|c s (t & Hs & Ht)]; simpl; [by exists ""|].
  destruct (rstrip p s) as [|d u] eqn:E; [|by exists t; rewrite Hs].
  simpl in Hs. subst t. destruct (p c) eqn:Hc; [|by exists s].
  exists (String c s). simpl. by rewrite Hc.
Qed.

Lemma rstrip_idem s : rstrip p (rstrip p s) = rstrip p s.
Proof.
  induction s as [|c s IH]; [done|]. simpl. destruct (rstrip p s) as [|d u] eqn:E.
  - destruct (p c) eqn:Hc; [done|]. simpl. by rewrite Hc.
  - simpl in IH |- *. by rewrite IH.
Qed.

Lemma lstrip_idem s : lstrip p (lstrip p s) = lstrip p s.
Proof. induction s as [|c s IH]; [done|]. simpl. destruct (p c) eqn:Hc; [done|]. simpl. by rewrite Hc. Qed.

Lemma strip_commute s : lstrip p (rstrip p s) = rstrip p (lstrip p s).
Proof.
  induction s as [|c s IH]; [done|]. simpl. destruct (p c) eqn:Hc.
  - rewrite <- IH. destruct (rstrip p s); [done|]. simpl. by rewrite Hc.
  - simpl. destruct (rstrip p s) as [|d u]; simpl; rewrite ?Hc; done.
Qed.

Lemma all_chars_rstrip q s : all_chars q s = true -> all_chars q (rstrip p s) = true.
Proof.
  induction s as [|c s IH]; [done|]. simpl. intros [Hc Hs]%andb_true_iff. specialize (IH Hs).
  destruct (rstrip p s); [|by simpl in *; rewrite Hc]. destruct (p c); [done|]. simpl. by rewrite Hc.
Qed.

Lemma all_chars_lstrip q s : all_chars q s = true -> all_chars q (lstrip p s) = true.
Proof.
  induction s as [|c s IH]; [done|]. simpl. intros H. pose proof H as [Hc Hs]%andb_true_iff.
  destruct (p c); auto.
Qed.

Lemma length_rstrip s : String.length (rstrip p s) <= String.length s.
Proof. destruct (rstrip_prefix s) as (t & Hs & _). rewrite Hs at 2. rewrite length_app_str. lia. Qed.
End strip.

Lemma rstrip_ext p q s :
  all_chars (fun c => Bool.eqb (p c) (q c)) s = true -> rstrip p s = rstrip q s.
Proof.
  induction s as [|c s IH]; [done|]. simpl. intros [Hc%Bool.eqb_prop Hs]%andb_true_iff.
  by rewrite IH, Hc.
Qed.

Lemma lstrip_ext p q s :
  all_chars (fun c => Bool.eqb (p c) (q c)) s = true -> lstrip p s = lstrip q s.
Proof.
  induction s as [|c s IH]; [done|]. simpl. intros [Hc%Bool.eqb_prop Hs]%andb_true_iff.
  by rewrite IH, Hc.
Qed.

Lemma trimEnd_rstrip s : trimEnd s = rstrip is_space s.
Proof. induction s as [|c s IH]; [done|]. simpl. by rewrite IH. Qed.

Lemma trimStart_lstrip s : trimStart s = lstrip is_space s.
Proof. induction s as [|c s IH]; [done|]. simpl. by rewrite IH. Qed.

(** Removing fewer bytes first changes nothing. *)
Lemma rstrip_rstrip (p q : ascii -> bool) s :
  (forall c, p c = true -> q c = true) -> rstrip q (rstrip p s) = rstrip q s.
Proof.
  intros H. induction s as [|c s IH]; [done|]. simpl. destruct (rstrip p s) as [|d u].
  - simpl in IH. rewrite <- IH. destruct (p c) eqn:Hc; [by rewrite (H c Hc)|done].
  - cbn [rstrip] in *. by rewrite IH.
Qed.

(** After more bytes have been removed, fewer are not there any more. *)
Lemma rstrip_weaker (p q : ascii -> bool) s :
  (forall c, p c = true -> q c = true) -> rstrip p (rstrip q s) = rstrip q s.
Proof.
  intros H. induction s as [|c s IH]; [done|]. simpl. destruct (rstrip q s) as [|d u].
  - destruct (q c) eqn:Hc; [done|]. simpl. destruct (p c) eqn:Hp; [|done]. by rewrite (H c Hp) in Hc.
  - cbn [rstrip] in *. by rewrite IH.
Qed.

Lemma length_lstrip p s : String.length (lstrip p s) <= String.length s.
Proof. induction s as [|c s IH]; [done|]. simpl. destruct (p c); simpl; lia. Qed.

(** Removing bytes at the end leaves the beginning as it is. *)
Lemma lstrip_rstrip (p q : ascii -> bool) s : lstrip p s = s -> lstrip p (rstrip q s) = rstrip q s.
Proof.
  destruct s as [|c s]; [done|]. intros H.
  assert (Hc : p c = false).
  { simpl in H. destruct (p c); [|done]. pose proof (length_lstrip p s) as Hl. rewrite H in Hl.
    simpl in Hl. lia. }
  simpl. destruct (rstrip q s); [destruct (q c)|]; simpl; rewrite ?Hc; done.
Qed.

(** The last byte decides whether anything is removed. *)
Lemma rstrip_last q s c : rstrip q (s ++ String c "") = if q c then rstrip q s else s ++ String c "".
Proof.
  induction s as [|d s IH]; [by simpl; destruct (q c)|]. cbn [String.append rstrip]. rewrite IH.
  destruct (q c); [done|]. by destruct s.
Qed.

Lemma drop_last_app s c : drop_last (s ++ String c "") = s.
Proof. induction s as [|d s IH]; [done|]. cbn [String.append drop_last]. rewrite IH. by destruct s. Qed.

Lemma ends_with_app c s d : ends_with c (s ++ String d "") = Ascii.eqb d c.
Proof. induction s as [|e s IH]; [done|]. cbn [String.append ends_with]. rewrite IH. by destruct s. Qed.

Lemma string_snoc s : s = "" \/ exists t c, s = t ++ String c "".
Proof.
  induction s as [|d s [->|(t & c & ->)]]; [by left|right; by exists "", d|].
  right. by exists (String d t), c.
Qed.

Definition not_cr (c : ascii) : bool := negb (Ascii.eqb c "013").

Lemma replace_crlf_id s : all_chars not_cr s = true -> replace_crlf s = s.
Proof.
  induction s as [|c s IH]; [done|]. cbn [all_chars replace_crlf]. intros [Hc Hs]%andb_true_iff.
  unfold not_cr in Hc. apply negb_true_iff in Hc. by rewrite Hc, IH.
Qed.

Lemma replace_cr_none d s : Ascii.eqb d "013" = false -> all_chars not_cr (replace_unit "013" d s) = true.
Proof.
  intros Hd. unfold replace_unit. induction s as [|c s IH]; [done|]. cbn [smap all_chars]. rewrite IH.
  unfold not_cr. destruct (Ascii.eqb c "013") eqn:E; [by rewrite Hd|by rewrite E].
Qed.

Lemma replace_cr_id d s : all_chars not_cr s = true -> replace_unit "013" d s = s.
Proof.
  apply smap_id_on. intros c Hc. unfold not_cr in Hc. apply negb_true_iff in Hc. by rewrite Hc.
Qed.
