(* ===== verification/Pcre.v ===== *)
(** * The regular expressions of PHP

    PCRE's patterns without the flag [u], on strings of bytes.  The syntax the source uses means
    what it means in ECMAScript ([JsRegExp]), but for [\s], which is one of the six blanks of
    ASCII.  On a string without a no-break space both give the same matches.  The limits of PCRE
    on backtracking are not modelled. *)

From Stdlib Require Import String.
From S2P Require Import Prelude JsString JsRegExp.

Open Scope string_scope.
Open Scope nat_scope.

(** What [\s] matches: the tab to the carriage return, and the space. *)
Fixpoint pcre_set (s : cset) : cset :=
  match s with
  | CSpace => CUnion (CRange "009" "013") (CUnit " ")
  | CNot t => CNot (pcre_set t)
  | CUnion t u => CUnion (pcre_set t) (pcre_set u)
  | _ => s
  end.

Fixpoint pcre_re (r : re) : re :=
  match r with
  | RSet s => RSet (pcre_set s)
  | RSeq a b => RSeq (pcre_re a) (pcre_re b)
  | RAlt a b => RAlt (pcre_re a) (pcre_re b)
  | RStar g a => RStar g (pcre_re a)
  | ROpt a => ROpt (pcre_re a)
  | RGroup n a => RGroup n (pcre_re a)
  | _ => r
  end.

Definition pcre (p : regexp) : regexp := {|
  re_body := pcre_re (re_body p);
  re_ignore_case := re_ignore_case p;
  re_multiline := re_multiline p |}.

(** ** The same matches without a no-break space *)

Definition not_nbsp (c : ascii) : bool := negb (is_code 160 c).

Definition no_nbsp : string -> bool := all_chars not_nbsp.

Lemma not_nbsp_canon c : not_nbsp c = true ->
  not_nbsp (canon c) = true /\ not_nbsp (lower_unit (canon c)) = true.
Proof.
  intros H. apply andb_true_iff.
  assert (Hall : forall c, negb (not_nbsp c) ||
    (not_nbsp (canon c) && not_nbsp (lower_unit (canon c))) = true).
  { apply all_units_forall. vm_compute. reflexivity. }
  specialize (Hall c). by rewrite H in Hall.
Qed.

Lemma pcre_set_mem s c : not_nbsp c = true -> cset_mem (pcre_set s) c = cset_mem s c.
Proof.
  intros H. induction s as [d|lo hi| | | |t IH|t IHt u IHu]; cbn [pcre_set cset_mem]; try done.
  - revert H. unfold not_nbsp, is_space. rewrite negb_true_iff. intros ->. rewrite orb_false_r.
    unfold is_code. f_equal.
    destruct (Ascii.eqb_spec c " ") as [->|Hc]; [done|]. symmetry. apply N.eqb_neq. intros E. apply Hc.
    rewrite <- (ascii_N_embedding c). unfold code in E. by rewrite E.
  - by rewrite IH.
  - by rewrite IHt, IHu.
Qed.

Lemma pcre_set_match ic s c : not_nbsp c = true -> set_match ic (pcre_set s) c = set_match ic s c.
Proof.
  intros H. unfold set_match. destruct (not_nbsp_canon c H). by rewrite !pcre_set_mem by done.
Qed.

Lemma all_chars_suffix p u v : all_chars p (u ++ v) = true -> all_chars p v = true.
Proof. induction u as [|c u IH]; simpl; [done|]. by intros [_ H]%andb_true_iff; apply IH. Qed.

Lemma groups_pcre r : groups (pcre_re r) = groups r.
Proof. induction r; simpl; congruence. Qed.

Section transfer.
Context (ic ml : bool).

(** A matcher that leaves suffixes. *)
Notation m := (re_match ic ml).

Lemma match_no_nbsp r st st' :
  st' ∈ m r st -> no_nbsp (ms_rest st) = true -> no_nbsp (ms_rest st') = true.
Proof.
  intros H%re_match_iff Hst. apply matches_suffix in H as [w Hw]. rewrite Hw in Hst.
  by apply all_chars_suffix in Hst.
Qed.

Lemma iterations_pcre r st :
  (forall st, no_nbsp (ms_rest st) = true -> m (pcre_re r) st = m r st) ->
  no_nbsp (ms_rest st) = true ->
  iterations (m (pcre_re r)) (groups r) st = iterations (m r) (groups r) st.
Proof. intros Hr Hst. unfold iterations. by rewrite Hr. Qed.

Lemma star_pcre g r fuel st :
  (forall st, no_nbsp (ms_rest st) = true -> m (pcre_re r) st = m r st) ->
  no_nbsp (ms_rest st) = true ->
  star (m (pcre_re r)) (groups r) g fuel st = star (m r) (groups r) g fuel st.
Proof.
  intros Hr. revert st. induction fuel as [|fuel IH]; intros st Hst; [done|].
  cbn [star]. rewrite iterations_pcre by done.
  assert (Hmore : flat_map (star (m (pcre_re r)) (groups r) g fuel) (iterations (m r) (groups r) st) =
    flat_map (star (m r) (groups r) g fuel) (iterations (m r) (groups r) st)).
  { apply flat_map_ext_elem. intros x [Hx _]%elem_of_iterations. apply IH.
    by apply (match_no_nbsp _ _ _ Hx). }
  by rewrite Hmore.
Qed.

Lemma re_match_pcre r st : no_nbsp (ms_rest st) = true -> m (pcre_re r) st = m r st.
Proof.
  revert st. induction r as [|s|a IHa b IHb|a IHa b IHb|g a IHa|a IHa|n a IHa| | |];
    intros st Hst; cbn [re_match pcre_re]; try done.
  - destruct st as [p [|c rest] l]; [done|]. cbn [ms_rest] in *.
    apply andb_true_iff in Hst as [Hc _]. by rewrite pcre_set_match.
  - rewrite IHa by done. apply flat_map_ext_elem. intros x Hx. apply IHb.
    by apply (match_no_nbsp _ _ _ Hx).
  - by rewrite IHa, IHb.
  - rewrite groups_pcre. by apply star_pcre.
  - rewrite groups_pcre. by rewrite iterations_pcre.
  - by rewrite IHa.
Qed.
End transfer.

Lemma search_pcre p prev s : no_nbsp s = true -> search (pcre p) prev s = search p prev s.
Proof.
  revert prev. induction s as [|c s IH]; intros prev Hs;
    rewrite (search_unfold (pcre p) prev), (search_unfold p prev); unfold run;
    cbn [pcre re_body re_ignore_case re_multiline]; rewrite re_match_pcre by done; [done|].
  destruct (re_match _ _ _ _); [|done]. apply IH. by apply andb_true_iff in Hs as [_ Hs].
Qed.

Lemma test_pcre p s : no_nbsp s = true -> test (pcre p) s = test p s.
Proof. intros H. unfold test. by rewrite search_pcre. Qed.

Lemma exec_pcre p s : no_nbsp s = true -> exec (pcre p) s = exec p s.
Proof. intros H. unfold exec. by rewrite search_pcre. Qed.
