(* ===== verification/QueryGuard.v ===== *)
(** * The guard of every SQL statement

    [app/Services/QueryGuard.php]: the check on the server that every statement passes before it
    is stored, previewed or run.  It reads the statement without its literals and comments,
    refuses what no policy admits, and asks the policy of the workspace for the rest.

    A PHP string is a string of bytes; its operations are those of [PhpString] and its
    patterns those of [Pcre]. *)

From Stdlib Require Import String.
From S2P Require Import Prelude JsString JsRegExp PhpString Pcre CaseFolding CrucibleLib SqlPolicy.

Open Scope string_scope.
Open Scope nat_scope.

(** ** Answers *)

(** A value, or the message of a [ValidationException]. *)
Inductive checked (A : Type) := Accepted (a : A) | Refused (message : string).

Arguments Accepted {A}.
Arguments Refused {A}.

Definition checked_bind {A B} (x : checked A) (f : A -> checked B) : checked B :=
  match x with Accepted a => f a | Refused m => Refused m end.

Local Notation "x <-- m ; f" := (checked_bind m (fun x => f))
  (at level 20, m at level 100, f at level 200, right associativity).

(** ** Patterns *)

Definition EmergencyFallbackBlockedSqlPattern : regexp := Eval vm_compute in
  pcre (parsed (regex "\b(grant|revoke|create\s+(?:user|role|database|extension|function|procedure|trigger|rule|foreign\s+data\s+wrapper|server|publication|subscription)|alter\s+(?:user|role|database|system|function|procedure|trigger|rule)|drop\s+(?:user|role|database|extension|function|procedure|trigger|rule|foreign\s+data\s+wrapper|server|publication|subscription)|copy|load\s+data|load_file|into\s+outfile|vacuum|analyze|reindex|cluster|checkpoint|call|prepare|execute|deallocate|discard|lock|listen|notify|unlisten|reset)\b" "i")).

Definition ReviewablePostgreSqlCreateTriggerPattern : regexp := Eval vm_compute in
  pcre (parsed (regex "^\s*create\s+trigger\s+(?:[a-z_][a-z0-9_$]*\.)?[a-z_][a-z0-9_$]*\s+before\s+update\s+on\s+(?:[a-z_][a-z0-9_$]*\.)?[a-z_][a-z0-9_$]*\s+for\s+each\s+row\s+execute\s+function\s+(?:[a-z_][a-z0-9_$]*\.)?[a-z_][a-z0-9_$]*\s*\(\s*\)\s*$" "i")).

Definition explain_pattern : regexp := Eval vm_compute in pcre (parsed (regex "^explain\b" "i")).
Definition analyze_pattern : regexp := Eval vm_compute in pcre (parsed (regex "\banalyze\b" "i")).
Definition do_pattern : regexp := Eval vm_compute in pcre (parsed (regex "^do\b" "i")).
Definition transaction_pattern : regexp := Eval vm_compute in
  pcre (parsed (regex "^(begin|start\s+transaction|commit|rollback|savepoint|release\s+savepoint|set\s+transaction)\b" "i")).
Definition with_pattern : regexp := Eval vm_compute in pcre (parsed (regex "^with\b" "i")).
Definition top_level_pattern : regexp := Eval vm_compute in
  pcre (parsed (regex "^\s*(select|insert|update|delete)\b" "i")).
Definition on_conflict_pattern : regexp := Eval vm_compute in
  pcre (parsed (regex "\bon\s+conflict\b[\s\S]*\bdo\s+update\b" "i")).
Definition on_duplicate_key_pattern : regexp := Eval vm_compute in
  pcre (parsed (regex "\bon\s+duplicate\s+key\s+update\b" "i")).

(** [\G] stands for the beginning of the rest of the statement. *)
Definition dollar_pattern : regexp := Eval vm_compute in
  pcre (parsed (regex "^\$[A-Za-z_][A-Za-z0-9_]*\$|^\$\$" "")).

Definition family_patterns : list (family_key * regexp) := Eval vm_compute in
  [ (Kread, pcre (parsed (regex "^(select|show|describe|desc|explain)\b" "i")));
    (Kinsert, pcre (parsed (regex "^insert\b" "i")));
    (Kupdate, pcre (parsed (regex "^update\b" "i")));
    (Kdelete, pcre (parsed (regex "^delete\b" "i")));
    (Kcreate_table, pcre (parsed (regex "^create\s+(temporary\s+)?table\b" "i")));
    (Kalter_table, pcre (parsed (regex "^alter\s+table\b" "i")));
    (Kdrop_table, pcre (parsed (regex "^drop\s+(temporary\s+)?table\b" "i")));
    (Ktruncate_table, pcre (parsed (regex "^truncate(?:\s+table)?\b" "i"))) ].

(** [SqlStatementFamily::label] *)
Definition guard_label (f : family_key) : string :=
  match f with
  | Kread => "Read queries"
  | Kinsert => "INSERT"
  | Kupdate => "UPDATE"
  | Kdelete => "DELETE"
  | Kcreate_table => "CREATE TABLE"
  | Kalter_table => "ALTER TABLE"
  | Kdrop_table => "DROP TABLE"
  | Ktruncate_table => "TRUNCATE TABLE"
  end.

(** [SqlStatementFamily::queryType] *)
Definition queryType (f : family_key) : QueryType :=
  match f with Kread => ReadQuery | _ => WriteQuery end.

(** ** The statement without literals and comments *)

Inductive mode :=
  | Code | LineComment | BlockComment | DollarQuote (tag : string) | SingleQuoted | DoubleQuoted.

(** The tag that begins at [rest], when it begins with a dollar. *)
Definition dollar_tag (rest : string) : option string :=
  if unit_at 0 rest "$" then match_text <$> exec dollar_pattern rest else None.

(** The loop of [executableSql]: [rest] is the statement from [$index] on, [skip] how many more
    bytes the index jumps over.  [None]: an executable comment or an optimizer hint. *)
Fixpoint scan (m : mode) (skip : nat) (rest : string) : option string :=
  match rest, skip with
  | EmptyString, _ => Some ""
  | String _ rest', S skip' => scan m skip' rest'
  | String current rest', O =>
      let next := unit_at 0 rest' in
      match m with
      | LineComment =>
          if Ascii.eqb current "010" then String "010" <$> scan Code 0 rest'
          else scan LineComment 0 rest'
      | BlockComment =>
          if Ascii.eqb current "*" && next "/"%char then scan Code 1 rest' else scan BlockComment 0 rest'
      | DollarQuote tag =>
          if startsWith rest tag then scan Code (String.length tag - 1) rest'
          else scan (DollarQuote tag) 0 rest'
      | SingleQuoted =>
          if Ascii.eqb current "'" && next "'"%char then scan SingleQuoted 1 rest'
          else if Ascii.eqb current "'" then scan Code 0 rest'
          else scan SingleQuoted 0 rest'
      | DoubleQuoted =>
          if Ascii.eqb current "034" && next "034"%char then scan DoubleQuoted 1 rest'
          else if Ascii.eqb current "034" then scan Code 0 rest'
          else scan DoubleQuoted 0 rest'
      | Code =>
          if Ascii.eqb current "-" && next "-"%char then String " " <$> scan LineComment 1 rest'
          else if Ascii.eqb current "/" && next "*"%char then
            if unit_at 1 rest' "!" || unit_at 1 rest' "+" then None
            else String " " <$> scan BlockComment 1 rest'
          else if Ascii.eqb current "'" then String " " <$> scan SingleQuoted 0 rest'
          else if Ascii.eqb current "034" then String " " <$> scan DoubleQuoted 0 rest'
          else
            match dollar_tag rest with
            | Some tag => String " " <$> scan (DollarQuote tag) (String.length tag - 1) rest'
            | None => String current <$> scan Code 0 rest'
            end
      end
  end.

Definition HINT_MESSAGE : string :=
  "Executable comments and optimizer hints are not allowed in governed SQL.".

Definition executableSql (sql : string) : checked string :=
  match scan Code 0 sql with Some e => Accepted e | None => Refused HINT_MESSAGE end.

(** ** Canonical form *)

Definition normalize (sql : string) : string :=
  ltrim (rtrim (replace_unit "013" "010" (replace_crlf sql))).

Fixpoint strip_loop (fuel : nat) (statement : string) : string :=
  match fuel with
  | O => statement
  | S fuel' =>
      if ends_with ";" statement then strip_loop fuel' (rtrim (drop_last statement)) else statement
  end.

Definition stripTrailingTerminator (sql : string) : string :=
  strip_loop (String.length sql) (rtrim sql).

Definition canonicalSql (sql : string) : string := stripTrailingTerminator (normalize sql).

(** ** Families *)

(** The loop of [topLevelExecutableSql]; the character before [$index] does not matter to the
    pattern. *)
Fixpoint top_level_executable (parenthesisDepth : nat) (rest : string) : option string :=
  match rest with
  | EmptyString => None
  | String character rest' =>
      if Ascii.eqb character "(" then top_level_executable (parenthesisDepth + 1) rest'
      else if Ascii.eqb character ")" then top_level_executable (parenthesisDepth - 1) rest'
      else if negb (parenthesisDepth =? 0) then top_level_executable parenthesisDepth rest'
      else
        match exec top_level_pattern rest with
        | Some m =>
            Some (drop_str (String.length (match_text m) - String.length (JsRegExp.group m 1 ?? "")) rest)
        | None => top_level_executable parenthesisDepth rest'
        end
  end.

Definition topLevelExecutableSql (sql : string) : checked string :=
  e <-- executableSql sql;
  let executableSql := ltrim e in
  Accepted
    (if negb (test with_pattern executableSql) then executableSql
     else top_level_executable 0 (drop_str 4 executableSql) ?? executableSql).

Definition family_of (topLevel : string) : option family_key :=
  fst <$> find_first (fun f => test (snd f) topLevel) family_patterns.

Definition statementFamily (statement : string) : checked (option family_key) :=
  e <-- topLevelExecutableSql statement; Accepted (family_of e).

Definition insertPerformsUpdate (statement : string) : checked bool :=
  e <-- topLevelExecutableSql statement;
  Accepted (test on_conflict_pattern e || test on_duplicate_key_pattern e).

Definition requiredStatementFamilies (statement : string) : checked (list family_key) :=
  family <-- statementFamily statement;
  match family with
  | None => Accepted []
  | Some Kinsert =>
      updates <-- insertPerformsUpdate statement;
      Accepted (Kinsert :: when updates [Kupdate])%list
  | Some f => Accepted [f]
  end.

(** ** Validation *)

Definition REQUIRED_MESSAGE : string := "The SQL statement is required.".
Definition ONE_STATEMENT_MESSAGE : string := "Only one SQL statement may be submitted per request.".
Definition BLOCKED_MESSAGE : string :=
  "Administrative, file, security-management, and procedural SQL statements are blocked.".

(** [validateStructuralSafety]; [trigger] is whether the reviewable form of a trigger passes. *)
Definition validateStructuralSafety (trigger : bool) (sql : string) : checked string :=
  let normalized := normalize sql in
  if str_eq normalized "" then Refused REQUIRED_MESSAGE
  else
    let singleStatement := stripTrailingTerminator normalized in
    executableSql <-- executableSql singleStatement;
    if includes executableSql ";" then Refused ONE_STATEMENT_MESSAGE
    else if test explain_pattern (ltrim executableSql) && test analyze_pattern executableSql
    then Refused EXPLAIN_ANALYZE_MESSAGE
    else if test do_pattern (ltrim executableSql) ||
            (negb (trigger && test ReviewablePostgreSqlCreateTriggerPattern executableSql) &&
             test EmergencyFallbackBlockedSqlPattern executableSql)
    then Refused BLOCKED_MESSAGE
    else if test transaction_pattern (ltrim executableSql) then Refused TRANSACTION_MESSAGE
    else Accepted singleStatement.

Definition validateStructure : string -> checked string := validateStructuralSafety false.

Definition validateDeploymentStructure (sql : string) (postgres : bool) : checked string :=
  validateStructuralSafety postgres sql.

Section policy.
(** The settings of the workspace. *)
Context (settings : SqlStatementPolicy).

Definition first_disabled (families : list family_key) : option family_key :=
  find_first (fun f => negb (policy_get settings f)) families.

Definition validateExecutable (sql : string) : checked string :=
  singleStatement <-- validateStructure sql;
  family <-- statementFamily singleStatement;
  match family with
  | None =>
      if negb (sql_emergency_fallback_enabled settings) then Refused UNSUPPORTED_SQL_POLICY_MESSAGE
      else Accepted singleStatement
  | Some _ =>
      required <-- requiredStatementFamilies singleStatement;
      match first_disabled required with
      | Some f => Refused (disabled_message (guard_label f))
      | None => Accepted singleStatement
      end
  end.

Definition classify (sql : string) : checked QueryType :=
  statement <-- validateExecutable sql;
  family <-- statementFamily statement;
  Accepted (match family with Some f => queryType f | None => WriteQuery end).

Definition usesEmergencySqlFallback (sql : string) : checked bool :=
  statement <-- validateExecutable sql;
  family <-- statementFamily statement;
  Accepted (negb (is_some family)).

Definition SESSION_MESSAGE : string :=
  "This SQL statement is not supported in a query access session.".

Definition validateSessionExecutable (sql : string) : checked string :=
  statement <-- validateExecutable sql;
  family <-- statementFamily statement;
  if is_some family then Accepted statement else Refused SESSION_MESSAGE.
End policy.

(** ** Examples *)

Example guard_select : classify read_only_policy "select * from users where name = 'grant; x' -- ;" =
  Accepted ReadQuery.
Proof. vm_compute. reflexivity. Qed.

Example guard_two : validateStructure "select 1; delete from users" = Refused ONE_STATEMENT_MESSAGE.
Proof. vm_compute. reflexivity. Qed.

Example guard_load_file : validateStructure "select load_file('/etc/passwd')" = Refused BLOCKED_MESSAGE.
Proof. vm_compute. reflexivity. Qed.

(** The same with a literal whose quote is escaped by a backslash before it. *)
Example guard_backslash :
  classify read_only_policy "select '\'', load_file('/etc/passwd') -- '" = Accepted ReadQuery.
Proof. vm_compute. reflexivity. Qed.

(** ** The canonical form *)

Definition terminator_or_space (c : ascii) : bool := php_space c || Ascii.eqb c ";".

Lemma space_terminator_or_space c : php_space c = true -> terminator_or_space c = true.
Proof. unfold terminator_or_space. by intros ->. Qed.

(** The loop removes the terminators at the end with the blanks around them; its fuel is enough. *)
Lemma strip_loop_spec fuel s :
  String.length s <= fuel -> rtrim s = s -> strip_loop fuel s = rstrip terminator_or_space s.
Proof.
  revert s. induction fuel as [|fuel IH]; intros s Hl Hr.
  - by destruct s; [|simpl in Hl; lia].
  - cbn [strip_loop]. destruct (string_snoc s) as [->|(t & c & ->)]; [done|].
    rewrite ends_with_app, drop_last_app, rstrip_last. unfold terminator_or_space at 1.
    unfold rtrim in Hr. rewrite rstrip_last in Hr. rewrite length_app_str in Hl. simpl in Hl.
    destruct (php_space c) eqn:Hc.
    { apply (f_equal String.length) in Hr. pose proof (length_rstrip php_space t).
      rewrite length_app_str in Hr. simpl in Hr. lia. }
    destruct (Ascii.eqb c ";"); [|done]. cbn [orb]. rewrite IH.
    + apply rstrip_rstrip, space_terminator_or_space.
    + pose proof (length_rstrip php_space t). unfold rtrim. lia.
    + apply rstrip_idem.
Qed.

Lemma stripTrailingTerminator_spec s : stripTrailingTerminator s = rstrip terminator_or_space s.
Proof.
  unfold stripTrailingTerminator. rewrite strip_loop_spec.
  - apply rstrip_rstrip, space_terminator_or_space.
  - apply length_rstrip.
  - apply rstrip_idem.
Qed.

Lemma normalize_id s : all_chars not_cr s = true -> rtrim s = s -> ltrim s = s -> normalize s = s.
Proof. intros Hc Hr Hl. unfold normalize. by rewrite replace_crlf_id, replace_cr_id, Hr, Hl. Qed.

Lemma normalize_no_cr sql : all_chars not_cr (normalize sql) = true.
Proof. apply all_chars_lstrip, all_chars_rstrip, replace_cr_none. done. Qed.

(** A canonical statement is its own normal form. *)
Lemma normalize_canonical sql : normalize (canonicalSql sql) = canonicalSql sql.
Proof.
  unfold canonicalSql. rewrite stripTrailingTerminator_spec. apply normalize_id.
  - apply all_chars_rstrip, normalize_no_cr.
  - apply rstrip_weaker, space_terminator_or_space.
  - apply lstrip_rstrip. unfold normalize, ltrim. apply lstrip_idem.
Qed.

Lemma canonicalSql_idem sql : canonicalSql (canonicalSql sql) = canonicalSql sql.
Proof.
  unfold canonicalSql at 1. rewrite normalize_canonical. unfold canonicalSql.
  rewrite !stripTrailingTerminator_spec. apply rstrip_idem.
Qed.

Lemma validateStructuralSafety_canonical trigger sql s :
  validateStructuralSafety trigger sql = Accepted s -> s = canonicalSql sql.
Proof.
  unfold validateStructuralSafety, canonicalSql. case_match; [done|].
  destruct (executableSql _); [|done]. cbn [checked_bind]. repeat (case_match; [done|]).
  by intros [= <-].
Qed.

Lemma validateExecutable_structure settings sql s :
  validateExecutable settings sql = Accepted s -> validateStructure sql = Accepted s.
Proof.
  unfold validateExecutable. destruct (validateStructure sql) as [t|]; [|done].
  cbn [checked_bind]. destruct (statementFamily t) as [[f|]|]; [| |done]; cbn [checked_bind].
  - destruct (requiredStatementFamilies t); [|done]. cbn [checked_bind]. case_match; [done|].
    by intros [= <-].
  - case_match; [done|]. by intros [= <-].
Qed.

(** What the guard returns has been checked: validating a statement returns its canonical form
    (LF line ends, no blanks and no terminators around it), and validating that form again, as the
    classification and the execution do, returns it unchanged -- unless nothing is left of it. *)
Theorem validated_once settings sql s :
  validateExecutable settings sql = Accepted s -> s <> "" ->
  s = canonicalSql sql /\ validateExecutable settings s = Accepted s.
Proof.
  intros H Hne. pose proof (validateExecutable_structure _ _ _ H) as Hs.
  pose proof (validateStructuralSafety_canonical _ _ _ Hs) as ->. split; [done|].
  assert (Hv : validateStructure (canonicalSql sql) = validateStructure sql).
  { unfold validateStructure, validateStructuralSafety. fold (canonicalSql sql).
    rewrite normalize_canonical, (proj2 (str_eq_false _ _) Hne).
    change (stripTrailingTerminator (canonicalSql sql)) with
      (stripTrailingTerminator (stripTrailingTerminator (normalize sql))).
    rewrite !stripTrailingTerminator_spec, rstrip_idem, <- stripTrailingTerminator_spec.
    destruct (str_eq (normalize sql) "") eqn:E; [|done].
    apply str_eq_true in E. exfalso. apply Hne. unfold canonicalSql. by rewrite E. }
  revert H. unfold validateExecutable. by rewrite Hv.
Qed.

Lemma validated_once_witness :
  validateExecutable read_only_policy " select 1;; " = Accepted "select 1" /\
  validateExecutable read_only_policy "select 1" = Accepted "select 1".
Proof.
  split; [vm_compute; reflexivity|].
  apply (validated_once read_only_policy " select 1;; "); [vm_compute; reflexivity|done].
Defined.

(** Nothing is left of a lone terminator.  With the emergency fallback the guard accepts it, and
    then refuses what it has returned. *)
Lemma lone_terminator_accepted :
  validateExecutable permissive ";" = Accepted "" /\
  validateExecutable permissive "" = Refused REQUIRED_MESSAGE.
Proof. by vm_compute. Qed.

(** ** The guard and the form agree *)

(** Characters both languages read alike: of ASCII, without the blanks that only one of them trims
    and without what begins a literal, a quoted name or another statement. *)
Definition plain_char (c : ascii) : bool :=
  in_range 1 127 c &&
  negb (is_code 12 c || is_code 13 c || is_code 34 c || is_code 36 c || is_code 39 c || is_code 59 c).

(** Statements of such characters, without comments. *)
Definition plain (sql : string) : bool :=
  all_chars plain_char sql && negb (includes sql "--") && negb (includes sql "/*").

Lemma plain_char_facts c : plain_char c = true ->
  not_cr c = true /\ not_nbsp c = true /\ Bool.eqb (php_space c) (is_space c) = true /\
  Ascii.eqb c "'" = false /\ Ascii.eqb c "034" = false /\ Ascii.eqb c "$" = false /\
  Ascii.eqb c ";" = false.
Proof.
  intros H.
  assert (Hall : forall c, negb (plain_char c) ||
    (not_cr c && not_nbsp c && Bool.eqb (php_space c) (is_space c) && negb (Ascii.eqb c "'") &&
     negb (Ascii.eqb c "034") && negb (Ascii.eqb c "$") && negb (Ascii.eqb c ";")) = true).
  { apply all_units_forall. vm_compute. reflexivity. }
  specialize (Hall c). rewrite H in Hall. cbn [negb orb] in Hall. bool_hyps. done.
Qed.

Lemma includes_suffix p s t : includes (s ++ t) p = false -> includes t p = false.
Proof. induction s as [|c s IH]; [done|]. cbn [String.append includes]. intros [_ H]%orb_false_iff. auto. Qed.

Lemma includes_tail p c s : includes (String c s) p = false -> includes s p = false.
Proof. apply (includes_suffix p (String c "")). Qed.

(** Two bytes that do not follow each other. *)
Lemma pair_absent a b c s :
  includes (String c s) (String a (String b "")) = false -> Ascii.eqb c a && unit_at 0 s b = false.
Proof.
  cbn [includes]. intros [H _]%orb_false_iff. revert H. cbn [startsWith]. unfold unit_at. simpl.
  destruct s as [|d s]; rewrite ?andb_false_r; [done|]. cbn [startsWith].
  destruct (Ascii.eqb_spec c a), (Ascii.eqb_spec d b); subst;
    rewrite ?Ascii.eqb_refl; cbn; try done.
  by destruct s.
Qed.

Lemma startsWith_app s t p : startsWith s p = true -> startsWith (s ++ t) p = true.
Proof.
  revert s. induction p as [|a p IH]; intros s; [by destruct (s ++ t)|].
  destruct s as [|c s]; [done|].
  cbn [String.append startsWith]. intros [-> H]%andb_true_iff. by rewrite IH.
Qed.

Lemma includes_prefix s t p : includes (s ++ t) p = false -> includes s p = false.
Proof.
  revert t. induction s as [|c s IH]; intros t; cbn [String.append includes]; intros H.
  - destruct p as [|a p]; [|done]. destruct t; cbn in H; congruence.
  - apply orb_false_iff in H as [H1 H2]. rewrite (IH _ H2), orb_false_r.
    apply not_true_is_false. intros H3. apply (startsWith_app _ t) in H3.
    change (String c s ++ t) with (String c (s ++ t)) in H3. congruence.
Qed.

Lemma lstrip_suffix p s : exists t, s = t ++ lstrip p s.
Proof.
  induction s as [|c s (t & Hs)]; [by exists ""|]. simpl. destruct (p c); [|by exists ""].
  exists (String c t). simpl. by rewrite <- Hs.
Qed.

Lemma includes_strip p q s w : includes s w = false -> includes (rstrip p (lstrip q s)) w = false.
Proof.
  destruct (lstrip_suffix q s) as (t & Hs). rewrite Hs at 1. intros H%includes_suffix.
  destruct (rstrip_prefix p (lstrip q s)) as (u & Hu & _). rewrite Hu in H. by apply includes_prefix in H.
Qed.

Lemma plain_strip p q s : plain s = true -> plain (rstrip p (lstrip q s)) = true.
Proof.
  unfold plain. rewrite !andb_true_iff, !negb_true_iff. intros [[H1 H2] H3].
  rewrite !includes_strip by done. split_and!; try done. by apply all_chars_rstrip, all_chars_lstrip.
Qed.

(** A plain statement is all code. *)
Lemma scan_plain s : plain s = true -> scan Code 0 s = Some s.
Proof.
  unfold plain. rewrite !andb_true_iff, !negb_true_iff.
  induction s as [|c s IH]; [done|]. intros [[H1 H2] H3]. cbn [all_chars] in H1.
  apply andb_true_iff in H1 as [Hc Hs].
  destruct (plain_char_facts c Hc) as (_ & _ & _ & E1 & E2 & E3 & _).
  cbn [scan]. rewrite (pair_absent _ _ _ _ H2), (pair_absent _ _ _ _ H3), E1, E2.
  assert (Hd : dollar_tag (String c s) = None) by (unfold dollar_tag, unit_at; cbn; by rewrite E3).
  rewrite Hd, IH; [done|]. split_and!; [done|by eapply includes_tail..].
Qed.

Lemma no_pair_match a b k ml prev s caps st' :
  ~ matches false ml (RSeq (RSet (CUnit a)) (RSeq (RSet (CUnit b)) k)) (MState prev s caps) st' \/
  startsWith s (String a (String b "")) = true.
Proof.
  destruct (startsWith s _) eqn:E; [by right|left]. intros H.
  inversion H as [| |? ? ? st1 ? H1 H2| | | | | | | | | |]; subst.
  inversion H1 as [|? ? c rest ? Hm| | | | | | | | | | |]; subst.
  inversion H2 as [| |? ? ? st2 ? H3 _| | | | | | | | | |]; subst.
  inversion H3 as [|? ? d rest' ? Hm'| | | | | | | | | | |]; subst.
  rewrite set_match_cs in Hm, Hm'. simpl in Hm, Hm'.
  apply Ascii.eqb_eq in Hm as ->. apply Ascii.eqb_eq in Hm' as ->.
  cbn [startsWith] in E. rewrite !Ascii.eqb_refl in E. by destruct rest'.
Qed.

(** A pattern that begins with two bytes replaces nothing where they do not follow each other. *)
Lemma replace_absent a b k p by_ s :
  re_body p = RSeq (RSet (CUnit a)) (RSeq (RSet (CUnit b)) k) -> re_ignore_case p = false ->
  includes s (String a (String b "")) = false -> replace_all p by_ s = s.
Proof.
  intros Hb Hi. unfold replace_all. generalize (@None ascii).
  assert (Hrun : forall prev s, startsWith s (String a (String b "")) = false ->
    run p (MState prev s []) = []).
  { intros prev t Ht. apply run_nil. intros st'. unfold matches_at. rewrite Hb, Hi.
    destruct (no_pair_match a b k (re_multiline p) prev t [] st') as [H|H]; [done|congruence]. }
  induction s as [|c s IH]; intros prev H.
  - cbn [replace_from String.length]. by rewrite Hrun by done.
  - cbn [replace_from String.length]. cbn [includes] in H. apply orb_false_iff in H as [H1 H2].
    rewrite Hrun by done. f_equal. apply IH. exact H2.
Qed.

Lemma executable_sql_plain sql : plain sql = true -> executable_sql sql = trim sql.
Proof.
  unfold plain. rewrite !andb_true_iff, !negb_true_iff. intros [[_ H2] H3].
  unfold executable_sql.
  erewrite (replace_absent _ _ _ BLOCK_COMMENT_PATTERN); [|reflexivity|reflexivity|done].
  by erewrite (replace_absent _ _ _ LINE_COMMENT_PATTERN); [|reflexivity|reflexivity|].
Qed.

(** The two trims agree on it. *)
Lemma plain_chars s (q : ascii -> bool) :
  (forall c, plain_char c = true -> q c = true) -> plain s = true -> all_chars q s = true.
Proof.
  intros Hq. unfold plain. rewrite !andb_true_iff. intros [[H _] _]. revert H. by apply all_chars_weaken.
Qed.

Lemma normalize_plain s : plain s = true -> normalize s = trim s.
Proof.
  intros H. unfold normalize.
  rewrite replace_crlf_id, replace_cr_id by (apply (plain_chars s); [|done];
    intros c Hc; apply (plain_char_facts c Hc)).
  unfold ltrim, rtrim. rewrite strip_commute. unfold trim. rewrite trimEnd_rstrip, trimStart_lstrip.
  assert (Hq : forall t, plain t = true -> all_chars (fun c => Bool.eqb (php_space c) (is_space c)) t = true).
  { intros t. apply plain_chars. intros c Hc. apply (plain_char_facts c Hc). }
  rewrite (lstrip_ext php_space is_space s) by auto.
  apply rstrip_ext, Hq. pose proof (plain_strip (fun _ => false) is_space s H) as Hp.
  assert (Hid : forall t, rstrip (fun _ => false) t = t).
  { induction t as [|c t IH]; [done|]. simpl. rewrite IH. by destruct t. }
  by rewrite Hid in Hp.
Qed.

Lemma plain_trim s : plain s = true -> plain (trim s) = true.
Proof. unfold trim. rewrite trimEnd_rstrip, trimStart_lstrip. apply plain_strip. Qed.

Lemma canonical_plain s : plain s = true -> canonicalSql s = trim s.
Proof.
  intros H. unfold canonicalSql. rewrite normalize_plain, stripTrailingTerminator_spec by done.
  assert (Hp : plain (trim s) = true) by by apply plain_trim.
  rewrite (rstrip_ext terminator_or_space is_space).
  - rewrite <- trimEnd_rstrip. apply trimEnd_idem.
  - apply plain_chars; [|done]. intros c Hc. unfold terminator_or_space.
    destruct (plain_char_facts c Hc) as (_ & _ & E & _ & _ & _ & ->). by rewrite orb_false_r.
Qed.

Lemma plain_no_nbsp s : plain s = true -> no_nbsp s = true.
Proof. apply plain_chars. intros c Hc. apply (plain_char_facts c Hc). Qed.

Lemma plain_no_terminator s : plain s = true -> includes s ";" = false.
Proof.
  intros H. assert (Hc : all_chars (fun c => negb (Ascii.eqb c ";")) s = true).
  { apply plain_chars; [|done]. intros c Hc. by destruct (plain_char_facts c Hc) as (_ & _ & _ & _ & _ & _ & ->). }
  clear H. induction s as [|c s IH]; [done|]. cbn [all_chars includes startsWith] in *.
  apply andb_true_iff in Hc as [Hc Hs]. rewrite IH by done.
  apply negb_true_iff in Hc. rewrite (Ascii.eqb_sym ";" c), Hc. done.
Qed.

Lemma top_level_agrees depth s :
  no_nbsp s = true -> top_level_executable depth s = top_level_from depth s.
Proof.
  revert depth. induction s as [|c s IH]; intros depth H; [done|]. cbn [top_level_executable top_level_from].
  assert (Hs : no_nbsp s = true) by (by apply andb_true_iff in H as [_ Hs]).
  rewrite !IH by done. change top_level_pattern with (pcre TOP_LEVEL_PATTERN). by rewrite exec_pcre.
Qed.

Lemma no_nbsp_drop n s : no_nbsp s = true -> no_nbsp (drop_str n s) = true.
Proof. intros H. rewrite <- (drop_take_str n s) in H. by apply all_chars_suffix in H. Qed.

Lemma topLevel_agrees e :
  plain e = true -> trim e = e ->
  topLevelExecutableSql e = Accepted (topLevelGovernedSql e).
Proof.
  intros H Ht. unfold topLevelExecutableSql, executableSql. rewrite scan_plain by done.
  cbn [checked_bind].
  assert (Hl : ltrim e = e).
  { rewrite <- Ht. rewrite <- normalize_plain by done. apply lstrip_idem. }
  rewrite Hl. unfold topLevelGovernedSql. f_equal.
  change with_pattern with (pcre WITH_PATTERN).
  rewrite test_pcre, top_level_agrees; [done|by apply no_nbsp_drop, plain_no_nbsp|by apply plain_no_nbsp].
Qed.

Lemma top_level_no_nbsp depth s t :
  no_nbsp s = true -> top_level_from depth s = Some t -> no_nbsp t = true.
Proof.
  revert depth. induction s as [|c s IH]; intros depth H; [done|]. cbn [top_level_from].
  assert (Hs : no_nbsp s = true) by (by apply andb_true_iff in H as [_ Hs]).
  destruct (Ascii.eqb c "("); [by apply IH|]. destruct (Ascii.eqb c ")"); [by apply IH|].
  destruct (negb _); [by apply IH|]. destruct (exec _ _); [|by apply IH].
  intros [= <-]. by apply no_nbsp_drop.
Qed.

Lemma topLevelGovernedSql_no_nbsp e : no_nbsp e = true -> no_nbsp (topLevelGovernedSql e) = true.
Proof.
  intros H. unfold topLevelGovernedSql. destruct (negb _); [done|].
  destruct (top_level_from 0 (drop_str 4 e)) as [t|] eqn:E; [|done].
  eapply top_level_no_nbsp; [|exact E]. by apply no_nbsp_drop.
Qed.

Lemma family_patterns_agree :
  family_patterns = map (fun f => (family_id f, pcre (family_pattern f))) SQL_STATEMENT_FAMILIES.
Proof. reflexivity. Qed.

Lemma family_of_agrees t : no_nbsp t = true -> family_of t = family_id <$> statement_family_of t.
Proof.
  intros H. unfold family_of, statement_family_of. rewrite family_patterns_agree.
  induction SQL_STATEMENT_FAMILIES as [|f l IH]; [done|].
  cbn [map find_first snd]. rewrite test_pcre by done.
  destruct (test (family_pattern f) t); [done|]. exact IH.
Qed.

Lemma labels_agree f : f ∈ SQL_STATEMENT_FAMILIES -> guard_label (family_id f) = family_label f.
Proof.
  intros H. assert (Hl : Forall (fun f => guard_label (family_id f) = family_label f)
    SQL_STATEMENT_FAMILIES) by (repeat constructor).
  rewrite Forall_forall in Hl. by apply Hl.
Qed.

(** The server's wording of what the form says. *)
Definition guard_message (message : string) : string :=
  if str_eq message ADMINISTRATIVE_MESSAGE then BLOCKED_MESSAGE else message.

Lemma disabled_wording f : guard_message (disabled_message (guard_label f)) = disabled_message (guard_label f).
Proof. by destruct f. Qed.

(** The server's part after the structural checks, on what the form looks at. *)
Lemma families_agree policy e :
  plain e = true -> trim e = e ->
  requiredStatementFamilies e =
  match statement_family_of (topLevelGovernedSql e) with
  | None => Accepted []
  | Some f => Accepted (family_id f ::
      when (bool_decide (family_id f = Kinsert) && insert_performs_update (topLevelGovernedSql e)) [Kupdate])
  end /\
  statementFamily e = Accepted (family_id <$> statement_family_of (topLevelGovernedSql e)) /\
  (forall f, statement_family_of (topLevelGovernedSql e) = Some f ->
   first_disabled policy (family_id f ::
      when (bool_decide (family_id f = Kinsert) && insert_performs_update (topLevelGovernedSql e)) [Kupdate])%list =
   if negb (policy_get policy (family_id f)) then Some (family_id f)
   else if (bool_decide (family_id f = Kinsert) && insert_performs_update (topLevelGovernedSql e)) &&
           negb (sql_update_enabled policy) then Some Kupdate else None).
Proof.
  intros H Ht. pose proof (plain_no_nbsp e H) as Hn.
  pose proof (topLevelGovernedSql_no_nbsp e Hn) as Htn.
  assert (Hf : statementFamily e = Accepted (family_id <$> statement_family_of (topLevelGovernedSql e))).
  { unfold statementFamily. rewrite topLevel_agrees by done. cbn [checked_bind]. by rewrite family_of_agrees. }
  assert (Hu : insertPerformsUpdate e = Accepted (insert_performs_update (topLevelGovernedSql e))).
  { unfold insertPerformsUpdate, insert_performs_update. rewrite topLevel_agrees by done.
    cbn [checked_bind]. change on_conflict_pattern with (pcre ON_CONFLICT_PATTERN).
    change on_duplicate_key_pattern with (pcre ON_DUPLICATE_KEY_PATTERN). by rewrite !test_pcre. }
  split_and!; [|done|].
  - unfold requiredStatementFamilies. rewrite Hf. cbn [checked_bind].
    destruct (statement_family_of _) as [f|]; [|done]. cbn.
    destruct (family_id f); try done. by rewrite Hu.
  - intros f _. unfold first_disabled. cbn [find_first].
    destruct (policy_get policy (family_id f)); [|done]. cbn [negb].
    destruct (bool_decide _ && _); [|done]. cbn. by destruct (sql_update_enabled policy).
Qed.

(** C24. The form's preview of the policy is the verdict of the server: for a statement of plain
    characters without comments -- no literal, quoted name or dollar, and no terminator -- the
    guard accepts exactly what the form lets pass, as the form has trimmed it, refuses the rest
    for the reason the form gives, and agrees on what needs the emergency fallback. *)
Theorem guard_agrees_with_form sql policy :
  plain sql = true -> trim sql <> "" ->
  validateExecutable policy sql =
    match sqlStatementPolicyMessage sql policy with
    | None => Accepted (trim sql)
    | Some message => Refused (guard_message message)
    end /\
  (sqlStatementPolicyMessage sql policy = None ->
   QueryGuard.usesEmergencySqlFallback policy sql =
     Accepted (SqlPolicy.usesEmergencySqlFallback sql policy)).
Proof.
  intros H Hne. set (e := trim sql) in *.
  assert (He : plain e = true) by by apply plain_trim.
  assert (Het : trim e = e).
  { unfold e, trim. rewrite trimEnd_rstrip, trimStart_lstrip.
    by rewrite trimEnd_rstrip, trimStart_lstrip, strip_commute, lstrip_idem, rstrip_idem. }
  assert (Hel : ltrim e = e) by (rewrite <- Het, <- normalize_plain by done; apply lstrip_idem).
  pose proof (plain_no_nbsp e He) as Hn.
  destruct (families_agree policy e He Het) as (Hr & Hf & Hd).
  assert (Hs : validateStructure sql =
    if test EXPLAIN_PATTERN e && test ANALYZE_PATTERN e then Refused EXPLAIN_ANALYZE_MESSAGE
    else if test DO_PATTERN e || test EMERGENCY_FALLBACK_BLOCKED_SQL_PATTERN e then Refused BLOCKED_MESSAGE
    else if test TRANSACTION_PATTERN e then Refused TRANSACTION_MESSAGE else Accepted e).
  { unfold validateStructure, validateStructuralSafety. fold (canonicalSql sql).
    rewrite canonical_plain, normalize_plain by done. fold e. rewrite (proj2 (str_eq_false _ _) Hne).
    unfold executableSql. rewrite scan_plain by done. cbn [checked_bind andb negb].
    rewrite plain_no_terminator, Hel by done.
    change explain_pattern with (pcre EXPLAIN_PATTERN). change analyze_pattern with (pcre ANALYZE_PATTERN).
    change do_pattern with (pcre DO_PATTERN). change transaction_pattern with (pcre TRANSACTION_PATTERN).
    change EmergencyFallbackBlockedSqlPattern with (pcre EMERGENCY_FALLBACK_BLOCKED_SQL_PATTERN).
    by rewrite !test_pcre. }
  assert (Hv : validateExecutable policy sql =
    match sqlStatementPolicyMessage sql policy with
    | None => Accepted e | Some message => Refused (guard_message message) end).
  { unfold validateExecutable, sqlStatementPolicyMessage. rewrite Hs, executable_sql_plain by done.
    fold e. destruct (test EXPLAIN_PATTERN e && _); [done|]. destruct (test DO_PATTERN e || _); [done|].
    destruct (test TRANSACTION_PATTERN e); [done|]. cbn [checked_bind]. rewrite Hf, Hr. cbn [checked_bind].
    destruct (statement_family_of _) as [f|] eqn:Ef.
    - cbn [fmap option_fmap option_map checked_bind]. rewrite (Hd f eq_refl).
      assert (Hin : f ∈ SQL_STATEMENT_FAMILIES) by (by apply find_first_Some in Ef as [? _]).
      rewrite <- (labels_agree f Hin).
      destruct (policy_get policy (family_id f)); cbn [negb]; [|by rewrite disabled_wording].
      by destruct (_ && negb _).
    - cbn. by destruct (sql_emergency_fallback_enabled policy). }
  split; [exact Hv|]. intros Hm. unfold QueryGuard.usesEmergencySqlFallback.
  rewrite Hv, Hm. cbn [checked_bind]. rewrite Hf. cbn [checked_bind].
  unfold SqlPolicy.usesEmergencySqlFallback. rewrite executable_sql_plain by done. fold e.
  rewrite fallback_existsb. f_equal. revert Hm. unfold sqlStatementPolicyMessage.
  rewrite executable_sql_plain by done. fold e. rewrite !early_return_none. intros (_ & _ & _ & Hm).
  destruct (statement_family_of _) as [f|]; cbn; [by destruct (sql_emergency_fallback_enabled policy)|].
  by destruct (sql_emergency_fallback_enabled policy).
Qed.

Lemma guard_agrees_with_form_witness :
  validateExecutable read_only_policy "delete from users where id = 1" =
    Refused "DELETE statements are disabled by the workspace administrator.".
Proof.
  refine (eq_trans (proj1 (guard_agrees_with_form "delete from users where id = 1" read_only_policy
    _ _)) _); [reflexivity|done|vm_compute; reflexivity].
Defined.
