(* ===== verification/SqlLexer.v ===== *)
(** * What the guard takes for code

    The loop of [QueryGuard.executableSql] against a grammar of SQL text: code, comments to the
    end of a line, block comments, quoted text and dollar-quoted text, each up to the first end it
    can have, or to the end of the statement.  And what the dialects read otherwise. *)

From Stdlib Require Import String.
From S2P Require Import Prelude JsString JsRegExp PhpString CrucibleLib SqlPolicy QueryGuard.

Open Scope string_scope.
Open Scope nat_scope.

(** ** The grammar *)

Definition not_lf (c : ascii) : bool := negb (Ascii.eqb c "010").

(** Quoted text without its quotes: a quote in it is doubled. *)
Fixpoint quoted (q : ascii) (s : string) : bool :=
  match s with
  | EmptyString => true
  | String c s' =>
      if Ascii.eqb c q
      then match s' with String d s'' => Ascii.eqb d q && quoted q s'' | EmptyString => false end
      else quoted q s'
  end.

(** [w] does not end anywhere in [body ++ w] but at its end. *)
Definition first_end (w body : string) : bool := negb (includes (body ++ drop_last w) w).

(** The text after [/*] is neither an executable comment nor an optimizer hint. *)
Definition no_hint (s : string) : bool := negb (unit_at 0 s "!") && negb (unit_at 0 s "+").

Definition is_quote (q : ascii) : bool := Ascii.eqb q "'" || Ascii.eqb q "034".

(** Nothing but code begins with [s]. *)
Definition is_code_start (s : string) : bool :=
  negb (startsWith s "--") && negb (startsWith s "/*") &&
  match s with String c _ => negb (is_quote c) | EmptyString => false end &&
  negb (is_some (dollar_tag s)).

(** [lexes s e]: [e] is what is left of the statement [s]. *)
Inductive lexes : string -> string -> Prop :=
  | lx_end : lexes "" ""
  | lx_code c rest e : is_code_start (String c rest) = true -> lexes rest e ->
      lexes (String c rest) (String c e)
  | lx_line body rest e : all_chars not_lf body = true -> lexes rest e ->
      lexes ("--" ++ body ++ String "010" rest) (String " " (String "010" e))
  | lx_line_open body : all_chars not_lf body = true -> lexes ("--" ++ body) " "
  | lx_block body rest e : no_hint (body ++ "*/") = true -> first_end "*/" body = true -> lexes rest e ->
      lexes ("/*" ++ body ++ "*/" ++ rest) (String " " e)
  | lx_block_open body : no_hint body = true -> includes body "*/" = false -> lexes ("/*" ++ body) " "
  | lx_quoted q body rest e : is_quote q = true -> quoted q body = true -> unit_at 0 rest q = false ->
      lexes rest e -> lexes (String q (body ++ String q rest)) (String " " e)
  | lx_quoted_open q body : is_quote q = true -> quoted q body = true -> lexes (String q body) " "
  | lx_dollar tag body rest e : dollar_tag (tag ++ body ++ tag ++ rest) = Some tag ->
      first_end tag body = true -> lexes rest e ->
      lexes (tag ++ body ++ tag ++ rest) (String " " e)
  | lx_dollar_open tag body : dollar_tag (tag ++ body) = Some tag -> includes body tag = false ->
      lexes (tag ++ body) " ".

(** ** The modes of the loop *)

Lemma scan_skip m u s : scan m (String.length u) (u ++ s) = scan m 0 s.
Proof. induction u as [|c u IH]; [by destruct s|]. exact IH. Qed.

Lemma scan_line body rest : all_chars not_lf body = true ->
  scan LineComment 0 (body ++ String "010" rest) = String "010" <$> scan Code 0 rest.
Proof.
  induction body as [|c body IH]; [done|]. cbn [all_chars String.append scan]. intros [Hc H]%andb_true_iff.
  unfold not_lf in Hc. apply negb_true_iff in Hc. rewrite Hc. by apply IH.
Qed.

Lemma scan_line_open body : all_chars not_lf body = true -> scan LineComment 0 body = Some "".
Proof.
  induction body as [|c body IH]; [done|]. cbn [all_chars scan]. intros [Hc H]%andb_true_iff.
  unfold not_lf in Hc. apply negb_true_iff in Hc. rewrite Hc. by apply IH.
Qed.

Lemma line_cases s :
  all_chars not_lf s = true \/
  exists body rest, s = body ++ String "010" rest /\ all_chars not_lf body = true.
Proof.
  induction s as [|c s IH]; [by left|]. destruct (Ascii.eqb_spec c "010") as [->|Hc].
  - right. by exists "", s.
  - apply Ascii.eqb_neq in Hc.
    destruct IH as [H|(body & rest & -> & H)]; [left|right; exists (String c body), rest; split; [done|]];
      cbn [all_chars]; unfold not_lf at 1; by rewrite Hc, H.
Qed.

Lemma startsWith_iff s w : startsWith s w = true <-> exists rest, s = w ++ rest.
Proof.
  revert s. induction w as [|a w IH]; intros s; [by destruct s; split; eauto|].
  destruct s as [|c s]; [split; [done|by intros (rest & [=])]|].
  cbn [startsWith]. rewrite andb_true_iff, IH. split.
  - intros [->%Ascii.eqb_eq (rest & ->)]. by exists rest.
  - intros (rest & [= -> ->]). rewrite Ascii.eqb_refl. eauto.
Qed.

Lemma startsWith_app_inv s t w :
  String.length w <= String.length s -> startsWith (s ++ t) w = true -> startsWith s w = true.
Proof.
  revert s. induction w as [|a w IH]; intros s; [by destruct s|].
  destruct s as [|c s]; cbn [String.length String.append startsWith]; [lia|].
  intros Hl [-> H]%andb_true_iff. rewrite (IH s); [done|lia|done].
Qed.

Lemma length_startsWith s w : startsWith s w = true -> String.length w <= String.length s.
Proof. intros (rest & ->)%startsWith_iff. rewrite length_app_str. lia. Qed.

Lemma length_includes s w : includes s w = true -> String.length w <= String.length s.
Proof.
  induction s as [|c s IH]; cbn [includes]; intros [H|H]%orb_true_iff; try done;
    try by apply length_startsWith in H. apply IH in H. simpl. lia.
Qed.

Lemma length_drop_last w : w <> "" -> S (String.length (drop_last w)) = String.length w.
Proof.
  destruct (string_snoc w) as [->|(t & c & ->)]; [done|]. intros _.
  rewrite drop_last_app, length_app_str. simpl. lia.
Qed.

(** The first place where [w] stands in [s]. *)
Lemma first_end_nil w : w <> "" -> first_end w "" = true.
Proof.
  intros Hw. unfold first_end. apply negb_true_iff, not_true_is_false. intros H%length_includes.
  pose proof (length_drop_last w Hw). simpl in H. lia.
Qed.

Lemma first_end_cons w c body rest : w <> "" ->
  first_end w (String c body) = true <->
  startsWith (String c (body ++ w ++ rest)) w = false /\ first_end w body = true.
Proof.
  intros Hw. unfold first_end. cbn [String.append includes]. rewrite negb_orb, andb_true_iff, negb_true_iff.
  assert (Hs : startsWith (String c (body ++ w ++ rest)) w = startsWith (String c (body ++ drop_last w)) w);
    [|by rewrite Hs].
  apply eq_true_iff_eq. split.
  - destruct (string_snoc w) as [->|(t & d & Ew)]; [done|].
    assert (Es : String c (body ++ w ++ rest) = String c (body ++ drop_last w) ++ (String d "" ++ rest)).
    { rewrite Ew, drop_last_app. simpl. by rewrite !app_assoc_str. }
    rewrite Es. apply startsWith_app_inv. simpl. rewrite length_app_str.
    pose proof (length_drop_last w Hw). lia.
  - intros H. destruct (string_snoc w) as [->|(t & d & Ew)]; [done|].
    assert (Es : String c (body ++ w ++ rest) = String c (body ++ drop_last w) ++ (String d "" ++ rest)).
    { rewrite Ew, drop_last_app. simpl. by rewrite !app_assoc_str. }
    rewrite Es. by apply startsWith_app.
Qed.

Lemma first_occurrence w s : w <> "" ->
  includes s w = false \/ exists body rest, s = body ++ w ++ rest /\ first_end w body = true.
Proof.
  intros Hw. induction s as [|c s IH].
  - destruct w; [done|]. by left.
  - destruct (startsWith (String c s) w) eqn:Es.
    + right. apply startsWith_iff in Es as (rest & ->). exists "", rest. split; [done|].
      by apply first_end_nil.
    + cbn [includes]. rewrite Es. destruct IH as [H|(body & rest & -> & H)]; [by left|right].
      exists (String c body), rest. split; [done|]. by apply first_end_cons with (rest := rest).
Qed.

Lemma startsWith_pair c s a b :
  startsWith (String c s) (String a (String b "")) = Ascii.eqb c a && unit_at 0 s b.
Proof.
  cbn [startsWith]. rewrite (Ascii.eqb_sym a c). unfold unit_at. f_equal.
  destruct s as [|d s]; [done|]. cbn [startsWith drop_str]. rewrite (Ascii.eqb_sym b d).
  destruct s; by rewrite andb_true_r.
Qed.

Lemma scan_block body rest : first_end "*/" body = true ->
  scan BlockComment 0 (body ++ "*/" ++ rest) = scan Code 0 rest.
Proof.
  induction body as [|c body IH]; [by intros _; destruct rest|].
  intros [Hs H]%(first_end_cons _ _ _ rest); [|done].
  cbn [String.append scan]. change (body ++ String "*" (String "/" rest)) with (body ++ "*/" ++ rest).
  rewrite startsWith_pair in Hs. rewrite Hs. by apply IH.
Qed.

Lemma scan_block_open body : includes body "*/" = false -> scan BlockComment 0 body = Some "".
Proof.
  induction body as [|c body IH]; [done|]. intros H. cbn [scan].
  rewrite (pair_absent _ _ _ _ H). apply IH. by eapply includes_tail.
Qed.

Lemma scan_dollar tag body rest : tag <> "" -> first_end tag body = true ->
  scan (DollarQuote tag) 0 (body ++ tag ++ rest) = scan Code 0 rest.
Proof.
  intros Ht. induction body as [|c body IH].
  - intros _. destruct tag as [|t tag]; [done|]. cbn [String.append scan].
    change (String t (tag ++ rest)) with (String t tag ++ rest).
    rewrite (proj2 (startsWith_iff _ _)) by eauto. cbn [String.length].
    replace (S (String.length tag) - 1) with (String.length tag) by lia. apply scan_skip.
  - intros [Hs H]%(first_end_cons _ _ _ rest); [|done]. cbn [String.append scan]. rewrite Hs. by apply IH.
Qed.

Lemma scan_dollar_open tag body : includes body tag = false -> scan (DollarQuote tag) 0 body = Some "".
Proof.
  induction body as [|c body IH]; [done|]. cbn [includes scan]. intros [-> H]%orb_false_iff. by apply IH.
Qed.

(** The two modes of quoted text. *)
Definition quote_mode (q : ascii) : mode := if Ascii.eqb q "'" then SingleQuoted else DoubleQuoted.

Lemma scan_quote_step q c s : is_quote q = true ->
  scan (quote_mode q) 0 (String c s) =
  if Ascii.eqb c q && unit_at 0 s q then scan (quote_mode q) 1 s
  else if Ascii.eqb c q then scan Code 0 s else scan (quote_mode q) 0 s.
Proof. unfold is_quote. by intros [->%Ascii.eqb_eq| ->%Ascii.eqb_eq]%orb_true_iff. Qed.

(** Induction on quoted text: a quote comes with the one that doubles it. *)
Lemma quoted_ind q (P : string -> Prop) :
  P "" ->
  (forall c s, Ascii.eqb c q = false -> quoted q s = true -> P s -> P (String c s)) ->
  (forall s, quoted q s = true -> P s -> P (String q (String q s))) ->
  forall s, quoted q s = true -> P s.
Proof.
  intros H0 H1 H2 s. remember (String.length s) as n eqn:En. assert (Hn : String.length s <= n) by lia.
  clear En. revert s Hn. induction n as [|n IH]; intros [|c s] Hn; simpl in Hn; try done; try lia.
  cbn [quoted]. destruct (Ascii.eqb_spec c q) as [->|Hc].
  - destruct s as [|d s]; [done|]. intros [->%Ascii.eqb_eq H]%andb_true_iff. apply H2; [done|].
    apply IH; [simpl in Hn; lia|done].
  - intros H. apply H1; [by apply Ascii.eqb_neq|done|]. apply IH; [lia|done].
Qed.

Lemma scan_quoted q body rest : is_quote q = true -> quoted q body = true -> unit_at 0 rest q = false ->
  scan (quote_mode q) 0 (body ++ String q rest) = scan Code 0 rest.
Proof.
  intros Hq Hb Hr. revert body Hb. apply quoted_ind.
  - cbn [String.append]. rewrite scan_quote_step, Hr, Ascii.eqb_refl by done. done.
  - intros c s Hc _ IH. cbn [String.append]. by rewrite scan_quote_step, Hc by done.
  - intros s _ IH. cbn [String.append]. rewrite scan_quote_step by done. unfold unit_at at 1. cbn [drop_str].
    rewrite Ascii.eqb_refl. cbn [andb]. exact IH.
Qed.

Lemma scan_quoted_open q body : is_quote q = true -> quoted q body = true ->
  scan (quote_mode q) 0 body = Some "".
Proof.
  intros Hq. revert body. apply quoted_ind; [done|..].
  - intros c s Hc _ IH. by rewrite scan_quote_step, Hc by done.
  - intros s _ IH. rewrite scan_quote_step by done. unfold unit_at at 1. cbn [drop_str].
    rewrite Ascii.eqb_refl. cbn [andb]. exact IH.
Qed.

Lemma quoted_cases q s :
  quoted q s = true \/
  exists body rest, s = body ++ String q rest /\ quoted q body = true /\ unit_at 0 rest q = false.
Proof.
  remember (String.length s) as n eqn:En. assert (Hn : String.length s <= n) by lia.
  clear En. revert s Hn. induction n as [|n IH]; intros [|c s] Hn; simpl in Hn; try (by left); try lia.
  destruct (Ascii.eqb c q) eqn:Hc.
  - apply Ascii.eqb_eq in Hc as ->. destruct s as [|d s].
    + right. by exists "", "".
    + destruct (Ascii.eqb d q) eqn:Hd.
      * apply Ascii.eqb_eq in Hd as ->. destruct (IH s) as [H|(body & rest & -> & Hb & Hr)];
          [simpl in Hn; lia|left|right].
        -- cbn [quoted]. by rewrite !Ascii.eqb_refl.
        -- exists (String q (String q body)), rest. cbn [quoted]. by rewrite !Ascii.eqb_refl.
      * right. exists "", (String d s). by unfold unit_at.
  - destruct (IH s) as [H|(body & rest & -> & Hb & Hr)]; [lia|left|right].
    + cbn [quoted]. by rewrite Hc.
    + exists (String c body), rest. cbn [quoted]. by rewrite Hc.
Qed.

(** ** The mode of code *)

Lemma matches_begin_set s k st st' :
  matches false false (RSeq RBegin (RSeq (RSet s) k)) st st' ->
  ms_prev st = None /\ exists c u, ms_rest st = String c u ++ ms_rest st' /\ cset_mem s c = true.
Proof.
  intros H. inversion H as [| |? ? ? st1 ? H1 H2| | | | | | | | | |]; subst.
  inversion H1 as [| | | | | | | | | | |? Hb|]; subst.
  inversion H2 as [| |? ? ? st2 ? H3 H4| | | | | | | | | |]; subst.
  inversion H3 as [|? p c rest caps Hm| | | | | | | | | | |]; subst.
  apply matches_suffix in H4 as [u Hu]. cbn [ms_rest] in *. rewrite set_match_cs in Hm. split.
  - revert Hb. unfold at_begin. cbn. by destruct p.
  - exists c, u. split; [|done]. simpl. by rewrite <- Hu.
Qed.

(** A tag is a prefix, and begins with a dollar. *)
Lemma dollar_tag_prefix s tag : dollar_tag s = Some tag ->
  exists tail rest, tag = String "$" tail /\ s = tag ++ rest.
Proof.
  unfold dollar_tag. destruct (unit_at 0 s "$") eqn:Hd; [|done]. unfold exec.
  destruct (search dollar_pattern None s) as [[st st']|] eqn:E; [|done]. intros [= <-].
  cbn [match_text]. apply search_Some in E as (w & Hs & Hp & _ & Hm). unfold matches_at in Hm.
  assert (Hc : ms_prev st = None /\ exists c u, ms_rest st = String c u ++ ms_rest st').
  { inversion Hm as [| | |? ? ? ? H|? ? ? ? H| | | | | | | |]; subst;
      apply matches_begin_set in H as [Hn (c & u & Hr & _)]; eauto. }
  destruct Hc as [Hn (c & u & Hr)]. rewrite Hn in Hp. destruct w as [|d w].
  2: { exfalso. clear -Hp. cbn [before_at] in Hp. revert d Hp.
       induction w as [|e w IH]; intros d; [done|]. apply IH. }
  simpl in Hs. subst s. exists u, (ms_rest st').
  assert (Ec : consumed st st' = String c u).
  { unfold consumed. rewrite Hr, length_app_str. replace (_ - _) with (String.length (String c u)) by lia.
    apply take_app_str. }
  rewrite Ec, Hr. rewrite Hr in Hd. unfold unit_at in Hd. cbn in Hd. apply Ascii.eqb_eq in Hd as ->. done.
Qed.

Lemma scan_line_start t : scan Code 0 ("--" ++ t) = String " " <$> scan LineComment 0 t.
Proof. by destruct t. Qed.

Lemma scan_block_start t :
  scan Code 0 ("/*" ++ t) = if no_hint t then String " " <$> scan BlockComment 0 t else None.
Proof.
  change ("/*" ++ t) with (String "/" (String "*" t)). cbn [scan]. unfold unit_at at 1 2. cbn [drop_str].
  change (unit_at 1 (String "*" t)) with (unit_at 0 t). unfold no_hint. cbn [Ascii.eqb Bool.eqb andb].
  destruct (unit_at 0 t "!"), (unit_at 0 t "+"); done.
Qed.

Lemma scan_quote_start q t : is_quote q = true ->
  scan Code 0 (String q t) = String " " <$> scan (quote_mode q) 0 t.
Proof. unfold is_quote. by intros [->%Ascii.eqb_eq| ->%Ascii.eqb_eq]%orb_true_iff. Qed.

Lemma scan_dollar_start tag t : dollar_tag (tag ++ t) = Some tag ->
  scan Code 0 (tag ++ t) = String " " <$> scan (DollarQuote tag) 0 t.
Proof.
  intros H. destruct (dollar_tag_prefix _ _ H) as (tail & rest & -> & _).
  change (String "$" tail ++ t) with (String "$" (tail ++ t)) in *. cbn [scan].
  rewrite H. cbn [Ascii.eqb Bool.eqb andb String.length].
  replace (S (String.length tail) - 1) with (String.length tail) by lia. by rewrite scan_skip.
Qed.

Lemma scan_code_start c t : is_code_start (String c t) = true ->
  scan Code 0 (String c t) = String c <$> scan Code 0 t.
Proof.
  unfold is_code_start, is_quote. rewrite !startsWith_pair, !andb_true_iff, !negb_true_iff, orb_false_iff.
  intros [[[H1 H2] [H3 H4]] H5%is_some_false]. cbn [scan]. by rewrite H1, H2, H3, H4, H5.
Qed.

(** What a statement can begin with. *)
Lemma start_cases c t :
  is_code_start (String c t) = true \/
  (exists u, String c t = "--" ++ u) \/ (exists u, String c t = "/*" ++ u) \/ is_quote c = true \/
  exists tag u, String c t = tag ++ u /\ dollar_tag (tag ++ u) = Some tag.
Proof.
  unfold is_code_start. destruct (startsWith (String c t) "--") eqn:H1.
  { apply startsWith_iff in H1. auto. }
  destruct (startsWith (String c t) "/*") eqn:H2.
  { apply startsWith_iff in H2. auto. }
  destruct (is_quote c) eqn:H3; [tauto|].
  destruct (dollar_tag (String c t)) as [tag|] eqn:H4; [|by left].
  destruct (dollar_tag_prefix _ _ H4) as (tail & u & _ & Hu).
  do 4 right. exists tag, u. by rewrite <- Hu.
Qed.

(** C25. What the guard takes for code is what the grammar leaves of a statement: the loop returns
    [e] exactly when the statement is a sequence of code, comments, quoted and dollar-quoted text
    -- the last of them possibly without its end -- and [e] is its code, with one blank in the
    place of everything else and the line ends after comments; and it refuses a statement exactly
    when there is no such reading of it. *)
Theorem executable_sql_lexes sql e : executableSql sql = Accepted e <-> lexes sql e.
Proof.
  assert (Hs : scan Code 0 sql = Some e <-> lexes sql e); [|unfold executableSql; rewrite <- Hs;
    destruct (scan Code 0 sql); split; congruence].
  split.
  - remember (String.length sql) as n eqn:En. assert (Hn : String.length sql <= n) by lia.
    clear En. revert sql e Hn. induction n as [|n IH]; intros [|c t] e Hn; simpl in Hn; try lia;
      try (by intros [= <-]; constructor).
    destruct (start_cases c t) as [H|[(u & E)|[(u & E)|[H|(tag & u & E & H)]]]].
    + rewrite scan_code_start by done. destruct (scan Code 0 t) as [e'|] eqn:Et; [|done].
      intros [= <-]. constructor; [done|]. apply IH; [lia|done].
    + rewrite E, scan_line_start. apply (f_equal String.length) in E. simpl in E.
      destruct (line_cases u) as [H|(body & rest & -> & H)].
      * rewrite scan_line_open by done. intros [= <-]. by constructor.
      * rewrite scan_line by done. destruct (scan Code 0 rest) as [e'|] eqn:Er; [|done].
        intros [= <-]. constructor; [done|]. apply IH; [|done]. rewrite length_app_str in E. simpl in E. lia.
    + rewrite E, scan_block_start. apply (f_equal String.length) in E. simpl in E.
      destruct (no_hint u) eqn:Hh; [|done].
      destruct (first_occurrence "*/" u) as [H|(body & rest & -> & H)]; [done|..].
      * rewrite scan_block_open by done. intros [= <-]. by constructor.
      * rewrite scan_block by done. destruct (scan Code 0 rest) as [e'|] eqn:Er; [|done].
        intros [= <-]. constructor; [by destruct body|done|]. apply IH; [|done].
        rewrite length_app_str in E. simpl in E. lia.
    + rewrite scan_quote_start by done. destruct (quoted_cases c t) as [Hq|(body & rest & -> & Hq & Hr)].
      * rewrite scan_quoted_open by done. intros [= <-]. by constructor.
      * rewrite scan_quoted by done. destruct (scan Code 0 rest) as [e'|] eqn:Er; [|done].
        intros [= <-]. constructor; [done..|]. apply IH; [|done]. rewrite length_app_str in Hn. simpl in Hn. lia.
    + rewrite E, scan_dollar_start by done. apply (f_equal String.length) in E.
      destruct (dollar_tag_prefix _ _ H) as (tail & rest' & Et & _).
      assert (Hne : tag <> "") by by rewrite Et.
      destruct (first_occurrence tag u) as [Hf|(body & rest & -> & Hf)]; [done|..].
      * rewrite scan_dollar_open by done. intros [= <-]. by constructor.
      * rewrite scan_dollar by done. destruct (scan Code 0 rest) as [e'|] eqn:Er; [|done].
        intros [= <-]. constructor; [done..|]. apply IH; [|done].
        rewrite !length_app_str in E. rewrite Et in E. simpl in E. lia.
  - induction 1 as [|c rest e H _ IH|body rest e H _ IH|body H|body rest e Hh H _ IH|body Hh H
      |q body rest e Hq Hb Hr _ IH|q body Hq Hb|tag body rest e Ht H _ IH|tag body Ht H].
    + done.
    + by rewrite scan_code_start, IH by done.
    + by rewrite scan_line_start, scan_line, IH by done.
    + by rewrite scan_line_start, scan_line_open by done.
    + rewrite scan_block_start, scan_block, IH by done.
      replace (no_hint (body ++ "*/" ++ rest)) with (no_hint (body ++ "*/")) by (by destruct body).
      by rewrite Hh.
    + by rewrite scan_block_start, scan_block_open, Hh by done.
    + by rewrite scan_quote_start, scan_quoted, IH by done.
    + by rewrite scan_quote_start, scan_quoted_open by done.
    + destruct (dollar_tag_prefix _ _ Ht) as (tail & rest' & Et & _).
      rewrite scan_dollar_start, scan_dollar, IH by (done || by rewrite Et). done.
    + by rewrite scan_dollar_start, scan_dollar_open by done.
Qed.
