(* ===== verification/StatementAnalyzer.v ===== *)
(** * Shapes of statements

    [app/Services/SqlPolicyStatementAnalyzer.php]: the tokens of a statement, and the shape by which
    an administrator can allow every statement that creates an index of the same kind.  The digest
    of a text is a parameter.  At the end, what the analyzer reads as code and the guard does not. *)

From Stdlib Require Import String.
From S2P Require Import Prelude JsString JsRegExp PhpString CrucibleLib SqlPolicy QueryGuard SqlLexer.

Open Scope string_scope.
Open Scope nat_scope.
Open Scope list_scope.

(** ** Tokens *)

Definition ctype_space (c : ascii) : bool := in_range 9 13 c || is_code 32 c.
Definition ctype_alpha (c : ascii) : bool := in_range 65 90 c || in_range 97 122 c.
Definition ident_start (c : ascii) : bool := ctype_alpha c || Ascii.eqb c "_".
Definition ident_unit (c : ascii) : bool := ident_start c || is_digit c || Ascii.eqb c "$".

(** The longest prefix of units with [p], and the rest. *)
Fixpoint span (p : ascii -> bool) (s : string) : string * string :=
  match s with
  | EmptyString => ("", "")
  | String c s' => if p c then let '(u, v) := span p s' in (String c u, v) else ("", s)
  end.

(** What follows the first [w] in [s]: [strpos]. *)
Fixpoint after_first (w s : string) : option string :=
  if startsWith s w then Some (drop_str (String.length w) s)
  else match s with EmptyString => None | String _ s' => after_first w s' end.

(** What follows the end of a quoted text; [None]: it is not closed. *)
Fixpoint after_quote (quote : ascii) (skip : nat) (s : string) : option string :=
  match s, skip with
  | EmptyString, _ => None
  | String _ s', S skip' => after_quote quote skip' s'
  | String c s', O =>
      if Ascii.eqb c quote && unit_at 0 s' quote then after_quote quote 1 s'
      else if Ascii.eqb c quote then Some s'
      else if Ascii.eqb c "\" && negb (Ascii.eqb quote "`") then after_quote quote 1 s'
      else after_quote quote 0 s'
  end.

(** What follows a number. *)
Definition after_number (s : string) : string :=
  let rest := snd (span is_digit s) in
  match rest with
  | String "." t =>
      match span is_digit t with
      | (EmptyString, _) => rest
      | (_, rest') => rest'
      end
  | _ => rest
  end.

(** The loop over [$index]: [rest] is the statement from there on. *)
Fixpoint tokens_from (fuel : nat) (parenthesisDepth : nat) (rest : string) : option (list string) :=
  match fuel with
  | O => None
  | S fuel' =>
      let continue := tokens_from fuel' in
      match rest with
      | EmptyString => if (parenthesisDepth =? 0)%nat then Some [] else None
      | String current rest' =>
          if ctype_space current then continue parenthesisDepth rest'
          else if startsWith rest "--" then
            continue parenthesisDepth (after_first (String "010" "") (drop_str 2 rest) ?? "")
          else if startsWith rest "/*" then
            match after_first "*/" (drop_str 2 rest) with
            | None => None
            | Some t => continue parenthesisDepth t
            end
          else if Ascii.eqb current "'" || Ascii.eqb current "034" || Ascii.eqb current "`" then
            match after_quote current 0 rest' with
            | None => None
            | Some t =>
                cons (if Ascii.eqb current "'" then "<LITERAL>" else "<IDENTIFIER>")
                  <$> continue parenthesisDepth t
            end
          else
            match dollar_tag rest with
            | Some tag =>
                match after_first tag (drop_str (String.length tag) rest) with
                | None => None
                | Some t => cons "<LITERAL>" <$> continue parenthesisDepth t
                end
            | None =>
                if ident_start current then
                  let '(identifier, t) := span ident_unit rest in
                  cons (toUpperCase identifier) <$> continue parenthesisDepth t
                else if is_digit current then
                  cons "<LITERAL>" <$> continue parenthesisDepth (after_number rest)
                else if Ascii.eqb current "(" then
                  cons (String current "") <$> continue (S parenthesisDepth) rest'
                else if Ascii.eqb current ")" then
                  match parenthesisDepth with
                  | O => None
                  | S depth => cons (String current "") <$> continue depth rest'
                  end
                else cons (String current "") <$> continue parenthesisDepth rest'
            end
      end
  end.

Definition tokens (sql : string) : option (list string) := tokens_from (S (String.length sql)) 0 sql.

(** ** Shapes *)

Definition isIdentifier (token : option string) : bool :=
  match token with
  | None => false
  | Some t =>
      str_eq t "<IDENTIFIER>" ||
      match t with
      | EmptyString => false
      | String c t' =>
          (in_range 65 90 c || Ascii.eqb c "_") &&
          all_chars (fun d => in_range 65 90 d || Ascii.eqb d "_" || is_digit d || Ascii.eqb d "$") t'
      end
  end.

(** The tokens from [$index] on; [$tokens[$index] ?? null] is their [head]. *)
Definition next_is (word : string) (ts : list string) : bool :=
  match ts with t :: _ => str_eq t word | [] => false end.

Fixpoint consume_dots (fuel : nat) (ts : list string) : option (list string) :=
  match fuel with
  | O => None
  | S fuel' =>
      if next_is "." ts then
        if isIdentifier (ts !! 1) then consume_dots fuel' (drop 2 ts) else None
      else Some ts
  end.

Definition consumeQualifiedIdentifier (ts : list string) : option (list string) :=
  if isIdentifier (ts !! 0) then consume_dots (S (length ts)) (drop 1 ts) else None.

Fixpoint closes (depth : nat) (ts : list string) : bool :=
  match ts with
  | [] => false
  | t :: ts' =>
      if str_eq t "(" then closes (S depth) ts'
      else if str_eq t ")" then if (depth =? 1)%nat then true else closes (depth - 1) ts'
      else closes depth ts'
  end.

Definition hasClosingParenthesis (ts : list string) : bool := closes 0 ts.

Inductive Driver := MySql | PostgreSql.

#[export] Instance Driver_eq_dec : EqDecision Driver.
Proof. solve_decision. Defined.

Definition driver_value (d : Driver) : string := match d with MySql => "mysql" | PostgreSql => "pgsql" end.

Definition postgres (d : Driver) : bool := match d with PostgreSql => true | MySql => false end.

Definition allowedModifiers (d : Driver) : list string :=
  if postgres d then ["UNIQUE"] else ["UNIQUE"; "FULLTEXT"; "SPATIAL"].

Record Shape := { signature : string; shape_label : string; shape_value : string }.

(** The kind of the index, and the tokens behind [CREATE ... INDEX ...]. *)
Definition shape_head (driver : Driver) (ts : list string) : option (option string * bool * list string) :=
  if negb (next_is "CREATE" ts) then None
  else
    let ts := drop 1 ts in
    let modifier := m ← head ts; if existsb (str_eq m) (allowedModifiers driver) then Some m else None in
    let ts := if is_some modifier then drop 1 ts else ts in
    if negb (next_is "INDEX" ts) then None
    else
      let ts := drop 1 ts in
      let concurrently := postgres driver && next_is "CONCURRENTLY" ts in
      Some (modifier, concurrently, if concurrently then drop 1 ts else ts).

(** Whether the rest of the statement is a definition of an index on a table. *)
Definition shape_tail (driver : Driver) (ts : list string) : bool :=
  let after_exists :=
    if next_is "IF" ts then
      if next_is "NOT" (drop 1 ts) && next_is "EXISTS" (drop 2 ts) then Some (drop 3 ts) else None
    else Some ts in
  match after_exists with
  | None => false
  | Some ts =>
      if negb (isIdentifier (ts !! 0)) then false
      else
        let ts := drop 1 ts in
        let ts := if negb (postgres driver) && next_is "USING" ts then drop 2 ts else ts in
        if negb (next_is "ON" ts) then false
        else
          let ts := drop 1 ts in
          let ts := if postgres driver && next_is "ONLY" ts then drop 1 ts else ts in
          match consumeQualifiedIdentifier ts with
          | None => false
          | Some ts =>
              if postgres driver && next_is "USING" ts then
                isIdentifier (ts !! 1) && next_is "(" (drop 2 ts) && hasClosingParenthesis (drop 2 ts)
              else next_is "(" ts && hasClosingParenthesis ts
          end
  end.

Definition shape_signature (driver : Driver) (modifier : option string) (concurrently : bool) : string :=
  (driver_value driver ++ ".create_index." ++ toLowerCase (modifier ?? "standard") ++
   (if concurrently then ".concurrently" else "") ++ ".v1")%string.

Definition label_of (modifier : option string) (concurrently : bool) : string :=
  join " " (["CREATE"] ++ match modifier with Some m => [m] | None => [] end ++ ["INDEX"] ++
            when concurrently ["CONCURRENTLY"]).

Section analyzer.
(** [hash('sha256', ...)] *)
Context (hash : string -> string).

Definition exactFingerprint (sql : string) : string := hash (canonicalSql sql).

Definition statementShape (driver : Driver) (sql : string) : option Shape :=
  ts ← tokens (canonicalSql sql);
  '(modifier, concurrently, rest) ← shape_head driver ts;
  if shape_tail driver rest then
    let signature := shape_signature driver modifier concurrently in
    Some {| signature := signature; shape_label := label_of modifier concurrently;
            shape_value := hash signature |}
  else None.
End analyzer.

(** ** Examples *)

Example shape_of_index :
  signature <$> statementShape id PostgreSql "create unique index concurrently if not exists i on only public.t using btree (a, lower(b));" =
  Some "pgsql.create_index.unique.concurrently.v1".
Proof. vm_compute. reflexivity. Qed.

Example no_shape : statementShape id MySql "create index concurrently i on t (a)" = None.
Proof. vm_compute. reflexivity. Qed.

(** ** The fuel of the loop *)

Lemma length_after_first w s t : after_first w s = Some t -> (String.length t <= String.length s)%nat.
Proof.
  induction s as [|c s IH]; cbn [after_first]; case_match; try done.
  - intros [= <-]. rewrite length_drop_str. lia.
  - intros [= <-]. rewrite length_drop_str. lia.
  - intros H1%IH. simpl. lia.
Qed.

Lemma length_after_quote q skip s t : after_quote q skip s = Some t -> (String.length t <= String.length s)%nat.
Proof.
  revert skip. induction s as [|c s IH]; intros [|skip]; cbn [after_quote]; try done.
  - repeat case_match; try (intros H'%IH; simpl; lia). intros [= <-]. simpl. lia.
  - intros H'%IH. simpl. lia.
Qed.

Lemma length_span p s : (String.length (snd (span p s)) <= String.length s)%nat.
Proof.
  induction s as [|c s IH]; [done|]. cbn [span]. destruct (p c); [|done].
  destruct (span p s). simpl in *. lia.
Qed.

Lemma length_after_number s : (String.length (after_number s) <= String.length (snd (span is_digit s)))%nat.
Proof.
  unfold after_number. destruct (snd (span is_digit s)) as [|c t] eqn:E; [done|].
  pose proof (length_span is_digit t) as Hl. destruct (span is_digit t) as [[|d u] v].
  - by repeat case_match.
  - cbn [snd] in Hl. destruct (Ascii.eqb_spec c ".") as [->|Hc]; [simpl; lia|].
    destruct c as [[] [] [] [] [] [] [] []]; simpl; try lia.
Qed.

Lemma span_first p c s : p c = true ->
  (String.length (snd (span p (String c s))) <= String.length s)%nat.
Proof. cbn [span]. intros ->. pose proof (length_span p s). by destruct (span p s). Qed.

(** More fuel than there are characters changes nothing. *)
Lemma tokens_from_fuel n m d s :
  (String.length s < n)%nat -> (String.length s < m)%nat -> tokens_from n d s = tokens_from m d s.
Proof.
  revert m d s. induction n as [|n IH]; intros [|m] d s Hn Hm; try lia.
  destruct s as [|c s]; [done|]. simpl in Hn, Hm. cbn [tokens_from].
  assert (Hc : forall d t, (String.length t <= String.length s)%nat -> tokens_from n d t = tokens_from m d t).
  { intros d' t Ht. apply IH; lia. }
  set (two := drop_str 2 (String c s)).
  assert (H2 : (String.length two <= String.length s)%nat).
  { unfold two. rewrite length_drop_str. simpl. lia. }
  clearbody two. destruct (ctype_space c); [by apply Hc|].
  destruct (startsWith (String c s) "--").
  { apply Hc. destruct (after_first _ _) as [t|] eqn:E; cbn; [|lia].
    apply length_after_first in E. unfold id. lia. }
  destruct (startsWith (String c s) "/*").
  { destruct (after_first _ _) as [t|] eqn:E; [|done]. apply Hc. apply length_after_first in E. lia. }
  destruct (_ || _).
  { destruct (after_quote c 0 s) as [t|] eqn:E; [|done]. apply length_after_quote in E. by rewrite Hc. }
  destruct (dollar_tag (String c s)) as [tag|] eqn:Et.
  { destruct (after_first tag _) as [t|] eqn:E; [|done]. apply length_after_first in E.
    rewrite length_drop_str in E. destruct (dollar_tag_prefix _ _ Et) as (tail & rest & -> & _). rewrite Hc; [done|]. simpl in *. lia. }
  destruct (ident_start c) eqn:Hi.
  { assert (Hu : ident_unit c = true) by (unfold ident_unit; by rewrite Hi).
    pose proof (span_first ident_unit c s Hu) as Hl. destruct (span ident_unit (String c s)) as [u v].
    by rewrite Hc. }
  destruct (is_digit c) eqn:Hd.
  { pose proof (length_after_number (String c s)). pose proof (span_first is_digit c s Hd). rewrite Hc; [done|lia]. }
  destruct (Ascii.eqb c "("); [by rewrite Hc|]. destruct (Ascii.eqb c ")"); [|by rewrite Hc].
  destruct d; [done|]. by rewrite Hc.
Qed.

(** ** What a shape stands for *)

Definition shape_modifiers : list string := ["UNIQUE"; "FULLTEXT"; "SPATIAL"].

Lemma shape_head_modifier driver ts modifier concurrently rest :
  shape_head driver ts = Some (modifier, concurrently, rest) ->
  match modifier with Some m => m ∈ shape_modifiers | None => True end.
Proof.
  unfold shape_head. destruct (negb _); [done|].
  destruct (head (drop 1 ts)) as [m|]; cbn [mbind option_bind].
  - destruct (existsb (str_eq m) (allowedModifiers driver)) eqn:E; (case_match; [done|]); intros [= <- _ _]; [|done].
    apply existsb_exists_elem in E as (m' & Hin & ->%str_eq_true).
    unfold allowedModifiers, shape_modifiers in *. destruct (postgres driver); set_solver.
  - case_match; [done|]. by intros [= <- _ _].
Qed.

Definition kinds : list (Driver * option string * bool) :=
  d ← [MySql; PostgreSql]; m ← (None :: map Some shape_modifiers); c ← [true; false]; [(d, m, c)].

Definition kind_signature (k : Driver * option string * bool) : string :=
  let '(d, m, c) := k in shape_signature d m c.

(** Different kinds have different signatures. *)
Lemma kind_signature_inj k k' : k ∈ kinds -> k' ∈ kinds -> kind_signature k = kind_signature k' -> k = k'.
Proof.
  assert (H : forallb (fun k => forallb (fun k' =>
    bool_decide (k = k') || negb (str_eq (kind_signature k) (kind_signature k'))) kinds) kinds = true)
    by (vm_compute; reflexivity).
  intros Hk Hk' E. apply forallb_forall_elem with (x := k) in H; [|done].
  apply forallb_forall_elem with (x := k') in H; [|done]. apply orb_true_iff in H as [H|H].
  - by apply bool_decide_eq_true in H.
  - apply negb_true_iff, str_eq_false in H. congruence.
Qed.

Lemma elem_of_kinds d m c : match m with Some m => m ∈ shape_modifiers | None => True end -> (d, m, c) ∈ kinds.
Proof.
  intros H. assert (Hm : m ∈ None :: map Some shape_modifiers).
  { destruct m as [m|]; [right|left]. by apply list_elem_of_fmap_2. }
  clear H. apply list_elem_of_In. simpl in Hm.
  repeat (apply elem_of_cons in Hm as [->|Hm]; [destruct d, c; vm_compute; tauto|]).
  by apply elem_of_nil in Hm.
Qed.

(** A shape stands for one kind of index in one dialect: two statements have the same
    signature only if they are for the same driver, and both create an index with the same modifier
    and both, or neither, concurrently; so allowing one shape does not allow another. *)
Theorem shape_of_one_kind hash d1 d2 sql1 sql2 s1 s2 :
  statementShape hash d1 sql1 = Some s1 -> statementShape hash d2 sql2 = Some s2 ->
  signature s1 = signature s2 ->
  d1 = d2 /\ s1 = s2 /\
  exists ts1 ts2 modifier concurrently rest1 rest2,
    tokens (canonicalSql sql1) = Some ts1 /\ tokens (canonicalSql sql2) = Some ts2 /\
    shape_head d1 ts1 = Some (modifier, concurrently, rest1) /\
    shape_head d2 ts2 = Some (modifier, concurrently, rest2).
Proof.
  unfold statementShape.
  intros (ts1 & Ht1 & ([[m1 c1] r1] & Hh1 & H1)%bind_Some)%bind_Some
         (ts2 & Ht2 & ([[m2 c2] r2] & Hh2 & H2)%bind_Some)%bind_Some.
  destruct (shape_tail d1 r1); [|done]. destruct (shape_tail d2 r2); [|done].
  injection H1 as <-. injection H2 as <-. cbn [signature]. intros E.
  assert (Hk : (d1, m1, c1) = (d2, m2, c2)).
  { apply kind_signature_inj; [by eapply elem_of_kinds, shape_head_modifier..|done]. }
  injection Hk as <- <- <-. split_and!; [done..|]. naive_solver.
Qed.

Lemma shape_of_one_kind_witness :
  exists s1 s2,
    statementShape id PostgreSql "create unique index i on t (a)" = Some s1 /\
    statementShape id PostgreSql "CREATE UNIQUE INDEX j ON s.u USING hash (b)" = Some s2 /\
    s1 = s2.
Proof.
  eexists _, _. split; [vm_compute; reflexivity|]. split; [vm_compute; reflexivity|].
  apply (shape_of_one_kind id PostgreSql PostgreSql "create unique index i on t (a)"
    "CREATE UNIQUE INDEX j ON s.u USING hash (b)"); vm_compute; reflexivity.
Defined.

(** ** Two readings of one statement *)

(** The guard knows neither the backslash before a quote nor names in backticks, which the analyzer
    reads as MySQL does.  What a literal can hold as it stands: *)
Definition unquoted (c : ascii) : bool := not_cr c && negb (Ascii.eqb c "'").

(** In both statements [x] is in a literal for the guard and code for the analyzer. *)
Definition after_backslash (x : string) : string := ("select '\'', " ++ x ++ " -- '")%string.
Definition between_backticks (x : string) : string := ("select 1 as `'`, " ++ x ++ " as `'`")%string.

Lemma unquoted_chars x : all_chars unquoted x = true -> all_chars not_cr x = true /\ quoted "'" x = true.
Proof.
  induction x as [|c x IH]; [done|]. cbn [all_chars quoted]. unfold unquoted at 1.
  intros [[Hr Hq]%andb_true_iff [Hx Hx']%IH]%andb_true_iff.
  rewrite Hr, Hx. apply negb_true_iff in Hq. by rewrite Hq.
Qed.

Lemma quoted_app q s t : quoted q s = true -> quoted q t = true -> quoted q (s ++ t)%string = true.
Proof.
  intros Hs Ht. revert s Hs. apply quoted_ind; [done|..].
  - intros c s Hc _ IH. cbn [String.append quoted]. by rewrite Hc.
  - intros s _ IH. cbn [String.append quoted]. by rewrite Ascii.eqb_refl.
Qed.

(** Code up to a literal, and the literal. *)
Lemma scan_to_quote body rest : quoted "'" body = true -> unit_at 0 rest "'" = false ->
  scan Code 0 (String "'" (body ++ String "'" rest)) = String " " <$> scan Code 0 rest.
Proof. intros Hb Hr. by rewrite scan_quote_start, scan_quoted. Qed.

(** Code without the beginning of anything else. *)
Definition bare (c : ascii) : bool := plain_char c && negb (is_code 45 c) && negb (is_code 47 c).

Lemma scan_bare a t : all_chars bare a = true -> scan Code 0 (a ++ t) = String.append a <$> scan Code 0 t.
Proof.
  induction a as [|c a IH]; cbn [all_chars].
  - intros _. cbn. by destruct (scan Code 0 t).
  - intros [[[Hc H1]%andb_true_iff H2]%andb_true_iff Ha]%andb_true_iff. cbn [String.append].
    rewrite scan_code_start, (IH Ha); [by destruct (scan Code 0 t)|].
    destruct (plain_char_facts c Hc) as (_ & _ & _ & E1 & E2 & E3 & _).
    unfold is_code_start, is_quote, dollar_tag, unit_at. cbn [drop_str startsWith]. rewrite E1, E2, E3.
    apply negb_true_iff in H1, H2. unfold is_code in H1, H2.
    destruct (Ascii.eqb_spec "-" c) as [<-|_]; [done|]. destruct (Ascii.eqb_spec "/" c) as [<-|_]; [done|].
    done.
Qed.

Lemma hidden_code x : all_chars unquoted x = true ->
  executableSql (after_backslash x) = Accepted "select  " /\
  executableSql (between_backticks x) = Accepted "select 1 as ` `".
Proof.
  intros [_ H]%unquoted_chars. unfold executableSql.
  assert (Hb : forall b e, quoted "'" b = true -> quoted "'" e = true -> quoted "'" (b ++ x ++ e)%string = true).
  { intros. by repeat apply quoted_app. }
  split.
  - replace (after_backslash x) with ("select " ++ String "'" (("\'', " ++ x ++ " -- ") ++ String "'" ""))%string
      by (unfold after_backslash; cbn [String.append]; rewrite !app_assoc_str; done).
    rewrite scan_bare by done. rewrite scan_to_quote; [done|by apply Hb|done].
  - replace (between_backticks x) with ("select 1 as `" ++ String "'" (("`, " ++ x ++ " as `") ++ String "'" "`"))%string
      by (unfold between_backticks; cbn [String.append]; rewrite !app_assoc_str; done).
    rewrite scan_bare by done. rewrite scan_to_quote; [done|by apply Hb|done].
Qed.

Lemma hidden_canonical x : all_chars unquoted x = true ->
  Forall (fun sql => normalize sql = sql /\ stripTrailingTerminator sql = sql) [after_backslash x; between_backticks x].
Proof.
  intros [H _]%unquoted_chars.
  assert (Hgen : forall a b c, all_chars not_cr a = true -> all_chars not_cr (b ++ String c "") = true ->
    terminator_or_space c = false -> ltrim (a ++ (x ++ b ++ String c "")) = (a ++ (x ++ b ++ String c ""))%string ->
    normalize (a ++ x ++ b ++ String c "") = (a ++ x ++ b ++ String c "")%string /\
    stripTrailingTerminator (a ++ x ++ b ++ String c "") = (a ++ x ++ b ++ String c "")%string).
  { intros a b c Ha Hb Hc Hl.
    assert (E : (a ++ x ++ b ++ String c "" = (a ++ x ++ b) ++ String c "")%string) by (by rewrite !app_assoc_str).
    split; [apply normalize_id; [|unfold rtrim|done]|rewrite stripTrailingTerminator_spec].
    - by rewrite all_chars_app, (all_chars_app _ x), Ha, H, Hb.
    - rewrite E, rstrip_last. destruct (php_space c) eqn:Hs; [|done].
      apply space_terminator_or_space in Hs. congruence.
    - by rewrite E, rstrip_last, Hc. }
  repeat constructor.
  - by apply (Hgen "select '\'', " " -- " "'"%char).
  - by apply (Hgen "select '\'', " " -- " "'"%char).
  - by apply (Hgen "select 1 as `'`, " " as `'" "`"%char).
  - by apply (Hgen "select 1 as `'`, " " as `'" "`"%char).
Qed.

(** What the guard does once it has found the code of a canonical statement to be [e]. *)
Definition read_code (e : string) : bool :=
  negb (includes e ";") && negb (test explain_pattern (ltrim e)) && negb (test do_pattern (ltrim e)) &&
  negb (test EmergencyFallbackBlockedSqlPattern e) && negb (test transaction_pattern (ltrim e)) &&
  negb (test with_pattern (ltrim e)) &&
  bool_decide (family_of (ltrim e) = Some Kread).

Lemma guard_reads settings sql e :
  normalize sql = sql -> stripTrailingTerminator sql = sql -> sql <> "" ->
  executableSql sql = Accepted e -> read_code e = true -> sql_read_queries_enabled settings = true ->
  validateSessionExecutable settings sql = Accepted sql /\ classify settings sql = Accepted ReadQuery.
Proof.
  intros Hn Ht Hne He Hr Hread. unfold read_code in Hr. rewrite !andb_true_iff, !negb_true_iff in Hr.
  destruct Hr as [[[[[[H1 H2] H3] H4] H5] H6] H7%bool_decide_eq_true].
  assert (Hs : validateStructure sql = Accepted sql).
  { unfold validateStructure, validateStructuralSafety. rewrite Hn, (proj2 (str_eq_false _ _) Hne), Ht, He.
    cbn [checked_bind]. by rewrite H1, H2, H3, H4, H5. }
  assert (Hf : statementFamily sql = Accepted (Some Kread)).
  { unfold statementFamily, topLevelExecutableSql. rewrite He. cbn [checked_bind]. rewrite H6. cbn [negb]. by rewrite H7. }
  assert (Hv : validateExecutable settings sql = Accepted sql).
  { unfold validateExecutable, requiredStatementFamilies. rewrite Hs. cbn [checked_bind]. rewrite Hf.
    cbn [checked_bind]. unfold first_disabled. cbn. by rewrite Hread. }
  unfold validateSessionExecutable, classify. rewrite Hv. cbn [checked_bind]. by rewrite Hf.
Qed.

(** The tokens of [a] come first when the loop has read [a] after [m] steps. *)
Lemma tokens_after m a s f :
  m <= String.length a -> (forall n y, tokens_from (m + n) 0 (a ++ y) = f (tokens_from n 0 y)) ->
  tokens (a ++ s) = f (tokens s).
Proof.
  intros Hm H. unfold tokens.
  replace (S (String.length (a ++ s))) with (m + (S (String.length s) + (String.length a - m)))
    by (rewrite length_app_str; lia).
  rewrite H. f_equal. apply tokens_from_fuel; lia.
Qed.

Lemma tokens_space n c s : ctype_space c = true -> tokens_from (S n) 0 (String c s) = tokens_from n 0 s.
Proof. intros Hc. cbn [tokens_from]. by rewrite Hc. Qed.

(** Neither a blank nor a comment nor a quoted text begins with [s]. *)
Definition plain_start (s : string) : bool :=
  match s with
  | EmptyString => false
  | String c _ =>
      negb (ctype_space c) && negb (startsWith s "--") && negb (startsWith s "/*") &&
      negb (Ascii.eqb c "'" || Ascii.eqb c "034" || Ascii.eqb c "`") && negb (is_some (dollar_tag s))
  end.

Lemma tokens_quote n c s t : Ascii.eqb c "'" || Ascii.eqb c "`" = true -> after_quote c 0 s = Some t ->
  tokens_from (S n) 0 (String c s) =
  cons (if Ascii.eqb c "'" then "<LITERAL>" else "<IDENTIFIER>") <$> tokens_from n 0 t.
Proof.
  intros [->%Ascii.eqb_eq| ->%Ascii.eqb_eq]%orb_true_iff Ht; cbn [tokens_from];
    cbn -[after_quote tokens_from]; by rewrite Ht.
Qed.

Lemma tokens_plain n c s : plain_start (String c s) = true ->
  tokens_from (S n) 0 (String c s) =
  if ident_start c then
    let '(identifier, t) := span ident_unit (String c s) in cons (toUpperCase identifier) <$> tokens_from n 0 t
  else if is_digit c then cons "<LITERAL>" <$> tokens_from n 0 (after_number (String c s))
  else if Ascii.eqb c "(" then cons (String c "") <$> tokens_from n 1 s
  else if Ascii.eqb c ")" then None else cons (String c "") <$> tokens_from n 0 s.
Proof.
  unfold plain_start. rewrite !andb_true_iff, !negb_true_iff. intros [[[[H1 H2] H3] H4] H5].
  cbn [tokens_from]. rewrite H1, H2, H3, H4. by destruct (dollar_tag _).
Qed.

Ltac next_token :=
  first [rewrite tokens_space by reflexivity
        |erewrite tokens_quote by reflexivity
        |rewrite tokens_plain by reflexivity; cbn -[tokens_from]].

Lemma hidden_tokens x :
  tokens (after_backslash x) = app ["SELECT"; "<LITERAL>"; ","] <$> tokens (x ++ " -- '") /\
  tokens (between_backticks x) =
    app ["SELECT"; "<LITERAL>"; "AS"; "<IDENTIFIER>"; ","] <$> tokens (x ++ " as `'`").
Proof.
  split.
  - unfold after_backslash.
    rewrite (tokens_after 5 "select '\'', " _ (fun o => cons "SELECT" <$> (cons "<LITERAL>" <$> (cons "," <$> o)))).
    + by destruct (tokens _).
    + simpl. lia.
    + intros n y. cbn [String.append Nat.add]. repeat next_token. done.
  - unfold between_backticks.
    rewrite (tokens_after 9 "select 1 as `'`, " _
      (fun o => cons "SELECT" <$> (cons "<LITERAL>" <$> (cons "AS" <$> (cons "<IDENTIFIER>" <$> (cons "," <$> o)))))).
    + by destruct (tokens _).
    + simpl. lia.
    + intros n y. cbn [String.append Nat.add]. repeat next_token. done.
Qed.

(** [load_file], which no policy admits, as the text that is hidden. *)
Example load_file_hidden :
  validateStructure "select load_file(0x2f)" = Refused BLOCKED_MESSAGE /\
  Forall (fun sql => "LOAD_FILE" ∈ (tokens sql ?? []))
    [after_backslash "load_file(0x2f)"; between_backticks "load_file(0x2f)"].
Proof. split; [vm_compute; reflexivity|]. repeat constructor; vm_compute; repeat constructor. Qed.

(** C39. The guard and the analyzer of the same statement disagree: the guard knows neither the
    backslash before a quote nor names in backticks.  Every text [x] without single quotes and
    carriage returns -- a call of [load_file], which no policy admits, a second statement -- can be
    put after [select '\'',] and before [-- '], or between two names [`'`], so that the analyzer
    reads it as code: its tokens are those of the beginning of the statement and then those of
    [x] and what follows it (and there are none when the text there has none).  The guard takes it for the inside of a literal, whatever it is: under every
    settings that allow reads it accepts the statement, in a query access session too, and
    classifies it as a read. *)
Theorem guard_misses_file_access x settings :
  all_chars unquoted x = true -> sql_read_queries_enabled settings = true ->
  (tokens (after_backslash x) = app ["SELECT"; "<LITERAL>"; ","] <$> tokens (x ++ " -- '") /\
   validateSessionExecutable settings (after_backslash x) = Accepted (after_backslash x) /\
   classify settings (after_backslash x) = Accepted ReadQuery) /\
  (tokens (between_backticks x) =
     app ["SELECT"; "<LITERAL>"; "AS"; "<IDENTIFIER>"; ","] <$> tokens (x ++ " as `'`") /\
   validateSessionExecutable settings (between_backticks x) = Accepted (between_backticks x) /\
   classify settings (between_backticks x) = Accepted ReadQuery).
Proof.
  intros Hx Hr. destruct (hidden_tokens x) as [T1 T2]. destruct (hidden_code x Hx) as [C1 C2].
  pose proof (hidden_canonical x Hx) as [[N1 S1] [[N2 S2] _]%Forall_cons]%Forall_cons.
  split; (split; [done|]).
  - by apply (guard_reads settings _ "select  ").
  - by apply (guard_reads settings _ "select 1 as ` `").
Qed.

Lemma guard_misses_file_access_witness :
  classify read_only_policy (after_backslash "load_file(0x2f)") = Accepted ReadQuery /\
  classify read_only_policy (between_backticks "load_file(0x2f)") = Accepted ReadQuery.
Proof.
  pose proof (guard_misses_file_access "load_file(0x2f)" read_only_policy eq_refl eq_refl)
    as ((_ & _ & H1) & (_ & _ & H2)). exact (conj H1 H2).
Defined.
