(* ===== verification/DeploymentPolicy.v ===== *)
(** * The policy of deployment statements

    [app/Services/DeploymentStatementPolicy.php], which judges a statement of a deployment batch by
    the guard, the families of the workspace and the administrators' own rules, and
    [app/Services/SqlPolicyManager.php], which makes those rules of the candidates an administrator
    resolves; with [SqlPolicyCandidateRecorder.php], where a candidate comes from.

    The tables of the database are lists; what a query leaves open, the order of its rows, is the
    order of the list.  The digest of a text is a parameter.  The audit log, the notifications and
    the new preflight of the requests concerned are not modelled. *)

From Stdlib Require Import String.
From S2P Require Import Prelude JsString CrucibleLib SqlPolicy JsRegExp QueryGuard StatementAnalyzer.

Open Scope string_scope.
Open Scope Z_scope.
Open Scope list_scope.

Local Notation "x <-- m ; f" := (checked_bind m (fun x => f))
  (at level 20, m at level 100, f at level 200, right associativity).

(** ** Data *)

Inductive Effect := Allow | Deny.
Inductive MatchType := Exact | ByShape.
Inductive Scope := Workspace | ConnectionGroup | DatabaseConnection.

#[export] Instance Effect_eq_dec : EqDecision Effect.
Proof. solve_decision. Defined.

#[export] Instance MatchType_eq_dec : EqDecision MatchType.
Proof. solve_decision. Defined.

(** [SqlPolicyRuleScope::key] *)
Definition scope_key (scope : Scope) (scopeId : option Z) : string :=
  let id := match scopeId with Some n => str_of_Z n | None => "" end in
  match scope with
  | Workspace => "workspace"
  | ConnectionGroup => ("connection_group:" ++ id)%string
  | DatabaseConnection => ("database_connection:" ++ id)%string
  end.

Record Rule := {
  rule_driver : Driver;
  effect : Effect;
  match_type : MatchType;
  match_value : string;
  rule_scope : string;          (** [scope_key] *)
  is_enabled : bool;
}.

(** What no two rules share. *)
Definition rule_key (r : Rule) : Driver * MatchType * string * string :=
  (rule_driver r, match_type r, match_value r, rule_scope r).

Record Connection := { connection_id : Z; connection_driver : Driver }.

Inductive Source := BuiltIn | CustomExact | CustomShape | EmergencyFallback | Unsupported.

#[export] Instance Source_eq_dec : EqDecision Source.
Proof. solve_decision. Defined.

Record Assessment := {
  assessed_sql : string;
  assessed_type : QueryType;
  source : Source;
  assessed_rule : option Rule;
  assessed_shape : option Shape;
}.

Definition DENIED_MESSAGE : string := "This SQL statement is blocked by a custom deployment policy.".

Section policy.
(** [hash('sha256', ...)], and the groups of connections with their members. *)
Context (hash : string -> string) (groups : list (Z * list Z)).
(** The settings of the workspace. *)
Context (settings : SqlStatementPolicy).

(** ** Judging a statement (DeploymentStatementPolicy.php) *)

Definition group_ids (connection : Connection) : list Z :=
  map fst (List.filter (fun g => bool_decide (connection_id connection ∈ snd g)) groups).

Definition scopeKeys (connection : Connection) : list string :=
  scope_key Workspace None :: scope_key DatabaseConnection (Some (connection_id connection)) ::
  map (fun id => scope_key ConnectionGroup (Some id)) (group_ids connection).

Definition matchValues (sql : string) (shape : option Shape) : list string :=
  exactFingerprint hash sql :: match shape with Some s => [shape_value s] | None => [] end.

(** The query. *)
Definition selected (connection : Connection) (sql : string) (shape : option Shape) (r : Rule) : bool :=
  bool_decide (rule_driver r = connection_driver connection) && is_enabled r &&
  existsb (str_eq (rule_scope r)) (scopeKeys connection) &&
  existsb (str_eq (match_value r)) (matchValues sql shape).

(** The filter on what was found. *)
Definition matches_rule (sql : string) (shape : option Shape) (r : Rule) : bool :=
  match match_type r with
  | Exact => str_eq (match_value r) (exactFingerprint hash sql)
  | ByShape => match shape with Some s => str_eq (match_value r) (shape_value s) | None => false end
  end.

Definition matchingRules (rules : list Rule) connection sql shape : list Rule :=
  List.filter (matches_rule sql shape) (List.filter (selected connection sql shape) rules).

Definition is_deny (r : Rule) : bool := bool_decide (effect r = Deny).
Definition is_exact (r : Rule) : bool := bool_decide (match_type r = Exact).

(** [sortBy] by 0 for exact rules and 1 for the others; it keeps the order of equals. *)
Definition exact_first (rules : list Rule) : list Rule :=
  List.filter is_exact rules ++ List.filter (fun r => negb (is_exact r)) rules.

Definition matchingRule (rules : list Rule) connection sql shape : option Rule :=
  let matching := matchingRules rules connection sql shape in
  match find_first is_deny matching with
  | Some r => Some r
  | None => head (exact_first matching)
  end.

Definition assess (rules : list Rule) (sql : string) (connection : Connection) : checked Assessment :=
  statement <-- validateDeploymentStructure sql (postgres (connection_driver connection));
  family <-- statementFamily statement;
  match family with
  | Some f =>
      required <-- requiredStatementFamilies statement;
      match first_disabled settings required with
      | Some g => Refused (disabled_message (guard_label g))
      | None => Accepted {| assessed_sql := statement; assessed_type := queryType f; source := BuiltIn;
                            assessed_rule := None; assessed_shape := None |}
      end
  | None =>
      let shape := statementShape hash (connection_driver connection) statement in
      match matchingRule rules connection statement shape with
      | Some rule =>
          if is_deny rule then Refused DENIED_MESSAGE
          else Accepted {| assessed_sql := statement; assessed_type := WriteQuery;
                           source := if is_exact rule then CustomExact else CustomShape;
                           assessed_rule := Some rule; assessed_shape := shape |}
      | None =>
          Accepted {| assessed_sql := statement; assessed_type := WriteQuery;
                      source := if sql_emergency_fallback_enabled settings then EmergencyFallback
                                else Unsupported;
                      assessed_rule := None; assessed_shape := shape |}
      end
  end.

Definition inspect (rules : list Rule) (sql : string) (connection : Connection) : checked Assessment :=
  assessment <-- assess rules sql connection;
  if bool_decide (source assessment = Unsupported) then Refused UNSUPPORTED_SQL_POLICY_MESSAGE
  else Accepted assessment.

(** ** Candidates (SqlPolicyCandidateRecorder.php) *)

Inductive Action := AllowAction | DenyAction | DismissAction.

Inductive Resolution := AllowedExact | AllowedShape | Denied | Dismissed.

Record Candidate := {
  candidate_driver : Driver;
  exact_fingerprint : string;
  candidate_shape : option string;           (** [shape_signature] *)
  occurrences : list (option Z * option Z);  (** statements and connections, while there are any *)
  resolution : option Resolution;
}.

(** [updateOrCreate] on the occurrences of a candidate. *)
Fixpoint update_occurrence (statement : option Z) (connection : Z)
    (occurrences : list (option Z * option Z)) : list (option Z * option Z) :=
  match occurrences with
  | [] => [(statement, Some connection)]
  | o :: rest => if bool_decide (fst o = statement) then (statement, Some connection) :: rest
                 else o :: update_occurrence statement connection rest
  end.

(** A candidate, as [record] leaves it for a statement of a request on a connection; [seen] is what
    the table has for the driver and the fingerprint. *)
Definition record (statement : option Z) (connection : Connection) (sql : string) (shape : option Shape)
    (seen : option Candidate) : Candidate := {|
  candidate_driver := connection_driver connection;
  exact_fingerprint := exactFingerprint hash sql;
  candidate_shape := signature <$> shape;
  occurrences := update_occurrence statement (connection_id connection)
    match seen with Some c => occurrences c | None => [] end;
  resolution := seen ≫= resolution |}.

(** [$observedConnectionIds] *)
Definition observed (c : Candidate) : list Z := remove_dups (omap snd (occurrences c)).

(** ** Resolving a candidate (SqlPolicyManager.php) *)

(** Whether a connection with an id exists. *)
Context (connection_exists : Z -> bool).

Definition NO_SHAPE_MESSAGE : string := "A reusable statement shape is not available for this candidate.".
Definition SCOPE_MESSAGE : string := "Choose a policy scope that covers every observed occurrence.".

(** [ensureScopeCoversCandidate] *)
Definition coversCandidate (candidate : Candidate) (scope : Scope) (scopeId : option Z) : bool :=
  match scope with
  | Workspace => true
  | ConnectionGroup =>
      existsb (fun g => bool_decide (Some (fst g) = scopeId) &&
                        forallb (fun c => bool_decide (c ∈ snd g)) (observed candidate)) groups
  | DatabaseConnection =>
      match observed candidate, scopeId with
      | [c], Some id => (c =? id) && connection_exists id
      | _, _ => false
      end
  end.

(** [updateOrCreate]: the rule with the same key is replaced where it is. *)
Fixpoint updateOrCreate (new : Rule) (rules : list Rule) : list Rule :=
  match rules with
  | [] => [new]
  | r :: rules' => if bool_decide (rule_key r = rule_key new) then new :: rules'
                   else r :: updateOrCreate new rules'
  end.

(** The rule a resolution makes. *)
Definition resolved_rule (candidate : Candidate) (action : Action) (matchType : MatchType)
    (scope : Scope) (scopeId : option Z) : Rule := {|
  rule_driver := candidate_driver candidate;
  effect := match action with DenyAction => Deny | _ => Allow end;
  match_type := match action with DenyAction => Exact | _ => matchType end;
  match_value :=
    match action, matchType with
    | DenyAction, _ | _, Exact => exact_fingerprint candidate
    | _, ByShape => hash (candidate_shape candidate ?? "")
    end;
  rule_scope := scope_key scope scopeId;
  is_enabled := true |}.

Definition resolve_to (r : Resolution) (candidate : Candidate) : Candidate := {|
  candidate_driver := candidate_driver candidate; exact_fingerprint := exact_fingerprint candidate;
  candidate_shape := candidate_shape candidate; occurrences := occurrences candidate; resolution := Some r |}.

Definition resolveCandidate (candidate : Candidate) (action : Action) (matchType : MatchType)
    (scope : Scope) (scopeId : option Z) (rules : list Rule) : checked (Candidate * list Rule) :=
  match action with
  | DismissAction => Accepted (resolve_to Dismissed candidate, rules)
  | _ =>
      let rule := resolved_rule candidate action matchType scope scopeId in
      if bool_decide (match_type rule = ByShape) && negb (is_some (candidate_shape candidate))
      then Refused NO_SHAPE_MESSAGE
      else if negb (coversCandidate candidate scope scopeId) then Refused SCOPE_MESSAGE
      else
        Accepted
          (resolve_to (if is_deny rule then Denied else if is_exact rule then AllowedExact else AllowedShape)
             candidate,
           updateOrCreate rule rules)
  end.

(** [setRuleEnabled] *)
Definition setRuleEnabled (key : Driver * MatchType * string * string) (enabled : bool)
    (rules : list Rule) : list Rule :=
  map (fun r => if bool_decide (rule_key r = key) then {|
      rule_driver := rule_driver r; effect := effect r; match_type := match_type r;
      match_value := match_value r; rule_scope := rule_scope r; is_enabled := enabled |} else r) rules.
End policy.

(** ** Examples *)

Definition primary : Connection := {| connection_id := 1; connection_driver := PostgreSql |}.
Definition trigger_sql : string := "create unique index concurrently i on t (a);".

Definition shape_of (sql : string) : option Shape := statementShape id PostgreSql (canonicalSql sql).

Definition sample_candidate : Candidate :=
  record id (Some 7) primary (canonicalSql trigger_sql) (shape_of trigger_sql) None.

Example unsupported_first :
  inspect id [] read_only_policy [] trigger_sql primary = Refused UNSUPPORTED_SQL_POLICY_MESSAGE.
Proof. vm_compute. reflexivity. Qed.

Example allowed_by_shape :
  match resolveCandidate id [(3, [1; 2])] (fun _ => true) sample_candidate AllowAction ByShape ConnectionGroup (Some 3) [] with
  | Accepted (_, rules) =>
      source <$> match inspect id [(3, [1; 2])] read_only_policy rules "create unique index concurrently j on u (b)" primary with
                 | Accepted a => Some a | Refused _ => None end
  | Refused _ => None
  end = Some CustomShape.
Proof. vm_compute. reflexivity. Qed.

(** ** The verdict *)

Section verdict.
Context (hash : string -> string) (groups : list (Z * list Z)) (settings : SqlStatementPolicy).

(** Whether a rule speaks about a statement. *)
Definition applies (connection : Connection) (sql : string) (shape : option Shape) (r : Rule) : bool :=
  selected hash groups connection sql shape r && matches_rule hash sql shape r.

Definition some_rule (p : Rule -> bool) (rules : list Rule) connection sql shape : bool :=
  existsb (fun r => applies connection sql shape r && p r) rules.

Lemma elem_of_matchingRules rules connection sql shape r :
  r ∈ matchingRules hash groups rules connection sql shape <->
  r ∈ rules /\ applies connection sql shape r = true.
Proof.
  unfold matchingRules, applies. rewrite !list_elem_of_In, !filter_In, andb_true_iff. tauto.
Qed.

Lemma some_rule_true p rules connection sql shape :
  some_rule p rules connection sql shape = true <->
  exists r, r ∈ matchingRules hash groups rules connection sql shape /\ p r = true.
Proof.
  unfold some_rule. rewrite existsb_exists_elem. setoid_rewrite andb_true_iff.
  setoid_rewrite elem_of_matchingRules. naive_solver.
Qed.

Lemma some_rule_false p rules connection sql shape :
  (forall r, r ∈ matchingRules hash groups rules connection sql shape -> p r = false) ->
  some_rule p rules connection sql shape = false.
Proof.
  intros H. apply not_true_is_false. rewrite some_rule_true. intros (r & Hr%H & Hp). congruence.
Qed.

Lemma elem_of_exact_first r rules : r ∈ exact_first rules <-> r ∈ rules.
Proof.
  unfold exact_first. rewrite elem_of_app, !list_elem_of_In, !filter_In. destruct (is_exact r); simpl; tauto.
Qed.

Lemma head_exact_first rules r : head (exact_first rules) = Some r -> is_exact r = existsb is_exact rules.
Proof.
  unfold exact_first. induction rules as [|x rules IH]; [done|]. simpl.
  destruct (is_exact x) eqn:Ex; simpl; [by intros [= <-]|].
  destruct (List.filter is_exact rules) as [|y l] eqn:E; simpl in *.
  - intros [= <-]. rewrite Ex. symmetry. apply existsb_false_elem. intros z Hz.
    apply not_true_is_false. intros Hp. assert (Hin : In z []) by (rewrite <- E; apply filter_In; by rewrite <- list_elem_of_In).
    done.
  - exact IH.
Qed.

(** The rule the policy finds, by what there is to find. *)
Lemma matchingRule_spec rules connection sql shape :
  match matchingRule hash groups rules connection sql shape with
  | Some r =>
      r ∈ matchingRules hash groups rules connection sql shape /\
      is_deny r = some_rule is_deny rules connection sql shape /\
      (is_deny r = false -> is_exact r = some_rule is_exact rules connection sql shape)
  | None => matchingRules hash groups rules connection sql shape = []
  end.
Proof.
  unfold matchingRule. set (matching := matchingRules _ _ _ _ _ _).
  destruct (find_first is_deny matching) as [r|] eqn:Ef.
  - apply find_first_Some in Ef as [Hin Hd]. split_and!; [done| |congruence].
    rewrite Hd. symmetry. apply some_rule_true. by exists r.
  - pose proof (proj1 (find_first_None _ _) Ef) as Hn.
    destruct (head (exact_first matching)) as [r|] eqn:Eh.
    + assert (Hin : r ∈ matching).
      { apply elem_of_exact_first. destruct (exact_first matching); [done|]. injection Eh as ->. left. }
      split_and!; [done| |].
      * rewrite (Hn r Hin). symmetry. by apply some_rule_false.
      * intros _. rewrite (head_exact_first _ _ Eh). apply eq_true_iff_eq.
        by rewrite existsb_exists_elem, some_rule_true.
    + destruct matching as [|x l] eqn:E; [done|]. exfalso.
      assert (Hx : x ∈ exact_first (x :: l)) by (apply elem_of_exact_first; left).
      destruct (exact_first (x :: l)); [by apply elem_of_nil in Hx|done].
Qed.

(** What the policy promises about a deployment statement.  The order of the rules is not in it. *)
Definition promised (rules : list Rule) (sql : string) (connection : Connection)
    : checked (string * QueryType * Source) :=
  statement <-- validateDeploymentStructure sql (postgres (connection_driver connection));
  family <-- statementFamily statement;
  match family with
  | Some f =>
      required <-- requiredStatementFamilies statement;
      match first_disabled settings required with
      | Some g => Refused (disabled_message (guard_label g))
      | None => Accepted (statement, queryType f, BuiltIn)
      end
  | None =>
      let shape := statementShape hash (connection_driver connection) statement in
      if some_rule is_deny rules connection statement shape then Refused DENIED_MESSAGE
      else if some_rule is_exact rules connection statement shape then Accepted (statement, WriteQuery, CustomExact)
      else if some_rule (fun _ => true) rules connection statement shape then
        Accepted (statement, WriteQuery, CustomShape)
      else if sql_emergency_fallback_enabled settings then Accepted (statement, WriteQuery, EmergencyFallback)
      else Refused UNSUPPORTED_SQL_POLICY_MESSAGE
  end.

Definition verdict (a : checked Assessment) : checked (string * QueryType * Source) :=
  checked_bind a (fun a => Accepted (assessed_sql a, assessed_type a, source a)).

Lemma inspect_promised rules sql connection :
  verdict (inspect hash groups settings rules sql connection) = promised rules sql connection.
Proof.
  unfold inspect, assess, promised.
  destruct (validateDeploymentStructure _ _) as [s|]; [|done]. cbn [checked_bind].
  destruct (statementFamily s) as [[f|]|]; [| |done]; cbn [checked_bind].
  - destruct (requiredStatementFamilies s); [|done]. cbn [checked_bind]. by case_match.
  - set (shape := statementShape _ _ _).
    pose proof (matchingRule_spec rules connection s shape) as H. cbv zeta.
    destruct (matchingRule _ _ _ _ _ _) as [r|].
    + destruct H as (Hin & Hd & He). rewrite <- Hd. destruct (is_deny r) eqn:Er; [done|].
      rewrite <- (He eq_refl). rewrite (proj2 (some_rule_true (fun _ => true) _ _ _ _)) by (by exists r).
      by destruct (is_exact r).
    + assert (Hp : forall p, some_rule p rules connection s shape = false).
      { intros p. apply some_rule_false. rewrite H. intros r Hr. by apply elem_of_nil in Hr. }
      rewrite !Hp.
      by destruct (sql_emergency_fallback_enabled settings).
Qed.

(** C26. The verdict on a deployment statement is the promised one, whatever the order in which the
    database returns the rules: a built-in family is judged by the workspace alone; of the administrators'
    rules that apply one that denies wins over all that allow, an exact rule gives its name before a shape
    does, and without a rule only the emergency fallback lets a statement pass.  The fallback makes no
    exception for the form of CREATE TRIGGER that PostgreSQL's connections accept for review, although the
    documentation says that it does ([trigger_passes_fallback]). *)
Theorem inspect_as_promised rules sql connection :
  verdict (inspect hash groups settings rules sql connection) = promised rules sql connection.
Proof. apply inspect_promised. Qed.

(** The form of CREATE TRIGGER that the documentation describes: the documents say that it stays blocked
    until an administrator allows the statement, and that the emergency fallback does not apply to it; with
    the fallback it passes where no rule speaks about it. *)
Definition update_trigger_sql : string :=
  "CREATE TRIGGER update_orders BEFORE UPDATE ON orders FOR EACH ROW EXECUTE FUNCTION set_updated_at()".

Theorem trigger_passes_fallback rules connection :
  connection_driver connection = PostgreSql -> sql_emergency_fallback_enabled settings = true ->
  (forall r, r ∈ rules ->
     applies connection update_trigger_sql (statementShape hash PostgreSql update_trigger_sql) r = false) ->
  executableSql update_trigger_sql = Accepted update_trigger_sql /\
  test ReviewablePostgreSqlCreateTriggerPattern update_trigger_sql = true /\
  verdict (inspect hash groups settings rules update_trigger_sql connection) =
    Accepted (update_trigger_sql, WriteQuery, EmergencyFallback).
Proof.
  intros Hd Hf Hr. split; [vm_compute; reflexivity|]. split; [vm_compute; reflexivity|].
  rewrite inspect_promised. unfold promised. rewrite Hd. cbn [postgres].
  assert (Hv : validateDeploymentStructure update_trigger_sql true = Accepted update_trigger_sql)
    by (vm_compute; reflexivity).
  assert (Hn : statementFamily update_trigger_sql = Accepted None) by (vm_compute; reflexivity).
  rewrite Hv. cbn [checked_bind]. rewrite Hn. cbn [checked_bind].
  set (shape := statementShape hash PostgreSql update_trigger_sql) in *. cbv zeta. clearbody shape.
  assert (Hno : forall q, some_rule q rules connection update_trigger_sql shape = false).
  { intros q. apply some_rule_false. intros r [Hin Ha]%elem_of_matchingRules. by rewrite Hr in Ha. }
  by rewrite !Hno, Hf.
Qed.

Lemma some_rule_perm p rules rules' connection sql shape :
  rules ≡ₚ rules' -> some_rule p rules connection sql shape = some_rule p rules' connection sql shape.
Proof.
  intros H. apply eq_true_iff_eq. unfold some_rule. rewrite !existsb_exists_elem. by setoid_rewrite H.
Qed.

Lemma promised_perm rules rules' sql connection :
  rules ≡ₚ rules' -> promised rules sql connection = promised rules' sql connection.
Proof.
  intros H. unfold promised. destruct (validateDeploymentStructure _ _); [|done]. cbn [checked_bind].
  destruct (statementFamily _) as [[f|]|]; [done| |done]. cbn [checked_bind].
  by rewrite !(some_rule_perm _ _ _ _ _ _ H).
Qed.
End verdict.

(** ** What a resolution does *)

Section resolution.
Context (hash : string -> string) (groups : list (Z * list Z)) (settings : SqlStatementPolicy).
Context (connection_exists : Z -> bool).

Lemma statementShape_value d sql s :
  statementShape hash d sql = Some s -> shape_value s = hash (signature s).
Proof.
  unfold statementShape. intros (ts & _ & ([[m c] rest] & _ & H)%bind_Some)%bind_Some.
  destruct (shape_tail d rest); [|done]. by injection H as <-.
Qed.

Lemma elem_of_update_occurrence statement connection occurrences :
  Some connection ∈ map snd (update_occurrence statement connection occurrences).
Proof.
  induction occurrences as [|o l IH]; simpl; [left|]. destruct (bool_decide _); simpl; [left|by right].
Qed.

Lemma observed_record statement connection sql shape seen :
  connection_id connection ∈ observed (record hash statement connection sql shape seen).
Proof.
  unfold observed. apply elem_of_remove_dups, list_elem_of_omap.
  pose proof (elem_of_update_occurrence statement (connection_id connection)
    match seen with Some c => occurrences c | None => [] end) as H.
  apply list_elem_of_fmap in H as (o & Ho & Hin). by exists o.
Qed.

(** A scope that covers a candidate is one of the scopes of every connection it was seen on. *)
Lemma covers_scope candidate scope scopeId connection :
  coversCandidate groups connection_exists candidate scope scopeId = true ->
  connection_id connection ∈ observed candidate ->
  scope_key scope scopeId ∈ scopeKeys groups connection.
Proof.
  unfold coversCandidate, scopeKeys. destruct scope; intros H Hin.
  - left.
  - right. right. apply existsb_exists_elem in H as ([g members] & Hg & H).
    apply andb_true_iff in H as [Hid%bool_decide_eq_true Hall]. simpl in *. subst scopeId.
    apply list_elem_of_fmap. exists g. split; [done|]. unfold group_ids.
    apply list_elem_of_fmap. exists (g, members). split; [done|].
    apply list_elem_of_In, filter_In. split; [by apply list_elem_of_In|].
    simpl. apply bool_decide_eq_true.
    apply forallb_forall_elem with (x := connection_id connection) in Hall; [|done].
    by apply bool_decide_eq_true in Hall.
  - destruct (observed candidate) as [|c [|]]; [done| |done].
    apply list_elem_of_singleton in Hin as <-. destruct scopeId as [id|]; [|done].
    apply andb_true_iff in H as [->%Z.eqb_eq _]. right. left.
Qed.

Lemma elem_of_updateOrCreate new rules : new ∈ updateOrCreate new rules.
Proof.
  induction rules as [|r l IH]; simpl; [left|]. case_bool_decide; [left|by right].
Qed.

(** What a candidate that was recorded for a statement on a connection knows, however often it has been
    recorded since. *)
Definition recorded_for (candidate : Candidate) (connection : Connection) (sql : string) : Prop :=
  candidate_driver candidate = connection_driver connection /\
  exact_fingerprint candidate = exactFingerprint hash sql /\
  candidate_shape candidate = signature <$> statementShape hash (connection_driver connection) sql /\
  connection_id connection ∈ observed candidate.

Lemma record_recorded statement connection sql seen :
  recorded_for (record hash statement connection sql
    (statementShape hash (connection_driver connection) sql) seen) connection sql.
Proof. split_and!; [done..|apply observed_record]. Qed.

(** The rule made of a candidate applies to the statement the candidate was recorded for. *)
Lemma resolved_rule_applies candidate connection sql action matchType scope scopeId :
  let rule := resolved_rule hash candidate action matchType scope scopeId in
  recorded_for candidate connection sql ->
  (match_type rule = ByShape -> is_some (candidate_shape candidate) = true) ->
  coversCandidate groups connection_exists candidate scope scopeId = true ->
  applies hash groups connection sql (statementShape hash (connection_driver connection) sql) rule = true.
Proof.
  intros rule (Hd & Hf & Hsh & Hobs) Hs Hc. unfold applies, selected.
  set (shape := statementShape _ _ _) in *.
  assert (Hscope : existsb (str_eq (rule_scope rule)) (scopeKeys groups connection) = true).
  { apply existsb_exists_elem. exists (rule_scope rule). split; [|apply str_eq_refl].
    by eapply covers_scope. }
  assert (Hdr : rule_driver rule = connection_driver connection) by done.
  rewrite (bool_decide_eq_true_2 _ Hdr), Hscope. cbn [is_enabled resolved_rule rule andb].
  destruct (match_type rule) eqn:Em.
  - assert (Hv : match_value rule = exactFingerprint hash sql) by (rewrite <- Hf; by destruct action, matchType).
    unfold matches_rule, matchValues. rewrite Em, Hv. cbn [existsb]. by rewrite str_eq_refl.
  - specialize (Hs eq_refl). unfold matches_rule, matchValues. rewrite Em.
    assert (Hv : match_value rule = hash (candidate_shape candidate ?? "")) by (by destruct action, matchType).
    rewrite Hv, Hsh. rewrite Hsh in Hs. clearbody rule.
    destruct shape as [s|] eqn:E; [|done]. cbn. apply statementShape_value in E as <-.
    by rewrite str_eq_refl, orb_true_r.
Qed.

Lemma updateOrCreate_incl new rules r : r ∈ updateOrCreate new rules -> r = new \/ r ∈ rules.
Proof.
  induction rules as [|x l IH]; simpl.
  - intros ->%list_elem_of_singleton. by left.
  - case_bool_decide; intros [->|Hr]%elem_of_cons; [by left|right; by right|right; left|].
    destruct (IH Hr) as [->|Hl]; [by left|right; by right].
Qed.

(** What a resolution that was accepted, and was no dismissal, has done. *)
Lemma resolveCandidate_accepted candidate action matchType scope scopeId rules candidate' rules' :
  resolveCandidate hash groups connection_exists candidate action matchType scope scopeId rules =
    Accepted (candidate', rules') -> action <> DismissAction ->
  let rule := resolved_rule hash candidate action matchType scope scopeId in
  rules' = updateOrCreate rule rules /\
  (match_type rule = ByShape -> is_some (candidate_shape candidate) = true) /\
  coversCandidate groups connection_exists candidate scope scopeId = true.
Proof.
  intros H Ha rule. unfold resolveCandidate in H. fold rule in H.
  assert (H' : (if bool_decide (match_type rule = ByShape) && negb (is_some (candidate_shape candidate))
      then Refused NO_SHAPE_MESSAGE
      else if negb (coversCandidate groups connection_exists candidate scope scopeId) then Refused SCOPE_MESSAGE
      else Accepted (resolve_to (if is_deny rule then Denied else if is_exact rule then AllowedExact
        else AllowedShape) candidate, updateOrCreate rule rules)) = Accepted (candidate', rules')).
  { by destruct action. }
  clear H. destruct (bool_decide _ && _) eqn:E; [done|]. destruct (coversCandidate _ _ _ _ _); [|done].
  injection H' as _ <-. split_and!; [done| |done]. intros Hm.
  rewrite (bool_decide_eq_true_2 _ Hm) in E. by destruct (is_some _).
Qed.

(** What the resolution of a candidate does to the statement it was recorded for. *)
Lemma resolution_effect candidate connection sql s action matchType scope scopeId rules candidate' rules' :
  validateDeploymentStructure sql (postgres (connection_driver connection)) = Accepted s ->
  statementFamily s = Accepted None ->
  recorded_for candidate connection s ->
  action <> DismissAction ->
  let shape := statementShape hash (connection_driver connection) s in
  resolveCandidate hash groups connection_exists candidate action matchType scope scopeId rules =
    Accepted (candidate', rules') ->
  (action = DenyAction ->
   verdict (inspect hash groups settings rules' sql connection) = Refused DENIED_MESSAGE) /\
  (action = AllowAction -> some_rule hash groups is_deny rules connection s shape = false ->
   exists src,
     verdict (inspect hash groups settings rules' sql connection) = Accepted (s, WriteQuery, src) /\
     (src = CustomExact \/ src = CustomShape /\ matchType = ByShape)).
Proof.
  intros Hv Hf Hrec Ha shape H. apply resolveCandidate_accepted in H as (-> & Hs & Hc); [|done].
  pose proof (resolved_rule_applies candidate connection s action
    matchType scope scopeId Hrec Hs Hc) as Hr.
  fold shape in Hr. set (rule := resolved_rule _ _ _ _ _ _) in *.
  pose proof (elem_of_updateOrCreate rule rules) as Hin.
  assert (Hsome : forall p, p rule = true ->
    some_rule hash groups p (updateOrCreate rule rules) connection s shape = true).
  { intros p Hp. apply some_rule_true. exists rule. by rewrite elem_of_matchingRules. }
  rewrite inspect_promised. unfold promised. rewrite Hv. cbn [checked_bind]. rewrite Hf.
  cbn [checked_bind]. fold shape. rewrite (Hsome (fun _ => true) eq_refl).
  split; intros ->; [by rewrite (Hsome is_deny)|].
  intros Hno. rewrite (some_rule_false _ _ is_deny).
  - destruct (some_rule hash groups is_exact _ _ _ _) eqn:E; [exists CustomExact; tauto|].
    exists CustomShape. split; [done|]. right. split; [done|]. destruct matchType; [|done].
    by rewrite (Hsome is_exact) in E.
  - intros r Hm. apply elem_of_matchingRules in Hm as [Hm Happ].
    destruct (updateOrCreate_incl _ _ _ Hm) as [->|Hold]; [done|].
    apply not_true_is_false. intros Hd. rewrite (proj2 (some_rule_true _ _ is_deny _ _ _ _)) in Hno; [done|].
    exists r. by rewrite elem_of_matchingRules.
Qed.

(** C27. What an administrator decides about a candidate takes effect on the statement the candidate
    was recorded for, on its connection and in every scope the form may choose: denied, the statement
    is refused whatever rules there were before; allowed, exactly or by its shape, it passes as a
    write, unless a rule that denies it applied already. *)
Theorem resolution_takes_effect statement connection sql s seen action matchType scope scopeId rules
    candidate' rules' :
  validateDeploymentStructure sql (postgres (connection_driver connection)) = Accepted s ->
  statementFamily s = Accepted None ->
  action <> DismissAction ->
  let shape := statementShape hash (connection_driver connection) s in
  resolveCandidate hash groups connection_exists (record hash statement connection s shape seen)
    action matchType scope scopeId rules = Accepted (candidate', rules') ->
  (action = DenyAction ->
   verdict (inspect hash groups settings rules' sql connection) = Refused DENIED_MESSAGE) /\
  (action = AllowAction -> some_rule hash groups is_deny rules connection s shape = false ->
   exists src,
     verdict (inspect hash groups settings rules' sql connection) = Accepted (s, WriteQuery, src) /\
     (src = CustomExact \/ src = CustomShape /\ matchType = ByShape)).
Proof. intros Hv Hf Ha shape H. eapply resolution_effect; [done..|apply record_recorded|done|exact H]. Qed.

(** ** The rules an administrator can make *)

Inductive reachable : list Rule -> Prop :=
  | no_rules : reachable []
  | resolved candidate action matchType scope scopeId rules candidate' rules' :
      reachable rules ->
      resolveCandidate hash groups connection_exists candidate action matchType scope scopeId rules =
        Accepted (candidate', rules') ->
      reachable rules'
  | enabled key b rules : reachable rules -> reachable (setRuleEnabled key b rules).

Lemma rule_key_updateOrCreate new rules :
  map rule_key (updateOrCreate new rules) =
  if bool_decide (rule_key new ∈ map rule_key rules) then map rule_key rules
  else map rule_key rules ++ [rule_key new].
Proof.
  induction rules as [|r l IH]; simpl; [done|].
  destruct (decide (rule_key r = rule_key new)) as [E|E].
  - rewrite (bool_decide_eq_true_2 _ E), bool_decide_eq_true_2 by (rewrite E; left). simpl. by rewrite E.
  - rewrite (bool_decide_eq_false_2 _ E). simpl. rewrite IH.
    rewrite (bool_decide_ext (rule_key new ∈ rule_key r :: map rule_key l) (rule_key new ∈ map rule_key l))
      by (rewrite elem_of_cons; naive_solver).
    by case_bool_decide.
Qed.

Lemma rule_key_setRuleEnabled key b rules : map rule_key (setRuleEnabled key b rules) = map rule_key rules.
Proof.
  unfold setRuleEnabled. rewrite map_map. apply map_ext. intros r. by case_bool_decide.
Qed.

(** C29. However candidates are resolved and rules switched, no two rules have the same driver, match and
    scope, so a later decision replaces the earlier one instead of contradicting it; and a rule that
    denies names exactly one statement, never a shape. *)
Theorem rules_stay_consistent rules :
  reachable rules ->
  NoDup (map rule_key rules) /\ (forall r, r ∈ rules -> effect r = Deny -> match_type r = Exact).
Proof.
  induction 1 as [|candidate action matchType scope scopeId rules candidate' rules' _ [Hn Hd] H
                  |key b rules _ [Hn Hd]].
  - split; [constructor|]. by intros r ?%elem_of_nil.
  - assert (Ha : action = DismissAction \/ action <> DismissAction) by (destruct action; auto).
    destruct Ha as [->|Ha]; [by injection H as _ <-|].
    apply resolveCandidate_accepted in H as (-> & _); [|done]. split.
    + rewrite rule_key_updateOrCreate. case_bool_decide; [done|]. apply NoDup_app.
      split_and!; [done| |apply NoDup_singleton]. intros k Hk ->%list_elem_of_singleton. done.
    + intros r [->|Hr]%updateOrCreate_incl; [|by apply Hd]. by destruct action.
  - rewrite rule_key_setRuleEnabled. split; [done|]. unfold setRuleEnabled.
    intros r (x & -> & Hx)%list_elem_of_fmap. specialize (Hd x Hx). by case_bool_decide.
Qed.
End resolution.

Lemma resolution_takes_effect_witness :
  verdict (inspect id [(3, [1; 2])] read_only_policy
    [resolved_rule id sample_candidate DenyAction ByShape ConnectionGroup (Some 3)] trigger_sql primary) =
  Refused DENIED_MESSAGE.
Proof.
  refine (proj1 (resolution_takes_effect id [(3, [1; 2])] read_only_policy (fun _ => true) (Some 7) primary trigger_sql
    (canonicalSql trigger_sql) None DenyAction ByShape ConnectionGroup (Some 3) [] _ _ _ _ _ _) eq_refl);
    [vm_compute; reflexivity..|done|vm_compute; reflexivity].
Defined.

Lemma rules_stay_consistent_witness :
  NoDup (map rule_key [resolved_rule id sample_candidate AllowAction ByShape Workspace None]).
Proof.
  apply (rules_stay_consistent id [] (fun _ => true)).
  apply (resolved id [] (fun _ => true) sample_candidate AllowAction ByShape Workspace None []
    (resolve_to AllowedShape sample_candidate)); [apply no_rules|vm_compute; reflexivity].
Defined.
