(* ===== verification/Permissions.v ===== *)
(** * What a user may do on a connection

    The permissions of [app/Models/User.php]: the roles of a user in their order of precedence, the
    policies of a role for single connections and for groups of connections, and the permission that
    results for a connection; and [app/Enums/AccessMode.php]. *)

From Stdlib Require Import String.
From S2P Require Import Prelude CrucibleLib.

Open Scope Z_scope.
Open Scope list_scope.

(** ** Data *)

(** [AccessMode::allows] *)
Definition allows (mode : AccessMode) (queryType : QueryType) : bool :=
  match mode with
  | AccessWrite => true
  | AccessRead => bool_decide (queryType = ReadQuery)
  | AccessNone => false
  end.

Definition rank (m : AccessMode) : Z := match m with AccessNone => 0 | AccessRead => 1 | AccessWrite => 2 end.

(** The columns of a policy, and the keys of a permission. *)
Record Permission := {
  access_mode : AccessMode;
  query_access_mode : AccessMode;
  native_proxy_access_mode : AccessMode;
  can_review : bool;
  read_requires_approval : bool;
  write_requires_approval : bool;
  max_write_session_minutes : option Z;
}.

Record Role := {
  is_admin : bool;
  databasePermissions : list (Z * Permission);               (** by connection *)
  connectionGroupPolicies : list (list Z * Permission);      (** by the members of the group *)
}.

(** [roles] in their order of precedence. *)
Record User := { user_id : Z; user_disabled : bool; roles : list Role }.

(** What the model reads of a connection. *)
Record Target := { target_id : Z; target_active : bool }.

Definition isAdmin (u : User) : bool := existsb is_admin (roles u).

(** ** The permission of one role *)

Definition cappedWorkflowAccessMode (maximumAccessMode workflowAccessMode : AccessMode) : AccessMode :=
  if rank maximumAccessMode <? rank workflowAccessMode then maximumAccessMode else workflowAccessMode.

Definition permissionAttributes (p : Permission) : Permission := {|
  access_mode := access_mode p;
  query_access_mode := cappedWorkflowAccessMode (access_mode p) (query_access_mode p);
  native_proxy_access_mode := cappedWorkflowAccessMode (access_mode p) (native_proxy_access_mode p);
  can_review := can_review p;
  read_requires_approval := read_requires_approval p;
  write_requires_approval := write_requires_approval p;
  max_write_session_minutes := max_write_session_minutes p |}.

(** [sortBy] the rank, then [first]: the first of the least. *)
Definition least_mode (modes : list AccessMode) : AccessMode :=
  match modes with
  | [] => AccessNone
  | m :: ms => fold_left (fun least m => if rank m <? rank least then m else least) ms m
  end.

(** [min] of the minutes that are not null. *)
Definition least_minutes (minutes : list (option Z)) : option Z :=
  fold_right (fun m least =>
    match m, least with
    | Some a, Some b => Some (Z.min a b)
    | Some a, None => Some a
    | None, _ => least
    end) None minutes.

Definition mostRestrictiveGroupPermission (policies : list Permission) : Permission :=
  let mode := least_mode (map access_mode policies) in {|
  access_mode := mode;
  query_access_mode := cappedWorkflowAccessMode mode (least_mode (map query_access_mode policies));
  native_proxy_access_mode := cappedWorkflowAccessMode mode (least_mode (map native_proxy_access_mode policies));
  can_review := existsb can_review policies;
  read_requires_approval := existsb read_requires_approval policies;
  write_requires_approval := existsb write_requires_approval policies;
  max_write_session_minutes := least_minutes (map max_write_session_minutes policies) |}.

(** The policies of the groups a connection belongs to. *)
Definition group_policies (r : Role) (connection : Z) : list Permission :=
  map snd (List.filter (fun g => bool_decide (connection ∈ fst g)) (connectionGroupPolicies r)).

Definition permissionForRole (r : Role) (connection : Z) : option Permission :=
  match find_first (fun p => fst p =? connection) (databasePermissions r) with
  | Some p => Some (permissionAttributes (snd p))
  | None =>
      match group_policies r connection with
      | [] => None
      | policies => Some (mostRestrictiveGroupPermission policies)
      end
  end.

(** ** The permission of a user *)

Definition noDatabasePermission : Permission := {|
  access_mode := AccessNone; query_access_mode := AccessNone; native_proxy_access_mode := AccessNone;
  can_review := false; read_requires_approval := true; write_requires_approval := true;
  max_write_session_minutes := None |}.

(** The permission of an administrator; the three lookups by query type leave out [can_review]. *)
Definition full_permission : Permission := {|
  access_mode := AccessWrite; query_access_mode := AccessWrite; native_proxy_access_mode := AccessWrite;
  can_review := true; read_requires_approval := false; write_requires_approval := false;
  max_write_session_minutes := None |}.

(** The loop over the roles: the first permission that [grants]. *)
Definition first_permission (grants : Permission -> bool) (u : User) (connection : Z) : Permission :=
  if isAdmin u then full_permission
  else find_first grants (omap (fun r => permissionForRole r connection) (roles u)) ?? noDatabasePermission.

Definition effectiveDatabasePermission : User -> Z -> Permission := first_permission (fun _ => true).

Definition effectiveDatabasePermissionFor (u : User) (connection : Z) (queryType : QueryType) : Permission :=
  first_permission (fun p => allows (access_mode p) queryType) u connection.

Definition effectiveQueryAccessPermissionFor (u : User) (connection : Z) (queryType : QueryType) : Permission :=
  first_permission (fun p => allows (query_access_mode p) queryType) u connection.

Definition effectiveNativeProxyPermissionFor (u : User) (connection : Target) (queryType : QueryType) : Permission :=
  if negb (target_active connection) then noDatabasePermission
  else first_permission (fun p => allows (native_proxy_access_mode p) queryType) u (target_id connection).

Definition canAccessDatabase (u : User) (connection : Z) : bool :=
  allows (access_mode (effectiveDatabasePermissionFor u connection ReadQuery)) ReadQuery.

Definition canReviewDatabase (u : User) (connection : Z) : bool :=
  can_review (effectiveDatabasePermission u connection).

(** ** Examples *)

Definition policy (mode : AccessMode) (review approval : bool) : Permission := {|
  access_mode := mode; query_access_mode := mode; native_proxy_access_mode := AccessNone;
  can_review := review; read_requires_approval := approval; write_requires_approval := approval;
  max_write_session_minutes := None |}.

(** An exception for the connection 1 within a group. *)
Definition support : Role := {|
  is_admin := false;
  databasePermissions := [(1, policy AccessNone false true)];
  connectionGroupPolicies := [([1; 2], policy AccessRead true false)] |}.

Definition operator : Role := {|
  is_admin := false;
  databasePermissions := [];
  connectionGroupPolicies := [([1; 2; 3], policy AccessWrite false true)] |}.

Definition user_of (rs : list Role) : User := {| user_id := 5; user_disabled := false; roles := rs |}.

Example exception_overrides_group :
  map (canAccessDatabase (user_of [support])) [1; 2; 3] = [false; true; false].
Proof. reflexivity. Qed.

(** ** The order of access modes *)

Lemma rank_inj a b : rank a = rank b -> a = b.
Proof. by destruct a, b. Qed.

Lemma allows_mono a b t : rank a <= rank b -> allows a t = true -> allows b t = true.
Proof. destruct a, b; simpl; intros; (lia || done). Qed.

Lemma capped_spec maximum workflow :
  rank (cappedWorkflowAccessMode maximum workflow) = Z.min (rank maximum) (rank workflow).
Proof. unfold cappedWorkflowAccessMode. destruct (Z.ltb_spec (rank maximum) (rank workflow)); lia. Qed.

Lemma fold_least ms m :
  rank (fold_left (fun least m => if rank m <? rank least then m else least) ms m) =
  fold_left (fun least m => Z.min (rank m) least) ms (rank m).
Proof.
  revert m. induction ms as [|x ms IH]; intros m; [done|]. cbn [fold_left]. rewrite IH. f_equal.
  destruct (Z.ltb_spec (rank x) (rank m)); lia.
Qed.

Lemma fold_min_le ms a b :
  fold_left (fun least m => Z.min (rank m) least) ms a <= b <-> a <= b \/ exists m, m ∈ ms /\ rank m <= b.
Proof.
  revert a. induction ms as [|x ms IH]; intros a; cbn [fold_left].
  - split; [tauto|]. intros [H|(m & Hm & _)]; [done|]. by apply elem_of_nil in Hm.
  - rewrite IH. setoid_rewrite elem_of_cons. split.
    + intros [H|(m & Hm & H)]; [|eauto].
      destruct (Z.le_gt_cases a b); [by left|right]. exists x. split; [by left|lia].
    + intros [H|(m & [->|Hm] & H)]; [left; lia|left; lia|eauto].
Qed.

Lemma least_mode_le modes b :
  modes <> [] -> rank (least_mode modes) <= b <-> exists m, m ∈ modes /\ rank m <= b.
Proof.
  destruct modes as [|m ms]; [done|]. intros _. unfold least_mode.
  rewrite fold_least, fold_min_le. setoid_rewrite elem_of_cons. naive_solver.
Qed.

Lemma allows_least modes t :
  modes <> [] -> allows (least_mode modes) t = forallb (fun m => allows m t) modes.
Proof.
  intros H. apply eq_true_iff_eq. rewrite forallb_forall_elem. split.
  - intros Ha m Hm. apply (allows_mono (least_mode modes)); [|done].
    apply least_mode_le; [done|]. by exists m.
  - intros Ha. destruct (proj1 (least_mode_le modes (rank (least_mode modes)) H)) as (m & Hm & Hl); [lia|].
    by apply (allows_mono m), Ha.
Qed.

Lemma allows_capped maximum workflow t :
  allows (cappedWorkflowAccessMode maximum workflow) t = allows maximum t && allows workflow t.
Proof. destruct maximum, workflow, t; done. Qed.

Lemma least_minutes_le minutes b :
  (exists m, least_minutes minutes = Some m /\ m <= b) <-> exists m, Some m ∈ minutes /\ m <= b.
Proof.
  induction minutes as [|o l IH]; simpl.
  - split; [by intros (m & ? & _)|]. intros (m & Hm & _). by apply elem_of_nil in Hm.
  - assert (Hc : (exists m, Some m ∈ o :: l /\ m <= b) <->
      (exists m, o = Some m /\ m <= b) \/ (exists m, Some m ∈ l /\ m <= b)).
    { setoid_rewrite elem_of_cons. naive_solver. }
    rewrite Hc, <- IH. destruct o as [a|]; [|naive_solver].
    destruct (least_minutes l) as [c|]; [|naive_solver]. split.
    + intros (m & Hm & Hle). injection Hm as <-.
      destruct (Z.le_gt_cases a b); [left; eauto|right; exists c; split; [done|lia]].
    + intros [(m & Hm & Hle)|(m & Hm & Hle)]; injection Hm as <-; eexists; (split; [done|lia]).
Qed.

(** ** What a permission grants *)

Definition requires_approval (p : Permission) (t : QueryType) : bool :=
  match t with ReadQuery => read_requires_approval p | WriteQuery => write_requires_approval p end.

(** A user's limit on the length of write sessions admits so many minutes. *)
Definition admits (p : Permission) (minutes : Z) : bool :=
  match max_write_session_minutes p with Some m => minutes <=? m | None => true end.

(** Overlapping groups can only take away: what the permission of several groups allows, in any
    of the three workflows, every group allows; it needs approval as soon as one group needs it, and
    a session is as short as every group demands.  Only the authority to review is the other way
    round: one group is enough. *)
Theorem groups_restrict policies t minutes :
  policies <> [] ->
  let p := mostRestrictiveGroupPermission policies in
  let every (f : Permission -> bool) := forallb f policies in
  allows (access_mode p) t = every (fun q => allows (access_mode q) t) /\
  allows (query_access_mode p) t =
    every (fun q => allows (access_mode q) t && allows (query_access_mode q) t) /\
  allows (native_proxy_access_mode p) t =
    every (fun q => allows (access_mode q) t && allows (native_proxy_access_mode q) t) /\
  negb (requires_approval p t) = every (fun q => negb (requires_approval q t)) /\
  admits p minutes = every (fun q => admits q minutes) /\
  negb (can_review p) = every (fun q => negb (can_review q)).
Proof.
  intros Hne p every.
  assert (Hl : forall f : Permission -> AccessMode,
    allows (least_mode (map f policies)) t = every (fun q => allows (f q) t)).
  { intros f. rewrite allows_least by (by destruct policies). unfold every.
    clear. induction policies as [|q l IH]; [done|]. cbn [map forallb]. by rewrite IH. }
  assert (Hn : forall f : Permission -> bool, negb (existsb f policies) = every (fun q => negb (f q))).
  { intros f. unfold every. clear. induction policies as [|q l IH]; [done|]. simpl. by rewrite negb_orb, IH. }
  assert (Ha : forall f g : Permission -> bool, every (fun q => f q && g q) = every f && every g).
  { intros f g. unfold every. clear. induction policies as [|q l IH]; [done|]. simpl. rewrite IH.
    by destruct (f q), (g q), (forallb f l), (forallb g l). }
  unfold p. cbn [access_mode query_access_mode native_proxy_access_mode mostRestrictiveGroupPermission].
  rewrite !allows_capped, !Ha, !Hl. split_and!; try done.
  - destruct t; apply Hn.
  - unfold admits. cbn [max_write_session_minutes]. apply eq_true_iff_eq.
    unfold every. rewrite forallb_forall_elem.
    pose proof (least_minutes_le (map max_write_session_minutes policies) (minutes - 1)) as Hm.
    setoid_rewrite list_elem_of_fmap in Hm.
    assert (Hx : forall o : option Z, match o with Some m => minutes <=? m | None => true end = true <->
      ~ exists m, o = Some m /\ m <= minutes - 1).
    { intros [m|]; [|by split; [intros _ (m & ? & _)|]]. rewrite Z.leb_le. split.
      - intros H (m' & [= <-] & H'). lia.
      - intros H. destruct (Z.le_gt_cases minutes m); [done|]. exfalso. apply H. exists m. split; [done|lia]. }
    rewrite Hx, Hm. split.
    + intros H q Hq. apply Hx. intros (m & E & Hle). apply H. exists m. split; [|done]. by exists q.
    + intros H (m & (q & E & Hq) & Hle). specialize (H q Hq). apply Hx in H. apply H. by exists m.
  - apply Hn.
Qed.

Lemma groups_restrict_witness :
  allows (access_mode (mostRestrictiveGroupPermission
    [policy AccessWrite false true; policy AccessRead true false])) WriteQuery = false.
Proof. exact (proj1 (groups_restrict [policy AccessWrite false true; policy AccessRead true false] WriteQuery 0 ltac:(done))). Defined.

(** ** Which role decides *)

(** Whether one of the roles grants a kind of statement. *)
Definition some_role_grants (u : User) (connection : Z) (t : QueryType) : bool :=
  existsb (fun r => match permissionForRole r connection with
                    | Some p => allows (access_mode p) t
                    | None => false
                    end) (roles u).

(** A user may run what one of the roles grants; the permission that counts is that of the first
    role that grants it, whatever the roles before it say. *)
Lemma first_granting_role u connection t :
  isAdmin u = false ->
  allows (access_mode (effectiveDatabasePermissionFor u connection t)) t = some_role_grants u connection t.
Proof.
  intros Ha. unfold effectiveDatabasePermissionFor, first_permission, some_role_grants. rewrite Ha.
  clear Ha. induction (roles u) as [|r rs IH]; [done|]. cbn [omap list_omap existsb].
  destruct (permissionForRole r connection) as [p|]; [|exact IH].
  cbn [find_first]. destruct (allows (access_mode p) t) eqn:E; [exact E|exact IH].
Qed.

(** So a role before the others cannot take anything away. *)
Lemma precedence_does_not_restrict :
  let u := user_of [support; operator] in
  (effectiveDatabasePermission u 1 = permissionAttributes (policy AccessNone false true)) /\
  allows (access_mode (effectiveDatabasePermissionFor u 1 WriteQuery)) WriteQuery = true.
Proof. by vm_compute. Qed.

(** In every permission the workflows stay within the access mode. *)
Definition within_access (p : Permission) : Prop :=
  rank (query_access_mode p) <= rank (access_mode p) /\
  rank (native_proxy_access_mode p) <= rank (access_mode p).

Lemma permissionForRole_within r connection p :
  permissionForRole r connection = Some p -> within_access p.
Proof.
  unfold permissionForRole, within_access. destruct (find_first _ _) as [q|].
  - intros [= <-]. cbn [query_access_mode native_proxy_access_mode access_mode permissionAttributes].
    rewrite !capped_spec. lia.
  - destruct (group_policies r connection); [done|]. intros [= <-].
    cbn [query_access_mode native_proxy_access_mode access_mode mostRestrictiveGroupPermission].
    rewrite !capped_spec. lia.
Qed.

Lemma first_permission_within grants u connection : within_access (first_permission grants u connection).
Proof.
  unfold first_permission. destruct (isAdmin u); [by vm_compute|].
  destruct (find_first grants _) as [p|] eqn:E; [|by vm_compute].
  apply find_first_Some in E as [Hin _]. apply list_elem_of_omap in Hin as (r & _ & Hr).
  by eapply permissionForRole_within.
Qed.
