(* ===== verification/DeploymentPreflight.v ===== *)
(** * The preflight of a deployment batch

    [app/Services/DeploymentPreflight.php]: every statement of a batch is judged by the policy of
    deployment statements, the state of its connection and the permission of the requester, and what
    the policy does not know is recorded as a candidate for the administrators.

    The candidates are a list; the id of a candidate is its place in it.  The time of the check and
    the position and name of what a result is about are left out. *)

From Stdlib Require Import String.
From S2P Require Import Prelude JsString JsRegExp PhpString Pcre CrucibleLib SqlPolicy QueryGuard StatementAnalyzer DeploymentPolicy Permissions.

Open Scope string_scope.
Open Scope Z_scope.
Open Scope list_scope.

Local Notation "x <-- m ; f" := (checked_bind m (fun x => f))
  (at level 20, m at level 100, f at level 200, right associativity).

(** ** Data *)

Inductive PreflightStatus := NotRun | Passed | PassedWithWarnings | Blocked | Stale.

#[export] Instance PreflightStatus_eq_dec : EqDecision PreflightStatus.
Proof. solve_decision. Defined.

Inductive Level := Warns | Blocks.

#[export] Instance Level_eq_dec : EqDecision Level.
Proof. solve_decision. Defined.

Record Message := {
  level : Level;
  code : string;
  text : string;
  candidate_id : option nat;
  shape_available : option bool;
}.

Record DatabaseConnection := {
  database : Connection;           (** its id and driver *)
  name : string;
  is_active : bool;
}.

Record Statement := {
  statement_id : option Z;
  sql : string;
  query_type : QueryType;
  databaseConnection : option DatabaseConnection;
}.

(** What a preflight reads of a request. *)
Record Batch := {
  requester : User;
  batch_connection : option DatabaseConnection;
  batch_sql : string;
  batch_type : QueryType;
  statements : list Statement;
}.

Record Result := { result_type : QueryType; messages : list Message }.

Record Report := { status : PreflightStatus; blocker_count : nat; warning_count : nat; results : list Result }.

Definition message (l : Level) (c t : string) : Message :=
  {| level := l; code := c; text := t; candidate_id := None; shape_available := None |}.

Definition is_blocker (m : Message) : bool := bool_decide (level m = Blocks).
Definition is_warning (m : Message) : bool := bool_decide (level m = Warns).

(** ** Patterns and texts *)

Definition write_pattern : regexp := Eval vm_compute in pcre (parsed (regex "^(update|delete)\b" "i")).
Definition where_pattern : regexp := Eval vm_compute in pcre (parsed (regex "\bwhere\b" "i")).
Definition select_pattern : regexp := Eval vm_compute in pcre (parsed (regex "^select\b[\s\S]*\bfrom\b" "i")).
Definition limit_pattern : regexp := Eval vm_compute in pcre (parsed (regex "\blimit\b" "i")).

Definition FALLBACK_MESSAGE : string := "This statement is using the emergency SQL fallback. It is treated as write access and should be reviewed carefully.".
Definition DISABLED_MESSAGE : string := "The requester account is disabled, so this deployment cannot execute.".
Definition MISSING_MESSAGE : string := "The selected database connection is no longer available.".
Definition UNBOUNDED_WRITE_MESSAGE : string := "This UPDATE or DELETE statement has no WHERE clause and may affect every row.".
Definition UNBOUNDED_READ_MESSAGE : string := "This SELECT statement has no LIMIT. Results are capped at execution time, but the source query may still scan a large table.".

Definition inactive_message (name : string) : string := name ++ " is inactive and cannot accept a deployment.".
Definition policy_message (t : QueryType) (name : string) : string :=
  "The requester no longer has " ++ query_type_text t ++ " access to " ++ name ++ ".".

(** ** Recording candidates *)

(** The candidate the table has for a driver and a fingerprint. *)
Fixpoint find_candidate (driver : Driver) (fingerprint : string) (table : list Candidate) : option nat :=
  match table with
  | [] => None
  | c :: table' =>
      if bool_decide (candidate_driver c = driver) && str_eq (exact_fingerprint c) fingerprint then Some 0%nat
      else S <$> find_candidate driver fingerprint table'
  end.

Section preflight.
Context (hash : string -> string) (groups : list (Z * list Z)).
Context (settings : SqlStatementPolicy) (rules : list Rule).

(** [SqlPolicyCandidateRecorder::record] on the table. *)
Definition record_candidate (st : Statement) (connection : Connection) (sql : string) (shape : option Shape)
    (table : list Candidate) : nat * list Candidate :=
  match find_candidate (connection_driver connection) (exactFingerprint hash sql) table with
  | Some i => (i, alter (fun c => record hash (statement_id st) connection sql shape (Some c)) i table)
  | None => (length table, table ++ [record hash (statement_id st) connection sql shape None])
  end.

(** ** One statement *)

(** The part that may throw: the statement, its type, and what the policy of deployments says. *)
Definition inspection (st : Statement) (connection : option DatabaseConnection)
    : checked (string * QueryType * option (Source * option Shape)) :=
  match connection with
  | Some c =>
      a <-- assess hash groups settings rules (sql st) (database c);
      Accepted (assessed_sql a, assessed_type a, Some (source a, assessed_shape a))
  | None =>
      s <-- validateExecutable settings (sql st);
      t <-- classify settings s;
      Accepted (s, t, None)
  end.

(** What the policy has to say about a statement it has read. *)
Definition policy_messages (st : Statement) (connection : option DatabaseConnection)
    (sql : string) (source : option (Source * option Shape)) (table : list Candidate)
    : list Message * list Candidate :=
  match connection, source with
  | Some c, Some (EmergencyFallback, shape) =>
      let '(id, table) := record_candidate st (database c) sql shape table in
      ([{| level := Warns; code := "emergency_sql_fallback"; text := FALLBACK_MESSAGE;
           candidate_id := Some id; shape_available := Some (is_some shape) |}], table)
  | Some c, Some (Unsupported, shape) =>
      let '(id, table) := record_candidate st (database c) sql shape table in
      ([{| level := Blocks; code := "unsupported_sql_policy"; text := UNSUPPORTED_SQL_POLICY_MESSAGE;
           candidate_id := Some id; shape_available := Some (is_some shape) |}], table)
  | _, _ => ([], table)
  end.

Definition requester_messages (requester : User) : list Message :=
  when (user_disabled requester) [message Blocks "requester_disabled" DISABLED_MESSAGE].

Definition target_messages (requester : User) (connection : option DatabaseConnection) (t : QueryType)
    : list Message :=
  match connection with
  | None => [message Blocks "missing_target" MISSING_MESSAGE]
  | Some c =>
      if negb (is_active c) then [message Blocks "inactive_target" (inactive_message (name c))]
      else when (negb (user_disabled requester) && negb (isAdmin requester) &&
                 negb (allows (access_mode (effectiveDatabasePermissionFor requester (connection_id (database c)) t)) t))
             [message Blocks "policy_changed" (policy_message t (name c))]
  end.

Definition risk_messages (topLevelSql : string) (t : QueryType) : list Message :=
  when (bool_decide (t = WriteQuery) && test write_pattern topLevelSql && negb (test where_pattern topLevelSql))
    [message Warns "unbounded_write" UNBOUNDED_WRITE_MESSAGE] ++
  when (bool_decide (t = ReadQuery) && test select_pattern topLevelSql && negb (test limit_pattern topLevelSql))
    [message Warns "unbounded_read" UNBOUNDED_READ_MESSAGE].

Definition evaluateStatement (requester : User) (st : Statement) (connection : option DatabaseConnection)
    (table : list Candidate) : checked (Result * list Candidate) :=
  let '(read, t, (said, table)) :=
    match inspection st connection with
    | Accepted (s, t, source) => (s, t, policy_messages st connection s source table)
    | Refused reason => (sql st, query_type st, ([message Blocks "invalid_sql" reason], table))
    end in
  topLevelSql <-- topLevelExecutableSql read;
  Accepted ({| result_type := t;
               messages := said ++ requester_messages requester ++ target_messages requester connection t ++
                           risk_messages topLevelSql t |}, table).

(** The status of a result. *)
Definition result_status (r : Result) : PreflightStatus :=
  if existsb is_blocker (messages r) then Blocked
  else match messages r with [] => Passed | _ => PassedWithWarnings end.

(** ** The batch *)

(** [$statement->databaseConnection ?? $queryRequest->databaseConnection] *)
Definition target (b : Batch) (st : Statement) : option DatabaseConnection :=
  match databaseConnection st with Some c => Some c | None => batch_connection b end.

(** The statements, or the one a batch without statements stands for. *)
Definition statements_of (b : Batch) : list Statement :=
  match statements b with
  | [] => [{| statement_id := None; sql := batch_sql b; query_type := batch_type b;
              databaseConnection := batch_connection b |}]
  | sts => sts
  end.

Fixpoint evaluate_all (b : Batch) (sts : list Statement) (table : list Candidate)
    : checked (list Result * list Candidate) :=
  match sts with
  | [] => Accepted ([], table)
  | st :: sts' =>
      r <-- evaluateStatement (requester b) st (target b st) table;
      rs <-- evaluate_all b sts' (snd r);
      Accepted (fst r :: fst rs, snd rs)
  end.

Definition count (p : Message -> bool) (rs : list Result) : nat :=
  sum_list (map (fun r => length (List.filter p (messages r))) rs).

Definition report_of (rs : list Result) : Report := {|
  status := if (0 <? count is_blocker rs)%nat then Blocked
            else if (0 <? count is_warning rs)%nat then PassedWithWarnings else Passed;
  blocker_count := count is_blocker rs;
  warning_count := count is_warning rs;
  results := rs |}.

Definition evaluate (b : Batch) (table : list Candidate) : checked (Report * list Candidate) :=
  rs <-- evaluate_all b (statements_of b) table;
  Accepted (report_of (fst rs), snd rs).
End preflight.

(** ** Examples *)

Definition main_database : DatabaseConnection := {| database := primary; name := "main"; is_active := true |}.

Definition batch_of (texts : list string) : Batch := {|
  requester := user_of [operator]; batch_connection := Some main_database; batch_sql := "";
  batch_type := WriteQuery;
  statements := map (fun s => {| statement_id := Some 1; sql := s; query_type := WriteQuery;
                                 databaseConnection := Some main_database |}) texts |}.

Definition sample_report (texts : list string) : checked (PreflightStatus * list (list string)) :=
  r <-- evaluate id [] read_only_policy [] (batch_of texts) [];
  Accepted (status (fst r), map (fun x => map code (messages x)) (results (fst r))).

Example report_of_batch :
  sample_report ["select a from t"; "select 1"; "delete from t"; "create index i on t (a)"] =
  Accepted (Blocked, [["unbounded_read"]; []; ["invalid_sql"; "unbounded_write"]; ["unsupported_sql_policy"]]).
Proof. vm_compute. reflexivity. Qed.

(** ** What a preflight blocks *)

Section theorems.
Context (hash : string -> string) (groups : list (Z * list Z)) (settings : SqlStatementPolicy).

(** Whether a statement may be run: what [inspect], the check at the submission, accepts, on an active
    connection, by an enabled requester whose permission allows its type. *)
Definition may_run (rules : list Rule) (requester : User) (st : Statement)
    (connection : option DatabaseConnection) : bool :=
  match connection with
  | None => false
  | Some c =>
      is_active c && negb (user_disabled requester) &&
      match inspect hash groups settings rules (sql st) (database c) with
      | Accepted a =>
          let t := assessed_type a in
          allows (access_mode (effectiveDatabasePermissionFor requester (connection_id (database c)) t)) t
      | Refused _ => false
      end
  end.

Lemma admin_allowed u connection t :
  isAdmin u = true -> allows (access_mode (effectiveDatabasePermissionFor u connection t)) t = true.
Proof. intros H. unfold effectiveDatabasePermissionFor, first_permission. by rewrite H. Qed.

Lemma risk_no_blocker topLevelSql t : existsb is_blocker (risk_messages topLevelSql t) = false.
Proof. unfold risk_messages, when. by repeat case_match. Qed.

(** What the connection and the requester block. *)
Lemma target_blocked requester connection t :
  existsb is_blocker (requester_messages requester ++ target_messages requester connection t) =
  negb match connection with
       | None => false
       | Some c => is_active c && negb (user_disabled requester) &&
           allows (access_mode (effectiveDatabasePermissionFor requester (connection_id (database c)) t)) t
       end.
Proof.
  rewrite existsb_app. unfold requester_messages, target_messages, when.
  destruct connection as [c|]; [|by rewrite orb_true_r].
  destruct (is_active c); cbn [negb andb]; [|by rewrite orb_true_r].
  destruct (user_disabled requester); cbn [negb andb]; [done|].
  destruct (isAdmin requester) eqn:Ea; cbn [negb andb]; [by rewrite admin_allowed|].
  by destruct (allows _ t).
Qed.

Lemma statement_blocked rules requester st connection table r table' :
  evaluateStatement hash groups settings rules requester st connection table = Accepted (r, table') ->
  existsb is_blocker (messages r) = negb (may_run rules requester st connection).
Proof.
  unfold evaluateStatement, may_run, inspect.
  destruct (inspection _ _ _ _ st connection) as [[[s t] source]|reason] eqn:Ei.
  - destruct (policy_messages _ st connection s source table) as [said tab] eqn:Ep.
    destruct (topLevelExecutableSql s) as [top|]; [|done]. cbn [checked_bind]. intros [= <- <-].
    cbn [messages]. rewrite app_assoc, app_assoc, existsb_app, risk_no_blocker, orb_false_r.
    rewrite <- app_assoc, existsb_app, target_blocked.
    destruct connection as [c|]; [|by rewrite orb_true_r]. unfold inspection in Ei.
    destruct (assess _ _ _ _ _ _) as [a|]; [|done]. injection Ei as <- <- <-. cbn [checked_bind].
    revert Ep. unfold policy_messages.
    destruct (source a) eqn:Es; try (intros [= <- _]; cbn [existsb orb]; by destruct (is_active c), (user_disabled requester)).
    + destruct (record_candidate _ _ _ _ _) as [id tab']. intros [= <- _]. cbn.
      by destruct (is_active c), (user_disabled requester).
    + destruct (record_candidate _ _ _ _ _) as [id tab']. intros [= <- _]. cbn. by rewrite !andb_false_r.
  - destruct (topLevelExecutableSql (sql st)) as [top|]; [|done]. cbn [checked_bind]. intros [= <- <-].
    cbn [messages existsb app]. destruct connection as [c|]; [|done]. unfold inspection in Ei.
    destruct (assess _ _ _ _ _ _) as [a|]; [done|]. cbn. by rewrite andb_false_r.
Qed.

Lemma count_pos p rs : (0 <? count p rs)%nat = existsb (fun r => existsb p (messages r)) rs.
Proof.
  unfold count. induction rs as [|r rs IH]; [done|]. cbn [map sum_list existsb]. rewrite <- IH.
  assert (Hl : existsb p (messages r) = (0 <? length (List.filter p (messages r)))%nat).
  { clear. induction (messages r) as [|m l IH]; [done|]. simpl. by destruct (p m). }
  rewrite Hl. destruct (length (List.filter p (messages r))); [done|]. reflexivity.
Qed.

Lemma evaluate_all_blocked rules b sts table rs table' :
  evaluate_all hash groups settings rules b sts table = Accepted (rs, table') ->
  existsb (fun r => existsb is_blocker (messages r)) rs =
  negb (forallb (fun st => may_run rules (requester b) st (target b st)) sts).
Proof.
  revert table rs. induction sts as [|st sts IH]; intros table rs; cbn [evaluate_all]; [by intros [= <- _]|].
  destruct (evaluateStatement _ _ _ _ _ _ _ _) as [[r tab]|] eqn:E; [|done]. cbn [checked_bind fst snd].
  destruct (evaluate_all _ _ _ _ _ _ _) as [[rs' tab']|] eqn:Es; [|done]. intros [= <- <-].
  cbn [existsb forallb]. by rewrite (statement_blocked _ _ _ _ _ _ _ E), (IH _ _ Es), negb_andb.
Qed.

(** When a preflight passes. *)
Lemma evaluate_passes rules b table report table' :
  evaluate hash groups settings rules b table = Accepted (report, table') ->
  status report <> Blocked <->
  Forall (fun st => may_run rules (requester b) st (target b st) = true) (statements_of b).
Proof.
  unfold evaluate. destruct (evaluate_all _ _ _ _ _ _ _) as [[rs tab]|] eqn:E; [|done].
  cbn [checked_bind fst snd]. intros [= <- <-]. cbn [status report_of].
  rewrite count_pos, (evaluate_all_blocked _ _ _ _ _ _ E), Forall_forall, <- forallb_forall_elem.
  destruct (forallb _ _); cbn [negb]; [|by split].
  split; [done|]. intros _. by destruct (_ <? _)%nat.
Qed.

(** C13. The preflight lets a batch pass exactly when every statement may be run: when each is accepted
    by the check at the submission, on a connection that exists and is active, and the requester is
    enabled and permitted that kind of statement there.  What it records and warns about does not
    matter to it. *)
Theorem preflight_passes_runnable rules b table report table' :
  evaluate hash groups settings rules b table = Accepted (report, table') ->
  status report <> Blocked <->
  Forall (fun st => may_run rules (requester b) st (target b st) = true) (statements_of b).
Proof. apply evaluate_passes. Qed.
End theorems.

Lemma preflight_passes_runnable_witness :
  may_run id [] read_only_policy [] (user_of [operator])
    {| statement_id := Some 1; sql := "select 1"; query_type := WriteQuery;
       databaseConnection := Some main_database |} (Some main_database) = true.
Proof.
  assert (H : Forall (fun st => may_run id [] read_only_policy [] (requester (batch_of ["select 1"])) st
    (target (batch_of ["select 1"]) st) = true) (statements_of (batch_of ["select 1"]))).
  { eapply (preflight_passes_runnable id [] read_only_policy [] (batch_of ["select 1"]) []);
      [vm_compute; reflexivity|vm_compute; discriminate]. }
  by inversion H.
Defined.

(** ** When a preflight cannot be made *)

Section throws.
Context (hash : string -> string) (groups : list (Z * list Z)) (settings : SqlStatementPolicy) (rules : list Rule).

Lemma statementFamily_reads s f : statementFamily s = Accepted f -> exists e, topLevelExecutableSql s = Accepted e.
Proof. unfold statementFamily. destruct (topLevelExecutableSql s) as [e|]; [eauto|done]. Qed.

Lemma validateExecutable_reads s e :
  validateExecutable settings s = Accepted e -> exists f, statementFamily e = Accepted f.
Proof.
  unfold validateExecutable. destruct (validateStructure s) as [t|]; [|done]. cbn [checked_bind].
  destruct (statementFamily t) as [[f|]|] eqn:Ef; [| |done]; cbn [checked_bind].
  - destruct (requiredStatementFamilies t); [|done]. cbn [checked_bind]. case_match; [done|]. intros [= <-]. eauto.
  - case_match; [done|]. intros [= <-]. eauto.
Qed.

(** What an inspection has accepted can be read again. *)
Lemma inspection_reads st connection s t source :
  inspection hash groups settings rules st connection = Accepted (s, t, source) ->
  exists e, topLevelExecutableSql s = Accepted e.
Proof.
  unfold inspection. destruct connection as [c|].
  - unfold assess. destruct (validateDeploymentStructure _ _) as [v|]; [|done]. cbn [checked_bind].
    destruct (statementFamily v) as [[f|]|] eqn:Ef; [| |done]; cbn [checked_bind];
      pose proof (statementFamily_reads _ _ Ef) as He.
    + destruct (requiredStatementFamilies v); [|done]. cbn [checked_bind]. case_match; [done|].
      by intros [= <- _ _].
    + cbv zeta. destruct (matchingRule _ _ _ _ _ _) as [r|]; [destruct (is_deny r); [done|]|]; by intros [= <- _ _].
  - destruct (validateExecutable settings (sql st)) as [v|] eqn:Ev; [|done]. cbn [checked_bind].
    destruct (classify settings v); [|done]. cbn [checked_bind]. intros [= <- _ _].
    apply validateExecutable_reads in Ev as (f & Hf). by eapply statementFamily_reads.
Qed.

Lemma topLevel_refused s m :
  topLevelExecutableSql s = Refused m -> m = HINT_MESSAGE /\ executableSql s = Refused HINT_MESSAGE.
Proof. unfold topLevelExecutableSql, executableSql. destruct (scan Code 0 s); [done|]. by intros [= <-]. Qed.

(** A preflight fails instead of reporting on account of one kind of statement alone: one with an
    executable comment or an optimizer hint, which the inspection refuses, and the look for risks,
    outside of the handler of that refusal, refuses again. *)
Lemma evaluate_refused b table m :
  evaluate hash groups settings rules b table = Refused m ->
  m = HINT_MESSAGE /\
  exists st, st ∈ statements_of b /\ executableSql (sql st) = Refused HINT_MESSAGE /\
    exists reason, inspection hash groups settings rules st (target b st) = Refused reason.
Proof.
  unfold evaluate. generalize (statements_of b) as sts. intros sts H.
  assert (Ha : evaluate_all hash groups settings rules b sts table = Refused m).
  { destruct (evaluate_all _ _ _ _ _ _ _); [done|by injection H as ->]. }
  clear H. revert table Ha. induction sts as [|st sts IH]; intros table; cbn [evaluate_all]; [done|].
  destruct (evaluateStatement _ _ _ _ _ _ _ _) as [[r tab]|m'] eqn:E; cbn [checked_bind snd].
  - intros Ha. destruct (IH tab) as (-> & st' & Hin & H); [destruct (evaluate_all _ _ _ _ _ _ _); [done|by injection Ha as ->]|].
    split; [done|]. exists st'. split; [by right|done].
  - intros [= <-]. revert E. unfold evaluateStatement.
    destruct (inspection _ _ _ _ _ _) as [[[s t] source]|reason] eqn:Ei.
    + destruct (policy_messages _ _ _ _ _ _). destruct (inspection_reads _ _ _ _ _ Ei) as (e & ->). done.
    + destruct (topLevelExecutableSql (sql st)) as [e|m''] eqn:Et; [done|]. intros [= <-].
      apply topLevel_refused in Et as [-> He]. split; [done|]. exists st. split; [left|]. eauto.
Qed.
End throws.

(** Such a statement is reported by no preflight. *)
Lemma hint_not_reported :
  sample_report ["select /*+ full(t) */ a from t"] = Refused HINT_MESSAGE /\
  inspection id [] read_only_policy []
    {| statement_id := Some 1; sql := "select /*+ full(t) */ a from t"; query_type := WriteQuery;
       databaseConnection := Some main_database |} (Some main_database) = Refused HINT_MESSAGE.
Proof. by vm_compute. Qed.

(** ** The review of a candidate *)

Section review.
Context (hash : string -> string) (groups : list (Z * list Z)) (settings : SqlStatementPolicy).
Context (connection_exists : Z -> bool).

Lemma find_candidate_Some driver fingerprint table i :
  find_candidate driver fingerprint table = Some i ->
  exists c, table !! i = Some c /\ candidate_driver c = driver /\ exact_fingerprint c = fingerprint.
Proof.
  revert i. induction table as [|c table IH]; intros i; [done|]. cbn [find_candidate].
  destruct (bool_decide (candidate_driver c = driver) && str_eq (exact_fingerprint c) fingerprint) eqn:E.
  - intros [= <-]. apply andb_true_iff in E as [Hd%bool_decide_eq_true Hf%str_eq_true]. by exists c.
  - intros (j & Hj & ->)%fmap_Some. by apply IH.
Qed.

(** A message about a statement no policy knows names the candidate recorded for it. *)
Lemma record_candidate_recorded st connection s table i table' :
  record_candidate hash st connection s (statementShape hash (connection_driver connection) s) table =
    (i, table') ->
  exists candidate, table' !! i = Some candidate /\ recorded_for hash candidate connection s.
Proof.
  unfold record_candidate. destruct (find_candidate _ _ _) as [j|] eqn:E; intros [= <- <-].
  - apply find_candidate_Some in E as (c & Hc & _). eexists. rewrite list_lookup_alter_eq, Hc. split; [done|].
    apply record_recorded.
  - eexists. rewrite lookup_app_r, Nat.sub_diag by lia. split; [done|]. apply record_recorded.
Qed.

Lemma assess_unsupported rules text connection a :
  assess hash groups settings rules text connection = Accepted a -> source a = Unsupported ->
  validateDeploymentStructure text (postgres (connection_driver connection)) = Accepted (assessed_sql a) /\
  statementFamily (assessed_sql a) = Accepted None /\ assessed_type a = WriteQuery /\
  assessed_shape a = statementShape hash (connection_driver connection) (assessed_sql a) /\
  matchingRules hash groups rules connection (assessed_sql a) (assessed_shape a) = [].
Proof.
  unfold assess. destruct (validateDeploymentStructure _ _) as [s|]; [|done]. cbn [checked_bind].
  destruct (statementFamily s) as [[f|]|] eqn:Ef; [| |done]; cbn [checked_bind].
  - destruct (requiredStatementFamilies s); [|done]. cbn [checked_bind]. case_match; [done|]. by intros [= <-].
  - cbv zeta. pose proof (matchingRule_spec hash groups rules connection s
      (statementShape hash (connection_driver connection) s)) as Hm.
    destruct (matchingRule _ _ _ _ _ _) as [r|].
    + destruct (is_deny r); [done|]. intros [= <-]. cbn [source]. by destruct (is_exact r).
    + intros [= <-] _. by cbn [assessed_sql assessed_type assessed_shape].
Qed.

(** What an accepted verdict says of the inspection. *)
Lemma inspection_of_verdict rules st c s t src :
  verdict (inspect hash groups settings rules (sql st) (database c)) = Accepted (s, t, src) ->
  exists shape, inspection hash groups settings rules st (Some c) = Accepted (s, t, Some (src, shape)).
Proof.
  unfold inspect, inspection. destruct (assess _ _ _ _ _ _) as [a|]; [|done]. cbn [checked_bind].
  destruct (bool_decide _); [done|]. cbn [verdict checked_bind]. intros [= <- <- <-]. eauto.
Qed.

(** C28. A blocker that the administrators can review is lifted by their review: when a preflight blocks a
    statement because no policy knows it, the candidate its message names can be allowed -- exactly or
    by its shape, in every scope that the server accepts for it --, and the next preflight of the
    statement, whatever has been recorded in between, blocks nothing but what else it blocked. *)
Theorem allowed_candidate_unblocks rules requester st c table r table' m i candidate
    matchType scope scopeId candidate' rules' later r' later' :
  evaluateStatement hash groups settings rules requester st (Some c) table = Accepted (r, table') ->
  m ∈ messages r -> code m = "unsupported_sql_policy" -> candidate_id m = Some i ->
  table' !! i = Some candidate ->
  resolveCandidate hash groups connection_exists candidate AllowAction matchType scope scopeId rules =
    Accepted (candidate', rules') ->
  evaluateStatement hash groups settings rules' requester st (Some c) later = Accepted (r', later') ->
  List.filter is_blocker (messages r') =
  List.filter (fun m => is_blocker m && negb (str_eq (code m) "unsupported_sql_policy")) (messages r).
Proof.
  intros He Hm Hc Hi Hcand Hres He'. unfold evaluateStatement in He, He'.
  assert (Hcode : forall topLevelSql t m,
    m ∈ requester_messages requester ++ target_messages requester (Some c) t ++ risk_messages topLevelSql t ->
    str_eq (code m) "unsupported_sql_policy" = false).
  { intros top t x. unfold requester_messages, target_messages, risk_messages, when.
    repeat case_match; cbn [app]; intros Hx; repeat (apply elem_of_cons in Hx as [->|Hx]; [done|]);
      by apply elem_of_nil in Hx. }
  assert (Hrest : forall topLevelSql t,
    let rest := requester_messages requester ++ target_messages requester (Some c) t ++ risk_messages topLevelSql t in
    List.filter (fun m => is_blocker m && negb (str_eq (code m) "unsupported_sql_policy")) rest =
    List.filter is_blocker rest).
  { intros top t rest. apply filter_ext_in. intros x Hx%list_elem_of_In. rewrite (Hcode top t) by exact Hx.
    by rewrite andb_true_r. }
  destruct (inspection _ _ _ rules st (Some c)) as [[[s t] source]|reason] eqn:Ei.
  2: { destruct (topLevelExecutableSql (sql st)) as [top|]; [|done]. injection He as <- <-.
       cbn [messages app] in Hm. apply elem_of_cons in Hm as [->|Hm]; [done|].
       apply Hcode in Hm. by rewrite Hc in Hm. }
  destruct (policy_messages _ st (Some c) s source table) as [said tab] eqn:Ep.
  destruct (topLevelExecutableSql s) as [top|] eqn:Et; [|done]. injection He as <- <-. cbn [messages] in *.
  apply elem_of_app in Hm as [Hm|Hm]; [|apply Hcode in Hm; by rewrite Hc in Hm].
  unfold inspection in Ei. destruct (assess _ _ _ rules _ _) as [a|] eqn:Ea; [|done]. injection Ei as <- <- <-.
  unfold policy_messages in Ep.
  destruct (DeploymentPolicy.source a) eqn:Es; try (injection Ep as <- _; by apply elem_of_nil in Hm).
  { destruct (record_candidate _ _ _ _ _ _) as [j tab']. injection Ep as <- _.
    apply list_elem_of_singleton in Hm as ->. done. }
  destruct (assess_unsupported _ _ _ _ Ea Es) as (Hv & Hf & Ht & Hsh & Hnone).
  destruct (record_candidate _ _ _ _ _ _) as [j tab'] eqn:Er. injection Ep as <- <-.
  apply list_elem_of_singleton in Hm as ->. cbn [candidate_id] in Hi. injection Hi as ->.
  rewrite Hsh in Er. apply record_candidate_recorded in Er as (candidate2 & Hl & Hrec).
  rewrite Hl in Hcand. injection Hcand as ->.
  destruct (resolution_effect hash groups settings connection_exists candidate (database c) (sql st) (assessed_sql a)
    AllowAction matchType scope scopeId rules candidate' rules' Hv Hf Hrec ltac:(done) Hres) as [_ Hall].
  destruct (Hall eq_refl) as (src & Hverdict & Hsrc).
  { apply some_rule_false. rewrite <- Hsh, Hnone. intros x Hx. by apply elem_of_nil in Hx. }
  apply inspection_of_verdict in Hverdict as (shape & Hins). rewrite Hins in He'.
  assert (Hp : policy_messages hash st (Some c) (assessed_sql a) (Some (src, shape)) later = ([], later)).
  { by destruct Hsrc as [->|[-> _]]. }
  rewrite Hp, Et in He'. injection He' as <- <-. cbn [messages app]. rewrite Ht.
  exact (eq_sym (Hrest top WriteQuery)).
Qed.
End review.

Lemma allowed_candidate_unblocks_witness :
  exists r' later', evaluateStatement id [(3, [1; 2])] read_only_policy
    [resolved_rule id sample_candidate AllowAction ByShape ConnectionGroup (Some 3)] (user_of [operator])
    {| statement_id := Some 7; sql := trigger_sql; query_type := WriteQuery;
       databaseConnection := Some main_database |} (Some main_database) [] = Accepted (r', later') /\
    List.filter is_blocker (messages r') = [].
Proof.
  eexists _, _. split; [vm_compute; reflexivity|].
  eapply eq_trans; [eapply (allowed_candidate_unblocks id [(3, [1; 2])] read_only_policy (fun _ => true) [] (user_of [operator])
    {| statement_id := Some 7; sql := trigger_sql; query_type := WriteQuery;
       databaseConnection := Some main_database |} main_database [] _ _ _ 0 sample_candidate
    ByShape ConnectionGroup (Some 3) _ _ []);
    [vm_compute; reflexivity|left|reflexivity|reflexivity|vm_compute; reflexivity..]|].
  vm_compute. reflexivity.
Defined.
