(* ===== verification/Workflow.v ===== *)
(** * The life of a deployment batch

    [app/Services/QueryRequestWorkflow.php] for requests of the kind [single_execution], with the
    checks of [EffectiveQueryRequestPolicy.php], the gates of [app/Policies/QueryRequestPolicy.php]
    and the job [app/Jobs/ExecuteQueryRequest.php]: a batch is drafted or submitted, reviewed, withdrawn,
    dispatched, executed statement by statement, cancelled, retried, and its failure resolved.

    A handler either fails, and its transaction changes nothing, or returns the new state.  What the
    rest of the workspace is like -- users, connections, settings, rules and the time -- is an
    argument of every step.  Texts that are only shown, the audit log and the notifications are left
    out. *)

From Stdlib Require Import String.
From S2P Require Import Prelude JsString PhpString CrucibleLib SqlPolicy QueryGuard StatementAnalyzer DeploymentPolicy Permissions DeploymentPreflight.

Open Scope string_scope.
Open Scope Z_scope.
Open Scope list_scope.

Local Notation "x <-- m ; f" := (checked_bind m (fun x => f))
  (at level 20, m at level 100, f at level 200, right associativity).

(** ** Data *)

Record World := {
  now : Z;
  accounts : Z -> User;
  connections : Z -> option DatabaseConnection;
  connection_groups : list (Z * list Z);
  policy_settings : SqlStatementPolicy;
  policy_rules : list Rule;
}.

(** The user with an id. *)
Definition users (w : World) (id : Z) : User := {|
  user_id := id; user_disabled := user_disabled (accounts w id); roles := roles (accounts w id) |}.

(** A row of [query_request_statements]. *)
Record Row := {
  row_id : Z;
  position : Z;
  row_sql : string;
  row_type : QueryType;
  row_connection : option Z;
}.

(** The columns of a request that say what is to be run, *)
Record Content := {
  connection : option Z;
  request_sql : string;
  request_type : QueryType;
  rows : list Row;
  scheduled_at : option Z;
}.

(** and those that say how far it has come. *)
Record Lifecycle := {
  status : QueryRequestStatus;
  requires_approval : bool;
  approved_by_id : option Z;
  approved_at : option Z;
  dispatched_by_id : option Z;
  dispatched_at : option Z;
  completed_at : option Z;
  last_error : option string;
  revision : Z;
}.

Record Request := {
  requester_id : Z;
  content : Content;
  life : Lifecycle;
  preflight_status : PreflightStatus;
  failure_resolved_at : option Z;
}.

(** A row of [query_executions]: the position of its statement, and whether it succeeded. *)
Record Execution := { execution_position : Z; succeeded : bool }.

(** A job on the queue, from when it is dispatched: before its preflight, after a preflight that blocked
    or passed, and after its claim, with the statements that are left. *)
Inductive Job :=
  | Queued (resumeFromPosition : option Z)
  | Held
  | Cleared (resumeFromPosition : option Z)
  | Executing (statements : list (Row * option DatabaseConnection)).

Record State := {
  request : Request;
  candidates : list Candidate;
  executions : list Execution;      (** the latest first *)
  jobs : list Job;
  next_row : Z;
}.

(** The validated data of a form: the texts with their connections, the time, and whether a draft asks for
    a review of the policy. *)
Record Data := {
  data_statements : list (string * Z);
  data_scheduled_at : option Z;
  requestPolicyReview : bool;
}.

Definition set_request (r : Request) (s : State) : State := {|
  request := r; candidates := candidates s; executions := executions s; jobs := jobs s; next_row := next_row s |}.

Definition set_life (l : Lifecycle) (r : Request) : Request := {|
  requester_id := requester_id r; content := content r; life := l;
  preflight_status := preflight_status r; failure_resolved_at := failure_resolved_at r |}.

Definition set_jobs (js : list Job) (s : State) : State := {|
  request := request s; candidates := candidates s; executions := executions s; jobs := js; next_row := next_row s |}.

Definition add_execution (e : Execution) (s : State) : State := {|
  request := request s; candidates := candidates s; executions := e :: executions s; jobs := jobs s;
  next_row := next_row s |}.

Definition is_status (l : list QueryRequestStatus) (r : Request) : bool :=
  existsb (fun st => bool_decide (status (life r) = st)) l.

(** [QueryRequest::isEditable] *)
Definition isEditable (r : Request) : bool :=
  negb (is_some (dispatched_at (life r))) && is_status [Draft; PendingReview; Approved; Rejected; Scheduled] r.

Definition isTerminal (r : Request) : bool := is_status [Completed; Failed; Rejected; Cancelled] r.

(** [$scheduledAt?->isFuture()] *)
Definition isFuture (w : World) (time : option Z) : bool :=
  match time with Some t => now w <? t | None => false end.

(** ** The policy of the requester (EffectiveQueryRequestPolicy.php) *)

Definition find_connection (cs : list DatabaseConnection) (id : option Z) : option DatabaseConnection :=
  find_first (fun c => bool_decide (Some (connection_id (database c)) = id)) cs.

Definition USER_DISABLED_MESSAGE : string :=
  "The requester account is disabled, so this query request cannot proceed.".
Definition UNAVAILABLE_MESSAGE : string := "The selected database connection is no longer available.".
Definition NOT_ALLOWED_MESSAGE : string :=
  "Your role is not allowed to run this query type on the selected database.".

Definition ensureUserIsEnabled (u : User) : checked unit :=
  if user_disabled u then Refused USER_DISABLED_MESSAGE else Accepted tt.

(** The loop of [ensureCanRunStatements]. *)
Fixpoint can_run_all (u : User) (cs : list DatabaseConnection) (sts : list (option Z * QueryType)) : checked unit :=
  match sts with
  | [] => Accepted tt
  | (id, t) :: sts' =>
      match find_connection cs id with
      | None => Refused UNAVAILABLE_MESSAGE
      | Some c =>
          if allows (access_mode (effectiveDatabasePermissionFor u (connection_id (database c)) t)) t
          then can_run_all u cs sts' else Refused NOT_ALLOWED_MESSAGE
      end
  end.

Definition ensureCanRunStatements (u : User) (cs : list DatabaseConnection) (sts : list (option Z * QueryType))
    : checked unit :=
  _ <-- ensureUserIsEnabled u;
  if isAdmin u then Accepted tt else can_run_all u cs sts.

(** [requiresApproval] for statements. *)
Definition requiresApproval (u : User) (cs : list DatabaseConnection) (sts : list (option Z * QueryType)) : bool :=
  negb (isAdmin u) &&
  existsb (fun st =>
    match find_connection cs (fst st) with
    | None => true
    | Some c =>
        Permissions.requires_approval
          (effectiveDatabasePermissionFor u (connection_id (database c)) (snd st)) (snd st)
    end) sts.

(** [$statement->databaseConnection ?? $queryRequest->databaseConnection] *)
Definition row_target (w : World) (r : Request) (row : Row) : option DatabaseConnection :=
  match row_connection row ≫= connections w with
  | Some c => Some c
  | None => connection (content r) ≫= connections w
  end.

Definition databaseConnectionsFor (w : World) (r : Request) : list DatabaseConnection :=
  match omap (row_target w r) (rows (content r)) with
  | [] => match connection (content r) ≫= connections w with Some c => [c] | None => [] end
  | cs => cs
  end.

Definition statementsFor (r : Request) : list (option Z * QueryType) :=
  match rows (content r) with
  | [] => [(connection (content r), request_type (content r))]
  | rs => map (fun row => (row_connection row, row_type row)) rs
  end.

Definition requestRequiresApproval (w : World) (r : Request) : bool :=
  requiresApproval (users w (requester_id r)) (databaseConnectionsFor w r) (statementsFor r).

Definition requestRequiresFreshApproval (w : World) (r : Request) : bool :=
  requestRequiresApproval w r &&
  (negb (is_some (approved_at (life r))) || negb (is_some (approved_by_id (life r))) ||
   bool_decide (approved_by_id (life r) = Some (requester_id r))).

(** ** The gates (QueryRequestPolicy.php) *)

(** [scopedConnections]; a connection that is missing fails every check on it. *)
Definition scopedConnections (w : World) (r : Request) : list (option DatabaseConnection) :=
  match map (row_target w r) (rows (content r)) with
  | [] => [connection (content r) ≫= connections w]
  | cs => cs
  end.

Definition reviews_all (w : World) (u : User) (r : Request) : bool :=
  forallb (fun c => match c with
                    | Some c => canReviewDatabase u (connection_id (database c))
                    | None => false
                    end) (scopedConnections w r).

Definition owns (u : User) (r : Request) : bool := isAdmin u || (requester_id r =? user_id u).

Definition may_update (u : User) (r : Request) : bool := owns u r && isEditable r.

Definition may_review (w : World) (u : User) (r : Request) : bool :=
  is_status [PendingReview] r && negb (requester_id r =? user_id u) && reviews_all w u r.

Definition may_withdraw (u : User) (r : Request) : bool :=
  is_status [PendingReview] r && negb (is_some (dispatched_at (life r))) && owns u r.

Definition may_dispatch (w : World) (u : User) (r : Request) : bool :=
  is_status [Approved] r && negb (is_some (dispatched_at (life r))) && (owns u r || reviews_all w u r).

Definition dispatched_by (u : User) (r : Request) : bool :=
  bool_decide (dispatched_by_id (life r) = Some (user_id u)).

Definition may_cancel (u : User) (r : Request) : bool :=
  is_status [Draft; PendingReview; Approved; Scheduled; Running] r &&
  (owns u r || (is_status [Running] r && dispatched_by u r)).

Definition may_retry (u : User) (r : Request) : bool :=
  is_status [Failed] r && (owns u r || dispatched_by u r).

Definition may_resolve (u : User) (r : Request) : bool :=
  is_status [Failed] r && negb (is_some (failure_resolved_at r)) && (owns u r || dispatched_by u r).

Definition UNAUTHORIZED_MESSAGE : string := "This action is unauthorized.".

Definition gate {A} (allowed : bool) (m : checked A) : checked A :=
  if allowed then m else Refused UNAUTHORIZED_MESSAGE.

(** ** Preflight *)

Section workflow.
Context (hash : string -> string).

Definition statement_of (w : World) (row : Row) : Statement := {|
  statement_id := Some (row_id row); sql := row_sql row; query_type := row_type row;
  databaseConnection := row_connection row ≫= connections w |}.

Definition batch_of (w : World) (r : Request) : Batch := {|
  requester := users w (requester_id r);
  batch_connection := connection (content r) ≫= connections w;
  batch_sql := request_sql (content r); batch_type := request_type (content r);
  statements := map (statement_of w) (rows (content r)) |}.

(** [refreshDeploymentPreflight]: evaluate, then persist. *)
Definition refresh (w : World) (s : State) : checked (Report * State) :=
  e <-- evaluate hash (connection_groups w) (policy_settings w) (policy_rules w)
          (batch_of w (request s)) (candidates s);
  Accepted (fst e, {|
    request := {| requester_id := requester_id (request s); content := content (request s);
                  life := life (request s); preflight_status := DeploymentPreflight.status (fst e);
                  failure_resolved_at := failure_resolved_at (request s) |};
    candidates := snd e; executions := executions s; jobs := jobs s; next_row := next_row s |}).

Definition is_blocked (report : Report) : bool := bool_decide (DeploymentPreflight.status report = Blocked).

(** ** Statements *)

(** A statement that has been validated: its text, type, connection, and what admitted it. *)
Record Validated := { valid_sql : string; valid_type : QueryType; valid_connection : Z }.

Definition NO_STATEMENT_MESSAGE : string := "At least one SQL statement is required.".
Definition CHOOSE_CONNECTION_MESSAGE : string := "Select a connection for this statement.".
Definition VALID_CONNECTION_MESSAGE : string := "Select a valid database connection.".
Definition GONE_MESSAGE : string := "One or more selected connections are no longer available.".

(** The loop of [validateStatements]. *)
Fixpoint validate_all (w : World) (input : list (string * Z)) : checked (list Validated) :=
  match input with
  | [] => Accepted []
  | (text, id) :: input' =>
      if id <? 1 then Refused CHOOSE_CONNECTION_MESSAGE
      else
        match connections w id with
        | None => Refused VALID_CONNECTION_MESSAGE
        | Some c =>
            a <-- inspect hash (connection_groups w) (policy_settings w) (policy_rules w) text (database c);
            rest <-- validate_all w input';
            Accepted ({| valid_sql := assessed_sql a; valid_type := assessed_type a; valid_connection := id |} :: rest)
        end
  end.

Definition validateStatements (w : World) (input : list (string * Z)) : checked (list Validated) :=
  match input with [] => Refused NO_STATEMENT_MESSAGE | _ => validate_all w input end.

(** The loop of [draftStatements]; [blank] trims. *)
Fixpoint draft_all (input : list (string * Z)) : checked (list Validated) :=
  match input with
  | [] => Accepted []
  | (text, id) :: input' =>
      if id <? 1 then Refused CHOOSE_CONNECTION_MESSAGE
      else if str_eq (ltrim (rtrim text)) "" then Refused REQUIRED_MESSAGE
      else
        rest <-- draft_all input';
        Accepted ({| valid_sql := text; valid_type := WriteQuery; valid_connection := id |} :: rest)
  end.

Definition draftStatements (input : list (string * Z)) : checked (list Validated) :=
  match input with [] => Refused NO_STATEMENT_MESSAGE | _ => draft_all input end.

Definition databaseConnectionsForStatements (w : World) (sts : list Validated) : checked (list DatabaseConnection) :=
  if forallb (fun st => is_some (connections w (valid_connection st))) sts
  then Accepted (omap (fun st => connections w (valid_connection st)) sts)
  else Refused GONE_MESSAGE.

Definition batchQueryType (sts : list Validated) : QueryType :=
  if existsb (fun st => bool_decide (valid_type st = WriteQuery)) sts then WriteQuery else ReadQuery.

(** [createMany]: the rows with new ids and their positions. *)
Fixpoint rows_of (next pos : Z) (sts : list (string * QueryType * option Z)) : list Row :=
  match sts with
  | [] => []
  | (text, t, c) :: sts' =>
      {| row_id := next; position := pos; row_sql := text; row_type := t; row_connection := c |} ::
      rows_of (next + 1) (pos + 1) sts'
  end.

Definition new_content (next : Z) (sts : list Validated) (t : QueryType) (time : option Z) : Content := {|
  connection := valid_connection <$> head sts;
  request_sql := match head sts with Some st => valid_sql st | None => "" end;
  request_type := t;
  rows := rows_of next 1 (map (fun st => (valid_sql st, valid_type st, Some (valid_connection st))) sts);
  scheduled_at := time |}.

Definition types_of (sts : list Validated) : list (option Z * QueryType) :=
  map (fun st => (Some (valid_connection st), valid_type st)) sts.

(** What [create] and [update] have checked when their transaction begins: the statements, and whether
    the actor needs an approval for them. *)
Definition submission (w : World) (actor : User) (data : Data) : checked (list Validated * bool) :=
  sts <-- validateStatements w (data_statements data);
  cs <-- databaseConnectionsForStatements w sts;
  _ <-- (if isAdmin actor then Accepted tt else ensureCanRunStatements actor cs (types_of sts));
  Accepted (sts, requiresApproval actor cs (types_of sts)).

Definition submitted_status (w : World) (requires : bool) (time : option Z) : QueryRequestStatus :=
  if requires then PendingReview else if isFuture w time then Scheduled else Approved.

Definition submitted_life (w : World) (actor : Z) (requires : bool) (time : option Z) (rev : Z) : Lifecycle := {|
  status := submitted_status w requires time;
  requires_approval := requires;
  approved_by_id := if requires then None else Some actor;
  approved_at := if requires then None else Some (now w);
  dispatched_by_id := None; dispatched_at := None; completed_at := None; last_error := None;
  revision := rev |}.

Definition draft_life (rev : Z) : Lifecycle := {|
  status := Draft; requires_approval := true; approved_by_id := None; approved_at := None;
  dispatched_by_id := None; dispatched_at := None; completed_at := None; last_error := None; revision := rev |}.

Definition new_state (table : list Candidate) (next : Z) (user : Z) (c : Content) (l : Lifecycle) : State := {|
  request := {| requester_id := user; content := c; life := l; preflight_status := NotRun;
                failure_resolved_at := None |};
  candidates := table; executions := []; jobs := [];
  next_row := next + Z.of_nat (length (rows c)) |}.

(** ** New requests *)

Definition create (w : World) (user : User) (data : Data) (table : list Candidate) (next : Z) : checked State :=
  v <-- submission w user data;
  let '(sts, requires) := v in
  let c := new_content next sts (batchQueryType sts) (data_scheduled_at data) in
  e <-- refresh w (new_state table next (user_id user) c
         (submitted_life w (user_id user) requires (data_scheduled_at data) 1));
  Accepted (snd e).

(** [SqlPolicyReviewWorkflow::request]: when a review of the policy can be asked for. *)
Definition NOT_REVIEWABLE_MESSAGE : string := "SQL policy review is available only when every blocker is an unsupported, reviewable SQL statement.".
Definition RESOLVED_MESSAGE : string := "One or more SQL policy candidates were already resolved. Run preflight again before requesting review.".

Definition request_policy_review (report : Report) (table : list Candidate) : checked unit :=
  let blockedMessages := List.filter is_blocker (flat_map messages (results report)) in
  let allBlockersAreReviewable :=
    forallb (fun m => str_eq (code m) "unsupported_sql_policy" && is_some (candidate_id m)) blockedMessages in
  let candidateIds := omap candidate_id blockedMessages in
  if bool_decide (blockedMessages = []) || negb allBlockersAreReviewable || bool_decide (candidateIds = [])
  then Refused NOT_REVIEWABLE_MESSAGE
  else if forallb (fun i => match table !! i with
                            | Some c => negb (is_some (resolution c))
                            | None => false
                            end) candidateIds
  then Accepted tt else Refused RESOLVED_MESSAGE.

(** A draft with its preflight, and the request for a review. *)
Definition save_draft (w : World) (data : Data) (s : State) : checked State :=
  e <-- refresh w s;
  _ <-- (if requestPolicyReview data then request_policy_review (fst e) (candidates (snd e)) else Accepted tt);
  Accepted (snd e).

Definition createDraft (w : World) (user : User) (data : Data) (table : list Candidate) (next : Z) : checked State :=
  sts <-- draftStatements (data_statements data);
  _ <-- databaseConnectionsForStatements w sts;
  let c := new_content next sts WriteQuery (data_scheduled_at data) in
  save_draft w data (new_state table next (user_id user) c (draft_life 1)).

(** ** Changing a request *)

Definition NOT_EDITABLE_MESSAGE : string := "This query request can no longer be edited.".
Definition DRAFT_BLOCKED_MESSAGE : string := "This deployment batch is blocked by its latest preflight checks.".
Definition NOT_DRAFT_MESSAGE : string := "Only deployment drafts can be saved as drafts.".
Definition PREFLIGHT_MESSAGE : string := "Only editable deployment batches can run preflight.".

Definition set_content (c : Content) (l : Lifecycle) (s : State) : State := {|
  request := {| requester_id := requester_id (request s); content := c; life := l;
                preflight_status := preflight_status (request s);
                failure_resolved_at := failure_resolved_at (request s) |};
  candidates := candidates s; executions := executions s; jobs := jobs s;
  next_row := next_row s + Z.of_nat (length (rows c)) |}.

Definition update (w : World) (actor : User) (data : Data) (s : State) : checked State :=
  v <-- submission w actor data;
  let '(sts, requires) := v in
  let r := request s in
  if negb (isEditable r) then Refused NOT_EDITABLE_MESSAGE
  else
    let submittingDraft := is_status [Draft] r in
    let c := new_content (next_row s) sts (batchQueryType sts) (data_scheduled_at data) in
    let l := submitted_life w (user_id actor) requires (data_scheduled_at data) (revision (life r) + 1) in
    e <-- refresh w (set_content c l s);
    if submittingDraft && is_blocked (fst e) then Refused DRAFT_BLOCKED_MESSAGE else Accepted (snd e).

Definition updateDraft (w : World) (actor : User) (data : Data) (s : State) : checked State :=
  sts <-- draftStatements (data_statements data);
  _ <-- databaseConnectionsForStatements w sts;
  let r := request s in
  if negb (is_status [Draft] r) then Refused NOT_DRAFT_MESSAGE
  else
    let c := new_content (next_row s) sts WriteQuery (data_scheduled_at data) in
    save_draft w data (set_content c (draft_life (revision (life r) + 1)) s).

Definition runPreflight (w : World) (s : State) : checked State :=
  if negb (isEditable (request s)) then Refused PREFLIGHT_MESSAGE
  else e <-- refresh w s; Accepted (snd e).

(** ** Review *)

Definition NOT_PENDING_MESSAGE : string := "Only pending requests can be reviewed.".
Definition STALE_MESSAGE : string :=
  "This request changed after you opened it. Review the latest revision before deciding.".
Definition REVIEW_BLOCKED_MESSAGE : string := "This deployment batch is blocked by preflight checks. Resolve the blocked statements before approving it.".
Definition WITHDRAW_MESSAGE : string := "Only a pending Deployment Batch can be withdrawn from review.".

Definition approved_life (w : World) (reviewer : User) (r : Request) : Lifecycle := {|
  status := if isFuture w (scheduled_at (content r)) then Scheduled else Approved;
  requires_approval := requestRequiresApproval w r;
  approved_by_id := Some (user_id reviewer); approved_at := Some (now w);
  dispatched_by_id := dispatched_by_id (life r); dispatched_at := dispatched_at (life r);
  completed_at := completed_at (life r); last_error := last_error (life r); revision := revision (life r) |}.

Definition rejected_life (w : World) (r : Request) : Lifecycle := {|
  status := Rejected; requires_approval := requires_approval (life r);
  approved_by_id := approved_by_id (life r); approved_at := approved_at (life r);
  dispatched_by_id := dispatched_by_id (life r); dispatched_at := dispatched_at (life r);
  completed_at := Some (now w); last_error := last_error (life r); revision := revision (life r) |}.

Definition review (w : World) (reviewer : User) (approve : bool) (expectedRevision : Z) (s : State) : checked State :=
  gate (may_review w reviewer (request s))
    (if negb (is_status [PendingReview] (request s)) then Refused NOT_PENDING_MESSAGE
     else if negb (revision (life (request s)) =? expectedRevision) then Refused STALE_MESSAGE
     else if approve then
       e <-- refresh w s;
       if is_blocked (fst e) then Refused REVIEW_BLOCKED_MESSAGE
       else Accepted (set_request (set_life (approved_life w reviewer (request (snd e))) (request (snd e))) (snd e))
     else Accepted (set_request (set_life (rejected_life w (request s)) (request s)) s)).

Definition withdrawFromReview (actor : User) (s : State) : checked State :=
  gate (may_withdraw actor (request s))
    (if negb (is_status [PendingReview] (request s)) || is_some (dispatched_at (life (request s)))
     then Refused WITHDRAW_MESSAGE
     else
       let l := life (request s) in
       Accepted (set_request (set_life {|
         status := Draft; requires_approval := true; approved_by_id := None; approved_at := None;
         dispatched_by_id := None; dispatched_at := None; completed_at := None;
         last_error := last_error l; revision := revision l + 1 |} (request s)) s)).

(** ** Dispatch *)

Definition FUTURE_MESSAGE : string := "This deployment batch is scheduled for a future execution time.".
Definition CANNOT_CANCEL_MESSAGE : string := "This query request can no longer be cancelled.".
Definition NOT_FAILED_MESSAGE : string := "Only failed deployment batches can be retried.".
Definition TARGET_GONE_MESSAGE : string := "The retry target is no longer available.".
Definition NOTHING_LEFT_MESSAGE : string := "There are no remaining statements to include in the retry request.".
Definition NOT_RESOLVABLE_MESSAGE : string := "Only failed deployment batches can be resolved.".
Definition ALREADY_RESOLVED_MESSAGE : string := "This failed deployment batch has already been resolved.".
Definition NO_TARGET_MESSAGE : string :=
  "Attempt to read property " ++ String "034" "id" ++ String "034" " on null".

(** What a batch falls back to when its preflight, or a disabled requester, stops it. *)
Definition held_life (l : Lifecycle) : Lifecycle := {|
  status := Approved; requires_approval := requires_approval l; approved_by_id := approved_by_id l;
  approved_at := approved_at l; dispatched_by_id := None; dispatched_at := None;
  completed_at := completed_at l; last_error := last_error l; revision := revision l |}.

(** What it falls back to when it needs a fresh approval. *)
Definition reapproval_life (l : Lifecycle) : Lifecycle := {|
  status := PendingReview; requires_approval := true; approved_by_id := None; approved_at := None;
  dispatched_by_id := None; dispatched_at := None; completed_at := completed_at l;
  last_error := last_error l; revision := revision l + 1 |}.

Definition dispatched_life (w : World) (actor : option User) (l : Lifecycle) : Lifecycle := {|
  status := Approved; requires_approval := requires_approval l; approved_by_id := approved_by_id l;
  approved_at := approved_at l; dispatched_by_id := user_id <$> actor; dispatched_at := Some (now w);
  completed_at := completed_at l; last_error := last_error l; revision := revision l |}.

Definition change_life (f : Lifecycle -> Lifecycle) (s : State) : State :=
  set_request (set_life (f (life (request s))) (request s)) s.

(** [dispatch]; without an actor it is the scheduler's. *)
Definition dispatch (w : World) (actor : option User) (s : State) : checked State :=
  let r := request s in
  if is_status [Scheduled] r && isFuture w (scheduled_at (content r)) then Refused FUTURE_MESSAGE
  else if is_some (dispatched_at (life r)) || negb (is_status [Approved; Scheduled] r) then Accepted s
  else
    e <-- refresh w s;
    let s := snd e in
    Accepted
      (if is_blocked (fst e) then change_life held_life s
       else if requestRequiresFreshApproval w (request s) then change_life reapproval_life s
       else set_jobs (jobs s ++ [Queued None]) (change_life (dispatched_life w actor) s)).

(** ** Cancellation *)

Definition cancelled_life (w : World) (l : Lifecycle) : Lifecycle := {|
  status := Cancelled; requires_approval := requires_approval l; approved_by_id := approved_by_id l;
  approved_at := approved_at l; dispatched_by_id := dispatched_by_id l; dispatched_at := dispatched_at l;
  completed_at := Some (now w); last_error := last_error l; revision := revision l |}.

Definition cancel (w : World) (s : State) : checked State :=
  if negb (is_status [Draft; PendingReview; Approved; Scheduled; Running] (request s))
  then Refused CANNOT_CANCEL_MESSAGE
  else Accepted (change_life (cancelled_life w) s).

(** ** Retry *)

(** [retryFromPosition] *)
Definition retryFromPosition (s : State) : Z :=
  match find_first (fun e => negb (succeeded e)) (executions s) with
  | Some e => execution_position e
  | None => 1
  end.

Definition retry_life (w : World) (actor : User) (l : Lifecycle) : Lifecycle := {|
  status := Approved; requires_approval := requires_approval l; approved_by_id := approved_by_id l;
  approved_at := approved_at l; dispatched_by_id := Some (user_id actor); dispatched_at := Some (now w);
  completed_at := None; last_error := None; revision := revision l |}.

(** [createRetryRequest] *)
Definition createRetryRequest (w : World) (from : Z) (s : State) : checked State :=
  let r := request s in
  let c := content r in
  let left := List.filter (fun row => from <=? position row) (rows c) in
  let usesLegacySql := bool_decide (left = []) && negb (str_eq (ltrim (rtrim (request_sql c))) "") in
  let requester := users w (requester_id r) in
  let first_target := match left with
                      | row :: _ => match row_connection row ≫= connections w with
                                    | Some t => Some t
                                    | None => connection c ≫= connections w
                                    end
                      | [] => connection c ≫= connections w
                      end in
  match first_target with
  | None => Refused TARGET_GONE_MESSAGE
  | Some t =>
      if bool_decide (left = []) && negb usesLegacySql then Refused NOTHING_LEFT_MESSAGE
      else
        let cs := match omap (fun row => row_connection row ≫= connections w) left with [] => [t] | cs => cs end in
        let sts := if usesLegacySql then [(request_sql c, request_type c, connection c)]
                   else map (fun row => (row_sql row, row_type row, row_connection row)) left in
        let types := map (fun st => (snd st, snd (fst st))) sts in
        _ <-- ensureCanRunStatements requester cs types;
        let requires := requiresApproval requester cs types in
        let c' := {| connection := Some (connection_id (database t));
                     request_sql := match left with row :: _ => row_sql row | [] => request_sql c end;
                     request_type := request_type c; rows := rows_of (next_row s) 1 sts;
                     scheduled_at := None |} in
        e <-- refresh w (new_state (candidates s) (next_row s) (requester_id r) c'
               (submitted_life w (requester_id r) requires None 1));
        Accepted (snd e)
  end.

(** [retry]: the request itself is resumed, or there is a new one. *)
Definition retry (w : World) (actor : User) (s : State) : checked (State + State) :=
  let r := request s in
  if negb (is_status [Failed] r) then Refused NOT_FAILED_MESSAGE
  else if bool_decide (request_type (content r) = ReadQuery) && negb (requestRequiresFreshApproval w r) then
    Accepted (inl (set_jobs (jobs s ++ [Queued (Some (retryFromPosition s))]) (change_life (retry_life w actor) s)))
  else
    s' <-- createRetryRequest w (retryFromPosition s) s;
    Accepted (inr s').

(** ** Resolution of a failure; [replacement] is whether a replacement that is named may be chosen. *)

Definition REPLACEMENT_MESSAGE : string :=
  "Choose a visible, non-failed deployment batch newer than this request.".

Definition resolveFailure (w : World) (replacement : option bool) (s : State) : checked State :=
  let r := request s in
  if negb (is_status [Failed] r) then Refused NOT_RESOLVABLE_MESSAGE
  else if is_some (failure_resolved_at r) then Refused ALREADY_RESOLVED_MESSAGE
  else if bool_decide (replacement = Some false) then Refused REPLACEMENT_MESSAGE
  else Accepted (set_request {|
    requester_id := requester_id r; content := content r; life := life r;
    preflight_status := preflight_status r; failure_resolved_at := Some (now w) |} s).

(** ** The job (ExecuteQueryRequest.php) *)

Definition failed_life (w : World) (error : string) (l : Lifecycle) : Lifecycle := {|
  status := Failed; requires_approval := requires_approval l; approved_by_id := approved_by_id l;
  approved_at := approved_at l; dispatched_by_id := dispatched_by_id l; dispatched_at := dispatched_at l;
  completed_at := Some (now w); last_error := Some error; revision := revision l |}.

(** [failed], which the queue calls when a job has thrown or was killed; the job is gone. *)
Definition job_failed (w : World) (error : string) (js : list Job) (s : State) : State :=
  set_jobs js (if isTerminal (request s) then s else change_life (failed_life w error) s).

Definition runs (r : Request) : bool := is_status [Approved; Running] r.

(** The first part of [handle]: the preflight, without a lock. *)
Definition job_preflight (w : World) (resume : option Z) (js : list Job) (s : State) : State :=
  if negb (runs (request s)) then set_jobs js s
  else
    match refresh w s with
    | Refused error => job_failed w error js s
    | Accepted (report, s') => set_jobs ((if is_blocked report then Held else Cleared resume) :: js) s'
    end.

(** After a preflight that has blocked. *)
Definition job_hold (js : list Job) (s : State) : State :=
  set_jobs js (if runs (request s) then change_life held_life s else s).

Definition running_life (l : Lifecycle) : Lifecycle := {|
  status := Running; requires_approval := requires_approval l; approved_by_id := approved_by_id l;
  approved_at := approved_at l; dispatched_by_id := dispatched_by_id l; dispatched_at := dispatched_at l;
  completed_at := completed_at l; last_error := None; revision := revision l |}.

(** The statements to run with their connections: those from where the job resumes, or the text of the
    request. *)
Definition job_statements (w : World) (resume : option Z) (r : Request) : list (Row * option DatabaseConnection) :=
  let c := content r in
  map (fun row => (row, row_target w r row))
    match List.filter (fun row => (resume ?? 1) <=? position row) (rows c) with
    | [] => [{| row_id := 0; position := 1; row_sql := request_sql c; row_type := request_type c;
                row_connection := None |}]
    | l => l
    end.

(** The claim, in a transaction that has locked the request. *)
Definition job_claim (w : World) (resume : option Z) (js : list Job) (s : State) : State :=
  let r := request s in
  if negb (runs r) then set_jobs js s
  else if user_disabled (users w (requester_id r)) then set_jobs js (change_life held_life s)
  else if requestRequiresFreshApproval w r then set_jobs js (change_life reapproval_life s)
  else set_jobs (Executing (job_statements w resume r) :: js) (change_life running_life s).

(** One turn of the loop over the statements; [outcome] is what the database answers. *)
Definition job_run (w : World) (outcome : option string) (row : Row * option DatabaseConnection)
    (rest : list (Row * option DatabaseConnection)) (js : list Job) (s : State) : State :=
  if is_status [Cancelled] (request s) then set_jobs js s
  else
    match snd row, outcome with
    | None, _ => job_failed w NO_TARGET_MESSAGE js s
    | Some _, None =>
        set_jobs (Executing rest :: js) (add_execution {| execution_position := position (fst row); succeeded := true |} s)
    | Some _, Some error =>
        let s := add_execution {| execution_position := position (fst row); succeeded := false |} s in
        set_jobs js (if is_status [Cancelled] (request s) then s else change_life (failed_life w error) s)
    end.

Definition completed_life (w : World) (l : Lifecycle) : Lifecycle := {|
  status := Completed; requires_approval := requires_approval l; approved_by_id := approved_by_id l;
  approved_at := approved_at l; dispatched_by_id := dispatched_by_id l; dispatched_at := dispatched_at l;
  completed_at := Some (now w); last_error := last_error l; revision := revision l |}.

(** The end of [handle]. *)
Definition job_finish (w : World) (js : list Job) (s : State) : State :=
  set_jobs js (if is_status [Cancelled] (request s) then s else change_life (completed_life w) s).

(** ** All that can happen to a request *)

Inductive Op :=
  | Update (actor : Z) (data : Data)
  | UpdateDraft (actor : Z) (data : Data)
  | RunPreflight (actor : Z)
  | Review (reviewer : Z) (approve : bool) (expectedRevision : Z)
  | Withdraw (actor : Z)
  | DispatchBy (actor : Z)
  | DispatchDue
  | Cancel (actor : Z)
  | Retry (actor : Z)
  | Resolve (actor : Z) (replacement : option bool)
  | JobStep (i : nat) (outcome : option string)
  | JobKilled (i : nat) (error : string).

Definition active (j : Job) : bool := match j with Queued _ => false | _ => true end.

(** A job at work; a job that begins while another one is at work is dropped. *)
Definition job_step (w : World) (outcome : option string) (j : Job) (js : list Job) (s : State) : State :=
  match j with
  | Queued resume => if existsb active js then set_jobs js s else job_preflight w resume js s
  | Held => job_hold js s
  | Cleared resume => job_claim w resume js s
  | Executing [] => job_finish w js s
  | Executing (row :: rest) => job_run w outcome row rest js s
  end.

Definition with_job (i : nat) (f : Job -> list Job -> State) (s : State) : State :=
  match jobs s !! i with Some j => f j (delete i (jobs s)) | None => s end.

(** The routes with their gates, the scheduler, and the queue. *)
Definition perform (w : World) (o : Op) (s : State) : checked State :=
  let r := request s in
  match o with
  | Update actor data => gate (may_update (users w actor) r) (update w (users w actor) data s)
  | UpdateDraft actor data => gate (may_update (users w actor) r) (updateDraft w (users w actor) data s)
  | RunPreflight actor => gate (may_update (users w actor) r) (runPreflight w s)
  | Review reviewer approve expected => review w (users w reviewer) approve expected s
  | Withdraw actor => withdrawFromReview (users w actor) s
  | DispatchBy actor => gate (may_dispatch w (users w actor) r) (dispatch w (Some (users w actor)) s)
  | DispatchDue =>
      if is_status [Scheduled] r && match scheduled_at (content r) with Some t => t <=? now w | None => false end
      then dispatch w None s else Accepted s
  | Cancel actor => gate (may_cancel (users w actor) r) (cancel w s)
  | Retry actor =>
      gate (may_retry (users w actor) r)
        (res <-- retry w (users w actor) s;
         Accepted match res with
                  | inl s' => s'
                  | inr new => {| request := r; candidates := candidates new; executions := executions s;
                                  jobs := jobs s; next_row := next_row new |}
                  end)
  | Resolve actor replacement =>
      gate (may_resolve (users w actor) r) (resolveFailure w replacement s)
  | JobStep i outcome => Accepted (with_job i (fun j js => job_step w outcome j js s) s)
  | JobKilled i error => Accepted (with_job i (fun _ js => job_failed w error js s) s)
  end.
End workflow.

(** ** Reading what a handler must have passed *)

Lemma gate_Accepted {A} b (m : checked A) a : gate b m = Accepted a -> b = true /\ m = Accepted a.
Proof. by destruct b. Qed.

Lemma bind_Accepted {A B} (m : checked A) (f : A -> checked B) b :
  checked_bind m f = Accepted b -> exists a, m = Accepted a /\ f a = Accepted b.
Proof. destruct m; [eauto|done]. Qed.
