(* ===== verification/WorkflowSafety.v ===== *)
(** * What the life of a deployment batch guarantees

    Over every history of a batch -- any interleaving of the actions of users, the scheduler and the
    queue, in workspaces that change in between -- what is run has been approved and checked as it is. *)

From Stdlib Require Import String.
From S2P Require Import Prelude JsString CrucibleLib SqlPolicy QueryGuard DeploymentPolicy Permissions DeploymentPreflight Workflow.

Open Scope string_scope.
Open Scope Z_scope.
Open Scope list_scope.

Section safety.
Context (hash : string -> string).

(** ** Histories *)

Record Event := { in_world : World; op : Op; before : State; after : State }.

(** [reachable t tr s]: after the events [tr], the latest first and the last of them at the time [t], a
    request is in the state [s]. *)
Inductive reachable : Z -> list Event -> State -> Prop :=
  | is_created w user data table next s :
      create hash w (users w user) data table next = Accepted s -> reachable (now w) [] s
  | is_drafted w user data table next s :
      createDraft hash w (users w user) data table next = Accepted s -> reachable (now w) [] s
  | is_retried w from source s : createRetryRequest hash w from source = Accepted s -> reachable (now w) [] s
  | goes_on t tr s w o s' :
      reachable t tr s -> t <= now w -> perform hash w o s = Accepted s' ->
      reachable (now w) ({| in_world := w; op := o; before := s; after := s' |} :: tr) s'.

(** Somebody else than the requester has decided on this content: a reviewer of all its connections has
    approved it, the preflight of that moment passing, or an administrator has written it. *)
Definition decided (tr : list Event) (c : Content) (requester u : Z) : Prop :=
  exists e, e ∈ tr /\ content (request (after e)) = c /\
    ((exists expected, op e = Review u true expected /\
        content (request (before e)) = c /\ requester <> u /\
        reviews_all (in_world e) (users (in_world e) u) (request (before e)) = true) \/
     (exists data, op e = Update u data /\ isAdmin (users (in_world e) u) = true)).

(** The requester of the batch and its approver, under a policy that asks for approval, *)
Definition approved_for (tr : list Event) (w : World) (r : Request) : Prop :=
  requestRequiresApproval w r = true ->
  exists u, u <> requester_id r /\ decided tr (content r) (requester_id r) u.

(** and what a preflight has found. *)
Definition preflighted (tr : list Event) (c : Content) (requester : Z) : Prop :=
  exists e, e ∈ tr /\ content (request (before e)) = c /\ requester_id (request (before e)) = requester /\
    let w := in_world e in
    let b := batch_of w (request (before e)) in
    Forall (fun st => may_run hash (connection_groups w) (policy_settings w) (policy_rules w)
                        (DeploymentPreflight.requester b) st (target b st) = true) (statements_of b).

(** A job was granted its claim on this request, and these are statements of the claim. *)
Definition claimed (tr : list Event) (r : Request) (todo : list (Row * option DatabaseConnection)) : Prop :=
  exists e resume, e ∈ tr /\
    let w := in_world e in
    user_disabled (users w (requester_id r)) = false /\ approved_for tr w r /\
    preflighted tr (content r) (requester_id r) /\ todo ⊆ job_statements w resume r.

(** ** The parts of a step *)

Lemma is_status_true l r : is_status l r = true <-> status (life r) ∈ l.
Proof.
  unfold is_status. rewrite existsb_exists_elem. setoid_rewrite bool_decide_eq_true. naive_solver.
Qed.

Lemma is_status_false l r : is_status l r = false <-> status (life r) ∉ l.
Proof. by rewrite <- not_true_iff_false, is_status_true. Qed.

(** A preflight changes nothing but its own report and the candidates. *)
Definition same_batch (s s' : State) : Prop :=
  requester_id (request s') = requester_id (request s) /\ content (request s') = content (request s) /\
  life (request s') = life (request s) /\ jobs s' = jobs s.

Lemma refresh_same w s report s' :
  refresh hash w s = Accepted (report, s') -> same_batch s s'.
Proof. unfold refresh. destruct (evaluate _ _ _ _ _ _) as [e|]; [|done]. intros [= _ <-]. done. Qed.

Lemma refresh_passes w s report s' :
  refresh hash w s = Accepted (report, s') -> is_blocked report = false ->
  let b := batch_of w (request s) in
  Forall (fun st => may_run hash (connection_groups w) (policy_settings w) (policy_rules w)
                      (DeploymentPreflight.requester b) st (target b st) = true) (statements_of b).
Proof.
  unfold refresh. destruct (evaluate _ _ _ _ _ _) as [[rep tab]|] eqn:E; [|done]. intros [= <- _] Hb.
  apply evaluate_passes in E. apply E. by apply bool_decide_eq_false in Hb.
Qed.

(** ** The invariant *)

(** While a job waits or works, nobody can change the request. *)
Definition locked (r : Request) : Prop :=
  status (life r) = Cancelled \/
  status (life r) ∈ [Approved; Running] /\ is_some (dispatched_at (life r)) = true.

Definition job_ok (tr : list Event) (r : Request) (j : Job) : Prop :=
  match j with
  | Queued _ | Held => True
  | Cleared _ => preflighted tr (content r) (requester_id r)
  | Executing todo => claimed tr r todo
  end.

Definition jobs_ok (tr : list Event) (s : State) : Prop :=
  jobs s = [] \/ exists j, jobs s = [j] /\ locked (request s) /\ job_ok tr (request s) j.

Definition approval_ok (tr : list Event) (r : Request) : Prop :=
  forall u, approved_by_id (life r) = Some u -> u <> requester_id r -> decided tr (content r) (requester_id r) u.

(** What may be executed is not before its time. *)
Definition time_ok (t : Z) (r : Request) : Prop :=
  status (life r) ∈ [Approved; Running; Failed] ->
  forall x, scheduled_at (content r) = Some x -> x <= t.

Record Inv (t : Z) (tr : list Event) (s : State) : Prop := {
  inv_jobs : jobs_ok tr s;
  inv_approval : approval_ok tr (request s);
  inv_time : time_ok t (request s) }.

Lemma decided_mono tr tr' c a u : tr ⊆ tr' -> decided tr c a u -> decided tr' c a u.
Proof. intros Hs (e & He & H). exists e. split; [by apply Hs|done]. Qed.

Lemma preflighted_mono tr tr' c a : tr ⊆ tr' -> preflighted tr c a -> preflighted tr' c a.
Proof. intros Hs (e & He & H). exists e. split; [by apply Hs|done]. Qed.

Lemma job_ok_mono tr tr' r r' j :
  tr ⊆ tr' -> content r' = content r -> requester_id r' = requester_id r -> job_ok tr r j -> job_ok tr' r' j.
Proof.
  intros Hs Hc Hr. destruct j as [| |resume|todo]; cbn [job_ok]; try done.
  - rewrite Hc, Hr. by apply preflighted_mono.
  - intros (e & resume & He & Hd & Ha & Hp & Ht). exists e, resume. cbv zeta in *.
    rewrite Hr, Hc. split_and!; [by apply Hs|done| |by eapply preflighted_mono|].
    + unfold approved_for in *. unfold requestRequiresApproval, databaseConnectionsFor, statementsFor, row_target in *.
      rewrite Hr, Hc. intros H. destruct (Ha H) as (u & Hu & Hdec). exists u.
      split; [done|]. by eapply decided_mono.
    + unfold job_statements, row_target in *. by rewrite Hc.
Qed.

Lemma jobs_ok_mono tr tr' s s' :
  tr ⊆ tr' -> content (request s') = content (request s) -> requester_id (request s') = requester_id (request s) ->
  jobs s' = jobs s -> (locked (request s) -> locked (request s')) -> jobs_ok tr s -> jobs_ok tr' s'.
Proof.
  intros Hs Hc Hr Hj Hl [H|(j & H & Hlock & Hok)]; [left; congruence|right].
  exists j. split_and!; [congruence|auto|]. by eapply job_ok_mono.
Qed.

Lemma approval_ok_mono tr tr' r r' :
  tr ⊆ tr' -> content r' = content r -> requester_id r' = requester_id r ->
  approved_by_id (life r') = approved_by_id (life r) -> approval_ok tr r -> approval_ok tr' r'.
Proof.
  intros Hs Hc Hr Ha H u Hu Hne. rewrite Hc, Hr. eapply decided_mono; [done|]. apply H; congruence.
Qed.

Lemma approval_ok_none tr r : approved_by_id (life r) = None -> approval_ok tr r.
Proof. intros H u Hu. congruence. Qed.

Lemma time_ok_mono t t' r r' :
  t <= t' -> content r' = content r ->
  (status (life r') ∈ [Approved; Running; Failed] -> status (life r) ∈ [Approved; Running; Failed]) ->
  time_ok t r -> time_ok t' r'.
Proof. intros Ht Hc Hs H Hst x Hx. rewrite Hc in Hx. specialize (H (Hs Hst) x Hx). lia. Qed.

Lemma inv_same t t' tr tr' s s' :
  t <= t' -> tr ⊆ tr' -> same_batch s s' -> Inv t tr s -> Inv t' tr' s'.
Proof.
  intros Ht Hs (Hr & Hc & Hl & Hj) [H1 H2 H3]. split.
  - eapply jobs_ok_mono; [done..| |done]. unfold locked. by rewrite Hl.
  - eapply approval_ok_mono; [done..| |done]. by rewrite Hl.
  - eapply time_ok_mono; [done..| |done]. by rewrite Hl.
Qed.

Lemma unlocked tr s : jobs_ok tr s -> ~ locked (request s) -> jobs s = [].
Proof. intros [H|(j & _ & H & _)]; [done|tauto]. Qed.

Lemma locked_not_editable r : locked r -> isEditable r = false.
Proof.
  unfold isEditable. intros [H|[_ ->]]; [|done]. apply andb_false_iff. right. apply is_status_false.
  rewrite H. by repeat (apply not_elem_of_cons; split; [done|]); apply not_elem_of_nil.
Qed.

Lemma locked_status r st : locked r -> status (life r) = st -> st ∈ [Cancelled; Approved; Running].
Proof. intros [->|[H _]] <-; [left|right; done]. Qed.

Lemma runs_status r : runs r = true <-> status (life r) ∈ [Approved; Running].
Proof. apply is_status_true. Qed.

Lemma active_time r : status (life r) ∈ [Approved; Running] -> status (life r) ∈ [Approved; Running; Failed].
Proof. rewrite !elem_of_cons. tauto. Qed.

Lemma editable_unlocked r : isEditable r = true -> ~ locked r.
Proof. intros H Hl. apply locked_not_editable in Hl. congruence. Qed.

Lemma status_unlocked l r :
  is_status l r = true -> forallb (fun st => bool_decide (st ∉ [Cancelled; Approved; Running])) l = true -> ~ locked r.
Proof.
  intros Hs Hf Hl. apply is_status_true in Hs. rewrite forallb_forall_elem in Hf.
  specialize (Hf _ Hs). apply bool_decide_eq_true in Hf. by apply Hf, (locked_status r).
Qed.

Lemma not_future w time x : isFuture w time = false -> time = Some x -> x <= now w.
Proof. intros H ->. unfold isFuture in H. apply Z.ltb_ge in H. done. Qed.

(** *** Steps that end with no job *)

Section step.
Context (t : Z) (tr : list Event) (s : State) (w : World).
Context (Ht : t <= now w) (HI : Inv t tr s).

(** The history with one more event. *)
Definition then_ (o : Op) (s' : State) : list Event :=
  {| in_world := w; op := o; before := s; after := s' |} :: tr.

Lemma trace_grows o s' : tr ⊆ then_ o s'.
Proof. intros x Hx. by right. Qed.

(** A submission: by the requester, or by an administrator. *)
Lemma inv_submitted o s' c requires (actor : Z) time rev :
  jobs s' = [] -> requester_id (request s') = requester_id (request s) ->
  content (request s') = c -> scheduled_at c = time ->
  life (request s') = submitted_life w actor requires time rev ->
  (actor <> requester_id (request s) -> exists data, o = Update actor data /\ isAdmin (users w actor) = true) ->
  Inv (now w) (then_ o s') s'.
Proof.
  intros Hj Hr Hc Htime Hl Hadmin. split; [by left| |].
  - intros u Hu Hne. rewrite Hl in Hu. cbn in Hu. destruct requires; [done|]. injection Hu as <-.
    rewrite Hr in Hne. destruct (Hadmin Hne) as (data & Ho & Ha). eexists. split; [left|].
    split; [done|]. right. by exists data.
  - intros Hst x Hx. rewrite Hl in Hst. cbn in Hst. unfold submitted_status in Hst. rewrite Hc, Htime in Hx.
    destruct requires; [by repeat (apply elem_of_cons in Hst as [Hst|Hst]; [done|]); apply elem_of_nil in Hst|].
    destruct (isFuture w time) eqn:Hf; [by repeat (apply elem_of_cons in Hst as [Hst|Hst]; [done|]); apply elem_of_nil in Hst|].
    by eapply not_future.
Qed.

(** A batch that waits for nobody's execution and has no approval. *)
Lemma inv_idle o s' :
  jobs s' = [] -> approved_by_id (life (request s')) = None ->
  status (life (request s')) ∉ [Approved; Running; Failed] -> Inv (now w) (then_ o s') s'.
Proof. intros Hj Ha Hst. split; [by left|by apply approval_ok_none|]. intros H. done. Qed.

(** A change of the status alone. *)
Lemma inv_life o s' :
  requester_id (request s') = requester_id (request s) -> content (request s') = content (request s) ->
  jobs_ok (then_ o s') s' ->
  approved_by_id (life (request s')) = None \/
    approved_by_id (life (request s')) = approved_by_id (life (request s)) ->
  (status (life (request s')) ∈ [Approved; Running; Failed] ->
   status (life (request s)) ∈ [Approved; Running; Failed] \/
   isFuture w (scheduled_at (content (request s))) = false) ->
  Inv (now w) (then_ o s') s'.
Proof.
  intros Hr Hc Hj Ha Hst. destruct HI as [_ H2 H3]. split; [done| |].
  - destruct Ha as [Ha|Ha]; [by apply approval_ok_none|].
    eapply approval_ok_mono; [apply trace_grows|done..].
  - intros H x Hx. rewrite Hc in Hx. destruct (Hst H) as [Hold|Hf]; [specialize (H3 Hold x Hx); lia|].
    by eapply not_future.
Qed.

(** *** The actions of users *)

Lemma step_update actor data o s' :
  o = Update actor data -> perform hash w o s = Accepted s' -> Inv (now w) (then_ o s') s'.
Proof.
  intros Ho H. rewrite Ho in H. cbn [perform] in H. apply gate_Accepted in H as [Hg H]. unfold update in H.
  apply bind_Accepted in H as ([sts requires] & _ & H).
  unfold may_update in Hg. apply andb_true_iff in Hg as [Hown He]. rewrite He in H. cbn [negb] in H.
  apply bind_Accepted in H as ([report s1] & Href & H). cbn [fst snd] in H.
  destruct (_ && is_blocked report); [done|]. injection H as ->.
  destruct (refresh_same _ _ _ _ Href) as (Hr & Hc & Hl & Hj). cbn in Hr, Hc, Hl, Hj.
  pose proof (unlocked _ _ (inv_jobs _ _ _ HI) (editable_unlocked _ He)) as Hnil.
  eapply inv_submitted; [congruence|done|exact Hc|reflexivity|exact Hl|].
  intros Hne. exists data. split; [done|]. unfold owns in Hown. apply orb_true_iff in Hown as [Ha|Ha]; [done|].
  apply Z.eqb_eq in Ha. cbn in Ha. congruence.
Qed.

Lemma step_update_draft actor data o s' :
  o = UpdateDraft actor data -> perform hash w o s = Accepted s' -> Inv (now w) (then_ o s') s'.
Proof.
  intros Ho H. rewrite Ho in H. cbn [perform] in H. apply gate_Accepted in H as [_ H]. unfold updateDraft in H.
  apply bind_Accepted in H as (sts & _ & H). apply bind_Accepted in H as (cs & _ & H). cbv zeta in H.
  destruct (is_status [Draft] (request s)) eqn:Hst; [|done]. cbn [negb] in H. unfold save_draft in H.
  apply bind_Accepted in H as ([report s1] & Href & H). apply bind_Accepted in H as (? & _ & H).
  cbn [snd] in H. injection H as ->.
  destruct (refresh_same _ _ _ _ Href) as (Hr & Hc & Hl & Hj). cbn in Hl, Hj.
  pose proof (unlocked _ _ (inv_jobs _ _ _ HI) (status_unlocked _ _ Hst eq_refl)) as Hnil.
  apply inv_idle; [congruence|by rewrite Hl|rewrite Hl; cbn].
  by repeat (apply not_elem_of_cons; split; [done|]); apply not_elem_of_nil.
Qed.

Lemma step_preflight actor o s' :
  o = RunPreflight actor -> perform hash w o s = Accepted s' -> Inv (now w) (then_ o s') s'.
Proof.
  intros Ho H. rewrite Ho in H. cbn [perform] in H. apply gate_Accepted in H as [_ H]. unfold runPreflight in H.
  destruct (negb _); [done|]. apply bind_Accepted in H as ([report s1] & Href & H). cbn in H. injection H as ->.
  eapply inv_same; [done|apply trace_grows|by eapply refresh_same|done].
Qed.

Lemma step_review reviewer approve expected o s' :
  o = Review reviewer approve expected -> perform hash w o s = Accepted s' -> Inv (now w) (then_ o s') s'.
Proof.
  intros Ho H. rewrite Ho in H. cbn [perform] in H. unfold review in H. apply gate_Accepted in H as [Hg H].
  unfold may_review in Hg. apply andb_true_iff in Hg as [Hg Hall]. apply andb_true_iff in Hg as [Hst Hne].
  apply negb_true_iff, Z.eqb_neq in Hne. cbn in Hne. rewrite Hst in H. cbn [negb] in H.
  destruct (revision _ =? expected); [|done]. cbn [negb] in H.
  pose proof (unlocked _ _ (inv_jobs _ _ _ HI) (status_unlocked _ _ Hst eq_refl)) as Hnil.
  destruct approve.
  - apply bind_Accepted in H as ([report s1] & Href & H). cbn [fst snd] in H.
    destruct (is_blocked report); [done|]. injection H as <-.
    destruct (refresh_same _ _ _ _ Href) as (Hr & Hc & Hl & Hj). split.
    + left. cbn. congruence.
    + intros u Hu _. cbn in Hu. injection Hu as <-. eexists. split; [left|]. split; [done|].
      left. exists expected. cbn. rewrite Hc, Hr. done.
    + intros Hs x Hx. cbn in Hs, Hx. rewrite Hc in Hs, Hx.
      destruct (isFuture w (scheduled_at (content (request s)))) eqn:Hf; [|by eapply not_future].
      by repeat (apply elem_of_cons in Hs as [Hs|Hs]; [done|]); apply elem_of_nil in Hs.
  - injection H as <-. apply inv_life; [done..|by left|by right|]. cbn. intros Hs.
    by repeat (apply elem_of_cons in Hs as [Hs|Hs]; [done|]); apply elem_of_nil in Hs.
Qed.

Lemma step_withdraw actor o s' :
  o = Withdraw actor -> perform hash w o s = Accepted s' -> Inv (now w) (then_ o s') s'.
Proof.
  intros Ho H. rewrite Ho in H. cbn [perform] in H. unfold withdrawFromReview in H. apply gate_Accepted in H as [_ H].
  destruct (is_status [PendingReview] (request s)) eqn:Hst; [|done]. cbn [negb orb] in H.
  destruct (is_some _); [done|]. injection H as <-.
  pose proof (unlocked _ _ (inv_jobs _ _ _ HI) (status_unlocked _ _ Hst eq_refl)) as Hnil.
  apply inv_idle; [done..|]. cbn. by repeat (apply not_elem_of_cons; split; [done|]); apply not_elem_of_nil.
Qed.

Lemma step_cancel actor o s' :
  o = Cancel actor -> perform hash w o s = Accepted s' -> Inv (now w) (then_ o s') s'.
Proof.
  intros Ho H. rewrite Ho in H. cbn [perform] in H. apply gate_Accepted in H as [_ H]. unfold cancel in H.
  destruct (negb _); [done|]. injection H as <-. apply inv_life; [done..| |by right|].
  - apply (jobs_ok_mono tr _ s); [apply trace_grows|done..|by left|apply (inv_jobs _ _ _ HI)].
  - cbn. intros Hs. by repeat (apply elem_of_cons in Hs as [Hs|Hs]; [done|]); apply elem_of_nil in Hs.
Qed.

Lemma step_resolve actor replacement o s' :
  o = Resolve actor replacement -> perform hash w o s = Accepted s' -> Inv (now w) (then_ o s') s'.
Proof.
  intros Ho H. rewrite Ho in H. cbn [perform] in H. apply gate_Accepted in H as [_ H]. unfold resolveFailure in H.
  repeat (match type of H with (if ?b then _ else _) = _ => destruct b; [done|] end). injection H as <-.
  by apply (inv_same t _ tr _ s); [|apply trace_grows| |].
Qed.

(** *** Dispatch and retry *)

(** A batch that waits for nothing: what a dispatch has to find. *)
Lemma dispatchable_idle :
  is_some (dispatched_at (life (request s))) = false -> is_status [Approved; Scheduled] (request s) = true ->
  jobs s = [].
Proof.
  intros Hd Hst. eapply unlocked; [apply (inv_jobs _ _ _ HI)|]. intros [Hl|[_ Hl]]; [|congruence].
  apply is_status_true in Hst. rewrite Hl in Hst.
  by repeat (apply elem_of_cons in Hst as [Hst|Hst]; [done|]); apply elem_of_nil in Hst.
Qed.

Lemma step_dispatch actor o s' :
  dispatch hash w actor s = Accepted s' -> Inv (now w) (then_ o s') s'.
Proof.
  unfold dispatch. destruct (is_status [Scheduled] (request s) && isFuture w _) eqn:Hf; [done|].
  destruct (is_some (dispatched_at (life (request s)))) eqn:Hd; cbn [orb].
  { intros [= <-]. by apply (inv_same t _ tr _ s); [|apply trace_grows| |]. }
  destruct (is_status [Approved; Scheduled] (request s)) eqn:Hst; cbn [negb].
  2: { intros [= <-]. by apply (inv_same t _ tr _ s); [|apply trace_grows| |]. }
  intros H. apply bind_Accepted in H as ([report s1] & Href & H). cbn [fst snd] in H. injection H as <-.
  destruct (refresh_same _ _ _ _ Href) as (Hr & Hc & Hl & Hj).
  pose proof (dispatchable_idle Hd Hst) as Hnil.
  assert (Hold : status (life (request s)) ∈ [Approved; Running; Failed] \/
                 isFuture w (scheduled_at (content (request s))) = false).
  { apply is_status_true in Hst. apply elem_of_cons in Hst as [Hst|Hst]; [left; rewrite Hst; left|right].
    apply list_elem_of_singleton in Hst.
    rewrite (proj2 (is_status_true [Scheduled] (request s))) in Hf by (rewrite Hst; left). done. }
  destruct (is_blocked report); [|destruct (requestRequiresFreshApproval w (request s1))].
  - apply inv_life; cbn; rewrite ?Hr, ?Hc, ?Hl; [done..| |by right|done]. left. cbn. congruence.
  - apply inv_life; cbn; rewrite ?Hr, ?Hc, ?Hl; [done..| |by left|].
    + left. cbn. congruence.
    + intros Hs. by repeat (apply elem_of_cons in Hs as [Hs|Hs]; [done|]); apply elem_of_nil in Hs.
  - apply inv_life; cbn; rewrite ?Hr, ?Hc, ?Hl; [done..| |by right|done].
    right. eexists. cbn. rewrite Hj, Hnil. split; [done|]. split; [|done]. right. split; [left|done].
Qed.

Lemma step_retry actor o s' :
  o = Retry actor -> perform hash w o s = Accepted s' -> Inv (now w) (then_ o s') s'.
Proof.
  intros Ho H. rewrite Ho in H. cbn [perform] in H. apply gate_Accepted in H as [_ H].
  apply bind_Accepted in H as (res & Hres & H). injection H as <-. unfold retry in Hres.
  destruct (is_status [Failed] (request s)) eqn:Hst; [|done]. cbn [negb] in Hres.
  pose proof (unlocked _ _ (inv_jobs _ _ _ HI) (status_unlocked _ _ Hst eq_refl)) as Hnil.
  destruct (_ && negb _).
  - injection Hres as <-. apply inv_life; [done..| |by right|].
    + right. eexists. cbn. rewrite Hnil. split; [done|]. split; [|done]. right. split; [left|done].
    + intros _. left. apply is_status_true in Hst. apply list_elem_of_singleton in Hst. rewrite Hst. right. right. left.
  - apply bind_Accepted in Hres as (new & _ & Hres). injection Hres as <-.
    by apply (inv_same t _ tr _ s); [|apply trace_grows| |].
Qed.

(** *** The queue *)

(** The request while its job goes on. *)
Lemma job_alone i j :
  jobs s !! i = Some j -> delete i (jobs s) = [] /\ locked (request s) /\ job_ok tr (request s) j.
Proof.
  intros Hi. destruct (inv_jobs _ _ _ HI) as [Hn|(j' & Hj & Hl & Hok)]; rewrite ?Hn, ?Hj in *; [done|].
  destruct i as [|i]; [|done]. by injection Hi as ->.
Qed.

(** A job that is over leaves the request as it is, or with a new status. *)
Lemma inv_job_over o s' :
  requester_id (request s') = requester_id (request s) -> content (request s') = content (request s) ->
  jobs s' = [] ->
  approved_by_id (life (request s')) = None \/
    approved_by_id (life (request s')) = approved_by_id (life (request s)) ->
  (status (life (request s')) ∈ [Approved; Running; Failed] -> status (life (request s)) ∈ [Approved; Running; Failed]) ->
  Inv (now w) (then_ o s') s'.
Proof. intros Hr Hc Hj Ha Hs. apply inv_life; [done..|by left|done|]. intros H. left. auto. Qed.

Lemma step_job_failed error js o :
  js = [] -> locked (request s) -> Inv (now w) (then_ o (job_failed w error js s)) (job_failed w error js s).
Proof.
  intros -> Hl. unfold job_failed. destruct (isTerminal (request s)) eqn:Hterm; apply inv_job_over; try done; [by right..|].
  intros _. destruct Hl as [Hl|[Hl _]]; [|by apply active_time].
  exfalso. apply is_status_false in Hterm. apply Hterm. rewrite Hl. set_solver.
Qed.

(** The job goes on. *)
Lemma inv_job_on o s' j :
  requester_id (request s') = requester_id (request s) -> content (request s') = content (request s) ->
  jobs s' = [j] -> locked (request s') -> job_ok (then_ o s') (request s') j ->
  approved_by_id (life (request s')) = approved_by_id (life (request s)) ->
  (status (life (request s')) ∈ [Approved; Running; Failed] -> status (life (request s)) ∈ [Approved; Running; Failed]) ->
  Inv (now w) (then_ o s') s'.
Proof.
  intros Hr Hc Hj Hl Hok Ha Hs. apply inv_life; [done..| |by right|].
  - right. by exists j.
  - intros H. left. auto.
Qed.

Lemma step_job_preflight resume o s' :
  locked (request s) -> job_preflight hash w resume [] s = s' -> Inv (now w) (then_ o s') s'.
Proof.
  intros Hl <-. unfold job_preflight. destruct (runs (request s)); cbn [negb].
  2: { apply inv_job_over; try done. by right. }
  destruct (refresh hash w s) as [[report s1]|error] eqn:Href; [|by apply step_job_failed].
  destruct (refresh_same _ _ _ _ Href) as (Hr & Hc & Hlf & Hj).
  eapply inv_job_on; cbn; rewrite ?Hr, ?Hc, ?Hlf; [done..| | |done|done].
  - unfold locked. cbn. by rewrite Hlf.
  - destruct (is_blocked report) eqn:Hb; [done|]. cbn [job_ok]. cbn. rewrite Hc, Hr. eexists. split; [left|]. cbn.
    split_and!; [done|done|]. by apply (refresh_passes _ _ _ _ Href).
Qed.

Lemma step_job_hold o s' :
  locked (request s) -> job_hold [] s = s' -> Inv (now w) (then_ o s') s'.
Proof.
  intros Hl <-. unfold job_hold. destruct (runs (request s)) eqn:Hr; apply inv_job_over; try done; try by right.
  intros _. by apply active_time, runs_status.
Qed.

Lemma step_job_claim resume o s' :
  locked (request s) -> preflighted tr (content (request s)) (requester_id (request s)) ->
  job_claim w resume [] s = s' -> Inv (now w) (then_ o s') s'.
Proof.
  intros Hl Hp <-. unfold job_claim. destruct (runs (request s)) eqn:Hr; cbn [negb].
  2: { apply inv_job_over; try done. by right. }
  apply runs_status in Hr. assert (Ha := active_time _ Hr).
  destruct (user_disabled _) eqn:Hd; [apply inv_job_over; try done; by right|].
  destruct (requestRequiresFreshApproval w (request s)) eqn:Hf.
  { apply inv_job_over; try done. by left. }
  match goal with |- Inv _ (then_ _ ?x) _ => set (s' := x) end.
  eapply inv_job_on; [done..| | |done|done].
  - right. destruct Hl as [Hl|[_ Hl]]; [|by split; [right; left|]].
    exfalso. rewrite Hl in Hr. by repeat (apply elem_of_cons in Hr as [Hr|Hr]; [done|]); apply elem_of_nil in Hr.
  - apply (job_ok_mono (then_ o s') _ (request s)); [done..|]. eexists _, resume. split; [left|]. cbn.
    split_and!; [done| |by eapply preflighted_mono; [apply trace_grows|]|done].
    intros Hreq. unfold requestRequiresFreshApproval in Hf. rewrite Hreq in Hf. cbn [andb] in Hf.
    apply orb_false_iff in Hf as [Hf Hne]. apply orb_false_iff in Hf as [_ Hby].
    destruct (approved_by_id (life (request s))) as [u|] eqn:Hu; [|done].
    apply bool_decide_eq_false in Hne. exists u. assert (Hne' : u <> requester_id (request s)) by congruence.
    split; [done|]. eapply decided_mono; [apply trace_grows|]. by apply (inv_approval _ _ _ HI).
Qed.

Lemma step_job_run outcome row rest o s' :
  locked (request s) -> claimed tr (request s) (row :: rest) ->
  job_run w outcome row rest [] s = s' -> Inv (now w) (then_ o s') s'.
Proof.
  intros Hl Hclaim <-. unfold job_run. destruct (is_status [Cancelled] (request s)) eqn:Hcan.
  { apply inv_job_over; try done. by right. }
  assert (Ha : status (life (request s)) ∈ [Approved; Running]).
  { destruct Hl as [Hl|[Hl _]]; [|done]. apply is_status_false in Hcan. rewrite Hl in Hcan. set_solver. }
  destruct (snd row) as [c|]; [|by apply step_job_failed]. destruct outcome as [error|].
  - cbv zeta. change (request (add_execution ?x s)) with (request s). rewrite Hcan. apply inv_job_over; try done; [by right|]. intros _. by apply active_time.
  - eapply inv_job_on; try done. apply (job_ok_mono tr _ (request s)); [apply trace_grows|done..|].
    destruct Hclaim as (e & resume & He & Hd & Hap & Hp & Hsub). exists e, resume. cbv zeta.
    split_and!; [done..|]. intros x Hx. apply Hsub. by right.
Qed.

Lemma step_job_finish o s' : locked (request s) -> job_finish w [] s = s' -> Inv (now w) (then_ o s') s'.
Proof.
  intros Hl <-. unfold job_finish. destruct (is_status [Cancelled] (request s)); apply inv_job_over; try done; try by right.
  cbn. intros Hs. by repeat (apply elem_of_cons in Hs as [Hs|Hs]; [done|]); apply elem_of_nil in Hs.
Qed.

Lemma step_queue i f o s' :
  (forall j, locked (request s) -> job_ok tr (request s) j -> Inv (now w) (then_ o (f j [])) (f j [])) ->
  with_job i f s = s' -> Inv (now w) (then_ o s') s'.
Proof.
  intros Hf <-. unfold with_job. destruct (jobs s !! i) as [j|] eqn:Hi.
  - destruct (job_alone _ _ Hi) as (-> & Hl & Hok). by apply Hf.
  - by apply (inv_same t _ tr _ s); [|apply trace_grows| |].
Qed.

(** Every step keeps the invariant. *)
Lemma step_inv o s' : perform hash w o s = Accepted s' -> Inv (now w) (then_ o s') s'.
Proof.
  destruct o eqn:Ho; intros H; rewrite <- Ho in *.
  - by eapply step_update.
  - by eapply step_update_draft.
  - by eapply step_preflight.
  - by eapply step_review.
  - by eapply step_withdraw.
  - rewrite Ho in H. cbn [perform] in H. apply gate_Accepted in H as [_ H]. by eapply step_dispatch.
  - rewrite Ho in H. cbn [perform] in H. destruct (_ && _); [by eapply step_dispatch|]. injection H as <-.
    by apply (inv_same t _ tr _ s); [|apply trace_grows| |].
  - by eapply step_cancel.
  - by eapply step_retry.
  - by eapply step_resolve.
  - rewrite Ho in H. cbn [perform] in H. injection H as H. eapply step_queue; [|exact H]. cbv beta.
    intros j Hl Hok. destruct j as [resume| |resume|[|row rest]]; cbn [job_step existsb].
    + by eapply step_job_preflight.
    + by eapply step_job_hold.
    + by eapply step_job_claim.
    + by eapply step_job_finish.
    + by eapply step_job_run.
  - rewrite Ho in H. cbn [perform] in H. injection H as H. eapply step_queue; [|exact H]. cbv beta.
    intros j Hl _. by apply step_job_failed.
Qed.
End step.

(** ** Every history *)

Lemma inv_new t table next user c l s w :
  (exists report, refresh hash w (new_state table next user c l) = Accepted (report, s)) ->
  (forall u, approved_by_id l = Some u -> u = user) ->
  (status l ∈ [Approved; Running; Failed] -> forall x, scheduled_at c = Some x -> x <= t) ->
  Inv t [] s.
Proof.
  intros [report Href] Ha Ht. destruct (refresh_same _ _ _ _ Href) as (Hr & Hc & Hl & Hj). split.
  - left. by rewrite Hj.
  - intros u Hu Hne. rewrite Hl in Hu. rewrite Hr in Hne. cbn in Hu, Hne. by apply Ha in Hu.
  - unfold time_ok. rewrite Hl, Hc. cbn. done.
Qed.

Lemma submitted_new w user requires time rev :
  (forall u, approved_by_id (submitted_life w user requires time rev) = Some u -> u = user) /\
  (status (submitted_life w user requires time rev) ∈ [Approved; Running; Failed] ->
   forall x, time = Some x -> x <= now w).
Proof.
  cbn. split; [destruct requires; congruence|]. unfold submitted_status. intros Hs x Hx.
  destruct (isFuture w time) eqn:Hf; [|by eapply not_future].
  destruct requires; by repeat (apply elem_of_cons in Hs as [Hs|Hs]; [done|]); apply elem_of_nil in Hs.
Qed.

Lemma reachable_inv t tr s : reachable t tr s -> Inv t tr s.
Proof.
  induction 1 as [w user data table next s H|w user data table next s H|w from source s H|t tr s w o s' _ IH Ht H].
  - unfold create in H. apply bind_Accepted in H as ([sts requires] & _ & H).
    apply bind_Accepted in H as ([report s1] & Href & H). cbn in H. injection H as ->.
    destruct (submitted_new w user requires (data_scheduled_at data) 1) as [H1 H2].
    eapply inv_new; [by exists report|exact H1|exact H2].
  - unfold createDraft in H. apply bind_Accepted in H as (sts & _ & H). apply bind_Accepted in H as (cs & _ & H).
    cbv zeta in H. unfold save_draft in H. apply bind_Accepted in H as ([report s1] & Href & H).
    apply bind_Accepted in H as (? & _ & H). cbn in H. injection H as ->.
    eapply inv_new; [by exists report|done|]. cbn. intros Hs.
    by repeat (apply elem_of_cons in Hs as [Hs|Hs]; [done|]); apply elem_of_nil in Hs.
  - unfold createRetryRequest in H. cbv zeta in H. case_match; [|done]. case_match; [done|].
    apply bind_Accepted in H as (? & _ & H). apply bind_Accepted in H as ([report s1] & Href & H).
    cbn in H. injection H as ->.
    eapply inv_new; [by exists report|apply submitted_new|done].
  - by eapply step_inv.
Qed.

(** C1. Nothing is run that has not been approved and checked.  In every history of a batch -- users,
    the scheduler and the queue acting in any order while policies, permissions and connections change --
    the statements a job is about to send to the databases are statements of the batch as it is, and at
    its claim (i) the requester was enabled, (ii) if the requester's policy then asked for an approval,
    somebody else had decided on exactly this content, as a reviewer of all its connections or as an
    administrator who wrote it, and (iii) a preflight had found that every statement of exactly this
    content may be run. *)
Theorem what_runs_is_approved t tr s todo :
  reachable t tr s -> Executing todo ∈ jobs s -> claimed tr (request s) todo.
Proof.
  intros H Hin. apply reachable_inv in H as [Hjobs _ _].
  destruct Hjobs as [Hn|(j & Hj & _ & Hok)]; rewrite ?Hn, ?Hj in Hin; [by apply elem_of_nil in Hin|].
  by apply list_elem_of_singleton in Hin as <-.
Qed.

(** What no action but an edit can change. *)
Lemma perform_content w o s s' :
  perform hash w o s = Accepted s' -> isEditable (request s) = false ->
  content (request s') = content (request s).
Proof.
  intros H Hed. destruct o; cbn [perform] in H; unfold gate in H; try (case_match; [|done]).
  - unfold may_update in *. bool_hyps. congruence.
  - unfold may_update in *. bool_hyps. congruence.
  - unfold runPreflight in H. by rewrite Hed in H.
  - unfold review, gate in H. destruct (may_review _ _ _) eqn:Hr; [|done].
    repeat (match type of H with (if ?b then _ else _) = _ => destruct b; try done end).
    + apply bind_Accepted in H as ([report s1] & Href & H). cbn [fst snd] in H.
      destruct (is_blocked report); [done|]. injection H as <-. cbn. by apply refresh_same in Href as (_ & -> & _).
    + by injection H as <-.
  - unfold withdrawFromReview, gate in H. destruct (may_withdraw _ _); [|done].
    destruct (_ || _); [done|]. by injection H as <-.
  - unfold dispatch in H. destruct (_ && _); [done|]. destruct (_ || _); [by injection H as <-|].
    apply bind_Accepted in H as ([report s1] & Href & H). cbn [fst snd] in H. injection H as <-.
    apply refresh_same in Href as (_ & Hc & _). by repeat case_match.
  - destruct (_ && _); [|by injection H as <-].
    unfold dispatch in H. destruct (_ && _); [done|]. destruct (_ || _); [by injection H as <-|].
    apply bind_Accepted in H as ([report s1] & Href & H). cbn [fst snd] in H. injection H as <-.
    apply refresh_same in Href as (_ & Hc & _). by repeat case_match.
  - unfold cancel in H. destruct (negb _); [done|]. by injection H as <-.
  - apply bind_Accepted in H as (res & Hres & H). injection H as <-. unfold retry in Hres.
    destruct (negb _); [done|]. destruct (_ && negb _); [by injection Hres as <-|].
    apply bind_Accepted in Hres as (new & _ & Hres). by injection Hres as <-.
  - unfold resolveFailure in H.
    repeat (match type of H with (if ?b then _ else _) = _ => destruct b; [done|] end). by injection H as <-.
  - injection H as <-. unfold with_job. case_match; [|done]. unfold job_step.
    repeat case_match; try done.
    + unfold job_preflight. destruct (negb _); [done|]. destruct (refresh hash w s) as [[report s1]|] eqn:Href.
      * by apply refresh_same in Href as (_ & Hc & _).
      * unfold job_failed. by case_match.
    + unfold job_hold. by case_match.
    + unfold job_claim. by repeat case_match.
    + unfold job_finish. by case_match.
    + unfold job_run, job_failed. by repeat case_match.
  - injection H as <-. unfold with_job, job_failed. by repeat case_match.
Qed.
End safety.

Section locked.
Context (hash : string -> string).

(** C9. A dispatched batch is fixed until its job is over: there is one job at most; while there is one,
    and nobody has cancelled the batch, it is approved or running, marked as dispatched, and its time
    has come; and nothing that anybody can do -- no edit, review, withdrawal, second dispatch or retry --
    changes what is to be run. *)
Theorem dispatched_batch_is_fixed t tr s j :
  reachable hash t tr s -> j ∈ jobs s ->
  jobs s = [j] /\
  (status (life (request s)) = Cancelled \/
   status (life (request s)) ∈ [Approved; Running] /\ is_some (dispatched_at (life (request s))) = true /\
   forall x, scheduled_at (content (request s)) = Some x -> x <= t) /\
  forall w o s', perform hash w o s = Accepted s' -> content (request s') = content (request s).
Proof.
  intros H Hin. apply reachable_inv in H as [Hjobs _ Htime].
  destruct Hjobs as [Hn|(j' & Hj & Hl & _)]; rewrite ?Hn, ?Hj in Hin; [by apply elem_of_nil in Hin|].
  apply list_elem_of_singleton in Hin as <-. split_and!; [done| |].
  - destruct Hl as [Hl|[Hst Hd]]; [by left|right]. split_and!; [done..|]. by apply Htime, active_time.
  - intros w o s' Hp. eapply perform_content; [done|]. by apply locked_not_editable.
Qed.
End locked.

(** ** A history *)

(** The requester 5 needs an approval for everything, and 6 may review. *)
Definition sample_world (time : Z) : World := {|
  now := time;
  accounts := fun id => if id =? 5 then user_of [operator]
                        else if id =? 6 then user_of [{| is_admin := false;
                               databasePermissions := [(1, policy AccessRead true true)];
                               connectionGroupPolicies := [] |}]
                        else user_of [];
  connections := fun id => if id =? 1 then Some main_database else None;
  connection_groups := []; policy_settings := read_only_policy; policy_rules := [] |}.

Definition sample_data : Data := {|
  data_statements := [("select a from t limit 1;", 1); ("select 2", 1)];
  data_scheduled_at := None; requestPolicyReview := false |}.

Fixpoint perform_all (w : World) (os : list Op) (s : State) : checked State :=
  match os with
  | [] => Accepted s
  | o :: os' => checked_bind (perform id w o s) (perform_all w os')
  end.

Definition sample_start : checked State :=
  create id (sample_world 10) (users (sample_world 10) 5) sample_data [] 1.

Definition sample_status (os : list Op) : checked (QueryRequestStatus * list Execution) :=
  checked_bind (checked_bind sample_start (perform_all (sample_world 20) os))
    (fun s => Accepted (status (life (request s)), executions s)).

Definition dispatched_ops : list Op :=
  [Review 6 true 1; DispatchBy 5; JobStep 0 None; JobStep 0 None].

Example sample_completes :
  sample_status (dispatched_ops ++ [JobStep 0 None; JobStep 0 None; JobStep 0 None]) =
  Accepted (Completed, [{| execution_position := 2; succeeded := true |}; {| execution_position := 1; succeeded := true |}]).
Proof. vm_compute. reflexivity. Qed.

(** A failed read is retried from where it failed. *)
Example sample_retry :
  sample_status (dispatched_ops ++ [JobStep 0 None; JobStep 0 (Some "gone away"); Retry 5;
    JobStep 0 None; JobStep 0 None; JobStep 0 None; JobStep 0 None]) =
  Accepted (Completed, [{| execution_position := 2; succeeded := true |};
    {| execution_position := 2; succeeded := false |}; {| execution_position := 1; succeeded := true |}]).
Proof. vm_compute. reflexivity. Qed.

Example requester_cannot_approve : sample_status [Review 5 true 1] = Refused UNAUTHORIZED_MESSAGE.
Proof. vm_compute. reflexivity. Qed.

Lemma reach_all t tr s w os s' :
  reachable id t tr s -> t <= now w -> perform_all w os s = Accepted s' ->
  exists tr', reachable id (if os is [] then t else now w) tr' s'.
Proof.
  revert t tr s. induction os as [|o os IH]; intros t tr s Hr Ht H; cbn [perform_all] in H.
  - injection H as <-. eauto.
  - apply bind_Accepted in H as (s1 & H1 & H). pose proof (goes_on id _ _ _ _ _ _ Hr Ht H1) as Hr1.
    destruct (IH _ _ _ Hr1 ltac:(lia) H) as (tr' & Htr). exists tr'. by destruct os.
Qed.

Lemma sample_reachable os s :
  os <> [] -> checked_bind sample_start (perform_all (sample_world 20) os) = Accepted s ->
  exists tr, reachable id 20 tr s.
Proof.
  intros Hne H. apply bind_Accepted in H as (s0 & H0 & H).
  assert (Hr : reachable id 10 [] s0) by (eapply (is_created id (sample_world 10)); exact H0).
  eapply reach_all in H as [tr Htr]; [|exact Hr|cbn; lia]. exists tr. by destruct os.
Qed.

(** The state a history ends in, and that it is reachable. *)
Lemma sample_state os (P : State -> Prop) :
  os <> [] ->
  match checked_bind sample_start (perform_all (sample_world 20) os) with
  | Accepted s => P s
  | Refused _ => False
  end ->
  exists tr s, reachable id 20 tr s /\ P s.
Proof.
  intros Hne. destruct (checked_bind sample_start _) as [s|] eqn:E; [|done]. intros HP.
  destruct (sample_reachable os s Hne E) as [tr Hr]. eauto.
Qed.

Lemma what_runs_is_approved_witness :
  exists tr s todo, reachable id 20 tr s /\ Executing todo ∈ jobs s /\ length todo = 2%nat /\
    claimed id tr (request s) todo.
Proof.
  destruct (sample_state dispatched_ops
    (fun s => exists todo, Executing todo ∈ jobs s /\ length todo = 2%nat)) as (tr & s & Hr & todo & Hin & Hl).
  - discriminate.
  - vm_compute. eexists. split; [left|reflexivity].
  - exists tr, s, todo. split; [exact Hr|]. split; [exact Hin|]. split; [exact Hl|].
    exact (what_runs_is_approved id 20 tr s todo Hr Hin).
Defined.

Lemma dispatched_batch_is_fixed_witness :
  exists tr s j, reachable id 20 tr s /\ jobs s = [j] /\
    forall w o s', perform id w o s = Accepted s' -> content (request s') = content (request s).
Proof.
  destruct (sample_state dispatched_ops (fun s => exists j, j ∈ jobs s)) as (tr & s & Hr & j & Hin).
  - discriminate.
  - vm_compute. eexists. left.
  - destruct (dispatched_batch_is_fixed id 20 tr s j Hr Hin) as (Hj & _ & Hc).
    exists tr, s, j. split; [exact Hr|]. split; [exact Hj|exact Hc].
Defined.
