(* ===== verification/Access.v ===== *)
(** * Requests for query access

    [app/Services/QueryRequestWorkflow.php] for requests of the kind [query_access], with the checks of
    [EffectiveQueryRequestPolicy.php] and the gates of [app/Policies/QueryRequestPolicy.php]: a request is
    made, reviewed and renewed.  What becomes of an approved one is in [Sessions].

    The functions that [Workflow] has for deployment batches appear here with what they do for the
    other kind.  Foreign keys keep the connections of a request in place. *)

From Stdlib Require Import String.
From S2P Require Import Prelude JsString CrucibleLib SqlPolicy QueryGuard DeploymentPolicy Permissions DeploymentPreflight Workflow.

Open Scope string_scope.
Open Scope Z_scope.
Open Scope list_scope.

Local Notation "x <-- m ; f" := (checked_bind m (fun x => f))
  (at level 20, m at level 100, f at level 200, right associativity).

(** ** Data *)

(** The switches of [ApplicationSettings] and the limits of [config/query_access.php], beside the world of
    a batch. *)
Record AccessWorld := {
  world : World;
  queryAccessEnabled : bool;
  nativeClientAccessEnabled : bool;
  query_access_timeout_seconds : option Z;
  QUERY_ACCESS_MAX_TIMEOUT_SECONDS : Z;
}.

Record AccessRequest := {
  access_requester : Z;
  database_connection_id : Z;
  accessConnections : list Z;
  access_transport : AccessTransport;
  requested_access_mode : option AccessMode;
  access_duration_minutes : option Z;
  access_life : Lifecycle;
}.

(** The validated data of the form; what it leaves out is [None]. *)
Record AccessData := {
  data_transport : option string;
  data_connection_ids : list Z;
  data_access_mode : option string;
  data_duration : option Z;
}.

Definition set_access_life (l : Lifecycle) (r : AccessRequest) : AccessRequest := {|
  access_requester := access_requester r; database_connection_id := database_connection_id r;
  accessConnections := accessConnections r; access_transport := access_transport r;
  requested_access_mode := requested_access_mode r; access_duration_minutes := access_duration_minutes r;
  access_life := l |}.

Definition has_status (l : list QueryRequestStatus) (r : AccessRequest) : bool :=
  bool_decide (status (access_life r) ∈ l).

(** ** Limits *)

Definition hardTimeoutSeconds (w : AccessWorld) : Z := Z.min 65535 (Z.max 5 (QUERY_ACCESS_MAX_TIMEOUT_SECONDS w)).

Definition minimum_timeout_seconds : Z := 5.

Definition default_timeout_seconds (w : AccessWorld) : Z := Z.min 120 (hardTimeoutSeconds w).

Definition reconciliation_grace_seconds : Z := 30.

Definition queue_stale_seconds (w : AccessWorld) : Z := hardTimeoutSeconds w + 120.

Definition queryAccessTimeoutSeconds (w : AccessWorld) : Z :=
  Z.min (Z.max (query_access_timeout_seconds w ?? default_timeout_seconds w) minimum_timeout_seconds)
    (hardTimeoutSeconds w).

(** ** What the policy of a user allows *)

Definition ACCESS_NOT_ALLOWED_MESSAGE (t : AccessTransport) : string :=
  match t with
  | NativeProxy => "Your role is not allowed to request the selected Native Client Access level for this database."
  | Browser => "Your role is not allowed to request the selected session access level for every selected database."
  end.

Definition queryTypeForAccessMode (m : AccessMode) : QueryType :=
  match m with AccessWrite => WriteQuery | _ => ReadQuery end.

Definition target_of (c : DatabaseConnection) : Target := {|
  target_id := connection_id (database c); target_active := is_active c |}.

(** The permission that counts on a transport, and its mode. *)
Definition permission_for (t : AccessTransport) (u : User) (c : DatabaseConnection) (q : QueryType) : Permission :=
  match t with
  | NativeProxy => effectiveNativeProxyPermissionFor u (target_of c) q
  | Browser => effectiveQueryAccessPermissionFor u (connection_id (database c)) q
  end.

Definition mode_of (t : AccessTransport) (p : Permission) : AccessMode :=
  match t with NativeProxy => native_proxy_access_mode p | Browser => query_access_mode p end.

Definition ensureCanRequestAccess (u : User) (cs : list DatabaseConnection) (m : AccessMode) (t : AccessTransport)
    : checked unit :=
  _ <-- ensureUserIsEnabled u;
  if isAdmin u then Accepted tt
  else
    let q := queryTypeForAccessMode m in
    if forallb (fun c => allows (mode_of t (permission_for t u c q)) q) cs then Accepted tt
    else Refused (ACCESS_NOT_ALLOWED_MESSAGE t).

(** [requiresApproval] with a requested access mode. *)
Definition accessRequiresApproval (u : User) (cs : list DatabaseConnection) (m : AccessMode) (t : AccessTransport)
    : bool :=
  negb (isAdmin u) &&
  existsb (fun c => Permissions.requires_approval (permission_for t u c (queryTypeForAccessMode m))
                      (queryTypeForAccessMode m)) cs.

Definition DURATION_MESSAGE (c : DatabaseConnection) (minutes : Z) : string :=
  "Write sessions on " ++ name c ++ " are limited to " ++ pretty minutes ++ " minutes.".

(** The loop of [ensureWriteSessionDurationIsAllowed]. *)
Fixpoint duration_allowed (u : User) (minutes : Z) (t : AccessTransport) (cs : list DatabaseConnection)
    : checked unit :=
  match cs with
  | [] => Accepted tt
  | c :: cs' =>
      match max_write_session_minutes (permission_for t u c WriteQuery) with
      | Some maximum => if maximum <? minutes then Refused (DURATION_MESSAGE c maximum) else duration_allowed u minutes t cs'
      | None => duration_allowed u minutes t cs'
      end
  end.

Definition ensureWriteSessionDurationIsAllowed (u : User) (cs : list DatabaseConnection) (minutes : Z)
    (t : AccessTransport) : checked unit :=
  _ <-- ensureUserIsEnabled u;
  if isAdmin u then Accepted tt else duration_allowed u minutes t cs.

(** The two checks one after the other. *)
Definition ensure_access (u : User) (cs : list DatabaseConnection) (m : AccessMode) (minutes : Z)
    (t : AccessTransport) : checked unit :=
  _ <-- ensureCanRequestAccess u cs m t;
  match m with
  | AccessWrite => ensureWriteSessionDurationIsAllowed u cs minutes t
  | _ => Accepted tt
  end.

(** ** A request and its connections *)

Definition MISSING_MESSAGE : string := "The connection of the request is missing.".

(** [accessConnections], or the connection of the request; a request without any is an error. *)
Definition connections_of (w : AccessWorld) (r : AccessRequest) : checked (list DatabaseConnection) :=
  match omap (connections (world w)) (accessConnections r) with
  | [] =>
      match connections (world w) (database_connection_id r) with
      | Some c => Accepted [c]
      | None => Refused MISSING_MESSAGE
      end
  | cs => Accepted cs
  end.

Definition mode_asked (r : AccessRequest) : AccessMode := requested_access_mode r ?? AccessRead.

Definition minutes_asked (r : AccessRequest) : Z := access_duration_minutes r ?? 60.

Definition ensureQueryAccessRequestCanStart (w : AccessWorld) (r : AccessRequest) : checked unit :=
  cs <-- connections_of w r;
  ensure_access (users (world w) (access_requester r)) cs (mode_asked r) (minutes_asked r) (access_transport r).

Definition accessRequestRequiresApproval (w : AccessWorld) (r : AccessRequest) : bool :=
  match connections_of w r with
  | Accepted cs => accessRequiresApproval (users (world w) (access_requester r)) cs (mode_asked r) (access_transport r)
  | Refused _ => false
  end.

Definition accessRequestRequiresFreshApproval (w : AccessWorld) (r : AccessRequest) : bool :=
  accessRequestRequiresApproval w r &&
  (negb (is_some (approved_at (access_life r))) || negb (is_some (approved_by_id (access_life r))) ||
   bool_decide (approved_by_id (access_life r) = Some (access_requester r))).

(** ** The gates (QueryRequestPolicy.php) *)

Definition reviews_access (w : AccessWorld) (u : User) (r : AccessRequest) : bool :=
  match connections_of w r with
  | Accepted cs => forallb (fun c => canReviewDatabase u (connection_id (database c))) cs
  | Refused _ => false
  end.

Definition owns_access (u : User) (r : AccessRequest) : bool := isAdmin u || (access_requester r =? user_id u).

Definition may_review_access (w : AccessWorld) (u : User) (r : AccessRequest) : bool :=
  has_status [PendingReview] r && negb (access_requester r =? user_id u) && reviews_access w u r.

Definition may_start (u : User) (r : AccessRequest) : bool := has_status [Approved] r && owns_access u r.

Definition dispatched_access (u : User) (r : AccessRequest) : bool :=
  bool_decide (dispatched_by_id (access_life r) = Some (user_id u)).

Definition may_cancel_access (u : User) (r : AccessRequest) : bool :=
  has_status [Draft; PendingReview; Approved; Scheduled; Running] r &&
  (owns_access u r || (has_status [Running] r && dispatched_access u r)).

Definition may_renew (u : User) (r : AccessRequest) : bool :=
  has_status [Completed; Cancelled] r && (owns_access u r || dispatched_access u r).

(** ** New requests *)

Definition TRANSPORT_MESSAGE : string := "Choose a supported access transport.".
Definition NATIVE_DISABLED_MESSAGE : string := "Native Client Access is currently disabled by an administrator.".
Definition ACCESS_DISABLED_MESSAGE : string := "Query Access is currently disabled by an administrator.".
Definition CONNECTIONS_MESSAGE : string := "Select one or more valid database connections.".
Definition ONE_CONNECTION_MESSAGE : string := "Native Client Access requires exactly one active database connection.".
Definition ACTIVE_CONNECTION_MESSAGE : string := "Native Client Access requires an active database connection.".
Definition ACCESS_MODE_MESSAGE : string := "Choose read-only or read + write access for this session.".

Definition accessTransport (data : AccessData) : checked AccessTransport :=
  let text := data_transport data ?? "browser" in
  if str_eq text "browser" then Accepted Browser
  else if str_eq text "native_proxy" then Accepted NativeProxy
  else Refused TRANSPORT_MESSAGE.

Definition workflow_enabled (w : AccessWorld) (t : AccessTransport) : bool :=
  match t with NativeProxy => nativeClientAccessEnabled w | Browser => queryAccessEnabled w end.

Definition disabled_workflow_message (t : AccessTransport) : string :=
  match t with NativeProxy => NATIVE_DISABLED_MESSAGE | Browser => ACCESS_DISABLED_MESSAGE end.

Definition ensureAccessWorkflowIsEnabled (w : AccessWorld) (t : AccessTransport) : checked unit :=
  if workflow_enabled w t then Accepted tt else Refused (disabled_workflow_message t).

(** The connections in the order of the form; the query leaves their order open, and nothing depends on it. *)
Definition databaseConnectionsForAccess (w : AccessWorld) (data : AccessData) (t : AccessTransport)
    : checked (list DatabaseConnection) :=
  let ids := remove_dups (List.filter (fun id => 0 <? id) (data_connection_ids data)) in
  let cs := omap (connections (world w)) ids in
  if bool_decide (ids = []) || negb (bool_decide (length cs = length ids)) then Refused CONNECTIONS_MESSAGE
  else
    match t with
    | Browser => Accepted cs
    | NativeProxy =>
        if negb (bool_decide (length ids = 1%nat)) then Refused ONE_CONNECTION_MESSAGE
        else if forallb is_active cs then Accepted cs else Refused ACTIVE_CONNECTION_MESSAGE
    end.

Definition requestedAccessMode (data : AccessData) : checked AccessMode :=
  let text := data_access_mode data ?? "read" in
  if str_eq text "read" then Accepted AccessRead
  else if str_eq text "write" then Accepted AccessWrite
  else Refused ACCESS_MODE_MESSAGE.

(** The rules of [StoreQueryRequestRequest] for query access. *)
Definition access_rules (w : AccessWorld) (user : User) (data : AccessData) : bool :=
  let ids := data_connection_ids data in
  bool_decide (data_transport data = Some "browser" \/ data_transport data = Some "native_proxy") &&
  bool_decide (1 <= Z.of_nat (length ids) <= 10) && bool_decide (NoDup ids) &&
  forallb (fun id => is_some (connections (world w) id)) ids &&
  bool_decide (data_access_mode data = Some "read" \/ data_access_mode data = Some "write") &&
  match data_duration data with Some minutes => (5 <=? minutes) && (minutes <=? 1440) | None => false end &&
  (negb (bool_decide (data_transport data = Some "native_proxy")) ||
   match omap (connections (world w)) ids with
   | [c] =>
       let q := if bool_decide (data_access_mode data = Some "write") then WriteQuery else ReadQuery in
       is_active c && allows (native_proxy_access_mode (effectiveNativeProxyPermissionFor user (target_of c) q)) q
   | _ => false
   end).

(** The request that [create] and [createRetryRequest] insert, once they know whether it needs approval. *)
Definition new_access (w : AccessWorld) (requester primary : Z) (ids : list Z) (t : AccessTransport)
    (m : AccessMode) (minutes : option Z) (requires : bool) : AccessRequest := {|
  access_requester := requester; database_connection_id := primary; accessConnections := ids;
  access_transport := t; requested_access_mode := Some m; access_duration_minutes := minutes;
  access_life := submitted_life (world w) requester requires None 1 |}.

(** [create] for query access. *)
Definition createAccess (w : AccessWorld) (requester : User) (data : AccessData) : checked AccessRequest :=
  t <-- accessTransport data;
  _ <-- ensureAccessWorkflowIsEnabled w t;
  cs <-- databaseConnectionsForAccess w data t;
  m <-- requestedAccessMode data;
  _ <-- (if isAdmin requester then Accepted tt else ensureCanRequestAccess requester cs m t);
  let minutes := data_duration data ?? 60 in
  _ <-- (match m with AccessWrite => ensureWriteSessionDurationIsAllowed requester cs minutes t | _ => Accepted tt end);
  let ids := map (fun c => connection_id (database c)) cs in
  Accepted (new_access w (user_id requester) (head ids ?? 0) ids t m (Some minutes)
              (accessRequiresApproval requester cs m t)).

Definition NOT_RENEWABLE_MESSAGE : string :=
  "Only completed or cancelled query-access requests can be requested again.".

(** [retry] and [createRetryRequest] for query access. *)
Definition renew (w : AccessWorld) (actor : User) (r : AccessRequest) : checked AccessRequest :=
  gate (may_renew actor r)
    (if negb (has_status [Completed; Cancelled] r) then Refused NOT_RENEWABLE_MESSAGE
     else
       _ <-- ensureAccessWorkflowIsEnabled w (access_transport r);
       match connections_of w r with
       | Accepted (c :: cs) =>
           let requester := users (world w) (access_requester r) in
           _ <-- ensure_access requester (c :: cs) (mode_asked r) (minutes_asked r) (access_transport r);
           Accepted (new_access w (access_requester r) (connection_id (database c)) (accessConnections r)
                       (access_transport r) (mode_asked r) (access_duration_minutes r)
                       (accessRequiresApproval requester (c :: cs) (mode_asked r) (access_transport r)))
       | _ => Refused TARGET_GONE_MESSAGE
       end).

(** ** Review *)

(** What an approval makes of a request; it has no time. *)
Definition approved_access (w : AccessWorld) (reviewer : Z) (r : AccessRequest) : Lifecycle :=
  let l := access_life r in {|
  status := Approved; requires_approval := accessRequestRequiresApproval w r;
  approved_by_id := Some reviewer; approved_at := Some (now (world w));
  dispatched_by_id := dispatched_by_id l; dispatched_at := dispatched_at l;
  completed_at := completed_at l; last_error := last_error l; revision := revision l |}.

Definition rejected_access (w : AccessWorld) (l : Lifecycle) : Lifecycle := {|
  status := Rejected; requires_approval := requires_approval l; approved_by_id := approved_by_id l;
  approved_at := approved_at l; dispatched_by_id := dispatched_by_id l; dispatched_at := dispatched_at l;
  completed_at := Some (now (world w)); last_error := last_error l; revision := revision l |}.

Definition reviewAccess (w : AccessWorld) (reviewer : User) (approve : bool) (expectedRevision : Z)
    (r : AccessRequest) : checked AccessRequest :=
  gate (may_review_access w reviewer r)
    (if negb (has_status [PendingReview] r) then Refused NOT_PENDING_MESSAGE
     else if negb (revision (access_life r) =? expectedRevision) then Refused STALE_MESSAGE
     else if approve then
       _ <-- ensureQueryAccessRequestCanStart w r;
       Accepted (set_access_life (approved_access w (user_id reviewer) r) r)
     else Accepted (set_access_life (rejected_access w (access_life r)) r)).
