(* ===== verification/Sessions.v ===== *)
(** * Query sessions on the server

    [app/Services/QuerySessionWorkflow.php] with the gates of [QuerySessionPolicy.php], the controllers
    [QuerySessionController.php] and [QuerySessionQueryController.php], the job
    [Jobs/ExecuteQuerySessionQuery.php], the commands [ExpireQuerySessions.php] and
    [ReconcileBrowserQueryExecutions.php], and [cancel] of [QueryRequestWorkflow.php] for query access: an
    approved request becomes a session, whose queries are queued, claimed by workers, run, cancelled,
    interrupted and reconciled.

    Requests of users, workers and commands run at the same time and share the database of the
    application.  Each is a process; a step of a process is a transaction, or a reading or a writing outside
    one, with what the process does in its own memory until the next.  What a process has read it keeps,
    while the others go on.  Messages, numbers of rows and the audit log are left out; the leases that are
    revoked along with a session are in [Leases]. *)

From Stdlib Require Import String.
From S2P Require Import Prelude JsString CrucibleLib SqlPolicy QueryGuard StatementAnalyzer DeploymentPolicy Permissions DeploymentPreflight Workflow Access.

Open Scope string_scope.
Open Scope Z_scope.
Open Scope list_scope.

Local Notation "x <-- m ; f" := (checked_bind m (fun x => f))
  (at level 20, m at level 100, f at level 200, right associativity).

(** ** Data *)

Record Session := {
  session_user : Z;
  session_connection : Z;
  databaseConnections : list Z;
  session_started_at : Z;
  expires_at : Z;
  ended_at : option Z;
}.

(** A row of [query_session_queries], with the status of the execution linked to it and whether a snapshot
    of its result is kept. *)
Record Query := {
  query_user : Z;
  query_connection : Z;
  query_sql : string;
  query_kind : QueryType;
  query_status : ExecutionStatus;
  timeout_seconds : Z;
  backend_process : bool;
  cancel_requested : bool;
  created_at : Z;
  started_at : Z;
  execution : ExecutionStatus;
  snapshot : bool;
}.

(** An exception and those it was thrown for: the state and the code of the driver, for a
    [QueryException], and the message. *)
Record Thrown := { error_info : option (string * Z); thrown_message : string }.

(** What a process waits for: an answer of the target database or of the queue. *)
Inductive Outcome := Fine | Throws (e : list Thrown).

(** What follows on the sweep of a session that has expired: the status of the request when the command
    read it, and the time. *)
Definition Continuation : Type := option (QueryRequestStatus * Z).

(** Where a process is. *)
Inductive Process :=
  (** the request that submits a query *)
  | Submitting (copy : Session) (user connection : Z) (sql : string)
  | Creating (user connection : Z) (sql : string) (t : QueryType)
  | Dispatching (i : nat)
  (** the job, from the queue to the end *)
  | Waiting (i : nat)
  | Validating (i : nat) (copy : Session)
  | Connecting (i : nat) (connection : Z) (sql : string) (t : QueryType)
  | Started (i : nat) (connection : Z) (sql : string) (t : QueryType)
  | Returned (i : nat) (t : QueryType)
  | Caught (i : nat) (e : list Thrown)
  | Succeeding (i : nat) (t : QueryType)
  | Storing (i : nat)
  (** [markDispatchFailed], [markInterrupted] and [finishQueuedExecution] *)
  | MarkingFailed (i : nat)
  | Interrupting (i : nat) (timed_out : bool)
  | Finishing (i : nat) (st : ExecutionStatus)
  | Linking (i : nat) (st : ExecutionStatus)
  (** the end of a session *)
  | Expiring (copied : QueryRequestStatus)
  | Forgetting (k : Continuation)
  | Sweep (k : Continuation)
  | Sweeping (ids : list nat) (k : Continuation)
  | Completing (copied : QueryRequestStatus) (endedAt : Z).

Record State := {
  request : AccessRequest;
  session : option Session;
  queries : list Query;
  processes : list Process;
}.

Definition set_access (r : AccessRequest) (s : State) : State := {|
  request := r; session := session s; queries := queries s; processes := processes s |}.

Definition set_session (x : Session) (s : State) : State := {|
  request := request s; session := Some x; queries := queries s; processes := processes s |}.

Definition set_queries (qs : list Query) (s : State) : State := {|
  request := request s; session := session s; queries := qs; processes := processes s |}.

Definition set_processes (ps : list Process) (s : State) : State := {|
  request := request s; session := session s; queries := queries s; processes := ps |}.

Definition change (i : nat) (f : Query -> Query) (s : State) : State := set_queries (alter f i (queries s)) s.

Definition set_query_status (st : ExecutionStatus) (q : Query) : Query := {|
  query_user := query_user q; query_connection := query_connection q; query_sql := query_sql q;
  query_kind := query_kind q; query_status := st; timeout_seconds := timeout_seconds q;
  backend_process := backend_process q; cancel_requested := cancel_requested q; created_at := created_at q;
  started_at := started_at q; execution := execution q; snapshot := snapshot q |}.

(** [updateLinkedExecution] *)
Definition set_execution (st : ExecutionStatus) (q : Query) : Query := {|
  query_user := query_user q; query_connection := query_connection q; query_sql := query_sql q;
  query_kind := query_kind q; query_status := query_status q; timeout_seconds := timeout_seconds q;
  backend_process := backend_process q; cancel_requested := cancel_requested q; created_at := created_at q;
  started_at := started_at q; execution := st; snapshot := snapshot q |}.

Definition set_snapshot (b : bool) (q : Query) : Query := {|
  query_user := query_user q; query_connection := query_connection q; query_sql := query_sql q;
  query_kind := query_kind q; query_status := query_status q; timeout_seconds := timeout_seconds q;
  backend_process := backend_process q; cancel_requested := cancel_requested q; created_at := created_at q;
  started_at := started_at q; execution := execution q; snapshot := b |}.

(** [ExecutionStatus::isActive] *)
Definition is_active_status (st : ExecutionStatus) : bool :=
  match st with ExecQueued | ExecRunning | ExecCancelling => true | _ => false end.

Definition isTerminal (st : ExecutionStatus) : bool := negb (is_active_status st).

Definition isActive (w : AccessWorld) (x : Session) : bool :=
  negb (is_some (ended_at x)) && (now (world w) <? expires_at x).

(** [QuerySessionPolicy]: [submitQuery] and [end]. *)
Definition may_submit (u : User) (x : Session) : bool := isAdmin u || (session_user x =? user_id u).

(** ** The start of a session *)

Definition UNUSED_MESSAGE : string :=
  "This query access request must be approved and unused before a session can start.".

Definition running_access (w : AccessWorld) (l : Lifecycle) : Lifecycle := {|
  status := Running; requires_approval := requires_approval l; approved_by_id := approved_by_id l;
  approved_at := approved_at l; dispatched_by_id := dispatched_by_id l; dispatched_at := Some (now (world w));
  completed_at := completed_at l; last_error := last_error l; revision := revision l |}.

Definition new_session (w : AccessWorld) (user : Z) (r : AccessRequest) (c : DatabaseConnection)
    (cs : list DatabaseConnection) : Session := {|
  session_user := user; session_connection := connection_id (database c);
  databaseConnections := map (fun c => connection_id (database c)) (c :: cs);
  session_started_at := now (world w); expires_at := now (world w) + 60 * minutes_asked r;
  ended_at := None |}.

(** A request that needs a fresh approval is sent back to its reviewers, and the user is told so. *)
Definition start (w : AccessWorld) (user : User) (s : State) : checked State :=
  let r := request s in
  if negb (has_status [Approved] r) || is_some (session s) then Refused UNUSED_MESSAGE
  else if negb (workflow_enabled w (access_transport r)) then Refused (disabled_workflow_message (access_transport r))
  else
    match connections_of w r with
    | Accepted (c :: cs) =>
        _ <-- ensureQueryAccessRequestCanStart w r;
        if accessRequestRequiresFreshApproval w r
        then Accepted (set_access (set_access_life (reapproval_life (access_life r)) r) s)
        else Accepted (set_access (set_access_life (running_access w (access_life r)) r)
                         (set_session (new_session w (user_id user) r c cs) s))
    | _ => Refused MISSING_MESSAGE
    end.

(** ** The check of a statement *)

Definition INACTIVE_MESSAGE : string := "This query session is not active.".
Definition SESSION_CONNECTION_MESSAGE : string := "Select a connection approved for this session.".
Definition READ_ONLY_MESSAGE : string :=
  "This is a read-only session. Request read + write access before running data-changing SQL.".
Definition ROLES_MESSAGE : string :=
  "Your current roles are not allowed to run this query type on the selected database.".

(** [validatedExecution], on a copy of the session; a connection that is missing is that of the session. *)
Definition validatedExecution (w : AccessWorld) (r : AccessRequest) (copy : Session) (u : User) (sql : string)
    (connection : Z) : checked (Z * string * QueryType) :=
  if negb (isActive w copy) then Refused INACTIVE_MESSAGE
  else
    let target := if is_some (connections (world w) connection) then connection else session_connection copy in
    if negb (bool_decide (target ∈ databaseConnections copy)) then Refused SESSION_CONNECTION_MESSAGE
    else
      normalizedSql <-- validateSessionExecutable (policy_settings (world w)) sql;
      t <-- classify (policy_settings (world w)) normalizedSql;
      if negb (allows (mode_asked r) t) then Refused READ_ONLY_MESSAGE
      else if negb (isAdmin u) && negb (allows (query_access_mode (effectiveQueryAccessPermissionFor u target t)) t)
      then Refused ROLES_MESSAGE
      else Accepted (target, normalizedSql, t).

(** ** Exceptions *)

Definition statement_timeout (e : Thrown) : bool :=
  match error_info e with
  | Some (sqlState, driverCode) => str_eq sqlState "57014" || (driverCode =? 3024)
  | None => false
  end ||
  let message := toLowerCase (thrown_message e) in
  includes message "statement timeout" || includes message "maximum statement execution time exceeded".

Definition isStatementTimeout (e : list Thrown) : bool := existsb statement_timeout e.

Definition thrown (message : string) : list Thrown := [{| error_info := None; thrown_message := message |}].

Definition CANCELLED_EARLY_MESSAGE : string := "Query cancellation was requested before execution began.".

(** ** One query *)

Definition new_query (w : AccessWorld) (user connection : Z) (sql : string) (t : QueryType) : Query := {|
  query_user := user; query_connection := connection; query_sql := sql; query_kind := t;
  query_status := ExecQueued; timeout_seconds := queryAccessTimeoutSeconds w; backend_process := false;
  cancel_requested := false; created_at := now (world w); started_at := now (world w);
  execution := ExecQueued; snapshot := false |}.

Definition hasActiveQuery (s : State) : bool := existsb (fun q => is_active_status (query_status q)) (queries s).

(** The claim of a worker. *)
Definition claim (w : AccessWorld) (q : Query) : Query := {|
  query_user := query_user q; query_connection := query_connection q; query_sql := query_sql q;
  query_kind := query_kind q; query_status := ExecRunning; timeout_seconds := timeout_seconds q;
  backend_process := backend_process q; cancel_requested := cancel_requested q; created_at := created_at q;
  started_at := now (world w); execution := ExecRunning; snapshot := snapshot q |}.

(** What the callback of a new connection notes. *)
Definition note_backend (q : Query) : Query := {|
  query_user := query_user q; query_connection := query_connection q; query_sql := query_sql q;
  query_kind := query_kind q; query_status := query_status q; timeout_seconds := timeout_seconds q;
  backend_process := true; cancel_requested := cancel_requested q; created_at := created_at q;
  started_at := started_at q; execution := execution q; snapshot := snapshot q |}.

(** The transaction of [cancel]. *)
Definition cancel_query (q : Query) : Query :=
  if isTerminal (query_status q) then q
  else
    let st := if bool_decide (query_status q = ExecQueued) then ExecCancelled else ExecCancelling in {|
    query_user := query_user q; query_connection := query_connection q; query_sql := query_sql q;
    query_kind := query_kind q; query_status := st; timeout_seconds := timeout_seconds q;
    backend_process := backend_process q; cancel_requested := true; created_at := created_at q;
    started_at := started_at q; execution := st; snapshot := snapshot q |}.

(** Whether a worker that looks at its query finds that it should stop. *)
Definition cancelling (q : Query) : bool := cancel_requested q || bool_decide (query_status q = ExecCancelling).

(** [cancelForSession]: the queries it reads. *)
Definition active_queries (s : State) : list nat :=
  List.filter (fun i => match queries s !! i with Some q => is_active_status (query_status q) | None => false end)
    (seq 0 (length (queries s))).

(** ** The steps of a process *)

(** What a worker does with the answer of a check that may throw. *)
Definition caught {A} (i : nat) (m : checked A) (k : A -> list Process) : list Process :=
  match m with Accepted a => k a | Refused message => [Caught i (thrown message)] end.

(** The status that the end of a query gets. *)
Definition status_after (q : Query) (timed_out : bool) : ExecutionStatus :=
  if cancelling q then ExecCancelled else if timed_out then ExecTimedOut else ExecFailed.

(** The same in [markInterrupted], which looks at the request for cancellation alone. *)
Definition interrupted_status (q : Query) (timed_out : bool) : ExecutionStatus :=
  if cancel_requested q then ExecCancelled else if timed_out then ExecTimedOut else ExecFailed.

Definition complete_request (w : AccessWorld) (copied : QueryRequestStatus) (endedAt : Z) (s : State) : State :=
  if bool_decide (copied = Running) then
    let r := request s in
    let l := access_life r in
    set_access (set_access_life {|
      status := Completed; requires_approval := requires_approval l; approved_by_id := approved_by_id l;
      approved_at := approved_at l; dispatched_by_id := dispatched_by_id l; dispatched_at := dispatched_at l;
      completed_at := Some endedAt; last_error := last_error l; revision := revision l |} r) s
  else s.

Definition end_session (t : Z) (x : Session) : Session := {|
  session_user := session_user x; session_connection := session_connection x;
  databaseConnections := databaseConnections x; session_started_at := session_started_at x;
  expires_at := expires_at x; ended_at := Some t |}.

(** A process that works on a query, with the row it reads. *)
Definition with_query (i : nat) (s : State) (f : Query -> State * list Process) : State * list Process :=
  match queries s !! i with Some q => f q | None => (s, []) end.

(** What a process does next: the new state, and where it then is. *)
Definition advance (w : AccessWorld) (o : Outcome) (p : Process) (s : State) : State * list Process :=
  match p with
  (** [queue] *)
  | Submitting copy user c sql =>
      match validatedExecution w (request s) copy (users (world w) user) sql c with
      | Accepted (target, text, t) => (s, [Creating user target text t])
      | Refused _ => (s, [])
      end
  | Creating user c sql t =>
      if hasActiveQuery s then (s, [])
      else (set_queries (queries s ++ [new_query w user c sql t]) s, [Dispatching (length (queries s))])
  | Dispatching i =>
      match o with Fine => (s, [Waiting i]) | Throws _ => (s, [MarkingFailed i]) end
  (** [executeQueued] *)
  | Waiting i =>
      with_query i s (fun q =>
        match session s with
        | Some x =>
            if bool_decide (query_status q = ExecQueued)
            then (change i (claim w) s, [Validating i x]) else (s, [])
        | None => (s, [])
        end)
  | Validating i copy =>
      with_query i s (fun q =>
        (s, caught i (validatedExecution w (request s) copy (users (world w) (query_user q)) (query_sql q)
                        (query_connection q))
              (fun v => [Connecting i (fst (fst v)) (snd (fst v)) (snd v)])))
  | Connecting i c sql t =>
      match o with
      | Throws e => (s, [Caught i e])
      | Fine =>
          with_query i s (fun q =>
            (change i note_backend s,
             if cancelling q then [Caught i (thrown CANCELLED_EARLY_MESSAGE)] else [Started i c sql t]))
      end
  | Started i _ _ t =>
      match o with Fine => (s, [Returned i t]) | Throws e => (s, [Caught i e]) end
  | Returned i t =>
      with_query i s (fun q =>
        (s, if isTerminal (query_status q) then []
            else if cancelling q then [Finishing i ExecCancelled] else [Succeeding i t]))
  | Caught i e =>
      with_query i s (fun q =>
        (s, if isTerminal (query_status q) then []
            else [Finishing i (status_after q (isStatementTimeout e))]))
  | Succeeding i t =>
      (change i (set_query_status ExecSucceeded) s,
       match t with ReadQuery => [Storing i] | WriteQuery => [Linking i ExecSucceeded] end)
  | Storing i => (change i (set_snapshot true) s, [Linking i ExecSucceeded])
  (** the ends of a query *)
  | MarkingFailed i =>
      with_query i s (fun q =>
        (s, if bool_decide (query_status q = ExecQueued) then [Finishing i ExecFailed] else []))
  | Interrupting i timed_out =>
      with_query i s (fun q =>
        (s, if isTerminal (query_status q) then [] else [Finishing i (interrupted_status q timed_out)]))
  | Finishing i st => (change i (set_query_status st) s, [Linking i st])
  | Linking i st => (change i (set_execution st) s, [])
  (** the ends of a session *)
  | Expiring copied =>
      match session s with
      | Some x => (set_session (end_session (now (world w)) x) s, [Forgetting (Some (copied, now (world w)))])
      | None => (s, [])
      end
  | Forgetting k => (set_queries (map (set_snapshot false) (queries s)) s, [Sweep k])
  | Sweep k => (s, [Sweeping (active_queries s) k])
  | Sweeping (i :: ids) k => (change i cancel_query s, [Sweeping ids k])
  | Sweeping [] (Some (copied, endedAt)) => (s, [Completing copied endedAt])
  | Sweeping [] None => (s, [])
  | Completing copied endedAt => (complete_request w copied endedAt s, [])
  end.

(** ** All that can happen *)

(** [cancel] of [QueryRequestWorkflow.php]. *)
Definition cancelAccess (w : AccessWorld) (s : State) : checked State :=
  let r := request s in
  if negb (has_status [Draft; PendingReview; Approved; Scheduled; Running] r) then Refused CANNOT_CANCEL_MESSAGE
  else
    let s := match session s with
             | Some x => if isActive w x then set_session (end_session (now (world w)) x) s else s
             | None => s
             end in
    let s := set_access (set_access_life (cancelled_life (world w) (access_life r)) r) s in
    Accepted (set_processes (processes s ++ [Forgetting None]) s).

(** The query a process works on, if it is a worker or ends a query. *)
Definition works_on (p : Process) : option nat :=
  match p with
  | Waiting i | Validating i _ | Connecting i _ _ _ | Started i _ _ _ | Returned i _ | Caught i _
  | Succeeding i _ | Storing i | MarkingFailed i | Interrupting i _ | Finishing i _ | Linking i _ => Some i
  | _ => None
  end.

(** Queries the reconciliation takes for abandoned. *)
Definition stale_queued (w : AccessWorld) (q : Query) : bool :=
  bool_decide (query_status q = ExecQueued) && (created_at q <=? now (world w) - queue_stale_seconds w).

Definition stale_active (w : AccessWorld) (q : Query) : bool :=
  bool_decide (query_status q ∈ [ExecRunning; ExecCancelling]) &&
  (started_at q + timeout_seconds q + reconciliation_grace_seconds <? now (world w)).

Definition reconcile (w : AccessWorld) (i : nat) (q : Query) : list Process :=
  if stale_queued w q then [MarkingFailed i] else if stale_active w q then [Interrupting i true] else [].

Inductive Op :=
  | ReviewBy (reviewer : Z) (approve : bool) (expectedRevision : Z)
  | Start (actor : Z)
  | CancelRequest (actor : Z)
  | EndSession (actor : Z)
  | Submit (actor connection : Z) (sql : string)
  | CancelQuery (actor : Z) (i : nat)
  | Expire
  | Reconcile (i : nat)
  | Advance (p : nat) (o : Outcome)      (** the process in place [p] makes a step *)
  | Killed (p : nat) (timed_out : bool)  (** the queue stops a worker, and calls [failed] *)
  | Redelivered (i : nat)                (** the queue delivers a job again, which has no tries left *)
  | Lost (p : nat).                      (** a worker is gone without a trace *)

Definition add_processes (ps : list Process) (s : State) : State := set_processes (processes s ++ ps) s.

(** The process in a place, replaced by what comes of it. *)
Definition replace_process (p : nat) (ps : list Process) (s : State) : State :=
  set_processes (take p (processes s) ++ ps ++ drop (S p) (processes s)) s.

Definition perform (w : AccessWorld) (o : Op) (s : State) : checked State :=
  let user_of actor := users (world w) actor in
  match o with
  | ReviewBy reviewer approve expected =>
      r <-- reviewAccess w (user_of reviewer) approve expected (request s); Accepted (set_access r s)
  | Start actor => gate (may_start (user_of actor) (request s)) (start w (user_of actor) s)
  | CancelRequest actor => gate (may_cancel_access (user_of actor) (request s)) (cancelAccess w s)
  | EndSession actor =>
      match session s with
      | Some x =>
          gate (may_submit (user_of actor) x && may_cancel_access (user_of actor) (request s)) (cancelAccess w s)
      | None => Accepted s
      end
  | Submit actor c sql =>
      match session s with
      | Some x =>
          gate (may_submit (user_of actor) x)
            (if is_some (connections (world w) c)
             then Accepted (add_processes [Submitting x actor c sql] s) else Refused VALID_CONNECTION_MESSAGE)
      | None => Accepted s
      end
  | CancelQuery actor i =>
      match session s with
      | Some x => gate (may_submit (user_of actor) x) (Accepted (change i cancel_query s))
      | None => Accepted s
      end
  | Expire =>
      match session s with
      | Some x =>
          if negb (is_some (ended_at x)) && (expires_at x <=? now (world w))
          then Accepted (add_processes [Expiring (status (access_life (request s)))] s) else Accepted s
      | None => Accepted s
      end
  | Reconcile i =>
      match queries s !! i with
      | Some q => Accepted (add_processes (reconcile w i q) s)
      | None => Accepted s
      end
  | Advance p o =>
      match processes s !! p with
      | Some x => let '(s', ps) := advance w o x s in Accepted (replace_process p ps s')
      | None => Accepted s
      end
  | Killed p timed_out =>
      match (processes s !! p) ≫= works_on with
      | Some i => Accepted (replace_process p [Interrupting i timed_out] s)
      | None => Accepted s
      end
  | Redelivered i =>
      match queries s !! i with
      | Some _ => Accepted (add_processes [Interrupting i false] s)
      | None => Accepted s
      end
  | Lost p =>
      match (processes s !! p) ≫= works_on with
      | Some i => Accepted (replace_process p [] s)
      | None => Accepted s
      end
  end.

(** A request before anything has happened to it. *)
Definition new_state (r : AccessRequest) : State := {|
  request := r; session := None; queries := []; processes := [] |}.

(** ** Examples *)

Fixpoint perform_all (ops : list (AccessWorld * Op)) (s : State) : checked State :=
  match ops with
  | [] => Accepted s
  | (w, o) :: ops' => checked_bind (perform w o s) (perform_all ops')
  end.

Definition session_policy : Permission := {|
  access_mode := AccessWrite; query_access_mode := AccessWrite; native_proxy_access_mode := AccessWrite;
  can_review := false; read_requires_approval := true; write_requires_approval := true;
  max_write_session_minutes := Some 120 |}.

Definition main_connection : DatabaseConnection := {|
  database := {| connection_id := 1; connection_driver := MySql |}; name := "main"; is_active := true |}.

(** The requester 5 needs an approval for everything, and 6 may review; statements get five seconds. *)
Definition sample_access (browser : bool) (time : Z) : AccessWorld := {|
  world := {|
    now := time;
    accounts := fun id =>
      if id =? 5 then user_of [{| is_admin := false; databasePermissions := [(1, session_policy)];
                                  connectionGroupPolicies := [] |}]
      else if id =? 6 then user_of [{| is_admin := false; databasePermissions := [(1, policy AccessRead true true)];
                                       connectionGroupPolicies := [] |}]
      else user_of [];
    connections := fun id => if id =? 1 then Some main_connection else None;
    connection_groups := []; policy_settings := read_only_policy; policy_rules := [] |};
  queryAccessEnabled := browser; nativeClientAccessEnabled := true;
  query_access_timeout_seconds := Some 5; QUERY_ACCESS_MAX_TIMEOUT_SECONDS := 900 |}.

Definition sample_asked (transport : string) : AccessData := {|
  data_transport := Some transport; data_connection_ids := [1]; data_access_mode := Some "write";
  data_duration := Some 60 |}.

Definition sample_made (transport : string) : checked State :=
  checked_bind (createAccess (sample_access true 10) (users (world (sample_access true 10)) 5) (sample_asked transport))
    (fun r => Accepted (new_state r)).

(** A history of a request, with its times. *)
Definition sample_run (transport : string) (browser : bool) (ops : list (Z * Op)) : checked State :=
  checked_bind (sample_made transport) (perform_all (map (fun o => (sample_access browser (fst o), snd o)) ops)).

(** Approved, started, a query submitted and claimed. *)
Definition begun_ops : list (Z * Op) :=
  [(20, ReviewBy 6 true 1); (30, Start 5); (40, Submit 5 1 "select 1;"); (40, Advance 0 Fine); (40, Advance 0 Fine);
   (40, Advance 0 Fine); (41, Advance 0 Fine); (41, Advance 0 Fine)].

Definition sample_statuses (ops : list (Z * Op)) : checked (QueryRequestStatus * list ExecutionStatus * list Process) :=
  checked_bind (sample_run "browser" true ops)
    (fun s => Accepted (status (access_life (request s)), map query_status (queries s), processes s)).

Example sample_succeeds :
  sample_statuses (begun_ops ++ map (fun _ => (42, Advance 0 Fine)) (seq 0 6)) = Accepted (Running, [ExecSucceeded], []).
Proof. vm_compute. reflexivity. Qed.

(** A worker that is connecting when its session is ended stops. *)
Example sample_ended :
  sample_statuses (begun_ops ++ [(42, EndSession 5)] ++ map (fun _ => (42, Advance 1 Fine)) (seq 0 4) ++
                   map (fun _ => (43, Advance 0 Fine)) (seq 0 4)) = Accepted (Cancelled, [ExecCancelled], []).
Proof. vm_compute. reflexivity. Qed.

(** A second query has to wait. *)
Example sample_second :
  sample_statuses (begun_ops ++ [(42, Submit 5 1 "select 2"); (42, Advance 1 Fine); (42, Advance 1 Fine)]) =
  Accepted (Running, [ExecRunning], [Connecting 0 1 "select 1" ReadQuery]).
Proof. vm_compute. reflexivity. Qed.

Example sample_unreviewed : sample_run "browser" true [(20, Start 5)] = Refused UNAUTHORIZED_MESSAGE.
Proof. vm_compute. reflexivity. Qed.
