(* ===== verification/SessionSafety.v ===== *)
(** * What query sessions guarantee

    Over every history of a request for query access -- any interleaving of users, workers, commands and
    the queue, in workspaces that change in between -- what is sent to a database was governed when it was
    sent, once, one query at a time, and everything comes to rest. *)

From Stdlib Require Import String.
From S2P Require Import Prelude JsString CrucibleLib SqlPolicy QueryGuard StatementAnalyzer DeploymentPolicy Permissions DeploymentPreflight Workflow Access Sessions.

Open Scope string_scope.
Open Scope Z_scope.
Open Scope list_scope.

(** ** Histories *)

Record Event := { in_world : AccessWorld; op : Op; before : State; after : State }.

Definition time_of (w : AccessWorld) : Z := now (world w).

(** [reachable t tr s]: after the events [tr], the latest first and the last of them at the time [t], a
    request that was made with a valid form, or renews another one, is in the state [s]. *)
Inductive reachable : Z -> list Event -> State -> Prop :=
  | is_made w user data r :
      access_rules w (users (world w) user) data = true ->
      createAccess w (users (world w) user) data = Accepted r -> reachable (time_of w) [] (new_state r)
  | is_renewed t tr s w actor r :
      reachable t tr s -> t <= time_of w -> renew w (users (world w) actor) (request s) = Accepted r ->
      reachable (time_of w) [] (new_state r)
  | goes_on t tr s w o s' :
      reachable t tr s -> t <= time_of w -> perform w o s = Accepted s' ->
      reachable (time_of w) ({| in_world := w; op := o; before := s; after := s' |} :: tr) s'.

(** ** The steps as a relation *)

(** What interferes with the workers. *)
Definition disturbs (o : Op) : bool :=
  match o with Lost _ | Killed _ _ | Redelivered _ | Reconcile _ => true | _ => false end.

(** What commands and the queue add. *)
Definition spawned (o : Op) (s : State) (p : Process) : Prop :=
  match p with
  | Expiring _ => True
  | MarkingFailed i | Interrupting i _ => disturbs o = true /\ is_Some (queries s !! i)
  | _ => False
  end.

Inductive step (w : AccessWorld) (s : State) : Op -> State -> Prop :=
  | step_idle o : (forall p o', o = Advance p o' -> processes s !! p = None) -> step w s o s
  | step_review u approve n l :
      (approve = true -> u <> access_requester (request s) /\
         reviews_access w (users (world w) u) (request s) = true /\ approved_by_id l = Some u) ->
      (approve = false -> approved_by_id l = approved_by_id (access_life (request s))) ->
      step w s (ReviewBy u approve n) (set_access (set_access_life l (request s)) s)
  | step_sent_back actor :
      step w s (Start actor) (set_access (set_access_life (reapproval_life (access_life (request s))) (request s)) s)
  | step_start actor c cs :
      session s = None -> may_start (users (world w) actor) (request s) = true ->
      connections_of w (request s) = Accepted (c :: cs) ->
      workflow_enabled w (access_transport (request s)) = true ->
      ensureQueryAccessRequestCanStart w (request s) = Accepted tt ->
      accessRequestRequiresFreshApproval w (request s) = false ->
      step w s (Start actor)
        (set_access (set_access_life (running_access w (access_life (request s))) (request s))
           (set_session (new_session w actor (request s) c cs) s))
  | step_cancelled o l :
      (forall p o', o <> Advance p o') ->
      approved_by_id l = approved_by_id (access_life (request s)) ->
      step w s o
        (add_processes [Forgetting None]
           (set_access (set_access_life l (request s))
              (match session s with
               | Some x => if isActive w x then set_session (end_session (time_of w) x) s else s
               | None => s
               end)))
  | step_submit actor c sql x :
      session s = Some x -> may_submit (users (world w) actor) x = true ->
      step w s (Submit actor c sql) (add_processes [Submitting x actor c sql] s)
  | step_cancel_query actor i : step w s (CancelQuery actor i) (change i cancel_query s)
  | step_spawn o ps :
      (forall p o', o <> Advance p o') -> Forall (spawned o s) ps -> step w s o (add_processes ps s)
  | step_advance p x o :
      processes s !! p = Some x ->
      step w s (Advance p o) (replace_process p (snd (advance w o x s)) (fst (advance w o x s)))
  | step_killed p x i b :
      processes s !! p = Some x -> works_on x = Some i ->
      step w s (Killed p b) (replace_process p [Interrupting i b] s)
  | step_lost p x i :
      processes s !! p = Some x -> works_on x = Some i -> step w s (Lost p) (replace_process p [] s).

Lemma step_cancelAccess w o s s' :
  (forall p o', o <> Advance p o') -> cancelAccess w s = Accepted s' -> step w s o s'.
Proof.
  intros Ho. unfold cancelAccess. destruct (negb _); [done|]. intros [= <-].
  pose proof (step_cancelled w s o (cancelled_life (world w) (access_life (request s))) Ho eq_refl) as H.
  by destruct (session s) as [x|]; [destruct (isActive w x)|].
Qed.

Lemma step_reviewAccess w u approve n s r :
  reviewAccess w (users (world w) u) approve n (request s) = Accepted r ->
  step w s (ReviewBy u approve n) (set_access r s).
Proof.
  unfold reviewAccess. intros H. apply gate_Accepted in H as [Hg H]. unfold may_review_access in Hg.
  apply andb_true_iff in Hg as [Hg Hr]. apply andb_true_iff in Hg as [_ Hne].
  apply negb_true_iff, Z.eqb_neq in Hne. cbn in Hne.
  destruct (negb _); [done|]. destruct (negb _); [done|]. destruct approve.
  - apply bind_Accepted in H as (? & _ & H). injection H as <-. by apply step_review.
  - injection H as <-. by apply step_review.
Qed.

Lemma step_started w actor s s' :
  may_start (users (world w) actor) (request s) = true ->
  start w (users (world w) actor) s = Accepted s' -> step w s (Start actor) s'.
Proof.
  intros Hg. unfold start. destruct (_ || _) eqn:E; [done|]. apply orb_false_iff in E as [_ E].
  apply is_some_false in E. destruct (workflow_enabled w _) eqn:Hw; [|done]. cbn [negb].
  destruct (connections_of w (request s)) as [[|c cs]|] eqn:Hc; [done| |done]. intros H.
  apply bind_Accepted in H as ([] & He & H). destruct (accessRequestRequiresFreshApproval w (request s)) eqn:Hf.
  - injection H as <-. apply step_sent_back.
  - injection H as <-. by apply (step_start w s actor c cs).
Qed.

Lemma perform_step w o s s' : perform w o s = Accepted s' -> step w s o s'.
Proof.
  assert (Hidle : forall o', (forall p o'', o' <> Advance p o'') -> step w s o' s).
  { intros o' Ho. constructor. intros p o'' ->. by destruct (Ho p o''). }
  destruct o; cbn [perform]; intros H.
  - apply bind_Accepted in H as (r & Hr & H). injection H as <-. by apply step_reviewAccess.
  - apply gate_Accepted in H as [Hg H]. by apply step_started.
  - apply gate_Accepted in H as [_ H]. by apply step_cancelAccess.
  - destruct (session s); [|injection H as <-; by apply Hidle]. apply gate_Accepted in H as [_ H].
    by apply step_cancelAccess.
  - destruct (session s) as [x|] eqn:E; [|injection H as <-; by apply Hidle]. apply gate_Accepted in H as [Hg H].
    destruct (is_some _); [|done]. injection H as <-. by constructor.
  - destruct (session s) as [x|] eqn:E; [|injection H as <-; by apply Hidle]. apply gate_Accepted in H as [Hg H].
    injection H as <-. constructor.
  - destruct (session s) as [x|] eqn:E; [|injection H as <-; by apply Hidle].
    destruct (_ && _); injection H as <-; [|by apply Hidle]. apply step_spawn; [done|by repeat constructor].
  - destruct (queries s !! i) as [q|] eqn:E; injection H as <-; [|by apply Hidle]. apply step_spawn; [done|].
    unfold reconcile. repeat case_match; repeat constructor; cbn; eauto.
  - destruct (processes s !! p) as [x|] eqn:E.
    2: { injection H as <-. constructor. by intros ? ? [= <- <-]. }
    pose proof (step_advance w s p x o E) as Hs. destruct (advance w o x s) as [s1 ps]. by injection H as <-.
  - destruct (processes s !! p) as [x|] eqn:E; [|injection H as <-; by apply Hidle]. cbn in H.
    destruct (works_on x) as [i|] eqn:Hi; injection H as <-; [by econstructor|by apply Hidle].
  - destruct (queries s !! i) as [q|] eqn:E; injection H as <-; [|by apply Hidle]. apply step_spawn; [done|].
    repeat constructor; cbn; eauto.
  - destruct (processes s !! p) as [x|] eqn:E; [|injection H as <-; by apply Hidle]. cbn in H.
    destruct (works_on x) as [i|] eqn:Hi; injection H as <-; [by econstructor|by apply Hidle].
Qed.

(** A new request is approved by its requester, if at all. *)
Definition own_approval (r : AccessRequest) : Prop :=
  forall u, approved_by_id (access_life r) = Some u -> u = access_requester r.

Lemma new_access_own w u primary ids t m minutes requires :
  own_approval (new_access w u primary ids t m minutes requires).
Proof. intros v. cbn. by destruct requires; intros [= <-]. Qed.

Lemma renew_spec w actor r r' :
  renew w actor r = Accepted r' -> own_approval r' /\ minutes_asked r' = minutes_asked r.
Proof.
  unfold renew. intros H. apply gate_Accepted in H as [_ H]. destruct (negb _); [done|].
  apply bind_Accepted in H as (? & _ & H). destruct (connections_of w r) as [[|c cs]|]; [done| |done].
  apply bind_Accepted in H as (? & _ & H). injection H as <-. split; [apply new_access_own|done].
Qed.

Lemma createAccess_spec w u data r :
  createAccess w u data = Accepted r -> own_approval r /\ minutes_asked r = data_duration data ?? 60.
Proof.
  unfold createAccess. intros H. do 6 (apply bind_Accepted in H as (? & _ & H)). injection H as <-.
  split; [apply new_access_own|done].
Qed.

(** Induction over the histories of a property of states and what has happened so far. *)
Lemma reachable_ind_step (P : list Event -> State -> Prop) :
  (forall r, own_approval r -> P [] (new_state r)) ->
  (forall t tr w o s s', t <= time_of w -> reachable t tr s -> P tr s -> step w s o s' ->
     P ({| in_world := w; op := o; before := s; after := s' |} :: tr) s') ->
  forall t tr s, reachable t tr s -> P tr s.
Proof.
  intros H0 Hs. induction 1 as [w user data r _ H|t tr s w actor r _ _ _ H|t tr s w o s' Hr IH Ht H].
  - apply H0. by apply createAccess_spec in H as [Hr _].
  - apply H0. by apply renew_spec in H as [Hr' _].
  - eapply Hs; [done..|]. by apply perform_step.
Qed.

(** The histories of the examples: their times do not decrease. *)
Fixpoint in_order (t : Z) (ops : list (Z * Op)) : bool :=
  match ops with [] => true | (t', _) :: ops' => (t <=? t') && in_order t' ops' end.

Lemma reaches t tr s browser ops s' :
  reachable t tr s -> in_order t ops = true ->
  perform_all (map (fun o => (sample_access browser (fst o), snd o)) ops) s = Accepted s' ->
  exists t' tr', reachable t' tr' s'.
Proof.
  revert t tr s. induction ops as [|[t1 o] ops IH]; intros t tr s Hr Ht H; cbn in Ht, H.
  - injection H as <-. eauto.
  - apply andb_true_iff in Ht as [Ht1 Ht]. apply Z.leb_le in Ht1. apply bind_Accepted in H as (s1 & H1 & H).
    exact (IH t1 _ _ (goes_on t tr s (sample_access browser t1) o s1 Hr Ht1 H1) Ht H).
Qed.

Lemma sample_reaches transport browser ops (P : State -> Prop) :
  access_rules (sample_access true 10) (users (world (sample_access true 10)) 5) (sample_asked transport) &&
    in_order 10 ops = true ->
  match sample_run transport browser ops with Accepted s => P s | Refused _ => False end ->
  exists t tr s, reachable t tr s /\ P s.
Proof.
  intros Hb HP. apply andb_true_iff in Hb as [Hrules Ho].
  destruct (sample_run transport browser ops) as [s|] eqn:E; [|done].
  unfold sample_run in E. apply bind_Accepted in E as (s0 & E0 & E). unfold sample_made in E0.
  apply bind_Accepted in E0 as (r & Hr & E0). injection E0 as <-.
  destruct (reaches 10 [] _ _ _ _ (is_made _ _ _ _ Hrules Hr) Ho E) as (t & tr & H). eauto.
Qed.

(** ** Places of processes *)

(** Replacing a process, up to the order of the others. *)
Lemma replace_Permutation p x ps s s1 :
  processes s !! p = Some x -> processes s1 = processes s ->
  exists rest, processes s ≡ₚ x :: rest /\ processes (replace_process p ps s1) ≡ₚ ps ++ rest.
Proof.
  intros Hx H1. exists (take p (processes s) ++ drop (S p) (processes s)). cbn. rewrite H1. split.
  - rewrite <- (take_drop_middle _ _ _ Hx) at 1. by rewrite Permutation_middle.
  - by rewrite !(Permutation_app_comm ps), <- !app_assoc, (Permutation_app_comm _ ps).
Qed.

Lemma advance_processes w o x s : processes (fst (advance w o x s)) = processes s.
Proof. destruct x; cbn; unfold with_query, complete_request; repeat case_match; done. Qed.

(** Where the processes of a step come from. *)
Lemma step_processes w s o s' x :
  step w s o s' -> x ∈ processes s' ->
  x ∈ processes s \/
  (exists p y o', o = Advance p o' /\ processes s !! p = Some y /\
     s' = replace_process p (snd (advance w o' y s)) (fst (advance w o' y s)) /\ x ∈ snd (advance w o' y s)) \/
  (exists y i, y ∈ processes s /\ works_on y = Some i /\ exists b, x = Interrupting i b) \/
  (exists actor c sql y, session s = Some y /\ may_submit (users (world w) actor) y = true /\
     x = Submitting y actor c sql) \/
  spawned o s x \/ x = Forgetting None.
Proof.
  intros H Hx. destruct H; cbn in Hx; auto.
  - apply elem_of_app in Hx as [Hx|Hx]; [left|right; right; right; right; right; by apply list_elem_of_singleton].
    by destruct (session s) as [y|]; [destruct (isActive w y)|].
  - apply elem_of_app in Hx as [Hx|Hx]; [by left|]. apply list_elem_of_singleton in Hx as ->.
    right; right; right; left. eauto 10.
  - apply elem_of_app in Hx as [Hx|Hx]; [by left|]. right; right; right; right; left.
    rewrite Forall_forall in H0. auto.
  - edestruct (replace_Permutation p x0 (snd (advance w o x0 s)) s (fst (advance w o x0 s)))
      as (rest & H1 & H2); [done|apply advance_processes|].
    fold (replace_process p (snd (advance w o x0 s)) (fst (advance w o x0 s))) in Hx.
    change (x ∈ processes (replace_process p (snd (advance w o x0 s)) (fst (advance w o x0 s)))) in Hx.
    rewrite H2 in Hx. apply elem_of_app in Hx as [Hx|Hx]; [right; left; eauto 10|left].
    rewrite H1. by right.
  - edestruct (replace_Permutation p x0 [Interrupting i b] s s) as (rest & H1 & H2); [done|done|].
    change (x ∈ processes (replace_process p [Interrupting i b] s)) in Hx. rewrite H2 in Hx.
    apply elem_of_app in Hx as [Hx|Hx].
    + apply list_elem_of_singleton in Hx as ->. right; right; left. exists x0, i.
      split; [by eapply list_elem_of_lookup_2|]. eauto.
    + left. rewrite H1. by right.
  - edestruct (replace_Permutation p x0 [] s s) as (rest & H1 & H2); [done|done|].
    change (x ∈ processes (replace_process p [] s)) in Hx. rewrite H2 in Hx. left. rewrite H1. by right.
Qed.

(** ** The life of one query *)

Definition stopped (q : Query) : bool := cancelling q || isTerminal (query_status q).

(** What no step changes of a query, and what it can only add to. *)
Record evolves (q q' : Query) : Prop := {
  same_user : query_user q' = query_user q;
  same_target : query_connection q' = query_connection q;
  same_sql : query_sql q' = query_sql q;
  same_timeout : timeout_seconds q' = timeout_seconds q;
  stays_closed : isTerminal (query_status q) = true -> isTerminal (query_status q') = true;
  stays_stopped : stopped q = true -> stopped q' = true;
  stays_claimed : query_status q <> ExecQueued -> query_status q' <> ExecQueued }.

Lemma evolves_refl q : evolves q q.
Proof. by split. Qed.

Lemma evolves_claim w q : query_status q = ExecQueued -> evolves q (claim w q).
Proof.
  intros H. split; try done.
  - by rewrite H.
  - unfold stopped, cancelling. cbn. rewrite H. cbn. by rewrite !orb_false_r.
Qed.

Lemma evolves_status st q : isTerminal st = true -> evolves q (set_query_status st q).
Proof.
  intros H. split; try done; cbn.
  - intros _. unfold stopped. cbn. rewrite H. by rewrite orb_true_r.
  - intros _. by intros ->.
Qed.

Lemma evolves_cancel q : evolves q (cancel_query q).
Proof.
  unfold cancel_query. destruct (isTerminal _) eqn:Ht; [apply evolves_refl|].
  split; try done; cbn; [by rewrite Ht|]. by case_bool_decide.
Qed.

Lemma evolves_execution st q : evolves q (set_execution st q).
Proof. by split. Qed.

Lemma evolves_snapshot b q : evolves q (set_snapshot b q).
Proof. by split. Qed.

Lemma evolves_backend q : evolves q (note_backend q).
Proof. by split. Qed.

#[local] Hint Resolve evolves_refl evolves_claim evolves_status evolves_cancel evolves_execution
  evolves_snapshot evolves_backend : core.

(** The processes that are about to end a query know a status that ends it. *)
Definition ends (p : Process) : Prop :=
  match p with Finishing _ st | Linking _ st => isTerminal st = true | _ => True end.

Lemma status_after_ends q b : isTerminal (status_after q b) = true.
Proof. unfold status_after. by repeat case_match. Qed.

Lemma interrupted_status_ends q b : isTerminal (interrupted_status q b) = true.
Proof. unfold interrupted_status. by repeat case_match. Qed.

(** A change of one query. *)
Lemma change_evolves i f (qs : list Query) j q :
  (forall q, qs !! i = Some q -> evolves q (f q)) -> qs !! j = Some q ->
  exists q', alter f i qs !! j = Some q' /\ evolves q q'.
Proof.
  intros Hf Hj. destruct (decide (i = j)) as [->|Hne].
  - rewrite list_lookup_alter_eq, Hj. eauto.
  - rewrite list_lookup_alter_ne by done. eauto.
Qed.

Lemma advance_evolves w o x s i q :
  ends x -> queries s !! i = Some q ->
  exists q', queries (fst (advance w o x s)) !! i = Some q' /\ evolves q q'.
Proof.
  intros He Hq.
  assert (Hid : exists q', queries s !! i = Some q' /\ evolves q q') by eauto.
  destruct x; cbn [advance]; unfold with_query, complete_request; repeat (case_match; try exact Hid); cbn; try exact Hid;
    try (apply change_evolves; [|done]; intros q1 Hq1; cbn in He; eauto; fail).
  - rewrite lookup_app_l by (by eapply lookup_lt_Some). eauto.
  - apply change_evolves; [|done]. intros q1 Hq1. apply evolves_claim.
    repeat case_bool_decide; congruence.
  - rewrite list_lookup_fmap, Hq. cbn. eauto.
Qed.

Lemma step_evolves w o s s' i q :
  Forall ends (processes s) -> step w s o s' -> queries s !! i = Some q ->
  exists q', queries s' !! i = Some q' /\ evolves q q'.
Proof.
  intros He H Hq. destruct H; cbn; eauto.
  - by destruct (session s) as [x|]; [destruct (isActive w x)|]; cbn; eauto.
  - apply change_evolves; [|done]. eauto.
  - apply (advance_evolves w o x s i q); [|done]. rewrite Forall_forall in He.
    apply He. by eapply list_elem_of_lookup_2.
Qed.

Lemma change_None (i j : nat) (f : Query -> Query) (qs : list Query) : qs !! j = None -> alter f i qs !! j = None.
Proof. rewrite !lookup_ge_None. by rewrite length_alter. Qed.

(** A new query is one that a process has checked that it may create. *)
Lemma step_new w o s s' i q :
  step w s o s' -> queries s !! i = None -> queries s' !! i = Some q ->
  i = length (queries s) /\ hasActiveQuery s = false /\
  exists p o' user c sql t, o = Advance p o' /\ processes s !! p = Some (Creating user c sql t) /\
    q = new_query w user c sql t /\ queries s' = queries s ++ [q] /\
    processes s' = take p (processes s) ++ [Dispatching (length (queries s))] ++ drop (S p) (processes s).
Proof.
  intros H Hn Hq. destruct H; cbn in Hq; try congruence.
  - destruct (session s) as [x|]; [destruct (isActive w x)|]; cbn in Hq; congruence.
  - by rewrite change_None in Hq.
  - destruct x; cbn [advance] in Hq; unfold with_query, complete_request in Hq;
      repeat (case_match; cbn in Hq; try congruence);
      cbn in Hq; try (by rewrite change_None in Hq).
    + assert (Hi : i = length (queries s)).
      { apply lookup_ge_None in Hn. apply lookup_lt_Some in Hq as Hl. rewrite length_app in Hl. cbn in Hl. lia. }
      subst i. rewrite lookup_app_r, Nat.sub_diag in Hq by lia. injection Hq as <-.
      split_and!; [done..|]. do 6 eexists. split_and!; [done|done|done|..]; cbn [advance]; by rewrite H0.
    + rewrite list_lookup_fmap, Hn in Hq. done.
    + congruence.
Qed.

Lemma advance_ends w o x s : ends x -> Forall ends (snd (advance w o x s)).
Proof.
  destruct x; intros He; cbn [advance]; unfold with_query, caught;
    repeat (case_match; cbn [snd]); repeat constructor; cbn;
    auto using status_after_ends, interrupted_status_ends.
Qed.

Lemma reachable_ends t tr s : reachable t tr s -> Forall ends (processes s).
Proof.
  apply (reachable_ind_step (fun _ s => Forall ends (processes s))); [constructor|].
  clear. intros t tr w o s s' _ _ He H. rewrite Forall_forall in *. intros x Hx.
  destruct (step_processes _ _ _ _ _ H Hx) as [Hs|[(p & y & o' & _ & Hy & _ & Hx')|[(y & i & _ & _ & b & ->)|
    [(? & ? & ? & ? & _ & _ & ->)|[Hs| ->]]]]]; [auto| |done|done| |done].
  - pose proof (advance_ends w o' y s (He y (list_elem_of_lookup_2 _ _ _ Hy))) as Ha.
    rewrite Forall_forall in Ha. auto.
  - by destruct x.
Qed.

(** ** The request and its session *)

Lemma advance_request w o x s : exists l, request (fst (advance w o x s)) = set_access_life l (request s) /\
  approved_by_id l = approved_by_id (access_life (request s)).
Proof.
  assert (Hid : exists l, request s = set_access_life l (request s) /\
    approved_by_id l = approved_by_id (access_life (request s))).
  { exists (access_life (request s)). by destruct (request s). }
  destruct x; cbn [advance]; unfold with_query, complete_request; repeat case_match; try exact Hid.
  cbn. eauto.
Qed.

(** A step changes nothing of a request but its life. *)
Lemma step_request w o s s' : step w s o s' -> exists l, request s' = set_access_life l (request s).
Proof.
  assert (Hid : exists l, request s = set_access_life l (request s)).
  { exists (access_life (request s)). by destruct (request s). }
  destruct 1; cbn; eauto. destruct (advance_request w o x s) as (l & Hl & _). eauto.
Qed.

Lemma advance_session w o x s y :
  session s = Some y ->
  exists y', session (fst (advance w o x s)) = Some y' /\ (y' = y \/ exists t, y' = end_session t y).
Proof.
  intros Hy.
  assert (Hid : exists y', session s = Some y' /\ (y' = y \/ exists t, y' = end_session t y)) by eauto.
  destruct x; cbn [advance]; unfold with_query, complete_request; rewrite ?Hy;
    try (repeat (case_match; try exact Hid); exact Hid).
  cbn. eauto.
Qed.

(** A session once begun only ends. *)
Lemma step_session w o s s' y :
  step w s o s' -> session s = Some y ->
  exists y', session s' = Some y' /\ (y' = y \/ exists t, y' = end_session t y).
Proof.
  intros H Hy. destruct H; cbn; eauto.
  - congruence.
  - rewrite Hy. destruct (isActive w y); cbn; eauto.
  - by apply advance_session.
Qed.

(** ** What is sent is governed *)

(** A reviewer of all connections has approved the request. *)
Definition approved (tr : list Event) (r : AccessRequest) (u : Z) : Prop :=
  exists e n, e ∈ tr /\ op e = ReviewBy u true n /\
    reviews_access (in_world e) (users (world (in_world e)) u) r = true.

(** How a session came about: at some event the requester, or an administrator, started it; the workflow was
    enabled, the policy of the requester allowed it with its length, and if it asked for an approval somebody
    else had given it. *)
Definition begun (tr : list Event) (r : AccessRequest) (x : Session) : Prop :=
  exists later e earlier c cs, tr = later ++ e :: earlier /\ let w := in_world e in
    op e = Start (session_user x) /\ owns_access (users (world w) (session_user x)) r = true /\
    session_started_at x = time_of w /\ expires_at x = time_of w + 60 * minutes_asked r /\
    connections_of w r = Accepted (c :: cs) /\
    session_connection x = connection_id (database c) /\
    databaseConnections x = map (fun c => connection_id (database c)) (c :: cs) /\
    workflow_enabled w (access_transport r) = true /\
    ensure_access (users (world w) (access_requester r)) (c :: cs) (mode_asked r) (minutes_asked r)
      (access_transport r) = Accepted tt /\
    (accessRequestRequiresApproval w r = true -> exists u, u <> access_requester r /\ approved earlier r u).

(** Who may have a query run in a session: its user, or somebody who was an administrator. *)
Definition may_use (tr : list Event) (x : Session) (u : Z) : Prop :=
  u = session_user x \/ exists e, e ∈ tr /\ isAdmin (users (world (in_world e)) u) = true.

(** What a worker found when it checked a query: the session had not expired, the statement is what the guard
    makes of the query's and of its kind, the request and the present roles of the user allow that kind
    on the connection, which is one of the session and the query's own, as long as that exists. *)
Definition checked_in (w : AccessWorld) (r : AccessRequest) (x : Session) (q : Query) (c : Z) (sql : string)
    (t : QueryType) : Prop :=
  time_of w < expires_at x /\ c ∈ databaseConnections x /\
  (is_some (connections (world w) (query_connection q)) = true -> c = query_connection q) /\
  validateSessionExecutable (policy_settings (world w)) (query_sql q) = Accepted sql /\
  classify (policy_settings (world w)) sql = Accepted t /\ allows (mode_asked r) t = true /\
  let u := users (world w) (query_user q) in
  isAdmin u = true \/ allows (query_access_mode (effectiveQueryAccessPermissionFor u c t)) t = true.

Definition governed (tr : list Event) (s : State) (i : nat) (c : Z) (sql : string) (t : QueryType) : Prop :=
  exists q x, queries s !! i = Some q /\ session s = Some x /\ begun tr (request s) x /\
    may_use tr x (query_user q) /\
    exists e, e ∈ tr /\ checked_in (in_world e) (request s) x q c sql t.

(** Sessions that differ in their end alone. *)
Definition same_session (x y : Session) : Prop := exists e, y = {|
  session_user := session_user x; session_connection := session_connection x;
  databaseConnections := databaseConnections x; session_started_at := session_started_at x;
  expires_at := expires_at x; ended_at := e |}.

Lemma same_session_refl x : same_session x x.
Proof. exists (ended_at x). by destruct x. Qed.

Lemma same_session_end x y t : same_session x y -> same_session x (end_session t y).
Proof. intros [e ->]. by eexists. Qed.

Lemma step_same_session w o s s' x y :
  step w s o s' -> session s = Some y -> same_session x y -> exists y', session s' = Some y' /\ same_session x y'.
Proof.
  intros H Hy Hx. destruct (step_session _ _ _ _ _ H Hy) as (y' & Hy' & [->|[t ->]]); eauto using same_session_end.
Qed.

Definition governed_process (tr : list Event) (s : State) (p : Process) : Prop :=
  match p with
  | Submitting copy u _ _ => exists x, session s = Some x /\ may_use tr x u
  | Creating u _ _ _ => exists x, session s = Some x /\ may_use tr x u
  | Validating i copy => is_Some (queries s !! i) /\ exists x, session s = Some x /\ same_session copy x
  | Connecting i c sql t | Started i c sql t => governed tr s i c sql t
  | _ => True
  end.

Record Governed (tr : list Event) (s : State) : Prop := {
  gov_approval : forall u, approved_by_id (access_life (request s)) = Some u -> u <> access_requester (request s) ->
    approved tr (request s) u;
  gov_session : forall x, session s = Some x -> begun tr (request s) x;
  gov_queries : forall i q, queries s !! i = Some q -> exists x, session s = Some x /\ may_use tr x (query_user q);
  gov_processes : forall p, p ∈ processes s -> governed_process tr s p }.

Lemma begun_later tr e r l x : begun tr r x -> begun (e :: tr) (set_access_life l r) x.
Proof.
  intros (later & e0 & earlier & c & cs & -> & H). exists (e :: later), e0, earlier, c, cs. split; [done|exact H].
Qed.

Lemma begun_same tr r x y : same_session x y -> begun tr r x -> begun tr r y.
Proof. intros [e ->] H. exact H. Qed.

Lemma approved_later tr e r l u : approved tr r u -> approved (e :: tr) (set_access_life l r) u.
Proof. intros (e0 & n & He & H). exists e0, n. split; [by right|exact H]. Qed.

Lemma may_use_later tr e x y u : same_session x y -> may_use tr x u -> may_use (e :: tr) y u.
Proof. intros [t ->] [->|(e0 & He & H)]; [by left|right]. exists e0. split; [by right|done]. Qed.

Lemma checked_in_same w r l x y q q' c sql t :
  same_session x y -> evolves q q' -> checked_in w r x q c sql t ->
  checked_in w (set_access_life l r) y q' c sql t.
Proof.
  intros [e ->] [Hu Hc Hs _ _ _] H. unfold checked_in in *. rewrite Hu, Hc, Hs. exact H.
Qed.

Section governed_step.
Context (tr : list Event) (w : AccessWorld) (o : Op) (s s' : State).
Context (Hends : Forall ends (processes s)) (HG : Governed tr s) (H : step w s o s').

Definition now_ : Event := {| in_world := w; op := o; before := s; after := s' |}.

Lemma may_use_step u :
  (exists x, session s = Some x /\ may_use tr x u) -> exists x, session s' = Some x /\ may_use (now_ :: tr) x u.
Proof.
  intros (x & Hx & Hu). destruct (step_same_session _ _ _ _ x x H Hx (same_session_refl x)) as (y & Hy & Hs).
  exists y. split; [done|]. by eapply may_use_later.
Qed.

Lemma governed_later i c sql t : governed tr s i c sql t -> governed (now_ :: tr) s' i c sql t.
Proof.
  intros (q & x & Hq & Hx & Hb & Hu & e & He & Hc).
  destruct (step_evolves _ _ _ _ _ _ Hends H Hq) as (q' & Hq' & Hev).
  destruct (step_same_session _ _ _ _ x x H Hx (same_session_refl x)) as (y & Hy & Hs).
  destruct (step_request _ _ _ _ H) as [l Hl]. exists q', y. rewrite Hl. split_and!; [done..| | |].
  - eapply begun_same; [done|]. by apply begun_later.
  - rewrite (same_user _ _ Hev). by eapply may_use_later.
  - exists e. split; [by right|]. by eapply checked_in_same.
Qed.

Lemma governed_process_later p : governed_process tr s p -> governed_process (now_ :: tr) s' p.
Proof.
  destruct p; cbn; auto using may_use_step, governed_later.
  intros ([q Hq] & x & Hx & Hs). split.
  - destruct (step_evolves _ _ _ _ _ _ Hends H Hq) as (q' & Hq' & _). eauto.
  - by apply (step_same_session _ _ _ _ _ _ H Hx).
Qed.
End governed_step.

Lemma validatedExecution_spec w r copy u sql connection c text t :
  validatedExecution w r copy u sql connection = Accepted (c, text, t) ->
  ended_at copy = None /\ time_of w < expires_at copy /\ c ∈ databaseConnections copy /\
  (is_some (connections (world w) connection) = true -> c = connection) /\
  validateSessionExecutable (policy_settings (world w)) sql = Accepted text /\
  classify (policy_settings (world w)) text = Accepted t /\ allows (mode_asked r) t = true /\
  (isAdmin u = true \/ allows (query_access_mode (effectiveQueryAccessPermissionFor u c t)) t = true).
Proof.
  unfold validatedExecution. intros H. destruct (isActive w copy) eqn:Ha; [|done]. cbn [negb] in H.
  unfold isActive in Ha. bool_hyps. apply is_some_false in H0. apply Z.ltb_lt in H1.
  case_bool_decide as Hin; [|done]. cbn [negb] in H.
  apply bind_Accepted in H as (text' & Hv & H). apply bind_Accepted in H as (t' & Hc & H).
  destruct (allows (mode_asked r) t') eqn:Hm; [|done]. cbn [negb] in H.
  destruct (negb (isAdmin u) && _) eqn:Hp; [done|]. injection H as <- <- <-. split_and!; try done.
  - by intros ->.
  - apply andb_false_iff in Hp as [Hp|Hp]; apply negb_false_iff in Hp; auto.
Qed.

Section governed_advance.
Context (tr : list Event) (w : AccessWorld) (o : Op) (s s' : State).
Context (Hends : Forall ends (processes s)) (HG : Governed tr s) (H : step w s o s').

Local Notation tr' := (now_ w o s s' :: tr).

Lemma governed_waiting i x :
  is_Some (queries s !! i) -> session s = Some x -> governed_process tr' s' (Validating i x).
Proof.
  intros [q Hq] Hx. cbn. split.
  - destruct (step_evolves _ _ _ _ _ _ Hends H Hq) as (q' & Hq' & _). eauto.
  - exact (step_same_session _ _ _ _ x x H Hx (same_session_refl x)).
Qed.

Lemma governed_validated i copy q c sql t :
  queries s !! i = Some q -> governed_process tr s (Validating i copy) ->
  validatedExecution w (request s) copy (users (world w) (query_user q)) (query_sql q) (query_connection q) =
    Accepted (c, sql, t) ->
  governed tr' s' i c sql t.
Proof.
  intros Hq (_ & x & Hx & Hs) Hv. apply validatedExecution_spec in Hv as (_ & Hv).
  destruct (step_evolves _ _ _ _ _ _ Hends H Hq) as (q' & Hq' & Hev).
  destruct (step_same_session _ _ _ _ _ _ H Hx Hs) as (y & Hy & Hsy).
  destruct (step_request _ _ _ _ H) as [l Hl].
  destruct (step_same_session _ _ _ _ x x H Hx (same_session_refl x)) as (y' & Hy' & Hsy').
  assert (y' = y) as -> by congruence.
  destruct (gov_queries _ _ HG _ _ Hq) as (x' & Hx' & Hu). assert (x' = x) as -> by congruence.
  exists q', y. rewrite Hl. split_and!; [done..| | |].
  - eapply begun_same; [exact Hsy'|]. by apply begun_later, HG.
  - rewrite (same_user _ _ Hev). by apply (may_use_later _ _ x).
  - exists (now_ w o s s'). split; [left|]. by apply (checked_in_same _ _ _ copy y q).
Qed.

Lemma governed_next o' p y x :
  o = Advance p o' -> processes s !! p = Some y -> x ∈ snd (advance w o' y s) -> governed_process tr' s' x.
Proof.
  intros Ho Hy Hx. pose proof (gov_processes _ _ HG y (list_elem_of_lookup_2 _ _ _ Hy)) as Hg.
  destruct y; cbn [advance] in Hx; unfold with_query, caught in Hx; repeat (case_match; cbn [snd] in Hx);
    repeat (apply elem_of_cons in Hx as [->|Hx]); try (by apply elem_of_nil in Hx); try exact I.
  - cbn. by eapply may_use_step.
  - by apply governed_waiting.
  - cbn [governed_process]. destruct a as [[c sql] t]. by eapply governed_validated.
  - by apply governed_later.
Qed.
End governed_advance.

Lemma governed_step tr w o s s' :
  Forall ends (processes s) -> Governed tr s -> step w s o s' -> Governed (now_ w o s s' :: tr) s'.
Proof.
  intros He HG H. destruct (step_request _ _ _ _ H) as [l Hl]. split.
  - intros u Hu Hne. rewrite Hl in Hne. cbn in Hne.
    assert (Hold : approved_by_id (access_life (request s)) = Some u ->
      approved (now_ w o s s' :: tr) (request s') u).
    { intros Ha. rewrite Hl. apply approved_later, HG; done. }
    clear Hl. destruct H; cbn in Hu, Hne |- *; auto; try done.
    + destruct approve; [|by apply Hold; rewrite <- H0].
      destruct (H eq_refl) as (Hr & Hrev & Ha). rewrite Ha in Hu. injection Hu as ->.
      eexists (now_ _ _ _ _), n. split; [left|]. split; [done|exact Hrev].
    + apply Hold. by rewrite <- H0.
    + apply Hold. destruct (advance_request w o x s) as (l' & Hl' & Ha). rewrite Hl' in Hu. cbn in Hu. congruence.
  - intros x Hx. destruct (session s) as [y|] eqn:Hy.
    + destruct (step_session _ _ _ _ _ H Hy) as (y' & Hy' & Hyy). rewrite Hl.
      assert (y' = x) as -> by congruence. apply begun_later. eapply (begun_same _ _ y); [|by apply HG].
      destruct Hyy as [->|[t ->]]; [apply same_session_refl|by eexists].
    + clear Hl. destruct H; cbn in Hx; rewrite ?Hy in Hx; try congruence.
      * injection Hx as <-. exists [], (now_ w (Start actor) s
          (set_access (set_access_life (running_access w (access_life (request s))) (request s))
             (set_session (new_session w actor (request s) c cs) s))), tr, c, cs.
        split; [done|]. unfold may_start in H0. apply andb_true_iff in H0 as [_ Hown]. cbn [in_world now_ op].
        split_and!; try done.
        -- unfold ensureQueryAccessRequestCanStart in H3. rewrite H1 in H3. exact H3.
        -- intros Hreq. change (accessRequestRequiresApproval w (request s) = true) in Hreq.
           unfold accessRequestRequiresFreshApproval in H4. rewrite Hreq in H4. cbn in H4.
           apply orb_false_iff in H4 as [H4 Hne]. apply orb_false_iff in H4 as [_ H4].
           apply negb_false_iff, is_some_true in H4 as [u Hu]. apply bool_decide_eq_false in Hne.
           exists u. split; [cbn; congruence|]. destruct HG as [HGa _ _ _].
           destruct (HGa u Hu ltac:(congruence)) as (e & n' & Hin & Hop & Hrev). exists e, n'. done.
      * destruct x0; cbn [advance] in Hx; unfold with_query, complete_request in Hx;
          repeat (case_match; cbn in Hx; try congruence); cbn in Hx; congruence.
  - intros i q Hq. destruct (queries s !! i) as [q0|] eqn:Hq0.
    + destruct (step_evolves _ _ _ _ _ _ He H Hq0) as (q1 & Hq1 & Hev). assert (q1 = q) as -> by congruence.
      rewrite (same_user _ _ Hev). eapply may_use_step; [done|]. by eapply HG.
    + destruct (step_new _ _ _ _ _ _ H Hq0 Hq) as (_ & _ & p & o' & user & c & sql & t & _ & Hp & -> & _).
      eapply may_use_step; [done|].
      exact (gov_processes _ _ HG _ (list_elem_of_lookup_2 _ _ _ Hp)).
  - intros x Hx.
    destruct (step_processes _ _ _ _ _ H Hx) as [Hs|[(p & y & o' & Ho & Hy & _ & Hx')|[(y & i & _ & _ & b & ->)|
      [(actor & c & sql & y & Hy & Hm & ->)|[Hs| ->]]]]].
    + apply governed_process_later; [done..|]. by apply HG.
    + by eapply governed_next.
    + exact I.
    + destruct (step_same_session _ _ _ _ _ _ H Hy (same_session_refl y)) as (y' & Hy' & [e ->]).
      cbn. eexists. split; [exact Hy'|]. unfold may_use. cbn. unfold may_submit in Hm.
      apply orb_true_iff in Hm as [Ha|Ha]; [right|left].
      * exists (now_ w o s s'). split; [left|done].
      * apply Z.eqb_eq in Ha. cbn in Ha. congruence.
    + by destruct x.
    + exact I.
Qed.

Lemma reachable_governed t tr s : reachable t tr s -> Governed tr s.
Proof.
  intros H. apply (reachable_ind_step Governed) with (t := t) (tr := tr) (s := s); [| |done].
  - intros r Hr. split; cbn; try done.
    + intros u Hu Hne. by apply Hr in Hu.
    + intros p Hp. by apply elem_of_nil in Hp.
  - clear. intros t tr w o s s' _ Hr HG H. apply governed_step; [|done..]. by eapply reachable_ends.
Qed.

(** C2. Whatever is sent to a database from a query session is governed, however users, workers, commands
    and administrators interleave: the session goes back to a request that the policy of its requester
    allowed when it began, with its length, and that somebody else had approved if that policy asked for
    it; the query was submitted by the user of the session or by an administrator; and when a worker
    checked it the session had not expired, its statement was one the guard admits, of a kind that the
    approved mode and the roles the user has then allow, on a connection of the session. *)
Theorem what_is_sent_is_governed t tr s i c sql ty :
  reachable t tr s -> Started i c sql ty ∈ processes s -> governed tr s i c sql ty.
Proof. intros H Hin. apply reachable_governed in H. exact (gov_processes _ _ H _ Hin). Qed.

Lemma what_is_sent_is_governed_witness :
  exists t tr s, reachable t tr s /\ Started 0 1 "select 1" ReadQuery ∈ processes s /\
    governed tr s 0 1 "select 1" ReadQuery.
Proof.
  destruct (sample_reaches "browser" true (begun_ops ++ [(42, Advance 0 Fine)])
    (fun s => Started 0 1 "select 1" ReadQuery ∈ processes s)) as (t & tr & s & Hr & Hin);
    [vm_compute; reflexivity|vm_compute; left|].
  exists t, tr, s. split; [exact Hr|]. split; [exact Hin|].
  exact (what_is_sent_is_governed t tr s 0 1 "select 1" ReadQuery Hr Hin).
Defined.
