(* ===== verification/SessionRuns.v ===== *)
(** * How the queries of a session run

    Of the histories of [SessionSafety]: queries run one by one, what is over stays over, each is sent to
    its database once at most, and nothing is sent once the session is over. *)

From Stdlib Require Import String.
From S2P Require Import Prelude Lists JsString CrucibleLib SqlPolicy QueryGuard StatementAnalyzer DeploymentPolicy Permissions DeploymentPreflight Workflow Access Sessions SessionSafety.

Open Scope string_scope.
Open Scope Z_scope.
Open Scope list_scope.

(** ** One by one *)

Definition active_at (s : State) (i : nat) : Prop :=
  exists q, queries s !! i = Some q /\ is_active_status (query_status q) = true.

Lemma active_before w o s s' i :
  Forall ends (processes s) -> step w s o s' -> active_at s' i ->
  active_at s i \/ i = length (queries s) /\ hasActiveQuery s = false.
Proof.
  intros He H (q & Hq & Ha). destruct (queries s !! i) as [q0|] eqn:Hq0.
  - left. exists q0. split; [done|]. destruct (step_evolves _ _ _ _ _ _ He H Hq0) as (q' & Hq' & Hev).
    assert (q' = q) as -> by congruence. pose proof (stays_closed _ _ Hev) as Hc. unfold isTerminal in Hc.
    rewrite Ha in Hc. destruct (is_active_status (query_status q0)); [done|]. by specialize (Hc eq_refl).
  - right. destruct (step_new _ _ _ _ _ _ H Hq0 Hq) as (-> & Hn & _). done.
Qed.

Lemma hasActiveQuery_false s i : hasActiveQuery s = false -> ~ active_at s i.
Proof.
  unfold hasActiveQuery. rewrite existsb_false_elem. intros H (q & Hq & Ha).
  rewrite (H q) in Ha by (by eapply list_elem_of_lookup_2). done.
Qed.

Lemma reachable_one t tr s i j : reachable t tr s -> active_at s i -> active_at s j -> i = j.
Proof.
  intros H. revert i j.
  apply (reachable_ind_step (fun _ s => forall i j, active_at s i -> active_at s j -> i = j)) with (t := t) (tr := tr);
    [| |done].
  - intros r Hr i j (q & Hq & _). done.
  - clear. intros t tr w o s s' _ Hr IH H i j Hi Hj. pose proof (reachable_ends _ _ _ Hr) as He.
    destruct (active_before _ _ _ _ _ He H Hi) as [Hi'|[Hi' Hn]], (active_before _ _ _ _ _ He H Hj) as [Hj'|[Hj' Hn']];
      try (by subst); auto; exfalso; by eapply hasActiveQuery_false.
Qed.

(** ** Once *)

Definition is_started (p : Process) : bool := match p with Started _ _ _ _ => true | _ => false end.

(** The query whose statement a process sends to its database with its next step, *)
Definition sends_now (w : AccessWorld) (o : Outcome) (x : Process) (s : State) : option nat :=
  match x with
  | Connecting i _ _ _ => if existsb is_started (snd (advance w o x s)) then Some i else None
  | _ => None
  end.

(** and the query whose statement an event has sent. *)
Definition sends (e : Event) : option nat :=
  match op e with
  | Advance p o => processes (before e) !! p ≫= fun x => sends_now (in_world e) o x (before e)
  | _ => None
  end.

Definition sends_to (i : nat) (e : Event) : bool := bool_decide (sends e = Some i).

(** A worker on the way from its claim to the statement. *)
Definition on_the_way (i : nat) (p : Process) : bool :=
  match p with Validating j _ | Connecting j _ _ _ => bool_decide (j = i) | _ => false end.

(** A query is not yet claimed. *)
Definition waits (s : State) (i : nat) : bool :=
  match queries s !! i with Some q => bool_decide (query_status q = ExecQueued) | None => true end.

Definition chances (tr : list Event) (s : State) (i : nat) : nat :=
  (countb (on_the_way i) (processes s) + countb (sends_to i) tr)%nat.

(** A worker gets on the way by its claim only, and leaves it with the statement at the latest. *)
Lemma advance_on_the_way w o x s i :
  (countb (on_the_way i) (snd (advance w o x s)) + (if bool_decide (sends_now w o x s = Some i) then 1 else 0) <=
   countb (on_the_way i) [x])%nat \/
  x = Waiting i /\ waits s i = true /\ waits (fst (advance w o x s)) i = false /\
  countb (on_the_way i) (snd (advance w o x s)) = 1%nat.
Proof.
  destruct x as [| | |j|j copy|j c sql t| | | | | | | | | | | | |ids k|]; cbn [sends_now];
    try rewrite (bool_decide_false (None = Some i)) by done;
    try (left; cbn [advance]; unfold with_query, countb; cbn; repeat (case_match; cbn); lia).
  - cbn [advance]. unfold with_query, waits. destruct (queries s !! j) as [q|] eqn:Hq; [|left; unfold countb; cbn; lia].
    destruct (session s) as [y|]; [|left; unfold countb; cbn; lia].
    case_bool_decide as Hs; [|left; unfold countb; cbn; lia]. destruct (decide (j = i)) as [->|Hne].
    + right. rewrite Hq. unfold countb. cbn. rewrite list_lookup_alter_eq, Hq. cbn.
      rewrite (bool_decide_true (i = i)), (bool_decide_true (query_status q = ExecQueued)) by done. done.
    + left. unfold countb. cbn. by rewrite bool_decide_false.
  - left. cbn [advance]. unfold with_query, caught. destruct (queries s !! j); [|unfold countb; cbn; case_match; cbn; lia].
    unfold countb. repeat (case_match; cbn); lia.
  - left. cbn [advance]. unfold with_query, countb.
    destruct o; [destruct (queries s !! j) as [q|]; [destruct (cancelling q)|]|];
      cbn; repeat (case_bool_decide; simplify_eq; cbn); lia.
Qed.

Lemma waits_before w o s s' i : Forall ends (processes s) -> step w s o s' -> waits s' i = true -> waits s i = true.
Proof.
  intros He H. unfold waits. destruct (queries s !! i) as [q|] eqn:Hq; [|done].
  destruct (step_evolves _ _ _ _ _ _ He H Hq) as (q' & -> & Hev). rewrite !bool_decide_eq_true.
  intros Hq'. destruct (decide (query_status q = ExecQueued)) as [|Hne]; [done|].
  by apply (stays_claimed _ _ Hev) in Hne.
Qed.

Definition once (tr : list Event) (s : State) : Prop :=
  forall i, (chances tr s i <= 1)%nat /\ (waits s i = true -> chances tr s i = 0%nat).

(** Steps that bring nobody on the way. *)
Lemma once_le tr w o s s' :
  Forall ends (processes s) -> step w s o s' -> once tr s ->
  (forall i, (chances (now_ w o s s' :: tr) s' i <= chances tr s i)%nat) -> once (now_ w o s s' :: tr) s'.
Proof.
  intros He H Ho Hle i. destruct (Ho i) as [H1 H2]. specialize (Hle i). split; [lia|].
  intros Hw. specialize (H2 (waits_before _ _ _ _ _ He H Hw)). lia.
Qed.

Lemma sends_nothing w o s s' tr i :
  (forall p o', o <> Advance p o') -> countb (sends_to i) (now_ w o s s' :: tr) = countb (sends_to i) tr.
Proof. intros Ho. rewrite countb_cons. unfold sends_to, sends. cbn. by destruct o; try (by destruct (Ho p o)). Qed.

Lemma once_step tr w o s s' :
  Forall ends (processes s) -> step w s o s' -> once tr s -> once (now_ w o s s' :: tr) s'.
Proof.
  intros He H Ho.
  assert (Hsame : (forall p o', o <> Advance p o') ->
    (forall i, (countb (on_the_way i) (processes s') <= countb (on_the_way i) (processes s))%nat) ->
    once (now_ w o s s' :: tr) s').
  { intros Hn Hle. apply once_le; [done..|]. intros i. unfold chances. rewrite sends_nothing by done.
    specialize (Hle i). lia. }
  destruct H; try (apply Hsame; [done|intros j; cbn; lia]).
  - apply once_le; [done|by constructor|done|]. intros i. unfold chances.
    destruct o as [| | | | | | | |p o'| | |]; try (rewrite sends_nothing by done; lia).
    rewrite countb_cons. unfold sends_to at 1, sends. cbn [op before now_ in_world]. rewrite (H p o' eq_refl).
    cbn [mbind option_bind]. rewrite bool_decide_false by done. lia.
  - apply Hsame; [done|]. intros i. cbn. rewrite countb_app, countb_cons, countb_nil.
    destruct (session s) as [x|]; [destruct (isActive w x)|]; cbn; lia.
  - apply Hsame; [done|]. intros i. cbn. rewrite countb_app, countb_cons, countb_nil. cbn. lia.
  - apply Hsame; [done|]. intros i. cbn. rewrite countb_app.
    assert (countb (on_the_way i) ps = 0%nat) as ->; [|lia]. apply countb_zero. intros x Hx.
    rewrite Forall_forall in H0. specialize (H0 x Hx). by destruct x.
  - pose proof (step_advance w s p x o H) as Hstep.
    destruct (replace_Permutation p x (snd (advance w o x s)) s (fst (advance w o x s)))
      as (rest & H1 & H2); [done|apply advance_processes|].
    assert (Hc : forall i, chances tr s i = (countb (on_the_way i) [x] + (countb (on_the_way i) rest + countb (sends_to i) tr))%nat).
    { intros i. unfold chances. rewrite (countb_Permutation _ _ _ H1), !(countb_cons _ x), countb_nil. lia. }
    assert (Hc' : forall i, chances (now_ w (Advance p o) s (replace_process p (snd (advance w o x s)) (fst (advance w o x s))) :: tr)
        (replace_process p (snd (advance w o x s)) (fst (advance w o x s))) i =
      ((countb (on_the_way i) (snd (advance w o x s)) + (if bool_decide (sends_now w o x s = Some i) then 1 else 0)) +
       (countb (on_the_way i) rest + countb (sends_to i) tr))%nat).
    { intros i. unfold chances. rewrite (countb_Permutation _ _ _ H2), countb_app, (countb_cons (sends_to i)).
      unfold sends_to at 1, sends. cbn [op before now_ in_world]. rewrite H. cbn [mbind option_bind]. lia. }
    intros i. rewrite Hc'. destruct (Ho i) as [Ho1 Ho2]. rewrite Hc in Ho1, Ho2.
    destruct (advance_on_the_way w o x s i) as [Hle|(-> & Hw & Hw' & Hone)].
    + split; [lia|]. intros Hw. specialize (Ho2 (waits_before _ _ _ _ _ He Hstep Hw)). lia.
    + specialize (Ho2 Hw). rewrite Hone. cbn [sends_now]. rewrite bool_decide_false by done. split; [lia|].
      intros Hw2. change (waits (fst (advance w o (Waiting i) s)) i = true) in Hw2. congruence.
  - apply Hsame; [done|]. intros i0.
    destruct (replace_Permutation p x [Interrupting i b] s s) as (rest & H1 & H2); [done|done|].
    rewrite (countb_Permutation _ _ _ H1), (countb_Permutation _ _ _ H2), (countb_cons _ x), countb_app, ?countb_cons, countb_nil. cbn. lia.
  - apply Hsame; [done|]. intros i0.
    destruct (replace_Permutation p x [] s s) as (rest & H1 & H2); [done|done|].
    rewrite (countb_Permutation _ _ _ H1), (countb_Permutation _ _ _ H2), (countb_cons _ x), countb_app, ?countb_cons, countb_nil. cbn. lia.
Qed.

Lemma reachable_once t tr s : reachable t tr s -> once tr s.
Proof.
  intros H. apply (reachable_ind_step once) with (t := t) (tr := tr) (s := s); [| |done].
  - intros r _ i. unfold chances. cbn. rewrite !countb_nil. split; [lia|done].
  - clear. intros t tr w o s s' _ Hr Ho H. apply once_step; [|done..]. by eapply reachable_ends.
Qed.

(** C6. The queries of a session run one by one, and each once.  In every history, with jobs that are
    killed, lost or delivered again: at most one query of the session is queued, running or being
    cancelled; a query that is over stays over, whatever happens next; and the statement of a query is
    sent to its database at most once. *)
Theorem queries_run_one_by_one t tr s :
  reachable t tr s ->
  (forall i j, active_at s i -> active_at s j -> i = j) /\
  (forall w o s' i q, perform w o s = Accepted s' -> queries s !! i = Some q ->
     isTerminal (query_status q) = true ->
     exists q', queries s' !! i = Some q' /\ isTerminal (query_status q') = true) /\
  forall i, (countb (sends_to i) tr <= 1)%nat.
Proof.
  intros H. split_and!.
  - intros i j. by eapply reachable_one.
  - intros w o s' i q Hp Hq Ht.
    destruct (step_evolves w o s s' i q) as (q' & Hq' & Hev); [by eapply reachable_ends|by apply perform_step|done|].
    exists q'. split; [done|]. by apply (stays_closed _ _ Hev).
  - intros i. destruct (reachable_once _ _ _ H i) as [Hc _]. unfold chances in Hc. lia.
Qed.

(** ** Nothing after the end *)

(** A worker that may still send a statement: it has read the session before its end. *)
Definition heading (p : Process) : option nat :=
  match p with
  | Validating i copy => if is_some (ended_at copy) then None else Some i
  | Connecting i _ _ _ => Some i
  | _ => None
  end.

(** A process that will cancel a query. *)
Definition sweeps (i : nat) (p : Process) : Prop :=
  match p with
  | Forgetting _ | Sweep _ => True
  | Sweeping ids _ => i ∈ ids
  | _ => False
  end.

Definition over (s : State) : Prop := exists x, session s = Some x /\ is_some (ended_at x) = true.

(** The query is stopped, or about to be. *)
Definition halted (s : State) (i : nat) : Prop :=
  (exists p, p ∈ processes s /\ sweeps i p) \/ exists q, queries s !! i = Some q /\ stopped q = true.

Definition halts (s : State) : Prop :=
  over s -> forall p i, p ∈ processes s -> heading p = Some i -> halted s i.

(** What becomes of a process. *)
Lemma step_keeps w o s s' z :
  step w s o s' -> z ∈ processes s ->
  z ∈ processes s' \/
  (exists i p, works_on z = Some i /\
     ((exists b, o = Killed p b /\ Interrupting i b ∈ processes s') \/ o = Lost p)) \/
  exists p o', o = Advance p o' /\ s' = replace_process p (snd (advance w o' z s)) (fst (advance w o' z s)) /\
    snd (advance w o' z s) ⊆ processes s'.
Proof.
  intros H Hz. destruct H; cbn; auto.
  - left. apply elem_of_app. left. by destruct (session s) as [x|]; [destruct (isActive w x)|].
  - left. apply elem_of_app. by left.
  - left. apply elem_of_app. by left.
  - destruct (replace_Permutation p x (snd (advance w o x s)) s (fst (advance w o x s)))
      as (rest & H1 & H2); [done|apply advance_processes|].
    rewrite H1 in Hz. apply elem_of_cons in Hz as [->|Hz].
    + right; right. exists p, o. split_and!; [done|done|]. intros y Hy.
      change (y ∈ processes (replace_process p (snd (advance w o x s)) (fst (advance w o x s)))).
      rewrite H2. apply elem_of_app. by left.
    + left. change (z ∈ processes (replace_process p (snd (advance w o x s)) (fst (advance w o x s)))).
      rewrite H2. apply elem_of_app. by right.
  - destruct (replace_Permutation p x [Interrupting i b] s s) as (rest & H1 & H2); [done|done|].
    rewrite H1 in Hz. apply elem_of_cons in Hz as [->|Hz]; [right; left|left].
    + exists i, p. split; [done|]. left. exists b. split; [done|].
      change (Interrupting i b ∈ processes (replace_process p [Interrupting i b] s)). rewrite H2. left.
    + change (z ∈ processes (replace_process p [Interrupting i b] s)). rewrite H2. apply elem_of_app. by right.
  - destruct (replace_Permutation p x [] s s) as (rest & H1 & H2); [done|done|].
    rewrite H1 in Hz. apply elem_of_cons in Hz as [->|Hz]; [right; left; eauto 10|left].
    change (z ∈ processes (replace_process p [] s)). by rewrite H2.
Qed.

Lemma active_queries_spec s i q :
  queries s !! i = Some q -> is_active_status (query_status q) = true -> i ∈ active_queries s.
Proof.
  intros Hq Ha. unfold active_queries. apply list_elem_of_In, filter_In. split.
  - apply in_seq. apply lookup_lt_Some in Hq. lia.
  - by rewrite Hq.
Qed.

Lemma stopped_cancel q : stopped (cancel_query q) = true.
Proof.
  unfold cancel_query, stopped, cancelling. destruct (isTerminal (query_status q)) eqn:Ht; [|done].
  by rewrite Ht, orb_true_r.
Qed.

(** What is about to be stopped is stopped or still about to be. *)
Lemma halted_step w o s s' i :
  Forall ends (processes s) -> step w s o s' -> is_Some (queries s !! i) -> halted s i -> halted s' i.
Proof.
  intros He H [q Hq] [(z & Hz & Hsw)|(q0 & Hq0 & Hs)].
  - destruct (step_keeps _ _ _ _ _ H Hz) as [Hin|[(j & n & Hw & _)|(p & o' & -> & Hs' & Hsub)]].
    + left. eauto.
    + by destruct z.
    + destruct z as [| | | | | | | | | | | | | | | |k|k|ids k|]; cbn in Hsw; try done.
      * left. exists (Sweep k). split; [|done]. apply Hsub. left.
      * destruct (is_active_status (query_status q)) eqn:Ha.
        -- left. exists (Sweeping (active_queries s) k). split; [apply Hsub; left|]. cbn.
           by eapply active_queries_spec.
        -- right. exists q. rewrite Hs'. split; [done|]. unfold stopped, isTerminal. by rewrite Ha, orb_true_r.
      * destruct ids as [|j ids]; [by apply elem_of_nil in Hsw|].
        apply elem_of_cons in Hsw as [->|Hin].
        -- right. exists (cancel_query q). rewrite Hs'. cbn. rewrite list_lookup_alter_eq, Hq. cbn.
           split; [done|]. apply stopped_cancel.
        -- left. exists (Sweeping ids k). split; [|done]. apply Hsub. left.
  - right. destruct (step_evolves _ _ _ _ _ _ He H Hq0) as (q' & Hq' & Hev). exists q'.
    split; [done|]. by apply (stays_stopped _ _ Hev).
Qed.

(** A session that has just ended is being swept. *)
Lemma just_over w o s s' : step w s o s' -> over s' -> over s \/ exists p, p ∈ processes s' /\ forall i, sweeps i p.
Proof.
  intros H (x & Hx & He). destruct H; cbn in *; try (left; by exists x).
  - by injection Hx as <-.
  - right. exists (Forgetting None). split; [|done]. apply elem_of_app. right. left.
  - destruct (replace_Permutation p x0 (snd (advance w o x0 s)) s (fst (advance w o x0 s)))
      as (rest & H1 & H2); [done|apply advance_processes|].
    assert (Hin : forall y, y ∈ snd (advance w o x0 s) ->
      y ∈ take p (processes (fst (advance w o x0 s))) ++ snd (advance w o x0 s) ++ drop (S p) (processes (fst (advance w o x0 s)))).
    { intros y Hy. change (y ∈ processes (replace_process p (snd (advance w o x0 s)) (fst (advance w o x0 s)))).
      rewrite H2. apply elem_of_app. by left. }
    destruct x0 as [| | | | | | | | | | | | | | |copied| | | |]; cbn [advance] in *;
      try (left; exists x; split; [|done]; revert Hx; unfold with_query, complete_request;
           repeat case_match; cbn; intros; congruence).
    destruct (session s) as [y|] eqn:Hy; [|cbn in Hx; congruence].
    right. eexists. split; [apply Hin; left|done].
Qed.

Lemma heading_exists tr s p i : Governed tr s -> p ∈ processes s -> heading p = Some i -> is_Some (queries s !! i).
Proof.
  intros HG Hp Hi. pose proof (gov_processes _ _ HG p Hp) as Hg. destruct p; cbn in Hi; try done.
  - destruct (is_some _); [done|]. injection Hi as ->. by destruct Hg.
  - injection Hi as ->. destruct Hg as (q & _ & Hq & _). eauto.
Qed.

Lemma halts_step tr w o s s' :
  Forall ends (processes s) -> Governed tr s -> halts s -> step w s o s' -> halts s'.
Proof.
  intros He HG Hh H Ho p i Hp Hi.
  assert (Hold : forall y, y ∈ processes s -> heading y = Some i -> halted s' i).
  { intros y Hy Hyi. destruct (just_over _ _ _ _ H Ho) as [Hov|(z & Hz & Hsw)].
    - eapply halted_step; [done..| |by eapply Hh]. by eapply heading_exists.
    - left. eauto. }
  destruct (step_processes _ _ _ _ _ H Hp) as [Hs|[(n & y & o' & Ho' & Hy & Hs' & Hx)|[(y & j & _ & _ & b & ->)|
    [(? & ? & ? & ? & _ & _ & ->)|[Hs| ->]]]]]; [by eapply Hold| |done|done| |done].
  - assert (Hyin : y ∈ processes s) by (by eapply list_elem_of_lookup_2).
    destruct y; cbn [advance] in Hx; unfold with_query, caught in Hx; repeat (case_match; cbn [snd] in Hx);
      repeat (apply elem_of_cons in Hx as [->|Hx]); try (by apply elem_of_nil in Hx); try done.
    + exfalso. cbn in Hi. destruct (is_some _) eqn:Hend; [done|]. destruct Ho as (x & Hsx & Hxe).
      rewrite Hs' in Hsx. cbn [advance] in Hsx. unfold with_query in Hsx.
      repeat (case_match; cbn in Hsx; try congruence).
    + apply (Hold _ Hyin). cbn in Hi |- *. destruct a as [[c sql] ty].
      apply validatedExecution_spec in H1 as (-> & _). done.
  - by destruct p.
Qed.

Lemma reachable_halts t tr s : reachable t tr s -> halts s.
Proof.
  intros H. apply (reachable_ind_step (fun _ => halts)) with (t := t) (tr := tr); [| |done].
  - intros r _ (x & Hx & _). done.
  - clear. intros t tr w o s s' _ Hr Hh H. eapply halts_step; [by eapply reachable_ends|by eapply reachable_governed|done..].
Qed.


(** ** Witnesses *)

Lemma queries_run_one_by_one_witness :
  exists t tr s, reachable t tr s /\ active_at s 0 /\ forall i, (countb (sends_to i) tr <= 1)%nat.
Proof.
  destruct (sample_reaches "browser" true begun_ops (fun s => active_at s 0)) as (t & tr & s & Hr & Ha);
    [vm_compute; reflexivity|vm_compute; eexists; split; reflexivity|].
  exists t, tr, s. split; [exact Hr|]. split; [exact Ha|].
  exact (proj2 (proj2 (queries_run_one_by_one t tr s Hr))).
Defined.

(** The exception: the worker of a query that is closed as timed out still connects when its session is over. *)
Definition over_ops : list (Z * Op) :=
  begun_ops ++ [(80, Reconcile 0); (80, Advance 1 Fine); (80, Advance 1 Fine); (80, Advance 1 Fine); (81, EndSession 5);
                (81, Advance 1 Fine); (81, Advance 1 Fine); (81, Advance 1 Fine)].

