(* ===== verification/SessionRest.v ===== *)
(** * How a session comes to rest

    Of the histories of [SessionSafety]: every process makes a bounded number of steps, and when all have
    made them no query is left open; the limits of a session; and what goes wrong. *)

From Stdlib Require Import String.
From S2P Require Import Prelude Lists JsString CrucibleLib SqlPolicy QueryGuard StatementAnalyzer DeploymentPolicy Permissions DeploymentPreflight Workflow Access Sessions SessionSafety SessionRuns.

Open Scope string_scope.
Open Scope Z_scope.
Open Scope list_scope.

(** ** Bounded work *)

(** How many queries there can still be, *)
Definition creators (p : Process) : bool :=
  match p with Submitting _ _ _ _ | Creating _ _ _ _ => true | _ => false end.

Definition room (s : State) : nat := (length (queries s) + countb creators (processes s))%nat.

(** and how many steps a process can make. *)
Definition weight (n : nat) (p : Process) : nat :=
  match p with
  | Submitting _ _ _ _ => 11 | Creating _ _ _ _ => 10 | Dispatching _ => 9 | Waiting _ => 8
  | Validating _ _ => 7 | Connecting _ _ _ _ => 6 | Started _ _ _ _ => 5 | Returned _ _ => 4
  | Caught _ _ | Succeeding _ _ | MarkingFailed _ | Interrupting _ _ => 3
  | Storing _ | Finishing _ _ => 2
  | Linking _ _ | Completing _ _ => 1
  | Sweeping ids _ => 2 + length ids
  | Sweep _ => 3 + n | Forgetting _ => 4 + n | Expiring _ => 5 + n
  end.

Definition work (n : nat) (ps : list Process) : nat := sum_list_with (weight n) ps.

(** A step of one of the processes. *)
Definition works (s s' : State) : Prop :=
  exists w p o, is_Some (processes s !! p) /\ perform w (Advance p o) s = Accepted s'.

Lemma weight_mono n m p : (n <= m)%nat -> (weight n p <= weight m p)%nat.
Proof. destruct p; cbn; lia. Qed.

Lemma work_mono n m ps : (n <= m)%nat -> (work n ps <= work m ps)%nat.
Proof. intros H. induction ps as [|p ps IH]; cbn; [lia|]. pose proof (weight_mono n m p H). unfold work in IH. lia. Qed.

Lemma length_filter_le {A} (p : A -> bool) l : (length (List.filter p l) <= length l)%nat.
Proof. induction l as [|x l IH]; cbn; [lia|]. destruct (p x); cbn; lia. Qed.

Lemma active_queries_length s : (length (active_queries s) <= length (queries s))%nat.
Proof.
  unfold active_queries. etransitivity; [apply length_filter_le|]. by rewrite length_seq.
Qed.

(** A step of a process leaves no more room, *)
Lemma advance_room w o x s :
  (length (queries (fst (advance w o x s))) + countb creators (snd (advance w o x s)) <=
   length (queries s) + countb creators [x])%nat.
Proof.
  destruct x; cbn [advance]; unfold with_query, caught, complete_request; repeat (case_match; cbn [fst snd]);
    rewrite ?countb_cons, ?countb_nil; cbn; rewrite ?length_alter, ?length_app, ?length_fmap, ?length_map; cbn; rewrite ?countb_cons, ?countb_nil; cbn; lia.
Qed.

(** and less work. *)
Lemma advance_work w o x s n :
  (length (queries s) <= n)%nat -> (work n (snd (advance w o x s)) < weight n x)%nat.
Proof.
  intros Hn. pose proof (active_queries_length s) as Ha.
  destruct x; cbn [advance]; unfold with_query, caught, complete_request, work; repeat (case_match; cbn [fst snd]);
    cbn; lia.
Qed.

Lemma works_less s s' : works s s' -> (work (room s') (processes s') < work (room s) (processes s))%nat.
Proof.
  intros (w & p & o & [x Hx] & H). cbn in H. rewrite Hx in H.
  destruct (advance w o x s) as [s1 ps] eqn:E. injection H as <-.
  destruct (replace_Permutation p x ps s s1) as (rest & H1 & H2); [done| |].
  { pose proof (advance_processes w o x s) as Hp. by rewrite E in Hp. }
  assert (Hroom : (room (replace_process p ps s1) <= room s)%nat).
  { unfold room. rewrite (countb_Permutation _ _ _ H1), (countb_Permutation _ _ _ H2), countb_app, countb_cons.
    pose proof (advance_room w o x s) as Hr. rewrite E, countb_cons, countb_nil in Hr. cbn in Hr |- *. lia. }
  assert (Hw : forall n, work n (processes s) = (weight n x + work n rest)%nat).
  { intros n. unfold work. by rewrite H1. }
  assert (Hw' : forall n, work n (processes (replace_process p ps s1)) = (work n ps + work n rest)%nat).
  { intros n. unfold work. by rewrite H2, sum_list_with_app. }
  rewrite Hw, Hw'. pose proof (advance_work w o x s (room s)) as Hlt. rewrite E in Hlt. cbn [snd] in Hlt.
  assert (length (queries s) <= room s)%nat by (unfold room; lia).
  pose proof (work_mono _ _ ps Hroom). pose proof (work_mono _ _ rest Hroom). lia.
Qed.

Lemma works_bounded n s s' : nsteps works n s s' -> (n <= work (room s) (processes s))%nat.
Proof.
  intros H. induction H as [|n s1 s2 s3 H _ IH]; [lia|]. apply works_less in H. lia.
Qed.

(** ** No query is left open *)

(** A process that will claim a query or close it, *)
Definition serves_queued (i : nat) (p : Process) : bool :=
  match p with
  | Dispatching j | Waiting j | MarkingFailed j | Interrupting j _ | Finishing j _ => bool_decide (j = i)
  | _ => false
  end.

(** and one that will close a query that has been claimed. *)
Definition serves_claimed (i : nat) (p : Process) : bool :=
  match p with
  | Validating j _ | Connecting j _ _ _ | Started j _ _ _ | Returned j _ | Caught j _ | Succeeding j _
  | Interrupting j _ | Finishing j _ => bool_decide (j = i)
  | _ => false
  end.

Definition served_by (q : Query) (i : nat) (p : Process) : bool :=
  if bool_decide (query_status q = ExecQueued) then serves_queued i p else serves_claimed i p.

Definition served (s : State) : Prop :=
  forall i q, queries s !! i = Some q -> is_active_status (query_status q) = true ->
    exists p, p ∈ processes s /\ served_by q i p = true.

(** Nothing is lost, and nothing interferes with the workers. *)
Definition not_lost (e : Event) : bool := match op e with Lost _ => false | _ => true end.

Definition undisturbed (e : Event) : bool := negb (disturbs (op e)).

Lemma active_not_closed q : is_active_status (query_status q) = true -> isTerminal (query_status q) = false.
Proof. unfold isTerminal. by intros ->. Qed.

(** What a step may do to a query, with the process that makes it, if one does. *)
Inductive change_of (w : AccessWorld) (i : nat) (q : Query) : option Process -> Query -> Prop :=
  | changes_nothing z : change_of w i q z q
  | changes_cancel z : change_of w i q z (cancel_query q)
  | changes_snapshot z b : change_of w i q z (set_snapshot b q)
  | changes_backend z : change_of w i q z (note_backend q)
  | changes_claim : query_status q = ExecQueued -> change_of w i q (Some (Waiting i)) (claim w q)
  | changes_succeed t : change_of w i q (Some (Succeeding i t)) (set_query_status ExecSucceeded q)
  | changes_finish st : change_of w i q (Some (Finishing i st)) (set_query_status st q)
  | changes_link st : change_of w i q (Some (Linking i st)) (set_execution st q).

#[local] Hint Constructors change_of : core.

Definition maker (o : Op) (s : State) : option Process :=
  match o with Advance p _ => processes s !! p | _ => None end.

Lemma alter_change w i q z j f (qs : list Query) :
  qs !! i = Some q -> (j = i -> change_of w i q z (f q)) ->
  exists q', alter f j qs !! i = Some q' /\ change_of w i q z q'.
Proof.
  intros Hq Hf. destruct (decide (j = i)) as [->|Hne].
  - rewrite list_lookup_alter_eq, Hq. eauto.
  - rewrite list_lookup_alter_ne by done. eauto.
Qed.

Lemma advance_change w o x s i q :
  queries s !! i = Some q ->
  exists q', queries (fst (advance w o x s)) !! i = Some q' /\ change_of w i q (Some x) q'.
Proof.
  intros Hq.
  assert (Hid : exists q', queries s !! i = Some q' /\ change_of w i q (Some x) q') by eauto.
  destruct x as [| | |j| | | | | | | | | | | | | | | |]; cbn [advance]; unfold with_query, complete_request;
    repeat (case_match; try exact Hid); cbn; try exact Hid;
    try (apply alter_change; [done|]; intros ->; eauto; fail).
  - rewrite lookup_app_l by (by eapply lookup_lt_Some). eauto.
  - apply alter_change; [done|]. intros ->. repeat case_bool_decide; try done.
    assert (q = q0) as -> by congruence. eauto.
  - rewrite list_lookup_fmap, Hq. cbn. eauto.
Qed.

Lemma step_change w o s s' i q :
  step w s o s' -> queries s !! i = Some q ->
  exists q', queries s' !! i = Some q' /\ change_of w i q (maker o s) q'.
Proof.
  intros H Hq. destruct H; cbn [queries set_access set_session set_queries add_processes set_processes]; eauto.
  - destruct (session s) as [x|]; [destruct (isActive w x)|]; cbn; eauto.
  - apply alter_change; [done|eauto].
  - cbn [maker]. rewrite H. by apply advance_change.
Qed.

Lemma step_made w p o s s' x :
  step w s (Advance p o) s' -> processes s !! p = Some x ->
  s' = replace_process p (snd (advance w o x s)) (fst (advance w o x s)) /\
  forall y, y ∈ snd (advance w o x s) -> y ∈ processes s'.
Proof.
  intros H Hx.
  assert (s' = replace_process p (snd (advance w o x s)) (fst (advance w o x s))) as ->.
  { remember (Advance p o) as op eqn:Ho. destruct H; try done.
    - by rewrite (H p o Ho) in Hx.
    - by destruct (H p o).
    - by destruct (H p o).
    - injection Ho as -> ->. congruence. }
  split; [done|]. intros y Hy.
  destruct (replace_Permutation p x (snd (advance w o x s)) s (fst (advance w o x s)))
    as (rest & H1 & H2); [done|apply advance_processes|]. rewrite H2. apply elem_of_app. by left.
Qed.

(** What a process that serves a query does next: somebody serves it still, or it is closed. *)
Lemma served_advance w o z s s' i q q' :
  ends z -> is_Some (session s) ->
  (forall y, y ∈ snd (advance w o z s) -> y ∈ processes s') ->
  queries s !! i = Some q -> queries (fst (advance w o z s)) !! i = Some q' ->
  is_active_status (query_status q) = true -> is_active_status (query_status q') = true ->
  (query_status q <> ExecQueued -> query_status q' <> ExecQueued) ->
  served_by q i z = true -> exists p, p ∈ processes s' /\ served_by q' i p = true.
Proof.
  intros He [x Hx] Hsub Hq Hq' Ha Ha' Hn Hs.
  assert (Hok : forall p, p ∈ snd (advance w o z s) -> served_by q' i p = true ->
    exists p, p ∈ processes s' /\ served_by q' i p = true) by eauto.
  unfold served_by in *. destruct (decide (query_status q = ExecQueued)) as [Hst|Hst].
  - rewrite (bool_decide_true (query_status q = _)) in Hs by done.
    destruct z; cbn [serves_queued] in Hs; try done; apply bool_decide_eq_true in Hs as ->;
      cbn [advance] in *; unfold with_query in *; rewrite ?Hq, ?Hx in *.
    + destruct o; cbn in Hq'; (eapply Hok; [left|]); replace q' with q by congruence;
        rewrite bool_decide_true by done; cbn; by apply bool_decide_true.
    + rewrite (bool_decide_true (query_status q = _)) in * by done. cbn in Hq'.
      rewrite list_lookup_alter_eq, Hq in Hq'. injection Hq' as <-.
      eapply Hok; [left|]. rewrite bool_decide_false by done. cbn. by apply bool_decide_true.
    + rewrite (bool_decide_true (query_status q = _)) in * by done.
      eapply Hok; [left|]. cbn. case_match; by apply bool_decide_true.
    + rewrite (active_not_closed _ Ha) in *. eapply Hok; [left|]. cbn. case_match; by apply bool_decide_true.
    + cbn in Hq'. rewrite list_lookup_alter_eq, Hq in Hq'. injection Hq' as <-. cbn in Ha', He.
      unfold isTerminal in He. by rewrite Ha' in He.
  - rewrite (bool_decide_false (query_status q = _)) in Hs by done.
    rewrite (bool_decide_false (query_status q' = _)) in * by auto.
    destruct z; cbn [serves_claimed] in Hs; try done; apply bool_decide_eq_true in Hs as ->;
      cbn [advance] in *; unfold with_query, caught in *; rewrite ?Hq in *.
    + case_match; (eapply Hok; [left|]); cbn; by apply bool_decide_true.
    + destruct o; [destruct (cancelling q)|]; (eapply Hok; [left|]); cbn; by apply bool_decide_true.
    + destruct o; (eapply Hok; [left|]); cbn; by apply bool_decide_true.
    + rewrite (active_not_closed _ Ha) in *. destruct (cancelling q); (eapply Hok; [left|]); cbn; by apply bool_decide_true.
    + rewrite (active_not_closed _ Ha) in *. (eapply Hok; [left|]); cbn; by apply bool_decide_true.
    + cbn in Hq'. rewrite list_lookup_alter_eq, Hq in Hq'. by injection Hq' as <-.
    + rewrite (active_not_closed _ Ha) in *. (eapply Hok; [left|]); cbn; by apply bool_decide_true.
    + cbn in Hq'. rewrite list_lookup_alter_eq, Hq in Hq'. injection Hq' as <-. cbn in Ha', He.
      unfold isTerminal in He. by rewrite Ha' in He.
Qed.

(** A query that is claimed is served by the worker that has claimed it. *)
Lemma claimed_served tr w o s s' i q q' :
  Forall ends (processes s) -> Governed tr s -> step w s o s' ->
  queries s !! i = Some q -> query_status q = ExecQueued -> queries s' !! i = Some q' -> is_active_status (query_status q') = true -> query_status q' <> ExecQueued ->
  exists y, Validating i y ∈ processes s'.
Proof.
  intros He HG H Hq Hst Hq' Ha Hn. destruct (step_change _ _ _ _ _ _ H Hq) as (q1 & Hq1 & Hc).
  assert (q1 = q') as -> by congruence. inversion Hc as [| | | |Hs Hm|t Hm|st Hm|st Hm]; subst; try done.
  - exfalso. unfold cancel_query in Ha. by rewrite Hst in Ha.
  - unfold maker in Hm. destruct o as [| | | | | | | |p o| | |]; try done. symmetry in Hm.
    destruct (step_made _ _ _ _ _ _ H Hm) as [_ Hsub].
    destruct (gov_queries _ _ HG _ _ Hq) as (y & Hy & _). exists y. apply Hsub.
    cbn [advance]. unfold with_query. rewrite Hq, Hy, bool_decide_true by done. left.
  - exfalso. unfold maker in Hm. destruct o as [| | | | | | | |p o| | |]; try done.
    rewrite Forall_forall in He. specialize (He _ (list_elem_of_lookup_2 _ _ _ (eq_sym Hm))). cbn in He, Ha.
    unfold isTerminal in He. by rewrite Ha in He.
Qed.

Lemma served_step tr w o s s' :
  Forall ends (processes s) -> Governed tr s -> (forall p, o <> Lost p) -> served s -> step w s o s' -> served s'.
Proof.
  intros He HG Hlost Hsv H i q' Hq' Ha'. destruct (queries s !! i) as [q|] eqn:Hq.
  - destruct (step_evolves _ _ _ _ _ _ He H Hq) as (q1 & Hq1 & Hev). assert (q1 = q') as -> by congruence.
    assert (Ha : is_active_status (query_status q) = true).
    { pose proof (stays_closed _ _ Hev) as Hc. unfold isTerminal in Hc. rewrite Ha' in Hc.
      destruct (is_active_status (query_status q)); [done|]. by specialize (Hc eq_refl). }
    pose proof (stays_claimed _ _ Hev) as Hn. destruct (Hsv i q Hq Ha) as (z & Hz & Hs).
    assert (Hkeep : z ∈ processes s' -> exists p, p ∈ processes s' /\ served_by q' i p = true).
    { intros Hin. unfold served_by in Hs. case_bool_decide as Hst.
      - destruct (decide (query_status q' = ExecQueued)) as [Hst'|Hst'].
        + exists z. split; [done|]. unfold served_by. by rewrite bool_decide_true.
        + destruct (claimed_served _ _ _ _ _ _ _ _ He HG H Hq Hst Hq' Ha' Hst') as [y Hy].
          exists (Validating i y). split; [done|]. unfold served_by. rewrite bool_decide_false by done.
          cbn. by apply bool_decide_true.
      - exists z. split; [done|]. unfold served_by. by rewrite bool_decide_false by auto. }
    destruct (step_keeps _ _ _ _ _ H Hz) as [Hin|[(j & p & Hw & [(b & _ & Hb)|Hl])|(p & o' & _ & Hs' & Hsub)]].
    + auto.
    + assert (j = i) as ->.
      { unfold served_by in Hs.
        case_bool_decide; destruct z; cbn in Hs, Hw; try done; apply bool_decide_eq_true in Hs; congruence. }
      exists (Interrupting i b). split; [done|]. unfold served_by. case_bool_decide; cbn; by apply bool_decide_true.
    + by destruct (Hlost p).
    + rewrite Forall_forall in He. destruct (gov_queries _ _ HG _ _ Hq) as (x & Hx & _).
      eapply (served_advance w o' z s s'); [by apply He|by exists x|exact Hsub|done| |done..].
      rewrite Hs' in Hq'. exact Hq'.
  - destruct (step_new _ _ _ _ _ _ H Hq Hq') as (-> & _ & p & o' & user & c & sql & t & _ & _ & -> & _ & Hps).
    exists (Dispatching (length (queries s))). rewrite Hps. split.
    + apply elem_of_app. right. left.
    + unfold served_by. cbn. rewrite bool_decide_true by done. by apply bool_decide_true.
Qed.

Lemma reachable_served t tr s : reachable t tr s -> forallb not_lost tr = true -> served s.
Proof.
  intros H. apply (reachable_ind_step (fun tr s => forallb not_lost tr = true -> served s)) with (t := t) (tr := tr);
    [| |done].
  - intros r _ _ i q Hq. done.
  - clear. intros t tr w o s s' _ Hr IH H Hl. cbn in Hl. apply andb_true_iff in Hl as [Ho Hl].
    eapply served_step; [by eapply reachable_ends|by eapply reachable_governed| |by apply IH|done].
    intros p ->. done.
Qed.

(** ** The executions agree with the queries *)

(** The one process that works on a query. *)
Definition concerns (p : Process) : option nat :=
  match p with Dispatching i => Some i | _ => works_on p end.

Definition chain (i : nat) (p : Process) : bool := bool_decide (concerns p = Some i).

(** What such a process knows of the row and of the execution linked to it. *)
Definition agrees (p : Process) (q : Query) : Prop :=
  match p with
  | Linking _ st => query_status q = st
  | Storing _ => query_status q = ExecSucceeded
  | Dispatching _ | Waiting _ | MarkingFailed _ =>
      execution q = query_status q /\ (query_status q = ExecQueued \/ isTerminal (query_status q) = true)
  | _ => execution q = query_status q
  end.

Definition settled (q : Query) : Prop := isTerminal (query_status q) = true /\ execution q = query_status q.

Definition agreeing (s : State) : Prop :=
  forall i,
    (countb (chain i) (processes s) <= 1)%nat /\
    (queries s !! i = None -> countb (chain i) (processes s) = 0%nat) /\
    forall q, queries s !! i = Some q ->
      (forall p, p ∈ processes s -> chain i p = true -> agrees p q) /\
      (countb (chain i) (processes s) = 0%nat -> settled q).

(** What happens to a query while its process waits. *)
Lemma agrees_cancel p q : ends p -> agrees p q -> agrees p (cancel_query q).
Proof.
  intros He. unfold cancel_query. destruct (isTerminal (query_status q)) eqn:Ht; [done|].
  destruct p; cbn in *; try done; try (intros [_ [Hq|Hq]]; [rewrite Hq; split; [done|by right]|congruence]).
  - intros E. rewrite E in Ht. done.
  - intros E. rewrite E, He in Ht. done.
Qed.

Lemma agrees_backend p q : agrees p q -> agrees p (note_backend q).
Proof. by destruct p. Qed.

Lemma agrees_snapshot p q b : agrees p q -> agrees p (set_snapshot b q).
Proof. by destruct p. Qed.

Lemma settled_cancel q : settled q -> settled (cancel_query q).
Proof. intros [Ht He]. unfold cancel_query. by rewrite Ht. Qed.

Lemma chain_works i p : works_on p = Some i -> chain i p = true.
Proof. intros H. apply bool_decide_true. by destruct p. Qed.

(** What the process does next. *)
Lemma agrees_advance w o x s i q q' :
  ends x -> is_Some (session s) -> chain i x = true -> agrees x q ->
  queries s !! i = Some q -> queries (fst (advance w o x s)) !! i = Some q' ->
  (snd (advance w o x s) = [] /\ settled q') \/
  exists y, snd (advance w o x s) = [y] /\ chain i y = true /\ agrees y q'.
Proof.
  intros He [y Hy] Hc Ha Hq Hq'.
  assert (Hgo : forall z, snd (advance w o x s) = [z] -> works_on z = Some i -> agrees z q' ->
    (snd (advance w o x s) = [] /\ settled q') \/
    exists y, snd (advance w o x s) = [y] /\ chain i y = true /\ agrees y q').
  { intros z -> Hz Hza. right. exists z. split_and!; [done|by apply chain_works|done]. }
  assert (Hstop : snd (advance w o x s) = [] -> settled q' ->
    (snd (advance w o x s) = [] /\ settled q') \/
    exists y, snd (advance w o x s) = [y] /\ chain i y = true /\ agrees y q') by auto.
  apply bool_decide_eq_true in Hc.
  destruct x; cbn [concerns works_on] in Hc; try done; injection Hc as ->; cbn [advance agrees ends] in *; unfold with_query, caught in *;
    rewrite ?Hq, ?Hy in *; cbn [fst snd queries change set_queries] in *;
    rewrite ?list_lookup_alter_eq, ?Hq in Hq'; cbn in Hq'.
  - destruct o; cbn in *; assert (q' = q) as -> by congruence; by eapply Hgo.
  - destruct Ha as [Ha Hor]. case_bool_decide as Hst; cbn in *.
    + rewrite list_lookup_alter_eq, Hq in Hq'. injection Hq' as <-. by eapply Hgo.
    + assert (q' = q) as -> by congruence. destruct Hor as [|Ht]; [done|]. by apply Hstop.
  - assert (q' = q) as -> by congruence. case_match; by eapply Hgo.
  - destruct o; cbn in *; [|assert (q' = q) as -> by congruence; by eapply Hgo].
    rewrite list_lookup_alter_eq, Hq in Hq'. injection Hq' as <-. destruct (cancelling q); by eapply Hgo.
  - destruct o; cbn in *; assert (q' = q) as -> by congruence; by eapply Hgo.
  - assert (q' = q) as -> by congruence. destruct (isTerminal _) eqn:Ht; [by apply Hstop|].
    destruct (cancelling q); by eapply Hgo.
  - assert (q' = q) as -> by congruence. destruct (isTerminal _) eqn:Ht; [by apply Hstop|]. by eapply Hgo.
  - injection Hq' as <-. destruct t; by eapply Hgo.
  - injection Hq' as <-. by eapply Hgo.
  - assert (q' = q) as -> by congruence. destruct Ha as [Ha Hor]. case_bool_decide as Hst; [by eapply Hgo|].
    destruct Hor as [|Ht]; [done|]. by apply Hstop.
  - assert (q' = q) as -> by congruence. destruct (isTerminal _) eqn:Ht; [by apply Hstop|]. by eapply Hgo.
  - injection Hq' as <-. by eapply Hgo.
  - injection Hq' as <-. apply Hstop; [done|]. split; cbn; by rewrite Ha.
Qed.

(** The other processes do not touch the query. *)
Lemma change_others w i q z q' :
  change_of w i q z q' -> (forall x, z = Some x -> chain i x = false) ->
  (forall p, ends p -> agrees p q -> agrees p q') /\ (settled q -> settled q').
Proof.
  assert (Hc : forall x, works_on x = Some i -> chain i x = false -> False).
  { intros x Hx. by rewrite (chain_works _ _ Hx). }
  intros H Hz. destruct H; try (exfalso; eapply Hc; [|by apply Hz]; done).
  - done.
  - split; [intros p He; by apply agrees_cancel|apply settled_cancel].
  - split; [intros p _; apply agrees_snapshot|done].
  - split; [intros p _; apply agrees_backend|done].
Qed.

Lemma chain_others w o x s i :
  chain i x = false -> ~ (i = length (queries s) /\ creators x = true) ->
  countb (chain i) (snd (advance w o x s)) = 0%nat.
Proof.
  intros Hc Hn.
  assert (H0 : forall z, concerns z = concerns x \/ concerns z = None -> chain i z = false).
  { intros z Hz. apply bool_decide_eq_false in Hc. apply bool_decide_eq_false.
    destruct Hz as [Hz|Hz]; congruence. }
  destruct x; cbn [advance]; unfold with_query, caught; repeat (case_match; cbn [snd]); cbn [snd];
    rewrite ?countb_cons, ?countb_nil; try done;
    try (rewrite H0 by (cbn; auto); done).
  unfold chain. cbn. rewrite bool_decide_false; [done|]. intros [= E]. cbn in Hn. naive_solver.
Qed.

(** Steps that no process makes add none that works on a query. *)
Lemma step_quiet w o s s' :
  disturbs o = false -> maker o s = None -> step w s o s' ->
  exists ps, processes s' = processes s ++ ps /\ forall i, countb (chain i) ps = 0%nat.
Proof.
  intros Hd Hm H.
  assert (Hsame : processes s' = processes s ->
    exists ps, processes s' = processes s ++ ps /\ forall i, countb (chain i) ps = 0%nat).
  { intros ->. exists []. by rewrite app_nil_r. }
  assert (Hone : forall x, concerns x = None -> forall i, countb (chain i) [x] = 0%nat).
  { intros x Hx i. rewrite countb_cons, countb_nil. unfold chain. rewrite Hx. by rewrite bool_decide_false. }
  destruct H; try (by apply Hsame); try done.
  - exists [Forgetting None]. split; [|by apply Hone]. cbn.
    by destruct (session s) as [x|]; [destruct (isActive w x)|].
  - exists [Submitting x actor c sql]. split; [done|by apply Hone].
  - exists ps. split; [done|]. intros i. apply countb_zero. intros x Hx. rewrite Forall_forall in H0.
    specialize (H0 x Hx). destruct x; cbn in H0; try done; destruct H0; congruence.
  - cbn in Hm. congruence.
Qed.

Lemma agreeing_quiet w o s s' ps i :
  Forall ends (processes s) -> maker o s = None -> agreeing s -> step w s o s' ->
  processes s' = processes s ++ ps -> countb (chain i) ps = 0%nat ->
  (queries s !! i = None -> queries s' !! i = None) ->
  (countb (chain i) (processes s') <= 1)%nat /\
  (queries s' !! i = None -> countb (chain i) (processes s') = 0%nat) /\
  forall q, queries s' !! i = Some q ->
    (forall p, p ∈ processes s' -> chain i p = true -> agrees p q) /\
    (countb (chain i) (processes s') = 0%nat -> settled q).
Proof.
  intros He Hm Hag H -> Hps Hnew. destruct (Hag i) as (H1 & H2 & H3).
  rewrite countb_app, Hps, Nat.add_0_r. split_and!; [done| |].
  - intros Hn. apply H2. destruct (queries s !! i) as [q|] eqn:Hq; [|done].
    destruct (step_change _ _ _ _ _ _ H Hq) as (q' & Hq' & _). congruence.
  - intros q' Hq'. destruct (queries s !! i) as [q|] eqn:Hq; [|by rewrite Hnew in Hq'].
    destruct (step_change _ _ _ _ _ _ H Hq) as (q1 & Hq1 & Hc). assert (q1 = q') as -> by congruence.
    rewrite Hm in Hc. destruct (change_others _ _ _ _ _ Hc) as [Ha Hs]; [done|].
    destruct (H3 q eq_refl) as [H3a H3b]. split; [|auto]. intros p Hp Hcp.
    apply elem_of_app in Hp as [Hp|Hp].
    + apply Ha; [|by apply H3a]. rewrite Forall_forall in He. auto.
    + rewrite countb_zero in Hps. by rewrite Hps in Hcp.
Qed.

(** The step of a process. *)
Lemma agreeing_advance tr w p o x s s' i :
  Forall ends (processes s) -> Governed tr s -> agreeing s -> step w s (Advance p o) s' ->
  processes s !! p = Some x ->
  (countb (chain i) (processes s') <= 1)%nat /\
  (queries s' !! i = None -> countb (chain i) (processes s') = 0%nat) /\
  forall q, queries s' !! i = Some q ->
    (forall p, p ∈ processes s' -> chain i p = true -> agrees p q) /\
    (countb (chain i) (processes s') = 0%nat -> settled q).
Proof.
  intros He HG Hag H Hx. destruct (Hag i) as (H1 & H2 & H3).
  assert (Hxin : x ∈ processes s) by (by eapply list_elem_of_lookup_2).
  rewrite Forall_forall in He. destruct (step_made _ _ _ _ _ _ H Hx) as [Hs' _].
  destruct (replace_Permutation p x (snd (advance w o x s)) s (fst (advance w o x s)))
    as (rest & P1 & P2); [done|apply advance_processes|]. rewrite <- Hs' in P2.
  rewrite (countb_Permutation _ _ _ P2), countb_app.
  assert (Hc1 : countb (chain i) (processes s) = ((if chain i x then 1 else 0) + countb (chain i) rest)%nat).
  { by rewrite (countb_Permutation _ _ _ P1), countb_cons. }
  assert (Hrest : forall y, y ∈ rest -> y ∈ processes s) by (intros y Hy; rewrite P1; by right).
  destruct (queries s !! i) as [q|] eqn:Hq.
  - destruct (step_change _ _ _ _ _ _ H Hq) as (q' & Hq' & Hch). cbn [maker] in Hch. rewrite Hx in Hch.
    destruct (H3 q eq_refl) as [H3a H3b]. destruct (chain i x) eqn:Hcx.
    + assert (Hr0 : countb (chain i) rest = 0%nat) by lia. rewrite Hr0, Nat.add_0_r.
      assert (Hq2 : queries (fst (advance w o x s)) !! i = Some q') by (rewrite Hs' in Hq'; exact Hq').
      destruct (gov_queries _ _ HG _ _ Hq) as (y & Hy & _).
      destruct (agrees_advance w o x s i q q') as [[E Hst]|(z & E & Hcz & Haz)];
        [by apply He|by exists y|done|by apply H3a|done|done| |].
      * rewrite E in P2 |- *. rewrite countb_nil. split_and!; [lia|congruence|]. intros q1 Hq1. assert (q1 = q') as -> by congruence.
        split; [|done]. intros y1 Hy1 Hcy. rewrite P2 in Hy1. cbn in Hy1. rewrite countb_zero in Hr0.
        by rewrite Hr0 in Hcy.
      * rewrite E in P2 |- *. rewrite countb_cons, countb_nil, Hcz. split_and!; [lia|congruence|].
        intros q1 Hq1. assert (q1 = q') as -> by congruence. split; [|lia]. intros y1 Hy1 Hcy.
        rewrite P2 in Hy1. apply elem_of_cons in Hy1 as [->|Hy1]; [done|]. rewrite countb_zero in Hr0.
        by rewrite Hr0 in Hcy.
    + rewrite chain_others; [|done|].
      2: { intros [-> _]. apply lookup_lt_Some in Hq. lia. }
      destruct (change_others _ _ _ _ _ Hch) as [Ha Hse]; [by intros ? [= <-]|].
      split_and!; [lia|congruence|]. intros q1 Hq1. assert (q1 = q') as -> by congruence.
      split; [|intros Hz; apply Hse, H3b; lia]. intros y1 Hy1 Hcy. rewrite P2 in Hy1.
      apply elem_of_app in Hy1 as [Hy1|Hy1].
      * assert (Hz : countb (chain i) (snd (advance w o x s)) = 0%nat).
        { apply chain_others; [done|]. intros [-> _]. apply lookup_lt_Some in Hq. lia. }
        rewrite countb_zero in Hz. by rewrite Hz in Hcy.
      * apply Ha; [by apply He, Hrest|by apply H3a; [apply Hrest|]].
  - specialize (H2 eq_refl). assert (Hcx : chain i x = false) by (destruct (chain i x); [lia|done]).
    assert (Hr0 : countb (chain i) rest = 0%nat) by (rewrite Hcx in Hc1; lia). rewrite Hr0, Nat.add_0_r.
    destruct (queries s' !! i) as [q'|] eqn:Hq'.
    + destruct (step_new _ _ _ _ _ _ H Hq Hq') as (-> & Hno & p1 & o1 & user & c & sql & t & [= <- <-] & Hp1 & -> & _ & _).
      assert (x = Creating user c sql t) as -> by congruence. cbn [advance] in P2 |- *. rewrite Hno in P2 |- *.
      cbn [snd] in P2 |- *. rewrite countb_cons, countb_nil.
      assert (Hd : chain (length (queries s)) (Dispatching (length (queries s))) = true) by (by apply bool_decide_true).
      rewrite Hd. split_and!; [lia|done|]. intros q1 [= <-]. split; [|lia].
      intros y1 Hy1 Hcy. rewrite P2 in Hy1. apply elem_of_cons in Hy1 as [->|Hy1]; [by split; [|left]|].
      rewrite countb_zero in Hr0. by rewrite Hr0 in Hcy.
    + assert (Hz : countb (chain i) (snd (advance w o x s)) = 0%nat).
      { destruct (decide (i = length (queries s) /\ creators x = true)) as [[-> Hcr]|Hn]; [|by apply chain_others].
        destruct x; cbn in Hcr; try done; cbn [advance] in *.
        - destruct (validatedExecution _ _ _ _ _ _) as [[[c text] ty]|]; [|done]. cbn [snd].
          rewrite countb_cons, countb_nil. unfold chain. cbn. by rewrite bool_decide_false.
        - destruct (hasActiveQuery s) eqn:Hh; [done|]. exfalso. rewrite Hs' in Hq'. cbn in Hq'. rewrite lookup_app_r, Nat.sub_diag in Hq' by lia. done. }
      rewrite Hz. split_and!; [lia|done|done].
Qed.

Lemma agreeing_step tr w o s s' :
  Forall ends (processes s) -> Governed tr s -> disturbs o = false -> agreeing s -> step w s o s' -> agreeing s'.
Proof.
  intros He HG Hd Hag H i. destruct (maker o s) as [x|] eqn:Hm.
  - destruct o as [| | | | | | | |p o| | |]; try done. by eapply agreeing_advance.
  - destruct (step_quiet _ _ _ _ Hd Hm H) as (ps & Hps & Hz).
    eapply agreeing_quiet; [done..|]. intros Hn. destruct (queries s' !! i) as [q|] eqn:Hq; [|done].
    destruct (step_new _ _ _ _ _ _ H Hn Hq) as (_ & _ & p & o' & user & c & sql & t & -> & Hp & _).
    cbn in Hm. congruence.
Qed.

Lemma reachable_agreeing t tr s : reachable t tr s -> forallb undisturbed tr = true -> agreeing s.
Proof.
  intros H. apply (reachable_ind_step (fun tr s => forallb undisturbed tr = true -> agreeing s))
    with (t := t) (tr := tr); [| |done].
  - intros r _ _ i. cbn. rewrite countb_nil. split_and!; [lia|done|done].
  - clear. intros t tr w o s s' _ Hr IH H Hl. cbn in Hl. apply andb_true_iff in Hl as [Ho Hl].
    eapply agreeing_step; [by eapply reachable_ends|by eapply reachable_governed| |by apply IH|done].
    by apply negb_true_iff.
Qed.

(** C10. A session comes to rest.  From any state its processes can make only a bounded number of steps,
    whatever the order and the answers of the databases; and when they have made them, no query is left
    open, however many workers were killed or jobs delivered again, as long as no worker vanished without
    a trace.  If nothing interfered with the workers, the execution recorded for each query then has the
    status of the query. *)
Theorem sessions_come_to_rest t tr s :
  reachable t tr s ->
  (forall n s', nsteps works n s s' -> (n <= work (room s) (processes s))%nat) /\
  (processes s = [] ->
   forall i q, queries s !! i = Some q ->
     (forallb not_lost tr = true -> isTerminal (query_status q) = true) /\
     (forallb undisturbed tr = true -> execution q = query_status q)).
Proof.
  intros H. split; [intros n s'; apply works_bounded|]. intros Hn i q Hq. split.
  - intros Hl. unfold isTerminal. destruct (is_active_status (query_status q)) eqn:Ha; [|done].
    destruct (reachable_served _ _ _ H Hl i q Hq Ha) as (p & Hp & _). rewrite Hn in Hp. by apply elem_of_nil in Hp.
  - intros Hu. destruct (reachable_agreeing _ _ _ H Hu i) as (_ & _ & Hag). destruct (Hag q Hq) as [_ Hs].
    apply Hs. by rewrite Hn.
Qed.

(** ** Limits *)

Lemma ensure_access_spec u cs m minutes t :
  ensure_access u cs m minutes t = Accepted tt <->
  user_disabled u = false /\
  (isAdmin u = false -> forall c, c ∈ cs ->
     allows (mode_of t (permission_for t u c (queryTypeForAccessMode m))) (queryTypeForAccessMode m) = true /\
     (m = AccessWrite -> admits (permission_for t u c WriteQuery) minutes = true)).
Proof.
  assert (Hd : duration_allowed u minutes t cs = Accepted tt <->
    forall c, c ∈ cs -> admits (permission_for t u c WriteQuery) minutes = true).
  { unfold admits. induction cs as [|c cs IH]; cbn; [split; [intros _ c Hc; by apply elem_of_nil in Hc|done]|].
    setoid_rewrite elem_of_cons. destruct (max_write_session_minutes (permission_for t u c WriteQuery)) as [k|] eqn:Hk.
    - destruct (Z.ltb_spec k minutes).
      + split; [done|]. intros Hall. specialize (Hall c (or_introl eq_refl)). rewrite Hk in Hall.
        apply Z.leb_le in Hall. lia.
      + rewrite IH. split; [|naive_solver]. intros Hall c' [->|Hc']; [|auto]. rewrite Hk. by apply Z.leb_le.
    - rewrite IH. split; [|naive_solver]. intros Hall c' [->|Hc']; [by rewrite Hk|auto]. }
  unfold ensure_access, ensureCanRequestAccess, ensureWriteSessionDurationIsAllowed, ensureUserIsEnabled.
  destruct (user_disabled u); [by split; [|intros [? _]]|]. destruct (isAdmin u).
  { cbn. split; [done|]. by destruct m. }
  cbn [checked_bind]. destruct (forallb _ cs) eqn:Hf.
  - rewrite forallb_forall_elem in Hf. cbn [checked_bind].
    destruct m; (split; [intros H; split; [done|]; intros _ c Hc; split; [by apply Hf|]; try done|]); try done.
    + intros _. by apply Hd.
    + intros [_ H]. apply Hd. intros c Hc. by apply (proj2 (H eq_refl c Hc)).
  - cbn. split; [done|]. intros [_ H]. rewrite <- not_true_iff_false, forallb_forall_elem in Hf. destruct Hf.
    intros c Hc. by apply (H eq_refl c Hc).
Qed.

Lemma queryAccessTimeoutSeconds_range w : 5 <= queryAccessTimeoutSeconds w <= 65535.
Proof.
  unfold queryAccessTimeoutSeconds, hardTimeoutSeconds, minimum_timeout_seconds. lia.
Qed.

Lemma reachable_minutes t tr s : reachable t tr s -> 5 <= minutes_asked (request s) <= 1440.
Proof.
  induction 1 as [w user data r Hrules H|t tr s w actor r _ IH _ H|t tr s w o s' _ IH _ H].
  - apply createAccess_spec in H as [_ H]. cbn. rewrite H. unfold access_rules in Hrules.
    apply andb_true_iff in Hrules as [Hrules _]. apply andb_true_iff in Hrules as [_ Hm].
    destruct (data_duration data); [|done]. cbn. apply andb_true_iff in Hm as [H1 H2]. lia.
  - apply renew_spec in H as [_ H]. cbn. by rewrite H.
  - apply perform_step in H. destruct (step_request _ _ _ _ H) as [l Hl]. rewrite Hl. exact IH.
Qed.

Lemma reachable_timeouts t tr s i q : reachable t tr s -> queries s !! i = Some q -> 5 <= timeout_seconds q <= 65535.
Proof.
  intros H. revert i q.
  apply (reachable_ind_step (fun _ s => forall i q, queries s !! i = Some q -> 5 <= timeout_seconds q <= 65535))
    with (t := t) (tr := tr); [done| |done].
  clear. intros t tr w o s s' _ Hr IH H i q Hq. destruct (queries s !! i) as [q0|] eqn:Hq0.
  - destruct (step_evolves _ _ _ _ _ _ (reachable_ends _ _ _ Hr) H Hq0) as (q1 & Hq1 & Hev).
    assert (q1 = q) as -> by congruence. rewrite (same_timeout _ _ Hev). by eapply IH.
  - destruct (step_new _ _ _ _ _ _ H Hq0 Hq) as (_ & _ & p & o' & user & c & sql & ty & _ & _ & -> & _).
    apply queryAccessTimeoutSeconds_range.
Qed.

(** C11. The limits of a session: it lasts as long as was asked, from five minutes to a day; a session that
    may write lasts no longer than any of its connections allows the requester, unless an administrator
    asked for it; and each of its queries is given between 5 and 65535 seconds. *)
Theorem sessions_keep_limits t tr s x :
  reachable t tr s -> session s = Some x ->
  expires_at x = session_started_at x + 60 * minutes_asked (request s) /\
  300 <= expires_at x - session_started_at x <= 86400 /\
  (mode_asked (request s) = AccessWrite ->
   exists e cs, e ∈ tr /\ op e = Start (session_user x) /\ map (fun c => connection_id (database c)) cs = databaseConnections x /\
     let u := users (world (in_world e)) (access_requester (request s)) in
     isAdmin u = true \/
     forall c, c ∈ cs -> admits (permission_for (access_transport (request s)) u c WriteQuery)
                           (minutes_asked (request s)) = true) /\
  forall i q, queries s !! i = Some q -> 5 <= timeout_seconds q <= 65535.
Proof.
  intros H Hx. pose proof (reachable_minutes _ _ _ H) as Hm.
  destruct (gov_session _ _ (reachable_governed _ _ _ H) x Hx)
    as (later & e & earlier & c & cs & Htr & Hop & _ & Hs & He & _ & _ & Hids & _ & Hens & _).
  split_and!; [by rewrite Hs, He|rewrite He, Hs; lia|rewrite He, Hs; lia| |].
  - intros Hw. exists e, (c :: cs). split_and!; [|exact Hop|by rewrite Hids|].
    + rewrite Htr. apply elem_of_app. right. left.
    + cbv zeta. destruct (isAdmin (users (world (in_world e)) (access_requester (request s)))) eqn:Ha; [by left|right]. intros c' Hc'. apply ensure_access_spec in Hens as [_ Hens].
      by apply (Hens Ha c' Hc').
  - intros i q Hq. by eapply reachable_timeouts.
Qed.

(** ** What the reconciliation closes *)

(** A query whose worker is gone is closed by the reconciliation, once it has been silent for long enough. *)
Lemma reconciliation_closes w s i q :
  queries s !! i = Some q -> is_active_status (query_status q) = true ->
  created_at q + queue_stale_seconds w <= time_of w ->
  started_at q + timeout_seconds q + reconciliation_grace_seconds < time_of w ->
  exists s' q', let n := length (processes s) in
    perform_all [(w, Reconcile i); (w, Advance n Fine); (w, Advance n Fine)] s = Accepted s' /\
    queries s' !! i = Some q' /\ isTerminal (query_status q') = true.
Proof.
  intros Hq Ha Hc Hs. unfold time_of in *.
  assert (Hr : exists y, reconcile w i q = [y] /\ (y = MarkingFailed i /\ query_status q = ExecQueued \/ y = Interrupting i true)).
  { unfold reconcile, stale_queued, stale_active. destruct (query_status q); try done; cbn.
    - exists (MarkingFailed i). rewrite (proj2 (Z.leb_le _ _)) by lia. rewrite bool_decide_true by done. auto.
    - exists (Interrupting i true). rewrite (proj2 (Z.ltb_lt _ _)) by lia.
      rewrite bool_decide_false by done. rewrite bool_decide_true by (left). auto.
    - exists (Interrupting i true). rewrite (proj2 (Z.ltb_lt _ _)) by lia.
      rewrite bool_decide_false by done. rewrite bool_decide_true by (right; left). auto. }
  destruct Hr as (y & Hr & Hy).
  assert (Hst : exists st, isTerminal st = true /\ advance w Fine y (add_processes [y] s) =
    (add_processes [y] s, [Finishing i st])).
  { destruct Hy as [[-> Hst]| ->]; cbn [advance]; unfold with_query; cbn; rewrite Hq.
    - exists ExecFailed. rewrite bool_decide_true by done. done.
    - exists (interrupted_status q true). rewrite (active_not_closed _ Ha). split; [|done].
      apply interrupted_status_ends. }
  destruct Hst as (st & Hst & Hadv).
  cbv zeta. cbn [perform_all checked_bind perform]. rewrite Hq, Hr. cbn [checked_bind].
  assert (Hlast : forall (ps : list Process) z, (ps ++ [z]) !! length ps = Some z).
  { intros ps z. by rewrite lookup_app_r, Nat.sub_diag by lia. }
  assert (Htake : forall (ps : list Process) z new, take (length ps) (ps ++ [z]) ++ new ++ drop (S (length ps)) (ps ++ [z]) = ps ++ new).
  { intros ps z new. rewrite take_app_length, drop_ge by (rewrite length_app; cbn; lia). by rewrite app_nil_r. }
  cbn [perform]. replace (processes (add_processes [y] s)) with (processes s ++ [y]) by done. rewrite Hlast, Hadv.
  cbn [checked_bind]. unfold replace_process at 1. cbn [processes add_processes set_processes]. rewrite Htake.
  cbn [perform processes set_processes]. rewrite Hlast. cbn [advance].
  eexists _, (set_query_status st q). split; [done|]. split; [|done]. cbn. by rewrite list_lookup_alter_eq, Hq.
Qed.

(** ** What goes wrong *)

(** A query that is closed is sent all the same.  Its worker takes longer to connect than the timeout of the
    query and the grace together; the reconciliation reports the query as timed out; the callback of the
    connection looks only for a request to cancel, so the statement is sent. *)
Definition sent_late : list (Z * Op) :=
  begun_ops ++ [(80, Reconcile 0); (80, Advance 1 Fine); (80, Advance 1 Fine); (80, Advance 1 Fine); (90, Advance 0 Fine)].

Lemma closed_query_sent :
  match sample_run "browser" true sent_late with
  | Accepted s => map query_status (queries s) = [ExecTimedOut] /\ processes s = [Started 0 1 "select 1" ReadQuery]
  | Refused _ => False
  end.
Proof. vm_compute. done. Qed.

(** A session that was approved for native clients runs queries of the browser too, even while an
    administrator has disabled query access: nothing on the way of a query looks at the transport. *)
Lemma native_session_runs_browser_queries :
  match sample_run "native_proxy" false begun_ops with
  | Accepted s => access_transport (request s) = NativeProxy /\
                  processes s = [Connecting 0 1 "select 1" ReadQuery]
  | Refused _ => False
  end.
Proof. vm_compute. done. Qed.

(** A request that is cancelled while its expired session is being closed ends as completed: the command
    has read its status before. *)
Lemma cancelled_request_completed :
  match sample_run "browser" true
    [(20, ReviewBy 6 true 1); (30, Start 5); (3631, Expire); (3632, CancelRequest 5);
     (3633, Advance 0 Fine); (3633, Advance 0 Fine); (3633, Advance 0 Fine); (3633, Advance 0 Fine);
     (3633, Advance 0 Fine)] with
  | Accepted s => status (access_life (request s)) = Completed
  | Refused _ => False
  end.
Proof. vm_compute. done. Qed.

(** ** Witnesses *)

Lemma sessions_come_to_rest_witness :
  exists t tr s, reachable t tr s /\ map query_status (queries s) = [ExecSucceeded] /\ processes s = [] /\
    (forall n s', nsteps works n s s' -> (n <= work (room s) (processes s))%nat).
Proof.
  destruct (sample_reaches "browser" true (begun_ops ++ map (fun _ => (42, Advance 0 Fine)) (seq 0 6))
    (fun s => map query_status (queries s) = [ExecSucceeded] /\ processes s = []))
    as (t & tr & s & Hr & Hq & Hp); [reflexivity|vm_compute; split; reflexivity|].
  exists t, tr, s. split; [exact Hr|]. split; [exact Hq|]. split; [exact Hp|].
  exact (proj1 (sessions_come_to_rest t tr s Hr)).
Defined.

Lemma sessions_keep_limits_witness :
  exists t tr s x, reachable t tr s /\ session s = Some x /\ expires_at x = session_started_at x + 60 * minutes_asked (request s).
Proof.
  destruct (sample_reaches "browser" true begun_ops (fun s => exists x, session s = Some x))
    as (t & tr & s & Hr & x & Hx); [reflexivity|vm_compute; eexists; reflexivity|].
  exists t, tr, s, x. split; [exact Hr|]. split; [exact Hx|].
  exact (proj1 (sessions_keep_limits t tr s x Hr Hx)).
Defined.
