(* ===== verification/ProxyPolicy.v ===== *)
(** * The policy for statements of native clients

    [app/Services/NativeProxy/ProxyStatementPolicy.php] with [MySqlSessionCommandPolicy.php] and
    [PostgreSqlSessionCommandPolicy.php], and [validateTemplate] of [StatementWorkflow.php]: what a native
    client may send through the proxy.  A command that only concerns the session of the client is let
    through by patterns; everything else is judged by the guard of [QueryGuard].

    The [$] of a pattern of PHP also matches before a line feed at the very end, so it is written as an
    optional line feed and the end.  A back reference to a quote is written as the two cases.  Names of
    databases are compared in the lower case of [toLowerCase]. *)

From Stdlib Require Import String.
From S2P Require Import Prelude JsString JsRegExp CrucibleLib SqlPolicy PhpString Pcre QueryGuard StatementAnalyzer Permissions.

Open Scope string_scope.
Open Scope nat_scope.
Open Scope list_scope.

(** ** Patterns *)

Definition dollar : string := String "010" "?$".

Definition dq : string := String "034" "".

(** [preg_match(pattern, s) === 1] and the text of a group, with the flag [i]. *)
Local Notation ipattern text := (pcre (parsed (regex text%string "i"))) (only parsing).

Definition matched (p : regexp) (s : string) (n : nat) : option string := exec p s ≫= fun m => group m n.

(** ** Decisions *)

Record ProxyStatementDecision := {
  allowed : bool;
  decision_code : string;
  decision_query : option QueryType;
  sessionCommand : bool;
  resultFilter : option string;
}.

Definition allowSession (filter : option string) : ProxyStatementDecision := {|
  allowed := true; decision_code := "allowed_session_command"; decision_query := None;
  sessionCommand := true; resultFilter := filter |}.

Definition allowQuery (t : QueryType) : ProxyStatementDecision := {|
  allowed := true; decision_code := "allowed_query"; decision_query := Some t;
  sessionCommand := false; resultFilter := None |}.

Definition deny (code : string) : ProxyStatementDecision := {|
  allowed := false; decision_code := code; decision_query := None;
  sessionCommand := false; resultFilter := None |}.

Definition UNSUPPORTED_CODE : string := "unsupported_native_statement".

(** ** What the two drivers share *)

Definition multiple_pattern : regexp := Eval vm_compute in ipattern ";\s*[\s\S]+$".

Definition savepoint_pattern : regexp := Eval vm_compute in
  ipattern ("^(savepoint|release\s+savepoint|rollback\s+to(?:\s+savepoint)?)\s+[a-z_][a-z0-9_$]*" ++ dollar).

Definition is_semicolon (c : ascii) : bool := Ascii.eqb c ";".

(** [rtrim(s, ';')] *)
Definition rtrim_semicolons : string -> string := rstrip is_semicolon.

Definition php_trim (s : string) : string := rtrim (ltrim s).

(** Digits without a sign, as the integer they stand for, or zero. *)
Definition to_int (s : string) : Z := str_to_number s ?? 0%Z.

Definition read_write (access : AccessMode) (capture : option string) : bool :=
  bool_decide (access = AccessRead) && match capture with Some c => str_eq (toLowerCase c) "read write" | None => false end.

(** ** MySQL *)

Definition MYSQL_VARIABLES : string :=
  "(autocommit|transaction_isolation|transaction_read_only|sql_mode|time_zone|character_set_results|net_read_timeout|net_write_timeout|wait_timeout|interactive_timeout)".

Definition InspectableVariables : list string :=
  ["autocommit"; "character_set_results"; "interactive_timeout"; "lower_case_table_names"; "net_read_timeout";
   "net_write_timeout"; "offline_mode"; "sql_mode"; "time_zone"; "transaction_isolation"; "transaction_read_only";
   "version"; "version_comment"; "version_compile_os"; "wait_timeout"].

(** The end of a comment: what follows on the first star and slash. *)
Fixpoint after_comment (s : string) : option string :=
  match s with
  | String "*" (String "/" s') => Some s'
  | String _ s' => after_comment s'
  | EmptyString => None
  end.

(** What [\s] matches. *)
Definition pcre_space (c : ascii) : bool := in_range 9 13 c || is_code 32 c.

(** A comment at the beginning that is neither executable nor a hint, removed with the blanks before it. *)
Definition leading_comment (s : string) : option string :=
  match lstrip pcre_space s with
  | String "/" (String "*" s') =>
      match s' with
      | String "!" _ | String "+" _ => None
      | _ => after_comment s'
      end
  | _ => None
  end.

Fixpoint strip_comments (fuel : nat) (s : string) : string :=
  match fuel with
  | O => s
  | S fuel' => match leading_comment s with Some s' => strip_comments fuel' s' | None => s end
  end.

(** [withoutLeadingDriverComments]: the comments that follow on each other, and the blanks after them. *)
Definition withoutLeadingDriverComments (s : string) : string :=
  match leading_comment s with
  | Some s' => lstrip pcre_space (strip_comments (String.length s) s')
  | None => s
  end.

Definition mysql_begin_pattern : regexp := Eval vm_compute in
  ipattern ("^(begin|start\s+transaction)(?:\s+(read\s+write|read\s+only))?" ++ dollar).
Definition mysql_end_pattern : regexp := Eval vm_compute in ipattern ("^(commit|rollback)(?:\s+work)?" ++ dollar).
Definition mysql_set_pattern : regexp := Eval vm_compute in
  ipattern ("^set\s+(?:(?:session|local)\s+|@@(?:(?:session|local)\.)?)?" ++ MYSQL_VARIABLES ++ "\s*(?:=|:=)\s*[^;]+" ++ dollar).
Definition mysql_writable_pattern : regexp := Eval vm_compute in ipattern "transaction_read_only\s*(?:=|:=)\s*(?:off|0)".
Definition mysql_charset_pattern : regexp := Eval vm_compute in
  ipattern ("^set\s+(?:character\s+set\s+|names\s+)(?:utf8|utf8mb4|'utf8'|'utf8mb4'|" ++ dq ++ "utf8" ++ dq ++ "|" ++ dq ++
           "utf8mb4" ++ dq ++ ")(?:\s+collate\s+[a-z0-9_]+)?" ++ dollar).
Definition mysql_safe_pattern : regexp := Eval vm_compute in ipattern ("^set\s+sql_safe_updates\s*(?:=|:=)\s*1" ++ dollar).
Definition mysql_use_pattern : regexp := Eval vm_compute in ipattern ("^use\s+(?:`)?([a-zA-Z0-9_]+)(?:`)?" ++ dollar).
Definition mysql_databases_pattern : regexp := Eval vm_compute in ipattern ("^show\s+(?:databases|schemas)" ++ dollar).
Definition mysql_variables_pattern : regexp := Eval vm_compute in
  ipattern ("^show\s+(?:(?:session|local)\s+)?variables" ++ dollar).
Definition mysql_routines_pattern : regexp := Eval vm_compute in
  ipattern ("^show\s+(?:procedure|function)\s+status\s+where\s+`?db`?\s*=\s*(?:'([A-Za-z0-9_$\-]+)'|" ++ dq ++
           "([A-Za-z0-9_$\-]+)" ++ dq ++ ")" ++ dollar).
Definition mysql_variable_pattern : regexp := Eval vm_compute in
  ipattern ("^show\s+(?:session\s+)?variables\s+like\s+'([a-z_]+)'" ++ dollar).
Definition mysql_status_pattern : regexp := Eval vm_compute in
  ipattern ("^show\s+(?:session\s+)?status(?:\s+like\s+'[a-z0-9_]+')?" ++ dollar).
Definition mysql_charsets_pattern : regexp := Eval vm_compute in
  ipattern ("^show\s+(?:character\s+set|charset)(?:\s+(?:like\s+'[a-z0-9_%]+'|where\s+charset\s*=\s*'[a-z0-9_]+'))?" ++ dollar).
Definition mysql_warnings_pattern : regexp := Eval vm_compute in
  ipattern ("^show\s+(?:warnings|errors|count\(\*\)\s+(?:warnings|errors)|collation|engines|plugins)" ++ dollar).
Definition mysql_show_pattern : regexp := Eval vm_compute in ipattern "^show\b".
Definition mysql_denied_pattern : regexp := Eval vm_compute in
  ipattern "^(set\s+(?:global|persist)|set\s+(?:password|role)|lock\s+tables|unlock\s+tables|flush|reset|kill)\b".
Definition mysql_timeout_pattern : regexp := Eval vm_compute in
  ipattern "\b(net_read_timeout|net_write_timeout|wait_timeout|interactive_timeout)\b\s*(?:=|:=)\s*([0-9]+)\b".

(** The patterns of [isLeaseScopedMetadataStatement]. *)
Definition IDENTIFIER : string := "(?:`(?:``|[^`])+`|[A-Za-z0-9_]+)".
Definition QUALIFIED : string := "(?:" ++ IDENTIFIER ++ "\.)?" ++ IDENTIFIER.
Definition FILTER : string :=
  "(?:\s+(?:like\s+(?:'(?:''|\\[^" ++ String "010" "]|[^'])*'|" ++ dq ++ "(?:" ++ dq ++ dq ++ "|\\[^" ++ String "010" "]|[^" ++ dq ++
  "])*" ++ dq ++ "|" ++ IDENTIFIER ++ ")|where\s+[^;]+))?".

Definition mysql_tables_pattern : regexp := Eval vm_compute in
  ipattern ("^show\s+(?:extended\s+)?(?:full\s+)?tables(?:\s+(?:from|in)\s+(" ++ IDENTIFIER ++ "))?" ++ FILTER ++ dollar).
Definition mysql_table_status_pattern : regexp := Eval vm_compute in
  ipattern ("^show\s+table\s+status(?:\s+(?:from|in)\s+(" ++ IDENTIFIER ++ "))?" ++ FILTER ++ dollar).
Definition mysql_triggers_pattern : regexp := Eval vm_compute in
  ipattern ("^show\s+(?:triggers|events)\s+(?:from|in)\s+(" ++ IDENTIFIER ++ ")" ++ FILTER ++ dollar).
Definition mysql_columns_pattern : regexp := Eval vm_compute in
  ipattern ("^show\s+(?:full\s+)?(?:columns|fields)\s+(?:from|in)\s+(" ++ QUALIFIED ++ ")(?:\s+(?:from|in)\s+(" ++
           IDENTIFIER ++ "))?" ++ FILTER ++ dollar).
Definition mysql_index_pattern : regexp := Eval vm_compute in
  ipattern ("^show\s+(?:index|indexes|keys)\s+(?:from|in)\s+(" ++ QUALIFIED ++ ")(?:\s+(?:from|in)\s+(" ++ IDENTIFIER ++
           "))?(?:\s+where\s+[^;]+)?" ++ dollar).
Definition mysql_create_pattern : regexp := Eval vm_compute in
  ipattern ("^show\s+create\s+(?:table|view)\s+(" ++ QUALIFIED ++ ")" ++ dollar).

Definition starts_with (c : ascii) (s : string) : bool := unit_at 0 s c.

(** [str_replace('``', '`', s)] *)
Fixpoint undouble (s : string) : string :=
  match s with
  | String "`" (String "`" s') => String "`" (undouble s')
  | String c s' => String c (undouble s')
  | EmptyString => EmptyString
  end.

Definition unquoteIdentifier (identifier : string) : string :=
  let s := php_trim identifier in
  if starts_with "`" s && ends_with "`" s then undouble (drop_last (drop_str 1 s)) else s.

Definition databaseSpecifierAllows (database : string) (specifier : option string) : bool :=
  match specifier with
  | None | Some EmptyString => true
  | Some s => str_eq (toLowerCase database) (toLowerCase (unquoteIdentifier s))
  end.

(** What stands before the first point; [None] without one. *)
Fixpoint qualifier (s : string) : option string :=
  match s with
  | EmptyString => None
  | String "." _ => Some EmptyString
  | String c s' => String c <$> qualifier s'
  end.

Definition qualifiedIdentifierAllows (database identifier : string) : bool :=
  match qualifier identifier with
  | None => true
  | Some q => databaseSpecifierAllows database (Some q)
  end.

(** The first pattern that matches decides. *)
Definition isLeaseScopedMetadataStatement (statement database : string) : bool :=
  let hit p := test p statement in
  let capture p n := matched p statement n in
  let specifier p n := databaseSpecifierAllows database (capture p n) in
  let qualified p n := qualifiedIdentifierAllows database (capture p n ?? "") in
  if hit mysql_tables_pattern then specifier mysql_tables_pattern 1
  else if hit mysql_table_status_pattern then specifier mysql_table_status_pattern 1
  else if hit mysql_triggers_pattern then specifier mysql_triggers_pattern 1
  else if hit mysql_columns_pattern then qualified mysql_columns_pattern 1 && specifier mysql_columns_pattern 2
  else if hit mysql_index_pattern then qualified mysql_index_pattern 1 && specifier mysql_index_pattern 2
  else if hit mysql_create_pattern then qualified mysql_create_pattern 1
  else false.

Definition isInspectableVariableStatement (statement : string) : bool :=
  match matched mysql_variable_pattern statement 1 with
  | Some v => existsb (str_eq (toLowerCase v)) InspectableVariables
  | None => false
  end.

(** [allowsTimeout] with the pattern and the limit of a driver. *)
Definition allowsTimeout (p : regexp) (limit : Z) (statement : string) : bool :=
  match matched p statement 2 with
  | Some digits => (0 <? to_int digits)%Z && (to_int digits <=? limit)%Z
  | None => true
  end.

(** [decide] of [MySqlSessionCommandPolicy]; [None] is not a command of the session. *)
Definition mysql_decide (access : AccessMode) (sql database : string) : option ProxyStatementDecision :=
  let statement := rtrim_semicolons (php_trim (withoutLeadingDriverComments sql)) in
  let hit p := test p statement in
  if str_eq statement "" || test multiple_pattern (php_trim sql) then Some (deny "multiple_statements")
  else if hit mysql_begin_pattern then
    Some (if read_write access (matched mysql_begin_pattern statement 2) then deny "read_only_transaction" else allowSession None)
  else if hit mysql_end_pattern || hit savepoint_pattern then Some (allowSession None)
  else if hit mysql_set_pattern then
    Some (if bool_decide (access = AccessRead) && hit mysql_writable_pattern then deny "read_only_transaction"
          else if negb (allowsTimeout mysql_timeout_pattern 900 statement) then deny "invalid_timeout"
          else allowSession None)
  else if hit mysql_charset_pattern || hit mysql_safe_pattern then Some (allowSession None)
  else if hit mysql_use_pattern then
    Some (if str_eq database (matched mysql_use_pattern statement 1 ?? "") then allowSession None else deny "cross_database")
  else if hit mysql_databases_pattern then Some (allowSession (Some "lease_databases"))
  else if isLeaseScopedMetadataStatement statement database then Some (allowSession None)
  else if hit mysql_variables_pattern then Some (allowSession None)
  else if hit mysql_routines_pattern then
    let name := matched mysql_routines_pattern statement 1 ?? (matched mysql_routines_pattern statement 2 ?? "") in
    Some (if databaseSpecifierAllows database (Some name) then allowSession None else deny "cross_database")
  else if isInspectableVariableStatement statement then Some (allowSession None)
  else if hit mysql_status_pattern then Some (allowSession None)
  else if hit mysql_charsets_pattern then Some (allowSession None)
  else if hit mysql_warnings_pattern then Some (allowSession None)
  else if hit mysql_show_pattern then Some (deny "unsupported_show_statement")
  else if hit mysql_denied_pattern then Some (deny UNSUPPORTED_CODE)
  else None.

(** ** PostgreSQL *)

Definition POSTGRES_VARIABLES : string :=
  "(application_name|client_encoding|client_min_messages|datestyle|timezone|extra_float_digits|bytea_output|standard_conforming_strings|search_path|statement_timeout|lock_timeout|idle_in_transaction_session_timeout)".

Definition postgres_begin_pattern : regexp := Eval vm_compute in
  ipattern ("^(begin|start\s+transaction)(?:\s+(?:work|transaction))?(?:\s+isolation\s+level\s+(?:read\s+committed|repeatable\s+read|serializable))?(?:\s+(read\s+write|read\s+only))?" ++ dollar).
Definition postgres_end_pattern : regexp := Eval vm_compute in
  ipattern ("^(commit|end|rollback|abort)(?:\s+(?:work|transaction))?" ++ dollar).
Definition postgres_set_pattern : regexp := Eval vm_compute in
  ipattern ("^set\s+(?:(?:session|local)\s+)?" ++ POSTGRES_VARIABLES ++ "(?:\s+to\s+|\s*=\s*)[^;]+" ++ dollar).
Definition postgres_role_pattern : regexp := Eval vm_compute in
  ipattern "\bdefault_transaction_read_only\b|\bset\s+role\b|\bsession\s+authorization\b".
Definition postgres_variable_pattern : regexp := Eval vm_compute in ipattern ("^(show|reset)\s+" ++ POSTGRES_VARIABLES ++ dollar).
Definition postgres_show_pattern : regexp := Eval vm_compute in ipattern "^(show|reset)\b".
Definition postgres_denied_pattern : regexp := Eval vm_compute in
  ipattern "^(set\s+role|set\s+session\s+authorization|discard|listen|notify|unlisten|prepare|execute|deallocate)\b".
Definition postgres_timeout_pattern : regexp := Eval vm_compute in
  ipattern "\b(statement_timeout|lock_timeout|idle_in_transaction_session_timeout)\b(?:\s+to\s+|\s*=\s*)([0-9]+)\b".
Definition conforming_pattern : regexp := Eval vm_compute in
  ipattern ("\bstandard_conforming_strings\b(?:\s+to\s+|\s*=\s*)([^" ++ String "010" "]+)" ++ dollar).

Definition isSingleStatement (statement : string) : bool :=
  negb (str_eq statement "") && negb (test multiple_pattern statement).

(** What [trim] removes around a value, with the quotes. *)
Definition around_value (c : ascii) : bool := php_space c || Ascii.eqb c "'" || is_code 34 c.

Definition allowsStandardConformingStrings (statement : string) : bool :=
  match matched conforming_pattern statement 1 with
  | Some v => existsb (str_eq (toLowerCase (rstrip around_value (lstrip around_value v))))
                ["on"; "true"; "yes"; "1"; "default"]
  | None => true
  end.

Definition postgres_decide (access : AccessMode) (sql : string) : option ProxyStatementDecision :=
  let statement := php_trim sql in
  if negb (isSingleStatement statement) then Some (deny "multiple_statements")
  else
    let statement := rtrim_semicolons statement in
    let hit p := test p statement in
    if hit postgres_begin_pattern then
      Some (if read_write access (matched postgres_begin_pattern statement 2) then deny "read_only_transaction" else allowSession None)
    else if hit postgres_end_pattern || hit savepoint_pattern then Some (allowSession None)
    else if hit postgres_set_pattern then
      Some (if hit postgres_role_pattern then deny UNSUPPORTED_CODE
            else if negb (allowsTimeout postgres_timeout_pattern 900000 statement) then deny "invalid_timeout"
            else if negb (allowsStandardConformingStrings statement) then deny "unsafe_string_escaping"
            else allowSession None)
    else if hit postgres_variable_pattern then Some (allowSession None)
    else if hit postgres_show_pattern then Some (deny "unsupported_session_variable")
    else if hit postgres_denied_pattern then Some (deny UNSUPPORTED_CODE)
    else None.

(** ** Statements *)

Section statements.
Context (settings : SqlStatementPolicy).

(** [decide] of [ProxyStatementPolicy]. *)
Definition proxy_decide (driver : Driver) (access : AccessMode) (database sql : string) : ProxyStatementDecision :=
  match (match driver with
         | PostgreSql => postgres_decide access sql
         | MySql => mysql_decide access sql database
         end) with
  | Some d => d
  | None =>
      match checked_bind (validateSessionExecutable settings sql) (classify settings) with
      | Refused _ => deny UNSUPPORTED_CODE
      | Accepted t =>
          if bool_decide (access = AccessRead) && negb (bool_decide (t = ReadQuery)) then deny "read_only_session"
          else allowQuery t
      end
  end.

Definition executable_comment_pattern : regexp := Eval vm_compute in ipattern "\/\*[!+]".

(** [validateTemplate] *)
Definition validateTemplate (driver : Driver) (access : AccessMode) (database sql : string) : ProxyStatementDecision :=
  if test executable_comment_pattern sql then deny "executable_comment" else proxy_decide driver access database sql.
End statements.

(** ** How a pattern begins *)

(** The words a pattern can begin with, in any case, each with whether it is all that the pattern takes. *)
Fixpoint heads (r : re) : list (string * bool) :=
  match r with
  | RSet (CUnit c) => [(String c "", true)]
  | RSet _ | RStar _ _ => [("", false)]
  | RSeq a b =>
      flat_map (fun h : string * bool => if snd h then map (fun k : string * bool => ((fst h ++ fst k)%string, snd k)) (heads b) else [h]) (heads a)
  | RAlt a b => heads a ++ heads b
  | ROpt a => heads a ++ [("", true)]
  | RGroup _ a => heads a
  | REmpty | RWordB | RBegin | REnd => [("", true)]
  end.

Definition fold_case (c : ascii) : ascii := lower_unit (canon c).

(** [s] begins with the word [w], in any case. *)
Definition begins (w s : string) : Prop := exists v rest, s = (v ++ rest)%string /\ smap fold_case v = smap fold_case w.

Lemma unit_match_fold d c : set_match true (CUnit d) c = true -> fold_case c = fold_case d.
Proof.
  unfold set_match, fold_case. cbn. rewrite !orb_true_iff, !Ascii.eqb_eq. intros [->|[<-|<-]]; [done| |].
  - by rewrite canon_idem.
  - by rewrite canon_lower_canon.
Qed.

Lemma matches_heads ml r st st' :
  matches true ml r st st' ->
  exists h v rest, h ∈ heads r /\ ms_rest st = (v ++ rest)%string /\ smap fold_case v = smap fold_case (fst h) /\
    (snd h = true -> rest = ms_rest st').
Proof.
  assert (Hkeep : forall s r, ("", true) ∈ heads r ->
    exists h v rest, h ∈ heads r /\ ms_rest s = (v ++ rest)%string /\ smap fold_case v = smap fold_case (fst h) /\
    (snd h = true -> rest = ms_rest s)).
  { intros s r0 Hin. by exists ("", true), "", (ms_rest s). }
  assert (Hend : forall s s' r, ("", false) ∈ heads r ->
    exists h v rest, h ∈ heads r /\ ms_rest s = (v ++ rest)%string /\ smap fold_case v = smap fold_case (fst h) /\
    (snd h = true -> rest = ms_rest s')).
  { intros s s' r0 Hin. by exists ("", false), "", (ms_rest s). }
  induction 1 as [st|s p c rest caps Hs|a b st st1 st2 _ IHa _ IHb|a b st st' _ IH|a b st st' _ IH|g a st|
    g a st st1 st2 _ _ _ _ _|a st|a st st' _ IH Hadv|n a st st' _ IH|st _|st _|st _];
    try (by apply Hkeep; left).
  - destruct s as [d| | | | | |]; try (by apply Hend; left).
    exists (String d "", true), (String c ""), rest. cbn. apply unit_match_fold in Hs. split_and!; [left|done| |done].
    by rewrite Hs.
  - destruct IHa as (h & v & rest & Hh & Hst & Hv & Hr). destruct (snd h) eqn:Hw.
    + destruct IHb as (k & v' & rest' & Hk & Hst' & Hv' & Hr'). rewrite Hr in Hst by done. rewrite Hst' in Hst.
      exists ((fst h ++ fst k)%string, snd k), (v ++ v')%string, rest'. split_and!; [|by rewrite app_assoc_str| |done].
      * cbn. apply elem_of_flat_map. exists h. split; [done|]. rewrite Hw. apply list_elem_of_fmap. by exists k.
      * cbn. by rewrite !smap_app, Hv, Hv'.
    + exists h, v, rest. split_and!; [|done..|by rewrite Hw]. cbn. apply elem_of_flat_map. exists h. split; [done|].
      rewrite Hw. left.
  - destruct IH as (h & v & rest & Hh & H). exists h, v, rest. split; [|exact H]. cbn. apply elem_of_app. by left.
  - destruct IH as (h & v & rest & Hh & H). exists h, v, rest. split; [|exact H]. cbn. apply elem_of_app. by right.
  - by apply Hend; left.
  - by apply Hend; left.
  - apply Hkeep. cbn. apply elem_of_app. right. left.
  - destruct IH as (h & v & rest & Hh & H). exists h, v, rest. cbn in H. split; [|exact H]. cbn. apply elem_of_app. by left.
  - destruct IH as (h & v & rest & Hh & H). by exists h, v, rest.
Qed.

(** A pattern that is anchored and begins with one of some words. *)
Definition opens_with (words : list string) (p : regexp) : bool :=
  re_ignore_case p && negb (re_multiline p) && match re_body p with RSeq RBegin _ => true | _ => false end &&
  forallb (fun h : string * bool => existsb (fun w => String.prefix w (fst h)) words) (heads (re_body p)).

Lemma prefix_app w s : String.prefix w s = true -> exists t, s = (w ++ t)%string.
Proof.
  revert s. induction w as [|c w IH]; intros s; [by exists s|]. destruct s as [|d s]; [done|]. cbn.
  destruct (ascii_dec c d) as [->|]; [|done]. intros H. destruct (IH _ H) as [t ->]. by exists t.
Qed.

Lemma smap_split f v w t : smap f v = smap f (w ++ t) -> exists v1 v2, v = (v1 ++ v2)%string /\ smap f v1 = smap f w.
Proof.
  revert v. induction w as [|c w IH]; intros v H; [by exists "", v|]. destruct v as [|d v]; [done|].
  cbn in H. injection H as Hc H. destruct (IH _ H) as (v1 & v2 & -> & H1). exists (String d v1), v2.
  split; [done|]. cbn. by rewrite Hc, H1.
Qed.

Lemma hit_opens words p s : opens_with words p = true -> test p s = true -> exists w, w ∈ words /\ begins w s.
Proof.
  unfold opens_with. intros H Ht. bool_hyps. destruct (re_body p) as [| |[]| | | | | | |] eqn:Hb; try done.
  unfold test in Ht. rewrite (search_anchored _ _ _ Hb) in Ht by done.
  destruct (run p _) as [|st l] eqn:Hr; [done|]. apply run_cons in Hr. unfold matches_at in Hr.
  rewrite H, H2, Hb in Hr. apply matches_heads in Hr as (h & v & rest & Hh & Hst & Hv & _). cbn in Hst.
  rewrite forallb_forall_elem in H0. specialize (H0 h Hh). apply existsb_exists_elem in H0 as (w & Hw & Hpre).
  exists w. split; [done|]. apply prefix_app in Hpre as [t Ht']. rewrite Ht' in Hv.
  apply smap_split in Hv as (v1 & v2 & -> & Hv1). exists v1, (v2 ++ rest)%string. split; [|done].
  by rewrite Hst, app_assoc_str.
Qed.

Lemma matched_test p s n t : matched p s n = Some t -> test p s = true.
Proof. unfold matched, exec, test. by destruct (search p None s) as [[]|]. Qed.

(** ** What is let through *)

Definition SESSION_WORDS : list string :=
  ["begin"; "start"; "commit"; "rollback"; "end"; "abort"; "savepoint"; "release"; "set"; "use"; "show"; "reset"].

(** The statement that the patterns look at. *)
Definition session_text (driver : Driver) (sql : string) : string :=
  rtrim_semicolons (php_trim (match driver with MySql => withoutLeadingDriverComments sql | PostgreSql => sql end)).

Lemma metadata_shows statement database :
  isLeaseScopedMetadataStatement statement database = true -> begins "show" statement.
Proof.
  assert (Hshow : forall p, opens_with ["show"] p = true -> test p statement = true -> begins "show" statement).
  { intros p Hp Ht. destruct (hit_opens _ _ _ Hp Ht) as (w & Hw & Hb). by apply list_elem_of_singleton in Hw as ->. }
  unfold isLeaseScopedMetadataStatement. intros H.
  repeat match type of H with
  | (if test ?p statement then _ else _) = true =>
      destruct (test p statement) eqn:?; [by apply (Hshow p); [vm_compute|]|]
  end. done.
Qed.

(** A branch that was taken says with which word its statement begins. *)
Ltac session_word Hhit :=
  match goal with
  | E : isLeaseScopedMetadataStatement _ _ = true |- _ =>
      exists "show"; split; [apply list_elem_of_In; vm_compute; tauto|by eapply metadata_shows]
  | E : (_ || _)%bool = true |- _ => apply orb_true_iff in E as [E|E]; session_word Hhit
  | E : isInspectableVariableStatement ?s = true |- _ =>
      unfold isInspectableVariableStatement in E; destruct (matched mysql_variable_pattern s 1) eqn:?M; [|discriminate E];
      apply matched_test in M; clear E; session_word Hhit
  | E : test ?p _ = true |- _ => apply (Hhit p); [vm_compute; reflexivity|exact E]
  end.

(** Walks down the branches of a decision. *)
Ltac decision H Ha :=
  repeat match type of H with
  | (if ?b then _ else _) = Some _ => let E := fresh "E" in destruct b eqn:E
  end; try discriminate H; injection H as <-;
  repeat match type of Ha with context [if ?b then _ else _] => destruct b end; try discriminate Ha;
  (split; [reflexivity|split; [reflexivity|]]).

Lemma mysql_session access sql database d :
  mysql_decide access sql database = Some d -> allowed d = true ->
  test multiple_pattern (php_trim sql) = false /\ decision_query d = None /\ sessionCommand d = true /\
  exists w, w ∈ SESSION_WORDS /\ begins w (session_text MySql sql).
Proof.
  unfold mysql_decide. cbv zeta. change (rtrim_semicolons (php_trim (withoutLeadingDriverComments sql))) with (session_text MySql sql).
  set (statement := session_text MySql sql). clearbody statement. intros H Ha.
  destruct (str_eq statement "" || _) eqn:Hm; [by injection H as <-|]. apply orb_false_iff in Hm as [_ Hm].
  split; [done|].
  assert (Hhit : forall p, opens_with SESSION_WORDS p = true -> test p statement = true ->
    exists w, w ∈ SESSION_WORDS /\ begins w statement) by (intros p; apply hit_opens).
  decision H Ha; session_word Hhit.
Qed.

Lemma postgres_session access sql d :
  postgres_decide access sql = Some d -> allowed d = true ->
  test multiple_pattern (php_trim sql) = false /\ decision_query d = None /\ sessionCommand d = true /\
  exists w, w ∈ SESSION_WORDS /\ begins w (session_text PostgreSql sql).
Proof.
  unfold postgres_decide. cbv zeta. change (rtrim_semicolons (php_trim sql)) with (session_text PostgreSql sql).
  set (statement := session_text PostgreSql sql). clearbody statement. intros H Ha.
  destruct (isSingleStatement (php_trim sql)) eqn:Hm; [|by injection H as <-].
  unfold isSingleStatement in Hm. bool_hyps. split; [done|]. cbn [negb] in H.
  assert (Hhit : forall p, opens_with SESSION_WORDS p = true -> test p statement = true ->
    exists w, w ∈ SESSION_WORDS /\ begins w statement) by (intros p; apply hit_opens).
  decision H Ha; session_word Hhit.
Qed.

(** The guard is asked about a single statement alone. *)
Lemma mysql_unknown access sql database :
  mysql_decide access sql database = None -> test multiple_pattern (php_trim sql) = false.
Proof.
  unfold mysql_decide. cbv zeta. destruct (str_eq _ "" || _) eqn:Hm; [done|]. intros _. by apply orb_false_iff in Hm as [_ Hm].
Qed.

Lemma postgres_unknown access sql : postgres_decide access sql = None -> test multiple_pattern (php_trim sql) = false.
Proof.
  unfold postgres_decide. cbv zeta. destruct (isSingleStatement (php_trim sql)) eqn:Hm; [|done]. intros _.
  unfold isSingleStatement in Hm. by bool_hyps.
Qed.

(** ** What the patterns find *)

Lemma star_any ml g p s caps :
  matches true ml (RStar g (RSet (CUnion (pcre_set CSpace) (CNot (pcre_set CSpace))))) (MState p s caps)
    (MState (before_at p s) "" caps).
Proof.
  assert (Hall : forall l : list (nat * string), List.filter (fun p => negb (existsb (Nat.eqb (fst p)) [])) l = l).
  { induction l as [|x l IHl]; [done|]. cbn in IHl |- *. by rewrite IHl. }
  revert p. induction s as [|c s IH]; intros p; [constructor|]. cbn [before_at].
  apply M_star_more with (MState (Some c) s caps); [|unfold advanced; cbn [ms_rest String.length]; apply Nat.ltb_lt; lia|apply IH].
  unfold reset_groups. cbn [groups ms_caps ms_prev ms_rest].
  rewrite Hall.
  apply M_set. unfold set_match. cbn [cset_mem]. by destruct (cset_mem (pcre_set CSpace) c).
Qed.

Lemma single_statement s u v : test multiple_pattern s = false -> s = (u ++ String ";" v)%string -> v = "".
Proof.
  intros Ht ->. destruct v as [|c v]; [done|]. exfalso. rewrite <- not_true_iff_false in Ht. apply Ht, test_iff.
  exists u, (String ";" (String c v)), (MState (before_at (Some c) v) "" []). split; [done|]. unfold matches_at.
  change (matches true false (re_body multiple_pattern) (MState (before_at None u) (String ";" (String c v)) [])
    (MState (before_at (Some c) v) "" [])).
  eapply M_seq; [by apply M_set|]. eapply M_seq; [apply M_star_stop|].
  eapply M_seq; [eapply M_seq; [apply M_set|apply star_any]|by apply M_end].
  unfold set_match. cbn [cset_mem]. by destruct (in_range _ _ c || Ascii.eqb c " ").
Qed.

Lemma no_executable_comment sql u c v :
  test executable_comment_pattern sql = false -> sql = (u ++ "/*" ++ String c v)%string -> c <> "!"%char /\ c <> "+"%char.
Proof.
  intros Ht ->. assert (Hno : set_match true (CUnion (CUnit "!") (CUnit "+")) c = false).
  { apply not_true_iff_false. intros Hc. rewrite <- not_true_iff_false in Ht. apply Ht, test_iff.
    exists u, ("/*" ++ String c v)%string, (MState (Some c) v []). split; [done|]. unfold matches_at.
    eapply M_seq; [by apply M_set|]. eapply M_seq; [by apply M_set|]. by apply M_set. }
  split; intros ->; by vm_compute in Hno.
Qed.

(** C5. What a native client may run: a text without executable comments that holds a single statement, which
    is either a command of its session, one that begins with one of twelve words, or a statement that the
    guard admits and whose kind the access of the lease allows. *)
Theorem native_statements_vetted settings driver access database sql :
  let d := validateTemplate settings driver access database sql in
  allowed d = true ->
  (forall u v, php_trim sql = (u ++ String ";" v)%string -> v = "") /\
  (forall u c v, sql = (u ++ "/*" ++ String c v)%string -> c <> "!"%char /\ c <> "+"%char) /\
  ((sessionCommand d = true /\ decision_query d = None /\ exists w, w ∈ SESSION_WORDS /\ begins w (session_text driver sql)) \/
   (sessionCommand d = false /\ exists statement t, decision_query d = Some t /\
      validateSessionExecutable settings sql = Accepted statement /\ classify settings statement = Accepted t /\
      (access = AccessRead -> t = ReadQuery))).
Proof.
  cbv zeta. unfold validateTemplate. destruct (test executable_comment_pattern sql) eqn:Hc; [done|].
  assert (Hcomment : forall u c v, sql = (u ++ "/*" ++ String c v)%string -> c <> "!"%char /\ c <> "+"%char)
    by (intros u c v; by apply no_executable_comment).
  unfold proxy_decide. intros Ha.
  destruct (match driver with MySql => mysql_decide access sql database | PostgreSql => postgres_decide access sql end) as [d|] eqn:Hd.
  - destruct driver; [apply mysql_session in Hd as (Hm & Hq & Hs & Hw)|apply postgres_session in Hd as (Hm & Hq & Hs & Hw)];
      try done; (split; [intros u v; by apply single_statement|]); (split; [done|left]); auto.
  - assert (Hm : test multiple_pattern (php_trim sql) = false).
    { destruct driver; [by eapply mysql_unknown|by eapply postgres_unknown]. }
    split; [intros u v; by apply single_statement|]. split; [done|right].
    destruct (validateSessionExecutable settings sql) as [statement|] eqn:Hv; [|done]. cbn [checked_bind] in *.
    destruct (classify settings statement) as [t|] eqn:Ht; [|done].
    destruct (bool_decide (access = AccessRead) && negb (bool_decide (t = ReadQuery))) eqn:Hr; [done|].
    split; [done|]. exists statement, t. split_and!; try done. intros ->. by destruct t.
Qed.

(** ** What goes wrong *)

(** A value may be any text without a semicolon: a list of assignments sets global variables too, and a
    subquery reads what the guard blocks. *)
Lemma set_hides_more :
  Forall (fun sql => mysql_decide AccessRead sql "app" = Some (allowSession None))
    ["set autocommit = 1, global max_connections = 1"; "set time_zone = (select load_file('/etc/passwd'))";
     "show tables where load_file('/etc/passwd') is not null"].
Proof. repeat constructor; vm_compute; reflexivity. Qed.

(** In a session that only reads, a transaction can be made writable with two blanks, or with FALSE. *)
Lemma writable_transaction_allowed :
  mysql_decide AccessRead "start transaction read  write" "app" = Some (allowSession None) /\
  postgres_decide AccessRead "begin read  write" = Some (allowSession None) /\
  mysql_decide AccessRead "set transaction_read_only = false" "app" = Some (allowSession None).
Proof. vm_compute. done. Qed.

(** A timeout between quotes is not compared with the limit. *)
Lemma quoted_timeout_unlimited :
  postgres_decide AccessRead "set statement_timeout = 0" = Some (deny "invalid_timeout") /\
  postgres_decide AccessRead "set statement_timeout = '0'" = Some (allowSession None).
Proof. vm_compute. done. Qed.

(** ** Witnesses *)

Lemma native_statements_vetted_witness :
  let sql := "/* client */ show full columns from `app`.users;" in
  allowed (validateTemplate read_only_policy MySql AccessRead "app" sql) = true /\
  (forall u v, php_trim sql = (u ++ String ";" v)%string -> v = "").
Proof.
  cbv zeta.
  assert (H : allowed (validateTemplate read_only_policy MySql AccessRead "app"
    "/* client */ show full columns from `app`.users;") = true) by (vm_compute; reflexivity).
  split; [exact H|].
  exact (proj1 (native_statements_vetted read_only_policy MySql AccessRead "app" _ H)).
Defined.
