(* ===== verification/Leases.v ===== *)
(** * Native client access on the server

    [app/Services/NativeProxy/]: [LeaseWorkflow.php], [DeviceAuthorizationWorkflow.php],
    [ConnectionAdmission.php] and [StatementWorkflow.php], with their controllers, gates and the command
    [PruneNativeProxyState.php].  A session of [Sessions] that was approved for native clients gets a lease
    with temporary credentials; a device that its owner approves gets a token; with the token the proxy opens
    a tunnel, with the credentials a client is admitted as a connection, and each of its statements is
    authorized.

    The state has the rows of all sessions.  Every operation is one transaction, which a refusal undoes;
    reading the leases that are to be revoked and revoking them are two.  An identifier of a row is its
    position; no row is removed (the command also deletes rows that have been over for weeks).  Reasons,
    metadata of clients and the counts of bytes are left out, and so is the normalized text of a statement. *)

From Stdlib Require Import String.
From S2P Require Import Prelude Lists JsString CrucibleLib SqlPolicy QueryGuard StatementAnalyzer DeploymentPolicy Permissions DeploymentPreflight Workflow Access Sessions ProxyPolicy.

Open Scope string_scope.
Open Scope Z_scope.
Open Scope list_scope.

Local Notation "x <-- m ; f" := (checked_bind m (fun x => f))
  (at level 20, m at level 100, f at level 200, right associativity).

(** ** Data *)

(** The digests and the limits of [config/native_proxy.php]. *)
Record ProxyConfig := {
  sha256 : string -> string;
  Hash_make : string -> string;
  Hash_check : string -> string -> bool;
  max_connections : nat;
  max_connections_per_user : nat;
  max_pending_device_authorizations_per_lease : nat;
  connection_stale_seconds : Z;
  statement_stale_seconds : Z;
}.

Definition reservation_seconds : Z := 15.

(** The workspace, with the name of the database that each connection leads to. *)
Record NativeWorld := { workspace : AccessWorld; database_of : Z -> string }.

Inductive LeaseStatus := PendingCredentials | LeaseActive | LeaseRevoked | LeaseExpired.
Inductive DeviceStatus := DevicePending | DeviceApproved | DeviceDenied | DeviceConsumed | DeviceExpired.
Inductive AttemptStatus := AttemptPending | AttemptConsumed | AttemptExpired.
Inductive ConnectionStatus := ConnReserved | ConnActive | ConnClosed | ConnRevoked | ConnFailed.

#[export] Instance LeaseStatus_eq_dec : EqDecision LeaseStatus.
Proof. solve_decision. Defined.
#[export] Instance DeviceStatus_eq_dec : EqDecision DeviceStatus.
Proof. solve_decision. Defined.
#[export] Instance AttemptStatus_eq_dec : EqDecision AttemptStatus.
Proof. solve_decision. Defined.
#[export] Instance ConnectionStatus_eq_dec : EqDecision ConnectionStatus.
Proof. solve_decision. Defined.

Record Lease := {
  lease_request : nat;
  lease_user : Z;
  lease_connection : Z;
  lease_protocol : Driver;
  lease_access_mode : AccessMode;
  synthetic_username : string;
  synthetic_password_hash : option string;
  protocol_auth_secret : option string;
  credential_version : Z;
  lease_status : LeaseStatus;
  max_concurrent_connections : nat;
  lease_expires_at : Z;
}.

Record DeviceAuthorization := {
  device_lease : nat;
  device_code_hash : string;
  user_code_hash : string;
  polling_interval_seconds : Z;
  device_status : DeviceStatus;
  device_expires_at : Z;
  last_polled_at : option Z;
}.

Record ProxyToken := {
  token_lease : nat;
  token_device : nat;
  token_hash : string;
  token_expires_at : Z;
  token_revoked : bool;
}.

Record AuthAttempt := {
  attempt_lease : nat;
  attempt_token : nat;
  attempt_device : nat;
  attempt_instance : string;
  attempt_protocol : Driver;
  attempt_version : Z;
  attempt_connection : string;
  attempt_status : AttemptStatus;
  attempt_expires_at : Z;
}.

Record ProxyConnection := {
  proxy_connection_id : string;
  conn_lease : nat;
  conn_user : Z;
  conn_target : Z;
  conn_protocol : Driver;
  proxy_instance_id : string;
  conn_status : ConnectionStatus;
  reservation_expires_at : option Z;
  last_activity_at : Z;
}.

Record NativeStatement := {
  statement_conn : nat;
  statement_kind : QueryType;
  statement_started_at : Z;
  statement_status : ExecutionStatus;
  statement_execution : ExecutionStatus;
}.

Record NState := {
  requests : list State;
  leases : list Lease;
  devices : list DeviceAuthorization;
  tokens : list ProxyToken;
  attempts : list AuthAttempt;
  conns : list ProxyConnection;
  native_statements : list NativeStatement;
  revocations : list (list nat);
}.

Definition set_requests (v : list State) (n : NState) : NState := {|
  requests := v; leases := leases n; devices := devices n; tokens := tokens n; attempts := attempts n;
  conns := conns n; native_statements := native_statements n; revocations := revocations n |}.
Definition set_leases (v : list Lease) (n : NState) : NState := {|
  requests := requests n; leases := v; devices := devices n; tokens := tokens n; attempts := attempts n;
  conns := conns n; native_statements := native_statements n; revocations := revocations n |}.
Definition set_devices (v : list DeviceAuthorization) (n : NState) : NState := {|
  requests := requests n; leases := leases n; devices := v; tokens := tokens n; attempts := attempts n;
  conns := conns n; native_statements := native_statements n; revocations := revocations n |}.
Definition set_tokens (v : list ProxyToken) (n : NState) : NState := {|
  requests := requests n; leases := leases n; devices := devices n; tokens := v; attempts := attempts n;
  conns := conns n; native_statements := native_statements n; revocations := revocations n |}.
Definition set_attempts (v : list AuthAttempt) (n : NState) : NState := {|
  requests := requests n; leases := leases n; devices := devices n; tokens := tokens n; attempts := v;
  conns := conns n; native_statements := native_statements n; revocations := revocations n |}.
Definition set_conns (v : list ProxyConnection) (n : NState) : NState := {|
  requests := requests n; leases := leases n; devices := devices n; tokens := tokens n; attempts := attempts n;
  conns := v; native_statements := native_statements n; revocations := revocations n |}.
Definition set_native_statements (v : list NativeStatement) (n : NState) : NState := {|
  requests := requests n; leases := leases n; devices := devices n; tokens := tokens n; attempts := attempts n;
  conns := conns n; native_statements := v; revocations := revocations n |}.
Definition set_revocations (v : list (list nat)) (n : NState) : NState := {|
  requests := requests n; leases := leases n; devices := devices n; tokens := tokens n; attempts := attempts n;
  conns := conns n; native_statements := native_statements n; revocations := v |}.

(** ** A lease and what belongs to it *)

Definition clock (w : NativeWorld) : Z := now (world (workspace w)).

Definition account (w : NativeWorld) (id : Z) : User := users (world (workspace w)) id.

Definition request_of (n : NState) (r : nat) : option (AccessRequest * Session) :=
  s ← requests n !! r; x ← session s; Some (request s, x).

Definition native_type (m : AccessMode) : QueryType := match m with AccessWrite => WriteQuery | _ => ReadQuery end.

(** The connection is there and active, and the user an administrator or allowed to use it with the mode. *)
Definition may_connect (w : NativeWorld) (u : User) (connection : Z) (t : QueryType) : bool :=
  match connections (world (workspace w)) connection with
  | Some c =>
      is_active c &&
      (isAdmin u || allows (native_proxy_access_mode (effectiveNativeProxyPermissionFor u (target_of c) t)) t)
  | None => false
  end.

Definition connection_active (w : NativeWorld) (connection : Z) : bool :=
  match connections (world (workspace w)) connection with Some c => is_active c | None => false end.

Definition native_session (w : NativeWorld) (r : AccessRequest) (x : Session) : bool :=
  isActive (workspace w) x && bool_decide (access_transport r = NativeProxy).

(** [manageNativeProxy] of [QuerySessionPolicy.php]. *)
Definition manageNativeProxy (w : NativeWorld) (u : User) (r : AccessRequest) (x : Session) : bool :=
  native_session w r x && (isAdmin u || (session_user x =? user_id u)).

Definition NOT_NATIVE_MESSAGE : string := "This is not an active Native Client Access session.".
Definition NO_LEVEL_MESSAGE : string := "You no longer have the approved Native Client Access level for this database.".

Definition ensureEligibleSession (w : NativeWorld) (actor : User) (r : AccessRequest) (x : Session) : checked unit :=
  if negb (native_session w r x) then Refused NOT_NATIVE_MESSAGE
  else if negb (may_connect w actor (session_connection x) (native_type (requested_access_mode r ?? AccessRead)))
  then Refused NO_LEVEL_MESSAGE
  else Accepted tt.

Definition is_live_lease (l : Lease) : bool := bool_decide (lease_status l ∈ [PendingCredentials; LeaseActive]).

Definition is_live_token (w : NativeWorld) (t : ProxyToken) : bool :=
  negb (token_revoked t) && (clock w <? token_expires_at t).

Definition is_open (c : ProxyConnection) : bool := bool_decide (conn_status c ∈ [ConnReserved; ConnActive]).

Definition set_conn_status (st : ConnectionStatus) (c : ProxyConnection) : ProxyConnection := {|
  proxy_connection_id := proxy_connection_id c; conn_lease := conn_lease c; conn_user := conn_user c;
  conn_target := conn_target c; conn_protocol := conn_protocol c; proxy_instance_id := proxy_instance_id c;
  conn_status := st; reservation_expires_at := reservation_expires_at c; last_activity_at := last_activity_at c |}.

Definition set_reservation (e : option Z) (c : ProxyConnection) : ProxyConnection := {|
  proxy_connection_id := proxy_connection_id c; conn_lease := conn_lease c; conn_user := conn_user c;
  conn_target := conn_target c; conn_protocol := conn_protocol c; proxy_instance_id := proxy_instance_id c;
  conn_status := conn_status c; reservation_expires_at := e; last_activity_at := last_activity_at c |}.

Definition touch (w : NativeWorld) (c : ProxyConnection) : ProxyConnection := {|
  proxy_connection_id := proxy_connection_id c; conn_lease := conn_lease c; conn_user := conn_user c;
  conn_target := conn_target c; conn_protocol := conn_protocol c; proxy_instance_id := proxy_instance_id c;
  conn_status := conn_status c; reservation_expires_at := reservation_expires_at c; last_activity_at := clock w |}.

Definition set_attempt_status (st : AttemptStatus) (a : AuthAttempt) : AuthAttempt := {|
  attempt_lease := attempt_lease a; attempt_token := attempt_token a; attempt_device := attempt_device a;
  attempt_instance := attempt_instance a; attempt_protocol := attempt_protocol a;
  attempt_version := attempt_version a; attempt_connection := attempt_connection a; attempt_status := st;
  attempt_expires_at := attempt_expires_at a |}.

Definition revoke_token (t : ProxyToken) : ProxyToken := {|
  token_lease := token_lease t; token_device := token_device t; token_hash := token_hash t;
  token_expires_at := token_expires_at t; token_revoked := true |}.

Definition end_lease (st : LeaseStatus) (l : Lease) : Lease := {|
  lease_request := lease_request l; lease_user := lease_user l; lease_connection := lease_connection l;
  lease_protocol := lease_protocol l; lease_access_mode := lease_access_mode l;
  synthetic_username := synthetic_username l; synthetic_password_hash := None; protocol_auth_secret := None;
  credential_version := credential_version l; lease_status := st;
  max_concurrent_connections := max_concurrent_connections l; lease_expires_at := lease_expires_at l |}.

(** ** Leases (LeaseWorkflow.php) *)

Definition of_leases (ids : list nat) (i : nat) : bool := bool_decide (i ∈ ids).

(** [expirePendingAuthAttempts] and [disconnectActiveConnections], for some leases at once. *)
Definition expirePendingAuthAttempts (ids : list nat) (n : NState) : NState :=
  set_attempts (map (fun a =>
    if of_leases ids (attempt_lease a) && bool_decide (attempt_status a = AttemptPending)
    then set_attempt_status AttemptExpired a else a) (attempts n)) n.

Definition disconnectActiveConnections (ids : list nat) (n : NState) : NState :=
  set_conns (map (fun c =>
    if of_leases ids (conn_lease c) && is_open c then set_conn_status ConnRevoked c else c) (conns n)) n.

Definition revoke_tokens (ids : list nat) (n : NState) : NState :=
  set_tokens (map (fun t => if of_leases ids (token_lease t) then revoke_token t else t) (tokens n)) n.

Definition revokeActiveLeaseAccess (ids : list nat) (n : NState) : NState :=
  disconnectActiveConnections ids (revoke_tokens ids (expirePendingAuthAttempts ids n)).

Definition invalidateConnectionsForCredentialRotation (ids : list nat) (n : NState) : NState :=
  disconnectActiveConnections ids (expirePendingAuthAttempts ids n).

Definition change_lease (i : nat) (f : Lease -> Lease) (n : NState) : NState := set_leases (alter f i (leases n)) n.

Definition ALREADY_CREATED_MESSAGE : string :=
  "Temporary credentials have already been created for this session. Rotate them to create new credentials.".

Definition NO_ROW_MESSAGE : string := "The row is not there.".
Definition UNIQUE_MESSAGE : string := "A row with this value is already there.".

Section digests.
Context (px : ProxyConfig).

Definition new_lease (r : nat) (q : AccessRequest) (x : Session) (driver : Driver) (mode : AccessMode)
    (username password : string) : Lease := {|
  lease_request := r; lease_user := session_user x; lease_connection := session_connection x;
  lease_protocol := driver; lease_access_mode := mode; synthetic_username := username;
  synthetic_password_hash := Some (Hash_make px password); protocol_auth_secret := Some password;
  credential_version := 1; lease_status := LeaseActive; max_concurrent_connections := 3;
  lease_expires_at := expires_at x |}.

(** [create], with the name and the password that are drawn. *)
Definition createLease (w : NativeWorld) (actor : User) (r : nat) (username password : string) (n : NState)
    : checked NState :=
  match request_of n r with
  | None => Refused NO_ROW_MESSAGE
  | Some (q, x) =>
      gate (manageNativeProxy w actor q x)
        (_ <-- ensureEligibleSession w actor q x;
         if existsb (fun l => (lease_request l =? r)%nat) (leases n) then Refused ALREADY_CREATED_MESSAGE
         else
           match connections (world (workspace w)) (session_connection x), requested_access_mode q with
           | Some c, Some mode =>
               if existsb (fun l => str_eq (synthetic_username l) username) (leases n) then Refused UNIQUE_MESSAGE
               else Accepted (set_leases (leases n ++
                 [new_lease r q x (connection_driver (database c)) mode username password]) n)
           | _, _ => Refused NO_ROW_MESSAGE
           end)
  end.

Definition NOT_ROTATABLE_MESSAGE : string := "Credentials can only be rotated for an active native client session.".

Definition rotated_lease (password : string) (l : Lease) : Lease := {|
  lease_request := lease_request l; lease_user := lease_user l; lease_connection := lease_connection l;
  lease_protocol := lease_protocol l; lease_access_mode := lease_access_mode l;
  synthetic_username := synthetic_username l; synthetic_password_hash := Some (Hash_make px password);
  protocol_auth_secret := Some password; credential_version := credential_version l + 1;
  lease_status := lease_status l; max_concurrent_connections := max_concurrent_connections l;
  lease_expires_at := lease_expires_at l |}.

(** An operation of a user on a lease, behind its gate and the check of the session. *)
Definition with_lease (w : NativeWorld) (actor : User) (i : nat) (n : NState) (k : Lease -> checked NState) : checked NState :=
  match leases n !! i with
  | None => Refused NO_ROW_MESSAGE
  | Some l =>
      match request_of n (lease_request l) with
      | None => Refused NO_ROW_MESSAGE
      | Some (q, x) => gate (manageNativeProxy w actor q x) (_ <-- ensureEligibleSession w actor q x; k l)
      end
  end.

Definition rotate (w : NativeWorld) (actor : User) (i : nat) (password : string) (n : NState) : checked NState :=
  with_lease w actor i n (fun l =>
    if negb (bool_decide (lease_status l = LeaseActive)) then Refused NOT_ROTATABLE_MESSAGE
    else Accepted (change_lease i (rotated_lease password) (invalidateConnectionsForCredentialRotation [i] n))).

Definition revokeLease (w : NativeWorld) (actor : User) (i : nat) (n : NState) : checked NState :=
  with_lease w actor i n (fun l =>
    if bool_decide (lease_status l ∈ [LeaseRevoked; LeaseExpired]) then Accepted n
    else Accepted (change_lease i (end_lease LeaseRevoked) (revokeActiveLeaseAccess [i] n))).

(** What [revokeForQuerySession], [revokeForQueryRequest] and their like select. *)
Inductive Matching :=
  | OfRequest (r : nat) | OfConnections (ids : list Z) | OfUsers (ids : list Z) | AllLeases.

Definition selects (m : Matching) (l : Lease) : bool :=
  match m with
  | OfRequest r => (lease_request l =? r)%nat
  | OfConnections ids => bool_decide (lease_connection l ∈ ids)
  | OfUsers ids => bool_decide (lease_user l ∈ ids)
  | AllLeases => true
  end.

(** The first half of [revokeMatchingLeases]: the leases it reads. *)
Definition collect (m : Matching) (n : NState) : list nat :=
  List.filter (fun i => match leases n !! i with Some l => selects m l && is_live_lease l | None => false end)
    (seq 0 (length (leases n))).

(** Its transaction. *)
Definition revokeMatchingLeases (ids : list nat) (n : NState) : NState :=
  let n := revokeActiveLeaseAccess ids n in
  set_leases (imap (fun i l => if of_leases ids i && is_live_lease l then end_lease LeaseRevoked l else l) (leases n)) n.

(** One transaction of [expireDue]. *)
Definition expireLease (w : NativeWorld) (i : nat) (n : NState) : NState :=
  match leases n !! i with
  | Some l =>
      if is_live_lease l && (lease_expires_at l <=? clock w)
      then change_lease i (end_lease LeaseExpired) (revokeActiveLeaseAccess [i] n) else n
  | None => n
  end.

(** ** Devices (DeviceAuthorizationWorkflow.php) *)

Definition DeviceCodeLifetimeSeconds : Z := 300.
Definition InitialPollingIntervalSeconds : Z := 5.
Definition MaximumPollingIntervalSeconds : Z := 60.
Definition MaximumActiveDeviceTokens : nat := 3.

Definition isActiveLease (w : NativeWorld) (n : NState) (l : Lease) : bool :=
  bool_decide (lease_status l = LeaseActive) && (clock w <? lease_expires_at l) &&
  match request_of n (lease_request l) with Some (_, x) => isActive (workspace w) x | None => false end &&
  connection_active w (lease_connection l) && negb (user_disabled (account w (lease_user l))).

Definition LEASE_MESSAGE : string := "This Native Client Access lease is no longer active.".
Definition TOO_MANY_MESSAGE : string := "Too many device authorizations are awaiting approval for this lease.".
Definition OWNER_MESSAGE : string := "Only the session owner can approve this device.".
Definition NO_LONGER_PENDING_MESSAGE : string := "This device authorization is no longer pending.".
Definition BAD_CODE_MESSAGE : string := "That device code is not valid.".
Definition GONE_CODE_MESSAGE : string := "That device code is no longer available for approval.".

Definition awaiting (w : NativeWorld) (i : nat) (d : DeviceAuthorization) : bool :=
  (device_lease d =? i)%nat && bool_decide (device_status d = DevicePending) && (clock w <? device_expires_at d).

Definition new_device (w : NativeWorld) (i : nat) (deviceCode userCode : string) : DeviceAuthorization := {|
  device_lease := i; device_code_hash := sha256 px deviceCode; user_code_hash := sha256 px userCode;
  polling_interval_seconds := InitialPollingIntervalSeconds; device_status := DevicePending;
  device_expires_at := clock w + DeviceCodeLifetimeSeconds; last_polled_at := None |}.

(** [begin], with the codes that are drawn. *)
Definition beginDevice (w : NativeWorld) (i : nat) (deviceCode userCode : string) (n : NState) : checked NState :=
  match leases n !! i with
  | None => Refused NO_ROW_MESSAGE
  | Some l =>
      if negb (isActiveLease w n l) then Refused LEASE_MESSAGE
      else if (max_pending_device_authorizations_per_lease px <=? countb (awaiting w i) (devices n))%nat
      then Refused TOO_MANY_MESSAGE
      else if existsb (fun d => str_eq (device_code_hash d) (sha256 px deviceCode) ||
                                str_eq (user_code_hash d) (sha256 px userCode)) (devices n) then Refused UNIQUE_MESSAGE
      else Accepted (set_devices (devices n ++ [new_device w i deviceCode userCode]) n)
  end.

Definition set_device_status (st : DeviceStatus) (d : DeviceAuthorization) : DeviceAuthorization := {|
  device_lease := device_lease d; device_code_hash := device_code_hash d; user_code_hash := user_code_hash d;
  polling_interval_seconds := polling_interval_seconds d; device_status := st;
  device_expires_at := device_expires_at d; last_polled_at := last_polled_at d |}.

Definition set_polled (interval t : Z) (d : DeviceAuthorization) : DeviceAuthorization := {|
  device_lease := device_lease d; device_code_hash := device_code_hash d; user_code_hash := user_code_hash d;
  polling_interval_seconds := interval; device_status := device_status d;
  device_expires_at := device_expires_at d; last_polled_at := Some t |}.

Definition change_device (i : nat) (f : DeviceAuthorization -> DeviceAuthorization) (n : NState) : NState :=
  set_devices (alter f i (devices n)) n.

Definition transitionByOwner (w : NativeWorld) (actor : User) (i : nat) (st : DeviceStatus) (n : NState) : checked NState :=
  match devices n !! i with
  | None => Refused NO_ROW_MESSAGE
  | Some d =>
      match leases n !! device_lease d with
      | None => Refused NO_ROW_MESSAGE
      | Some l =>
          if negb (isActiveLease w n l) then Refused LEASE_MESSAGE
          else if user_disabled actor || (negb (lease_user l =? user_id actor) && negb (isAdmin actor)) then Refused OWNER_MESSAGE
          else if negb (bool_decide (device_status d = DevicePending)) || (device_expires_at d <? clock w)
          then Refused NO_LONGER_PENDING_MESSAGE
          else Accepted (change_device i (set_device_status st) n)
      end
  end.

(** Whether the actor may manage the session behind an authorization. *)
Definition manages_device (w : NativeWorld) (actor : User) (n : NState) (d : DeviceAuthorization) : bool :=
  match (l ← leases n !! device_lease d; request_of n (lease_request l)) with
  | Some (q, x) => manageNativeProxy w actor q x
  | None => false
  end.

(** [resolve] of the controller: the owner of a lease types a code. *)
Definition resolveDevice (w : NativeWorld) (actor : User) (userCode : string) (n : NState) : checked NState :=
  match list_find (fun d => user_code_hash d = sha256 px userCode) (devices n) with
  | Some (i, d) =>
      if manages_device w actor n d then
        match transitionByOwner w actor i DeviceApproved n with
        | Accepted n' => Accepted n'
        | Refused _ => Refused GONE_CODE_MESSAGE
        end
      else Refused BAD_CODE_MESSAGE
  | None => Refused BAD_CODE_MESSAGE
  end.

(** [decide] of the controller. *)
Definition decideDevice (w : NativeWorld) (actor : User) (i : nat) (approve : bool) (n : NState) : checked NState :=
  match devices n !! i with
  | None => Refused NO_ROW_MESSAGE
  | Some d =>
      gate (manages_device w actor n d)
        (transitionByOwner w actor i (if approve then DeviceApproved else DeviceDenied) n)
  end.

Definition new_token (i : nat) (d : DeviceAuthorization) (l : Lease) (token : string) : ProxyToken := {|
  token_lease := device_lease d; token_device := i; token_hash := sha256 px token;
  token_expires_at := lease_expires_at l; token_revoked := false |}.

(** [poll], with the token that is drawn: the result, and the state. *)
Definition poll (w : NativeWorld) (deviceCode token : string) (n : NState) : checked (string * NState) :=
  match list_find (fun d => device_code_hash d = sha256 px deviceCode) (devices n) with
  | None => Accepted ("invalid_device_code", n)
  | Some (i, d) =>
      let interval := polling_interval_seconds d in
      if bool_decide (device_status d = DevicePending) &&
         match last_polled_at d with Some t => clock w <? t + interval | None => false end
      then
        let slower := Z.min MaximumPollingIntervalSeconds (interval + InitialPollingIntervalSeconds) in
        Accepted ("slow_down", change_device i (set_polled slower (clock w)) n)
      else
        let n := change_device i (set_polled interval (clock w)) n in
        if device_expires_at d <? clock w then Accepted ("expired_token", change_device i (set_device_status DeviceExpired) n)
        else
          match device_status d with
          | DevicePending => Accepted ("authorization_pending", n)
          | DeviceDenied => Accepted ("access_denied", n)
          | DeviceConsumed | DeviceExpired => Accepted ("invalid_device_code", n)
          | DeviceApproved =>
              match leases n !! device_lease d with
              | None => Refused NO_ROW_MESSAGE
              | Some l =>
                  if negb (isActiveLease w n l) then Accepted ("expired_lease", n)
                  else if (MaximumActiveDeviceTokens <=?
                           countb (fun t => (token_lease t =? device_lease d)%nat && is_live_token w t) (tokens n))%nat
                  then Accepted ("access_denied", n)
                  else if existsb (fun t => str_eq (token_hash t) (sha256 px token)) (tokens n) then Refused UNIQUE_MESSAGE
                  else Accepted ("issued",
                    change_device i (set_device_status DeviceConsumed) (set_tokens (tokens n ++ [new_token i d l token]) n))
              end
          end
  end.

(** ** Admission (ConnectionAdmission.php) *)

Record TunnelAuthorizationData := {
  tunnel_lease : nat;
  tunnel_device : nat;
  tunnel_connection : string;
  tunnel_instance : string;
  tunnel_protocol : Driver;
  bearerTokenHash : string;
}.

Record ConsumeAuthAttemptData := {
  authAttemptId : nat;
  consume_instance : string;
  syntheticUsername : string;
  syntheticPassword : string;
  consume_protocol : Driver;
}.

Definition DENIED_MESSAGE : string := "Native tunnel authorization was denied.".

(** [ensureActiveLease]: whether the lease at a position may be used with a token. *)
Definition ensureActiveLease (w : NativeWorld) (n : NState) (i : nat) (l : Lease) (t : ProxyToken) (lease device : nat)
    (protocol : Driver) : bool :=
  (i =? lease)%nat && bool_decide (lease_protocol l = protocol) && bool_decide (lease_status l = LeaseActive) &&
  is_some (protocol_auth_secret l) && (clock w <? lease_expires_at l) && negb (token_revoked t) &&
  (clock w <? token_expires_at t) && (token_device t =? device)%nat &&
  match devices n !! token_device t with
  | Some d => (device_lease d =? i)%nat && bool_decide (device_status d = DeviceConsumed)
  | None => false
  end &&
  match request_of n (lease_request l) with
  | Some (q, x) =>
      native_session w q x && negb (user_disabled (account w (session_user x))) &&
      may_connect w (account w (session_user x)) (session_connection x) (native_type (lease_access_mode l))
  | None => false
  end.

Definition new_attempt (w : NativeWorld) (l : Lease) (k : nat) (t : ProxyToken) (data : TunnelAuthorizationData) : AuthAttempt := {|
  attempt_lease := token_lease t; attempt_token := k; attempt_device := token_device t;
  attempt_instance := tunnel_instance data; attempt_protocol := tunnel_protocol data;
  attempt_version := credential_version l; attempt_connection := tunnel_connection data;
  attempt_status := AttemptPending; attempt_expires_at := clock w + 15 |}.

Definition authorizeTunnel (w : NativeWorld) (data : TunnelAuthorizationData) (n : NState) : checked NState :=
  match list_find (fun t => token_hash t = bearerTokenHash data) (tokens n) with
  | None => Refused DENIED_MESSAGE
  | Some (k, t) =>
      match leases n !! token_lease t with
      | None => Refused DENIED_MESSAGE
      | Some l =>
          if negb (ensureActiveLease w n (token_lease t) l t (tunnel_lease data) (tunnel_device data) (tunnel_protocol data))
          then Refused DENIED_MESSAGE
          else
            match find_first (fun a => str_eq (attempt_connection a) (tunnel_connection data)) (attempts n) with
            | Some a =>
                if negb (attempt_lease a =? token_lease t)%nat || negb (attempt_token a =? k)%nat ||
                   (attempt_expires_at a <=? clock w)
                then Refused DENIED_MESSAGE else Accepted n
            | None => Accepted (set_attempts (attempts n ++ [new_attempt w l k t data]) n)
            end
      end
  end.

Definition failExpiredReservations (w : NativeWorld) (n : NState) : NState :=
  set_conns (map (fun c =>
    if bool_decide (conn_status c = ConnReserved) &&
       match reservation_expires_at c with Some e => e <=? clock w | None => false end
    then set_conn_status ConnFailed (set_reservation None c) else c) (conns n)) n.

Definition new_connection (w : NativeWorld) (a : AuthAttempt) (x : Session) (data : ConsumeAuthAttemptData) : ProxyConnection := {|
  proxy_connection_id := attempt_connection a; conn_lease := attempt_lease a; conn_user := session_user x;
  conn_target := session_connection x; conn_protocol := consume_protocol data;
  proxy_instance_id := consume_instance data; conn_status := ConnReserved;
  reservation_expires_at := Some (clock w + reservation_seconds); last_activity_at := clock w |}.

(** Whether the credentials are those of the lease. *)
Definition credentials_match (l : Lease) (username password : string) : bool :=
  str_eq (synthetic_username l) username &&
  match synthetic_password_hash l with Some h => Hash_check px password h | None => false end.

(** Whether there is room for another connection. *)
Definition has_room (i : nat) (l : Lease) (cs : list ProxyConnection) : bool :=
  (countb (fun c => (conn_lease c =? i)%nat && is_open c) cs <? max_concurrent_connections l)%nat &&
  (countb (fun c => (conn_user c =? lease_user l)%Z && is_open c) cs <? max_connections_per_user px)%nat &&
  (countb is_open cs <? max_connections px)%nat.

Definition authorizeConnection (w : NativeWorld) (data : ConsumeAuthAttemptData) (n : NState) : checked NState :=
  match attempts n !! authAttemptId data with
  | None => Refused DENIED_MESSAGE
  | Some a =>
      if negb (bool_decide (attempt_status a = AttemptPending)) || (attempt_expires_at a <=? clock w) ||
         negb (str_eq (attempt_instance a) (consume_instance data)) ||
         negb (bool_decide (attempt_protocol a = consume_protocol data))
      then Refused DENIED_MESSAGE
      else
        match leases n !! attempt_lease a, tokens n !! attempt_token a with
        | Some l, Some t =>
            if negb (ensureActiveLease w n (attempt_lease a) l t (attempt_lease a) (token_device t) (consume_protocol data))
            then Refused DENIED_MESSAGE
            else if negb (credentials_match l (syntheticUsername data) (syntheticPassword data)) then Refused DENIED_MESSAGE
            else
              let n := failExpiredReservations w n in
              if negb (has_room (attempt_lease a) l (conns n)) then Refused DENIED_MESSAGE
              else
                match request_of n (lease_request l) with
                | None => Refused NO_ROW_MESSAGE
                | Some (_, x) =>
                    if existsb (fun c => str_eq (proxy_connection_id c) (attempt_connection a)) (conns n)
                    then Refused UNIQUE_MESSAGE
                    else Accepted (set_attempts (alter (set_attempt_status AttemptConsumed) (authAttemptId data) (attempts n))
                           (set_conns (conns n ++ [new_connection w a x data]) n))
                end
        | _, _ => Refused NO_ROW_MESSAGE
        end
  end.

Definition change_conn (i : nat) (f : ProxyConnection -> ProxyConnection) (n : NState) : NState :=
  set_conns (alter f i (conns n)) n.

(** The connection of a request of the proxy, which must be its own ([assertOwnedByProxy]). *)
Definition owned (i : nat) (instance_ : string) (n : NState) (k : ProxyConnection -> checked NState) : checked NState :=
  match conns n !! i with
  | None => Refused NO_ROW_MESSAGE
  | Some c => if str_eq (proxy_instance_id c) instance_ then k c else Refused DENIED_MESSAGE
  end.

Definition markAuthenticated (w : NativeWorld) (i : nat) (c : ProxyConnection) (n : NState) : checked NState :=
  if negb (bool_decide (conn_status c = ConnReserved)) ||
     match reservation_expires_at c with Some e => e <? clock w | None => false end
  then Refused DENIED_MESSAGE
  else Accepted (change_conn i (fun c => touch w (set_reservation None (set_conn_status ConnActive c))) n).

(** The lease of a connection may be used with the first of its tokens that is live. *)
Definition lease_allows (w : NativeWorld) (n : NState) (c : ProxyConnection) : bool :=
  match leases n !! conn_lease c, find_first (fun t => (token_lease t =? conn_lease c)%nat && is_live_token w t) (tokens n) with
  | Some l, Some t => ensureActiveLease w n (conn_lease c) l t (conn_lease c) (token_device t) (conn_protocol c)
  | _, _ => false
  end.

Definition upstreamMaterial (w : NativeWorld) (i : nat) (c : ProxyConnection) (n : NState) : checked NState :=
  if negb (is_open c) || negb (lease_allows w n c) then Refused DENIED_MESSAGE
  else Accepted (change_conn i (touch w) n).

Definition recordTraffic (w : NativeWorld) (i : nat) (c : ProxyConnection) (n : NState) : NState :=
  if is_open c then change_conn i (touch w) n else n.

Definition closeLocked (c : ProxyConnection) : ProxyConnection := if is_open c then set_conn_status ConnClosed c else c.

(** [heartbeat]: whether the connection may go on, and the state. *)
Definition heartbeat (w : NativeWorld) (i : nat) (c : ProxyConnection) (n : NState) : bool * NState :=
  if negb (bool_decide (conn_status c = ConnActive)) then (false, n)
  else if lease_allows w n c then (true, change_conn i (touch w) n)
  else (false, change_conn i closeLocked n).

(** [heartbeatLease]: whether a device may keep its tunnel. *)
Definition heartbeatLease (w : NativeWorld) (n : NState) (lease device : nat) (hash : string) : bool :=
  match find_first (fun t => str_eq (token_hash t) hash) (tokens n) with
  | Some t =>
      match leases n !! token_lease t with
      | Some l => ensureActiveLease w n (token_lease t) l t lease device (lease_protocol l)
      | None => false
      end
  | None => false
  end.

(** ** Statements (StatementWorkflow.php) *)

Definition NOT_ALLOWED_ANY_MORE : string := "Native session access is no longer allowed.".
Definition NOT_ALLOWED_STATEMENT : string := "This SQL statement is not allowed in a Native Client Access session.".

Definition new_statement (w : NativeWorld) (i : nat) (t : QueryType) : NativeStatement := {|
  statement_conn := i; statement_kind := t; statement_started_at := clock w; statement_status := ExecRunning;
  statement_execution := ExecRunning |}.

Definition decision_of (w : NativeWorld) (l : Lease) (c : ProxyConnection) (sql : string) : ProxyStatementDecision :=
  validateTemplate (policy_settings (world (workspace w))) (conn_protocol c) (lease_access_mode l)
    (database_of w (conn_target c)) sql.

Definition authorizeExecution (w : NativeWorld) (i : nat) (c : ProxyConnection) (sql : string) (n : NState) : checked NState :=
  let '(goes_on, n') := heartbeat w i c n in
  if negb goes_on then Refused NOT_ALLOWED_ANY_MORE
  else
    match leases n !! conn_lease c with
    | None => Refused NO_ROW_MESSAGE
    | Some l =>
        let d := decision_of w l c sql in
        if negb (allowed d) || (negb (is_some (decision_query d)) && negb (sessionCommand d)) then Refused NOT_ALLOWED_STATEMENT
        else Accepted (set_native_statements (native_statements n' ++ [new_statement w i (decision_query d ?? ReadQuery)]) n')
    end.

Definition finish_statement (st : ExecutionStatus) (s : NativeStatement) : NativeStatement := {|
  statement_conn := statement_conn s; statement_kind := statement_kind s;
  statement_started_at := statement_started_at s; statement_status := st;
  statement_execution := if bool_decide (statement_execution s = ExecRunning) then st else statement_execution s |}.

Definition completeStatement (i j : nat) (succeeded : bool) (n : NState) : checked NState :=
  match native_statements n !! j with
  | None => Refused NO_ROW_MESSAGE
  | Some s =>
      if negb (statement_conn s =? i)%nat then Refused NO_ROW_MESSAGE
      else if negb (bool_decide (statement_status s = ExecRunning)) then Accepted n
      else Accepted (set_native_statements
        (alter (finish_statement (if succeeded then ExecSucceeded else ExecFailed)) j (native_statements n)) n)
  end.

(** ** What the command reconciles (PruneNativeProxyState.php) *)

Definition prune_device (w : NativeWorld) (d : DeviceAuthorization) : DeviceAuthorization :=
  if bool_decide (device_status d ∈ [DevicePending; DeviceApproved]) && (device_expires_at d <=? clock w)
  then set_device_status DeviceExpired d else d.

Definition prune_conn (w : NativeWorld) (c : ProxyConnection) : ProxyConnection :=
  if bool_decide (conn_status c = ConnReserved) &&
     match reservation_expires_at c with Some e => e <=? clock w | None => false end
  then set_conn_status ConnFailed (set_reservation None c)
  else if bool_decide (conn_status c = ConnActive) && (last_activity_at c <=? clock w - connection_stale_seconds px)
  then set_conn_status ConnFailed c else c.

Definition prune_statement (w : NativeWorld) (s : NativeStatement) : NativeStatement :=
  if statement_started_at s <=? clock w - statement_stale_seconds px then {|
    statement_conn := statement_conn s; statement_kind := statement_kind s;
    statement_started_at := statement_started_at s;
    statement_status := if bool_decide (statement_status s = ExecRunning) then ExecFailed else statement_status s;
    statement_execution := if bool_decide (statement_execution s = ExecRunning) then ExecFailed else statement_execution s |}
  else s.

Definition prune (w : NativeWorld) (n : NState) : NState :=
  set_native_statements (map (prune_statement w) (native_statements n))
    (set_conns (map (prune_conn w) (conns n)) (set_devices (map (prune_device w) (devices n)) n)).

(** ** All that can happen *)

Inductive NOp :=
  | Ask (user : Z) (data : AccessData)
  | Renew (r : nat) (actor : Z)
  | Within (r : nat) (o : Op)                     (** anything that happens to a request and its session *)
  | CreateLease (actor : Z) (r : nat) (username password : string)
  | Rotate (actor : Z) (i : nat) (password : string)
  | RevokeLease (actor : Z) (i : nat)
  | Collect (m : Matching)                        (** a session, a policy, a role or an account changes *)
  | RevokeCollected (p : nat)
  | ExpireLease (i : nat)
  | BeginDevice (i : nat) (deviceCode userCode : string)
  | ResolveDevice (actor : Z) (userCode : string)
  | DecideDevice (actor : Z) (i : nat) (approve : bool)
  | Poll (deviceCode token : string)
  | Tunnel (data : TunnelAuthorizationData)
  | Connect (data : ConsumeAuthAttemptData)
  | Authenticated (i : nat) (instance_ : string)
  | Upstream (i : nat) (instance_ : string)
  | Traffic (i : nat) (instance_ : string)
  | Heartbeat (i : nat) (instance_ : string)
  | CloseConnection (i : nat) (instance_ : string)
  | Execute (i : nat) (instance_ : string) (sql : string)
  | CompleteStatement (i j : nat) (instance_ : string) (succeeded : bool)
  | Prune.

Definition nperform (w : NativeWorld) (o : NOp) (n : NState) : checked NState :=
  match o with
  | Ask user data =>
      gate (access_rules (workspace w) (account w user) data)
        (r <-- createAccess (workspace w) (account w user) data; Accepted (set_requests (requests n ++ [new_state r]) n))
  | Renew r actor =>
      match requests n !! r with
      | None => Refused NO_ROW_MESSAGE
      | Some s =>
          q <-- renew (workspace w) (account w actor) (request s); Accepted (set_requests (requests n ++ [new_state q]) n)
      end
  | Within r o =>
      match requests n !! r with
      | None => Refused NO_ROW_MESSAGE
      | Some s => s' <-- perform (workspace w) o s; Accepted (set_requests (<[r := s']> (requests n)) n)
      end
  | CreateLease actor r username password => createLease w (account w actor) r username password n
  | Rotate actor i password => rotate w (account w actor) i password n
  | RevokeLease actor i => revokeLease w (account w actor) i n
  | Collect m =>
      match collect m n with
      | [] => Accepted n
      | ids => Accepted (set_revocations (revocations n ++ [ids]) n)
      end
  | RevokeCollected p =>
      match revocations n !! p with
      | Some ids => Accepted (set_revocations (remove_at p (revocations n)) (revokeMatchingLeases ids n))
      | None => Accepted n
      end
  | ExpireLease i => Accepted (expireLease w i n)
  | BeginDevice i deviceCode userCode => beginDevice w i deviceCode userCode n
  | ResolveDevice actor userCode => resolveDevice w (account w actor) userCode n
  | DecideDevice actor i approve => decideDevice w (account w actor) i approve n
  | Poll deviceCode token => r <-- poll w deviceCode token n; Accepted (snd r)
  | Tunnel data => authorizeTunnel w data n
  | Connect data => authorizeConnection w data n
  | Authenticated i instance_ => owned i instance_ n (fun c => markAuthenticated w i c n)
  | Upstream i instance_ => owned i instance_ n (fun c => upstreamMaterial w i c n)
  | Traffic i instance_ => owned i instance_ n (fun c => Accepted (recordTraffic w i c n))
  | Heartbeat i instance_ => owned i instance_ n (fun c => Accepted (snd (heartbeat w i c n)))
  | CloseConnection i instance_ => owned i instance_ n (fun _ => Accepted (change_conn i closeLocked n))
  | Execute i instance_ sql => owned i instance_ n (fun c => authorizeExecution w i c sql n)
  | CompleteStatement i j instance_ succeeded => owned i instance_ n (fun _ => completeStatement i j succeeded n)
  | Prune => Accepted (prune w n)
  end.
End digests.

(** The workspace before anything has happened in it. *)
Definition no_rows : NState := {|
  requests := []; leases := []; devices := []; tokens := []; attempts := []; conns := [];
  native_statements := []; revocations := [] |}.

(** ** Examples *)

Fixpoint nperform_all (px : ProxyConfig) (ops : list (NativeWorld * NOp)) (n : NState) : checked NState :=
  match ops with
  | [] => Accepted n
  | (w, o) :: ops' => checked_bind (nperform px w o n) (nperform_all px ops')
  end.

Definition sample_proxy : ProxyConfig := {|
  sha256 := fun s => ("sha256 " ++ s)%string; Hash_make := fun s => ("hash " ++ s)%string;
  Hash_check := fun s h => str_eq h ("hash " ++ s)%string; max_connections := 100; max_connections_per_user := 10;
  max_pending_device_authorizations_per_lease := 3; connection_stale_seconds := 60; statement_stale_seconds := 900 |}.

Definition sample_native (t : Z) : NativeWorld := {| workspace := sample_access true t; database_of := fun _ => "app" |}.

Definition sample_tunnel (device : nat) (connection token : string) : TunnelAuthorizationData := {|
  tunnel_lease := 0; tunnel_device := device; tunnel_connection := connection; tunnel_instance := "proxy";
  tunnel_protocol := MySql; bearerTokenHash := sha256 sample_proxy token |}.

Definition sample_credentials (attempt : nat) (password : string) : ConsumeAuthAttemptData := {|
  authAttemptId := attempt; consume_instance := "proxy"; syntheticUsername := "crucible_1";
  syntheticPassword := password; consume_protocol := MySql |}.

(** A request for native client access is approved and started, and its lease created at 30. *)
Definition leased_ops : list (Z * NOp) :=
  [(10, Ask 5 (sample_asked "native_proxy")); (20, Within 0 (ReviewBy 6 true 1)); (30, Within 0 (Start 5));
   (30, CreateLease 5 0 "crucible_1" "secret")].

(** A device is approved and gets its token, and a client is connected through it. *)
Definition connected_ops (device : nat) (t : Z) (code userCode token connection : string) : list (Z * NOp) :=
  [(t, BeginDevice 0 code userCode); (t, ResolveDevice 5 userCode); (t, Poll code token);
   (t, Tunnel (sample_tunnel device connection token)); (t, Connect (sample_credentials device "secret"));
   (t, Authenticated device "proxy")].

Definition first_device : list (Z * NOp) := leased_ops ++ connected_ops 0 40 "code 1" "AAAA-2222" "token 1" "c 1".

Definition sample_native_run (ops : list (Z * NOp)) : checked NState :=
  nperform_all sample_proxy (map (fun o => (sample_native (fst o), snd o)) ops) no_rows.

Definition native_statuses (ops : list (Z * NOp)) : checked (list LeaseStatus * list ConnectionStatus * nat) :=
  checked_bind (sample_native_run ops)
    (fun n => Accepted (map lease_status (leases n), map conn_status (conns n), length (native_statements n))).

Example sample_statement_runs :
  native_statuses (first_device ++ [(50, Execute 0 "proxy" "select 1")]) = Accepted ([LeaseActive], [ConnActive], 1%nat).
Proof. vm_compute. reflexivity. Qed.

(** Cancelling the request ends the access at once, also before the lease is revoked. *)
Example sample_cancelled_access :
  native_statuses (first_device ++ [(50, Within 0 (CancelRequest 5)); (50, Execute 0 "proxy" "select 1")]) =
  Refused NOT_ALLOWED_ANY_MORE.
Proof. vm_compute. reflexivity. Qed.

Example sample_revoked :
  native_statuses (first_device ++ [(50, Within 0 (CancelRequest 5)); (50, Collect (OfRequest 0)); (51, RevokeCollected 0)]) =
  Accepted ([LeaseRevoked], [ConnRevoked], 0%nat).
Proof. vm_compute. reflexivity. Qed.

(** Rotated credentials close the connections, and the old password opens no other. *)
Example sample_rotated :
  native_statuses (first_device ++ [(50, Rotate 5 0 "new secret"); (51, Tunnel (sample_tunnel 0 "c 2" "token 1"));
                                    (51, Connect (sample_credentials 1 "secret"))]) = Refused DENIED_MESSAGE.
Proof. vm_compute. reflexivity. Qed.
