(* ===== verification/LeaseSafety.v ===== *)
(** * What native client access guarantees

    Over every history of a workspace -- users, reviewers, devices, proxies, commands and changes of the
    policy in any order -- a statement of a native client runs only in an approved session, over credentials
    that are current and a device that its owner approved; what is revoked stays revoked; and the numbers of
    connections, tokens and codes keep their limits. *)

From Stdlib Require Import String.
From S2P Require Import Prelude Lists JsString CrucibleLib SqlPolicy QueryGuard StatementAnalyzer DeploymentPolicy Permissions DeploymentPreflight Workflow Access Sessions SessionSafety ProxyPolicy Leases.

Open Scope string_scope.
Open Scope Z_scope.
Open Scope list_scope.

Section safety.
Context (px : ProxyConfig).

(** ** Histories *)

Record NEvent := { n_world : NativeWorld; n_op : NOp; n_before : NState; n_after : NState }.

(** [nreachable t tr n]: after the events [tr], the latest first and the last of them at the time [t]. *)
Inductive nreachable : Z -> list NEvent -> NState -> Prop :=
  | nothing_yet w : nreachable (clock w) [] no_rows
  | then_ t tr n w o n' :
      nreachable t tr n -> t <= clock w -> nperform px w o n = Accepted n' ->
      nreachable (clock w) ({| n_world := w; n_op := o; n_before := n; n_after := n' |} :: tr) n'.

(** ** What an operation does to each table *)

(** A connection that is open has been open, of the same lease, user and target. *)
Record conn_evolves (c c' : ProxyConnection) : Prop := {
  same_lease : conn_lease c' = conn_lease c;
  same_conn_user : conn_user c' = conn_user c;
  same_conn_target : conn_target c' = conn_target c;
  stays_over : is_open c' = true -> is_open c = true }.

Record device_evolves (d d' : DeviceAuthorization) : Prop := {
  same_device_lease : device_lease d' = device_lease d;
  same_device_expiry : device_expires_at d' = device_expires_at d;
  device_path : device_status d' = device_status d \/ device_status d' = DeviceExpired \/
    device_status d = DevicePending /\ device_status d' = DeviceDenied }.

Lemma conn_evolves_refl c : conn_evolves c c.
Proof. by split. Qed.

Lemma device_evolves_refl d : device_evolves d d.
Proof. split; auto. Qed.

Lemma conn_evolves_trans a b c : conn_evolves a b -> conn_evolves b c -> conn_evolves a c.
Proof. intros [H1 H2 H3 H4] [H5 H6 H7 H8]. split; congruence || auto. Qed.

Lemma device_evolves_trans a b c : device_evolves a b -> device_evolves b c -> device_evolves a c.
Proof. intros [H1 H2 H3] [H4 H5 H6]. split; [congruence..|]. intuition congruence. Qed.

Lemma conn_evolves_status st c : is_open (set_conn_status st c) = false \/ is_open c = true ->
  conn_evolves c (set_conn_status st c).
Proof. intros H. split; try done. intros Ho. destruct H; congruence. Qed.

Lemma conn_evolves_touch w c : conn_evolves c (touch w c).
Proof. by split. Qed.

Lemma conn_evolves_reservation e c : conn_evolves c (set_reservation e c).
Proof. by split. Qed.

Lemma conn_evolves_close c : conn_evolves c (closeLocked c).
Proof. unfold closeLocked. destruct (is_open c) eqn:E; [|apply conn_evolves_refl]. apply conn_evolves_status. by left. Qed.

#[local] Hint Resolve conn_evolves_refl device_evolves_refl conn_evolves_status conn_evolves_touch
  conn_evolves_reservation conn_evolves_close : core.

Lemma conn_evolves_fail c : conn_evolves c (set_conn_status ConnFailed (set_reservation None c)).
Proof. eapply conn_evolves_trans; [apply conn_evolves_reservation|]. apply conn_evolves_status. by left. Qed.

Section tables.
Context {A : Type} (R : A -> A -> Prop) (HR : forall x, R x x).

Lemma Forall2_alter i f (l : list A) : (forall x, l !! i = Some x -> R x (f x)) -> Forall2 R l (alter f i l).
Proof.
  intros Hf. apply Forall2_same_length_lookup. split; [by rewrite length_alter|]. intros j x y Hx Hy.
  destruct (decide (i = j)) as [->|Hne].
  - rewrite list_lookup_alter_eq, Hx in Hy. injection Hy as <-. auto.
  - rewrite list_lookup_alter_ne in Hy by done. assert (x = y) as -> by congruence. done.
Qed.

Lemma Forall2_mapped f (l : list A) : (forall x, R x (f x)) -> Forall2 R l (map f l).
Proof. intros Hf. induction l; cbn; auto. Qed.

Lemma Forall2_id (l : list A) : Forall2 R l l.
Proof. induction l; auto. Qed.
End tables.

#[local] Hint Resolve Forall2_id : core.

(** The leases of some positions end, those of them that are live. *)
Definition ended_leases (ids : list nat) (st : LeaseStatus) (ls : list Lease) : list Lease :=
  imap (fun i l => if of_leases ids i && is_live_lease l then end_lease st l else l) ls.

(** How a device comes to be approved. *)
Definition approves (e : NEvent) (i : nat) (u : Z) : Prop :=
  exists d l, devices (n_before e) !! i = Some d /\ device_status d = DevicePending /\
    leases (n_before e) !! device_lease d = Some l /\
    (n_op e = DecideDevice u i true \/ exists code, n_op e = ResolveDevice u code /\ user_code_hash d = sha256 px code) /\
    user_disabled (account (n_world e) u) = false /\ (u = lease_user l \/ isAdmin (account (n_world e) u) = true) /\
    clock (n_world e) <= device_expires_at d.

(** A request that is made with a valid form, or renews another. *)
Definition made (w : NativeWorld) (n : NState) (q : AccessRequest) : Prop :=
  (exists user data, access_rules (workspace w) (account w user) data = true /\
     createAccess (workspace w) (account w user) data = Accepted q) \/
  (exists r s actor, requests n !! r = Some s /\ renew (workspace w) (account w actor) (request s) = Accepted q).

Inductive requests_change (w : NativeWorld) (n : NState) : NOp -> list State -> Prop :=
  | rc_same o : requests_change w n o (requests n)
  | rc_made o q : (forall r o', o <> Within r o') -> made w n q -> requests_change w n o (requests n ++ [new_state q])
  | rc_within r s o s' :
      requests n !! r = Some s -> perform (workspace w) o s = Accepted s' ->
      requests_change w n (Within r o) (<[r := s']> (requests n)).

#[local] Hint Constructors requests_change : core.

(** What an operation does. *)
Inductive effect (w : NativeWorld) (n : NState) : NOp -> NState -> Prop :=
  | eff_quiet o n' :
      requests_change w n o (requests n') -> leases n' = leases n -> tokens n' = tokens n -> attempts n' = attempts n ->
      Forall2 conn_evolves (conns n) (conns n') -> Forall2 device_evolves (devices n) (devices n') ->
      effect w n o n'
  | eff_lease o r q x driver mode username password :
      request_of n r = Some (q, x) -> access_transport q = NativeProxy -> requested_access_mode q = Some mode ->
      Forall (fun l => lease_request l <> r) (leases n) ->
      effect w n o (set_leases (leases n ++ [new_lease px r q x driver mode username password]) n)
  | eff_rotate o i l password :
      leases n !! i = Some l -> lease_status l = LeaseActive ->
      effect w n o (change_lease i (rotated_lease px password) (invalidateConnectionsForCredentialRotation [i] n))
  | eff_end o ids st n' :
      st = LeaseRevoked \/ st = LeaseExpired -> leases n' = ended_leases ids st (leases n) ->
      tokens n' = tokens (revokeActiveLeaseAccess ids n) -> attempts n' = attempts (revokeActiveLeaseAccess ids n) ->
      conns n' = conns (revokeActiveLeaseAccess ids n) -> devices n' = devices n -> requests n' = requests n -> effect w n o n'
  | eff_device o i l code userCode :
      leases n !! i = Some l -> (countb (awaiting w i) (devices n) < max_pending_device_authorizations_per_lease px)%nat ->
      effect w n o (set_devices (devices n ++ [new_device px w i code userCode]) n)
  | eff_approve o i u :
      approves {| n_world := w; n_op := o; n_before := n; n_after := change_device i (set_device_status DeviceApproved) n |} i u ->
      effect w n o (change_device i (set_device_status DeviceApproved) n)
  | eff_issue o i d l token interval :
      devices n !! i = Some d -> device_status d = DeviceApproved -> leases n !! device_lease d = Some l ->
      lease_status l = LeaseActive ->
      (countb (fun t => (token_lease t =? device_lease d)%nat && is_live_token w t) (tokens n) < MaximumActiveDeviceTokens)%nat ->
      effect w n o (change_device i (set_device_status DeviceConsumed)
        (set_tokens (tokens n ++ [new_token px i d l token]) (change_device i (set_polled interval (clock w)) n)))
  | eff_attempt o l k t data :
      tokens n !! k = Some t -> leases n !! token_lease t = Some l -> lease_status l = LeaseActive ->
      effect w n o (set_attempts (attempts n ++ [new_attempt w l k t data]) n)
  | eff_connect data a l t q x :
      attempts n !! authAttemptId data = Some a -> attempt_status a = AttemptPending ->
      leases n !! attempt_lease a = Some l -> tokens n !! attempt_token a = Some t ->
      ensureActiveLease w n (attempt_lease a) l t (attempt_lease a) (token_device t) (consume_protocol data) = true ->
      credentials_match px l (syntheticUsername data) (syntheticPassword data) = true ->
      has_room px (attempt_lease a) l (conns (failExpiredReservations w n)) = true ->
      request_of n (lease_request l) = Some (q, x) ->
      effect w n (Connect data)
        (set_attempts (alter (set_attempt_status AttemptConsumed) (authAttemptId data) (attempts n))
          (set_conns (conns (failExpiredReservations w n) ++ [new_connection w a x data]) n)).

Lemma quiet_same w n o : effect w n o n.
Proof. apply eff_quiet; cbn; auto. Qed.

Lemma quiet_conns w n o cs : Forall2 conn_evolves (conns n) cs -> effect w n o (set_conns cs n).
Proof. intros H. apply eff_quiet; cbn; auto. Qed.

Lemma quiet_devices w n o ds : Forall2 device_evolves (devices n) ds -> effect w n o (set_devices ds n).
Proof. intros H. apply eff_quiet; cbn; auto. Qed.

(** A lease that is ended alone is ended as one of several. *)
Lemma alter_ended i l st ls :
  ls !! i = Some l -> is_live_lease l = true -> alter (end_lease st) i ls = ended_leases [i] st ls.
Proof.
  intros Hl Hlive. apply list_eq. intros j. unfold ended_leases. rewrite list_lookup_imap.
  destruct (decide (i = j)) as [->|Hne].
  - rewrite list_lookup_alter_eq, Hl. cbn. unfold of_leases. rewrite bool_decide_true by (left). by rewrite Hlive.
  - rewrite list_lookup_alter_ne by done. destruct (ls !! j); [|done]. cbn. unfold of_leases.
    rewrite bool_decide_false; [done|]. intros H%list_elem_of_singleton. by subst.
Qed.

Lemma eff_end_one w n o i l st :
  st = LeaseRevoked \/ st = LeaseExpired -> leases n !! i = Some l -> is_live_lease l = true ->
  effect w n o (change_lease i (end_lease st) (revokeActiveLeaseAccess [i] n)).
Proof.
  intros Hst Hl Hlive. apply (eff_end w n o [i] st); try done. cbn. by apply (alter_ended i l).
Qed.

Lemma with_lease_Accepted w actor i n k n' :
  with_lease w actor i n k = Accepted n' -> exists l, leases n !! i = Some l /\ k l = Accepted n'.
Proof.
  unfold with_lease. destruct (leases n !! i) as [l|]; [|done]. destruct (request_of _ _) as [[q x]|]; [|done].
  intros H. apply gate_Accepted in H as [_ H]. apply bind_Accepted in H as ([] & _ & H). eauto.
Qed.

Lemma owned_Accepted i instance_ n k n' :
  owned i instance_ n k = Accepted n' -> exists c, conns n !! i = Some c /\ proxy_instance_id c = instance_ /\ k c = Accepted n'.
Proof.
  unfold owned. destruct (conns n !! i) as [c|]; [|done]. destruct (str_eq _ _) eqn:E; [|done].
  apply String.eqb_eq in E. eauto.
Qed.

(** ** Each operation *)

Lemma effect_createLease w actor r username password n n' o :
  createLease px w actor r username password n = Accepted n' -> effect w n o n'.
Proof.
  unfold createLease. destruct (request_of n r) as [[q x]|] eqn:Hr; [|done]. intros H.
  apply gate_Accepted in H as [Hg H]. apply bind_Accepted in H as (? & _ & H).
  destruct (existsb _ (leases n)) eqn:He; [done|]. rewrite existsb_false_elem in He.
  destruct (connections _ _) as [c|]; [|done]. destruct (requested_access_mode q) as [mode|] eqn:Hm; [|done].
  destruct (existsb _ (leases n)); [done|]. injection H as <-. unfold manageNativeProxy, native_session in Hg.
  bool_hyps. eapply eff_lease; [done| |done|].
  - by apply bool_decide_eq_true in H1.
  - apply Forall_forall. intros l Hl Heq. specialize (He l Hl). cbn in He. by rewrite Heq, Nat.eqb_refl in He.
Qed.

Lemma effect_rotate w actor i password n n' o : rotate px w actor i password n = Accepted n' -> effect w n o n'.
Proof.
  intros H. apply with_lease_Accepted in H as (l & Hl & H).
  destruct (bool_decide (lease_status l = LeaseActive)) eqn:E; [|done]. injection H as <-.
  apply bool_decide_eq_true in E. by eapply eff_rotate.
Qed.

Lemma live_lease_cases l : is_live_lease l = negb (bool_decide (lease_status l ∈ [LeaseRevoked; LeaseExpired])).
Proof. unfold is_live_lease. by destruct (lease_status l). Qed.

Lemma effect_revokeLease w actor i n n' o : revokeLease w actor i n = Accepted n' -> effect w n o n'.
Proof.
  intros H. apply with_lease_Accepted in H as (l & Hl & H). destruct (bool_decide _) eqn:E.
  - injection H as <-. apply quiet_same.
  - injection H as <-. eapply eff_end_one; [by left|done|]. by rewrite live_lease_cases, E.
Qed.

Lemma effect_expireLease w i n o : effect w n o (expireLease w i n).
Proof.
  unfold expireLease. destruct (leases n !! i) as [l|] eqn:Hl; [|apply quiet_same].
  destruct (is_live_lease l) eqn:Hlive; cbn; [|apply quiet_same].
  destruct (_ <=? _); [|apply quiet_same]. eapply eff_end_one; [by right|done..].
Qed.

Lemma effect_revokeMatchingLeases w ids p n o :
  effect w n o (set_revocations p (revokeMatchingLeases ids n)).
Proof. by apply (eff_end w n o ids LeaseRevoked); [left|..]. Qed.

Lemma effect_beginDevice w i code userCode n n' o : beginDevice px w i code userCode n = Accepted n' -> effect w n o n'.
Proof.
  unfold beginDevice. destruct (leases n !! i) as [l|] eqn:Hl; [|done]. destruct (negb _); [done|].
  destruct (Nat.leb_spec (max_pending_device_authorizations_per_lease px) (countb (awaiting w i) (devices n))); [done|].
  destruct (existsb _ _); [done|]. intros [= <-]. by eapply eff_device.
Qed.

Lemma evolves_device_status st d :
  st = DeviceExpired \/ device_status d = DevicePending /\ st = DeviceDenied -> device_evolves d (set_device_status st d).
Proof. intros H. by split; [..|right]. Qed.

Lemma evolves_polled a b d : device_evolves d (set_polled a b d).
Proof. split; auto. Qed.

Lemma effect_transition w u i approve n n' o :
  (approve = true -> exists d, devices n !! i = Some d /\
     (o = DecideDevice u i true \/ exists code, o = ResolveDevice u code /\ user_code_hash d = sha256 px code)) ->
  transitionByOwner w (account w u) i (if approve then DeviceApproved else DeviceDenied) n = Accepted n' -> effect w n o n'.
Proof.
  intros Ho. unfold transitionByOwner. destruct (devices n !! i) as [d|] eqn:Hd; [|done].
  destruct (leases n !! device_lease d) as [l|] eqn:Hl; [|done]. destruct (negb _); [done|].
  destruct (user_disabled (account w u)) eqn:Hu; [done|]. cbn [orb].
  destruct (negb (lease_user l =? _) && _) eqn:Hown; [done|].
  destruct (negb _ || _) eqn:Hp; [done|]. intros [= <-]. apply orb_false_iff in Hp as [Hp Ht].
  apply negb_false_iff, bool_decide_eq_true in Hp. apply Z.ltb_ge in Ht. destruct approve.
  - destruct (Ho eq_refl) as (d' & Hd' & Hop). assert (d' = d) as -> by congruence.
    apply eff_approve with u. exists d, l. cbn. split_and!; try done.
    apply andb_false_iff in Hown as [Hown|Hown]; apply negb_false_iff in Hown; [left|by right].
    by apply Z.eqb_eq in Hown.
  - apply quiet_devices, Forall2_alter; [auto|]. intros d' Hd'. assert (d' = d) as -> by congruence.
    apply evolves_device_status. auto.
Qed.

Lemma effect_resolveDevice w u code n n' :
  resolveDevice px w (account w u) code n = Accepted n' -> effect w n (ResolveDevice u code) n'.
Proof.
  unfold resolveDevice. destruct (list_find _ _) as [[i d]|] eqn:Hf; [|done]. destruct (manages_device _ _ _ _); [|done].
  destruct (transitionByOwner _ _ _ _ _) as [n1|] eqn:Ht; [|done]. intros [= <-].
  apply list_find_Some in Hf as (Hd & Hc & _). apply (effect_transition w u i true); [|done].
  intros _. exists d. eauto.
Qed.

Lemma effect_decideDevice w u i approve n n' :
  decideDevice w (account w u) i approve n = Accepted n' -> effect w n (DecideDevice u i approve) n'.
Proof.
  unfold decideDevice. destruct (devices n !! i) as [d|] eqn:Hd; [|done]. intros H. apply gate_Accepted in H as [_ H].
  apply (effect_transition w u i approve); [|done]. intros ->. eauto.
Qed.

Lemma isActiveLease_status w n l : isActiveLease w n l = true -> lease_status l = LeaseActive.
Proof. unfold isActiveLease. intros H. bool_hyps. by apply bool_decide_eq_true in H. Qed.

Lemma effect_poll w code token n r n' o : poll px w code token n = Accepted (r, n') -> effect w n o n'.
Proof.
  unfold poll. destruct (list_find _ _) as [[i d]|] eqn:Hf; [|intros [= <- <-]; apply quiet_same].
  apply list_find_Some in Hf as (Hd & _ & _).
  assert (Hpolled : forall a b, effect w n o (change_device i (set_polled a b) n)).
  { intros a b. apply quiet_devices, Forall2_alter; auto using evolves_polled. }
  destruct (bool_decide _ && _); [intros [= <- <-]; apply Hpolled|].
  destruct (_ <? _).
  { intros [= <- <-]. apply eff_quiet; cbn; auto. rewrite list_alter_alter_eq. apply Forall2_alter; [auto|].
    intros d' _. cbn. eapply device_evolves_trans; [apply evolves_polled|]. apply evolves_device_status. by left. }
  destruct (device_status d) eqn:Hst; try (intros [= <- <-]; apply Hpolled).
  cbn [leases change_device set_devices]. destruct (leases n !! device_lease d) as [l|] eqn:Hl; [|done].
  destruct (isActiveLease _ _ _) eqn:Ha; [|intros [= <- <-]; apply Hpolled]. apply isActiveLease_status in Ha. cbn [negb].
  destruct (Nat.leb_spec MaximumActiveDeviceTokens (countb (fun t => (token_lease t =? device_lease d)%nat && is_live_token w t)
    (tokens (change_device i (set_polled (polling_interval_seconds d) (clock w)) n)))); [intros [= <- <-]; apply Hpolled|].
  destruct (existsb _ _); [done|]. intros [= <- <-]. by apply (eff_issue w n o i d l).
Qed.

Lemma ensureActiveLease_status w n i l t a b p :
  ensureActiveLease w n i l t a b p = true -> lease_status l = LeaseActive.
Proof. unfold ensureActiveLease. intros H. bool_hyps. repeat match goal with H : bool_decide _ = true |- _ => apply bool_decide_eq_true in H end. done. Qed.

Lemma effect_authorizeTunnel w data n n' o : authorizeTunnel w data n = Accepted n' -> effect w n o n'.
Proof.
  unfold authorizeTunnel. destruct (list_find _ _) as [[k t]|] eqn:Hf; [|done]. apply list_find_Some in Hf as (Ht & _ & _).
  destruct (leases n !! token_lease t) as [l|] eqn:Hl; [|done].
  destruct (ensureActiveLease _ _ _ _ _ _ _ _) eqn:He; [|done]. apply ensureActiveLease_status in He. cbn [negb].
  destruct (find_first _ _) as [a|].
  - destruct (_ || _); [done|]. intros [= <-]. apply quiet_same.
  - intros [= <-]. by eapply eff_attempt.
Qed.

Lemma effect_authorizeConnection w data n n' :
  authorizeConnection px w data n = Accepted n' -> effect w n (Connect data) n'.
Proof.
  unfold authorizeConnection. destruct (attempts n !! authAttemptId data) as [a|] eqn:Ha; [|done].
  destruct (_ || _) eqn:Hp; [done|]. apply orb_false_iff in Hp as [Hp Hprot]. apply orb_false_iff in Hp as [Hp _].
  apply orb_false_iff in Hp as [Hp _]. apply negb_false_iff, bool_decide_eq_true in Hp.
  destruct (leases n !! attempt_lease a) as [l|] eqn:Hl; [|done].
  destruct (tokens n !! attempt_token a) as [t|] eqn:Ht; [|done].
  destruct (ensureActiveLease _ _ _ _ _ _ _ _) eqn:He; [|done]. destruct (credentials_match _ _ _ _) eqn:Hc; [|done].
  cbn [negb]. destruct (has_room _ _ _ _) eqn:Hroom; [|done]. cbn [negb].
  change (request_of (failExpiredReservations w n)) with (request_of n).
  destruct (request_of n (lease_request l)) as [[q x]|] eqn:Hr; [|done]. destruct (existsb _ _); [done|].
  intros [= <-]. exact (eff_connect w n data a l t q x Ha Hp Hl Ht He Hc Hroom Hr).
Qed.

Lemma effect_change w i c f n o :
  conns n !! i = Some c -> conn_evolves c (f c) -> effect w n o (change_conn i f n).
Proof.
  intros Hc Hf. apply quiet_conns, Forall2_alter; [auto|]. intros c' Hc'. by assert (c' = c) as -> by congruence.
Qed.

Lemma effect_heartbeat w i c n o : conns n !! i = Some c -> effect w n o (snd (heartbeat w i c n)).
Proof.
  intros Hc. unfold heartbeat. destruct (negb _); [apply quiet_same|].
  destruct (lease_allows _ _ _); by eapply effect_change.
Qed.

Lemma heartbeat_goes_on w i c n n' : heartbeat w i c n = (true, n') ->
  conn_status c = ConnActive /\ lease_allows w n c = true /\ n' = change_conn i (touch w) n.
Proof.
  unfold heartbeat. destruct (bool_decide (conn_status c = ConnActive)) eqn:E; [|done]. apply bool_decide_eq_true in E.
  cbn [negb]. destruct (lease_allows w n c) eqn:Ha; [|done]. intros [= <-]. done.
Qed.

Lemma effect_authorizeExecution w i c sql n n' o :
  conns n !! i = Some c -> authorizeExecution w i c sql n = Accepted n' -> effect w n o n'.
Proof.
  intros Hc. unfold authorizeExecution. destruct (heartbeat w i c n) as [[] n1] eqn:Hh; [|done]. cbn [negb].
  apply heartbeat_goes_on in Hh as (_ & _ & ->). destruct (leases n !! conn_lease c); [|done].
  destruct (_ || _); [done|]. intros [= <-]. apply eff_quiet; cbn; auto. cbn. apply Forall2_alter; auto.
Qed.

Lemma prune_device_evolves w d : device_evolves d (prune_device w d).
Proof. unfold prune_device. destruct (_ && _); [|auto]. apply evolves_device_status. by left. Qed.

Lemma prune_conn_evolves w c : conn_evolves c (prune_conn px w c).
Proof.
  unfold prune_conn. destruct (_ && _); [apply conn_evolves_fail|]. destruct (_ && _); [|auto].
  apply conn_evolves_status. by left.
Qed.

(** Every operation has one of the effects. *)
Lemma nperform_effect w o n n' : nperform px w o n = Accepted n' -> effect w n o n'.
Proof.
  destruct o; cbn [nperform]; intros H.
  - apply gate_Accepted in H as [Hg H]. apply bind_Accepted in H as (q & Hq & H). injection H as <-.
    apply eff_quiet; cbn; auto. apply rc_made; [done|]. left. eauto.
  - destruct (requests n !! r) eqn:Hr; [|done]. apply bind_Accepted in H as (q & Hq & H). injection H as <-.
    apply eff_quiet; cbn; auto. apply rc_made; [done|]. right. eauto 10.
  - destruct (requests n !! r) eqn:Hr; [|done]. apply bind_Accepted in H as (q & Hq & H). injection H as <-.
    apply eff_quiet; cbn; auto. by eapply rc_within.
  - by eapply effect_createLease.
  - by eapply effect_rotate.
  - by eapply effect_revokeLease.
  - destruct (collect m n); injection H as <-; [apply quiet_same|]. apply eff_quiet; cbn; auto.
  - destruct (revocations n !! p); injection H as <-; [apply effect_revokeMatchingLeases|apply quiet_same].
  - injection H as <-. apply effect_expireLease.
  - by eapply effect_beginDevice.
  - by apply effect_resolveDevice.
  - by apply effect_decideDevice.
  - apply bind_Accepted in H as ([r n1] & Hp & H). injection H as <-. by eapply effect_poll.
  - by eapply effect_authorizeTunnel.
  - by apply effect_authorizeConnection.
  - apply owned_Accepted in H as (c & Hc & _ & H). unfold markAuthenticated in H. destruct (_ || _) eqn:E; [done|].
    injection H as <-. eapply effect_change; [done|]. apply orb_false_iff in E as [E _].
    apply negb_false_iff, bool_decide_eq_true in E. eapply conn_evolves_trans; [|apply conn_evolves_touch].
    eapply conn_evolves_trans; [|apply conn_evolves_reservation]. apply conn_evolves_status. right. unfold is_open. by rewrite E.
  - apply owned_Accepted in H as (c & Hc & _ & H). unfold upstreamMaterial in H. destruct (_ || _); [done|].
    injection H as <-. by eapply effect_change.
  - apply owned_Accepted in H as (c & Hc & _ & H). injection H as <-. unfold recordTraffic.
    destruct (is_open c); [by eapply effect_change|apply quiet_same].
  - apply owned_Accepted in H as (c & Hc & _ & H). injection H as <-. by apply effect_heartbeat.
  - apply owned_Accepted in H as (c & Hc & _ & H). injection H as <-. by eapply effect_change.
  - apply owned_Accepted in H as (c & Hc & _ & H). by eapply effect_authorizeExecution.
  - apply owned_Accepted in H as (c & Hc & _ & H). unfold completeStatement in H.
    destruct (native_statements n !! j) as [s|]; [|done]. destruct (negb _); [done|].
    destruct (negb _); injection H as <-; [apply quiet_same|]. apply eff_quiet; cbn; auto.
  - injection H as <-. apply eff_quiet; cbn; auto; apply Forall2_mapped; auto using prune_conn_evolves, prune_device_evolves.
Qed.
(** ** The tables after an operation *)

Lemma map_lookup {A B} (f : A -> B) (l : list A) i : map f l !! i = f <$> l !! i.
Proof. apply (list_lookup_fmap f). Qed.

Lemma lookup_snoc_cases {A} (l : list A) (x y : A) i :
  (l ++ [x]) !! i = Some y -> l !! i = Some y \/ (i = length l /\ y = x).
Proof.
  intros H. apply lookup_app_Some in H as [H|[Hle H]]; [by left|right].
  destruct (i - length l)%nat as [|m] eqn:E; [|done]. injection H as <-. split; [lia|done].
Qed.

Lemma alter_lookup_cases {A} (f : A -> A) i (l : list A) j y :
  alter f i l !! j = Some y -> (j = i /\ exists x, l !! i = Some x /\ y = f x) \/ (j <> i /\ l !! j = Some y).
Proof.
  intros H. destruct (decide (i = j)) as [->|Hne].
  - rewrite list_lookup_alter_eq in H. apply fmap_Some in H as (x & Hx & ->). left. eauto.
  - rewrite list_lookup_alter_ne in H by done. right. auto.
Qed.

Lemma Forall2_lookup_back {A} (R : A -> A -> Prop) l k i y :
  Forall2 R l k -> k !! i = Some y -> exists x, l !! i = Some x /\ R x y.
Proof. intros H Hy. by apply (Forall2_lookup_r _ _ _ _ _ H) in Hy. Qed.

Lemma Forall2_lookup_forth {A} (R : A -> A -> Prop) l k i x :
  Forall2 R l k -> l !! i = Some x -> exists y, k !! i = Some y /\ R x y.
Proof. intros H Hx. by apply (Forall2_lookup_l _ _ _ _ _ H) in Hx. Qed.

(** No connection of a lease is open, and nobody is about to be admitted. *)
Definition closed_off (n : NState) (i : nat) : Prop :=
  (forall c, c ∈ conns n -> conn_lease c = i -> is_open c = false) /\
  (forall a, a ∈ attempts n -> attempt_lease a = i -> attempt_status a <> AttemptPending).

Definition cut_off (n : NState) (i : nat) : Prop :=
  closed_off n i /\ forall t, t ∈ tokens n -> token_lease t = i -> token_revoked t = true.

Lemma of_leases_true ids i : of_leases ids i = true <-> i ∈ ids.
Proof. apply bool_decide_eq_true. Qed.

Lemma disconnected n ids i : i ∈ ids -> closed_off (invalidateConnectionsForCredentialRotation ids n) i.
Proof.
  intros Hi%of_leases_true. split; cbn.
  - intros c (c0 & -> & Hc)%list_elem_of_fmap Hl.
    destruct (of_leases ids (conn_lease c0) && is_open c0) eqn:E; [done|].
    rewrite Hl, Hi in E. exact E.
  - intros a (a0 & -> & Ha)%list_elem_of_fmap Hl.
    destruct (of_leases ids (attempt_lease a0) && _) eqn:E; [done|]. rewrite Hl, Hi in E. by apply bool_decide_eq_false in E.
Qed.

Lemma cut n ids i : i ∈ ids -> cut_off (revokeActiveLeaseAccess ids n) i.
Proof.
  intros Hi. split; [apply (disconnected (revoke_tokens ids n) ids i Hi)|]. cbn.
  intros t (t0 & -> & Ht)%list_elem_of_fmap Hl. destruct (of_leases ids (token_lease t0)) eqn:E; [done|].
  apply of_leases_true in Hi. cbn in Hl. congruence.
Qed.

Definition is_new_lease (n : NState) (l : Lease) : Prop :=
  exists r q x driver mode username password,
    l = new_lease px r q x driver mode username password /\ request_of n r = Some (q, x) /\
    access_transport q = NativeProxy /\ requested_access_mode q = Some mode /\
    Forall (fun l => lease_request l <> r) (leases n).

Definition lease_next (n' : NState) (i : nat) (l l' : Lease) : Prop :=
  l' = l \/
  (exists password, l' = rotated_lease px password l /\ lease_status l = LeaseActive /\ closed_off n' i) \/
  (exists st, l' = end_lease st l /\ is_live_lease l = true /\ (st = LeaseRevoked \/ st = LeaseExpired) /\ cut_off n' i).

Lemma ended_lookup ids st ls i l' :
  ended_leases ids st ls !! i = Some l' ->
  exists l, ls !! i = Some l /\ (l' = l \/ (l' = end_lease st l /\ is_live_lease l = true /\ i ∈ ids)).
Proof.
  unfold ended_leases. rewrite list_lookup_imap. intros (l & Hl & ->)%fmap_Some. exists l. split; [done|].
  destruct (of_leases ids i && is_live_lease l) eqn:E; [right|by left]. bool_hyps. by apply of_leases_true in H.
Qed.

Lemma effect_leases w n o n' i l' :
  effect w n o n' -> leases n' !! i = Some l' ->
  (exists l, leases n !! i = Some l /\ lease_next n' i l l') \/ (i = length (leases n) /\ is_new_lease n l').
Proof.
  assert (Hsame : leases n !! i = Some l' -> (exists l, leases n !! i = Some l /\ lease_next n' i l l') \/
    (i = length (leases n) /\ is_new_lease n l')).
  { intros H. left. exists l'. split; [done|]. by left. }
  intros H Hl. destruct H; cbn in Hl; try (by apply Hsame).
  - apply Hsame. congruence.
  - apply lookup_snoc_cases in Hl as [Hl|[-> ->]]; [by apply Hsame|right]. split; [done|]. unfold is_new_lease. eauto 15.
  - apply alter_lookup_cases in Hl as [(-> & l0 & Hl0 & ->)|[_ Hl]]; [|by apply Hsame]. left. exists l0.
    split; [done|]. right. left. exists password. assert (l0 = l) as -> by congruence. split_and!; [done..|].
    apply (disconnected n [i0] i0). left.
  - rewrite H0 in Hl. apply ended_lookup in Hl as (l & Hl & [->|(-> & Hlive & Hi)]); [by apply Hsame|left].
    exists l. split; [done|]. right. right. exists st. split_and!; [done..|]. pose proof (cut n ids i Hi) as [[H7 H8] H9].
    unfold cut_off, closed_off. rewrite H1, H2, H3. done.
Qed.

(** What a lease keeps. *)
Record lease_same (l l' : Lease) : Prop := {
  ls_request : lease_request l' = lease_request l;
  ls_user : lease_user l' = lease_user l;
  ls_connection : lease_connection l' = lease_connection l;
  ls_mode : lease_access_mode l' = lease_access_mode l;
  ls_limit : max_concurrent_connections l' = max_concurrent_connections l;
  ls_expiry : lease_expires_at l' = lease_expires_at l;
  ls_dead : is_live_lease l = false -> lease_status l' = lease_status l }.

Lemma lease_next_same n' i l l' : lease_next n' i l l' -> lease_same l l'.
Proof.
  intros [->|[(p & -> & Ha & _)|(st & -> & Hl & _)]]; split; try done.
  cbn. by intros ?; rewrite Hl in *.
Qed.

Lemma effect_leases_length w n o n' : effect w n o n' -> (length (leases n) <= length (leases n'))%nat.
Proof.
  destruct 1 as [o n' _ E| | |o ids st n' _ E| | | | |]; cbn;
    rewrite ?E, ?length_app, ?length_alter; unfold ended_leases; rewrite ?length_imap; cbn; lia.
Qed.

Lemma lease_forth w n o n' i l :
  effect w n o n' -> leases n !! i = Some l -> exists l', leases n' !! i = Some l' /\ lease_next n' i l l'.
Proof.
  intros H Hl. assert (Hlt : (i < length (leases n))%nat) by (by eapply lookup_lt_Some).
  pose proof (effect_leases_length _ _ _ _ H). destruct (lookup_lt_is_Some_2 (leases n') i) as [l' Hl']; [lia|].
  exists l'. split; [done|]. destruct (effect_leases _ _ _ _ _ _ H Hl') as [(l0 & Hl0 & Hn)|[-> _]]; [|lia].
  by assert (l0 = l) as -> by congruence.
Qed.

(** Tokens. *)
Definition issued (w : NativeWorld) (n n' : NState) (t : ProxyToken) : Prop :=
  exists i d l token, t = new_token px i d l token /\ devices n !! i = Some d /\ device_status d = DeviceApproved /\
    leases n !! device_lease d = Some l /\ lease_status l = LeaseActive /\
    exists d', devices n' !! i = Some d' /\ device_lease d' = device_lease d /\ device_status d' = DeviceConsumed.

Definition token_next (t t' : ProxyToken) : Prop := t' = t \/ t' = revoke_token t.

Lemma effect_tokens w n o n' k t' :
  effect w n o n' -> tokens n' !! k = Some t' ->
  (exists t, tokens n !! k = Some t /\ token_next t t') \/ (k = length (tokens n) /\ issued w n n' t').
Proof.
  assert (Hsame : tokens n !! k = Some t' ->
    (exists t, tokens n !! k = Some t /\ token_next t t') \/ (k = length (tokens n) /\ issued w n n' t')).
  { intros H. left. exists t'. split; [done|by left]. }
  intros H Ht. destruct H; cbn in Ht; try (by apply Hsame).
  - apply Hsame. congruence.
  - rewrite H1 in Ht. cbn in Ht. rewrite map_lookup in Ht. apply fmap_Some in Ht as (t & Ht & ->). left. exists t.
    split; [done|]. unfold token_next. destruct (of_leases _ _); auto.
  - apply lookup_snoc_cases in Ht as [Ht|[-> ->]]; [by apply Hsame|right]. split; [done|].
    exists i, d, l, token. split_and!; [done..|]. eexists. cbn.
    rewrite list_alter_alter_eq, list_lookup_alter_eq, H. done.
Qed.

Lemma effect_tokens_length w n o n' : effect w n o n' -> (length (tokens n) <= length (tokens n'))%nat.
Proof.
  destruct 1 as [o n' _ _ E| | |o ids st n' _ _ E| | | | |]; cbn; rewrite ?E; cbn; rewrite ?length_app, ?length_map; cbn; lia.
Qed.

Lemma token_forth w n o n' k t :
  effect w n o n' -> tokens n !! k = Some t -> exists t', tokens n' !! k = Some t' /\ token_next t t'.
Proof.
  intros H Ht. assert (Hlt : (k < length (tokens n))%nat) by (by eapply lookup_lt_Some).
  pose proof (effect_tokens_length _ _ _ _ H). destruct (lookup_lt_is_Some_2 (tokens n') k) as [t' Ht']; [lia|].
  exists t'. split; [done|]. destruct (effect_tokens _ _ _ _ _ _ H Ht') as [(t0 & Ht0 & Hn)|[-> _]]; [|lia].
  by assert (t0 = t) as -> by congruence.
Qed.

(** Devices. *)
Definition device_next (w : NativeWorld) (n : NState) (o : NOp) (n' : NState) (i : nat) (d d' : DeviceAuthorization) : Prop :=
  device_evolves d d' \/
  (device_lease d' = device_lease d /\ device_expires_at d' = device_expires_at d /\ device_status d = DevicePending /\
   exists u, approves {| n_world := w; n_op := o; n_before := n; n_after := n' |} i u) \/
  (device_lease d' = device_lease d /\ device_expires_at d' = device_expires_at d /\ device_status d' = DeviceConsumed).

Lemma effect_devices w n o n' i d' :
  effect w n o n' -> devices n' !! i = Some d' ->
  (exists d, devices n !! i = Some d /\ device_next w n o n' i d d') \/
  (i = length (devices n) /\ device_status d' = DevicePending).
Proof.
  assert (Hsame : devices n !! i = Some d' ->
    (exists d, devices n !! i = Some d /\ device_next w n o n' i d d') \/
    (i = length (devices n) /\ device_status d' = DevicePending)).
  { intros H. left. exists d'. split; [done|]. left. apply device_evolves_refl. }
  intros H Hd. destruct H; cbn in Hd; try (by apply Hsame).
  - destruct (Forall2_lookup_back _ _ _ _ _ H4 Hd) as (d & Hd0 & Hev). left. exists d. split; [done|by left].
  - apply Hsame. congruence.
  - apply lookup_snoc_cases in Hd as [Hd|[-> ->]]; [by apply Hsame|right]. done.
  - apply alter_lookup_cases in Hd as [(-> & d & Hd & ->)|[_ Hd]]; [|by apply Hsame]. left. exists d. split; [done|].
    right. left. split_and!; try done; [|eauto]. destruct H as (d0 & l0 & Hd0 & Hp & _). cbn in Hd0.
    by assert (d0 = d) as -> by congruence.
  - rewrite list_alter_alter_eq in Hd. apply alter_lookup_cases in Hd as [(-> & d0 & Hd & ->)|[_ Hd]]; [|by apply Hsame].
    left. exists d0. split; [done|]. right. right. done.
Qed.

Lemma effect_devices_length w n o n' : effect w n o n' -> (length (devices n) <= length (devices n'))%nat.
Proof.
  destruct 1 as [o n' _ _ _ _ _ E| | |o ids st n' _ _ _ _ _ E| | | | |]; cbn;
    rewrite ?length_app, ?length_alter, ?length_map; cbn; try lia.
  - apply Forall2_length in E. lia.
  - rewrite E. lia.
Qed.

Lemma device_forth w n o n' i d :
  effect w n o n' -> devices n !! i = Some d -> exists d', devices n' !! i = Some d' /\ device_next w n o n' i d d'.
Proof.
  intros H Hd. assert (Hlt : (i < length (devices n))%nat) by (by eapply lookup_lt_Some).
  pose proof (effect_devices_length _ _ _ _ H). destruct (lookup_lt_is_Some_2 (devices n') i) as [d' Hd']; [lia|].
  exists d'. split; [done|]. destruct (effect_devices _ _ _ _ _ _ H Hd') as [(d0 & Hd0 & Hn)|[-> _]]; [|lia].
  by assert (d0 = d) as -> by congruence.
Qed.

(** Attempts. *)
Lemma effect_attempts w n o n' j a' :
  effect w n o n' -> attempts n' !! j = Some a' ->
  (exists a, attempts n !! j = Some a /\ (a' = a \/ exists st, a' = set_attempt_status st a /\ st <> AttemptPending)) \/
  (j = length (attempts n) /\ exists l k t data, a' = new_attempt w l k t data /\ tokens n !! k = Some t /\
     leases n !! token_lease t = Some l /\ lease_status l = LeaseActive).
Proof.
  intros H Ha.
  assert (Hsame : attempts n !! j = Some a' ->
    (exists a, attempts n !! j = Some a /\ (a' = a \/ exists st, a' = set_attempt_status st a /\ st <> AttemptPending)) \/
    (j = length (attempts n) /\ exists l k t data, a' = new_attempt w l k t data /\ tokens n !! k = Some t /\
       leases n !! token_lease t = Some l /\ lease_status l = LeaseActive)) by eauto.
  assert (Hexp : forall ids, map (fun a => if of_leases ids (attempt_lease a) && bool_decide (attempt_status a = AttemptPending)
      then set_attempt_status AttemptExpired a else a) (attempts n) !! j = Some a' ->
    exists a, attempts n !! j = Some a /\ (a' = a \/ exists st, a' = set_attempt_status st a /\ st <> AttemptPending)).
  { intros ids Hm. rewrite map_lookup in Hm. apply fmap_Some in Hm as (a & Hm & ->). exists a. split; [done|].
    destruct (_ && _); [right; by eexists|by left]. }
  destruct H; cbn in Ha; try (by apply Hsame).
  - apply Hsame. congruence.
  - left. by apply Hexp in Ha.
  - left. rewrite H2 in Ha. by apply Hexp in Ha.
  - apply lookup_snoc_cases in Ha as [Ha|[-> ->]]; [by apply Hsame|right]. eauto 15.
  - apply alter_lookup_cases in Ha as [(-> & a0 & Ha & ->)|[_ Ha]]; [|by apply Hsame]. left. exists a0.
    split; [done|]. right. by eexists.
Qed.

(** Connections. *)
Definition admitted (w : NativeWorld) (n : NState) (o : NOp) (c : ProxyConnection) : Prop :=
  exists data a l t q x, o = Connect data /\ c = new_connection w a x data /\
    attempts n !! authAttemptId data = Some a /\ attempt_status a = AttemptPending /\
    leases n !! attempt_lease a = Some l /\ tokens n !! attempt_token a = Some t /\
    ensureActiveLease w n (attempt_lease a) l t (attempt_lease a) (token_device t) (consume_protocol data) = true /\
    credentials_match px l (syntheticUsername data) (syntheticPassword data) = true /\
    has_room px (attempt_lease a) l (conns (failExpiredReservations w n)) = true /\
    request_of n (lease_request l) = Some (q, x).

Lemma failed_evolve w n : Forall2 conn_evolves (conns n) (conns (failExpiredReservations w n)).
Proof. cbn. apply Forall2_mapped. intros c. destruct (_ && _); [apply conn_evolves_fail|apply conn_evolves_refl]. Qed.

Lemma disconnect_evolve ids n : Forall2 conn_evolves (conns n) (conns (disconnectActiveConnections ids n)).
Proof.
  cbn. apply Forall2_mapped. intros c. destruct (_ && _); [|apply conn_evolves_refl].
  apply conn_evolves_status. by left.
Qed.

(** The connections evolve, and at most one is added. *)
Lemma effect_conns w n o n' :
  effect w n o n' ->
  Forall2 conn_evolves (conns n) (conns n') \/
  exists c, conns n' = conns (failExpiredReservations w n) ++ [c] /\ admitted w n o c.
Proof.
  destruct 1; cbn; auto; try (left; apply Forall2_id; auto).
  - left. apply (disconnect_evolve [i] n).
  - left. rewrite H3. apply (disconnect_evolve ids n).
  - right. eexists. split; [done|]. by exists data, a, l, t, q, x.
Qed.

Lemma effect_conn w n o n' j c' :
  effect w n o n' -> conns n' !! j = Some c' ->
  (exists c, conns n !! j = Some c /\ conn_evolves c c') \/ (j = length (conns n) /\ admitted w n o c').
Proof.
  intros H Hc. apply effect_conns in H as [H|(c & Hn & H)].
  - left. by eapply Forall2_lookup_back.
  - rewrite Hn in Hc. pose proof (failed_evolve w n) as Hf. apply lookup_snoc_cases in Hc as [Hc|[-> ->]].
    + left. by eapply Forall2_lookup_back.
    + right. split; [by rewrite (Forall2_length _ _ _ Hf)|done].
Qed.
End safety.
