(* ===== verification/NativeSafety.v ===== *)
(** * Native client access: statements, revocation, limits

    Of the histories of [LeaseSafety]: what holds of every row, the theorems that follow from it, and what
    goes wrong. *)

From Stdlib Require Import String.
From S2P Require Import Prelude Lists JsString CrucibleLib SqlPolicy QueryGuard StatementAnalyzer DeploymentPolicy Permissions DeploymentPreflight Workflow Access Sessions SessionSafety ProxyPolicy Leases LeaseSafety.

Open Scope string_scope.
Open Scope Z_scope.
Open Scope list_scope.

(** ** The history of one request *)

(** What has happened to the request at a position. *)
Definition own_event (r : nat) (e : NEvent) : option Event :=
  match n_op e, requests (n_before e) !! r, requests (n_after e) !! r with
  | Within r' o, Some s, Some s' =>
      if (r' =? r)%nat then Some {| in_world := workspace (n_world e); op := o; before := s; after := s' |} else None
  | _, _, _ => None
  end.

Definition own_history (r : nat) (tr : list NEvent) : list Event := omap (own_event r) tr.

Section native.
Context (px : ProxyConfig).

Lemma effect_requests w n o n' : effect px w n o n' -> requests_change w n o (requests n').
Proof. destruct 1; cbn; try apply rc_same; [done|]. rewrite H5. apply rc_same. Qed.

Lemma other_events r e : (forall r' o, n_op e = Within r' o -> r' <> r) -> own_event r e = None.
Proof.
  intros H. unfold own_event. destruct (n_op e); try done. destruct (_ !! _); [|done]. destruct (_ !! _); [|done].
  destruct (Nat.eqb_spec r0 r) as [->|]; [by destruct (H r o)|done].
Qed.

Lemma own_history_none t tr n r : nreachable px t tr n -> requests n !! r = None -> own_history r tr = [].
Proof.
  induction 1 as [w|t tr n w o n' _ IH _ H]; [done|]. intros Hr.
  assert (Hle : (length (requests n) <= length (requests n'))%nat).
  { apply nperform_effect, effect_requests in H. destruct H; rewrite ?length_app, ?length_insert; cbn; lia. }
  apply lookup_ge_None in Hr. unfold own_history in *. cbn [omap list_omap].
  rewrite other_events; [apply IH, lookup_ge_None; lia|].
  cbn. intros r' o' -> ->. cbn in H. destruct (requests n !! r) as [s|] eqn:E; [|done]. apply lookup_lt_Some in E. lia.
Qed.

(** The state of a request is the one its own history leads to. *)
Lemma request_reachable t tr n r s :
  nreachable px t tr n -> requests n !! r = Some s -> exists t', t' <= t /\ reachable t' (own_history r tr) s.
Proof.
  intros Hn. revert r s. induction Hn as [w|t tr n w o n' Hn IH Ht H]; [done|]. intros r s Hr.
  assert (Hold : requests n !! r = Some s -> own_event r {| n_world := w; n_op := o; n_before := n; n_after := n' |} = None ->
    exists t', t' <= clock w /\ reachable t' (own_history r ({| n_world := w; n_op := o; n_before := n; n_after := n' |} :: tr)) s).
  { intros Hs He. destruct (IH r s Hs) as (t' & Ht' & Hreach). exists t'. split; [lia|]. unfold own_history. cbn [omap list_omap].
    by rewrite He. }
  assert (Hcase : (exists r' o', o = Within r' o') \/ forall r' o', o <> Within r' o') by (destruct o; eauto).
  destruct Hcase as [(r' & o' & ->)|Hno].
  - cbn in H. destruct (requests n !! r') as [s0|] eqn:Hs0; [|done]. apply bind_Accepted in H as (s1 & Hp & H).
    injection H as <-. cbn in Hr. destruct (decide (r' = r)) as [->|Hne].
    + rewrite list_lookup_insert_eq in Hr by (by eapply lookup_lt_Some). injection Hr as <-.
      destruct (IH r s0 Hs0) as (t' & Ht' & Hreach). exists (clock w). split; [lia|].
      unfold own_history. cbn [omap list_omap own_event n_op n_before n_after n_world].
      rewrite Hs0. cbn [requests set_requests]. rewrite list_lookup_insert_eq by (by eapply lookup_lt_Some).
      rewrite Nat.eqb_refl. apply (goes_on t' _ s0 (workspace w) o' s1 Hreach); [|done].
      change (time_of (workspace w)) with (clock w). lia.
    + rewrite list_lookup_insert_ne in Hr by done. apply Hold; [done|]. apply other_events. cbn. by intros ? ? [= <- <-].
  - assert (He : own_event r {| n_world := w; n_op := o; n_before := n; n_after := n' |} = None).
    { apply other_events. cbn. intros r' o' ->. by destruct (Hno r' o'). }
    pose proof (effect_requests _ _ _ _ (nperform_effect _ _ _ _ _ H)) as Hc.
    inversion Hc as [o1 Ho1 Hsame|o1 q _ Hmade Ho1 Hsame|r' s0 o' s' _ _ Ho1 Hsame]; subst o.
    + rewrite <- Hsame in Hr. auto.
    + rewrite <- Hsame in Hr. apply lookup_snoc_cases in Hr as [Hr|[-> ->]]; [auto|].
      exists (clock w). split; [lia|]. unfold own_history. cbn [omap list_omap]. rewrite He.
      pose proof (own_history_none _ _ _ (length (requests n)) Hn ltac:(apply lookup_ge_None; lia)) as Hnone.
      unfold own_history in Hnone. rewrite Hnone.
      destruct Hmade as [(user & data & Hrules & Hc')|(r & s & actor & Hs & Hren)].
      * exact (is_made (workspace w) user data q Hrules Hc').
      * destruct (IH r s Hs) as (t' & Ht' & Hreach). apply (is_renewed t' _ s (workspace w) actor q Hreach); [|done].
        change (time_of (workspace w)) with (clock w). lia.
    + by destruct (Hno r' o').
Qed.

(** A session goes on, or ends, and its request keeps all but its life. *)
Lemma request_forth w n o n' r q x :
  effect px w n o n' -> request_of n r = Some (q, x) ->
  exists l y, request_of n' r = Some (set_access_life l q, y) /\ same_session x y.
Proof.
  unfold request_of. intros H Hr. destruct (requests n !! r) as [s|] eqn:Hs; [|done]. cbn in Hr.
  destruct (session s) as [x0|] eqn:Hx; [|done]. cbn in Hr. injection Hr as <- <-.
  assert (Hid : exists l y, Some (request s, x0) = Some (set_access_life l (request s), y) /\ same_session x0 y).
  { exists (access_life (request s)), x0. split; [by destruct (request s)|apply same_session_refl]. }
  apply effect_requests in H. destruct H as [o|o q _ _|r0 s0 o s' Hs0 Hp].
  - by rewrite Hs; cbn; rewrite Hx.
  - rewrite lookup_app_l by (by eapply lookup_lt_Some). by rewrite Hs; cbn; rewrite Hx.
  - destruct (decide (r0 = r)) as [->|Hne].
    + assert (s0 = s) as -> by congruence. rewrite list_lookup_insert_eq by (by eapply lookup_lt_Some).
      apply perform_step in Hp. destruct (step_request _ _ _ _ Hp) as [l Hl].
      destruct (step_same_session _ _ _ _ x0 x0 Hp Hx (same_session_refl x0)) as (y & Hy & Hxy).
      exists l, y. cbn. rewrite Hy. cbn. by rewrite Hl.
    + rewrite list_lookup_insert_ne by done. by rewrite Hs; cbn; rewrite Hx.
Qed.

(** ** What holds of every row *)

(** A lease is that of its session. *)
Definition lease_ok (n : NState) (l : Lease) : Prop :=
  exists q x, request_of n (lease_request l) = Some (q, x) /\ access_transport q = NativeProxy /\
    requested_access_mode q = Some (lease_access_mode l) /\ lease_user l = session_user x /\
    lease_connection l = session_connection x /\ lease_expires_at l = expires_at x /\
    max_concurrent_connections l = 3%nat.

Definition without_secrets (l : Lease) : Prop := synthetic_password_hash l = None /\ protocol_auth_secret l = None.

Definition device_approved (tr : list NEvent) (i : nat) : Prop := exists e u, e ∈ tr /\ approves px e i u.

Record token_ok (tr : list NEvent) (n : NState) (t : ProxyToken) : Prop := {
  tok_device : exists d, devices n !! token_device t = Some d /\ device_lease d = token_lease t /\
    device_status d <> DevicePending /\ device_status d <> DeviceApproved;
  tok_lease : exists l, leases n !! token_lease t = Some l /\ token_expires_at t = lease_expires_at l;
  tok_approved : device_approved tr (token_device t) }.

(** The client of a connection showed the credentials that the lease has now, through the tunnel of a device
    that had been approved. *)
Definition admitted_by (tr : list NEvent) (j : nat) (c : ProxyConnection) (l : Lease) : Prop :=
  exists e data a t, e ∈ tr /\ n_op e = Connect data /\ length (conns (n_before e)) = j /\
    attempts (n_before e) !! authAttemptId data = Some a /\ attempt_lease a = conn_lease c /\
    tokens (n_before e) !! attempt_token a = Some t /\ token_lease t = conn_lease c /\
    credentials_match px l (syntheticUsername data) (syntheticPassword data) = true /\
    device_approved tr (token_device t).

Record Native (tr : list NEvent) (n : NState) : Prop := {
  nat_leases : forall i l, leases n !! i = Some l -> lease_ok n l;
  nat_dead : forall i l, leases n !! i = Some l -> is_live_lease l = false -> without_secrets l /\ cut_off n i;
  nat_devices : forall i d, devices n !! i = Some d -> device_status d = DeviceApproved -> device_approved tr i;
  nat_tokens : forall k t, tokens n !! k = Some t -> token_ok tr n t;
  nat_distinct : forall k k' t t', tokens n !! k = Some t -> tokens n !! k' = Some t' -> token_device t = token_device t' -> k = k';
  nat_attempts : forall j a, attempts n !! j = Some a ->
    exists t, tokens n !! attempt_token a = Some t /\ token_lease t = attempt_lease a;
  nat_conns : forall j c, conns n !! j = Some c -> is_open c = true ->
    exists l, leases n !! conn_lease c = Some l /\ conn_user c = lease_user l /\ conn_target c = lease_connection l /\
      admitted_by tr j c l }.

Lemma device_approved_later tr e i : device_approved tr i -> device_approved (e :: tr) i.
Proof. intros (e0 & u & He & H). exists e0, u. split; [by right|done]. Qed.

Lemma admitted_by_later tr e j c c' l :
  conn_lease c' = conn_lease c -> admitted_by tr j c l -> admitted_by (e :: tr) j c' l.
Proof.
  intros Hl (e0 & data & a & t & He & Hop & Hj & Ha & Hal & Ht & Htl & Hc & Hd).
  exists e0, data, a, t. rewrite Hl. split_and!; try done; [by right|by apply device_approved_later].
Qed.

Section native_step.
Context (tr : list NEvent) (w : NativeWorld) (o : NOp) (n n' : NState).
Context (HN : Native tr n) (H : effect px w n o n').

Local Notation e := {| n_world := w; n_op := o; n_before := n; n_after := n' |}.

Lemma lease_ok_step i l' : leases n' !! i = Some l' -> lease_ok n' l'.
Proof.
  intros Hl. destruct (effect_leases _ _ _ _ _ _ _ H Hl) as [(l & Hl0 & Hn)|[_ Hnew]].
  - destruct (nat_leases _ _ HN _ _ Hl0) as (q & x & Hr & Ht & Hm & Hu & Hc & He & Hk).
    destruct (request_forth _ _ _ _ _ _ _ H Hr) as (life & y & Hr' & [z ->]).
    destruct (lease_next_same _ _ _ _ _ Hn) as [H1 H2 H3 H4 H5 H6 _].
    exists (set_access_life life q). eexists. rewrite H1, H2, H3, H4, H5, H6. split; [exact Hr'|]. cbn. done.
  - destruct Hnew as (r & q & x & driver & mode & u & p & -> & Hr & Ht & Hm & _).
    destruct (request_forth _ _ _ _ _ _ _ H Hr) as (life & y & Hr' & [z ->]).
    exists (set_access_life life q). eexists. split; [exact Hr'|]. cbn. done.
Qed.

Lemma active_is_live l : lease_status l = LeaseActive -> is_live_lease l = true.
Proof. unfold is_live_lease. by intros ->. Qed.

(** What is cut off stays cut off. *)
Lemma cut_off_step i l :
  leases n !! i = Some l -> is_live_lease l = false -> cut_off n i -> cut_off n' i.
Proof.
  intros Hl Hdead [[Hc Ha] Ht]. split; [split|].
  - intros c' (j & Hj)%list_elem_of_lookup Hi.
    destruct (effect_conn _ _ _ _ _ _ _ H Hj) as [(c & Hc0 & [E1 _ _ E2])|(_ & data & a & l0 & t & q & x & _ & -> & _ & _ & Hl0 & _ & He & _)].
    + destruct (is_open c') eqn:Ho; [|done]. rewrite <- (E2 eq_refl). apply Hc; [by eapply list_elem_of_lookup_2|congruence].
    + cbn in Hi. rewrite Hi in Hl0. assert (l0 = l) as -> by congruence. apply ensureActiveLease_status, active_is_live in He. congruence.
  - intros a' (j & Hj)%list_elem_of_lookup Hi.
    destruct (effect_attempts _ _ _ _ _ _ _ H Hj) as [(a & Ha0 & [->|(st & -> & Hst)])|(_ & l0 & k & t & data & -> & _ & Hl0 & Hs)].
    + apply Ha; [by eapply list_elem_of_lookup_2|done].
    + done.
    + cbn in Hi. rewrite Hi in Hl0. assert (l0 = l) as -> by congruence. apply active_is_live in Hs. congruence.
  - intros t' (k & Hk)%list_elem_of_lookup Hi.
    destruct (effect_tokens _ _ _ _ _ _ _ H Hk) as [(t & Ht0 & [->| ->])|(_ & j & d & l0 & token & -> & _ & _ & Hl0 & Hs & _)].
    + apply Ht; [by eapply list_elem_of_lookup_2|done].
    + done.
    + cbn in Hi. rewrite Hi in Hl0. assert (l0 = l) as -> by congruence. apply active_is_live in Hs. congruence.
Qed.

Lemma dead_step i l' : leases n' !! i = Some l' -> is_live_lease l' = false -> without_secrets l' /\ cut_off n' i.
Proof.
  intros Hl Hdead. destruct (effect_leases _ _ _ _ _ _ _ H Hl) as [(l & Hl0 & Hn)|[_ Hnew]].
  - destruct Hn as [->|[(p & -> & Hs & _)|(st & -> & _ & _ & Hcut)]].
    + destruct (nat_dead _ _ HN _ _ Hl0 Hdead) as [Hsec Hcut]. split; [done|]. by eapply cut_off_step.
    + unfold is_live_lease in Hdead. cbn in Hdead. by rewrite Hs in Hdead.
    + done.
  - by destruct Hnew as (r & q & x & driver & mode & u & p & -> & _).
Qed.

Lemma devices_step i d' : devices n' !! i = Some d' -> device_status d' = DeviceApproved -> device_approved (e :: tr) i.
Proof.
  intros Hd Hs. destruct (effect_devices _ _ _ _ _ _ _ H Hd) as [(d & Hd0 & Hn)|[_ Hp]]; [|congruence].
  destruct Hn as [[_ _ [Heq|[Heq|[_ Heq]]]]|[(_ & _ & _ & u & Ha)|(_ & _ & Hc)]]; try congruence.
  - apply device_approved_later, (nat_devices _ _ HN _ _ Hd0). congruence.
  - exists e, u. split; [left|done].
Qed.

Lemma tokens_step k t' : tokens n' !! k = Some t' -> token_ok (e :: tr) n' t'.
Proof.
  intros Ht. destruct (effect_tokens _ _ _ _ _ _ _ H Ht) as [(t & Ht0 & Hn)|(_ & i & d & l & token & -> & Hd & Hs & Hl & Hls & d' & Hd' & Hdl & Hds)].
  - assert (Hsame : token_lease t' = token_lease t /\ token_device t' = token_device t /\ token_expires_at t' = token_expires_at t)
      by (by destruct Hn as [->| ->]).
    destruct Hsame as (E1 & E2 & E3). destruct (nat_tokens _ _ HN _ _ Ht0) as [(d & Hd & Hdl & Hd1 & Hd2) (l & Hl & Hle) Happ].
    split.
    + destruct (device_forth _ _ _ _ _ _ _ H Hd) as (d' & Hd' & Hdn). exists d'. rewrite E2, E1. split; [done|].
      destruct Hdn as [[-> _ Hp]|[(_ & _ & Hp & _)|(-> & _ & Hp)]]; [|congruence|by rewrite Hp].
      split; [done|]. destruct Hp as [->|[->|[Hp _]]]; [done|done|congruence].
    + destruct (lease_forth _ _ _ _ _ _ _ H Hl) as (l' & Hl' & Hln). exists l'. rewrite E1, E3. split; [done|].
      by rewrite (ls_expiry _ _ (lease_next_same _ _ _ _ _ Hln)).
    + rewrite E2. by apply device_approved_later.
  - split; cbn.
    + exists d'. rewrite Hds. done.
    + destruct (lease_forth _ _ _ _ _ _ _ H Hl) as (l' & Hl' & Hln). exists l'. split; [done|].
      by rewrite (ls_expiry _ _ (lease_next_same _ _ _ _ _ Hln)).
    + by apply device_approved_later, (nat_devices _ _ HN _ _ Hd).
Qed.

Lemma distinct_step k k' t t' :
  tokens n' !! k = Some t -> tokens n' !! k' = Some t' -> token_device t = token_device t' -> k = k'.
Proof.
  assert (Hold : forall k t i d l token, tokens n !! k = Some t -> token_device t = token_device (new_token px i d l token) ->
    devices n !! i = Some d -> device_status d = DeviceApproved -> False).
  { intros k0 t0 i d l token Ht Heq Hd Hs. destruct (tok_device _ _ _ (nat_tokens _ _ HN _ _ Ht)) as (d0 & Hd0 & _ & _ & Hno).
    cbn in Heq. congruence. }
  assert (Hdev : forall t t', token_next t t' -> token_device t' = token_device t) by (by intros ? ? [->| ->]).
  intros Ht Ht' Heq.
  destruct (effect_tokens _ _ _ _ _ _ _ H Ht) as [(t0 & Ht0 & Hn)|(-> & i & d & l & token & -> & Hd & Hs & _)];
    destruct (effect_tokens _ _ _ _ _ _ _ H Ht') as [(t0' & Ht0' & Hn')|(-> & i' & d' & l' & token' & -> & Hd' & Hs' & _)]; [| | |done].
  - eapply (nat_distinct _ _ HN); [done..|]. rewrite <- (Hdev _ _ Hn), <- (Hdev _ _ Hn'). done.
  - rewrite (Hdev _ _ Hn) in Heq. by destruct (Hold _ _ _ _ _ _ Ht0 Heq Hd' Hs').
  - rewrite (Hdev _ _ Hn') in Heq. by destruct (Hold _ _ _ _ _ _ Ht0' (eq_sym Heq) Hd Hs).
Qed.

Lemma attempts_step j a' : attempts n' !! j = Some a' ->
  exists t, tokens n' !! attempt_token a' = Some t /\ token_lease t = attempt_lease a'.
Proof.
  assert (Hfwd : forall k t, tokens n !! k = Some t -> exists t', tokens n' !! k = Some t' /\ token_lease t' = token_lease t).
  { intros k t Ht. destruct (token_forth _ _ _ _ _ _ _ H Ht) as (t' & Ht' & Hn). exists t'. split; [done|]. by destruct Hn as [->| ->]. }
  intros Ha. destruct (effect_attempts _ _ _ _ _ _ _ H Ha) as [(a & Ha0 & Hst)|(_ & l & k & t & data & -> & Ht & _)].
  - destruct (nat_attempts _ _ HN _ _ Ha0) as (t & Ht & Hl). destruct (Hfwd _ _ Ht) as (t' & Ht' & Hl').
    exists t'. by destruct Hst as [->|(st & -> & _)]; cbn; split; congruence.
  - destruct (Hfwd _ _ Ht) as (t' & Ht' & Hl'). by exists t'.
Qed.

(** As long as a connection of it is open, a lease does not change. *)
Lemma lease_kept i l c' :
  leases n !! i = Some l -> c' ∈ conns n' -> conn_lease c' = i -> is_open c' = true -> leases n' !! i = Some l.
Proof.
  intros Hl Hc Hi Ho. destruct (lease_forth _ _ _ _ _ _ _ H Hl) as (l' & Hl' & Hn).
  destruct Hn as [->|[(p & _ & _ & [Hclosed _])|(st & _ & _ & _ & [[Hclosed _] _])]]; [done|..]; by rewrite (Hclosed _ Hc Hi) in Ho.
Qed.

Lemma conns_step j c' : conns n' !! j = Some c' -> is_open c' = true ->
  exists l, leases n' !! conn_lease c' = Some l /\ conn_user c' = lease_user l /\ conn_target c' = lease_connection l /\
    admitted_by (e :: tr) j c' l.
Proof.
  intros Hc Ho. assert (Hin : c' ∈ conns n') by (by eapply list_elem_of_lookup_2).
  destruct (effect_conn _ _ _ _ _ _ _ H Hc) as [(c & Hc0 & [E1 E2 E3 E4])|(Hj & data & a & l & t & q & x & Hop & Heq & Ha & _ & Hl & Ht & _ & Hcred & _ & Hr)].
  - destruct (nat_conns _ _ HN _ _ Hc0 (E4 Ho)) as (l & Hl & Hu & Htg & Hadm). rewrite <- E1 in Hl. exists l.
    split_and!; [by eapply lease_kept|congruence|congruence|]. by eapply admitted_by_later.
  - exists l. pose proof (nat_leases _ _ HN _ _ Hl) as (q' & x' & Hr' & _ & _ & Hu & Hcn & _).
    assert (x' = x) as -> by congruence. subst c'. split_and!; [by eapply lease_kept|cbn; congruence|cbn; congruence|].
    destruct (nat_attempts _ _ HN _ _ Ha) as (t' & Ht' & Htl). assert (t' = t) as -> by congruence.
    exists e, data, a, t. split_and!; [left|done..|].
    by apply device_approved_later, (tok_approved _ _ _ (nat_tokens _ _ HN _ _ Ht)).
Qed.

Lemma native_step : Native (e :: tr) n'.
Proof.
  split; eauto using lease_ok_step, dead_step, devices_step, tokens_step, distinct_step, attempts_step, conns_step.
Qed.
End native_step.

Lemma reachable_native t tr n : nreachable px t tr n -> Native tr n.
Proof.
  induction 1 as [w|t tr n w o n' _ IH _ H]; [by split|]. apply native_step; [done|]. by apply nperform_effect.
Qed.
End native.

(** ** The limits *)

Lemma countb_le {A} (R : A -> A -> Prop) (p p' : A -> bool) l k :
  Forall2 R l k -> (forall x y, R x y -> p' y = true -> p x = true) -> (countb p' k <= countb p l)%nat.
Proof.
  intros H Hp. induction H as [|x y l k Hxy _ IH]; [done|]. rewrite !countb_cons. specialize (Hp x y Hxy).
  destruct (p' y), (p x); lia.
Qed.

Lemma countb_le_same {A} (p p' : A -> bool) l :
  (forall x, p' x = true -> p x = true) -> (countb p' l <= countb p l)%nat.
Proof. intros Hp. apply (countb_le eq p p' l l); [by apply Forall2_id|]. intros x y ->. apply Hp. Qed.

Definition of_lease (i : nat) (c : ProxyConnection) : bool := (conn_lease c =? i)%nat && is_open c.
Definition of_user (u : Z) (c : ProxyConnection) : bool := (conn_user c =? u) && is_open c.
Definition live_of (w : NativeWorld) (i : nat) (t : ProxyToken) : bool := (token_lease t =? i)%nat && is_live_token w t.

(** The limits hold, and those that depend on the time from [t] on. *)
Record Limits (px : ProxyConfig) (t : Z) (n : NState) : Prop := {
  lim_lease : forall i, (countb (of_lease i) (conns n) <= 3)%nat;
  lim_user : forall u, (countb (of_user u) (conns n) <= max_connections_per_user px)%nat;
  lim_all : (countb is_open (conns n) <= max_connections px)%nat;
  lim_tokens : forall w i, t <= clock w -> (countb (live_of w i) (tokens n) <= MaximumActiveDeviceTokens)%nat;
  lim_codes : forall w i, t <= clock w ->
    (countb (awaiting w i) (devices n) <= max_pending_device_authorizations_per_lease px)%nat }.

Section limits_step.
Context (px : ProxyConfig) (t : Z) (tr : list NEvent) (w : NativeWorld) (o : NOp) (n n' : NState).
Context (HN : Native px tr n) (HL : Limits px t n) (Ht : t <= clock w) (H : effect px w n o n').

Lemma conns_limited :
  (forall i, (countb (of_lease i) (conns n') <= 3)%nat) /\
  (forall u, (countb (of_user u) (conns n') <= max_connections_per_user px)%nat) /\
  (countb is_open (conns n') <= max_connections px)%nat.
Proof.
  destruct HL as [L1 L2 L3 _ _].
  assert (Hev : forall cs, Forall2 conn_evolves (conns n) cs ->
    (forall i, (countb (of_lease i) cs <= 3)%nat) /\ (forall u, (countb (of_user u) cs <= max_connections_per_user px)%nat) /\
    (countb is_open cs <= max_connections px)%nat).
  { intros cs Hcs. split_and!; [intros i; specialize (L1 i)|intros u; specialize (L2 u)|].
    - pose proof (countb_le _ (of_lease i) (of_lease i) _ _ Hcs). unfold of_lease in *. lapply H0; [lia|].
      intros c c' [E _ _ Ho] Hc. bool_hyps. rewrite <- E. apply Nat.eqb_eq in H1. rewrite H1, Nat.eqb_refl. auto.
    - pose proof (countb_le _ (of_user u) (of_user u) _ _ Hcs). unfold of_user in *. lapply H0; [lia|].
      intros c c' [_ E _ Ho] Hc. bool_hyps. rewrite <- E. apply Z.eqb_eq in H1. rewrite H1, Z.eqb_refl. auto.
    - pose proof (countb_le _ is_open is_open _ _ Hcs). lapply H0; [lia|]. intros c c' [_ _ _ Ho]. auto. }
  apply effect_conns in H as [Hcs|(c & -> & data & a & l & tk & q & x & _ & -> & _ & _ & Hl & _ & _ & _ & Hroom & Hr)]; [auto|].
  destruct (nat_leases _ _ _ HN _ _ Hl) as (q' & x' & Hr' & _ & _ & Hu & _ & _ & H3). assert (x' = x) as -> by congruence.
  pose proof (Hev _ (failed_evolve w n)) as (F1 & F2 & F3). unfold has_room in Hroom. bool_hyps.
  repeat match goal with Hb : (_ <? _)%nat = true |- _ => apply Nat.ltb_lt in Hb end. rewrite H3, Hu in *.
  split_and!; [intros i; specialize (F1 i)|intros u; specialize (F2 u)|]; rewrite countb_app, countb_cons, countb_nil; [| |].
  - unfold of_lease at 2. cbn [conn_lease new_connection]. destruct (Nat.eqb_spec (attempt_lease a) i) as [<-|_]; cbn [andb];
      [|lia]. unfold of_lease. lazymatch goal with |- context [if ?b then _ else _] => destruct b end; lia.
  - unfold of_user at 2. cbn [conn_user new_connection]. destruct (Z.eqb_spec (session_user x) u) as [<-|_]; cbn [andb];
      [|lia]. unfold of_user. lazymatch goal with |- context [if ?b then _ else _] => destruct b end; lia.
  - lazymatch goal with |- context [if ?b then _ else _] => destruct b end; lia.
Qed.

Lemma tokens_limited w' i : clock w <= clock w' -> (countb (live_of w' i) (tokens n') <= MaximumActiveDeviceTokens)%nat.
Proof.
  intros Hw. pose proof (lim_tokens _ _ _ HL w' i ltac:(lia)) as Hold. destruct H; cbn; try done.
  - by rewrite H2.
  - rewrite H2. cbn. etrans; [|exact Hold]. apply (countb_le token_next).
    + apply Forall2_mapped. intros tk. unfold token_next. destruct (of_leases _ _); auto.
    + intros a b [->| ->]; [done|]. unfold live_of, is_live_token. cbn. by rewrite andb_false_r.
  - rewrite countb_app, countb_cons, countb_nil. unfold live_of at 2. cbn [token_lease new_token].
    destruct (Nat.eqb_spec (device_lease d) i) as [<-|_]; cbn [andb]; [|lia].
    assert (Hle : (countb (live_of w' (device_lease d)) (tokens n) <= countb (live_of w (device_lease d)) (tokens n))%nat).
    { apply countb_le_same. unfold live_of, is_live_token. intros tk.
      rewrite !andb_true_iff, !Z.ltb_lt. intuition lia. }
    unfold live_of in *. destruct (is_live_token _ _); lia.
Qed.

Lemma awaiting_evolves w' i d d' : device_evolves d d' -> awaiting w' i d' = true -> awaiting w' i d = true.
Proof.
  intros [E1 E2 Hp]. unfold awaiting. rewrite !andb_true_iff, !bool_decide_eq_true, E1, E2.
  destruct Hp as [->|[Hp|[_ Hp]]]; intuition congruence.
Qed.

Lemma codes_limited w' i : clock w <= clock w' ->
  (countb (awaiting w' i) (devices n') <= max_pending_device_authorizations_per_lease px)%nat.
Proof.
  intros Hw. pose proof (lim_codes _ _ _ HL w' i ltac:(lia)) as Hold.
  assert (Hgone : forall j f, (forall d, awaiting w' i (f d) = true -> awaiting w' i d = true) ->
    (countb (awaiting w' i) (alter f j (devices n)) <= countb (awaiting w' i) (devices n))%nat).
  { intros j f Hf. apply (countb_le (fun d d' => d' = d \/ d' = f d)); [|intros d d' [->| ->]; auto].
    apply Forall2_alter; auto. }
  destruct H; cbn; try done.
  - etrans; [|exact Hold]. apply (countb_le device_evolves); [done|]. intros d d'. apply awaiting_evolves.
  - by rewrite H5.
  - rewrite countb_app, countb_cons, countb_nil. unfold awaiting at 2. cbn [device_lease new_device].
    destruct (Nat.eqb_spec i0 i) as [<-|_]; cbn [andb]; [|lia].
    assert (Hle : (countb (awaiting w' i0) (devices n) <= countb (awaiting w i0) (devices n))%nat).
    { apply countb_le_same. unfold awaiting. intros d.
      rewrite !andb_true_iff, !Z.ltb_lt. intuition lia. }
    lazymatch goal with |- context [if ?b then _ else _] => destruct b end; lia.
  - etrans; [apply Hgone|done]. unfold awaiting. intros d. cbn. by rewrite andb_false_r.
  - rewrite list_alter_alter_eq. etrans; [apply Hgone|done]. unfold awaiting. intros d'. cbn. by rewrite andb_false_r.
Qed.

Lemma limits_step : Limits px (clock w) n'.
Proof. destruct conns_limited as (H1 & H2 & H3). split; auto using tokens_limited, codes_limited. Qed.
End limits_step.

Lemma reachable_limits px t tr n : nreachable px t tr n -> Limits px t n.
Proof.
  induction 1 as [w|t tr n w o n' Hn IH Ht H]; [split; cbn; intros; rewrite ?countb_nil; lia|].
  eapply limits_step; [by eapply reachable_native|done..|]. by apply nperform_effect.
Qed.

(** ** The theorems *)

Lemma lease_allows_spec w n c :
  lease_allows w n c = true ->
  exists l q x, leases n !! conn_lease c = Some l /\ request_of n (lease_request l) = Some (q, x) /\
    lease_status l = LeaseActive /\ clock w < lease_expires_at l /\ native_session w q x = true /\
    user_disabled (account w (session_user x)) = false /\
    may_connect w (account w (session_user x)) (session_connection x) (native_type (lease_access_mode l)) = true.
Proof.
  unfold lease_allows. destruct (leases n !! conn_lease c) as [l|] eqn:Hl; [|done]. destruct (find_first _ _) as [t|]; [|done].
  unfold ensureActiveLease. rewrite !andb_true_iff, !bool_decide_eq_true, !Z.ltb_lt. intros [[[[[[[[[_ _] H1] _] H2] _] _] _] _] Hr].
  destruct (request_of _ _) as [[q x]|] eqn:Hq; [|done]. apply andb_true_iff in Hr as [[H3 H4%negb_true_iff]%andb_true_iff H5].
  exists l, q, x. done.
Qed.

Lemma authorized_spec px w i inst sql n n' :
  nperform px w (Execute i inst sql) n = Accepted n' ->
  exists c l, conns n !! i = Some c /\ proxy_instance_id c = inst /\ conn_status c = ConnActive /\
    lease_allows w n c = true /\ leases n !! conn_lease c = Some l /\ allowed (decision_of w l c sql) = true.
Proof.
  cbn. intros H. apply owned_Accepted in H as (c & Hc & Hi & H). unfold authorizeExecution in H.
  destruct (heartbeat w i c n) as [[] n1] eqn:Hh; [|done]. apply heartbeat_goes_on in Hh as (Hs & Ha & _). cbn [negb] in H.
  destruct (leases n !! conn_lease c) as [l|] eqn:Hl; [|done]. destruct (allowed (decision_of w l c sql)) eqn:Hd; [|done].
  exists c, l. done.
Qed.

(** C3. Each statement of a native client is governed, after every history: it comes over an active connection
    of the proxy that holds it; the lease is active and not over, and so is its session, which was begun in
    accordance with the policy and with the approval that it asked for; the client showed the credentials that
    the lease has now, through a device that the owner of the lease or an administrator had approved; the
    owner is not disabled and the roles that they have now, as well as the approved mode, allow the
    connection; and the text is one that the statement policy admits for that mode. *)
Theorem native_statements_governed px t tr n w i inst sql n' :
  nreachable px t tr n -> t <= clock w -> nperform px w (Execute i inst sql) n = Accepted n' ->
  exists c l q x,
    conns n !! i = Some c /\ proxy_instance_id c = inst /\ conn_status c = ConnActive /\
    leases n !! conn_lease c = Some l /\ lease_status l = LeaseActive /\ clock w < lease_expires_at l /\
    request_of n (lease_request l) = Some (q, x) /\ conn_target c = session_connection x /\
    isActive (workspace w) x = true /\ access_transport q = NativeProxy /\
    begun (own_history (lease_request l) tr) q x /\ admitted_by px tr i c l /\
    user_disabled (account w (session_user x)) = false /\ requested_access_mode q = Some (lease_access_mode l) /\
    may_connect w (account w (session_user x)) (conn_target c) (native_type (lease_access_mode l)) = true /\
    allowed (decision_of w l c sql) = true.
Proof.
  intros Hn Ht H. pose proof (reachable_native _ _ _ _ Hn) as HN.
  apply authorized_spec in H as (c & l & Hc & Hi & Hs & Ha & Hl & Hd).
  apply lease_allows_spec in Ha as (l' & q & x & Hl' & Hr & Hact & Hexp & Hns & Hdis & Hmay).
  assert (l' = l) as -> by congruence.
  destruct (nat_conns _ _ _ HN _ _ Hc) as (l' & Hl'' & Hu & Htg & Hadm); [unfold is_open; by rewrite Hs|].
  assert (l' = l) as -> by congruence.
  destruct (nat_leases _ _ _ HN _ _ Hl) as (q' & x' & Hr' & Htr & Hm & _ & Hcn & _).
  assert (q' = q /\ x' = x) as [-> ->] by (split; congruence). unfold native_session in Hns.
  apply andb_true_iff in Hns as [Hns _]. exists c, l, q, x. rewrite Htg, Hcn. split_and!; try done.
  unfold request_of in Hr. destruct (requests n !! lease_request l) as [s|] eqn:Hrs; [|done]. cbn in Hr.
  destruct (session s) as [x0|] eqn:Hx; [|done]. cbn in Hr. injection Hr as <- <-.
  destruct (request_reachable _ _ _ _ _ _ Hn Hrs) as (t' & _ & Hreach). apply reachable_governed in Hreach.
  exact (gov_session _ _ Hreach _ Hx).
Qed.

(** How a lease comes to be revoked, or to expire. *)
Definition revokes (e : NEvent) (i : nat) : Prop :=
  is_Some (leases (n_before e) !! i) /\
  ((exists p ids, n_op e = RevokeCollected p /\ revocations (n_before e) !! p = Some ids /\ i ∈ ids) \/
   (exists actor, n_op e = RevokeLease actor i) \/
   (exists l, n_op e = ExpireLease i /\ leases (n_before e) !! i = Some l /\ lease_expires_at l <= clock (n_world e))).

Definition dead (n : NState) (i : nat) : Prop := exists l, leases n !! i = Some l /\ is_live_lease l = false.

Lemma ended_is_dead st l : st = LeaseRevoked \/ st = LeaseExpired -> is_live_lease (end_lease st l) = false.
Proof. by intros [-> | ->]. Qed.

Lemma dead_forth px w n o n' i : effect px w n o n' -> dead n i -> dead n' i.
Proof.
  intros H (l & Hl & Hd). destruct (lease_forth _ _ _ _ _ _ _ H Hl) as (l' & Hl' & Hn). exists l'. split; [done|].
  destruct Hn as [->|[(p & _ & Ha%active_is_live & _)|(st & _ & Hlive & _)]]; congruence.
Qed.

Lemma alter_dead st i n l :
  st = LeaseRevoked \/ st = LeaseExpired -> leases n !! i = Some l -> dead (change_lease i (end_lease st) n) i.
Proof.
  intros Hst Hl. exists (end_lease st l). split; [|by apply ended_is_dead]. cbn. by rewrite list_lookup_alter_eq, Hl.
Qed.

Lemma revoked_is_dead px e i :
  nperform px (n_world e) (n_op e) (n_before e) = Accepted (n_after e) -> revokes e i -> dead (n_after e) i.
Proof.
  intros H ((l & Hl) & [(p & ids & Ho & Hp & Hi)|[(actor & Ho)|(l' & Ho & Hl' & Hexp)]]); rewrite Ho in H; cbn in H.
  - rewrite Hp in H. injection H as <-. unfold dead. cbn. rewrite list_lookup_imap, Hl. cbn.
    apply of_leases_true in Hi. rewrite Hi. cbn. eexists. split; [done|].
    destruct (is_live_lease l) eqn:E; [apply ended_is_dead; by left|done].
  - apply with_lease_Accepted in H as (l' & Hl' & H). assert (l' = l) as -> by congruence. destruct (bool_decide _) eqn:E.
    + injection H as <-. exists l. split; [done|]. by rewrite live_lease_cases, E.
    + injection H as <-. apply (alter_dead _ _ _ l); [by left|done].
  - injection H as <-. unfold expireLease. rewrite Hl'. destruct (is_live_lease l') eqn:E; cbn [andb]; [|by exists l'].
    rewrite (proj2 (Z.leb_le _ _) Hexp). apply (alter_dead _ _ _ l'); [by right|done].
Qed.

Lemma revoked_stays_dead px t tr n e i : nreachable px t tr n -> e ∈ tr -> revokes e i -> dead n i.
Proof.
  induction 1 as [w|t tr n w o n' _ IH _ H]; intros He Hr; [by apply elem_of_nil in He|].
  apply elem_of_cons in He as [->|He]; [exact (revoked_is_dead px {| n_world := w; n_op := o; n_before := n; n_after := n' |} i H Hr)|].
  eapply dead_forth; [by apply nperform_effect|auto].
Qed.

(** C4. Revocation is final. Once a lease has been revoked -- by its owner, or because its session, its user
    or its policy changed -- or has expired, then whatever happens afterwards its secrets are gone, all of its
    tokens are revoked, none of its connections is open, nobody is about to be admitted with it, nothing
    changes it any more, and no statement runs over it. *)
Theorem revocation_is_final px t tr n e i :
  nreachable px t tr n -> e ∈ tr -> revokes e i ->
  exists l, leases n !! i = Some l /\ is_live_lease l = false /\ without_secrets l /\ cut_off n i /\
    forall w o n', nperform px w o n = Accepted n' ->
      leases n' !! i = Some l /\ cut_off n' i /\
      forall j c inst sql, o = Execute j inst sql -> conns n !! j = Some c -> conn_lease c <> i.
Proof.
  intros Hn He Hr. destruct (revoked_stays_dead _ _ _ _ _ _ Hn He Hr) as (l & Hl & Hd).
  pose proof (reachable_native _ _ _ _ Hn) as HN. destruct (nat_dead _ _ _ HN _ _ Hl Hd) as [Hsec Hcut].
  exists l. split_and!; try done. intros w o n' H. pose proof (nperform_effect _ _ _ _ _ H) as Heff. split_and!.
  - destruct (lease_forth _ _ _ _ _ _ _ Heff Hl) as (l' & Hl' & [->|[(p & _ & Ha%active_is_live & _)|(st & _ & Hlive & _)]]);
      [done|congruence..].
  - by eapply cut_off_step.
  - intros j c inst sql -> Hc Hi. apply authorized_spec in H as (c' & l' & Hc' & _ & Hs & _).
    assert (c' = c) as -> by congruence. destruct Hcut as [[Hclosed _] _].
    assert (Ho : is_open c = false) by (apply Hclosed; [by eapply list_elem_of_lookup_2|done]).
    unfold is_open in Ho. by rewrite Hs in Ho.
Qed.

(** C12. The access of native clients is bounded after every history, and at every later time: a lease has at
    most three open connections and three live tokens, and at most so many codes await approval as the
    configuration says; a user and the proxy have no more open connections than it allows; and each token was
    issued to a device of its own, which the owner of the lease or an administrator had approved. *)
Theorem native_access_bounded px t tr n :
  nreachable px t tr n ->
  (forall i, (countb (of_lease i) (conns n) <= 3)%nat) /\
  (forall u, (countb (of_user u) (conns n) <= max_connections_per_user px)%nat) /\
  (countb is_open (conns n) <= max_connections px)%nat /\
  (forall w i, t <= clock w -> (countb (live_of w i) (tokens n) <= MaximumActiveDeviceTokens)%nat /\
    (countb (awaiting w i) (devices n) <= max_pending_device_authorizations_per_lease px)%nat) /\
  NoDup (map token_device (tokens n)) /\
  forall a, a ∈ tokens n -> device_approved px tr (token_device a).
Proof.
  intros Hn. pose proof (reachable_limits _ _ _ _ Hn) as [H1 H2 H3 H4 H5].
  pose proof (reachable_native _ _ _ _ Hn) as HN. split_and!; auto.
  - apply NoDup_alt. intros k k' d Hk Hk'. rewrite map_lookup in Hk, Hk'. apply fmap_Some in Hk as (a & Ha & ->).
    apply fmap_Some in Hk' as (b & Hb & Hab). exact (nat_distinct _ _ _ HN _ _ _ _ Ha Hb Hab).
  - intros a (k & Ha)%list_elem_of_lookup. exact (tok_approved _ _ _ _ (nat_tokens _ _ _ HN _ _ Ha)).
Qed.

(** ** Examples *)

Fixpoint in_time (t : Z) (ops : list (Z * NOp)) : bool :=
  match ops with [] => true | (t', _) :: ops' => (t <=? t') && in_time t' ops' end.

(** The events of an example, the latest first. *)
Fixpoint events (px : ProxyConfig) (ops : list (Z * NOp)) (n : NState) (tr : list NEvent) : list NEvent :=
  match ops with
  | [] => tr
  | (t, o) :: ops' =>
      match nperform px (sample_native t) o n with
      | Accepted n' =>
          events px ops' n' ({| n_world := sample_native t; n_op := o; n_before := n; n_after := n' |} :: tr)
      | Refused _ => tr
      end
  end.

Definition last_time (ops : list (Z * NOp)) (t : Z) : Z := List.fold_left (fun _ o => fst o) ops t.

Lemma nreaches px ops t tr n n' :
  nreachable px t tr n -> in_time t ops = true ->
  nperform_all px (map (fun o => (sample_native (fst o), snd o)) ops) n = Accepted n' ->
  nreachable px (last_time ops t) (events px ops n tr) n'.
Proof.
  revert t tr n. induction ops as [|[t1 o] ops IH]; intros t tr n Hr Ht H; cbn in Ht, H |- *.
  - by injection H as <-.
  - apply andb_true_iff in Ht as [Ht1%Z.leb_le Ht]. apply bind_Accepted in H as (n1 & H1 & H). rewrite H1.
    exact (IH t1 _ _ (then_ px t tr n (sample_native t1) o n1 Hr Ht1 H1) Ht H).
Qed.

(** What an example leads to. *)
Definition sample_result (ops : list (Z * NOp)) : NState :=
  match sample_native_run ops with Accepted n => n | Refused _ => no_rows end.

Definition accepts {A} (c : checked A) : bool := match c with Accepted _ => true | Refused _ => false end.

Lemma sample_run_result ops :
  accepts (sample_native_run ops) = true ->
  nperform_all sample_proxy (map (fun o => (sample_native (fst o), snd o)) ops) no_rows = Accepted (sample_result ops).
Proof. unfold sample_result, sample_native_run. by destruct (nperform_all _ _ _). Qed.

Lemma sample_nreachable ops :
  in_time 0 ops && accepts (sample_native_run ops) = true ->
  nreachable sample_proxy (last_time ops 0) (events sample_proxy ops no_rows []) (sample_result ops).
Proof.
  intros [Ht Ha%sample_run_result]%andb_true_iff.
  eapply nreaches; [exact (nothing_yet sample_proxy (sample_native 0))|done|done].
Qed.

Definition sample_last (ops : list (Z * NOp)) : list NEvent := events sample_proxy ops no_rows [].

Lemma native_statements_governed_witness :
  nreachable sample_proxy 40 (sample_last first_device) (sample_result first_device) /\
  exists n' c l q x, nperform sample_proxy (sample_native 50) (Execute 0 "proxy" "select 1") (sample_result first_device) = Accepted n' /\
    conns (sample_result first_device) !! 0%nat = Some c /\ leases (sample_result first_device) !! conn_lease c = Some l /\
    request_of (sample_result first_device) (lease_request l) = Some (q, x) /\
    begun (own_history (lease_request l) (sample_last first_device)) q x.
Proof.
  assert (Hn := sample_nreachable first_device ltac:(vm_compute; reflexivity)). split; [exact Hn|].
  destruct (nperform sample_proxy (sample_native 50) (Execute 0 "proxy" "select 1") (sample_result first_device)) as [n'|] eqn:E;
    [|vm_compute in E; discriminate].
  destruct (native_statements_governed sample_proxy _ _ _ (sample_native 50) 0 "proxy" "select 1" n' Hn
    ltac:(vm_compute; discriminate) E) as (c & l & q & x & Hc & _ & _ & Hl & _ & _ & Hr & _ & _ & _ & Hb & _).
  exists n', c, l, q, x. auto.
Defined.

Lemma events_snoc px ops n tr n0 n1 t o :
  nperform_all px (map (fun o => (sample_native (fst o), snd o)) ops) n = Accepted n0 ->
  nperform px (sample_native t) o n0 = Accepted n1 ->
  {| n_world := sample_native t; n_op := o; n_before := n0; n_after := n1 |} ∈ events px (ops ++ [(t, o)]) n tr.
Proof.
  revert n tr. induction ops as [|[t1 o1] ops IH]; intros n tr H H1; cbn in H |- *.
  - injection H as <-. rewrite H1. left.
  - apply bind_Accepted in H as (n2 & H2 & H). rewrite H2. by apply IH.
Qed.

Definition cancelled_ops : list (Z * NOp) := first_device ++ [(50, Within 0 (CancelRequest 5)); (50, Collect (OfRequest 0))].
Definition revoked_ops : list (Z * NOp) := cancelled_ops ++ [(51, RevokeCollected 0)].

Lemma revocation_is_final_witness :
  exists l, leases (sample_result revoked_ops) !! 0%nat = Some l /\ without_secrets l /\ cut_off (sample_result revoked_ops) 0.
Proof.
  unfold revoked_ops.
  assert (Hn := sample_nreachable (cancelled_ops ++ [(51, RevokeCollected 0)]) ltac:(vm_compute; reflexivity)).
  unfold sample_last in Hn. assert (E := sample_run_result cancelled_ops ltac:(vm_compute; reflexivity)).
  assert (Hl : leases (sample_result cancelled_ops) !! 0%nat <> None) by (vm_compute; discriminate).
  assert (Hr : revocations (sample_result cancelled_ops) !! 0%nat = Some [0%nat]) by (vm_compute; reflexivity).
  set (n := sample_result cancelled_ops) in *. clearbody n.
  assert (H1 : nperform sample_proxy (sample_native 51) (RevokeCollected 0) n =
    Accepted (set_revocations (remove_at 0 (revocations n)) (revokeMatchingLeases [0%nat] n)))
    by (cbn [nperform]; rewrite Hr; reflexivity).
  destruct (revocation_is_final sample_proxy _ _ _ _ 0 Hn (events_snoc _ _ _ [] _ _ 51 (RevokeCollected 0) E H1))
    as (l & Hl' & _ & Hs & Hc & _).
  - split; [apply not_eq_None_Some; exact Hl|]. left. exists 0%nat, [0%nat]. split_and!; [reflexivity|exact Hr|left].
  - exists l. auto.
Defined.

Lemma native_access_bounded_witness :
  nreachable sample_proxy 40 (sample_last first_device) (sample_result first_device) /\
  countb is_open (conns (sample_result first_device)) = 1%nat /\
  (countb (of_lease 0) (conns (sample_result first_device)) <= 3)%nat.
Proof.
  assert (Hn := sample_nreachable first_device ltac:(vm_compute; reflexivity)). split; [exact Hn|]. split; [reflexivity|].
  destruct (native_access_bounded sample_proxy _ _ _ Hn) as [H _]. exact (H 0%nat).
Defined.

(** A device that polls once more after its code has expired, though it has its token, is taken back to an
    expired one; and since a connection is checked with the first live token of its lease, all connections of
    the lease are then closed at the next heartbeat, those of other devices too. *)
Definition two_devices : list (Z * NOp) :=
  first_device ++ connected_ops 1 45 "code 2" "BBBB-3333" "token 2" "c 2".

Lemma late_poll_locks_out :
  native_statuses (two_devices ++ [(345, Heartbeat 0 "proxy"); (345, Heartbeat 1 "proxy")]) =
    Accepted ([LeaseActive], [ConnActive; ConnActive], 0%nat) /\
  native_statuses (two_devices ++ [(345, Poll "code 1" "token 3"); (345, Heartbeat 0 "proxy"); (345, Heartbeat 1 "proxy")]) =
    Accepted ([LeaseActive], [ConnClosed; ConnClosed], 0%nat).
Proof. split; vm_compute; reflexivity. Qed.
