(* ===== verification/ControlRequests.v ===== *)
(** * The requests of the proxy

    [app/Http/Middleware/VerifyNativeProxyControlRequest.php] with
    [Services/NativeProxy/NativeProxyControlResponseCipher.php]: what stands between the proxy and the
    operations of [Leases].  A request is signed and fresh; one that changes something is handled once, and a
    repetition gets the answer of the first.

    Requests are handled at the same time and share the cache.  A step of a request is one operation on the
    cache, with what it does on its own until the next.  A record of the cache is there until the second in
    which it expires.  The digests, the cipher, JSON and base64 are parameters, and so is the handler. *)

From Stdlib Require Import String.
From stdpp Require Import gmap.
From S2P Require Import Prelude Lists JsString PhpString QueryGuard.

Open Scope string_scope.
Open Scope Z_scope.
Open Scope list_scope.

(** ** Data *)

(** The fields of an envelope that are strings, and its version if that is an integer. *)
Record Envelope := {
  envelope_version : option Z;
  envelope_nonce : option string;
  envelope_ciphertext : option string;
  envelope_tag : option string;
}.

(** What the middleware uses of the language and its extensions: [hash_hmac] of a text and a key, as
    hexadecimal digits and raw; [openssl_decrypt] of key, nonce, text, tag and associated data; the body of
    an encrypted response of key, nonce, text and associated data; [json_decode] of an envelope and of a
    payload; [base64_decode]; and the encryption of the framework. *)
Record Cryptography := {
  hash_sha256 : string -> string;
  hash_hmac : string -> string -> string;
  hash_hmac_raw : string -> string -> string;
  openssl_decrypt : string -> string -> string -> string -> string -> option string;
  sealed_body : string -> string -> string -> string -> string;
  json_envelope : string -> option Envelope;
  json_payload : string -> option string;
  base64_decode : string -> option string;
  encryptString : string -> string;
  decryptString : string -> option string;
}.

Record ControlConfig := {
  proxy_enabled : bool;
  control_secret : option string;
  control_encrypted_responses_required : bool;
  allowed_proxy_ids : list string;
  allowed_proxy_ips : list string;
}.

Definition control_clock_skew_seconds : Z := 30.
Definition control_nonce_ttl_seconds : Z := 60.

Record ControlRequest := {
  request_method : string;
  request_path : string;
  request_content : string;
  remote_addr : option string;
  proxy_id_header : option string;
  timestamp_header : option string;
  request_id_header : option string;
  signature_header : option string;
  protocol_header : option string;
}.

(** A request that was verified, with what the rest of the middleware uses. *)
Record Vouched := {
  vouched_request : ControlRequest;
  vouched_secret : string;
  proxyInstanceId : string;
  timestamp : string;
  requestId : string;
  input : string;
}.

Record Response := { response_status : Z; response_content : string; response_protected : bool }.

Record CacheRecord := {
  fingerprint : string;
  completed : option (Z * string);
  expires : Z;
}.

Inductive Stage :=
  | Looking
  | Claiming
  | Refetching
  | Handling
  | Answered (r : Response)
  | Broken.

Record Handler := { handled : Vouched; came_at : Z; stage : Stage }.

(** What the handler does. *)
Inductive Answer := Responded (status : Z) (content : string) | Threw.

(** ** Texts *)

Definition line_feed : string := String "010" "".

Definition implode (l : list string) : string := String.concat line_feed l.

Definition without_last_feed (s : string) : string := if ends_with "010" s then drop_last s else s.

(** A pattern of a class of characters, repeated between two numbers of times, from the beginning to [$]. *)
Definition id_text (p : ascii -> bool) (lo hi : nat) (s : string) : bool :=
  let s := without_last_feed s in (lo <=? String.length s)%nat && (String.length s <=? hi)%nat && all_chars p s.

Definition alphanumeric (c : ascii) : bool := in_range 65 90 c || in_range 97 122 c || is_digit c.
Definition proxy_id_char (c : ascii) : bool := alphanumeric c || existsb (Ascii.eqb c) ["."; "_"; "-"]%char.
Definition request_id_char (c : ascii) : bool := alphanumeric c || existsb (Ascii.eqb c) ["_"; "-"]%char.
Definition hex_char (c : ascii) : bool := is_digit c || in_range 65 70 c || in_range 97 102 c.

Definition ctype_digit (s : string) : bool := negb (str_eq s "") && all_chars is_digit s.

(** [(int)] of digits. *)
Definition int_of (s : string) : Z := str_to_number s ?? 0.

Definition ProtocolVersion : string := "2".

Definition isMethodSafe (r : ControlRequest) : bool :=
  existsb (str_eq (request_method r)) ["GET"; "HEAD"; "OPTIONS"; "TRACE"].

(** ['/'.ltrim(path, '/')] *)
Definition rooted (path : string) : string := String "/" (lstrip (fun c => Ascii.eqb c "/") path).

Definition json_message (text : string) : string :=
  ("{" ++ String "034" ("message" ++ String "034" (":" ++ String "034" (text ++ String "034" "}"))))%string.

Definition unauthorizedResponse : Response := {|
  response_status := 401; response_content := json_message "Unauthorized."; response_protected := false |}.

Section control.
Context (crypto : Cryptography) (cfg : ControlConfig).

Definition canonicalPayload (r : ControlRequest) (stamp id : string) : string :=
  implode [request_method r; rooted (request_path r); stamp; id; hash_sha256 crypto (request_content r)].

(** ** The cipher *)

Definition response_key (secret : string) : string :=
  hash_hmac_raw crypto "crucible-native-proxy-control-response-v2" secret.
Definition requestKey (secret : string) : string :=
  hash_hmac_raw crypto "crucible-native-proxy-control-request-v2" secret.

Definition additionalAuthenticatedData (proxy stamp id : string) (status : Z) : string :=
  implode [ProtocolVersion; proxy; stamp; id; str_of_Z status].
Definition requestAdditionalAuthenticatedData (r : ControlRequest) (proxy stamp id : string) : string :=
  implode [ProtocolVersion; proxy; request_method r; rooted (request_path r); stamp; id].

(** [encrypt], with the nonce that is drawn. *)
Definition encrypt (nonce : string) (r : Response) (secret proxy stamp id : string) : Response := {|
  response_status := response_status r;
  response_content := sealed_body crypto (response_key secret) nonce (response_content r)
    (additionalAuthenticatedData proxy stamp id (response_status r));
  response_protected := true |}.

Definition decryptRequest (r : ControlRequest) (secret proxy stamp id : string) : option string :=
  e ← json_envelope crypto (request_content r);
  if negb (bool_decide (envelope_version e = Some 2)) then None
  else
    nonce ← envelope_nonce e ≫= base64_decode crypto;
    ciphertext ← envelope_ciphertext e ≫= base64_decode crypto;
    tag ← envelope_tag e ≫= base64_decode crypto;
    if negb (String.length nonce =? 12)%nat || negb (String.length tag =? 16)%nat then None
    else
      openssl_decrypt crypto (requestKey secret) nonce ciphertext tag (requestAdditionalAuthenticatedData r proxy stamp id)
        ≫= json_payload crypto.

(** ** The middleware *)

(** Whether the response, and the body of a request that changes something, are encrypted. *)
Definition protectResponse (r : ControlRequest) : bool := bool_decide (protocol_header r = Some ProtocolVersion).

Definition allowed_in (l : list string) (s : option string) : bool :=
  bool_decide (l = []) || match s with Some x => existsb (str_eq x) l | None => false end.

(** [handle] up to the choice by the method; [None] is the answer [unauthorizedResponse]. *)
Definition verify (now : Z) (r : ControlRequest) : option Vouched :=
  match control_secret cfg, proxy_id_header r, timestamp_header r, request_id_header r, signature_header r with
  | Some secret, Some proxy, Some stamp, Some id, Some signature =>
      if negb (proxy_enabled cfg) || str_eq secret "" || negb (id_text proxy_id_char 1 128 proxy) ||
         negb (ctype_digit stamp) || negb (id_text request_id_char 16 128 id) || negb (id_text hex_char 64 64 signature) ||
         (control_encrypted_responses_required cfg && negb (protectResponse r))
      then None
      else if negb (allowed_in (allowed_proxy_ids cfg) (Some proxy)) then None
      else if negb (allowed_in (allowed_proxy_ips cfg) (remote_addr r)) then None
      else if control_clock_skew_seconds <? Z.abs (now - int_of stamp) then None
      else if negb (str_eq (hash_hmac crypto (canonicalPayload r stamp id) secret) signature) then None
      else
        let vouched text := {| vouched_request := r; vouched_secret := secret; proxyInstanceId := proxy;
          timestamp := stamp; requestId := id; input := text |} in
        if protectResponse r && negb (isMethodSafe r)
        then vouched <$> decryptRequest r secret proxy stamp id
        else Some (vouched (request_content r))
  | _, _, _, _, _ => None
  end.

Definition cacheKey (v : Vouched) : string := ("native-proxy:control-request:" ++ requestId v)%string.

Definition fingerprint_of (v : Vouched) : string :=
  hash_sha256 crypto (implode [proxyInstanceId v; protocol_header (vouched_request v) ?? "";
    canonicalPayload (vouched_request v) (timestamp v) (requestId v)]).

(** A response in the form that the request asked for. *)
Definition protected_as (v : Vouched) (nonce : string) (r : Response) : Response :=
  if protectResponse (vouched_request v)
  then encrypt nonce r (vouched_secret v) (proxyInstanceId v) (timestamp v) (requestId v) else r.

Definition conflictResponse : Response := {|
  response_status := 409; response_content := json_message "Request is already being processed.";
  response_protected := false |}.

Definition replayResponse (record : option CacheRecord) (v : Vouched) (nonce : string) : Response :=
  match record with
  | None => unauthorizedResponse
  | Some c =>
      if negb (str_eq (fingerprint c) (fingerprint_of v)) then unauthorizedResponse
      else
        match completed c with
        | None => protected_as v nonce conflictResponse
        | Some (status, payload) =>
            match decryptString crypto payload with
            | None => unauthorizedResponse
            | Some content => {| response_status := status; response_content := content;
                                 response_protected := protectResponse (vouched_request v) |}
            end
        end
  end.

Definition cache_get (now : Z) (key : string) (c : gmap string CacheRecord) : option CacheRecord :=
  r ← c !! key; if now <? expires r then Some r else None.

Definition processing (now : Z) (v : Vouched) : CacheRecord := {|
  fingerprint := fingerprint_of v; completed := None; expires := now + control_nonce_ttl_seconds |}.

Definition finished (now : Z) (v : Vouched) (r : Response) : CacheRecord := {|
  fingerprint := fingerprint_of v; completed := Some (response_status r, encryptString crypto (response_content r));
  expires := now + control_nonce_ttl_seconds |}.

Definition set_stage (st : Stage) (p : Handler) : Handler := {| handled := handled p; came_at := came_at p; stage := st |}.

(** The next step of a request: its new stage and the cache. *)
Definition proceed (now : Z) (a : Answer) (nonce : string) (p : Handler) (c : gmap string CacheRecord)
    : Stage * gmap string CacheRecord :=
  let v := handled p in
  let key := cacheKey v in
  let safe := isMethodSafe (vouched_request v) in
  match stage p with
  | Looking =>
      match cache_get now key c with
      | Some r => (Answered (replayResponse (Some r) v nonce), c)
      | None => (Claiming, c)
      end
  | Claiming =>
      match cache_get now key c with
      | Some _ => (Refetching, c)
      | None => (Handling, <[key := processing now v]> c)
      end
  | Refetching => (Answered (replayResponse (cache_get now key c) v nonce), c)
  | Handling =>
      match a with
      | Threw => (Broken, if safe then c else delete key c)
      | Responded status content =>
          let r := protected_as v nonce {| response_status := status; response_content := content; response_protected := false |} in
          (Answered r, if safe then c else <[key := finished now v r]> c)
      end
  | Answered _ | Broken => (stage p, c)
  end.

(** A request that was verified: one that only reads is handled at once. *)
Definition arrived (now : Z) (v : Vouched) : Handler := {|
  handled := v; came_at := now; stage := if isMethodSafe (vouched_request v) then Handling else Looking |}.

(** ** All that can happen *)

Record CState := { handlers : list Handler; cache : gmap string CacheRecord }.

Inductive COp :=
  | Arrive (r : ControlRequest)
  | Proceed (i : nat) (a : Answer) (nonce : string).

Definition cperform (now : Z) (o : COp) (s : CState) : CState :=
  match o with
  | Arrive r =>
      match verify now r with
      | Some v => {| handlers := handlers s ++ [arrived now v]; cache := cache s |}
      | None => s
      end
  | Proceed i a nonce =>
      match handlers s !! i with
      | Some p =>
          let '(st, c) := proceed now a nonce p (cache s) in
          {| handlers := alter (set_stage st) i (handlers s); cache := c |}
      | None => s
      end
  end.

Record CEvent := { at_time : Z; c_op : COp; c_before : CState; c_after : CState }.

Definition no_requests : CState := {| handlers := []; cache := ∅ |}.

Inductive creachable : Z -> list CEvent -> CState -> Prop :=
  | no_request t : creachable t [] no_requests
  | then_step t tr s t' o :
      creachable t tr s -> t <= t' ->
      creachable t' ({| at_time := t'; c_op := o; c_before := s; c_after := cperform t' o s |} :: tr) (cperform t' o s).

(** ** Which requests are vouched for *)

(** What is true of a request that was verified at a time. *)
Record authentic (t : Z) (v : Vouched) : Prop := {
  au_enabled : proxy_enabled cfg = true;
  au_secret : control_secret cfg = Some (vouched_secret v) /\ vouched_secret v <> "";
  au_headers : proxy_id_header (vouched_request v) = Some (proxyInstanceId v) /\
    timestamp_header (vouched_request v) = Some (timestamp v) /\ request_id_header (vouched_request v) = Some (requestId v);
  au_signed : signature_header (vouched_request v) =
    Some (hash_hmac crypto (canonicalPayload (vouched_request v) (timestamp v) (requestId v)) (vouched_secret v));
  au_fresh : int_of (timestamp v) - control_clock_skew_seconds <= t <= int_of (timestamp v) + control_clock_skew_seconds;
  au_proxy : allowed_in (allowed_proxy_ids cfg) (Some (proxyInstanceId v)) = true;
  au_address : allowed_in (allowed_proxy_ips cfg) (remote_addr (vouched_request v)) = true;
  au_protected : control_encrypted_responses_required cfg = true -> protectResponse (vouched_request v) = true;
  au_input : if protectResponse (vouched_request v) && negb (isMethodSafe (vouched_request v))
    then decryptRequest (vouched_request v) (vouched_secret v) (proxyInstanceId v) (timestamp v) (requestId v) = Some (input v)
    else input v = request_content (vouched_request v) }.

Lemma verify_spec now r v : verify now r = Some v -> vouched_request v = r /\ authentic now v.
Proof.
  unfold verify. destruct (control_secret cfg) as [secret|] eqn:Hsec; [|done].
  destruct (proxy_id_header r) as [proxy|] eqn:Hp; [|done]. destruct (timestamp_header r) as [stamp|] eqn:Ht; [|done].
  destruct (request_id_header r) as [id|] eqn:Hid; [|done]. destruct (signature_header r) as [sig|] eqn:Hsig; [|done].
  destruct (_ || _) eqn:Hbad; [done|]. rewrite !orb_false_iff, !negb_false_iff in Hbad.
  destruct Hbad as [[[[[[Hen Hne] _] _] _] _] Hpr].
  destruct (allowed_in (allowed_proxy_ids cfg) _) eqn:Hai; [|done].
  destruct (allowed_in (allowed_proxy_ips cfg) _) eqn:Hip; [|done]. cbn [negb].
  destruct (Z.ltb_spec control_clock_skew_seconds (Z.abs (now - int_of stamp))) as [|Hskew]; [done|].
  destruct (str_eq (hash_hmac _ _ _) sig) eqn:Hs; [|done]. cbn [negb]. apply String.eqb_eq in Hs.
  assert (Hsecret : secret <> "") by (intros ->; done).
  assert (Hprot : control_encrypted_responses_required cfg = true -> protectResponse r = true).
  { intros E. rewrite E in Hpr. by apply negb_false_iff in Hpr. }
  intros H. assert (Hv : exists text, v = {| vouched_request := r; vouched_secret := secret; proxyInstanceId := proxy;
      timestamp := stamp; requestId := id; input := text |} /\
    if protectResponse r && negb (isMethodSafe r) then decryptRequest r secret proxy stamp id = Some text else text = request_content r).
  { destruct (protectResponse r && negb (isMethodSafe r)).
    - destruct (decryptRequest r _ _ _ _) as [text|] eqn:Hd; [|done]. injection H as <-. by exists text.
    - injection H as <-. by eexists. }
  destruct Hv as (text & -> & Hin). split; [done|]. split; cbn -[canonicalPayload int_of]; rewrite ?Hsig; try done; [by rewrite Hs|lia].
Qed.

(** ** Records of the cache *)

(** At an event a request that changes something is handed to its handler, having been verified at [c]. *)
Definition begins (e : CEvent) (v : Vouched) (c : Z) : Prop :=
  exists i a nonce p, c_op e = Proceed i a nonce /\ handlers (c_before e) !! i = Some p /\ handled p = v /\ came_at p = c /\
    stage p = Claiming /\ fst (proceed (at_time e) a nonce p (cache (c_before e))) = Handling.

(** A handler of a request with an identifier throws. *)
Definition breaks (e : CEvent) (id : string) : Prop :=
  exists i nonce p, c_op e = Proceed i Threw nonce /\ handlers (c_before e) !! i = Some p /\ stage p = Handling /\
    requestId (handled p) = id.

Definition kept (t : Z) (id : string) (c : gmap string CacheRecord) : Prop :=
  exists r, c !! ("native-proxy:control-request:" ++ id)%string = Some r /\ t + control_nonce_ttl_seconds <= expires r.

Lemma key_inj v id : cacheKey v = ("native-proxy:control-request:" ++ id)%string -> requestId v = id.
Proof. unfold cacheKey. cbn. congruence. Qed.

Lemma begins_records e v c : begins e v c -> c_after e = cperform (at_time e) (c_op e) (c_before e) ->
  cache_get (at_time e) (cacheKey v) (cache (c_before e)) = None /\ kept (at_time e) (requestId v) (cache (c_after e)).
Proof.
  intros (i & a & nonce & p & Ho & Hp & <- & _ & Hs & Hf) ->. rewrite Ho. cbn. rewrite Hp. unfold proceed in *.
  rewrite Hs in *. destruct (cache_get _ _ _) eqn:Hc; [done|]. split; [done|]. cbn. exists (processing (at_time e) (handled p)).
  split; [apply lookup_insert_eq|]. cbn. lia.
Qed.

(** A record is kept as long as no handler throws; others only make it last longer. *)
Lemma kept_step t0 t id o s :
  t0 <= t -> kept t0 id (cache s) ->
  (forall c', ~ breaks {| at_time := t; c_op := o; c_before := s; c_after := c' |} id) ->
  kept t0 id (cache (cperform t o s)).
Proof.
  intros Ht (r & Hr & He) Hb. destruct o as [q|i a nonce]; cbn.
  { destruct (verify t q); [|by exists r]. cbn. by exists r. }
  destruct (handlers s !! i) as [p|] eqn:Hp; [|by exists r].
  assert (Hput : forall r', t + control_nonce_ttl_seconds <= expires r' -> kept t0 id (<[cacheKey (handled p) := r']> (cache s))).
  { intros r' Hr'. destruct (decide (cacheKey (handled p) = ("native-proxy:control-request:" ++ id)%string)) as [E|E].
    - exists r'. rewrite E, lookup_insert_eq. split; [done|lia].
    - exists r. by rewrite lookup_insert_ne. }
  unfold proceed. cbv zeta. set (safe := isMethodSafe (vouched_request (handled p))). clearbody safe.
  destruct (stage p) eqn:Hs; cbn; try (by exists r).
  - destruct (cache_get _ _ _); by exists r.
  - destruct (cache_get _ _ _); [by exists r|]. cbn. apply Hput. cbn. lia.
  - destruct a; cbn; (destruct safe; [by exists r|]).
    + apply Hput. cbn. lia.
    + exists r. rewrite lookup_delete_ne; [done|]. intros E%key_inj. apply (Hb s).
      exists i, nonce, p. done.
Qed.

Lemma split_history t tr s later e earlier :
  creachable t tr s -> tr = later ++ e :: earlier ->
  exists t', creachable t' earlier (c_before e) /\ t' <= at_time e <= t /\ c_after e = cperform (at_time e) (c_op e) (c_before e) /\
    creachable (at_time e) (e :: earlier) (c_after e).
Proof.
  intros H. revert later. induction H as [t|t tr s t' o H IH Ht]; intros later E; [by destruct later|].
  destruct later as [|e' later]; cbn in E; injection E as E1 E2.
  - subst. exists t. split_and!; try done; cbn; try lia. by eapply then_step.
  - destruct (IH later E2) as (t0 & H0 & Ht0 & Ha & Hr). exists t0. split_and!; try done; lia.
Qed.

Lemma kept_later t tr s later e v c earlier :
  creachable t tr s -> tr = later ++ e :: earlier -> begins e v c ->
  (forall e', e' ∈ later -> ~ breaks e' (requestId v)) -> kept (at_time e) (requestId v) (cache s).
Proof.
  intros H. revert later. induction H as [t|t tr s t' o H IH Ht]; intros later E Hbeg Hb; [by destruct later|].
  destruct later as [|e' later]; cbn in E; injection E as E1 E2.
  - subst. by apply begins_records in Hbeg as [_ Hk].
  - subst e'. assert (Hk : kept (at_time e) (requestId v) (cache s)) by (apply (IH later E2 Hbeg); intros e' He'; apply Hb; by right).
    apply kept_step; [|done|].
    + destruct (split_history _ _ _ _ _ _ H E2) as (t0 & _ & Ht0 & _). lia.
    + intros c' Hbr. apply (Hb {| at_time := t'; c_op := o; c_before := s; c_after := cperform t' o s |}); [left|exact Hbr].
Qed.

Lemma handlers_authentic t tr s : creachable t tr s ->
  forall i p, handlers s !! i = Some p -> came_at p <= t /\ authentic (came_at p) (handled p).
Proof.
  induction 1 as [t|t tr s t' o H IH Ht]; [done|]. intros i p Hi.
  assert (Hold : handlers s !! i = Some p -> came_at p <= t' /\ authentic (came_at p) (handled p)).
  { intros Hp. destruct (IH i p Hp). split; [lia|done]. }
  destruct o as [q|j a nonce]; cbn in Hi.
  - destruct (verify t' q) as [v|] eqn:Hv; [|auto]. cbn in Hi. apply lookup_app_Some in Hi as [Hi|[_ Hi]]; [auto|].
    destruct (i - length (handlers s))%nat; [|done]. injection Hi as <-. split; [cbn; lia|]. by destruct (verify_spec _ _ _ Hv).
  - destruct (handlers s !! j) as [p0|] eqn:Hj; [|auto]. destruct (proceed _ _ _ _ _) as [st c]. cbn in Hi.
    destruct (decide (i = j)) as [->|Hne].
    + rewrite list_lookup_alter_eq, Hj in Hi. injection Hi as <-. cbn. destruct (IH j p0 Hj). split; [lia|done].
    + rewrite list_lookup_alter_ne in Hi by done. auto.
Qed.


(** ** What a repetition gets *)

(** At an event the handler of a request answers. *)
Definition answers (e : CEvent) (v : Vouched) (r : Response) : Prop :=
  exists i status content nonce p, c_op e = Proceed i (Responded status content) nonce /\
    handlers (c_before e) !! i = Some p /\ handled p = v /\ stage p = Handling /\
    r = protected_as v nonce {| response_status := status; response_content := content; response_protected := false |}.

(** What a record of the cache holds is the answer of a request with its fingerprint. *)
Definition holds_answer (tr : list CEvent) (key : string) (rec : CacheRecord) : Prop :=
  forall status payload, completed rec = Some (status, payload) ->
    exists e v r, e ∈ tr /\ answers e v r /\ cacheKey v = key /\ fingerprint rec = fingerprint_of v /\
      status = response_status r /\ payload = encryptString crypto (response_content r).

Lemma holds_answer_later tr e key rec : holds_answer tr key rec -> holds_answer (e :: tr) key rec.
Proof. intros H status payload Hc. destruct (H _ _ Hc) as (e0 & v & r & He & Hr). exists e0, v, r. split; [by right|done]. Qed.

Lemma cache_holds_answers t tr s : creachable t tr s -> forall key rec, cache s !! key = Some rec -> holds_answer tr key rec.
Proof.
  induction 1 as [t|t tr s t' o H IH Ht]; intros key rec Hk; [cbn in Hk; by rewrite lookup_empty in Hk|].
  assert (Hold : cache s !! key = Some rec -> holds_answer ({| at_time := t'; c_op := o; c_before := s; c_after := cperform t' o s |} :: tr) key rec)
    by (intros Hr; by apply holds_answer_later, IH).
  destruct o as [q|i a nonce]; cbn in Hk.
  { destruct (verify t' q); auto. }
  destruct (handlers s !! i) as [p|] eqn:Hp; [|auto].
  unfold proceed in Hk. cbv zeta in Hk. set (safe := isMethodSafe (vouched_request (handled p))) in Hk. clearbody safe.
  destruct (stage p) eqn:Hs; cbn in Hk; auto.
  - destruct (cache_get _ _ _); auto.
  - destruct (cache_get _ _ _); [auto|]. cbn in Hk. apply lookup_insert_Some in Hk as [[_ <-]|[_ Hk]]; [by intros ? ?|auto].
  - destruct a as [status content|]; cbn in Hk; destruct safe; auto.
    + apply lookup_insert_Some in Hk as [[<- <-]|[_ Hk]]; [|auto]. intros st payload [= <- <-].
      eexists _, (handled p), _. split; [left|]. split; [by exists i, status, content, nonce, p|]. done.
    + apply lookup_delete_Some in Hk as [_ Hk]. auto.
Qed.

Lemma cache_get_Some now key c r : cache_get now key c = Some r -> c !! key = Some r.
Proof. unfold cache_get. destruct (c !! key) as [r'|]; [|done]. cbn. destruct (_ <? _); [|done]. by intros [= ->]. Qed.

Context (Hcrypt : forall text, decryptString crypto (encryptString crypto text) = Some text).

(** A request that is answered from the cache is told that it is not authorized, or that it is still being
    handled, or gets the very answer that a request with its identifier and its fingerprint got. *)
Theorem repetitions_answered t tr s i p now a nonce r c :
  creachable t tr s -> handlers s !! i = Some p -> stage p = Looking \/ stage p = Refetching ->
  proceed now a nonce p (cache s) = (Answered r, c) ->
  r = unauthorizedResponse \/ r = protected_as (handled p) nonce conflictResponse \/
  exists e v r0, e ∈ tr /\ answers e v r0 /\ requestId v = requestId (handled p) /\ fingerprint_of v = fingerprint_of (handled p) /\
    response_status r = response_status r0 /\ response_content r = response_content r0.
Proof.
  intros H Hp Hs Hr.
  assert (Hrec : exists rec, r = replayResponse rec (handled p) nonce /\ forall x, rec = Some x -> cache s !! cacheKey (handled p) = Some x).
  { unfold proceed in Hr. cbv zeta in Hr. destruct Hs as [Hs|Hs]; rewrite Hs in Hr.
    - destruct (cache_get now (cacheKey (handled p)) (cache s)) as [x|] eqn:Hc; [|done]. injection Hr as <- _.
      exists (Some x). split; [done|]. intros y [= <-]. by eapply cache_get_Some.
    - injection Hr as <- _. eexists. split; [done|]. intros x Hx. by eapply cache_get_Some. }
  destruct Hrec as ([x|] & -> & Hx); [|by left]. specialize (Hx x eq_refl). cbn.
  destruct (str_eq (fingerprint x) _) eqn:Hf; [|by left]. apply String.eqb_eq in Hf. cbn [negb].
  destruct (completed x) as [[status payload]|] eqn:Hc; [|by right; left].
  destruct (cache_holds_answers _ _ _ H _ _ Hx _ _ Hc) as (e & v & r0 & He & Ha & Hk & Hfv & -> & ->). rewrite Hcrypt.
  right. right. exists e, v, r0. split_and!; try done; [|by rewrite <- Hf]. by apply key_inj.
Qed.
End control.

(** ** Examples *)

(** Digests and ciphers that show what they were given. *)
Definition sample_crypto : Cryptography := {|
  hash_sha256 := fun s => ("h" ++ str_of_nat (String.length s))%string;
  hash_hmac := fun s k => String.concat "" (repeat "ab" 32);
  hash_hmac_raw := fun s k => (k ++ s)%string;
  openssl_decrypt := fun k n c t d => Some c;
  sealed_body := fun k n c d => ("sealed " ++ c)%string;
  json_envelope := fun s => Some {| envelope_version := Some 2; envelope_nonce := Some "123456789012";
    envelope_ciphertext := Some s; envelope_tag := Some "1234567890123456" |};
  json_payload := Some; base64_decode := Some; encryptString := fun s => s; decryptString := Some |}.

Definition sample_control : ControlConfig := {|
  proxy_enabled := true; control_secret := Some "secret"; control_encrypted_responses_required := true;
  allowed_proxy_ids := ["proxy-01"]; allowed_proxy_ips := [] |}.

Definition sample_request (stamp : string) : ControlRequest := {|
  request_method := "POST"; request_path := "internal/native-proxy/v1/tunnels/authorize"; request_content := "body";
  remote_addr := None; proxy_id_header := Some "proxy-01"; timestamp_header := Some stamp;
  request_id_header := Some "valid-request-id-01"; signature_header := Some (String.concat "" (repeat "ab" 32));
  protocol_header := Some "2" |}.

Fixpoint cperform_all (ops : list (Z * COp)) (tr : list CEvent) (s : CState) : list CEvent * CState :=
  match ops with
  | [] => (tr, s)
  | (t, o) :: ops' =>
      let s' := cperform sample_crypto sample_control t o s in
      cperform_all ops' ({| at_time := t; c_op := o; c_before := s; c_after := s' |} :: tr) s'
  end.

Definition sample_requests (ops : list (Z * COp)) : list CEvent * CState := cperform_all ops [] no_requests.

Fixpoint in_sequence (t : Z) (ops : list (Z * COp)) : bool :=
  match ops with [] => true | (t', _) :: ops' => (t <=? t') && in_sequence t' ops' end.

Definition last_at (ops : list (Z * COp)) (t : Z) : Z := List.fold_left (fun _ o => fst o) ops t.

Lemma sample_creachable ops t tr s :
  creachable sample_crypto sample_control t tr s -> in_sequence t ops = true ->
  creachable sample_crypto sample_control (last_at ops t) (fst (cperform_all ops tr s)) (snd (cperform_all ops tr s)).
Proof.
  revert t tr s. induction ops as [|[t1 o] ops IH]; intros t tr s Hr Ht; cbn in Ht |- *; [done|].
  apply andb_true_iff in Ht as [Ht1%Z.leb_le Ht]. eapply (IH t1); [|exact Ht]. by eapply then_step.
Qed.

Definition sample_stages (ops : list (Z * COp)) : list Stage := map stage (handlers (snd (sample_requests ops))).

Definition sealed_ok : Stage := Answered {| response_status := 200; response_content := "sealed ok"; response_protected := true |}.

(** A repetition while the first is being handled, and one after it. *)
Example sample_repetitions :
  sample_stages ([(100, Arrive (sample_request "100"))] ++ [(100, Proceed 0 Threw "n"); (101, Proceed 0 Threw "n");
    (102, Arrive (sample_request "100")); (102, Proceed 1 Threw "n"); (103, Proceed 0 (Responded 200 "ok") "n");
    (104, Arrive (sample_request "100")); (104, Proceed 2 Threw "n")]) =
  [sealed_ok;
   Answered {| response_status := 409; response_content := ("sealed " ++ json_message "Request is already being processed.")%string;
               response_protected := true |}; sealed_ok].
Proof. vm_compute. reflexivity. Qed.

(** A request whose time stamp is thirty seconds ahead is handled, and sixty seconds later handled once more. *)
Definition first_run : list (Z * COp) := [(70, Arrive (sample_request "100")); (70, Proceed 0 (Responded 200 "ok") "n")].
Definition claim_ (t : Z) (i : nat) : Z * COp := (t, Proceed i (Responded 200 "ok") "n").
Definition second_run (t : Z) : list (Z * COp) :=
  [(70, Proceed 0 (Responded 200 "ok") "n"); (t, Arrive (sample_request "100")); (t, Proceed 1 (Responded 200 "ok") "n")].

Lemma handled_twice_at_boundary :
  sample_stages (first_run ++ [claim_ 70 0]) = [Handling] /\
  sample_stages (first_run ++ claim_ 70 0 :: second_run 130 ++ [claim_ 130 1]) = [sealed_ok; Handling] /\
  sample_stages (first_run ++ claim_ 70 0 :: second_run 129 ++ [claim_ 129 1]) = [sealed_ok; sealed_ok].
Proof. split_and!; vm_compute; reflexivity. Qed.

(** Nor need the time stamp be ahead: a repetition that arrives in the last second of its life, thirty seconds
    after the first was handled, and waits for thirty seconds more before it looks into the cache is handled,
    and the answer of the first is given if it waits for one second less. *)
Definition stalled_run (t : Z) : list (Z * COp) :=
  [(100, Arrive (sample_request "100")); claim_ 100 0; claim_ 100 0; claim_ 100 0;
   (130, Arrive (sample_request "100")); claim_ t 1; claim_ t 1].

Lemma handled_twice_when_stalled :
  sample_stages (stalled_run 160) = [sealed_ok; Handling] /\ sample_stages (stalled_run 159) = [sealed_ok; sealed_ok].
Proof. split; vm_compute; reflexivity. Qed.

(** ** Witnesses *)

Lemma cperform_all_spec ops tr s :
  exists new, fst (cperform_all ops tr s) = new ++ tr /\ forall e, e ∈ new -> c_op e ∈ map snd ops.
Proof.
  revert tr s. induction ops as [|[t o] ops IH]; intros tr s.
  { exists []. split; [done|]. by intros e ?%elem_of_nil. }
  cbn. destruct (IH ({| at_time := t; c_op := o; c_before := s; c_after := cperform sample_crypto sample_control t o s |} :: tr)
    (cperform sample_crypto sample_control t o s)) as (new & E & H).
  exists (new ++ [{| at_time := t; c_op := o; c_before := s; c_after := cperform sample_crypto sample_control t o s |}]).
  split; [by rewrite <- (assoc_L app)|]. intros e [He|He%list_elem_of_singleton]%elem_of_app; [right; auto|subst; left].
Qed.

(** The event of a step of an example. *)
Definition sample_event (o : Z * COp) (s : CState) : CEvent := {|
  at_time := fst o; c_op := snd o; c_before := s; c_after := cperform sample_crypto sample_control (fst o) (snd o) s |}.

Lemma sample_begins t i s p :
  handlers s !! i = Some p -> stage p = Claiming ->
  fst (proceed sample_crypto t (Responded 200 "ok") "n" p (cache s)) = Handling ->
  begins sample_crypto (sample_event (claim_ t i) s) (handled p) (came_at p).
Proof. intros. by exists i, (Responded 200 "ok"), "n", p. Qed.

Definition first_state : CState := snd (sample_requests first_run).
Definition first_event : CEvent := sample_event (claim_ 70 0) first_state.
Definition second_state : CState :=
  snd (cperform_all (second_run 130) (first_event :: fst (sample_requests first_run)) (c_after first_event)).
Definition second_event : CEvent := sample_event (claim_ 130 1) second_state.

Definition sample_vouched : Vouched := {| vouched_request := sample_request "100"; vouched_secret := "secret";
  proxyInstanceId := "proxy-01"; timestamp := "100"; requestId := "valid-request-id-01"; input := "body" |}.

