(* ===== verification/PolicyPreview.v ===== *)
(** * The policy preview of a deployment batch

    [resources/js/hooks/use-deployment-policy-preview.ts]: the hook that asks the server to check
    the statements of a batch while they are edited.  The hook's effect starts a timer of 400 ms,
    the timer sends a request, the response is stored with the signature it was asked for.  The
    steps below are the renders of the component, the timers that fire, and the responses and
    failures of requests, in any order.

    [JSON.stringify] is injective on the statements (a list of records of a string and a number,
    where [NaN] is written as [null]) and [JSON.parse] inverts it, so a signature is modelled by
    the statements themselves, with [None] for a number that is not one. *)

From Stdlib Require Import String.
From S2P Require Import Prelude JsString.

Open Scope string_scope.
Open Scope Z_scope.

Record PolicyPreview := {
  preview_sql : string;
  preview_connection_id : Z;
  preview_message : option string;
  preview_reviewable : bool;
  preview_source : option string;
}.

Record StatementInput := { input_sql : string; input_connection_id : option Z }.

#[global] Instance StatementInput_eq_dec : EqDecision StatementInput.
Proof. solve_decision. Defined.

Definition Signature := list StatementInput.

(** The statements the effect sends: those with some SQL and a connection. *)
Definition checkable (signature : Signature) : list StatementInput :=
  List.filter (fun statement =>
    negb (str_eq (trim (input_sql statement)) "") &&
    match input_connection_id statement with Some id => 0 <? id | None => false end) signature.

(** One run of the effect: its closure ([signature], [active]) and how far it has got. *)
Inductive Phase := TimerPending | RequestSent | Settled.

Record EffectRun := { run_signature : Signature; run_active : bool; run_phase : Phase }.

Record HookState := {
  rendered : Signature;                                 (** the statements of the last render *)
  enabled : bool;
  snapshot_signature : Signature;
  snapshot_previews : list PolicyPreview;
  runs : list EffectRun;                                (** the most recent first *)
}.

Definition initial_hook (signature : Signature) (initialPreviews : list PolicyPreview)
    (runs : list EffectRun) (enabled : bool) : HookState :=
  {| rendered := signature; enabled := enabled; snapshot_signature := signature;
     snapshot_previews := initialPreviews; runs := runs |}.

(** The body of the effect: the run it starts, if any. *)
Definition effect (enabled : bool) (signature : Signature) : list EffectRun :=
  if negb enabled then []
  else match checkable signature with
       | [] => []
       | _ => [{| run_signature := signature; run_active := true; run_phase := TimerPending |}]
       end.

(** The cleanup function of a run: it is no longer active, its pending timer is cleared. *)
Definition cleanup (r : EffectRun) : EffectRun :=
  {| run_signature := run_signature r; run_active := false;
     run_phase := match run_phase r with TimerPending => Settled | ph => ph end |}.

(** The first render of the component. *)
Definition mount (signature : Signature) (enabled : bool) (initialPreviews : list PolicyPreview)
    : HookState :=
  initial_hook signature initialPreviews (effect enabled signature) enabled.

(** A further render: the effect runs again when [enabled] or the signature changed. *)
Definition rerender (signature : Signature) (enabled' : bool) (s : HookState) : HookState :=
  {| rendered := signature; enabled := enabled';
     snapshot_signature := snapshot_signature s; snapshot_previews := snapshot_previews s;
     runs := if decide (signature = rendered s /\ enabled' = enabled s) then runs s
             else (effect enabled' signature ++ map cleanup (runs s))%list |}.

Definition set_phase (ph : Phase) (r : EffectRun) : EffectRun :=
  {| run_signature := run_signature r; run_active := run_active r; run_phase := ph |}.

Definition set_run (n : nat) (r : EffectRun) (s : HookState) : HookState :=
  {| rendered := rendered s; enabled := enabled s;
     snapshot_signature := snapshot_signature s; snapshot_previews := snapshot_previews s;
     runs := <[n := r]> (runs s) |}.

(** The timer of a run fires: the request is sent. *)
Definition timer_fires (n : nat) (s : HookState) : option (list StatementInput * HookState) :=
  match runs s !! n with
  | Some r =>
      match run_phase r with
      | TimerPending => Some (checkable (run_signature r), set_run n (set_phase RequestSent r) s)
      | _ => None
      end
  | None => None
  end.

(** The response to the request of a run: [setSnapshot] while the run is active. *)
Definition response_arrives (n : nat) (previews : list PolicyPreview) (s : HookState)
    : option HookState :=
  match runs s !! n with
  | Some r =>
      match run_phase r with
      | RequestSent =>
          let s' := set_run n (set_phase Settled r) s in
          Some (if run_active r
                then {| rendered := rendered s'; enabled := enabled s';
                        snapshot_signature := run_signature r; snapshot_previews := previews;
                        runs := runs s' |}
                else s')
      | _ => None
      end
  | None => None
  end.

(** The request of a run fails: the local preview is kept. *)
Definition request_fails (n : nat) (s : HookState) : option HookState :=
  match runs s !! n with
  | Some r =>
      match run_phase r with
      | RequestSent => Some (set_run n (set_phase Settled r) s)
      | _ => None
      end
  | None => None
  end.

(** The result of the hook at a render. *)
Definition useDeploymentPolicyPreview (s : HookState) : list PolicyPreview :=
  if decide (snapshot_signature s = rendered s) then snapshot_previews s else [].

(** ** Interleavings *)

(** What the server answered, per request: ghost state of the step relation. *)
Definition Answers := list (list StatementInput * list PolicyPreview).

Inductive hook_step : HookState * Answers -> HookState * Answers -> Prop :=
  | step_render signature enabled' s log :
      hook_step (s, log) (rerender signature enabled' s, log)
  | step_timer n inputs s s' log :
      timer_fires n s = Some (inputs, s') -> hook_step (s, log) (s', log)
  | step_response n r previews s s' log :
      runs s !! n = Some r ->
      response_arrives n previews s = Some s' ->
      hook_step (s, log) (s', (checkable (run_signature r), previews) :: log)
  | step_failure n s s' log :
      request_fails n s = Some s' -> hook_step (s, log) (s', log).

Section interleavings.
Context (signature0 : Signature) (initialPreviews : list PolicyPreview).

(** Where a snapshot comes from: the page's own previews, or an answer to the very statements
    it is stored for. *)
Definition justified (log : Answers) (signature : Signature) (previews : list PolicyPreview) :=
  (signature = signature0 /\ previews = initialPreviews) \/
  (checkable signature, previews) ∈ log.

Definition hook_invariant (c : HookState * Answers) : Prop :=
  justified c.2 (snapshot_signature c.1) (snapshot_previews c.1) /\
  (forall n r, runs c.1 !! n = Some r -> run_active r = true ->
     n = O /\ run_signature r = rendered c.1 /\ enabled c.1 = true) /\
  (forall n r, runs c.1 !! n = Some r -> run_phase r = TimerPending -> run_active r = true).

Lemma effect_lookup en signature n r : effect en signature !! n = Some r ->
  n = O /\ run_signature r = signature /\ en = true /\ run_active r = true.
Proof.
  unfold effect. destruct en; simpl; [|done]. destruct (checkable signature); [done|].
  destruct n; simpl; [|done]. by intros [= <-].
Qed.

Lemma mount_invariant en : hook_invariant (mount signature0 en initialPreviews, []).
Proof.
  split_and!; simpl; [by left| |].
  - intros n r (-> & -> & -> & _)%effect_lookup. done.
  - by intros n r (_ & _ & _ & H)%effect_lookup.
Qed.

Lemma rerender_lookup signature en s n r :
  runs (rerender signature en s) !! n = Some r ->
  (signature = rendered s /\ en = enabled s /\ runs s !! n = Some r) \/
  effect en signature !! n = Some r \/
  (run_active r = false /\ run_phase r <> TimerPending).
Proof.
  simpl. case_decide as Hd; [destruct Hd; auto|]. intros H. right.
  apply lookup_app_Some in H as [H|[_ H]]; [by left|right].
  rewrite list_lookup_fmap in H. apply fmap_Some in H as (r' & _ & ->). simpl.
  by destruct (run_phase r').
Qed.

Lemma set_phase_lookup n r ph s m q :
  runs s !! n = Some r -> runs (set_run n (set_phase ph r) s) !! m = Some q ->
  exists q', runs s !! m = Some q' /\ run_active q = run_active q' /\
    run_signature q = run_signature q' /\ (run_phase q = run_phase q' \/ run_phase q = ph).
Proof.
  simpl. intros Hr [(<- & <- & _)|[_ H]]%list_lookup_insert_Some; [by eauto 10|].
  by eauto 10.
Qed.

Lemma set_phase_invariant n r ph s log :
  runs s !! n = Some r -> ph <> TimerPending -> hook_invariant (s, log) ->
  hook_invariant (set_run n (set_phase ph r) s, log).
Proof.
  intros Hr Hph (Hj & Ha & Ht). split_and!; [done| |]; intros m q Hq H;
    destruct (set_phase_lookup _ _ _ _ _ _ Hr Hq) as (q' & Hq' & E1 & E2 & E3).
  - rewrite E1 in H. rewrite E2. by apply (Ha m q').
  - rewrite E1. destruct E3 as [E3|E3]; [|congruence]. apply (Ht m q'); [done|congruence].
Qed.

Lemma justified_log log a signature previews :
  justified log signature previews -> justified (a :: log) signature previews.
Proof. intros [H|H]; [by left|right; by apply list_elem_of_further]. Qed.

Lemma hook_step_invariant c c' : hook_step c c' -> hook_invariant c -> hook_invariant c'.
Proof.
  destruct 1 as [signature en s log|n inputs s s' log H|n r previews s s' log Hr H|n s s' log H];
    intros Hinv.
  - destruct Hinv as (Hj & Ha & Ht). split_and!; [done| |];
      intros n r [(-> & -> & Hn)|[Hn|[Hn Hp]]]%rerender_lookup H; try congruence.
    + by apply Ha.
    + by apply effect_lookup in Hn as (-> & -> & -> & _).
    + by apply (Ht n r).
    + by apply effect_lookup in Hn as (_ & _ & _ & ?).
  - unfold timer_fires in H. destruct (runs s !! n) as [r|] eqn:Hr; [|done].
    destruct (run_phase r); simplify_eq. by apply set_phase_invariant.
  - unfold response_arrives in H. rewrite Hr in H. destruct (run_phase r); simplify_eq.
    apply (set_phase_invariant n r Settled) in Hinv as (Hj & Ha & Ht); [|done..].
    destruct (run_active r); split_and!; try done.
    + right. apply list_elem_of_here.
    + by apply justified_log.
  - unfold request_fails in H. destruct (runs s !! n) as [r|] eqn:Hr; [|done].
    destruct (run_phase r); simplify_eq. by apply set_phase_invariant.
Qed.

Lemma reachable_invariant en c :
  rtc hook_step (mount signature0 en initialPreviews, []) c -> hook_invariant c.
Proof.
  intros H. pose proof (mount_invariant en) as Hi. induction H; [done|].
  eauto using hook_step_invariant.
Qed.
End interleavings.

(** C34.  However renders, timers, responses and failures interleave, the previews the hook
    returns are never those of other statements: they are none, the page's own previews of the
    statements it was loaded with (while these are shown), or an answer of the server to exactly
    the checkable statements of the current render. *)
Theorem previews_never_stale signature0 en initialPreviews s log :
  rtc hook_step (mount signature0 en initialPreviews, []) (s, log) ->
  useDeploymentPolicyPreview s = [] \/
  (rendered s = signature0 /\ useDeploymentPolicyPreview s = initialPreviews) \/
  (checkable (rendered s), useDeploymentPolicyPreview s) ∈ log.
Proof.
  intros H. destruct (reachable_invariant _ _ _ _ H) as (Hj & _). simpl in Hj.
  unfold useDeploymentPolicyPreview. case_decide as Hd; [right|by left].
  rewrite <- Hd. destruct Hj as [[-> ->]|Hj]; [by left|by right].
Qed.

Lemma previews_never_stale_witness :
  let a := {| input_sql := "select 1"; input_connection_id := Some 1 |} in
  let b := {| input_sql := "select 2"; input_connection_id := Some 1 |} in
  let ok := {| preview_sql := "select 1"; preview_connection_id := 1; preview_message := None;
               preview_reviewable := false; preview_source := None |} in
  exists s log, rtc hook_step (mount [a] true [], []) (s, log) /\
    rendered s = [b] /\ log <> [] /\ useDeploymentPolicyPreview s = [].
Proof.
  intros a b ok.
  set (s0 := mount [a] true []).
  set (s1 := set_run 0 (set_phase RequestSent (Build_EffectRun [a] true TimerPending)) s0).
  set (s2 := rerender [b] true s1).
  set (s3 := set_run 1 (set_phase Settled (Build_EffectRun [a] false RequestSent)) s2).
  assert (H : rtc hook_step (s0, []) (s3, [([a], [ok])])).
  { eapply rtc_l; [apply (step_timer 0 [a] s0 s1); reflexivity|].
    eapply rtc_l; [apply (step_render [b] true s1)|].
    eapply rtc_l; [|apply rtc_refl].
    apply (step_response 1 (Build_EffectRun [a] false RequestSent) [ok] s2 s3); reflexivity. }
  exists s3, [([a], [ok])]. split; [exact H|]. split; [reflexivity|]. split; [discriminate|].
  destruct (previews_never_stale [a] true [] s3 [([a], [ok])] H) as [Hn|[[Hn _]|Hn]].
  - exact Hn.
  - discriminate Hn.
  - exfalso. apply list_elem_of_singleton in Hn. discriminate Hn.
Defined.

(** ** Coming to rest *)

(** A step of the timers and requests: no render in between. *)
Inductive settling_step : HookState * Answers -> HookState * Answers -> Prop :=
  | settle_timer n inputs s s' log :
      timer_fires n s = Some (inputs, s') -> settling_step (s, log) (s', log)
  | settle_response n r previews s s' log :
      runs s !! n = Some r -> response_arrives n previews s = Some s' ->
      settling_step (s, log) (s', (checkable (run_signature r), previews) :: log)
  | settle_failure n s s' log :
      request_fails n s = Some s' -> settling_step (s, log) (s', log).

Lemma settling_is_hook_step c c' : settling_step c c' -> hook_step c c'.
Proof. destruct 1; [eapply step_timer|eapply step_response|eapply step_failure]; eauto. Qed.

(** The steps a run has left. *)
Definition phase_work (ph : Phase) : nat :=
  match ph with TimerPending => 2 | RequestSent => 1 | Settled => 0 end%nat.

Definition work (s : HookState) : nat := sum_list (map (fun r => phase_work (run_phase r)) (runs s)).

Lemma sum_insert (l : list EffectRun) n r r' : l !! n = Some r ->
  (sum_list (map (fun r => phase_work (run_phase r)) (<[n := r']> l)) + phase_work (run_phase r) =
   sum_list (map (fun r => phase_work (run_phase r)) l) + phase_work (run_phase r'))%nat.
Proof.
  revert n. induction l as [|x l IH]; intros [|n] H; simplify_eq/=; [lia|].
  specialize (IH n H). lia.
Qed.

Lemma set_phase_work n r ph s : runs s !! n = Some r ->
  phase_work (run_phase r) = S (phase_work ph) -> work s = S (work (set_run n (set_phase ph r) s)).
Proof.
  intros Hr Hp. unfold work. simpl. pose proof (sum_insert _ n r (set_phase ph r) Hr) as H. simpl in H. lia.
Qed.

Lemma settling_step_work c c' : settling_step c c' -> work c.1 = S (work c'.1).
Proof.
  destruct 1 as [n inputs s s' log H|n r previews s s' log Hr H|n s s' log H]; simpl.
  - unfold timer_fires in H. destruct (runs s !! n) as [r|] eqn:Hr; [|done].
    destruct (run_phase r) eqn:Hp; simplify_eq. apply set_phase_work; [done|by rewrite Hp].
  - unfold response_arrives in H. rewrite Hr in H. destruct (run_phase r) eqn:Hp; simplify_eq.
    rewrite (set_phase_work n r Settled s Hr) by by rewrite Hp. by destruct (run_active r).
  - unfold request_fails in H. destruct (runs s !! n) as [r|] eqn:Hr; [|done].
    destruct (run_phase r) eqn:Hp; simplify_eq. apply set_phase_work; [done|by rewrite Hp].
Qed.

Lemma settling_progress s log : work s <> 0%nat -> exists c', settling_step (s, log) c'.
Proof.
  intros Hw. assert (H : exists n r, runs s !! n = Some r /\ run_phase r <> Settled).
  { unfold work in Hw. induction (runs s) as [|r l IH]; [done|]. destruct (run_phase r) eqn:Hp.
    - exists O, r. split; [done|congruence].
    - exists O, r. split; [done|congruence].
    - simpl in Hw. rewrite Hp in Hw. destruct (IH Hw) as (n & r' & Hr). by exists (S n), r'. }
  destruct H as (n & r & Hr & Hp). destruct (run_phase r) eqn:E; [| |done].
  - eexists. eapply (settle_timer n). unfold timer_fires. by rewrite Hr, E.
  - eexists. apply (settle_failure n). unfold request_fails. by rewrite Hr, E.
Qed.

(** Without new input the preview comes to rest: from any state, whatever the order in which
    timers fire and requests are answered or fail, the number of steps is bounded by two per run of
    the effect that waits for its timer and one per request that is out; as long as one is left a
    step is possible, and when none is left every timer has fired and every request is settled. *)
Theorem preview_settles n c c' :
  nsteps settling_step n c c' ->
  (n + work c'.1 = work c.1)%nat /\
  (work c'.1 <> 0%nat -> exists c'', settling_step c' c'') /\
  (work c'.1 = 0%nat -> Forall (fun r => run_phase r = Settled) (runs c'.1)).
Proof.
  intros H. split_and!.
  - induction H as [c|n c1 c2 c3 Hs _ IH]; [done|]. apply settling_step_work in Hs. lia.
  - destruct c' as [s log]. apply settling_progress.
  - unfold work. intros Hw. induction (runs c'.1) as [|r l IH]; simpl in *; [constructor|].
    constructor; [by destruct (run_phase r)|]. apply IH. lia.
Qed.

(** One edit: the timer, then the answer. *)
Lemma preview_settles_witness :
  let a := {| input_sql := "select 1"; input_connection_id := Some 1 |} in
  exists c', nsteps settling_step 2 (mount [a] true [], []) c' /\
    Forall (fun r => run_phase r = Settled) (runs c'.1).
Proof.
  intros a.
  set (s0 := mount [a] true []).
  set (s1 := set_run 0 (set_phase RequestSent (Build_EffectRun [a] true TimerPending)) s0).
  set (r1 := Build_EffectRun [a] true RequestSent).
  destruct (response_arrives 0 [] s1) as [s2|] eqn:E; [|discriminate E].
  assert (H : nsteps settling_step 2 (s0, []) (s2, [(checkable (run_signature r1), [])])).
  { eapply nsteps_l; [apply (settle_timer 0 [a] s0 s1); reflexivity|].
    apply nsteps_once. by apply settle_response with (n := O). }
  exists (s2, [(checkable (run_signature r1), [])]). split; [exact H|].
  apply (preview_settles 2 _ _ H). injection E as <-. reflexivity.
Defined.
