(* ===== verification/Hooks.v ===== *)
(** * Shared hooks

    [resources/js/hooks]: flash toasts, the fetches of two-factor set-up, the colour theme, the
    comparison of URLs, the clipboard and the initials of a name.  Module-level variables and the
    state of a hook are records; a promise is the step in which it settles. *)

From Stdlib Require Import String.
From S2P Require Import Prelude JsString.

Open Scope string_scope.
Open Scope Z_scope.
Open Scope list_scope.

(** ** Flash toasts ([use-flash-toast.ts]) *)

(** A value of type [unknown] that came with an event, as JSON describes it. *)
Inductive Json :=
  | JNull
  | JBool (b : bool)
  | JNumber (n : Z)
  | JString (s : string)
  | JArray (l : list Json)
  | JObject (fields : list (string * Json)).

(** [String(v)]; [undefined] is [None]. *)
Fixpoint js_string (v : Json) : string :=
  match v with
  | JNull => "null"
  | JBool b => if b then "true" else "false"
  | JNumber n => str_of_Z n
  | JString s => s
  | JArray l => join "," (map (fun x => match x with JNull => "" | _ => js_string x end) l)
  | JObject _ => "[object Object]"
  end.

Definition field (v : Json) (name : string) : option Json :=
  match v with
  | JObject fields => snd <$> find_first (fun f => str_eq (fst f) name) fields
  | _ => None
  end.

Definition string_or_undefined (v : option Json) : string :=
  match v with Some v => js_string v | None => "undefined" end.

Definition toastDedupeWindowMs : Z := 750.

Definition is_object (v : Json) : bool :=
  match v with JArray _ | JObject _ => true | _ => false end.

Definition isFlashToast (data : Json) : bool :=
  is_object data &&
  match field data "message" with Some (JString _) => true | _ => false end &&
  existsb (str_eq (string_or_undefined (field data "type"))) ["success"; "info"; "warning"; "error"].

(** A toast on the screen: its kind, its message and when it was shown. *)
Record Toast := { toast_type : string; toast_message : string; shown_at : Z }.

(** [lastToast] and what has been shown, the latest first. *)
Record Toaster := { lastToast : option (string * Z); shown : list Toast }.

Definition toast_key (type_ message : string) : string := (type_ ++ ":" ++ message)%string.

Definition showFlashToast (now : Z) (data : Json) (t : Toaster) : Toaster :=
  if negb (isFlashToast data) then t
  else
    let type_ := string_or_undefined (field data "type") in
    let message := string_or_undefined (field data "message") in
    let key := toast_key type_ message in
    if match lastToast t with
       | Some (k, shownAt) => str_eq k key && (now - shownAt <? toastDedupeWindowMs)
       | None => false
       end
    then t
    else {| lastToast := Some (key, now);
            shown := {| toast_type := type_; toast_message := message; shown_at := now |} :: shown t |}.

Definition no_toasts : Toaster := {| lastToast := None; shown := [] |}.

(** [lastToast] describes the latest toast on the screen. *)
Definition toaster_ok (t : Toaster) : Prop :=
  match shown t with
  | [] => lastToast t = None
  | x :: _ => lastToast t = Some (toast_key (toast_type x) (toast_message x), shown_at x)
  end.

(** Toasts shown one after the other that say the same are at least the window apart. *)
Fixpoint spaced (l : list Toast) : Prop :=
  match l with
  | y :: ((x :: _) as l') =>
      (toast_type x = toast_type y -> toast_message x = toast_message y ->
       toastDedupeWindowMs <= shown_at y - shown_at x) /\ spaced l'
  | _ => True
  end.

Lemma showFlashToast_ok now data t :
  toaster_ok t -> spaced (shown t) ->
  toaster_ok (showFlashToast now data t) /\ spaced (shown (showFlashToast now data t)).
Proof.
  intros Hok Hs. unfold showFlashToast. destruct (isFlashToast data); [|done]. simpl.
  set (ty := string_or_undefined (field data "type")).
  set (msg := string_or_undefined (field data "message")).
  unfold toaster_ok in *. destruct (shown t) as [|x l] eqn:El; rewrite Hok.
  - done.
  - destruct (str_eq _ _) eqn:Ek; cbn [andb].
    + destruct (Z.ltb_spec (now - shown_at x) toastDedupeWindowMs); simpl; rewrite ?El; [done|].
      split; [done|]. split; [|done]. simpl. intros _ _. lia.
    + simpl. split; [done|]. split; [|done]. simpl. intros E1 E2.
      apply str_eq_false in Ek. exfalso. apply Ek. by rewrite E1, E2.
Qed.

(** A flash message is never shown twice in a row within 750 ms, and nothing else is dropped:
    after any sequence of events, toasts shown one after the other with the same kind and text
    are at least 750 ms apart; and an event with a valid toast shows it unless the toast shown
    last says the same and is less than 750 ms old. *)
Theorem toasts_deduplicated (events : list (Z * Json)) now data :
  let t := fold_left (fun t e => showFlashToast (fst e) (snd e) t) events no_toasts in
  spaced (shown t) /\
  (isFlashToast data = true ->
   let type_ := string_or_undefined (field data "type") in
   let message := string_or_undefined (field data "message") in
   shown (showFlashToast now data t) = {| toast_type := type_; toast_message := message; shown_at := now |} :: shown t \/
   (shown (showFlashToast now data t) = shown t /\
    exists x l, shown t = x :: l /\ toast_key (toast_type x) (toast_message x) = toast_key type_ message /\
      now - shown_at x < toastDedupeWindowMs)).
Proof.
  intros t.
  assert (Hok : toaster_ok t /\ spaced (shown t)).
  { unfold t. induction events as [|e l IH] using rev_ind; [done|]. rewrite fold_left_app. simpl.
    destruct IH. by apply showFlashToast_ok. }
  destruct Hok as [Hok Hs]. split; [done|]. intros Hv. unfold showFlashToast. rewrite Hv. simpl.
  unfold toaster_ok in Hok. destruct (shown t) as [|x l] eqn:El; rewrite Hok; simpl; rewrite ?El; [by left|].
  destruct (str_eq _ _) eqn:Ek; simpl; [|by rewrite ?El; left].
  destruct (Z.ltb_spec (now - shown_at x) toastDedupeWindowMs); simpl; rewrite ?El; [right|by left].
  split; [done|]. exists x, l. split; [done|]. split; [by apply str_eq_true|done].
Qed.

Definition example_toast (m : string) : Json :=
  JObject [("type", JString "success"); ("message", JString m)].

Lemma toasts_deduplicated_witness :
  shown (fold_left (fun t e => showFlashToast (fst e) (snd e) t)
    [(0, example_toast "Saved"); (100, example_toast "Saved"); (800, example_toast "Saved")]
    no_toasts) =
    [{| toast_type := "success"; toast_message := "Saved"; shown_at := 800 |};
     {| toast_type := "success"; toast_message := "Saved"; shown_at := 0 |}] /\
  spaced (shown (fold_left (fun t e => showFlashToast (fst e) (snd e) t)
    [(0, example_toast "Saved"); (100, example_toast "Saved"); (800, example_toast "Saved")]
    no_toasts)).
Proof.
  split; [vm_compute; reflexivity|].
  exact (proj1 (toasts_deduplicated
    [(0, example_toast "Saved"); (100, example_toast "Saved"); (800, example_toast "Saved")]
    900 (example_toast "Saved"))).
Defined.

(** ** Two-factor authentication ([use-two-factor-auth.ts]) *)

Record TwoFactor := {
  qrCodeSvg : option string;
  manualSetupKey : option string;
  recoveryCodesList : list string;
  two_factor_errors : list string;
}.

Definition hasSetupData (s : TwoFactor) : bool := is_some (qrCodeSvg s) && is_some (manualSetupKey s).

Definition clearErrors (s : TwoFactor) : TwoFactor := {|
  qrCodeSvg := qrCodeSvg s; manualSetupKey := manualSetupKey s;
  recoveryCodesList := recoveryCodesList s; two_factor_errors := [] |}.

Definition clearSetupData (s : TwoFactor) : TwoFactor := {|
  qrCodeSvg := None; manualSetupKey := None;
  recoveryCodesList := recoveryCodesList s; two_factor_errors := [] |}.

Definition clearTwoFactorAuthData (_ : TwoFactor) : TwoFactor := {|
  qrCodeSvg := None; manualSetupKey := None; recoveryCodesList := []; two_factor_errors := [] |}.

(** [fetchQrCode] once its request settles: the SVG, or [None] for a failure. *)
Definition qrCodeSettled (answer : option string) (s : TwoFactor) : TwoFactor :=
  match answer with
  | Some svg => {| qrCodeSvg := Some svg; manualSetupKey := manualSetupKey s;
                   recoveryCodesList := recoveryCodesList s;
                   two_factor_errors := two_factor_errors s |}
  | None => {| qrCodeSvg := None; manualSetupKey := manualSetupKey s;
               recoveryCodesList := recoveryCodesList s;
               two_factor_errors := two_factor_errors s ++ ["Failed to fetch QR code"] |}
  end.

(** [fetchSetupKey] once its request settles. *)
Definition setupKeySettled (answer : option string) (s : TwoFactor) : TwoFactor :=
  match answer with
  | Some key => {| qrCodeSvg := qrCodeSvg s; manualSetupKey := Some key;
                   recoveryCodesList := recoveryCodesList s;
                   two_factor_errors := two_factor_errors s |}
  | None => {| qrCodeSvg := qrCodeSvg s; manualSetupKey := None;
               recoveryCodesList := recoveryCodesList s;
               two_factor_errors := two_factor_errors s ++ ["Failed to fetch a setup key"] |}
  end.

(** The answer to a request for recovery codes: the codes, or the HTTP status of the failure
    (none when there was no response). *)
Inductive CodesAnswer := Codes (codes : list string) | CodesFailed (http_status : option Z).

(** [fetchRecoveryCodes] once its request settles: the new state and whether the user is sent to
    confirm the password. *)
Definition recoveryCodesSettled (answer : CodesAnswer) (s : TwoFactor) : TwoFactor * bool :=
  match answer with
  | Codes codes =>
      ({| qrCodeSvg := qrCodeSvg s; manualSetupKey := manualSetupKey s; recoveryCodesList := codes;
          two_factor_errors := two_factor_errors s |}, false)
  | CodesFailed http_status =>
      if bool_decide (http_status = Some 423) then (s, true)
      else
        ({| qrCodeSvg := qrCodeSvg s; manualSetupKey := manualSetupKey s; recoveryCodesList := [];
            two_factor_errors := two_factor_errors s ++ ["Failed to fetch recovery codes"] |}, false)
  end.

Definition fetchRecoveryCodes (answer : CodesAnswer) (s : TwoFactor) : TwoFactor * bool :=
  recoveryCodesSettled answer (clearErrors s).

(** [fetchSetupData]: both fetches run at once and settle in either order. *)
Definition fetchSetupData (qr_first : bool) (qr key : option string) (s : TwoFactor) : TwoFactor :=
  let s := clearErrors s in
  if qr_first then setupKeySettled key (qrCodeSettled qr s)
  else qrCodeSettled qr (setupKeySettled key s).

(** Fetching the set-up data of two-factor authentication does not depend on which of its two
    requests settles first: the QR code and the key are those of the answers, the set-up can go
    on exactly when both succeeded, there is one error per failed request and none left from
    before, and the recovery codes are not touched. *)
Theorem fetchSetupData_confluent qr key s qr_first :
  let s' := fetchSetupData qr_first qr key s in
  qrCodeSvg s' = qr /\ manualSetupKey s' = key /\
  recoveryCodesList s' = recoveryCodesList s /\
  hasSetupData s' = is_some qr && is_some key /\
  two_factor_errors s' ≡ₚ two_factor_errors (fetchSetupData (negb qr_first) qr key s) /\
  (length (two_factor_errors s') = (if is_some qr then 0 else 1) + (if is_some key then 0 else 1))%nat.
Proof.
  intros s'. unfold s', fetchSetupData.
  destruct qr_first, qr, key; simpl; split_and!; try done; apply perm_swap.
Qed.

(** ** The colour theme ([use-appearance.tsx]) *)

Inductive Appearance := Light | Dark | System.

#[global] Instance Appearance_eq_dec : EqDecision Appearance.
Proof. solve_decision. Defined.

Definition appearance_text (a : Appearance) : string :=
  match a with Light => "light" | Dark => "dark" | System => "system" end.

(** The module's variable, the browser's storage, the cookie and the document. *)
Record Theme := {
  currentAppearance : Appearance;
  stored : option Appearance;               (** [localStorage.getItem('appearance')] *)
  cookie : option Appearance;
  prefersDark : bool;                       (** the system's preference *)
  dark_class : bool;                        (** [classList.contains('dark')] *)
  colorScheme : string;
}.

Definition isDarkMode (prefersDark : bool) (a : Appearance) : bool :=
  bool_decide (a = Dark) || (bool_decide (a = System) && prefersDark).

Definition applyTheme (a : Appearance) (t : Theme) : Theme :=
  let isDark := isDarkMode (prefersDark t) a in
  {| currentAppearance := currentAppearance t; stored := stored t; cookie := cookie t;
     prefersDark := prefersDark t; dark_class := isDark;
     colorScheme := if isDark then "dark" else "light" |}.

Definition initializeTheme (t : Theme) : Theme :=
  let t :=
    match stored t with
    | Some _ => t
    | None => {| currentAppearance := currentAppearance t; stored := Some System;
                 cookie := Some System; prefersDark := prefersDark t; dark_class := dark_class t;
                 colorScheme := colorScheme t |}
    end in
  let a := stored t ?? System in
  applyTheme a {| currentAppearance := a; stored := stored t; cookie := cookie t;
                  prefersDark := prefersDark t; dark_class := dark_class t;
                  colorScheme := colorScheme t |}.

Definition updateAppearance (mode : Appearance) (t : Theme) : Theme :=
  applyTheme mode {| currentAppearance := mode; stored := Some mode; cookie := Some mode;
                     prefersDark := prefersDark t; dark_class := dark_class t;
                     colorScheme := colorScheme t |}.

(** The system's preference changes: [handleSystemThemeChange]. *)
Definition systemThemeChanges (dark : bool) (t : Theme) : Theme :=
  applyTheme (currentAppearance t)
    {| currentAppearance := currentAppearance t; stored := stored t; cookie := cookie t;
       prefersDark := dark; dark_class := dark_class t; colorScheme := colorScheme t |}.

Inductive ThemeEvent := Chosen (mode : Appearance) | SystemChanges (dark : bool).

Definition theme_event (t : Theme) (e : ThemeEvent) : Theme :=
  match e with
  | Chosen mode => updateAppearance mode t
  | SystemChanges dark => systemThemeChanges dark t
  end.

(** Once the theme is initialised, whatever the user chooses and however the system's
    preference changes, the document is dark exactly when the chosen appearance says so (or
    follows a dark system), its colour scheme agrees, and the choice is the one that is stored. *)
Lemma theme_follows_choice t events :
  let t' := fold_left theme_event events (initializeTheme t) in
  dark_class t' = isDarkMode (prefersDark t') (currentAppearance t') /\
  colorScheme t' = (if dark_class t' then "dark" else "light") /\
  stored t' = Some (currentAppearance t').
Proof.
  intros t'. unfold t'. induction events as [|e l IH] using rev_ind.
  - unfold initializeTheme. simpl. destruct (stored t) as [a|] eqn:E; simpl; rewrite ?E; done.
  - rewrite fold_left_app. simpl. destruct IH as (_ & _ & Hst). destruct e; simpl; done.
Qed.

(** ** URLs ([use-current-url.ts]) *)

Section urls.
(** [new URL(s).pathname]; [None] when the URL is invalid and the constructor throws. *)
Context (pathname : string -> option string).

Definition isCurrentUrl (currentUrlPath : string) (urlString : string) (currentUrl : option string)
    (prefix : bool) : bool :=
  let urlToCompare := currentUrl ?? currentUrlPath in
  let comparePath path := if prefix then startsWith urlToCompare path else str_eq path urlToCompare in
  if negb (startsWith urlString "http") then comparePath urlString
  else match pathname urlString with
       | Some path => comparePath path
       | None => false
       end.

Definition isCurrentOrParentUrl (currentUrlPath urlString : string) (currentUrl : option string) : bool :=
  isCurrentUrl currentUrlPath urlString currentUrl true.

Definition whenCurrentUrl {A} (currentUrlPath urlString : string) (ifTrue ifFalse : A) : A :=
  if isCurrentUrl currentUrlPath urlString None false then ifTrue else ifFalse.

Lemma startsWith_refl s : startsWith s s = true.
Proof. induction s as [|c s IH]; simpl; [done|]. by rewrite Ascii.eqb_refl, IH. Qed.

(** The current page is also its own parent. *)
Lemma current_is_current_or_parent path url current :
  isCurrentUrl path url current false = true -> isCurrentOrParentUrl path url current = true.
Proof.
  unfold isCurrentOrParentUrl, isCurrentUrl. destruct (negb _).
  - intros ->%str_eq_true. apply startsWith_refl.
  - destruct (pathname url); [|done]. intros ->%str_eq_true. apply startsWith_refl.
Qed.
End urls.

(** ** Clipboard ([use-clipboard.ts]) *)

(** [copy]: whether there is a clipboard and whether writing to it succeeds. *)
Definition copy (supported writes : bool) (text : string) (copiedText : option string)
    : option string * bool :=
  if negb supported then (copiedText, false)
  else if writes then (Some text, true)
  else (None, false).

(** ** Initials ([use-initials.tsx]) *)

Definition getInitial (name : string) : string := take_str 1 name.

(** [s.split(/\s+/).filter(Boolean)]: the words of a string. *)
Fixpoint words_from (word : string) (s : string) : list string :=
  match s with
  | EmptyString => when (truthy word) [word]
  | String c s' =>
      if is_space c then when (truthy word) [word] ++ words_from "" s'
      else words_from (word ++ String c "")%string s'
  end.

Definition getInitials (fullName : string) : string :=
  let names := words_from "" (trim fullName) in
  match names with
  | [] => ""
  | [name] => toUpperCase (getInitial name)
  | first :: rest =>
      toUpperCase (getInitial first ++ getInitial (List.last rest ""))
  end.

Example initials_full : getInitials "  Grace Brewster   Hopper " = "GH".
Proof. vm_compute. reflexivity. Qed.

Example initials_one : getInitials "ada" = "A".
Proof. vm_compute. reflexivity. Qed.

Example initials_none : getInitials "   " = "".
Proof. vm_compute. reflexivity. Qed.
