(* ===== verification/Cookies.v ===== *)
(** * Cookies that outlive a page

    A page keeps two choices in cookies of its own: the colour theme
    ([resources/js/hooks/use-appearance.tsx]) and whether the side bar is open
    ([resources/js/components/ui/sidebar.tsx], in [Shell]).  The server reads both before it
    renders the next page: [bootstrap/app.php] keeps them out of the encryption of cookies,
    [app/Http/Middleware/HandleAppearance.php] shares the theme with the template
    [resources/views/app.blade.php].

    Modelled of the browser: an assignment to [document.cookie] stores a value under a name, for
    as long as its [max-age] says. *)

From Stdlib Require Import String.
From stdpp Require Import gmap strings list.
From S2P Require Import Prelude JsString Hooks.

Open Scope string_scope.
Open Scope Z_scope.
Open Scope list_scope.

(** ** The browser *)

(** Times are in milliseconds; a cookie without [max-age] lasts as long as the browser runs. *)
Record Cookie := { cookie_value : string; cookie_expires : option Z }.

Abbreviation cookie_jar := (gmap string Cookie).

(** [name=value] as its two parts. *)
Definition cookie_pair (part : string) : option (string * string) :=
  match split_on "=" part with
  | [name; value] => Some (trim name, trim value)
  | _ => None
  end.

Definition max_age (attributes : list string) : option Z :=
  pair ← find_first (fun pair => str_eq (toLowerCase (fst pair)) "max-age") (omap cookie_pair attributes);
  str_to_number (snd pair).

(** [document.cookie = line] *)
Definition write_cookie (now : Z) (line : string) (jar : cookie_jar) : cookie_jar :=
  match split_on ";" line with
  | part :: attributes =>
      match cookie_pair part with
      | Some (name, value) =>
          <[name := {| cookie_value := value;
                       cookie_expires := (fun seconds => now + seconds * 1000) <$> max_age attributes |}]> jar
      | None => jar
      end
  | [] => jar
  end.

Definition expired (now : Z) (c : Cookie) : bool :=
  match cookie_expires c with Some t => t <=? now | None => false end.

Definition read_cookie (now : Z) (name : string) (jar : cookie_jar) : option string :=
  match jar !! name with
  | Some c => if expired now c then None else Some (cookie_value c)
  | None => None
  end.

(** ** The server *)

Section server.
(** What the framework makes of a cookie it takes for encrypted; [None] when it is not. *)
Context (decrypt : string -> option string).

(** [encryptCookies(except: ...)] *)
Definition plainCookies : list string := ["appearance"; "sidebar_state"].

(** [$request->cookie(name)] *)
Definition request_cookie (now : Z) (name : string) (jar : cookie_jar) : option string :=
  value ← read_cookie now name jar;
  if existsb (str_eq name) plainCookies then Some value else decrypt value.

(** [HandleAppearance]: what the template is given. *)
Definition sharedAppearance (now : Z) (jar : cookie_jar) : string :=
  request_cookie now "appearance" jar ?? "system".

(** The class [dark] of the document before the application runs: the template's own, and the
    script it carries. *)
Definition painted_dark (prefersDark : bool) (appearance : string) : bool :=
  str_eq appearance "dark" || (str_eq appearance "system" && prefersDark).

(** ** Lemmas *)

Lemma read_cookie_earlier now now' name jar v :
  now <= now' -> read_cookie now' name jar = Some v -> read_cookie now name jar = Some v.
Proof.
  intros Hle. unfold read_cookie. destruct (jar !! name) as [c|]; [|done].
  unfold expired. destruct (cookie_expires c) as [t|]; [|done].
  destruct (Z.leb_spec t now'), (Z.leb_spec t now); (done || lia).
Qed.

Lemma request_plain now name jar : existsb (str_eq name) plainCookies = true ->
  request_cookie now name jar = read_cookie now name jar.
Proof. intros H. unfold request_cookie. rewrite H. by destruct (read_cookie now name jar). Qed.

Lemma read_written now name value expires jar :
  read_cookie now name (<[name := {| cookie_value := value; cookie_expires := expires |}]> jar) =
  if expired now {| cookie_value := value; cookie_expires := expires |} then None else Some value.
Proof. unfold read_cookie. by rewrite lookup_insert_eq. Qed.
End server.

(** ** The theme, from one page to the next (use-appearance.tsx) *)

Definition days_in_year : Z := 365.

(** [setCookie(name, value, days)] *)
Definition setCookie (name value : string) (days : Z) (now : Z) (jar : cookie_jar) : cookie_jar :=
  let maxAge := days * 24 * 60 * 60 in
  write_cookie now
    (name ++ "=" ++ value ++ ";path=/;max-age=" ++ str_of_Z maxAge ++ ";SameSite=Lax")%string jar.

(** What a page does to the theme and to the cookies, with the time. *)
Definition theme_loaded (now : Z) (tj : Theme * cookie_jar) : Theme * cookie_jar :=
  let '(t, jar) := tj in
  (initializeTheme t,
   match stored t with
   | Some _ => jar
   | None => setCookie "appearance" "system" days_in_year now jar
   end).

Definition theme_changes (tj : Theme * cookie_jar) (e : Z * ThemeEvent) : Theme * cookie_jar :=
  let '(t, jar) := tj in
  (theme_event t (snd e),
   match snd e with
   | Chosen mode => setCookie "appearance" (appearance_text mode) days_in_year (fst e) jar
   | SystemChanges _ => jar
   end).

(** The cookie, while there is one, says what the page has stored. *)
Definition cookie_agrees (tj : Theme * cookie_jar) : Prop :=
  forall now v, read_cookie now "appearance" (snd tj) = Some v ->
    v = appearance_text (currentAppearance (fst tj)).

Lemma setCookie_appearance mode now jar :
  setCookie "appearance" (appearance_text mode) days_in_year now jar =
  <["appearance" := {| cookie_value := appearance_text mode;
                       cookie_expires := Some (now + 31536000 * 1000) |}]> jar.
Proof. by destruct mode. Qed.

Lemma setCookie_agrees mode now jar now' v :
  read_cookie now' "appearance" (setCookie "appearance" (appearance_text mode) days_in_year now jar) =
    Some v -> v = appearance_text mode.
Proof. rewrite setCookie_appearance, read_written. by case_match; [|intros [= <-]]. Qed.

Lemma theme_changes_agrees tj e : cookie_agrees tj -> cookie_agrees (theme_changes tj e).
Proof.
  destruct tj as [t jar], e as [now [mode|dark]]; intros H; [|done].
  intros now' v Hv. by apply setCookie_agrees in Hv.
Qed.

Lemma theme_changes_theme events tj :
  fst (fold_left theme_changes events tj) = fold_left theme_event (map snd events) (fst tj).
Proof.
  revert tj. induction events as [|e l IH]; intros [t jar]; [done|].
  cbn [fold_left map]. by rewrite IH.
Qed.

(** The first paint of a page has the theme of the page before: from a browser without a stored
    theme or a cookie, and whatever is chosen on the way, as long as the cookie lives the class
    that the template and its script give the document is the one the application sets. *)
Theorem first_paint_matches decrypt t now0 events now v :
  stored t = None ->
  let '(t', jar) := fold_left theme_changes events (theme_loaded now0 (t, ∅)) in
  read_cookie now "appearance" jar = Some v ->
  painted_dark (prefersDark t') (sharedAppearance decrypt now jar) = dark_class t'.
Proof.
  intros Hs. destruct (fold_left _ _ _) as [t' jar] eqn:E. intros Hv.
  unfold sharedAppearance. rewrite request_plain, Hv by done. cbn.
  assert (Ha : cookie_agrees (t', jar)).
  { rewrite <- E. clear E Hv. induction events as [|e l IH] using rev_ind.
    - intros now' w Hw. cbn in Hw. rewrite Hs in Hw. apply (setCookie_agrees System) in Hw as ->.
      cbn. unfold initializeTheme. by rewrite Hs.
    - rewrite fold_left_app. by apply theme_changes_agrees. }
  assert (Ht : t' = fold_left theme_event (map snd events) (initializeTheme t)).
  { change t' with (fst (t', jar)). by rewrite <- E, theme_changes_theme. }
  destruct (theme_follows_choice t (map snd events)) as (Hd & _ & _). rewrite <- Ht in Hd.
  rewrite Hd, (Ha now v Hv). cbn [fst]. by destruct (currentAppearance t'), (prefersDark t').
Qed.
