(* ===== verification/View.v ===== *)
(** * Rendered pages

    What a component renders, as far as a user can act on it: a tree of elements with their
    attributes, the handlers attached to them and the text they show.  Class names, icons and
    other purely visual attributes are left out.

    A handler is a state transformer of the page.  React flushes the updates of a discrete event
    (a click, a change) before the next one, so a handler runs in the state of the last render.
    The time of the event is the handler's first argument.

    The payload of a form follows the HTML standard ("constructing the entry list"): the named
    controls that are not disabled, in tree order, unchecked boxes and radio buttons left out, and
    of the buttons only the one that submits.  A control without [value] is uncontrolled: the
    browser keeps what was typed into it.  A [select] posts one of its options: the one with its
    value or, when there is none, the first that is not disabled (React selects it). *)

From Stdlib Require Import String.
From S2P Require Import Prelude JsString.

Open Scope string_scope.

(** What the user did: pressed a button, typed or chose a value, ticked a box, or picked the
    items with these positions in a list. *)
Inductive event :=
  | Click
  | Change (value : string)
  | Toggle (checked : bool)
  | Pick (positions : list nat).

Definition handler (S : Type) : Type := Z -> event -> S -> S.

Inductive tag := TInput | TTextarea | TSelect | TButton | Tag (name : string).

Inductive prop (S : Type) :=
  | Attr (name value : string)
  | Flag (name : string) (on : bool)
  | On (name : string) (h : handler S).

Inductive node (S : Type) :=
  | Txt (s : string)
  | El (t : tag) (props : list (prop S)) (kids : list (node S)).

Arguments Attr {S}.
Arguments Flag {S}.
Arguments On {S}.
Arguments Txt {S}.
Arguments El {S}.

Section view.
Context {S : Type}.
Implicit Types (ps : list (prop S)) (n : node S).

Fixpoint attr (key : string) ps : option string :=
  match ps with
  | [] => None
  | Attr k v :: ps' => if str_eq k key then Some v else attr key ps'
  | _ :: ps' => attr key ps'
  end.

Fixpoint flag (key : string) ps : bool :=
  match ps with
  | [] => false
  | Flag k b :: ps' => if str_eq k key then b else flag key ps'
  | _ :: ps' => flag key ps'
  end.

Fixpoint handlers ps : list (handler S) :=
  match ps with
  | [] => []
  | On _ h :: ps' => h :: handlers ps'
  | _ :: ps' => handlers ps'
  end.

(** The text on the page. *)
Fixpoint texts n : list string :=
  match n with
  | Txt s => [s]
  | El _ _ ks => flat_map texts ks
  end.

(** The options of a [select]: value and whether it is disabled. *)
Definition option_of n : list (string * bool) :=
  match n with
  | El (Tag name) ps ks =>
      when (str_eq name "option")
        [(attr "value" ps ?? join "" (flat_map texts ks), flag "disabled" ps)]
  | _ => []
  end.

(** The option a [select] selects for a value. *)
Definition selected_option (v : string) (options : list (string * bool)) : option string :=
  if existsb (fun o => str_eq (fst o) v) options then Some v
  else fst <$> find_first (fun o => negb (snd o)) options.

(** ** Form data *)

Section entries.
Context (typed : string -> option string) (submitter : option (string * string)).

(** The value of a control: [value] where React controls it, else what the browser holds. *)
Definition current_value (name : string) ps : string :=
  match attr "value" ps with
  | Some v => v
  | None => typed name ?? (attr "defaultValue" ps ?? "")
  end.

Definition checkable_type ps : bool :=
  match attr "type" ps with
  | Some ty => str_eq ty "radio" || str_eq ty "checkbox"
  | None => false
  end.

Definition own_entries (t : tag) ps (ks : list (node S)) : list (string * string) :=
  if flag "disabled" ps then []
  else
    match attr "name" ps with
    | None | Some EmptyString => []
    | Some name =>
        match t with
        | TInput =>
            if checkable_type ps
            then when (flag "checked" ps) [(name, attr "value" ps ?? "on")]
            else [(name, current_value name ps)]
        | TTextarea => [(name, current_value name ps)]
        | TSelect =>
            match selected_option (current_value name ps) (flat_map option_of ks) with
            | Some v => [(name, v)]
            | None => []
            end
        | TButton =>
            when (bool_decide (submitter = Some (name, attr "value" ps ?? "")))
              [(name, attr "value" ps ?? "")]
        | Tag _ => []
        end
    end.

Fixpoint entries n : list (string * string) :=
  match n with
  | Txt _ => []
  | El t ps ks => (own_entries t ps ks ++ flat_map entries ks)%list
  end.
End entries.

(** The values posted under a name. *)
Definition posted (es : list (string * string)) (name : string) : list string :=
  flat_map (fun e => if str_eq (fst e) name then [snd e] else []) es.

(** ** Actions *)

(** The handlers of the elements that are not disabled. *)
Fixpoint actions n : list (handler S) :=
  match n with
  | Txt _ => []
  | El _ ps ks => ((if flag "disabled" ps then [] else handlers ps) ++ flat_map actions ks)%list
  end.

(** The [k]-th of them, triggered. *)
Definition fire n (k : nat) (now : Z) (ev : event) (s : S) : S :=
  nth k (actions n) (fun _ _ s => s) now ev s.

(** The buttons that submit their form: name, value, and whether they can be pressed. *)
Fixpoint submits n : list (string * string * bool) :=
  match n with
  | Txt _ => []
  | El t ps ks =>
      (match t with
       | TButton =>
           if match attr "type" ps with Some ty => str_eq ty "button" | None => false end then []
           else [(attr "name" ps ?? "", attr "value" ps ?? "", negb (flag "disabled" ps))]
       | _ => []
       end ++ flat_map submits ks)%list
  end.

(** ** Elements *)

Definition elem (name : string) (ks : list (node S)) : node S := El (Tag name) [] ks.

Definition on_click (f : S -> S) : prop S := On "click" (fun _ _ => f).

(** [onChange={() => ...}] of a radio button *)
Definition on_select (f : S -> S) : prop S := On "change" (fun _ _ => f).

Definition on_change (f : string -> S -> S) : prop S :=
  On "change" (fun _ ev s => match ev with Change v => f v s | _ => s end).

Definition on_toggle (f : bool -> S -> S) : prop S :=
  On "change" (fun _ ev s => match ev with Toggle b => f b s | _ => s end).

(** [onChange] of a [select]: the value is that of one of its options. *)
Definition choose_handler {A} (options : list A) (text : A -> string) (f : A -> S -> S)
    : handler S := fun _ ev s =>
  match ev with
  | Change v => match find_first (fun o => str_eq (text o) v) options with
                | Some o => f o s
                | None => s
                end
  | _ => s
  end.

Definition on_choose {A} (options : list A) (text : A -> string) (f : A -> S -> S) : prop S :=
  On "change" (choose_handler options text f).

(** Radix's [Collapsible], with its trigger: the content is mounted only while it is open. *)
Definition Collapsible (open : bool) (onOpenChange : bool -> S -> S) (label : string)
    (trigger content : list (node S)) : node S :=
  elem "Collapsible"
    (El TButton [Attr "type" "button"; Attr "aria-label" label;
                 on_click (onOpenChange (negb open))] trigger
     :: when open [elem "CollapsibleContent" content])%list.

(** [<option value={val}>text</option>] *)
Definition choice (val text : string) : node S := El (Tag "option") [Attr "value" val] [Txt text].

(** [components/input-error.tsx] *)
Definition InputError (message : option string) : list (node S) :=
  match message with
  | Some (String _ _ as m) => [El (Tag "p") [Attr "role" "alert"; Attr "aria-live" "polite"] [Txt m]]
  | _ => []
  end.

(** [components/crucible/page-header.tsx] *)
Definition PageHeader (title : string) (description : option string) (acts : list (node S))
    : node S :=
  elem "div"
    (elem "div"
       (elem "h1" [Txt title] :: when (truthy_opt description) [elem "p" [Txt (description ?? "")]])
     :: when (match acts with [] => false | _ => true end) [elem "div" acts])%list.

(** The message of a field in the errors of a form. *)
Definition error_of (errors : list (string * string)) (field : string) : option string :=
  snd <$> find_first (fun e => str_eq (fst e) field) errors.

(** The entries of a hidden [0] and a checkbox for [1]. *)
Definition flagged (field : string) (checked : bool) : list (string * string) :=
  ((field, "0") :: when checked [(field, "1")])%list.

(** What the server reads under a name: the last value, as a boolean ([Request::boolean]). *)
Definition boolean (es : list (string * string)) (name : string) : bool :=
  match last (posted es name) with
  | Some v => existsb (str_eq v) ["1"; "true"; "on"; "yes"]
  | None => false
  end.

(** ** Properties of the traversals *)

Lemma own_entries_hidden typed sub name v ks :
  truthy name = true ->
  own_entries typed sub TInput [Attr "type" "hidden"; Attr "name" name; Attr "value" v] ks = [(name, v)].
Proof. by destruct name. Qed.

Lemma entries_when typed sub (b : bool) (l : list (node S)) :
  flat_map (entries typed sub) (when b l) = when b (flat_map (entries typed sub) l).
Proof. by destruct b. Qed.

Lemma submits_when (b : bool) (l : list (node S)) :
  flat_map submits (when b l) = when b (flat_map submits l).
Proof. by destruct b. Qed.

Lemma entries_Tag typed sub name ps ks :
  entries typed sub (El (Tag name) ps ks) = flat_map (entries typed sub) ks.
Proof. simpl. unfold own_entries. destruct (flag _ _); [done|]. by destruct (attr _ _) as [[]|]. Qed.

Lemma entries_elem typed sub name ks :
  entries typed sub (elem name ks) = flat_map (entries typed sub) ks.
Proof. done. Qed.

Lemma fire_action n k now ev s : (k < length (actions n))%nat ->
  exists h, h ∈ actions n /\ fire n k now ev s = h now ev s.
Proof.
  intros Hk. exists (nth k (actions n) (fun _ _ s => s)). split; [|done].
  apply list_elem_of_In. by apply nth_In.
Qed.

(** A control of a part of a page is one of the page. *)
Lemma actions_kid t ps ks n h : n ∈ ks -> h ∈ actions n -> h ∈ actions (El t ps ks).
Proof. intros Hn Hh. simpl. apply elem_of_app. right. apply elem_of_flat_map. eauto. Qed.

Lemma choose_handler_spec {A} (options : list A) text (f : A -> S -> S) now ev s :
  choose_handler options text f now ev s = s \/
  exists o, o ∈ options /\ choose_handler options text f now ev s = f o s.
Proof.
  unfold choose_handler. destruct ev as [|v| |]; auto.
  destruct (find_first _ options) as [o|] eqn:E; [|auto]. apply find_first_Some in E as [Ho _]. eauto.
Qed.

Lemma selected_option_listed v options : v ∈ map fst options -> selected_option v options = Some v.
Proof.
  intros H. unfold selected_option. replace (existsb _ options) with true; [done|].
  symmetry. apply existsb_exists_elem. apply list_elem_of_fmap in H as (o & -> & Ho).
  exists o. by rewrite str_eq_refl.
Qed.

Lemma selected_option_cons v w options :
  selected_option v ((w, false) :: options) =
  Some (if existsb (fun o => str_eq (fst o) v) ((w, false) :: options) then v else w).
Proof. unfold selected_option. by destruct (existsb _ _). Qed.

Lemma selected_option_listed_or_first {A} (f : A -> string) v w l :
  selected_option v ((w, false) :: map (fun x => (f x, false)) l) =
  Some (if existsb (str_eq v) (w :: map f l) then v else w).
Proof.
  rewrite selected_option_cons. f_equal.
  replace (existsb _ ((w, false) :: _)) with (existsb (str_eq v) (w :: map f l)); [done|].
  simpl. f_equal; [apply String.eqb_sym|].
  induction l as [|x l IH]; [done|]. simpl. rewrite IH. f_equal. apply String.eqb_sym.
Qed.

Lemma option_of_choice v t : option_of (choice v t) = [(v, false)].
Proof. done. Qed.

Lemma option_of_choices {A} (f g : A -> string) l :
  flat_map option_of (map (fun x => choice (f x) (g x)) l) = map (fun x => (f x, false)) l.
Proof. induction l as [|x l IH]; [done|]. simpl. by rewrite IH. Qed.

Lemma entries_choices {A} typed sub (f g : A -> string) l :
  flat_map (entries typed sub) (map (fun x => choice (f x) (g x)) l) = [].
Proof. rewrite flat_map_map. by apply flat_map_nil_all. Qed.

Lemma entries_InputError typed sub m : flat_map (entries typed sub) (InputError m) = [].
Proof. by destruct m as [[]|]. Qed.

Lemma actions_InputError m : flat_map actions (InputError m) = [].
Proof. by destruct m as [[]|]. Qed.

Lemma submits_InputError m : flat_map submits (InputError m) = [].
Proof. by destruct m as [[]|]. Qed.

Lemma posted_app es es' name : posted (es ++ es') name = (posted es name ++ posted es' name)%list.
Proof. apply flat_map_app. Qed.

Lemma posted_when (b : bool) es name : posted (when b es) name = when b (posted es name).
Proof. by destruct b. Qed.

Lemma posted_elem es name v : v ∈ posted es name <-> (name, v) ∈ es.
Proof.
  unfold posted. rewrite elem_of_flat_map. split.
  - intros ([k w] & Hin & Hv). simpl in Hv. destruct (str_eq k name) eqn:E.
    + apply str_eq_true in E as ->. by apply list_elem_of_singleton in Hv as ->.
    + by apply elem_of_nil in Hv.
  - intros H. exists (name, v). simpl. rewrite str_eq_refl. split; [done|].
    by apply list_elem_of_singleton.
Qed.

Lemma posted_other es name : Forall (fun e => fst e <> name) es -> posted es name = [].
Proof.
  induction 1 as [|e es He _ IH]; [done|]. simpl. rewrite IH.
  by rewrite (proj2 (str_eq_false (fst e) name)).
Qed.

(** A name that only the [k]-th element of a list posts. *)
Lemma posted_at {A} (g : nat -> A -> list (string * string)) (l : list A) k name :
  (forall i x, i <> k -> l !! i = Some x -> posted (g i x) name = []) ->
  posted (concat (imap g l)) name = match l !! k with Some x => posted (g k x) name | None => [] end.
Proof.
  intros H. unfold posted. rewrite flat_map_concat_imap. by apply concat_imap_single.
Qed.

Lemma posted_pairs name vs : posted (map (pair name) vs) name = vs.
Proof. induction vs as [|v vs IH]; [done|]. cbn. unfold posted in IH. by rewrite str_eq_refl, IH. Qed.

Lemma posted_flagged field checked name :
  posted (flagged field checked) name =
  if str_eq field name then ("0" :: when checked ["1"])%list else [].
Proof.
  unfold flagged, posted. destruct checked; cbn [flat_map when fst snd app];
    by destruct (str_eq field name).
Qed.

(** Flags with different names are read as they were posted. *)
Lemma posted_flags_other fields name : name ∉ map fst fields ->
  posted (flat_map (fun f => flagged (fst f) (snd f)) fields) name = [].
Proof.
  induction fields as [|[field b] fields IH]; simpl; [done|]. intros [Hn Hf]%not_elem_of_cons.
  change (posted (flagged field b ++ flat_map (fun f => flagged (fst f) (snd f)) fields) name = []).
  rewrite posted_app, posted_flagged, IH by done. by rewrite (proj2 (str_eq_false _ _)).
Qed.

Lemma boolean_flags before fields after name b :
  NoDup (map fst fields) -> (name, b) ∈ fields -> posted before name = [] -> posted after name = [] ->
  boolean (before ++ flat_map (fun f => flagged (fst f) (snd f)) fields ++ after) name = b.
Proof.
  intros Hnd Hin Hb Ha. unfold boolean. rewrite !posted_app, Hb, Ha, app_nil_r. simpl.
  induction fields as [|[field c] fields IH]; [by apply elem_of_nil in Hin|].
  apply NoDup_cons in Hnd as [Hf Hnd]. change (flat_map _ ((field, c) :: fields)) with
    (flagged field c ++ flat_map (fun f => flagged (fst f) (snd f)) fields)%list.
  rewrite posted_app, posted_flagged. apply elem_of_cons in Hin as [[= -> ->]|Hin].
  - rewrite str_eq_refl, posted_flags_other, app_nil_r by done. by destruct c.
  - rewrite (proj2 (str_eq_false _ _)); [by apply IH|]. intros <-. apply Hf.
    by apply (list_elem_of_fmap_2 fst fields (field, b)).
Qed.

(** *** Statements about every action of a page *)

Section every_action.
Context (P : handler S -> Prop).

Definition all_actions n : Prop := Forall P (actions n).
Definition each_actions (l : list (node S)) : Prop := Forall P (flat_map actions l).

Lemma all_actions_Txt t : all_actions (Txt t).
Proof. constructor. Qed.

Lemma all_actions_El t ps ks :
  (flag "disabled" ps = false -> Forall P (handlers ps)) -> each_actions ks ->
  all_actions (El t ps ks).
Proof.
  intros Hp Hk. unfold all_actions. simpl. apply Forall_app_2; [|done].
  destruct (flag "disabled" ps); auto.
Qed.

Lemma each_actions_nil : each_actions [].
Proof. constructor. Qed.

Lemma each_actions_cons n l : all_actions n -> each_actions l -> each_actions (n :: l).
Proof. apply Forall_app_2. Qed.

Lemma each_actions_app l l' : each_actions l -> each_actions l' -> each_actions (l ++ l').
Proof. unfold each_actions. rewrite flat_map_app. apply Forall_app_2. Qed.

Lemma each_actions_when (b : bool) l : (b = true -> each_actions l) -> each_actions (when b l).
Proof. destruct b; simpl; [auto|constructor]. Qed.

Lemma each_actions_InputError m : each_actions (InputError m).
Proof. unfold each_actions. rewrite actions_InputError. constructor. Qed.

Lemma each_actions_map {A} (f : A -> node S) l :
  (forall x, x ∈ l -> all_actions (f x)) -> each_actions (map f l).
Proof.
  intros H. apply Forall_forall. intros h. unfold each_actions. rewrite flat_map_map.
  intros (x & Hx & Hh)%elem_of_flat_map. specialize (H x Hx). unfold all_actions in H.
  rewrite Forall_forall in H. auto.
Qed.

Lemma each_actions_imap {A} (f : nat -> A -> node S) l :
  (forall i x, l !! i = Some x -> all_actions (f i x)) -> each_actions (imap f l).
Proof.
  revert f. induction l as [|x l IH]; intros f H; simpl; [apply each_actions_nil|].
  apply each_actions_cons; [by apply H|]. apply IH. intros i y. apply (H (1 + i)%nat).
Qed.

Lemma each_actions_concat (ls : list (list (node S))) :
  (forall l, l ∈ ls -> each_actions l) -> each_actions (concat ls).
Proof.
  induction ls as [|l ls IH]; intros H; simpl; [constructor|]. apply each_actions_app.
  - apply H, list_elem_of_here.
  - apply IH. intros l' Hl'. by apply H, list_elem_of_further.
Qed.
End every_action.

(** *** Parts of a page without submit buttons *)

Definition no_submits n : Prop := submits n = [].
Definition none_submits (l : list (node S)) : Prop := flat_map submits l = [].

Lemma no_submits_Txt t : no_submits (Txt t).
Proof. done. Qed.

Lemma no_submits_El t ps ks :
  match t with TButton => attr "type" ps = Some "button" | _ => True end -> none_submits ks ->
  no_submits (El t ps ks).
Proof.
  unfold no_submits, none_submits. intros Ht Hk. simpl. rewrite Hk, app_nil_r.
  destruct t; [done..| |done]. by rewrite Ht.
Qed.

Lemma none_submits_nil : none_submits [].
Proof. done. Qed.

Lemma none_submits_cons n l : no_submits n -> none_submits l -> none_submits (n :: l).
Proof. unfold no_submits, none_submits. simpl. by intros -> ->. Qed.

Lemma none_submits_app l l' : none_submits l -> none_submits l' -> none_submits (l ++ l').
Proof. unfold none_submits. rewrite flat_map_app. by intros -> ->. Qed.

Lemma none_submits_when (b : bool) l : (b = true -> none_submits l) -> none_submits (when b l).
Proof. destruct b; simpl; [auto|done]. Qed.

Lemma none_submits_map {A} (f : A -> node S) l :
  (forall x, x ∈ l -> no_submits (f x)) -> none_submits (map f l).
Proof.
  induction l as [|x l IH]; intros H; [done|]. apply none_submits_cons.
  - apply H, list_elem_of_here.
  - apply IH. intros y Hy. by apply H, list_elem_of_further.
Qed.

Lemma none_submits_concat (ls : list (list (node S))) :
  (forall l, l ∈ ls -> none_submits l) -> none_submits (concat ls).
Proof.
  induction ls as [|l ls IH]; intros H; simpl; [done|]. apply none_submits_app.
  - apply H, list_elem_of_here.
  - apply IH. intros l' Hl'. by apply H, list_elem_of_further.
Qed.
End view.

(** ** A component inside another

    The handlers of a component change its own state.  In a page whose state [T] holds that of the
    component, [put f] is the change [f] of the component's part. *)

Section embed.
Context {S T : Type} (put : (S -> S) -> T -> T).

Definition embed_handler (h : handler S) : handler T := fun now ev => put (h now ev).

Definition embed_prop (p : prop S) : prop T :=
  match p with
  | Attr k v => Attr k v
  | Flag k b => Flag k b
  | On k h => On k (embed_handler h)
  end.

Fixpoint embed (n : node S) : node T :=
  match n with
  | Txt s => Txt s
  | El t ps ks => El t (map embed_prop ps) (map embed ks)
  end.

Lemma flag_embed key ps : flag key (map embed_prop ps) = flag key ps.
Proof. induction ps as [|[] ps IH]; simpl; rewrite ?IH; done. Qed.

Lemma handlers_embed ps : handlers (map embed_prop ps) = map embed_handler (handlers ps).
Proof. induction ps as [|[] ps IH]; simpl; rewrite ?IH; done. Qed.

(** The controls of an embedded component are its own. *)
Lemma actions_embed : forall n, actions (embed n) = map embed_handler (actions n).
Proof.
  fix IH 1. intros [s|t ps ks]; [done|]. simpl. rewrite flag_embed, handlers_embed, map_app.
  f_equal; [by destruct (flag _ _)|].
  induction ks as [|k ks IHk]; simpl; [done|]. by rewrite map_app, IH, IHk.
Qed.

Lemma all_actions_embed (P : handler T -> Prop) n :
  all_actions (fun h => P (embed_handler h)) n -> all_actions P (embed n).
Proof.
  unfold all_actions. rewrite actions_embed, !Forall_forall. intros H h (h' & -> & Hh)%list_elem_of_fmap.
  by apply H.
Qed.
End embed.

(** Walks over a page and leaves one goal per handler that can be triggered. *)
Ltac walk :=
  repeat match goal with
  | |- all_actions _ (Txt _) => apply all_actions_Txt
  | |- all_actions _ (elem _ _) => apply all_actions_El; [intros _; constructor|]
  | |- all_actions _ (El _ _ _) =>
      let H := fresh in
      apply all_actions_El;
        [intros H; cbn in H; cbn [handlers on_click on_change on_select on_toggle on_choose];
         first [discriminate H | apply Forall_nil_2 | (apply Forall_singleton)]|]
  | |- each_actions _ [] => apply each_actions_nil
  | |- each_actions _ (_ :: _) => apply each_actions_cons
  | |- each_actions _ (_ ++ _)%list => apply each_actions_app
  | |- each_actions _ (when _ _) => apply each_actions_when; intros ?
  | |- each_actions _ (InputError _) => apply each_actions_InputError
  | |- each_actions _ (map _ _) => apply each_actions_map; intros ? ?
  | |- each_actions _ (imap _ _) => apply each_actions_imap; intros ? ? ?
  end.

#[global] Arguments str_eq !s !t : simpl nomatch.

Ltac walk_submits :=
  lazymatch goal with
  | |- flat_map submits ?l = [] => change (none_submits l)
  | |- submits ?n = [] => change (no_submits n)
  | _ => idtac
  end;
  repeat match goal with
  | |- no_submits (Txt _) => apply no_submits_Txt
  | |- no_submits (elem _ _) => apply no_submits_El; [exact I|]
  | |- no_submits (El _ _ _) => apply no_submits_El; [first [exact I|reflexivity]|]
  | |- none_submits [] => apply none_submits_nil
  | |- none_submits (_ :: _) => apply none_submits_cons
  | |- none_submits (_ ++ _)%list => apply none_submits_app
  | |- none_submits (when _ _) => apply none_submits_when; intros ?
  | |- none_submits (InputError _) => apply submits_InputError
  | |- none_submits (map _ _) => apply none_submits_map; intros ? ?
  end.
