(* ===== verification/SqlEditor.v ===== *)
(** * The SQL editor

    [resources/js/components/crucible/sql-editor.tsx], a wrapper of CodeMirror, and the service
    that reads the schema it completes, [app/Services/DatabaseSchemaBrowser.php].

    CodeMirror is third-party.  What is used of it is documented: a transaction may replace the
    document and may set the selection; where it sets none, the selection is mapped through the
    changes ([map_selection], a parameter) or stays; every extension is told of the transaction,
    [onChange] before the extensions of this file, and only of changes that do not come from the
    [value] of the component.  Its theme and its built-in extensions are left out. *)

From Stdlib Require Import String.
From stdpp Require Import gmap strings list.
From S2P Require Import Prelude JsString View.

Open Scope string_scope.
Open Scope Z_scope.
Open Scope list_scope.

(** ** Data *)

Record SchemaColumn := {
  column_name : string;
  column_type : option string;
  nullable : option bool;
}.

Record SchemaTable := { table_name : string; columns : list SchemaColumn }.

(** The editor: its document and the main selection. *)
Record EditorView := { doc : string; sel_from : nat; sel_to : nat }.

(** ** The schema on the server (DatabaseSchemaBrowser.php) *)

(** A row of [information_schema]; the name of a table without columns is joined to nothing. *)
Record SchemaRow := {
  row_table : option string;
  row_column : option string;
  data_type : option string;
  is_nullable : option string;
}.

(** Lines 79-85 *)
Definition row_columns (row : SchemaRow) : list SchemaColumn :=
  match row_column row with
  | Some columnName => [{|
      column_name := columnName;
      column_type := data_type row;
      nullable := (fun n => str_eq (toUpperCase n) "YES") <$> is_nullable row |}]
  | None => []
  end.

(** [$tables[$name] ??= ...] and the column appended to it; the keys of a PHP array keep the order
    in which they came. *)
Fixpoint add_row (tableName : string) (new : list SchemaColumn) (tables : list SchemaTable)
    : list SchemaTable :=
  match tables with
  | [] => [{| table_name := tableName; columns := new |}]
  | table :: tables' =>
      if str_eq (table_name table) tableName
      then {| table_name := tableName; columns := columns table ++ new |} :: tables'
      else table :: add_row tableName new tables'
  end.

Definition tables_of_rows (rows : list SchemaRow) : list SchemaTable :=
  fold_left (fun tables row => add_row (row_table row ?? "") (row_columns row) tables) rows [].

(** ** Completions *)

Record Completion := {
  label : string;
  completion_type : string;
  detail : option string;
  info : option string;
}.

Definition completion (column : SchemaColumn) : Completion := {|
  label := column_name column;
  completion_type := "property";
  detail := column_type column;
  info := match nullable column with
          | None => None
          | Some true => Some "Nullable"
          | Some false => Some "Required"
          end |}.

(** [Object.fromEntries]: of two entries with the same key the later one counts. *)
Definition schemaFromTables (tables : list SchemaTable) : gmap string (list Completion) :=
  fold_left (fun schema table => <[table_name table := map completion (columns table)]> schema)
    tables ∅.

Inductive SqlDialect := MySQL | PostgreSQL.

Definition dialect (driver : option string) : SqlDialect :=
  match driver with
  | Some d => if str_eq d "mysql" then MySQL else PostgreSQL
  | None => PostgreSQL
  end.

(** ** Transactions *)

(** [view.state.sliceDoc(a, b)] *)
Definition sliceDoc (view : EditorView) (a b : nat) : string := take_str (b - a) (drop_str a (doc view)).

Definition selectionText (view : EditorView) : string := sliceDoc view (sel_from view) (sel_to view).

Record Transaction := {
  changes : option string;          (** the document after it, when it changes the document *)
  selection : option (nat * nat);   (** the selection it sets *)
  fromValue : bool;                 (** dispatched because [value] changed *)
}.

(** The marked part of the document. *)
Definition selectedSqlDecorations (view : EditorView) : option (nat * nat) :=
  if (sel_from view =? sel_to view)%nat then None else Some (sel_from view, sel_to view).

Definition docChanged (tr : Transaction) : bool := is_some (changes tr).
Definition selectionSet (tr : Transaction) : bool := is_some (selection tr).

(** [update] of [selectedSqlHighlight]; [view] is the state after the transaction. *)
Definition updateHighlight (decorations : option (nat * nat)) (tr : Transaction) (view : EditorView)
    : option (nat * nat) :=
  if negb (selectionSet tr) && negb (docChanged tr) then decorations
  else selectedSqlDecorations view.

Section editor.
Context (map_selection : EditorView -> string -> nat * nat).

Definition apply_transaction (view : EditorView) (tr : Transaction) : EditorView :=
  let sel :=
    match selection tr, changes tr with
    | Some sel, _ => sel
    | None, Some new => map_selection view new
    | None, None => (sel_from view, sel_to view)
    end in
  {| doc := changes tr ?? doc view; sel_from := fst sel; sel_to := snd sel |}.

(** The state field, created with the editor, after transactions. *)
Definition highlighted (view : EditorView) (trs : list Transaction)
    : EditorView * option (nat * nat) :=
  fold_left (fun state tr =>
      let view' := apply_transaction (fst state) tr in (view', updateHighlight (snd state) tr view'))
    trs (view, selectedSqlDecorations view).
End editor.

(** ** The component, inside a page with the state [S] *)

Record KeyboardEvent := { key : string; metaKey : bool; ctrlKey : bool; altKey : bool }.

Section component.
Context {S : Type}.

Record EditorProps := {
  value : string;
  onChange : string -> S -> S;
  driver : option string;
  tables : list SchemaTable;
  height : option string;
  minHeight : option string;
  readOnly : bool;
  placeholder : option string;
  autoFocus : bool;
  onEditorReady : option (EditorView -> S -> S);
  onSelectionChange : option (string -> S -> S);
  onRunShortcut : option (S -> S);
}.

Context (p : EditorProps).

(** [f?.(x)] *)
Definition call {A} (f : option (A -> S -> S)) (x : A) (s : S) : S :=
  match f with Some f => f x s | None => s end.

(** The ref of the component and how often the editor was given the focus. *)
Record EditorRef := { created : bool; focuses : nat }.

Definition focus (r : EditorRef) : EditorRef := {| created := created r; focuses := Datatypes.S (focuses r) |}.

(** The effect of lines 178-182, run when [autoFocus] changes. *)
Definition focusEffect (r : EditorRef) : EditorRef :=
  if autoFocus p && created r then focus r else r.

Definition handleEditorReady (view : EditorView) (r : EditorRef) (s : S) : EditorRef * S :=
  let r := {| created := true; focuses := focuses r |} in
  (if autoFocus p then focus r else r, call (onEditorReady p) view s).

(** Whether the key is taken from the editor, and what the page does. *)
Definition handleKeyDownCapture (event : KeyboardEvent) (s : S) : bool * S :=
  if negb (str_eq (key event) "Enter") || (negb (metaKey event) && negb (ctrlKey event)) || altKey event
  then (false, s)
  else (true, match onRunShortcut p with Some run => run s | None => s end).

(** The listener of the extensions. *)
Definition selectionListener (tr : Transaction) (view : EditorView) (s : S) : S :=
  if negb (selectionSet tr) then s else call (onSelectionChange p) (selectionText view) s.

(** What the page is told of a transaction; [view] is the editor after it. *)
Definition viewUpdated (tr : Transaction) (view : EditorView) (s : S) : S :=
  selectionListener tr view (if docChanged tr && negb (fromValue tr) then onChange p (doc view) s else s).

Definition dialectName (d : SqlDialect) : string :=
  match d with MySQL => "mysql" | PostgreSQL => "postgresql" end.

Definition SqlEditor : node S :=
  El (Tag "CodeMirror")
    ([Attr "value" (value p)] ++
     match height p with Some h => [Attr "height" h] | None => [] end ++
     [Attr "minHeight" (minHeight p ?? "18rem");
      Attr "dialect" (dialectName (dialect (driver p)));
      Flag "editable" (negb (readOnly p));
      Flag "readOnly" (readOnly p);
      Attr "placeholder" (placeholder p ?? "select * from table_name");
      on_change (onChange p);
      On "keyDownCapture" (fun _ _ s =>
        match onRunShortcut p with Some run => run s | None => s end)]) [].

(** What the element does to the page: it reports a document, or runs the shortcut. *)
Lemma SqlEditor_actions h now ev (s : S) : h ∈ actions SqlEditor ->
  h now ev s = s \/ (exists v, h now ev s = onChange p v s) \/
  (exists run, onRunShortcut p = Some run /\ h now ev s = run s).
Proof.
  intros Hh. replace (actions SqlEditor) with
    (handlers [on_change (onChange p);
               On "keyDownCapture" (fun _ _ s =>
                 match onRunShortcut p with Some run => run s | None => s end)]) in Hh
    by (unfold SqlEditor; by destruct (height p)).
  cbn [handlers on_change] in Hh. apply elem_of_cons in Hh as [->|Hh%list_elem_of_singleton].
  - destruct ev; eauto.
  - subst h. destruct (onRunShortcut p); eauto.
Qed.

Lemma SqlEditor_entries typed sub : entries typed sub SqlEditor = [].
Proof. apply entries_Tag. Qed.

Lemma SqlEditor_submits : submits SqlEditor = [].
Proof. done. Qed.
End component.

Arguments EditorProps : clear implicits.

(** ** Every column is completed under its table *)

Definition named (name : string) (table : SchemaTable) : bool := str_eq (table_name table) name.

Definition row_of (name : string) (row : SchemaRow) : bool := str_eq (row_table row ?? "") name.

(** The columns the rows give a table. *)
Definition columns_in (rows : list SchemaRow) (name : string) : list SchemaColumn :=
  flat_map row_columns (List.filter (row_of name) rows).

Lemma find_add_row name m new tables :
  find_first (named name) (add_row m new tables) =
  if str_eq m name
  then Some {| table_name := m;
               columns := match find_first (named name) tables with
                          | Some t => columns t
                          | None => []
                          end ++ new |}
  else find_first (named name) tables.
Proof.
  unfold named. induction tables as [|t tables IH]; cbn [add_row find_first]; [done|].
  destruct (str_eq (table_name t) m) eqn:Et; cbn [find_first table_name columns].
  - apply str_eq_true in Et as <-. by destruct (str_eq (table_name t) name).
  - rewrite IH. destruct (str_eq (table_name t) name) eqn:En; [|done].
    apply str_eq_true in En as <-. apply str_eq_false in Et.
    by rewrite (proj2 (str_eq_false m (table_name t))) by congruence.
Qed.

Lemma names_add_row m new tables :
  map table_name (add_row m new tables) =
  map table_name tables ++ when (negb (existsb (named m) tables)) [m].
Proof.
  induction tables as [|t tables IH]; [done|]. cbn [add_row existsb map]. unfold named at 1.
  destruct (str_eq (table_name t) m) eqn:Et; cbn [map].
  - apply str_eq_true in Et as ->. simpl. by rewrite app_nil_r.
  - by rewrite IH.
Qed.

Lemma NoDup_add_row m new tables :
  NoDup (map table_name tables) -> NoDup (map table_name (add_row m new tables)).
Proof.
  intros H. rewrite names_add_row. destruct (existsb (named m) tables) eqn:E; simpl.
  - by rewrite app_nil_r.
  - apply NoDup_app. split; [done|]. split; [|apply NoDup_singleton].
    intros x Hx ->%list_elem_of_singleton. apply list_elem_of_fmap in Hx as (t & -> & Ht).
    rewrite existsb_false_elem in E. specialize (E t Ht). unfold named in E. by rewrite str_eq_refl in E.
Qed.

Lemma tables_of_rows_snoc rows row :
  tables_of_rows (rows ++ [row]) = add_row (row_table row ?? "") (row_columns row) (tables_of_rows rows).
Proof. unfold tables_of_rows. by rewrite fold_left_app. Qed.

Lemma tables_of_rows_NoDup rows : NoDup (map table_name (tables_of_rows rows)).
Proof.
  induction rows as [|row rows IH] using rev_ind; [constructor|].
  rewrite tables_of_rows_snoc. by apply NoDup_add_row.
Qed.

Lemma filter_no_row name rows : existsb (row_of name) rows = false -> List.filter (row_of name) rows = [].
Proof.
  induction rows as [|r rows IH]; [done|]. cbn [existsb List.filter].
  intros [-> H]%orb_false_iff. by apply IH.
Qed.

Lemma tables_of_rows_find rows name :
  find_first (named name) (tables_of_rows rows) =
  if existsb (row_of name) rows
  then Some {| table_name := name; columns := columns_in rows name |} else None.
Proof.
  induction rows as [|row rows IH] using rev_ind; [done|].
  rewrite tables_of_rows_snoc, find_add_row, IH, existsb_app. unfold columns_in.
  rewrite List.filter_app, flat_map_app. cbn [existsb List.filter].
  destruct (row_of name row) eqn:E; unfold row_of in E; rewrite E; cbn [flat_map app orb].
  - apply str_eq_true in E as ->. rewrite app_nil_r, orb_true_r.
    destruct (existsb (row_of name) rows) eqn:Ex; [done|]. by rewrite (filter_no_row _ _ Ex).
  - by rewrite app_nil_r, orb_false_r.
Qed.

Lemma schema_lookup tables name (schema : gmap string (list Completion)) :
  NoDup (map table_name tables) ->
  fold_left (fun schema table => <[table_name table := map completion (columns table)]> schema)
    tables schema !! name =
  match find_first (named name) tables with
  | Some table => Some (map completion (columns table))
  | None => schema !! name
  end.
Proof.
  revert schema. induction tables as [|t tables IH]; intros schema Hnd; [done|].
  apply NoDup_cons in Hnd as [Hn Hnd]. cbn [fold_left find_first]. rewrite IH by done.
  unfold named at 2. destruct (str_eq (table_name t) name) eqn:E.
  - apply str_eq_true in E as <-. destruct (find_first _ tables) as [t'|] eqn:Ef.
    + apply find_first_Some in Ef as [Ht' E']. apply str_eq_true in E'. exfalso. apply Hn.
      rewrite <- E'. by apply list_elem_of_fmap_2.
    + by rewrite lookup_insert_eq.
  - apply str_eq_false in E. by rewrite lookup_insert_ne by done.
Qed.

(** The editor completes the columns of a table: from the rows the database gives, the schema
    of the editor holds every table of a row, with a completion for each of its columns, in the
    order of the rows, and says of each whether it may be null; and it holds nothing else. *)
Theorem editor_completes_columns rows name :
  schemaFromTables (tables_of_rows rows) !! name =
  if existsb (row_of name) rows then Some (map completion (columns_in rows name)) else None.
Proof.
  unfold schemaFromTables. rewrite schema_lookup by apply tables_of_rows_NoDup.
  rewrite tables_of_rows_find. by destruct (existsb _ rows).
Qed.

Definition information_row (t c ty n : string) : SchemaRow := {|
  row_table := Some t; row_column := Some c; data_type := Some ty; is_nullable := Some n |}.

(** The rows of PostgreSQL come from all schemas, and are told apart by the name of the table
    alone: two tables with one name are one table, with the columns of both. *)
Lemma same_name_merged :
  tables_of_rows [information_row "users" "id" "bigint" "NO";   (* public.users *)
                  information_row "users" "event" "text" "YES"; (* audit.users *)
                  information_row "users" "email" "text" "NO"] =
  [{| table_name := "users";
      columns := [{| column_name := "id"; column_type := Some "bigint"; nullable := Some false |};
                  {| column_name := "event"; column_type := Some "text"; nullable := Some true |};
                  {| column_name := "email"; column_type := Some "text"; nullable := Some false |}] |}].
Proof. reflexivity. Qed.

(** ** The highlight, the focus and the shortcut *)

(** The field that is only recomputed when the selection or the document changes marks what a
    field computed after every transaction would: the selection, unless it is empty. *)
Theorem highlight_is_selection map_selection view trs :
  let state := highlighted map_selection view trs in
  snd state = selectedSqlDecorations (fst state).
Proof.
  unfold highlighted. induction trs as [|tr trs IH] using rev_ind; [done|].
  rewrite fold_left_app. cbn [fold_left fst snd]. set (st := fold_left _ _ _) in *. clearbody st.
  unfold updateHighlight, apply_transaction, docChanged, selectionSet.
  by destruct (selection tr) as [[a b]|], (changes tr) as [new|].
Qed.

(** An editor with [autoFocus] has the focus once it is created, whether the effect runs before or
    after that; one without never takes it. *)
Theorem focused_when_ready {S} (p : EditorProps S) view s (effect_first : bool) :
  let mounted := {| created := false; focuses := 0 |} in
  let r := if effect_first then fst (handleEditorReady p view (focusEffect p mounted) s)
           else focusEffect p (fst (handleEditorReady p view mounted s)) in
  created r = true /\ (0 < focuses r)%nat <-> autoFocus p = true.
Proof.
  destruct effect_first; unfold focusEffect, handleEditorReady, focus; cbn [fst];
    destruct (autoFocus p); cbn [andb created focuses]; split; try done; try lia.
  all: intros [_ H]; cbn in H; lia.
Qed.

(** The shortcut is Enter with Cmd or Ctrl and without Alt; other keys reach the editor. *)
Theorem shortcut_runs {S} (p : EditorProps S) event s :
  handleKeyDownCapture p event s =
  if str_eq (key event) "Enter" && (metaKey event || ctrlKey event) && negb (altKey event)
  then (true, match onRunShortcut p with Some run => run s | None => s end)
  else (false, s).
Proof.
  unfold handleKeyDownCapture.
  by destruct (str_eq (key event) "Enter"), (metaKey event), (ctrlKey event), (altKey event).
Qed.
