(* ===== verification/ConnectionCombobox.v ===== *)
(** * Choosing connections

    [resources/js/components/crucible/connection-combobox.tsx]: the combo boxes for one and for
    several connections, and the two that add a connection or a group to a list of policies (these
    keep no choice: their [value] is only ever set to [null]).  The box itself is a third-party component: an element with its items
    and the change handler, which receives the items picked (an empty pick clears a single
    choice).  Its text search is the parameter [contains] of [connection_filter]. *)

From Stdlib Require Import String.
From S2P Require Import Prelude JsString CrucibleLib View.

Open Scope string_scope.

Record ConnectionOption := {
  option_id : Z;
  option_name : string;
  option_driver : string;
  option_host : option string;
  option_port : option Z;
  option_database : option string;
}.

Record ConnectionGroupOption := {
  group_option_id : Z;
  group_option_name : string;
  group_option_description : option string;
  database_connections_count : Z;
}.

Section combobox.
Context {S : Type}.
Implicit Types (connections : list ConnectionOption).

Definition connection_filter (contains : string -> string -> bool) (connection : ConnectionOption)
    (query : string) : bool :=
  contains (option_name connection) query || contains (driverLabel (option_driver connection)) query.

(** The items at the positions picked. *)
Definition picked {A} (items : list A) (positions : list nat) : list A :=
  flat_map (fun i => match items !! i with Some c => [c] | None => [] end) positions.

(** A row of the list: the name and the kind of database. *)
Definition connection_item (connection : ConnectionOption) : node S :=
  El (Tag "Combobox.Item") [Attr "key" (str_of_Z (option_id connection))]
    [elem "div"
       [elem "span" [elem "span" [Txt (option_name connection)];
                     elem "span" [Txt (driverLabel (option_driver connection))]]]].

(** [name]: [None] when the property is not given; [name={null}] is the empty string. *)
Definition ConnectionCombobox (connections : list ConnectionOption)
    (description error label name : option string)
    (onValueChange : string -> S -> S) (value : string) : list (node S) :=
  let selectedConnection :=
    find_first (fun connection => str_eq (str_of_Z (option_id connection)) value) connections in
  let name := name ?? "database_connection_id" in
  (when (truthy name)
     [El TInput [Attr "type" "hidden"; Attr "name" name; Attr "value" value] []] ++
   [El (Tag "Combobox")
      [Attr "value" ((option_name <$> selectedConnection) ?? "");
       On "valueChange" (fun _ ev s =>
         match ev with
         | Pick positions =>
             match picked connections positions with
             | connection :: _ => onValueChange (str_of_Z (option_id connection)) s
             | [] => onValueChange "" s
             end
         | _ => s
         end);
       Attr "label" (label ?? "Connection");
       Attr "description" (description ?? "Search by connection name or database type.");
       Attr "error" (error ?? ""); Flag "required" true]
      [El (Tag "Combobox.TriggerValue") [Attr "placeholder" "Select a connection"]
         [Txt ((option_name <$> selectedConnection) ?? "Select a connection")];
       elem "Combobox.Content"
         [El (Tag "Combobox.Input")
            [Attr "placeholder" "Search connections..."; Attr "aria-label" "Search connections"] [];
          elem "Combobox.List" (map connection_item connections);
          elem "Combobox.Empty"
            [elem "div" [elem "span" [Txt "No matching connections"]]]]]])%list.

Definition ConnectionMultiCombobox (connections : list ConnectionOption)
    (description error label name : option string)
    (onValueChange : list string -> S -> S) (values : list string) : list (node S) :=
  let selectedConnections :=
    List.filter (fun connection => existsb (str_eq (str_of_Z (option_id connection))) values)
      connections in
  let name := name ?? "database_connection_ids[]" in
  (when (truthy name)
     (map (fun value => El TInput [Attr "key" value; Attr "type" "hidden"; Attr "name" name;
                                   Attr "value" value] []) values) ++
   [El (Tag "Combobox")
      [Flag "multiple" true;
       Attr "value" (join ", " (map option_name selectedConnections));
       On "valueChange" (fun _ ev s =>
         match ev with
         | Pick positions =>
             onValueChange
               (map (fun connection => str_of_Z (option_id connection)) (picked connections positions)) s
         | _ => s
         end);
       Attr "label" (label ?? "Connections");
       Attr "description"
         (description ?? "Select every database that should be available in this session.");
       Attr "error" (error ?? ""); Flag "required" true]
      [El (Tag "Combobox.TriggerMultipleWithInput")
         [Attr "placeholder" "Search and select connections..."]
         (map (fun connection => elem "Combobox.Chip" [Txt (option_name connection)])
            selectedConnections);
       elem "Combobox.Content"
         [elem "Combobox.List" (map connection_item connections);
          elem "Combobox.Empty"
            [elem "div" [elem "span" [Txt "No matching connections"]]]]]])%list.

(** Lines 239-246 *)
Definition add_filter (contains : string -> string -> bool) (connection : ConnectionOption)
    (query : string) : bool :=
  contains (option_name connection) query || contains (driverLabel (option_driver connection)) query ||
  contains (option_host connection ?? "") query || contains (option_database connection ?? "") query.

(** Lines 343-348 *)
Definition group_filter (contains : string -> string -> bool) (connectionGroup : ConnectionGroupOption)
    (query : string) : bool :=
  contains (group_option_name connectionGroup) query ||
  contains (group_option_description connectionGroup ?? "") query.

(** The change handler of the boxes that add: the first item picked, unless it was added before. *)
Definition add_picked {A} (items : list A) (id : A -> Z) (disabledValues : list string)
    (onAdd : string -> S -> S) : handler S := fun _ ev s =>
  match ev with
  | Pick positions =>
      match picked items positions with
      | item :: _ =>
          let value := str_of_Z (id item) in
          if existsb (str_eq value) disabledValues then s else onAdd value s
      | [] => s
      end
  | _ => s
  end.

(** The mark at the end of an item. *)
Definition added_mark (isAdded : bool) : node S :=
  elem "span" [Txt (if isAdded then "Added" else "Add")].

Definition ConnectionAddCombobox connections (description : option string)
    (disabledValues : list string) (label : option string) (onAdd : string -> S -> S) : node S :=
  El (Tag "Combobox")
    [Attr "value" ""; On "valueChange" (add_picked connections option_id disabledValues onAdd);
     Attr "label" (label ?? "Add connection policy");
     Attr "description" (description ?? "Search by connection name, host, database, or driver.")]
    [El (Tag "Combobox.TriggerInput") [Attr "placeholder" "Search and add a connection..."] [];
     elem "Combobox.Content"
       [elem "Combobox.List"
          (map (fun connection =>
             let isAdded := existsb (str_eq (str_of_Z (option_id connection))) disabledValues in
             El (Tag "Combobox.Item")
               [Attr "key" (str_of_Z (option_id connection)); Flag "disabled" isAdded]
               [elem "div"
                  [elem "div"
                     [elem "div" [Txt (option_name connection)];
                      elem "div"
                        [Txt ((option_host connection ?? "") ++ ":" ++
                              match option_port connection with Some p => str_of_Z p | None => "" end ++
                              " / " ++ (option_database connection ?? ""))];
                      elem "div" [Txt (driverLabel (option_driver connection))]];
                   added_mark isAdded]]) connections);
        elem "Combobox.Empty" [elem "div" [elem "span" [Txt "No matching connections"]]]]].

Definition ConnectionGroupAddCombobox (connectionGroups : list ConnectionGroupOption)
    (description : option string) (disabledValues : list string) (label : option string)
    (onAdd : string -> S -> S) : node S :=
  El (Tag "Combobox")
    [Attr "value" "";
     On "valueChange" (add_picked connectionGroups group_option_id disabledValues onAdd);
     Attr "label" (label ?? "Add a connection group");
     Attr "description"
       (description ?? "Search by group name or description. Members receive this policy immediately.")]
    [El (Tag "Combobox.TriggerInput") [Attr "placeholder" "Search and add a connection group..."] [];
     elem "Combobox.Content"
       [elem "Combobox.List"
          (map (fun connectionGroup =>
             let isAdded := existsb (str_eq (str_of_Z (group_option_id connectionGroup))) disabledValues in
             El (Tag "Combobox.Item")
               [Attr "key" (str_of_Z (group_option_id connectionGroup)); Flag "disabled" isAdded]
               [elem "div"
                  [elem "div"
                     [elem "span"
                        [elem "span" [Txt (group_option_name connectionGroup)];
                         elem "span"
                           [Txt (str_of_Z (database_connections_count connectionGroup) ++ " connections" ++
                                 if truthy_opt (group_option_description connectionGroup)
                                 then " · " ++ (group_option_description connectionGroup ?? "")
                                 else "")]]];
                   added_mark isAdded]]) connectionGroups);
        elem "Combobox.Empty" [elem "div" [elem "span" [Txt "No matching connection groups"]]]]].

(** ** What they post, and what they can do *)

Lemma elem_of_picked {A} (items : list A) positions c : c ∈ picked items positions -> c ∈ items.
Proof.
  intros (i & _ & Hc)%elem_of_flat_map. destruct (items !! i) eqn:Hi; [|by apply elem_of_nil in Hc].
  apply list_elem_of_singleton in Hc as ->. by apply list_elem_of_lookup_2 in Hi.
Qed.

(** Picking an item adds it, unless it was added before; anything else does nothing. *)
Lemma add_picked_spec {A} (items : list A) id disabledValues onAdd now ev s :
  add_picked items id disabledValues onAdd now ev s = s \/
  exists item, item ∈ items /\ str_of_Z (id item) ∉ disabledValues /\
    add_picked items id disabledValues onAdd now ev s = onAdd (str_of_Z (id item)) s.
Proof.
  unfold add_picked. destruct ev as [| | |positions]; auto.
  destruct (picked items positions) as [|item rest] eqn:E; [by auto|].
  destruct (existsb _ _) eqn:Hd; [by auto|]. right. exists item. split_and!; [| |done].
  - apply (elem_of_picked items positions). rewrite E. apply list_elem_of_here.
  - intros Hin. pose proof (proj1 (existsb_false_elem _ _) Hd _ Hin) as Hf.
    by rewrite str_eq_refl in Hf.
Qed.

Lemma ConnectionCombobox_entries typed sub cs d e l name f value :
  truthy name = true ->
  flat_map (entries typed sub) (ConnectionCombobox cs d e l (Some name) f value) = [(name, value)].
Proof.
  intros Hn. unfold ConnectionCombobox. destruct name as [|a name]; [done|]. cbn.
  rewrite !app_nil_r, flat_map_map, flat_map_nil_all by done. done.
Qed.

Lemma ConnectionMultiCombobox_entries typed sub cs d e l f values :
  flat_map (entries typed sub) (ConnectionMultiCombobox cs d e l None f values) =
  map (pair "database_connection_ids[]") values.
Proof.
  unfold ConnectionMultiCombobox. rewrite flat_map_app.
  change (when (truthy (None ?? "database_connection_ids[]")) ?x) with x.
  rewrite flat_map_map.
  replace (flat_map (entries typed sub) [El (Tag "Combobox") _ _]) with (@nil (string * string)).
  - rewrite app_nil_r. induction values as [|v vs IH]; [done|]. cbn in *. by rewrite IH.
  - cbn. rewrite !app_nil_r, !flat_map_map, !flat_map_nil_all by done. done.
Qed.

Lemma ConnectionAddCombobox_entries typed sub cs d dv l f :
  entries typed sub (ConnectionAddCombobox cs d dv l f) = [].
Proof.
  unfold ConnectionAddCombobox. cbn -[added_mark]. rewrite !app_nil_r, flat_map_map.
  apply flat_map_nil_all. intros c. by rewrite entries_Tag.
Qed.

Lemma ConnectionGroupAddCombobox_entries typed sub gs d dv l f :
  entries typed sub (ConnectionGroupAddCombobox gs d dv l f) = [].
Proof.
  unfold ConnectionGroupAddCombobox. cbn -[added_mark]. rewrite !app_nil_r, flat_map_map.
  apply flat_map_nil_all. intros c. by rewrite entries_Tag.
Qed.

(** The only action of a single choice clears it or chooses one of its connections. *)
Lemma ConnectionCombobox_actions cs d e l name f value h :
  h ∈ flat_map actions (ConnectionCombobox cs d e l name f value) ->
  forall now ev s, h now ev s = s \/ h now ev s = f "" s \/
    exists c, c ∈ cs /\ h now ev s = f (str_of_Z (option_id c)) s.
Proof.
  unfold ConnectionCombobox. rewrite flat_map_app, elem_of_app. intros [Hh|Hh].
  { by destruct (truthy _); apply elem_of_nil in Hh. }
  cbn in Hh. rewrite !app_nil_r, flat_map_map, flat_map_nil_all in Hh by done.
  apply list_elem_of_singleton in Hh as ->. intros now [| | |positions] s; auto.
  destruct (picked cs positions) as [|c cs'] eqn:E; [by auto|]. right; right.
  exists c. split; [|done]. apply (elem_of_picked cs positions). rewrite E. apply list_elem_of_here.
Qed.

(** The only action of a choice of several sets the list of the connections picked. *)
Lemma ConnectionMultiCombobox_actions cs d e l name f values h :
  h ∈ flat_map actions (ConnectionMultiCombobox cs d e l name f values) ->
  forall now ev s, h now ev s = s \/
    exists chosen, (forall c, c ∈ chosen -> c ∈ cs) /\
      h now ev s = f (map (fun c => str_of_Z (option_id c)) chosen) s.
Proof.
  unfold ConnectionMultiCombobox. rewrite flat_map_app, elem_of_app. intros [Hh|Hh].
  { destruct (truthy _); simpl in Hh; [|by apply elem_of_nil in Hh].
    rewrite flat_map_map, flat_map_nil_all in Hh by done. by apply elem_of_nil in Hh. }
  cbn in Hh. rewrite !app_nil_r, !flat_map_map, !flat_map_nil_all in Hh by done.
  apply list_elem_of_singleton in Hh as ->. intros now [| | |positions] s; auto. right.
  exists (picked cs positions). split; [|done]. intros c. apply elem_of_picked.
Qed.

Lemma ConnectionCombobox_submits cs d e l name f value :
  none_submits (ConnectionCombobox cs d e l name f value).
Proof. unfold ConnectionCombobox, connection_item. walk_submits. Qed.

Lemma ConnectionMultiCombobox_submits cs d e l name f values :
  none_submits (ConnectionMultiCombobox cs d e l name f values).
Proof. unfold ConnectionMultiCombobox, connection_item. walk_submits. Qed.
End combobox.
