(* ===== verification/Badges.v ===== *)
(** * Badges and frames

    [resources/js/components/crucible/status-badge.tsx], the tones of
    [resources/js/components/crucible/semantic-icon.tsx], and the frames of the lists,
    [data-registry.tsx] and [empty-state.tsx] of the same directory.  A tone stands for its class names.
    The values come from the server's enumerations, none of which is the name of a property
    every JavaScript object has. *)

From Stdlib Require Import String.
From S2P Require Import Prelude JsString CrucibleLib View.

Open Scope string_scope.

Inductive SemanticTone := Neutral | Info | Pending | Danger | Success | Write | Native.

#[global] Instance SemanticTone_eq_dec : EqDecision SemanticTone.
Proof. solve_decision. Defined.

Definition statusTones : list (string * SemanticTone) :=
  [ ("active", Success); ("approved", Info); ("cancelled", Neutral); ("completed", Success);
    ("degraded", Pending); ("disabled", Neutral); ("draft", Neutral); ("failed", Danger);
    ("healthy", Success); ("mysql", Write); ("native_proxy", Native); ("none", Neutral);
    ("passed", Success); ("pending", Pending); ("pending_review", Pending); ("pgsql", Info);
    ("query_access", Info); ("read", Info); ("read_only", Info); ("read_write", Write);
    ("rejected", Danger); ("running", Info); ("scheduled", Info); ("schedule_missed", Pending);
    ("single_execution", Info); ("succeeded", Success); ("unhealthy", Danger);
    ("unknown", Neutral); ("version_mismatch", Pending); ("write", Write) ].

Definition semanticToneForStatus (value : string) : SemanticTone :=
  (snd <$> find_first (fun e => str_eq (fst e) value) statusTones) ?? Neutral.

Definition tone_name (t : SemanticTone) : string :=
  match t with
  | Neutral => "neutral" | Info => "info" | Pending => "pending" | Danger => "danger"
  | Success => "success" | Write => "write" | Native => "native"
  end.

Section badges.
Context {S : Type}.

Definition StatusBadge (value : string) (label : option string) : node S :=
  El (Tag "Badge") [Attr "tone" (tone_name (semanticToneForStatus value))]
    [Txt (label ?? statusLabel value)].

Definition AccessModeBadge (mode : AccessMode) : node S :=
  let '(value, label) :=
    match mode with
    | AccessNone => ("disabled", "Disabled")
    | AccessRead => ("read_only", "Read-only")
    | AccessWrite => ("read_write", "Read + write")
    end in
  StatusBadge value (Some label).

Definition SessionAccessBadge (mode : option QueryType) : node S :=
  AccessModeBadge (match mode with Some WriteQuery => AccessWrite | _ => AccessRead end).

(** [components/crucible/data-registry.tsx]; what may be left out is a list. *)
Definition DataRegistry (title : string) (description : option string) (acts children : list (node S))
    : node S :=
  elem "section"
    (elem "div"
       (elem "div"
          (elem "h2" [Txt title] ::
           when (truthy_opt description) [elem "p" [Txt (description ?? "")]])
        :: when (match acts with [] => false | _ => true end) [elem "div" acts])
     :: children)%list.

(** [components/crucible/empty-state.tsx] *)
Definition EmptyState (title : string) (detail : option string) (action : list (node S)) : node S :=
  elem "div"
    (elem "div"
       (elem "p" [Txt title] :: when (truthy_opt detail) [elem "p" [Txt (detail ?? "")]])
     :: action)%list.

Lemma all_actions_StatusBadge P value label : all_actions P (StatusBadge value label).
Proof. unfold StatusBadge. walk. Qed.

Lemma all_actions_SessionAccessBadge P mode : all_actions P (SessionAccessBadge mode).
Proof.
  unfold SessionAccessBadge, AccessModeBadge.
  destruct mode as [[]|]; apply all_actions_StatusBadge.
Qed.
End badges.
