(* ===== verification/Navigation.v ===== *)
(** * Navigation

    The side bar and the header around every page of the application:
    [resources/js/components/app-sidebar.tsx], [nav-main.tsx], [app-sidebar-header.tsx],
    [native-proxy/health-status.tsx] and [breadcrumbs.tsx].

    The side bar stays in the document while pages change, so its state outlives them.  The address
    of a link is the text [toUrl] makes of it.  Menus and tooltips are rendered open. *)

From Stdlib Require Import String.
From stdpp Require Import gmap strings.
From S2P Require Import Prelude JsString CrucibleLib Hooks View Badges.

Open Scope string_scope.
Open Scope Z_scope.
Open Scope list_scope.

(** ** Data *)

Record NavItem := {
  title : string;
  href : string;
  isActive : option bool;
  badge : option Z;
}.

Record NavSection := { section_label : string; items : list NavItem }.

(** ** A group of links (nav-main.tsx) *)

(** The state of a [NavMain]: which sections the user opened or closed, and the override of the
    whole group for an address. *)
Record NavState := {
  sectionOpenStates : gmap string bool;
  internalOpenOverride : option (string * bool);
}.

Record NavProps := {
  nav_label : option string;
  nav_title : option string;
  nav_items : list NavItem;
  nav_sections : list NavSection;
  collapsible : bool;
  defaultOpen : bool;
  open : option bool;
  nestedItems : bool;
}.

Section nav_main.
(** [new URL(s).pathname], and the path of the current page. *)
Context (pathname : string -> option string) (currentUrl : string).

Definition active (item : NavItem) : bool :=
  match isActive item with Some true => true | _ => isCurrentUrl pathname currentUrl (href item) None false end.

Definition sectionActive (section : NavSection) : bool := existsb active (items section).

Definition hasActiveItem (p : NavProps) : bool :=
  existsb active (nav_items p ++ flat_map items (nav_sections p)).

Definition activeSectionLabels (sections : list NavSection) : list string :=
  map section_label (List.filter sectionActive sections).

Definition initialNav (sections : list NavSection) : NavState := {|
  sectionOpenStates :=
    list_to_map (map (fun label => (label, true)) (activeSectionLabels sections));
  internalOpenOverride := None |}.

Definition setSectionOpenStates (f : gmap string bool -> gmap string bool) (s : NavState)
    : NavState := {|
  sectionOpenStates := f (sectionOpenStates s); internalOpenOverride := internalOpenOverride s |}.

Definition internalOpen (p : NavProps) (s : NavState) : bool :=
  match internalOpenOverride s with
  | Some (url, override) =>
      if str_eq url currentUrl then override else defaultOpen p || hasActiveItem p
  | None => defaultOpen p || hasActiveItem p
  end.

Definition isControlled (p : NavProps) : bool := is_some (open p).

Definition isOpen (p : NavProps) (s : NavState) : bool := open p ?? internalOpen p s.

(** The part of [handleOpenChange] that changes the group's own state. *)
Definition overrideOpen (p : NavProps) (nextOpen : bool) (s : NavState) : NavState :=
  if negb (isControlled p) then {|
    sectionOpenStates := sectionOpenStates s; internalOpenOverride := Some (currentUrl, nextOpen) |}
  else s.

(** The loop of both handlers: a section that was neither opened nor closed is open now. *)
Definition openUndecided (labels : list string) (states : gmap string bool) : gmap string bool :=
  fold_left (fun nextStates label =>
    match nextStates !! label with
    | None => <[label := true]> nextStates
    | Some _ => nextStates
    end) labels states.

Definition preserveActiveSections (sections : list NavSection) : NavState -> NavState :=
  setSectionOpenStates (openUndecided (activeSectionLabels sections)).

Definition handleSectionOpenChange (sections : list NavSection) (sectionLabel : string)
    (nextOpen : bool) : NavState -> NavState :=
  setSectionOpenStates (fun currentStates =>
    <[sectionLabel := nextOpen]> (openUndecided (activeSectionLabels sections) currentStates)).

Definition sectionOpen (s : NavState) (section : NavSection) : bool :=
  (sectionOpenStates s !! section_label section) ?? sectionActive section.

(** *** Rendered, inside a page with the state [T] *)

Context {T : Type} (put : (NavState -> NavState) -> T -> T) (onOpenChange : bool -> T -> T).
Context (p : NavProps) (s : NavState).

Definition badgeText (item : NavItem) : list (node T) :=
  let badge := badge item ?? 0 in
  when (0 <? badge) [elem "span" [Txt (if 99 <? badge then "99+" else str_of_Z badge)]].

(** Lines 52-92 *)
Definition navItem (onNavigate : list (prop T)) (nested : bool) (item : NavItem) : node T :=
  let isActive := active item in
  El (Tag "SidebarMenuItem") [Attr "key" (title item)]
    [El (Tag "Link")
       ([Attr "href" (href item)] ++ when isActive [Attr "aria-current" "page"] ++ onNavigate)
       (elem "span" [Txt (title item)] :: badgeText item ++
        when (nested && isActive) [elem "span" []])].

Definition NavItems (items : list NavItem) (nested : bool) (onNavigate : list (prop T)) : node T :=
  elem "SidebarMenu" (map (navItem onNavigate nested) items).

(** Lines 96-141 *)
Definition NavSectionDisclosure (section : NavSection) : node T :=
  Collapsible (sectionOpen s section)
    (fun nextOpen => put (handleSectionOpenChange (nav_sections p) (section_label section) nextOpen))
    (section_label section)
    [elem "span" [Txt (section_label section)]]
    [NavItems (items section) true [on_click (put (preserveActiveSections (nav_sections p)))]].

Definition navigationContent : list (node T) :=
  when (0 <? length (nav_items p))%nat [NavItems (nav_items p) (nestedItems p) []] ++
  when (0 <? length (nav_sections p))%nat
    [elem "div" (map NavSectionDisclosure (nav_sections p))].

(** Lines 143-323 *)
Definition NavMain : node T :=
  elem "SidebarGroup"
    (when (truthy_opt (nav_label p)) [elem "SidebarGroupLabel" [Txt (nav_label p ?? "")]] ++
     if negb (collapsible p) then navigationContent
     else
       [Collapsible (isOpen p s)
          (fun nextOpen t => onOpenChange nextOpen (put (overrideOpen p nextOpen) t))
          (match nav_title p with Some t => t | None => nav_label p ?? "" end)
          [elem "span" [Txt (match nav_title p with Some t => t | None => nav_label p ?? "" end)]]
          navigationContent]).
End nav_main.

(** ** The side bar (app-sidebar.tsx) *)

Record SidebarRoutes := {
  dashboard : string;
  queryRequestsIndex : string;
  connectionsIndex : string;
  connectionGroupsIndex : string;
  usersIndex : string;
  rolesIndex : string;
  editAccessWorkflows : string;
  editAuthenticationMethods : string;
  authProvidersIndex : string;
  editSqlStatementPolicy : string;
  editApplicationSettings : string;
  editNotificationSettings : string;
  editApplicationDatabase : string;
  showSystemStatus : string;
  auditLogsIndex : string;
  editProfile : string;
  editPreferences : string;
  editSecurity : string;
}.

Record SidebarState := {
  work : NavState;
  data : NavState;
  manage : NavState;
  account : NavState;
  administrationOpen : bool;  (** [openNavigationGroups] *)
  accountOpen : bool;
}.

Section sidebar.
Context (pathname : string -> option string) (currentUrl : string) (routes : SidebarRoutes).
(** Whether a role of the user is an administrator's, and the policy reviews that wait. *)
Context (isAdmin : bool) (pending_count : option Z).

Definition nav (title href : string) : NavItem := {|
  title := title; href := href; isActive := None; badge := None |}.

Definition workNavItems : list NavItem :=
  [nav "Overview" (dashboard routes); nav "Query Requests" (queryRequestsIndex routes)].

Definition dataNavItems : list NavItem :=
  nav "Connections" (connectionsIndex routes) ::
  when isAdmin [nav "Connection Groups" (connectionGroupsIndex routes)].

Definition adminNavSections : list NavSection := [
  {| section_label := "Access & identity";
     items := [nav "People" (usersIndex routes); nav "Access Roles" (rolesIndex routes);
               nav "Access Workflows" (editAccessWorkflows routes)] |};
  {| section_label := "Security & policy";
     items :=
       [nav "Sign-in Methods" (editAuthenticationMethods routes);
        {| title := "SSO Providers"; href := authProvidersIndex routes;
           isActive := Some (isCurrentOrParentUrl pathname currentUrl (authProvidersIndex routes) None);
           badge := None |};
        {| title := "SQL Policy"; href := editSqlStatementPolicy routes; isActive := None;
           badge := Some (pending_count ?? 0) |}] |};
  {| section_label := "Application";
     items := [nav "General" (editApplicationSettings routes);
               nav "Notification Policy" (editNotificationSettings routes);
               nav "Database" (editApplicationDatabase routes);
               nav "System Status" (showSystemStatus routes)] |};
  {| section_label := "Governance"; items := [nav "Audit Log" (auditLogsIndex routes)] |} ].

Definition accountNavItems : list NavItem :=
  [nav "Profile" (editProfile routes); nav "Preferences" (editPreferences routes);
   nav "Security" (editSecurity routes)].

Definition hasActiveAdminItem : bool := existsb (sectionActive pathname currentUrl) adminNavSections.

Definition hasActiveAccountItem : bool :=
  existsb (fun item => isCurrentUrl pathname currentUrl (href item) None false) accountNavItems.

Definition initialSidebar : SidebarState := {|
  work := initialNav pathname currentUrl []; data := initialNav pathname currentUrl [];
  manage := initialNav pathname currentUrl adminNavSections;
  account := initialNav pathname currentUrl [];
  administrationOpen := hasActiveAdminItem; accountOpen := hasActiveAccountItem |}.

Definition on_work (f : NavState -> NavState) (s : SidebarState) : SidebarState := {|
  work := f (work s); data := data s; manage := manage s; account := account s;
  administrationOpen := administrationOpen s; accountOpen := accountOpen s |}.

Definition on_data (f : NavState -> NavState) (s : SidebarState) : SidebarState := {|
  work := work s; data := f (data s); manage := manage s; account := account s;
  administrationOpen := administrationOpen s; accountOpen := accountOpen s |}.

Definition on_manage (f : NavState -> NavState) (s : SidebarState) : SidebarState := {|
  work := work s; data := data s; manage := f (manage s); account := account s;
  administrationOpen := administrationOpen s; accountOpen := accountOpen s |}.

Definition on_account (f : NavState -> NavState) (s : SidebarState) : SidebarState := {|
  work := work s; data := data s; manage := manage s; account := f (account s);
  administrationOpen := administrationOpen s; accountOpen := accountOpen s |}.

Definition setAdministrationOpen (b : bool) (s : SidebarState) : SidebarState := {|
  work := work s; data := data s; manage := manage s; account := account s;
  administrationOpen := b; accountOpen := accountOpen s |}.

Definition setAccountOpen (b : bool) (s : SidebarState) : SidebarState := {|
  work := work s; data := data s; manage := manage s; account := account s;
  administrationOpen := administrationOpen s; accountOpen := b |}.

(** The properties of a group that is not collapsible. *)
Definition plainNav (label : string) (items : list NavItem) : NavProps := {|
  nav_label := Some label; nav_title := None; nav_items := items; nav_sections := [];
  collapsible := false; defaultOpen := true; open := None; nestedItems := false |}.

Definition manageNav (s : SidebarState) : NavProps := {|
  nav_label := Some "Manage"; nav_title := Some "Administration"; nav_items := [];
  nav_sections := adminNavSections; collapsible := true; defaultOpen := false;
  open := Some (administrationOpen s); nestedItems := false |}.

Definition accountNav (s : SidebarState) : NavProps := {|
  nav_label := None; nav_title := Some "Account"; nav_items := accountNavItems;
  nav_sections := []; collapsible := true; defaultOpen := false; open := Some (accountOpen s);
  nestedItems := true |}.

Definition no_change {S} (_ : bool) (s : S) : S := s.

Definition AppSidebar (s : SidebarState) : node SidebarState :=
  elem "Sidebar"
    [elem "SidebarHeader" [El (Tag "Link") [Attr "href" (dashboard routes)] [elem "AppLogo" []]];
     elem "SidebarContent"
       (NavMain pathname currentUrl on_work no_change (plainNav "Work" workNavItems) (work s)
        :: NavMain pathname currentUrl on_data no_change (plainNav "Data" dataNavItems) (data s)
        :: when isAdmin
             [NavMain pathname currentUrl on_manage setAdministrationOpen (manageNav s) (manage s)]);
     elem "SidebarFooter"
       [NavMain pathname currentUrl on_account setAccountOpen (accountNav s) (account s)]].
End sidebar.

(** ** The header (app-sidebar-header.tsx) *)

Record Health := {
  health_status : string;
  checked_at : option string;
  version : option string;
  health_message : option string;
}.

Record ProxyStatus := { health : Health; connections : Z; instances : Z }.

Record NotificationPreview := {
  preview_id : string;
  preview_title : string;
  preview_message : string;
  preview_request : option Z;
  preview_url : string;
  preview_read_at : option string;
}.

Record User := { user_name : string; user_email : string; user_timezone : option string }.

Record HeaderProps := {
  user : option User;
  cliDownloadUrl : option string;
  nativeProxyStatus : option ProxyStatus;
  unread_count : option Z;
  recent : option (list NotificationPreview);
  page_summary : option (Z * Z);  (** connections and instances *)
  nativeProxyHealth : option Health;
}.

Record HeaderRoutes := { markAllRead : string; notificationsIndex : string; logout : string }.

(** The status the layout got, or what the overview page says. *)
Definition resolvedNativeProxyStatus (p : HeaderProps) : option ProxyStatus :=
  match nativeProxyStatus p with
  | Some status => Some status
  | None =>
      match nativeProxyHealth p, page_summary p with
      | Some h, Some (connections, instances) =>
          Some {| health := h; connections := connections; instances := instances |}
      | _, _ => None
      end
  end.

Section header.
Context {S : Type} (intl : string -> option string -> string) (routes : HeaderRoutes).
Context (processing : bool) (sidebarTrigger : node S).

(** [native-proxy/health-status.tsx] *)
Definition NativeProxyHealthStatus (status : ProxyStatus) (timezone : string) : node S :=
  let h := health status in
  let fact (name value : string) := elem "div" [elem "dt" [Txt name]; elem "dd" [Txt value]] in
  elem "Tooltip"
    [El TButton [Attr "id" "native-proxy-status";
                 Attr "tone" (tone_name (semanticToneForStatus (health_status h)));
                 Attr "aria-label" ("Native proxy status: " ++ statusLabel (health_status h))%string] [];
     elem "TooltipContent"
       [elem "div" [elem "span" [Txt "Native proxy"]; StatusBadge (health_status h) None];
        elem "p" [Txt (health_message h ?? "Ready for native client connections.")];
        elem "dl"
          [fact "Connections" (str_of_Z (connections status));
           fact "Instances" (str_of_Z (instances status));
           fact "Version" (version h ?? "Unreported");
           fact "Last checked" (formatDate intl (checked_at h) (Some timezone))]]].

(** [breadcrumbs.tsx]: the last one is the page itself. *)
Definition Breadcrumbs (breadcrumbs : list (string * string)) : list (node S) :=
  let crumb (index : nat) (item : string * string) :=
    let isLast := (index =? length breadcrumbs - 1)%nat in
    elem "BreadcrumbItem"
      [if isLast then elem "BreadcrumbPage" [Txt (fst item)]
       else El (Tag "Link") [Attr "href" (snd item)] [Txt (fst item)]]
    :: when (negb isLast) [elem "BreadcrumbSeparator" []] in
  when (0 <? length breadcrumbs)%nat
    [elem "Breadcrumb" [elem "BreadcrumbList" (concat (imap crumb breadcrumbs))]].

Definition notificationPreview (n : NotificationPreview) : node S :=
  El (Tag "DropdownMenuItem") [Attr "key" (preview_id n)]
    [El (Tag "Link") [Attr "href" (preview_url n)]
       [elem "span"
          [elem "span"
             (match preview_request n with
              | Some id => [elem "span" [Txt "#"; Txt (str_of_Z id)]]
              | None => []
              end ++
              elem "span" [Txt (preview_title n)]
              :: when (negb (is_some (preview_read_at n))) [elem "span" []]);
           elem "span" [Txt (preview_message n)]]]].

(** Lines 137-250 *)
Definition notificationMenu (p : HeaderProps) : node S :=
  let unreadCount := unread_count p ?? 0 in
  elem "DropdownMenu"
    [El TButton
       [Attr "aria-label" (if 0 <? unreadCount
                           then (str_of_Z unreadCount ++ " unread notifications")%string
                           else "Notifications")]
       (when (0 <? unreadCount)
          [elem "span" [Txt (if 9 <? unreadCount then "9+" else str_of_Z unreadCount)]]);
     elem "DropdownMenuContent"
       [elem "div"
          [elem "p" [Txt "Notifications"];
           El (Tag "Form") [Attr "action" (markAllRead routes)]
             [El TButton [Flag "disabled" (processing || (unreadCount =? 0))]
                [Txt "Mark all read"]]];
        match recent p ?? [] with
        | [] =>
            elem "div"
              [elem "div"
                 [elem "p" [Txt "No unread notifications"];
                  elem "p" [Txt "New operational updates appear here."]]]
        | recentNotifications => elem "div" (map notificationPreview recentNotifications)
        end;
        elem "div"
          [El (Tag "Link") [Attr "href" (notificationsIndex routes)] [Txt "View history"]]]].

(** Lines 252-284; the cache of visited pages is cleared when the user logs out. *)
Definition userBox (u : User) : node S :=
  elem "div"
    [El (Tag "div") [Attr "title" (user_name u ++ " · " ++ user_email u)%string]
       [elem "AvatarFallback" [Txt (getInitials (user_name u))];
        elem "span" [Txt (user_name u)]; elem "span" [Txt (user_email u)]];
     El (Tag "Link") [Attr "href" (logout routes); Attr "as" "button"; Attr "aria-label" "Log out"] []].

Definition AppSidebarHeader (p : HeaderProps) (breadcrumbs : list (string * string)) : node S :=
  elem "header"
    [elem "div"
       (sidebarTrigger ::
        match breadcrumbs with
        | [] => [elem "span" [Txt "Crucible DB"]]
        | _ => Breadcrumbs breadcrumbs
        end);
     elem "div"
       (match resolvedNativeProxyStatus p with
        | Some status =>
            when (negb (str_eq (health_status (health status)) "disabled"))
              [NativeProxyHealthStatus status
                 (match user p with Some u => user_timezone u ?? "UTC" | None => "UTC" end)]
        | None => []
        end ++
        when (truthy_opt (cliDownloadUrl p))
          [elem "Tooltip"
             [El (Tag "a") [Attr "href" (cliDownloadUrl p ?? "");
                            Attr "aria-label" "Open Crucible CLI downloads in a new tab"]
                [elem "span" [Txt "CLI"]];
              elem "TooltipContent" [Txt "Download Crucible CLI"]]] ++
        notificationMenu p ::
        match user p with Some u => [userBox u] | None => [] end)].
End header.

(** ** Sections stay open *)

Section sections.
Context (pathname : string -> option string) (sections : list NavSection).

Lemma openUndecided_lookup labels states label :
  openUndecided labels states !! label =
  match states !! label with
  | Some b => Some b
  | None => if decide (label ∈ labels) then Some true else None
  end.
Proof.
  revert states. induction labels as [|l labels IH]; intros states; simpl.
  - by destruct (states !! label).
  - rewrite IH. clear IH. destruct (states !! l) eqn:E.
    + destruct (states !! label) eqn:E'; [done|].
      assert (label <> l) by congruence. repeat case_decide; set_solver.
    + destruct (decide (label = l)) as [->|Hne].
      * rewrite lookup_insert_eq, E. case_decide; set_solver.
      * rewrite lookup_insert_ne by done. destruct (states !! label); [done|].
        repeat case_decide; set_solver.
Qed.

Lemma active_label url section :
  section ∈ sections -> sectionActive pathname url section = true ->
  section_label section ∈ activeSectionLabels pathname url sections.
Proof.
  intros Hin Ha. apply list_elem_of_fmap_2. apply list_elem_of_In, filter_In.
  by rewrite <- list_elem_of_In.
Qed.

(** A section of the side bar that is open stays open when a link in it or in another section is
    followed, whatever page comes next, and when another section is opened or closed; its own
    button closes it, also where it holds the current page. *)
Theorem open_sections_stay url url' s section :
  section ∈ sections -> sectionOpen pathname url s section = true ->
  sectionOpen pathname url' (preserveActiveSections pathname url sections s) section = true /\
  (forall label b, label <> section_label section ->
     sectionOpen pathname url' (handleSectionOpenChange pathname url sections label b s) section = true) /\
  sectionOpen pathname url'
    (handleSectionOpenChange pathname url sections (section_label section) false s) section = false.
Proof.
  unfold sectionOpen. intros Hin Ho.
  assert (Hp : openUndecided (activeSectionLabels pathname url sections) (sectionOpenStates s) !!
                 section_label section = Some true).
  { rewrite openUndecided_lookup. destruct (_ !! section_label section) as [b|]; simpl in Ho.
    - by rewrite Ho.
    - rewrite decide_True; [done|by apply active_label]. }
  unfold preserveActiveSections, handleSectionOpenChange, setSectionOpenStates. simpl.
  split_and!.
  - by rewrite Hp.
  - intros label b Hne. by rewrite lookup_insert_ne, Hp.
  - by rewrite lookup_insert_eq.
Qed.

(** The section of the first page is open. *)
Lemma initial_section_open url section :
  section ∈ sections -> sectionActive pathname url section = true ->
  sectionOpen pathname url (initialNav pathname url sections) section = true.
Proof.
  intros Hin Ha. unfold sectionOpen. simpl. rewrite Ha.
  destruct (_ !! _) as [b|] eqn:E; [|done]. simpl. apply elem_of_list_to_map_2 in E.
  by apply list_elem_of_fmap in E as (label & [= _ ->] & _).
Qed.
End sections.

Definition example_routes : SidebarRoutes := {|
  dashboard := "/dashboard"; queryRequestsIndex := "/query-requests";
  connectionsIndex := "/connections"; connectionGroupsIndex := "/connection-groups";
  usersIndex := "/users"; rolesIndex := "/roles"; editAccessWorkflows := "/settings/access-workflows";
  editAuthenticationMethods := "/settings/authentication";
  authProvidersIndex := "/settings/authentication-providers";
  editSqlStatementPolicy := "/settings/sql-policy"; editApplicationSettings := "/settings/application";
  editNotificationSettings := "/settings/notifications";
  editApplicationDatabase := "/settings/application-database";
  showSystemStatus := "/settings/system-status"; auditLogsIndex := "/audit-logs";
  editProfile := "/settings/profile"; editPreferences := "/settings/preferences";
  editSecurity := "/settings/security" |}.

(** From the list of users to the audit log: "Access & identity" is still open there. *)
Lemma open_sections_stay_witness :
  let sections := adminNavSections (fun _ => None) "/users" example_routes None in
  let people := {| section_label := "Access & identity";
                   items := [nav "People" "/users"; nav "Access Roles" "/roles";
                             nav "Access Workflows" "/settings/access-workflows"] |} in
  sectionOpen (fun _ => None) "/users" (initialNav (fun _ => None) "/users" sections) people = true /\
  sectionActive (fun _ => None) "/audit-logs" people = false /\
  sectionOpen (fun _ => None) "/audit-logs"
    (preserveActiveSections (fun _ => None) "/users" sections
       (initialNav (fun _ => None) "/users" [])) people = true.
Proof.
  cbv zeta. split; [vm_compute; reflexivity|]. split; [vm_compute; reflexivity|].
  apply (open_sections_stay (fun _ => None)
           (adminNavSections (fun _ => None) "/users" example_routes None) "/users" "/audit-logs"
           (initialNav (fun _ => None) "/users" [])).
  - apply list_elem_of_here.
  - vm_compute. reflexivity.
Defined.
