(* ===== verification/Shell.v ===== *)
(** * The frame around the pages

    The side bar's provider and its parts ([resources/js/components/ui/sidebar.tsx],
    [hooks/use-mobile.tsx]), the shells and layouts ([components/app-shell.tsx],
    [app-content.tsx], [layouts/]), the header of the layout without a side bar
    ([components/app-header.tsx]) with the user's menu, and the choice of a layout for each page
    ([app.tsx]); of the server, what it tells the provider
    ([app/Http/Middleware/HandleInertiaRequests.php]).

    The provider writes a cookie whenever the side bar is opened or closed, which the server reads
    for the next page. *)

From Stdlib Require Import String.
From stdpp Require Import gmap strings list.
From S2P Require Import Prelude JsString Hooks Cookies View Badges Navigation.

Open Scope string_scope.
Open Scope Z_scope.
Open Scope list_scope.

(** ** The provider (sidebar.tsx) *)

Definition MOBILE_BREAKPOINT : Z := 768.

(** [mql?.matches ?? false] *)
Definition isSmallerThanBreakpoint (mql : option bool) : bool := mql ?? false.

(** [window.matchMedia(`(max-width: ...)`)] of a window with this width; without a window there is
    no list. *)
Definition mql (width : option Z) : option bool :=
  (fun w => w <=? MOBILE_BREAKPOINT - 1) <$> width.

Definition SIDEBAR_COOKIE_NAME : string := "sidebar_state".
Definition SIDEBAR_COOKIE_MAX_AGE : Z := 60 * 60 * 24 * 7.
Definition SIDEBAR_KEYBOARD_SHORTCUT : string := "b".

Record ProviderProps := {
  initiallyOpen : bool;        (** [defaultOpen] *)
  openProp : option bool;      (** [open] *)
  hasOpenChange : bool;        (** whether [onOpenChange] is given *)
}.

(** The state of the provider, with the window, the cookies and the calls of [onOpenChange]. *)
Record Provider := {
  width : option Z;
  openMobile : bool;
  own_open : bool;             (** [_open] *)
  cookies : cookie_jar;
  asked : list bool;
}.

Definition isMobile (s : Provider) : bool := isSmallerThanBreakpoint (mql (width s)).

Definition bool_text (b : bool) : string := if b then "true" else "false".

Section provider.
Context (p : ProviderProps).

Definition open (s : Provider) : bool := openProp p ?? own_open s.

Definition setOpenMobile (b : bool) (s : Provider) : Provider := {|
  width := width s; openMobile := b; own_open := own_open s; cookies := cookies s;
  asked := asked s |}.

Definition setOpen (now : Z) (openState : bool) (s : Provider) : Provider := {|
  width := width s;
  openMobile := openMobile s;
  own_open := if hasOpenChange p then own_open s else openState;
  cookies := write_cookie now
    (SIDEBAR_COOKIE_NAME ++ "=" ++ bool_text openState ++ "; path=/; max-age=" ++
     str_of_Z SIDEBAR_COOKIE_MAX_AGE)%string (cookies s);
  asked := asked s ++ when (hasOpenChange p) [openState] |}.

(** The function given to [setOpen] gets the value of the last render. *)
Definition toggleSidebar (now : Z) (s : Provider) : Provider :=
  if isMobile s then setOpenMobile (negb (openMobile s)) s
  else setOpen now (negb (open s)) s.

(** Whether the browser's own action is prevented, and the state. *)
Definition handleKeyDown (now : Z) (key : string) (metaKey ctrlKey : bool) (s : Provider)
    : bool * Provider :=
  if str_eq key SIDEBAR_KEYBOARD_SHORTCUT && (metaKey || ctrlKey) then (true, toggleSidebar now s)
  else (false, s).

(** [state] *)
Definition state (s : Provider) : string := if open s then "expanded" else "collapsed".

(** The window gets another width. *)
Definition resize (w : Z) (s : Provider) : Provider := {|
  width := Some w; openMobile := openMobile s; own_open := own_open s; cookies := cookies s;
  asked := asked s |}.

(** What happens to a provider on a page. *)
Inductive shell_event :=
  | Toggled                                       (** the trigger or the rail is pressed *)
  | KeyDown (key : string) (metaKey ctrlKey : bool)
  | SheetChanged (open : bool)                    (** the sheet of a small window *)
  | Resized (width : Z).

Definition shell_step (s : Provider) (e : Z * shell_event) : Provider :=
  match snd e with
  | Toggled => toggleSidebar (fst e) s
  | KeyDown key metaKey ctrlKey => snd (handleKeyDown (fst e) key metaKey ctrlKey s)
  | SheetChanged b => setOpenMobile b s
  | Resized w => resize w s
  end.
End provider.

(** *** Rendered *)

Section parts.
Context {T : Type} (put : (Provider -> Provider) -> T -> T) (p : ProviderProps) (s : Provider).

Definition on_toggle_sidebar : prop T := On "click" (fun now _ => put (toggleSidebar p now)).

(** Lines 249-273 *)
Definition SidebarTrigger (onClick : T -> T) : node T :=
  El TButton [On "click" (fun now _ t => put (toggleSidebar p now) (onClick t))]
    [elem (if isMobile s || str_eq (state p s) "collapsed" then "PanelLeftOpenIcon"
           else "PanelLeftCloseIcon") [];
     elem "span" [Txt "Toggle sidebar"]].

Definition SidebarRail : node T :=
  El TButton [Attr "aria-label" "Toggle sidebar"; on_toggle_sidebar; Attr "title" "Toggle sidebar"] [].

(** Lines 150-247; the content of a sheet is there while it is open. *)
Definition Sidebar (side variant collapsible : string) (children : list (node T)) : node T :=
  if str_eq collapsible "none" then
    El (Tag "div") [Attr "data-slot" "sidebar"] children
  else if isMobile s then
    El (Tag "Sheet")
      [Flag "open" (openMobile s);
       On "openChange" (fun _ ev t =>
         match ev with Toggle b => put (setOpenMobile b) t | _ => t end)]
      (elem "SheetHeader" [elem "SheetTitle" [Txt "Sidebar"];
                           elem "SheetDescription" [Txt "Displays the mobile sidebar."]]
       :: when (openMobile s)
            [El (Tag "SheetContent") [Attr "data-sidebar" "sidebar"; Attr "data-slot" "sidebar";
                                      Attr "data-mobile" "true"; Attr "side" side]
               [elem "div" children]])
  else
    El (Tag "div")
      [Attr "data-state" (state p s);
       Attr "data-collapsible" (if str_eq (state p s) "collapsed" then collapsible else "");
       Attr "data-variant" variant; Attr "data-side" side; Attr "data-slot" "sidebar"]
      [elem "div" [];
       elem "div" [El (Tag "div") [Attr "data-sidebar" "sidebar"] children]].

(** [asChild]: the child takes the place of the element. *)
Definition Comp (asChild : bool) (name : string) : tag := Tag (if asChild then "Slot" else name).

(** Lines 491-539; the tooltip names the entry while only its icon is shown. *)
Definition SidebarMenuButton (asChild isActive : bool) (size : string) (tooltip : option string)
    (children : list (node T)) : node T :=
  let button := El (Comp asChild "button")
    [Attr "data-slot" "sidebar-menu-button"; Attr "data-sidebar" "menu-button";
     Attr "data-size" size; Attr "data-active" (bool_text isActive)] children in
  match tooltip with
  | Some (String _ _ as text) =>
      elem "Tooltip"
        [elem "TooltipTrigger" [button];
         El (Tag "TooltipContent")
           [Attr "side" "right"; Attr "align" "center";
            Flag "hidden" (negb (str_eq (state p s) "collapsed") || isMobile s)] [Txt text]]
  | _ => button
  end.

(** Lines 662-692 *)
Definition SidebarMenuSubButton (asChild isActive : bool) (size : string) (children : list (node T))
    : node T :=
  El (Comp asChild "a")
    [Attr "data-slot" "sidebar-menu-sub-button"; Attr "data-sidebar" "menu-sub-button";
     Attr "data-size" size; Attr "data-active" (bool_text isActive)] children.

(** The parts without a state, by the name of their slot. *)
Definition sidebarPart (element slot part : string) (children : list (node T)) : node T :=
  El (Tag element) [Attr "data-slot" slot; Attr "data-sidebar" part] children.

Definition SidebarHeader := sidebarPart "div" "sidebar-header" "header".
Definition SidebarFooter := sidebarPart "div" "sidebar-footer" "footer".
Definition SidebarContent := sidebarPart "div" "sidebar-content" "content".
Definition SidebarGroup := sidebarPart "div" "sidebar-group" "group".
Definition SidebarGroupContent := sidebarPart "div" "sidebar-group-content" "group-content".
Definition SidebarMenu := sidebarPart "ul" "sidebar-menu" "menu".
Definition SidebarMenuItem := sidebarPart "li" "sidebar-menu-item" "menu-item".
Definition SidebarMenuBadge := sidebarPart "div" "sidebar-menu-badge" "menu-badge".
Definition SidebarMenuSub := sidebarPart "ul" "sidebar-menu-sub" "menu-sub".
Definition SidebarMenuSubItem := sidebarPart "li" "sidebar-menu-sub-item" "menu-sub-item".

Definition SidebarGroupLabel (asChild : bool) (children : list (node T)) : node T :=
  El (Comp asChild "div") [Attr "data-slot" "sidebar-group-label"; Attr "data-sidebar" "group-label"]
    children.

Definition SidebarGroupAction (asChild : bool) (children : list (node T)) : node T :=
  El (Comp asChild "button")
    [Attr "data-slot" "sidebar-group-action"; Attr "data-sidebar" "group-action"] children.

Definition SidebarMenuAction (asChild : bool) (children : list (node T)) : node T :=
  El (Comp asChild "button")
    [Attr "data-slot" "sidebar-menu-action"; Attr "data-sidebar" "menu-action"] children.

Definition SidebarInset (children : list (node T)) : node T :=
  El (Tag "main") [Attr "data-slot" "sidebar-inset"] children.
End parts.

(** *** The server (HandleInertiaRequests.php) *)

Definition sidebarOpen (decrypt : string -> option string) (now : Z) (jar : cookie_jar) : bool :=
  match request_cookie decrypt now "sidebar_state" jar with
  | None => true
  | Some value => str_eq value "true"
  end.

(** [AppShell] with a side bar: its provider keeps its own state, open at first if the server says
    so. *)
Definition shellProps (isOpen : bool) : ProviderProps := {|
  initiallyOpen := isOpen; openProp := None; hasOpenChange := false |}.

(** A page is loaded. *)
Definition shell_loaded (decrypt : string -> option string) (now : Z) (width : option Z)
    (jar : cookie_jar) : Provider := {|
  Shell.width := width; openMobile := false;
  own_open := initiallyOpen (shellProps (sidebarOpen decrypt now jar)); cookies := jar; asked := [] |}.

(** Everything that happens on a page, in order; none of it uses [defaultOpen]. *)
Definition shell_run (events : list (Z * shell_event)) (s : Provider) : Provider :=
  fold_left (shell_step (shellProps true)) events s.

(** ** The user (user-info.tsx, nav-user.tsx, user-menu-content.tsx) *)

Section frame.
Context {T : Type}.
(** The cache of visited pages is emptied; the style that a menu left on the body is removed. *)
Context (flushAll cleanup : T -> T) (logout home dashboard : string).
Context (put : (Provider -> Provider) -> T -> T) (s : Provider).

Definition UserInfo (u : User) (avatar : option string) (showEmail : bool) : list (node T) :=
  [elem "Avatar"
     [El (Tag "AvatarImage") (Attr "alt" (user_name u) ::
        match avatar with Some a => [Attr "src" a] | None => [] end) [];
      elem "AvatarFallback" [Txt (getInitials (user_name u))]];
   elem "div"
     (elem "span" [Txt (user_name u)] :: when showEmail [elem "span" [Txt (user_email u)]])].

Definition NavUser (user : option (User * option string)) : list (node T) :=
  match user with
  | None => []
  | Some (u, avatar) =>
      [SidebarMenu
         [SidebarMenuItem
            [elem "div"
               [elem "div" (UserInfo u avatar true);
                El (Tag "Link")
                  [Attr "href" logout; Attr "as" "button"; on_click flushAll;
                   Attr "aria-label" "Log out"; Attr "title" "Log out"] []]]]]
  end.

Definition handleLogout (t : T) : T := flushAll (cleanup t).

Definition UserMenuContent (u : User) (avatar : option string) : list (node T) :=
  [elem "DropdownMenuLabel" [elem "div" (UserInfo u avatar true)];
   elem "DropdownMenuSeparator" [];
   elem "DropdownMenuItem"
     [El (Tag "Link") [Attr "href" logout; Attr "as" "button"; on_click handleLogout]
        [Txt "Log out"]]].

Definition NavFooter (items : list NavItem) : node T :=
  SidebarGroup
    [SidebarGroupContent
       [SidebarMenu
          (map (fun item =>
             SidebarMenuItem
               [SidebarMenuButton (shellProps true) s true false "default" None
                  [El (Tag "a") [Attr "href" (href item); Attr "target" "_blank"]
                     [elem "span" [Txt (title item)]]]]) items)]].

Definition AppLogo : node T :=
  elem "div" [elem "div" [elem "AppLogoIcon" []]; elem "div" [elem "span" [Txt "Crucible DB"]]].

(** ** The header without a side bar (app-header.tsx) *)

Definition mainNavItems : list NavItem := [nav "Dashboard" dashboard].

Definition rightNavItems : list NavItem :=
  [nav "Repository" "https://github.com/laravel/react-starter-kit";
   nav "Documentation" "https://laravel.com/docs/starter-kits#react"].

(** Lines 76-135; the sheet is rendered open. *)
Definition mobileMenu : node T :=
  elem "Sheet"
    [elem "SheetTrigger" [El TButton [] [elem "Menu" []]];
     El (Tag "SheetContent") [Attr "side" "left"]
       [elem "SheetTitle" [Txt "Navigation menu"];
        elem "SheetHeader" [elem "AppLogoIcon" []];
        elem "div"
          [elem "div"
             (map (fun item => El (Tag "Link") [Attr "key" (title item); Attr "href" (href item)]
                                 [elem "span" [Txt (title item)]]) mainNavItems);
           elem "div"
             (map (fun item => El (Tag "a") [Attr "key" (title item); Attr "href" (href item);
                                             Attr "target" "_blank"]
                                 [elem "span" [Txt (title item)]]) rightNavItems)]]].

(** Lines 145-177 *)
Definition desktopMenu (pathname : string -> option string) (currentUrl : string) : node T :=
  elem "NavigationMenu"
    (map (fun item =>
       elem "NavigationMenuItem"
         (El (Tag "Link") [Attr "href" (href item);
                           Attr "class" (whenCurrentUrl pathname currentUrl (href item)
                             "text-neutral-900 dark:bg-neutral-800 dark:text-neutral-100" "")]
            [Txt (title item)]
          :: when (isCurrentUrl pathname currentUrl (href item) None false) [elem "div" []]))
       mainNavItems).

(** Lines 179-236; menus and tooltips are rendered open. *)
Definition headerTools (user : option (User * option string)) : node T :=
  elem "div"
    [elem "div"
       [El TButton [] [elem "Search" []];
        elem "div"
          (map (fun item =>
             El (Tag "Tooltip") [Attr "key" (title item)]
               [El (Tag "a") [Attr "href" (href item); Attr "target" "_blank"]
                  [elem "span" [Txt (title item)]];
                elem "TooltipContent" [elem "p" [Txt (title item)]]]) rightNavItems)];
     elem "DropdownMenu"
       [El TButton []
          [elem "Avatar"
             [elem "AvatarImage" [];
              elem "AvatarFallback" [Txt (getInitials (match user with
                                                       | Some (u, _) => user_name u
                                                       | None => ""
                                                       end))]]];
        elem "DropdownMenuContent"
          match user with Some (u, avatar) => UserMenuContent u avatar | None => [] end]].

Definition AppHeader pathname currentUrl (user : option (User * option string))
    (breadcrumbs : list (string * string)) : list (node T) :=
  [elem "div"
     [elem "div"
        [mobileMenu;
         El (Tag "Link") [Attr "href" dashboard] [AppLogo];
         desktopMenu pathname currentUrl;
         headerTools user]]] ++
  when (1 <? length breadcrumbs)%nat [elem "div" (Breadcrumbs breadcrumbs)].

(** ** Shells and layouts *)

Inductive AppVariant := HeaderVariant | SidebarVariant.

(** app-shell.tsx: what is inside a provider, and what is not. *)
Definition AppShell (variant : AppVariant) (children : list (node T)) : node T :=
  match variant with
  | HeaderVariant => elem "div" children
  | SidebarVariant => El (Tag "SidebarProvider") [] [El (Tag "div") [Attr "data-slot" "sidebar-wrapper"] children]
  end.

Definition AppContent (variant : AppVariant) (children : list (node T)) : node T :=
  match variant with
  | SidebarVariant => SidebarInset children
  | HeaderVariant => elem "main" children
  end.

(** layouts/app/app-header-layout.tsx *)
Definition AppHeaderLayout pathname currentUrl user breadcrumbs (children : list (node T)) : node T :=
  AppShell HeaderVariant
    (AppHeader pathname currentUrl user breadcrumbs ++ [AppContent HeaderVariant children]).

(** layouts/auth/auth-simple-layout.tsx *)
Definition AuthSimpleLayout (title description : string) (wide : bool) (children : list (node T)) : node T :=
  elem "div"
    [elem "header"
       [elem "div"
          [El (Tag "Link") [Attr "href" home; Attr "aria-label" "Crucible DB home"]
             [elem "span" [elem "AppLogoIcon" []];
              elem "span" [elem "span" [Txt "Crucible DB"];
                           elem "span" [Txt "Database access control"]]]]];
     elem "main"
       [El (Tag "section") [Attr "aria-labelledby" "auth-title";
                            Attr "class" (if wide then "max-w-2xl" else "max-w-md")]
          [elem "div" [El (Tag "h1") [Attr "id" "auth-title"] [Txt title]; elem "p" [Txt description]];
           elem "div" children]]].

(** layouts/auth-layout.tsx *)
Definition AuthLayout (title description : option string) (wide : option bool)
    (children : list (node T)) : node T :=
  AuthSimpleLayout (title ?? "") (description ?? "") (wide ?? false) children.

(** layouts/auth/auth-card-layout.tsx *)
Definition AuthCardLayout (title description : string) (children : list (node T)) : node T :=
  elem "div"
    [elem "div"
       [El (Tag "Link") [Attr "href" home] [elem "div" [elem "AppLogoIcon" []]];
        elem "div"
          [elem "Card"
             [elem "CardHeader" [elem "CardTitle" [Txt title]; elem "CardDescription" [Txt description]];
              elem "CardContent" children]]]].

(** layouts/auth/auth-split-layout.tsx *)
Definition AuthSplitLayout (name title description : string) (children : list (node T)) : node T :=
  elem "div"
    [elem "div" [elem "div" [];
                 El (Tag "Link") [Attr "href" home] [elem "AppLogoIcon" []; Txt name]];
     elem "div"
       [elem "div"
          ([El (Tag "Link") [Attr "href" home] [elem "AppLogoIcon" []];
            elem "div" [elem "h1" [Txt title]; elem "p" [Txt description]]] ++ children)]].
End frame.

(** ** The application (app.tsx) *)

Inductive Layout := NoLayout | AuthLayouts | AppLayouts.

Definition layout (name : string) : Layout :=
  if str_eq name "welcome" then NoLayout
  else if startsWith name "auth/" then AuthLayouts
  else if startsWith name "setup/" then AuthLayouts
  else if str_eq name "native-proxy/device-authorization" then AuthLayouts
  else if startsWith name "settings/admin/" || startsWith name "settings/authentication-providers/" ||
          startsWith name "users/" || startsWith name "roles/" || startsWith name "audit-logs/"
  then AppLayouts
  else AppLayouts.

(** The title of the document. *)
Definition app_title (appName title : string) : string :=
  if truthy title then (title ++ " - " ++ appName)%string else appName.

(** layouts/app/app-sidebar-layout.tsx: the side bar, and the header with its trigger. *)
Record Frame := { provider_state : Provider; sidebar_state : SidebarState }.

Definition on_provider (f : Provider -> Provider) (t : Frame) : Frame := {|
  provider_state := f (provider_state t); sidebar_state := sidebar_state t |}.

Definition on_sidebar (f : SidebarState -> SidebarState) (t : Frame) : Frame := {|
  provider_state := provider_state t; sidebar_state := f (sidebar_state t) |}.

(** [sidebar] is what [AppSidebar] puts into its [Sidebar]. *)
Definition AppSidebarLayout (sidebar : node SidebarState) (header : node Frame -> node Frame)
    (t : Frame) (children : list (node Frame)) : node Frame :=
  AppShell SidebarVariant
    [Sidebar on_provider (shellProps true) (provider_state t) "left" "sidebar" "icon"
       [embed on_sidebar sidebar];
     AppContent SidebarVariant
       (header (SidebarTrigger on_provider (shellProps true) (provider_state t) id) :: children)].

(** ** The side bar from one page to the next *)

Definition SIDEBAR_COOKIE_LIFE : Z := SIDEBAR_COOKIE_MAX_AGE * 1000.

Lemma sidebar_cookie now b jar :
  write_cookie now
    (SIDEBAR_COOKIE_NAME ++ "=" ++ bool_text b ++ "; path=/; max-age=" ++
     str_of_Z SIDEBAR_COOKIE_MAX_AGE)%string jar =
  <["sidebar_state" := {| cookie_value := bool_text b;
                          cookie_expires := Some (now + SIDEBAR_COOKIE_LIFE) |}]> jar.
Proof. by destruct b. Qed.

(** Whether an event opens or closes the side bar of a large window. *)
Definition desktop_toggle (s : Provider) (e : shell_event) : bool :=
  negb (isMobile s) &&
  match e with
  | Toggled => true
  | KeyDown key metaKey ctrlKey => str_eq key SIDEBAR_KEYBOARD_SHORTCUT && (metaKey || ctrlKey)
  | _ => false
  end.

Section reload.
Notation step := (shell_step (shellProps true)).

(** An event either toggles the side bar and writes the cookie, or does neither. *)
Lemma shell_step_cases s now e :
  (desktop_toggle s e = true /\ own_open (step s (now, e)) = negb (own_open s) /\
   cookies (step s (now, e)) =
     <["sidebar_state" := {| cookie_value := bool_text (negb (own_open s));
                             cookie_expires := Some (now + SIDEBAR_COOKIE_LIFE) |}]> (cookies s)) \/
  (desktop_toggle s e = false /\ own_open (step s (now, e)) = own_open s /\
   cookies (step s (now, e)) = cookies s).
Proof.
  unfold desktop_toggle, shell_step, handleKeyDown, toggleSidebar. cbn [fst snd].
  destruct e as [|key m c|b|w]; [|destruct (str_eq key _ && (m || c))|..];
    destruct (isMobile s); cbn [negb andb snd]; auto; left; split; auto; split; auto;
    unfold setOpen; cbn [cookies]; apply sidebar_cookie.
Qed.

(** The cookie, if it is still there at [now] or later, says whether the side bar is open. *)
Definition cookie_says (now : Z) (s : Provider) : Prop :=
  forall now' v, now <= now' -> read_cookie now' "sidebar_state" (cookies s) = Some v ->
    own_open s = str_eq v "true".

Lemma loaded_says decrypt now w jar : cookie_says now (shell_loaded decrypt now w jar).
Proof.
  intros now' v Hle Hv. cbn in *. unfold sidebarOpen. rewrite request_plain by done.
  by rewrite (read_cookie_earlier _ _ _ _ _ Hle Hv).
Qed.

Lemma step_says now s e : cookie_says now s -> cookie_says now (step s e).
Proof.
  destruct e as [t e]. intros H now' v Hle Hv.
  destruct (shell_step_cases s t e) as [(_ & Ho & Hc)|(_ & Ho & Hc)]; rewrite Ho; rewrite Hc in Hv.
  - rewrite read_written in Hv. case_match; [done|]. injection Hv as <-. by destruct (own_open s).
  - eauto.
Qed.

Lemma run_says now events s : cookie_says now s -> cookie_says now (shell_run events s).
Proof.
  revert s. induction events as [|e l IH]; intros s H; [done|].
  cbn [shell_run fold_left]. apply IH. by apply step_says.
Qed.

(** The cookie was written at [t] or later. *)
Definition written_since (t : Z) (s : Provider) : Prop :=
  exists v expires, cookies s !! "sidebar_state" =
    Some {| cookie_value := v; cookie_expires := Some expires |} /\ t + SIDEBAR_COOKIE_LIFE <= expires.

Lemma step_written t s e : t <= fst e ->
  desktop_toggle s (snd e) = true \/ written_since t s -> written_since t (step s e).
Proof.
  destruct e as [now e]. cbn [fst snd]. intros Hle H. unfold written_since.
  destruct (shell_step_cases s now e) as [(_ & _ & ->)|(Hd & _ & ->)].
  - rewrite lookup_insert_eq. do 2 eexists. split; [reflexivity|]. lia.
  - destruct H as [H|H]; [by rewrite H in Hd|done].
Qed.

Lemma run_written t events s : Forall (fun e => t <= fst e) events ->
  written_since t s -> written_since t (shell_run events s).
Proof.
  intros H. revert s. induction H as [|e l He _ IH]; intros s Hs; [done|].
  cbn [shell_run fold_left]. apply IH. apply step_written; auto.
Qed.

Lemma written_read t now s : written_since t s -> now < t + SIDEBAR_COOKIE_LIFE ->
  is_Some (read_cookie now "sidebar_state" (cookies s)).
Proof.
  intros (v & expires & Hc & Hle) Hn. unfold read_cookie. rewrite Hc. unfold expired.
  cbn [cookie_expires]. rewrite (proj2 (Z.leb_gt expires now)) by lia. eauto.
Qed.

(** The side bar survives a reload: whatever has happened on a page, the page that is loaded
    next, in a window of any size, has its side bar as the last one left it, as long as the
    browser has the cookie, and open otherwise; and it has the cookie for a week after the side
    bar of a large window was last opened or closed, by its trigger, its rail or the shortcut. *)
Theorem sidebar_survives_reload decrypt now0 w jar events now w' :
  now0 <= now ->
  let s := shell_run events (shell_loaded decrypt now0 w jar) in
  let reloaded := shell_loaded decrypt now w' (cookies s) in
  own_open reloaded =
    match read_cookie now "sidebar_state" (cookies s) with Some _ => own_open s | None => true end /\
  forall before t e after, events = before ++ (t, e) :: after ->
    desktop_toggle (shell_run before (shell_loaded decrypt now0 w jar)) e = true ->
    Forall (fun e => t <= fst e) after -> now < t + SIDEBAR_COOKIE_LIFE ->
    own_open reloaded = own_open s.
Proof.
  intros Hle s reloaded.
  assert (Hr : own_open reloaded = match read_cookie now "sidebar_state" (cookies s) with
                                   | Some _ => own_open s | None => true end).
  { cbn. unfold sidebarOpen. rewrite request_plain by done.
    destruct (read_cookie now _ _) as [v|] eqn:E; [|done]. symmetry.
    by apply (run_says now0 events _ (loaded_says decrypt now0 w jar) now). }
  split; [done|]. intros before t e after Ee Ht Ha Hn. rewrite Hr.
  destruct (written_read t now s) as [v ->]; [|done..].
  unfold s, shell_run. rewrite Ee, fold_left_app. cbn [fold_left].
  apply (run_written t after); [done|]. by apply step_written; [|left].
Qed.
End reload.

Lemma sidebar_survives_reload_witness :
  let s := shell_run [(1000, KeyDown "b" false true)] (shell_loaded (fun _ => None) 0 (Some 1280) ∅) in
  own_open s = false /\ own_open (shell_loaded (fun _ => None) 5000 (Some 400) (cookies s)) = own_open s.
Proof.
  split; [reflexivity|].
  apply (proj2 (sidebar_survives_reload (fun _ => None) 0 (Some 1280) ∅
    [(1000, KeyDown "b" false true)] 5000 (Some 400) ltac:(lia)) [] 1000 (KeyDown "b" false true) []).
  - reflexivity.
  - reflexivity.
  - constructor.
  - vm_compute. reflexivity.
Defined.

(** In a small window the trigger, the rail and the shortcut open and close the sheet: they leave
    the side bar of a large window, and the cookie, as they are. *)
Theorem mobile_toggle_keeps p now s :
  isMobile s = true ->
  let s' := toggleSidebar p now s in
  openMobile s' = negb (openMobile s) /\ open p s' = open p s /\ cookies s' = cookies s.
Proof. unfold toggleSidebar. by intros ->. Qed.

(** A collapsed side bar of a large window is a strip of icons, and only there an entry has its
    tooltip; a sheet shows the entries with their names. *)
Theorem tooltip_iff_strip {T} p s asChild isActive size text (children : list (node T)) :
  truthy text = true ->
  SidebarMenuButton p s asChild isActive size (Some text) children =
    elem "Tooltip"
      [elem "TooltipTrigger" [SidebarMenuButton p s asChild isActive size None children];
       El (Tag "TooltipContent")
         [Attr "side" "right"; Attr "align" "center"; Flag "hidden" (open p s || isMobile s)]
         [Txt text]].
Proof.
  destruct text; [done|]. intros _. unfold SidebarMenuButton, state. by destruct (open p s).
Qed.

(** Every page has a layout but the first: those for visitors, for the set-up and for the approval
    of a device have the plain one, all others the one with the side bar. *)
Theorem layout_of_page name :
  layout name =
  if str_eq name "welcome" then NoLayout
  else if existsb (startsWith name) ["auth/"; "setup/"] ||
          str_eq name "native-proxy/device-authorization" then AuthLayouts
  else AppLayouts.
Proof.
  unfold layout. cbn [existsb]. destruct (str_eq name "welcome"); [done|].
  destruct (startsWith name "auth/"), (startsWith name "setup/"); try done.
  cbn [orb]. by repeat case_match.
Qed.
