(* ===== verification/TwoFactor.v ===== *)
(** * Managing two-factor authentication

    [resources/js/components/manage-two-factor.tsx], [two-factor-setup-modal.tsx] and
    [two-factor-recovery-codes.tsx], over the hook of [Hooks]: the switch, the dialog of the set-up
    and the recovery codes, with the requests of the hook under way.

    A handler may send requests of the hook; they settle in any order.  The effects of a commit are
    those of React: an effect runs again when one of its dependencies has changed.  Inertia's forms
    call the [onSuccess] of the render that submitted.  The input for the code is a third-party
    component that reports texts of at most six digits. *)

From Stdlib Require Import String.
From S2P Require Import Prelude Lists JsString View Hooks.

Open Scope string_scope.
Open Scope Z_scope.
Open Scope list_scope.

(** A request of the hook; the one for the codes may open the list when it has settled. *)
Inductive Fetch := FetchQrCode | FetchSetupKey | FetchCodes (show : bool).

Record State := {
  twoFactorEnabled : bool;
  hook : TwoFactor;
  showSetupModal : bool;
  showVerificationStep : bool;
  code : string;
  copiedText : option string;
  codesAreVisible : bool;
  fetches : list Fetch;
}.

Definition OTP_MAX_LENGTH : nat := 6.

Definition no_data : TwoFactor := {|
  qrCodeSvg := None; manualSetupKey := None; recoveryCodesList := []; two_factor_errors := [] |}.

Definition initialState (enabled : bool) : State := {|
  twoFactorEnabled := enabled; hook := no_data; showSetupModal := false; showVerificationStep := false;
  code := ""; copiedText := None; codesAreVisible := false; fetches := [] |}.

(** ** State *)

Definition on_hook (f : TwoFactor -> TwoFactor) (s : State) : State := {|
  twoFactorEnabled := twoFactorEnabled s; hook := f (hook s); showSetupModal := showSetupModal s;
  showVerificationStep := showVerificationStep s; code := code s; copiedText := copiedText s;
  codesAreVisible := codesAreVisible s; fetches := fetches s |}.

(** The steps of the dialog are on the page while it is open. *)
Definition setShowSetupModal (b : bool) (s : State) : State := {|
  twoFactorEnabled := twoFactorEnabled s; hook := hook s; showSetupModal := b;
  showVerificationStep := showVerificationStep s;
  code := if b then code s else ""; copiedText := if b then copiedText s else None;
  codesAreVisible := codesAreVisible s; fetches := fetches s |}.

(** A step of the dialog that is left loses its own state: the code, or the mark of the copy. *)
Definition setShowVerificationStep (b : bool) (s : State) : State := {|
  twoFactorEnabled := twoFactorEnabled s; hook := hook s; showSetupModal := showSetupModal s;
  showVerificationStep := b; code := if b then code s else "";
  copiedText := if b then None else copiedText s;
  codesAreVisible := codesAreVisible s; fetches := fetches s |}.

Definition setCode (v : string) (s : State) : State := {|
  twoFactorEnabled := twoFactorEnabled s; hook := hook s; showSetupModal := showSetupModal s;
  showVerificationStep := showVerificationStep s; code := v; copiedText := copiedText s;
  codesAreVisible := codesAreVisible s; fetches := fetches s |}.

Definition setCopiedText (v : option string) (s : State) : State := {|
  twoFactorEnabled := twoFactorEnabled s; hook := hook s; showSetupModal := showSetupModal s;
  showVerificationStep := showVerificationStep s; code := code s; copiedText := v;
  codesAreVisible := codesAreVisible s; fetches := fetches s |}.

Definition setCodesAreVisible (b : bool) (s : State) : State := {|
  twoFactorEnabled := twoFactorEnabled s; hook := hook s; showSetupModal := showSetupModal s;
  showVerificationStep := showVerificationStep s; code := code s; copiedText := copiedText s;
  codesAreVisible := b; fetches := fetches s |}.

Definition setFetches (f : list Fetch -> list Fetch) (s : State) : State := {|
  twoFactorEnabled := twoFactorEnabled s; hook := hook s; showSetupModal := showSetupModal s;
  showVerificationStep := showVerificationStep s; code := code s; copiedText := copiedText s;
  codesAreVisible := codesAreVisible s; fetches := f (fetches s) |}.

(** A request whose list is no longer on the page opens nothing. *)
Definition unmounted (f : Fetch) : Fetch :=
  match f with FetchCodes _ => FetchCodes false | _ => f end.

(** New properties; the list of recovery codes is on the page while the authentication is on. *)
Definition receive (enabled : bool) (s : State) : State := {|
  twoFactorEnabled := enabled; hook := hook s; showSetupModal := showSetupModal s;
  showVerificationStep := showVerificationStep s; code := code s; copiedText := copiedText s;
  codesAreVisible := enabled && codesAreVisible s;
  fetches := if enabled then fetches s else map unmounted (fetches s) |}.

(** ** Handlers *)

(** [fetchSetupData] *)
Definition sendSetupData (s : State) : State :=
  setFetches (fun l => l ++ [FetchQrCode; FetchSetupKey]) (on_hook clearErrors s).

(** [fetchRecoveryCodes] *)
Definition sendRecoveryCodes (show : bool) (s : State) : State :=
  setFetches (fun l => l ++ [FetchCodes show]) (on_hook clearErrors s).

(** The handlers of the dialog close over [twoFactorEnabled] of the render they belong to. *)
Definition resetModalState (enabled : bool) (s : State) : State :=
  setShowVerificationStep false (if enabled then on_hook clearSetupData s else s).

Definition handleClose (enabled : bool) (s : State) : State :=
  setShowSetupModal false (resetModalState enabled s).

Definition handleModalNextStep (requiresConfirmation enabled : bool) (s : State) : State :=
  if requiresConfirmation then setShowVerificationStep true s
  else handleClose enabled (on_hook clearSetupData s).

Definition toggleCodesVisibility (s : State) : State :=
  if negb (codesAreVisible s) && (length (recoveryCodesList (hook s)) =? 0)%nat
  then sendRecoveryCodes true s
  else setCodesAreVisible (negb (codesAreVisible s)) s.

(** A text that the input for the code reports. *)
Definition is_code_text (v : string) : bool :=
  all_chars is_digit v && (String.length v <=? OTP_MAX_LENGTH)%nat.

(** ** Effects *)

(** [useEffect(..., [isOpen, qrCodeSvg])] of the dialog *)
Definition setup_effect (s : State) : State :=
  if showSetupModal s && negb (truthy_opt (qrCodeSvg (hook s))) then sendSetupData s else s.

Definition setup_changed (s s' : State) : bool :=
  negb (bool_decide (showSetupModal s = showSetupModal s') &&
        bool_decide (qrCodeSvg (hook s) = qrCodeSvg (hook s'))).

(** A render commits [s'] after [s]: the effect of the dialog, then the one of
    [ManageTwoFactor] on [twoFactorEnabled], whose update is committed in turn. *)
Definition commit (s s' : State) : State :=
  let s1 := if setup_changed s s' then setup_effect s' else s' in
  if twoFactorEnabled s && negb (twoFactorEnabled s') then
    let s2 := on_hook clearTwoFactorAuthData s1 in
    if setup_changed s1 s2 then setup_effect s2 else s2
  else s1.

(** ** The page *)

Record Routes := {
  enable_route : string;
  confirm_route : string;
  disable_route : string;
  regenerate_route : string;
}.

(** [components/alert-error.tsx], without a title of its own: every error once *)
Definition AlertError {S} (errors : list string) : node S :=
  elem "Alert"
    [elem "AlertTitle" [Txt "Something went wrong."];
     elem "AlertDescription"
       [elem "ul" (map (fun error => elem "li" [Txt error]) (remove_dups errors))]].

Section page.
Context (routes : Routes) (canManageTwoFactor requiresConfirmation : bool).
(** What Inertia tells the forms, and whether the browser can write to the clipboard. *)
Context (processing : string -> bool) (code_error : option string) (clipboard : bool * bool).
Implicit Types (s : State).

(** Lines 52-139 of the dialog *)
Definition TwoFactorSetupStep (buttonText : string) s : list (node State) :=
  if (0 <? length (two_factor_errors (hook s)))%nat then [AlertError (two_factor_errors (hook s))]
  else
    [elem "div"
       [if truthy_opt (qrCodeSvg (hook s))
        then El (Tag "div") [Attr "html" (qrCodeSvg (hook s) ?? "")] []
        else elem "Spinner" []];
     elem "div"
       [El TButton [Attr "type" "button";
                    on_click (handleModalNextStep requiresConfirmation (twoFactorEnabled s))]
          [Txt buttonText]];
     elem "div" [elem "span" [Txt "or, enter the code manually"]];
     elem "div"
       (match manualSetupKey (hook s) with
        | Some (String _ _ as key) =>
            [El TInput [Attr "type" "text"; Flag "readonly" true; Attr "value" key] [];
             El TButton
               [Attr "type" "button"; Flag "copied" (bool_decide (copiedText s = Some key));
                on_click (fun s => setCopiedText
                  (fst (copy (fst clipboard) (snd clipboard) key (copiedText s))) s)] []]
        | _ => [elem "Spinner" []]
        end)].

(** Lines 141-230 of the dialog *)
Definition TwoFactorVerificationStep s : node State :=
  El (Tag "Form") [Attr "action" (confirm_route routes)]
    [elem "div"
       ([El TInput
           [Attr "id" "otp"; Attr "name" "code"; Attr "maxlength" (str_of_nat OTP_MAX_LENGTH);
            on_change (fun v s => if is_code_text v then setCode v s else s);
            Flag "disabled" (processing "confirm")] []] ++
        InputError code_error ++
        [elem "div"
           [El TButton [Attr "type" "button"; on_click (setShowVerificationStep false);
                        Flag "disabled" (processing "confirm")] [Txt "Back"];
            El TButton [Attr "type" "submit";
                        Flag "disabled" (processing "confirm" ||
                          (String.length (code s) <? OTP_MAX_LENGTH)%nat)] [Txt "Confirm"]]])].

(** [modalConfig]: title, description and text of the button *)
Definition modalConfig s : string * string * string :=
  if twoFactorEnabled s then
    ("Two-factor authentication enabled",
     "Two-factor authentication is now enabled. Scan the QR code or enter the setup key in your authenticator app.",
     "Close")
  else if showVerificationStep s then
    ("Verify authentication code", "Enter the 6-digit code from your authenticator app", "Continue")
  else
    ("Enable two-factor authentication",
     "To finish enabling two-factor authentication, scan the QR code or enter the setup key in your authenticator app",
     "Continue").

(** Lines 325-354 of the dialog *)
Definition TwoFactorSetupModal s : node State :=
  let '(title, description, buttonText) := modalConfig s in
  elem "Dialog"
    (when (showSetupModal s)
       [El (Tag "DialogContent") [On "openChange" (fun _ _ => handleClose (twoFactorEnabled s))]
          [elem "DialogHeader"
             [elem "DialogTitle" [Txt title]; elem "DialogDescription" [Txt description]];
           elem "div"
             (if showVerificationStep s then [TwoFactorVerificationStep s]
              else TwoFactorSetupStep buttonText s)]]).

(** Lines 62-94 of the recovery codes *)
Definition codesHeader s : node State :=
  elem "div"
    (El TButton [Attr "type" "button"; on_click toggleCodesVisibility;
                 Flag "aria-expanded" (codesAreVisible s)]
       [Txt (if codesAreVisible s then "Hide recovery codes" else "View recovery codes")]
     :: when ((0 <? length (recoveryCodesList (hook s)))%nat && codesAreVisible s)
          [El (Tag "Form") [Attr "action" (regenerate_route routes)]
             [El TButton [Attr "type" "submit"; Flag "disabled" (processing "regenerate")]
                [Txt "Regenerate codes"]]]).

(** Lines 95-154 of the recovery codes: the list is in the document, hidden while it is closed. *)
Definition codesSection s : node State :=
  El (Tag "div") [Attr "id" "recovery-codes-section"; Flag "aria-hidden" (negb (codesAreVisible s))]
    (if (0 <? length (two_factor_errors (hook s)))%nat then [AlertError (two_factor_errors (hook s))]
     else
       [El (Tag "div") [Attr "role" "list"; Attr "aria-label" "Recovery codes"]
          (if (0 <? length (recoveryCodesList (hook s)))%nat
           then map (fun code => El (Tag "div") [Attr "role" "listitem"] [Txt code])
                  (recoveryCodesList (hook s))
           else [El (Tag "div") [Attr "aria-label" "Loading recovery codes"] []]);
        elem "p" [Txt "Each recovery code can be used once to access your account and will be removed after use. If you need more, click ";
                  elem "span" [Txt "Regenerate codes"]; Txt " above."]]).

(** Lines 49-157 of the recovery codes *)
Definition TwoFactorRecoveryCodes s : node State :=
  elem "Card"
    [elem "CardHeader"
       [elem "CardTitle" [Txt "2FA recovery codes"];
        elem "CardDescription" [Txt "Recovery codes let you regain access if you lose your 2FA device. Store them in a secure password manager."]];
     elem "CardContent" [codesHeader s; codesSection s]].

(** Lines 56-113 of the switch *)
Definition twoFactorSwitch s : node State :=
  if twoFactorEnabled s then
    elem "div"
      [elem "p" [Txt "You will be prompted for a secure, random pin during login, which you can retrieve from the TOTP-supported application on your phone."];
       El (Tag "Form") [Attr "action" (disable_route routes)]
         [El TButton [Attr "type" "submit"; Flag "disabled" (processing "disable")] [Txt "Disable 2FA"]];
       TwoFactorRecoveryCodes s]
  else
    elem "div"
      [elem "p" [Txt "When you enable two-factor authentication, you will be prompted for a secure pin during login. This pin can be retrieved from a TOTP-supported application on your phone."];
       if hasSetupData (hook s)
       then El TButton [Attr "type" "button"; on_click (setShowSetupModal true)] [Txt "Continue setup"]
       else El (Tag "Form") [Attr "action" (enable_route routes)]
              [El TButton [Attr "type" "submit"; Flag "disabled" (processing "enable")]
                 [Txt "Enable 2FA"]]].

Definition ManageTwoFactor s : list (node State) :=
  when canManageTwoFactor
    [elem "div"
       [elem "div"
          [elem "h2" [Txt "Two-factor authentication"];
           elem "p" [Txt "Manage your two-factor authentication settings."]];
        twoFactorSwitch s; TwoFactorSetupModal s]].
End page.

(** ** The component over time *)

(** The answer to a request: a text for the set-up, or codes. *)
Inductive Answer := SetupAnswer (text : option string) | CodesAnswered (answer : CodesAnswer).

Definition settle (f : Fetch) (answer : Answer) (s : State) : State :=
  match f, answer with
  | FetchQrCode, SetupAnswer svg => on_hook (qrCodeSettled svg) s
  | FetchSetupKey, SetupAnswer key => on_hook (setupKeySettled key) s
  | FetchCodes show, CodesAnswered a =>
      let s := on_hook (fun h => fst (recoveryCodesSettled a h)) s in
      if show then setCodesAreVisible true s else s
  | _, _ => s
  end.

Definition is_codes_fetch (f : Fetch) : bool :=
  match f with FetchCodes _ => true | _ => false end.

Definition codes_under_way (s : State) : bool := existsb is_codes_fetch (fetches s).

Section steps.
Context (routes : Routes) (requiresConfirmation : bool).

(** The steps; with [calm] the authentication is not turned off while codes are being fetched. *)
Inductive step (calm : bool) : State -> State -> Prop :=
  (** an event on a control of the page *)
  | step_action s processing code_error clipboard h now ev :
      h ∈ flat_map actions
            (ManageTwoFactor routes true requiresConfirmation processing code_error clipboard s) ->
      step calm s (commit s (h now ev s))
  (** the forms succeed: the new properties are rendered and [onSuccess] runs *)
  | step_enabled s :
      twoFactorEnabled s = false -> hasSetupData (hook s) = false ->
      step calm s (commit s (setShowSetupModal true (receive (negb requiresConfirmation) s)))
  | step_confirmed s :
      showSetupModal s = true -> showVerificationStep s = true ->
      String.length (code s) = OTP_MAX_LENGTH ->
      step calm s (commit s (handleClose (twoFactorEnabled s) (receive true s)))
  | step_disabled s :
      twoFactorEnabled s = true -> (calm = true -> codes_under_way s = false) ->
      step calm s (commit s (receive false s))
  | step_regenerated s :
      twoFactorEnabled s = true -> codesAreVisible s = true ->
      step calm s (commit s (sendRecoveryCodes false s))
  (** a request settles *)
  | step_settled s k f answer :
      fetches s !! k = Some f ->
      step calm s (commit s (settle f answer (setFetches (remove_at k) s))).

(** While the authentication is off there are no codes, none are being fetched, and their list is
    closed. *)
Definition codes_cleared (s : State) : Prop :=
  twoFactorEnabled s = false ->
  recoveryCodesList (hook s) = [] /\ codes_under_way s = false /\ codesAreVisible s = false.

Lemma setup_effect_cleared s : codes_cleared s -> codes_cleared (setup_effect s).
Proof.
  unfold setup_effect. destruct (_ && _); [|done]. intros H He. destruct (H He) as (H1 & H2 & H3).
  split_and!; [done| |done]. unfold codes_under_way. simpl. rewrite existsb_app. simpl.
  unfold codes_under_way in H2. by rewrite H2.
Qed.

Lemma commit_cleared s s' :
  (twoFactorEnabled s = false \/ twoFactorEnabled s' = true -> codes_cleared s') ->
  (twoFactorEnabled s = true -> twoFactorEnabled s' = false ->
     codes_under_way s' = false /\ codesAreVisible s' = false) ->
  codes_cleared (commit s s').
Proof.
  intros Hk Hd. unfold commit.
  assert (Hen : forall x, twoFactorEnabled (setup_effect x) = twoFactorEnabled x)
    by (intros x; unfold setup_effect; by destruct (_ && _)).
  destruct (twoFactorEnabled s) eqn:E, (twoFactorEnabled s') eqn:E'; simpl.
  - assert (codes_cleared s') by auto. by destruct (setup_changed s s'); [apply setup_effect_cleared|].
  - destruct (Hd eq_refl eq_refl) as [Hu Hv].
    assert (Hc : codes_cleared (on_hook clearTwoFactorAuthData (if setup_changed s s' then setup_effect s' else s'))).
    { intros _. split; [done|]. destruct (setup_changed s s'); [|done]. unfold setup_effect.
      destruct (_ && _); [|done]. unfold codes_under_way in *. simpl. by rewrite existsb_app, Hu. }
    destruct (setup_changed s s');
      (destruct (setup_changed _ (on_hook _ _)); [by apply setup_effect_cleared|done]).
  - assert (codes_cleared s') by auto. by destruct (setup_changed s s'); [apply setup_effect_cleared|].
  - assert (codes_cleared s') by auto. by destruct (setup_changed s s'); [apply setup_effect_cleared|].
Qed.

(** The handler does not turn the authentication on or off, and keeps the codes cleared. *)
Definition keeps_cleared (s : State) (h : handler State) : Prop :=
  forall now ev, codes_cleared s -> codes_cleared (h now ev s) /\
    twoFactorEnabled (h now ev s) = twoFactorEnabled s.

(** A change that leaves the codes alone, or one while the authentication is on. *)
Ltac cleared :=
  split; [|done]; first [assumption | intros He; simpl in He; congruence].

Lemma page_keeps_cleared processing code_error clipboard s :
  each_actions (keeps_cleared s)
    (ManageTwoFactor routes true requiresConfirmation processing code_error clipboard s).
Proof.
  unfold ManageTwoFactor, twoFactorSwitch, TwoFactorSetupModal.
  destruct (modalConfig s) as [[title description] buttonText]. walk.
  - destruct (twoFactorEnabled s) eqn:E.
    + unfold TwoFactorRecoveryCodes, codesHeader, codesSection, AlertError. walk.
      * intros now ev Hs. unfold toggleCodesVisibility. destruct (_ && _);
          cleared.
      * destruct (0 <? _)%nat; walk. destruct (0 <? _)%nat; walk.
    + walk. destruct (hasSetupData (hook s)); walk. intros now ev Hs. cleared.
  - intros now ev Hs. unfold handleClose, resetModalState. destruct (twoFactorEnabled s) eqn:E; cleared.
  - destruct (showVerificationStep s).
    + unfold TwoFactorVerificationStep. walk.
      * intros now [|v| |] Hs; try done. destruct (is_code_text v); cleared.
      * intros now ev Hs. cleared.
    + unfold TwoFactorSetupStep, AlertError. destruct (0 <? _)%nat; walk.
      * destruct (truthy_opt _); walk.
      * intros now ev Hs. unfold handleModalNextStep, handleClose, resetModalState.
        destruct requiresConfirmation, (twoFactorEnabled s) eqn:E; cleared.
      * destruct (manualSetupKey (hook s)) as [[|c key]|]; walk. intros now ev Hs. cleared.
Qed.

Lemma settle_cleared s k f answer :
  fetches s !! k = Some f -> codes_cleared s ->
  codes_cleared (settle f answer (setFetches (remove_at k) s)).
Proof.
  intros Hk Hs He.
  assert (He' : twoFactorEnabled s = false)
    by (destruct f as [| |[]], answer; exact He).
  destruct (Hs He') as (H1 & H2 & H3). unfold codes_under_way in H2.
  assert (Hf : existsb is_codes_fetch (remove_at k (fetches s)) = false).
  { rewrite existsb_false_elem in H2 |- *. intros x Hx. apply H2.
    eapply elem_of_submseteq; [exact Hx|]. apply sublist_submseteq, remove_at_sublist. }
  destruct f as [| |show].
  - destruct answer as [[]|]; by split.
  - destruct answer as [[]|]; by split.
  - exfalso. pose proof (proj1 (existsb_false_elem _ _) H2 _ (list_elem_of_lookup_2 _ _ _ Hk)). done.
Qed.

Lemma step_cleared s s' : step true s s' -> codes_cleared s -> codes_cleared s'.
Proof.
  intros Hs H. destruct Hs as [s processing code_error clipboard h now ev Hh|s He Hd|s Hm Hv Hc|s He Hcalm|s He Hv|s k f answer Hk].
  - pose proof (page_keeps_cleared processing code_error clipboard s) as Hp.
    unfold each_actions in Hp. rewrite Forall_forall in Hp. destruct (Hp h Hh now ev H) as [H1 H2].
    apply commit_cleared; [done|]. rewrite H2. congruence.
  - apply commit_cleared; [|congruence]. intros _ E. destruct (H He) as (H1 & H2 & H3).
    simpl in E. rewrite E. split_and!; [done| |done]. unfold codes_under_way in *. simpl.
    clear -H2. induction (fetches s) as [|[| |] l IH]; simpl in *; auto.
  - apply commit_cleared.
    + intros _ He. unfold handleClose, resetModalState in He. by destruct (twoFactorEnabled s).
    + intros _ He. unfold handleClose, resetModalState in He. by destruct (twoFactorEnabled s).
  - apply commit_cleared.
    + intros [E|E]; [congruence|done].
    + intros _ _. split; [|done]. specialize (Hcalm eq_refl). unfold codes_under_way in *. simpl.
      clear -Hcalm. induction (fetches s) as [|[| |] l IH]; simpl in *; auto.
  - apply commit_cleared; [|by simpl; congruence]. intros _ E. simpl in E. congruence.
  - pose proof (settle_cleared s k f answer Hk H) as Hc.
    assert (He : twoFactorEnabled (settle f answer (setFetches (remove_at k) s)) = twoFactorEnabled s)
      by (by destruct f as [| |[]], answer).
    apply commit_cleared; [done|]. rewrite He. congruence.
Qed.

(** The recovery codes of one enrolment are not those of the next: as long as the authentication
    is not turned off while codes are being fetched, there are no codes on the page while it is off
    and none under way, whatever the user does and in whatever order the requests settle; so the
    first look at the codes after it is turned on again fetches them. *)
Theorem no_codes_while_disabled enabled s :
  rtc (step true) (initialState enabled) s -> twoFactorEnabled s = false ->
  recoveryCodesList (hook s) = [] /\ codes_under_way s = false /\
  toggleCodesVisibility (receive true s) = sendRecoveryCodes true (receive true s).
Proof.
  intros Hr He. assert (H : codes_cleared s).
  { assert (H0 : codes_cleared (initialState enabled)) by done.
    induction Hr as [|s1 s2 s3 Hs _ IH]; [done|]. apply IH; [done|]. by eapply step_cleared. }
  destruct (H He) as (H1 & H2 & H3). split_and!; [done..|].
  unfold toggleCodesVisibility. simpl. by rewrite H1, H3.
Qed.
End steps.

(** ** Examples *)

Definition example_routes : Routes := {|
  enable_route := "/enable"; confirm_route := "/confirm"; disable_route := "/disable";
  regenerate_route := "/regenerate" |}.

Definition example_page (s : State) : list (node State) :=
  ManageTwoFactor example_routes true true (fun _ => false) None (true, true) s.

Definition example_step (calm : bool) : State -> State -> Prop := step example_routes true calm.

(** The [n]-th enabled control of the page, triggered. *)
Definition act (n : nat) (ev : event) (s : State) : State :=
  commit s (nth n (flat_map actions (example_page s)) (fun _ _ s => s) 0 ev s).

Lemma two_factor_act_step calm n ev s :
  (n < length (flat_map actions (example_page s)))%nat -> example_step calm s (act n ev s).
Proof.
  intros Hn. apply (step_action _ _ _ _ (fun _ => false) None (true, true)).
  apply list_elem_of_In. by apply nth_In.
Qed.

Definition answered (k : nat) (f : Fetch) (answer : Answer) (s : State) : State :=
  commit s (settle f answer (setFetches (remove_at k) s)).

(** The authentication is turned off after the codes were looked at. *)
Definition looked_at : State :=
  answered 0 (FetchCodes true) (CodesAnswered (Codes ["old-code"])) (act 0 Click (initialState true)).

Definition turned_off : State := commit looked_at (receive false looked_at).

Lemma no_codes_while_disabled_witness :
  recoveryCodesList (hook looked_at) = ["old-code"] /\ recoveryCodesList (hook turned_off) = [].
Proof.
  split; [vm_compute; reflexivity|].
  apply (no_codes_while_disabled example_routes true true turned_off); [|vm_compute; reflexivity].
  apply (rtc_l _ _ (act 0 Click (initialState true))); [apply two_factor_act_step; vm_compute; lia|].
  apply (rtc_l _ _ looked_at).
  { apply (step_settled _ _ _ _ 0 (FetchCodes true)). vm_compute. reflexivity. }
  apply rtc_once, step_disabled; [vm_compute; reflexivity|]. intros _. vm_compute. reflexivity.
Defined.

(** It is turned off while the codes are being fetched, and the answer comes after that. *)
Definition looking : State := act 0 Click (initialState true).

Definition turned_off_early : State := commit looking (receive false looking).

Definition late_codes : State :=
  answered 0 (FetchCodes false) (CodesAnswered (Codes ["old-code"])) turned_off_early.

(** A new enrolment: the set-up is fetched, the code is typed and confirmed. *)
Definition enrolling : State := commit late_codes (setShowSetupModal true (receive false late_codes)).

Definition set_up : State :=
  answered 0 FetchSetupKey (SetupAnswer (Some "KEY"))
    (answered 0 FetchQrCode (SetupAnswer (Some "<svg/>")) enrolling).

Definition typed_code : State := act 2 (Change "123456") (act 2 Click set_up).

Definition enrolled : State := commit typed_code (handleClose false (receive true typed_code)).

Lemma late_codes_reachable : rtc (example_step false) (initialState true) late_codes.
Proof.
  apply (rtc_l _ _ looking); [apply two_factor_act_step; vm_compute; lia|].
  apply (rtc_l _ _ turned_off_early); [by apply step_disabled|].
  apply rtc_once. apply (step_settled _ _ _ _ 0 (FetchCodes false)). vm_compute. reflexivity.
Qed.

Lemma enrolled_reachable : rtc (example_step true) late_codes enrolled.
Proof.
  apply (rtc_l _ _ enrolling); [by apply step_enabled|].
  apply (rtc_l _ _ (answered 0 FetchQrCode (SetupAnswer (Some "<svg/>")) enrolling)).
  { apply (step_settled _ _ _ _ 0 FetchQrCode). vm_compute. reflexivity. }
  apply (rtc_l _ _ set_up).
  { apply (step_settled _ _ _ _ 0 FetchSetupKey). vm_compute. reflexivity. }
  apply (rtc_l _ _ (act 2 Click set_up)); [apply two_factor_act_step; vm_compute; lia|].
  apply (rtc_l _ _ typed_code); [apply two_factor_act_step; vm_compute; lia|].
  apply rtc_once. apply (step_confirmed _ _ _ typed_code); vm_compute; reflexivity.
Qed.

(** Recovery codes can outlive their enrolment: when the authentication is turned off while the
    codes are being fetched, the answer comes after the clearing, and a later enrolment, in which no
    request for codes is ever sent, shows the codes of the first one as its own; the first look at
    them does not fetch because the list is not empty. *)
Theorem stale_recovery_codes :
  exists off on,
    rtc (example_step false) (initialState true) off /\ twoFactorEnabled off = false /\
    rtc (example_step true) off on /\
    twoFactorEnabled on = true /\ codesAreVisible on = true /\ fetches on = [] /\
    recoveryCodesList (hook on) = ["old-code"].
Proof.
  exists late_codes, (act 0 Click enrolled). split_and!; try (vm_compute; reflexivity).
  - apply late_codes_reachable.
  - eapply rtc_r; [apply enrolled_reachable|]. apply two_factor_act_step. vm_compute. lia.
Qed.
