(* ===== verification/Settings.v ===== *)
(** * Settings and preferences

    The pages of [resources/js/pages/settings]: [preferences.tsx], [admin/notifications.tsx],
    [admin/authentication.tsx], [admin/access-workflows.tsx], [admin/application.tsx] and
    [authentication-providers/form.tsx], with
    [components/crucible/timezone-combobox.tsx] and [components/appearance-tabs.tsx].

    Most of their controls are uncontrolled: what the browser holds of a box, given its name and
    its value, is an argument.  The routes are generated code (parameters). *)

From Stdlib Require Import String.
From S2P Require Import Prelude JsString View Badges Hooks.

Open Scope string_scope.
Open Scope Z_scope.
Open Scope list_scope.

(** ** Shared controls *)

Section controls.
Context {S : Type}.

(** What Inertia tells a form. *)
Record FormState := { processing : bool; errors : list (string * string) }.

(** The ticks the user made, by the name and the value of the box. *)
Definition Ticks : Type := string -> string -> option bool.

(** A hidden [0] and an uncontrolled box for [1] of the same name. *)
Definition flag_inputs (ticked : Ticks) (name : string) (defaultChecked : bool) : list (node S) :=
  [El TInput [Attr "type" "hidden"; Attr "name" name; Attr "value" "0"] [];
   El TInput [Attr "type" "checkbox"; Attr "name" name; Attr "value" "1";
              Flag "checked" (ticked name "1" ?? defaultChecked)] []].

Definition described (title description : string) : node S :=
  elem "span" [elem "span" [Txt title]; elem "span" [Txt description]].

(** [SettingField] of [notifications.tsx] *)
Definition SettingField (ticked : Ticks) (name : string) (defaultChecked : bool)
    (title description : string) : node S :=
  elem "label" (flag_inputs ticked name defaultChecked ++ [described title description]).

(** [PreferenceField] of [preferences.tsx] *)
Definition PreferenceField (ticked : Ticks) (name : string) (defaultChecked : bool)
    (title description : string) : node S :=
  elem "label" (flag_inputs ticked name defaultChecked ++ [described title description]).

Definition submit_button (f : FormState) (text : string) : node S :=
  El TButton [Flag "disabled" (processing f)] [Txt text].

Definition card_header (title description : string) : node S :=
  elem "CardHeader" [elem "CardTitle" [Txt title]; elem "CardDescription" [Txt description]].

(** The search of the box; [contains] is that of the combo box. *)
Definition timezone_filter (contains : string -> string -> bool) (timezone query : string) : bool :=
  contains timezone query.

(** [TimezoneCombobox]: the box is a third-party component, an element with its items and the
    change handler; an empty pick clears the choice.  [label_text] is
    [label.toLocaleLowerCase()]. *)
Definition TimezoneCombobox (description : string) (error : option string) (label label_text name : string)
    (onValueChange : string -> S -> S) (timezones : list string) (value : string) : list (node S) :=
  [El TInput [Attr "type" "hidden"; Attr "name" name; Attr "value" value] [];
   El (Tag "Combobox")
     [Attr "value" value;
      On "valueChange" (fun _ ev s =>
        match ev with
        | Pick (position :: _) => onValueChange ((timezones !! position) ?? "") s
        | Pick [] => onValueChange "" s
        | _ => s
        end);
      Attr "label" label; Attr "description" description; Attr "error" (error ?? "");
      Flag "required" true]
     [El (Tag "Combobox.TriggerValue") [Attr "placeholder" "Select a timezone"] [Txt value];
      elem "Combobox.Content"
        [El (Tag "Combobox.Input")
           [Attr "placeholder" "Search timezones...";
            Attr "aria-label" ("Search " ++ label_text)%string] [];
         elem "Combobox.List"
           (map (fun timezone => El (Tag "Combobox.Item") [Attr "key" timezone] [Txt timezone]) timezones);
         elem "Combobox.Empty" [elem "div" [elem "span" [Txt "No matching timezones"]]]]]].

Lemma flag_inputs_entries typed submitter ticked name b :
  truthy name = true ->
  flat_map (entries typed submitter) (flag_inputs ticked name b) = flagged name (ticked name "1" ?? b).
Proof. intros Hn. destruct name as [|c name]; [done|]. cbn. by destruct (ticked _ _ ?? b). Qed.

Lemma SettingField_entries typed submitter ticked name b title description :
  truthy name = true ->
  entries typed submitter (SettingField ticked name b title description) =
  flagged name (ticked name "1" ?? b).
Proof.
  intros Hn. unfold SettingField. rewrite entries_elem, flat_map_app, flag_inputs_entries by done.
  apply app_nil_r.
Qed.

Lemma PreferenceField_entries typed submitter ticked name b title description :
  truthy name = true ->
  entries typed submitter (PreferenceField ticked name b title description) =
  flagged name (ticked name "1" ?? b).
Proof. apply SettingField_entries. Qed.

Lemma TimezoneCombobox_entries typed submitter d e l lt name f tzs value :
  truthy name = true ->
  flat_map (entries typed submitter) (TimezoneCombobox d e l lt name f tzs value) = [(name, value)].
Proof.
  intros Hn. unfold TimezoneCombobox. destruct name as [|c name]; [done|]. cbn.
  rewrite !app_nil_r, flat_map_map, flat_map_nil_all by done. done.
Qed.
End controls.

(** ** The notification policy *)

Record NotificationPolicy := {
  notifications_in_app_enabled : bool;
  notifications_email_enabled : bool;
  notifications_review_enabled : bool;
  notifications_policy_review_enabled : bool;
  notifications_execution_completed_enabled : bool;
  notifications_execution_failed_enabled : bool;
  notifications_query_access_enabled : bool;
  notifications_connection_failed_enabled : bool;
}.

Record Administrator := {
  administrator_id : Z;
  administrator_name : string;
  administrator_email : string;
  is_operational_alert_recipient : bool;
}.

Section notifications.
Context (route : string) (f : FormState) (ticked : Ticks).
Context (settings : NotificationPolicy) (administrators : list Administrator).

Definition SectionHeader (title description : string) : node unit :=
  elem "div" [elem "h2" [Txt title]; elem "p" [Txt description]].

(** Lines 52-76 *)
Definition deliveryChannels : node unit :=
  elem "section"
    [SectionHeader "Delivery channels" "In-app delivery powers each user’s notification inbox. Email follows the individual preference for each event.";
     elem "div"
       [SettingField ticked "notifications_in_app_enabled" (notifications_in_app_enabled settings)
          "In-app notifications" "Show enabled operational events in the application notification inbox.";
        SettingField ticked "notifications_email_enabled" (notifications_email_enabled settings)
          "Email notifications" "Allow eligible events to be delivered through the configured SMTP transport."]].

(** Lines 78-134 *)
Definition eventPolicy : node unit :=
  elem "section"
    [SectionHeader "Event policy" "Disable only routine events when needed. Failed batch and connection-test alerts remain visible in audit logs regardless of this delivery policy.";
     elem "div"
       [SettingField ticked "notifications_review_enabled" (notifications_review_enabled settings)
          "Reviews and decisions" "Review requests, approvals, rejections, and reapproval requirements.";
        SettingField ticked "notifications_policy_review_enabled"
          (notifications_policy_review_enabled settings)
          "SQL policy reviews" "Explicit requests to review unsupported SQL and the resulting decisions.";
        SettingField ticked "notifications_execution_completed_enabled"
          (notifications_execution_completed_enabled settings)
          "Completed deployment batches" "Successful ordered SQL batch outcomes for requesters and executors.";
        SettingField ticked "notifications_execution_failed_enabled"
          (notifications_execution_failed_enabled settings)
          "Failed deployment batches" "Immediate critical alerts for requesters, reviewers, and operational administrators.";
        SettingField ticked "notifications_query_access_enabled"
          (notifications_query_access_enabled settings)
          "Query access sessions" "Session started and expired events.";
        SettingField ticked "notifications_connection_failed_enabled"
          (notifications_connection_failed_enabled settings)
          "Failed connection tests" "Critical alerts for connection creators and operational administrators."]].

(** Lines 150-173 *)
Definition recipientField (administrator : Administrator) : node unit :=
  let id := str_of_Z (administrator_id administrator) in
  El (Tag "label") [Attr "key" id]
    [El TInput [Attr "type" "checkbox"; Attr "name" "operational_recipient_ids[]"; Attr "value" id;
                Flag "checked" (ticked "operational_recipient_ids[]" id ??
                                is_operational_alert_recipient administrator)] [];
     described (administrator_name administrator) (administrator_email administrator)].

(** Lines 136-180 *)
Definition alertRecipients : node unit :=
  elem "section"
    ([SectionHeader "Operational alert recipients" "These administrators receive failed-batch, session-expiry, and connection-failure alerts. If no one is selected, all active administrators receive those alerts.";
      elem "div"
        (if (length administrators =? 0)%nat
         then [elem "p" [Txt "No active administrators are available to receive operational alerts."]]
         else map recipientField administrators)] ++
     InputError (error_of (errors f) "operational_recipient_ids")).

(** Lines 45-188 *)
Definition notificationForm : node unit :=
  El (Tag "Form") [Attr "action" route]
    [deliveryChannels; eventPolicy; alertRecipients; submit_button f "Save notification policy"].

(** Lines 28-192 *)
Definition NotificationSettings : node unit :=
  elem "Fragment"
    [El (Tag "Head") [Attr "title" "Notification policy"] [];
     elem "div"
       [PageHeader "Notification policy"
          (Some "Control operational delivery and define who receives critical database alerts. Notification content never includes SQL, credentials, or result data.") [];
        notificationForm]].

(** The settings by name, as the user left them. *)
Definition notification_flags : list (string * bool) :=
  map (fun f => (fst f, ticked (fst f) "1" ?? snd f))
    [("notifications_in_app_enabled", notifications_in_app_enabled settings);
     ("notifications_email_enabled", notifications_email_enabled settings);
     ("notifications_review_enabled", notifications_review_enabled settings);
     ("notifications_policy_review_enabled", notifications_policy_review_enabled settings);
     ("notifications_execution_completed_enabled", notifications_execution_completed_enabled settings);
     ("notifications_execution_failed_enabled", notifications_execution_failed_enabled settings);
     ("notifications_query_access_enabled", notifications_query_access_enabled settings);
     ("notifications_connection_failed_enabled", notifications_connection_failed_enabled settings)].

(** The administrators that are ticked. *)
Definition recipients : list string :=
  map (fun a => str_of_Z (administrator_id a))
    (List.filter (fun a => ticked "operational_recipient_ids[]" (str_of_Z (administrator_id a)) ??
                           is_operational_alert_recipient a) administrators).

Lemma recipientField_entries typed submitter :
  flat_map (entries typed submitter) (map recipientField administrators) =
  map (pair "operational_recipient_ids[]") recipients.
Proof.
  unfold recipients. induction administrators as [|a l IH]; [done|].
  cbn [map flat_map List.filter]. rewrite IH. unfold recipientField. cbn. by destruct (ticked _ _ ?? _).
Qed.

Lemma alertRecipients_entries typed submitter :
  entries typed submitter alertRecipients = map (pair "operational_recipient_ids[]") recipients.
Proof.
  unfold alertRecipients. rewrite entries_elem, flat_map_app, entries_InputError, app_nil_r. cbn [flat_map].
  rewrite entries_elem, app_nil_r. change (entries typed submitter (SectionHeader _ _)) with (@nil (string * string)).
  rewrite <- (recipientField_entries typed submitter). by destruct administrators.
Qed.

Lemma notificationForm_entries typed submitter :
  entries typed submitter notificationForm =
  flat_map (fun f => flagged (fst f) (snd f)) notification_flags ++
  map (pair "operational_recipient_ids[]") recipients.
Proof.
  unfold notificationForm, deliveryChannels, eventPolicy.
  rewrite entries_Tag. cbn [flat_map]. rewrite alertRecipients_entries, !entries_elem. cbn [flat_map].
  rewrite !(entries_elem _ _ "div"). cbn [flat_map]. rewrite !SettingField_entries by done.
  replace (entries typed submitter (submit_button f _)) with (@nil (string * string))
    by (unfold submit_button; cbn; by destruct (processing f)).
  change (entries typed submitter (SectionHeader _ _)) with (@nil (string * string)).
  rewrite !app_nil_r. cbn [app notification_flags map flat_map fst snd]. by rewrite <- !app_assoc.
Qed.

(** What is saved is what the boxes show: the server reads every setting as it is ticked, and a
    setting that was not touched as it is stored; the recipients are those ticked. *)
Theorem notification_policy_saved typed submitter name b :
  (name, b) ∈ notification_flags ->
  boolean (entries typed submitter notificationForm) name = b /\
  posted (entries typed submitter notificationForm) "operational_recipient_ids[]" = recipients.
Proof.
  intros Hin. rewrite notificationForm_entries. split.
  - apply (boolean_flags []); [|done..|].
    + apply (bool_decide_unpack _). vm_compute. exact I.
    + rewrite posted_other; [done|]. apply Forall_fmap, Forall_forall. intros v _ E. simpl in E. subst name.
      unfold notification_flags in Hin. simpl in Hin. rewrite !elem_of_cons, elem_of_nil in Hin. naive_solver.
  - rewrite posted_app, posted_pairs, posted_flags_other; [done|].
    apply (bool_decide_unpack _). vm_compute. exact I.
Qed.
End notifications.

(** ** Preferences *)

Record Preferences := {
  email_approvals : bool;
  email_policy_reviews : bool;
  email_execution_completed : bool;
  email_execution_failed : bool;
  email_sessions : bool;
  email_connection_failed : bool;
}.

Inductive Watched := WatchedRequest | WatchedConnection.

Record Subscription := {
  subscription_id : Z;
  subscription_type : Watched;
  subscribable_id : Z;
  subscription_title : string;
  subscription_detail : string;
}.

Record PreferencesRoutes := {
  update_timezone : string;
  update_notification_preferences : string;
  query_request_show : Z -> string;
  connection_show : Z -> string;
  unsubscribe_request : Z -> string;
  unsubscribe_connection : Z -> string;
}.

(** The page's choice of a time zone, and the module's theme. *)
Record PreferencesState := { selectedTimezone : string; theme : Theme }.

Definition setSelectedTimezone (v : string) (s : PreferencesState) : PreferencesState := {|
  selectedTimezone := v; theme := theme s |}.

Definition on_theme (f : Theme -> Theme) (s : PreferencesState) : PreferencesState := {|
  selectedTimezone := selectedTimezone s; theme := f (theme s) |}.

(** [AppearanceToggleTab] of [appearance-tabs.tsx] *)
Definition AppearanceTabs (t : Theme) : node Theme :=
  El (Tag "div") [Attr "role" "radiogroup"; Attr "aria-label" "Appearance preference"]
    (map (fun tab =>
       El TButton
         [Attr "type" "button"; on_click (updateAppearance (fst tab)); Attr "role" "radio";
          Flag "aria-checked" (bool_decide (currentAppearance t = fst tab))]
         [elem "span" [Txt (snd tab)]])
       [(Light, "Light"); (Dark, "Dark"); (System, "System")]).

Section preferences.
Context (routes : PreferencesRoutes) (timezone_form notification_form : FormState).
Context (unsubscribing : Z -> bool) (ticked : Ticks).
Context (preferences : Preferences) (subscriptions : list Subscription) (timezones : list string).

(** Lines 78-115 *)
Definition timezoneForm (s : PreferencesState) : node PreferencesState :=
  El (Tag "Form") [Attr "action" (update_timezone routes)]
    [elem "div"
       [elem "div" [Txt "Timezone"];
        elem "p" [Txt "Set the timezone used for scheduled inputs and operational timestamps."]];
     elem "div"
       (TimezoneCombobox "Dates and times throughout Crucible DB are shown in this timezone."
          (error_of (errors timezone_form) "timezone") "Operational timezone" "operational timezone"
          "timezone" setSelectedTimezone timezones (selectedTimezone s) ++
        [elem "div" [submit_button timezone_form "Save timezone"]])].

(** Lines 134-179 *)
Definition preferenceFields : list (node PreferencesState) :=
  [PreferenceField ticked "email_approvals" (email_approvals preferences)
     "Approval decisions" "Approved, rejected, and reapproval-required requests.";
   PreferenceField ticked "email_policy_reviews" (email_policy_reviews preferences)
     "SQL policy reviews"
     "New policy-review requests and the allow or deny decision for your deployment drafts.";
   PreferenceField ticked "email_execution_completed" (email_execution_completed preferences)
     "Completed deployment batches" "Successful ordered SQL batch outcomes.";
   PreferenceField ticked "email_execution_failed" (email_execution_failed preferences)
     "Failed deployment batches" "Immediate alert when a batch stops at a failed statement.";
   PreferenceField ticked "email_sessions" (email_sessions preferences)
     "Query access sessions" "Session start and expiry updates.";
   PreferenceField ticked "email_connection_failed" (email_connection_failed preferences)
     "Failed connection tests" "Connection health issues for targets you created or administer."].

(** Lines 117-188 *)
Definition preferencesForm : node PreferencesState :=
  El (Tag "Form") [Attr "action" (update_notification_preferences routes)]
    [elem "div"
       [elem "div" [Txt "Email updates"];
        elem "p" [Txt "Choose which operational updates should also be sent to your email address."]];
     elem "div" preferenceFields;
     elem "div" [submit_button notification_form "Save preferences"]].

(** Lines 208-256 *)
Definition watchedResource (subscription : Subscription) : node PreferencesState :=
  let id := subscribable_id subscription in
  El (Tag "div") [Attr "key" (str_of_Z (subscription_id subscription))]
    [elem "div"
       [El (Tag "Link")
          [Attr "href" (match subscription_type subscription with
                        | WatchedRequest => query_request_show routes id
                        | WatchedConnection => connection_show routes id
                        end)] [Txt (subscription_title subscription)];
        elem "p" [Txt (subscription_detail subscription)]];
     El (Tag "Form")
       [Attr "action" (match subscription_type subscription with
                       | WatchedRequest => unsubscribe_request routes id
                       | WatchedConnection => unsubscribe_connection routes id
                       end)]
       [El TButton [Flag "disabled" (unsubscribing (subscription_id subscription))] [Txt "Stop watching"]]].

(** Lines 190-259 *)
Definition watchedResources : node PreferencesState :=
  elem "section"
    [elem "div"
       [elem "div" [Txt "Watched resources"];
        elem "p" [Txt "Updates for requests and connections you choose to watch."]];
     if (length subscriptions =? 0)%nat
     then elem "div" [Txt "You are not watching any requests or connections yet."]
     else elem "div" (map watchedResource subscriptions)].

(** Lines 39-263 *)
Definition PreferencesPage (s : PreferencesState) : node PreferencesState :=
  elem "Fragment"
    [El (Tag "Head") [Attr "title" "Preferences"] [];
     elem "div"
       [PageHeader "Preferences"
          (Some "Set your interface and personal operational update preferences.") [];
        elem "section"
          [elem "div"
             [elem "div" [Txt "Appearance"];
              elem "p" [Txt "Choose the colour mode applied across your workspace."]];
           elem "div" [embed on_theme (AppearanceTabs (theme s))]];
        timezoneForm s; preferencesForm; watchedResources]].

Definition preference_flags : list (string * bool) :=
  map (fun f => (fst f, ticked (fst f) "1" ?? snd f))
    [("email_approvals", email_approvals preferences);
     ("email_policy_reviews", email_policy_reviews preferences);
     ("email_execution_completed", email_execution_completed preferences);
     ("email_execution_failed", email_execution_failed preferences);
     ("email_sessions", email_sessions preferences);
     ("email_connection_failed", email_connection_failed preferences)].

Lemma preferencesForm_entries typed submitter :
  entries typed submitter preferencesForm = flat_map (fun f => flagged (fst f) (snd f)) preference_flags.
Proof.
  unfold preferencesForm, preferenceFields. rewrite entries_Tag. cbn [flat_map].
  rewrite !entries_elem. cbn [flat_map]. rewrite !PreferenceField_entries by done.
  replace (entries typed submitter (submit_button notification_form _)) with (@nil (string * string))
    by (unfold submit_button; cbn; by destruct (processing notification_form)).
  cbn [flat_map View.entries elem own_entries app preference_flags map fst snd]. by rewrite !app_nil_r.
Qed.

(** The server reads the preferences as the boxes show them. *)
Theorem preferences_saved typed submitter name b :
  (name, b) ∈ preference_flags -> boolean (entries typed submitter preferencesForm) name = b.
Proof.
  intros Hin. rewrite preferencesForm_entries, <- (app_nil_r (flat_map _ _)).
  apply (boolean_flags [] _ []); [|done..]. apply (bool_decide_unpack _). vm_compute. exact I.
Qed.

(** The tabs change the theme and nothing else; the box chooses one of the time zones or none. *)
Lemma PreferencesPage_actions s h now ev :
  h ∈ actions (PreferencesPage s) ->
  h now ev s = s \/ (exists mode, h now ev s = on_theme (updateAppearance mode) s) \/
  (exists v, (v = "" \/ v ∈ timezones) /\ h now ev s = setSelectedTimezone v s).
Proof.
  revert now ev. cut (all_actions (fun h => forall now ev, h now ev s = s \/
    (exists mode, h now ev s = on_theme (updateAppearance mode) s) \/
    (exists v, (v = "" \/ v ∈ timezones) /\ h now ev s = setSelectedTimezone v s)) (PreferencesPage s)).
  { intros H now ev Hh. unfold all_actions in H. rewrite Forall_forall in H. by apply H. }
  unfold PreferencesPage, PageHeader, timezoneForm, preferencesForm, watchedResources, submit_button,
    preferenceFields, PreferenceField, flag_inputs, described, TimezoneCombobox, watchedResource.
  walk.
  - apply all_actions_embed. unfold AppearanceTabs. walk. intros now ev. right. left. eauto.
  - intros now ev. destruct ev as [| | |[|position positions]]; [by left..| |].
    + right. right. exists "". split; [by left|done].
    + right. right. exists ((timezones !! position) ?? ""). split; [|done].
      destruct (timezones !! position) eqn:E; [|by left]. right. by apply list_elem_of_lookup_2 in E.
  - destruct (_ =? 0)%nat; walk.
Qed.
End preferences.

(** ** Sign-in methods *)

Record SsoProvider := {
  sso_id : Z;
  sso_name : string;
  sso_provider_label : string;
  sso_is_enabled : bool;
}.

Section authentication.
Context (route providers_index : string) (f : FormState) (ticked : Ticks).
Context (password_login_enabled passkey_login_enabled : bool) (enabled_provider_count : Z).
Context (configured_sso_providers : list SsoProvider).

(** Lines 48-137 *)
Definition methodsForm : node unit :=
  El (Tag "Form") [Attr "action" route]
    ([elem "Card"
        [card_header "Login options"
           ("At least one sign-in option must remain enabled. There are currently " ++
            str_of_Z enabled_provider_count ++ " enabled SSO provider" ++
            (if (enabled_provider_count =? 1)%Z then "" else "s") ++ ".")%string;
         elem "CardContent"
           [elem "label"
              (flag_inputs ticked "password_login_enabled" password_login_enabled ++
               [described "Email and password"
                  "Allows invited users to sign in and reset their own password."]);
            elem "label"
              (flag_inputs ticked "passkey_login_enabled" passkey_login_enabled ++
               [described "Passkeys"
                  "Allows enrolled users to authenticate with a device-bound passkey."])]]] ++
     InputError (match error_of (errors f) "password_login_enabled" with
                 | Some m => Some m
                 | None => error_of (errors f) "passkey_login_enabled"
                 end) ++
     [submit_button f "Save sign-in methods"]).

(** Lines 139-188 *)
Definition ssoProviders : node unit :=
  elem "Card"
    [elem "CardHeader"
       [elem "div"
          [elem "CardTitle" [Txt "Configured SSO providers"];
           elem "CardDescription"
             [Txt "Provider availability is managed separately from the core sign-in methods."]];
        El (Tag "Link") [Attr "href" providers_index] [Txt "Manage SSO providers"]];
     elem "CardContent"
       (map (fun provider =>
          El (Tag "div") [Attr "key" (str_of_Z (sso_id provider))]
            [elem "div"
               [elem "div" [Txt (sso_name provider)]; elem "div" [Txt (sso_provider_label provider)]];
             StatusBadge (if sso_is_enabled provider then "active" else "disabled")
               (Some (if sso_is_enabled provider then "Enabled" else "Disabled"))])
          configured_sso_providers ++
        when (length configured_sso_providers =? 0)%nat
          [elem "div" [Txt "No SSO providers are configured."]])].

(** Lines 33-192 *)
Definition AuthenticationMethods : node unit :=
  elem "Fragment"
    [El (Tag "Head") [Attr "title" "Sign-in methods"] [];
     elem "div"
       [PageHeader "Sign-in methods"
          (Some "Manage sign-in methods and the SSO providers available to invited users.") [];
        methodsForm; ssoProviders]].

Definition method_flags : list (string * bool) :=
  [("password_login_enabled", ticked "password_login_enabled" "1" ?? password_login_enabled);
   ("passkey_login_enabled", ticked "passkey_login_enabled" "1" ?? passkey_login_enabled)].

Lemma methodsForm_entries typed submitter :
  entries typed submitter methodsForm = flat_map (fun f => flagged (fst f) (snd f)) method_flags.
Proof.
  unfold methodsForm. rewrite entries_Tag, !flat_map_app, entries_InputError. cbn [flat_map].
  rewrite !entries_elem. cbn [flat_map]. rewrite !(entries_elem _ _ "CardContent"). cbn [flat_map].
  rewrite !(entries_elem _ _ "label"), !flat_map_app, !flag_inputs_entries by done.
  replace (entries typed submitter (submit_button f _)) with (@nil (string * string))
    by (unfold submit_button; cbn; by destruct (processing f)).
  cbn [flat_map View.entries elem own_entries app method_flags fst snd described card_header].
  by rewrite !app_nil_r.
Qed.

(** The server reads the methods as the boxes show them. *)
Theorem methods_saved typed submitter name b :
  (name, b) ∈ method_flags -> boolean (entries typed submitter methodsForm) name = b.
Proof.
  intros Hin. rewrite methodsForm_entries, <- (app_nil_r (flat_map _ _)).
  apply (boolean_flags [] _ []); [|done..]. apply (bool_decide_unpack _). vm_compute. exact I.
Qed.
End authentication.

(** ** Access workflows *)

Record WorkflowSettings := {
  query_access_enabled : bool;
  query_access_timeout_seconds : Z;
  query_access_timeout_max_seconds : Z;
  native_client_access_enabled : bool;
  native_proxy_username_prefix : string;
}.

Record WorkflowUsage := {
  active_query_sessions : Z;
  active_native_sessions : Z;
  query_role_grants : Z;
  native_role_grants : Z;
}.

Record WorkflowState := {
  queryAccessEnabled : bool;
  nativeClientAccessEnabled : bool;
  queryAccessTimeoutSeconds : string;
  nativeProxyUsernamePrefix : string;
}.

Definition setQueryAccessEnabled (b : bool) (s : WorkflowState) : WorkflowState := {|
  queryAccessEnabled := b; nativeClientAccessEnabled := nativeClientAccessEnabled s;
  queryAccessTimeoutSeconds := queryAccessTimeoutSeconds s;
  nativeProxyUsernamePrefix := nativeProxyUsernamePrefix s |}.

Definition setNativeClientAccessEnabled (b : bool) (s : WorkflowState) : WorkflowState := {|
  queryAccessEnabled := queryAccessEnabled s; nativeClientAccessEnabled := b;
  queryAccessTimeoutSeconds := queryAccessTimeoutSeconds s;
  nativeProxyUsernamePrefix := nativeProxyUsernamePrefix s |}.

Definition setQueryAccessTimeoutSeconds (v : string) (s : WorkflowState) : WorkflowState := {|
  queryAccessEnabled := queryAccessEnabled s;
  nativeClientAccessEnabled := nativeClientAccessEnabled s; queryAccessTimeoutSeconds := v;
  nativeProxyUsernamePrefix := nativeProxyUsernamePrefix s |}.

Definition setNativeProxyUsernamePrefix (v : string) (s : WorkflowState) : WorkflowState := {|
  queryAccessEnabled := queryAccessEnabled s;
  nativeClientAccessEnabled := nativeClientAccessEnabled s;
  queryAccessTimeoutSeconds := queryAccessTimeoutSeconds s; nativeProxyUsernamePrefix := v |}.

(** [AccessFeatureField], whose icon and tone are left out *)
Definition AccessFeatureField {S} (id name title description : string) (checked : bool)
    (onCheckedChange : bool -> S -> S) (activeSessions roleGrants : Z) : node S :=
  El (Tag "label") [Attr "for" id]
    [elem "span"
       [elem "span" [Txt title]; elem "span" [Txt description];
        elem "span"
          [Txt (str_of_Z roleGrants ++ " configured role " ++
                (if (roleGrants =? 1)%Z then "grant" else "grants"))%string;
           elem "span" [Txt "·"];
           Txt (str_of_Z activeSessions ++ " active " ++
                (if (activeSessions =? 1)%Z then "session" else "sessions"))%string]];
     elem "span"
       [El TInput [Attr "type" "hidden"; Attr "name" name; Attr "value" "0"] [];
        El TInput [Attr "id" id; Attr "type" "checkbox"; Attr "name" name; Attr "value" "1";
                   Flag "checked" checked; on_toggle onCheckedChange] []]].

Section workflows.
Context (route : string) (f : FormState) (settings : WorkflowSettings) (usage : WorkflowUsage).
Implicit Types (s : WorkflowState).

Definition initialWorkflows : WorkflowState := {|
  queryAccessEnabled := query_access_enabled settings;
  nativeClientAccessEnabled := native_client_access_enabled settings;
  queryAccessTimeoutSeconds := str_of_Z (query_access_timeout_seconds settings);
  nativeProxyUsernamePrefix := native_proxy_username_prefix settings |}.

Definition isDisablingQueryAccess s : bool :=
  query_access_enabled settings && negb (queryAccessEnabled s).

Definition isDisablingNativeClientAccess s : bool :=
  native_client_access_enabled settings && negb (nativeClientAccessEnabled s).

(** Lines 132-182 *)
Definition availabilityCard s : node WorkflowState :=
  elem "Card"
    [card_header "Workflow availability" "Disabled workflows disappear from new requests and role policy forms. New sessions are blocked, while sessions already in progress continue until they end or expire.";
     elem "CardContent"
       ([AccessFeatureField "query_access_enabled" "query_access_enabled" "Query Access"
           "Allow governed browser sessions without requiring SQL in advance."
           (queryAccessEnabled s) setQueryAccessEnabled (active_query_sessions usage)
           (query_role_grants usage);
         AccessFeatureField "native_client_access_enabled" "native_client_access_enabled"
           "Native Client Access"
           "Allow approved database clients to connect through the Crucible CLI."
           (nativeClientAccessEnabled s) setNativeClientAccessEnabled (active_native_sessions usage)
           (native_role_grants usage)] ++
        InputError (match error_of (errors f) "query_access_enabled" with
                    | Some m => Some m
                    | None => error_of (errors f) "native_client_access_enabled"
                    end))].

(** Lines 184-245 *)
Definition timeoutCard s : node WorkflowState :=
  elem "Card"
    [card_header "Browser query execution"
       "Limit each Query Access statement at the database session and worker layers.";
     elem "CardContent"
       ([El (Tag "Label") [Attr "for" "query_access_timeout_seconds"] [Txt "Maximum query runtime"];
         elem "div"
           [El TInput
              [Attr "id" "query_access_timeout_seconds"; Attr "name" "query_access_timeout_seconds";
               Attr "type" "number"; Attr "min" "5";
               Attr "max" (str_of_Z (query_access_timeout_max_seconds settings)); Attr "step" "1";
               Attr "value" (queryAccessTimeoutSeconds s); on_change setQueryAccessTimeoutSeconds;
               Flag "required" true;
               Flag "aria-invalid" (truthy_opt (error_of (errors f) "query_access_timeout_seconds"))] [];
            elem "span" [Txt "seconds"]];
         elem "p"
           [Txt ("Applies to every browser query. The deployment hard ceiling is " ++
                 str_of_Z (query_access_timeout_max_seconds settings) ++
                 " seconds and cannot be raised from this page.")%string]] ++
        InputError (error_of (errors f) "query_access_timeout_seconds"))].

(** Lines 247-330 *)
Definition prefixCard s : node WorkflowState :=
  elem "Card"
    [card_header "Native client credentials" "Customize how temporary native-client usernames are identified.";
     elem "CardContent"
       [elem "div"
          ([El (Tag "Label") [Attr "for" "native_proxy_username_prefix"] [Txt "Temporary username prefix"];
            El TInput
              [Attr "id" "native_proxy_username_prefix"; Attr "name" "native_proxy_username_prefix";
               Attr "value" (nativeProxyUsernamePrefix s); on_change setNativeProxyUsernamePrefix;
               Attr "minlength" "2"; Attr "maxlength" "24"; Flag "required" true;
               Attr "autocomplete" "off"; Flag "spellcheck" false;
               Flag "aria-invalid" (truthy_opt (error_of (errors f) "native_proxy_username_prefix"))] [];
            elem "p" [Txt "Use 2–24 lowercase letters, numbers, underscores, or hyphens. The first character must be a letter."]] ++
           InputError (error_of (errors f) "native_proxy_username_prefix"));
        elem "div"
          [elem "p" [Txt "Username preview"];
           elem "code"
             [Txt ((if truthy (nativeProxyUsernamePrefix s) then nativeProxyUsernamePrefix s else "prefix_")
                   ++ "a1b2c3d4e5f6…")%string]];
        elem "div"
          (elem "p" [Txt "This prefix applies only when a new username is issued. Existing credentials and password rotations keep their current username."]
           :: when (negb (nativeClientAccessEnabled s))
                [elem "p" [Txt "Native Client Access is currently disabled. You can configure the prefix now for future use."]])]].

(** Lines 332-349 *)
Definition disablingWarning s : list (node WorkflowState) :=
  when (isDisablingQueryAccess s || isDisablingNativeClientAccess s)
    [elem "div"
       [elem "div"
          [elem "p" [Txt "This change removes a workflow from new access requests"];
           elem "p" [Txt "Existing sessions will continue. Stored role grants are retained and become effective again if the workflow is re-enabled."]]]].

(** Lines 125-359 *)
Definition workflowsForm s : node WorkflowState :=
  El (Tag "Form") [Attr "action" route]
    ([availabilityCard s; timeoutCard s; prefixCard s] ++ disablingWarning s ++
     [elem "div" [submit_button f "Save access settings"]]).

(** Lines 115-363 *)
Definition AccessWorkflows s : node WorkflowState :=
  elem "Fragment"
    [El (Tag "Head") [Attr "title" "Access workflows"] [];
     elem "div"
       [PageHeader "Access workflows"
          (Some "Choose which time-boxed access mechanisms are available across the workspace.") [];
        workflowsForm s]].

Lemma AccessFeatureField_entries {S} typed submitter id name title description checked
    (onChange : bool -> S -> S) a r :
  truthy name = true ->
  entries typed submitter (AccessFeatureField id name title description checked onChange a r) =
  flagged name checked.
Proof. intros Hn. destruct name as [|c name]; [done|]. by destruct checked. Qed.

Lemma availabilityCard_entries typed submitter s :
  entries typed submitter (availabilityCard s) =
  flagged "query_access_enabled" (queryAccessEnabled s) ++
  flagged "native_client_access_enabled" (nativeClientAccessEnabled s).
Proof.
  unfold availabilityCard. rewrite entries_elem. cbn [flat_map].
  rewrite (entries_elem _ _ "CardContent"), flat_map_app, entries_InputError. cbn [flat_map].
  rewrite !AccessFeatureField_entries, !app_nil_r by done. done.
Qed.

Lemma timeoutCard_entries typed submitter s :
  entries typed submitter (timeoutCard s) =
  [("query_access_timeout_seconds", queryAccessTimeoutSeconds s)].
Proof. unfold timeoutCard. cbn -[InputError]. by rewrite entries_InputError. Qed.

Lemma prefixCard_entries typed submitter s :
  entries typed submitter (prefixCard s) =
  [("native_proxy_username_prefix", nativeProxyUsernamePrefix s)].
Proof.
  unfold prefixCard. cbn -[InputError]. rewrite entries_InputError.
  by destruct (nativeClientAccessEnabled s).
Qed.

(** The form posts the state of the page. *)
Lemma workflowsForm_entries typed submitter s :
  entries typed submitter (workflowsForm s) =
  (flagged "query_access_enabled" (queryAccessEnabled s) ++
   flagged "native_client_access_enabled" (nativeClientAccessEnabled s)) ++
  [("query_access_timeout_seconds", queryAccessTimeoutSeconds s);
   ("native_proxy_username_prefix", nativeProxyUsernamePrefix s)].
Proof.
  unfold workflowsForm. rewrite entries_Tag, !flat_map_app. cbn [flat_map].
  rewrite availabilityCard_entries, timeoutCard_entries, prefixCard_entries.
  replace (flat_map (entries typed submitter) (disablingWarning s)) with (@nil (string * string))
    by (unfold disablingWarning; by destruct (_ || _)).
  replace (entries typed submitter (elem "div" [submit_button f _])) with (@nil (string * string))
    by (unfold submit_button; cbn; by destruct (processing f)).
  by rewrite !app_nil_r.
Qed.

(** The warning stands on the page exactly when saving would take a workflow away. *)
Lemma disablingWarning_iff typed submitter s :
  disablingWarning s <> [] <->
  exists name, In name ["query_access_enabled"; "native_client_access_enabled"] /\
    boolean (entries typed submitter (workflowsForm initialWorkflows)) name = true /\
    boolean (entries typed submitter (workflowsForm s)) name = false.
Proof.
  assert (Hq : forall s, boolean (entries typed submitter (workflowsForm s)) "query_access_enabled" =
    queryAccessEnabled s).
  { intros s'. rewrite workflowsForm_entries. by destruct s' as [[] []]. }
  assert (Hn : forall s, boolean (entries typed submitter (workflowsForm s)) "native_client_access_enabled" =
    nativeClientAccessEnabled s).
  { intros s'. rewrite workflowsForm_entries. by destruct s' as [[] []]. }
  unfold disablingWarning, isDisablingQueryAccess, isDisablingNativeClientAccess. split.
  - intros H. destruct (query_access_enabled settings && _) eqn:E1.
    + exists "query_access_enabled". rewrite !Hq. bool_hyps. split; [by left|done].
    + destruct (native_client_access_enabled settings && _) eqn:E2; [|done].
      exists "native_client_access_enabled". rewrite !Hn. bool_hyps. split; [by right; left|done].
  - intros (name & [<-|[<-|[]]] & H1 & H2); rewrite ?Hq, ?Hn in H1, H2; simpl in H1;
      by rewrite H1, H2, ?orb_true_r.
Qed.
End workflows.

(** ** Application settings *)

Record ApplicationValues := {
  app_name : string;
  default_timezone : option string;
  mail_host : option string;
  mail_port : option Z;
  mail_username : option string;
  mail_scheme : option string;
  mail_from_address : option string;
  mail_from_name : option string;
  has_mail_password : bool;
}.

Section application.
Context (route reset_route : string) (f reset_form : FormState).
Context (settings : ApplicationValues) (timezones : list string) (confirmationPhrase : string).

(** The page keeps the time zone, the card of the factory reset what is typed. *)
Record ApplicationState := { defaultTimezoneValue : string; confirmation : string }.

Definition setDefaultTimezoneValue (v : string) (s : ApplicationState) : ApplicationState := {|
  defaultTimezoneValue := v; confirmation := confirmation s |}.

Definition setConfirmation (v : string) (s : ApplicationState) : ApplicationState := {|
  defaultTimezoneValue := defaultTimezoneValue s; confirmation := v |}.

Definition defaultTimezone : string := default_timezone settings ?? "UTC".

Definition availableTimezones : list string :=
  if (0 <? length timezones)%nat then timezones else [defaultTimezone].

Definition initialApplication : ApplicationState := {|
  defaultTimezoneValue := defaultTimezone; confirmation := "" |}.

(** A label, an input and its error. *)
Definition text_field (label name : string) (attrs : list (prop ApplicationState))
    : list (node ApplicationState) :=
  [El (Tag "Label") [Attr "for" name] [Txt label];
   El TInput (Attr "id" name :: Attr "name" name :: attrs) []] ++
  InputError (error_of (errors f) name).

(** Lines 75-114 *)
Definition identityCard (s : ApplicationState) : node ApplicationState :=
  elem "Card"
    [card_header "Workspace identity"
       "This name is used in the interface and transactional email sender name by default.";
     elem "CardContent"
       [elem "div"
          (text_field "Application name" "app_name"
             [Attr "defaultValue" (app_name settings); Flag "required" true]);
        elem "div"
          (TimezoneCombobox
             "Used for people invited after this change. Each person can override it in Preferences."
             (error_of (errors f) "default_timezone") "Default timezone" "default timezone"
             "default_timezone" setDefaultTimezoneValue availableTimezones (defaultTimezoneValue s))]].

(** Lines 116-254 *)
Definition smtpCard : node ApplicationState :=
  elem "Card"
    [card_header "SMTP delivery" "Leave this section unchanged to continue using deployment-provided mail settings. Saved credentials are encrypted and never shown again.";
     elem "CardContent"
       [elem "div"
          (text_field "SMTP host" "mail_host"
             [Attr "defaultValue" (mail_host settings ?? ""); Attr "placeholder" "smtp.example.com"]);
        elem "div"
          (text_field "Port" "mail_port"
             [Attr "type" "number"; Attr "min" "1"; Attr "max" "65535";
              Attr "defaultValue" (str_of_Z (mail_port settings ?? 587))]);
        elem "div"
          ([El (Tag "Label") [Attr "for" "mail_scheme"] [Txt "Transport security"];
            El TSelect [Attr "id" "mail_scheme"; Attr "name" "mail_scheme";
                        Attr "defaultValue" (mail_scheme settings ?? "smtp")]
              [choice "smtp" "STARTTLS / SMTP"; choice "smtps" "Implicit TLS / SMTPS"]] ++
           InputError (error_of (errors f) "mail_scheme"));
        elem "div"
          (text_field "Username" "mail_username"
             [Attr "autocomplete" "username"; Attr "defaultValue" (mail_username settings ?? "")]);
        elem "div"
          (text_field "Password" "mail_password"
             [Attr "type" "password"; Attr "autocomplete" "new-password";
              Attr "placeholder" (if has_mail_password settings
                                  then "Saved. Enter a new value to rotate it." else "SMTP password")]);
        elem "div"
          (text_field "From email" "mail_from_address"
             [Attr "type" "email"; Attr "defaultValue" (mail_from_address settings ?? "");
              Attr "placeholder" "access@example.com"]);
        elem "div"
          (text_field "From name" "mail_from_name"
             [Attr "defaultValue" (mail_from_name settings ?? app_name settings)])]].

(** Lines 68-262 *)
Definition applicationForm (s : ApplicationState) : node ApplicationState :=
  El (Tag "Form") [Attr "action" route]
    [identityCard s; smtpCard; submit_button f "Save application settings"].

(** Lines 321-373 *)
Definition resetForm (s : ApplicationState) : node ApplicationState :=
  El (Tag "Form") [Attr "action" reset_route]
    [elem "div"
       ([El (Tag "Label") [Attr "for" "factory_reset_confirmation"]
           [Txt ("Type " ++ confirmationPhrase ++ " to confirm")%string];
         El TInput [Attr "id" "factory_reset_confirmation"; Attr "name" "confirmation";
                    Attr "value" (confirmation s); on_change setConfirmation;
                    Attr "autocomplete" "off"] []] ++
        InputError (error_of (errors reset_form) "confirmation"));
     elem "DialogFooter"
       [elem "DialogClose" [El TButton [Attr "type" "button"] [Txt "Cancel"]];
        El TButton [Attr "type" "submit";
                    Flag "disabled" (processing reset_form ||
                                     negb (str_eq (confirmation s) confirmationPhrase))]
          [Txt "Erase and restart setup"]]].

(** The answer to a reset that succeeded: [onSuccess] *)
Definition resetSucceeded : ApplicationState -> ApplicationState := setConfirmation "".

(** Lines 276-379 *)
Definition FactoryResetCard (s : ApplicationState) : node ApplicationState :=
  elem "Card"
    [card_header "Factory reset" "Permanently erase Crucible users, roles, providers, connections, requests, sessions, settings, and audit records. Target databases are never changed.";
     elem "CardContent"
       [elem "p" [Txt "This returns the control plane to the initial web setup. This action cannot be undone."];
        elem "Dialog"
          [elem "DialogTrigger" [El TButton [Attr "type" "button"] [Txt "Factory reset"]];
           elem "DialogContent"
             [elem "DialogHeader"
                [elem "DialogTitle" [Txt "Factory reset Crucible DB?"];
                 elem "DialogDescription" [Txt "All control-plane data, including audit records, will be permanently deleted. The configured target databases and their data will not be touched."]];
              resetForm s]]]].

(** Lines 47-270 *)
Definition ApplicationSettings (s : ApplicationState) : node ApplicationState :=
  elem "Fragment"
    [El (Tag "Head") [Attr "title" "Application settings"] [];
     elem "div"
       [PageHeader "Application settings"
          (Some "Manage workspace identity and outbound email transport.") [];
        applicationForm s; FactoryResetCard s]].

(** The reset is sent only with the phrase: a button of its form that can be pressed posts the
    phrase of the server and nothing else, while no reset is under way. *)
Lemma factory_reset_confirmed typed submitter s name value :
  (name, value, true) ∈ submits (resetForm s) ->
  entries typed submitter (resetForm s) = [("confirmation", confirmationPhrase)] /\
  processing reset_form = false.
Proof.
  unfold resetForm. cbn -[InputError]. rewrite !submits_InputError, !entries_InputError. simpl.
  rewrite list_elem_of_singleton. intros [= _ _ H].
  apply eq_sym, negb_true_iff, orb_false_iff in H as [-> H%negb_false_iff%str_eq_true].
  rewrite H. split; [|done]. unfold own_entries. cbn. by destruct (negb _).
Qed.

(** A form that was not touched posts what is stored, and no password. *)
Lemma applicationForm_entries submitter :
  (mail_scheme settings ?? "smtp") ∈ ["smtp"; "smtps"] ->
  entries (fun _ => None) submitter (applicationForm initialApplication) =
  [("app_name", app_name settings); ("default_timezone", defaultTimezone);
   ("mail_host", mail_host settings ?? ""); ("mail_port", str_of_Z (mail_port settings ?? 587));
   ("mail_scheme", mail_scheme settings ?? "smtp"); ("mail_username", mail_username settings ?? "");
   ("mail_password", ""); ("mail_from_address", mail_from_address settings ?? "");
   ("mail_from_name", mail_from_name settings ?? app_name settings)].
Proof.
  intros Hs. unfold applicationForm, identityCard, smtpCard, text_field, submit_button.
  cbn -[InputError TimezoneCombobox selected_option]. rewrite !entries_InputError.
  rewrite TimezoneCombobox_entries by done. rewrite selected_option_listed by done.
  by destruct (processing f).
Qed.
End application.

(** ** The form of an SSO provider *)

Record SetupGuide := {
  overview : string;
  steps : list string;
  documentation_url : string;
  documentation_label : string;
}.

Record ProviderOption := {
  provider_value : string;
  provider_option_label : string;
  default_scopes : string;
  setup_guide : SetupGuide;
}.

Record AuthProviderRecord := {
  provider_id : Z;
  provider_kind : string;
  provider_name : string;
  client_id : string;
  scopes : string;
  allowed_domains : string;
  tenant : option string;
  issuer_url : option string;
  provider_is_enabled : bool;
  callback_url : string;
}.

Record ProviderRoutes := {
  provider_update : Z -> string;
  provider_store : string;
  provider_test : Z -> string;
  providers_list : string;
}.

Section provider.
Context (routes : ProviderRoutes) (f : FormState) (ticked : Ticks).
Context (provider : option AuthProviderRecord) (provider_options : list ProviderOption).

(** The state is [selectedProvider]. *)
Definition initialProvider : string :=
  match provider, provider_options with
  | Some p, _ => provider_kind p
  | None, option :: _ => provider_value option
  | None, [] => "google"
  end.

Definition setSelectedProvider (v : string) (_ : string) : string := v.

Definition selectedOption (selectedProvider : string) : option ProviderOption :=
  find_first (fun option => str_eq (provider_value option) selectedProvider) provider_options.

Definition provider_field (label name : string) (attrs : list (prop string)) (hint : list (node string))
    : node string :=
  elem "div"
    ([El (Tag "Label") [Attr "for" name] [Txt label];
      El TInput (Attr "id" name :: Attr "name" name :: attrs) []] ++
     hint ++ InputError (error_of (errors f) name)).

(** Lines 94-140: the kind of the provider and its name.  The input of the name is a new one for
    every kind (its [key]). *)
Definition kindAndName (selectedProvider : string) : list (node string) :=
  [elem "div"
     ([El (Tag "Label") [Attr "for" "provider"] [Txt "Provider"];
       El TSelect [Attr "id" "provider"; Attr "name" "provider"; Attr "value" selectedProvider;
                   on_choose provider_options provider_value
                     (fun option => setSelectedProvider (provider_value option))]
         (map (fun option => choice (provider_value option) (provider_option_label option))
            provider_options)] ++
      InputError (error_of (errors f) "provider"));
   provider_field "Display Name" "name"
     [Attr "key" (match provider with Some p => str_of_Z (provider_id p) | None => selectedProvider end);
      Attr "defaultValue"
        (match provider with
         | Some p => provider_name p
         | None => (provider_option_label <$> selectedOption selectedProvider) ?? ""
         end);
      Flag "required" true] []].

(** Lines 142-173 *)
Definition issuerField (selectedProvider : string) : list (node string) :=
  when (str_eq selectedProvider "oidc")
    [provider_field "Issuer URL" "issuer_url"
       [Attr "type" "url"; Attr "defaultValue" ((provider ≫= issuer_url) ?? "");
        Attr "placeholder" "https://sso.example.com/application/o/crucible"; Flag "required" true]
       [elem "p" [Txt "Crucible discovers the provider endpoints and signing keys from ";
                  elem "code" [Txt "/.well-known/openid-configuration"];
                  Txt ". The provider must return "; elem "code" [Txt "sub"]; Txt ", ";
                  elem "code" [Txt "email"]; Txt ", and a true "; elem "code" [Txt "email_verified"];
                  Txt " claim."]]].

(** Lines 175-244 *)
Definition clientFields (selectedProvider : string) : list (node string) :=
  [provider_field "Client ID" "client_id"
     [Attr "defaultValue" ((client_id <$> provider) ?? ""); Flag "required" true] [];
   provider_field "Client Secret" "client_secret"
     [Attr "type" "password";
      Attr "placeholder" (if is_some provider then "Leave blank to keep current secret" else "");
      Flag "required" (negb (is_some provider))] [];
   provider_field "Scopes" "scopes"
     [Attr "defaultValue"
        (match provider with
         | Some p => scopes p
         | None => (default_scopes <$> selectedOption selectedProvider) ?? ""
         end);
      Attr "placeholder" "openid profile email"] [];
   provider_field "Allowed Email Domains" "allowed_domains"
     [Attr "defaultValue" ((allowed_domains <$> provider) ?? "");
      Attr "placeholder" "example.com, company.com"]
     [elem "p" [Txt "Leave blank to allow any invited email. Domain checks only restrict invited or linked users further."]]].

(** Lines 246-297 *)
Definition tenantAndEnabled (selectedProvider : string) : list (node string) :=
  when (str_eq selectedProvider "microsoft")
    [provider_field "Microsoft Tenant" "tenant"
       [Attr "defaultValue" ((provider ≫= tenant) ?? "common"); Attr "placeholder" "common"] []] ++
  match provider with
  | Some p =>
      when (truthy (callback_url p))
        [elem "div"
           [El (Tag "Label") [Attr "for" "callback_url"] [Txt "Callback URL"];
            El TInput [Attr "id" "callback_url"; Attr "value" (callback_url p);
                       Flag "readonly" true] []]]
  | None => []
  end ++
  [elem "div"
     (flag_inputs ticked "is_enabled" ((provider_is_enabled <$> provider) ?? false) ++
      [El (Tag "Label") [Attr "for" "is_enabled"] [Txt "Enable provider"]])].

(** Lines 301-356 *)
Definition setupGuide (selectedProvider : string) : list (node string) :=
  match selectedOption selectedProvider with
  | None => []
  | Some option =>
      let guide := setup_guide option in
      [elem "Card"
         [card_header ("Set up " ++ provider_option_label option)%string (overview guide);
          elem "CardContent"
            [elem "ol" (map (fun step => El (Tag "li") [Attr "key" step] [Txt step]) (steps guide));
             if truthy_opt (callback_url <$> provider)
             then elem "div" [elem "span" [Txt "Registered callback URL"];
                              elem "code" [Txt ((callback_url <$> provider) ?? "")]]
             else elem "p" [Txt "Save this provider first to reveal its unique callback URL. Leave it disabled until the callback and test are complete."];
             El (Tag "a") [Attr "href" (documentation_url guide)] [Txt (documentation_label guide)]]]]
  end.

(** Lines 358-379 *)
Definition providerActions : node string :=
  elem "div"
    ([submit_button f (if is_some provider then "Save Provider" else "Create Provider");
      El (Tag "Link") [Attr "href" (providers_list routes)] [Txt "Cancel"]] ++
     match provider with
     | Some p => [El (Tag "a") [Attr "href" (provider_test routes (provider_id p))]
                    [Txt "Test configuration"]]
     | None => []
     end).

(** Lines 82-382 *)
Definition providerForm (selectedProvider : string) : node string :=
  El (Tag "Form")
    [Attr "action" (match provider with
                    | Some p => provider_update routes (provider_id p)
                    | None => provider_store routes
                    end)]
    ([elem "Card"
        [card_header "Provider" "Register the generated callback URL in the provider application.";
         elem "CardContent"
           (kindAndName selectedProvider ++ issuerField selectedProvider ++
            clientFields selectedProvider ++ tenantAndEnabled selectedProvider)]] ++
     setupGuide selectedProvider ++ [providerActions]).

(** Lines 51-386 *)
Definition AuthProviderForm (selectedProvider : string) : node string :=
  elem "Fragment"
    [El (Tag "Head") [Attr "title" (if is_some provider then "Edit SSO provider" else "New SSO provider")] [];
     elem "div"
       [PageHeader (if is_some provider then "Edit SSO provider" else "New SSO provider")
          (Some "Configure an invitation-gated OAuth or OpenID Connect provider.") [];
        providerForm selectedProvider]].

Section payload.
Context (typed : string -> option string) (submitter : option (string * string)).

Notation entries := (entries typed submitter).

Lemma provider_field_entries label name attrs hint :
  truthy name = true -> flag "disabled" attrs = false -> checkable_type attrs = false ->
  attr "value" attrs = None -> flat_map entries hint = [] ->
  entries (provider_field label name attrs hint) = [(name, typed name ?? (attr "defaultValue" attrs ?? ""))].
Proof.
  intros Hn Hd Hc Hv Hh. unfold provider_field.
  rewrite entries_elem, !flat_map_app, entries_InputError, Hh, app_nil_r. cbn [flat_map].
  destruct name as [|c name]; [done|]. cbn [View.entries]. unfold own_entries, current_value.
  change (checkable_type (Attr "id" (String c name) :: Attr "name" (String c name) :: attrs))
    with (checkable_type attrs).
  change (flag "disabled" (Attr "id" (String c name) :: Attr "name" (String c name) :: attrs))
    with (flag "disabled" attrs). cbn -[checkable_type]. by rewrite Hd, Hc, Hv.
Qed.

Lemma kindAndName_entries selectedProvider :
  flat_map entries (kindAndName selectedProvider) =
  match selected_option selectedProvider (map (fun o => (provider_value o, false)) provider_options) with
  | Some v => [("provider", v)]
  | None => []
  end ++
  [("name", typed "name" ?? match provider with
                            | Some p => provider_name p
                            | None => (provider_option_label <$> selectedOption selectedProvider) ?? ""
                            end)].
Proof.
  unfold kindAndName. cbn [flat_map]. rewrite provider_field_entries by done.
  rewrite entries_elem, flat_map_app, entries_InputError. cbn [flat_map View.entries elem].
  rewrite entries_choices, !app_nil_r. unfold own_entries.
  cbn -[selected_option flat_map]. by rewrite option_of_choices.
Qed.

Lemma clientFields_entries selectedProvider :
  flat_map entries (clientFields selectedProvider) =
  [("client_id", typed "client_id" ?? ((client_id <$> provider) ?? ""));
   ("client_secret", typed "client_secret" ?? "");
   ("scopes", typed "scopes" ?? match provider with
                                | Some p => scopes p
                                | None => (default_scopes <$> selectedOption selectedProvider) ?? ""
                                end);
   ("allowed_domains", typed "allowed_domains" ?? ((allowed_domains <$> provider) ?? ""))].
Proof. unfold clientFields. cbn [flat_map]. by rewrite !provider_field_entries by done. Qed.

Lemma tenantAndEnabled_entries selectedProvider :
  flat_map entries (tenantAndEnabled selectedProvider) =
  when (str_eq selectedProvider "microsoft") [("tenant", typed "tenant" ?? ((provider ≫= tenant) ?? "common"))] ++
  flagged "is_enabled" (ticked "is_enabled" "1" ?? ((provider_is_enabled <$> provider) ?? false)).
Proof.
  unfold tenantAndEnabled. rewrite !flat_map_app, entries_when. f_equal.
  - f_equal. cbn [flat_map]. by rewrite provider_field_entries by done.
  - cbn [flat_map]. rewrite entries_elem, flat_map_app, flag_inputs_entries, app_nil_r by done.
    cbn [flat_map View.entries own_entries]. rewrite app_nil_r.
    destruct provider as [p|]; [|done]. by destruct (truthy (callback_url p)).
Qed.

(** What the form posts: the address of the issuer only for OpenID Connect, the tenant only for
    Microsoft, and the box as it is ticked. *)
Lemma providerForm_entries selectedProvider :
  entries (providerForm selectedProvider) =
  match selected_option selectedProvider (map (fun o => (provider_value o, false)) provider_options) with
  | Some v => [("provider", v)]
  | None => []
  end ++
  [("name", typed "name" ?? match provider with
                            | Some p => provider_name p
                            | None => (provider_option_label <$> selectedOption selectedProvider) ?? ""
                            end)] ++
  when (str_eq selectedProvider "oidc") [("issuer_url", typed "issuer_url" ?? ((provider ≫= issuer_url) ?? ""))] ++
  [("client_id", typed "client_id" ?? ((client_id <$> provider) ?? ""));
   ("client_secret", typed "client_secret" ?? "");
   ("scopes", typed "scopes" ?? match provider with
                                | Some p => scopes p
                                | None => (default_scopes <$> selectedOption selectedProvider) ?? ""
                                end);
   ("allowed_domains", typed "allowed_domains" ?? ((allowed_domains <$> provider) ?? ""))] ++
  when (str_eq selectedProvider "microsoft") [("tenant", typed "tenant" ?? ((provider ≫= tenant) ?? "common"))] ++
  flagged "is_enabled" (ticked "is_enabled" "1" ?? ((provider_is_enabled <$> provider) ?? false)).
Proof.
  unfold providerForm. rewrite entries_Tag, !flat_map_app. cbn [flat_map].
  rewrite entries_elem. cbn [flat_map]. rewrite (entries_elem _ _ "CardContent"), !flat_map_app.
  rewrite kindAndName_entries, clientFields_entries, tenantAndEnabled_entries.
  unfold issuerField. rewrite entries_when. cbn [flat_map]. rewrite provider_field_entries by done.
  replace (flat_map entries (setupGuide selectedProvider)) with (@nil (string * string)).
  - replace (entries providerActions) with (@nil (string * string))
      by (unfold providerActions, submit_button; cbn; by destruct (processing f), provider).
    change (entries (card_header _ _)) with (@nil (string * string)).
    cbn [attr app]. rewrite !app_nil_r, <- !app_assoc. done.
  - unfold setupGuide. destruct (selectedOption selectedProvider) as [option|]; [|done].
    cbn [flat_map]. rewrite entries_elem. cbn [flat_map]. rewrite (entries_elem _ _ "CardContent").
    cbn [flat_map]. rewrite (entries_elem _ _ "ol"), flat_map_map, flat_map_nil_all by done.
    by destruct (truthy_opt _).
Qed.
End payload.
End provider.
