(* ===== verification/UserRoles.v ===== *)
(** * The users and their roles

    [resources/js/pages/users/index.tsx]: the two tables of users, the dialog that orders the roles
    of a user, and the buttons that disable and enable an account; with
    [app/Http/Requests/AssignUserRoleRequest.php], which reads what the dialog posts.

    Every row of a table has a form with a state of its own: the state of the page maps the id of a
    user to it.  The dialog of the roles is in the document while it is open; the one that confirms
    the disabling keeps its own state and is rendered open. *)

From Stdlib Require Import String.
From S2P Require Import Prelude Lists JsString CrucibleLib View Badges.

Open Scope string_scope.
Open Scope Z_scope.
Open Scope list_scope.

(** ** Data *)

Record RoleOption := {
  option_id : Z;
  option_name : string;
  option_slug : string;
  option_is_admin : bool;
}.

Record ManagedUser := {
  user_id : Z;
  user_name : string;
  user_email : string;
  email_verified_at : option string;
  invited_at : option string;
  disabled_at : option string;
  created_at : option string;
  user_roles : list RoleOption;
  is_current_user : bool;
}.

Record Props := {
  users : list ManagedUser;
  active_users : list ManagedUser;
  disabled_users : list ManagedUser;
  roles : list RoleOption;
}.

(** ** The form of a user's roles: state and handlers *)

Record State := { isOpen : bool; search : string; orderedRoleIds : list Z }.

Definition role_ids (user : ManagedUser) : list Z := map option_id (user_roles user).

Definition initialState (user : ManagedUser) : State := {|
  isOpen := false; search := ""; orderedRoleIds := role_ids user |}.

Definition setIsOpen (b : bool) (s : State) : State := {|
  isOpen := b; search := search s; orderedRoleIds := orderedRoleIds s |}.

Definition setSearch (v : string) (s : State) : State := {|
  isOpen := isOpen s; search := v; orderedRoleIds := orderedRoleIds s |}.

Definition setOrderedRoleIds (f : list Z -> list Z) (s : State) : State := {|
  isOpen := isOpen s; search := search s; orderedRoleIds := f (orderedRoleIds s) |}.

Definition resetDialog (user : ManagedUser) (s : State) : State :=
  setOrderedRoleIds (fun _ => role_ids user) (setSearch "" s).

Definition handleOpenChange (user : ManagedUser) (open : bool) (s : State) : State :=
  let s := setIsOpen open s in
  if negb open then resetDialog user s else s.

Definition addRole (roleId : Z) : State -> State :=
  setOrderedRoleIds (fun current => current ++ [roleId]).

Definition removeRole (roleId : Z) : State -> State :=
  setOrderedRoleIds (List.filter (fun currentRoleId => negb (currentRoleId =? roleId))).

Inductive Direction := Up | Down.

(** [roleIndex] is the position of a row, so it is one of the list. *)
Definition moveRole (roleIndex : nat) (direction : Direction) : State -> State :=
  setOrderedRoleIds (fun current =>
    let nextIndex := match direction with
                     | Up => Z.of_nat roleIndex - 1
                     | Down => Z.of_nat roleIndex + 1
                     end in
    if (nextIndex <? 0) || (Z.of_nat (length current) <=? nextIndex) then current
    else swap roleIndex (Z.to_nat nextIndex) current).

Section derived.
Context (toLocaleLowerCase : string -> string) (roles : list RoleOption) (s : State).

Definition normalizedSearch : string := toLocaleLowerCase (trim (search s)).

Definition selectedRoles : list RoleOption :=
  omap (fun roleId => find_first (fun role => option_id role =? roleId) roles) (orderedRoleIds s).

Definition availableRoles : list RoleOption :=
  List.filter (fun role =>
    let matchesSearch :=
      str_eq normalizedSearch "" ||
      includes (toLocaleLowerCase (option_name role ++ " " ++ option_slug role)%string)
        normalizedSearch in
    matchesSearch && negb (existsb (fun id => id =? option_id role) (orderedRoleIds s))) roles.
End derived.

(** [`role_assignments[${index}][${field}]`] *)
Definition assignment_field (index : nat) (field : string) : string :=
  ("role_assignments[" ++ str_of_nat index ++ "][" ++ field ++ "]")%string.

(** ** The form, rendered *)

Record Routes := {
  update_form : Z -> string;
  enable_form : Z -> string;
  disable_form : Z -> string;
  create : string;
}.

Section role_form.
Context (toLocaleLowerCase : string -> string) (routes : Routes).
Context (user : ManagedUser) (roles : list RoleOption).
Context (processing : bool) (errors : list (string * string)).
Implicit Types (s : State).

Definition slug_line (role : RoleOption) : node State :=
  elem "div" (Txt (option_slug role) :: when (option_is_admin role) [Txt " · administrator"]).

(** Lines 221-306 *)
Definition assignmentRow (count index : nat) (role : RoleOption) : node State :=
  El (Tag "div") [Attr "key" (str_of_Z (option_id role))]
    [El TInput [Attr "type" "hidden"; Attr "name" (assignment_field index "role_id");
                Attr "value" (str_of_Z (option_id role))] [];
     El TInput [Attr "type" "hidden"; Attr "name" (assignment_field index "selected");
                Attr "value" "1"] [];
     El TInput [Attr "type" "hidden"; Attr "name" (assignment_field index "priority");
                Attr "value" (str_of_Z ((Z.of_nat index + 1) * 10))] [];
     elem "span" [Txt (str_of_nat (index + 1))];
     elem "div" [elem "div" [Txt (option_name role)]; slug_line role];
     elem "div"
       [El TButton [Attr "type" "button"; Flag "disabled" (index =? 0)%nat;
                    on_click (moveRole index Up);
                    Attr "aria-label" ("Move " ++ option_name role ++ " up")%string] [];
        El TButton [Attr "type" "button"; Flag "disabled" (index =? count - 1)%nat;
                    on_click (moveRole index Down);
                    Attr "aria-label" ("Move " ++ option_name role ++ " down")%string] [];
        El TButton [Attr "type" "button"; on_click (removeRole (option_id role));
                    Attr "aria-label" ("Remove " ++ option_name role)%string] []]].

(** Lines 200-316 *)
Definition precedenceSection s : node State :=
  let selectedRoles := selectedRoles roles s in
  elem "section"
    [elem "div"
       [elem "h3" [Txt "Policy precedence"];
        elem "p" [Txt "The first role wins when policies overlap. Move roles to change the evaluation order."]];
     if (0 <? length selectedRoles)%nat
     then elem "div" (imap (assignmentRow (length selectedRoles)) selectedRoles)
     else elem "p" [Txt "No roles assigned. Add a role below to define this user’s policy."]].

(** Lines 344-371 *)
Definition availableRow (role : RoleOption) : node State :=
  El (Tag "div") [Attr "key" (str_of_Z (option_id role))]
    [elem "div" [elem "div" [Txt (option_name role)]; slug_line role];
     El TButton [Attr "type" "button"; on_click (addRole (option_id role))] [Txt "Add"]].

(** Lines 318-380 *)
Definition addSection s : node State :=
  let availableRoles := availableRoles toLocaleLowerCase roles s in
  elem "section"
    [elem "div"
       [elem "h3" [Txt "Add roles"];
        elem "p" [Txt "New roles are added at the bottom of the precedence list."];
        elem "div"
          [El TInput [Attr "value" (search s); on_change setSearch;
                      Attr "placeholder" "Search roles by name or slug";
                      Attr "aria-label" "Search roles to add"] []]];
     if (0 <? length availableRoles)%nat then elem "div" (map availableRow availableRoles)
     else elem "p"
       [Txt (if str_eq (normalizedSearch toLocaleLowerCase s) ""
             then "All available roles are already assigned."
             else "No unassigned roles match “" ++ search s ++ "”.")%string]].

(** Lines 191-401 *)
Definition assignmentForm s : node State :=
  El (Tag "Form") [Attr "action" (update_form routes (user_id user))]
    [elem "div" [precedenceSection s; addSection s];
     elem "div"
       (InputError (error_of errors "role_assignments") ++
        [elem "DialogFooter"
           [elem "DialogClose"
              [El TButton [Attr "type" "button"; on_click (handleOpenChange user false)]
                 [Txt "Cancel"]];
            El TButton [Flag "disabled" processing] [Txt "Save roles"]]])].

(** Lines 72-405 *)
Definition RoleAssignmentForm s : node State :=
  if is_current_user user then
    elem "Tooltip"
      [El TButton [Flag "disabled" true;
                   Attr "aria-label" "Current user role assignment is protected"] [];
       elem "TooltipContent" [Txt "Current user role assignment is protected"]]
  else
    elem "Dialog"
      (elem "Tooltip"
         [El TButton [Attr "type" "button"; on_click (handleOpenChange user (negb (isOpen s)));
                      Attr "aria-label" ("Assign roles to " ++ user_name user)%string] [];
          elem "TooltipContent" [Txt "Assign roles"]]
       :: when (isOpen s)
            [El (Tag "DialogContent") [On "openChange" (fun _ _ => handleOpenChange user false)]
               [elem "DialogHeader"
                  [elem "DialogTitle" [Txt "Assign roles"];
                   elem "DialogDescription"
                     [Txt ("Define policy precedence for " ++ user_name user ++
                           ". The first role wins when policies overlap.")%string]];
                assignmentForm s]]).
End role_form.

(** ** The page *)

(** The forms of the users, by the id of the user. *)
Definition Forms : Type := Z -> State.

(** A change of one user's form. *)
Definition at_user (id : Z) (f : State -> State) (forms : Forms) : Forms :=
  fun i => if i =? id then f (forms i) else forms i.

(** What Inertia tells the forms: whether one is being sent, and the errors of the last answer. *)
Record FormStatus := {
  processing : Z -> bool;
  form_errors : Z -> list (string * string);
  state_processing : Z -> bool;
}.

Section page.
Context (toLocaleLowerCase : string -> string) (intl : string -> option string -> string).
Context (routes : Routes) (status : FormStatus) (userTimezone : string).

(** Lines 407-484 *)
Definition UserStateAction (user : ManagedUser) : list (node Forms) :=
  if is_current_user user then []
  else if truthy_opt (disabled_at user) then
    [El (Tag "Form") [Attr "action" (enable_form routes (user_id user))]
       [elem "Tooltip"
          [El TButton [Flag "disabled" (state_processing status (user_id user));
                       Attr "aria-label" ("Enable " ++ user_name user)%string] [];
           elem "TooltipContent" [Txt "Enable user"]]]]
  else
    [elem "Dialog"
       [elem "Tooltip"
          [elem "DialogTrigger"
             [El TButton [Attr "type" "button";
                          Attr "aria-label" ("Disable " ++ user_name user)%string] []];
           elem "TooltipContent" [Txt "Disable user"]];
        elem "DialogContent"
          [elem "DialogHeader"
             [elem "DialogTitle" [Txt "Disable user?"];
              elem "DialogDescription"
                [Txt "This user will no longer be able to sign in. Existing roles and audit history will be preserved."]];
           elem "DialogFooter"
             [elem "DialogClose" [El TButton [Attr "type" "button"] [Txt "Cancel"]];
              El (Tag "Form") [Attr "action" (disable_form routes (user_id user))]
                [El TButton [Flag "disabled" (state_processing status (user_id user))]
                   [Txt "Yes, disable"]]]]]].

(** Lines 558-591 *)
Definition userRoles (user : ManagedUser) : node Forms :=
  if (0 <? length (user_roles user))%nat then
    elem "div"
      (imap (fun index role =>
         El (Tag "div") [Attr "key" (str_of_Z (option_id role))]
           [StatusBadge (if option_is_admin role then "active" else "none") (Some (option_name role));
            elem "span" [Txt ("Policy " ++ str_of_nat (index + 1))%string]]) (user_roles user))
  else StatusBadge "disabled" (Some "Unassigned").

(** Lines 592-623 *)
Definition userStatus (user : ManagedUser) : node Forms :=
  let disabled := truthy_opt (disabled_at user) in
  elem "div"
    (StatusBadge (if disabled then "failed" else "active")
       (Some (if disabled then "Disabled" else "Active"))
     :: when (negb disabled)
          [StatusBadge (if truthy_opt (email_verified_at user) then "active" else "pending_review")
             (Some (if truthy_opt (email_verified_at user) then "Verified"
                    else if truthy_opt (invited_at user) then "Invited" else "Pending"))]).

(** Lines 546-639 *)
Definition userRow (roles : list RoleOption) (forms : Forms) (user : ManagedUser) : node Forms :=
  El (Tag "tr") [Attr "key" (str_of_Z (user_id user))]
    [elem "td" [elem "div" [Txt (user_name user)]; elem "div" [Txt (user_email user)]];
     elem "td" [userRoles user];
     elem "td" [userStatus user];
     elem "td" [Txt (formatDate intl (created_at user) (Some userTimezone))];
     elem "td"
       [elem "div"
          (embed (at_user (user_id user))
             (RoleAssignmentForm toLocaleLowerCase routes user roles
                (processing status (user_id user)) (form_errors status (user_id user))
                (forms (user_id user)))
           :: UserStateAction user)]].

(** Lines 486-647 *)
Definition UserTable (title description : string) (users : list ManagedUser)
    (roles : list RoleOption) (forms : Forms) : node Forms :=
  DataRegistry title (Some description)
    [StatusBadge "none" (Some (str_of_nat (length users) ++ " users")%string)]
    [if (length users =? 0)%nat then
       elem "div"
         [EmptyState ("No " ++ toLowerCase title ++ " found")%string
            (Some "People will appear here when they are invited or their account status changes.") []]
     else
       elem "div"
         [elem "table"
            [elem "thead"
               [elem "tr" (map (fun text => elem "th" [Txt text])
                  ["User"; "Roles"; "Status"; "Joined"; "Actions"])];
             elem "tbody" (map (userRow roles forms) users)]]].

(** Lines 649-694 *)
Definition UsersIndex (props : Props) (forms : Forms) : node Forms :=
  elem "Fragment"
    [El (Tag "Head") [Attr "title" "Users"] [];
     elem "div"
       [PageHeader "Users"
          (Some (str_of_nat (length (users props)) ++ " users registered in Crucible DB")%string)
          [El (Tag "Link") [Attr "href" (create routes)] [Txt "New user"]];
        UserTable "Active Users" "Users who can sign in when their email is verified."
          (active_users props) (roles props) forms;
        UserTable "Disabled Users"
          "Former or suspended users. Audit history and role assignments are preserved."
          (disabled_users props) (roles props) forms]].
End page.

(** ** What the server reads *)

Record Assignment := { assigned_role_id : Z; selected : bool; priority : Z }.

(** The values a request holds under the names of the assignment at an index; the last value of a
    name counts. *)
Definition read_assignment (es : list (string * string)) (index : nat) : option Assignment :=
  let field name := last (posted es (assignment_field index name)) in
  match field "role_id" ≫= str_to_number, field "priority" ≫= str_to_number with
  | Some id, Some p => Some {|
      assigned_role_id := id;
      selected := match field "selected" with
                  | None | Some EmptyString => false
                  | Some v => negb (str_eq v "0")
                  end;
      priority := p |}
  | _, _ => None
  end.

(** The assignments from an index on, at most [fuel] of them. *)
Fixpoint read_assignments (fuel index : nat) (es : list (string * string)) : list Assignment :=
  match fuel with
  | O => []
  | S fuel' =>
      match read_assignment es index with
      | Some a => a :: read_assignments fuel' (S index) es
      | None => []
      end
  end.

(** [AssignUserRoleRequest::rules] and [::after] on the assignments; [existing] are the ids of the
    table of roles. *)
Definition assignments_valid (existing : list Z) (assignments : list Assignment) : bool :=
  bool_decide (NoDup (map assigned_role_id assignments)) &&
  forallb (fun a => bool_decide (assigned_role_id a ∈ existing)) assignments &&
  forallb (fun a => (0 <=? priority a) && (priority a <=? 9999)) assignments &&
  bool_decide (NoDup (map priority (List.filter selected assignments))).

(** [uasort] by the priorities: the order of equal priorities is kept. *)
Fixpoint insert_by_priority (x : Z * Z) (l : list (Z * Z)) : list (Z * Z) :=
  match l with
  | [] => [x]
  | y :: l' => if snd x <=? snd y then x :: l else y :: insert_by_priority x l'
  end.

Definition uasort (l : list (Z * Z)) : list (Z * Z) := fold_right insert_by_priority [] l.

(** [AssignUserRoleRequest::roleAssignments]: the priority of each role, by priority. *)
Definition roleAssignments (assignments : list Assignment) : list (Z * Z) :=
  uasort (map_of (map (fun a => (assigned_role_id a, priority a))
                    (List.filter selected assignments))).

(** ** What the form posts *)

Definition assignment_entries (index : nat) (role : RoleOption) : list (string * string) :=
  [(assignment_field index "role_id", str_of_Z (option_id role));
   (assignment_field index "selected", "1");
   (assignment_field index "priority", str_of_Z ((Z.of_nat index + 1) * 10))].

Section payload.
Context (toLocaleLowerCase : string -> string) (routes : Routes).
Context (user : ManagedUser) (roles : list RoleOption).
Context (typed : string -> option string) (submitter : option (string * string)).
Implicit Types (s : State).

Lemma assignmentRow_entries count index role :
  entries typed submitter (assignmentRow count index role) = assignment_entries index role.
Proof.
  unfold assignmentRow. rewrite entries_Tag. cbn -[assignment_field str_of_Z]. destruct (option_is_admin role), (index =? 0)%nat, (index =? count - 1)%nat; done.
Qed.

Lemma addSection_entries s : entries typed submitter (addSection toLocaleLowerCase roles s) = [].
Proof.
  unfold addSection. rewrite entries_elem. cbn [flat_map].
  rewrite entries_elem, app_nil_r. cbn [flat_map View.entries app].
  destruct (0 <? _)%nat; [|done]. cbn [app]. rewrite (entries_elem _ _ "div" (map _ _)), flat_map_map.
  cbn [View.entries flat_map app elem]. apply flat_map_nil_all. intros role. unfold availableRow. cbn. by destruct (option_is_admin role).
Qed.

Lemma assignmentForm_entries s processing errors :
  entries typed submitter (assignmentForm toLocaleLowerCase routes user roles processing errors s) =
  concat (imap assignment_entries (selectedRoles roles s)).
Proof.
  unfold assignmentForm. rewrite entries_Tag. cbn [flat_map].
  rewrite entries_elem. cbn [flat_map]. rewrite addSection_entries, entries_elem, flat_map_app, entries_InputError.
  rewrite !app_nil_r. cbn [flat_map app]. rewrite app_nil_r.
  rewrite (entries_elem _ _ "DialogFooter").
  replace (flat_map _ [elem "DialogClose" _; _]) with (@nil (string * string))
    by (cbn; by destruct processing).
  rewrite app_nil_r. unfold precedenceSection. rewrite entries_elem. cbn [flat_map].
  rewrite entries_elem. cbn [flat_map]. rewrite !entries_elem. cbn [flat_map View.entries app].
  rewrite app_nil_r. destruct (selectedRoles roles s) as [|role l] eqn:E; [done|].
  cbn [length Nat.ltb Nat.leb]. rewrite entries_elem.
  generalize (S (length l)) as count. intros count. rewrite flat_map_imap.
  f_equal. apply imap_ext. intros i x _. apply assignmentRow_entries.
Qed.
End payload.

(** ** The assignments the server reads are those of the form *)

(** The assignment of the role at an index of the list. *)
Definition assignment_at (index : nat) (role : RoleOption) : Assignment := {|
  assigned_role_id := option_id role; selected := true; priority := (Z.of_nat index + 1) * 10 |}.

Section reading.
Context (l : list RoleOption).
Hypothesis ids_natural : Forall (fun role => 0 <= option_id role) l.

Lemma assignment_field_eq i j f g :
  assignment_field i f = assignment_field j g <-> i = j /\ f = g.
Proof. split; [apply (indexed_field_inj "role_assignments")|by intros [-> ->]]. Qed.

Lemma posted_assignment i field :
  posted (concat (imap assignment_entries l)) (assignment_field i field) =
  match l !! i with Some role => posted (assignment_entries i role) (assignment_field i field) | None => [] end.
Proof.
  apply posted_at. intros j role Hj _. apply posted_other.
  repeat apply Forall_cons_2; [..|apply Forall_nil_2]; simpl; by intros [? _]%assignment_field_eq.
Qed.

Lemma posted_own_assignment i role field v :
  (assignment_field i field, v) ∈ assignment_entries i role ->
  posted (assignment_entries i role) (assignment_field i field) = [v].
Proof.
  assert (Hne : forall f g, f <> g -> str_eq (assignment_field i f) (assignment_field i g) = false).
  { intros f g Hfg. apply str_eq_false. by intros [_ ?]%assignment_field_eq. }
  unfold assignment_entries. rewrite !elem_of_cons, elem_of_nil, !pair_equal_spec, !assignment_field_eq.
  intros H. destruct_or! H; destruct H as [[_ ->] ->] || done;
    cbn [posted flat_map fst snd]; by rewrite str_eq_refl, !Hne.
Qed.

Lemma read_assignment_at i :
  read_assignment (concat (imap assignment_entries l)) i = assignment_at i <$> l !! i.
Proof.
  unfold read_assignment. rewrite !posted_assignment. destruct (l !! i) as [role|] eqn:E; [|done].
  rewrite (posted_own_assignment _ _ "role_id" (str_of_Z (option_id role))),
    (posted_own_assignment _ _ "priority" (str_of_Z ((Z.of_nat i + 1) * 10))),
    (posted_own_assignment _ _ "selected" "1") by (unfold assignment_entries; set_solver).
  simpl. rewrite Forall_lookup in ids_natural.
  by rewrite !str_to_number_str_of_Z by (eauto || lia).
Qed.

Lemma read_assignments_from fuel i :
  (length l <= i + fuel)%nat ->
  read_assignments fuel i (concat (imap assignment_entries l)) =
  imap (fun j => assignment_at (i + j)) (drop i l).
Proof.
  revert i. induction fuel as [|fuel IH]; intros i Hf.
  - by rewrite drop_ge by lia.
  - simpl. rewrite read_assignment_at. destruct (l !! i) as [role|] eqn:E; simpl.
    + rewrite (drop_S l role i E), IH by lia. simpl. rewrite Nat.add_0_r. f_equal.
      apply imap_ext. intros j x _. unfold compose. by rewrite Nat.add_succ_r.
    + by rewrite drop_ge by (by apply lookup_ge_None).
Qed.

Lemma read_assignments_form :
  let es := concat (imap assignment_entries l) in
  read_assignments (length es) 0 es = imap assignment_at l.
Proof.
  intros es. unfold es. rewrite read_assignments_from; [done|].
  rewrite (length_concat_imap 3) by done. lia.
Qed.
End reading.

Lemma uasort_ascending {A} (id : A -> Z) (l : list A) n :
  uasort (imap (fun i x => (id x, (Z.of_nat (n + i) + 1) * 10)) l) =
  imap (fun i x => (id x, (Z.of_nat (n + i) + 1) * 10)) l.
Proof.
  revert n. induction l as [|x l IH]; intros n; [done|]. cbn [imap uasort fold_right].
  assert (Hs : imap ((fun i x => (id x, (Z.of_nat (n + i) + 1) * 10)) ∘ S) l =
    imap (fun i x => (id x, (Z.of_nat (S n + i) + 1) * 10)) l).
  { apply imap_ext. intros i y _. unfold compose. do 4 f_equal. lia. }
  rewrite Hs. fold (uasort (imap (fun i x => (id x, (Z.of_nat (S n + i) + 1) * 10)) l)).
  rewrite IH. destruct l as [|y l]; simpl; [done|]. by rewrite (proj2 (Z.leb_le _ _)) by lia.
Qed.

Lemma selectedRoles_ids roles s :
  map option_id (selectedRoles roles s) =
  List.filter (fun id => existsb (fun role => option_id role =? id) roles) (orderedRoleIds s).
Proof.
  unfold selectedRoles. induction (orderedRoleIds s) as [|id ids IH]; [done|]. simpl.
  rewrite existsb_find_first. destruct (find_first _ roles) as [role|] eqn:E; simpl; [|done].
  apply find_first_Some in E as [_ ->%Z.eqb_eq]. f_equal. exact IH.
Qed.

Lemma selectedRoles_known roles s role : role ∈ selectedRoles roles s -> role ∈ roles.
Proof.
  intros (id & _ & E)%list_elem_of_omap. by apply find_first_Some in E as [? _].
Qed.

Lemma priorities_NoDup (l : list RoleOption) : NoDup (map priority (imap assignment_at l)).
Proof.
  rewrite map_imap. apply NoDup_alt. intros i j z.
  rewrite !list_lookup_imap. intros (x & Hx & ->)%fmap_Some (y & Hy & E)%fmap_Some.
  simpl in E. lia.
Qed.

Lemma filter_selected (l : list RoleOption) :
  List.filter selected (imap assignment_at l) = imap assignment_at l.
Proof.
  generalize assignment_at (fun i x => eq_refl : selected (assignment_at i x) = true).
  induction l as [|x l IH]; intros g Hg; simpl; [done|]. rewrite Hg, (IH (g ∘ S)); [done|].
  intros i y. apply Hg.
Qed.

(** ** What the controls preserve *)

Definition ordered_once (s : State) : Prop := NoDup (orderedRoleIds s).

Lemma removeRole_once id s : ordered_once s -> ordered_once (removeRole id s).
Proof. apply filter_NoDup. Qed.

Lemma addRole_once id s : id ∉ orderedRoleIds s -> ordered_once s -> ordered_once (addRole id s).
Proof.
  intros Hid Hs. apply NoDup_app. split_and!; [done| |apply NoDup_singleton].
  intros x Hx ->%list_elem_of_singleton. done.
Qed.

(** Moving a role exchanges it with its neighbour, or leaves it at the end of the list. *)
Lemma moveRole_spec index direction s x :
  orderedRoleIds s !! index = Some x ->
  let next := match direction with Up => Z.of_nat index - 1 | Down => Z.of_nat index + 1 end in
  moveRole index direction s = s /\ (next < 0 \/ next = Z.of_nat (length (orderedRoleIds s))) \/
  orderedRoleIds (moveRole index direction s) !! Z.to_nat next = Some x /\
  orderedRoleIds (moveRole index direction s) !! index = orderedRoleIds s !! Z.to_nat next /\
  (forall k, k <> index -> k <> Z.to_nat next ->
     orderedRoleIds (moveRole index direction s) !! k = orderedRoleIds s !! k) /\
  orderedRoleIds (moveRole index direction s) ≡ₚ orderedRoleIds s.
Proof.
  intros Hx next. unfold moveRole. simpl. fold next.
  assert (Hi : (index < length (orderedRoleIds s))%nat) by eauto using lookup_lt_Some.
  destruct ((next <? 0) || _) eqn:E.
  - left. split; [unfold setOrderedRoleIds; rewrite E; by destruct s|]. apply orb_true_iff in E as [E%Z.ltb_lt|E%Z.leb_le]; [by left|].
    right. unfold next in *. destruct direction; lia.
  - right. bool_hyps. rewrite Z.ltb_ge in *. rewrite Z.leb_gt in *.
    destruct (lookup_lt_is_Some_2 (orderedRoleIds s) (Z.to_nat next)) as [y Hy]; [lia|].
    rewrite Hy. by apply swap_in_range.
Qed.

Lemma moveRole_permutation index direction s :
  orderedRoleIds (moveRole index direction s) ≡ₚ orderedRoleIds s.
Proof.
  destruct (orderedRoleIds s !! index) as [x|] eqn:Hx.
  - by destruct (moveRole_spec index direction s x Hx) as [[-> _]|(_ & _ & _ & H)].
  - simpl. unfold swap. rewrite Hx. by destruct (_ || _).
Qed.

Lemma moveRole_once index direction s : ordered_once s -> ordered_once (moveRole index direction s).
Proof. unfold ordered_once. by rewrite moveRole_permutation. Qed.

Lemma handleOpenChange_once user open s :
  NoDup (role_ids user) -> ordered_once s -> ordered_once (handleOpenChange user open s).
Proof. by destruct open. Qed.

Create HintDb user_roles discriminated.
#[local] Hint Resolve removeRole_once addRole_once moveRole_once handleOpenChange_once : user_roles.

(** The handler, in the state of its page, keeps every role at most once. *)
Definition keeps_once s (h : handler State) : Prop :=
  forall now ev, ordered_once s -> ordered_once (h now ev s).

Lemma slug_line_safe P role : all_actions P (slug_line role).
Proof. unfold slug_line. walk. Qed.

Lemma RoleAssignmentForm_safe lower routes user roles processing errors s :
  NoDup (role_ids user) ->
  all_actions (keeps_once s) (RoleAssignmentForm lower routes user roles processing errors s).
Proof.
  intros Hu. unfold RoleAssignmentForm. destruct (is_current_user user); [by walk|].
  unfold assignmentForm, precedenceSection, addSection. walk;
    try (intros now ev; by eauto with user_roles).
  - destruct (0 <? _)%nat; walk. unfold assignmentRow.
    walk; try apply slug_line_safe; intros now ev; by eauto with user_roles.
  - intros now [| | |]; by eauto.
  - destruct (0 <? _)%nat; walk. unfold availableRow. walk; [apply slug_line_safe|].
    intros now ev Hs. apply addRole_once; [|done]. intros Hin.
    match goal with H : _ ∈ availableRoles _ _ _ |- _ =>
      apply list_elem_of_In, filter_In in H as [_ H]; cbv zeta in H; bool_hyps end.
    match goal with H : existsb _ _ = false |- _ => rewrite existsb_false_elem in H;
      specialize (H _ Hin); by rewrite Z.eqb_refl in H end.
Qed.

(** ** The page over time *)

(** The properties of the last render, the forms, and the saves that are under way: Inertia calls
    [onSuccess] of the render that submitted, which closes over that render's user. *)
Record World := { props : Props; forms : Forms; saving : list ManagedUser }.

Definition shown_users (p : Props) : list ManagedUser := active_users p ++ disabled_users p.

Definition find_user (id : Z) : list ManagedUser -> option ManagedUser :=
  find_first (fun user => user_id user =? id).

(** The table a user stands in. *)
Definition table_of (p : Props) (id : Z) : bool * bool :=
  (is_some (find_user id (active_users p)), is_some (find_user id (disabled_users p))).

Definition mounted (p : Props) (id : Z) : State :=
  match find_user id (shown_users p) with
  | Some user => initialState user
  | None => {| isOpen := false; search := ""; orderedRoleIds := [] |}
  end.

(** React keeps the state of a row that stays in its table; a row that changes tables is new. *)
Definition rerender (p p' : Props) (f : Forms) : Forms :=
  fun id => if decide (table_of p id = table_of p' id) then f id else mounted p' id.

(** What the server sends: no role twice among those of a user. *)
Definition props_ok (p : Props) : Prop :=
  Forall (fun user => NoDup (role_ids user)) (shown_users p) /\
  Forall (fun role => 0 <= option_id role) (roles p).

Definition mount (p : Props) : World := {| props := p; forms := mounted p; saving := [] |}.

Section world.
Context (toLocaleLowerCase : string -> string) (intl : string -> option string -> string).
Context (routes : Routes) (userTimezone : string).

Inductive world_step : World -> World -> Prop :=
  (** an event on a control of the page *)
  | step_action w status h now ev :
      h ∈ actions (UsersIndex toLocaleLowerCase intl routes status userTimezone (props w) (forms w)) ->
      world_step w {| props := props w; forms := h now ev (forms w); saving := saving w |}
  (** the form of a user is sent *)
  | step_submit w user :
      user ∈ shown_users (props w) -> is_current_user user = false ->
      isOpen (forms w (user_id user)) = true ->
      world_step w {| props := props w; forms := forms w; saving := user :: saving w |}
  (** it is accepted: the page is rendered with the server's properties, then [onSuccess] runs *)
  | step_saved w k user p :
      saving w !! k = Some user -> props_ok p ->
      world_step w {|
        props := p;
        forms := rerender (props w) p (at_user (user_id user) (handleOpenChange user false) (forms w));
        saving := remove_at k (saving w) |}
  (** it is refused or fails *)
  | step_refused w k :
      world_step w {| props := props w; forms := forms w; saving := remove_at k (saving w) |}
  (** another visit brings new properties *)
  | step_visit w p : props_ok p ->
      world_step w {| props := p; forms := rerender (props w) p (forms w); saving := saving w |}.

Definition world_ok (w : World) : Prop :=
  props_ok (props w) /\ (forall id, ordered_once (forms w id)) /\
  Forall (fun user => NoDup (role_ids user)) (saving w).

Lemma mounted_once p id : props_ok p -> ordered_once (mounted p id).
Proof.
  intros [Hp _]. unfold mounted, find_user. destruct (find_first _ _) as [user|] eqn:E; [|apply NoDup_nil_2].
  apply find_first_Some in E as [E _]. rewrite Forall_forall in Hp. by apply Hp.
Qed.

Lemma at_user_once id f fs :
  (ordered_once (fs id) -> ordered_once (f (fs id))) -> (forall i, ordered_once (fs i)) ->
  forall i, ordered_once (at_user id f fs i).
Proof. intros Hf Hs i. unfold at_user. destruct (Z.eqb_spec i id) as [->|]; auto. Qed.

Lemma rerender_once p p' fs : props_ok p' -> (forall i, ordered_once (fs i)) ->
  forall i, ordered_once (rerender p p' fs i).
Proof. intros Hp Hs i. unfold rerender. case_decide; [done|]. by apply mounted_once. Qed.

Lemma UsersIndex_safe status p fs : props_ok p ->
  all_actions (fun h => forall now ev, (forall i, ordered_once (fs i)) -> forall i, ordered_once (h now ev fs i))
    (UsersIndex toLocaleLowerCase intl routes status userTimezone p fs).
Proof.
  intros [Hp _]. apply Forall_app in Hp as [Ha Hd]. rewrite !Forall_forall in Ha, Hd.
  assert (Hrow : forall user, NoDup (role_ids user) ->
    all_actions (fun h => forall now ev, (forall i, ordered_once (fs i)) -> forall i, ordered_once (h now ev fs i))
      (userRow toLocaleLowerCase intl routes status userTimezone (roles p) fs user)).
  { intros user Hu. unfold userRow, userRoles, userStatus, UserStateAction, StatusBadge. walk.
    - destruct (0 <? _)%nat; walk.
    - apply all_actions_embed. eapply Forall_impl; [by apply RoleAssignmentForm_safe|].
      intros h Hh now ev Hs. apply at_user_once; [apply Hh|done].
    - destruct (is_current_user user); [by walk|]. destruct (truthy_opt _); walk. }
  unfold UsersIndex, UserTable, DataRegistry, EmptyState, PageHeader, StatusBadge. walk.
  - destruct (_ =? _)%nat; walk. auto.
  - destruct (_ =? _)%nat; walk. auto.
Qed.

Lemma world_step_ok w w' : world_step w w' -> world_ok w -> world_ok w'.
Proof.
  intros Hs (Hp & Hf & Hv). destruct Hs as [w status h now ev Hh|w user Hu _ _|w k user p Hk Hp'|w k|w p Hp'].
  - split_and!; [done| |done]. simpl.
    pose proof (UsersIndex_safe status (props w) (forms w) Hp) as H.
    unfold all_actions in H. rewrite Forall_forall in H. by apply H.
  - split_and!; [done..|]. apply Forall_cons_2; [|done]. destruct Hp as [Hp _].
    rewrite Forall_forall in Hp. by apply Hp.
  - rewrite Forall_lookup in Hv. split_and!; simpl; [done| |].
    + apply rerender_once; [done|]. apply at_user_once; [|done].
      apply handleOpenChange_once. by apply (Hv k).
    + apply Forall_remove_at. by rewrite Forall_lookup.
  - split_and!; [done..|]. by apply Forall_remove_at.
  - split_and!; [done| |done]. by apply rerender_once.
Qed.

Lemma world_reachable_ok p w : props_ok p -> rtc world_step (mount p) w -> world_ok w.
Proof.
  intros Hp Hr. assert (H0 : world_ok (mount p)).
  { split_and!; [done| |apply Forall_nil_2]. intros id. by apply mounted_once. }
  induction Hr as [|w1 w2 w3 Hs _ IH]; [done|]. by eapply IH, world_step_ok.
Qed.

(** C32.  What the dialog of a user's roles posts is accepted by the rules of the server and read as
    it is displayed: in every state the page can reach, however its requests overlap, the server
    gets the roles of the dialog, each once, in the order of their precedence, with the priorities
    10, 20, ... (up to 999 roles, the range of the priorities). *)
Theorem role_precedence_saved p w typed submitter user processing errors :
  props_ok p -> rtc world_step (mount p) w ->
  let s := forms w (user_id user) in
  let es := entries typed submitter
    (assignmentForm toLocaleLowerCase routes user (roles (props w)) processing errors s) in
  let posted := read_assignments (length es) 0 es in
  let displayed := selectedRoles (roles (props w)) s in
  roleAssignments posted =
    imap (fun i role => (option_id role, (Z.of_nat i + 1) * 10)) displayed /\
  ((length displayed <= 999)%nat ->
   assignments_valid (map option_id (roles (props w))) posted = true).
Proof.
  intros Hp Hr s es posted displayed.
  destruct (world_reachable_ok p w Hp Hr) as ([_ Hroles] & Hf & _).
  assert (Hpos : posted = imap assignment_at displayed).
  { unfold posted, es. rewrite assignmentForm_entries. apply read_assignments_form.
    apply Forall_forall. intros role Hrole%selectedRoles_known. rewrite Forall_forall in Hroles. auto. }
  assert (Hids : map assigned_role_id (imap assignment_at displayed) = map option_id displayed).
  { rewrite map_imap. apply (imap_const option_id). }
  assert (Hnd : NoDup (map option_id displayed)).
  { unfold displayed. rewrite selectedRoles_ids. apply filter_NoDup, Hf. }
  rewrite Hpos. unfold roleAssignments, assignments_valid. rewrite filter_selected, map_imap. split.
  - rewrite map_of_NoDup by (by rewrite map_imap, (imap_const option_id)). apply (uasort_ascending option_id displayed 0).
  - intros Hlen. rewrite !andb_true_iff, !bool_decide_eq_true, Hids. split_and!; [done| | |apply priorities_NoDup].
    + apply forallb_forall_elem. intros a (i & role & -> & Hi)%elem_of_lookup_imap.
      apply bool_decide_eq_true, list_elem_of_fmap. exists role. split; [done|].
      apply (selectedRoles_known _ s). by eapply list_elem_of_lookup_2.
    + apply forallb_forall_elem. intros a (i & role & -> & Hi%lookup_lt_Some)%elem_of_lookup_imap.
      simpl. lia.
Qed.
End world.

(** ** Examples *)

Definition example_routes : Routes := {|
  update_form := fun id => ("/users/" ++ str_of_Z id ++ "/roles")%string;
  enable_form := fun id => ("/users/" ++ str_of_Z id ++ "/enable")%string;
  disable_form := fun id => ("/users/" ++ str_of_Z id ++ "/disable")%string;
  create := "/users/create" |}.

Definition idle : FormStatus := {|
  processing := fun _ => false; form_errors := fun _ => []; state_processing := fun _ => false |}.

Definition admin : RoleOption := {|
  option_id := 1; option_name := "Administrator"; option_slug := "admin"; option_is_admin := true |}.

Definition reader : RoleOption := {|
  option_id := 2; option_name := "Reader"; option_slug := "reader"; option_is_admin := false |}.

Definition alice (assigned : list RoleOption) : ManagedUser := {|
  user_id := 7; user_name := "Alice"; user_email := "alice@example.com"; email_verified_at := None;
  invited_at := None; disabled_at := None; created_at := None; user_roles := assigned;
  is_current_user := false |}.

(** The properties of the page when Alice has these roles. *)
Definition with_alice (assigned : list RoleOption) : Props := {|
  users := [alice assigned]; active_users := [alice assigned]; disabled_users := [];
  roles := [admin; reader] |}.

Definition example_page (w : World) : node Forms :=
  UsersIndex toLowerCase (fun v _ => v) example_routes idle "UTC" (props w) (forms w).

Definition example_step : World -> World -> Prop :=
  world_step toLowerCase (fun v _ => v) example_routes "UTC".

(** The [n]-th enabled control of the page, triggered. *)
Definition act (n : nat) (ev : event) (w : World) : World := {|
  props := props w; forms := fire (example_page w) n 0 ev (forms w); saving := saving w |}.

Lemma user_act_step n ev w : (n < length (actions (example_page w)))%nat -> example_step w (act n ev w).
Proof.
  intros (h & Hh & E)%(fire_action _ n 0 ev (forms w)). unfold act. rewrite E.
  by apply (step_action _ _ _ _ w idle).
Qed.

Lemma with_alice_ok assigned :
  NoDup (map option_id assigned) -> props_ok (with_alice assigned).
Proof. intros H. split; repeat (apply Forall_cons_2 || apply Forall_nil_2); simpl; done || lia. Qed.

(** The roles a save of the dialog would store, in their order. *)
Definition would_store (w : World) : list Z :=
  let es := entries (fun _ => None) None
    (assignmentForm toLowerCase example_routes (alice []) (roles (props w)) false [] (forms w 7)) in
  map fst (roleAssignments (read_assignments (length es) 0 es)).

Definition opened : World := act 0 Click (mount (with_alice [admin; reader])).

(** The first role moved down. *)
Definition reordered : World := act 2 Click opened.

(** The server stores them in the new order, and the dialog closes. *)
Definition saved : World := {|
  props := with_alice [reader; admin];
  forms := rerender (with_alice [admin; reader]) (with_alice [reader; admin])
             (at_user 7 (handleOpenChange (alice [admin; reader]) false) (forms reordered));
  saving := [] |}.

Lemma reordered_reachable : rtc example_step (mount (with_alice [admin; reader])) reordered.
Proof.
  apply (rtc_l _ _ opened); [apply user_act_step; vm_compute; lia|].
  apply rtc_once, user_act_step. vm_compute. lia.
Qed.

Definition submitted : World := {|
  props := props reordered; forms := forms reordered; saving := [alice [admin; reader]] |}.

Lemma reader_first_ok : props_ok (with_alice [reader; admin]).
Proof. apply with_alice_ok, (bool_decide_unpack _). vm_compute. exact I. Qed.

Lemma admin_first_ok : props_ok (with_alice [admin; reader]).
Proof. apply with_alice_ok, (bool_decide_unpack _). vm_compute. exact I. Qed.

Lemma saved_reachable : rtc example_step (mount (with_alice [admin; reader])) saved.
Proof.
  etrans; [apply reordered_reachable|]. apply (rtc_l _ _ submitted).
  - apply (step_submit _ _ _ _ reordered (alice [admin; reader])); [apply list_elem_of_here|done|].
    vm_compute. reflexivity.
  - apply rtc_once.
    exact (step_saved toLowerCase (fun v _ => v) example_routes "UTC" submitted 0
             (alice [admin; reader]) (with_alice [reader; admin]) eq_refl reader_first_ok).
Qed.

Lemma role_precedence_saved_witness :
  roleAssignments (read_assignments 6 0 (entries (fun _ => None) None
    (assignmentForm toLowerCase example_routes (alice []) [admin; reader] false []
       (forms reordered 7)))) = [(2, 10); (1, 20)].
Proof.
  apply (role_precedence_saved toLowerCase (fun v _ => v) example_routes "UTC"
    (with_alice [admin; reader]) reordered (fun _ => None) None (alice []) false []).
  - apply admin_first_ok.
  - apply reordered_reachable.
Defined.

(** A saved order of roles is undone by the next save: after the roles of a user were reordered
    and saved, the page shows the new order, but the dialog opens with the order from before the
    save, and saving it unchanged stores that order again.  The form resets its list in [onSuccess]
    to the roles of the render that submitted it. *)
Theorem reopened_dialog_reverts_roles :
  exists w, rtc example_step (mount (with_alice [admin; reader])) w /\
    isOpen (forms w 7) = true /\
    role_ids <$> find_user 7 (active_users (props w)) = Some [2; 1] /\
    would_store reordered = [2; 1] /\ would_store w = [1; 2].
Proof.
  exists (act 0 Click saved). split_and!; try (vm_compute; reflexivity).
  eapply rtc_r; [apply saved_reachable|]. apply user_act_step. vm_compute. lia.
Qed.
