(* ===== verification/RoleForm.v ===== *)
(** * The form of a role: state, handlers and what they preserve

    [resources/js/pages/roles/form.tsx], lines 39-308: the policies of a role for connections and
    for connection groups, their initial value from the role the server sends, and the handlers
    that add, change and remove them.  The page itself is in [RoleFormView].

    [PolicyDraft] and [GroupPolicyDraft] differ in the name of their id only, and the handlers of
    the two lists are the same text: one record and one set of operations stand for both.  A
    [Record] of the source keyed by ids is an association list in the order of [Object.entries]
    (ascending ids, each once). *)

From Stdlib Require Import String.
From S2P Require Import Prelude Lists JsString CrucibleLib.

Open Scope string_scope.
Open Scope Z_scope.

(** ** Data *)

Record Policy := {
  access_mode : AccessMode;
  query_access_mode : AccessMode;
  native_proxy_access_mode : AccessMode;
  can_review : bool;
  read_requires_approval : bool;
  write_requires_approval : bool;
  max_write_session_minutes : option number;
}.

Record RoleFormData := {
  role_id : Z;
  role_name : string;
  role_slug : string;
  role_description : option string;
  role_is_admin : bool;
  role_policies : list (Z * Policy);
  role_group_policies : list (Z * Policy);
}.

Record Connection := {
  connection_id : Z;
  connection_name : string;
  connection_driver : string;
  connection_host : string;
  connection_port : Z;
  connection_database : string;
  connection_is_active : bool;
}.

Record ConnectionGroup := {
  group_id : Z;
  group_name : string;
  group_description : option string;
  group_connections_count : Z;
}.

Record Props := {
  role : option RoleFormData;
  connections : list Connection;
  connection_groups : list ConnectionGroup;
  access_modes : list AccessMode;
  query_access_enabled : bool;
  native_client_access_enabled : bool;
}.

(** [PolicyDraft], [GroupPolicyDraft] *)
Record PolicyDraft := { draft_id : Z; draft_policy : Policy }.

Record State := {
  policies : list PolicyDraft;
  groupPolicies : list PolicyDraft;
  isConnectionExceptionsOpen : bool;
}.

(** ** Workflow modes *)

Definition accessModeRank (m : AccessMode) : Z :=
  match m with AccessNone => 0 | AccessRead => 1 | AccessWrite => 2 end.

Definition capWorkflowAccessMode (workflowAccessMode maximumAccessMode : AccessMode) : AccessMode :=
  if accessModeRank maximumAccessMode <? accessModeRank workflowAccessMode
  then maximumAccessMode else workflowAccessMode.

(** ** The initial state *)

Definition drafts (entries : list (Z * Policy)) : list PolicyDraft :=
  map (fun e => {| draft_id := fst e; draft_policy := snd e |}) entries.

Definition initialState (props : Props) : State :=
  let policies := match role props with Some r => drafts (role_policies r) | None => [] end in {|
    policies := policies;
    groupPolicies := match role props with Some r => drafts (role_group_policies r) | None => [] end;
    isConnectionExceptionsOpen := (0 <? length policies)%nat |}.

(** ** Handlers *)

Definition setPolicies (f : list PolicyDraft -> list PolicyDraft) (s : State) : State := {|
  policies := f (policies s); groupPolicies := groupPolicies s;
  isConnectionExceptionsOpen := isConnectionExceptionsOpen s |}.

Definition setGroupPolicies (f : list PolicyDraft -> list PolicyDraft) (s : State) : State := {|
  policies := policies s; groupPolicies := f (groupPolicies s);
  isConnectionExceptionsOpen := isConnectionExceptionsOpen s |}.

Definition setIsConnectionExceptionsOpen (b : bool) (s : State) : State := {|
  policies := policies s; groupPolicies := groupPolicies s; isConnectionExceptionsOpen := b |}.

(** What a policy that is added starts with (lines 241-250, 278-287). *)
Definition new_policy : Policy := {|
  access_mode := AccessRead; query_access_mode := AccessNone;
  native_proxy_access_mode := AccessNone; can_review := false; read_requires_approval := false;
  write_requires_approval := false; max_write_session_minutes := None |}.

(** [selectedConnectionIds.has(id)], [selectedConnectionGroupIds.has(id)] *)
Definition selected (ds : list PolicyDraft) (id : Z) : bool :=
  existsb (fun d => draft_id d =? id) ds.

Definition addPolicy (connectionId : Z) (s : State) : State :=
  if selected (policies s) connectionId then s
  else setPolicies (fun current =>
         (current ++ [{| draft_id := connectionId; draft_policy := new_policy |}])%list) s.

Definition addGroupPolicy (connectionGroupId : Z) (s : State) : State :=
  if selected (groupPolicies s) connectionGroupId then s
  else setGroupPolicies (fun current =>
         (current ++ [{| draft_id := connectionGroupId; draft_policy := new_policy |}])%list) s.

(** [{ ...policy, ...attributes }]: the attributes are a change of the policy, never of its id. *)
Definition change_policy (f : Policy -> Policy) (d : PolicyDraft) : PolicyDraft :=
  {| draft_id := draft_id d; draft_policy := f (draft_policy d) |}.

Definition updatePolicy (index : nat) (attributes : Policy -> Policy) : State -> State :=
  setPolicies (map_at index (change_policy attributes)).

Definition updateGroupPolicy (index : nat) (attributes : Policy -> Policy) : State -> State :=
  setGroupPolicies (map_at index (change_policy attributes)).

Definition removePolicy (index : nat) : State -> State := setPolicies (remove_at index).

Definition removeGroupPolicy (index : nat) : State -> State := setGroupPolicies (remove_at index).

(** *** The attributes that the controls change *)

Definition set_query_access_mode (m : AccessMode) (p : Policy) : Policy := {|
  access_mode := access_mode p; query_access_mode := m;
  native_proxy_access_mode := native_proxy_access_mode p; can_review := can_review p;
  read_requires_approval := read_requires_approval p;
  write_requires_approval := write_requires_approval p;
  max_write_session_minutes := max_write_session_minutes p |}.

Definition set_native_proxy_access_mode (m : AccessMode) (p : Policy) : Policy := {|
  access_mode := access_mode p; query_access_mode := query_access_mode p;
  native_proxy_access_mode := m; can_review := can_review p;
  read_requires_approval := read_requires_approval p;
  write_requires_approval := write_requires_approval p;
  max_write_session_minutes := max_write_session_minutes p |}.

Definition set_can_review (b : bool) (p : Policy) : Policy := {|
  access_mode := access_mode p; query_access_mode := query_access_mode p;
  native_proxy_access_mode := native_proxy_access_mode p; can_review := b;
  read_requires_approval := read_requires_approval p;
  write_requires_approval := write_requires_approval p;
  max_write_session_minutes := max_write_session_minutes p |}.

Definition set_read_requires_approval (b : bool) (p : Policy) : Policy := {|
  access_mode := access_mode p; query_access_mode := query_access_mode p;
  native_proxy_access_mode := native_proxy_access_mode p; can_review := can_review p;
  read_requires_approval := b; write_requires_approval := write_requires_approval p;
  max_write_session_minutes := max_write_session_minutes p |}.

Definition set_write_requires_approval (b : bool) (p : Policy) : Policy := {|
  access_mode := access_mode p; query_access_mode := query_access_mode p;
  native_proxy_access_mode := native_proxy_access_mode p; can_review := can_review p;
  read_requires_approval := read_requires_approval p; write_requires_approval := b;
  max_write_session_minutes := max_write_session_minutes p |}.

(** [value === '' ? null : Number(value)] *)
Definition set_max_write_session_minutes (value : string) (p : Policy) : Policy := {|
  access_mode := access_mode p; query_access_mode := query_access_mode p;
  native_proxy_access_mode := native_proxy_access_mode p; can_review := can_review p;
  read_requires_approval := read_requires_approval p;
  write_requires_approval := write_requires_approval p;
  max_write_session_minutes := if str_eq value "" then None else Some (number_of value) |}.

(** The maximum access is chosen: the workflow modes are capped, and the rules for write access are
    set afresh (lines 526-557, 1001-1032). *)
Definition choose_access_mode (accessMode : AccessMode) (p : Policy) : Policy := {|
  access_mode := accessMode;
  query_access_mode := capWorkflowAccessMode (query_access_mode p) accessMode;
  native_proxy_access_mode := capWorkflowAccessMode (native_proxy_access_mode p) accessMode;
  can_review := can_review p;
  read_requires_approval := read_requires_approval p;
  write_requires_approval := bool_decide (accessMode = AccessWrite);
  max_write_session_minutes :=
    if bool_decide (accessMode = AccessWrite) then max_write_session_minutes p else None |}.

(** ** Well-formed policies *)

(** No workflow has more access than the policy's maximum, and a policy without write access has
    no rules about writing. *)
Record policy_ok (p : Policy) : Prop := {
  query_within : accessModeRank (query_access_mode p) <= accessModeRank (access_mode p);
  native_within : accessModeRank (native_proxy_access_mode p) <= accessModeRank (access_mode p);
  no_write_approval : access_mode p <> AccessWrite -> write_requires_approval p = false;
  no_write_limit : access_mode p <> AccessWrite -> max_write_session_minutes p = None;
}.

(** What the page leaves of a policy [p0] whose maximum access nobody chose: the maximum; a workflow has
    the access it had or one within the maximum; and without write access the rules about writing are as
    they were. *)
Record kept_as (p0 p : Policy) : Prop := {
  same_maximum : access_mode p = access_mode p0;
  query_kept : query_access_mode p = query_access_mode p0 \/
    accessModeRank (query_access_mode p) <= accessModeRank (access_mode p);
  native_kept : native_proxy_access_mode p = native_proxy_access_mode p0 \/
    accessModeRank (native_proxy_access_mode p) <= accessModeRank (access_mode p);
  write_rules_kept : access_mode p <> AccessWrite ->
    write_requires_approval p = write_requires_approval p0 /\
    max_write_session_minutes p = max_write_session_minutes p0;
}.

Lemma kept_as_refl p : kept_as p p.
Proof. constructor; auto. Qed.

Lemma kept_as_ok p0 p : policy_ok p0 -> kept_as p0 p -> policy_ok p.
Proof.
  intros [H1 H2 H3 H4] [Hm Hq Hn Hw]. constructor.
  - destruct Hq as [Hq|Hq]; [by rewrite Hq, Hm|done].
  - destruct Hn as [Hn|Hn]; [by rewrite Hn, Hm|done].
  - intros E. destruct (Hw E) as [-> _]. apply H3. congruence.
  - intros E. destruct (Hw E) as [_ ->]. apply H4. congruence.
Qed.

(** A policy is well-formed, or is what the page leaves of one of the [origin]s. *)
Definition vetted (origin : Policy -> Prop) (p : Policy) : Prop :=
  policy_ok p \/ exists p0, origin p0 /\ kept_as p0 p.

(** A change that keeps a policy so, whatever it comes from. *)
Definition sound_change (f : Policy -> Policy) (p : Policy) : Prop :=
  forall origin, vetted origin p -> vetted origin (f p).

Lemma sound_change_intro f p :
  (policy_ok p -> policy_ok (f p)) -> (forall p0, kept_as p0 p -> kept_as p0 (f p)) -> sound_change f p.
Proof. intros Hok Hk origin [H|(p0 & H0 & H)]; [left; auto|right; eauto]. Qed.

(** At most one policy per id, each of them well-formed or left from the one the server sent. *)
Definition drafts_ok (sent : list (Z * Policy)) (ds : list PolicyDraft) : Prop :=
  NoDup (map draft_id ds) /\
  Forall (fun d => vetted (fun p0 => (draft_id d, p0) ∈ sent) (draft_policy d)) ds.

(** What the server sends. *)
Definition sent_policies (props : Props) : list (Z * Policy) :=
  match role props with Some r => role_policies r | None => [] end.
Definition sent_group_policies (props : Props) : list (Z * Policy) :=
  match role props with Some r => role_group_policies r | None => [] end.

Definition state_ok (props : Props) (s : State) : Prop :=
  drafts_ok (sent_policies props) (policies s) /\ drafts_ok (sent_group_policies props) (groupPolicies s).

(** The workflow modes a policy allows: the options of [WorkflowAccessModeField]. *)
Definition workflow_modes (accessMode : AccessMode) : list AccessMode :=
  (AccessNone :: when (negb (bool_decide (accessMode = AccessNone))) [AccessRead] ++
   when (bool_decide (accessMode = AccessWrite)) [AccessWrite])%list.

Lemma elem_of_workflow_modes m accessMode :
  m ∈ workflow_modes accessMode <-> accessModeRank m <= accessModeRank accessMode.
Proof.
  rewrite <- (bool_decide_eq_true (m ∈ _)), <- Z.leb_le. by destruct m, accessMode.
Qed.

Lemma cap_within m accessMode :
  accessModeRank (capWorkflowAccessMode m accessMode) <= accessModeRank accessMode.
Proof. unfold capWorkflowAccessMode. destruct (Z.ltb_spec (accessModeRank accessMode) (accessModeRank m)); lia. Qed.

(** The cap is the greatest allowed mode that is at most the mode asked for. *)
Lemma cap_greatest m accessMode :
  capWorkflowAccessMode m accessMode ∈ workflow_modes accessMode /\
  (m ∈ workflow_modes accessMode -> capWorkflowAccessMode m accessMode = m).
Proof.
  rewrite !elem_of_workflow_modes. split; [apply cap_within|]. unfold capWorkflowAccessMode.
  intros H. destruct (Z.ltb_spec (accessModeRank accessMode) (accessModeRank m)); [lia|done].
Qed.

Lemma new_policy_ok : policy_ok new_policy.
Proof. by constructor. Qed.

Lemma choose_access_mode_ok m p : policy_ok (choose_access_mode m p).
Proof. constructor; simpl; try apply cap_within; intros H; by rewrite bool_decide_false. Qed.

(** *** The operations on a list of policies *)

Lemma selected_elem ds id : selected ds id = true <-> id ∈ map draft_id ds.
Proof.
  unfold selected. rewrite existsb_exists_elem. change (@map PolicyDraft Z) with (@fmap list _ PolicyDraft Z).
  rewrite list_elem_of_fmap. setoid_rewrite Z.eqb_eq. naive_solver.
Qed.

Lemma drafts_ok_add sent ds id : selected ds id = false -> drafts_ok sent ds ->
  drafts_ok sent (ds ++ [{| draft_id := id; draft_policy := new_policy |}]).
Proof.
  intros Hs [Hnd Hok]. split.
  - rewrite map_app. apply NoDup_app. split_and!; [done| |apply NoDup_singleton].
    intros x Hx ->%list_elem_of_singleton. apply selected_elem in Hx. simpl in Hx. congruence.
  - apply Forall_app_2; [done|]. apply Forall_singleton. left. apply new_policy_ok.
Qed.

Lemma drafts_ok_remove sent ds i : drafts_ok sent ds -> drafts_ok sent (remove_at i ds).
Proof.
  intros [Hnd Hok]. split; [|by apply Forall_remove_at].
  eapply sublist_NoDup; [exact Hnd|apply map_remove_at].
Qed.

Lemma drafts_ok_change sent ds i f :
  (forall d, ds !! i = Some d -> sound_change f (draft_policy d)) -> drafts_ok sent ds ->
  drafts_ok sent (map_at i (change_policy f) ds).
Proof.
  intros Hf [Hnd Hok]. split; [by rewrite map_at_map|].
  rewrite Forall_lookup in Hok |- *. intros j y. rewrite map_at_lookup.
  intros (d & Hd & ->)%fmap_Some. destruct (Nat.eqb_spec j i) as [->|_]; [|eauto]. exact (Hf d Hd _ (Hok i d Hd)).
Qed.

Lemma drafts_ok_initial sent : NoDup (map fst sent) -> drafts_ok sent (drafts sent).
Proof.
  intros Hnd. unfold drafts. split; [by rewrite map_map|]. apply Forall_map, Forall_forall.
  intros [id p] Hin. right. exists p. split; [done|apply kept_as_refl].
Qed.

Lemma drafts_ok_all sent ds :
  Forall (fun e => policy_ok (snd e)) sent -> drafts_ok sent ds -> Forall (fun d => policy_ok (draft_policy d)) ds.
Proof.
  rewrite Forall_forall. intros Hs [_ Hok]. eapply Forall_impl; [exact Hok|].
  intros d [H|(p0 & H0 & H)]; [done|]. eapply kept_as_ok; [exact (Hs _ H0)|done].
Qed.
