(* ===== verification/RoleFormView.v ===== *)
(** * The page of a role

    [resources/js/pages/roles/form.tsx], lines 136-167 and 310-1388: the page rendered in a state of
    [RoleForm], what its form posts, and the states its controls can reach.  The routes are
    generated code (parameters).

    The exceptions for single connections stand in a Radix [Collapsible], whose content is not in
    the document while it is closed. *)

From Stdlib Require Import String.
From S2P Require Import Prelude Lists JsString CrucibleLib View Badges ConnectionCombobox RoleForm.

Open Scope string_scope.
Open Scope Z_scope.
Open Scope list_scope.

Record Routes := {
  store_form : string;
  update_form : Z -> string;
  roles_index : string;
  connections_index : string;
}.

Section page.
Context (routes : Routes) (props : Props).
Implicit Types (s : State) (errors : list (string * string)) (p : Policy).

Definition isEditing : bool := is_some (role props).

(** [`${list}[${index}][${field}]`] *)
Definition policy_field (prefix : string) (index : nat) (field : string) : string :=
  (prefix ++ "[" ++ str_of_nat index ++ "][" ++ field ++ "]")%string.

Definition label_of (text : string) : node State := elem "Label" [Txt text].

(** Lines 136-167 *)
Definition WorkflowAccessModeField (label name : string) (accessMode workflowAccessMode : AccessMode)
    (onChange : AccessMode -> State -> State) : list (node State) :=
  [label_of label;
   El TSelect [Attr "name" name; Attr "value" (access_mode_text workflowAccessMode);
               on_choose (workflow_modes accessMode) access_mode_text onChange]
     (map (fun m => choice (access_mode_text m)
             (match m with
              | AccessNone => "Disabled"
              | AccessRead => "Read-only"
              | AccessWrite => "Read + write"
              end)) (workflow_modes accessMode))].

(** A workflow's mode: a choice where the feature is enabled, else carried along. *)
Definition workflowMode (enabled : bool) (label name : string) (accessMode workflowAccessMode : AccessMode)
    (onChange : AccessMode -> State -> State) : list (node State) :=
  if enabled then WorkflowAccessModeField label name accessMode workflowAccessMode onChange
  else [El TInput [Attr "type" "hidden"; Attr "name" name;
                   Attr "value" (access_mode_text workflowAccessMode)] []].

(** A hidden [0] and a checkbox for [1] of the same name. *)
Definition check (name : string) (checked disabled : bool) (onChange : bool -> State -> State)
    (text : string) : node State :=
  elem "label"
    [El TInput [Attr "type" "hidden"; Attr "name" name; Attr "value" "0"] [];
     El TInput [Attr "type" "checkbox"; Attr "name" name; Attr "value" "1"; Flag "checked" checked;
                Flag "disabled" disabled; on_toggle onChange] [];
     Txt text].

(** The select for the maximum access (lines 517-577, 992-1046). *)
Definition maximumAccess (name : string) p (update : (Policy -> Policy) -> State -> State)
    (mode_label : AccessMode -> string) : node State :=
  El TSelect [Attr "name" name; Attr "value" (access_mode_text (access_mode p));
              on_choose (access_modes props) access_mode_text
                (fun m => update (choose_access_mode m))]
    (map (fun m => choice (access_mode_text m) (mode_label m)) (access_modes props)).

(** The number input for the limit of a write session (lines 775-806, 1257-1290). *)
Definition writeSessionLimit (name : string) p (update : (Policy -> Policy) -> State -> State)
    : node State :=
  El TInput [Attr "type" "number"; Attr "min" "5"; Attr "max" "1440"; Attr "name" name;
             Attr "value" (match max_write_session_minutes p with
                           | Some x => text_of x
                           | None => ""
                           end);
             on_change (fun v => update (set_max_write_session_minutes v));
             Attr "placeholder" "No limit";
             Flag "disabled" (negb (bool_decide (access_mode p = AccessWrite)))] [].

Definition group_mode_label (m : AccessMode) : string :=
  match m with AccessNone => "No access" | AccessWrite => "Write" | AccessRead => "Read" end.

(** A choice stands in a [div] of its own. *)
Definition in_div (enabled : bool) (l : list (node State)) : list (node State) :=
  if enabled then [elem "div" l] else l.

(** The cells of a group's card after the maximum access (lines 585-810). *)
Definition groupQueryMode (name : string -> string) p (update : (Policy -> Policy) -> State -> State)
    : list (node State) :=
  in_div (query_access_enabled props) (workflowMode (query_access_enabled props) "Query Access"
                (name "query_access_mode") (access_mode p) (query_access_mode p)
                (fun m => update (set_query_access_mode m))).

Definition groupNativeMode (name : string -> string) p (update : (Policy -> Policy) -> State -> State)
    : list (node State) :=
  in_div (native_client_access_enabled props) (workflowMode (native_client_access_enabled props) "Native Client Access"
                (name "native_proxy_access_mode") (access_mode p) (native_proxy_access_mode p)
                (fun m => update (set_native_proxy_access_mode m))).

Definition groupRules (name : string -> string) p (update : (Policy -> Policy) -> State -> State)
    : list (node State) :=
  let write := bool_decide (access_mode p = AccessWrite) in
  [elem "div" [label_of "Reviewer";
               check (name "can_review") (can_review p) false
                 (fun b => update (set_can_review b)) "May review"];
   elem "div" [label_of "Read approval";
               check (name "read_requires_approval") (read_requires_approval p) false
                 (fun b => update (set_read_requires_approval b)) "Required"];
   elem "div" [label_of "Write approval";
               check (name "write_requires_approval") (write && write_requires_approval p) (negb write)
                 (fun b => update (set_write_requires_approval b)) "Required"];
   elem "div" [label_of "Write-session limit";
               writeSessionLimit (name "max_write_session_minutes") p update]].

(** The policy of a group (lines 444-812); nothing when the group is not known. *)
Definition groupPolicyCard (index : nat) (d : PolicyDraft) : list (node State) :=
  match find_first (fun item => group_id item =? draft_id d) (connection_groups props) with
  | None => []
  | Some connectionGroup =>
      let p := draft_policy d in
      let name := policy_field "group_policies" index in
      let update := updateGroupPolicy index in
      [El (Tag "div") [Attr "key" (str_of_Z (group_id connectionGroup))]
         [El TInput [Attr "type" "hidden"; Attr "name" (name "connection_group_id");
                     Attr "value" (str_of_Z (group_id connectionGroup))] [];
          elem "div"
            [elem "div"
               [elem "div"
                  [elem "p" [Txt (group_name connectionGroup)];
                   elem "p" [Txt (str_of_Z (group_connections_count connectionGroup) ++
                                  " explicit connections" ++
                                  if truthy_opt (group_description connectionGroup)
                                  then " · " ++ (group_description connectionGroup ?? "")
                                  else "")%string]]];
             El TButton [Attr "type" "button"; on_click (removeGroupPolicy index)] [Txt "Remove"]];
          elem "div"
            ([elem "div" [label_of "Maximum access";
                          maximumAccess (name "access_mode") p update group_mode_label]] ++
             groupQueryMode name p update ++ groupNativeMode name p update ++
             groupRules name p update)]]
  end.

(** The cells of a connection's row after the maximum access (lines 1061-1293). *)
Definition rowQueryMode (name : string -> string) p (update : (Policy -> Policy) -> State -> State)
    : node State :=
  elem "td" (workflowMode (query_access_enabled props) "Query Access"
               (name "query_access_mode") (access_mode p) (query_access_mode p)
               (fun m => update (set_query_access_mode m))).

Definition rowNativeMode (name : string -> string) p (update : (Policy -> Policy) -> State -> State)
    : node State :=
  elem "td" (workflowMode (native_client_access_enabled props) "Native Client Access"
               (name "native_proxy_access_mode") (access_mode p) (native_proxy_access_mode p)
               (fun m => update (set_native_proxy_access_mode m))).

(** The rules of a row (lines 1129-1293). *)
Definition rowRules (name : string -> string) p (update : (Policy -> Policy) -> State -> State)
    : list (node State) :=
  let write := bool_decide (access_mode p = AccessWrite) in
  [elem "td" [label_of "Reviewer";
              check (name "can_review") (can_review p) false
                (fun b => update (set_can_review b)) "May review"];
   elem "td" [label_of "Read approval";
              check (name "read_requires_approval") (read_requires_approval p) false
                (fun b => update (set_read_requires_approval b)) "Required"];
   elem "td" [label_of "Write approval";
              check (name "write_requires_approval") (write && write_requires_approval p) (negb write)
                (fun b => update (set_write_requires_approval b)) "Required"];
   elem "td" [label_of "Write-session limit";
              writeSessionLimit (name "max_write_session_minutes") p update]].

(** The policy of a connection, a row of the table (lines 906-1311). *)
Definition connectionPolicyRow errors (index : nat) (d : PolicyDraft) : list (node State) :=
  match find_first (fun item => connection_id item =? draft_id d) (connections props) with
  | None => []
  | Some connection =>
      let p := draft_policy d in
      let name := policy_field "policies" index in
      let update := updatePolicy index in
      [El (Tag "tr") [Attr "key" (str_of_Z (connection_id connection))]
        ([elem "td"
            [El TInput [Attr "type" "hidden"; Attr "name" (name "database_connection_id");
                        Attr "value" (str_of_Z (connection_id connection))] [];
             elem "div"
               [elem "div"
                  [elem "p" [Txt (connection_name connection)];
                   elem "p" [Txt (connection_host connection ++ ":" ++
                                  str_of_Z (connection_port connection) ++ " / " ++
                                  connection_database connection)%string];
                   elem "div"
                     [StatusBadge (connection_driver connection)
                        (Some (driverLabel (connection_driver connection)));
                      StatusBadge (if connection_is_active connection then "active" else "disabled")
                        (Some (if connection_is_active connection then "Active" else "Disabled"))]]]];
          elem "td"
            ([label_of "Maximum access";
              maximumAccess (name "access_mode") p update
                (fun m => statusLabel (access_mode_text m))] ++
             InputError (error_of errors ("policies." ++ str_of_nat index ++ ".access_mode")%string));
          rowQueryMode name p update; rowNativeMode name p update] ++
         rowRules name p update ++
         [elem "td" [El TButton [Attr "type" "button"; on_click (removePolicy index)] [Txt "Remove"]]])]
  end.

(** The heads of the table (lines 860-904). *)
Definition policyTableHead : node State :=
  let head text := elem "th" [Txt text] in
  elem "thead"
    [elem "tr"
       ([head "Connection"; head "Maximum access"; head "Reviewer"] ++
        when (query_access_enabled props) [head "Query Access"] ++
        when (native_client_access_enabled props) [head "Native Client Access"] ++
        [head "Read approval"; head "Write approval"; head "Write-session limit"; head "Actions"])].

(** [Number(id)] of an id's text; any other text is [NaN], which the boxes never pass. *)
Definition with_id (value : string) (f : Z -> State -> State) (s : State) : State :=
  match str_to_number value with Some id => f id s | None => s end.

Definition connection_as_option (c : Connection) : ConnectionOption := {|
  option_id := connection_id c; option_name := connection_name c; option_driver := connection_driver c;
  option_host := Some (connection_host c); option_port := Some (connection_port c);
  option_database := Some (connection_database c) |}.

Definition group_as_option (g : ConnectionGroup) : ConnectionGroupOption := {|
  group_option_id := group_id g; group_option_name := group_name g;
  group_option_description := group_description g;
  database_connections_count := group_connections_count g |}.

Definition draft_ids (ds : list PolicyDraft) : list string := map (fun d => str_of_Z (draft_id d)) ds.

(** Lines 407-817 *)
Definition groupSection s : node State :=
  elem "section"
    ([elem "div"
        [elem "h3" [Txt "Connection groups"];
         elem "p" [Txt "Apply one policy to every connection in a group."]];
      ConnectionGroupAddCombobox (map group_as_option (connection_groups props)) (Some "")
        (draft_ids (groupPolicies s)) (Some "Add a group")
        (fun value => with_id value addGroupPolicy)] ++
     when (0 <? length (groupPolicies s))%nat
       [elem "div" (concat (imap groupPolicyCard (groupPolicies s)))]).

(** Lines 1318-1341 *)
Definition addException s : node State :=
  ConnectionAddCombobox (map connection_as_option (connections props)) (Some "")
    (draft_ids (policies s)) (Some "Add connection exception")
    (fun value => with_id value addPolicy).

(** Lines 819-1346 *)
Definition exceptionsSection s errors : node State :=
  elem "section"
    [Collapsible (isConnectionExceptionsOpen s) setIsConnectionExceptionsOpen ""
       [elem "span"
          [elem "span" [Txt "Individual connection exceptions"];
           elem "span" [Txt "Use only when one connection needs a different policy than its group."]]]
       [elem "div"
          (when (0 <? length (policies s))%nat
             [elem "div"
                [elem "table"
                   [policyTableHead;
                    elem "tbody" (concat (imap (connectionPolicyRow errors) (policies s)))]]] ++
           [elem "div" [addException s]])]].

(** Lines 329-368 *)
Definition roleProfile errors : node State :=
  elem "Card"
    [elem "CardHeader"
       [elem "CardTitle" [Txt "Role Profile"];
        elem "CardDescription"
          [Txt "Give this permission set a clear name and purpose for people assigning it."]];
     elem "CardContent"
       [elem "div"
          ([El (Tag "label") [Attr "for" "name"] [Txt "Role Name"];
            El TInput [Attr "id" "name"; Attr "name" "name";
                       Attr "defaultValue" ((role_name <$> role props) ?? ""); Flag "required" true] []] ++
           InputError (error_of errors "name"));
        elem "div"
          ([El (Tag "label") [Attr "for" "description"] [Txt "Description"];
            El TTextarea [Attr "id" "description"; Attr "name" "description"; Attr "rows" "3";
                          Attr "defaultValue" ((role props ≫= role_description) ?? "");
                          Attr "placeholder"
                            "What this role is intended to do and who should receive it"] []] ++
           InputError (error_of errors "description"))]].

(** Lines 370-1350 *)
Definition databasePolicies s errors : node State :=
  elem "Card"
    [elem "CardHeader"
       [elem "CardTitle" [Txt "Database Policies"];
        elem "CardDescription"
          [Txt "Set the access and approval rules for this role's connections."]];
     elem "CardContent"
       [if (length (connections props) =? 0)%nat && (length (connection_groups props) =? 0)%nat then
          elem "div"
            [elem "div" [Txt "No database connections found"];
             elem "p" [Txt "Add a connection before assigning runtime access policies to this role."];
             elem "div" [El (Tag "Link") [Attr "href" (connections_index routes)]
                           [Txt "Open Connections"]]]
        else elem "div" [groupSection s; exceptionsSection s errors]]].

(** Lines 1352-1371 *)
Definition formActions (processing : bool) : node State :=
  elem "div"
    [elem "p" [Txt "Policy changes apply to newly created requests. Existing approved work keeps its recorded permissions."];
     elem "div"
       [El (Tag "Link") [Attr "href" (roles_index routes)] [Txt "Cancel"];
        El TButton [Flag "disabled" processing]
          [Txt (if isEditing then "Save changes" else "Create role")]]].

(** Lines 321-1375 *)
Definition roleForm s (processing : bool) errors : node State :=
  El (Tag "Form")
    [Attr "action" (match role props with
                    | Some r => update_form routes (role_id r)
                    | None => store_form routes
                    end)]
    [roleProfile errors; databasePolicies s errors; formActions processing].

(** Lines 308-1378 *)
Definition RoleFormPage s (processing : bool) errors : node State :=
  elem "Fragment"
    [El (Tag "Head") [Attr "title" (if isEditing then "Edit role" else "New role")] [];
     elem "div"
       [PageHeader (if isEditing then "Edit Role" else "New Role")
          (Some (match role props with
                 | Some r => ("Manage " ++ role_name r ++
                              "'s connection permissions and approval requirements.")%string
                 | None => "Create a reusable permission set for governed database work."
                 end)) [];
        roleForm s processing errors]].
End page.

(** ** What the form posts *)

(** The entry of a [select] between modes. *)
Definition mode_field (field : string) (m : AccessMode) (options : list AccessMode)
    : list (string * string) :=
  match selected_option (access_mode_text m) (map (fun o => (access_mode_text o, false)) options) with
  | Some v => [(field, v)]
  | None => []
  end.

Definition workflow_field (enabled : bool) (field : string) (accessMode m : AccessMode)
    : list (string * string) :=
  if enabled then mode_field field m (workflow_modes accessMode) else [(field, access_mode_text m)].

Definition limit_text (p : Policy) : string :=
  match max_write_session_minutes p with Some x => text_of x | None => "" end.

(** The fields a policy posts beside its id. *)
Definition policy_fields (props : Props) (p : Policy) : list (string * string) :=
  let write := bool_decide (access_mode p = AccessWrite) in
  mode_field "access_mode" (access_mode p) (access_modes props) ++
  workflow_field (query_access_enabled props) "query_access_mode" (access_mode p) (query_access_mode p) ++
  workflow_field (native_client_access_enabled props) "native_proxy_access_mode" (access_mode p)
    (native_proxy_access_mode p) ++
  flagged "can_review" (can_review p) ++
  flagged "read_requires_approval" (read_requires_approval p) ++
  flagged "write_requires_approval" (write && write_requires_approval p) ++
  when write [("max_write_session_minutes", limit_text p)].

(** The fields under their names in the list of policies. *)
Definition named (prefix : string) (index : nat) (fields : list (string * string))
    : list (string * string) :=
  map (fun fv => (policy_field prefix index (fst fv), snd fv)) fields.

Section payload.
Context (routes : Routes) (props : Props).
Context (typed : string -> option string) (submitter : option (string * string)).
Implicit Types (s : State) (errors : list (string * string)) (p : Policy).

Notation entries := (entries typed submitter).

Lemma mode_select_entries name (m : AccessMode) (options : list AccessMode) label onChange :
  truthy name = true ->
  entries (El TSelect [Attr "name" name; Attr (S := State) "value" (access_mode_text m);
                       on_choose options access_mode_text onChange]
             (map (fun o => choice (access_mode_text o) (label o)) options)) =
  mode_field name m options.
Proof.
  intros Hn. destruct name as [|a name]; [done|]. cbn -[choice selected_option].
  rewrite option_of_choices, entries_choices, app_nil_r. done.
Qed.

Lemma workflowMode_entries enabled label name accessMode m onChange :
  truthy name = true ->
  flat_map entries (workflowMode enabled label name accessMode m onChange) =
  workflow_field enabled name accessMode m.
Proof.
  intros Hn. unfold workflowMode, workflow_field, WorkflowAccessModeField. destruct enabled.
  - cbn [flat_map]. rewrite mode_select_entries by done. by rewrite app_nil_r.
  - by destruct name.
Qed.

Lemma in_div_entries enabled l : flat_map entries (in_div enabled l) = flat_map entries l.
Proof. destruct enabled; [|done]. cbn [in_div flat_map]. by rewrite entries_elem, app_nil_r. Qed.

Lemma check_entries name checked disabled onChange text :
  truthy name = true ->
  entries (check name checked disabled onChange text) = flagged name (negb disabled && checked).
Proof. intros Hn. destruct name as [|a name]; [done|]. by destruct checked, disabled. Qed.

Lemma writeSessionLimit_entries name p update :
  truthy name = true ->
  entries (writeSessionLimit name p update) =
  when (bool_decide (access_mode p = AccessWrite)) [(name, limit_text p)].
Proof. intros Hn. destruct name as [|a name]; [done|]. cbn. by case_bool_decide. Qed.

Lemma named_cons prefix index field v l :
  named prefix index ((field, v) :: l) = (policy_field prefix index field, v) :: named prefix index l.
Proof. done. Qed.

Lemma entries_label_of text : entries (label_of text) = [].
Proof. done. Qed.

Lemma named_app prefix index l l' : named prefix index (l ++ l') = named prefix index l ++ named prefix index l'.
Proof. apply map_app. Qed.

Lemma named_mode_field prefix index field m options :
  named prefix index (mode_field field m options) = mode_field (policy_field prefix index field) m options.
Proof. unfold mode_field. by destruct (selected_option _ _). Qed.

Lemma named_workflow_field prefix index enabled field accessMode m :
  named prefix index (workflow_field enabled field accessMode m) =
  workflow_field enabled (policy_field prefix index field) accessMode m.
Proof. unfold workflow_field. destruct enabled; [apply named_mode_field|done]. Qed.

Lemma named_flagged prefix index field b :
  named prefix index (flagged field b) = flagged (policy_field prefix index field) b.
Proof. by destruct b. Qed.

Lemma named_when prefix index (b : bool) field v :
  named prefix index (when b [(field, v)]) = when b [(policy_field prefix index field, v)].
Proof. by destruct b. Qed.
End payload.

#[export] Hint Rewrite named_cons named_app named_mode_field named_workflow_field named_flagged named_when : crucible.

Section posted.
Context (routes : Routes) (props : Props).
Context (typed : string -> option string) (submitter : option (string * string)).
Implicit Types (s : State) (errors : list (string * string)) (p : Policy).

Notation entries := (entries typed submitter).

(** What the policy of a list posts: its id and its fields. *)
Definition posted_policy (prefix id_field : string) (index : nat) (d : PolicyDraft)
    : list (string * string) :=
  named prefix index ((id_field, str_of_Z (draft_id d)) :: policy_fields props (draft_policy d)).

Definition known_group (d : PolicyDraft) : bool :=
  existsb (fun item => group_id item =? draft_id d) (connection_groups props).

Definition known_connection (d : PolicyDraft) : bool :=
  existsb (fun item => connection_id item =? draft_id d) (connections props).

Lemma groupPolicyCard_entries index d :
  flat_map entries (groupPolicyCard props index d) =
  when (known_group d) (posted_policy "group_policies" "connection_group_id" index d).
Proof.
  unfold groupPolicyCard, groupQueryMode, groupNativeMode, groupRules, known_group. rewrite existsb_find_first.
  destruct (find_first _ _) as [g|] eqn:E; [|done].
  apply find_first_Some in E as [_ ->%Z.eqb_eq]. unfold posted_policy, policy_fields.
  cbn [is_some when flat_map app]. rewrite entries_Tag. cbn [flat_map].
  rewrite !entries_elem. cbn [flat_map]. rewrite !flat_map_app, !in_div_entries. cbn [flat_map].
  rewrite !entries_elem. cbn [flat_map]. unfold maximumAccess.
  rewrite mode_select_entries, !workflowMode_entries, !check_entries, writeSessionLimit_entries by done.
  autorewrite with crucible. rewrite !entries_label_of.
  cbn [View.entries flat_map]. rewrite own_entries_hidden by done.
  rewrite !app_nil_r. cbn -[mode_field workflow_field flagged policy_field when].
  by destruct (bool_decide _).
Qed.

Lemma connectionPolicyRow_entries errors index d :
  flat_map entries (connectionPolicyRow props errors index d) =
  when (known_connection d) (posted_policy "policies" "database_connection_id" index d).
Proof.
  unfold connectionPolicyRow, rowQueryMode, rowNativeMode, rowRules, known_connection. rewrite existsb_find_first.
  destruct (find_first _ _) as [c|] eqn:E; [|done].
  apply find_first_Some in E as [_ ->%Z.eqb_eq]. unfold posted_policy, policy_fields.
  cbn [is_some when flat_map app]. rewrite entries_Tag. cbn [flat_map].
  rewrite !entries_elem. cbn [flat_map]. unfold maximumAccess.
  rewrite entries_InputError.
  rewrite mode_select_entries, !workflowMode_entries, !check_entries, writeSessionLimit_entries by done.
  autorewrite with crucible. rewrite !entries_label_of.
  cbn [View.entries flat_map]. rewrite own_entries_hidden by done.
  rewrite !app_nil_r. cbn -[mode_field workflow_field flagged policy_field when].
  by destruct (bool_decide _).
Qed.
End posted.

(** ** What the controls preserve *)

Section controls.
Context (routes : Routes) (props : Props).
Implicit Types (s : State) (errors : list (string * string)) (p : Policy).

(** The handler keeps the policies as they should be. *)
Definition keeps_ok s (h : handler State) : Prop :=
  forall now ev, state_ok props s -> state_ok props (h now ev s).

(** [update] changes a policy [p] of the state. *)
Definition updates s p (update : (Policy -> Policy) -> State -> State) : Prop :=
  forall f, sound_change f p -> state_ok props s -> state_ok props (update f s).

Lemma updatePolicy_updates s index d :
  policies s !! index = Some d -> updates s (draft_policy d) (updatePolicy index).
Proof.
  intros Hd f Hf [Hp Hg]. split; [|done]. apply drafts_ok_change; [|done].
  intros d' Hd'. by assert (d' = d) as -> by congruence.
Qed.

Lemma updateGroupPolicy_updates s index d :
  groupPolicies s !! index = Some d -> updates s (draft_policy d) (updateGroupPolicy index).
Proof.
  intros Hd f Hf [Hp Hg]. split; [done|]. apply drafts_ok_change; [|done].
  intros d' Hd'. by assert (d' = d) as -> by congruence.
Qed.

Lemma choose_keeps_ok {A} s (options : list A) text f :
  (forall o, o ∈ options -> state_ok props s -> state_ok props (f o s)) ->
  keeps_ok s (choose_handler options text f).
Proof.
  intros Hf now ev Hs. destruct (choose_handler_spec options text f now ev s) as [->|(o & Ho & ->)]; auto.
Qed.

Lemma toggle_keeps_ok s f :
  (forall b, state_ok props s -> state_ok props (f b s)) ->
  keeps_ok s (fun _ ev s => match ev with Toggle b => f b s | _ => s end).
Proof. intros Hf now [| | |] Hs; auto. Qed.

Lemma change_keeps_ok s f :
  (forall v, state_ok props s -> state_ok props (f v s)) ->
  keeps_ok s (fun _ ev s => match ev with Change v => f v s | _ => s end).
Proof. intros Hf now [| | |] Hs; auto. Qed.

Section policy.
Context (s : State) (p : Policy) (update : (Policy -> Policy) -> State -> State).
Hypothesis Hu : updates s p update.

Lemma maximumAccess_safe name lbl : all_actions (keeps_ok s) (maximumAccess props name p update lbl).
Proof.
  unfold maximumAccess. walk; [|by unfold choice; walk]. apply choose_keeps_ok. intros o _. apply Hu.
  intros origin _. left. apply choose_access_mode_ok.
Qed.

Lemma workflowMode_safe enabled label name m onChange :
  (forall o, o ∈ workflow_modes (access_mode p) -> state_ok props s -> state_ok props (onChange o s)) ->
  each_actions (keeps_ok s) (workflowMode enabled label name (access_mode p) m onChange).
Proof.
  intros Hc. unfold workflowMode, WorkflowAccessModeField, label_of. destruct enabled; [|by walk].
  walk; [|by unfold choice; walk]. by apply choose_keeps_ok.
Qed.

Lemma in_div_safe enabled l : each_actions (keeps_ok s) l -> each_actions (keeps_ok s) (in_div enabled l).
Proof. intros H. unfold in_div. destruct enabled; [by walk|done]. Qed.

Lemma check_safe name checked disabled onChange text :
  (disabled = false -> forall b, state_ok props s -> state_ok props (onChange b s)) ->
  all_actions (keeps_ok s) (check name checked disabled onChange text).
Proof. intros Hc. unfold check. walk. by apply toggle_keeps_ok, Hc. Qed.

Lemma writeSessionLimit_safe name : all_actions (keeps_ok s) (writeSessionLimit name p update).
Proof.
  unfold writeSessionLimit. walk. apply change_keeps_ok. intros v. apply Hu.
  apply negb_false_iff, bool_decide_eq_true in H. apply sound_change_intro.
  - intros [H1 H2 H3 _]. by constructor.
  - intros p0 [H1 H2 H3 _]. by constructor.
Qed.

Lemma query_mode_safe o :
  o ∈ workflow_modes (access_mode p) -> state_ok props s -> state_ok props (update (set_query_access_mode o) s).
Proof.
  intros Ho%elem_of_workflow_modes. apply Hu, sound_change_intro.
  - intros [_ H2 H3 H4]. by constructor.
  - intros p0 [H1 _ H3 H4]. constructor; auto.
Qed.

Lemma native_mode_safe o :
  o ∈ workflow_modes (access_mode p) -> state_ok props s -> state_ok props (update (set_native_proxy_access_mode o) s).
Proof.
  intros Ho%elem_of_workflow_modes. apply Hu, sound_change_intro.
  - intros [H1 _ H3 H4]. by constructor.
  - intros p0 [H1 H2 _ H4]. constructor; auto.
Qed.

Lemma review_safe b : state_ok props s -> state_ok props (update (set_can_review b) s).
Proof. apply Hu, sound_change_intro; [|intros p0]; intros [H1 H2 H3 H4]; by constructor. Qed.

Lemma read_approval_safe b : state_ok props s -> state_ok props (update (set_read_requires_approval b) s).
Proof. apply Hu, sound_change_intro; [|intros p0]; intros [H1 H2 H3 H4]; by constructor. Qed.

Lemma write_approval_safe : negb (bool_decide (access_mode p = AccessWrite)) = false ->
  forall b, state_ok props s -> state_ok props (update (set_write_requires_approval b) s).
Proof.
  intros Hw%negb_false_iff%bool_decide_eq_true b. apply Hu, sound_change_intro.
  - intros [H1 H2 _ H4]. by constructor.
  - intros p0 [H1 H2 H3 _]. by constructor.
Qed.
End policy.

Create HintDb role_form discriminated.
#[local] Hint Resolve maximumAccess_safe workflowMode_safe in_div_safe check_safe writeSessionLimit_safe
  query_mode_safe native_mode_safe review_safe read_approval_safe write_approval_safe : role_form.

Lemma groupPolicyCard_safe s index d : groupPolicies s !! index = Some d ->
  each_actions (keeps_ok s) (groupPolicyCard props index d).
Proof.
  intros Hd%updateGroupPolicy_updates. unfold groupPolicyCard, groupQueryMode, groupNativeMode, groupRules, label_of.
  destruct (find_first _ _); [|by walk]. walk; eauto with role_form.
  intros now ev [Hp Hg]. split; [done|by apply drafts_ok_remove].
Qed.

Lemma connectionPolicyRow_safe s errors index d : policies s !! index = Some d ->
  each_actions (keeps_ok s) (connectionPolicyRow props errors index d).
Proof.
  intros Hd%updatePolicy_updates. unfold connectionPolicyRow, rowQueryMode, rowNativeMode, rowRules, label_of, StatusBadge.
  destruct (find_first _ _); [|by walk]. walk; eauto with role_form.
  intros now ev [Hp Hg]. split; [by apply drafts_ok_remove|done].
Qed.

Lemma with_id_keeps_ok s value f :
  (forall id, state_ok props s -> state_ok props (f id s)) -> state_ok props s -> state_ok props (with_id value f s).
Proof. unfold with_id. destruct (str_to_number value); auto. Qed.

Lemma add_keeps_ok {A} s (items : list A) id disabledValues f :
  (forall n, state_ok props s -> state_ok props (f n s)) ->
  keeps_ok s (add_picked items id disabledValues (fun value => with_id value f)).
Proof.
  intros Hf now ev Hs.
  destruct (add_picked_spec items id disabledValues (fun value => with_id value f) now ev s)
    as [->|(item & _ & _ & ->)]; [done|]. by apply with_id_keeps_ok.
Qed.

Lemma addPolicy_ok id s : state_ok props s -> state_ok props (addPolicy id s).
Proof.
  intros [Hp Hg]. unfold addPolicy. destruct (selected _ _) eqn:E; [done|].
  split; [by apply drafts_ok_add|done].
Qed.

Lemma addGroupPolicy_ok id s : state_ok props s -> state_ok props (addGroupPolicy id s).
Proof.
  intros [Hp Hg]. unfold addGroupPolicy. destruct (selected _ _) eqn:E; [done|].
  split; [done|by apply drafts_ok_add].
Qed.

Lemma groupSection_safe s : all_actions (keeps_ok s) (groupSection props s).
Proof.
  unfold groupSection, ConnectionGroupAddCombobox, added_mark. walk.
  - apply add_keeps_ok. intros n. apply addGroupPolicy_ok.
  - apply each_actions_concat. intros l (i & d & -> & Hi)%elem_of_lookup_imap.
    by apply groupPolicyCard_safe.
Qed.

Lemma exceptionsSection_safe s errors : all_actions (keeps_ok s) (exceptionsSection props s errors).
Proof.
  unfold exceptionsSection, addException, Collapsible, policyTableHead, ConnectionAddCombobox, added_mark. walk.
  - intros now ev. done.
  - apply each_actions_concat. intros l (i & d & -> & Hi)%elem_of_lookup_imap.
    by apply connectionPolicyRow_safe.
  - apply add_keeps_ok. intros n. apply addPolicy_ok.
Qed.

Lemma role_page_safe s processing errors :
  all_actions (keeps_ok s) (RoleFormPage routes props s processing errors).
Proof.
  unfold RoleFormPage, PageHeader, roleForm, roleProfile, databasePolicies, formActions. walk.
  destruct (_ && _); walk; [apply groupSection_safe|apply exceptionsSection_safe].
Qed.
End controls.

(** ** Reachable states *)

(** An event on a control of the page as it is rendered. *)
Inductive page_step (routes : Routes) (props : Props) : State -> State -> Prop :=
  | step_action s processing errors h now ev :
      h ∈ actions (RoleFormPage routes props s processing errors) ->
      page_step routes props s (h now ev s).

(** What the server sends has a policy per id: the policies are objects whose keys are the ids. *)
Definition one_per_id (props : Props) : Prop :=
  NoDup (map fst (sent_policies props)) /\ NoDup (map fst (sent_group_policies props)).

(** The policies that the server sends are well-formed, too.  The server does not enforce it: it stores
    write rules of a policy without write access as they come, and requires an approval of writing where
    none is posted. *)
Definition role_ok (props : Props) : Prop :=
  Forall (fun e => policy_ok (snd e)) (sent_policies props ++ sent_group_policies props).

Lemma initialState_ok props : one_per_id props -> state_ok props (initialState props).
Proof.
  intros [H1 H2]. unfold state_ok, initialState, sent_policies, sent_group_policies in *. simpl.
  destruct (role props) as [r|]; split; try (by apply drafts_ok_initial); repeat constructor.
Qed.

Lemma role_reachable_ok routes props s :
  one_per_id props -> rtc (page_step routes props) (initialState props) s -> state_ok props s.
Proof.
  intros H0%initialState_ok Hr. induction Hr as [|s1 s2 s3 Hs _ IH]; [done|]. apply IH.
  destruct Hs as [s processing errors h now ev Hh].
  pose proof (role_page_safe routes props s processing errors) as Hsafe.
  unfold all_actions in Hsafe. rewrite Forall_forall in Hsafe. by apply (Hsafe h).
Qed.

(** Where the server sends well-formed policies, all stay so. *)
Lemma state_ok_all props s : role_ok props -> state_ok props s ->
  Forall (fun d => policy_ok (draft_policy d)) (policies s) /\
  Forall (fun d => policy_ok (draft_policy d)) (groupPolicies s).
Proof. intros [H1 H2]%Forall_app [Hp Hg]. split; [exact (drafts_ok_all _ _ H1 Hp)|exact (drafts_ok_all _ _ H2 Hg)]. Qed.

(** C31.  The page makes no policy of a role ill-formed: whatever the user does on it, each connection and
    each group has at most one policy, and each policy either is well-formed (no workflow is given more
    access than the policy's maximum, and without write access it requires no write approval and limits no
    write session), or comes from the one the server sent for the same connection or group: it has the
    maximum access that was sent, a workflow has the access that was sent or one within the maximum, and
    without write access the write approval and the limit are as they were sent.  So where the server sends
    well-formed policies -- which it does not ensure -- they all stay well-formed.  What is sent has one
    policy per id, being an object whose keys are the ids. *)
Theorem role_policies_well_formed routes props s :
  one_per_id props -> rtc (page_step routes props) (initialState props) s ->
  NoDup (map draft_id (policies s)) /\ NoDup (map draft_id (groupPolicies s)) /\
  (forall d, d ∈ policies s -> policy_ok (draft_policy d) \/
     exists p0, (draft_id d, p0) ∈ sent_policies props /\ kept_as p0 (draft_policy d)) /\
  (forall d, d ∈ groupPolicies s -> policy_ok (draft_policy d) \/
     exists p0, (draft_id d, p0) ∈ sent_group_policies props /\ kept_as p0 (draft_policy d)) /\
  (role_ok props -> Forall (fun d => policy_ok (draft_policy d)) (policies s ++ groupPolicies s)).
Proof.
  intros H0 Hr. pose proof (role_reachable_ok routes props s H0 Hr) as Hok.
  assert (Hall := fun H => state_ok_all props s H Hok). destruct Hok as [[H1 H2] [H3 H4]].
  rewrite Forall_forall in H2, H4. split_and!; [done..|]. intros [Hp Hg]%Hall. by apply Forall_app_2.
Qed.

(** The fields of a policy as it is stored: its modes, its flags, and a limit for write access. *)
Definition stored_fields (p : Policy) : list (string * string) :=
  [("access_mode", access_mode_text (access_mode p));
   ("query_access_mode", access_mode_text (query_access_mode p));
   ("native_proxy_access_mode", access_mode_text (native_proxy_access_mode p))] ++
  flagged "can_review" (can_review p) ++
  flagged "read_requires_approval" (read_requires_approval p) ++
  flagged "write_requires_approval" (write_requires_approval p) ++
  match access_mode p with
  | AccessWrite => [("max_write_session_minutes", limit_text p)]
  | _ => []
  end.

Lemma mode_field_listed field m options :
  m ∈ options -> mode_field field m options = [(field, access_mode_text m)].
Proof.
  intros H. unfold mode_field. rewrite selected_option_listed; [done|].
  rewrite map_map. apply list_elem_of_fmap. eauto.
Qed.

Lemma policy_fields_stored props p :
  (forall m, m ∈ access_modes props) -> policy_ok p -> policy_fields props p = stored_fields p.
Proof.
  intros Hm [H1 H2 H3 H4]. unfold policy_fields, workflow_field, stored_fields.
  rewrite !mode_field_listed by (auto; by apply elem_of_workflow_modes).
  destruct (access_mode p) eqn:E; rewrite ?H3 by done;
    by destruct (query_access_enabled props), (native_client_access_enabled props).
Qed.

(** What a list of policies posts, those whose connection or group is known. *)
Definition posted_list (known : PolicyDraft -> bool) (prefix id_field : string) (ds : list PolicyDraft)
    : list (string * string) :=
  concat (imap (fun i d => when (known d)
    (named prefix i ((id_field, str_of_Z (draft_id d)) :: stored_fields (draft_policy d)))) ds).

Lemma posted_list_ok props known prefix id_field ds :
  (forall m, m ∈ access_modes props) -> Forall (fun d => policy_ok (draft_policy d)) ds ->
  concat (imap (fun i d => when (known d) (posted_policy props prefix id_field i d)) ds) =
  posted_list known prefix id_field ds.
Proof.
  intros Hm Hok. unfold posted_list. f_equal. apply imap_ext. intros i d Hi.
  rewrite Forall_lookup in Hok. unfold posted_policy. by rewrite policy_fields_stored by eauto.
Qed.

Lemma groupSection_entries props typed submitter s :
  entries typed submitter (groupSection props s) =
  concat (imap (fun i d => when (known_group props d)
    (posted_policy props "group_policies" "connection_group_id" i d)) (groupPolicies s)).
Proof.
  unfold groupSection. rewrite entries_elem, flat_map_app, entries_when.
  cbn [flat_map app]. rewrite ConnectionGroupAddCombobox_entries, !entries_elem, app_nil_r.
  cbn [flat_map View.entries app]. rewrite flat_map_concat_imap.
  rewrite (imap_ext _ _ _ (fun i d _ => groupPolicyCard_entries props typed submitter i d)).
  by rewrite !app_nil_r, when_nonempty.
Qed.

Lemma exceptionsSection_entries props typed submitter s errors :
  entries typed submitter (exceptionsSection props s errors) =
  when (isConnectionExceptionsOpen s) (concat (imap (fun i d => when (known_connection props d)
    (posted_policy props "policies" "database_connection_id" i d)) (policies s))).
Proof.
  unfold exceptionsSection, Collapsible. rewrite entries_elem. cbn [flat_map].
  rewrite entries_elem, app_nil_r. cbn [flat_map]. rewrite entries_when.
  destruct (isConnectionExceptionsOpen s); [|done]. cbn [when flat_map].
  rewrite !entries_elem. cbn [flat_map]. rewrite entries_elem, flat_map_app, entries_when.
  cbn [flat_map]. rewrite (entries_elem _ _ "div" [addException props s]). cbn [flat_map].
  unfold addException. rewrite ConnectionAddCombobox_entries. rewrite !entries_elem. cbn [flat_map]. rewrite !entries_elem. cbn [flat_map].
  rewrite entries_elem, !app_nil_r, flat_map_concat_imap.
  rewrite (imap_ext _ _ _ (fun i d _ => connectionPolicyRow_entries props typed submitter errors i d)).
  replace (entries typed submitter (policyTableHead props)) with (@nil (string * string))
    by (unfold policyTableHead; cbn; by destruct (query_access_enabled props), (native_client_access_enabled props)).
  cbn [app]. rewrite when_nonempty. done.
Qed.

Lemma roleForm_entries routes props typed submitter s processing errors :
  entries typed submitter (roleForm routes props s processing errors) =
  [("name", typed "name" ?? ((role_name <$> role props) ?? ""));
   ("description", typed "description" ?? ((role props ≫= role_description) ?? ""))] ++
  when (negb ((length (connections props) =? 0)%nat && (length (connection_groups props) =? 0)%nat))
    (entries typed submitter (groupSection props s) ++
     entries typed submitter (exceptionsSection props s errors)).
Proof.
  unfold roleForm. rewrite entries_Tag. cbn [flat_map].
  replace (entries typed submitter (roleProfile props errors)) with
    [("name", typed "name" ?? ((role_name <$> role props) ?? ""));
     ("description", typed "description" ?? ((role props ≫= role_description) ?? ""))].
  2: { unfold roleProfile. cbn -[InputError]. by rewrite !entries_InputError. }
  f_equal. replace (entries typed submitter (formActions routes props processing)) with (@nil (string * string))
    by (unfold formActions; cbn; by destruct processing).
  rewrite !app_nil_r. unfold databasePolicies. rewrite entries_elem. cbn [flat_map].
  rewrite (entries_elem _ _ "CardContent"). cbn [flat_map]. rewrite !app_nil_r.
  destruct (_ && _); [done|]. rewrite (entries_elem _ _ "div"). cbn [flat_map negb when].
  by rewrite app_nil_r.
Qed.

(** What the form of a role posts, in every state the user can reach: the name and the
    description; the policies of the groups, in their order; and, while the section of the exceptions
    is open, the policies of the connections, in their order.  A policy posts its id, its modes and
    flags as they are in the state, and its limit only for write access. *)
Theorem role_form_posts_policies routes props typed submitter s processing errors :
  one_per_id props -> role_ok props ->
  (forall m, m ∈ access_modes props) -> 0 < Z.of_nat (length (connections props)) ->
  rtc (page_step routes props) (initialState props) s ->
  entries typed submitter (roleForm routes props s processing errors) =
  [("name", typed "name" ?? ((role_name <$> role props) ?? ""));
   ("description", typed "description" ?? ((role props ≫= role_description) ?? ""))] ++
  posted_list (known_group props) "group_policies" "connection_group_id" (groupPolicies s) ++
  when (isConnectionExceptionsOpen s)
    (posted_list (known_connection props) "policies" "database_connection_id" (policies s)).
Proof.
  intros H0 H1 Hm Hc Hr. destruct (state_ok_all props s H1 (role_reachable_ok routes props s H0 Hr)) as [Hp Hg].
  rewrite roleForm_entries, groupSection_entries, exceptionsSection_entries, !posted_list_ok by done.
  f_equal. destruct (connections props); [simpl in Hc; lia|done].
Qed.

(** The two tables of policies are the same form: the card of a group and the row of a
    connection post the same fields, with the same values and in the same order, for the same
    policy; only the names of the list and of the id differ. *)
Theorem policy_views_equivalent props typed submitter errors index d :
  known_group props d = true -> known_connection props d = true ->
  exists fields,
    flat_map (entries typed submitter) (groupPolicyCard props index d) =
      named "group_policies" index (("connection_group_id", str_of_Z (draft_id d)) :: fields) /\
    flat_map (entries typed submitter) (connectionPolicyRow props errors index d) =
      named "policies" index (("database_connection_id", str_of_Z (draft_id d)) :: fields).
Proof.
  intros Hg Hc. exists (policy_fields props (draft_policy d)).
  by rewrite groupPolicyCard_entries, connectionPolicyRow_entries, Hg, Hc.
Qed.

(** ** Examples *)

Definition example_routes : Routes := {|
  store_form := "/roles"; update_form := fun id => ("/roles/" ++ str_of_Z id)%string;
  roles_index := "/roles"; connections_index := "/connections" |}.

Definition write_policy : Policy := {|
  access_mode := AccessWrite; query_access_mode := AccessRead; native_proxy_access_mode := AccessNone;
  can_review := true; read_requires_approval := false; write_requires_approval := true;
  max_write_session_minutes := Some (Whole 60) |}.

Definition example_props : Props := {|
  role := Some {| role_id := 4; role_name := "Analyst"; role_slug := "analyst";
                  role_description := None; role_is_admin := false;
                  role_policies := [(1, write_policy)]; role_group_policies := [(1, write_policy)] |};
  connections := [{| connection_id := 1; connection_name := "main"; connection_driver := "mysql";
                     connection_host := "db"; connection_port := 3306; connection_database := "app";
                     connection_is_active := true |}];
  connection_groups := [{| group_id := 1; group_name := "All"; group_description := None;
                           group_connections_count := 1 |}];
  access_modes := [AccessNone; AccessRead; AccessWrite];
  query_access_enabled := true; native_client_access_enabled := false |}.

Lemma example_one_per_id : one_per_id example_props.
Proof. split; apply NoDup_singleton. Qed.

Lemma example_role_ok : role_ok example_props.
Proof.
  assert (policy_ok write_policy) by (constructor; simpl; done || lia). by repeat constructor.
Qed.

Lemma example_modes m : m ∈ access_modes example_props.
Proof. destruct m; simpl; rewrite !elem_of_cons; auto. Qed.

(** The [n]-th enabled control of the page, triggered. *)
Definition act n ev (s : State) : State :=
  fire (RoleFormPage example_routes example_props s false []) n 0 ev s.

Lemma role_act_step n ev s :
  (n < length (actions (RoleFormPage example_routes example_props s false [])))%nat ->
  page_step example_routes example_props s (act n ev s).
Proof. intros (h & Hh & E)%(fire_action _ n 0 ev s). unfold act. rewrite E. by eapply step_action. Qed.

(** The maximum access of the group's policy is lowered to reading. *)
Definition lowered : State := act 2 (Change "read") (initialState example_props).

(** A role that reads, with a write approval and a limit of five minutes, as the server may store it. *)
Definition ill_formed : Policy := {|
  access_mode := AccessRead; query_access_mode := AccessNone; native_proxy_access_mode := AccessNone;
  can_review := false; read_requires_approval := true; write_requires_approval := true;
  max_write_session_minutes := Some (Whole 5) |}.

Definition reading_props : Props := {|
  role := Some {| role_id := 5; role_name := "Reader"; role_slug := "reader";
                  role_description := None; role_is_admin := false;
                  role_policies := []; role_group_policies := [(1, ill_formed)] |};
  connections := connections example_props; connection_groups := connection_groups example_props;
  access_modes := access_modes example_props;
  query_access_enabled := true; native_client_access_enabled := false |}.

(** The maximum access of its policy is chosen afresh. *)
Definition repaired : State :=
  fire (RoleFormPage example_routes reading_props (initialState reading_props) false []) 2 0 (Change "read")
    (initialState reading_props).

Lemma role_policies_well_formed_witness :
  map draft_policy (groupPolicies lowered) = [choose_access_mode AccessRead write_policy] /\
  Forall (fun d => policy_ok (draft_policy d)) (policies lowered ++ groupPolicies lowered) /\
  map draft_policy (groupPolicies repaired) = [choose_access_mode AccessRead ill_formed] /\
  forall d, d ∈ groupPolicies repaired -> policy_ok (draft_policy d) \/
    exists p0, (draft_id d, p0) ∈ [(1, ill_formed)] /\ kept_as p0 (draft_policy d).
Proof.
  split; [vm_compute; reflexivity|]. split; [|split; [vm_compute; reflexivity|]].
  - apply (role_policies_well_formed example_routes example_props lowered example_one_per_id);
      [|exact example_role_ok].
    apply rtc_once, role_act_step. vm_compute. lia.
  - apply (role_policies_well_formed example_routes reading_props repaired); [split; [constructor|apply NoDup_singleton]|].
    apply rtc_once. unfold repaired.
    destruct (fire_action (RoleFormPage example_routes reading_props (initialState reading_props) false []) 2 0
      (Change "read") (initialState reading_props)) as (h & Hh & ->); [vm_compute; lia|].
    by eapply step_action.
Defined.

Lemma role_form_posts_policies_witness :
  entries (fun _ => None) None (roleForm example_routes example_props lowered false []) =
  [("name", "Analyst"); ("description", "")] ++
  posted_list (known_group example_props) "group_policies" "connection_group_id" (groupPolicies lowered) ++
  posted_list (known_connection example_props) "policies" "database_connection_id" (policies lowered).
Proof.
  apply (role_form_posts_policies example_routes example_props (fun _ => None) None lowered false []
    example_one_per_id example_role_ok example_modes).
  - simpl. lia.
  - apply rtc_once, role_act_step. vm_compute. lia.
Defined.

Lemma policy_views_equivalent_witness :
  exists fields,
    flat_map (entries (fun _ => None) None)
      (groupPolicyCard example_props 0 {| draft_id := 1; draft_policy := write_policy |}) =
      named "group_policies" 0 (("connection_group_id", "1") :: fields) /\
    flat_map (entries (fun _ => None) None)
      (connectionPolicyRow example_props [] 0 {| draft_id := 1; draft_policy := write_policy |}) =
      named "policies" 0 (("database_connection_id", "1") :: fields).
Proof.
  apply (policy_views_equivalent example_props (fun _ => None) None [] 0
    {| draft_id := 1; draft_policy := write_policy |}); reflexivity.
Defined.

(** Collapsing the section of the exceptions loses them: after one click on its heading the
    policy of the connection is still in the state of the page, but the form does not post it any
    more, and saving the role removes it. *)
Theorem collapsed_exceptions_not_posted :
  exists s, page_step example_routes example_props (initialState example_props) s /\
    policies s = [{| draft_id := 1; draft_policy := write_policy |}] /\
    existsb (fun e => startsWith (fst e) "policies[")
      (entries (fun _ => None) None (roleForm example_routes example_props s false [])) = false.
Proof.
  exists (act 8 Click (initialState example_props)). split_and!.
  - apply role_act_step. vm_compute. lia.
  - vm_compute. reflexivity.
  - vm_compute. reflexivity.
Qed.
