(* ===== verification/RequestForm.v ===== *)
(** * The form of a query request: state, handlers and what is computed from them

    [resources/js/pages/query-requests/create.tsx], lines 46-122 and 287-697: the state of the
    page, its initial value from the properties the server sends, every event handler, and the
    values derived at each render (eligible connections, approval, the write limit, the preflight
    preview).  The page itself is in [RequestFormView]. *)

From Stdlib Require Import String.
From S2P Require Import Prelude Lists JsString JsRegExp JsDate Timezone SqlPolicy CrucibleLib.
From S2P Require Import PolicyPreview.

Open Scope string_scope.
Open Scope Z_scope.

(** ** Data *)

Record StatementValues := { sv_sql : string; sv_database_connection_id : option Z }.

Record QueryRequestFormValues := {
  database_connection_id : option Z;
  database_connection_ids : list Z;
  form_request_kind : QueryRequestKind;
  form_access_transport : AccessTransport;
  title : string;
  description : option string;
  form_statements : list StatementValues;
  scheduled_at : option string;
  access_duration_minutes : option Z;
  requested_access_mode : option QueryType;
}.

Record EditableQueryRequest := {
  form_values : QueryRequestFormValues;
  request_id : Z;
  was_approved : bool;
  is_draft : bool;
}.

Record CopySource := {
  copy_id : Z;
  copy_title : string;
  unavailable_targets : list (Z * string);
}.

Record Connection := {
  connection_id : Z;
  connection_name : string;
  driver : string;
  can_write : bool;
  can_query_access_read : bool;
  can_query_access_write : bool;
  can_native_proxy_read : bool;
  can_native_proxy_write : bool;
  query_access_read_requires_approval : bool;
  query_access_write_requires_approval : bool;
  query_access_max_write_session_minutes : option Z;
  native_proxy_read_requires_approval : bool;
  native_proxy_write_requires_approval : bool;
  native_proxy_max_write_session_minutes : option Z;
}.

Record Props := {
  connections : list Connection;
  sql_statement_policy : SqlStatementPolicy;
  query_access_enabled : bool;
  native_client_access_enabled : bool;
  query_request : option EditableQueryRequest;
  initial_values : option QueryRequestFormValues;
  copy_source : option CopySource;
  policy_previews : list PolicyPreview;
  user_timezone : option string;
}.

Record StatementDraft := {
  key : string;
  sql : string;
  databaseConnectionId : string;
}.

Record State := {
  requestKind : QueryRequestKind;
  accessTransport : AccessTransport;
  scheduleQuery : bool;
  scheduledAtLocal : string;
  selectedConnectionIds : list string;
  requestedAccessMode : QueryType;
  statements : list StatementDraft;
  focusedStatementKey : option string;
}.

Definition MAX_SQL_STATEMENT_LENGTH : Z := 1000000.

(** *** The setters of [useState] *)

Definition setRequestKind v s := {|
  requestKind := v; accessTransport := accessTransport s; scheduleQuery := scheduleQuery s;
  scheduledAtLocal := scheduledAtLocal s; selectedConnectionIds := selectedConnectionIds s;
  requestedAccessMode := requestedAccessMode s; statements := statements s;
  focusedStatementKey := focusedStatementKey s |}.

Definition setAccessTransport v s := {|
  requestKind := requestKind s; accessTransport := v; scheduleQuery := scheduleQuery s;
  scheduledAtLocal := scheduledAtLocal s; selectedConnectionIds := selectedConnectionIds s;
  requestedAccessMode := requestedAccessMode s; statements := statements s;
  focusedStatementKey := focusedStatementKey s |}.

Definition setScheduleQuery v s := {|
  requestKind := requestKind s; accessTransport := accessTransport s; scheduleQuery := v;
  scheduledAtLocal := scheduledAtLocal s; selectedConnectionIds := selectedConnectionIds s;
  requestedAccessMode := requestedAccessMode s; statements := statements s;
  focusedStatementKey := focusedStatementKey s |}.

Definition setScheduledAtLocal v s := {|
  requestKind := requestKind s; accessTransport := accessTransport s;
  scheduleQuery := scheduleQuery s; scheduledAtLocal := v;
  selectedConnectionIds := selectedConnectionIds s;
  requestedAccessMode := requestedAccessMode s; statements := statements s;
  focusedStatementKey := focusedStatementKey s |}.

Definition setSelectedConnectionIds v s := {|
  requestKind := requestKind s; accessTransport := accessTransport s;
  scheduleQuery := scheduleQuery s; scheduledAtLocal := scheduledAtLocal s;
  selectedConnectionIds := v; requestedAccessMode := requestedAccessMode s;
  statements := statements s; focusedStatementKey := focusedStatementKey s |}.

Definition setRequestedAccessMode v s := {|
  requestKind := requestKind s; accessTransport := accessTransport s;
  scheduleQuery := scheduleQuery s; scheduledAtLocal := scheduledAtLocal s;
  selectedConnectionIds := selectedConnectionIds s; requestedAccessMode := v;
  statements := statements s; focusedStatementKey := focusedStatementKey s |}.

Definition setStatements (f : list StatementDraft -> list StatementDraft) s := {|
  requestKind := requestKind s; accessTransport := accessTransport s;
  scheduleQuery := scheduleQuery s; scheduledAtLocal := scheduledAtLocal s;
  selectedConnectionIds := selectedConnectionIds s;
  requestedAccessMode := requestedAccessMode s; statements := f (statements s);
  focusedStatementKey := focusedStatementKey s |}.

Definition setFocusedStatementKey v s := {|
  requestKind := requestKind s; accessTransport := accessTransport s;
  scheduleQuery := scheduleQuery s; scheduledAtLocal := scheduledAtLocal s;
  selectedConnectionIds := selectedConnectionIds s;
  requestedAccessMode := requestedAccessMode s; statements := statements s;
  focusedStatementKey := v |}.

(** ** The initial state *)

Definition initialStatements (queryRequest : option QueryRequestFormValues)
    (defaultConnectionId : string) : list StatementDraft :=
  let statements := (form_statements <$> queryRequest) ?? [] in
  match statements with
  | [] => [{| key := "statement-1"; sql := ""; databaseConnectionId := defaultConnectionId |}]
  | _ =>
      imap (fun index statement => {|
        key := "statement-" ++ str_of_nat (index + 1);
        sql := sv_sql statement;
        databaseConnectionId :=
          match sv_database_connection_id statement with
          | None => ""
          | Some id => str_of_Z id
          end |}) statements
  end.

Section form.
Context (tz_offset : string -> Z -> Z).
(** [format] of sql-formatter: the language and the SQL; [None] when it throws. *)
Context (format : string -> string -> option string).
Context (props : Props).

Definition userTimezone : string := user_timezone props ?? "UTC".
Definition isEditing : bool := is_some (query_request props).
Definition isDraft : bool := (is_draft <$> query_request props) ?? false.

Definition formValues : option QueryRequestFormValues :=
  match query_request props with
  | Some request => Some (form_values request)
  | None => initial_values props
  end.

Definition defaultConnectionId : string :=
  match formValues ≫= database_connection_id with
  | Some (Zpos _ as id) | Some (Zneg _ as id) => str_of_Z id
  | _ =>
      match connections props with
      | [connection] => str_of_Z (connection_id connection)
      | _ => ""
      end
  end.

(** The [useState] initialisers; [None] when the conversion of the schedule throws. *)
Definition initialState : option State :=
  scheduledAt ←
    match formValues ≫= scheduled_at with
    | Some (String _ _ as iso) => isoToZonedDateTimeLocal tz_offset iso userTimezone
    | _ => Some ""
    end;
  Some {|
    requestKind := (form_request_kind <$> formValues) ?? SingleExecution;
    accessTransport := (form_access_transport <$> formValues) ?? Browser;
    scheduleQuery := is_some (formValues ≫= scheduled_at);
    scheduledAtLocal := scheduledAt;
    selectedConnectionIds :=
      ((fun v => map str_of_Z (database_connection_ids v)) <$> formValues) ??
      (if str_eq defaultConnectionId "" then [] else [defaultConnectionId]);
    requestedAccessMode := (formValues ≫= requested_access_mode) ?? ReadQuery;
    statements := initialStatements formValues defaultConnectionId;
    focusedStatementKey := None;
  |}.

(** The input of the policy preview hook. *)
Definition previewInputs (s : State) : Signature :=
  map (fun statement => {|
    input_sql := sql statement;
    input_connection_id := str_to_number (databaseConnectionId statement) |}) (statements s).

Definition previewEnabled (s : State) : bool := bool_decide (requestKind s = SingleExecution).

(** ** Derived values *)

(** [String(connection.id) === value] *)
Definition has_id (value : string) (connection : Connection) : bool :=
  str_eq (str_of_Z (connection_id connection)) value.

Definition selectedSessionConnections (s : State) : list Connection :=
  List.filter (fun connection =>
    existsb (str_eq (str_of_Z (connection_id connection))) (selectedConnectionIds s))
    (connections props).

Definition isNativeClientAccess (s : State) : bool :=
  bool_decide (requestKind s = QueryAccess) && bool_decide (accessTransport s = NativeProxy).

Definition nativeEligibleConnections : list Connection :=
  List.filter can_native_proxy_read (connections props).

Definition queryAccessEligibleConnections : list Connection :=
  List.filter can_query_access_read (connections props).

Definition canUseQueryAccess : bool :=
  query_access_enabled props && (0 <? length queryAccessEligibleConnections)%nat.

Definition canUseNativeClientAccess : bool :=
  native_client_access_enabled props && (0 <? length nativeEligibleConnections)%nat.

Definition can_write_session (s : State) (connection : Connection) : bool :=
  if isNativeClientAccess s then can_native_proxy_write connection
  else can_query_access_write connection.

Definition canRequestWriteSession (s : State) : bool :=
  (0 <? length (selectedSessionConnections s))%nat &&
  forallb (can_write_session s) (selectedSessionConnections s).

Definition sessionRequiresApproval (s : State) : bool :=
  match requestedAccessMode s with
  | WriteQuery =>
      existsb (fun connection =>
        if isNativeClientAccess s then native_proxy_write_requires_approval connection
        else query_access_write_requires_approval connection) (selectedSessionConnections s)
  | ReadQuery =>
      existsb (fun connection =>
        if isNativeClientAccess s then native_proxy_read_requires_approval connection
        else query_access_read_requires_approval connection) (selectedSessionConnections s)
  end.

(** [Math.min(...limits)] of a list that is not empty *)
Definition math_min (first : Z) (rest : list Z) : Z := fold_left Z.min rest first.

Definition write_limit (s : State) (connection : Connection) : option Z :=
  if isNativeClientAccess s then native_proxy_max_write_session_minutes connection
  else query_access_max_write_session_minutes connection.

Definition writeSessionMaximumMinutes (s : State) : option Z :=
  let limits := omap (write_limit s) (selectedSessionConnections s) in
  match limits with
  | [] => None
  | first :: rest => Some (math_min first rest)
  end.

(** *** The preflight preview *)

Inductive Level := Warning | Blocked.

Record PreflightMessage := {
  level : Level;
  message : string;
  policyReviewEligible : option bool;
}.

Definition MULTIPLE_STATEMENTS_PATTERN : regexp := Eval vm_compute in
  parsed (regex ";\s*\S" "").
Definition TRAILING_SEMICOLON_PATTERN : regexp := Eval vm_compute in
  parsed (regex ";\s*$" "").
Definition UPDATE_OR_DELETE_PATTERN : regexp := Eval vm_compute in
  parsed (regex "^(update|delete)\b" "i").
Definition WHERE_PATTERN : regexp := Eval vm_compute in parsed (regex "\bwhere\b" "i").
Definition SELECT_PATTERN : regexp := Eval vm_compute in parsed (regex "^select\b" "i").
Definition FROM_PATTERN : regexp := Eval vm_compute in parsed (regex "\bfrom\b" "i").
Definition LIMIT_PATTERN : regexp := Eval vm_compute in parsed (regex "\blimit\b" "i").

Definition MISSING_CONNECTION := "Choose a target connection.".
Definition MISSING_SQL := "Add the SQL statement to check it.".
Definition MULTIPLE_STATEMENTS := "Only one SQL statement may be submitted per statement slot.".
Definition FALLBACK_WARNING := "This statement uses the emergency SQL fallback. It is treated as write access and must satisfy write permission and approval.".
Definition NO_WHERE := "This UPDATE or DELETE has no WHERE clause.".
Definition NO_LIMIT := "This SELECT has no LIMIT.".

Definition blocked (m : string) (eligible : option bool) : PreflightMessage :=
  {| level := Blocked; message := m; policyReviewEligible := eligible |}.
Definition warning (m : string) : PreflightMessage :=
  {| level := Warning; message := m; policyReviewEligible := None |}.

(** [policyPreviews.find(...)]: the server's verdict on this SQL and target. *)
Definition serverPolicyFor (policyPreviews : list PolicyPreview) (statement : StatementDraft)
    : option PolicyPreview :=
  find_first (fun preview =>
    str_eq (preview_sql preview) (sql statement) &&
    str_eq (str_of_Z (preview_connection_id preview)) (databaseConnectionId statement))
    policyPreviews.

(** The warnings of a statement that the policy admits. *)
Definition riskMessages (serverPolicy : option PolicyPreview) (sql : string)
    : list PreflightMessage :=
  let policy := sql_statement_policy props in
  let topLevelSql := topLevelGovernedSql sql in
  (when (match serverPolicy with
         | Some preview => bool_decide (preview_source preview = Some "emergency_fallback")
         | None => usesEmergencySqlFallback sql policy
         end)
     [warning FALLBACK_WARNING] ++
   when (test UPDATE_OR_DELETE_PATTERN topLevelSql && negb (test WHERE_PATTERN topLevelSql))
     [warning NO_WHERE] ++
   when (test SELECT_PATTERN topLevelSql && test FROM_PATTERN topLevelSql &&
         negb (test LIMIT_PATTERN topLevelSql))
     [warning NO_LIMIT])%list.

Definition preflightMessages (policyPreviews : list PolicyPreview) (statement : StatementDraft)
    : list PreflightMessage :=
  let policy := sql_statement_policy props in
  let sql := trim (sql statement) in
  let connection := find_first (has_id (databaseConnectionId statement)) (connections props) in
  let serverPolicy := serverPolicyFor policyPreviews statement in
  (when (negb (is_some connection)) [blocked MISSING_CONNECTION None] ++
   if str_eq sql "" then [blocked MISSING_SQL None]
   else if negb (is_some serverPolicy) &&
           test MULTIPLE_STATEMENTS_PATTERN (replace_first TRAILING_SEMICOLON_PATTERN "" sql)
   then [blocked MULTIPLE_STATEMENTS None]
   else
     let policyMessage :=
       match serverPolicy with
       | Some preview => preview_message preview
       | None => sqlStatementPolicyMessage sql policy
       end in
     match policyMessage with
     | Some m =>
         [blocked m (Some
            match serverPolicy with
            | Some preview => preview_reviewable preview
            | None => str_eq m UNSUPPORTED_SQL_POLICY_MESSAGE
            end)]
     | None => riskMessages serverPolicy sql
     end)%list.

Definition deploymentPreflightPreview (policyPreviews : list PolicyPreview) (s : State)
    : list (nat * list PreflightMessage) :=
  imap (fun index statement => ((index + 1)%nat, preflightMessages policyPreviews statement))
    (statements s).

Definition is_blocked (m : PreflightMessage) : bool :=
  match level m with Blocked => true | Warning => false end.

(** [policyReviewEligibility.canRequest] *)
Definition canRequestPolicyReview (policyPreviews : list PolicyPreview) (s : State) : bool :=
  let blockers :=
    flat_map (fun statement => List.filter is_blocked (snd statement))
      (deploymentPreflightPreview policyPreviews s) in
  (0 <? length blockers)%nat &&
  forallb (fun m => bool_decide (policyReviewEligible m = Some true)) blockers.

(** ** Handlers *)

Definition with_sql (v : string) (statement : StatementDraft) : StatementDraft :=
  {| key := key statement; sql := v; databaseConnectionId := databaseConnectionId statement |}.

Definition with_connection (v : string) (statement : StatementDraft) : StatementDraft :=
  {| key := key statement; sql := sql statement; databaseConnectionId := v |}.

Definition updateStatement (index : nat) (v : string) (s : State) : State :=
  setStatements (map_at index (with_sql v)) s.

Definition updateStatementConnection (index : nat) (v : string) (s : State) : State :=
  setStatements (map_at index (with_connection v)) s.

Definition insertedStatementKey (now : Z) (index : nat) : string :=
  "statement-" ++ str_of_Z now ++ "-" ++ str_of_nat index.

Definition insertStatementAfter (now : Z) (index : nat) (s : State) : State :=
  let insertedStatementKey := insertedStatementKey now index in
  setStatements (fun current =>
    let precedingStatement := current !! index in
    let insertedStatement := {|
      key := insertedStatementKey;
      sql := "";
      databaseConnectionId :=
        (databaseConnectionId <$> precedingStatement) ??
        ((databaseConnectionId <$> last current) ?? defaultConnectionId) |} in
    (take (index + 1) current ++ [insertedStatement] ++ drop (index + 1) current)%list)
    (setFocusedStatementKey (Some insertedStatementKey) s).

Definition removeStatement (index : nat) (s : State) : State :=
  setStatements (remove_at index) s.

Inductive Direction := Up | Down.

(** [index + direction] for the directions -1 and 1 *)
Definition target_of (index : nat) (direction : Direction) : Z :=
  Z.of_nat index + match direction with Up => -1 | Down => 1 end.

Definition moveStatement (index : nat) (direction : Direction) (s : State) : State :=
  let target := target_of index direction in
  match key <$> statements s !! index with
  | None => s
  | Some movedStatementKey =>
      if (target <? 0) || (Z.of_nat (length (statements s)) <=? target) then s
      else
        setStatements (swap index (Z.to_nat target))
          (setFocusedStatementKey (Some movedStatementKey) s)
  end.

(** [None]: the formatter throws and the event leaves the state as it is. *)
Definition formatStatement (index : nat) (s : State) : option State :=
  match statements s !! index with
  | None => Some s
  | Some statement =>
      let sql := trim (sql statement) in
      let statementConnection :=
        find_first (has_id (databaseConnectionId statement)) (connections props) in
      if str_eq sql "" then Some s
      else
        formatted ← format
          (if bool_decide (driver <$> statementConnection = Some "mysql")
           then "mysql" else "postgresql") sql;
        Some (updateStatement index formatted s)
  end.

Definition selectWorkflow (nextRequestKind : QueryRequestKind)
    (nextAccessTransport : AccessTransport) (s : State) : State :=
  let s := setAccessTransport nextAccessTransport (setRequestKind nextRequestKind s) in
  match nextRequestKind with
  | SingleExecution => s
  | QueryAccess => setRequestedAccessMode ReadQuery (setSelectedConnectionIds [] s)
  end.

(** The change handler of the native client's connection (lines 1000-1027). *)
Definition selectNativeConnection (value : string) (s : State) : State :=
  let s' := setSelectedConnectionIds (if str_eq value "" then [] else [value]) s in
  let connection := find_first (has_id value) nativeEligibleConnections in
  if bool_decide (requestedAccessMode s = WriteQuery) &&
     negb ((can_native_proxy_write <$> connection) ?? false)
  then setRequestedAccessMode ReadQuery s' else s'.

(** The change handler of the session's connections (lines 1042-1075). *)
Definition selectSessionConnections (values : list string) (s : State) : State :=
  let s' := setSelectedConnectionIds values s in
  let selected :=
    List.filter (fun connection => existsb (str_eq (str_of_Z (connection_id connection))) values)
      queryAccessEligibleConnections in
  if bool_decide (requestedAccessMode s = WriteQuery) &&
     negb (forallb can_query_access_write selected)
  then setRequestedAccessMode ReadQuery s' else s'.

(** The animation frame of the focus effect has scrolled to the statement (lines 362-383). *)
Definition focusDone (s : State) : State :=
  match focusedStatementKey s with
  | None => s
  | Some _ => setFocusedStatementKey None s
  end.
End form.

Section handlers.
Context (format : string -> string -> option string) (props : Props).

Lemma moveStatement_moves s index direction :
  (index < length (statements s))%nat ->
  0 <= target_of index direction < Z.of_nat (length (statements s)) ->
  statements (moveStatement index direction s) =
  swap index (Z.to_nat (target_of index direction)) (statements s).
Proof.
  intros Hi Ht. unfold moveStatement.
  destruct (lookup_lt_is_Some_2 _ _ Hi) as [x ->]. simpl.
  by replace ((_ <? 0) || _) with false by lia.
Qed.

Lemma moveStatement_stays s index direction :
  ~ ((index < length (statements s))%nat /\
     0 <= target_of index direction < Z.of_nat (length (statements s))) ->
  moveStatement index direction s = s.
Proof.
  intros H. unfold moveStatement. destruct (statements s !! index) eqn:E; simpl; [|done].
  apply lookup_lt_Some in E. by replace ((_ <? 0) || _) with true by lia.
Qed.
End handlers.

(** Moving a statement exchanges it with its neighbour: the batch keeps the same statements,
    the others stay where they are, a move past either end (or of a position that does not
    exist) changes nothing, and moving the statement back restores the batch. *)
Theorem moveStatement_correct s index :
  let moved := moveStatement index Down s in
  (S index < length (statements s))%nat ->
  statements moved !! S index = statements s !! index /\
  statements moved !! index = statements s !! S index /\
  (forall k, k <> index -> k <> S index -> statements moved !! k = statements s !! k) /\
  statements moved ≡ₚ statements s /\
  statements (moveStatement (S index) Up moved) = statements s /\
  moveStatement 0 Up s = s /\
  moveStatement (length (statements s) - 1) Down s = s.
Proof.
  intros moved Hi.
  assert (Hmoved : statements moved = swap index (S index) (statements s)).
  { unfold moved. rewrite moveStatement_moves by (unfold target_of; lia).
    f_equal. unfold target_of. lia. }
  destruct (lookup_lt_is_Some_2 (statements s) index) as [x Hx]; [lia|].
  destruct (lookup_lt_is_Some_2 (statements s) (S index)) as [y Hy]; [lia|].
  destruct (swap_in_range _ _ _ _ _ Hx Hy) as (H1 & H2 & H3 & H4). rewrite <- Hmoved in *.
  split_and!; [congruence|congruence|done|done| | |].
  - rewrite moveStatement_moves.
    + rewrite Hmoved, (swap_comm (S index)). unfold target_of.
      replace (Z.to_nat (Z.of_nat (S index) + -1)) with index by lia. apply swap_involutive.
    + rewrite (Permutation_length H4). lia.
    + rewrite (Permutation_length H4). unfold target_of. lia.
  - apply moveStatement_stays. unfold target_of. lia.
  - apply moveStatement_stays. unfold target_of. lia.
Qed.

Definition draft (k q c : string) : StatementDraft :=
  {| key := k; sql := q; databaseConnectionId := c |}.

(** A page for the examples: a batch of two statements on two connections. *)
Definition example_connection (id : Z) (write : bool) (limit : option Z) : Connection := {|
  connection_id := id; connection_name := "main"; driver := "mysql"; can_write := write;
  can_query_access_read := true; can_query_access_write := write;
  can_native_proxy_read := true; can_native_proxy_write := write;
  query_access_read_requires_approval := false; query_access_write_requires_approval := true;
  query_access_max_write_session_minutes := limit;
  native_proxy_read_requires_approval := true; native_proxy_write_requires_approval := true;
  native_proxy_max_write_session_minutes := limit |}.

Definition example_props : Props := {|
  connections := [example_connection 1 true (Some 60); example_connection 2 true (Some 30)];
  sql_statement_policy := read_only_policy; query_access_enabled := true;
  native_client_access_enabled := true; query_request := None; initial_values := None;
  copy_source := None; policy_previews := []; user_timezone := Some "Europe/Paris" |}.

Definition example_state : State := {|
  requestKind := SingleExecution; accessTransport := Browser; scheduleQuery := false;
  scheduledAtLocal := ""; selectedConnectionIds := ["1"; "2"]; requestedAccessMode := WriteQuery;
  statements := [draft "statement-1" "select 1" "1"; draft "statement-2" "vacuum" "2"];
  focusedStatementKey := None |}.

Lemma moveStatement_correct_witness :
  map sql (statements (moveStatement 0 Down example_state)) = ["vacuum"; "select 1"] /\
  statements (moveStatement 1 Up (moveStatement 0 Down example_state)) = statements example_state.
Proof.
  split; [reflexivity|]. apply (moveStatement_correct example_state 0). simpl. lia.
Defined.

(** ** The limit of write sessions *)

Lemma math_min_spec first rest :
  math_min first rest ∈ first :: rest /\ forall x, x ∈ first :: rest -> math_min first rest <= x.
Proof.
  unfold math_min. revert first. induction rest as [|y rest IH]; intros first; simpl.
  - split; [apply list_elem_of_here|]. intros x Hx. apply list_elem_of_singleton in Hx. lia.
  - destruct (IH (Z.min first y)) as [Hin Hle]. split.
    + apply elem_of_cons in Hin as [->|Hin].
      * destruct (Z.min_spec first y) as [[_ ->]|[_ ->]]; [apply list_elem_of_here|].
        apply list_elem_of_further, list_elem_of_here.
      * by do 2 apply list_elem_of_further.
    + pose proof (Hle _ (list_elem_of_here _ _)) as Hmin.
      intros x [->|[->|Hx]%elem_of_cons]%elem_of_cons; [lia|lia|].
      by apply Hle, list_elem_of_further.
Qed.

Lemma elem_of_selectedSessionConnections props s c :
  c ∈ selectedSessionConnections props s <->
  c ∈ connections props /\ str_of_Z (connection_id c) ∈ selectedConnectionIds s.
Proof.
  unfold selectedSessionConnections. rewrite list_elem_of_In, filter_In, <- list_elem_of_In.
  rewrite existsb_exists_elem. apply and_iff_compat_l. split.
  - by intros (v & Hv & <-%str_eq_true).
  - intros H. exists (str_of_Z (connection_id c)). by rewrite str_eq_refl.
Qed.

(** C15.  The maximum of a write session is the least limit among the selected connections: it
    exceeds none of them and is one of them, and there is none exactly when no selected
    connection has a limit. *)
Theorem writeSessionMaximumMinutes_least props s :
  match writeSessionMaximumMinutes props s with
  | Some m =>
      (exists c, c ∈ selectedSessionConnections props s /\ write_limit s c = Some m) /\
      (forall c limit, c ∈ selectedSessionConnections props s -> write_limit s c = Some limit ->
         m <= limit)
  | None => forall c, c ∈ selectedSessionConnections props s -> write_limit s c = None
  end.
Proof.
  unfold writeSessionMaximumMinutes.
  assert (Hin : forall limit, limit ∈ omap (write_limit s) (selectedSessionConnections props s) <->
    exists c, c ∈ selectedSessionConnections props s /\ write_limit s c = Some limit)
    by (intros; apply list_elem_of_omap).
  destruct (omap _ _) as [|first rest].
  - intros c Hc. destruct (write_limit s c) as [limit|] eqn:E; [|done].
    assert (H : limit ∈ @nil Z) by (apply Hin; eauto). by apply elem_of_nil in H.
  - destruct (math_min_spec first rest) as [Hm Hle]. split; [by apply Hin|].
    intros c limit Hc Hl. apply Hle, Hin. eauto.
Qed.

(** ** Policy review *)

(** The verdict of the preview on a statement. *)
Inductive Verdict := Incomplete | Refused (reviewable : bool) | Cleared.

Section verdict.
Context (props : Props) (policyPreviews : list PolicyPreview).

Definition verdict (statement : StatementDraft) : Verdict :=
  let text := trim (sql statement) in
  let server := serverPolicyFor policyPreviews statement in
  if negb (is_some (find_first (has_id (databaseConnectionId statement)) (connections props))) ||
     str_eq text "" ||
     (negb (is_some server) &&
      test MULTIPLE_STATEMENTS_PATTERN (replace_first TRAILING_SEMICOLON_PATTERN "" text))
  then Incomplete
  else
    match server with
    | Some preview =>
        if is_some (preview_message preview) then Refused (preview_reviewable preview) else Cleared
    | None =>
        match sqlStatementPolicyMessage text (sql_statement_policy props) with
        | Some m => Refused (str_eq m UNSUPPORTED_SQL_POLICY_MESSAGE)
        | None => Cleared
        end
    end.

Definition eligible (m : PreflightMessage) : bool :=
  bool_decide (policyReviewEligible m = Some true).

Lemma warnings_not_blocked (b : bool) m : List.filter is_blocked (when b [warning m]) = [].
Proof. by destruct b. Qed.

Lemma riskMessages_not_blocked server text :
  List.filter is_blocked (riskMessages props server text) = [].
Proof.
  unfold riskMessages. cbv zeta. by rewrite !List.filter_app, !warnings_not_blocked.
Qed.

(** The blockers of a statement are those of its verdict. *)
Lemma blockers_verdict statement :
  let blockers := List.filter is_blocked (preflightMessages props policyPreviews statement) in
  match verdict statement with
  | Incomplete => existsb (fun m => negb (eligible m)) blockers = true
  | Refused reviewable => exists m, blockers = [m] /\ eligible m = reviewable
  | Cleared => blockers = []
  end.
Proof.
  unfold preflightMessages, verdict. cbv zeta. rewrite List.filter_app.
  destruct (find_first _ (connections props)); simpl; [|done].
  destruct (str_eq (trim (sql statement)) ""); simpl; [done|].
  destruct (serverPolicyFor policyPreviews statement) as [preview|]; simpl.
  - destruct (preview_message preview) as [m|]; simpl; [|apply riskMessages_not_blocked].
    eexists. split; [done|]. unfold eligible. simpl.
    by destruct (preview_reviewable preview).
  - destruct (test MULTIPLE_STATEMENTS_PATTERN _); simpl; [done|].
    destruct (sqlStatementPolicyMessage _ _) as [m|]; simpl; [|apply riskMessages_not_blocked].
    eexists. split; [done|]. unfold eligible. simpl. by destruct (str_eq m _).
Qed.

(** Every blocker of a statement can be reviewed: the policy admits it or its refusal is
    reviewable, and only the latter has blockers. *)
Lemma blockers_eligible statement :
  let blockers := List.filter is_blocked (preflightMessages props policyPreviews statement) in
  (forallb eligible blockers = true <->
   verdict statement = Refused true \/ verdict statement = Cleared) /\
  (forallb eligible blockers = true -> blockers <> [] <-> verdict statement = Refused true).
Proof.
  intros blockers. pose proof (blockers_verdict statement) as Hv. cbv zeta in Hv.
  fold blockers in Hv. destruct (verdict statement) as [|r|].
  - apply existsb_exists_elem in Hv as (m & Hm & Hne).
    assert (Hf : forallb eligible blockers <> true).
    { rewrite forallb_forall_elem. intros H. by rewrite (H m Hm) in Hne. }
    split; naive_solver.
  - destruct Hv as (m & -> & <-). simpl. rewrite andb_true_r. destruct (eligible m); naive_solver.
  - rewrite Hv. naive_solver.
Qed.

Lemma deploymentPreflightPreview_messages s :
  map snd (deploymentPreflightPreview props policyPreviews s) =
  map (preflightMessages props policyPreviews) (statements s).
Proof.
  unfold deploymentPreflightPreview. change (@map) with (@fmap list list_fmap).
  rewrite fmap_imap. generalize (statements s). intros l. 
  induction l as [|x l IH] using rev_ind; [done|].
  rewrite imap_app, fmap_app, IH. done.
Qed.

Definition blockers (s : State) : list PreflightMessage :=
  flat_map (fun statement =>
    List.filter is_blocked (preflightMessages props policyPreviews statement)) (statements s).

Lemma canRequestPolicyReview_blockers s :
  canRequestPolicyReview props policyPreviews s =
  (0 <? length (blockers s))%nat && forallb eligible (blockers s).
Proof.
  unfold canRequestPolicyReview.
  rewrite <- (flat_map_map (List.filter is_blocked) snd), deploymentPreflightPreview_messages.
  by rewrite flat_map_map.
Qed.
End verdict.

(** C14.  An SQL policy review can be requested exactly when some statement is refused by the
    policy, every refusal can be reviewed, and no statement is incomplete (without a target,
    without SQL, or with several statements in one slot). *)
Theorem canRequestPolicyReview_iff props policyPreviews s :
  canRequestPolicyReview props policyPreviews s = true <->
  (exists statement, statement ∈ statements s /\
     verdict props policyPreviews statement = Refused true) /\
  (forall statement, statement ∈ statements s ->
     verdict props policyPreviews statement = Refused true \/
     verdict props policyPreviews statement = Cleared).
Proof.
  rewrite canRequestPolicyReview_blockers, andb_true_iff, Nat.ltb_lt. unfold blockers.
  set (blk := fun st => List.filter is_blocked (preflightMessages props policyPreviews st)).
  assert (Hall : forallb eligible (flat_map blk (statements s)) = true <->
    (forall st, st ∈ statements s -> forallb eligible (blk st) = true)) by apply forallb_flat_map.
  assert (Hsome : (0 < length (flat_map blk (statements s)))%nat <->
    (exists st, st ∈ statements s /\ blk st <> [])) by apply flat_map_nonempty.
  rewrite Hall, Hsome. unfold blk.
  pose proof (fun st => proj1 (blockers_eligible props policyPreviews st)) as H1.
  pose proof (fun st => proj2 (blockers_eligible props policyPreviews st)) as H2.
  cbv zeta in H1, H2. split.
  - intros [(st & Hst & Hne) He]. split; [exists st; split; [done|by apply H2; auto]|].
    intros st' Hst'. by apply H1, He.
  - intros [(st & Hst & Hr) Hv]. split.
    + exists st. split; [done|]. apply H2; [apply H1; by left|done].
    + intros st' Hst'. by apply H1, Hv.
Qed.
