(* ===== verification/RequestFormView.v ===== *)
(** * The page of a query request

    [resources/js/pages/query-requests/create.tsx], lines 699-1771: what the page renders in a
    state of [RequestForm], and the theorems that join the two: which requests the form can post,
    and which states its controls can reach.

    The routes are generated code (parameters), as is the formatting of numbers for the locale.
    [processing] and [errors] come from Inertia's form. *)

From Stdlib Require Import String.
From S2P Require Import Prelude Lists JsString JsRegExp JsDate Timezone SqlPolicy CrucibleLib.
From S2P Require Import View SqlEditor PolicyPreview ConnectionCombobox RequestForm.

Open Scope Z_scope.
Open Scope string_scope.
Open Scope list_scope.

Record Routes := {
  store_form : string;
  update_form : Z -> string;
  show_url : Z -> string;
  index_url : string;
}.

Section page.
Context (tz_offset : string -> Z -> Z) (format : string -> string -> option string).
Context (to_locale : Z -> string) (routes : Routes).
Context (props : Props).

Implicit Types (s : State) (errors : list (string * string)).

Definition as_option (connection : Connection) : ConnectionOption := {|
  option_id := connection_id connection;
  option_name := connection_name connection;
  option_driver := driver connection;
  option_host := None; option_port := None; option_database := None |}.

Definition pageTitle : node State :=
  El (Tag "Head") [Attr "title" (if isEditing props then "Edit query request" else "New query request")] [].

Definition pageHeader : node State :=
  PageHeader (if isEditing props then "Edit Query Request" else "New Query Request")
    (Some
      (if isEditing props then
         if isDraft props then "Refine this draft, then submit it when preflight is ready."
         else "Revise the deployment batch and send the complete request back for approval."
       else if is_some (copy_source props) then
         "Review the copied scope, make any changes, then save or submit it as a new request."
       else "Prepare a governed deployment batch or request time-boxed query access.")) [].

Definition copySourceNotice : list (node State) :=
  match copy_source props with
  | None => []
  | Some copySource =>
      [El (Tag "section") [Attr "aria-labelledby" "copy-source-title"]
         [elem "div"
            ([El (Tag "h2") [Attr "id" "copy-source-title"]
                [Txt ("Based on Request #" ++ str_of_Z (copy_id copySource) ++ ": " ++
                      copy_title copySource)%string];
              elem "p" [Txt "Approval, schedule, preflight, execution, and cancellation history were not copied. Current permissions and approval policy apply when this request is submitted."]] ++
             when (0 <? length (unavailable_targets copySource))%nat
               [El (Tag "div") [Attr "role" "alert"]
                  [elem "p"
                     [Txt ("Replace the unavailable " ++
                           (if (length (unavailable_targets copySource) =? 1)%nat
                            then "target" else "targets") ++
                           " before submitting: " ++
                           join ", " (map snd (unavailable_targets copySource)) ++ ".")%string]]])]]
  end.

Definition approvalNotice : list (node State) :=
  when ((was_approved <$> query_request props) ?? false)
    [elem "div"
       [elem "div"
          [elem "p" [Txt "Saving will invalidate the current approval."];
           elem "p" [Txt "The updated SQL cannot be executed until a reviewer approves this request again."]]]].

(** Lines 785-801 *)
Definition hiddenFields s : list (node State) :=
  [El TInput [Attr "type" "hidden"; Attr "name" "request_kind";
              Attr "value" (request_kind_text (requestKind s))] [];
   El TInput [Attr "type" "hidden"; Attr "name" "access_transport";
              Attr "value" (transport_text (accessTransport s))] []] ++
  match copy_source props with
  | None => []
  | Some copySource =>
      [El TInput [Attr "type" "hidden"; Attr "name" "copied_from_id";
                  Attr "value" (str_of_Z (copy_id copySource))] []]
  end.

(** Lines 813-858 *)
Definition titleAndDescription s errors : node State :=
  elem "div"
    [elem "div"
       ([El (Tag "label") [Attr "for" "title"] [Txt "Ticket / request title"];
         El TInput [Attr "id" "title"; Attr "name" "title";
                    Attr "defaultValue" ((title <$> formValues props) ?? "");
                    Attr "placeholder" "DEP-1234: customer data migration";
                    Flag "autoFocus" (negb (isEditing props))] []] ++
        InputError (error_of errors "title"));
     elem "div"
       ([El (Tag "label") [Attr "for" "description"]
           [Txt (match requestKind s with
                 | SingleExecution => "Deployment notes (optional)"
                 | QueryAccess => "Access purpose (optional)"
                 end)];
         El TTextarea [Attr "id" "description"; Attr "name" "description"; Attr "rows" "4";
                       Attr "defaultValue" ((formValues props ≫= description) ?? "");
                       Attr "placeholder"
                         (match requestKind s with
                          | SingleExecution => "Purpose, expected impact, and rollback context"
                          | QueryAccess => "Why access is needed and what you plan to investigate"
                          end)] []] ++
        InputError (error_of errors "description"))].

(** A choice of the workflow: its radio button, name and explanation. *)
Definition workflowOption (value : string) (checked : bool) (kind : QueryRequestKind)
    (transport : AccessTransport) (name explanation : string) : node State :=
  elem "label"
    [El TInput [Attr "type" "radio"; Attr "name" "request_workflow"; Attr "value" value;
                Flag "checked" checked; on_select (selectWorkflow kind transport)] [];
     elem "span" [elem "span" [Txt name]; elem "span" [Txt explanation]]].

(** Lines 860-982 *)
Definition workflowChoice s errors : node State :=
  elem "div"
    ([El (Tag "label") [Attr "for" "request_kind"] [Txt "Workflow"];
      elem "div"
        ([workflowOption "single_execution" (bool_decide (requestKind s = SingleExecution))
            SingleExecution Browser "Deployment Batch"
            "Run one or more SQL statements in order as one approved request."] ++
         when (canUseQueryAccess props)
           [workflowOption "query_access"
              (bool_decide (requestKind s = QueryAccess) &&
               bool_decide (accessTransport s = Browser))
              QueryAccess Browser "Query Access"
              "Request a time-boxed browser session without SQL upfront."] ++
         when (canUseNativeClientAccess props)
           [workflowOption "native_proxy" (isNativeClientAccess s)
              QueryAccess NativeProxy "Native Client Access"
              "Use an approved database client through the Crucible CLI."])] ++
     InputError (error_of errors "request_kind")).

(** Lines 990-1092 *)
Definition sessionConnections s errors : list (node State) :=
  (if isNativeClientAccess s then
     ConnectionCombobox (map as_option (nativeEligibleConnections props))
       (Some "Choose one approved target. SQL is executed later from your database client after this access request is approved.")
       (error_of errors "database_connection_ids") (Some "Native client connection")
       (Some "database_connection_ids[]") (selectNativeConnection props)
       (head (selectedConnectionIds s) ?? "")
   else
     ConnectionMultiCombobox (map as_option (queryAccessEligibleConnections props))
       (Some "Choose every database that this time-boxed session may access. The requested access level must be available on every selected target.")
       (error_of errors "database_connection_ids") (Some "Session connections") None
       (selectSessionConnections props) (selectedConnectionIds s)) ++
  when (isNativeClientAccess s && (length (nativeEligibleConnections props) =? 0)%nat)
    [elem "p" [Txt "No active connection is available for your Native Client Access policy."]].

(** Lines 1093-1202 *)
Definition accessLevel s errors : node State :=
  elem "div"
    ([elem "div"
        [elem "label" [Txt "Session access level"];
         elem "p" [Txt "This limit is enforced on every SQL query for the full session."]];
      elem "div"
        [elem "label"
           [El TInput [Attr "type" "radio"; Attr "name" "requested_access_mode"; Attr "value" "read";
                       Flag "checked" (bool_decide (requestedAccessMode s = ReadQuery));
                       on_select (setRequestedAccessMode ReadQuery)] [];
            elem "span" [elem "span" [Txt "Read-only"];
                         elem "span" [Txt "SELECT queries only. Best for routine investigation."]]];
         elem "label"
           [El TInput [Attr "type" "radio"; Attr "name" "requested_access_mode"; Attr "value" "write";
                       Flag "checked" (bool_decide (requestedAccessMode s = WriteQuery));
                       on_select (setRequestedAccessMode WriteQuery);
                       Flag "disabled" (negb (canRequestWriteSession props s))] [];
            elem "span" [elem "span" [Txt "Read + write"];
                         elem "span" [Txt "Allows DML and DDL, subject to approval and the session timer."]]]]] ++
     when (negb (canRequestWriteSession props s) && (0 <? length (selectedConnectionIds s))%nat)
       [elem "p" [Txt ("Read + write is unavailable because the selected connection only permits read-only " ++
                       (if isNativeClientAccess s then "Native Client Access." else "Query Access."))%string]] ++
     when (0 <? length (selectedConnectionIds s))%nat
       [elem "p" [Txt (if sessionRequiresApproval props s
                       then "This selection needs approval before the session can start."
                       else "This selection can start without review when submitted.")]] ++
     InputError (error_of errors "requested_access_mode")).

(** Lines 984-1204 *)
Definition accessScope s errors : list (node State) :=
  when (bool_decide (requestKind s = QueryAccess) &&
        ((isNativeClientAccess s && canUseNativeClientAccess props) ||
         (negb (isNativeClientAccess s) && canUseQueryAccess props)))
    [elem "div" (sessionConnections s errors ++ [accessLevel s errors])].

(** Lines 802-1206 *)
Definition requestDetails s errors : node State :=
  elem "section"
    [elem "div" [elem "h2" [Txt "Request details"];
                 elem "p" [Txt "Start with the operational context, then choose how the work should run."]];
     elem "div"
       ([titleAndDescription s errors; workflowChoice s errors] ++ accessScope s errors)].

(** Lines 1230-1309 *)
Definition preflightPreview (previews : list PolicyPreview) s : node State :=
  elem "section"
    [elem "div"
       [elem "div" [elem "h3" [Txt "Preflight preview"];
                    elem "p" [Txt "SQL and common-risk checks update as you prepare the batch. Policy and target checks run again when you submit and execute."]]];
     elem "div"
       (map (fun statement =>
          El (Tag "div") [Attr "key" (str_of_nat (fst statement))]
            [elem "span" [Txt ("Statement " ++ str_of_nat (fst statement))%string];
             match snd statement with
             | [] => elem "span" [Txt "Ready for server checks"]
             | messages =>
                 elem "ul"
                   (map (fun m =>
                      El (Tag "li") [Attr "key" (message m);
                                     Attr "tone" (match level m with Blocked => "red" | Warning => "amber" end)]
                        [Txt (message m)]) messages)
             end])
          (deploymentPreflightPreview props previews s))].

Definition statement_field (index : nat) (field : string) : string :=
  ("statements[" ++ str_of_nat index ++ "][" ++ field ++ "]")%string.

(** Lines 1318-1396: the head of a statement and its buttons *)
Definition statementHead s (index : nat) : node State :=
  elem "div"
    [elem "div" [elem "span" [Txt (str_of_nat (index + 1))];
                 elem "span" [Txt ("Statement " ++ str_of_nat (index + 1))%string]];
     elem "div"
       [El TButton [Attr "type" "button"; Attr "aria-label" "Move statement up";
                    Flag "disabled" (index =? 0)%nat; on_click (moveStatement index Up)] [];
        El TButton [Attr "type" "button"; Attr "aria-label" "Move statement down";
                    Flag "disabled" (index =? length (statements s) - 1)%nat;
                    on_click (moveStatement index Down)] [];
        El TButton [Attr "type" "button";
                    on_click (fun current => formatStatement format props index current ?? current)]
          [Txt "Format"];
        El TButton [Attr "type" "button"; Attr "aria-label" "Remove statement";
                    Flag "disabled" (length (statements s) =? 1)%nat;
                    on_click (removeStatement index)] []]].

(** Lines 1428-1451 *)
Definition statementEditor s (index : nat) (statement : StatementDraft) : EditorProps State := {|
  SqlEditor.value := sql statement;
  onChange := updateStatement index;
  SqlEditor.driver :=
    driver <$> find_first (has_id (databaseConnectionId statement)) (connections props);
  SqlEditor.tables := [];
  height := None;
  minHeight := Some "13rem";
  readOnly := false;
  placeholder := Some ("-- Statement " ++ str_of_nat (index + 1) ++
                       String "010" "SELECT * FROM table_name")%string;
  autoFocus := bool_decide (focusedStatementKey s = Some (key statement));
  onEditorReady := None;
  onSelectionChange := None;
  onRunShortcut := None |}.

(** Lines 1312-1467 *)
Definition statementSection s errors (index : nat) (statement : StatementDraft) : node State :=
  El (Tag "section") [Attr "data-statement-key" (key statement)]
    [statementHead s index;
     El TInput [Attr "type" "hidden"; Attr "name" (statement_field index "sql");
                Attr "value" (sql statement)] [];
     elem "div"
       (ConnectionCombobox (map as_option (connections props))
          (Some "This statement runs on the selected target.")
          (error_of errors ("statements." ++ str_of_nat index ++ ".database_connection_id")%string)
          (Some "Target connection") (Some (statement_field index "database_connection_id"))
          (updateStatementConnection index) (databaseConnectionId statement));
     SqlEditor (statementEditor s index statement);
     elem "div"
       ([elem "p" [Txt (to_locale (Z.of_nat (String.length (sql statement))) ++ " / " ++
                        to_locale MAX_SQL_STATEMENT_LENGTH ++ " characters")%string]] ++
        InputError (error_of errors ("statements." ++ str_of_nat index ++ ".sql")%string))].

(** Lines 1310-1491: a statement, and the button that adds one below it *)
Definition statementCard s errors (index : nat) (statement : StatementDraft) : list (node State) :=
  [statementSection s errors index statement] ++
  when (length (statements s) <? 50)%nat
    [elem "div"
       [El (Tag "div") [Attr "aria-hidden" "true"] [];
        El TButton [Attr "type" "button";
                    On "click" (fun now _ => insertStatementAfter props now index)]
          [Txt "Add below"]]].

(** Lines 1209-1493 *)
Definition orderedStatements (previews : list PolicyPreview) s errors : node State :=
  elem "section"
    [elem "div"
       [elem "div"
          [elem "div" [elem "h2" [Txt "Ordered statements"];
                       elem "p" [Txt "Statements run top to bottom. Execution stops at the first failure. Add the DELETE and INSERT as separate statements."]]]];
     elem "div"
       (InputError (error_of errors "statements") ++ [preflightPreview previews s] ++
        concat (imap (statementCard s errors) (statements s)))].

(** Lines 1495-1551 *)
Definition accessWindow s errors : node State :=
  let limit :=
    match requestedAccessMode s with
    | WriteQuery => writeSessionMaximumMinutes props s
    | ReadQuery => None
    end in
  elem "section"
    [elem "div"
       [elem "h2" [Txt "Access window"];
        elem "p" [Txt ("Set how long the approved " ++
                       (if isNativeClientAccess s then "native client" else "browser") ++
                       " session remains available.")%string]];
     elem "div"
       [elem "div"
          ([elem "div" [El (Tag "label") [Attr "for" "access_duration_minutes"] [Txt "Access Duration"]];
            El TInput [Attr "id" "access_duration_minutes"; Attr "name" "access_duration_minutes";
                       Attr "type" "number"; Attr "min" "5";
                       Attr "max" (str_of_Z (limit ?? 1440));
                       Attr "defaultValue"
                         (str_of_Z ((formValues props ≫= access_duration_minutes) ?? 60));
                       Flag "required" true] [];
            elem "p"
              [Txt (match limit with
                    | Some m => "Minutes. The selected write policy limits this session to " ++
                                str_of_Z m ++ " minutes."
                    | None => "Minutes. Approved sessions can run queries until this timer expires."
                    end)%string]] ++
           InputError (error_of errors "access_duration_minutes"))]].

(** Lines 1554-1638; [scheduledAtIso] is the value of the hidden field. *)
Definition executionPlan s errors (scheduledAtIso : string) : list (node State) :=
  when (bool_decide (requestKind s = SingleExecution))
    [elem "section"
       [elem "div" [elem "h2" [Txt "Execution plan"];
                    elem "p" [Txt "Choose whether the approved batch runs immediately or at a planned time."]];
        elem "div"
          [elem "div" [elem "h3" [Txt "Schedule execution"];
                       elem "p" [Txt "Unscheduled batches are ready to execute after approval."]];
           elem "div"
             ([elem "label"
                 [El TInput [Attr "type" "checkbox"; Attr "name" "schedule_query"; Attr "value" "1";
                             Flag "checked" (scheduleQuery s); on_toggle setScheduleQuery] [];
                  Txt "Schedule after approval"]] ++
              when (scheduleQuery s)
                [elem "div"
                   [El (Tag "label") [Attr "for" "scheduled_at"] [Txt "Scheduled time"];
                    El TInput [Attr "id" "scheduled_at"; Attr "type" "datetime-local";
                               Attr "value" (scheduledAtLocal s); on_change setScheduledAtLocal;
                               Flag "required" true] [];
                    El TInput [Attr "type" "hidden"; Attr "name" "scheduled_at";
                               Attr "value" scheduledAtIso] [];
                    elem "p" [Txt "Interpreted in "; elem "span" [Txt (userTimezone props)]; Txt "."]]] ++
              InputError (error_of errors "scheduled_at"))]]].

(** Lines 1671-1740 *)
Definition formButtons (previews : list PolicyPreview) s (processing : bool) : node State :=
  let draftable := bool_decide (requestKind s = SingleExecution) &&
                   (negb (isEditing props) || isDraft props) in
  elem "div"
    ([El (Tag "Link")
        [Attr "type" "button";
         Attr "href" (match query_request props, copy_source props with
                      | Some request, _ => show_url routes (request_id request)
                      | None, Some copySource => show_url routes (copy_id copySource)
                      | None, None => index_url routes
                      end)] [Txt "Cancel"]] ++
     when draftable
       [El TButton [Attr "name" "intent"; Attr "value" "draft"; Flag "disabled" processing]
          [Txt "Save draft"]] ++
     when (draftable && canRequestPolicyReview props previews s)
       [El TButton [Attr "name" "intent"; Attr "value" "policy_review"; Flag "disabled" processing]
          [Txt "Request SQL policy review"]] ++
     [El TButton [Attr "name" "intent"; Attr "value" "submit";
                  Flag "disabled" (processing || canRequestPolicyReview props previews s)]
        [Txt (if processing then "Saving..."
              else if isDraft props then "Submit for review"
              else if isEditing props && ((was_approved <$> query_request props) ?? false)
              then "Save & request review"
              else if isEditing props then "Save changes"
              else "Submit request")]]).

(** Lines 1640-1764 *)
Definition reviewAndSubmit (previews : list PolicyPreview) s (processing : bool) errors : node State :=
  elem "section"
    ([elem "div" [elem "h2" [Txt "Review and submit"];
                  elem "p" [Txt "Review is determined from the access policy for every selected target."]];
      elem "div"
        [elem "div"
           [match requestKind s with
            | SingleExecution =>
                elem "p"
                  [Txt (str_of_nat (length (statements s)) ++ " " ++
                        (if (length (statements s) =? 1)%nat then "ordered statement"
                         else "ordered statements") ++ " will run in sequence." ++
                        (if scheduleQuery s then " The batch is scheduled after approval."
                         else " The batch is ready after approval."))%string]
            | QueryAccess =>
                elem "p"
                  [Txt (if isNativeClientAccess s then
                          "One selected target will be available from an approved native database client after review."
                        else str_of_nat (length (selectedConnectionIds s)) ++ " " ++
                          (if (length (selectedConnectionIds s) =? 1)%nat then "connection is"
                           else "connections are") ++ " included in this time-boxed session.")%string]
            end];
         formButtons previews s processing]] ++
     map (fun e => El (Tag "p") [Attr "key" (fst e); Attr "role" "alert"] [Txt (snd e)])
       (List.filter (fun e => startsWith (fst e) "statements.") errors) ++
     when (canRequestPolicyReview props previews s)
       [elem "p" [Txt "This batch cannot enter approval yet. Request SQL policy review to save it as a draft and notify administrators. If allowed, review the refreshed preflight and submit the draft explicitly."]]).

(** Lines 778-1767 *)
Definition requestForm (previews : list PolicyPreview) s (processing : bool) errors
    (scheduledAtIso : string) : node State :=
  El (Tag "Form")
    [Attr "action" (match query_request props with
                    | Some request => update_form routes (request_id request)
                    | None => store_form routes
                    end)]
    (hiddenFields s ++ [requestDetails s errors] ++
     [match requestKind s with
      | SingleExecution => orderedStatements previews s errors
      | QueryAccess => accessWindow s errors
      end] ++
     executionPlan s errors scheduledAtIso ++
     [reviewAndSubmit previews s processing errors]).

(** The value of the hidden field [scheduled_at] (lines 1614-1621); [None] when it throws. *)
Definition scheduledAtIso s : option string :=
  if bool_decide (requestKind s = SingleExecution) && scheduleQuery s && truthy (scheduledAtLocal s)
  then zonedDateTimeLocalToIso tz_offset (scheduledAtLocal s) (userTimezone props)
  else Some "".

(** Lines 699-1771: the page; [None] when rendering throws. *)
Definition QueryRequestCreate (previews : list PolicyPreview) s (processing : bool) errors
    : option (node State) :=
  iso ← scheduledAtIso s;
  Some (elem "Fragment"
    [pageTitle;
     elem "div"
       ([pageHeader] ++ copySourceNotice ++ approvalNotice ++
        [requestForm previews s processing errors iso])]).
End page.

(** ** The payload of the form *)

Section payload.
Context (tz_offset : string -> Z -> Z) (format : string -> string -> option string).
Context (to_locale : Z -> string) (routes : Routes) (props : Props).
Context (typed : string -> option string) (submitter : option (string * string)).
Implicit Types (s : State) (errors : list (string * string)).

Notation entries := (entries typed submitter).

Lemma workflowOption_entries value checked kind transport name explanation :
  entries (workflowOption value checked kind transport name explanation) =
  when checked [("request_workflow", value)].
Proof. by destruct checked. Qed.

Lemma hiddenFields_entries s :
  flat_map entries (hiddenFields props s) =
  [("request_kind", request_kind_text (requestKind s));
   ("access_transport", transport_text (accessTransport s))] ++
  match copy_source props with
  | None => []
  | Some copySource => [("copied_from_id", str_of_Z (copy_id copySource))]
  end.
Proof. unfold hiddenFields. by destruct (copy_source props). Qed.

Lemma titleAndDescription_entries s errors :
  entries (titleAndDescription props s errors) =
  [("title", typed "title" ?? ((title <$> formValues props) ?? ""));
   ("description", typed "description" ?? ((formValues props ≫= description) ?? ""))].
Proof.
  unfold titleAndDescription. cbn -[InputError]. by rewrite !entries_InputError.
Qed.

Lemma workflowChoice_entries s errors e :
  e ∈ entries (workflowChoice props s errors) -> fst e = "request_workflow".
Proof.
  unfold workflowChoice. cbn -[InputError workflowOption].
  rewrite !flat_map_app, !entries_when, entries_InputError. cbn -[workflowOption].
  rewrite !workflowOption_entries, !app_nil_r. intros H.
  repeat (rewrite elem_of_app in H; destruct H as [H|H]);
    repeat match type of H with context [when ?b _] => destruct b; simpl in H end;
    first [by apply elem_of_nil in H|by apply list_elem_of_singleton in H as ->].
Qed.

Lemma sessionConnections_entries s errors :
  flat_map entries (sessionConnections props s errors) =
  map (pair "database_connection_ids[]")
    (if isNativeClientAccess s then [head (selectedConnectionIds s) ?? ""]
     else selectedConnectionIds s).
Proof.
  unfold sessionConnections. rewrite flat_map_app, entries_when.
  replace (when _ (flat_map entries _)) with (@nil (string * string)) by (by destruct (_ && _)).
  rewrite app_nil_r. destruct (isNativeClientAccess s).
  - by rewrite ConnectionCombobox_entries.
  - by rewrite ConnectionMultiCombobox_entries.
Qed.

Lemma accessLevel_entries s errors :
  entries (accessLevel props s errors) =
  match requestedAccessMode s with
  | ReadQuery => [("requested_access_mode", "read")]
  | WriteQuery => when (canRequestWriteSession props s) [("requested_access_mode", "write")]
  end.
Proof.
  unfold accessLevel. rewrite entries_elem, !flat_map_app, !entries_when, entries_InputError.
  set (b1 := _ && _). set (b2 := (0 <? _)%nat). clearbody b1 b2.
  cbn -[canRequestWriteSession].
  destruct b1, b2, (requestedAccessMode s), (canRequestWriteSession props s); reflexivity.
Qed.

(** The choice of connections and access level is on the page. *)
Definition scopeShown s : bool :=
  bool_decide (requestKind s = QueryAccess) &&
  ((isNativeClientAccess s && canUseNativeClientAccess props) ||
   (negb (isNativeClientAccess s) && canUseQueryAccess props)).

Lemma accessScope_entries s errors :
  flat_map entries (accessScope props s errors) =
  when (scopeShown s)
    (map (pair "database_connection_ids[]")
       (if isNativeClientAccess s then [head (selectedConnectionIds s) ?? ""]
        else selectedConnectionIds s) ++
     match requestedAccessMode s with
     | ReadQuery => [("requested_access_mode", "read")]
     | WriteQuery => when (canRequestWriteSession props s) [("requested_access_mode", "write")]
     end).
Proof.
  unfold accessScope, scopeShown. rewrite entries_when. f_equal.
  cbn [flat_map]. rewrite app_nil_r, entries_elem, flat_map_app, sessionConnections_entries.
  cbn [flat_map]. by rewrite app_nil_r, accessLevel_entries.
Qed.

Lemma statement_field_truthy index field : truthy (statement_field index field) = true.
Proof. done. Qed.

Lemma statementHead_entries s index : entries (statementHead format props s index) = [].
Proof.
  unfold statementHead. cbn -[Nat.eqb].
  by destruct (index =? 0)%nat, (index =? length (statements s) - 1)%nat,
    (length (statements s) =? 1)%nat.
Qed.

Lemma statementCard_entries s errors index statement :
  flat_map entries (statementCard format to_locale props s errors index statement) =
  [(statement_field index "sql", sql statement);
   (statement_field index "database_connection_id", databaseConnectionId statement)].
Proof.
  unfold statementCard. rewrite flat_map_app, entries_when.
  replace (when _ (flat_map entries _)) with (@nil (string * string)) by (by destruct (_ <? _)%nat).
  rewrite app_nil_r. cbn [flat_map]. rewrite app_nil_r. unfold statementSection.
  cbn [View.entries flat_map]. rewrite !entries_elem, flat_map_app, entries_InputError.
  rewrite ConnectionCombobox_entries by done. rewrite statementHead_entries. done.
Qed.

Definition statement_entries (index : nat) (statement : StatementDraft) : list (string * string) :=
  [(statement_field index "sql", sql statement);
   (statement_field index "database_connection_id", databaseConnectionId statement)].

Lemma preflightPreview_entries previews s : entries (preflightPreview props previews s) = [].
Proof.
  unfold preflightPreview. cbn -[deploymentPreflightPreview]. rewrite app_nil_r, flat_map_map.
  apply flat_map_nil_all. intros [n [|m ms]]; [done|]. cbn. rewrite app_nil_r, flat_map_map.
  by apply flat_map_nil_all.
Qed.

Lemma orderedStatements_entries previews s errors :
  entries (orderedStatements format to_locale props previews s errors) =
  concat (imap statement_entries (statements s)).
Proof.
  unfold orderedStatements. cbn [entries elem own_entries flag attr flat_map View.entries].
  cbn -[preflightPreview statementCard InputError].
  rewrite !flat_map_app, entries_InputError, app_nil_r. cbn -[preflightPreview statementCard].
  rewrite preflightPreview_entries. simpl.
  rewrite flat_map_concat_imap. f_equal. apply imap_ext. intros i st _.
  apply statementCard_entries.
Qed.

Lemma accessWindow_entries s errors :
  entries (accessWindow props s errors) =
  [("access_duration_minutes", typed "access_duration_minutes" ??
    str_of_Z ((formValues props ≫= access_duration_minutes) ?? 60))].
Proof.
  unfold accessWindow. cbn -[InputError writeSessionMaximumMinutes].
  by rewrite entries_InputError.
Qed.

Lemma executionPlan_entries s errors iso :
  flat_map entries (executionPlan props s errors iso) =
  when (bool_decide (requestKind s = SingleExecution) && scheduleQuery s)
    [("schedule_query", "1"); ("scheduled_at", iso)].
Proof.
  unfold executionPlan. rewrite entries_when. destruct (bool_decide _); [|done].
  cbn -[InputError]. destruct (scheduleQuery s); cbn -[InputError]; by rewrite entries_InputError.
Qed.

Definition intentEntries (value : string) (disabled : bool) : list (string * string) :=
  when (negb disabled && bool_decide (submitter = Some ("intent", value))) [("intent", value)].

Lemma intentButton_entries value disabled ks :
  own_entries typed submitter TButton
    [Attr (S := State) "name" "intent"; Attr "value" value; Flag "disabled" disabled] ks =
  intentEntries value disabled.
Proof. by destruct disabled. Qed.

Lemma elem_of_intentButton e value disabled :
  e ∈ intentEntries value disabled -> fst e = "intent" /\ submitter = Some e.
Proof.
  unfold intentEntries. destruct disabled; simpl; [by intros H%elem_of_nil|].
  case_bool_decide; simpl; [|by intros H'%elem_of_nil]. by intros ->%list_elem_of_singleton.
Qed.

Lemma reviewAndSubmit_entries previews s processing errors e :
  e ∈ entries (reviewAndSubmit routes props previews s processing errors) ->
  fst e = "intent" /\ submitter = Some e.
Proof.
  unfold reviewAndSubmit. rewrite entries_elem, !flat_map_app, flat_map_map.
  rewrite (flat_map_nil_all _ (List.filter _ _)) by done.
  rewrite entries_when. replace (when _ (flat_map entries _)) with (@nil (string * string))
    by (by destruct (canRequestPolicyReview props previews s)).
  rewrite app_nil_r. cbn -[formButtons].
  replace (entries (match requestKind s with SingleExecution => _ | _ => _ end))
    with (@nil (string * string)) by (by destruct (requestKind s)).
  rewrite !app_nil_r. cbn [app]. unfold formButtons. rewrite entries_elem, !flat_map_app, !entries_when.
  cbn [flat_map View.entries]. rewrite !app_nil_r.
  generalize (canRequestPolicyReview props previews s) as c.
  generalize (bool_decide (requestKind s = SingleExecution) && (negb (isEditing props) || isDraft props)) as d.
  intros d c. rewrite !intentButton_entries.
  rewrite !elem_of_app. intros [H|[H|[H|H]]]; [by apply elem_of_nil in H| | |].
  - destruct d; [|by apply elem_of_nil in H]. by apply elem_of_intentButton in H.
  - destruct (d && c); [|by apply elem_of_nil in H]. by apply elem_of_intentButton in H.
  - by apply elem_of_intentButton in H.
Qed.

(** The form's entries, section by section. *)
Lemma requestForm_entries previews s processing errors iso :
  exists workflow intent,
  entries (requestForm format to_locale routes props previews s processing errors iso) =
    flat_map entries (hiddenFields props s) ++
    entries (titleAndDescription props s errors) ++ workflow ++
    flat_map entries (accessScope props s errors) ++
    match requestKind s with
    | SingleExecution => concat (imap statement_entries (statements s))
    | QueryAccess => entries (accessWindow props s errors)
    end ++
    flat_map entries (executionPlan props s errors iso) ++ intent /\
  Forall (fun e => fst e = "request_workflow") workflow /\
  Forall (fun e => fst e = "intent" /\ submitter = Some e) intent.
Proof.
  exists (entries (workflowChoice props s errors)),
    (entries (reviewAndSubmit routes props previews s processing errors)).
  split_and!.
  - unfold requestForm. rewrite entries_Tag, !flat_map_app. cbn [flat_map].
    unfold requestDetails at 1. rewrite entries_elem. cbn [flat_map].
    rewrite entries_elem, (entries_elem _ _ "div" (_ ++ _)), flat_map_app. cbn [flat_map].
    rewrite !app_nil_r. replace (entries (match requestKind s with
      | SingleExecution => orderedStatements format to_locale props previews s errors
      | QueryAccess => accessWindow props s errors end)) with
      (match requestKind s with
       | SingleExecution => concat (imap statement_entries (statements s))
       | QueryAccess => entries (accessWindow props s errors) end)
      by (destruct (requestKind s); [by rewrite orderedStatements_entries|done]).
    by rewrite <- !app_assoc.
  - apply Forall_forall. intros e. apply workflowChoice_entries.
  - apply Forall_forall. intros e. apply reviewAndSubmit_entries.
Qed.

Lemma statement_field_inj i j f g : statement_field i f = statement_field j g -> i = j /\ f = g.
Proof. apply (indexed_field_inj "statements"). Qed.

(** A field of a statement is posted once, with the value of that statement. *)
Lemma posted_statements field value (l : list StatementDraft) i :
  (forall j st, posted (statement_entries j st) (statement_field i field) =
     if decide (j = i) then [value st] else []) ->
  posted (concat (imap statement_entries l)) (statement_field i field) =
  match l !! i with Some st => [value st] | None => [] end.
Proof.
  intros Hp. rewrite (posted_at _ _ i).
  - destruct (l !! i); [|done]. by rewrite Hp, decide_True.
  - intros j st Hj _. by rewrite Hp, decide_False.
Qed.

Lemma statement_entries_sql i j st :
  posted (statement_entries j st) (statement_field i "sql") =
  if decide (j = i) then [sql st] else [].
Proof.
  unfold posted, statement_entries. cbn [flat_map fst snd].
  case_decide as Hij.
  - subst j. rewrite str_eq_refl. rewrite (proj2 (str_eq_false _ _)); [done|].
    by intros [_ H]%statement_field_inj.
  - by rewrite !(proj2 (str_eq_false _ _)) by (intros [H _]%statement_field_inj; done).
Qed.

Lemma statement_entries_connection i j st :
  posted (statement_entries j st) (statement_field i "database_connection_id") =
  if decide (j = i) then [databaseConnectionId st] else [].
Proof.
  unfold posted, statement_entries. cbn [flat_map fst snd].
  case_decide as Hij.
  - subst j. rewrite str_eq_refl. rewrite (proj2 (str_eq_false _ _)); [done|].
    by intros [_ H]%statement_field_inj.
  - by rewrite !(proj2 (str_eq_false _ _)) by (intros [H _]%statement_field_inj; done).
Qed.

(** Only the statements post fields of statements. *)
Lemma posted_statement_field previews s processing errors iso i field :
  posted (entries (requestForm format to_locale routes props previews s processing errors iso))
    (statement_field i field) =
  match requestKind s with
  | SingleExecution => posted (concat (imap statement_entries (statements s))) (statement_field i field)
  | QueryAccess => []
  end.
Proof.
  destruct (requestForm_entries previews s processing errors iso) as (w & intent & -> & Hw & Hi).
  rewrite !posted_app, hiddenFields_entries, titleAndDescription_entries, accessScope_entries,
    executionPlan_entries, !posted_when, !posted_app.
  rewrite (posted_other w), (posted_other intent); cycle 1.
  { eapply Forall_impl; [exact Hi|]. by intros e [-> _]. }
  { eapply Forall_impl; [exact Hw|]. by intros e ->. }
  rewrite (posted_other (map (pair "database_connection_ids[]") _)); cycle 1.
  { apply Forall_fmap, Forall_forall. done. }
  rewrite accessWindow_entries.
  replace (posted match requestedAccessMode s with ReadQuery => _ | WriteQuery => _ end _)
    with (@nil string) by (destruct (requestedAccessMode s);
      [done|by destruct (canRequestWriteSession props s)]).
  destruct (copy_source props), (scopeShown s), (requestKind s), (scheduleQuery s); cbn;
    rewrite ?app_nil_r; done.
Qed.

(** What an entry of the form can be. *)
Inductive form_entry s (iso : string) : string -> string -> Prop :=
  | fe_request_kind : form_entry s iso "request_kind" (request_kind_text (requestKind s))
  | fe_access_transport : form_entry s iso "access_transport" (transport_text (accessTransport s))
  | fe_copied_from copySource : copy_source props = Some copySource ->
      form_entry s iso "copied_from_id" (str_of_Z (copy_id copySource))
  | fe_title v : form_entry s iso "title" v
  | fe_description v : form_entry s iso "description" v
  | fe_workflow v : form_entry s iso "request_workflow" v
  | fe_connection v : scopeShown s = true ->
      v ∈ (if isNativeClientAccess s then [head (selectedConnectionIds s) ?? ""]
           else selectedConnectionIds s) ->
      form_entry s iso "database_connection_ids[]" v
  | fe_read : scopeShown s = true -> requestedAccessMode s = ReadQuery ->
      form_entry s iso "requested_access_mode" "read"
  | fe_write : scopeShown s = true -> requestedAccessMode s = WriteQuery ->
      canRequestWriteSession props s = true ->
      form_entry s iso "requested_access_mode" "write"
  | fe_statement i st field v : requestKind s = SingleExecution -> statements s !! i = Some st ->
      form_entry s iso (statement_field i field) v
  | fe_duration v : requestKind s = QueryAccess -> form_entry s iso "access_duration_minutes" v
  | fe_schedule : scheduleQuery s = true -> requestKind s = SingleExecution ->
      form_entry s iso "schedule_query" "1"
  | fe_scheduled_at : scheduleQuery s = true -> requestKind s = SingleExecution ->
      form_entry s iso "scheduled_at" iso
  | fe_intent v : submitter = Some ("intent", v) -> form_entry s iso "intent" v.

Lemma elem_of_statement_entries (l : list StatementDraft) n v :
  (n, v) ∈ concat (imap statement_entries l) ->
  exists i st field, l !! i = Some st /\ n = statement_field i field.
Proof.
  intros He. apply list_elem_of_In, in_concat in He as (es & Hes & He).
  apply list_elem_of_In, elem_of_lookup_imap in Hes as (j & x & -> & Hj).
  apply list_elem_of_In in He. unfold statement_entries in He.
  apply elem_of_cons in He as [[= -> ->]|He]; [by eauto 10|].
  apply list_elem_of_singleton in He as [= -> ->]. eauto 10.
Qed.

Lemma form_entries previews s processing errors iso n v :
  (n, v) ∈ entries (requestForm format to_locale routes props previews s processing errors iso) ->
  form_entry s iso n v.
Proof.
  destruct (requestForm_entries previews s processing errors iso) as (w & intent & -> & Hw & Hi).
  rewrite hiddenFields_entries, titleAndDescription_entries, accessScope_entries,
    executionPlan_entries, accessWindow_entries, !elem_of_app, !elem_of_when, !elem_of_app.
  rewrite !elem_of_cons. intros [[[E|[E|E]]|E]|[[E|[E|E]]|[E|[E|[E|[E|E]]]]]]; simplify_eq;
    try by apply elem_of_nil in E.
  - constructor.
  - constructor.
  - destruct (copy_source props) eqn:Hc; [|by apply elem_of_nil in E].
    apply list_elem_of_singleton in E. simplify_eq. by constructor.
  - constructor.
  - constructor.
  - rewrite Forall_forall in Hw. specialize (Hw _ E). simpl in Hw. subst n. constructor.
  - destruct E as [Hs [E|E]].
    + apply list_elem_of_In, in_map_iff in E as (v' & E & Hv). simplify_eq.
      constructor; [done|by apply list_elem_of_In].
    + destruct (requestedAccessMode s) eqn:Hm.
      * apply list_elem_of_singleton in E. simplify_eq. by constructor.
      * apply elem_of_when in E as [Hc E]. apply list_elem_of_singleton in E. simplify_eq.
        by constructor.
  - destruct (requestKind s) eqn:Hk.
    + apply elem_of_statement_entries in E as (i & st & field & Hi' & ->). by eapply fe_statement.
    + apply list_elem_of_singleton in E. simplify_eq. by constructor.
  - destruct E as [[Hk%bool_decide_eq_true Hs]%andb_true_iff E].
    destruct E as [E|[E|E%elem_of_nil]]; [| |done]; simplify_eq; by constructor.
  - rewrite Forall_forall in Hi. destruct (Hi _ E) as [Hn Hs]. simpl in Hn. subst n.
    by constructor.
Qed.

Lemma hidden_entries_posted previews s processing errors iso :
  let es := entries (requestForm format to_locale routes props previews s processing errors iso) in
  ("request_kind", request_kind_text (requestKind s)) ∈ es /\
  ("access_transport", transport_text (accessTransport s)) ∈ es.
Proof.
  intros es. unfold es.
  destruct (requestForm_entries previews s processing errors iso) as (w & intent & -> & _).
  rewrite hiddenFields_entries. split; rewrite !elem_of_app; left; left; rewrite !elem_of_cons; auto.
Qed.
End payload.

(** C17.  A deployment batch posts its statements in their order: the fields of position [i] are
    posted once, with the SQL and the target of the statement at that position, and no field is
    posted for a position past the end; a query access request posts no SQL at all. *)
Theorem statements_posted_in_order format to_locale routes props typed submitter previews s
    processing errors iso i :
  let es := entries typed submitter
    (requestForm format to_locale routes props previews s processing errors iso) in
  posted es (statement_field i "sql") =
    match requestKind s, statements s !! i with
    | SingleExecution, Some st => [sql st]
    | _, _ => []
    end /\
  posted es (statement_field i "database_connection_id") =
    match requestKind s, statements s !! i with
    | SingleExecution, Some st => [databaseConnectionId st]
    | _, _ => []
    end.
Proof.
  intros es. unfold es. rewrite !posted_statement_field. destruct (requestKind s); [|done]. split.
  - apply (posted_statements "sql" sql _ i), statement_entries_sql.
  - apply (posted_statements "database_connection_id" databaseConnectionId _ i),
      statement_entries_connection.
Qed.

(** C16.  The form asks for a write session only within the access policy: when it posts
    requested_access_mode=write, the request is posted as query access, some connection is
    selected, and every connection whose id is posted allows write sessions over the posted
    transport. *)
Theorem write_session_within_policy format to_locale routes props typed submitter previews s
    processing errors iso :
  let es := entries typed submitter
    (requestForm format to_locale routes props previews s processing errors iso) in
  ("requested_access_mode", "write") ∈ es ->
  ("request_kind", "query_access") ∈ es /\
  ("access_transport", transport_text (accessTransport s)) ∈ es /\
  (exists c, c ∈ connections props /\ str_of_Z (connection_id c) ∈ selectedConnectionIds s) /\
  (forall v c, ("database_connection_ids[]", v) ∈ es -> c ∈ connections props ->
     str_of_Z (connection_id c) = v ->
     match accessTransport s with
     | NativeProxy => can_native_proxy_write c
     | Browser => can_query_access_write c
     end = true).
Proof.
  intros es H. apply form_entries in H.
  assert (Hw : scopeShown props s = true /\ canRequestWriteSession props s = true)
    by (inversion H; auto).
  clear H. destruct Hw as [Hs [Hlen Hall]%andb_true_iff].
  apply andb_true_iff in Hs as [Hk%bool_decide_eq_true _].
  destruct (hidden_entries_posted format to_locale routes props typed submitter previews s processing
    errors iso) as [H1 H2]. fold es in H1, H2. rewrite Hk in H1.
  assert (Hnative : isNativeClientAccess s = bool_decide (accessTransport s = NativeProxy)).
  { unfold isNativeClientAccess. by rewrite bool_decide_true. }
  apply Nat.ltb_lt in Hlen.
  assert (Hsome : exists c, c ∈ connections props /\
    str_of_Z (connection_id c) ∈ selectedConnectionIds s).
  { destruct (selectedSessionConnections props s) as [|c l] eqn:E; [simpl in Hlen; lia|].
    exists c. apply elem_of_selectedSessionConnections. rewrite E. apply list_elem_of_here. }
  split_and!; [done|done|done|].
  - intros v c Hv Hc Hid. apply form_entries in Hv. rewrite forallb_forall_elem in Hall.
    assert (Hsel : v ∈ selectedConnectionIds s).
    { inversion Hv as [| | | | | |v' _ Hin| | | | | | |]; subst; [|done..].
      destruct (isNativeClientAccess s); [|done]. apply list_elem_of_singleton in Hin.
      destruct (selectedConnectionIds s) as [|v l] eqn:E; simpl in Hin.
      - by destruct Hsome as (c' & _ & H'%elem_of_nil).
      - rewrite Hin. apply list_elem_of_here. }
    specialize (Hall c). rewrite elem_of_selectedSessionConnections in Hall.
    unfold can_write_session in Hall. rewrite Hnative in Hall. subst v.
    specialize (Hall (conj Hc Hsel)). by destruct (accessTransport s).
Qed.

(** ** What the controls can do *)

(** A change of the batch by one event at the time [now]. *)
Inductive statement_change (now : Z) (l : list StatementDraft) : list StatementDraft -> Prop :=
  | sc_same : statement_change now l l
  | sc_edit i f : (forall st, key (f st) = key st) -> statement_change now l (map_at i f l)
  | sc_swap i j : statement_change now l (swap i j l)
  | sc_remove i : (i < length l)%nat -> length l <> 1%nat -> statement_change now l (remove_at i l)
  | sc_insert i c : (i < length l < 50)%nat ->
      statement_change now l
        (take (i + 1) l ++ [draft (insertedStatementKey now i) "" c] ++ drop (i + 1) l).

Definition changes_batch (s : State) (h : handler State) : Prop :=
  forall now ev, statement_change now (statements s) (statements (h now ev s)).

Section controls.
Context (tz_offset : string -> Z -> Z) (format : string -> string -> option string).
Context (to_locale : Z -> string) (routes : Routes) (props : Props).
Implicit Types (s : State) (errors : list (string * string)).

Lemma same_batch s (h : handler State) :
  (forall now ev, statements (h now ev s) = statements s) -> changes_batch s h.
Proof. intros H now ev. rewrite H. constructor. Qed.

Lemma workflowOption_safe s v b k t n e :
  all_actions (changes_batch s) (workflowOption v b k t n e).
Proof.
  unfold workflowOption. walk. apply same_batch. intros _ _. by destruct k.
Qed.

Lemma workflowChoice_safe s errors : all_actions (changes_batch s) (workflowChoice props s errors).
Proof. unfold workflowChoice. walk; apply workflowOption_safe. Qed.

Lemma sessionConnections_safe s errors :
  each_actions (changes_batch s) (sessionConnections props s errors).
Proof.
  unfold sessionConnections. apply each_actions_app; [|by walk].
  destruct (isNativeClientAccess s); apply Forall_forall; intros h Hh; apply same_batch;
    intros now ev.
  - destruct (ConnectionCombobox_actions _ _ _ _ _ _ _ _ Hh now ev s) as [->|[->|(c & _ & ->)]];
      [done| |]; unfold selectNativeConnection; by destruct (_ && _).
  - destruct (ConnectionMultiCombobox_actions _ _ _ _ _ _ _ _ Hh now ev s) as [->|(cs & _ & ->)];
      [done|]; unfold selectSessionConnections; by destruct (_ && _).
Qed.

Lemma requestDetails_safe s errors : all_actions (changes_batch s) (requestDetails props s errors).
Proof.
  unfold requestDetails, titleAndDescription, accessScope, accessLevel.
  walk; try by apply same_batch.
  - apply workflowChoice_safe.
  - apply sessionConnections_safe.
Qed.

Lemma formatStatement_safe s index :
  changes_batch s (fun _ _ current => formatStatement format props index current ?? current).
Proof.
  intros now ev. unfold formatStatement.
  destruct (statements s !! index); [|constructor].
  destruct (str_eq _ ""); [constructor|].
  destruct (format _ _) as [formatted|]; simpl; [|constructor]. by constructor.
Qed.

Lemma moveStatement_safe s index direction :
  changes_batch s (fun _ _ => moveStatement index direction).
Proof.
  intros now ev. unfold moveStatement. destruct (key <$> _); [|constructor].
  destruct (_ || _); constructor.
Qed.

Lemma statementCard_safe s errors index statement : (index < length (statements s))%nat ->
  each_actions (changes_batch s) (statementCard format to_locale props s errors index statement).
Proof.
  intros Hi. unfold statementCard, statementSection, statementHead. walk.
  - apply moveStatement_safe.
  - apply moveStatement_safe.
  - apply formatStatement_safe.
  - intros now ev. constructor; [done|]. by apply Nat.eqb_neq.
  - apply Forall_forall. intros h Hh now ev.
    destruct (ConnectionCombobox_actions _ _ _ _ _ _ _ _ Hh now ev s) as [->|[->|(c & _ & ->)]];
      by constructor.
  - apply Forall_forall. intros h Hh now ev.
    destruct (SqlEditor_actions _ _ now ev s Hh) as [->|[(v & ->)|(run & [=] & _)]]; by constructor.
  - intros now ev. unfold insertStatementAfter. constructor. by apply Nat.ltb_lt in H.
Qed.

Lemma orderedStatements_safe previews s errors :
  all_actions (changes_batch s) (orderedStatements format to_locale props previews s errors).
Proof.
  unfold orderedStatements, preflightPreview. walk.
  - destruct (snd x); walk.
  - apply each_actions_concat. intros l (i & st & -> & Hi)%elem_of_lookup_imap.
    apply statementCard_safe. by eapply lookup_lt_Some.
Qed.

Lemma requestForm_safe previews s processing errors iso :
  all_actions (changes_batch s)
    (requestForm format to_locale routes props previews s processing errors iso).
Proof.
  unfold requestForm, hiddenFields, executionPlan, reviewAndSubmit, formButtons. walk;
    try by (intros now [| | |]; constructor).
  - destruct (copy_source props); walk.
  - apply requestDetails_safe.
  - destruct (requestKind s); [apply orderedStatements_safe|]. unfold accessWindow. walk.
  - destruct (requestKind s); walk.
Qed.

Lemma page_safe previews s processing errors page h :
  QueryRequestCreate tz_offset format to_locale routes props previews s processing errors = Some page ->
  h ∈ actions page -> changes_batch s h.
Proof.
  unfold QueryRequestCreate. intros (iso & _ & [= <-])%bind_Some Hh. revert h Hh. apply Forall_forall.
  change (all_actions (changes_batch s) (elem "Fragment"
    [pageTitle props;
     elem "div" ([pageHeader props] ++ copySourceNotice props ++ approvalNotice props ++
       [requestForm format to_locale routes props previews s processing errors iso])])).
  unfold pageTitle, pageHeader, PageHeader, copySourceNotice, approvalNotice. walk.
  - destruct (copy_source props); walk.
  - apply requestForm_safe.
Qed.
End controls.

(** ** Reachable states *)

Section reachable.
Context (tz_offset : string -> Z -> Z) (format : string -> string -> option string).
Context (to_locale : Z -> string) (routes : Routes) (props : Props).

(** An event on a control of the page as it is rendered, or the end of the scroll to a statement;
    the clock advances between two events. *)
Inductive page_step : Z * State -> Z * State -> Prop :=
  | step_action now now' s previews processing errors page h ev :
      now < now' ->
      QueryRequestCreate tz_offset format to_locale routes props previews s processing errors =
        Some page ->
      h ∈ actions page ->
      page_step (now, s) (now', h now' ev s)
  | step_focus now now' s : now < now' -> page_step (now, s) (now', focusDone s).

Lemma focusDone_statements s : statements (focusDone s) = statements s.
Proof. unfold focusDone. by destruct (focusedStatementKey s). Qed.

Lemma page_step_change c c' : page_step c c' ->
  c.1 < c'.1 /\ statement_change c'.1 (statements c.2) (statements c'.2).
Proof.
  destruct 1 as [now now' s previews processing errors page h ev Hlt Hp Hh|now now' s Hlt]; simpl.
  - split; [done|]. by eapply page_safe.
  - split; [done|]. rewrite focusDone_statements. constructor.
Qed.
End reachable.

(** *** The size of a batch *)

Lemma statement_change_length now l l' :
  statement_change now l l' -> (1 <= length l)%nat ->
  (1 <= length l' <= Nat.max 50 (length l))%nat.
Proof.
  intros H Hl. destruct H as [|i f Hf|i j|i Hi Hn|i c Hi].
  - lia.
  - rewrite map_at_length. lia.
  - unfold swap. destruct (l !! i), (l !! j); rewrite ?length_insert; lia.
  - rewrite remove_at_length by done. lia.
  - rewrite !length_app, length_take, length_drop. simpl. lia.
Qed.

Lemma initialStatements_length v d :
  length (initialStatements v d) = Nat.max 1 (length ((form_statements <$> v) ?? [])).
Proof.
  unfold initialStatements. destruct ((form_statements <$> v) ?? []) as [|x l]; [done|].
  rewrite length_imap. simpl. lia.
Qed.

(** Whatever the user does on the page, the batch keeps at least one statement and never
    grows past fifty (or past the number it was opened with). *)
Theorem batch_size_bounded tz_offset format to_locale routes props now0 s0 now s :
  initialState tz_offset props = Some s0 ->
  rtc (page_step tz_offset format to_locale routes props) (now0, s0) (now, s) ->
  (1 <= length (statements s) <= Nat.max 50 (length (statements s0)))%nat.
Proof.
  intros (iso & _ & [= <-])%bind_Some. set (s0 := {| requestKind := _ |}).
  assert (H0 : (1 <= length (statements s0))%nat).
  { simpl. rewrite initialStatements_length. lia. }
  clearbody s0. intros Hr.
  cut (1 <= length (statements (now, s).2) <= Nat.max 50 (length (statements (now0, s0).2)))%nat;
    [done|].
  change s0 with ((now0, s0).2) in H0. revert H0.
  induction Hr as [c|c1 c2 c3 Hstep _ IH]; intros H0; [lia|].
  apply page_step_change in Hstep as [_ Hc]. apply statement_change_length in Hc; [|done]. lia.
Qed.

Definition example_routes : Routes := {|
  store_form := "/query-requests"; update_form := fun id => ("/query-requests/" ++ str_of_Z id)%string;
  show_url := fun id => ("/query-requests/" ++ str_of_Z id)%string; index_url := "/query-requests" |}.

Definition no_format : string -> string -> option string := fun _ sql => Some sql.

(** *** The keys of the statements *)

(** The keys the page has given out by the time [now]. *)
Definition known_key (now : Z) (k : string) : Prop :=
  (exists n, k = ("statement-" ++ str_of_nat n)%string) \/
  (exists t i, 0 <= t <= now /\ k = insertedStatementKey t i).

Definition keys_ok (c : Z * State) : Prop :=
  NoDup (map key (statements c.2)) /\ Forall (known_key c.1) (map key (statements c.2)).

Lemma known_key_mono now now' k : now <= now' -> known_key now k -> known_key now' k.
Proof. intros Hle [H|(t & i & Ht & ->)]; [by left|right]. exists t, i. split; [lia|done]. Qed.

Lemma insertedStatementKey_fresh now now' i k :
  0 <= now' -> now < now' -> known_key now k -> k <> insertedStatementKey now' i.
Proof.
  unfold insertedStatementKey. intros H0 Hlt [(n & ->)|(t & j & Ht & ->)] H;
    apply app_inj_l_str in H.
  - revert H. apply (all_chars_no_split is_digit); [apply str_of_nat_digits| |done].
    by apply str_of_Z_digits.
  - simpl in H. apply (all_chars_split is_digit) in H as [H _]; [| |by apply str_of_Z_digits|done].
    + apply str_of_Z_inj in H. lia.
    + apply str_of_Z_digits. lia.
Qed.

Lemma map_key_swap i j l : map key (swap i j l) ≡ₚ map key l.
Proof.
  unfold swap. destruct (l !! i) eqn:Hi; [|done]. destruct (l !! j) eqn:Hj; [|done].
  destruct (swap_in_range i j l _ _ Hi Hj) as (_ & _ & _ & H). unfold swap in H.
  rewrite Hi, Hj in H. by apply Permutation_map.
Qed.

Lemma map_key_insert i st (l : list StatementDraft) :
  map key (take i l ++ [st] ++ drop i l) ≡ₚ key st :: map key l.
Proof.
  rewrite <- (take_drop i l) at 3. rewrite !map_app. simpl. by rewrite Permutation_middle.
Qed.

Lemma statement_change_keys now now' l l' :
  0 <= now' -> now < now' -> statement_change now' l l' ->
  NoDup (map key l) -> Forall (known_key now) (map key l) ->
  NoDup (map key l') /\ Forall (known_key now') (map key l').
Proof.
  intros H0 Hlt Hc Hnd Hk.
  assert (Hk' : Forall (known_key now') (map key l)).
  { eapply Forall_impl; [exact Hk|]. intros k. apply known_key_mono. lia. }
  destruct Hc as [|i f Hf|i j|i _ _|i c _].
  - done.
  - rewrite (map_at_map key); auto.
  - by rewrite (map_key_swap i j l).
  - split; [eapply sublist_NoDup; [exact Hnd|apply map_remove_at]|].
    apply Forall_forall. intros k Hin. rewrite Forall_forall in Hk'. apply Hk'.
    eapply elem_of_submseteq; [exact Hin|]. apply sublist_submseteq, map_remove_at.
  - rewrite map_key_insert. split.
    + apply NoDup_cons_2; [|done]. intros Hin. rewrite Forall_forall in Hk.
      by eapply (insertedStatementKey_fresh now now' i); eauto.
    + constructor; [|done]. right. exists now', i. split; [lia|done].
Qed.

Lemma initialStatements_keys now v d : keys_ok (now, {|
  requestKind := SingleExecution; accessTransport := Browser; scheduleQuery := false;
  scheduledAtLocal := ""; selectedConnectionIds := []; requestedAccessMode := ReadQuery;
  statements := initialStatements v d; focusedStatementKey := None |}).
Proof.
  unfold keys_ok. simpl. unfold initialStatements.
  destruct ((form_statements <$> v) ?? []) as [|x l].
  - split; [apply NoDup_singleton|]. apply Forall_singleton. left. by exists 1%nat.
  - generalize (x :: l). clear. intros l. set (g := fun index statement => _).
    change (@map StatementDraft string) with (@fmap list _ StatementDraft string).
    rewrite fmap_imap. split.
    + apply NoDup_alt. intros i j k Hi Hj.
      rewrite list_lookup_imap in Hi, Hj.
      apply fmap_Some in Hi as (a & _ & ->), Hj as (b & _ & Hj). unfold g in Hj. simpl in Hj.
      apply (app_inj_l_str "statement-"), str_of_nat_inj in Hj. lia.
    + apply Forall_forall. intros k (i & a & -> & _)%elem_of_lookup_imap. left. by eexists.
Qed.

(** The statements of a batch always have distinct keys: while the clock advances between
    events, no sequence of edits, moves, insertions and removals on the page ever gives two
    statements the same React key. *)
Theorem statement_keys_distinct tz_offset format to_locale routes props now0 s0 now s :
  0 <= now0 -> initialState tz_offset props = Some s0 ->
  rtc (page_step tz_offset format to_locale routes props) (now0, s0) (now, s) ->
  NoDup (map key (statements s)).
Proof.
  intros Hpos (iso & _ & [= <-])%bind_Some. set (s0 := {| requestKind := _ |}).
  assert (H0 : keys_ok (now0, s0)) by apply initialStatements_keys.
  clearbody s0. intros Hr. cut (keys_ok (now, s)); [by intros [? _]|].
  assert (Hp : 0 <= (now0, s0).1) by done. clear Hpos. revert Hp H0.
  induction Hr as [c|c1 c2 c3 Hstep _ IH]; intros Hp H0; [done|].
  apply page_step_change in Hstep as [Hlt Hc]. apply IH; [lia|].
  destruct H0 as [Hnd Hk]. eapply statement_change_keys; [|exact Hlt|exact Hc|done..]. lia.
Qed.

(** The [n]-th enabled control of the page, triggered. *)
Definition fire tz_offset format to_locale routes props n (now : Z) (ev : event) (s : State)
    : option State :=
  page ← QueryRequestCreate tz_offset format to_locale routes props [] s false [];
  h ← actions page !! n;
  Some (h now ev s).

Lemma fire_step tz_offset format to_locale routes props n now now' ev s s' :
  now < now' -> fire tz_offset format to_locale routes props n now' ev s = Some s' ->
  page_step tz_offset format to_locale routes props (now, s) (now', s').
Proof.
  intros Hlt (page & Hp & (h & Hh & [= <-])%bind_Some)%bind_Some.
  eapply step_action; [done|exact Hp|]. by eapply list_elem_of_lookup_2.
Qed.

Notation example_fire := (fire example_zone no_format str_of_Z example_routes example_props).
Notation example_step := (page_step example_zone no_format str_of_Z example_routes example_props).

Definition example_start : State :=
  Eval vm_compute in default example_state (initialState example_zone example_props).

(** "Add below" the first statement, twice. *)
Definition added (now : Z) (s : State) : State := default s (example_fire 7%nat now Click s).
Definition added_again (now : Z) (s : State) : State := default s (example_fire 9%nat now Click s).

Lemma batch_size_bounded_witness :
  exists s, length (statements s) = 3%nat /\ (1 <= length (statements s) <= 50)%nat.
Proof.
  exists (added_again 20 (added 10 example_start)). split; [vm_compute; reflexivity|].
  apply (batch_size_bounded example_zone no_format str_of_Z example_routes example_props
    0 example_start 20).
  - vm_compute. reflexivity.
  - apply (rtc_l _ _ (10, added 10 example_start)).
    + apply (fire_step _ _ _ _ _ 7 _ _ Click); vm_compute; reflexivity.
    + apply rtc_once. apply (fire_step _ _ _ _ _ 9 _ _ Click); vm_compute; reflexivity.
Defined.

Lemma statement_keys_distinct_witness :
  map key (statements (added_again 20 (added 10 example_start))) =
    ["statement-1"; "statement-20-0"; "statement-10-0"] /\
  NoDup (map key (statements (added_again 20 (added 10 example_start)))).
Proof.
  split; [vm_compute; reflexivity|].
  apply (statement_keys_distinct example_zone no_format str_of_Z example_routes example_props
    0 example_start 20).
  - lia.
  - vm_compute. reflexivity.
  - apply (rtc_l _ _ (10, added 10 example_start)).
    + apply (fire_step _ _ _ _ _ 7 _ _ Click); vm_compute; reflexivity.
    + apply rtc_once. apply (fire_step _ _ _ _ _ 9 _ _ Click); vm_compute; reflexivity.
Defined.

(** ** The buttons that submit *)

Section buttons.
Context (format : string -> string -> option string) (to_locale : Z -> string).
Context (routes : Routes) (props : Props).
Implicit Types (s : State) (errors : list (string * string)).

(** The request can be saved as a draft. *)
Definition draftable s : bool :=
  bool_decide (requestKind s = SingleExecution) && (negb (isEditing props) || isDraft props).

Lemma formButtons_submits previews s processing :
  submits (formButtons routes props previews s processing) =
  when (draftable s) [("intent", "draft", negb processing)] ++
  when (draftable s && canRequestPolicyReview props previews s)
    [("intent", "policy_review", negb processing)] ++
  [("intent", "submit", negb (processing || canRequestPolicyReview props previews s))].
Proof.
  unfold formButtons. fold (draftable s).
  change (submits (elem "div" ?l)) with (flat_map (@submits State) l).
  rewrite !flat_map_app.
  by destruct (draftable s), (canRequestPolicyReview props previews s).
Qed.

Lemma requestDetails_submits s errors : no_submits (requestDetails props s errors).
Proof.
  unfold requestDetails, titleAndDescription, workflowChoice, workflowOption, accessScope,
    accessLevel, sessionConnections.
  walk_submits. destruct (isNativeClientAccess s);
    [apply ConnectionCombobox_submits|apply ConnectionMultiCombobox_submits].
Qed.

Lemma orderedStatements_submits previews s errors :
  no_submits (orderedStatements format to_locale props previews s errors).
Proof.
  unfold orderedStatements, preflightPreview. walk_submits.
  - destruct (snd x); walk_submits.
  - apply none_submits_concat. intros l (i & st & -> & Hi)%elem_of_lookup_imap.
    unfold statementCard, statementSection, statementHead. walk_submits.
    + apply ConnectionCombobox_submits.
    + apply SqlEditor_submits.
Qed.

(** The form has no other submit buttons. *)
Lemma requestForm_submits previews s processing errors iso :
  submits (requestForm format to_locale routes props previews s processing errors iso) =
  submits (formButtons routes props previews s processing).
Proof.
  unfold requestForm. cbn [submits]. rewrite !flat_map_app. cbn [flat_map]. rewrite !app_nil_r.
  replace (flat_map submits (hiddenFields props s)) with (@nil (string * string * bool))
    by (unfold hiddenFields; by destruct (copy_source props)).
  rewrite requestDetails_submits.
  replace (submits match requestKind s with SingleExecution => _ | QueryAccess => _ end)
    with (@nil (string * string * bool)).
  2: { destruct (requestKind s); [by rewrite orderedStatements_submits|].
       unfold accessWindow. symmetry. walk_submits. }
  replace (flat_map submits (executionPlan props s errors iso))
    with (@nil (string * string * bool)) by (symmetry; unfold executionPlan; walk_submits).
  cbn [app]. unfold reviewAndSubmit. change (submits (elem "section" ?l)) with (flat_map (@submits State) l).
  rewrite !flat_map_app, flat_map_map, (flat_map_nil_all _ (List.filter _ _)) by done.
  set (notice := when _ _). assert (Hn : none_submits notice) by (unfold notice; walk_submits).
  rewrite Hn. cbn -[formButtons]. rewrite !app_nil_r.
  by destruct (requestKind s).
Qed.
End buttons.

(** The buttons of the form: "Submit" can be pressed exactly when no request is being sent
    and the batch is not one for a policy review; "Request SQL policy review" is offered exactly
    for a new or draft batch that is; so the two are never available together. *)
Theorem submit_or_policy_review format to_locale routes props previews s processing errors iso :
  let buttons := submits
    (requestForm format to_locale routes props previews s processing errors iso) in
  (("intent", "submit", true) ∈ buttons <->
     processing = false /\ canRequestPolicyReview props previews s = false) /\
  (("intent", "policy_review", true) ∈ buttons <->
     processing = false /\ canRequestPolicyReview props previews s = true /\
     requestKind s = SingleExecution /\ (isEditing props = false \/ isDraft props = true)).
Proof.
  intros buttons. unfold buttons. rewrite requestForm_submits, formButtons_submits.
  rewrite !elem_of_app, !elem_of_when, !list_elem_of_singleton. unfold draftable.
  rewrite !andb_true_iff, bool_decide_eq_true, orb_true_iff, negb_true_iff.
  destruct processing, (canRequestPolicyReview props previews s); naive_solver.
Qed.

(** The states of the page at some time. *)
Definition reachable_state props s : Prop :=
  exists s0 now0 now, initialState example_zone props = Some s0 /\
    rtc (page_step example_zone no_format str_of_Z example_routes props) (now0, s0) (now, s).

Definition stuck_statement (s : State) : State :=
  default s (example_fire 5%nat 2 (Change "rename table a to b") s).
Definition stuck_target (s : State) : State := default s (example_fire 4%nat 1 (Pick [0%nat]) s).
Definition stuck_access (s : State) : State := default s (example_fire 1%nat 3 Click s).

(** A request for query access can become impossible to submit: the page judges the
    statements of a deployment batch also after the user has switched to query access, and then
    neither "Submit" nor "Request SQL policy review" can be pressed. *)
Theorem query_access_cannot_submit :
  exists s, reachable_state example_props s /\ requestKind s = QueryAccess /\
  forall button, button ∈ submits
    (requestForm no_format str_of_Z example_routes example_props [] s false [] "") ->
    button.2 = false.
Proof.
  exists (stuck_access (stuck_statement (stuck_target example_start))). split_and!.
  - exists example_start, 0, 3. split; [vm_compute; reflexivity|].
    apply (rtc_l _ _ (1, stuck_target example_start)).
    { apply (fire_step _ _ _ _ _ 4 _ _ (Pick [0%nat])); vm_compute; reflexivity. }
    apply (rtc_l _ _ (2, stuck_statement (stuck_target example_start))).
    { apply (fire_step _ _ _ _ _ 5 _ _ (Change "rename table a to b")); vm_compute; reflexivity. }
    apply rtc_once. apply (fire_step _ _ _ _ _ 1 _ _ Click); vm_compute; reflexivity.
  - vm_compute. reflexivity.
  - intros button. rewrite requestForm_submits, formButtons_submits.
    replace (canRequestPolicyReview _ _ _) with true by (vm_compute; reflexivity).
    replace (draftable _ _) with false by (vm_compute; reflexivity). simpl.
    by intros ->%list_elem_of_singleton.
Qed.

Lemma write_session_within_policy_witness :
  let s := setRequestKind QueryAccess example_state in
  let es := entries (fun _ => None) (Some ("intent", "submit"))
    (requestForm no_format str_of_Z example_routes example_props [] s false [] "") in
  posted es "database_connection_ids[]" = ["1"; "2"] /\
  posted es "requested_access_mode" = ["write"] /\
  can_query_access_write (example_connection 2 true (Some 30)) = true.
Proof.
  intros s es. split; [vm_compute; reflexivity|]. split; [vm_compute; reflexivity|].
  destruct (write_session_within_policy no_format str_of_Z example_routes example_props
    (fun _ => None) (Some ("intent", "submit")) [] s false [] "") as (_ & _ & _ & H).
  - apply (bool_decide_unpack _). vm_compute. exact I.
  - apply (H "2" (example_connection 2 true (Some 30))).
    + apply (bool_decide_unpack _). vm_compute. exact I.
    + right. left.
    + vm_compute. reflexivity.
Defined.

(** Opening a deployment batch and submitting it unchanged posts its statements as they
    were: the same SQL and targets, in the same order. *)
Theorem reopened_batch_unchanged tz_offset format to_locale routes props typed submitter previews s
    processing errors iso v i :
  formValues props = Some v -> form_request_kind v = SingleExecution -> form_statements v <> [] ->
  initialState tz_offset props = Some s ->
  let es := entries typed submitter
    (requestForm format to_locale routes props previews s processing errors iso) in
  posted es (statement_field i "sql") =
    match form_statements v !! i with Some st => [sv_sql st] | None => [] end /\
  posted es (statement_field i "database_connection_id") =
    match form_statements v !! i with
    | Some st => [match sv_database_connection_id st with Some id => str_of_Z id | None => "" end]
    | None => []
    end.
Proof.
  intros Hv Hk Hne (local & _ & [= <-])%bind_Some es. unfold es.
  rewrite !posted_statement_field. cbn [requestKind statements]. rewrite Hv. simpl. rewrite Hk.
  unfold initialStatements. simpl. destruct (form_statements v) as [|x l]; [done|].
  rewrite (posted_statements "sql" sql _ i); [|apply statement_entries_sql].
  rewrite (posted_statements "database_connection_id" databaseConnectionId _ i);
    [|apply statement_entries_connection].
  rewrite list_lookup_imap. by destruct ((x :: l) !! i).
Qed.

Definition reopened_props : Props := {|
  connections := connections example_props;
  sql_statement_policy := read_only_policy; query_access_enabled := true;
  native_client_access_enabled := true; query_request := None;
  initial_values := Some {|
    database_connection_id := Some 1; database_connection_ids := [1; 2];
    form_request_kind := SingleExecution; form_access_transport := Browser; title := "DEP-1";
    description := None;
    form_statements := [{| sv_sql := "select 1"; sv_database_connection_id := Some 1 |};
                        {| sv_sql := "select 2"; sv_database_connection_id := None |}];
    scheduled_at := Some "2026-07-15T07:30:00Z"; access_duration_minutes := None;
    requested_access_mode := None |};
  copy_source := None; policy_previews := []; user_timezone := Some "Europe/Paris" |}.

Lemma reopened_batch_unchanged_witness :
  exists s, initialState example_zone reopened_props = Some s /\
    scheduledAtLocal s = "2026-07-15T09:30" /\
    posted (entries (fun _ => None) None
      (requestForm no_format str_of_Z example_routes reopened_props [] s false [] ""))
      (statement_field 1 "sql") = ["select 2"].
Proof.
  exists (default example_state (initialState example_zone reopened_props)).
  split; [vm_compute; reflexivity|]. split; [vm_compute; reflexivity|].
  refine (proj1 (reopened_batch_unchanged example_zone no_format str_of_Z example_routes
    reopened_props (fun _ => None) None [] _ false [] "" _ 1 eq_refl eq_refl _ _)).
  - discriminate.
  - vm_compute. reflexivity.
Defined.
