(* ===== verification/Results.v ===== *)
(** * Rows of results and countdowns

    What the page of a session ([query-sessions/show.tsx]) and the page of a request
    ([query-requests/show.tsx]) write alike: the columns of the rows of a result, the text of a cell,
    and the label of the time that remains. *)

From Stdlib Require Import String.
From S2P Require Import Prelude JsString JsDate.

Open Scope string_scope.
Open Scope Z_scope.

(** A row of a result: the columns in order, with [None] for [null] and the text of the value
    otherwise. *)
Definition Row := list (string * option string).

(** [`${n ?? d}`] *)
Definition number_or (d : string) (n : option Z) : string :=
  match n with Some n => str_of_Z n | None => d end.

Definition remainingLabel (seconds : option Z) : string :=
  match seconds with
  | Some seconds => str_of_Z (seconds / 60) ++ ":" ++ padded 2 (seconds mod 60)
  | None => "NaN:NaN"
  end.

(** [set.add(key)] keeps the order of insertion. *)
Definition set_add (set : list string) (key : string) : list string :=
  if existsb (str_eq key) set then set else (set ++ [key])%list.

(** The columns of a result: the keys of its rows, each once. *)
Definition result_columns (rows : list Row) : list string :=
  fold_left (fun set row => fold_left set_add (map fst row) set) rows [].

(** [String(row[column] ?? '')] *)
Definition cell (row : Row) (column : string) : string :=
  match find_first (fun kv => str_eq (fst kv) column) row with
  | Some (_, Some text) => text
  | _ => ""
  end.

(** ** The countdown *)

Lemma padded_2_inj a b : 0 <= a < 100 -> 0 <= b < 100 -> padded 2 a = padded 2 b -> a = b.
Proof.
  intros Ha Hb H. pose proof (padded_2 a "" Ha) as H1. pose proof (padded_2 b "" Hb) as H2.
  rewrite H, H2 in H1. congruence.
Qed.

(** The countdown of a session shows minutes and two-digit seconds, and shows different
    texts for different remaining times. *)
Lemma remainingLabel_injective n m : 0 <= n -> 0 <= m ->
  remainingLabel (Some n) = remainingLabel (Some m) -> n = m.
Proof.
  intros Hn Hm H. unfold remainingLabel in H.
  assert (Hq : forall x, 0 <= x -> 0 <= x / 60) by (intros; apply Z.div_pos; lia).
  apply (all_chars_split is_digit) in H as [H1 H2]; [|by apply str_of_Z_digits, Hq..|done].
  apply str_of_Z_inj in H1.
  assert (Hr : forall x, 0 <= x mod 60 < 100).
  { intros x. pose proof (Z.mod_pos_bound x 60). lia. }
  apply padded_2_inj in H2; [|apply Hr..]. clear Hq Hr. div_lia.
Qed.

(** ** The columns of a result *)


Lemma set_add_spec set k : NoDup set -> NoDup (set_add set k) /\
  forall c, c ∈ set_add set k <-> c ∈ set \/ c = k.
Proof.
  intros Hnd. unfold set_add. destruct (existsb (str_eq k) set) eqn:E.
  - apply existsb_exists_elem in E as (x & Hx & <-%str_eq_true). split; [done|]. naive_solver.
  - assert (Hk : k ∉ set).
    { intros Hk. rewrite existsb_false_elem in E. specialize (E k Hk).
      by rewrite str_eq_refl in E. }
    split.
    + apply NoDup_app. split_and!; [done| |apply NoDup_singleton].
      intros x Hx ->%list_elem_of_singleton. done.
    + intros c. by rewrite elem_of_app, list_elem_of_singleton.
Qed.

Lemma fold_set_add_spec ks set : NoDup set -> NoDup (fold_left set_add ks set) /\
  forall c, c ∈ fold_left set_add ks set <-> c ∈ set \/ c ∈ ks.
Proof.
  revert set. induction ks as [|k ks IH]; intros set Hnd; simpl.
  - split; [done|]. intros c. rewrite elem_of_nil. naive_solver.
  - destruct (set_add_spec set k Hnd) as [Hnd' Hin]. destruct (IH _ Hnd') as [H1 H2].
    split; [done|]. intros c. rewrite H2, Hin, elem_of_cons. naive_solver.
Qed.

(** The columns of a result table are the keys of its rows: every key of every row, no
    other, and each once. *)
Lemma result_columns_spec rows :
  NoDup (result_columns rows) /\
  forall column, column ∈ result_columns rows <->
    exists row, row ∈ rows /\ column ∈ map fst row.
Proof.
  unfold result_columns.
  cut (forall set, NoDup set ->
    NoDup (fold_left (fun set row => fold_left set_add (map fst row) set) rows set) /\
    forall c, c ∈ fold_left (fun set row => fold_left set_add (map fst row) set) rows set <->
      c ∈ set \/ exists row, row ∈ rows /\ c ∈ map fst row).
  { intros H. destruct (H [] (NoDup_nil_2)) as [H1 H2]. split; [done|].
    intros c. rewrite H2, elem_of_nil. naive_solver. }
  induction rows as [|row rows IH]; intros set Hnd; simpl.
  - split; [done|]. intros c. setoid_rewrite elem_of_nil. naive_solver.
  - destruct (fold_set_add_spec (map fst row) set Hnd) as [H1 H2].
    destruct (IH _ H1) as [H3 H4]. split; [done|]. intros c. rewrite H4, H2.
    setoid_rewrite elem_of_cons. naive_solver.
Qed.
