(* ===== verification/Pagination.v ===== *)
(** * Pages of a list

    [Paginated] of [resources/js/lib/crucible.ts] and
    [resources/js/components/crucible/pagination.tsx]. *)

From Stdlib Require Import String.
From S2P Require Import Prelude JsString JsRegExp View Results.

Open Scope string_scope.
Open Scope Z_scope.

Record PageLink := { url : option string; link_label : string; active : bool }.

Record Paginated (T : Type) := {
  page_data : list T;
  links : list PageLink;
  page_from : option Z;
  page_to : option Z;
  page_total : Z;
}.

Arguments page_data {T}.
Arguments links {T}.
Arguments page_from {T}.
Arguments page_to {T}.
Arguments page_total {T}.

(** The marks of the framework around "Previous" and "Next". *)
Definition LAQUO_PATTERN : regexp := Eval vm_compute in parsed (regex "&laquo;|&raquo;" "g").

Section component.
Context {S : Type}.
Open Scope list_scope.

(** A [Link] in place of the button; a disabled button where it leads nowhere. *)
Definition page_link (anchor : option string) (link : PageLink) : node S :=
  let label := El (Tag "html") [] [Txt (link_label link)] in
  match url link with
  | Some (String _ _ as url) =>
      El (Tag "Link")
        [Flag "active" (active link);
         Attr "href" (if truthy_opt anchor then (url ++ "#" ++ (anchor ?? ""))%string else url);
         Attr "aria-label" (replace_all LAQUO_PATTERN "" (link_label link))] [label]
  | Some EmptyString => elem "span" [label]
  | None => El TButton [Flag "active" (active link); Flag "disabled" true] [elem "span" [label]]
  end.

Definition Pagination {T} (pagination : Paginated T) (anchor : option string) : list (node S) :=
  if (length (links pagination) <=? 3)%nat then []
  else
    [elem "div"
       [elem "div"
          [Txt ("Showing " ++ str_of_Z (page_from pagination ?? 0) ++ "–" ++
                str_of_Z (page_to pagination ?? 0) ++ " of " ++
                str_of_Z (page_total pagination) ++ " results")%string];
        El (Tag "nav") [Attr "aria-label" "Pagination"]
          (map (page_link anchor) (links pagination))]].

Lemma page_link_quiet typed sub anchor link :
  entries typed sub (page_link anchor link) = [] /\ actions (page_link anchor link) = [].
Proof. unfold page_link. by destruct (url link) as [[|a u]|]. Qed.

(** The links post nothing and run no handler of the page. *)
Lemma Pagination_quiet {T} typed sub (pagination : Paginated T) anchor :
  flat_map (entries typed sub) (Pagination pagination anchor) = [] /\
  flat_map actions (Pagination pagination anchor) = [].
Proof.
  unfold Pagination. destruct (_ <=? _)%nat; [done|]. cbn [flat_map].
  rewrite !app_nil_r. cbn -[page_link]. rewrite !app_nil_r, !flat_map_map.
  split; apply flat_map_nil_all; intros l; by destruct (page_link_quiet typed sub anchor l).
Qed.

Lemma each_actions_Pagination {T} P (pagination : Paginated T) anchor :
  each_actions P (Pagination pagination anchor).
Proof.
  unfold each_actions. rewrite (proj2 (Pagination_quiet (fun _ => None) None pagination anchor)).
  constructor.
Qed.
End component.
