(* ===== verification/QuerySession.v ===== *)
(** * A query session: state, handlers and what is computed from them

    [resources/js/pages/query-sessions/show.tsx], lines 66-608: the session the server sends, the
    state of the page, its handlers with the requests they send, the timers and the polling, and
    the values derived at each render.  The page itself is in [QuerySessionView].

    The SQL editor is a third-party component that holds a document and a selection; the page
    reads them and is told when they change.  The requests a handler sends are collected in
    [outbox], the most recent first. *)

From Stdlib Require Import String.
From S2P Require Import Prelude JsString JsDate CrucibleLib SqlEditor Results.

Open Scope string_scope.
Open Scope Z_scope.

(** ** Data *)

Record PageMeta := {
  current_page : Z;
  from : option Z;
  last_page : Z;
  per_page : Z;
  to : option Z;
  total : Z;
}.

Record ResultPage := { page_data : list Row; meta : PageMeta }.

Record SessionConnection := {
  connection_id : Z;
  connection_name : string;
  connection_driver : string;
}.

Record SessionQuery := {
  query_id : Z;
  query_sql : string;
  query_type : QueryType;
  status : ExecutionStatus;
  timeout_seconds : option Z;
  can_cancel : bool;
  duration_ms : option Z;
  row_count : option Z;
  result_truncated : bool;
  sample_rows : option (list Row);
  result_page : option ResultPage;
  error_message : option string;
  created_at : option string;
  query_connection : option SessionConnection;
}.

Record QuerySession := {
  session_id : Z;
  started_at : string;
  expires_at : string;
  ended_at : option string;
  is_active : bool;
  native_transport : bool;     (** [transport === 'native_proxy' && native_proxy] *)
  request_id : Z;
  request_title : string;
  requester : string;
  access_mode : QueryType;
  connection : SessionConnection;
  connections : list SessionConnection;
  latest_query : option SessionQuery;
  queries : list SessionQuery;
}.

Inductive Request :=
  | StoreQuery (session : Z) (database_connection_id sql : string)
  | CancelQuery (query : Z)
  | ShowSession (session : Z) (connection : option Z)
  | LoadResults (query page : Z).

Record State := {
  secondsRemaining : option Z;              (** [None] is [NaN] *)
  schemaSearch : string;
  editorView : option EditorView;
  selectedSql : string;
  loadedResultPage : option (Z * ResultPage);
  form_connection_id : string;              (** [data.database_connection_id] *)
  form_sql : string;                        (** [data.sql] *)
  cancellingQueryId : option Z;
  outbox : list Request;
}.

Definition RAPID_QUERY_POLL_INTERVAL_MS : Z := 150.
Definition RAPID_QUERY_POLL_DURATION_MS : Z := 2000.
Definition STEADY_QUERY_POLL_INTERVAL_MS : Z := 1000.

Definition remainingSeconds (now : Z) (expiresAt : string) : option Z :=
  (fun t => Z.max 0 ((t - now) / 1000)) <$> parse_date expiresAt.

(** [QueryExecutionPoller]: the interval of the poll, this long after the poller was mounted. *)
Definition pollInterval (elapsed : Z) : Z :=
  if elapsed <? RAPID_QUERY_POLL_DURATION_MS then RAPID_QUERY_POLL_INTERVAL_MS
  else STEADY_QUERY_POLL_INTERVAL_MS.

Section session.
(** [format] of sql-formatter: the language and the SQL; [None] when it throws. *)
Context (format : string -> string -> option string).
Context (session : QuerySession) (tables : list SchemaTable).

Definition initialState (now : Z) : State := {|
  secondsRemaining := remainingSeconds now (expires_at session);
  schemaSearch := "";
  editorView := None;
  selectedSql := "";
  loadedResultPage := None;
  form_connection_id := str_of_Z (connection_id (connection session));
  form_sql := (query_sql <$> latest_query session) ?? "";
  cancellingQueryId := None;
  outbox := [] |}.

(** ** Derived values *)

Definition resultPage (s : State) : option ResultPage :=
  match loadedResultPage s with
  | Some (queryId, page) =>
      if bool_decide (Some queryId = query_id <$> latest_query session) then Some page
      else latest_query session ≫= result_page
  | None => latest_query session ≫= result_page
  end.

Definition latestRows (s : State) : list Row :=
  match resultPage s with
  | Some page => page_data page
  | None => (latest_query session ≫= sample_rows) ?? []
  end.

Definition isSessionActive (s : State) : bool :=
  is_active session && match secondsRemaining s with Some n => 0 <? n | None => false end.

Definition active_status (st : ExecutionStatus) : bool :=
  match st with ExecQueued | ExecRunning | ExecCancelling => true | _ => false end.

Definition hasActiveQuery : bool :=
  is_some (find_first (fun query => active_status (status query)) (queries session)).

Definition formatterLanguage : string :=
  if str_eq (connection_driver (connection session)) "mysql" then "mysql" else "postgresql".

Definition sqlPanelHeight (s : State) : Z :=
  let sqlLineCount := Z.max 1 (Z.of_nat (length (split_on "010" (form_sql s)))) in
  Z.min 640 (Z.max 300 (230 + sqlLineCount * 24)).

Definition resultPanelHeight (s : State) : Z :=
  Z.min 620 (Z.max 330 (230 + Z.min (Z.of_nat (length (latestRows s))) 10 * 34)).

Definition table_matches (query : string) (table : SchemaTable) : bool :=
  includes (toLowerCase (table_name table)) query ||
  existsb (fun column => includes (toLowerCase (column_name column)) query) (columns table).

Definition filteredTables (s : State) : list SchemaTable :=
  List.filter (fun table =>
    let query := toLowerCase (trim (schemaSearch s)) in
    if str_eq query "" then true else table_matches query table) tables.

(** ** Handlers *)

Definition set_seconds v s := {|
  secondsRemaining := v; schemaSearch := schemaSearch s; editorView := editorView s;
  selectedSql := selectedSql s; loadedResultPage := loadedResultPage s;
  form_connection_id := form_connection_id s; form_sql := form_sql s;
  cancellingQueryId := cancellingQueryId s; outbox := outbox s |}.

Definition setSchemaSearch v s := {|
  secondsRemaining := secondsRemaining s; schemaSearch := v; editorView := editorView s;
  selectedSql := selectedSql s; loadedResultPage := loadedResultPage s;
  form_connection_id := form_connection_id s; form_sql := form_sql s;
  cancellingQueryId := cancellingQueryId s; outbox := outbox s |}.

Definition setEditorView v s := {|
  secondsRemaining := secondsRemaining s; schemaSearch := schemaSearch s; editorView := v;
  selectedSql := selectedSql s; loadedResultPage := loadedResultPage s;
  form_connection_id := form_connection_id s; form_sql := form_sql s;
  cancellingQueryId := cancellingQueryId s; outbox := outbox s |}.

Definition setSelectedSql v s := {|
  secondsRemaining := secondsRemaining s; schemaSearch := schemaSearch s;
  editorView := editorView s; selectedSql := v; loadedResultPage := loadedResultPage s;
  form_connection_id := form_connection_id s; form_sql := form_sql s;
  cancellingQueryId := cancellingQueryId s; outbox := outbox s |}.

Definition setLoadedResultPage v s := {|
  secondsRemaining := secondsRemaining s; schemaSearch := schemaSearch s;
  editorView := editorView s; selectedSql := selectedSql s; loadedResultPage := v;
  form_connection_id := form_connection_id s; form_sql := form_sql s;
  cancellingQueryId := cancellingQueryId s; outbox := outbox s |}.

Definition set_form_connection_id v s := {|
  secondsRemaining := secondsRemaining s; schemaSearch := schemaSearch s;
  editorView := editorView s; selectedSql := selectedSql s;
  loadedResultPage := loadedResultPage s; form_connection_id := v; form_sql := form_sql s;
  cancellingQueryId := cancellingQueryId s; outbox := outbox s |}.

Definition set_form_sql v s := {|
  secondsRemaining := secondsRemaining s; schemaSearch := schemaSearch s;
  editorView := editorView s; selectedSql := selectedSql s;
  loadedResultPage := loadedResultPage s; form_connection_id := form_connection_id s;
  form_sql := v; cancellingQueryId := cancellingQueryId s; outbox := outbox s |}.

Definition setCancellingQueryId v s := {|
  secondsRemaining := secondsRemaining s; schemaSearch := schemaSearch s;
  editorView := editorView s; selectedSql := selectedSql s;
  loadedResultPage := loadedResultPage s; form_connection_id := form_connection_id s;
  form_sql := form_sql s; cancellingQueryId := v; outbox := outbox s |}.

Definition send (r : Request) s := {|
  secondsRemaining := secondsRemaining s; schemaSearch := schemaSearch s;
  editorView := editorView s; selectedSql := selectedSql s;
  loadedResultPage := loadedResultPage s; form_connection_id := form_connection_id s;
  form_sql := form_sql s; cancellingQueryId := cancellingQueryId s; outbox := r :: outbox s |}.

Definition updateSql (value : string) (s : State) : State := set_form_sql value (setSelectedSql "" s).

Definition loadResultPage (page : Z) (s : State) : State :=
  match latest_query session, resultPage s with
  | Some latestQuery, Some _ => send (LoadResults (query_id latestQuery) page) s
  | _, _ => s
  end.

(** The [then] of a request for a page; [queryId] is the query it was asked for. *)
Definition resultPageLoaded (queryId : Z) (next : option ResultPage) (s : State) : State :=
  match next with
  | None => s
  | Some page => setLoadedResultPage (Some (queryId, page)) s
  end.

(** The editor reports a new document to [onChange] and a selection to [onSelectionChange]. *)
Definition editorChanged (view : EditorView) (s : State) : State :=
  setEditorView (Some view) (updateSql (doc view) s).

Definition selectionChanged (view : EditorView) (s : State) : State :=
  setEditorView (Some view) (setSelectedSql (sliceDoc view (sel_from view) (sel_to view)) s).

(** [dispatch] of a replacement of the selection, with the cursor behind it. *)
Definition replaceSelection (view : EditorView) (snippet : string) : EditorView :=
  let cursor := (sel_from view + String.length snippet)%nat in
  {| doc := take_str (sel_from view) (doc view) ++ snippet ++ drop_str (sel_to view) (doc view);
     sel_from := cursor; sel_to := cursor |}.

Definition insertSnippet (snippet : string) (s : State) : State :=
  match editorView s with
  | Some view =>
      let view' := replaceSelection view snippet in
      selectionChanged view' (editorChanged view' s)
  | None => updateSql (trimStart (trimEnd (form_sql s) ++ " " ++ snippet)) s
  end.

(** [None]: the formatter throws. *)
Definition formatSql (s : State) : option State :=
  if str_eq (trim (form_sql s)) "" then Some s
  else
    formatted ← format formatterLanguage (form_sql s);
    Some (updateSql formatted s).

Definition sql_to_run (s : State) : string :=
  match editorView s with
  | Some view =>
      if (sel_from view =? sel_to view)%nat then form_sql s
      else sliceDoc view (sel_from view) (sel_to view)
  | None => form_sql s
  end.

Definition runQuery (s : State) : State :=
  if negb (isSessionActive s) || hasActiveQuery then s
  else send (StoreQuery (session_id session) (form_connection_id s) (sql_to_run s)) s.

Definition cancelQuery (queryId : Z) (s : State) : State :=
  send (CancelQuery queryId) (setCancellingQueryId (Some queryId) s).

(** [onFinish] of the cancellation *)
Definition cancelFinished (s : State) : State := setCancellingQueryId None s.

Definition switchConnection (databaseConnectionId : string) (s : State) : State :=
  if str_eq databaseConnectionId (str_of_Z (connection_id (connection session))) then s
  else send (ShowSession (session_id session) (str_to_number databaseConnectionId))
         (setSelectedSql "" s).

(** The timer of lines 591-604. *)
Definition tick (now : Z) (s : State) : State :=
  set_seconds (remainingSeconds now (expires_at session)) s.

(** The effect of lines 606-608, when the connection of the session changes. *)
Definition connectionChanged (s : State) : State :=
  set_form_connection_id (str_of_Z (connection_id (connection session))) s.
End session.

(** ** Sessions in time *)

Section steps.
Context (format : string -> string -> option string) (session : QuerySession).

(** Everything that can happen on the page of a session, apart from timers and answers.  The
    editor is created with the form's SQL, and is brought in line with it after the page has
    changed it ([us_synced]). *)
Inductive user_step : State -> State -> Prop :=
  | us_run s : user_step s (runQuery session s)
  | us_update value s : user_step s (updateSql value s)
  | us_load page s : user_step s (loadResultPage session page s)
  | us_snippet snippet s : user_step s (insertSnippet snippet s)
  | us_format s s' : formatSql format session s = Some s' -> user_step s s'
  | us_cancel queryId s : user_step s (cancelQuery queryId s)
  | us_cancel_finished s : user_step s (cancelFinished s)
  | us_switch id s : user_step s (switchConnection session id s)
  | us_search value s : user_step s (setSchemaSearch value s)
  | us_editor view s : user_step s (editorChanged view s)
  | us_select view s : user_step s (selectionChanged view s)
  | us_synced view s : doc view = form_sql s -> user_step s (setEditorView (Some view) s)
  | us_connection s : user_step s (connectionChanged session s).

(** A user does not change the remaining time, nor the result page that was loaded. *)
Lemma user_step_frame s s' : user_step s s' ->
  secondsRemaining s' = secondsRemaining s /\ loadedResultPage s' = loadedResultPage s.
Proof.
  destruct 1; try done.
  - unfold runQuery. by case_match.
  - unfold loadResultPage. by destruct (latest_query session), (resultPage session s).
  - unfold insertSnippet. by destruct (editorView s).
  - unfold formatSql in H. destruct (str_eq _ _); [by injection H as <-|].
    apply bind_Some in H as (formatted & _ & [= <-]). done.
  - unfold switchConnection. by destruct (str_eq _ _).
Qed.

Lemma user_step_outbox s s' r : user_step s s' -> outbox s' = r :: outbox s ->
  match r with
  | StoreQuery _ _ _ => s' = runQuery session s
  | _ => True
  end.
Proof.
  assert (Hne : forall (x : Request) l, l <> x :: l).
  { intros x l H. apply (f_equal length) in H. simpl in H. lia. }
  destruct 1; intros Ho; try (by apply Hne in Ho); destruct r; try done.
  - unfold loadResultPage in Ho. by destruct (latest_query session), (resultPage session s);
      first [by apply Hne in Ho|injection Ho].
  - unfold insertSnippet in Ho. by destruct (editorView s); apply Hne in Ho.
  - unfold formatSql in H. destruct (str_eq _ _); [injection H as <-; by apply Hne in Ho|].
    apply bind_Some in H as (formatted & _ & [= <-]). by apply Hne in Ho.
  - unfold switchConnection in Ho. destruct (str_eq _ _); [by apply Hne in Ho|by injection Ho].
Qed.

End steps.

(** The page with the session last received, the time of its last tick and the time now.  The
    interval fires every second: an event comes less than a second after the last tick.  The server
    sends new versions of the session (polls, visits); the expiry of a session is set when it is
    created and never changes. *)
Record Timed := { current : QuerySession; clock : Z; last_tick : Z; page : State }.

Inductive timed_step (format : string -> string -> option string) : Timed -> Timed -> Prop :=
  | ts_tick now c : clock c <= now ->
      timed_step format c
        {| current := current c; clock := now; last_tick := now;
           page := tick (current c) now (page c) |}
  | ts_session session' now c : clock c <= now < last_tick c + 1000 ->
      expires_at session' = expires_at (current c) ->
      timed_step format c
        {| current := session'; clock := now; last_tick := last_tick c; page := page c |}
  | ts_loaded queryId next now c : clock c <= now < last_tick c + 1000 ->
      timed_step format c
        {| current := current c; clock := now; last_tick := last_tick c;
           page := resultPageLoaded queryId next (page c) |}
  | ts_user now c s' : clock c <= now < last_tick c + 1000 ->
      user_step format (current c) (page c) s' ->
      timed_step format c
        {| current := current c; clock := now; last_tick := last_tick c; page := s' |}.

Definition opened (session : QuerySession) (now : Z) : Timed :=
  {| current := session; clock := now; last_tick := now; page := initialState session now |}.

Definition timed_ok (session : QuerySession) (c : Timed) : Prop :=
  expires_at (current c) = expires_at session /\
  secondsRemaining (page c) = remainingSeconds (last_tick c) (expires_at session).

Lemma timed_step_ok format session c c' :
  timed_step format c c' -> timed_ok session c -> timed_ok session c'.
Proof.
  destruct 1 as [now c Hle|session' now c Hnow He|queryId next now c Hnow|now c s' Hnow Hu];
    intros [E Hs]; split; cbn [current page last_tick]; try done.
  - unfold tick. simpl. by rewrite E.
  - by rewrite He.
  - unfold resultPageLoaded. by destruct next.
  - by rewrite (proj1 (user_step_frame _ _ _ _ Hu)).
Qed.

Lemma timed_invariant format session now0 c :
  rtc (timed_step format) (opened session now0) c -> timed_ok session c.
Proof.
  intros H. assert (H0 : timed_ok session (opened session now0)) by done.
  induction H; [done|]. eauto using timed_step_ok.
Qed.

(** A query is sent by [runQuery] only. *)
Lemma timed_step_sends format c c' id conn sql :
  timed_step format c c' -> outbox (page c') = StoreQuery id conn sql :: outbox (page c) ->
  page c' = runQuery (current c) (page c) /\ clock c' < last_tick c + 1000.
Proof.
  assert (Hne : forall (x : Request) l, l <> x :: l).
  { intros x l H. apply (f_equal length) in H. simpl in H. lia. }
  destruct 1 as [now c Hle|session' now c Hnow He|queryId next now c Hnow|now c s' Hnow Hu];
    cbn [page clock]; intros Ho; try (by apply Hne in Ho).
  - unfold resultPageLoaded in Ho. by destruct next; apply Hne in Ho.
  - pose proof (user_step_outbox _ _ _ _ _ Hu Ho) as ->. split; [done|lia].
Qed.

Lemma runQuery_sends session s id conn sql :
  outbox (runQuery session s) = StoreQuery id conn sql :: outbox s ->
  isSessionActive session s = true /\ hasActiveQuery session = false /\
  id = session_id session /\ conn = form_connection_id s /\ sql = sql_to_run s.
Proof.
  unfold runQuery. intros Ho. destruct (isSessionActive session s), (hasActiveQuery session);
    simpl in Ho; try (apply (f_equal length) in Ho; simpl in Ho; lia).
  injection Ho as <- <- <-. done.
Qed.

(** C35.  No query is sent after its session has expired: in every run of the page in which the
    timer ticks each second, however polls, answers and user actions interleave, a query is posted
    only before the expiry of the session, while the version of the session on display is active
    and has no query that is queued, running or being cancelled; what is posted is the selected
    SQL, or the whole editor without a selection. *)
Theorem no_query_after_expiry format session now0 c c' id conn sql T :
  rtc (timed_step format) (opened session now0) c ->
  timed_step format c c' ->
  parse_date (expires_at session) = Some T ->
  outbox (page c') = StoreQuery id conn sql :: outbox (page c) ->
  clock c' < T /\ is_active (current c) = true /\ hasActiveQuery (current c) = false /\
  id = session_id (current c) /\ conn = form_connection_id (page c) /\ sql = sql_to_run (page c).
Proof.
  intros Hr Hs HT Ho. apply timed_invariant in Hr as [He Hsec].
  destruct (timed_step_sends _ _ _ _ _ _ Hs Ho) as [Hp Hc]. rewrite Hp in Ho.
  apply runQuery_sends in Ho as (Ha & Hq & Hid & Hconn & Hsql).
  unfold isSessionActive in Ha. apply andb_true_iff in Ha as [Hact Hn].
  rewrite Hsec in Hn. unfold remainingSeconds in Hn. rewrite HT in Hn. simpl in Hn.
  split_and!; try done. apply Z.ltb_lt in Hn. clear -Hn Hc.
  assert (1 <= (T - last_tick c) / 1000) by lia. div_lia.
Qed.

Definition example_session : QuerySession := {|
  session_id := 7; started_at := "2026-10-02T09:00:00Z"; ended_at := None; requester := "Ada";
  expires_at := "2026-10-02T10:00:00Z"; is_active := true;
  native_transport := false; request_id := 3; request_title := "DEP-1"; access_mode := ReadQuery;
  connection := {| connection_id := 1; connection_name := "main"; connection_driver := "mysql" |};
  connections := []; latest_query := None; queries := [] |}.

(** A poll arrives, the user types a query and runs it 900 ms after the last tick. *)
Lemma no_query_after_expiry_witness :
  let c0 := opened example_session 1790935198000 in
  let c := {| current := example_session; clock := 1790935198000; last_tick := 1790935198000;
              page := editorChanged {| doc := "select 1"; sel_from := 0; sel_to := 0 |}
                        (page c0) |} in
  let c' := {| current := example_session; clock := 1790935198900; last_tick := 1790935198000;
               page := runQuery example_session (page c) |} in
  outbox (page c') = [StoreQuery 7 "1" "select 1"] /\ clock c' < 1790935200000.
Proof.
  intros c0 c c'. split; [vm_compute; reflexivity|].
  refine (proj1 (no_query_after_expiry (fun _ sql => Some sql) example_session 1790935198000 c
    c' 7 "1" "select 1" 1790935200000 _ _ _ _)).
  - eapply rtc_l; [apply (ts_session _ example_session 1790935198000 c0);
      [vm_compute; split; congruence|reflexivity]|].
    apply rtc_once. apply (ts_user _ 1790935198000 c0); [vm_compute; split; congruence|].
    apply us_editor.
  - apply (ts_user _ 1790935198900 c); [vm_compute; split; congruence|]. apply us_run.
  - vm_compute. reflexivity.
  - vm_compute. reflexivity.
Defined.

(** ** Result pages *)

Section results.
Context (format : string -> string -> option string).

(** The page with the session last received, and the pages the server has sent per query. *)
Record Loaded := { props : QuerySession; state : State; answers : list (Z * ResultPage) }.

(** A new version of the session arrives (a poll, a visit), the user acts, a requested page
    arrives, or a request for a page fails; in any order. *)
Inductive result_step : Loaded -> Loaded -> Prop :=
  | rs_session session' c :
      result_step c {| props := session'; state := state c; answers := answers c |}
  | rs_act s' c : user_step format (props c) (state c) s' ->
      result_step c {| props := props c; state := s'; answers := answers c |}
  | rs_answer queryId n next c : LoadResults queryId n ∈ outbox (state c) ->
      result_step c {| props := props c; state := resultPageLoaded queryId (Some next) (state c);
                       answers := (queryId, next) :: answers c |}
  | rs_failure queryId c :
      result_step c {| props := props c; state := resultPageLoaded queryId None (state c);
                       answers := answers c |}.

Definition loaded_ok (c : Loaded) : Prop :=
  forall queryId page, loadedResultPage (state c) = Some (queryId, page) -> (queryId, page) ∈ answers c.

Lemma result_step_ok c c' : result_step c c' -> loaded_ok c -> loaded_ok c'.
Proof.
  destruct 1 as [session' c|s' c Hu|queryId n next c Hin|queryId c]; intros Hok q p Hp.
  - by apply Hok.
  - apply Hok. by rewrite <- (proj2 (user_step_frame _ _ _ _ Hu)).
  - simpl in Hp. injection Hp as -> ->. apply list_elem_of_here.
  - by apply Hok.
Qed.
End results.

(** The result page on display is always one of the latest query: however polls, page
    requests, answers and user actions interleave, it is the page that came with the latest query
    or an answer of the server to a request for that very query. *)
Theorem result_page_of_latest_query format session now c page :
  rtc (result_step format)
    {| props := session; state := initialState session now; answers := [] |} c ->
  resultPage (props c) (state c) = Some page ->
  exists query, latest_query (props c) = Some query /\
    (result_page query = Some page \/ (query_id query, page) ∈ answers c).
Proof.
  intros Hr Hp.
  assert (Hok : loaded_ok c).
  { assert (H0 : loaded_ok {| props := session; state := initialState session now; answers := [] |})
      by done.
    induction Hr; [done|]. eauto using result_step_ok. }
  unfold resultPage in Hp. destruct (loadedResultPage (state c)) as [[q p]|] eqn:E.
  - case_bool_decide as Hq.
    + injection Hp as ->. symmetry in Hq. apply fmap_Some in Hq as (query & -> & ->).
      exists query. split; [done|]. right. by apply Hok.
    + apply bind_Some in Hp as (query & -> & Hq'). eauto.
  - apply bind_Some in Hp as (query & -> & Hq'). eauto.
Qed.

Definition example_page (n : Z) : ResultPage := {|
  page_data := [[("id", Some (str_of_Z n)); ("note", None)]];
  meta := {| current_page := n; from := Some n; last_page := 3; per_page := 1; to := Some n;
             total := 3 |} |}.

Definition example_query (id : Z) : SessionQuery := {|
  query_id := id; query_sql := "select 1"; query_type := ReadQuery; status := ExecSucceeded;
  timeout_seconds := None; can_cancel := false; duration_ms := Some 3; row_count := Some 3;
  result_truncated := false; sample_rows := None; result_page := Some (example_page 1);
  error_message := None; created_at := None; query_connection := None |}.

Definition session_with (query : SessionQuery) : QuerySession := {|
  session_id := 7; started_at := "2026-10-02T09:00:00Z"; ended_at := None; requester := "Ada";
  expires_at := "2026-10-02T10:00:00Z"; is_active := true;
  native_transport := false; request_id := 3; request_title := "DEP-1"; access_mode := ReadQuery;
  connection := connection example_session; connections := []; latest_query := Some query;
  queries := [query] |}.

(** Page 2 of query 11 is asked for, query 12 becomes the latest, and the answer comes late. *)
Lemma result_page_of_latest_query_witness :
  exists c, answers c = [(11, example_page 2)] /\
    resultPage (props c) (state c) = Some (example_page 1) /\
    exists query, latest_query (props c) = Some query /\
      (result_page query = Some (example_page 1) \/ (query_id query, example_page 1) ∈ answers c).
Proof.
  set (s0 := initialState (session_with (example_query 11)) 0).
  set (s1 := loadResultPage (session_with (example_query 11)) 2 s0).
  set (s2 := resultPageLoaded 11 (Some (example_page 2)) s1).
  exists {| props := session_with (example_query 12); state := s2; answers := [(11, example_page 2)] |}.
  split; [reflexivity|]. split; [vm_compute; reflexivity|].
  apply (result_page_of_latest_query (fun _ sql => Some sql) (session_with (example_query 11)) 0);
    [|vm_compute; reflexivity].
  eapply rtc_l; [apply (rs_act _ s1 {| props := session_with (example_query 11); state := s0;
    answers := [] |})|].
  - apply us_load.
  - eapply rtc_l; [apply (rs_session _ (session_with (example_query 12)))|].
    apply rtc_once. apply (rs_answer _ 11 2 (example_page 2)). apply list_elem_of_here.
Defined.
