(* ===== verification/QuerySessionView.v ===== *)
(** * The page of a query session

    [resources/js/pages/query-sessions/show.tsx], lines 226-397 and 610-1098: the result table,
    the dialog that ends a session and the page, rendered in a state of [QuerySession].  The panel
    of native client sessions is a component of its own and appears as an element. *)

From Stdlib Require Import String.
From S2P Require Import Prelude JsString JsDate CrucibleLib View ConnectionCombobox Badges.
From S2P Require Import SqlEditor Results QuerySession.

Open Scope string_scope.
Open Scope Z_scope.
Open Scope list_scope.

Section page.
Context (format : string -> string -> option string) (to_locale : Z -> string).
Context (intl : string -> option string -> string).
Context (request_url export_url end_form : Z -> string).
Context (timezone : string).
Context (session : QuerySession) (tables : list SchemaTable).

Implicit Types (s : State) (errors : list (string * string)).

(** Lines 291-334 *)
Definition ResultPager (resultPage : option ResultPage) (loading : bool)
    (onPageChange : Z -> State -> State) : list (node State) :=
  match resultPage with
  | None => []
  | Some p =>
      when (1 <? last_page (meta p))
        [elem "div"
           [elem "span"
              [Txt ("Showing " ++ number_or "" (from (meta p)) ++ "–" ++ number_or "" (to (meta p)) ++
                    " of " ++ str_of_Z (total (meta p)) ++ " rows")%string];
            elem "div"
              [El TButton [Attr "type" "button"; Attr "aria-label" "Previous result page";
                           Flag "disabled" (loading || (current_page (meta p) =? 1));
                           on_click (onPageChange (current_page (meta p) - 1))] [];
               elem "span" [Txt (str_of_Z (current_page (meta p)) ++ " / " ++
                                 str_of_Z (last_page (meta p)))%string];
               El TButton [Attr "type" "button"; Attr "aria-label" "Next result page";
                           Flag "disabled"
                             (loading || (current_page (meta p) =? last_page (meta p)));
                           on_click (onPageChange (current_page (meta p) + 1))] []]]]
  end.

(** Lines 226-337 *)
Definition ResultTable (rows : list Row) (resultPage : option ResultPage) (loading : bool)
    (onPageChange : Z -> State -> State) : node State :=
  let columns := result_columns rows in
  match rows with
  | [] => elem "div" [Txt "Run a query to see results here."]
  | _ =>
      elem "div"
        ([elem "div"
            [elem "table"
               [elem "thead"
                  [elem "tr" (map (fun column => El (Tag "th") [Attr "key" column] [Txt column]) columns)];
                elem "tbody"
                  (imap (fun index row =>
                     El (Tag "tr") [Attr "key" (str_of_nat index)]
                       (map (fun column => El (Tag "td") [Attr "key" column] [Txt (cell row column)])
                          columns)) rows)]]] ++
         ResultPager resultPage loading onPageChange)
  end.

(** Lines 339-397 *)
Definition EndSessionDialog (processing : bool) errors : node State :=
  elem "Dialog"
    [elem "DialogTrigger" [El TButton [Attr "type" "button"] [Txt "End session"]];
     elem "DialogContent"
       [elem "DialogHeader"
          [elem "DialogTitle" [Txt "End this access session?"];
           elem "DialogDescription" [Txt "This immediately disconnects every client for this request. The request remains in audit history as cancelled."]];
        El (Tag "Form") [Attr "action" (end_form (session_id session))]
          ([El (Tag "label") [Attr "for" "end-session-reason"] [Txt "Reason for ending access"];
            El TTextarea [Attr "id" "end-session-reason"; Attr "name" "reason"; Attr "rows" "3";
                          Flag "required" true;
                          Attr "placeholder" "Why should this access session end?"] []] ++
           InputError (error_of errors "reason") ++
           [elem "DialogFooter"
              [elem "DialogClose" [El TButton [Attr "type" "button"] [Txt "Keep session"]];
               El TButton [Flag "disabled" processing]
                 [Txt (if processing then "Ending session..." else "End session")]]])]].

(** Lines 649-655 and 727-733: the countdown and the end of the session *)
Definition sessionControls s (ending : bool) errors : list (node State) :=
  [El (Tag "Link") [Attr "href" (request_url (request_id session))] [Txt "Back"];
   elem "div" [Txt (if isSessionActive session s then remainingLabel (secondsRemaining s)
                    else "Expired")]] ++
  when (isSessionActive session s) [EndSessionDialog ending errors].

(** Lines 610-674: a session of a native client *)
Definition nativeClientPage s (ending : bool) errors : node State :=
  elem "Fragment"
    [El (Tag "Head") [Attr "title" ("Native client: " ++ request_title session)%string] [];
     elem "div"
       [elem "div"
          [elem "div"
             [elem "div"
                [elem "div" [Txt (connection_name (connection session)); elem "span" [Txt "/"];
                             Txt (driverLabel (connection_driver (connection session)))];
                 elem "h1" [Txt (request_title session)];
                 elem "p" [Txt "Native client session. Every connection and statement is governed for this approved access window."]];
              elem "div" (sessionControls s ending errors)]];
        El (Tag "NativeProxySessionPanel") [Attr "key" (str_of_Z (session_id session))] []]].

Definition as_option (c : SessionConnection) : ConnectionOption := {|
  option_id := connection_id c; option_name := connection_name c;
  option_driver := connection_driver c;
  option_host := None; option_port := None; option_database := None |}.

(** Lines 682-736 *)
Definition sessionHeader s (ending : bool) errors : node State :=
  elem "div"
    [elem "div"
       [elem "div"
          [elem "div" [elem "span" [Txt (connection_name (connection session))];
                       elem "span" [Txt "/"];
                       elem "span" [Txt (driverLabel (connection_driver (connection session)))]];
           elem "h1" [Txt (request_title session)];
           elem "p" [Txt (match access_mode session with
                          | WriteQuery => "Read + write session. Data-changing SQL is permitted for the approved access window."
                          | ReadQuery => "Read-only session. Data-changing SQL is blocked for the approved access window."
                          end)];
           elem "div"
             (ConnectionCombobox (map as_option (connections session))
                (Some "Schema and queries use this approved connection.") None
                (Some "Active connection") (Some "")
                (switchConnection session) (str_of_Z (connection_id (connection session))))];
        elem "div" (sessionControls s ending errors)]].

(** Lines 752-763 *)
Definition sessionEditor s : EditorProps State := {|
  SqlEditor.value := form_sql s;
  onChange := updateSql;
  SqlEditor.driver := Some (connection_driver (connection session));
  SqlEditor.tables := tables;
  height := Some "100%";
  minHeight := Some "100%";
  readOnly := negb (isSessionActive session s);
  placeholder := None;
  autoFocus := false;
  onEditorReady := Some (fun view => setEditorView (Some view));
  onSelectionChange := Some setSelectedSql;
  onRunShortcut := Some (runQuery session) |}.

(** Lines 801-805 *)
Definition runLabel s : string :=
  if hasActiveQuery session then "Query in progress"
  else if str_eq (trim (selectedSql s)) "" then "Run" else "Run selected".

(** Lines 740-810 *)
Definition sqlCard s (processing : bool) errors : node State :=
  elem "Card"
    [elem "CardHeader" [elem "div" [elem "CardTitle" [Txt "SQL"]]];
     elem "CardContent"
       [elem "div"
          [SqlEditor (sessionEditor s)];
        elem "div"
          [elem "div"
             (InputError (error_of errors "database_connection_id") ++
              InputError (error_of errors "sql") ++
              [elem "p" [Txt "Cmd/Ctrl + Enter: run the selected statement. Without a selection, Run submits the entire editor, which must contain one SQL statement."]]);
           elem "div"
             [El TButton [Attr "type" "button";
                          on_click (fun current => formatSql format session current ?? current);
                          Flag "disabled" (negb (isSessionActive session s))] [Txt "Format"];
              El TButton [Attr "type" "button";
                          Flag "disabled" (processing || negb (isSessionActive session s) ||
                                           hasActiveQuery session);
                          on_click (runQuery session)]
                [Txt (runLabel s)]]]]].

(** [disabled] and the text of a button that cancels a query *)
Definition cancelButton s (query : SessionQuery) (waiting label : string) : node State :=
  let cancelling := bool_decide (cancellingQueryId s = Some (query_id query)) in
  El TButton [Attr "type" "button"; Flag "disabled" cancelling;
              on_click (cancelQuery (query_id query))]
    [Txt (if cancelling then waiting else label)].

Definition rowsAndDuration (query : SessionQuery) : string :=
  (number_or "—" (row_count query) ++ (if result_truncated query then "+" else "") ++ " rows / " ++
   number_or "—" (duration_ms query) ++ " ms")%string.

(** Lines 816-904 *)
Definition resultsHeader s : node State :=
  elem "CardHeader"
    ([elem "div"
        ([elem "div" [elem "CardTitle" [Txt "Results"]]] ++
         match latest_query session with
         | None => []
         | Some query =>
             [elem "div"
                ([StatusBadge (execution_status_text (status query)) None] ++
                 match query_connection query with
                 | Some c => [elem "span" [Txt (connection_name c)]]
                 | None => []
                 end ++
                 [elem "span" [Txt (rowsAndDuration query)]] ++
                 when (can_cancel query) [cancelButton s query "Cancelling..." "Cancel query"] ++
                 when (is_some (resultPage session s) && isSessionActive session s)
                   [El (Tag "a") [Attr "href" (export_url (query_id query))] [Txt "Export CSV"]])]
         end)] ++
     match resultPage session s with
     | None => []
     | Some p =>
         [elem "p"
            [Txt (if (result_truncated <$> latest_query session) ?? false
                  then "Showing the first " ++ to_locale (total (meta p)) ++
                       " rows. The interactive result limit was reached."
                  else "All " ++ to_locale (total (meta p)) ++
                       " returned rows are available until this session ends.")%string]]
     end).

(** Lines 905-933 *)
Definition resultsContent s (loading : bool) : node State :=
  let table := ResultTable (latestRows session s) (resultPage session s) loading
                 (loadResultPage session) in
  elem "CardContent"
    [match latest_query session with
     | None => table
     | Some query =>
         match status query with
         | ExecQueued => elem "div" [Txt "Starting query…"]
         | ExecCancelling => elem "div" [Txt "Cancelling the database query…"]
         | ExecRunning =>
             elem "div" [Txt ("Running with a " ++ number_or "configured" (timeout_seconds query) ++
                              " second time limit…")%string]
         | _ =>
             if truthy_opt (error_message query)
             then elem "div" [elem "div" [Txt (error_message query ?? "")]]
             else table
         end
     end].

(** Lines 938-1017 *)
Definition schemaCard s : node State :=
  elem "Card"
    [elem "CardHeader"
       [elem "div" [elem "CardTitle" [Txt "Schema"];
                    elem "span" [Txt (str_of_nat (length tables) ++ " tables")%string]];
        elem "div"
          [El TInput [Attr "value" (schemaSearch s); on_change setSchemaSearch;
                      Attr "placeholder" "Search tables or columns"] []]];
     elem "CardContent"
       (map (fun table =>
          El (Tag "details") [Attr "key" (table_name table)]
            [elem "summary"
               [El TButton [Attr "type" "button"; on_click (insertSnippet (table_name table))]
                  [elem "span" [Txt (table_name table)]];
                elem "span" [Txt (str_of_nat (length (columns table)))]];
             elem "div"
               (map (fun column =>
                  El TButton [Attr "key" (table_name table ++ "." ++ column_name column)%string;
                              Attr "type" "button"; on_click (insertSnippet (column_name column))]
                    [elem "span" [Txt (column_name column)];
                     elem "span" [Txt (column_type column ?? "column")]]) (columns table) ++
                when (length (columns table) =? 0)%nat
                  [elem "div" [Txt "No columns discovered."]])])
          (filteredTables tables s) ++
        when (length (filteredTables tables s) =? 0)%nat
          [elem "div" [Txt "No matching schema items."]])].

(** Lines 1019-1092 *)
Definition historyCard s : node State :=
  elem "Card"
    [elem "CardHeader" [elem "CardTitle" [Txt "Query History"]];
     elem "CardContent"
       (map (fun query =>
          El (Tag "div") [Attr "key" (str_of_Z (query_id query))]
            ([elem "div"
                ([StatusBadge (execution_status_text (status query)) None;
                  StatusBadge (query_type_text (query_type query))
                    (Some (statusLabel (query_type_text (query_type query))))] ++
                 match query_connection query with
                 | Some c => [elem "span" [Txt (connection_name c)]]
                 | None => []
                 end ++
                 when (can_cancel query) [cancelButton s query "Cancelling…" "Cancel"]);
              elem "code" [Txt (query_sql query)]] ++
             when (truthy_opt (error_message query))
               [elem "div" [Txt (error_message query ?? "")]] ++
             [elem "div" [Txt (rowsAndDuration query ++ " / " ++
                               formatDate intl (created_at query) (Some timezone))%string]]))
          (queries session) ++
        when (length (queries session) =? 0)%nat
          [elem "div" [Txt "No session queries yet."]])].

(** Lines 610-1098 *)
Definition QuerySessionShow s (processing loading ending : bool) errors endErrors : node State :=
  if native_transport session then nativeClientPage s ending endErrors
  else
    elem "Fragment"
      ([El (Tag "Head") [Attr "title" ("Session: " ++ request_title session)%string] []] ++
       when (hasActiveQuery session) [elem "QueryExecutionPoller" []] ++
       [elem "div"
          [sessionHeader s ending endErrors;
           elem "div"
             [elem "div"
                [sqlCard s processing errors;
                 elem "Card" [resultsHeader s; resultsContent s loading]];
              elem "aside" [schemaCard s; historyCard s]]]]).
End page.

(** ** The controls of a page and where they are *)

(** A control that is not disabled: the keys of the elements around it, from outside, and its own; its
    element; what a button is called; and its handler. *)
Record Located (S : Type) := Locate {
  keys : list string;
  element : tag;
  caption : string;
  handler_of : handler S;
}.
Arguments Locate {S}.
Arguments keys {S}.
Arguments element {S}.
Arguments caption {S}.
Arguments handler_of {S}.

Definition button_caption {S} (t : tag) (ps : list (prop S)) (ks : list (node S)) : string :=
  match t with
  | TButton => attr "aria-label" ps ?? join "" (flat_map texts ks)
  | _ => ""
  end.

Definition own_controls {S} (path : list string) (t : tag) (ps : list (prop S)) (ks : list (node S))
    : list (Located S) :=
  if flag "disabled" ps then [] else map (Locate path t (button_caption t ps ks)) (handlers ps).

Fixpoint controls_in {S} (path : list string) (n : node S) : list (Located S) :=
  match n with
  | Txt _ => []
  | El t ps ks =>
      let path := path ++ option_list (attr "key" ps) in
      own_controls path t ps ks ++ flat_map (controls_in path) ks
  end.

Definition controls {S} (n : node S) : list (Located S) := controls_in [] n.

(** They are the actions of the page. *)
Lemma controls_actions {S} : forall path (n : node S), map handler_of (controls_in path n) = actions n.
Proof.
  intros path n. revert n path. fix IH 1. intros [t|t ps ks] path; [done|]. simpl. rewrite map_app. f_equal.
  - unfold own_controls. destruct (flag _ _); [done|]. rewrite map_map. apply map_id.
  - generalize (path ++ option_list (attr "key" ps)). intros path'.
    induction ks as [|k ks IHk]; simpl; [done|]. by rewrite map_app, IH, IHk.
Qed.

Section located.
Context {S : Type}.
Implicit Types (path : list string) (ks : list (node S)).

Lemma controls_elem path name ks : controls_in path (elem name ks) = flat_map (controls_in path) ks.
Proof. simpl. by rewrite app_nil_r. Qed.

Lemma controls_when path (b : bool) ks : flat_map (controls_in path) (when b ks) = when b (flat_map (controls_in path) ks).
Proof. by destruct b. Qed.

Lemma controls_InputError path m : flat_map (controls_in path) (InputError m) = ([] : list (Located S)).
Proof. by destruct m as [[|]|]. Qed.

Lemma controls_imap_nil {A} path (g : nat -> A -> node S) (l : list A) :
  (forall i x, controls_in path (g i x) = []) -> flat_map (controls_in path) (imap g l) = [].
Proof. revert g. induction l as [|x l IH]; intros g H; [done|]. simpl. rewrite H. apply (IH (g ∘ Datatypes.S)). intros i y. apply H. Qed.

Lemma controls_map_nil {A} path (g : A -> node S) (l : list A) :
  (forall x, controls_in path (g x) = []) -> flat_map (controls_in path) (map g l) = [].
Proof. intros H. rewrite flat_map_map. by apply flat_map_nil_all. Qed.

Lemma controls_StatusBadge path v label : controls_in path (StatusBadge v label) = ([] : list (Located S)).
Proof. done. Qed.
End located.

(** ** What the page offers *)

Section controls.
Context (format : string -> string -> option string) (to_locale : Z -> string).
Context (intl : string -> option string -> string).
Context (request_url export_url end_form : Z -> string) (timezone : string).
Context (session : QuerySession) (tables : list SchemaTable).

Implicit Types (s : State) (errors : list (string * string)).

Inductive Control :=
  | SwitchConnection
  | EditSql
  | RunShortcut
  | Format
  | Run
  | CancelLatest (query : SessionQuery)
  | PreviousPage (current : Z)
  | NextPage (current : Z)
  | SearchSchema
  | InsertTable (table : SchemaTable)
  | InsertColumn (table : SchemaTable) (column : SchemaColumn)
  | CancelInHistory (query : SessionQuery).

(** What a control does. *)
Definition use (c : Control) (ev : event) (s : State) : State :=
  match c with
  | SwitchConnection =>
      match ev with
      | Pick positions =>
          match picked (map as_option (connections session)) positions with
          | connection :: _ => switchConnection session (str_of_Z (option_id connection)) s
          | [] => switchConnection session "" s
          end
      | _ => s
      end
  | EditSql => match ev with Change sql => updateSql sql s | _ => s end
  | RunShortcut | Run => runQuery session s
  | Format => formatSql format session s ?? s
  | CancelLatest query | CancelInHistory query => cancelQuery (query_id query) s
  | PreviousPage current => loadResultPage session (current - 1) s
  | NextPage current => loadResultPage session (current + 1) s
  | SearchSchema => match ev with Change text => setSchemaSearch text s | _ => s end
  | InsertTable table => insertSnippet (table_name table) s
  | InsertColumn table column => insertSnippet (column_name column) s
  end.

(** Where it is, and what it is called. *)
Definition place (s : State) (c : Control) : list string * tag * string :=
  match c with
  | SwitchConnection => ([], Tag "Combobox", "")
  | EditSql | RunShortcut => ([], Tag "CodeMirror", "")
  | Format => ([], TButton, "Format")
  | Run => ([], TButton, if str_eq (trim (selectedSql s)) "" then "Run" else "Run selected")
  | CancelLatest _ => ([], TButton, "Cancel query")
  | PreviousPage _ => ([], TButton, "Previous result page")
  | NextPage _ => ([], TButton, "Next result page")
  | SearchSchema => ([], TInput, "")
  | InsertTable table => ([table_name table], TButton, table_name table)
  | InsertColumn table column =>
      ([table_name table; (table_name table ++ "." ++ column_name column)%string], TButton,
       (column_name column ++ (column_type column ?? "column"))%string)
  | CancelInHistory query => ([str_of_Z (query_id query)], TButton, "Cancel")
  end.

(** When it can be used.  A query can be cancelled once; the Run button waits for the request that is out,
    and for a query that is not over. *)
Definition may_run s (processing : bool) : bool :=
  negb processing && isSessionActive session s && negb (hasActiveQuery session).

Definition may_cancel s (query : SessionQuery) : bool :=
  can_cancel query && negb (bool_decide (cancellingQueryId s = Some (query_id query))).

(** The result of the latest query is on display unless it is not over or failed. *)
Definition shows_result s : bool :=
  (0 <? length (latestRows session s))%nat &&
  match latest_query session with
  | Some query => negb (active_status (status query)) && negb (truthy_opt (error_message query))
  | None => true
  end.

Definition offered_pages s (loading : bool) : list Control :=
  match resultPage session s with
  | Some page =>
      let current := current_page (meta page) in
      when (shows_result s && (1 <? last_page (meta page)) && negb loading)
        (when (negb (current =? 1)) [PreviousPage current] ++
         when (negb (current =? last_page (meta page))) [NextPage current])
  | None => []
  end.

Definition offered s (processing loading : bool) : list Control :=
  if native_transport session then []
  else
    [SwitchConnection; EditSql; RunShortcut] ++ when (isSessionActive session s) [Format] ++
    when (may_run s processing) [Run] ++
    match latest_query session with
    | Some query => when (may_cancel s query) [CancelLatest query]
    | None => []
    end ++
    offered_pages s loading ++ [SearchSchema] ++
    flat_map (fun table => InsertTable table :: map (InsertColumn table) (columns table))
      (filteredTables tables s) ++
    flat_map (fun query => when (may_cancel s query) [CancelInHistory query]) (queries session).

Definition located s (c : Control) : Located State :=
  let '(keys, element, caption) := place s c in Locate keys element caption (fun _ => use c).

(** The requests that the use of a control sends. *)
Definition requests (c : Control) (ev : event) s : list Request :=
  match c with
  | Run => [StoreQuery (session_id session) (form_connection_id s) (sql_to_run s)]
  | RunShortcut =>
      when (isSessionActive session s && negb (hasActiveQuery session))
        [StoreQuery (session_id session) (form_connection_id s) (sql_to_run s)]
  | CancelLatest query | CancelInHistory query => [CancelQuery (query_id query)]
  | PreviousPage current =>
      option_list ((fun query => LoadResults (query_id query) (current - 1)) <$> latest_query session)
  | NextPage current =>
      option_list ((fun query => LoadResults (query_id query) (current + 1)) <$> latest_query session)
  | SwitchConnection =>
      match ev with
      | Pick positions =>
          let id := match picked (map as_option (connections session)) positions with
                    | connection :: _ => str_of_Z (option_id connection)
                    | [] => ""
                    end in
          when (negb (str_eq id (str_of_Z (connection_id (connection session)))))
            [ShowSession (session_id session) (str_to_number id)]
      | _ => []
      end
  | _ => []
  end.

(** *** The parts of the page *)

Lemma sessionControls_controls path s ending errors :
  flat_map (controls_in path) (sessionControls request_url end_form session s ending errors) = [].
Proof.
  unfold sessionControls, EndSessionDialog. rewrite flat_map_app, controls_when. cbn -[InputError].
  rewrite !flat_map_app, controls_InputError. by destruct (isSessionActive session s), ending.
Qed.

Lemma sessionHeader_controls s ending errors :
  controls (sessionHeader request_url end_form session s ending errors) = [located s SwitchConnection].
Proof.
  unfold controls, sessionHeader. rewrite !controls_elem. cbn [flat_map]. rewrite !controls_elem. cbn [flat_map].
  rewrite controls_elem. cbn [flat_map]. rewrite (controls_elem _ "div" (sessionControls _ _ _ _ _ _)), sessionControls_controls.
  rewrite (controls_elem _ "div" (ConnectionCombobox _ _ _ _ _ _ _)), !app_nil_r.
  cbn -[connection_item as_option]. rewrite !app_nil_r, flat_map_map, flat_map_nil_all by done. reflexivity.
Qed.

Lemma sqlCard_controls s processing errors :
  controls (sqlCard format session tables s processing errors) =
  map (located s) ([EditSql; RunShortcut] ++ when (isSessionActive session s) [Format] ++
                   when (may_run s processing) [Run]).
Proof.
  unfold controls, sqlCard. rewrite !controls_elem. cbn [flat_map]. rewrite !controls_elem. cbn [flat_map].
  rewrite !controls_elem. cbn [flat_map]. rewrite !controls_elem, !flat_map_app, !controls_InputError.
  unfold may_run, runLabel. cbn -[str_eq trim runQuery formatSql updateSql].
  by destruct (isSessionActive session s), processing, (hasActiveQuery session).
Qed.

Lemma cancelButton_controls path s query waiting label :
  controls_in path (cancelButton s query waiting label) =
  when (negb (bool_decide (cancellingQueryId s = Some (query_id query))))
    [Locate path TButton label (fun _ _ => cancelQuery (query_id query))].
Proof.
  unfold cancelButton. cbn -[cancelQuery]. unfold own_controls. cbn -[cancelQuery].
  destruct (bool_decide _); cbn; by rewrite ?app_nil_r.
Qed.

Lemma resultsHeader_controls s :
  controls (resultsHeader to_locale export_url session s) =
  map (located s) match latest_query session with
                  | Some query => when (may_cancel s query) [CancelLatest query]
                  | None => []
                  end.
Proof.
  unfold controls, resultsHeader. rewrite controls_elem, flat_map_app. cbn [flat_map]. rewrite controls_elem, flat_map_app.
  cbn [flat_map]. rewrite !controls_elem. cbn [flat_map].
  replace (flat_map (controls_in []) (match resultPage session s with Some _ => _ | None => [] end))
    with (@nil (Located State)) by (by destruct (resultPage session s)).
  destruct (latest_query session) as [query|]; [|done]. cbn [flat_map].
  rewrite (controls_elem _ "div" (_ ++ _)), !flat_map_app, !controls_when.
  cbn [flat_map]. rewrite controls_StatusBadge, cancelButton_controls, !app_nil_r. cbn [app].
  replace (flat_map (controls_in []) (match query_connection query with Some _ => _ | None => [] end))
    with (@nil (Located State)) by (by destruct (query_connection query)).
  replace (when (is_some (resultPage session s) && isSessionActive session s) _) with (@nil (Located State))
    by (by destruct (_ && _)).
  unfold may_cancel. rewrite app_nil_r. by destruct (can_cancel query), (bool_decide _).
Qed.

Lemma ResultPager_controls s loading :
  flat_map (controls_in []) (ResultPager (resultPage session s) loading (loadResultPage session)) =
  map (located s) match resultPage session s with
                  | Some page =>
                      let current := current_page (meta page) in
                      when ((1 <? last_page (meta page)) && negb loading)
                        (when (negb (current =? 1)) [PreviousPage current] ++
                         when (negb (current =? last_page (meta page))) [NextPage current])
                  | None => []
                  end.
Proof.
  unfold ResultPager. destruct (resultPage session s) as [page|] eqn:E; [|done]. cbv zeta.
  generalize (current_page (meta page)) (last_page (meta page)). intros current final.
  destruct (1 <? final); [|done]. cbn -[Z.eqb loadResultPage Z.sub Z.add].
  unfold own_controls. cbn -[Z.eqb loadResultPage Z.sub Z.add].
  by destruct loading, (current =? 1), (current =? final).
Qed.

Lemma ResultTable_controls s loading :
  controls (ResultTable (latestRows session s) (resultPage session s) loading (loadResultPage session)) =
  when (0 <? length (latestRows session s))%nat
    (flat_map (controls_in []) (ResultPager (resultPage session s) loading (loadResultPage session))).
Proof.
  unfold controls, ResultTable. destruct (latestRows session s) as [|row rows]; [done|].
  generalize (ResultPager (resultPage session s) loading (loadResultPage session)). intros pager.
  rewrite controls_elem, flat_map_app. cbn [flat_map]. rewrite controls_elem. cbn [flat_map].
  rewrite controls_elem. cbn [flat_map]. rewrite controls_elem. cbn [flat_map]. rewrite (controls_elem _ "tr").
  rewrite controls_map_nil by done. rewrite (controls_elem _ "tbody"), controls_imap_nil; [done|].
  intros n r. cbn [controls_in]. rewrite controls_map_nil by done. done.
Qed.

Lemma resultsContent_controls s loading :
  controls (resultsContent session s loading) = map (located s) (offered_pages s loading).
Proof.
  assert (Ht : controls (ResultTable (latestRows session s) (resultPage session s) loading (loadResultPage session)) =
    map (located s) match resultPage session s with
                    | Some page =>
                        let current := current_page (meta page) in
                        when ((0 <? length (latestRows session s))%nat && (1 <? last_page (meta page)) && negb loading)
                          (when (negb (current =? 1)) [PreviousPage current] ++
                           when (negb (current =? last_page (meta page))) [NextPage current])
                    | None => []
                    end).
  { rewrite ResultTable_controls, ResultPager_controls. destruct (_ <? _)%nat; [done|]. by destruct (resultPage session s). }
  unfold controls, resultsContent in *. rewrite controls_elem. cbn [flat_map]. rewrite app_nil_r.
  unfold offered_pages, shows_result. destruct (latest_query session) as [query|].
  - destruct (status query) eqn:Es; try destruct (truthy_opt (error_message query)); cbn [negb andb active_status];
      rewrite ?andb_false_r, ?andb_true_r; first [exact Ht | cbn; by destruct (resultPage session s)].
  - rewrite andb_true_r. exact Ht.
Qed.

Lemma schemaCard_controls s :
  controls (schemaCard tables s) =
  map (located s) (SearchSchema :: flat_map (fun table => InsertTable table :: map (InsertColumn table) (columns table))
                                     (filteredTables tables s)).
Proof.
  unfold controls, schemaCard. rewrite controls_elem. cbn [flat_map]. rewrite controls_elem. cbn [flat_map].
  rewrite controls_elem. cbn [flat_map]. rewrite !controls_elem. cbn [flat_map]. rewrite flat_map_app, controls_when.
  cbn [flat_map]. rewrite !app_nil_r. replace (when (_ =? 0)%nat _) with (@nil (Located State)) by (by destruct (_ =? _)%nat).
  rewrite app_nil_r. cbn [map]. f_equal. rewrite flat_map_map.
  induction (filteredTables tables s) as [|table l IH]; [done|]. cbn [flat_map]. rewrite map_app, IH. f_equal.
  cbn [controls_in attr]. change (option_list _) with [table_name table]. cbn [own_controls flag handlers map app flat_map].
  rewrite !controls_elem. cbn [flat_map]. rewrite flat_map_app, controls_when.
  replace (when (length (columns table) =? 0)%nat _) with (@nil (Located State)) by (by destruct (_ =? _)%nat).
  rewrite !app_nil_r, flat_map_map.
  change (located s (InsertTable table) :: map (located s) (map (InsertColumn table) (columns table)))
    with ([located s (InsertTable table)] ++ map (located s) (map (InsertColumn table) (columns table))).
  f_equal. induction (columns table) as [|column cols IHc]; [done|]. cbn [flat_map map]. by rewrite IHc.
Qed.

Lemma historyCard_controls s :
  controls (historyCard intl timezone session s) =
  map (located s) (flat_map (fun query => when (may_cancel s query) [CancelInHistory query]) (queries session)).
Proof.
  unfold controls, historyCard. rewrite controls_elem. cbn [flat_map]. rewrite !controls_elem. cbn [flat_map].
  rewrite flat_map_app, controls_when.
  replace (when (length (queries session) =? 0)%nat _) with (@nil (Located State)) by (by destruct (_ =? _)%nat).
  rewrite !app_nil_r, flat_map_map. change (controls_in [] (elem "CardTitle" [Txt "Query History"])) with (@nil (Located State)). cbn [app].
  induction (queries session) as [|query l IH]; [done|]. cbn [flat_map]. rewrite map_app, IH. f_equal.
  cbn [controls_in attr]. change (option_list _) with [str_of_Z (query_id query)]. cbn [own_controls flag handlers map app].
  cbn [flat_map]. rewrite (controls_elem _ "div" (_ :: _ :: _)). cbn [flat_map]. rewrite !flat_map_app, !controls_when.
  cbn [flat_map]. rewrite !controls_StatusBadge, cancelButton_controls, !app_nil_r. cbn [app].
  replace (flat_map _ (match query_connection query with Some _ => _ | None => [] end))
    with (@nil (Located State)) by (by destruct (query_connection query)).
  replace (when (truthy_opt (error_message query)) _) with (@nil (Located State)) by (by destruct (truthy_opt _)).
  unfold may_cancel. cbn [app]. by destruct (can_cancel query), (bool_decide _).
Qed.

(** Every control is one of the steps of a session, or leaves the state alone. *)
Lemma use_steps c ev s : use c ev s = s \/ user_step format session s (use c ev s).
Proof.
  destruct c; cbn -[runQuery cancelQuery loadResultPage insertSnippet switchConnection].
  - destruct ev; auto. right. destruct (picked _ _); apply us_switch.
  - destruct ev; auto. right. apply us_update.
  - right. apply us_run.
  - destruct (formatSql format session s) as [s'|] eqn:E; [|by left]. right. by apply us_format.
  - right. apply us_run.
  - right. apply us_cancel.
  - right. apply us_load.
  - right. apply us_load.
  - destruct ev; auto. right. apply us_search.
  - right. apply us_snippet.
  - right. apply us_snippet.
  - right. apply us_cancel.
Qed.

(** What is offered is guarded. *)
Definition guarded s (processing : bool) (c : Control) : Prop :=
  match c with
  | Run => processing = false /\ isSessionActive session s = true /\ hasActiveQuery session = false
  | PreviousPage _ | NextPage _ => is_some (resultPage session s) = true
  | _ => True
  end.

Lemma offered_guarded c s processing loading : c ∈ offered s processing loading -> guarded s processing c.
Proof.
  revert c. apply Forall_forall. unfold offered. destruct (native_transport session); [constructor|].
  rewrite !Forall_app. split_and!.
  - by repeat constructor.
  - destruct (isSessionActive session s); by repeat constructor.
  - unfold may_run. destruct processing, (isSessionActive session s) eqn:Ea, (hasActiveQuery session) eqn:Eq;
      repeat constructor; cbn; done.
  - destruct (latest_query session) as [query|]; [|constructor]. destruct (may_cancel s query); by repeat constructor.
  - unfold offered_pages. destruct (resultPage session s) as [page|] eqn:E; [|constructor]. cbv zeta.
    destruct (_ && negb loading), (negb (_ =? 1)), (negb (_ =? last_page _)); repeat constructor; cbn; by rewrite E.
  - by repeat constructor.
  - apply Forall_forall. intros c (table & _ & [->|(column & -> & _)%list_elem_of_fmap]%elem_of_cons)%elem_of_flat_map; done.
  - apply Forall_forall. intros c (query & _ & [_ ->%list_elem_of_singleton]%elem_of_when)%elem_of_flat_map. done.
Qed.

Lemma formatSql_outbox s s' : formatSql format session s = Some s' -> outbox s' = outbox s.
Proof.
  unfold formatSql. destruct (str_eq _ _); [by intros [= <-]|].
  by intros (formatted & _ & [= <-])%bind_Some.
Qed.

Lemma use_requests c ev s processing loading :
  c ∈ offered s processing loading -> outbox (use c ev s) = requests c ev s ++ outbox s.
Proof.
  intros Hc%offered_guarded. destruct c; cbn -[runQuery cancelQuery loadResultPage insertSnippet switchConnection when] in *;
    try done; try by destruct ev.
  - destruct ev; try done. destruct (picked _ _) as [|connection l]; unfold switchConnection; by destruct (str_eq _ _).
  - unfold runQuery. by destruct (isSessionActive session s), (hasActiveQuery session).
  - destruct (formatSql format session s) as [s'|] eqn:E; [|done]. by apply formatSql_outbox in E.
  - destruct Hc as (_ & Ha & Hq). unfold runQuery. by rewrite Ha, Hq.
  - unfold loadResultPage. destruct (latest_query session), (resultPage session s); done.
  - unfold loadResultPage. destruct (latest_query session), (resultPage session s); done.
  - unfold insertSnippet. by destruct (editorView s).
  - unfold insertSnippet. by destruct (editorView s).
Qed.
End controls.

(** C36.  The page of a session offers exactly the controls of [offered], in this order and each where
    [located] says: under the keys of its table, column or query, as the button with its name; and each does
    what its name says.  In particular "Run" and "Run selected" can be pressed only while the session is
    active, no request is out and no query is queued, running or being cancelled, and they send the selected
    SQL, or the whole editor; "Cancel" in the history cancels the query of its own row, "Cancel query" the
    latest one, and either only while that query can be cancelled and is not being cancelled already; the
    pager asks for the pages before and after the one on display; nothing else sends a query or cancels one,
    except the shortcut of the editor, which runs a query as the button does, but is not kept back by a
    request that is out.  No control does anything but the steps of [user_step], so what is proved about
    these steps, such as that no query is sent after the expiry, holds for the page. *)
Theorem session_page_refines_steps format to_locale intl request_url export_url end_form timezone
    session tables s processing loading ending errors endErrors :
  controls (QuerySessionShow format to_locale intl request_url export_url end_form timezone
    session tables s processing loading ending errors endErrors) =
    map (located format session s) (offered session tables s processing loading) /\
  forall c, c ∈ offered session tables s processing loading -> forall ev,
    outbox (use format session c ev s) = requests session c ev s ++ outbox s /\
    (use format session c ev s = s \/ user_step format session s (use format session c ev s)).
Proof.
  split; [|intros c Hc ev; split; [by eapply use_requests|apply use_steps]].
  unfold QuerySessionShow, offered, nativeClientPage. destruct (native_transport session).
  - unfold controls. repeat (rewrite controls_elem; cbn [flat_map]). by rewrite sessionControls_controls.
  - pose proof (sessionHeader_controls format request_url end_form session s ending endErrors) as E1.
    pose proof (sqlCard_controls format session tables s processing errors) as E2.
    pose proof (resultsHeader_controls format to_locale export_url session s) as E3.
    pose proof (resultsContent_controls format session s loading) as E4.
    pose proof (schemaCard_controls format session tables s) as E5.
    pose proof (historyCard_controls format intl timezone session s) as E6.
    revert E1 E2 E3 E4 E5 E6. generalize (sessionHeader request_url end_form session s ending endErrors),
      (sqlCard format session tables s processing errors), (resultsHeader to_locale export_url session s),
      (resultsContent session s loading), (schemaCard tables s), (historyCard intl timezone session s).
    intros n1 n2 n3 n4 n5 n6 E1 E2 E3 E4 E5 E6. unfold controls in *.
    rewrite controls_elem, !flat_map_app, controls_when. cbn [flat_map].
    repeat (rewrite controls_elem; cbn [flat_map]). rewrite !map_app. rewrite E1, E2, E3, E4, E5, E6.
    change (controls_in [] (El (Tag "Head") _ [])) with (@nil (Located State)).
    replace (when (hasActiveQuery session) ([] ++ [])) with (@nil (Located State)) by (by destruct (hasActiveQuery session)).
    rewrite !app_nil_r, <- !app_assoc, !map_app. cbn [map app]. rewrite <- !app_assoc. reflexivity.
Qed.

Definition example_view s : node State :=
  QuerySessionShow (fun _ sql => Some sql) str_of_Z (fun d _ => d) str_of_Z str_of_Z str_of_Z "UTC"
    (session_with (example_query 11)) [] s false false false [] [].

(** "Next result page" of the example is on the page, and asks for the second page. *)
Lemma session_page_refines_steps_witness :
  let session := session_with (example_query 11) in
  let s := initialState session 0 in
  let next := NextPage 1 in
  located (fun _ sql => Some sql) session s next ∈ controls (example_view s) /\
  outbox (use (fun _ sql => Some sql) session next Click s) = [LoadResults 11 2].
Proof.
  intros session s next.
  assert (Hn : next ∈ offered session [] s false false).
  { replace (offered session [] s false false) with [SwitchConnection; EditSql; RunShortcut; Format; Run; next; SearchSchema]
      by (vm_compute; reflexivity).
    do 5 right. left. }
  destruct (session_page_refines_steps (fun _ sql => Some sql) str_of_Z (fun d _ => d) str_of_Z str_of_Z str_of_Z
    "UTC" session [] s false false false [] []) as [Hpage Huse].
  split.
  - unfold example_view. fold session. rewrite Hpage. by apply list_elem_of_fmap_2.
  - destruct (Huse next Hn Click) as [-> _]. vm_compute. reflexivity.
Defined.

(** The pager of a result asks for no page that does not exist: while the page shown is one
    of the result's pages, its buttons request pages between the first and the last, and none
    while another page is being loaded. *)
Theorem pager_in_range session p loading s h now ev queryId n :
  1 <= current_page (meta p) <= last_page (meta p) ->
  h ∈ flat_map actions (ResultPager (Some p) loading (loadResultPage session)) ->
  outbox (h now ev s) = LoadResults queryId n :: outbox s ->
  loading = false /\ 1 <= n <= last_page (meta p).
Proof.
  intros Hp Hh Ho. unfold ResultPager in Hh. destruct (1 <? last_page (meta p)); [|by apply elem_of_nil in Hh].
  cbn -[loadResultPage Z.eqb] in Hh. rewrite ?app_nil_r in Hh.
  assert (Hl : forall m, outbox (loadResultPage session m s) = LoadResults queryId n :: outbox s -> n = m).
  { intros m. unfold loadResultPage. destruct (latest_query session), (resultPage session s);
      try (intros H; apply (f_equal length) in H; simpl in H; lia). by intros [= _ ->]. }
  destruct loading; cbn -[loadResultPage Z.eqb] in Hh; [by apply elem_of_nil in Hh|]. split; [done|].
  destruct (Z.eqb_spec (current_page (meta p)) 1), (Z.eqb_spec (current_page (meta p)) (last_page (meta p)));
    cbn -[loadResultPage] in Hh;
    repeat (apply elem_of_cons in Hh as [->|Hh]; [apply Hl in Ho; lia|]);
    by apply elem_of_nil in Hh.
Qed.

Lemma pager_in_range_witness :
  false = false /\ 1 <= 2 <= last_page (meta (example_page 1)).
Proof.
  apply (pager_in_range (session_with (example_query 11)) (example_page 1) false
    (initialState (session_with (example_query 11)) 0)
    (fun _ _ => loadResultPage (session_with (example_query 11)) 2) 0 Click 11).
  - vm_compute. split; congruence.
  - simpl. left.
  - vm_compute. reflexivity.
Defined.
