(* ===== verification/SessionEditor.v ===== *)
(** * The SQL editor of a query session

    The page of a query session ([QuerySession], [QuerySessionView]) together with its editor
    ([SqlEditor]): what the page knows of the selection, and what its button runs. *)

From Stdlib Require Import String.
From S2P Require Import Prelude JsString View SqlEditor QuerySession QuerySessionView.

Open Scope string_scope.
Open Scope Z_scope.
Open Scope list_scope.

Section session_editor.
Context (map_selection : EditorView -> string -> nat * nat).
Context (format : string -> string -> option string) (tables : list SchemaTable).

Section session.
(** The session of the last answer. *)
Context (session : QuerySession).

(** A transaction of the editor, and what the page is told of it. *)
Definition transacted (view : EditorView) (tr : Transaction) (s : State) : State :=
  let view' := apply_transaction map_selection view tr in
  viewUpdated (sessionEditor session tables s) tr view' (setEditorView (Some view') s).

(** The transaction that brings the editor in line with [data.sql]. *)
Definition value_transaction (value : string) : Transaction := {|
  changes := Some value; selection := None; fromValue := true |}.

(** What happens on the page: the editor is created with [data.sql]; a user types or selects in it
    while it shows [data.sql]; it is brought in line after the page has changed [data.sql]; and
    everything else that happens on the page. *)
Inductive editor_step : State -> State -> Prop :=
  | es_ready s r : editorView s = None ->
      editor_step s (snd (handleEditorReady (sessionEditor session tables s)
        {| doc := form_sql s; sel_from := 0; sel_to := 0 |} r s))
  | es_user view tr s : editorView s = Some view -> doc view = form_sql s -> fromValue tr = false ->
      editor_step s (transacted view tr s)
  | es_value view s : editorView s = Some view -> doc view <> form_sql s ->
      editor_step s (transacted view (value_transaction (form_sql s)) s)
  | es_key event s : editor_step s (snd (handleKeyDownCapture (sessionEditor session tables s) event s))
  | es_run s : editor_step s (runQuery session s)
  | es_load page s : editor_step s (loadResultPage session page s)
  | es_loaded query page s : editor_step s (resultPageLoaded query page s)
  | es_snippet snippet s : editor_step s (insertSnippet snippet s)
  | es_format s s' : formatSql format session s = Some s' -> editor_step s s'
  | es_cancel query s : editor_step s (cancelQuery query s)
  | es_cancelled s : editor_step s (cancelFinished s)
  | es_switch id s : editor_step s (switchConnection session id s)
  | es_search value s : editor_step s (setSchemaSearch value s)
  | es_tick now s : editor_step s (tick session now s)
  | es_connection s : editor_step s (connectionChanged session s).

End session.

(** The session is replaced by every answer to a poll. *)
Definition some_step (s s' : State) : Prop := exists session, editor_step session s s'.

(** What the page takes for the selection is nothing, or the selection of an editor that shows
    [data.sql]. *)
Definition selection_known (s : State) : Prop :=
  match editorView s with
  | None => selectedSql s = ""
  | Some view => selectedSql s = "" \/ (doc view = form_sql s /\ selectedSql s = selectionText view)
  end.

(** A step that keeps the editor, the form and what the page knows of the selection. *)
Lemma selection_known_frame s s' :
  editorView s' = editorView s -> form_sql s' = form_sql s -> selectedSql s' = selectedSql s ->
  selection_known s -> selection_known s'.
Proof. unfold selection_known. by intros -> -> ->. Qed.

Lemma selection_known_empty s : selectedSql s = "" -> selection_known s.
Proof. unfold selection_known. intros ->. destruct (editorView s); auto. Qed.

Lemma transacted_known session view tr s :
  editorView s = Some view -> selection_known s ->
  (fromValue tr = false /\ doc view = form_sql s \/
   selection tr = None /\ doc view <> form_sql s) ->
  selection_known (transacted session view tr s).
Proof.
  intros Hv Hs Hc. unfold selection_known in Hs. rewrite Hv in Hs.
  destruct tr as [ch sel fv], Hc as [[Hf Hd]|[Hsel Hd]]; simpl in *; subst.
  - unfold transacted, viewUpdated, selectionListener, docChanged, selectionSet, apply_transaction.
    destruct ch as [new|], sel as [[a b]|]; cbn; unfold selection_known; cbn; auto.
  - destruct Hs as [Hs|[? _]]; [|done].
    unfold transacted, viewUpdated, selectionListener, docChanged, selectionSet.
    destruct ch as [new|], fv; cbn; unfold selection_known; cbn; auto.
Qed.

Lemma insertSnippet_known snippet s : selection_known (insertSnippet snippet s).
Proof.
  unfold insertSnippet. destruct (editorView s) as [view|].
  - unfold selection_known. cbn. by right.
  - by apply selection_known_empty.
Qed.

Lemma editor_step_known session s s' : editor_step session s s' -> selection_known s -> selection_known s'.
Proof.
  destruct 1; intros Hs.
  - unfold selection_known in *. rewrite H in Hs. cbn. by left.
  - apply transacted_known; auto.
  - apply transacted_known; auto.
  - unfold handleKeyDownCapture. case_match; [done|]. cbn [snd onRunShortcut sessionEditor].
    revert Hs. apply selection_known_frame; unfold runQuery; by case_match.
  - revert Hs. apply selection_known_frame; unfold runQuery; by case_match.
  - revert Hs. apply selection_known_frame; unfold loadResultPage; by repeat case_match.
  - revert Hs. apply selection_known_frame; unfold resultPageLoaded; by case_match.
  - apply insertSnippet_known.
  - revert H. unfold formatSql. case_match; [by intros [= <-]|].
    intros (formatted & _ & [= <-])%bind_Some. by apply selection_known_empty.
  - by revert Hs; apply selection_known_frame.
  - by revert Hs; apply selection_known_frame.
  - unfold switchConnection. case_match; [done|]. by apply selection_known_empty.
  - by revert Hs; apply selection_known_frame.
  - by revert Hs; apply selection_known_frame.
  - by revert Hs; apply selection_known_frame.
Qed.

Lemma reachable_known session0 now s :
  rtc some_step (initialState session0 now) s -> selection_known s.
Proof.
  assert (H : selection_known (initialState session0 now)) by done. revert H.
  generalize (initialState session0 now). intros s0 H0 Hr.
  induction Hr as [|s1 s2 s3 (session & Hstep) _ IH]; [done|]. eauto using editor_step_known.
Qed.

(** C22. "Run selected" runs what is selected: whatever a user and the page have done to the
    editor, when the button says so, the statement that is sent, if one is sent at all, is the
    text the page took for the selection, and this is the text that is marked in the editor. *)
Theorem run_selected_posts_selection session0 now s session :
  rtc some_step (initialState session0 now) s ->
  runLabel session s = "Run selected" ->
  (runQuery session s = s \/
   runQuery session s =
     send (StoreQuery (session_id session) (form_connection_id s) (selectedSql s)) s) /\
  exists view a b, editorView s = Some view /\ selectedSqlDecorations view = Some (a, b) /\
    selectedSql s = sliceDoc view a b.
Proof.
  intros Hs%reachable_known Hl.
  assert (Ht : trim (selectedSql s) <> "").
  { revert Hl. unfold runLabel. destruct (hasActiveQuery session); [done|].
    destruct (str_eq _ _) eqn:E; [done|]. by apply str_eq_false in E. }
  unfold selection_known in Hs. destruct (editorView s) as [view|] eqn:Ev; [|by rewrite Hs in Ht].
  destruct Hs as [Hs|[Hd Hs]]; [by rewrite Hs in Ht|].
  assert (Hne : (sel_from view =? sel_to view)%nat = false).
  { apply Nat.eqb_neq. intros E. apply Ht. rewrite Hs. unfold selectionText, sliceDoc.
    by rewrite E, Nat.sub_diag. }
  split.
  - unfold runQuery. destruct (_ || _); [by left|]. right. unfold sql_to_run. by rewrite Ev, Hne, Hs.
  - exists view, (sel_from view), (sel_to view). unfold selectedSqlDecorations. by rewrite Hne.
Qed.
End session_editor.

(** The form keeps the start of the selection, as far as the new document goes. *)
Definition example_map (view : EditorView) (new : string) : nat * nat :=
  let n := String.length new in (Nat.min (sel_from view) n, Nat.min (sel_to view) n).

Definition example_format (language sql : string) : option string := Some sql.

Definition typed_transaction : Transaction := {|
  changes := Some "select 1; select 2"; selection := Some (18, 18)%nat; fromValue := false |}.

Definition selecting : Transaction := {|
  changes := None; selection := Some (0, 8)%nat; fromValue := false |}.

Definition example_start : State := initialState example_session 1790935198000.

Definition example_ready : State :=
  setEditorView (Some {| doc := ""; sel_from := 0; sel_to := 0 |}) example_start.

Definition example_after (tr : Transaction) (s : State) : State :=
  match editorView s with
  | Some view => transacted example_map [] example_session view tr s
  | None => s
  end.

Definition example_selected : State :=
  example_after selecting (example_after typed_transaction example_ready).

Lemma example_selected_reachable :
  rtc (some_step example_map example_format []) example_start example_selected.
Proof.
  eapply rtc_l; [exists example_session; apply (es_ready _ _ _ _ example_start
    {| created := false; focuses := 0 |}); reflexivity|].
  eapply rtc_l; [exists example_session; apply (es_user _ _ _ _ {| doc := ""; sel_from := 0; sel_to := 0 |}
    typed_transaction); reflexivity|].
  eapply rtc_l; [exists example_session; apply (es_user _ _ _ _
    (apply_transaction example_map {| doc := ""; sel_from := 0; sel_to := 0 |} typed_transaction) selecting);
    reflexivity|].
  apply rtc_refl.
Qed.

Lemma run_selected_posts_selection_witness :
  selectedSql example_selected = "select 1" /\
  (runQuery example_session example_selected = example_selected \/
   runQuery example_session example_selected =
     send (StoreQuery (session_id example_session) (form_connection_id example_selected) "select 1")
       example_selected).
Proof.
  split; [reflexivity|].
  apply (run_selected_posts_selection example_map example_format [] example_session 1790935198000).
  - apply example_selected_reachable.
  - reflexivity.
Defined.

(** The converse fails: when the user switches to another connection, the page forgets the
    selection and the button says "Run", but the editor keeps it, and the button still runs the
    selected part instead of the whole editor. *)
Lemma run_after_switch_posts_selection :
  let s := switchConnection example_session "99" example_selected in
  runLabel example_session s = "Run" /\ form_sql s = "select 1; select 2" /\
  sql_to_run s = "select 1".
Proof. by vm_compute. Qed.
