(* ===== verification/AppDatabase.v ===== *)
(** * The application database page

    [resources/js/pages/settings/admin/application-database.tsx]: the page from which an
    administrator moves the control-plane data between databases, with the status guards of
    [app/Services/ApplicationDatabaseMigrationManager.php] that decide which operation the server
    accepts.

    A confirmation dialog keeps the text typed into it; the dialogs are told apart by the action
    of their form (the server lists a migration in the history or shows it in the panel, never
    both, so no two dialogs have the same action).  Inertia gives every form its own [processing] and [errors].  The routes are
    generated code (parameters), as is the formatting of dates for the locale ([intl]). *)

From Stdlib Require Import String.
From S2P Require Import Prelude JsString View.

Open Scope string_scope.
Open Scope Z_scope.
Open Scope list_scope.

(** ** Data *)

Inductive DriverValue := Sqlite | Mysql | Pgsql.

#[global] Instance DriverValue_eq_dec : EqDecision DriverValue.
Proof. solve_decision. Defined.

Definition driver_text (d : DriverValue) : string :=
  match d with Sqlite => "sqlite" | Mysql => "mysql" | Pgsql => "pgsql" end.

Record Driver := { value : DriverValue; label : string; default_port : option Z }.

Record DatabaseSummary := {
  driver_label : string;
  active_name : option string;
  host : option string;
  port : option Z;
}.

Record MigrationEndpoint := { endpoint_driver : DriverValue; endpoint_database : option string }.

Record MigrationEvent := {
  at_ : string;
  event_name : string;
  event_message : option string;
  actor : option string;
}.

Inductive MigrationStatus :=
  | Planned | Copying | Copied | Verified | ActivationPendingRestart | Active
  | RollbackPendingRestart | RolledBack | Failed | Cancelled.

#[global] Instance MigrationStatus_eq_dec : EqDecision MigrationStatus.
Proof. solve_decision. Defined.

Record MigrationState := {
  id : string;
  status : MigrationStatus;
  source : MigrationEndpoint;
  destination : MigrationEndpoint;
  planned_tables : list (string * Z);
  tables : list (string * Z);
  events : list MigrationEvent;
  query_sessions : Z;
  native_leases : Z;
  native_connections : Z;
  queue_sizes : list (string * Z);
  maintenance_fence : bool;                 (** [maintenance_fence !== null] *)
  restart_ready : option bool;
}.

Record MigrationHistoryItem := {
  item_id : string;
  item_status : MigrationStatus;
  item_source : MigrationEndpoint;
  item_destination : MigrationEndpoint;
  tables_copied : Z;
  tables_planned : Z;
  updated_at : string;
  is_current : bool;
  can_rollback : bool;
}.

Record Confirmations := { activate_phrase : string; finalize_phrase : string; rollback_phrase : string }.

Record Props := {
  managed : bool;                           (** [configuration_mode === 'managed'] *)
  active_database : DatabaseSummary;
  migration : option MigrationState;
  migration_history : list MigrationHistoryItem;
  migration_error : option string;
  drivers : list Driver;
  sqlite_path : string;
  confirmations : Confirmations;
}.

(** The label of [statusPresentation]; its class names are left out. *)
Definition statusPresentation (s : MigrationStatus) : string :=
  match s with
  | Planned => "Planned"
  | Copying => "Copying"
  | Copied => "Copied"
  | Verified => "Verified"
  | ActivationPendingRestart => "Restart required"
  | Active => "Active"
  | RollbackPendingRestart => "Rollback restart required"
  | RolledBack => "Rolled back"
  | Failed => "Copy failed"
  | Cancelled => "Cancelled"
  end.

Definition driverLabel (d : DriverValue) : string :=
  match d with Pgsql => "PostgreSQL" | Mysql => "MySQL" | Sqlite => "SQLite" end.

Record Routes := {
  store_form : string;
  migrate_form : string -> string;
  destroy_form : string -> string;
  verify_form : string -> string;
  activate_form : string -> string;
  finalizeActivation_form : string -> string;
  rollback_form : string -> string;
  finalizeRollback_form : string -> string;
}.

Record FormStatus := { processing : bool; errors : list (string * string) }.

(** The state of the page: the text in each confirmation dialog, the driver chosen for a new plan,
    and whether the password is shown. *)
Record State := {
  confirmation : string -> string;
  driver : Driver;
  showPassword : bool;
}.

Definition setConfirmation (form text : string) (s : State) : State := {|
  confirmation := fun f => if str_eq f form then text else confirmation s f;
  driver := driver s; showPassword := showPassword s |}.

Definition setDriver (d : Driver) (s : State) : State :=
  {| confirmation := confirmation s; driver := d; showPassword := showPassword s |}.

Definition toggleShowPassword (s : State) : State :=
  {| confirmation := confirmation s; driver := driver s; showPassword := negb (showPassword s) |}.

(** [useState(drivers[0])], [useState('')]; [None] when there is no driver at all. *)
Definition initialState (props : Props) : option State :=
  match drivers props with
  | first :: _ => Some {| confirmation := fun _ => ""; driver := first; showPassword := false |}
  | [] => None
  end.

(** ** Polling (lines 191-218) *)

Definition shouldPoll (props : Props) : bool :=
  match status <$> migration props with
  | Some Copying | Some ActivationPendingRestart | Some RollbackPendingRestart => true
  | _ => false
  end.

(** The poll and the dependency the effect last ran with. *)
Record Poll := { running : bool; last_dependency : option bool }.

(** The effect: when [shouldPoll] changed, the cleanup stops the poll, then the body starts or
    stops it. *)
Definition poll_effect (should : bool) (p : Poll) : Poll :=
  if decide (last_dependency p = Some should) then p
  else {| running := should; last_dependency := Some should |}.

Definition canPlan (props : Props) : bool := managed props && negb (is_some (migration props)).

(** ** The page *)

Section page.
Context (intl : string -> string) (routes : Routes).
Context (forms : string -> FormStatus).

Implicit Types (s : State) (m : MigrationState).

(** Lines 1252-1271 *)
Definition Detail (lbl val : string) : node State :=
  elem "div" [elem "p" [Txt lbl]; elem "p" [Txt val]].

(** Lines 1273-1291 *)
Definition Endpoint (lbl : string) (e : MigrationEndpoint) : node State :=
  elem "div" [elem "p" [Txt lbl]; elem "p" [Txt (driver_text (endpoint_driver e))];
              elem "p" [Txt (endpoint_database e ?? "Not configured")]].

(** Lines 1293-1314 *)
Definition MigrationSignal (lbl val detail : string) : node State :=
  elem "div" [elem "div" [elem "p" [Txt lbl]; elem "p" [Txt val]; elem "p" [Txt detail]]].

(** Lines 418-429 *)
Definition HistoryEndpoint (e : MigrationEndpoint) : node State :=
  elem "div" [elem "p" [Txt (driverLabel (endpoint_driver e))];
              elem "p" [Txt (endpoint_database e ?? "Not configured")]].

(** Lines 941-1030.  The trigger and close buttons of a dialog are plain buttons. *)
Definition ConfirmationAction s (form phrase title description triggerLabel submitLabel : string)
    (disabled : bool) : node State :=
  let fs := forms form in
  elem "Dialog"
    [elem "DialogTrigger"
       [El TButton [Attr "type" "button"; Flag "disabled" disabled] [Txt triggerLabel]];
     elem "DialogContent"
       [elem "DialogHeader" [elem "DialogTitle" [Txt title]; elem "DialogDescription" [Txt description]];
        El (Tag "Form") [Attr "action" form; On "success" (fun _ _ => setConfirmation form "")]
          [elem "div"
             ([El (Tag "label") [Attr "for" ("confirmation-" ++ phrase)%string]
                 [Txt ("Type " ++ phrase ++ " to confirm")%string];
               El TInput [Attr "id" ("confirmation-" ++ phrase)%string; Attr "name" "confirmation";
                          Attr "value" (confirmation s form); on_change (setConfirmation form);
                          Attr "autoComplete" "off"] []] ++
              InputError (error_of (errors fs) "confirmation") ++
              InputError (error_of (errors fs) "migration_operation"));
           elem "DialogFooter"
             [elem "DialogClose" [El TButton [Attr "type" "button"] [Txt "Cancel"]];
              El TButton [Attr "type" "submit";
                          Flag "disabled" (processing fs || negb (str_eq (confirmation s form) phrase))]
                [Txt submitLabel]]]]].

(** Lines 807-856 *)
Definition CancelPlanAction m : node State :=
  let fs := forms (destroy_form routes (id m)) in
  elem "Dialog"
    [elem "DialogTrigger" [El TButton [Attr "type" "button"] [Txt "Cancel plan"]];
     elem "DialogContent"
       [elem "DialogHeader"
          [elem "DialogTitle" [Txt "Cancel this migration plan?"];
           elem "DialogDescription"
             [Txt ("The active database will not change. Data already copied to " ++
                   toUpperCase (driver_text (endpoint_driver (destination m))) ++
                   " remains there and must be removed before that database can be used in a new migration plan.")%string]];
        El (Tag "Form") [Attr "action" (destroy_form routes (id m))]
          (InputError (error_of (errors fs) "migration_operation") ++
           [elem "DialogFooter"
              [elem "DialogClose" [El TButton [Attr "type" "button"] [Txt "Keep plan"]];
               El TButton [Attr "type" "submit"; Flag "disabled" (processing fs)] [Txt "Cancel plan"]]])]].

(** Lines 858-939 *)
Definition RestartAction s (form phrase title submitLabel : string) (restartReady : bool) : node State :=
  elem "div"
    [elem "div"
       [elem "div"
          [elem "p" [Txt "Restart all Laravel runtimes"];
           elem "p" [Txt "Production Compose runs Octane, Horizon, and the scheduler in the app container. Development uses separate app, worker, and scheduler containers. Restart every listed runtime, then wait for this page to confirm that the web runtime loaded the new database."];
           elem "div"
             [elem "code" [Txt "docker compose --env-file .env.production -f compose.production.yaml restart app"];
              elem "code" [Txt "docker compose restart app worker scheduler"]];
           elem "div"
             [elem "div"
                [elem "p" [Txt (if restartReady then "Ready to finalize"
                                else "Waiting for the restarted web runtime")];
                 elem "p" [Txt (if restartReady
                                then "The active runtime is using the expected application database."
                                else "This status updates automatically after the app container is ready.")]]];
           elem "p" [Txt "The native-proxy container may report unhealthy during this step because the maintenance fence intentionally blocks its control requests. It should recover after finalization releases the fence."]]];
     ConfirmationAction s form phrase title
       "Finalization checks that this running process has actually loaded the expected database fingerprint before it removes the maintenance fence."
       submitLabel submitLabel (negb restartReady)].

(** Lines 631-686: the copy of a plan *)
Definition copyAction m : node State :=
  let fs := forms (migrate_form routes (id m)) in
  elem "div"
    ([El (Tag "Form") [Attr "action" (migrate_form routes (id m))]
        [elem "div"
           ([elem "p" [Txt (match status m with
                            | Failed => "Retry the copy"
                            | Copying => "Resume interrupted copy"
                            | _ => "Copy application data"
                            end)];
             elem "p" [Txt (match status m with
                            | Failed => "The destination is cleaned before the copy starts again."
                            | _ => "Access must be idle and queues must drain first."
                            end)]] ++
            InputError (error_of (errors fs) "migration_operation"));
         elem "div"
           [El (Tag "label") [Attr "for" "drain_timeout_seconds"] [Txt "Drain timeout"];
            El TInput [Attr "id" "drain_timeout_seconds"; Attr "name" "drain_timeout_seconds";
                       Attr "type" "number"; Attr "min" "0"; Attr "max" "3600";
                       Attr "defaultValue" "30"; Flag "required" true] []];
         El TButton [Flag "disabled" (processing fs)]
           [Txt (match status m with Planned => "Start copy" | _ => "Retry copy" end)]]] ++
     when (match status m with Planned | Failed => true | _ => false end) [CancelPlanAction m]).

Definition ROLLBACK_DESCRIPTION : string :=
  "Current destination data will be copied back to the original database and verified before the active configuration changes. Access must be idle and queued jobs must drain.".

(** Lines 623-805 *)
Definition MigrationActions s m (phrases : Confirmations) : node State :=
  match status m with
  | Planned | Copying | Failed => copyAction m
  | Copied =>
      let fs := forms (verify_form routes (id m)) in
      El (Tag "Form") [Attr "action" (verify_form routes (id m))]
        [elem "div"
           ([elem "p" [Txt "Verify the copied data"];
             elem "p" [Txt "Recheck every table count and deterministic digest."]] ++
            InputError (error_of (errors fs) "migration_operation"));
         El TButton [Flag "disabled" (processing fs)] [Txt "Verify copy"]]
  | Verified =>
      ConfirmationAction s (activate_form routes (id m)) (activate_phrase phrases)
        "Prepare application database cutover?"
        "Crucible will write the destination as the active configuration. The maintenance fence stays active until every runtime process is restarted and activation is finalized."
        "Prepare cutover" "Prepare cutover" false
  | ActivationPendingRestart =>
      RestartAction s (finalizeActivation_form routes (id m)) (finalize_phrase phrases)
        "Finalize destination activation?" "Finalize activation"
        (bool_decide (restart_ready m = Some true))
  | Active =>
      ConfirmationAction s (rollback_form routes (id m)) (rollback_phrase phrases)
        "Synchronize and prepare rollback?" ROLLBACK_DESCRIPTION
        "Prepare rollback" "Prepare rollback" false
  | RollbackPendingRestart =>
      RestartAction s (finalizeRollback_form routes (id m)) (finalize_phrase phrases)
        "Finalize rollback?" "Finalize rollback"
        (bool_decide (restart_ready m = Some true))
  | Cancelled =>
      elem "div" [elem "div" [elem "p" [Txt "Migration plan cancelled"];
                              elem "p" [Txt "The application database was not changed."]]]
  | RolledBack =>
      elem "div" [elem "div" [elem "p" [Txt "Rollback completed"];
                              elem "p" [Txt "The original database is active and normal access has resumed."]]]
  end.

(** [events.slice(-8).reverse()] *)
Definition recentEvents (l : list MigrationEvent) : list MigrationEvent :=
  rev (drop (length l - 8) l).

Definition queueSize m : Z := fold_left (fun total size => total + snd size) (queue_sizes m) 0.

Definition liveAccess m : Z := query_sessions m + native_leases m + native_connections m.

(** Lines 568-617 *)
Definition recentActivity m : node State :=
  elem "details"
    [elem "summary"
       [elem "span" [Txt "Recent activity";
                     elem "span" [Txt ("(" ++ str_of_nat (Nat.min (length (events m)) 8) ++ ")")%string]]];
     elem "div"
       (imap (fun index e =>
          El (Tag "div") [Attr "key" (at_ e ++ "-" ++ event_name e ++ "-" ++ str_of_nat index)%string]
            [elem "div"
               ([elem "p" [Txt (replace_unit "_" " " (event_name e))]] ++
                when (truthy_opt (event_message e))
                  [elem "details" [elem "summary" [Txt "View error details"];
                                   elem "pre" [Txt (event_message e ?? "")]]] ++
                match actor e with
                | Some name => [elem "p" [Txt name]]
                | None => []
                end);
             elem "time" [Txt (intl (at_ e))]]) (recentEvents (events m)))].

(** Lines 454-621 *)
Definition MigrationPanel s m (phrases : Confirmations) : node State :=
  let plannedCount := length (planned_tables m) in
  let copiedCount := length (tables m) in
  elem "Card"
    [elem "CardHeader"
       [elem "div"
          [elem "div" [elem "CardTitle" [Txt "Migration plan"]; elem "CardDescription" [Txt (id m)]];
           elem "Badge" [Txt (statusPresentation (status m))]]];
     elem "CardContent"
       ([elem "div" [Endpoint "Source" (source m); Endpoint "Destination" (destination m)];
         elem "div"
           [MigrationSignal "Tables copied"
              (str_of_nat copiedCount ++ " / " ++ str_of_nat plannedCount)%string
              (if (copiedCount =? plannedCount)%nat then "Copy set complete"
               else str_of_Z (Z.of_nat plannedCount - Z.of_nat copiedCount) ++ " remaining")%string;
            MigrationSignal "Live access"
              (if liveAccess m =? 0 then "Idle" else str_of_Z (liveAccess m))
              (if liveAccess m =? 0 then "Ready for migration" else "End access before continuing");
            MigrationSignal "Queued jobs"
              (if queueSize m =? 0 then "Drained" else str_of_Z (queueSize m))
              (if queueSize m =? 0 then "Ready for migration" else "Wait for jobs to finish")]] ++
        when (maintenance_fence m)
          [elem "div" [elem "p" [Txt "Maintenance fence is active. Normal web requests, queued work, and all native-client control requests remain blocked until this operation is finalized."]]] ++
        [elem "div" [MigrationActions s m phrases]; recentActivity m])].

(** Lines 321-416 *)
Definition MigrationHistory s (migrations : list MigrationHistoryItem) (rollbackPhrase : string)
    : node State :=
  elem "Card"
    [elem "details"
       [elem "summary"
          [elem "div"
             [elem "CardTitle" [Txt "Migration history";
                                elem "span" [Txt ("(" ++ str_of_nat (length migrations) ++ ")")%string]];
              elem "CardDescription" [Txt "Completed and cancelled application database moves."]]];
        elem "div"
          (map (fun item =>
             El (Tag "div") [Attr "key" (item_id item)]
               ([elem "div"
                   [elem "div"
                      ([elem "Badge" [Txt (statusPresentation (item_status item))]] ++
                       when (is_current item) [elem "Badge" [Txt "Current rollback point"]] ++
                       [elem "time" [Txt (intl (updated_at item))]]);
                    elem "div" [HistoryEndpoint (item_source item); HistoryEndpoint (item_destination item)];
                    elem "div" [elem "span" [Txt (item_id item)];
                                elem "span" [Txt (str_of_Z (tables_copied item) ++ " / " ++
                                                  str_of_Z (tables_planned item) ++ " tables")%string]]]] ++
                when (can_rollback item)
                  [ConfirmationAction s (rollback_form routes (item_id item)) rollbackPhrase
                     "Synchronize and prepare rollback?" ROLLBACK_DESCRIPTION
                     "Prepare rollback" "Prepare rollback" false])) migrations)]].

(** Lines 1233-1250 *)
Definition Field (lbl name : string) (error : option string) (extra : list (prop State)) : node State :=
  elem "div"
    ([El (Tag "label") [Attr "for" name] [Txt lbl];
      El TInput ([Attr "id" name; Attr "name" name] ++ extra) []] ++
     InputError error).

(** [components/password-input.tsx] *)
Definition PasswordInput s (name : string) : node State :=
  elem "div"
    [El TInput [Attr "type" (if showPassword s then "text" else "password"); Attr "id" name;
                Attr "name" name; Attr "autoComplete" "new-password"; Flag "required" true] [];
     El TButton [Attr "type" "button"; on_click toggleShowPassword;
                 Attr "aria-label" (if showPassword s then "Hide password" else "Show password")] []].


(** Lines 1146-1231 *)
Definition NetworkDatabaseFields s (errs : list (string * string)) : node State :=
  elem "div"
    ([elem "div"
        [elem "div" [elem "p" [Txt "Dedicated empty database"];
                     elem "p" [Txt "Credentials are encrypted in the migration plan and are never returned to the browser."]]];
      elem "div"
        [Field "Host" "host" (error_of errs "host") [Flag "required" true];
         Field "Port" "port" (error_of errs "port")
           [Attr "type" "number";
            Attr "defaultValue" (match default_port (driver s) with Some p => str_of_Z p | None => "" end);
            Flag "required" true]];
      Field "Database name" "database" (error_of errs "database") [Flag "required" true];
      elem "div"
        [Field "Username" "username" (error_of errs "username") [Flag "required" true];
         elem "div"
           ([El (Tag "label") [Attr "for" "password"] [Txt "Password"]; PasswordInput s "password"] ++
            InputError (error_of errs "password"))]] ++
     when (bool_decide (value (driver s) = Pgsql))
       [elem "div"
          ([El (Tag "label") [Attr "for" "pgsql_sslmode"] [Txt "PostgreSQL SSL mode"];
            El TSelect [Attr "id" "pgsql_sslmode"; Attr "name" "pgsql_sslmode"; Attr "defaultValue" "prefer"]
              [choice "disable" "Disable"; choice "prefer" "Prefer"; choice "require" "Require";
               choice "verify-ca" "Verify CA"; choice "verify-full" "Verify identity"]] ++
           InputError (error_of errs "pgsql_sslmode"))] ++
     when (bool_decide (value (driver s) = Mysql))
       [Field "MySQL CA file path (optional)" "mysql_ssl_ca" (error_of errs "mysql_ssl_ca")
          [Attr "placeholder" "/run/secrets/mysql-ca.pem"]]).

(** The change handler of the destination type (lines 1069-1079) *)
Definition chooseDriver (available : list Driver) (v : string) (s : State) : State :=
  match find_first (fun item => str_eq (driver_text (value item)) v) available with
  | Some selected => setDriver selected s
  | None => s
  end.

(** Lines 1032-1144 *)
Definition PlanMigrationCard s (available : list Driver) (sqlitePath : string) : node State :=
  let fs := forms (store_form routes) in
  elem "Card"
    [elem "CardHeader"
       [elem "CardTitle" [Txt "Plan a migration"];
        elem "CardDescription" [Txt "The destination must be dedicated and empty. Planning tests connectivity without changing the active database."]];
     elem "CardContent"
       [El (Tag "Form") [Attr "action" (store_form routes)]
          ([elem "div"
              ([El (Tag "label") [Attr "for" "driver"] [Txt "Destination type"];
                El TSelect [Attr "id" "driver"; Attr "name" "driver";
                            Attr "value" (driver_text (value (driver s)));
                            on_change (chooseDriver available)]
                  (map (fun item => choice (driver_text (value item)) (label item)) available)] ++
               InputError (error_of (errors fs) "driver"));
            (if bool_decide (value (driver s) = Sqlite) then
               elem "div"
                 [elem "div" [elem "div" [elem "p" [Txt "New SQLite file"];
                                          elem "p" [Txt "The file must not exist or must be empty."]]];
                  elem "div"
                    ([El (Tag "label") [Attr "for" "sqlite_database"] [Txt "Database path"];
                      El TInput [Attr "id" "sqlite_database"; Attr "name" "sqlite_database";
                                 Attr "defaultValue" sqlitePath; Flag "required" true] []] ++
                     InputError (error_of (errors fs) "sqlite_database"))]
             else NetworkDatabaseFields s (errors fs))] ++
           InputError (error_of (errors fs) "migration_operation") ++
           [El TButton [Flag "disabled" (processing fs)] [Txt "Test and create plan"]])]].

(** Lines 222-318 *)
Definition ApplicationDatabase (props : Props) s : node State :=
  let active := active_database props in
  elem "Fragment"
    [El (Tag "Head") [Attr "title" "Application database"] [];
     elem "div"
       ([PageHeader "Application database"
           (Some "Move Crucible control-plane data between SQLite, PostgreSQL, and MySQL with verified cutover and rollback.") [];
         elem "Card"
           [elem "CardHeader" [elem "CardTitle" [Txt "Active control database"];
                               elem "CardDescription" [Txt "Stores users, policy, requests, audit history, and native-client control state."]];
            elem "CardContent"
              [Detail "Driver" (driver_label active);
               Detail "Database" (active_name active ?? "Not configured");
               Detail "Endpoint"
                 (if truthy_opt (host active)
                  then ((host active ?? "") ++ ":" ++
                        match port active with Some p => str_of_Z p | None => "null" end)%string
                  else "Local filesystem")]]] ++
        when (negb (managed props))
          [elem "div" [elem "div"
             [elem "p" [Txt "Managed migration is unavailable"];
              elem "p" [Txt "This installation uses environment-owned database configuration. Change it through the deployment environment and use the CLI migration workflow."]]]] ++
        when (truthy_opt (migration_error props))
          [elem "div" [elem "div" [elem "p" [Txt "Migration state could not be read"];
                                   elem "p" [Txt (migration_error props ?? "")]]]] ++
        match migration props with
        | Some m => when (negb (truthy_opt (migration_error props))) [MigrationPanel s m (confirmations props)]
        | None => []
        end ++
        when (canPlan props) [PlanMigrationCard s (drivers props) (sqlite_path props)] ++
        when ((0 <? length (migration_history props))%nat && negb (truthy_opt (migration_error props)))
          [MigrationHistory s (migration_history props) (rollback_phrase (confirmations props))])].
End page.

(** ** What the server accepts

    The status guards of the migration manager: an operation in any other status throws. *)

Inductive Operation :=
  | OpMigrate | OpCancel | OpVerify | OpActivate | OpFinalizeActivation | OpRollback
  | OpFinalizeRollback.

Definition migrate_accepts (s : MigrationStatus) : bool :=
  match s with Planned | Copying | Copied | Failed => true | _ => false end.

Definition cancel_accepts (s : MigrationStatus) : bool :=
  match s with Planned | Failed => true | _ => false end.

Definition verify_accepts (s : MigrationStatus) : bool :=
  match s with Copied | Verified => true | _ => false end.

Definition activate_accepts (finalize : bool) (s : MigrationStatus) : bool :=
  if finalize && bool_decide (s = Active) then true
  else if negb finalize then match s with Verified | ActivationPendingRestart => true | _ => false end
  else bool_decide (s = ActivationPendingRestart).

Definition rollback_accepts (finalize : bool) (s : MigrationStatus) : bool :=
  if negb finalize then match s with Active | RollbackPendingRestart => true | _ => false end
  else if bool_decide (s = RolledBack) then true
  else bool_decide (s = RollbackPendingRestart).

(** The status of the enumeration that ends a migration. *)
Definition isTerminal (s : MigrationStatus) : bool :=
  match s with Active | RolledBack | Cancelled => true | _ => false end.

Definition accepts (op : Operation) (s : MigrationStatus) : bool :=
  match op with
  | OpMigrate => migrate_accepts s
  | OpCancel => cancel_accepts s
  | OpVerify => verify_accepts s
  | OpActivate => activate_accepts false s
  | OpFinalizeActivation => activate_accepts true s
  | OpRollback => rollback_accepts false s
  | OpFinalizeRollback => rollback_accepts true s
  end.

Definition route (routes : Routes) (op : Operation) : string -> string :=
  match op with
  | OpMigrate => migrate_form routes
  | OpCancel => destroy_form routes
  | OpVerify => verify_form routes
  | OpActivate => activate_form routes
  | OpFinalizeActivation => finalizeActivation_form routes
  | OpRollback => rollback_form routes
  | OpFinalizeRollback => finalizeRollback_form routes
  end.

(** The phrase an operation asks for. *)
Definition required_phrase (phrases : Confirmations) (op : Operation) : option string :=
  match op with
  | OpActivate => Some (activate_phrase phrases)
  | OpFinalizeActivation | OpFinalizeRollback => Some (finalize_phrase phrases)
  | OpRollback => Some (rollback_phrase phrases)
  | OpMigrate | OpCancel | OpVerify => None
  end.

Definition finalizes (op : Operation) : bool :=
  match op with OpFinalizeActivation | OpFinalizeRollback => true | _ => false end.

(** ** The forms a user can send *)

Fixpoint has_enabled_button {S} (n : node S) : bool :=
  match n with
  | Txt _ => false
  | El t ps ks =>
      match t with TButton => negb (flag "disabled" ps) | _ => false end ||
      existsb has_enabled_button ks
  end.

Definition tag_is {S} (name : string) (n : node S) : bool :=
  match n with El (Tag t) _ _ => str_eq t name | _ => false end.

(** The actions of the forms with a submit button that can be pressed; a form inside a dialog
    only when the dialog's trigger can. *)
Fixpoint submittable {S} (n : node S) : list string :=
  match n with
  | Txt _ => []
  | El t ps ks =>
      if tag_is "Form" n then
        when (existsb snd (flat_map submits ks)) [attr "action" ps ?? ""]
      else if tag_is "Dialog" n then
        match ks with
        | [trigger; content] => when (has_enabled_button trigger) (submittable content)
        | _ => []
        end
      else flat_map submittable ks
  end.

Section offered.
Context (routes : Routes) (forms : string -> FormStatus).
Implicit Types (s : State) (m : MigrationState).

(** A confirmed action can be sent exactly when its dialog opens, no request is running and the
    phrase has been typed. *)
Lemma ConfirmationAction_submittable s form phrase ttl descr tl sl disabled :
  submittable (ConfirmationAction forms s form phrase ttl descr tl sl disabled) =
  when (negb disabled && negb (processing (forms form)) && bool_decide (confirmation s form = phrase))
    [form].
Proof.
  unfold ConfirmationAction. cbn -[InputError]. rewrite !flat_map_app, !submits_InputError.
  cbn -[InputError]. destruct disabled; [done|]. simpl.
  destruct (processing (forms form)); [done|]. simpl.
  unfold str_eq. case_bool_decide as H.
  - by rewrite H, String.eqb_refl.
  - by apply String.eqb_neq in H as ->.
Qed.

Lemma RestartAction_submittable s form phrase ttl sl ready :
  submittable (RestartAction forms s form phrase ttl sl ready) =
  when (ready && negb (processing (forms form)) && bool_decide (confirmation s form = phrase)) [form].
Proof.
  unfold RestartAction. cbn -[ConfirmationAction]. rewrite app_nil_r, ConfirmationAction_submittable.
  by rewrite negb_involutive.
Qed.

Lemma CancelPlanAction_submittable m :
  submittable (CancelPlanAction routes forms m) =
  when (negb (processing (forms (destroy_form routes (id m))))) [destroy_form routes (id m)].
Proof.
  unfold CancelPlanAction. cbn -[InputError toUpperCase]. rewrite ?flat_map_app, submits_InputError.
  by destruct (processing _).
Qed.

Lemma copyAction_submittable m :
  submittable (copyAction routes forms m) =
  when (negb (processing (forms (migrate_form routes (id m))))) [migrate_form routes (id m)] ++
  when (cancel_accepts (status m) && negb (processing (forms (destroy_form routes (id m)))))
    [destroy_form routes (id m)].
Proof.
  unfold copyAction. cbn -[InputError CancelPlanAction].
  rewrite ?flat_map_app, submits_InputError. cbn -[CancelPlanAction].
  f_equal; [by destruct (processing _)|].
  destruct (status m); cbn [when andb cancel_accepts flat_map]; try done;
    by rewrite app_nil_r, CancelPlanAction_submittable.
Qed.

(** What the panel offers in each status. *)
Lemma MigrationActions_submittable s m phrases :
  submittable (MigrationActions routes forms s m phrases) =
  match status m with
  | Planned | Copying | Failed => submittable (copyAction routes forms m)
  | Copied => when (negb (processing (forms (verify_form routes (id m))))) [verify_form routes (id m)]
  | Verified => when (negb (processing (forms (activate_form routes (id m)))) &&
      bool_decide (confirmation s (activate_form routes (id m)) = activate_phrase phrases))
      [activate_form routes (id m)]
  | ActivationPendingRestart => when (bool_decide (restart_ready m = Some true) &&
      negb (processing (forms (finalizeActivation_form routes (id m)))) &&
      bool_decide (confirmation s (finalizeActivation_form routes (id m)) = finalize_phrase phrases))
      [finalizeActivation_form routes (id m)]
  | Active => when (negb (processing (forms (rollback_form routes (id m)))) &&
      bool_decide (confirmation s (rollback_form routes (id m)) = rollback_phrase phrases))
      [rollback_form routes (id m)]
  | RollbackPendingRestart => when (bool_decide (restart_ready m = Some true) &&
      negb (processing (forms (finalizeRollback_form routes (id m)))) &&
      bool_decide (confirmation s (finalizeRollback_form routes (id m)) = finalize_phrase phrases))
      [finalizeRollback_form routes (id m)]
  | RolledBack | Cancelled => []
  end.
Proof.
  unfold MigrationActions. destruct (status m); try done;
    rewrite ?ConfirmationAction_submittable, ?RestartAction_submittable; try done.
  cbn -[InputError]. rewrite ?flat_map_app, submits_InputError. by destruct (processing _).
Qed.
End offered.

(** C37.  The migration panel never offers an operation the server refuses for the migration's
    status, offers a cutover, a finalization or a rollback only once its confirmation phrase has
    been typed, and a finalization only once the restarted runtime is ready. *)
Theorem offered_operation_accepted routes forms s m phrases action :
  action ∈ submittable (MigrationActions routes forms s m phrases) ->
  exists op, action = route routes op (id m) /\ accepts op (status m) = true /\
    processing (forms action) = false /\
    (forall phrase, required_phrase phrases op = Some phrase -> confirmation s action = phrase) /\
    (finalizes op = true -> restart_ready m = Some true).
Proof.
  rewrite MigrationActions_submittable, copyAction_submittable.
  destruct (status m) eqn:Hs; rewrite ?elem_of_app, ?elem_of_when, ?list_elem_of_singleton;
    rewrite ?andb_true_iff, ?negb_true_iff, ?bool_decide_eq_true; intros H.
  all: try (by apply elem_of_nil in H).
  all: repeat match goal with H : _ \/ _ |- _ => destruct H | H : _ /\ _ |- _ => destruct H end; subst.
  all: try discriminate.
  all: first
    [ exists OpCancel; split_and!; [reflexivity|done|done|naive_solver|done]
    | exists OpMigrate; split_and!; [reflexivity|done|done|naive_solver|done]
    | exists OpVerify; split_and!; [reflexivity|done|done|naive_solver|done]
    | exists OpActivate; split_and!; [reflexivity|done|done|naive_solver|done]
    | exists OpFinalizeActivation; split_and!; [reflexivity|done|done|naive_solver|done]
    | exists OpRollback; split_and!; [reflexivity|done|done|naive_solver|done]
    | exists OpFinalizeRollback; split_and!; [reflexivity|done|done|naive_solver|done] ].
Qed.

(** The operation that takes a migration on. *)
Definition next_operation (s : MigrationStatus) : option Operation :=
  match s with
  | Planned | Copying | Failed => Some OpMigrate
  | Copied => Some OpVerify
  | Verified => Some OpActivate
  | ActivationPendingRestart => Some OpFinalizeActivation
  | Active => Some OpRollback
  | RollbackPendingRestart => Some OpFinalizeRollback
  | RolledBack | Cancelled => None
  end.

(** Every migration that has not ended can be taken on from the page: in each status the next
    operation, which the server accepts, can be sent as soon as no request is running, its phrase
    is typed and (to finalize) the restarted runtime is ready. *)
Theorem next_operation_offered routes forms s m phrases op :
  next_operation (status m) = Some op ->
  processing (forms (route routes op (id m))) = false ->
  (forall phrase, required_phrase phrases op = Some phrase ->
     confirmation s (route routes op (id m)) = phrase) ->
  (finalizes op = true -> restart_ready m = Some true) ->
  accepts op (status m) = true /\
  route routes op (id m) ∈ submittable (MigrationActions routes forms s m phrases).
Proof.
  rewrite MigrationActions_submittable, copyAction_submittable.
  destruct (status m); intros [= <-] Hp Hc Hr; (split; [done|]); simpl in *;
    rewrite ?Hp, ?(bool_decide_true _ (Hr eq_refl)), ?(bool_decide_true _ (Hc _ eq_refl)); simpl;
    apply list_elem_of_here.
Qed.

(** ** Examples *)

Definition example_routes : Routes := {|
  store_form := "/plans"; migrate_form := fun i => ("/plans/" ++ i ++ "/migrate")%string;
  destroy_form := fun i => ("/plans/" ++ i)%string;
  verify_form := fun i => ("/plans/" ++ i ++ "/verify")%string;
  activate_form := fun i => ("/plans/" ++ i ++ "/activate")%string;
  finalizeActivation_form := fun i => ("/plans/" ++ i ++ "/finalize-activation")%string;
  rollback_form := fun i => ("/plans/" ++ i ++ "/rollback")%string;
  finalizeRollback_form := fun i => ("/plans/" ++ i ++ "/finalize-rollback")%string |}.

Definition idle_forms (_ : string) : FormStatus := {| processing := false; errors := [] |}.

Definition example_phrases : Confirmations := {|
  activate_phrase := "ACTIVATE"; finalize_phrase := "FINALIZE"; rollback_phrase := "ROLL BACK" |}.

Definition example_migration (st : MigrationStatus) (ready : option bool) : MigrationState := {|
  id := "m1"; status := st;
  source := {| endpoint_driver := Sqlite; endpoint_database := Some "/data/app.sqlite" |};
  destination := {| endpoint_driver := Pgsql; endpoint_database := Some "crucible" |};
  planned_tables := [("users", 3)]; tables := []; events := []; query_sessions := 0;
  native_leases := 0; native_connections := 0; queue_sizes := []; maintenance_fence := true;
  restart_ready := ready |}.

Definition example_driver (v : DriverValue) : Driver :=
  {| value := v; label := driverLabel v; default_port := match v with Sqlite => None | Mysql => Some 3306 | Pgsql => Some 5432 end |}.

Definition example_state : State := {|
  confirmation := fun _ => "FINALIZE"; driver := example_driver Pgsql; showPassword := false |}.

Lemma offered_operation_accepted_witness :
  let m := example_migration ActivationPendingRestart (Some true) in
  submittable (MigrationActions example_routes idle_forms example_state m example_phrases) =
    ["/plans/m1/finalize-activation"] /\
  exists op, "/plans/m1/finalize-activation" = route example_routes op "m1" /\
    accepts op ActivationPendingRestart = true.
Proof.
  intros m. split; [vm_compute; reflexivity|].
  destruct (offered_operation_accepted example_routes idle_forms example_state m example_phrases
    "/plans/m1/finalize-activation") as (op & H1 & H2 & _).
  - rewrite MigrationActions_submittable. apply list_elem_of_here.
  - exists op. split; [exact H1|exact H2].
Defined.

Lemma next_operation_offered_witness :
  let m := example_migration Copied None in
  accepts OpVerify Copied = true /\
  "/plans/m1/verify" ∈
    submittable (MigrationActions example_routes idle_forms example_state m example_phrases).
Proof.
  intros m. apply (next_operation_offered example_routes idle_forms example_state m example_phrases
    OpVerify).
  - reflexivity.
  - reflexivity.
  - discriminate.
  - discriminate.
Defined.

(** ** The form of a plan *)

(** The fields a plan needs for each kind of destination. *)
Definition plan_fields (d : DriverValue) : list string :=
  match d with
  | Sqlite => ["driver"; "sqlite_database"]
  | Pgsql => ["driver"; "host"; "port"; "database"; "username"; "password"; "pgsql_sslmode"]
  | Mysql => ["driver"; "host"; "port"; "database"; "username"; "password"; "mysql_ssl_ca"]
  end.

(** Choosing a destination type selects the driver of that name among those offered, and
    leaves the page as it is when there is none. *)
Lemma chooseDriver_spec available v s :
  (exists d, d ∈ available /\ driver_text (value d) = v /\ chooseDriver available v s = setDriver d s) \/
  ((forall d, d ∈ available -> driver_text (value d) <> v) /\ chooseDriver available v s = s).
Proof.
  unfold chooseDriver. destruct (find_first _ available) as [d|] eqn:E.
  - left. apply find_first_Some in E as [Hin Hv%str_eq_true]. eauto.
  - right. split; [|done]. intros d Hd Hv.
    pose proof (proj1 (find_first_None _ _) E d Hd) as Hf. simpl in Hf. by rewrite Hv, str_eq_refl in Hf.
Qed.

(** What the page's controls do to its state: type a confirmation, choose a destination type,
    show or hide the password. *)
Inductive page_change (available : list Driver) : State -> State -> Prop :=
  | pc_confirmation form text s : page_change available s (setConfirmation form text s)
  | pc_driver v s : page_change available s (chooseDriver available v s)
  | pc_password s : page_change available s (toggleShowPassword s).

Lemma driver_offered props s0 s :
  initialState props = Some s0 -> rtc (page_change (drivers props)) s0 s -> driver s ∈ drivers props.
Proof.
  intros H0 Hr.
  assert (Hd : driver s0 ∈ drivers props).
  { unfold initialState in H0. destruct (drivers props); [done|]. injection H0 as <-.
    apply list_elem_of_here. }
  clear H0. induction Hr as [|s1 s2 s3 Hs _ IH]; [done|]. apply IH. clear IH.
  destruct Hs as [| |]; try done.
  destruct (chooseDriver_spec (drivers props) v s) as [(d & Hin & _ & ->)|[_ ->]]; done.
Qed.

(** In every state the page can reach, the form of a plan posts exactly the fields of the
    chosen kind of destination, in this order, starting with that kind; in particular no
    credentials for an SQLite file. *)
Theorem plan_form_fields routes forms typed submitter props s0 s :
  initialState props = Some s0 -> rtc (page_change (drivers props)) s0 s ->
  let es := entries typed submitter
              (PlanMigrationCard routes forms s (drivers props) (sqlite_path props)) in
  map fst es = plan_fields (value (driver s)) /\
  head es = Some ("driver", driver_text (value (driver s))).
Proof.
  intros H0 Hr es. pose proof (driver_offered _ _ _ H0 Hr) as Hd.
  assert (Hsel : selected_option (driver_text (value (driver s)))
    (map (fun item => (driver_text (value item), false)) (drivers props)) =
    Some (driver_text (value (driver s)))).
  { apply selected_option_listed. rewrite map_map. apply list_elem_of_fmap. eauto. }
  unfold es, PlanMigrationCard, NetworkDatabaseFields, Field, PasswordInput.
  destruct (value (driver s)); repeat (case_bool_decide; try done);
    cbn -[InputError choice selected_option];
    repeat (rewrite ?flat_map_app, ?entries_InputError, ?app_nil_r, ?option_of_choices,
              ?entries_choices; cbn -[InputError choice selected_option]);
    cbn [driver_text] in Hsel; rewrite ?Hsel, ?option_of_choice; cbn [app];
    rewrite ?selected_option_cons; by destruct (processing _), (showPassword s).
Qed.

Definition example_props : Props := {|
  managed := true;
  active_database := {| driver_label := "SQLite"; active_name := Some "/data/app.sqlite";
                        host := None; port := None |};
  migration := None; migration_history := []; migration_error := None;
  drivers := map example_driver [Pgsql; Mysql; Sqlite]; sqlite_path := "/data/new.sqlite";
  confirmations := example_phrases |}.

(** MySQL is chosen instead of the PostgreSQL the page begins with. *)
Lemma plan_form_fields_witness :
  exists s0 s, initialState example_props = Some s0 /\ value (driver s) = Mysql /\
    map fst (entries (fun _ => None) None
      (PlanMigrationCard example_routes idle_forms s (drivers example_props) "/data/new.sqlite")) =
    ["driver"; "host"; "port"; "database"; "username"; "password"; "mysql_ssl_ca"].
Proof.
  eexists _, (chooseDriver (drivers example_props) "mysql" _). split; [reflexivity|].
  split; [reflexivity|].
  refine (proj1 (plan_form_fields example_routes idle_forms (fun _ => None) None example_props _ _
    eq_refl _)).
  apply rtc_once, pc_driver.
Defined.

(** ** Polling and recent events *)

(** The page polls exactly while a migration is being copied or waits for a restart: after any
    sequence of renders, the poll runs if and only if the last render asked for it. *)
Theorem polls_while_transitional (renders : list Props) (last_render : Props) :
  running (fold_left (fun p r => poll_effect (shouldPoll r) p) (renders ++ [last_render])
    {| running := false; last_dependency := None |}) = true <->
  exists m, migration last_render = Some m /\
    (status m = Copying \/ status m = ActivationPendingRestart \/ status m = RollbackPendingRestart).
Proof.
  assert (Hinv : forall l, let p := fold_left (fun p r => poll_effect (shouldPoll r) p) l
    {| running := false; last_dependency := None |} in
    match last_dependency p with Some d => running p = d | None => running p = false end).
  { intros l. induction l as [|r l IH] using rev_ind; [done|]. rewrite fold_left_app. simpl.
    unfold poll_effect at 1 3 5. by case_decide. }
  rewrite fold_left_app. simpl. specialize (Hinv renders). cbv zeta in Hinv.
  set (p := fold_left _ renders _) in *. unfold poll_effect.
  assert (Hr : running (if decide (last_dependency p = Some (shouldPoll last_render)) then p
    else {| running := shouldPoll last_render; last_dependency := Some (shouldPoll last_render) |}) =
    shouldPoll last_render).
  { case_decide as Hd; [|done]. by rewrite Hd in Hinv. }
  rewrite Hr. unfold shouldPoll. destruct (migration last_render) as [m|]; simpl.
  - split.
    + intros H. exists m. split; [done|]. destruct (status m); naive_solver.
    + by intros (m' & [= <-] & [->|[->| ->]]).
  - naive_solver.
Qed.

(** The recent activity of a migration shows its last eight events (all, when there are
    fewer), the latest first, and announces that number. *)
Lemma recentEvents_spec l :
  recentEvents l = take 8 (rev l) /\ length (recentEvents l) = Nat.min (length l) 8.
Proof.
  unfold recentEvents. split.
  - rewrite <- (take_drop (length l - 8) l) at 3. rewrite rev_app_distr.
    set (late := rev (drop (length l - 8) l)).
    assert (Hlate : length late = Nat.min (length l) 8)
      by (unfold late; rewrite length_rev, length_drop; lia).
    destruct (decide (8 <= length l)%nat).
    + rewrite take_app_le by lia. rewrite take_ge by lia. done.
    + replace (length l - 8)%nat with 0%nat by lia. simpl. rewrite app_nil_r, take_ge by lia. done.
  - rewrite length_rev, length_drop. lia.
Qed.
