(* ===== verification/SqlPolicySettings.v ===== *)
(** * The settings of the SQL policy

    [resources/js/pages/settings/admin/sql-policy.tsx]: the administrator's side of the policy that
    [SqlPolicy] applies: the families of statements and the emergency fallback, the candidates that
    await a decision, and the custom rules.  The review of a candidate is a component with a state
    of its own.  What the form posts is followed through [UpdateSqlStatementPolicyRequest.php] into the
    rows of [ApplicationSettings.php] and back.  The routes are generated code (parameters). *)

From Stdlib Require Import String.
From stdpp Require Import gmap.
From S2P Require Import Prelude JsString PhpString CrucibleLib SqlPolicy View Badges Results Pagination.

Open Scope string_scope.
Open Scope Z_scope.
Open Scope list_scope.

(** ** Data *)

Inductive ScopeType := ScopeWorkspace | ScopeConnectionGroup | ScopeDatabaseConnection.

Definition scope_type_text (t : ScopeType) : string :=
  match t with
  | ScopeWorkspace => "workspace"
  | ScopeConnectionGroup => "connection_group"
  | ScopeDatabaseConnection => "database_connection"
  end.

Record PolicyScopeOption := { scope_type : ScopeType; scope_id : option Z; scope_label : string }.

Record Occurrence := {
  occurrence_request_id : Z;
  occurrence_request_title : option string;
  occurrence_connection_name : option string;
  review_requested_at : option string;
}.

Record PolicyCandidate := {
  candidate_id : Z;
  candidate_driver : string;
  canonical_sql : string;
  shape_label : option string;
  shape_available : bool;
  occurrences_count : Z;
  requested_occurrences_count : Z;
  occurrences : list Occurrence;
  first_scope_option : PolicyScopeOption;           (** [scope_options[0]], always there *)
  more_scope_options : list PolicyScopeOption;
}.

Definition scope_options (c : PolicyCandidate) : list PolicyScopeOption :=
  first_scope_option c :: more_scope_options c.

Inductive MatchType := MatchExact | MatchShape.

#[global] Instance MatchType_eq_dec : EqDecision MatchType.
Proof. solve_decision. Defined.

Definition match_type_text (m : MatchType) : string :=
  match m with MatchExact => "exact" | MatchShape => "shape" end.

Record CustomPolicyRule := {
  rule_id : Z;
  rule_driver : string;
  rule_allows : bool;            (** [effect === 'allow'] *)
  rule_match_type : MatchType;
  rule_statement : string;
  rule_scope : string;
  rule_created_by : string;
  rule_is_enabled : bool;
}.

Record Props := {
  settings : SqlStatementPolicy;
  candidates : Paginated PolicyCandidate;
  custom_rules : list CustomPolicyRule;
  selected_candidate_id : option Z;
}.

(** [SqlSetting]: the name of a setting *)
Definition setting_name (k : family_key) : string :=
  match k with
  | Kread => "sql_read_queries_enabled"
  | Kinsert => "sql_insert_enabled"
  | Kupdate => "sql_update_enabled"
  | Kdelete => "sql_delete_enabled"
  | Kcreate_table => "sql_create_table_enabled"
  | Kalter_table => "sql_alter_table_enabled"
  | Kdrop_table => "sql_drop_table_enabled"
  | Ktruncate_table => "sql_truncate_table_enabled"
  end.

Definition FALLBACK_SETTING : string := "sql_emergency_fallback_enabled".

(** The state of the page: the settings of the families and [allowsEmergencySqlFallback]. *)
Definition State : Type := SqlStatementPolicy.

Definition initialState (props : Props) : State := settings props.

(** [{ ...current, [name]: checked }] *)
Definition updateStatementFamilySetting (name : family_key) (checked : bool) (s : State) : State :=
  let value k := if bool_decide (k = name) then checked else policy_get s k in
  Build_SqlStatementPolicy (sql_emergency_fallback_enabled s) (value Kread) (value Kinsert)
    (value Kupdate) (value Kdelete) (value Kcreate_table) (value Kalter_table) (value Kdrop_table)
    (value Ktruncate_table).

Definition setAllowsEmergencySqlFallback (checked : bool) (s : State) : State :=
  Build_SqlStatementPolicy checked (sql_read_queries_enabled s) (sql_insert_enabled s)
    (sql_update_enabled s) (sql_delete_enabled s) (sql_create_table_enabled s)
    (sql_alter_table_enabled s) (sql_drop_table_enabled s) (sql_truncate_table_enabled s).

(** ** The form of the settings *)

(** Lines 360-392 *)
Definition PolicyField (name : family_key) (checked : bool)
    (onCheckedChange : family_key -> bool -> State -> State) (title description : string) : node State :=
  elem "label"
    [El TInput [Attr "type" "hidden"; Attr "name" (setting_name name);
                Attr "value" (if checked then "1" else "0")] [];
     El TInput [Attr "type" "checkbox"; Flag "checked" checked;
                on_toggle (onCheckedChange name)] [];
     elem "span" [elem "span" [Txt title]; elem "span" [Txt description]]].

(** Lines 186-273 *)
Definition family_fields : list (family_key * string * string) :=
  [ (Kread, "Read queries", "SELECT, SHOW, DESCRIBE, and EXPLAIN without ANALYZE.");
    (Kinsert, "INSERT", "Create rows through governed deployment batches.");
    (Kupdate, "UPDATE", "Modify rows through governed deployment batches.");
    (Kdelete, "DELETE", "Delete rows through governed deployment batches.");
    (Kcreate_table, "CREATE TABLE", "Create permanent or temporary tables.");
    (Kalter_table, "ALTER TABLE", "Change an existing table schema.");
    (Kdrop_table, "DROP TABLE", "Permanently remove a table. This is a high-risk operation.");
    (Ktruncate_table, "TRUNCATE TABLE", "Remove every row from a table. This is a high-risk operation.") ].

Definition familySection (s : State) : node State :=
  elem "section"
    [elem "div"
       [elem "h2" [Txt "Statement families"];
        elem "p" [Txt "Choose which recognized SQL families may run through governed workflows."]];
     elem "div"
       (map (fun '(name, title, description) =>
          PolicyField name (policy_get s name) updateStatementFamilySetting title description)
          family_fields)].

(** Lines 276-322 *)
Definition fallbackSection (s : State) : node State :=
  elem "section"
    [elem "div"
       [elem "div"
          [elem "h2" [Txt "Emergency SQL fallback"];
           elem "p" [Txt "Allow one otherwise unsupported deployment statement for urgent, approved work."]];
        elem "label"
          [elem "span" [Txt "Enable emergency SQL fallback"];
           El TInput [Attr "type" "hidden"; Attr "name" FALLBACK_SETTING; Attr "value" "0"] [];
           El TInput [Attr "type" "checkbox"; Attr "name" FALLBACK_SETTING; Attr "value" "1";
                      Flag "checked" (sql_emergency_fallback_enabled s);
                      on_toggle setAllowsEmergencySqlFallback] []]];
     elem "p" [Txt "Fallback SQL is treated as write access, remains subject to role permissions and approval, and is recorded in the audit log. It applies only to deployment batches; Query Access sessions cannot use it."]].

(** Lines 168-331 *)
Definition policyForm (action : string) (s : State) (processing : bool) : node State :=
  El (Tag "Form") [Attr "action" action; Flag "disableWhileProcessing" true]
    [familySection s; fallbackSection s;
     elem "div" [El TButton [Flag "disabled" processing] [Txt "Save SQL policy"]]].

(** ** The review of a candidate *)

Record ReviewState := { matchType : MatchType; scopeValue : string }.

(** [`${scope.type}:${scope.id ?? ''}`] *)
Definition scope_value (o : PolicyScopeOption) : string :=
  (scope_type_text (scope_type o) ++ ":" ++ number_or "" (scope_id o))%string.

Definition initialReview (candidate : PolicyCandidate) : ReviewState :=
  {| matchType := MatchExact; scopeValue := scope_value (first_scope_option candidate) |}.

Definition setMatchType (m : MatchType) (s : ReviewState) : ReviewState :=
  {| matchType := m; scopeValue := scopeValue s |}.

Definition setScopeValue (o : PolicyScopeOption) (s : ReviewState) : ReviewState :=
  {| matchType := matchType s; scopeValue := scope_value o |}.

(** [const [scopeType, scopeId = ''] = scopeValue.split(':')] *)
Definition scopeType (s : ReviewState) : string := nth 0 (split_on ":" (scopeValue s)) "".
Definition scopeId (s : ReviewState) : string := nth 1 (split_on ":" (scopeValue s)) "".

(** The rule types that are offered. *)
Definition match_types (candidate : PolicyCandidate) : list MatchType :=
  MatchExact :: when (shape_available candidate) [MatchShape].

(** Lines 451-471 *)
Definition occurrenceLink (show : Z -> string) (o : Occurrence) : node ReviewState :=
  El (Tag "Link")
    [Attr "key" (str_of_Z (occurrence_request_id o) ++ "-" ++
                 (occurrence_connection_name o ?? "null"))%string;
     Attr "href" (show (occurrence_request_id o))]
    [Txt (occurrence_request_title o ?? ("Request #" ++ str_of_Z (occurrence_request_id o)))%string;
     Txt (if truthy_opt (occurrence_connection_name o)
          then " · " ++ (occurrence_connection_name o ?? "") else "")%string;
     Txt (if truthy_opt (review_requested_at o) then " · requested" else " · observed")].

(** Lines 417-472 *)
Definition candidateSummary (show : Z -> string) (candidate : PolicyCandidate) : node ReviewState :=
  elem "div"
    [elem "div"
       ([elem "Badge" [Txt (driverLabel (candidate_driver candidate))];
         elem "Badge" [Txt (str_of_Z (occurrences_count candidate) ++ " " ++
                            if (occurrences_count candidate =? 1)%Z then "occurrence"
                            else "occurrences")%string]] ++
        when (0 <? requested_occurrences_count candidate) [elem "Badge" [Txt "Review requested"]] ++
        when (shape_available candidate) [elem "Badge" [Txt "Reusable shape available"]]);
     elem "pre" [Txt (canonical_sql candidate)];
     elem "div" (map (occurrenceLink show) (occurrences candidate))].

(** A button that submits a decision. *)
Definition decision (action text : string) (processing : bool) : node ReviewState :=
  El TButton [Attr "type" "submit"; Attr "name" "action"; Attr "value" action;
              Flag "disabled" processing] [Txt text].

(** Lines 484-519 *)
Definition matchField (candidate : PolicyCandidate) (s : ReviewState)
    (errors : list (string * string)) : node ReviewState :=
  let id := ("candidate-" ++ str_of_Z (candidate_id candidate) ++ "-match")%string in
  elem "div"
    ([El (Tag "label") [Attr "for" id] [Txt "Rule type"];
      El TSelect [Attr "id" id; Attr "name" "match_type"; Attr "value" (match_type_text (matchType s));
                  on_choose (match_types candidate) match_type_text setMatchType]
        (map (fun m => choice (match_type_text m)
                (match m with
                 | MatchExact => "This exact statement"
                 | MatchShape => "All " ++ (shape_label candidate ?? "") ++ " statements"
                 end)%string) (match_types candidate));
      elem "p" [Txt (match matchType s with
                     | MatchShape => "Reusable matching is offered only when the built-in parser proves a supported statement structure."
                     | MatchExact => "The submitted SQL must match exactly; surrounding whitespace and a trailing semicolon are ignored."
                     end)]] ++
     InputError (error_of errors "match_type")).

(** Lines 521-557; the [select] has no name. *)
Definition scopeField (candidate : PolicyCandidate) (s : ReviewState)
    (errors : list (string * string)) : node ReviewState :=
  let id := ("candidate-" ++ str_of_Z (candidate_id candidate) ++ "-scope")%string in
  elem "div"
    ([El (Tag "label") [Attr "for" id] [Txt "Applies to"];
      El TSelect [Attr "id" id; Attr "value" (scopeValue s);
                  on_choose (scope_options candidate) scope_value setScopeValue]
        (map (fun o => choice (scope_value o) (scope_label o)) (scope_options candidate));
      El TInput [Attr "type" "hidden"; Attr "name" "scope_type"; Attr "value" (scopeType s)] [];
      El TInput [Attr "type" "hidden"; Attr "name" "scope_id"; Attr "value" (scopeId s)] []] ++
     InputError (error_of errors "scope_type") ++ InputError (error_of errors "scope_id")).

(** Lines 474-611 *)
Definition resolutionForm (action : string) (candidate : PolicyCandidate) (s : ReviewState)
    (processing : bool) (errors : list (string * string)) : node ReviewState :=
  let id := ("candidate-" ++ str_of_Z (candidate_id candidate) ++ "-comment")%string in
  El (Tag "Form") [Attr "action" action; Flag "disableWhileProcessing" true]
    ([matchField candidate s errors; scopeField candidate s errors;
      elem "div"
        ([El (Tag "label") [Attr "for" id] [Txt "Decision note"];
          El TTextarea [Attr "id" id; Attr "name" "comment"; Attr "rows" "3";
                        Attr "placeholder" "Required when denying or dismissing; shared with the requester."] []] ++
         InputError (error_of errors "comment"));
      elem "div" [decision "allow" "Allow" processing; decision "deny" "Deny exact" processing];
      decision "dismiss" "Dismiss without a rule" processing] ++
     InputError (error_of errors "action")).

(** Lines 394-615 *)
Definition CandidateReview (show resolve : Z -> string) (candidate : PolicyCandidate) (selected : bool)
    (s : ReviewState) (processing : bool) (errors : list (string * string)) : node ReviewState :=
  El (Tag "article")
    [Attr "id" ("sql-policy-candidate-" ++ str_of_Z (candidate_id candidate))%string;
     Flag "selected" selected]
    [elem "div"
       [candidateSummary show candidate;
        resolutionForm (resolve (candidate_id candidate)) candidate s processing errors]].

(** ** The page *)

(** Lines 617-674 *)
Definition CustomRuleRow (update_rule : Z -> string) (rule : CustomPolicyRule) (processing : bool)
    : node State :=
  El (Tag "div") [Attr "key" (str_of_Z (rule_id rule))]
    [elem "div"
       [elem "div"
          ([elem "Badge" [Txt (if rule_allows rule then "Allow" else "Deny")];
            elem "Badge" [Txt (match rule_match_type rule with
                               | MatchShape => "Statement shape"
                               | MatchExact => "Exact"
                               end)];
            elem "Badge" [Txt (driverLabel (rule_driver rule))]] ++
           when (negb (rule_is_enabled rule)) [elem "Badge" [Txt "Disabled"]]);
        elem "p" [Txt (rule_statement rule)];
        elem "p" [Txt (rule_scope rule ++ " · Added by " ++ rule_created_by rule)%string]];
     El (Tag "Form") [Attr "action" (update_rule (rule_id rule)); Flag "disableWhileProcessing" true]
       [El TInput [Attr "type" "hidden"; Attr "name" "is_enabled";
                   Attr "value" (if rule_is_enabled rule then "0" else "1")] [];
        El TButton [Attr "type" "submit"; Flag "disabled" processing]
          [Txt (if rule_is_enabled rule then "Disable rule" else "Enable rule")]]].

(** Lines 128-166: each candidate is a [CandidateReview] of its own. *)
Definition candidateSection (props : Props) : node State :=
  elem "section"
    ([elem "div"
        [elem "div"
           [elem "h2" [Txt "SQL policy candidates"];
            elem "p" [Txt "Explicit developer requests appear first. Other structurally safe unsupported statements remain available as observations without creating review work."]];
         elem "Badge" [Txt (str_of_Z (page_total (candidates props)) ++ " unresolved")%string]];
      match page_data (candidates props) with
      | [] => elem "div" [Txt "No unsupported deployment statements need review."]
      | list =>
          elem "div"
            (map (fun candidate =>
               El (Tag "CandidateReview")
                 [Attr "key" (str_of_Z (candidate_id candidate));
                  Flag "selected"
                    (bool_decide (Some (candidate_id candidate) = selected_candidate_id props))] []) list)
      end] ++
     Pagination (candidates props) None).

(** Lines 332-354 *)
Definition ruleSection (update_rule : Z -> string) (props : Props) (processing : Z -> bool)
    : node State :=
  elem "section"
    [elem "div"
       [elem "h2" [Txt "Custom deployment rules"];
        elem "p" [Txt "Decisions promoted from the candidate queue. These rules never apply to browser Query Access or native client sessions."]];
     match custom_rules props with
     | [] => elem "div" [Txt "No custom deployment rules have been created."]
     | rules => elem "div" (map (fun rule => CustomRuleRow update_rule rule (processing (rule_id rule))) rules)
     end].

(** Lines 119-358 *)
Definition SqlPolicyPage (action : string) (update_rule : Z -> string) (props : Props) (s : State)
    (processing : bool) (rule_processing : Z -> bool) : node State :=
  elem "Fragment"
    [El (Tag "Head") [Attr "title" "SQL Policy"] [];
     elem "div"
       [PageHeader "SQL policy" (Some "Control governed deployment statements and review unsupported SQL discovered during preflight.") [];
        candidateSection props; policyForm action s processing; ruleSection update_rule props rule_processing]].

(** ** The server's side of the settings *)

Definition all_families : list family_key :=
  [Kread; Kinsert; Kupdate; Kdelete; Kcreate_table; Kalter_table; Kdrop_table; Ktruncate_table].

(** The fields of [rules], in its order. *)
Definition policy_settings : list string := FALLBACK_SETTING :: map setting_name all_families.

(** The rules [required] and [boolean] for a field: of the values that are posted under its name the last
    one counts, and of texts the rules accept these two. *)
Definition required_boolean (es : list (string * string)) (name : string) : option string :=
  v ← last (posted es name); if existsb (str_eq v) ["0"; "1"] then Some v else None.

(** [UpdateSqlStatementPolicyRequest]: the validated fields, or [None] if a field is refused. *)
Definition validated_policy (es : list (string * string)) : option (list (string * string)) :=
  mapM (fun name => pair name <$> required_boolean es name) policy_settings.

(** The rows of [application_settings]: the value of a key, which may be null. *)
Notation SettingRows := (gmap string (option string)).

(** [put] *)
Definition put (fields : list (string * string)) (rows : SettingRows) : SettingRows :=
  foldl (fun rows '(key, value) => <[key := Some value]> rows) rows fields.

(** [filter_var] with [FILTER_VALIDATE_BOOL] and [FILTER_NULL_ON_FAILURE], of a text. *)
Definition filter_blank (c : ascii) : bool := existsb (fun n => is_code n c) [32; 9; 10; 11; 13]%N.
Definition filter_bool (v : string) : option bool :=
  let v := toLowerCase (lstrip filter_blank (rstrip filter_blank v)) in
  if existsb (str_eq v) ["1"; "true"; "on"; "yes"] then Some true
  else if existsb (str_eq v) [""; "0"; "false"; "off"; "no"] then Some false else None.

(** A setting with its default: a null is converted to the empty text. *)
Definition setting_of (rows : SettingRows) (name : string) (default : bool) : bool :=
  match rows !! name with
  | Some value => filter_bool (value ?? "") ?? default
  | None => default
  end.

Definition isEnabledByDefault (k : family_key) : bool :=
  match k with Kalter_table | Kdrop_table | Ktruncate_table => false | _ => true end.

Definition sqlStatementPolicyValues (rows : SettingRows) : SqlStatementPolicy :=
  let value k := setting_of rows (setting_name k) (isEnabledByDefault k) in
  Build_SqlStatementPolicy (setting_of rows FALLBACK_SETTING false) (value Kread) (value Kinsert)
    (value Kupdate) (value Kdelete) (value Kcreate_table) (value Kalter_table) (value Kdrop_table)
    (value Ktruncate_table).

(** The policy after [update], or [None] if the request is refused. *)
Definition saved_policy (es : list (string * string)) (rows : SettingRows) : option SqlStatementPolicy :=
  fields ← validated_policy es; Some (sqlStatementPolicyValues (put fields rows)).

(** ** What is saved is what is shown *)

Lemma put_other fields rows name :
  name ∉ map fst fields -> put fields rows !! name = rows !! name.
Proof.
  revert rows. induction fields as [|[key value] fields IH]; intros rows Hn; [done|].
  cbn in Hn. apply not_elem_of_cons in Hn as [Hk Hn]. unfold put in *. cbn. rewrite IH by done.
  by rewrite lookup_insert_ne by congruence.
Qed.

Lemma lookup_put fields rows name value :
  NoDup (map fst fields) -> (name, value) ∈ fields -> put fields rows !! name = Some (Some value).
Proof.
  revert rows. induction fields as [|[key v] fields IH]; intros rows Hd Hin; [by apply elem_of_nil in Hin|].
  cbn in Hd. apply NoDup_cons in Hd as [Hk Hd]. apply elem_of_cons in Hin as [[= <- <-]|Hin].
  - change (put fields (<[name := Some value]> rows) !! name = Some (Some value)).
    rewrite put_other by done. apply lookup_insert_eq.
  - by apply (IH (<[key := Some v]> rows)).
Qed.

(** The value of a setting in a policy. *)
Definition setting_in (s : SqlStatementPolicy) (name : string) : bool :=
  if str_eq name FALLBACK_SETTING then sql_emergency_fallback_enabled s
  else existsb (fun k => str_eq name (setting_name k) && policy_get s k) all_families.

Definition spelled (s : SqlStatementPolicy) (name : string) : string * string :=
  (name, if setting_in s name then "1" else "0").

Lemma setting_put s rows name default :
  name ∈ policy_settings -> setting_of (put (map (spelled s) policy_settings) rows) name default = setting_in s name.
Proof.
  intros Hn. unfold setting_of.
  rewrite (lookup_put (map (spelled s) policy_settings) rows name (if setting_in s name then "1" else "0")).
  - by destruct (setting_in s name).
  - rewrite map_map. cbn. apply (bool_decide_unpack _). vm_compute. exact I.
  - apply list_elem_of_In, in_map_iff. exists name. split; [done|]. by apply list_elem_of_In.
Qed.

Lemma policyForm_entries typed sub action s processing :
  entries typed sub (policyForm action s processing) =
  map (fun '(k, _, _) => (setting_name k, if policy_get s k then "1" else "0")) family_fields ++
  (FALLBACK_SETTING, "0") :: when (sql_emergency_fallback_enabled s) [(FALLBACK_SETTING, "1")].
Proof.
  destruct s as [f a b c d e g h i]. unfold policyForm. rewrite entries_Tag.
  cbn -[policy_get]. destruct f, processing; done.
Qed.

Lemma validated_policyForm typed sub action s processing :
  validated_policy (entries typed sub (policyForm action s processing)) = Some (map (spelled s) policy_settings).
Proof.
  rewrite policyForm_entries. destruct s as [[] [] [] [] [] [] [] [] []]; vm_compute; reflexivity.
Qed.

Lemma saved_policyForm typed sub action s processing rows :
  saved_policy (entries typed sub (policyForm action s processing)) rows = Some s.
Proof.
  unfold saved_policy. rewrite validated_policyForm. cbn [mbind option_bind]. f_equal.
  unfold sqlStatementPolicyValues.
  rewrite !setting_put by (apply list_elem_of_In; cbn; tauto).
  destruct s as [[] [] [] [] [] [] [] [] []]; reflexivity.
Qed.

Lemma policy_get_update k b s k' :
  policy_get (updateStatementFamilySetting k b s) k' = if bool_decide (k' = k) then b else policy_get s k'.
Proof. by destruct k'. Qed.

Lemma message_disabled sql policy f :
  statement_family_of (topLevelGovernedSql (executable_sql sql)) = Some f ->
  policy_get policy (family_id f) = false -> sqlStatementPolicyMessage sql policy <> None.
Proof.
  intros Hf Hp. unfold sqlStatementPolicyMessage. rewrite Hf, Hp. by repeat case_match.
Qed.

(** The page has a box for every family, which sets it. *)
Lemma family_box action update_rule props s processing rule_processing k :
  exists h, h ∈ actions (SqlPolicyPage action update_rule props s processing rule_processing) /\
    forall now b, h now (Toggle b) s = updateStatementFamilySetting k b s.
Proof.
  exists (fun _ ev s => match ev with Toggle b => updateStatementFamilySetting k b s | _ => s end).
  split; [|done]. unfold SqlPolicyPage. eapply actions_kid; [apply list_elem_of_further, list_elem_of_here|].
  eapply actions_kid; [do 2 apply list_elem_of_further; apply list_elem_of_here|].
  eapply actions_kid; [apply list_elem_of_here|].
  destruct k; cbn; repeat (first [apply list_elem_of_here | apply list_elem_of_further]).
Qed.

(** C18.  The settings page and the request form agree on the policy: in every state the server accepts
    what the form of the settings posts, which needs every setting among it, and whatever was stored before,
    the policy it reads back is exactly the one that is shown; and for a statement of any family the page has
    a box such that, when it is cleared, saving is accepted too, the policy that is then read makes the check
    of the request form block the statement, and every other setting is as it was. *)
Theorem saved_policy_governs action update_rule props s typed sub processing rule_processing sql f rows :
  statement_family_of (topLevelGovernedSql (executable_sql sql)) = Some f ->
  let saved s := saved_policy (entries typed sub (policyForm action s processing)) rows in
  saved s = Some s /\
  exists h, h ∈ actions (SqlPolicyPage action update_rule props s processing rule_processing) /\
    forall now, exists saved', saved (h now (Toggle false) s) = Some saved' /\
      sqlStatementPolicyMessage sql saved' <> None /\
      sql_emergency_fallback_enabled saved' = sql_emergency_fallback_enabled s /\
      forall k, k <> family_id f -> policy_get saved' k = policy_get s k.
Proof.
  intros Hf saved. unfold saved. split; [apply saved_policyForm|].
  destruct (family_box action update_rule props s processing rule_processing (family_id f)) as (h & Hh & E).
  exists h. split; [done|]. intros now. rewrite E. eexists. split; [apply saved_policyForm|]. split_and!.
  - apply (message_disabled _ _ f Hf). rewrite policy_get_update. by rewrite bool_decide_true.
  - done.
  - intros k Hk. rewrite policy_get_update. by rewrite bool_decide_false.
Qed.

(** ** Decisions on candidates *)

(** A control of the review is used. *)
Inductive review_step (show resolve : Z -> string) (candidate : PolicyCandidate)
    : ReviewState -> ReviewState -> Prop :=
  | review_control selected s processing errors h now ev :
      h ∈ actions (CandidateReview show resolve candidate selected s processing errors) ->
      review_step show resolve candidate s (h now ev s).

(** The state of a review names a scope and a rule type that are offered. *)
Definition review_ok (candidate : PolicyCandidate) (s : ReviewState) : Prop :=
  matchType s ∈ match_types candidate /\
  exists o, o ∈ scope_options candidate /\ scopeValue s = scope_value o.

Lemma review_actions show resolve candidate selected s processing errors h :
  h ∈ actions (CandidateReview show resolve candidate selected s processing errors) ->
  h = choose_handler (match_types candidate) match_type_text setMatchType \/
  h = choose_handler (scope_options candidate) scope_value setScopeValue.
Proof.
  revert h. apply Forall_forall.
  change (all_actions (fun h => h = choose_handler (match_types candidate) match_type_text setMatchType \/
    h = choose_handler (scope_options candidate) scope_value setScopeValue)
    (CandidateReview show resolve candidate selected s processing errors)).
  unfold CandidateReview, candidateSummary, occurrenceLink, resolutionForm, matchField, scopeField,
    decision, choice. walk; auto.
Qed.

Lemma review_step_ok show resolve candidate s s' :
  review_step show resolve candidate s s' -> review_ok candidate s -> review_ok candidate s'.
Proof.
  destruct 1 as [selected s processing errors h now ev Hh]. intros [Hm Ho].
  apply review_actions in Hh as [->| ->].
  - destruct (choose_handler_spec (match_types candidate) match_type_text setMatchType now ev s)
      as [->|(m & Hin & ->)]; by split.
  - destruct (choose_handler_spec (scope_options candidate) scope_value setScopeValue now ev s)
      as [->|(o & Hin & ->)]; split; eauto.
Qed.

Lemma initialReview_ok candidate : review_ok candidate (initialReview candidate).
Proof. split; [apply list_elem_of_here|]. eexists. split; [apply list_elem_of_here|done]. Qed.

Lemma split_scope o :
  split_on ":" (scope_value o) = [scope_type_text (scope_type o); number_or "" (scope_id o)].
Proof.
  unfold scope_value. change (":" ++ ?x)%string with (String ":" x).
  pose (p := fun a => negb (Ascii.eqb a ":")).
  rewrite (split_on_first p); [|by destruct (scope_type o)|done].
  rewrite (split_on_one p); [done| |done]. destruct (scope_id o) as [n|]; [|done].
  apply str_of_Z_chars; [|done]. intros c. unfold p. destruct (Ascii.eqb_spec c ":") as [->|]; done.
Qed.

(** What a decision on a candidate posts: whatever the administrator chose, pressing a button
    posts the scope's own type and id (an empty id for the workspace), as two fields taken from the
    one value of the select; a rule type the candidate supports; the note; and the action. *)
Theorem candidate_decision_posts show resolve candidate s typed action url processing errors :
  rtc (review_step show resolve candidate) (initialReview candidate) s ->
  action ∈ ["allow"; "deny"; "dismiss"] -> processing = false ->
  exists o m, o ∈ scope_options candidate /\ (m = MatchShape -> shape_available candidate = true) /\
    entries typed (Some ("action", action)) (resolutionForm url candidate s processing errors) =
      [("match_type", match_type_text m); ("scope_type", scope_type_text (scope_type o));
       ("scope_id", number_or "" (scope_id o)); ("comment", typed "comment" ?? "");
       ("action", action)].
Proof.
  intros Hr Ha ->.
  assert (Hok : review_ok candidate s).
  { pose proof (initialReview_ok candidate) as H0. induction Hr; eauto using review_step_ok. }
  destruct Hok as [Hm (o & Ho & Hs)]. exists o, (matchType s). split; [done|]. split.
  { intros E. rewrite E in Hm. unfold match_types in Hm. apply elem_of_cons in Hm as [|Hm]; [done|].
    apply elem_of_when in Hm. tauto. }
  unfold resolutionForm, matchField, scopeField, scopeType, scopeId. rewrite Hs, split_scope.
  rewrite entries_Tag. cbn [flat_map app]. rewrite !entries_elem. cbn [flat_map app].
  rewrite !flat_map_app, !entries_InputError, !app_nil_r.
  cbn -[InputError match_types scope_options selected_option].
  rewrite (option_of_choices match_type_text), !entries_choices.
  rewrite selected_option_listed.
  - apply elem_of_cons in Ha as [->|Ha]; [done|]. apply elem_of_cons in Ha as [->|Ha]; [done|].
    by apply list_elem_of_singleton in Ha as ->.
  - rewrite map_map. apply list_elem_of_fmap. eauto.
Qed.

(** ** Examples *)

Definition example_props : Props := {|
  settings := permissive;
  candidates := {| page_data := []; links := []; page_from := None; page_to := None; page_total := 0 |};
  custom_rules := []; selected_candidate_id := None |}.

Definition no_field (_ : string) : option string := None.

(** DROP TABLE is switched off, where nothing was stored before. *)
Lemma saved_policy_governs_witness :
  let saved s := saved_policy (entries no_field None (policyForm "/settings" s false)) ∅ in
  saved permissive = Some permissive /\
  exists h, h ∈ actions (SqlPolicyPage "/settings" str_of_Z example_props permissive false (fun _ => false)) /\
    forall now, exists saved', saved (h now (Toggle false) permissive) = Some saved' /\
      sqlStatementPolicyMessage "drop table users" saved' <> None /\
      sql_emergency_fallback_enabled saved' = sql_emergency_fallback_enabled permissive /\
      forall k, k <> Kdrop_table -> policy_get saved' k = policy_get permissive k.
Proof.
  apply (saved_policy_governs "/settings" str_of_Z example_props permissive no_field None false
    (fun _ => false) "drop table users"
    (Family Kdrop_table "DROP TABLE" (family_pattern (nth 6 SQL_STATEMENT_FAMILIES
       (Family Kread "" BLOCK_COMMENT_PATTERN))))).
  vm_compute. reflexivity.
Defined.

Definition example_candidate : PolicyCandidate := {|
  candidate_id := 3; candidate_driver := "mysql"; canonical_sql := "optimize table users";
  shape_label := None; shape_available := false; occurrences_count := 1;
  requested_occurrences_count := 1; occurrences := [];
  first_scope_option := {| scope_type := ScopeWorkspace; scope_id := None; scope_label := "Workspace" |};
  more_scope_options :=
    [{| scope_type := ScopeDatabaseConnection; scope_id := Some 12; scope_label := "main" |}] |}.

(** The scope is narrowed to connection 12, and the statement denied. *)
Definition narrowed : ReviewState :=
  fire (CandidateReview str_of_Z str_of_Z example_candidate false (initialReview example_candidate)
    false []) 1 0 (Change "database_connection:12") (initialReview example_candidate).

Lemma candidate_decision_posts_witness :
  entries no_field (Some ("action", "deny")) (resolutionForm "/resolve" example_candidate narrowed false []) =
    [("match_type", "exact"); ("scope_type", "database_connection"); ("scope_id", "12");
     ("comment", ""); ("action", "deny")] /\
  exists o m, o ∈ scope_options example_candidate /\
    (m = MatchShape -> shape_available example_candidate = true) /\
    entries no_field (Some ("action", "deny")) (resolutionForm "/resolve" example_candidate narrowed false []) =
      [("match_type", match_type_text m); ("scope_type", scope_type_text (scope_type o));
       ("scope_id", number_or "" (scope_id o)); ("comment", ""); ("action", "deny")].
Proof.
  split; [vm_compute; reflexivity|].
  apply (candidate_decision_posts str_of_Z str_of_Z example_candidate narrowed no_field "deny" "/resolve"
    false []).
  - apply rtc_once. unfold narrowed.
    destruct (fire_action (CandidateReview str_of_Z str_of_Z example_candidate false
      (initialReview example_candidate) false []) 1 0 (Change "database_connection:12")
      (initialReview example_candidate)) as (h & Hh & ->); [vm_compute; lia|].
    by eapply review_control.
  - apply list_elem_of_further, list_elem_of_here.
  - reflexivity.
Defined.
