(* ===== verification/NativePanel.v ===== *)
(** * The panel of a native client session

    [resources/js/components/native-proxy/session-panel.tsx]: temporary credentials for a database
    client, the command line of the tunnel, the clients that are connected, and the statements they
    ran.  Requests are sent by buttons and answered later; the list of connections is polled by a
    chain of timers.  The value that can be copied has a state of its own ([CopyValue]).

    The panel is mounted afresh for every session (its parent gives it the id of the session as
    key). *)

From Stdlib Require Import String.
From S2P Require Import Prelude JsString JsDate CrucibleLib View Badges Results Pagination.

Open Scope string_scope.
Open Scope Z_scope.
Open Scope list_scope.

(** ** Data *)

Record Credential := {
  lease_id : string;
  username : string;
  password : string;
  version : Z;                    (** [credential_version] *)
}.

Record Lease := {
  id : option string;
  status : string;
  credential_version : Z;
  credentials_created_at : option string;
}.

Record NativeProxyConnection := {
  native_id : string;
  protocol : string;
  native_status : string;
  client_application : option string;
  last_activity_at : option string;
  statement_count : Z;
}.

Record AuthorizedDevice := {
  device_id : string;
  device_label : option string;
  operating_system : string;
  architecture : string;
  authorized_at : option string;
}.

Record NativeStatement := {
  statement_id : Z;
  protocol_command : option string;
  sql_fingerprint : option string;
  parameter_count : Z;
  statement_type : QueryType;
  statement_status : ExecutionStatus;
  statement_rows : option Z;
  statement_ms : option Z;
}.

Record Props := {
  session_id : Z;
  expires_at : string;
  connection_name : string;
  connection_driver : string;
  can_manage : bool;
  session_lease : option Lease;
  session_connections : list NativeProxyConnection;
  session_devices : list AuthorizedDevice;
  native_statements : Paginated NativeStatement;
  serverUrl : string;
  cliDownloadUrl : option string;
  timezone : string;
}.

Record State := {
  credential : option Credential;
  createdLease : option Lease;
  connections : list NativeProxyConnection;
  authorizedDevices : list AuthorizedDevice;
  message : option string;
}.

Definition initialState (props : Props) : State := {|
  credential := None; createdLease := None; connections := session_connections props;
  authorizedDevices := session_devices props; message := None |}.

(** ** Values derived at a render *)

Section derived.
Context (props : Props) (s : State).

Definition lease : option Lease :=
  match createdLease s with Some l => Some l | None => session_lease props end.

Definition lease_is (st : string) : bool :=
  match lease with Some l => str_eq (status l) st | None => false end.

Definition hasUsableCredentials : bool := is_some (credential s) || lease_is "active".
Definition hasTerminalLease : bool := lease_is "revoked" || lease_is "expired".

Definition activeConnections : list NativeProxyConnection :=
  List.filter (fun c => str_eq (native_status c) "active") (connections s).

Definition hasConnectedClient : bool := (0 <? length activeConnections)%nat.
Definition hasApprovedDevice : bool := (0 <? length (authorizedDevices s))%nat.
Definition localPort : string := if str_eq (connection_driver props) "pgsql" then "5432" else "3306".

(** The id of the lease the command names: [credential?.lease_id ?? lease?.id]. *)
Definition command_lease : option string :=
  match lease_id <$> credential s with Some l => Some l | None => lease ≫= id end.

Definition command : option string :=
  if negb (can_manage props) then None
  else
    match command_lease with
    | Some (String _ _ as leaseId) =>
        Some ("crucible connect --server " ++ serverUrl props ++ " --lease " ++ leaseId ++
              if startsWith (serverUrl props) "http://" then " --allow-insecure-http" else "")%string
    | _ => None
    end.
End derived.

(** ** Handlers *)

Definition setCredential v s := {|
  credential := v; createdLease := createdLease s; connections := connections s;
  authorizedDevices := authorizedDevices s; message := message s |}.

Definition setCreatedLease v s := {|
  credential := credential s; createdLease := v; connections := connections s;
  authorizedDevices := authorizedDevices s; message := message s |}.

Definition setMessage v s := {|
  credential := credential s; createdLease := createdLease s; connections := connections s;
  authorizedDevices := authorizedDevices s; message := v |}.

Definition clearCredential (s : State) : State := setCredential None s.

Definition applyCredential (now : Z) (response : Credential) (s : State) : State :=
  setCreatedLease
    (Some {| id := Some (lease_id response); status := "active"; credential_version := version response;
             credentials_created_at := Some (to_iso_string now) |})
    (setCredential (Some response) s).

(** The answer to a poll: lines 160-161 *)
Definition connectionsRefreshed (data : list NativeProxyConnection) (devices : list AuthorizedDevice)
    (s : State) : State := {|
  credential := credential s; createdLease := createdLease s; connections := data;
  authorizedDevices := devices; message := message s |}.

Definition CREATE_FAILED : string :=
  "Credentials were already created or could not be created. Rotate credentials to issue a new password.".
Definition ROTATE_FAILED : string :=
  "Credentials could not be rotated. Refresh the session state and try again.".

(** What [submit] sends. *)
Inductive Request := StoreLease (session : Z) | RotateLease (lease : string).

(** [createCredentials] and [rotateCredentials] up to the request, and after a failure. *)
Definition createCredentials (props : Props) (s : State) : State * option Request :=
  (setMessage None s, Some (StoreLease (session_id props))).

Definition rotateCredentials (props : Props) (s : State) : State * option Request :=
  match lease props s ≫= id with
  | None => (s, None)
  | Some leaseId => (clearCredential (setMessage None s), Some (RotateLease leaseId))
  end.

Definition failed_message (r : Request) : string :=
  match r with StoreLease _ => CREATE_FAILED | RotateLease _ => ROTATE_FAILED end.

(** ** The panel, its requests and its poll *)

(** The poll's chain of timers (lines 148-184): it waits for its timer, for an answer, or has been
    stopped when the panel went away. *)
Inductive Poll := PollTimer | PollAsking | PollStopped.

(** What happens on the server to the credentials of the session: they are issued to this panel, or to
    another page or user by a rotation, or end with the lease, which somebody revoked or which expired. *)
Inductive Deed := IssuedHere (c : Credential) | IssuedElsewhere (c : Credential) | Ended.

Definition elsewhere (d : Deed) : Prop := match d with IssuedHere _ => False | _ => True end.

(** The credentials the server accepts, after what happened there, the last first. *)
Definition current_credential (deeds : list Deed) : option Credential :=
  match deeds with
  | IssuedHere c :: _ | IssuedElsewhere c :: _ => Some c
  | _ => None
  end.

(** The panel with the request that is out ([processing]) and, once the server has handled it, the answer
    that is under way; what happened on the server since the panel was opened; and the poll. *)
Record Panel := {
  props : Props;
  state : State;
  pending : option Request;
  underway : option Credential;
  deeds : list Deed;
  poll : Poll;
}.

Definition processing (p : Panel) : bool := is_some (pending p).

Definition with_state (s : State) (p : Panel) : Panel := {|
  props := props p; state := s; pending := pending p; underway := underway p; deeds := deeds p; poll := poll p |}.

Definition with_poll (ph : Poll) (p : Panel) : Panel := {|
  props := props p; state := state p; pending := pending p; underway := underway p; deeds := deeds p; poll := ph |}.

Definition with_props (props' : Props) (p : Panel) : Panel := {|
  props := props'; state := state p; pending := pending p; underway := underway p; deeds := deeds p; poll := poll p |}.

(** Something happens on the server. *)
Definition done_there (d : Deed) (answer : option Credential) (p : Panel) : Panel := {|
  props := props p; state := state p; pending := pending p; underway := answer; deeds := d :: deeds p; poll := poll p |}.

(** The request that is out is over. *)
Definition settled (s : State) (p : Panel) : Panel := {|
  props := props p; state := s; pending := None; underway := None; deeds := deeds p; poll := poll p |}.

(** A button whose handler may send a request. *)
Definition press (sr : State * option Request) (p : Panel) : Panel := {|
  props := props p; state := fst sr; pending := snd sr; underway := None; deeds := deeds p; poll := poll p |}.

(** ** The panel rendered *)

Inductive SetupStepStatus := Complete | Current | Upcoming | BlockedStep.

(** Lines 651-711 *)
Definition SetupStep (number : Z) (title : string) (st : SetupStepStatus) (children : list (node Panel))
    : node Panel :=
  El (Tag "li") (match st with Current => [Attr "aria-current" "step"] | _ => [] end)
    [elem "div" [match st with Complete => elem "Check" [] | _ => Txt (str_of_Z number) end];
     elem "div"
       (elem "div"
          [elem "h2" [Txt title];
           elem "span" [Txt (match st with
                             | Complete => "Complete"
                             | Current => "Next"
                             | BlockedStep => "Unavailable"
                             | Upcoming => "Then"
                             end)]]
        :: children)].

(** A value with a button that copies it: a component with a state of its own (below). *)
Definition copy_value (label value : string) : node Panel :=
  El (Tag "CopyValue") [Attr "label" label; Attr "value" value] [].

(** Lines 713-742 *)
Definition CredentialReveal (c : Credential) (onDismiss : Panel -> Panel) : node Panel :=
  elem "div"
    [elem "div"
       [elem "h3" [Txt "Temporary credentials: shown once"];
        elem "p" [Txt "Copy these now. Crucible cannot show the password again; rotate it if you need a replacement."]];
     elem "div"
       [copy_value "Username" (username c); copy_value "Password" (password c);
        elem "div" [El TButton [on_click onDismiss] [Txt "Dismiss and clear"]]]].

Section panel.
Context (intl : string -> option string -> string).
Implicit Types (p : Panel).

Definition dated p (value : option string) : string := formatDate intl value (Some (timezone (props p))).

(** Lines 274-316: the buttons that create and rotate credentials *)
Definition credentialActions p : node Panel :=
  let l := lease (props p) (state p) in
  if can_manage (props p) then
    elem "div"
      (if negb (is_some l) && negb (is_some (credential (state p))) then
         [El TButton [Flag "disabled" (processing p);
                      on_click (fun p => press (createCredentials (props p) (state p)) p)]
            [Txt "Create credentials"]]
       else if lease_is (props p) (state p) "active" then
         [elem "div"
            [El TButton [Flag "disabled" (processing p);
                         on_click (fun p => press (rotateCredentials (props p) (state p)) p)]
               [Txt "Rotate credentials"];
             elem "p" [Txt "Rotation disconnects database clients. Keep the CLI running, then reconnect with the new password."]]]
       else
         match l with
         | Some l =>
             [elem "p" [Txt ("This native client access is " ++ status l ++ ". End this session, then request access again if you still need the database.")%string]]
         | None => []
         end)
  else elem "p" [Txt "Only the session owner or an administrator can manage credentials."].

(** Lines 256-333 *)
Definition createStep p : node Panel :=
  SetupStep 1 "Create temporary credentials"
    (if hasUsableCredentials (props p) (state p) then Complete
     else if hasTerminalLease (props p) (state p) then BlockedStep else Current)
    ([elem "p" [Txt "Create the username and password your database tool will use. The password is shown once, so copy both values before continuing."];
      credentialActions p] ++
     match credential (state p) with
     | Some c => [CredentialReveal c (fun p => with_state (clearCredential (state p)) p)]
     | None => []
     end ++
     when (truthy_opt (message (state p)))
       [El (Tag "p") [Attr "role" "status"] [Txt (message (state p) ?? "")]]).

(** Lines 335-384 *)
Definition tunnelStep p : node Panel :=
  SetupStep 2 "Start and approve the CLI tunnel"
    (if hasApprovedDevice (state p) then Complete
     else if hasUsableCredentials (props p) (state p) then Current else Upcoming)
    ([elem "p" [Txt "Install the CLI, run the command below, then approve the device code in the browser page it opens. Leave the CLI running."]] ++
     when (truthy_opt (cliDownloadUrl (props p)))
       [elem "div" [El (Tag "a") [Attr "href" (cliDownloadUrl (props p) ?? "")] [Txt "Download CLI"];
                    elem "span" [Txt "macOS, Linux, and Windows"]]] ++
     [match command (props p) (state p) with
      | Some c => copy_value "Run in your terminal" c
      | None => elem "p" [Txt "The CLI command appears after step 1."]
      end]).

Definition pair_of (term detail : string) : node Panel :=
  elem "div" [elem "dt" [Txt term]; elem "dd" [Txt detail]].

(** Lines 386-446 *)
Definition connectStep p : node Panel :=
  SetupStep 3 ("Connect " ++ driverLabel (connection_driver (props p)) ++ " or DBeaver")%string
    (if hasConnectedClient (state p) then Complete
     else if hasApprovedDevice (state p) then Current else Upcoming)
    [elem "p" [Txt "After the CLI reports that access is authorized, configure your database tool with the temporary credentials from step 1."];
     elem "dl" [pair_of "Host" "127.0.0.1"; pair_of "Port" (localPort (props p));
                pair_of "TLS" "Disabled locally"; pair_of "Credentials" "From step 1"];
     if hasConnectedClient (state p)
     then El (Tag "p") [Attr "role" "status"] [Txt "Database client connected"]
     else elem "p" [Txt "Waiting for a database client. Keep the CLI process running while you connect."]].

(** Lines 241-449 *)
Definition setupCard p : node Panel :=
  elem "Card"
    [elem "CardHeader"
       [elem "div"
          ([elem "div"
              [elem "CardTitle" [Txt "Connect in 3 steps"];
               elem "CardDescription" [Txt "Keep this page open while you create a local tunnel and connect your database tool."]]] ++
           match lease (props p) (state p) with
           | Some l => [StatusBadge (status l) None]
           | None => []
           end)];
     elem "CardContent" [elem "ol" [createStep p; tunnelStep p; connectStep p]]].

(** Lines 452-495 *)
Definition scopeCard p : node Panel :=
  elem "Card"
    [elem "CardHeader" [elem "CardTitle" [Txt "Session scope"]];
     elem "CardContent"
       [elem "dl"
          [elem "div" [elem "dt" [Txt "Target"]; elem "dd" [Txt (connection_name (props p))];
                       elem "dd" [Txt (driverLabel (connection_driver (props p)))]];
           elem "div" [elem "dt" [Txt "Access window"];
                       elem "dd" [Txt "Ends "; Txt (dated p (Some (expires_at (props p))))]];
           elem "div" [elem "dt" [Txt "Transport"]; elem "dd" [Txt "Encrypted CLI tunnel"];
                       elem "dd" [Txt "TLS is disabled only on the localhost hop."]]]]].

(** Lines 513-537 *)
Definition deviceRow p (device : AuthorizedDevice) : node Panel :=
  El (Tag "div") [Attr "key" (device_id device)]
    [elem "div" [elem "span" [Txt (device_label device ?? "Crucible CLI device")];
                 StatusBadge "approved" (Some "CLI approved")];
     elem "span" [Txt (operating_system device ++ "/" ++ architecture device ++ " · approved " ++
                       dated p (authorized_at device))%string]].

(** Lines 538-563 *)
Definition connectionRow p (connection : NativeProxyConnection) : node Panel :=
  El (Tag "div") [Attr "key" (native_id connection)]
    [elem "div" [elem "span" [Txt (client_application connection ?? driverLabel (protocol connection))];
                 StatusBadge (native_status connection) None];
     elem "span" [Txt (str_of_Z (statement_count connection) ++ " statements · last activity " ++
                       dated p (last_activity_at connection))%string]].

(** Lines 497-579 *)
Definition activityCard p : node Panel :=
  let approved := hasApprovedDevice (state p) in
  elem "Card"
    [elem "CardHeader"
       [elem "div"
          [elem "CardTitle" [Txt "Client activity"];
           elem "span"
             [Txt (str_of_nat (length (authorizedDevices (state p))) ++ " CLI approved · ")%string;
              Txt (if hasConnectedClient (state p)
                   then str_of_nat (length (activeConnections (state p))) ++ " DB connected"
                   else "DB client waiting")%string]]];
     elem "CardContent"
       (map (deviceRow p) (authorizedDevices (state p)) ++
        map (connectionRow p) (connections (state p)) ++
        when (length (connections (state p)) =? 0)%nat
          [elem "div"
             [elem "p" [Txt (if approved then "CLI approved, waiting for a database client"
                             else "Waiting for CLI approval")];
              elem "p" [Txt (if approved then "Now connect psql, MySQL, or DBeaver using step 3."
                             else "Complete step 2 to authorize this CLI device.")]]])].

(** Lines 605-634 *)
Definition nativeStatementRow (statement : NativeStatement) : node Panel :=
  El (Tag "div") [Attr "key" (str_of_Z (statement_id statement))]
    [elem "div" [StatusBadge (execution_status_text (statement_status statement)) None;
                 StatusBadge (query_type_text (statement_type statement)) None];
     elem "code"
       [Txt ((protocol_command statement ?? "statement") ++ " · " ++
             (sql_fingerprint statement ?? "no fingerprint") ++ " · " ++
             str_of_Z (parameter_count statement) ++ " parameter" ++
             if (parameter_count statement =? 1)%Z then "" else "s")%string];
     elem "span" [Txt (str_of_Z (statement_rows statement ?? 0) ++ " rows · " ++
                       str_of_Z (statement_ms statement ?? 0) ++ " ms")%string]].

(** Lines 583-644 *)
Definition historyCard p : node Panel :=
  let statements := native_statements (props p) in
  elem "Card"
    [elem "CardHeader"
       [elem "div"
          [elem "div"
             [elem "CardTitle" [Txt "Statement history"];
              elem "CardDescription" [Txt "Result values and parameter bindings are not retained."]];
           elem "span" [Txt (str_of_Z (page_total statements) ++ " " ++
                             if (page_total statements =? 1)%Z then "statement" else "statements")%string]]];
     elem "CardContent"
       (elem "div"
          (map nativeStatementRow (page_data statements) ++
           when (length (page_data statements) =? 0)%nat
             [elem "p" [Txt "Statements appear here after the database client starts using this connection."]])
        :: Pagination statements None)].

(** Lines 238-646 *)
Definition NativeProxySessionPanel p : node Panel :=
  elem "div"
    [elem "div" [setupCard p; elem "aside" [scopeCard p; activityCard p]]; historyCard p].
End panel.

(** ** The panel in time *)

(** The panel as it is opened. *)
Definition opened (props : Props) : Panel := {|
  props := props; state := initialState props; pending := None; underway := None; deeds := []; poll := PollTimer |}.

(** A control of the panel is used; the server handles the request that is out; its answer arrives; the
    request fails, perhaps after the server handled it; credentials are rotated elsewhere or the lease ends,
    at any time; the parent has a new version of the session (for the same user); the poll's timer fires
    (nothing is asked while the page is hidden), its request is answered or fails; the panel goes away. *)
Inductive panel_step (intl : string -> option string -> string) : Panel -> Panel -> Prop :=
  | pn_control h now ev p : h ∈ actions (NativeProxySessionPanel intl p) ->
      panel_step intl p (h now ev p)
  | pn_handled c p : processing p = true -> underway p = None ->
      panel_step intl p (done_there (IssuedHere c) (Some c) p)
  | pn_issued now c p : underway p = Some c ->
      panel_step intl p (settled (applyCredential now c (state p)) p)
  | pn_failed r p : pending p = Some r ->
      panel_step intl p (settled (setMessage (Some (failed_message r)) (state p)) p)
  | pn_elsewhere d p : elsewhere d -> panel_step intl p (done_there d (underway p) p)
  | pn_session props' p :
      session_id props' = session_id (props p) -> can_manage props' = can_manage (props p) ->
      panel_step intl p (with_props props' p)
  | pn_timer (hidden : bool) p : poll p = PollTimer ->
      panel_step intl p (with_poll (if hidden then PollTimer else PollAsking) p)
  | pn_answer data devices p : poll p = PollAsking ->
      panel_step intl p
        (with_poll PollTimer (with_state (connectionsRefreshed data devices (state p)) p))
  | pn_lost p : poll p = PollAsking -> panel_step intl p (with_poll PollTimer p)
  | pn_unmount p : panel_step intl p (with_poll PollStopped p).

(** What the controls of the panel are: three buttons, each where it is offered. *)
Definition panel_button p (h : handler Panel) : Prop :=
  (h = (fun _ _ p => press (createCredentials (props p) (state p)) p) /\ can_manage (props p) = true /\
   lease (props p) (state p) = None /\ credential (state p) = None /\ processing p = false) \/
  (h = (fun _ _ p => press (rotateCredentials (props p) (state p)) p) /\ can_manage (props p) = true /\
   lease_is (props p) (state p) "active" = true /\ processing p = false) \/
  (h = (fun _ _ p => with_state (clearCredential (state p)) p) /\ credential (state p) <> None).

Lemma SetupStep_actions P number title st children :
  each_actions P children -> all_actions P (SetupStep number title st children).
Proof. intros H. unfold SetupStep. destruct st; by walk. Qed.

Lemma panel_actions intl p : all_actions (panel_button p) (NativeProxySessionPanel intl p).
Proof.
  unfold NativeProxySessionPanel, setupCard, scopeCard, activityCard, historyCard, deviceRow,
    connectionRow, nativeStatementRow. walk;
    auto using all_actions_StatusBadge, each_actions_Pagination.
  - destruct (lease (props p) (state p)); walk. apply all_actions_StatusBadge.
  - apply SetupStep_actions. walk.
    + unfold credentialActions. destruct (can_manage (props p)) eqn:Em; [|walk].
      destruct (negb (is_some (lease (props p) (state p))) && negb (is_some (credential (state p)))) eqn:Ec.
      * walk. left. bool_hyps. split_and!; [done|done| | |done]; by apply is_some_false.
      * destruct (lease_is (props p) (state p) "active") eqn:Ea; [|destruct (lease (props p) (state p)); walk].
        walk. right. left. done.
    + destruct (credential (state p)) as [c|] eqn:Ec; [|walk]. unfold CredentialReveal, copy_value. walk.
      right. right. by rewrite Ec.
  - apply SetupStep_actions. unfold copy_value. walk. destruct (command (props p) (state p)); walk.
  - apply SetupStep_actions. unfold pair_of. walk. destruct (hasConnectedClient (state p)); walk.
Qed.

(** Credentials were issued to this panel, and since then only others did something. *)
Definition last_here (ds : list Deed) (c : Credential) : Prop :=
  exists later earlier, ds = later ++ IssuedHere c :: earlier /\ Forall elsewhere later.

Lemma last_here_done d ds c : elsewhere d -> last_here ds c -> last_here (d :: ds) c.
Proof. intros Hd (later & earlier & -> & Hl). exists (d :: later), earlier. split; [done|by constructor]. Qed.

Lemma last_here_now ds c : last_here (IssuedHere c :: ds) c.
Proof. exists [], ds. split; [done|constructor]. Qed.

(** The credentials on display, and those under way, are the last that were issued to this panel; those on
    display belong to the lease on display, and are shown to those only who may manage them; none are on
    display while a request is out. *)
Definition panel_ok (p : Panel) : Prop :=
  (forall c, credential (state p) = Some c ->
     last_here (deeds p) c /\ pending p = None /\ can_manage (props p) = true /\
     exists l, lease (props p) (state p) = Some l /\ id l = Some (lease_id c) /\
       status l = "active" /\ credential_version l = version c) /\
  (pending p <> None -> can_manage (props p) = true) /\
  (credential (state p) <> None -> is_some (createdLease (state p)) = true) /\
  (forall c, underway p = Some c -> last_here (deeds p) c /\ pending p <> None).

Lemma panel_button_ok p h now ev : panel_button p h -> panel_ok p -> panel_ok (h now ev p).
Proof.
  intros Hb (H1 & H2 & H3 & H4). unfold panel_ok.
  destruct Hb as [(-> & Hm & Hl & Hc & Hp)|[(-> & Hm & Hl & Hp)|(-> & Hc)]]; simpl.
  - split_and!; [|done..]. intros c Hc'. congruence.
  - unfold rotateCredentials.
    destruct (lease (props p) (state p) ≫= id) as [leaseId|] eqn:El; simpl; [done|].
    split_and!; [|done..]. intros c Hc. destruct (H1 c Hc) as (? & ? & ? & l & Hl' & Hi & _).
    rewrite Hl' in El. simpl in El. congruence.
  - by split_and!.
Qed.

(** What others do leaves the invariant as it is. *)
Lemma done_elsewhere_ok d p : elsewhere d -> panel_ok p -> panel_ok (done_there d (underway p) p).
Proof.
  intros Hd (H1 & H2 & H3 & H4). split_and!; [|done|done|].
  - intros c Hc. destruct (H1 c Hc) as (Hi & Hrest). split; [by apply last_here_done|done].
  - intros c Hc. destruct (H4 c Hc) as (Hi & Hp). split; [by apply last_here_done|done].
Qed.

Lemma session_ok props' p : can_manage props' = can_manage (props p) -> panel_ok p -> panel_ok (with_props props' p).
Proof.
  intros Hm (H1 & H2 & H3 & H4). split_and!; simpl; rewrite ?Hm; [|done..]. intros c Hc.
  destruct (H1 c Hc) as (? & ? & ? & l & Hl & ?). split_and!; [done..|]. exists l. split; [|done].
  assert (Hcr : is_some (createdLease (state p)) = true) by (apply H3; congruence).
  unfold lease in *. by destruct (createdLease (state p)).
Qed.

Lemma panel_step_ok intl p p' : panel_step intl p p' -> panel_ok p -> panel_ok p'.
Proof.
  destruct 1 as [h now ev p Hh|c p Hp Hu|now c p Hu|r p Hp|d p Hd|props' p Hid Hm|hidden p Hp
    |data devices p Hp|p Hp|p]; intros Hok; try done.
  - apply panel_button_ok; [|done]. pose proof (panel_actions intl p) as Ha.
    unfold all_actions in Ha. rewrite Forall_forall in Ha. by apply Ha.
  - destruct Hok as (H1 & H2 & H3 & H4). unfold processing in Hp. split_and!; [|done|done|].
    + intros c' Hc'. destruct (H1 c' Hc') as (_ & Hn & _). by rewrite Hn in Hp.
    + intros c' [= <-]. split; [apply last_here_now|]. simpl. by destruct (pending p).
  - destruct Hok as (H1 & H2 & H3 & H4). destruct (H4 c Hu) as [Hi Hp]. split_and!; [|done..].
    intros c' [= <-]. split_and!; [done|done|by apply H2|]. by eexists.
  - destruct Hok as (H1 & H2 & H3 & H4). split_and!; [|done..]. intros c Hc.
    destruct (H1 c Hc) as (? & ? & ?). congruence.
  - by apply done_elsewhere_ok.
  - by apply session_ok.
Qed.

Lemma panel_invariant intl props0 p : rtc (panel_step intl) (opened props0) p -> panel_ok p.
Proof.
  intros H. assert (H0 : panel_ok (opened props0)) by (by split_and!).
  induction H; [done|]. eauto using panel_step_ok.
Qed.


(** The lease that the panel created itself hides the one of every later version of the session: when
    somebody revokes the access while credentials are on display, and the session is read again, the server
    accepts no credentials any more, but the panel goes on showing them, with an active lease, the command
    and the button that rotates. *)
Theorem outdated_credential_shown intl props0 p c props' :
  rtc (panel_step intl) (opened props0) p -> credential (state p) = Some c ->
  session_lease props' = Some {| id := Some (lease_id c); status := "revoked"; credential_version := version c;
                             credentials_created_at := None |} ->
  session_id props' = session_id (props p) -> can_manage props' = can_manage (props p) ->
  let p' := with_props props' (done_there Ended (underway p) p) in
  rtc (panel_step intl) (opened props0) p' /\ current_credential (deeds p') = None /\
  credential (state p') = Some c /\ lease_is (props p') (state p') "active" = true /\
  hasTerminalLease (props p') (state p') = false /\ command_lease (props p') (state p') = Some (lease_id c).
Proof.
  intros Hr Hc Hs Hid Hm p'.
  assert (Hr' : rtc (panel_step intl) (opened props0) p').
  { eapply rtc_r; [eapply rtc_r; [exact Hr|by apply (pn_elsewhere _ Ended)]|by apply pn_session]. }
  destruct (panel_invariant _ _ _ Hr') as (H1 & _). destruct (H1 c Hc) as (_ & _ & _ & l & Hl & Hi & Hst & _).
  unfold lease_is, hasTerminalLease, command_lease, lease_is. rewrite Hl, Hst. cbn. by rewrite Hc.
Qed.

(** After a creation that failed for want of a lease the panel says to rotate the credentials, but a
    session without a lease has no button that does: the message names a way out that is not
    offered. *)
Theorem failed_creation_offers_no_rotation intl p r :
  lease (props p) (state p) = None -> pending p = Some (StoreLease r) ->
  let p' := settled (setMessage (Some (failed_message (StoreLease r))) (state p)) p in
  message (state p') = Some CREATE_FAILED /\
  forall h now ev, h ∈ actions (NativeProxySessionPanel intl p') ->
    match pending (h now ev p') with Some (RotateLease _) => False | _ => True end.
Proof.
  intros Hl _ p'. split; [done|]. intros h now ev Hh. pose proof (panel_actions intl p') as Ha.
  unfold all_actions in Ha. rewrite Forall_forall in Ha.
  destruct (Ha h Hh) as [(-> & _)|[(-> & _ & Hl' & _)|(-> & _)]]; [done| |done].
  unfold lease_is in Hl'. change (lease (props p') (state p')) with (lease (props p) (state p)) in Hl'.
  by rewrite Hl in Hl'.
Qed.

(** ** Copying a value *)

(** [CopyValue] (lines 744-782): whether the mark is shown, whether its timer is set, and what the
    clipboard holds. *)
Record CopyState := { copied : bool; resetCopiedState : bool; clipboard : option string }.

(** [copy]; the browser may refuse to write the clipboard. *)
Definition copyValue (allowed : bool) (value : string) (s : CopyState) : CopyState :=
  if allowed then {| copied := true; resetCopiedState := true; clipboard := Some value |} else s.

(** The timer fires after two seconds. *)
Definition copyReset (s : CopyState) : CopyState :=
  {| copied := false; resetCopiedState := false; clipboard := clipboard s |}.

Definition CopyValue (allowed : bool) (label value : string) (s : CopyState) : node CopyState :=
  elem "div"
    [elem "span" [Txt label];
     elem "div"
       [elem "code" [Txt value];
        El TButton [on_click (copyValue allowed value); Attr "aria-label" ("Copy " ++ label)%string]
          [elem (if copied s then "Check" else "Copy") []]]].

(** ** Examples *)

Definition example_props : Props := {|
  session_id := 7; expires_at := "2026-10-02T10:00:00Z"; connection_name := "main";
  connection_driver := "pgsql"; can_manage := true; session_lease := None; session_connections := [];
  session_devices := [];
  native_statements := {| page_data := []; links := []; page_from := None; page_to := None;
                          page_total := 0 |};
  serverUrl := "http://localhost"; cliDownloadUrl := None; timezone := "UTC" |}.

Definition example_credential (n : Z) : Credential :=
  {| lease_id := "lease"; username := "u"; password := ("secret" ++ str_of_Z n)%string; version := n |}.

(** The first button of the panel is pressed. *)
Definition press_first (p : Panel) : Panel := fire (NativeProxySessionPanel (fun d _ => d) p) 0 0 Click p.

(** The server handles the request that is out, and the answer arrives. *)
Definition answered (c : Credential) (p : Panel) : Panel :=
  let p' := done_there (IssuedHere c) (Some c) p in settled (applyCredential 0 c (state p')) p'.

Definition created : Panel := answered (example_credential 1) (press_first (opened example_props)).
Definition rotated : Panel := answered (example_credential 2) (press_first created).

(** Another page rotates them once more. *)
Definition rotated_elsewhere : Panel :=
  done_there (IssuedElsewhere (example_credential 3)) (underway rotated) rotated.

Lemma press_first_step p : (0 < length (actions (NativeProxySessionPanel (fun d _ => d) p)))%nat ->
  panel_step (fun d _ => d) p (press_first p).
Proof. intros (h & Hh & E)%(fire_action _ 0 0 Click p). unfold press_first. rewrite E. by apply pn_control. Qed.

Lemma answered_steps intl c p : processing p = true -> underway p = None -> rtc (panel_step intl) p (answered c p).
Proof.
  intros Hp Hu. eapply rtc_l; [by apply (pn_handled _ c)|]. apply rtc_once. by apply pn_issued.
Qed.

