(* ===== verification/Forms.v ===== *)
(** * Forms

    The fields the pages for the set-up, the sign-in and the account share
    ([components/password-input.tsx] and the pattern label, input, error), what they post, and the
    part of the validator of the server these forms rely on.

    The messages of the validator and what its rules call are parameters. *)

From Stdlib Require Import String.
From S2P Require Import Prelude JsString View.

Open Scope string_scope.
Open Scope Z_scope.
Open Scope list_scope.

(** ** Fields *)

Section fields.
Context {S : Type}.

Definition Label (name text : string) : node S := El (Tag "Label") [Attr "for" name] [Txt text].

(** A labelled field with its error. *)
Definition labelled (errors : list (string * string)) (label name : string) (control : node S) : node S :=
  elem "div" (Label name label :: control :: InputError (error_of errors name)).

Definition Input (name : string) (attrs : list (prop S)) : node S :=
  El TInput (Attr "id" name :: Attr "name" name :: attrs) [].

Definition input_field (errors : list (string * string)) (label name : string) (attrs : list (prop S))
    : node S := labelled errors label name (Input name attrs).

(** [components/password-input.tsx] *)
Definition PasswordInput (showPassword : bool) (toggle : S -> S) (name : string) (attrs : list (prop S))
    : node S :=
  elem "div"
    [El TInput (Attr "type" (if showPassword then "text" else "password") ::
                Attr "id" name :: Attr "name" name :: attrs) [];
     El TButton [Attr "type" "button"; on_click toggle;
                 Attr "aria-label" (if showPassword then "Hide password" else "Show password");
                 Attr "tabindex" "-1"] []].

Definition password_field (errors : list (string * string)) (showPassword : bool) (toggle : S -> S)
    (label name : string) (attrs : list (prop S)) : node S :=
  labelled errors label name (PasswordInput showPassword toggle name attrs).

(** The button that submits a form. *)
Definition submit (processing : bool) (text : string) : node S :=
  El TButton [Flag "disabled" processing] [Txt text].

(** What the browser holds of an uncontrolled field. *)
Definition held (typed : string -> option string) (name initial : string) : string :=
  typed name ?? initial.

(** What a [select] with a value posts. *)
Definition select_field (name v : string) (options : list string) : list (string * string) :=
  match selected_option v (map (fun o => (o, false)) options) with
  | Some v => [(name, v)]
  | None => []
  end.

(** ** What they post *)

Section payload.
Context (typed : string -> option string) (submitter : option (string * string)).

(** Attributes that leave the value of a field to the browser. *)
Definition plain (attrs : list (prop S)) : bool :=
  negb (flag "disabled" attrs) && negb (checkable_type attrs) && negb (is_some (attr "value" attrs)).

Definition initial_of (attrs : list (prop S)) : string := attr "defaultValue" attrs ?? "".

Lemma Input_entries name attrs : truthy name = true -> plain attrs = true ->
  entries typed submitter (Input name attrs) = [(name, held typed name (initial_of attrs))].
Proof.
  intros Hn Hp. unfold plain in Hp. bool_hyps. destruct name as [|c name]; [done|].
  unfold Input. cbn. unfold own_entries. cbn. rewrite H. unfold checkable_type in *. cbn. rewrite H1.
  unfold current_value. cbn. by destruct (attr "value" attrs).
Qed.

Lemma PasswordInput_entries b f name attrs : truthy name = true -> plain attrs = true ->
  entries typed submitter (PasswordInput b f name attrs) = [(name, held typed name (initial_of attrs))].
Proof.
  intros Hn Hp. unfold plain in Hp. bool_hyps. destruct name as [|c name]; [done|].
  unfold PasswordInput. cbn. unfold own_entries. cbn. rewrite H. unfold checkable_type. cbn.
  unfold current_value. cbn. by destruct b, (attr "value" attrs).
Qed.

Lemma labelled_entries errors label name control :
  entries typed submitter (labelled errors label name control) = entries typed submitter control.
Proof.
  unfold labelled. rewrite entries_elem. cbn [flat_map]. rewrite entries_InputError, app_nil_r. done.
Qed.

Lemma input_field_entries errors label name attrs : truthy name = true -> plain attrs = true ->
  entries typed submitter (input_field errors label name attrs) =
  [(name, held typed name (initial_of attrs))].
Proof. intros. unfold input_field. by rewrite labelled_entries, Input_entries. Qed.

Lemma password_field_entries errors b f label name attrs : truthy name = true -> plain attrs = true ->
  entries typed submitter (password_field errors b f label name attrs) =
  [(name, held typed name (initial_of attrs))].
Proof. intros. unfold password_field. by rewrite labelled_entries, PasswordInput_entries. Qed.

Lemma select_entries {A} name (ps : list (prop S)) (options : list A) (val text : A -> string) :
  truthy name = true -> flag "disabled" ps = false ->
  entries typed submitter
    (El TSelect (Attr "id" name :: Attr "name" name :: ps)
       (map (fun o => choice (val o) (text o)) options)) =
  select_field name (current_value typed name ps) (map val options).
Proof.
  intros Hn Hd. destruct name as [|a name]; [done|]. cbn -[choice selected_option current_value].
  unfold own_entries. cbn -[choice selected_option current_value]. rewrite Hd.
  rewrite option_of_choices, entries_choices, app_nil_r. unfold select_field. by rewrite map_map.
Qed.

Lemma submit_entries processing text : entries typed submitter (submit processing text) = [].
Proof. by destruct processing. Qed.
End payload.

(** *** Where a message is shown *)

Definition on_page (m : string) (l : list (node S)) : Prop := m ∈ flat_map texts l.

Lemma on_page_here m n l : m ∈ texts n -> on_page m (n :: l).
Proof. intros H. apply elem_of_app. by left. Qed.

Lemma on_page_further m n l : on_page m l -> on_page m (n :: l).
Proof. intros H. apply elem_of_app. by right. Qed.

Lemma on_page_app_l m l l' : on_page m l -> on_page m (l ++ l').
Proof. unfold on_page. rewrite flat_map_app, elem_of_app. by left. Qed.

Lemma on_page_app_r m l l' : on_page m l' -> on_page m (l ++ l').
Proof. unfold on_page. rewrite flat_map_app, elem_of_app. by right. Qed.

Lemma on_page_when m (b : bool) l : b = true -> on_page m l -> on_page m (when b l).
Proof. by intros ->. Qed.

Lemma texts_El m t ps ks : on_page m ks -> m ∈ texts (El t ps ks).
Proof. done. Qed.

Lemma texts_elem m name ks : on_page m ks -> m ∈ texts (elem name ks).
Proof. done. Qed.

Lemma InputError_shows errors name m :
  error_of errors name = Some m -> truthy m = true -> on_page m (InputError (error_of errors name)).
Proof. intros -> Hm. destruct m; [done|]. unfold on_page. simpl. by left. Qed.

(** A message is shown with its field. *)
Lemma labelled_shows errors label name control m :
  error_of errors name = Some m -> truthy m = true -> m ∈ texts (labelled errors label name control).
Proof. intros. by apply texts_elem, on_page_further, on_page_further, InputError_shows. Qed.

Lemma input_field_shows errors label name attrs m :
  error_of errors name = Some m -> truthy m = true -> m ∈ texts (input_field errors label name attrs).
Proof. apply labelled_shows. Qed.

Lemma password_field_shows errors b f label name attrs m :
  error_of errors name = Some m -> truthy m = true ->
  m ∈ texts (password_field errors b f label name attrs).
Proof. apply labelled_shows. Qed.
End fields.

(** The cases of a member of a list that is given. *)
Ltac elem_cases H :=
  lazymatch type of H with
  | _ ∈ [] => by apply elem_of_nil in H
  | _ ∈ _ :: _ => apply elem_of_cons in H; destruct H as [H|H]; [|elem_cases H]
  end.

(** Finds the message of a field on a page. *)
Ltac shown :=
  match goal with
  | |- _ ∈ texts (input_field _ _ _ _) => apply input_field_shows; assumption
  | |- _ ∈ texts (password_field _ _ _ _ _ _) => apply password_field_shows; assumption
  | |- _ ∈ texts (labelled _ _ _ _) => apply labelled_shows; assumption
  | |- on_page _ (InputError _) => apply InputError_shows; assumption
  | |- _ ∈ texts (elem _ _) => apply texts_elem; shown
  | |- _ ∈ texts (El _ _ _) => apply texts_El; shown
  | |- on_page _ (_ :: _) => first [apply on_page_here; shown | apply on_page_further; shown]
  | |- on_page _ (_ ++ _)%list => first [apply on_page_app_l; shown | apply on_page_app_r; shown]
  | |- on_page _ (when _ _) => apply on_page_when; [reflexivity || assumption|shown]
  end.

Lemma posted_select_field name v options name' :
  posted (select_field name v options) name' =
  if str_eq name name' then option_list (selected_option v (map (fun o => (o, false)) options)) else [].
Proof.
  unfold select_field. destruct (selected_option _ _); cbn; by destruct (str_eq name name').
Qed.

Lemma select_field_listed name v options : v ∈ options -> select_field name v options = [(name, v)].
Proof.
  intros Hv. unfold select_field. rewrite selected_option_listed; [done|].
  rewrite map_map. by rewrite List.map_id.
Qed.

(** A [select] keeps what each of its options keeps. *)
Lemma choose_keeps {S A} (P : S -> Prop) (options : list A) text f s now ev :
  P s -> (forall o, o ∈ options -> P (f o s)) -> P (choose_handler options text f now ev s).
Proof.
  intros Hs Hf. destruct (choose_handler_spec options text f now ev s) as [->|(o & Ho & ->)]; auto.
Qed.

(** Walks over a page of fields and leaves one goal per handler. *)
Ltac walk_fields :=
  repeat (walk; repeat match goal with
    | |- all_actions _ (input_field _ _ _ _) => unfold input_field, Input
    | |- all_actions _ (password_field _ _ _ _ _ _) => unfold password_field
    | |- all_actions _ (PasswordInput _ _ _ _) => unfold PasswordInput
    | |- all_actions _ (Input _ _) => unfold Input
    | |- all_actions _ (labelled _ _ _ _) => unfold labelled, Label
    | |- all_actions _ (Label _ _) => unfold Label
    | |- all_actions _ (submit _ _) => unfold submit
    | |- all_actions _ (choice _ _) => unfold choice
    end).

(** ** The validator *)

(** [$this->input(name)] *)
Definition input (es : list (string * string)) (name : string) : option string :=
  last (posted es name).

(** [filled($value)] *)
Definition filled (v : option string) : bool :=
  match v with Some v => negb (str_eq (trim v) "") | None => false end.

(** The middleware trims what is posted, passwords apart. *)
Definition untrimmed : list string := ["current_password"; "password"; "password_confirmation"].

Definition cleaned (es : list (string * string)) (name : string) : option string :=
  (fun v => if existsb (str_eq name) untrimmed then v else trim v) <$> input es name.

Inductive rule :=
  | Required
  | Max (n : nat)
  | Integer
  | Between (low high : Z)
  | OneOf (options : list string)
  | Email
  | Unique
  | Strong
  | Confirmed
  | Prohibited.

#[global] Instance rule_eq_dec : EqDecision rule.
Proof. solve_decision. Defined.

(** What the rules ask of PHP, of the database and of the configuration; and the messages. *)
Record Validator := {
  filter_int : string -> option Z;
  is_email : string -> bool;
  taken : string -> string -> bool;
  strong : string -> bool;
  message : string -> rule -> string;
}.

Section validator.
Context (V : Validator).

(** Whether a value that is not empty satisfies a rule. *)
Definition passes (es : list (string * string)) (name : string) (v : string) (r : rule) : bool :=
  match r with
  | Required => true
  | Max n => (String.length v <=? n)%nat
  | Integer => is_some (filter_int V v)
  | Between low high =>
      match filter_int V v with Some k => (low <=? k) && (k <=? high) | None => false end
  | OneOf options => existsb (str_eq v) options
  | Email => is_email V v
  | Unique => negb (taken V name v)
  | Strong => strong V v
  | Confirmed => bool_decide (input es (name ++ "_confirmation")%string = Some v)
  | Prohibited => false
  end.

(** The first rule a field breaks; an empty value only breaks [required]. *)
Definition broken (es : list (string * string)) (name : string) (rules : list rule) : option rule :=
  match cleaned es name with
  | Some v =>
      if filled (Some v) then find_first (fun r => negb (passes es name v r)) rules
      else find_first (fun r => bool_decide (r = Required)) rules
  | None => find_first (fun r => bool_decide (r = Required)) rules
  end.

(** The errors of a request, by field. *)
Definition validate (rules : list (string * list rule)) (es : list (string * string))
    : list (string * string) :=
  flat_map (fun f => match broken es (fst f) (snd f) with
                     | Some r => [(fst f, message V (fst f) r)]
                     | None => []
                     end) rules.

Lemma validate_app rules rules' es :
  validate (rules ++ rules') es = validate rules es ++ validate rules' es.
Proof. apply flat_map_app. Qed.

(** Only a field with rules is refused. *)
Lemma validate_fields rules es field m :
  (field, m) ∈ validate rules es -> field ∈ map fst rules.
Proof.
  intros ([name rs] & Hin & Hm)%elem_of_flat_map. simpl in Hm. destruct (broken _ _ _); [|by apply elem_of_nil in Hm].
  apply list_elem_of_singleton in Hm as [= -> _]. by apply (list_elem_of_fmap_2 fst rules (name, rs)).
Qed.

Lemma validate_nil rules es :
  validate rules es = [] <-> forall f, f ∈ rules -> broken es (fst f) (snd f) = None.
Proof.
  induction rules as [|f rules IH]; [split; [intros _ f Hf; by apply elem_of_nil in Hf|done]|].
  change (validate (f :: rules) es) with
    (match broken es (fst f) (snd f) with Some r => [(fst f, message V (fst f) r)] | None => [] end ++
     validate rules es). split.
  - intros [Hf Hr]%app_nil. intros g [->|Hg]%elem_of_cons; [by destruct (broken _ _ _)|]. by apply IH.
  - intros H. rewrite (H f) by (by left). apply IH. intros g Hg. apply H. by right.
Qed.
End validator.
