(* ===== verification/Auth.v ===== *)
(** * Signing in

    The pages of [resources/js/pages/auth]: [login.tsx], [two-factor-challenge.tsx],
    [forgot-password.tsx], [reset-password.tsx], [verify-email.tsx], [confirm-password.tsx] and
    [accept-invitation.tsx]; with [components/passkey-verify.tsx],
    [components/auth-provider-buttons.tsx] and [components/text-link.tsx].

    The text fields are uncontrolled: what the browser holds of them is an argument.  The routes are
    generated code, and what the passkey library reports is an argument. *)

From Stdlib Require Import String.
From S2P Require Import Prelude JsString View Hooks TwoFactor Forms.

Open Scope string_scope.
Open Scope Z_scope.
Open Scope list_scope.

(** ** Shared components *)

Section shared.
Context {S : Type}.

(** [components/text-link.tsx] *)
Definition TextLink (href : string) (kids : list (node S)) : node S :=
  El (Tag "Link") [Attr "href" href] kids.

Record AuthProviderButton := {
  provider_id : Z;
  provider_name : string;
  redirect_url : string;
}.

(** [AuthProviderButtons] *)
Definition AuthProviderButtons (providers : list AuthProviderButton) (label : string) : list (node S) :=
  when (negb (length providers =? 0)%nat)
    [elem "div"
       [elem "div" [elem "span" [Txt "SSO"]];
        elem "div"
          (map (fun provider =>
             El (Tag "Button") [Attr "key" (str_of_Z (provider_id provider))]
               [El (Tag "a") [Attr "href" (redirect_url provider)]
                  [Txt (label ++ " " ++ provider_name provider)%string]]) providers)]].

(** What [usePasskeyVerify] and [usePasskeyRegister] report. *)
Record Passkeys := { isSupported : bool; isLoading : bool; passkey_error : option string }.

(** [separator]: left out, [false], or a text. *)
Inductive Separator := SeparatorDefault | SeparatorOff | SeparatorText (text : string).

Definition separator_line (text : string) : node S :=
  elem "div" [elem "Separator" []; elem "span" [Txt text]].

(** [PasskeyVerify], lines 20-76 *)
Definition PasskeyVerify (p : Passkeys) (verify : S -> S) (label loadingLabel : option string)
    (separator : Separator) : list (node S) :=
  when (isSupported p)
    (elem "div"
       (El TButton [Attr "type" "button"; on_click verify; Flag "disabled" (isLoading p)]
          [Txt (if isLoading p then loadingLabel ?? "Authenticating..."
                else label ?? "Sign in with a passkey")]
        :: when (truthy_opt (passkey_error p)) (InputError (passkey_error p)))
     :: match separator with
        | SeparatorOff => []
        | SeparatorDefault => [separator_line "Or continue with email"]
        | SeparatorText text => [separator_line text]
        end).

(** Where a verified passkey leads. *)
Definition passkey_destination (redirect : option string) : string := redirect ?? "/dashboard".

Lemma AuthProviderButtons_entries typed submitter providers label :
  flat_map (entries typed submitter) (AuthProviderButtons providers label) = [].
Proof.
  unfold AuthProviderButtons. destruct (negb _); [|done]. cbn [when flat_map].
  rewrite entries_elem. cbn [flat_map]. rewrite !entries_elem, flat_map_map. cbn [flat_map].
  rewrite flat_map_nil_all; [done|]. intros provider. by rewrite entries_Tag.
Qed.
End shared.

(** ** State of the pages *)

(** The password fields, and how often the verification of a passkey was started. *)
Record AuthState := {
  password_shown : bool;
  confirmation_shown : bool;
  verifications : nat;
}.

Definition initialAuthState : AuthState := {|
  password_shown := false; confirmation_shown := false; verifications := 0 |}.

Definition toggle_password (s : AuthState) : AuthState := {|
  password_shown := negb (password_shown s); confirmation_shown := confirmation_shown s;
  verifications := verifications s |}.

Definition toggle_confirmation (s : AuthState) : AuthState := {|
  password_shown := password_shown s; confirmation_shown := negb (confirmation_shown s);
  verifications := verifications s |}.

Definition verify (s : AuthState) : AuthState := {|
  password_shown := password_shown s; confirmation_shown := confirmation_shown s;
  verifications := S (verifications s) |}.

Record AuthRoutes := {
  login_store : string;
  password_request : string;
  password_email : string;
  login_page : string;
  password_update : string;
  password_confirm : string;
  verification_send : string;
  logout : string;
  two_factor_login : string;
}.

Section pages.
Context (routes : AuthRoutes) (processing : bool) (errors : list (string * string)).
Context (passkeys : Passkeys) (providers : list AuthProviderButton).

(** [login.tsx] *)
Record LoginProps := {
  login_status : option string;
  canResetPassword : bool;
  passwordLoginEnabled : bool;
  passkeyLoginEnabled : bool;
}.

(** Lines 51-124; [remember] is what the user ticked. *)
Definition loginForm (props : LoginProps) (remember : bool) (s : AuthState) : node AuthState :=
  El (Tag "Form") [Attr "action" (login_store routes)]
    [elem "div"
       [input_field errors "Email address" "email"
          [Attr "type" "email"; Flag "required" true; Flag "autoFocus" true; Attr "tabindex" "1";
           Attr "autocomplete" "email"; Attr "placeholder" "email@example.com"];
        elem "div"
          (elem "div"
             (Label "password" "Password"
              :: when (canResetPassword props)
                   [TextLink (password_request routes) [Txt "Forgot your password?"]])
           :: PasswordInput (password_shown s) toggle_password "password"
                [Flag "required" true; Attr "tabindex" "2"; Attr "autocomplete" "current-password";
                 Attr "placeholder" "Password"]
           :: InputError (error_of errors "password"));
        elem "div"
          [El TInput [Attr "id" "remember"; Attr "name" "remember"; Attr "type" "checkbox";
                      Attr "tabindex" "3"; Flag "checked" remember] [];
           Label "remember" "Remember me"];
        submit processing "Log in"]].

(** Lines 24-135 *)
Definition Login (props : LoginProps) (remember : bool) (s : AuthState) : node AuthState :=
  elem "Fragment"
    ([El (Tag "Head") [Attr "title" "Log in"] []] ++
     when (truthy_opt (login_status props))
       [El (Tag "div") [Attr "role" "status"] [Txt (login_status props ?? "")]] ++
     when (passkeyLoginEnabled props)
       (PasskeyVerify passkeys verify None None
          (if passwordLoginEnabled props then SeparatorDefault else SeparatorOff)) ++
     when (passwordLoginEnabled props) [loginForm props remember s] ++
     AuthProviderButtons providers "Continue with" ++
     [elem "div" [Txt "Access is invitation-only. Ask an administrator for an invitation."]]).

(** [forgot-password.tsx], lines 12-64 *)
Definition ForgotPassword (status : option string) : node AuthState :=
  elem "Fragment"
    ([El (Tag "Head") [Attr "title" "Forgot password"] []] ++
     when (truthy_opt status) [elem "div" [Txt (status ?? "")]] ++
     [elem "div"
        [El (Tag "Form") [Attr "action" (password_email routes)]
           [input_field errors "Email address" "email"
              [Attr "type" "email"; Attr "autocomplete" "off"; Flag "autoFocus" true;
               Attr "placeholder" "email@example.com"];
            submit processing "Email password reset link"];
         elem "div"
           [elem "span" [Txt "Or, return to"];
            TextLink (login_page routes) [Txt "log in"]]]]).

(** [reset-password.tsx], lines 16-91 *)
Definition ResetPassword (email passwordRules : string) (s : AuthState) : node AuthState :=
  elem "Fragment"
    [El (Tag "Head") [Attr "title" "Reset password"] [];
     El (Tag "Form") [Attr "action" (password_update routes)]
       [elem "div"
          [labelled errors "Email" "email"
             (El TInput [Attr "id" "email"; Attr "type" "email"; Attr "name" "email";
                         Attr "autocomplete" "email"; Attr "value" email; Flag "readOnly" true] []);
           password_field errors (password_shown s) toggle_password "Password" "password"
             [Attr "autocomplete" "new-password"; Flag "autoFocus" true; Attr "placeholder" "Password";
              Attr "passwordrules" passwordRules];
           password_field errors (confirmation_shown s) toggle_confirmation "Confirm password"
             "password_confirmation"
             [Attr "autocomplete" "new-password"; Attr "placeholder" "Confirm password";
              Attr "passwordrules" passwordRules];
           submit processing "Reset password"]]].

(** Line 23: [transform] *)
Definition transform (token email : string) (data : list (string * string)) : list (string * string) :=
  List.filter (fun f => negb (str_eq (fst f) "token") && negb (str_eq (fst f) "email")) data ++
  [("token", token); ("email", email)].

(** [verify-email.tsx], lines 9-40 *)
Definition VerifyEmail (status : option string) : node AuthState :=
  elem "Fragment"
    ([El (Tag "Head") [Attr "title" "Email verification"] []] ++
     when (match status with Some st => str_eq st "verification-link-sent" | None => false end)
       [elem "div" [Txt "A new verification link has been sent to the email address you provided during registration."]] ++
     [El (Tag "Form") [Attr "action" (verification_send routes)]
        [submit processing "Resend verification email";
         TextLink (logout routes) [Txt "Log out"]]]).

Definition hasSsoConfirmationProviders : bool := (0 <? length providers)%nat.

(** [confirm-password.tsx], lines 21-91 *)
Definition ConfirmPassword (s : AuthState) : node AuthState :=
  elem "Fragment"
    ([El (Tag "Head") [Attr "title" "Confirm password"] []] ++
     PasskeyVerify passkeys verify (Some "Confirm with passkey") (Some "Confirming...")
       (if hasSsoConfirmationProviders then SeparatorOff else SeparatorText "Or confirm with password") ++
     AuthProviderButtons providers "Confirm with" ++
     when hasSsoConfirmationProviders [separator_line "Or confirm with password"] ++
     [El (Tag "Form") [Attr "action" (password_confirm routes)]
        [elem "div"
           [password_field errors (password_shown s) toggle_password "Password" "password"
              [Attr "placeholder" "Password"; Attr "autocomplete" "current-password";
               Flag "autoFocus" true];
            elem "div" [submit processing "Confirm password"]]]]).

(** [accept-invitation.tsx], lines 19-99 *)
Definition AcceptInvitation (accept_url email name passwordRules : string) (s : AuthState)
    : node AuthState :=
  elem "Fragment"
    [El (Tag "Head") [Attr "title" "Accept invitation"] [];
     El (Tag "Form") [Attr "action" accept_url; Attr "method" "post"]
       ([elem "div"
           [Label "name" "Name";
            El TInput [Attr "id" "name"; Attr "value" name; Flag "readOnly" true] []];
         elem "div"
           [Label "email" "Email Address";
            El TInput [Attr "id" "email"; Attr "type" "email"; Attr "value" email;
                       Flag "readOnly" true] []];
         password_field errors (password_shown s) toggle_password "Password" "password"
           [Attr "autocomplete" "new-password"; Attr "placeholder" "Password";
            Attr "passwordrules" passwordRules; Flag "required" true; Flag "autoFocus" true];
         password_field errors (confirmation_shown s) toggle_confirmation "Confirm Password"
           "password_confirmation"
           [Attr "autocomplete" "new-password"; Attr "placeholder" "Confirm password";
            Attr "passwordrules" passwordRules; Flag "required" true];
         submit processing "Accept Invitation"] ++
        AuthProviderButtons providers "Accept with")].

(** *** What they post *)

Section payload.
Context (typed : string -> option string) (submitter : option (string * string)).

Lemma PasskeyVerify_entries (f : AuthState -> AuthState) label loadingLabel separator :
  flat_map (entries typed submitter) (PasskeyVerify passkeys f label loadingLabel separator) = [].
Proof.
  unfold PasskeyVerify. destruct (isSupported passkeys); [|done]. cbn [when flat_map].
  rewrite entries_elem. cbn [flat_map]. rewrite entries_when, entries_InputError.
  by destruct (isLoading passkeys), (truthy_opt _), separator.
Qed.

Lemma loginForm_entries props remember s :
  entries typed submitter (loginForm props remember s) =
  [("email", held typed "email" ""); ("password", held typed "password" "")] ++
  when remember [("remember", "on")].
Proof.
  unfold loginForm. rewrite entries_Tag. cbn [flat_map]. rewrite entries_elem. cbn [flat_map].
  rewrite input_field_entries, submit_entries by done. rewrite (entries_elem _ _ "div" (_ :: _ :: InputError _)).
  cbn [flat_map]. rewrite PasswordInput_entries, entries_InputError by done.
  by destruct (canResetPassword props), remember.
Qed.

(** A sign-in with a password. *)
Theorem login_posts props remember s :
  entries typed submitter (Login props remember s) =
  when (passwordLoginEnabled props)
    ([("email", held typed "email" ""); ("password", held typed "password" "")] ++
     when remember [("remember", "on")]).
Proof.
  unfold Login. rewrite entries_elem, !flat_map_app, !entries_when, PasskeyVerify_entries, AuthProviderButtons_entries.
  cbn [flat_map]. rewrite loginForm_entries, app_nil_r.
  by destruct (truthy_opt _), (passkeyLoginEnabled props), (passwordLoginEnabled props); simpl; rewrite ?app_nil_r.
Qed.

Lemma ResetPassword_entries email passwordRules s :
  entries typed submitter (ResetPassword email passwordRules s) =
  [("email", email); ("password", held typed "password" "");
   ("password_confirmation", held typed "password_confirmation" "")].
Proof.
  unfold ResetPassword. rewrite entries_elem. cbn [flat_map]. rewrite !entries_Tag. cbn [flat_map].
  rewrite entries_elem. cbn [flat_map]. rewrite labelled_entries, !password_field_entries, submit_entries by done.
  done.
Qed.

(** A new password is posted with the token and the address of the link, whatever is typed. *)
Theorem reset_posts_link token email passwordRules s :
  let es := transform token email (entries typed submitter (ResetPassword email passwordRules s)) in
  posted es "token" = [token] /\ posted es "email" = [email] /\
  posted es "password" = [held typed "password" ""] /\
  posted es "password_confirmation" = [held typed "password_confirmation" ""].
Proof. rewrite ResetPassword_entries. done. Qed.

(** The name and the address of an invitation are shown, not posted. *)
Theorem invitation_posts accept_url email name passwordRules s :
  entries typed submitter (AcceptInvitation accept_url email name passwordRules s) =
  [("password", held typed "password" "");
   ("password_confirmation", held typed "password_confirmation" "")].
Proof.
  unfold AcceptInvitation. rewrite entries_elem. cbn [flat_map]. rewrite !entries_Tag, flat_map_app.
  rewrite AuthProviderButtons_entries. cbn [flat_map].
  rewrite !password_field_entries, submit_entries by done. done.
Qed.
End payload.
End pages.

(** ** The second factor *)

(** The state of [two-factor-challenge.tsx], with the errors Inertia keeps for its form. *)
Record Challenge := {
  showRecoveryInput : bool;
  challenge_code : string;
  challenge_errors : list (string * string);
}.

Definition initialChallenge : Challenge := {|
  showRecoveryInput := false; challenge_code := ""; challenge_errors := [] |}.

Definition setChallengeCode (v : string) (s : Challenge) : Challenge := {|
  showRecoveryInput := showRecoveryInput s; challenge_code := v; challenge_errors := challenge_errors s |}.

Definition setChallengeErrors (es : list (string * string)) (s : Challenge) : Challenge := {|
  showRecoveryInput := showRecoveryInput s; challenge_code := challenge_code s; challenge_errors := es |}.

(** Lines 50-54, with [clearErrors] *)
Definition toggleRecoveryMode (s : Challenge) : Challenge := {|
  showRecoveryInput := negb (showRecoveryInput s); challenge_code := ""; challenge_errors := [] |}.

(** [authConfigContent]: title, description and text of the switch. *)
Definition authConfigContent (showRecovery : bool) : string * string * string :=
  if showRecovery
  then ("Recovery code",
        "Please confirm access to your account by entering one of your emergency recovery codes.",
        "login using an authentication code")
  else ("Authentication code",
        "Enter the authentication code provided by your authenticator application.",
        "login using a recovery code").

(** [setLayoutProps] *)
Definition challengeLayout (s : Challenge) : string * string := fst (authConfigContent (showRecoveryInput s)).

(** Lines 65-105; the input for the code is third-party and reports up to six digits. *)
Definition challengeField (processing : bool) (s : Challenge) : list (node Challenge) :=
  if showRecoveryInput s then
    El TInput [Attr "name" "recovery_code"; Attr "type" "text";
               Attr "placeholder" "Enter recovery code"; Flag "autoFocus" true; Flag "required" true] []
    :: InputError (error_of (challenge_errors s) "recovery_code")
  else
    [elem "div"
       (elem "div"
          [El TInput [Attr "name" "code"; Attr "maxlength" (str_of_nat OTP_MAX_LENGTH);
                      Attr "value" (challenge_code s);
                      on_change (fun v s => if is_code_text v then setChallengeCode v s else s);
                      Flag "disabled" processing; Flag "autoFocus" true]
             [elem "InputOTPGroup"
                (map (fun index => El (Tag "InputOTPSlot") [Attr "index" (str_of_nat index)] [])
                   (seq 0 OTP_MAX_LENGTH))]]
        :: InputError (error_of (challenge_errors s) "code"))].

(** Lines 15-133 *)
Definition TwoFactorChallenge (action : string) (processing : bool) (s : Challenge) : node Challenge :=
  elem "Fragment"
    [El (Tag "Head") [Attr "title" "Two-factor authentication"] [];
     elem "div"
       [El (Tag "Form") [Attr "action" action]
          (challengeField processing s ++
           [submit processing "Continue";
            elem "div"
              [elem "span" [Txt "or you can "];
               El TButton [Attr "type" "button"; on_click toggleRecoveryMode]
                 [Txt (snd (authConfigContent (showRecoveryInput s)))]]])]].

(** What happens to the page: an event on a control, or the server refuses the form. *)
Inductive challenge_step (action : string) : Challenge -> Challenge -> Prop :=
  | challenge_action s processing h now ev :
      h ∈ actions (TwoFactorChallenge action processing s) ->
      challenge_step action s (h now ev s)
  | challenge_refused s es : challenge_step action s (setChallengeErrors es s).

(** A code is at most six digits, and none is kept behind the field for a recovery code. *)
Definition challenge_ok (s : Challenge) : Prop :=
  is_code_text (challenge_code s) = true /\ (showRecoveryInput s = true -> challenge_code s = "").

Lemma TwoFactorChallenge_safe action processing s : challenge_ok s ->
  all_actions (fun h => forall now ev, challenge_ok (h now ev s)) (TwoFactorChallenge action processing s).
Proof.
  intros Hs. unfold TwoFactorChallenge, challengeField. walk_fields.
  - destruct (showRecoveryInput s) eqn:E; walk_fields. intros now [|v| |]; try done.
    destruct (is_code_text v) eqn:Ev; [|done]. split; [done|]. simpl. by rewrite E.
  - by intros now ev.
Qed.

Lemma challenge_reachable_ok action s : rtc (challenge_step action) initialChallenge s -> challenge_ok s.
Proof.
  intros Hr. assert (H0 : challenge_ok initialChallenge) by done.
  induction Hr as [|s1 s2 s3 Hs _ IH]; [done|]. apply IH. clear IH.
  destruct Hs as [s processing h now ev Hh|s es]; [|done].
  pose proof (TwoFactorChallenge_safe action processing s H0) as H.
  unfold all_actions in H. rewrite Forall_forall in H. by apply H.
Qed.

(** The sign-in is completed with the code the page asks for: in every state the user can reach the
    form posts exactly one field, the recovery code when the page is titled for it and else an
    authentication code of at most six digits; a code that was typed before switching to the recovery
    codes is gone when the user switches back. *)
Theorem challenge_posts_one_code action typed submitter s :
  rtc (challenge_step action) initialChallenge s ->
  entries typed submitter (TwoFactorChallenge action false s) =
    [if showRecoveryInput s then ("recovery_code", held typed "recovery_code" "")
     else ("code", challenge_code s)] /\
  fst (challengeLayout s) = (if showRecoveryInput s then "Recovery code" else "Authentication code") /\
  is_code_text (challenge_code s) = true /\
  challenge_code (toggleRecoveryMode (toggleRecoveryMode s)) = "".
Proof.
  intros Hr. destruct (challenge_reachable_ok action s Hr) as [Hc _].
  split; [|by unfold challengeLayout; destruct (showRecoveryInput s)].
  unfold TwoFactorChallenge, challengeField. rewrite entries_elem. cbn [flat_map]. rewrite entries_elem.
  cbn [flat_map]. rewrite !entries_Tag, flat_map_app. destruct (showRecoveryInput s); cbn [flat_map].
  - rewrite entries_InputError. done.
  - rewrite !entries_elem. cbn [flat_map]. rewrite entries_InputError. done.
Qed.

(** Typing a code, and switching to the recovery codes and back. *)
Definition challenge_act (n : nat) (ev : event) (s : Challenge) : Challenge :=
  fire (TwoFactorChallenge "/two-factor-challenge" false s) n 0 ev s.

Example code_forgotten :
  let typed := challenge_act 0 (Change "123456") initialChallenge in
  challenge_code typed = "123456" /\ challenge_code (challenge_act 0 (Change "12a") typed) = "123456" /\
  challenge_act 0 Click (challenge_act 1 Click typed) = initialChallenge.
Proof. done. Qed.
