(* ===== verification/Account.v ===== *)
(** * The account

    The pages for the profile and the security of an account: [settings/profile.tsx] with
    [components/delete-user.tsx], [settings/security.tsx] with [components/manage-passkeys.tsx],
    [components/passkey-item.tsx] and [components/passkey-register.tsx] (the two-factor part is in
    [TwoFactor]); and the invitation of a user, [users/create.tsx].

    The passkey library, the routes and what the browser holds of uncontrolled fields are
    arguments.  The focus after an error is left out. *)

From Stdlib Require Import String.
From S2P Require Import Prelude JsString JsRegExp View Badges Hooks TwoFactor Forms Auth.

Open Scope string_scope.
Open Scope Z_scope.
Open Scope list_scope.

(** ** Passkeys *)

(** [types/auth.ts] *)
Record Passkey := {
  passkey_id : Z;
  passkey_name : string;
  authenticator : option string;
  created_at_diff : string;
  last_used_at_diff : option string;
}.

(** *** The name a new passkey is suggested *)

Definition EDGE : regexp := Eval vm_compute in parsed (regex "Edg|Edge" "").
Definition OPERA : regexp := Eval vm_compute in parsed (regex "OPR|Opera|OPiOS" "").
Definition FIREFOX : regexp := Eval vm_compute in parsed (regex "Firefox|FxiOS" "").
Definition CHROME : regexp := Eval vm_compute in parsed (regex "Chrome|CriOS" "").
Definition SAFARI : regexp := Eval vm_compute in parsed (regex "Safari" "").
Definition IPHONE : regexp := Eval vm_compute in parsed (regex "iPhone" "").

(** The source writes [Macintosh(?=.*Mobile)]: a lookahead at the end of a pattern changes where the
    match ends, not whether there is one, and only the latter is asked. *)
Definition IPAD : regexp := Eval vm_compute in parsed (regex "iPad|Macintosh.*Mobile" "").
Definition ANDROID : regexp := Eval vm_compute in parsed (regex "Android" "").
Definition MAC : regexp := Eval vm_compute in parsed (regex "Mac" "").
Definition WINDOWS : regexp := Eval vm_compute in parsed (regex "Windows" "").

Definition browsers : list (regexp * string) :=
  [(EDGE, "Edge"); (OPERA, "Opera"); (FIREFOX, "Firefox"); (CHROME, "Chrome"); (SAFARI, "Safari")].

Definition systems : list (regexp * string) :=
  [(IPHONE, "iPhone"); (IPAD, "iPad"); (ANDROID, "Android"); (MAC, "Mac"); (WINDOWS, "Windows")].

Definition named (patterns : list (regexp * string)) (ua : string) : option string :=
  snd <$> find_first (fun p => test (fst p) ua) patterns.

(** [useState(() => ...)] of the name *)
Definition suggestedName (ua : string) : string :=
  join " on " (option_list (named browsers ua) ++ option_list (named systems ua)).

Example chrome_on_mac :
  suggestedName "Mozilla/5.0 (Macintosh; Intel Mac OS X 10_15_7) AppleWebKit/537.36 (KHTML, like Gecko) Chrome/126.0.0.0 Safari/537.36" =
  "Chrome on Mac".
Proof. vm_compute. reflexivity. Qed.

Example edge_on_windows :
  suggestedName "Mozilla/5.0 (Windows NT 10.0; Win64; x64) AppleWebKit/537.36 (KHTML, like Gecko) Chrome/126.0.0.0 Safari/537.36 Edg/126.0.0.0" =
  "Edge on Windows".
Proof. vm_compute. reflexivity. Qed.

Example safari_on_ipad :
  suggestedName "Mozilla/5.0 (Macintosh; Intel Mac OS X 10_15_6) AppleWebKit/605.1.15 (KHTML, like Gecko) Version/17.5 Mobile/15E148 Safari/604.1" =
  "Safari on iPad".
Proof. vm_compute. reflexivity. Qed.

Example unknown_agent : suggestedName "curl/8.5.0" = "".
Proof. vm_compute. reflexivity. Qed.

(** *** State *)

(** The items that say they are being deleted, the deletions under way, the form for a new passkey,
    the names that were registered, and whether the page was left to confirm the password. *)
Record PasskeyState := {
  passkeys : list Passkey;
  isDeleting : list Z;
  deletions : list Z;
  name : string;
  showForm : bool;
  registrations : list string;
  reloads : nat;
  confirming_password : bool;
}.

Definition initialPasskeys (ua : string) (keys : list Passkey) : PasskeyState := {|
  passkeys := keys; isDeleting := []; deletions := []; name := suggestedName ua; showForm := false;
  registrations := []; reloads := 0; confirming_password := false |}.

(** [handleDelete] of an item, with that of the list: the deletion is sent. *)
Definition handleDelete (id : Z) (s : PasskeyState) : PasskeyState := {|
  passkeys := passkeys s; isDeleting := id :: isDeleting s; deletions := id :: deletions s;
  name := name s; showForm := showForm s; registrations := registrations s; reloads := reloads s;
  confirming_password := confirming_password s |}.

Definition without (id : Z) (l : list Z) : list Z := List.filter (fun x => negb (x =? id)) l.

(** [onError] of a deletion *)
Definition deletionFailed (id : Z) (s : PasskeyState) : PasskeyState := {|
  passkeys := passkeys s; isDeleting := without id (isDeleting s); deletions := without id (deletions s);
  name := name s; showForm := showForm s; registrations := registrations s; reloads := reloads s;
  confirming_password := confirming_password s |}.

(** New passkeys from the server; an item that is gone loses its state. *)
Definition receivePasskeys (keys : list Passkey) (s : PasskeyState) : PasskeyState := {|
  passkeys := keys;
  isDeleting := List.filter (fun id => existsb (fun k => passkey_id k =? id) keys) (isDeleting s);
  deletions := deletions s;
  name := name s; showForm := showForm s; registrations := registrations s; reloads := reloads s;
  confirming_password := confirming_password s |}.

(** A deletion succeeds: the page is sent again, without the passkey. *)
Definition deletionSucceeded (id : Z) (s : PasskeyState) : PasskeyState :=
  let s := receivePasskeys (List.filter (fun k => negb (passkey_id k =? id)) (passkeys s)) s in {|
  passkeys := passkeys s; isDeleting := isDeleting s; deletions := without id (deletions s);
  name := name s; showForm := showForm s; registrations := registrations s; reloads := reloads s;
  confirming_password := confirming_password s |}.

Definition set_form (n : string) (b : bool) (s : PasskeyState) : PasskeyState := {|
  passkeys := passkeys s; isDeleting := isDeleting s; deletions := deletions s;
  name := n; showForm := b; registrations := registrations s; reloads := reloads s;
  confirming_password := confirming_password s |}.

Definition setName (n : string) (s : PasskeyState) : PasskeyState := set_form n (showForm s) s.
Definition setShowForm (b : bool) (s : PasskeyState) : PasskeyState := set_form (name s) b s.

Definition handleCancel (s : PasskeyState) : PasskeyState := setName "" (setShowForm false s).

(** [handleSubmit]: a blank name is not registered. *)
Definition handleSubmit (s : PasskeyState) : PasskeyState :=
  if negb (truthy (trim (name s))) then s
  else {|
    passkeys := passkeys s; isDeleting := isDeleting s; deletions := deletions s;
    name := name s; showForm := showForm s; registrations := registrations s ++ [name s];
    reloads := reloads s; confirming_password := confirming_password s |}.

(** [onSuccess] of the registration, with [handleRegisterSuccess] *)
Definition registered (s : PasskeyState) : PasskeyState :=
  let s := setShowForm false (setName "" s) in {|
  passkeys := passkeys s; isDeleting := isDeleting s; deletions := deletions s;
  name := name s; showForm := showForm s; registrations := registrations s; reloads := S (reloads s);
  confirming_password := confirming_password s |}.

(** [onError] of the registration *)
Definition registrationFailed (message : string) (s : PasskeyState) : PasskeyState := {|
  passkeys := passkeys s; isDeleting := isDeleting s; deletions := deletions s;
  name := name s; showForm := showForm s; registrations := registrations s; reloads := reloads s;
  confirming_password := confirming_password s || str_eq message "Password confirmation required." |}.

(** *** The page *)

Definition quote : string := String (ascii_of_nat 34) EmptyString.

(** [PasskeyItem], lines 20-93; its dialog keeps its own state and is rendered open. *)
Definition PasskeyItem (deleting : bool) (passkey : Passkey) : node PasskeyState :=
  El (Tag "div") [Attr "key" (str_of_Z (passkey_id passkey))]
    [elem "div"
       [elem "div"
          (elem "p" [Txt (passkey_name passkey)]
           :: when (truthy_opt (authenticator passkey))
                [elem "span" [Txt (authenticator passkey ?? "")]]);
        elem "p"
          (Txt ("Added " ++ created_at_diff passkey)
           :: when (truthy_opt (last_used_at_diff passkey))
                [elem "span" [Txt "/"]; Txt ("Last used " ++ (last_used_at_diff passkey ?? ""))%string])];
     elem "Dialog"
       [elem "DialogTrigger" [El TButton [] [elem "span" [Txt "Remove"]]];
        elem "DialogContent"
          [elem "DialogTitle" [Txt "Remove passkey"];
           elem "DialogDescription"
             [Txt ("Are you sure you want to remove the " ++ quote ++ passkey_name passkey ++ quote ++
                   " passkey? You will no longer be able to use it to sign in.")%string];
           elem "DialogFooter"
             [elem "DialogClose" [El TButton [] [Txt "Cancel"]];
              El TButton [on_click (handleDelete (passkey_id passkey)); Flag "disabled" deleting]
                [Txt (if deleting then "Removing..." else "Remove passkey")]]]]].

(** [PasskeyRegistration], lines 66-115 *)
Definition PasskeyRegistration (p : Passkeys) (s : PasskeyState) : node PasskeyState :=
  if negb (isSupported p) then elem "div" [Txt "Passkeys are not supported in this browser."]
  else if negb (showForm s) then El TButton [on_click (setShowForm true)] [Txt "Add passkey"]
  else
    El (Tag "form") []
      ([elem "div"
          [Label "passkey-name" "Passkey name";
           El TInput [Attr "id" "passkey-name"; Attr "type" "text"; Attr "value" (name s);
                      on_change setName; Attr "placeholder" "e.g., MacBook Pro, iPhone";
                      Flag "autoFocus" true] [];
           elem "p" [Txt "A name helps you identify this passkey later."]]] ++
       when (truthy_opt (passkey_error p)) (InputError (passkey_error p)) ++
       [elem "div"
          [El TButton [Attr "type" "submit"; on_click handleSubmit;
                       Flag "disabled" (isLoading p || negb (truthy (trim (name s))))]
             [Txt (if isLoading p then "Registering..." else "Register passkey")];
           El TButton [Attr "type" "button"; on_click handleCancel] [Txt "Cancel"]]]).

(** [ManagePasskeys], lines 14-62 *)
Definition ManagePasskeys (canManagePasskeys : bool) (p : Passkeys) (s : PasskeyState)
    : list (node PasskeyState) :=
  when canManagePasskeys
    [elem "div"
       [elem "div"
          [elem "h2" [Txt "Passkeys"]; elem "p" [Txt "Manage your passkeys for passwordless sign-in."]];
        elem "div"
          (if (0 <? length (passkeys s))%nat
           then map (fun passkey =>
                  PasskeyItem (existsb (fun id => id =? passkey_id passkey) (isDeleting s)) passkey)
                  (passkeys s)
           else [EmptyState "No passkeys yet" (Some "Add a passkey to sign in without a password.") []]);
        PasskeyRegistration p s]].

(** *** Over time *)

(** An event on a control, the answers to a deletion and to the registration, and passkeys sent by
    the server for another reason, among them those whose deletion is under way. *)
Inductive passkey_step : PasskeyState -> PasskeyState -> Prop :=
  | passkey_action s p h now ev :
      h ∈ flat_map actions (ManagePasskeys true p s) -> passkey_step s (h now ev s)
  | passkey_deleted s id : id ∈ deletions s -> passkey_step s (deletionSucceeded id s)
  | passkey_kept s id : id ∈ deletions s -> passkey_step s (deletionFailed id s)
  | passkey_registered s : registrations s <> [] -> passkey_step s (registered s)
  | passkey_not_registered s message :
      registrations s <> [] -> passkey_step s (registrationFailed message s)
  | passkeys_received s keys :
      (forall id, id ∈ deletions s -> existsb (fun k => passkey_id k =? id) keys = true) ->
      passkey_step s (receivePasskeys keys s).

(** The items that say so are those with a deletion under way, one for each; the passkeys that are
    registered have a name. *)
Definition passkeys_ok (s : PasskeyState) : Prop :=
  isDeleting s = deletions s /\ NoDup (deletions s) /\
  (forall id, id ∈ deletions s -> existsb (fun k => passkey_id k =? id) (passkeys s) = true) /\
  Forall (fun n => truthy (trim n) = true) (registrations s).

Lemma without_elem x id l : x ∈ without id l <-> x <> id /\ x ∈ l.
Proof.
  unfold without. rewrite list_elem_of_In, filter_In, <- list_elem_of_In, negb_true_iff, Z.eqb_neq. tauto.
Qed.

Lemma without_NoDup id l : NoDup l -> NoDup (without id l).
Proof. apply filter_NoDup. Qed.

Lemma filter_all {A} (p : A -> bool) l : (forall x, x ∈ l -> p x = true) -> List.filter p l = l.
Proof.
  induction l as [|x l IH]; intros H; simpl; [done|]. rewrite (H x) by (by left). f_equal. apply IH.
  intros y Hy. apply H. by right.
Qed.

Lemma existsb_id (keys : list Passkey) id :
  existsb (fun k => passkey_id k =? id) keys = true <-> id ∈ map passkey_id keys.
Proof.
  rewrite existsb_exists_elem, list_elem_of_fmap. split; intros (k & H1 & H2); exists k.
  - by apply Z.eqb_eq in H2.
  - subst. by rewrite Z.eqb_refl.
Qed.

(** Without the passkey that was deleted the others are still listed. *)
Lemma remaining_listed (keys : list Passkey) id x : x <> id ->
  existsb (fun k => passkey_id k =? x) (List.filter (fun k => negb (passkey_id k =? id)) keys) =
  existsb (fun k => passkey_id k =? x) keys.
Proof.
  intros Hx. induction keys as [|k keys IH]; simpl; [done|].
  destruct (passkey_id k =? id) eqn:E; simpl; rewrite IH; [|done].
  apply Z.eqb_eq in E. by rewrite (proj2 (Z.eqb_neq (passkey_id k) x)) by congruence.
Qed.

Lemma deleted_not_listed (keys : list Passkey) id :
  existsb (fun k => passkey_id k =? id) (List.filter (fun k => negb (passkey_id k =? id)) keys) = false.
Proof.
  induction keys as [|k keys IH]; simpl; [done|]. destruct (passkey_id k =? id) eqn:E; simpl; [done|].
  by rewrite E.
Qed.

Lemma ManagePasskeys_safe p s : passkeys_ok s ->
  each_actions (fun h => forall now ev, passkeys_ok (h now ev s)) (ManagePasskeys true p s).
Proof.
  intros Hs. pose proof Hs as (Hd & Hn & Hl & Hr). unfold ManagePasskeys. walk.
  - destruct (0 <? _)%nat.
    + walk. unfold PasskeyItem. walk. intros now ev.
      assert (Hnew : passkey_id x ∉ deletions s).
      { rewrite <- Hd. intros Hin. rewrite (proj2 (existsb_exists_elem _ _)) in H1; [done|].
        eexists. split; [done|]. apply Z.eqb_refl. }
      split_and!; simpl; [by rewrite Hd|by apply NoDup_cons| |done].
      intros id [->|Hid]%elem_of_cons; [|by apply Hl]. apply existsb_id. by apply list_elem_of_fmap_2.
    + unfold EmptyState. walk.
  - unfold PasskeyRegistration. destruct (negb (isSupported p)); [walk|].
    destruct (negb (showForm s)); walk_fields.
    + by intros now ev.
    + by intros now [| | |].
    + intros now ev. unfold handleSubmit. destruct (negb (truthy (trim (name s)))) eqn:E; [done|].
      split_and!; simpl; [done..|]. apply Forall_app_2; [done|]. apply negb_false_iff in E. by constructor.
    + by intros now ev.
Qed.

Lemma passkey_step_ok s s' : passkey_step s s' -> passkeys_ok s -> passkeys_ok s'.
Proof.
  intros Hstep Hs. pose proof Hs as (Hd & Hn & Hl & Hr).
  destruct Hstep as [s p h now ev Hh|s id Hid|s id Hid|s Hreg|s m Hreg|s keys Hk].
  - pose proof (ManagePasskeys_safe p s Hs) as H. unfold each_actions in H. rewrite Forall_forall in H. by apply H.
  - split_and!; simpl; [|by apply without_NoDup| |done].
    + rewrite Hd. unfold without. apply filter_ext_in. intros x Hx%list_elem_of_In.
      destruct (decide (x = id)) as [->|Hne]; [by rewrite deleted_not_listed, Z.eqb_refl|].
      rewrite remaining_listed, Hl by done. by rewrite (proj2 (Z.eqb_neq x id)).
    + intros x [Hne Hx]%without_elem. rewrite remaining_listed by done. by apply Hl.
  - split_and!; simpl; [by rewrite Hd|by apply without_NoDup| |done].
    intros x [_ Hx]%without_elem. by apply Hl.
  - done.
  - done.
  - split_and!; simpl; [|done..]. rewrite Hd. apply filter_all. intros x Hx. by apply Hk.
Qed.

(** At most one deletion of a passkey is under way, a passkey says that it is being removed exactly
    while its deletion is, and no passkey without a name is registered: whatever the user does and in
    whatever order the server answers. *)
Theorem one_deletion_per_passkey ua keys s :
  rtc passkey_step (initialPasskeys ua keys) s ->
  NoDup (deletions s) /\ (forall id, id ∈ isDeleting s <-> id ∈ deletions s) /\
  Forall (fun n => truthy (trim n) = true) (registrations s).
Proof.
  intros Hr. assert (H : passkeys_ok s).
  { assert (H0 : passkeys_ok (initialPasskeys ua keys))
      by (split_and!; [done|constructor|by intros id Hid%elem_of_nil|constructor]).
    induction Hr as [|s1 s2 s3 Hs _ IH]; [done|]. apply IH. by apply (passkey_step_ok s1). }
  destruct H as (Hd & Hn & _ & Hf). rewrite Hd. by split_and!.
Qed.

(** ** The profile *)

Record ProfileUser := {
  user_name : string;
  user_email : string;
  email_verified_at : option string;
}.

(** [DeleteUser]: the password field, and the errors of its form; both go when the dialog closes. *)
Record DeleteState := { delete_shown : bool; delete_errors : list (string * string) }.

Definition resetAndClearErrors (s : DeleteState) : DeleteState := {|
  delete_shown := false; delete_errors := [] |}.

Definition toggle_delete_shown (s : DeleteState) : DeleteState := {|
  delete_shown := negb (delete_shown s); delete_errors := delete_errors s |}.

Section profile.
Context (update destroy send : string) (processing deleting : bool) (errors : list (string * string)).

(** [delete-user.tsx], lines 58-115 *)
Definition deleteForm (s : DeleteState) : node DeleteState :=
  El (Tag "Form") [Attr "action" destroy]
    [password_field (delete_errors s) (delete_shown s) toggle_delete_shown "Password" "password"
       [Attr "placeholder" "Password"; Attr "autocomplete" "current-password"];
     elem "DialogFooter"
       [elem "DialogClose"
          [El TButton [Attr "type" "button"; on_click resetAndClearErrors] [Txt "Cancel"]];
        El TButton [Attr "type" "submit"; Flag "disabled" deleting] [Txt "Delete account"]]].

(** [delete-user.tsx], lines 18-121; the dialog keeps its own state and is rendered open. *)
Definition DeleteUser (s : DeleteState) : node DeleteState :=
  elem "section"
    [elem "div"
       [elem "h2" [Txt "Delete account"];
        elem "p" [Txt "Permanently delete your account and its personal data. This cannot be undone."]];
     elem "div"
       [elem "p" [Txt "You will need to confirm this action with your current password."];
        elem "Dialog"
          [elem "DialogTrigger" [El TButton [] [Txt "Delete account"]];
           elem "DialogContent"
             [elem "DialogTitle" [Txt "Are you sure you want to delete your account?"];
              elem "DialogDescription"
                [Txt "Once your account is deleted, all of its resources and data will also be permanently deleted. Please enter your password to confirm you would like to permanently delete your account."];
              deleteForm s]]]].

(** [profile.tsx], lines 96-121 *)
Definition unverified (mustVerifyEmail : bool) (status : option string) (user : ProfileUser)
    : list (node DeleteState) :=
  when (mustVerifyEmail && negb (is_some (email_verified_at user)))
    [elem "div"
       (elem "p"
          [Txt "Your email address is unverified. ";
           El (Tag "Link") [Attr "href" send; Attr "as" "button"]
             [Txt "Click here to re-send the verification email."]]
        :: when (match status with Some st => str_eq st "verification-link-sent" | None => false end)
             [elem "div" [Txt "A new verification link has been sent to your email address."]])].

(** [profile.tsx], lines 48-133 *)
Definition profileForm (mustVerifyEmail : bool) (status : option string) (user : ProfileUser)
    : node DeleteState :=
  El (Tag "Form") [Attr "action" update]
    ([input_field errors "Name" "name"
        [Attr "defaultValue" (user_name user); Flag "required" true; Attr "autocomplete" "name";
         Attr "placeholder" "Full name"];
      input_field errors "Email address" "email"
        [Attr "type" "email"; Attr "defaultValue" (user_email user); Flag "required" true;
         Attr "autocomplete" "username"; Attr "placeholder" "Email address"]] ++
     unverified mustVerifyEmail status user ++
     [elem "div" [submit processing "Save changes"]]).

(** [profile.tsx], lines 17-139 *)
Definition Profile (mustVerifyEmail : bool) (status : option string) (user : ProfileUser) (s : DeleteState)
    : node DeleteState :=
  elem "Fragment"
    [El (Tag "Head") [Attr "title" "Profile settings"] []; elem "h1" [Txt "Profile settings"];
     elem "div"
       [PageHeader "Profile" (Some "Update the identity details used across your workspace.") [];
        elem "section"
          [elem "div"
             [elem "h2" [Txt "Personal details"];
              elem "p" [Txt "Information used in request, approval, and audit records."]];
           profileForm mustVerifyEmail status user];
        DeleteUser s]].

(** An unchanged profile is posted as it is shown; the deletion of the account posts the password. *)
Theorem profile_posts typed submitter mustVerifyEmail status user s :
  entries typed submitter (profileForm mustVerifyEmail status user) =
    [("name", held typed "name" (user_name user)); ("email", held typed "email" (user_email user))] /\
  entries typed submitter (deleteForm s) = [("password", held typed "password" "")].
Proof.
  split.
  - unfold profileForm, unverified. rewrite entries_Tag, !flat_map_app, !entries_when. cbn [flat_map].
    rewrite !input_field_entries, !entries_elem by done. cbn [flat_map]. rewrite submit_entries.
    by destruct (_ && _), status as [st|]; simpl; try destruct (str_eq st _).
  - unfold deleteForm. rewrite entries_Tag. cbn [flat_map]. rewrite password_field_entries by done.
    by destruct deleting.
Qed.

(** Cancelling the deletion leaves nothing of it: the error of a wrong password is gone. *)
Theorem cancelled_deletion s : delete_errors (fire (deleteForm s) 1 0 Click s) = [].
Proof.
  unfold fire, deleteForm, password_field, labelled. cbn -[InputError].
  by rewrite actions_InputError.
Qed.
End profile.

(** ** Security *)

(** The three password fields, and the states of the two other sections. *)
Record SecurityState := {
  current_shown : bool;
  new_shown : bool;
  repeated_shown : bool;
  two_factor : TwoFactor.State;
  passkey_state : PasskeyState;
}.

Definition on_two_factor (f : TwoFactor.State -> TwoFactor.State) (s : SecurityState) : SecurityState := {|
  current_shown := current_shown s; new_shown := new_shown s; repeated_shown := repeated_shown s;
  two_factor := f (two_factor s); passkey_state := passkey_state s |}.

Definition on_passkeys (f : PasskeyState -> PasskeyState) (s : SecurityState) : SecurityState := {|
  current_shown := current_shown s; new_shown := new_shown s; repeated_shown := repeated_shown s;
  two_factor := two_factor s; passkey_state := f (passkey_state s) |}.

Definition set_shown (c n r : bool) (s : SecurityState) : SecurityState := {|
  current_shown := c; new_shown := n; repeated_shown := r;
  two_factor := two_factor s; passkey_state := passkey_state s |}.

Definition toggle_current s : SecurityState :=
  set_shown (negb (current_shown s)) (new_shown s) (repeated_shown s) s.
Definition toggle_new s : SecurityState :=
  set_shown (current_shown s) (negb (new_shown s)) (repeated_shown s) s.
Definition toggle_repeated s : SecurityState :=
  set_shown (current_shown s) (new_shown s) (negb (repeated_shown s)) s.

Section security.
Context (update : string) (processing : bool) (errors : list (string * string)) (passwordRules : string).
(** The section on the second factor, and what the passkey library reports. *)
Context (manageTwoFactor : TwoFactor.State -> list (node TwoFactor.State)).
Context (canManagePasskeys : bool) (reported : Passkeys).

(** Lines 44-134 *)
Definition passwordForm (s : SecurityState) : node SecurityState :=
  El (Tag "Form") [Attr "action" update]
    [password_field errors (current_shown s) toggle_current "Current password" "current_password"
       [Attr "autocomplete" "current-password"; Attr "placeholder" "Current password"];
     password_field errors (new_shown s) toggle_new "New password" "password"
       [Attr "autocomplete" "new-password"; Attr "placeholder" "New password";
        Attr "passwordrules" passwordRules];
     password_field errors (repeated_shown s) toggle_repeated "Confirm password" "password_confirmation"
       [Attr "autocomplete" "new-password"; Attr "placeholder" "Confirm password";
        Attr "passwordrules" passwordRules];
     elem "div" [submit processing "Save password"]].

(** Lines 20-153 *)
Definition Security (s : SecurityState) : node SecurityState :=
  elem "Fragment"
    [El (Tag "Head") [Attr "title" "Security settings"] []; elem "h1" [Txt "Security settings"];
     elem "div"
       [PageHeader "Security" (Some "Protect your account with a strong password and additional sign-in factors.") [];
        elem "section"
          [elem "div"
             [elem "h2" [Txt "Password"];
              elem "p" [Txt "Use a long, unique password that is not shared with another service."]];
           passwordForm s];
        elem "section" (map (embed on_two_factor) (manageTwoFactor (two_factor s)));
        elem "section" (map (embed on_passkeys) (ManagePasskeys canManagePasskeys reported (passkey_state s)))]].

Theorem password_change_posts typed submitter s :
  entries typed submitter (passwordForm s) =
  map (fun n => (n, held typed n "")) ["current_password"; "password"; "password_confirmation"].
Proof.
  unfold passwordForm. rewrite entries_Tag. cbn [flat_map]. rewrite !password_field_entries by done.
  rewrite entries_elem. cbn [flat_map]. rewrite submit_entries. done.
Qed.

(** The sections of the page do not touch each other: a control of the passkeys changes the passkeys
    only, one of the second factor only that, and one of the password only its three fields. *)
Theorem security_sections_independent s h :
  h ∈ actions (Security s) ->
  forall now ev,
    let s' := h now ev s in
    (two_factor s' = two_factor s \/ s' = on_two_factor (fun _ => two_factor s') s) /\
    (passkey_state s' = passkey_state s \/ s' = on_passkeys (fun _ => passkey_state s') s).
Proof.
  set (P := fun h : handler SecurityState => forall now ev, let s' := h now ev s in
    (two_factor s' = two_factor s \/ s' = on_two_factor (fun _ => two_factor s') s) /\
    (passkey_state s' = passkey_state s \/ s' = on_passkeys (fun _ => passkey_state s') s)).
  assert (H : all_actions P (Security s)).
  { unfold Security, passwordForm, PageHeader. walk_fields; try (intros now ev; by split; left).
    - apply all_actions_embed, Forall_forall. intros h' _ now ev. split; [by right|by left].
    - apply all_actions_embed, Forall_forall. intros h' _ now ev. split; [by left|by right]. }
  unfold all_actions in H. rewrite Forall_forall in H. intros Hh. exact (H h Hh).
Qed.
End security.

(** ** The invitation of a user *)

Section invitation.
Context (store index : string) (processing : bool) (errors : list (string * string)).

(** [users/create.tsx], lines 38-95 *)
Definition invitationCard : node unit :=
  elem "Card"
    [elem "CardHeader"
       [elem "CardTitle" [Txt "Invitation"];
        elem "CardDescription" [Txt "New users start without roles. Assign roles after the invitation is accepted."]];
     elem "CardContent"
       [elem "div"
          [input_field errors "First Name" "first_name"
             [Attr "autocomplete" "given-name"; Flag "required" true; Flag "autoFocus" true];
           input_field errors "Last Name" "last_name"
             [Attr "autocomplete" "family-name"; Flag "required" true]];
        input_field errors "Email Address" "email"
          [Attr "type" "email"; Attr "autocomplete" "email"; Attr "placeholder" "user@example.com";
           Flag "required" true]]].

(** [users/create.tsx], lines 18-115 *)
Definition UsersCreate : node unit :=
  elem "Fragment"
    [El (Tag "Head") [Attr "title" "New user"] [];
     elem "div"
       [PageHeader "New User" (Some "Invite a user to verify email and set their first password.") [];
        El (Tag "Form") [Attr "action" store]
          [invitationCard;
           elem "div"
             [submit processing "Invite"; El (Tag "Link") [Attr "href" index] [Txt "Cancel"]]]]].

Lemma invitationCard_entries typed submitter :
  entries typed submitter invitationCard =
  map (fun n => (n, held typed n "")) ["first_name"; "last_name"; "email"].
Proof.
  unfold invitationCard. rewrite (entries_elem _ _ "Card"). cbn [flat_map].
  rewrite (entries_elem _ _ "CardContent"). cbn [flat_map].
  rewrite (entries_elem _ _ "div" [input_field _ _ _ _; _]). cbn [flat_map].
  rewrite !input_field_entries by done. done.
Qed.

Theorem invitation_of_user_posts typed submitter :
  entries typed submitter UsersCreate =
  map (fun n => (n, held typed n "")) ["first_name"; "last_name"; "email"].
Proof.
  unfold UsersCreate. rewrite (entries_elem _ _ "Fragment"). cbn [flat_map].
  rewrite (entries_elem _ _ "div" [PageHeader _ _ _; _]). cbn [flat_map].
  rewrite (entries_Tag _ _ "Form"). cbn [flat_map]. rewrite invitationCard_entries.
  rewrite (entries_elem _ _ "div" [submit _ _; _]). cbn [flat_map]. rewrite submit_entries. done.
Qed.
End invitation.
