(* ===== verification/Device.v ===== *)
(** * Approving a device

    [resources/js/pages/native-proxy/device-authorization.tsx]: the page on which a user enters the
    code the command line shows, with the rule of [ResolveNativeProxyDeviceRequest] for it and the
    codes of [DeviceAuthorizationWorkflow::newUserCode].

    The input for the code is third-party: it cuts a text off at its length, reports it only when it
    is empty or matches the pattern, and transforms what is pasted. *)

From Stdlib Require Import String.
From S2P Require Import Prelude JsString View Forms.

Open Scope string_scope.
Open Scope Z_scope.
Open Scope list_scope.

Definition DEVICE_CODE_LENGTH : nat := 8.

(** [UserCodeAlphabet], the class of [DEVICE_CODE_PATTERN] and of the rule. *)
Definition alphabet : string := "23456789ABCDEFGHJKLMNPQRSTUVWXYZ".

Definition in_alphabet (c : ascii) : bool := existsb (Ascii.eqb c) (list_ascii_of_string alphabet).

(** [DEVICE_CODE_PATTERN] *)
Definition matches_pattern (v : string) : bool := truthy v && all_chars in_alphabet v.

(** The class [23456789A-HJ-NP-Z]. *)
Definition in_paste_class (c : ascii) : bool :=
  in_range 50 57 c || in_range 65 72 c || in_range 74 78 c || in_range 80 90 c.

Fixpoint sfilter (p : ascii -> bool) (s : string) : string :=
  match s with
  | EmptyString => EmptyString
  | String c s' => if p c then String c (sfilter p s') else sfilter p s'
  end.

(** Lines 103-110: the units that no unit of the class equals up to case are removed. *)
Definition pasteTransformer (value : string) : string :=
  toUpperCase (sfilter (fun c => in_paste_class (upper_unit c)) value).

(** What the input reports of a new value, if anything. *)
Definition reported (value : string) : option string :=
  let value := take_str DEVICE_CODE_LENGTH value in
  if truthy value && negb (matches_pattern value) then None else Some value.

(** The state is the code. *)
Definition State := string.

Definition setDeviceCode (value : string) (s : State) : State := value.

(** Lines 99-101 *)
Definition codeChanged (value : string) (s : State) : State :=
  match reported value with Some v => setDeviceCode (toUpperCase v) s | None => s end.

(** A text is pasted over the whole input. *)
Definition codePasted (value : string) (s : State) : State := codeChanged (pasteTransformer value) s.

Inductive CodeStatus := Pending | Approved | Denied | Consumed | Expired.

(** Lines 41-62: what is shown, and the title and the description of the page. *)
Definition isAwaitingApproval (a : option CodeStatus) : bool :=
  match a with None | Some Pending => true | _ => false end.

Definition isAuthorized (a : option CodeStatus) : bool :=
  match a with Some (Approved | Consumed) => true | _ => false end.

Definition isDenied (a : option CodeStatus) : bool := match a with Some Denied => true | _ => false end.

Definition isExpired (a : option CodeStatus) : bool := match a with Some Expired => true | _ => false end.

Definition pageTitle (a : option CodeStatus) : string :=
  if isAuthorized a then "Device approved"
  else if isDenied a then "Device denied"
  else if isExpired a then "Device code expired" else "Approve a device".

Definition pageDescription (a : option CodeStatus) : string :=
  if isAuthorized a then "The CLI can now finish authorizing this connection."
  else if isDenied a then "This device was not granted Native Client Access."
  else if isExpired a then "This device code can no longer be used."
  else "Enter the short code shown by the Crucible CLI to approve this device for your active access window.".

Section page.
Context (resolve confirm : string) (processing : bool) (errors : list (string * string)).

(** Lines 84-88 *)
Definition user_code (s : State) : string :=
  if (String.length s =? DEVICE_CODE_LENGTH)%nat
  then (take_str 4 s ++ "-" ++ drop_str 4 s)%string else "".

Definition slots (first : nat) : node State :=
  elem "InputOTPGroup"
    (map (fun index => El (Tag "InputOTPSlot") [Attr "index" (str_of_nat index)] []) (seq first 4)).

(** Lines 90-144 *)
Definition codeInput (s : State) : node State :=
  elem "div"
    ([elem "span" [Txt "Device code"];
      elem "div"
        [El (Tag "InputOTP")
           [Attr "aria-label" "Device code"; Attr "maxlength" (str_of_nat DEVICE_CODE_LENGTH);
            Attr "value" s; on_change codeChanged;
            On "paste" (fun _ ev s => match ev with Change v => codePasted v s | _ => s end);
            Flag "disabled" processing; Flag "autoFocus" true]
           [slots 0; elem "InputOTPSeparator" []; slots 4]]] ++
     InputError (error_of errors "user_code")).

(** Lines 74-165 *)
Definition codeForm (s : State) : node State :=
  El (Tag "Form") [Attr "action" resolve]
    [El TInput [Attr "type" "hidden"; Attr "name" "user_code"; Attr "value" (user_code s)] [];
     codeInput s;
     El TButton [Attr "type" "submit";
                 Flag "disabled" (processing || negb (String.length s =? DEVICE_CODE_LENGTH)%nat)]
       [Txt "Approve device"];
     elem "p" [Txt "Only enter a code visible in your own terminal. Approval applies to the active access request and its remaining window."]].

(** Lines 38-197 *)
Definition NativeProxyDeviceAuthorization (a : option CodeStatus) (s : State) : node State :=
  elem "Fragment"
    ([El (Tag "Head") [Attr "title" (pageTitle a)] []] ++
     when (isAwaitingApproval a) [codeForm s] ++
     when (isAuthorized a)
       [elem "div" [elem "p" [Txt "Return to the terminal to continue. You can close this tab using your browser's tab control."]]] ++
     when (isDenied a || isExpired a)
       [elem "div"
          [elem "p"
             [Txt (if isDenied a then "Start a new connection if you still need access."
                   else "Start the CLI connection again to generate a new device code.")];
           El (Tag "Link") [Attr "href" confirm] [Txt "Enter another code"]]]).
End page.

(** ** The server *)

(** [newUserCode], from the units it draws. *)
Definition newUserCode (cs : list ascii) : string :=
  (string_of_list_ascii (take 4 cs) ++ "-" ++ string_of_list_ascii (drop 4 cs))%string.

(** [prepareForValidation] *)
Definition prepared (code : string) : string := toUpperCase (trim code).

(** The rule for [user_code]: two groups of four, with a hyphen. *)
Definition valid_user_code (code : string) : bool :=
  (String.length code =? 9)%nat && all_chars in_alphabet (take_str 4 code) &&
  str_eq (take_str 1 (drop_str 4 code)) "-" && all_chars in_alphabet (drop_str 5 code).

(** ** Facts about the alphabet *)

Lemma in_alphabet_class c : in_paste_class c = in_alphabet c.
Proof. apply (all_units_eq Bool.eqb); [apply Bool.eqb_prop|]. vm_compute. reflexivity. Qed.

(** Statements about the units of the alphabet are decided by enumeration. *)
Lemma alphabet_units (p : ascii -> bool) :
  forallb (fun c => implb (in_alphabet c) (p c)) all_units = true ->
  forall c, in_alphabet c = true -> p c = true.
Proof. intros H c Hc. pose proof (all_units_forall _ H c) as Hp. simpl in Hp. by rewrite Hc in Hp. Qed.

Lemma in_alphabet_upper c : in_alphabet c = true -> upper_unit c = c.
Proof.
  intros H. apply Ascii.eqb_eq. revert c H. apply alphabet_units. vm_compute. reflexivity.
Qed.

Lemma in_alphabet_lower c : in_alphabet c = true -> upper_unit (lower_unit c) = c.
Proof.
  intros H. apply Ascii.eqb_eq. revert c H. apply alphabet_units. vm_compute. reflexivity.
Qed.

Lemma in_alphabet_not_space c : in_alphabet c = true -> is_space c = false.
Proof.
  intros H. apply negb_true_iff. revert c H. apply alphabet_units. vm_compute. reflexivity.
Qed.

Lemma all_chars_take p n s : all_chars p s = true -> all_chars p (take_str n s) = true.
Proof.
  intros H. rewrite <- (drop_take_str n s), all_chars_app in H. by apply andb_true_iff in H as [H _].
Qed.

Lemma all_chars_drop p n s : all_chars p s = true -> all_chars p (drop_str n s) = true.
Proof.
  intros H. rewrite <- (drop_take_str n s), all_chars_app in H. by apply andb_true_iff in H as [_ H].
Qed.

Lemma upper_alphabet s : all_chars in_alphabet s = true -> toUpperCase s = s.
Proof. apply smap_id_on, in_alphabet_upper. Qed.

Lemma length_take_str n s : String.length (take_str n s) = Nat.min n (String.length s).
Proof. revert n. induction s as [|c s IH]; intros [|n]; simpl; [done..|]. by rewrite IH. Qed.

Lemma take_str_all n s : (String.length s <= n)%nat -> take_str n s = s.
Proof. revert n. induction s as [|c s IH]; intros [|n] H; simpl in *; [done|done|lia|]. rewrite IH by lia. done. Qed.

(** ** Codes on the page *)

(** At most eight units of the alphabet. *)
Definition code_ok (s : State) : Prop :=
  all_chars in_alphabet s = true /\ (String.length s <= DEVICE_CODE_LENGTH)%nat.

Lemma reported_ok v w : reported v = Some w -> code_ok w.
Proof.
  unfold reported, matches_pattern. intros H. destruct (_ && _) eqn:E; [done|].
  assert (Hw : take_str DEVICE_CODE_LENGTH v = w) by congruence. clear H. subst w.
  split; [|rewrite length_take_str; lia].
  destruct (truthy (take_str DEVICE_CODE_LENGTH v)) eqn:Et; simpl in E; [by apply negb_false_iff in E|].
  by destruct (take_str DEVICE_CODE_LENGTH v).
Qed.

Lemma codeChanged_ok v s : code_ok s -> code_ok (codeChanged v s).
Proof.
  intros Hs. unfold codeChanged. destruct (reported v) as [w|] eqn:E; [|done].
  pose proof (reported_ok v w E) as Hw. unfold setDeviceCode. by rewrite (upper_alphabet w) by apply Hw.
Qed.

(** A code of the alphabet is reported as it is. *)
Lemma reported_code v : code_ok v -> reported v = Some v.
Proof.
  intros [Ha Hl]. unfold reported. rewrite take_str_all by done. unfold matches_pattern. rewrite Ha.
  by destruct (truthy v).
Qed.

Lemma codeChanged_code v s : code_ok v -> codeChanged v s = v.
Proof. intros Hv. unfold codeChanged. rewrite reported_code by done. apply (upper_alphabet v), Hv. Qed.

Inductive device_step (resolve confirm : string) (a : option CodeStatus) : State -> State -> Prop :=
  | device_action s processing errors h now ev :
      h ∈ actions (NativeProxyDeviceAuthorization resolve confirm processing errors a s) ->
      device_step resolve confirm a s (h now ev s).

Lemma codePasted_ok v s : code_ok s -> code_ok (codePasted v s).
Proof. apply codeChanged_ok. Qed.

Lemma Device_safe resolve confirm processing errors a s : code_ok s ->
  all_actions (fun h => forall now ev, code_ok (h now ev s))
    (NativeProxyDeviceAuthorization resolve confirm processing errors a s).
Proof.
  intros Hs. unfold NativeProxyDeviceAuthorization, codeForm, codeInput, slots. walk_fields.
  apply Forall_singleton, Forall_cons; split; [|apply Forall_singleton];
    intros now [|v| |]; (done || by apply codeChanged_ok).
Qed.

Lemma device_reachable_ok resolve confirm a s : rtc (device_step resolve confirm a) "" s -> code_ok s.
Proof.
  intros Hr. assert (H0 : code_ok "") by (split; [done|vm_compute; lia]).
  remember "" as s0 eqn:E0. clear E0. induction Hr as [|s1 s2 s3 Hs _ IH]; [done|]. apply IH. clear IH.
  destruct Hs as [s processing errors h now ev Hh].
  pose proof (Device_safe resolve confirm processing errors a s H0) as H.
  unfold all_actions in H. rewrite Forall_forall in H. by apply H.
Qed.

(** ** The code that is posted *)

Lemma length_of_list cs : String.length (string_of_list_ascii cs) = length cs.
Proof. induction cs as [|c cs IH]; simpl; [done|]. by rewrite IH. Qed.

Lemma all_chars_of_list p cs : all_chars p (string_of_list_ascii cs) = forallb p cs.
Proof. induction cs as [|c cs IH]; simpl; [done|]. by rewrite IH. Qed.

Lemma take_of_list n cs : take_str n (string_of_list_ascii cs) = string_of_list_ascii (take n cs).
Proof. revert n. induction cs as [|c cs IH]; intros [|n]; simpl; [done..|]. by rewrite IH. Qed.

Lemma drop_of_list n cs : drop_str n (string_of_list_ascii cs) = string_of_list_ascii (drop n cs).
Proof. revert n. induction cs as [|c cs IH]; intros [|n]; simpl; [done..|]. by rewrite IH. Qed.

Lemma app_of_list cs ds :
  (string_of_list_ascii cs ++ string_of_list_ascii ds)%string = string_of_list_ascii (cs ++ ds).
Proof. induction cs as [|c cs IH]; simpl; [done|]. by rewrite IH. Qed.

Lemma sfilter_app p s t : sfilter p (s ++ t)%string = (sfilter p s ++ sfilter p t)%string.
Proof. induction s as [|c s IH]; simpl; [done|]. destruct (p c); simpl; by rewrite IH. Qed.

Lemma sfilter_none p s : all_chars (fun c => negb (p c)) s = true -> sfilter p s = "".
Proof.
  induction s as [|c s IH]; simpl; [done|]. intros [Hc Hs]%andb_true_iff. apply negb_true_iff in Hc as ->.
  by apply IH.
Qed.

(** What is kept of a pasted text. *)
Definition kept (c : ascii) : bool := in_paste_class (upper_unit c).

Lemma kept_alphabet c : in_alphabet c = true -> kept c = true /\ kept (lower_unit c) = true.
Proof.
  intros Hc. unfold kept. by rewrite !in_alphabet_class, (in_alphabet_upper c), (in_alphabet_lower c).
Qed.

(** A word in the case of the alphabet or in lower case is kept, and reported in upper case. *)
Lemma pasted_word s : all_chars in_alphabet s = true ->
  toUpperCase (sfilter kept s) = s /\ toUpperCase (sfilter kept (toLowerCase s)) = s.
Proof.
  induction s as [|c s IH]; simpl; [done|]. intros [Hc Hs]%andb_true_iff. destruct (IH Hs) as [IH1 IH2].
  destruct (kept_alphabet c Hc) as [-> ->].
  unfold toUpperCase, toLowerCase in *. simpl. rewrite (in_alphabet_upper c), (in_alphabet_lower c) by done.
  split; f_equal; done.
Qed.

(** What can surround a code in a pasted text. *)
Definition surrounding (s : string) : bool := all_chars (fun c => negb (kept c)) s.

Lemma pasteTransformer_code before w after :
  surrounding before = true -> surrounding after = true -> all_chars in_alphabet w = true ->
  pasteTransformer (before ++ take_str 4 w ++ "-" ++ drop_str 4 w ++ after)%string = w /\
  pasteTransformer (before ++ toLowerCase (take_str 4 w ++ "-" ++ drop_str 4 w) ++ after)%string = w.
Proof.
  intros Hb Ha Hw. destruct (pasted_word (take_str 4 w)) as [Ht Htl]; [by apply all_chars_take|].
  destruct (pasted_word (drop_str 4 w)) as [Hd Hdl]; [by apply all_chars_drop|].
  unfold pasteTransformer, toUpperCase, toLowerCase in *. fold kept.
  change (fun c => in_paste_class (upper_unit c)) with kept.
  rewrite !smap_app, !sfilter_app, !smap_app, !(sfilter_none _ before), !(sfilter_none _ after) by done.
  rewrite Ht, Hd, Htl, Hdl. change (smap upper_unit (sfilter kept "-")) with "".
  change (smap upper_unit (sfilter kept (smap lower_unit "-"))) with "".
  change (smap upper_unit "") with "". cbn [String.append]. rewrite !app_nil_r_str.
  split; apply drop_take_str.
Qed.

(** A code of eight units is posted in two groups, and the server accepts it as it is. *)
Lemma user_code_valid s : code_ok s -> String.length s = DEVICE_CODE_LENGTH ->
  prepared (user_code s) = user_code s /\ valid_user_code (user_code s) = true.
Proof.
  intros [Ha Hl] Hlen. unfold user_code. rewrite Hlen, Nat.eqb_refl. unfold DEVICE_CODE_LENGTH in Hlen.
  destruct s as [|c1 [|c2 [|c3 [|c4 [|c5 [|c6 [|c7 [|c8 [|]]]]]]]]]; try discriminate Hlen.
  cbn [all_chars] in Ha. cbn [take_str drop_str String.append]. bool_hyps. split.
  - unfold prepared. rewrite (trim_all_chars (fun c => in_alphabet c || Ascii.eqb c "-")).
    + unfold toUpperCase. cbn [smap].
      repeat match goal with H : in_alphabet ?c = true |- _ => rewrite (in_alphabet_upper c H); clear H end. done.
    + intros c [Hc|Hc]%orb_true_iff; [by apply in_alphabet_not_space|].
      by apply Ascii.eqb_eq in Hc as ->.
    + cbn [all_chars]. repeat match goal with H : in_alphabet _ = true |- _ => rewrite H; clear H end. done.
  - unfold valid_user_code. cbn [take_str drop_str all_chars String.length].
    repeat match goal with H : in_alphabet _ = true |- _ => rewrite H; clear H end. done.
Qed.

(** C23.  A code that can be sent is one the server accepts, in every state the user can reach; and the
    code the command line prints is the code that is posted when it is pasted, with whatever spaces,
    hyphens and line ends around it and in upper or in lower case. *)
Theorem device_code_posted resolve confirm a s :
  rtc (device_step resolve confirm a) "" s ->
  ((exists processing errors, submits (codeForm resolve processing errors s) = [("", "", true)]) ->
     valid_user_code (prepared (user_code s)) = true) /\
  forall cs before after,
    length cs = DEVICE_CODE_LENGTH -> forallb in_alphabet cs = true ->
    surrounding before = true -> surrounding after = true ->
    user_code (codePasted (before ++ newUserCode cs ++ after) s) = newUserCode cs /\
    user_code (codePasted (before ++ toLowerCase (newUserCode cs) ++ after) s) = newUserCode cs.
Proof.
  intros Hr. pose proof (device_reachable_ok resolve confirm a s Hr) as Hs. split.
  - intros (processing & errors & Hsub). assert (Hlen : String.length s = DEVICE_CODE_LENGTH).
    { apply Nat.eqb_eq. unfold codeForm in Hsub. cbn -[codeInput] in Hsub.
      replace (submits (codeInput processing errors s)) with (@nil (string * string * bool)) in Hsub.
      - simpl in Hsub. injection Hsub as Hsub. by destruct processing, (_ =? _)%nat.
      - symmetry. unfold codeInput, slots. walk_submits. }
    destruct (user_code_valid s Hs Hlen) as [-> Hv]. done.
  - intros cs before after Hlen Hcs Hb Ha. set (w := string_of_list_ascii cs).
    assert (Hw : code_ok w) by (split; unfold w; [by rewrite all_chars_of_list|rewrite length_of_list; lia]).
    assert (Hnew : newUserCode cs = (take_str 4 w ++ "-" ++ drop_str 4 w)%string)
      by (unfold w, newUserCode; by rewrite take_of_list, drop_of_list).
    destruct (pasteTransformer_code before w after Hb Ha (proj1 Hw)) as [Hp Hpl].
    rewrite Hnew. unfold codePasted. rewrite !app_assoc_str. rewrite Hp, Hpl, codeChanged_code by done.
    assert (Hl : String.length w = DEVICE_CODE_LENGTH) by (unfold w; by rewrite length_of_list).
    unfold user_code. by rewrite Hl, Nat.eqb_refl.
Qed.

(** The conversion to upper case of what is typed never has an effect: a code typed in lower case does
    not match the pattern, so the input does not report it and the letters are lost; only a paste
    accepts them. *)
Theorem typed_lower_case_ignored s c :
  code_ok s -> (String.length s < DEVICE_CODE_LENGTH)%nat -> in_alphabet c = false ->
  codeChanged (s ++ String c "")%string s = s.
Proof.
  intros [Ha Hl] Hlt Hc. unfold codeChanged, reported.
  rewrite take_str_all by (rewrite length_app_str; simpl; lia).
  unfold matches_pattern. rewrite all_chars_app. simpl. rewrite Hc, andb_false_r, andb_false_r.
  by destruct s.
Qed.

(** ** Examples *)

Definition example_code : list ascii := list_ascii_of_string "ABCD2345".

(** The paste of a code with its line end, on the page without an authorization. *)
Definition pasted_page : State :=
  fire (NativeProxyDeviceAuthorization "/resolve" "/confirm" false [] None "") 1 0
    (Change (" abcd-2345" ++ String (ascii_of_nat 10) "")%string) "".

Example pasted_page_code : user_code pasted_page = "ABCD-2345" /\ newUserCode example_code = "ABCD-2345".
Proof. vm_compute. done. Qed.

Lemma device_code_posted_witness :
  rtc (device_step "/resolve" "/confirm" None) "" pasted_page /\
  valid_user_code (prepared (user_code pasted_page)) = true /\
  user_code (codePasted (" " ++ newUserCode example_code ++ "")%string pasted_page) = "ABCD-2345".
Proof.
  assert (Hr : rtc (device_step "/resolve" "/confirm" None) "" pasted_page).
  { apply rtc_once.
    refine (device_action "/resolve" "/confirm" None "" false []
      (nth 1 (actions (NativeProxyDeviceAuthorization "/resolve" "/confirm" false [] None "")) (fun _ _ s => s)) 0 _ _).
    apply list_elem_of_In, nth_In. vm_compute. lia. }
  destruct (device_code_posted "/resolve" "/confirm" None pasted_page Hr) as [H1 H2].
  split; [exact Hr|]. split.
  - apply H1. exists false, []. vm_compute. reflexivity.
  - exact (proj1 (H2 example_code " " "" eq_refl eq_refl eq_refl eq_refl)).
Defined.
