(* ===== verification/ConnectionForm.v ===== *)
(** * The form of a database connection

    [resources/js/pages/connections/form.tsx]: the target, the server, its TLS material and the
    credentials; with what [app/Http/Requests/UpdateDatabaseConnectionRequest.php] and
    [StoreDatabaseConnectionRequest.php] check of the TLS fields, which the form has to agree with.

    The text fields and the box for the activity are uncontrolled: what the browser holds of them
    is an argument.  The routes are generated code (parameters). *)

From Stdlib Require Import String.
From S2P Require Import Prelude JsString View Forms.

Open Scope string_scope.
Open Scope Z_scope.
Open Scope list_scope.

(** ** Data *)

Definition tlsModes : list (string * string) :=
  [("disabled", "Disabled"); ("preferred", "Preferred"); ("required", "Required");
   ("verify_ca", "Verify CA"); ("verify_identity", "Verify identity")].

Record Driver := { driver_value : string; driver_label : string; default_port : Z }.

Record ConnectionFormData := {
  connection_id : Z;
  connection_name : string;
  connection_driver : string;
  connection_host : string;
  connection_port : Z;
  connection_database : string;
  connection_username : string;
  connection_tls_mode : string;
  has_tls_ca_certificate : bool;
  has_tls_client_certificate : bool;
  has_tls_client_key : bool;
  connection_is_active : bool;
}.

Record Defaults := {
  defaults_driver : string;
  defaults_host : string;
  defaults_port : Z;
  defaults_tls_mode : string;
}.

Record Props := {
  connection : option ConnectionFormData;
  drivers : list Driver;
  defaults : option Defaults;
}.

Inductive MaterialAction := Retain | Replace | Clear.

Definition material_action_text (a : MaterialAction) : string :=
  match a with Retain => "retain" | Replace => "replace" | Clear => "clear" end.

Definition material_actions : list (MaterialAction * string) :=
  [(Retain, "Keep existing material"); (Replace, "Replace material"); (Clear, "Clear all material")].

Record State := {
  driver : string;
  port : number;
  tlsMode : string;
  tlsMaterialAction : MaterialAction;
}.

(** ** State and handlers *)

Definition initialDriver (props : Props) : string :=
  match connection props, defaults props, drivers props with
  | Some c, _, _ => connection_driver c
  | None, Some d, _ => defaults_driver d
  | None, None, d :: _ => driver_value d
  | None, None, [] => ""
  end.

Definition initialPort (props : Props) : Z :=
  match connection props, defaults props with
  | Some c, _ => connection_port c
  | None, Some d => defaults_port d
  | None, None =>
      (default_port <$> find_first (fun d => str_eq (driver_value d) (initialDriver props))
         (drivers props)) ?? 5432
  end.

Definition initialState (props : Props) : State := {|
  driver := initialDriver props;
  port := Whole (initialPort props);
  tlsMode := match connection props, defaults props with
             | Some c, _ => connection_tls_mode c
             | None, Some d => defaults_tls_mode d
             | None, None => "preferred"
             end;
  tlsMaterialAction := Retain |}.

Definition setDriver (v : string) (s : State) : State := {|
  driver := v; port := port s; tlsMode := tlsMode s; tlsMaterialAction := tlsMaterialAction s |}.

Definition setPort (v : number) (s : State) : State := {|
  driver := driver s; port := v; tlsMode := tlsMode s; tlsMaterialAction := tlsMaterialAction s |}.

Definition setTlsMode (v : string) (s : State) : State := {|
  driver := driver s; port := port s; tlsMode := v; tlsMaterialAction := tlsMaterialAction s |}.

Definition setTlsMaterialAction (v : MaterialAction) (s : State) : State := {|
  driver := driver s; port := port s; tlsMode := tlsMode s; tlsMaterialAction := v |}.

Section page.
Context (props : Props).

Definition changeDriver (value : string) (s : State) : State :=
  let s := setDriver value s in
  match find_first (fun driverOption => str_eq (driver_value driverOption) value) (drivers props) with
  | Some selectedDriver => setPort (Whole (default_port selectedDriver)) s
  | None => s
  end.

(** ** Values derived at a render *)

Definition isEditing : bool := is_some (connection props).

Definition stored (has : ConnectionFormData -> bool) : bool :=
  match connection props with Some c => has c | None => false end.

Definition hasStoredTlsMaterial : bool :=
  stored has_tls_ca_certificate || stored has_tls_client_certificate || stored has_tls_client_key.

Section derived.
Context (s : State).

Definition tlsIsEnabled : bool := negb (str_eq (tlsMode s) "disabled").

Definition tlsVerifiesServer : bool :=
  str_eq (tlsMode s) "verify_ca" || str_eq (tlsMode s) "verify_identity".

Definition shouldShowTlsMaterial : bool := tlsIsEnabled || isEditing && hasStoredTlsMaterial.

Definition replacesTlsMaterial : bool :=
  negb isEditing || match tlsMaterialAction s with Replace => true | _ => false end.

Definition requiresNewCaCertificate : bool :=
  tlsVerifiesServer && replacesTlsMaterial && (negb isEditing || negb (stored has_tls_ca_certificate)).
End derived.

(** ** The page *)

Record Routes := {
  update_form : Z -> string;
  store_form : string;
  show : Z -> string;
  index : string;
}.

Context (routes : Routes).
(** What Inertia tells the form, and what the browser holds of the box for the activity. *)
Context (processing : bool) (errors : list (string * string)) (ticked : option bool).

Definition from_connection (f : ConnectionFormData -> string) : string :=
  (f <$> connection props) ?? "".

Definition field (label name : string) (attrs : list (prop State)) : list (node State) :=
  [El (Tag "Label") [Attr "for" name] [Txt label];
   El TInput ([Attr "id" name; Attr "name" name] ++ attrs) []].

Definition section_head (title text : string) : node State :=
  elem "div" [elem "div" [elem "h2" [Txt title]]; elem "p" [Txt text]].

(** Lines 143-158 *)
Definition carriedOver : list (node State) :=
  match defaults props with
  | Some d =>
      when (negb isEditing && truthy (defaults_host d))
        [elem "div"
           [elem "div"
              [elem "p" [Txt "Shared server settings are ready"];
               elem "p" [Txt (defaults_host d ++ ":" ++ str_of_Z (defaults_port d) ++
                 " is carried over. Add the next database identity and credentials.")%string]]]]
  | None => []
  end.

(** Lines 160-209 *)
Definition identitySection : node State :=
  elem "section"
    [section_head "Identity" "Give this connection a clear name and choose the database it opens.";
     elem "div"
       [elem "div"
          (field "Connection name" "name"
             [Attr "defaultValue" (from_connection connection_name);
              Attr "placeholder" "Production reporting"; Flag "autoFocus" (negb isEditing);
              Flag "required" true] ++
           InputError (error_of errors "name"));
        elem "div"
          (field "Database" "database"
             [Attr "defaultValue" (from_connection connection_database);
              Attr "placeholder" "app_production"; Flag "required" true] ++
           InputError (error_of errors "database"))]].

(** Lines 227-278 *)
Definition driverAndPort (s : State) : list (node State) :=
  [elem "div"
     ([El (Tag "Label") [Attr "for" "driver"] [Txt "Driver"];
       El TSelect [Attr "id" "driver"; Attr "name" "driver"; Attr "value" (driver s);
                   on_choose (drivers props) driver_value (fun d => changeDriver (driver_value d));
                   Flag "required" true]
         (map (fun d => choice (driver_value d) (driver_label d)) (drivers props))] ++
      InputError (error_of errors "driver"));
   elem "div"
     (field "Port" "port"
        [Attr "type" "number"; Attr "min" "1"; Attr "max" "65535"; Attr "value" (text_of (port s));
         on_change (fun v => setPort (number_of v)); Flag "required" true] ++
      InputError (error_of errors "port"))].

(** Lines 280-324 *)
Definition hostAndTls (s : State) : list (node State) :=
  [elem "div"
     (field "Host" "host"
        [Attr "defaultValue" (match connection props with
                              | Some c => connection_host c
                              | None => (defaults_host <$> defaults props) ?? ""
                              end);
         Attr "placeholder" "db.internal.example.com"; Flag "required" true] ++
      InputError (error_of errors "host"));
   elem "div"
     ([El (Tag "Label") [Attr "for" "tls_mode"] [Txt "Target TLS policy"];
       El TSelect [Attr "id" "tls_mode"; Attr "name" "tls_mode"; Attr "value" (tlsMode s);
                   on_choose tlsModes fst (fun mode => setTlsMode (fst mode));
                   Flag "required" true]
         (map (fun mode => choice (fst mode) (snd mode)) tlsModes)] ++
      InputError (error_of errors "tls_mode"))].

(** Lines 341-386 *)
Definition storedMaterial (s : State) : node State :=
  elem "div"
    ([El (Tag "Label") [Attr "for" "tls_material_action"] [Txt "Stored TLS material"];
      El TSelect [Attr "id" "tls_material_action"; Attr "name" "tls_material_action";
                  Attr "value" (material_action_text (tlsMaterialAction s));
                  on_choose material_actions (fun a => material_action_text (fst a))
                    (fun a => setTlsMaterialAction (fst a))]
        (map (fun a => choice (material_action_text (fst a)) (snd a)) material_actions);
      elem "p"
        [Txt (if hasStoredTlsMaterial
              then "Stored PEM is never shown. Choose replace to paste new material, or clear to remove it."
              else "No TLS material is stored for this connection.")]] ++
     InputError (error_of errors "tls_material_action")).

(** A field for material in PEM format, with its error. *)
Definition pem_field (label name placeholder : string) (required : bool) (hint : list (node State))
    : node State :=
  elem "div"
    ([El (Tag "Label") [Attr "for" name] [Txt label];
      El TTextarea [Attr "id" name; Attr "name" name; Attr "placeholder" placeholder;
                    Flag "required" required] []] ++
     hint ++ InputError (error_of errors name)).

(** Lines 402-479 *)
Definition newMaterial (s : State) : node State :=
  elem "div"
    [pem_field
       ("CA certificate" ++ if requiresNewCaCertificate s then " (required)" else "")%string
       "tls_ca_certificate"
       (if isEditing && stored has_tls_ca_certificate
        then "Leave blank to keep the stored CA certificate." else "PEM CA certificate")
       (requiresNewCaCertificate s) [];
     pem_field "Client certificate" "tls_client_certificate"
       (if stored has_tls_client_certificate
        then "Leave blank to keep the stored certificate. Paste both files to replace it."
        else "Optional PEM certificate") false [];
     pem_field "Client private key" "tls_client_key" "Optional PEM private key" false
       [elem "p" [Txt "Never shown again. Paste the certificate and key together to configure mTLS."]]].

(** Lines 326-481 *)
Definition tlsMaterial (s : State) : list (node State) :=
  when (shouldShowTlsMaterial s)
    [elem "div"
       (elem "div"
          [elem "p" [Txt "Target TLS material"];
           elem "p" [Txt "This controls the app-to-database connection only. It does not configure TLS for Native Client Access."]]
        :: when isEditing [storedMaterial s] ++
        when (match tlsMaterialAction s with Clear => true | _ => false end)
          [elem "p" [Txt "Clearing removes the CA certificate and client certificate/key together. Choose a non-verifying TLS mode before saving if the server requires a CA certificate."]] ++
        when (replacesTlsMaterial s) [newMaterial s])].

(** Lines 211-483 *)
Definition serverSection (s : State) : node State :=
  elem "section"
    [section_head "Server" "The port follows the selected driver automatically. You can still override it.";
     elem "div" (driverAndPort s ++ hostAndTls s ++ tlsMaterial s)].

(** Lines 485-564 *)
Definition credentialsSection : node State :=
  elem "section"
    [section_head "Credentials" "Credentials are stored securely and are never carried into the next connection.";
     elem "div"
       [elem "div"
          (field "Username" "username"
             [Attr "defaultValue" (from_connection connection_username); Attr "autocomplete" "off";
              Flag "required" true] ++
           InputError (error_of errors "username"));
        elem "div"
          (field "Password" "password"
             [Attr "type" "password"; Flag "required" (negb isEditing);
              Attr "autocomplete" "new-password"] ++
           InputError (error_of errors "password"));
        elem "label"
          [El TInput [Attr "type" "hidden"; Attr "name" "is_active"; Attr "value" "0"] [];
           El TInput [Attr "id" "is_active"; Attr "name" "is_active"; Attr "type" "checkbox";
                      Attr "value" "1";
                      Flag "checked" (ticked ?? ((connection_is_active <$> connection props) ?? true))] [];
           elem "span"
             [elem "span" [Txt "Active"];
              elem "span" [Txt "Allow this connection to receive query requests immediately."]]]]].

(** Lines 566-601 *)
Definition formActions : node State :=
  elem "div"
    (El TButton [Flag "disabled" processing]
       [Txt (if processing then "Saving..." else "Save connection")]
     :: when (negb isEditing)
          [El TButton [Attr "name" "create_another"; Attr "value" "1"; Flag "disabled" processing]
             [Txt "Save & add another"]] ++
     [El (Tag "Link")
        [Attr "href" (match connection props with
                      | Some c => show routes (connection_id c)
                      | None => index routes
                      end)] [Txt "Cancel"]]).

(** Lines 130-604 *)
Definition connectionForm (s : State) : node State :=
  El (Tag "Form")
    [Attr "action" (match connection props with
                    | Some c => update_form routes (connection_id c)
                    | None => store_form routes
                    end)]
    (carriedOver ++ [identitySection; serverSection s; credentialsSection; formActions]).

(** Lines 105-608 *)
Definition ConnectionForm (s : State) : node State :=
  elem "Fragment"
    [El (Tag "Head") [Attr "title" (if isEditing then "Edit connection" else "New connection")] [];
     elem "div"
       [PageHeader (if isEditing then "Edit Connection" else "New Connection")
          (Some (match connection props with
                 | Some c => (connection_host c ++ ":" ++ str_of_Z (connection_port c) ++ " / " ++
                              connection_database c)%string
                 | None => "Register a database target for governed query execution."
                 end)) [];
        elem "section"
          [elem "div"
             [elem "h2" [Txt "Connection setup"];
              elem "p" [Txt "Define the target, server, and credentials in three short steps."]];
           connectionForm s]]].
End page.

(** ** What the form posts *)

Definition pem_names : list string := ["tls_ca_certificate"; "tls_client_certificate"; "tls_client_key"].

(** The fields on the TLS material. *)
Definition tls_fields (props : Props) (typed : string -> option string) (s : State)
    : list (string * string) :=
  when (shouldShowTlsMaterial props s)
    (when (isEditing props) [("tls_material_action", material_action_text (tlsMaterialAction s))] ++
     when (replacesTlsMaterial props s) (map (fun name => (name, held typed name "")) pem_names)).

Section payload.
Context (props : Props) (routes : Routes).
Context (processing : bool) (errors : list (string * string)) (ticked : option bool).
Context (typed : string -> option string) (submitter : option (string * string)).
Implicit Types (s : State).

Notation entries := (entries typed submitter).

Lemma driverAndPort_entries s :
  flat_map entries (driverAndPort props errors s) =
  select_field "driver" (driver s) (map driver_value (drivers props)) ++ [("port", text_of (port s))].
Proof.
  unfold driverAndPort. cbn [flat_map]. rewrite entries_elem, flat_map_app, entries_InputError. cbn [flat_map].
  rewrite select_entries by done.
  rewrite entries_elem, flat_map_app, entries_InputError. cbn. by rewrite !app_nil_r.
Qed.

Lemma hostAndTls_entries s :
  flat_map entries (hostAndTls props errors s) =
  ("host", held typed "host" (match connection props with
                              | Some c => connection_host c
                              | None => (defaults_host <$> defaults props) ?? ""
                              end)) :: select_field "tls_mode" (tlsMode s) (map fst tlsModes).
Proof.
  unfold hostAndTls. cbn [flat_map]. rewrite !entries_elem, !flat_map_app, !entries_InputError. cbn [flat_map].
  rewrite select_entries by done.
  cbn. by rewrite !app_nil_r.
Qed.

Lemma storedMaterial_entries s :
  entries (storedMaterial props errors s) =
  [("tls_material_action", material_action_text (tlsMaterialAction s))].
Proof.
  unfold storedMaterial. rewrite entries_elem, flat_map_app, entries_InputError. cbn [flat_map].
  rewrite (select_entries _ _ "tls_material_action" _ material_actions
    (fun a => material_action_text (fst a))) by done.
  by destruct (tlsMaterialAction s).
Qed.

Lemma pem_field_entries label name placeholder required hint :
  truthy name = true -> flat_map entries hint = [] ->
  entries (pem_field errors label name placeholder required hint) = [(name, held typed name "")].
Proof.
  intros Hn Hh. unfold pem_field. rewrite entries_elem, !flat_map_app, entries_InputError, Hh.
  destruct name as [|a name]; [done|]. by destruct required.
Qed.

Lemma tlsMaterial_entries s :
  flat_map entries (tlsMaterial props errors s) = tls_fields props typed s.
Proof.
  unfold tlsMaterial, tls_fields. rewrite entries_when. f_equal. cbn [flat_map].
  rewrite entries_elem, app_nil_r. cbn [flat_map]. rewrite !flat_map_app, !entries_when. cbn [flat_map].
  rewrite storedMaterial_entries. unfold newMaterial. rewrite (entries_elem _ _ "div" [_; _; _]).
  cbn [flat_map]. rewrite !pem_field_entries by done. cbn. by destruct (tlsMaterialAction s).
Qed.

Definition initial_text (f : ConnectionFormData -> string) : string := (f <$> connection props) ?? "".

(** Everything the form posts. *)
Lemma connectionForm_entries s :
  entries (connectionForm props routes processing errors ticked s) =
  [("name", held typed "name" (initial_text connection_name));
   ("database", held typed "database" (initial_text connection_database))] ++
  select_field "driver" (driver s) (map driver_value (drivers props)) ++ [("port", text_of (port s))] ++
  [("host", held typed "host" (match connection props with
                               | Some c => connection_host c
                               | None => (defaults_host <$> defaults props) ?? ""
                               end))] ++
  select_field "tls_mode" (tlsMode s) (map fst tlsModes) ++
  tls_fields props typed s ++
  [("username", held typed "username" (initial_text connection_username));
   ("password", held typed "password" ""); ("is_active", "0")] ++
  when (ticked ?? ((connection_is_active <$> connection props) ?? true)) [("is_active", "1")] ++
  when (negb (isEditing props) && (negb processing && bool_decide (submitter = Some ("create_another", "1"))))
    [("create_another", "1")].
Proof.
  unfold connectionForm. rewrite entries_Tag, flat_map_app. cbn [flat_map].
  replace (flat_map entries (carriedOver props)) with (@nil (string * string))
    by (unfold carriedOver; destruct (defaults props) as [d|]; [by destruct (_ && _)|done]).
  replace (entries (identitySection props errors)) with
    [("name", held typed "name" (initial_text connection_name));
     ("database", held typed "database" (initial_text connection_database))].
  2: { unfold identitySection. cbn -[InputError from_connection]. rewrite !entries_InputError.
       by destruct (isEditing props). }
  unfold serverSection. rewrite entries_elem. cbn [flat_map]. rewrite (entries_elem _ _ "div" (_ ++ _)).
  rewrite !flat_map_app, driverAndPort_entries, hostAndTls_entries, tlsMaterial_entries.
  replace (entries (credentialsSection props errors ticked)) with
    ([("username", held typed "username" (initial_text connection_username));
      ("password", held typed "password" ""); ("is_active", "0")] ++
     when (ticked ?? ((connection_is_active <$> connection props) ?? true)) [("is_active", "1")]).
  2: { unfold credentialsSection. cbn -[InputError from_connection]. rewrite !entries_InputError.
       by destruct (isEditing props), (ticked ?? _). }
  replace (entries (formActions props routes processing)) with
    (when (negb (isEditing props) && (negb processing && bool_decide (submitter = Some ("create_another", "1"))))
       [("create_another", "1")]).
  2: { unfold formActions. cbn. by destruct (isEditing props), processing; cbn; rewrite ?app_nil_r. }
  change (entries (section_head _ _)) with (@nil (string * string)).
  rewrite !app_nil_r, <- !app_assoc. reflexivity.
Qed.
End payload.

(** ** The checks of the server on the TLS material *)

(** [DatabaseTlsMode::requiresCaCertificate] *)
Definition requiresCaCertificate (mode : string) : bool :=
  str_eq mode "verify_ca" || str_eq mode "verify_identity".

Definition ca_error : string * string :=
  ("tls_ca_certificate", "A CA certificate is required when TLS verifies the server.").

Definition pair_errors (hasClientCertificate hasClientKey : bool) : list (string * string) :=
  when (hasClientCertificate && negb hasClientKey)
    [("tls_client_key", "A client key is required with a client certificate.")] ++
  when (hasClientKey && negb hasClientCertificate)
    [("tls_client_certificate", "A client certificate is required with a client key.")].

(** The rules of both requests on the TLS fields, and those on fields that must not be posted. *)
Definition tls_rules : list (string * list rule) :=
  [("tls_mode", [Required; OneOf (map fst tlsModes)]); ("tls_ca_certificate", [Max 65535]);
   ("tls_client_certificate", [Max 65535]); ("tls_client_key", [Max 65535])].

Definition prohibited_rules : list (string * list rule) :=
  [("tls_skip_verify", [Prohibited]); ("ssl_mode", [Prohibited])].

Definition store_tls_rules : list (string * list rule) := tls_rules ++ prohibited_rules.

Definition update_tls_rules : list (string * list rule) :=
  tls_rules ++ [("tls_material_action", [Required; OneOf ["retain"; "replace"; "clear"]])] ++ prohibited_rules.

(** [UpdateDatabaseConnectionRequest::prepareForValidation] *)
Definition prepareForValidation (es : list (string * string)) : list (string * string) :=
  match posted es "tls_material_action" with
  | [] => es ++ [("tls_material_action", "retain")]
  | _ => es
  end.

(** [UpdateDatabaseConnectionRequest::after], which runs whether the rules are satisfied or not. *)
Definition update_tls_after (databaseConnection : ConnectionFormData) (es : list (string * string))
    : list (string * string) :=
  let tlsMaterialAction := input es "tls_material_action" ?? "" in
  let replacesMaterial := str_eq tlsMaterialAction "replace" in
  let clearsMaterial := str_eq tlsMaterialAction "clear" in
  let has (name : string) (stored : bool) : bool :=
    if clearsMaterial then false
    else if replacesMaterial then filled (input es name)
    else stored in
  when (str_eq tlsMaterialAction "retain" && existsb (fun name => is_some (input es name)) pem_names)
    [("tls_material_action", "Select replace or clear to change TLS material.")] ++
  when (requiresCaCertificate (input es "tls_mode" ?? "") &&
        negb (negb clearsMaterial &&
              (replacesMaterial && filled (input es "tls_ca_certificate") ||
               has_tls_ca_certificate databaseConnection)))
    [ca_error] ++
  pair_errors (has "tls_client_certificate" (has_tls_client_certificate databaseConnection))
    (has "tls_client_key" (has_tls_client_key databaseConnection)).

(** [StoreDatabaseConnectionRequest::validateTlsConfiguration] *)
Definition validateTlsConfiguration (es : list (string * string)) : list (string * string) :=
  when (requiresCaCertificate (input es "tls_mode" ?? "") &&
        negb (filled (input es "tls_ca_certificate"))) [ca_error] ++
  pair_errors (filled (input es "tls_client_certificate")) (filled (input es "tls_client_key")).

(** What the requests answer for the TLS fields: the errors of the rules, then those of [after]. *)
Definition update_tls_errors (V : Validator) (databaseConnection : ConnectionFormData)
    (es : list (string * string)) : list (string * string) :=
  let es := prepareForValidation es in
  validate V update_tls_rules es ++ update_tls_after databaseConnection es.

Definition store_tls_errors (V : Validator) (es : list (string * string)) : list (string * string) :=
  validate V store_tls_rules es ++ validateTlsConfiguration es.

Definition server_tls_errors (V : Validator) (props : Props) (es : list (string * string))
    : list (string * string) :=
  match connection props with
  | Some databaseConnection => update_tls_errors V databaseConnection es
  | None => store_tls_errors V es
  end.

(** Only the last value that is posted under a name counts. *)
Lemma input_prepared es name :
  input (prepareForValidation es) name =
  if str_eq name "tls_material_action" then Some (input es name ?? "retain") else input es name.
Proof.
  unfold prepareForValidation, input. destruct (str_eq name "tls_material_action") eqn:E.
  - apply String.eqb_eq in E as ->. destruct (posted es "tls_material_action") as [|v l] eqn:Ep.
    + by rewrite posted_app, Ep.
    + rewrite Ep. destruct (last_is_Some (v :: l)) as [_ [w Hw]]; [done|]. by rewrite Hw.
  - destruct (posted es "tls_material_action"); [|done]. rewrite posted_app.
    unfold posted at 2. cbn. unfold str_eq in *. rewrite String.eqb_sym, E. by rewrite app_nil_r.
Qed.

(** A text is blank when all of it is space; trimming does not change that. *)
Lemma trimEnd_blank s : str_eq (trimEnd s) "" = all_chars is_space s.
Proof.
  induction s as [|c s IH]; [done|]. simpl. rewrite <- IH. destruct (trimEnd s) as [|a t]; simpl.
  - by destruct (is_space c).
  - by rewrite andb_false_r.
Qed.

Lemma all_space_trimEnd s : all_chars is_space (trimEnd s) = all_chars is_space s.
Proof.
  induction s as [|c s IH]; [done|]. simpl. rewrite <- IH.
  destruct (trimEnd s) as [|a t]; simpl; [|done]. destruct (is_space c) eqn:E; simpl; by rewrite ?E.
Qed.

Lemma all_space_trimStart s : all_chars is_space (trimStart s) = all_chars is_space s.
Proof. induction s as [|c s IH]; [done|]. simpl. destruct (is_space c) eqn:E; simpl; [done|by rewrite E]. Qed.

Lemma filled_trim v : filled (Some (trim v)) = filled (Some v).
Proof.
  unfold filled. f_equal. unfold trim.
  by rewrite !trimEnd_blank, !all_space_trimStart, all_space_trimEnd, all_space_trimStart.
Qed.

(** A text is too long for the rules: the middleware trims it first. *)
Definition too_long (v : string) : bool := negb (String.length (trim v) <=? 65535)%nat.

Lemma broken_pem V es name : name ∈ pem_names ->
  broken V es name [Max 65535] =
  match input es name with
  | Some v => if filled (Some v) && too_long v then Some (Max 65535) else None
  | None => None
  end.
Proof.
  intros Hn. unfold broken, cleaned.
  replace (existsb (str_eq name) untrimmed) with false
    by (unfold pem_names in Hn; rewrite !elem_of_cons, elem_of_nil in Hn; by destruct_or! Hn; subst name).
  destruct (input es name) as [v|]; [|done]. cbn [fmap option_fmap option_map]. rewrite filled_trim.
  unfold too_long. destruct (filled (Some v)); [|done]. cbn [find_first passes andb].
  by destruct (negb _).
Qed.


(** ** The form and the server agree on the material *)

(** What the form asks for: nothing is changed while the material is not shown. *)
Definition asked_action (props : Props) (s : State) : MaterialAction :=
  if shouldShowTlsMaterial props s then tlsMaterialAction s else Retain.

(** Whether the form posts pasted texts. *)
Definition sends_material (props : Props) (s : State) : bool :=
  match connection props with
  | None => tlsIsEnabled s
  | Some _ => match asked_action props s with Replace => true | _ => false end
  end.

Lemma sends_material_spec props s :
  shouldShowTlsMaterial props s && replacesTlsMaterial props s = sends_material props s.
Proof.
  unfold sends_material, asked_action, replacesTlsMaterial, shouldShowTlsMaterial, isEditing.
  destruct (connection props) as [c|]; cbn [is_some negb andb orb].
  - by destruct (_ || _), (tlsMaterialAction s).
  - by rewrite orb_false_r, andb_true_r.
Qed.

(** The errors to expect from what is on the page: a text that is pasted where it is asked for must not be
    longer than the rules allow; and the material is the one that is pasted when the connection is new or
    its material is replaced (a blank certificate of the authority keeps the stored one), the stored one
    when it is kept, and none when it is cleared. *)
Definition expected_tls_errors (V : Validator) (props : Props) (typed : string -> option string) (s : State)
    : list (string * string) :=
  let pasted name := filled (Some (held typed name "")) in
  flat_map (fun name => when (sends_material props s && (pasted name && too_long (held typed name "")))
    [(name, message V name (Max 65535))]) pem_names ++
  match connection props with
  | None =>
      when (tlsIsEnabled s)
        (when (tlsVerifiesServer s && negb (pasted "tls_ca_certificate")) [ca_error] ++
         pair_errors (pasted "tls_client_certificate") (pasted "tls_client_key"))
  | Some c =>
      let has (name : string) (stored : bool) : bool :=
        match asked_action props s with
        | Retain => stored
        | Replace => pasted name
        | Clear => false
        end in
      when (tlsVerifiesServer s && negb
              match asked_action props s with
              | Retain => has_tls_ca_certificate c
              | Replace => pasted "tls_ca_certificate" || has_tls_ca_certificate c
              | Clear => false
              end) [ca_error] ++
      pair_errors (has "tls_client_certificate" (has_tls_client_certificate c))
        (has "tls_client_key" (has_tls_client_key c))
  end.

Section agreement.
Context (props : Props) (routes : Routes).
Context (processing : bool) (errors : list (string * string)) (ticked : option bool).
Context (typed : string -> option string) (submitter : option (string * string)).
Implicit Types (s : State).

Notation posted_form s :=
  (entries typed submitter (connectionForm props routes processing errors ticked s)).

(** Only the select for the mode and the material post these names. *)
Lemma posted_tls_name s name :
  name ∈ "tls_mode" :: "tls_material_action" :: "tls_skip_verify" :: "ssl_mode" :: pem_names ->
  posted (posted_form s) name =
  posted (select_field "tls_mode" (tlsMode s) (map fst tlsModes)) name ++
  posted (tls_fields props typed s) name.
Proof.
  intros Hn. rewrite connectionForm_entries, !posted_app, !posted_select_field, !posted_when.
  unfold pem_names in Hn. rewrite !elem_of_cons, elem_of_nil in Hn.
  destruct_or! Hn; subst name || done; cbn -[tls_fields tlsModes selected_option];
    by rewrite ?app_nil_r; destruct (ticked ?? _), (_ && _); cbn; rewrite ?app_nil_r.
Qed.

(** What the select posts for the mode: the browser selects the first option for a value that is no option,
    as an address may name one for a new connection; neither verifies the server. *)
Lemma input_mode s : exists mode,
  input (posted_form s) "tls_mode" = Some mode /\ mode ∈ map fst tlsModes /\
  requiresCaCertificate mode = tlsVerifiesServer s.
Proof.
  unfold input. rewrite posted_tls_name by (unfold pem_names; set_solver). rewrite posted_select_field.
  change (map (fun o => (o, false)) (map fst tlsModes)) with
    (("disabled", false) :: map (fun o => (id o, false)) (tail (map fst tlsModes))).
  rewrite (selected_option_listed_or_first id).
  set (listed := existsb _ _). exists (if listed then tlsMode s else "disabled"). split; [|split].
  - unfold tls_fields. by destruct (shouldShowTlsMaterial props s), (isEditing props), (replacesTlsMaterial props s).
  - destruct listed eqn:E; [|by left]. subst listed. apply existsb_exists_elem in E as (m & Hm & ->%String.eqb_eq).
    exact Hm.
  - unfold tlsVerifiesServer. destruct listed eqn:E; [done|]. subst listed. cbn in E.
    rewrite !orb_false_iff in E. destruct E as (_ & _ & _ & -> & -> & _). done.
Qed.

Lemma input_action s :
  input (posted_form s) "tls_material_action" =
  if shouldShowTlsMaterial props s && isEditing props
  then Some (material_action_text (tlsMaterialAction s)) else None.
Proof.
  unfold input. rewrite posted_tls_name by (unfold pem_names; set_solver).
  rewrite posted_select_field. unfold tls_fields.
  by destruct (shouldShowTlsMaterial props s), (isEditing props), (replacesTlsMaterial props s).
Qed.

Lemma input_pem s name : name ∈ pem_names ->
  input (posted_form s) name =
  if shouldShowTlsMaterial props s && replacesTlsMaterial props s then Some (held typed name "") else None.
Proof.
  intros Hn. unfold input. rewrite posted_tls_name by (by do 4 right). rewrite posted_select_field.
  unfold tls_fields, pem_names in *. rewrite !elem_of_cons, elem_of_nil in Hn.
  destruct_or! Hn; subst name || done;
    by destruct (shouldShowTlsMaterial props s), (isEditing props), (replacesTlsMaterial props s).
Qed.
Lemma input_prohibited s name : name ∈ ["tls_skip_verify"; "ssl_mode"] -> input (posted_form s) name = None.
Proof.
  intros Hn. unfold input. rewrite posted_tls_name by (do 2 right; set_solver). rewrite posted_select_field.
  unfold tls_fields. rewrite !elem_of_cons, elem_of_nil in Hn. destruct_or! Hn; subst name || done;
    by destruct (shouldShowTlsMaterial props s), (isEditing props), (replacesTlsMaterial props s).
Qed.

(** The rules refuse nothing but a text that is too long. *)
Lemma rules_refuse V es s extra :
  (forall name, name ∈ "tls_mode" :: "tls_skip_verify" :: "ssl_mode" :: pem_names ->
     input es name = input (posted_form s) name) ->
  validate V extra es = [] ->
  validate V (tls_rules ++ extra ++ prohibited_rules) es =
  flat_map (fun name => when (sends_material props s && (filled (Some (held typed name "")) && too_long (held typed name "")))
    [(name, message V name (Max 65535))]) pem_names.
Proof.
  intros Hes Hx. rewrite !validate_app, Hx. destruct (input_mode s) as (mode & Hmode & Hin & _).
  assert (Hm : broken V es "tls_mode" [Required; OneOf (map fst tlsModes)] = None).
  { unfold broken, cleaned. rewrite Hes, Hmode by (by left). clear -Hin. unfold tlsModes in *. cbn [map fst] in *.
    rewrite !elem_of_cons, elem_of_nil in Hin. by destruct_or! Hin; subst mode. }
  assert (Hp : validate V prohibited_rules es = []).
  { apply validate_nil. intros f Hf. unfold broken, cleaned. unfold prohibited_rules in Hf.
    elem_cases Hf; subst f; cbn [fst snd]; rewrite Hes, input_prohibited by set_solver; done. }
  rewrite Hp, !app_nil_r. unfold validate, tls_rules. cbn [flat_map fst snd]. rewrite Hm.
  unfold pem_names. cbn [flat_map app].
  rewrite !broken_pem, !Hes, !input_pem by (unfold pem_names; set_solver). rewrite sends_material_spec.
  destruct (sends_material props s); [|done]. cbn [andb].
  by repeat destruct (filled _ && _).
Qed.
End agreement.

Lemma disabled_verifies_nothing s : tlsIsEnabled s = false -> tlsVerifiesServer s = false.
Proof.
  unfold tlsIsEnabled, tlsVerifiesServer. by intros ->%negb_false_iff%str_eq_true.
Qed.

Lemma server_as_expected V props routes processing errors ticked typed submitter s :
  server_tls_errors V props
    (entries typed submitter (connectionForm props routes processing errors ticked s)) =
  expected_tls_errors V props typed s.
Proof.
  unfold server_tls_errors, expected_tls_errors.
  destruct (input_mode props routes processing errors ticked typed submitter s) as (mode & Hm & _ & Hv).
  pose proof (input_action props routes processing errors ticked typed submitter s) as Ha.
  pose proof (input_pem props routes processing errors ticked typed submitter s) as Hp.
  pose proof (disabled_verifies_nothing s) as Hd.
  destruct (connection props) as [c|] eqn:Hc; [unfold update_tls_errors|unfold store_tls_errors]; cbv zeta.
  - f_equal; [apply (rules_refuse props routes processing errors ticked typed submitter V _ s
      [("tls_material_action", [Required; OneOf ["retain"; "replace"; "clear"]])])|].
    + intros name Hn. rewrite input_prepared. destruct (str_eq name "tls_material_action") eqn:E; [|done].
      apply String.eqb_eq in E as ->.
      unfold pem_names in Hn. rewrite !elem_of_cons, elem_of_nil in Hn. by destruct_or! Hn.
    + apply validate_nil. intros f ->%list_elem_of_singleton. cbn [fst snd]. unfold broken, cleaned.
      rewrite input_prepared, Ha. unfold isEditing. rewrite Hc. cbn.
      by destruct (shouldShowTlsMaterial props s), (tlsMaterialAction s).
    + unfold update_tls_after. cbn [existsb pem_names]. rewrite !input_prepared, Ha. cbn [str_eq String.eqb Ascii.eqb Bool.eqb].
      rewrite Hm, !Hp by (by apply (bool_decide_unpack _)). cbn [default id is_some]. rewrite Hv.
      unfold asked_action, replacesTlsMaterial, isEditing. rewrite Hc. cbn [is_some negb andb orb].
      by destruct (shouldShowTlsMaterial props s), (tlsMaterialAction s).
  - f_equal; [apply (rules_refuse props routes processing errors ticked typed submitter V _ s []); [done|done]|].
    unfold validateTlsConfiguration. rewrite Hm, !Hp by (by apply (bool_decide_unpack _)).
    cbn [default id]. rewrite Hv. unfold replacesTlsMaterial, shouldShowTlsMaterial, isEditing. rewrite Hc.
    cbn [is_some negb andb orb]. rewrite orb_false_r, andb_true_r.
    destruct (tlsIsEnabled s) eqn:E; [done|]. by rewrite Hd.
Qed.

(** C33.  What the server finds wrong with the TLS fields of a form is what the page shows: in every state of
    the form, for a new and for a stored connection, the rules and the checks of the server on the posted
    fields give exactly the errors that the mode, the chosen action, the pasted texts and the stored material
    give: a text that is longer than 65535 characters, a missing certificate of the authority, a client
    certificate without its key or a key without its certificate.  In particular the mode is always accepted,
    also where the address of the page named one that does not exist, the server never answers that material
    was sent without being asked for, and what was pasted before the material was hidden does not count.
    (The texts of the validator's own messages are a parameter, and the other fields are not looked at.) *)
Theorem tls_checks_agree V props routes processing errors ticked typed submitter s :
  server_tls_errors V props
    (entries typed submitter (connectionForm props routes processing errors ticked s)) =
  expected_tls_errors V props typed s.
Proof. apply server_as_expected. Qed.

(** A certificate that is missing is refused without a word: when a stored connection without a
    certificate of its authority is switched to a mode that verifies the server and its material is
    kept or cleared, the server refuses the form for the missing certificate, and the page is the
    same with this error as without it.  The message belongs to a field that is only on the page
    while the material is replaced. *)
Theorem missing_ca_not_shown V props routes processing ticked typed submitter s c :
  connection props = Some c -> has_tls_ca_certificate c = false ->
  has_tls_client_certificate c = has_tls_client_key c ->
  tlsVerifiesServer s = true -> tlsMaterialAction s <> Replace ->
  server_tls_errors V props
    (entries typed submitter (connectionForm props routes processing [] ticked s)) = [ca_error] /\
  ConnectionForm props routes processing [ca_error] ticked s =
  ConnectionForm props routes processing [] ticked s.
Proof.
  intros Hc Hca Hpair Hv Ha. split.
  - rewrite server_as_expected. unfold expected_tls_errors, sends_material, asked_action.
    assert (Hshow : shouldShowTlsMaterial props s = true).
    { unfold shouldShowTlsMaterial. destruct (tlsIsEnabled s) eqn:E; [done|].
      by rewrite disabled_verifies_nothing in Hv. }
    rewrite Hc, Hshow, Hv, Hca, Hpair. by destruct (tlsMaterialAction s), (has_tls_client_key c).
  - unfold ConnectionForm, connectionForm, serverSection, tlsMaterial, newMaterial, replacesTlsMaterial, isEditing.
    rewrite Hc. by destruct (tlsMaterialAction s).
Qed.

(** ** Examples *)

Definition example_routes : Routes := {|
  update_form := fun id => ("/connections/" ++ str_of_Z id)%string; store_form := "/connections";
  show := fun id => ("/connections/" ++ str_of_Z id)%string; index := "/connections" |}.

(** A stored connection without TLS material. *)
Definition example_connection : ConnectionFormData := {|
  connection_id := 3; connection_name := "main"; connection_driver := "mysql";
  connection_host := "db"; connection_port := 3306; connection_database := "app";
  connection_username := "crucible"; connection_tls_mode := "required";
  has_tls_ca_certificate := false; has_tls_client_certificate := false;
  has_tls_client_key := false; connection_is_active := true |}.

Definition example_props : Props := {|
  connection := Some example_connection;
  drivers := [{| driver_value := "mysql"; driver_label := "MySQL"; default_port := 3306 |};
              {| driver_value := "pgsql"; driver_label := "PostgreSQL"; default_port := 5432 |}];
  defaults := None |}.

(** The [n]-th enabled control of the page, triggered. *)
Definition act (n : nat) (ev : event) (s : State) : State :=
  fire (ConnectionForm example_props example_routes false [] None s) n 0 ev s.

(** The server is to be verified. *)
Definition verified : State := act 2 (Change "verify_ca") (initialState example_props).

(** And the material is to be replaced. *)
Definition replaced : State := act 3 (Change "replace") verified.

Definition example_validator : Validator := {|
  filter_int := str_to_number; is_email := fun _ => true; taken := fun _ _ => false; strong := fun _ => true;
  message := fun field _ => ("The " ++ field ++ " field is not valid.")%string |}.

(** A key is pasted without its certificate, and none of the authority. *)
Example key_alone :
  server_tls_errors example_validator example_props
    (entries (fun name => if str_eq name "tls_client_key" then Some "KEY" else None) None
       (connectionForm example_props example_routes false [] None replaced)) =
  [ca_error; ("tls_client_certificate", "A client certificate is required with a client key.")].
Proof. rewrite server_as_expected. vm_compute. reflexivity. Qed.

(** A new connection whose address names a mode that does not exist posts the first one. *)
Definition new_props : Props := {|
  connection := None; drivers := drivers example_props;
  defaults := Some {| defaults_driver := "mysql"; defaults_host := "db"; defaults_port := 3306;
                      defaults_tls_mode := "strict" |} |}.

Example unknown_mode :
  input (entries (fun _ => None) None
    (connectionForm new_props example_routes false [] None (initialState new_props))) "tls_mode" = Some "disabled".
Proof. vm_compute. reflexivity. Qed.

Lemma missing_ca_not_shown_witness :
  server_tls_errors example_validator example_props
    (entries (fun _ => None) None (connectionForm example_props example_routes false [] None verified)) =
  [ca_error] /\
  ConnectionForm example_props example_routes false [ca_error] None verified =
  ConnectionForm example_props example_routes false [] None verified.
Proof.
  apply (missing_ca_not_shown example_validator example_props example_routes false None (fun _ => None) None verified
    example_connection).
  - reflexivity.
  - reflexivity.
  - reflexivity.
  - vm_compute. reflexivity.
  - vm_compute. discriminate.
Defined.

(** The port follows the driver. *)
Example driver_sets_port : port (act 0 (Change "pgsql") verified) = Whole 5432.
Proof. vm_compute. reflexivity. Qed.
