(* ===== verification/Setup.v ===== *)
(** * The pages of the initial set-up

    [resources/js/pages/setup]: [access.tsx], [application-database.tsx], [database-restart.tsx],
    [owner.tsx] and [connection.tsx], with the rules of the requests that receive their forms
    ([AuthorizeInitialSetupRequest], [StoreApplicationDatabaseConfigurationRequest],
    [CompleteInitialSetupRequest], [StoreInitialConnectionRequest]).

    The text fields are uncontrolled: what the browser holds of them is an argument.  The routes are
    generated code (parameters). *)

From Stdlib Require Import String.
From S2P Require Import Prelude JsString View Forms ConnectionForm.

Open Scope string_scope.
Open Scope Z_scope.
Open Scope list_scope.

Section setup_pages.
Context (processing : bool) (errors : list (string * string)).

Definition head (title : string) {S} : node S := El (Tag "Head") [Attr "title" title] [].

(** A box with an explanation. *)
Definition notice {S} (title text : string) : node S :=
  elem "div" [elem "div" [Txt title]; elem "p" [Txt text]].

(** ** The deployment token *)

(** [access.tsx], lines 10-55; the state is that of the password field. *)
Definition SetupAccess (action : string) (shown : bool) : node bool :=
  elem "Fragment"
    [head "Unlock initial setup";
     El (Tag "Form") [Attr "action" action]
       [notice "Deployment authorization"
          "Enter the one-time setup token configured by the administrator who deployed this instance.";
        password_field errors shown negb "Setup token" "setup_token"
          [Flag "required" true; Flag "autoFocus" true; Attr "autocomplete" "off"];
        submit processing "Unlock setup"]].

(** ** The restart *)

(** [database-restart.tsx], lines 6-51 *)
Definition SetupDatabaseRestart (show : string) : node unit :=
  elem "Fragment"
    [head "Restart required";
     elem "div"
       [notice "Configuration saved safely"
          "The encrypted database configuration is ready. Crucible has not switched this running process to it.";
        elem "div"
          [elem "p" [Txt "Restart the application server, queue worker, and scheduler so every long-running process activates the same database configuration."];
           elem "div" [elem "p" [Txt "Docker development"];
                       elem "code" [Txt "docker compose restart app worker scheduler"]];
           elem "p" [Txt "The native proxy does not connect to the application database directly and does not need to be reconfigured."]];
        El (Tag "Link") [Attr "href" show] [Txt "Check activation"]]].

(** ** The first administrator *)

Record OwnerState := { password_shown : bool; confirmation_shown : bool }.

Definition toggle_password (s : OwnerState) : OwnerState := {|
  password_shown := negb (password_shown s); confirmation_shown := confirmation_shown s |}.

Definition toggle_confirmation (s : OwnerState) : OwnerState := {|
  password_shown := password_shown s; confirmation_shown := negb (confirmation_shown s) |}.

(** [owner.tsx], lines 39-106 *)
Definition ownerFields (app_name passwordRules : string) (s : OwnerState) : list (node OwnerState) :=
  [input_field errors "Application name" "app_name"
     [Attr "defaultValue" app_name; Flag "required" true; Flag "autoFocus" true];
   elem "div"
     [input_field errors "First name" "first_name"
        [Flag "required" true; Attr "autocomplete" "given-name"];
      input_field errors "Last name" "last_name" [Attr "autocomplete" "family-name"]];
   input_field errors "Email" "email"
     [Attr "type" "email"; Flag "required" true; Attr "autocomplete" "email";
      Attr "placeholder" "admin@example.com"];
   password_field errors (password_shown s) toggle_password "Password" "password"
     [Flag "required" true; Attr "autocomplete" "new-password"; Attr "passwordrules" passwordRules];
   elem "div"
     [Label "password_confirmation" "Confirm password";
      PasswordInput (confirmation_shown s) toggle_confirmation "password_confirmation"
        [Flag "required" true; Attr "autocomplete" "new-password";
         Attr "passwordrules" passwordRules]]].

(** [owner.tsx], lines 16-114 *)
Definition SetupOwner (action app_name passwordRules : string) (s : OwnerState) : node OwnerState :=
  elem "Fragment"
    [head "Set up Crucible DB";
     El (Tag "Form") [Attr "action" action]
       (notice "Initial administrator"
          "This one-time account controls all workspace administration. Public registration remains disabled after setup."
        :: ownerFields app_name passwordRules s ++
        [submit processing "Continue to database connection"])].

(** ** The application database *)

Record AppDriver := {
  app_driver_value : string;
  app_driver_label : string;
  app_default_port : option Z;
}.

(** The chosen driver, and the state of the password field while it is on the page. *)
Record DatabaseState := { app_driver : AppDriver; app_password_shown : bool }.

Section application_database.
Context (app_drivers : list AppDriver) (sqlite_path : string).

(** Lines 27-29: nothing can be rendered without a driver. *)
Definition initialAppDriver : option AppDriver :=
  match find_first (fun item => str_eq (app_driver_value item) "sqlite") app_drivers with
  | Some item => Some item
  | None => app_drivers !! 0%nat
  end.

Definition initialDatabaseState : option DatabaseState :=
  (fun d => {| app_driver := d; app_password_shown := false |}) <$> initialAppDriver.

Definition isNetworkDatabase (s : DatabaseState) : bool :=
  negb (str_eq (app_driver_value (app_driver s)) "sqlite").

(** Lines 63-73; the password field keeps its state while it stays on the page. *)
Definition changeAppDriver (value : string) (s : DatabaseState) : DatabaseState :=
  match find_first (fun item => str_eq (app_driver_value item) value) app_drivers with
  | Some selected => {|
      app_driver := selected;
      app_password_shown := app_password_shown s && negb (str_eq (app_driver_value selected) "sqlite") |}
  | None => s
  end.

Definition toggle_app_password (s : DatabaseState) : DatabaseState := {|
  app_driver := app_driver s; app_password_shown := negb (app_password_shown s) |}.

Definition pgsql_sslmodes : list (string * string) :=
  [("disable", "Disable"); ("prefer", "Prefer"); ("require", "Require"); ("verify-ca", "Verify CA");
   ("verify-full", "Verify identity")].

(** Lines 57-86 *)
Definition appDriverSelect (s : DatabaseState) : node DatabaseState :=
  labelled errors "Database type" "driver"
    (El TSelect [Attr "id" "driver"; Attr "name" "driver"; Attr "value" (app_driver_value (app_driver s));
                 on_choose app_drivers app_driver_value (fun d => changeAppDriver (app_driver_value d))]
       (map (fun item => choice (app_driver_value item) (app_driver_label item)) app_drivers)).

(** Lines 89-106 *)
Definition sqliteCard : node DatabaseState :=
  elem "div"
    [elem "div"
       [elem "p" [Txt "Embedded SQLite"];
        elem "p" [Txt "Best for a single Crucible instance. The existing persistent file will be used."];
        elem "code" [Txt sqlite_path]]].

(** Lines 197-228 *)
Definition pgsqlMode : node DatabaseState :=
  labelled errors "PostgreSQL SSL mode" "pgsql_sslmode"
    (El TSelect [Attr "id" "pgsql_sslmode"; Attr "name" "pgsql_sslmode"; Attr "defaultValue" "prefer"]
       (map (fun mode => choice (fst mode) (snd mode)) pgsql_sslmodes)).

(** Lines 230-252 *)
Definition mysqlCa : node DatabaseState :=
  elem "div"
    ([El (Tag "Label") [Attr "for" "mysql_ssl_ca"]
        [Txt "MySQL CA file path"; elem "span" [Txt " (optional)"]];
      Input "mysql_ssl_ca" [Attr "placeholder" "/run/secrets/mysql-ca.pem"];
      elem "p" [Txt "Path on the Crucible application server, not your browser."]] ++
     InputError (error_of errors "mysql_ssl_ca")).

(** Lines 108-253 *)
Definition networkCard (s : DatabaseState) : node DatabaseState :=
  elem "div"
    ([notice "Dedicated empty database"
        "Crucible will test this connection and run its complete schema migration. Existing tables are never overwritten.";
      elem "div"
        [input_field errors "Host" "host"
           [Flag "required" true; Attr "placeholder" "database.internal"];
         input_field errors "Port" "port"
           [Attr "key" (app_driver_value (app_driver s)); Attr "type" "number"; Flag "required" true;
            Attr "defaultValue" (match app_default_port (app_driver s) with
                                 | Some port => str_of_Z port
                                 | None => ""
                                 end)]];
      input_field errors "Database name" "database"
        [Flag "required" true; Attr "placeholder" "crucible"];
      elem "div"
        [input_field errors "Username" "username"
           [Flag "required" true; Attr "autocomplete" "username"];
         password_field errors (app_password_shown s) toggle_app_password "Password" "password"
           [Flag "required" true; Attr "autocomplete" "new-password"]]] ++
     when (str_eq (app_driver_value (app_driver s)) "pgsql") [pgsqlMode] ++
     when (str_eq (app_driver_value (app_driver s)) "mysql") [mysqlCa]).

(** Lines 49-270 *)
Definition applicationDatabaseForm (action : string) (s : DatabaseState) : node DatabaseState :=
  El (Tag "Form") [Attr "action" action]
    [appDriverSelect s;
     if isNetworkDatabase s then networkCard s else sqliteCard;
     elem "p" [Txt "Credentials are encrypted with the application key. A process restart is required before the selected database becomes active."];
     submit processing (if isNetworkDatabase s then "Test and prepare database" else "Use SQLite")].

(** Lines 23-274 *)
Definition SetupApplicationDatabase (action : string) (s : DatabaseState) : node DatabaseState :=
  elem "Fragment"
    [head "Choose the application database";
     elem "div"
       [notice "Crucible control-plane storage"
          "This database stores users, requests, policies, audit records, and native-client control state. It is not a database target managed by Crucible.";
        applicationDatabaseForm action s]].
End application_database.

(** ** The first connection *)

Record ConnectionState := {
  target_driver : Driver;
  target_tlsMode : string;
  target_password_shown : bool;
}.

Section first_connection.
Context (target_drivers : list Driver).

(** [connection.tsx], lines 31-38 *)
Definition initialConnectionState : ConnectionState := {|
  target_driver := (target_drivers !! 0%nat) ??
    {| driver_value := "pgsql"; driver_label := "PostgreSQL"; default_port := 5432 |};
  target_tlsMode := "preferred";
  target_password_shown := false |}.

(** Lines 86-94; without drivers there is no option to choose. *)
Definition changeTargetDriver (value : string) (s : ConnectionState) : ConnectionState := {|
  target_driver :=
    match find_first (fun item => str_eq (driver_value item) value) target_drivers with
    | Some item => item
    | None => (target_drivers !! 0%nat) ?? target_driver s
    end;
  target_tlsMode := target_tlsMode s;
  target_password_shown := target_password_shown s |}.

Definition setTargetTlsMode (mode : string) (s : ConnectionState) : ConnectionState := {|
  target_driver := target_driver s; target_tlsMode := mode;
  target_password_shown := target_password_shown s |}.

Definition toggle_target_password (s : ConnectionState) : ConnectionState := {|
  target_driver := target_driver s; target_tlsMode := target_tlsMode s;
  target_password_shown := negb (target_password_shown s) |}.

Definition targetTlsIsEnabled (s : ConnectionState) : bool :=
  negb (str_eq (target_tlsMode s) "disabled").

Definition targetTlsVerifiesServer (s : ConnectionState) : bool :=
  str_eq (target_tlsMode s) "verify_ca" || str_eq (target_tlsMode s) "verify_identity".

(** Lines 70-160 *)
Definition targetFields (s : ConnectionState) : list (node ConnectionState) :=
  [input_field errors "Connection name" "name"
     [Flag "required" true; Attr "placeholder" "Production PostgreSQL"];
   labelled errors "Database type" "driver"
     (El TSelect [Attr "id" "driver"; Attr "name" "driver"; Attr "value" (driver_value (target_driver s));
                  on_choose target_drivers driver_value (fun d => changeTargetDriver (driver_value d))]
        (map (fun item => choice (driver_value item) (driver_label item)) target_drivers));
   input_field errors "Host" "host" [Flag "required" true; Attr "placeholder" "db.example.internal"];
   elem "div"
     [input_field errors "Port" "port"
        [Attr "key" (driver_value (target_driver s)); Attr "type" "number";
         Attr "defaultValue" (str_of_Z (default_port (target_driver s))); Flag "required" true];
      input_field errors "Database" "database" [Flag "required" true]];
   input_field errors "Username" "username" [Flag "required" true; Attr "autocomplete" "username"];
   password_field errors (target_password_shown s) toggle_target_password "Password" "password"
     [Flag "required" true; Attr "autocomplete" "new-password"]].

(** Lines 161-185 *)
Definition targetTlsSelect (s : ConnectionState) : node ConnectionState :=
  labelled errors "Target TLS policy" "tls_mode"
    (El TSelect [Attr "id" "tls_mode"; Attr "name" "tls_mode"; Attr "value" (target_tlsMode s);
                 on_choose tlsModes fst (fun mode => setTargetTlsMode (fst mode));
                 Flag "required" true]
       (map (fun mode => choice (fst mode) (snd mode)) tlsModes)).

Definition pem_area (label name : string) (attrs : list (prop ConnectionState)) : node ConnectionState :=
  labelled errors label name (El TTextarea (Attr "id" name :: Attr "name" name :: attrs) []).

(** Lines 186-233 *)
Definition targetTlsFields (s : ConnectionState) : list (node ConnectionState) :=
  when (targetTlsIsEnabled s)
    [elem "div"
       [pem_area ("CA certificate" ++ if targetTlsVerifiesServer s then " (required)" else "")%string
          "tls_ca_certificate" [Flag "required" (targetTlsVerifiesServer s)];
        pem_area "Client certificate" "tls_client_certificate" [];
        pem_area "Client private key" "tls_client_key" [Attr "autocomplete" "new-password"]]].

(** Lines 58-244 *)
Definition firstConnectionForm (action : string) (s : ConnectionState) : node ConnectionState :=
  El (Tag "Form") [Attr "action" action]
    (targetFields s ++ [targetTlsSelect s] ++ targetTlsFields s ++
     [El TInput [Attr "type" "hidden"; Attr "name" "is_active"; Attr "value" "1"] [];
      submit processing "Save connection"]).

(** Lines 43-259; [skipping] is what Inertia tells the second form. *)
Definition SetupConnection (action skip : string) (skipping : bool) (s : ConnectionState)
    : node ConnectionState :=
  elem "Fragment"
    [head "Connect a database";
     elem "div"
       [notice "First database connection"
          "Optional. You can add PostgreSQL or MySQL connections now, or continue and configure them later.";
        firstConnectionForm action s;
        El (Tag "Form") [Attr "action" skip] [submit skipping "Skip for now"]]].
End first_connection.
End setup_pages.

(** ** The requests that receive the forms *)

(** [AuthorizeInitialSetupRequest::rules] *)
Definition access_rules : list (string * list rule) := [("setup_token", [Required; Max 4096])].

(** [StoreApplicationDatabaseConfigurationRequest::rules]: the rules of the fields that are not
    excluded for the driver of the request. *)
Definition database_rules (es : list (string * string)) : list (string * list rule) :=
  let driver := cleaned es "driver" ?? "" in
  [("driver", [Required; OneOf ["sqlite"; "mysql"; "pgsql"]])] ++
  when (negb (str_eq driver "sqlite"))
    [("host", [Required; Max 255]); ("port", [Required; Integer; Between 1 65535]);
     ("database", [Required; Max 255]); ("username", [Required; Max 255]);
     ("password", [Required; Max 4096])] ++
  when (str_eq driver "pgsql") [("pgsql_sslmode", [Required; OneOf (map fst pgsql_sslmodes)])] ++
  when (str_eq driver "mysql") [("mysql_ssl_ca", [Max 4096])].

(** [CompleteInitialSetupRequest::rules], with [PasswordValidationRules::passwordRules] *)
Definition owner_rules : list (string * list rule) :=
  [("app_name", [Required; Max 120]); ("first_name", [Required; Max 100]); ("last_name", [Max 100]);
   ("email", [Required; Email; Max 255; Unique]); ("password", [Required; Strong; Confirmed])].

(** [StoreInitialConnectionRequest::rules] *)
Definition connection_rules : list (string * list rule) :=
  [("name", [Required; Max 255; Unique]); ("driver", [Required; OneOf ["mysql"; "pgsql"]]);
   ("host", [Required; Max 255]); ("port", [Required; Integer; Between 1 65535]);
   ("database", [Required; Max 255]); ("username", [Required; Max 255]);
   ("password", [Required; Max 4096]); ("tls_mode", [Required; OneOf (map fst tlsModes)]);
   ("tls_ca_certificate", [Max 65535]); ("tls_client_certificate", [Max 65535]);
   ("tls_client_key", [Max 65535]); ("tls_skip_verify", [Prohibited]); ("ssl_mode", [Prohibited])].

(** What [StoreInitialConnectionRequest] answers; [after] runs the checks on the material. *)
Definition connection_errors (V : Validator) (es : list (string * string)) : list (string * string) :=
  validate V connection_rules es ++ validateTlsConfiguration es.

(** ** What the forms post *)

Section payload.
Context (processing : bool) (errors : list (string * string)).
Context (typed : string -> option string) (submitter : option (string * string)).

Lemma SetupAccess_entries action shown :
  entries typed submitter (SetupAccess processing errors action shown) =
  [("setup_token", held typed "setup_token" "")].
Proof.
  unfold SetupAccess, head, notice. rewrite entries_elem. cbn [flat_map]. rewrite !entries_Tag. cbn [flat_map].
  rewrite password_field_entries, submit_entries by done. done.
Qed.

Definition owner_names : list string :=
  ["app_name"; "first_name"; "last_name"; "email"; "password"; "password_confirmation"].

Lemma SetupOwner_entries action app_name passwordRules s :
  entries typed submitter (SetupOwner processing errors action app_name passwordRules s) =
  [("app_name", held typed "app_name" app_name); ("first_name", held typed "first_name" "");
   ("last_name", held typed "last_name" ""); ("email", held typed "email" "");
   ("password", held typed "password" "");
   ("password_confirmation", held typed "password_confirmation" "")].
Proof.
  unfold SetupOwner, ownerFields, head, notice. rewrite entries_elem. cbn [flat_map app].
  rewrite !entries_Tag. cbn [flat_map]. rewrite !entries_elem. cbn [flat_map].
  rewrite !input_field_entries, password_field_entries, PasswordInput_entries, submit_entries by done.
  done.
Qed.

Section application_database.
Context (app_drivers : list AppDriver) (sqlite_path : string).

(** The port is that of the driver until the user types one. *)
Definition app_port_text (s : DatabaseState) : string :=
  match app_default_port (app_driver s) with Some port => str_of_Z port | None => "" end.

Definition network_fields (s : DatabaseState) : list (string * string) :=
  [("host", held typed "host" ""); ("port", held typed "port" (app_port_text s));
   ("database", held typed "database" ""); ("username", held typed "username" "");
   ("password", held typed "password" "")] ++
  when (str_eq (app_driver_value (app_driver s)) "pgsql")
    (select_field "pgsql_sslmode" (held typed "pgsql_sslmode" "prefer") (map fst pgsql_sslmodes)) ++
  when (str_eq (app_driver_value (app_driver s)) "mysql")
    [("mysql_ssl_ca", held typed "mysql_ssl_ca" "")].

Lemma networkCard_entries s :
  entries typed submitter (networkCard errors s) = network_fields s.
Proof.
  unfold networkCard, pgsqlMode, mysqlCa, notice, network_fields, app_port_text.
  rewrite entries_elem, !flat_map_app, !entries_when. cbn [flat_map]. rewrite !entries_elem, flat_map_app.
  cbn [flat_map]. rewrite !labelled_entries, !input_field_entries, password_field_entries by done.
  rewrite select_entries by done. rewrite Input_entries, entries_InputError by done.
  rewrite !app_nil_r. done.
Qed.

(** The driver the page shows, and the fields of its card. *)
Lemma applicationDatabaseForm_entries action s : app_driver s ∈ app_drivers ->
  entries typed submitter (applicationDatabaseForm processing errors app_drivers sqlite_path action s) =
  ("driver", app_driver_value (app_driver s)) :: when (isNetworkDatabase s) (network_fields s).
Proof.
  intros Hd. unfold applicationDatabaseForm, appDriverSelect. rewrite entries_Tag. cbn [flat_map].
  rewrite labelled_entries, select_entries, submit_entries by done.
  change (current_value typed "driver" _) with (app_driver_value (app_driver s)).
  rewrite select_field_listed by (by apply list_elem_of_fmap_2).
  destruct (isNetworkDatabase s); [rewrite networkCard_entries|]; simpl; by rewrite ?app_nil_r.
Qed.
End application_database.

Section first_connection.
Context (target_drivers : list Driver).

Definition pem_fields (s : ConnectionState) : list (string * string) :=
  when (targetTlsIsEnabled s) (map (fun name => (name, held typed name "")) pem_names).

Lemma firstConnectionForm_entries action s :
  target_driver s ∈ target_drivers -> target_tlsMode s ∈ map fst tlsModes ->
  entries typed submitter (firstConnectionForm processing errors target_drivers action s) =
  [("name", held typed "name" ""); ("driver", driver_value (target_driver s));
   ("host", held typed "host" "");
   ("port", held typed "port" (str_of_Z (default_port (target_driver s))));
   ("database", held typed "database" ""); ("username", held typed "username" "");
   ("password", held typed "password" ""); ("tls_mode", target_tlsMode s)] ++
  pem_fields s ++ [("is_active", "1")].
Proof.
  intros Hd Ht. unfold firstConnectionForm, targetFields, targetTlsSelect, targetTlsFields, pem_area, pem_fields.
  rewrite entries_Tag, !flat_map_app, !entries_when. cbn [flat_map]. rewrite !entries_elem. cbn [flat_map].
  rewrite !labelled_entries, !input_field_entries, password_field_entries, submit_entries by done.
  rewrite !select_entries by done.
  change (current_value typed "driver" _) with (driver_value (target_driver s)).
  change (current_value typed "tls_mode" _) with (target_tlsMode s).
  rewrite !select_field_listed by (done || by apply list_elem_of_fmap_2).
  by destruct (targetTlsIsEnabled s), (targetTlsVerifiesServer s).
Qed.
End first_connection.
End payload.

(** ** Reachable states *)

(** [createApplicationDatabase]: the drivers of [ApplicationDatabaseDriver::cases]. *)
Definition server_app_drivers : list AppDriver :=
  [{| app_driver_value := "sqlite"; app_driver_label := "SQLite"; app_default_port := None |};
   {| app_driver_value := "mysql"; app_driver_label := "MySQL"; app_default_port := Some 3306 |};
   {| app_driver_value := "pgsql"; app_driver_label := "PostgreSQL"; app_default_port := Some 5432 |}].

(** [createConnection]: the drivers of [DatabaseDriver::cases]. *)
Definition server_drivers : list Driver :=
  [{| driver_value := "mysql"; driver_label := "MySQL"; default_port := 3306 |};
   {| driver_value := "pgsql"; driver_label := "PostgreSQL"; default_port := 5432 |}].

Inductive database_step (sqlite_path action : string) : DatabaseState -> DatabaseState -> Prop :=
  | database_action s processing errors h now ev :
      h ∈ actions (SetupApplicationDatabase processing errors server_app_drivers sqlite_path action s) ->
      database_step sqlite_path action s (h now ev s).

Inductive connection_step (action skip : string) : ConnectionState -> ConnectionState -> Prop :=
  | connection_action s processing errors skipping h now ev :
      h ∈ actions (SetupConnection processing errors server_drivers action skip skipping s) ->
      connection_step action skip s (h now ev s).

Definition database_listed (s : DatabaseState) : Prop := app_driver s ∈ server_app_drivers.

Definition target_listed (s : ConnectionState) : Prop :=
  target_driver s ∈ server_drivers /\ target_tlsMode s ∈ map fst tlsModes.

Lemma SetupApplicationDatabase_safe processing errors sqlite_path action s : database_listed s ->
  all_actions (fun h => forall now ev, database_listed (h now ev s))
    (SetupApplicationDatabase processing errors server_app_drivers sqlite_path action s).
Proof.
  intros Hs. unfold SetupApplicationDatabase, applicationDatabaseForm, appDriverSelect, head, notice. walk_fields.
  - intros now ev. apply choose_keeps; [done|]. intros d _. unfold changeAppDriver.
    destruct (find_first _ _) as [d'|] eqn:E; [|done]. by apply find_first_Some in E as [Hd _].
  - destruct (isNetworkDatabase s); unfold networkCard, sqliteCard, pgsqlMode, mysqlCa, notice; walk_fields.
    by intros now [| | |].
Qed.

Lemma SetupConnection_safe processing errors action skip skipping s : target_listed s ->
  all_actions (fun h => forall now ev, target_listed (h now ev s))
    (SetupConnection processing errors server_drivers action skip skipping s).
Proof.
  intros [Hd Ht]. unfold SetupConnection, firstConnectionForm, targetFields, targetTlsSelect, targetTlsFields,
    pem_area, head, notice. walk_fields.
  - intros now ev. apply choose_keeps; [done|]. intros d _. unfold changeTargetDriver.
    split; [|done]. cbn [target_driver]. destruct (find_first _ _) as [d'|] eqn:E; [|left].
    by apply find_first_Some in E as [Hd' _].
  - by intros now [| | |].
  - intros now ev. apply choose_keeps; [done|]. intros mode Hm. split; [done|].
    change (fst mode ∈ map fst tlsModes). by apply list_elem_of_fmap_2.
Qed.

Lemma database_reachable_listed sqlite_path action s0 s :
  initialDatabaseState server_app_drivers = Some s0 ->
  rtc (database_step sqlite_path action) s0 s -> database_listed s.
Proof.
  intros H0 Hr. assert (Hs0 : database_listed s0) by (injection H0 as <-; left).
  clear H0. induction Hr as [|s1 s2 s3 Hs _ IH]; [done|]. apply IH. clear IH.
  destruct Hs as [s processing errors h now ev Hh].
  pose proof (SetupApplicationDatabase_safe processing errors sqlite_path action s Hs0) as H.
  unfold all_actions in H. rewrite Forall_forall in H. by apply H.
Qed.

Lemma connection_reachable_listed action skip s :
  rtc (connection_step action skip) (initialConnectionState server_drivers) s -> target_listed s.
Proof.
  intros Hr. assert (Hs0 : target_listed (initialConnectionState server_drivers))
    by (split; [left|by apply (bool_decide_unpack _)]).
  induction Hr as [|s1 s2 s3 Hs _ IH]; [done|]. apply IH. clear IH.
  destruct Hs as [s processing errors skipping h now ev Hh].
  pose proof (SetupConnection_safe processing errors action skip skipping s Hs0) as H.
  unfold all_actions in H. rewrite Forall_forall in H. by apply H.
Qed.

(** ** Every refusal is shown *)

Lemma error_of_elem errors f m : error_of errors f = Some m -> (f, m) ∈ errors.
Proof.
  unfold error_of. destruct (find_first _ _) as [[g m']|] eqn:E; [|done]. intros [= ->].
  apply find_first_Some in E as [Hin Hf]. simpl in Hf. by apply str_eq_true in Hf as ->.
Qed.

(** The form for the token and the one for the administrator have every field the server refuses. *)
Theorem access_refusals_shown V processing action shown es f m :
  error_of (validate V access_rules es) f = Some m -> truthy m = true ->
  m ∈ texts (SetupAccess processing (validate V access_rules es) action shown).
Proof.
  intros He Hm. pose proof (error_of_elem _ _ _ He) as Hf%validate_fields. simpl in Hf.
  apply list_elem_of_singleton in Hf as ->. unfold SetupAccess. shown.
Qed.

Theorem owner_refusals_shown V processing action app_name passwordRules s es f m :
  error_of (validate V owner_rules es) f = Some m -> truthy m = true ->
  m ∈ texts (SetupOwner processing (validate V owner_rules es) action app_name passwordRules s).
Proof.
  intros He Hm. pose proof (error_of_elem _ _ _ He) as Hf%validate_fields. simpl in Hf.
  unfold SetupOwner, ownerFields. rewrite !elem_of_cons, elem_of_nil in Hf.
  destruct_or! Hf; subst f || done; shown.
Qed.

(** The rules that apply to what the page posts are those of the fields it shows. *)
Lemma database_rules_posted processing errors typed submitter sqlite_path action s : database_listed s ->
  database_rules (entries typed submitter
    (applicationDatabaseForm processing errors server_app_drivers sqlite_path action s)) =
  let driver := app_driver_value (app_driver s) in
  [("driver", [Required; OneOf ["sqlite"; "mysql"; "pgsql"]])] ++
  when (negb (str_eq driver "sqlite"))
    [("host", [Required; Max 255]); ("port", [Required; Integer; Between 1 65535]);
     ("database", [Required; Max 255]); ("username", [Required; Max 255]);
     ("password", [Required; Max 4096])] ++
  when (str_eq driver "pgsql") [("pgsql_sslmode", [Required; OneOf (map fst pgsql_sslmodes)])] ++
  when (str_eq driver "mysql") [("mysql_ssl_ca", [Max 4096])].
Proof.
  intros Hs. rewrite applicationDatabaseForm_entries by done. unfold database_rules, cleaned, input.
  replace (last (posted _ "driver")) with (Some (app_driver_value (app_driver s))).
  - unfold database_listed, server_app_drivers in Hs. rewrite !elem_of_cons, elem_of_nil in Hs.
    destruct_or! Hs; rewrite Hs || done; reflexivity.
  - unfold database_listed, server_app_drivers in Hs. rewrite !elem_of_cons, elem_of_nil in Hs.
    destruct_or! Hs; try done; unfold isNetworkDatabase, network_fields; rewrite Hs; simpl; try done.
    unfold select_field. by destruct (selected_option _ _).
Qed.

(** A driver of the form is accepted. *)
Lemma driver_accepted V es s : database_listed s -> input es "driver" = Some (app_driver_value (app_driver s)) ->
  broken V es "driver" [Required; OneOf ["sqlite"; "mysql"; "pgsql"]] = None.
Proof.
  intros Hs Hi. unfold broken, cleaned. rewrite Hi.
  unfold database_listed, server_app_drivers in Hs. rewrite !elem_of_cons, elem_of_nil in Hs.
  by destruct_or! Hs; rewrite Hs || done.
Qed.

(** Whatever the server finds wrong with the choice of a database, the page shows it; and what was
    typed before SQLite was chosen is not looked at. *)
Theorem database_refusals_shown V processing typed submitter sqlite_path action s0 s :
  initialDatabaseState server_app_drivers = Some s0 ->
  rtc (database_step sqlite_path action) s0 s ->
  let es := entries typed submitter
    (applicationDatabaseForm processing [] server_app_drivers sqlite_path action s) in
  let refused := validate V (database_rules es) es in
  (isNetworkDatabase s = false -> refused = []) /\
  (forall f m, error_of refused f = Some m -> truthy m = true ->
    m ∈ texts (SetupApplicationDatabase processing refused server_app_drivers sqlite_path action s)).
Proof.
  intros H0 Hr es refused. pose proof (database_reachable_listed _ _ _ _ H0 Hr) as Hs.
  assert (Hrules := database_rules_posted processing [] typed submitter sqlite_path action s Hs).
  fold es in Hrules. split.
  - intros Hn. unfold refused. apply validate_nil. rewrite Hrules. unfold isNetworkDatabase in Hn.
    apply negb_false_iff, str_eq_true in Hn. rewrite Hn. simpl. intros f ->%list_elem_of_singleton.
    apply (driver_accepted V es s); [done|]. unfold es. rewrite applicationDatabaseForm_entries by done.
    unfold isNetworkDatabase. rewrite Hn. done.
  - intros f m He Hm. pose proof (error_of_elem _ _ _ He) as Hf%validate_fields.
    rewrite Hrules in Hf. clear Hrules. clearbody refused. clear es H0 Hr.
    destruct s as [d shown]. unfold database_listed, server_app_drivers in Hs.
    rewrite !elem_of_cons, elem_of_nil in Hs. cbn [app_driver] in *.
    destruct_or! Hs; try done; subst d; simpl in Hf; elem_cases Hf; subst f;
      unfold SetupApplicationDatabase, applicationDatabaseForm, appDriverSelect, isNetworkDatabase;
      cbn [app_driver app_driver_value]; simpl negb; cbv iota;
      try unfold networkCard, pgsqlMode, mysqlCa; shown.
Qed.

(** The material is refused for a field only while the mode has material. *)
Lemma validateTlsConfiguration_fields es f m : (f, m) ∈ validateTlsConfiguration es -> f ∈ pem_names.
Proof.
  unfold validateTlsConfiguration, pair_errors. rewrite !elem_of_app, !elem_of_when, !list_elem_of_singleton.
  unfold ca_error, pem_names. rewrite !elem_of_cons. naive_solver.
Qed.

Definition target_posted (typed : string -> option string) (s : ConnectionState) : list (string * string) :=
  [("name", held typed "name" ""); ("driver", driver_value (target_driver s));
   ("host", held typed "host" "");
   ("port", held typed "port" (str_of_Z (default_port (target_driver s))));
   ("database", held typed "database" ""); ("username", held typed "username" "");
   ("password", held typed "password" ""); ("tls_mode", target_tlsMode s)] ++
  pem_fields typed s ++ [("is_active", "1")].

(** Without material on the page none is posted, and none is asked for. *)
Lemma no_material_no_errors typed s :
  target_tlsMode s ∈ map fst tlsModes -> targetTlsIsEnabled s = false ->
  validateTlsConfiguration (target_posted typed s) = [].
Proof.
  intros _ Ht. unfold target_posted, pem_fields. rewrite Ht.
  unfold targetTlsIsEnabled in Ht. by apply negb_false_iff, str_eq_true in Ht as ->.
Qed.

Lemma not_posted_not_broken V es f rules : posted es f = [] -> Required ∉ rules ->
  broken V es f rules = None.
Proof.
  intros Hp Hr. unfold broken, cleaned, input. rewrite Hp. simpl. apply find_first_None.
  intros r Hin. apply bool_decide_eq_false. by intros ->.
Qed.

Lemma target_validated typed V s f m : target_listed s ->
  (f, m) ∈ validate V connection_rules (target_posted typed s) ->
  f ∈ ["name"; "host"; "port"; "database"; "username"; "password"] \/
  targetTlsIsEnabled s = true /\ f ∈ pem_names.
Proof.
  intros [Hd Ht] ([name rules] & Hin & Hm)%elem_of_flat_map. cbn [fst snd] in Hm.
  destruct (broken V _ name rules) eqn:Hb; [|by apply elem_of_nil in Hm].
  apply list_elem_of_singleton in Hm as [= -> _]. 
  assert (Hpem : name ∈ pem_names -> Required ∉ rules -> targetTlsIsEnabled s = true).
  { intros Hn Hr. destruct (targetTlsIsEnabled s) eqn:E; [done|]. exfalso.
    rewrite not_posted_not_broken in Hb; [done| |done]. unfold target_posted, pem_fields. rewrite E.
    unfold pem_names in Hn. rewrite !elem_of_cons, elem_of_nil in Hn. by destruct_or! Hn; subst name. }
  unfold connection_rules in Hin. elem_cases Hin; injection Hin as -> ->;
    first [left; by apply (bool_decide_unpack _)
          | right; split; [apply Hpem|]; by apply (bool_decide_unpack _)
          | exfalso; clear Hpem].
  - unfold server_drivers in Hd. rewrite !elem_of_cons, elem_of_nil in Hd. revert Hb.
    unfold target_posted, pem_fields.
    by destruct_or! Hd; try done; rewrite Hd; destruct (targetTlsIsEnabled s).
  - unfold tlsModes in Ht. cbn [map fst] in Ht. rewrite !elem_of_cons, elem_of_nil in Ht. revert Hb.
    unfold target_posted, pem_fields, targetTlsIsEnabled.
    by destruct_or! Ht; try done; rewrite Ht.
  - rewrite not_posted_not_broken in Hb; [done| |by apply (bool_decide_unpack _)].
    unfold target_posted, pem_fields. by destruct (targetTlsIsEnabled s).
  - rewrite not_posted_not_broken in Hb; [done| |by apply (bool_decide_unpack _)].
    unfold target_posted, pem_fields. by destruct (targetTlsIsEnabled s).
Qed.

(** Whatever the server finds wrong with the first connection, the page shows it: a field of the TLS
    material is only refused while it is on the page. *)
Theorem first_connection_refusals_shown V processing typed submitter action skip skipping s :
  rtc (connection_step action skip) (initialConnectionState server_drivers) s ->
  let es := entries typed submitter (firstConnectionForm processing [] server_drivers action s) in
  let refused := connection_errors V es in
  forall f m, error_of refused f = Some m -> truthy m = true ->
    m ∈ texts (SetupConnection processing refused server_drivers action skip skipping s).
Proof.
  intros Hr es refused f m He Hm. pose proof (connection_reachable_listed _ _ _ Hr) as Hs.
  assert (Hes : es = target_posted typed s) by (unfold es; destruct Hs; by rewrite firstConnectionForm_entries).
  pose proof (error_of_elem _ _ _ He) as Hf. unfold refused, connection_errors in Hf. rewrite Hes in Hf.
  assert (Hcase : f ∈ ["name"; "host"; "port"; "database"; "username"; "password"] \/
                  targetTlsIsEnabled s = true /\ f ∈ pem_names).
  { apply elem_of_app in Hf as [Hf|Hf]; [by apply (target_validated typed V s f m)|]. right.
    split; [|by apply (validateTlsConfiguration_fields _ f m) in Hf]. destruct (targetTlsIsEnabled s) eqn:E; [done|].
    destruct Hs. rewrite no_material_no_errors in Hf by done. by apply elem_of_nil in Hf. }
  clear Hf Hes. clearbody refused. clear es. unfold pem_names in Hcase.
  rewrite !elem_of_cons, elem_of_nil in Hcase. unfold SetupConnection, firstConnectionForm, targetFields,
    targetTlsFields, pem_area. destruct_or! Hcase; destruct_and? Hcase; destruct_or?; try done; subst f; shown.
Qed.
