(* ===== verification/SetupServer.v ===== *)
(** * The initial set-up of an instance

    The state machine behind the pages of [resources/js/pages/setup]: the middleware
    [RedirectToSetupWhenUninitialized] and [RequireInitialSetupAccess], [SetupController],
    [ApplicationDatabaseManager::provision], [InitialSetupAccess] and [InitialSetupState]; composed
    with the forms of the pages (file [Setup]).

    The state of the instance is its configuration file, what its processes were started with and
    its databases; a session keeps the authorization, the user and the owner of the set-up.  The
    framework runs [auth] before the middleware of the application, and [guest] and the
    middleware of a route after it.  Rate limits are left out, and so is the fence of a
    migration, which only exists on an initialised instance.

    The token, its fingerprint, the fingerprint of a configuration, the validator, the new
    identifier of a user and what a database answers are parameters. *)

From Stdlib Require Import String.
From S2P Require Import Prelude JsString View Forms ConnectionForm Setup.

Open Scope string_scope.
Open Scope Z_scope.
Open Scope list_scope.

(** ** State *)

Record User := { user_id : Z; is_admin : bool }.

Record Database := {
  has_users_table : bool;
  users : list User;
  setup_completed : bool;
  connections : list (list (string * string));
}.

(** The configuration in the file, as keys and values. *)
Definition Payload : Type := list (string * string).

Record Instance := {
  managed : bool;
  configuration : option Payload;
  (** what the processes were started with; [None] is the fallback connection *)
  running : option Payload;
  sqlite : Database;
  network : Database;
}.

Record Session := {
  authorization : option string;
  login : option Z;
  owner_id : option Z;
}.

Definition guest_session : Session := {| authorization := None; login := None; owner_id := None |}.

(** ** Routes *)

Inductive route :=
  | RAccess | RDatabase | RRestart | RShow | RConnection
  | RHome | RLogin | RDashboard | RHealth | RMigrations
  | RGuest | RAuth.

Inductive form := FAccess | FDatabase | FOwner | FConnection | FSkip.

Inductive request := Get (r : route) | Post (f : form) (es : list (string * string)).

Inductive page := PAccess | PDatabase | PRestart | POwner | PConnection | PLogin | PDashboard | POther.

Inductive response :=
  | Redirect (r : route)
  | Render (p : page)
  | Abort (status : Z)
  | Back (errors : list (string * string)).

#[global] Instance route_eq_dec : EqDecision route.
Proof. solve_decision. Defined.

#[global] Instance page_eq_dec : EqDecision page.
Proof. solve_decision. Defined.

(** [routes/web.php]: the groups behind [auth] and behind [guest], and the routes behind
    [initial-setup-access]. *)
Definition behind_auth (req : request) : bool :=
  match req with
  | Get (RConnection | RDashboard | RMigrations | RAuth) | Post (FConnection | FSkip) _ => true
  | _ => false
  end.

Definition behind_guest (req : request) : bool :=
  match req with
  | Get (RAccess | RDatabase | RRestart | RShow | RLogin | RGuest) => true
  | Post (FAccess | FDatabase | FOwner) _ => true
  | _ => false
  end.

Definition behind_setup_access (req : request) : bool :=
  match req with
  | Get (RDatabase | RRestart | RShow) | Post (FDatabase | FOwner) _ => true
  | _ => false
  end.

(** [$request->is('setup*')] *)
Definition is_setup (req : request) : bool :=
  match req with
  | Get (RAccess | RDatabase | RRestart | RShow | RConnection) | Post _ _ => true
  | _ => false
  end.

Section server.
(** The configured token, the mark of an authorization, the fingerprint of a configuration. *)
Context (token : string) (mark : string) (fingerprint : Payload -> string).
Context (V : Validator) (create_id : list User -> Z).
(** The values of the SQLite connection that a configuration stores. *)
Context (sqlite_settings : Payload).
(** What the chosen database answers: a connection, the tables it has, the migration. *)
Context (connects : Payload -> bool) (tables : Payload -> list string) (migrates : Payload -> bool).
Implicit Types (i : Instance) (s : Session).

(** ** [ApplicationDatabaseManager] *)

(** [ApplicationDatabaseDriver::isNetworkDatabase] *)
Definition payload_network (p : Payload) : bool :=
  negb (bool_decide (("driver", "sqlite") ∈ p)).

(** The database the processes use. *)
Definition uses_network i : bool :=
  match running i with Some p => payload_network p | None => false end.

Definition control i : Database := if uses_network i then network i else sqlite i.

Definition hasManagedConfiguration i : bool := managed i && is_some (configuration i).

Definition requiresSelection i : bool := managed i && negb (hasManagedConfiguration i).

Definition requiresRestart i : bool :=
  managed i &&
  match configuration i with
  | None => false
  | Some p => negb (bool_decide (Some (fingerprint p) = fingerprint <$> running i))
  end.

(** [payload] *)
Definition payload (es : list (string * string)) : Payload :=
  let field name := cleaned es name ?? "" in
  let driver := field "driver" in
  if str_eq driver "sqlite" then [("version", "1"); ("driver", "sqlite")] ++ sqlite_settings
  else
    List.filter (fun f => negb (str_eq (snd f) ""))
      ([("version", "1"); ("driver", driver); ("host", field "host"); ("port", field "port");
        ("database", field "database"); ("username", field "username");
        ("password", field "password")] ++
       when (str_eq driver "pgsql") [("pgsql_sslmode", cleaned es "pgsql_sslmode" ?? "prefer")] ++
       when (str_eq driver "mysql") [("mysql_ssl_ca", field "mysql_ssl_ca")]).

Definition empty_error : string * string :=
  ("database", "Use a dedicated empty database. Existing tables were found and will not be overwritten.").

Definition prepare_error : string * string :=
  ("database", "The application database could not be prepared. Check the connection, permissions, TLS settings, and that the database is empty.").

(** [prepareNetworkDatabase]: nothing, or the error. *)
Definition prepareNetworkDatabase (p : Payload) : option (string * string) :=
  if negb (connects p) then Some prepare_error
  else if negb (bool_decide (tables p = [])) then Some empty_error
  else if migrates p then None else Some prepare_error.

(** A database after the migration. *)
Definition migrated : Database := {|
  has_users_table := true; users := []; setup_completed := false; connections := [] |}.

Definition write_configuration (p : Payload) i : Instance := {|
  managed := managed i; configuration := Some p; running := running i; sqlite := sqlite i;
  network := if payload_network p then migrated else network i |}.

(** [provision] *)
Definition provision (es : list (string * string)) i : option (string * string) * Instance :=
  if negb (managed i) then
    (Some ("driver", "Application database selection is disabled when configuration is managed by the environment."), i)
  else if hasManagedConfiguration i then
    (Some ("driver", "The application database has already been configured."), i)
  else
    let p := payload es in
    match (if payload_network p then prepareNetworkDatabase p else None) with
    | Some e => (Some e, i)
    | None => (None, write_configuration p i)
    end.

(** A restart of the processes. *)
Definition restart i : Instance := {|
  managed := managed i; configuration := configuration i;
  running := if managed i then configuration i else running i;
  sqlite := sqlite i; network := network i |}.

(** ** [InitialSetupState] and [InitialSetupAccess] *)

Definition canInitialize i : bool :=
  negb (setup_completed (control i)) &&
  (negb (has_users_table (control i)) || bool_decide (users (control i) = [])).

Definition isConfigured : bool := (32 <=? String.length token)%nat.

Definition isGranted s : bool := isConfigured && bool_decide (authorization s = Some mark).

(** [grant] *)
Definition grant (candidate : string) s : option Session :=
  if negb isConfigured || negb (str_eq token candidate) then None
  else Some {| authorization := Some mark; login := login s; owner_id := owner_id s |}.

(** The user of a session. *)
Definition current_user i s : option User :=
  id ← login s; find_first (fun u => user_id u =? id) (users (control i)).

(** ** The middleware *)

(** [RedirectToSetupWhenUninitialized::handle]; [None] passes the request on. *)
Definition redirect_to_setup i s (req : request) : option response :=
  match req with
  | Get RHealth => None
  | _ =>
      let access_route := match req with Get RAccess | Post FAccess _ => true | _ => false end in
      let restart_route := match req with Get (RRestart | RMigrations) => true | _ => false end in
      let database_route := match req with Get RDatabase | Post FDatabase _ => true | _ => false end in
      if canInitialize i && access_route then None
      else if canInitialize i && negb (isGranted s) then Some (Redirect RAccess)
      else if requiresRestart i then if restart_route then None else Some (Redirect RRestart)
      else if requiresSelection i && canInitialize i then
        if database_route then None else Some (Redirect RDatabase)
      else if is_setup req || negb (has_users_table (control i)) || negb (canInitialize i) then None
      else Some (Redirect RShow)
  end.

(** [RequireInitialSetupAccess::handle] *)
Definition require_setup_access i s : option response :=
  if negb (canInitialize i) then Some (Abort 404)
  else if isGranted s then None else Some (Redirect RAccess).

(** The middleware of a request, in their order. *)
Definition middleware i s (req : request) : option response :=
  if behind_auth req && negb (is_some (current_user i s)) then Some (Redirect RLogin)
  else match redirect_to_setup i s req with
       | Some r => Some r
       | None =>
           if behind_guest req && is_some (current_user i s) then Some (Redirect RDashboard)
           else if behind_setup_access req then require_setup_access i s
           else None
       end.
(** ** The controllers *)

Definition on_control (f : Database -> Database) i : Instance :=
  if uses_network i
  then {| managed := managed i; configuration := configuration i; running := running i;
          sqlite := sqlite i; network := f (network i) |}
  else {| managed := managed i; configuration := configuration i; running := running i;
          sqlite := f (sqlite i); network := network i |}.

(** The route after the access to the set-up is granted, and the one [show] redirects to. *)
Definition next_route i : route :=
  if requiresRestart i then RRestart else if requiresSelection i then RDatabase else RShow.

(** [ensureInitialSetupOwner] *)
Definition ensureInitialSetupOwner (u : User) s : option response :=
  if negb (is_admin u) then Some (Abort 403)
  else if negb (bool_decide (owner_id s = Some (user_id u))) then Some (Abort 404)
  else None.

(** [createAccess] *)
Definition createAccess i : response :=
  if negb (canInitialize i) then Abort 404
  else if negb isConfigured then Abort 503 else Render PAccess.

(** [show] *)
Definition show i : response :=
  if negb (canInitialize i) then Abort 404
  else match next_route i with RShow => Render POwner | r => Redirect r end.

(** [createApplicationDatabase] *)
Definition createApplicationDatabase i : response :=
  if negb (canInitialize i) then Abort 404
  else if negb (managed i) then Redirect RShow
  else if requiresRestart i then Redirect RRestart
  else if negb (requiresSelection i) then Redirect RShow
  else Render PDatabase.

(** [restartApplicationDatabase] *)
Definition restartApplicationDatabase i : response :=
  if negb (canInitialize i) then Abort 404
  else if negb (requiresRestart i) then Redirect RShow else Render PRestart.

(** [createConnection] *)
Definition createConnection (u : User) s : response :=
  match ensureInitialSetupOwner u s with Some e => e | None => Render PConnection end.

(** The page of a route: the start page redirects, the pages outside the set-up are only named. *)
Definition get_page i s (r : route) : response :=
  match r with
  | RAccess => createAccess i
  | RShow => show i
  | RDatabase => createApplicationDatabase i
  | RRestart => restartApplicationDatabase i
  | RConnection =>
      match current_user i s with Some u => createConnection u s | None => Redirect RLogin end
  | RHome => Redirect (if is_some (current_user i s) then RDashboard else RLogin)
  | RLogin => Render PLogin
  | RDashboard => Render PDashboard
  | RHealth | RMigrations | RGuest | RAuth => Render POther
  end.

(** [authorizeAccess] *)
Definition authorizeAccess (es : list (string * string)) i s : response * Instance * Session :=
  match validate V access_rules es with
  | _ :: _ as errors => (Back errors, i, s)
  | [] =>
      if negb (canInitialize i) then (Abort 404, i, s)
      else match grant (cleaned es "setup_token" ?? "") s with
           | None => (Back [("setup_token", "The setup token is invalid.")], i, s)
           | Some s' => (Redirect (next_route i), i, s')
           end
  end.

(** [storeApplicationDatabase] *)
Definition storeApplicationDatabase (es : list (string * string)) i s : response * Instance * Session :=
  if negb (canInitialize i && isGranted s) then (Abort 403, i, s)
  else match validate V (database_rules es) es with
       | _ :: _ as errors => (Back errors, i, s)
       | [] =>
           match provision es i with
           | (Some e, i') => (Back [e], i', s)
           | (None, i') => (Redirect RRestart, i', s)
           end
       end.

(** The transaction of [store]: the first administrator. *)
Definition create_owner (d : Database) : Database := {|
  has_users_table := has_users_table d;
  users := users d ++ [{| user_id := create_id (users d); is_admin := true |}];
  setup_completed := true;
  connections := connections d |}.

(** [store] *)
Definition store (es : list (string * string)) i s : response * Instance * Session :=
  if negb (canInitialize i && isGranted s) then (Abort 403, i, s)
  else match validate V owner_rules es with
       | _ :: _ as errors => (Back errors, i, s)
       | [] =>
           let id := create_id (users (control i)) in
           (Redirect RConnection, on_control create_owner i,
            {| authorization := None; login := Some id; owner_id := Some id |})
       end.

Definition forget_owner s : Session := {|
  authorization := authorization s; login := login s; owner_id := None |}.

Definition add_connection (es : list (string * string)) (d : Database) : Database := {|
  has_users_table := has_users_table d; users := users d; setup_completed := setup_completed d;
  connections := connections d ++ [es] |}.

(** [storeConnection]; the request is authorized for the owner of the set-up only. *)
Definition storeConnection (es : list (string * string)) (u : User) i s : response * Instance * Session :=
  if negb (is_admin u && bool_decide (owner_id s = Some (user_id u))) then (Abort 403, i, s)
  else match connection_errors V es with
       | _ :: _ as errors => (Back errors, i, s)
       | [] => (Redirect RDashboard, on_control (add_connection es) i, forget_owner s)
       end.

(** [skipConnection] *)
Definition skipConnection (u : User) i s : response * Instance * Session :=
  match ensureInitialSetupOwner u s with
  | Some e => (e, i, s)
  | None => (Redirect RDashboard, i, forget_owner s)
  end.

(** A request: the middleware, then the controller. *)
Definition handle (req : request) i s : response * Instance * Session :=
  match middleware i s req with
  | Some r => (r, i, s)
  | None =>
      match req with
      | Get r => (get_page i s r, i, s)
      | Post FAccess es => authorizeAccess es i s
      | Post FDatabase es => storeApplicationDatabase es i s
      | Post FOwner es => store es i s
      | Post FConnection es =>
          match current_user i s with
          | Some u => storeConnection es u i s
          | None => (Redirect RLogin, i, s)
          end
      | Post FSkip _ =>
          match current_user i s with
          | Some u => skipConnection u i s
          | None => (Redirect RLogin, i, s)
          end
      end
  end.

(** The browser follows redirects; [None] when the bound is reached. *)
Fixpoint redirected (get : route -> response) (n : nat) (r : response) : option response :=
  match r, n with
  | Redirect route, S n => redirected get n (get route)
  | Redirect _, O => None
  | r, _ => Some r
  end.

Definition follow (n : nat) i s (r : response) : option response :=
  redirected (fun route => fst (fst (handle (Get route) i s))) n r.

Lemma redirected_ext get get' n r :
  (forall route, get route = get' route) -> redirected get n r = redirected get' n r.
Proof. intros H. revert r. induction n as [|n IH]; intros [route| | |]; simpl; try done. by rewrite H. Qed.

(** ** What an instance shows until it is initialised *)

(** The page of the step an instance waits for, whatever was asked for. *)
Definition setup_page i s : response :=
  if negb isConfigured then Abort 503
  else if negb (isGranted s) then Render PAccess
  else if requiresRestart i then Render PRestart
  else if requiresSelection i then Render PDatabase
  else Render POwner.

Lemma uninitialised_no_user i s :
  canInitialize i = true -> has_users_table (control i) = true -> current_user i s = None.
Proof.
  unfold canInitialize, current_user. intros [_ Hu]%andb_true_iff Ht. rewrite Ht in Hu. simpl in Hu.
  apply bool_decide_eq_true in Hu. rewrite Hu. by destruct (login s).
Qed.

Lemma isGranted_configured s : isGranted s = true -> isConfigured = true.
Proof. unfold isGranted. by intros [H _]%andb_true_iff. Qed.

Lemma requiresSelection_managed i : requiresSelection i = true -> managed i = true.
Proof. unfold requiresSelection. by intros [H _]%andb_true_iff. Qed.

(** What an uninitialised instance answers, from what its guards read. *)
Definition uninitialised_response (configured granted needs_restart selection is_managed : bool) (r : route)
    : response :=
  let next := if needs_restart then RRestart else if selection then RDatabase else RShow in
  match r with
  | RHealth => Render POther
  | RConnection | RDashboard | RMigrations | RAuth => Redirect RLogin
  | RAccess => if configured then Render PAccess else Abort 503
  | _ =>
      if negb granted then Redirect RAccess
      else if bool_decide (r = next) then
        Render match next with RRestart => PRestart | RDatabase => PDatabase | _ => POwner end
      else if needs_restart then Redirect RRestart
      else if selection then Redirect RDatabase
      else Redirect RShow
  end.

Lemma uninitialised_get i s r :
  canInitialize i = true -> has_users_table (control i) = true ->
  fst (fst (handle (Get r) i s)) =
  uninitialised_response isConfigured (isGranted s) (requiresRestart i) (requiresSelection i) (managed i) r.
Proof.
  intros Hc Ht. pose proof (uninitialised_no_user i s Hc Ht) as Hu.
  pose proof (requiresSelection_managed i) as Hm.
  unfold handle, middleware, redirect_to_setup, require_setup_access, uninitialised_response.
  rewrite Hu, Hc, Ht.
  destruct r; simpl; rewrite ?Hc; simpl; try done; destruct (isGranted s), (requiresRestart i) eqn:E1, (requiresSelection i) eqn:E2; simpl;
    unfold createAccess, show, createApplicationDatabase, restartApplicationDatabase, next_route; rewrite ?Hc, ?E1, ?E2; simpl; try done.
  all: try (by destruct isConfigured).
  all: by rewrite ?(Hm eq_refl); destruct (managed i).
Qed.

(** Until an instance is initialised, every address leads to the page of the step it waits for, in
    at most two redirects: nothing else can be opened, no two pages redirect to each other, and the
    later steps are only reached after the earlier ones.  The page for the token can always be
    opened. *)
Theorem setup_page_reached i s r :
  canInitialize i = true -> has_users_table (control i) = true -> r <> RHealth ->
  follow 3 i s (Redirect r) =
  Some (if bool_decide (r = RAccess) && isConfigured then Render PAccess else setup_page i s).
Proof.
  intros Hc Ht Hr. unfold setup_page, follow. pose proof (isGranted_configured s) as Hg.
  rewrite (redirected_ext _ _ _ _ (fun r => uninitialised_get i s r Hc Ht)).
  by destruct isConfigured, (isGranted s), (requiresRestart i), (requiresSelection i), (managed i), r;
    try done; specialize (Hg eq_refl).
Qed.

(** ** Going through the pages *)

(** What the administrator types and chooses. *)
Record Inputs := {
  access_typed : string -> option string;
  database_choice : DatabaseState;
  database_typed : string -> option string;
  owner_typed : string -> option string;
}.

Context (inputs : Inputs) (app_name passwordRules : string).

(** What the forms of the pages post. *)
Definition access_post : list (string * string) :=
  entries (access_typed inputs) None (SetupAccess false [] "" false).

Definition database_post : list (string * string) :=
  entries (database_typed inputs) None
    (applicationDatabaseForm false [] server_app_drivers "" "" (database_choice inputs)).

Definition owner_post : list (string * string) :=
  entries (owner_typed inputs) None
    (SetupOwner false [] "" app_name passwordRules
       {| password_shown := false; confirmation_shown := false |}).

(** The instance, the session of the browser and what it shows. *)
Record Browser := { instance : Instance; session : Session; screen : option response }.

Definition visit i s (r : response) : Browser := {|
  instance := i; session := s; screen := follow 3 i s r |}.

Definition request_visit (req : request) i s : Browser :=
  let '(r, i', s') := handle req i s in visit i' s' r.

(** What a page asks for: its form is sent; on the page for the restart the processes are
    restarted and its link is followed; the first connection is skipped. *)
Definition act (b : Browser) : Browser :=
  let i := instance b in
  let s := session b in
  match screen b with
  | Some (Render PAccess) => request_visit (Post FAccess access_post) i s
  | Some (Render PDatabase) => request_visit (Post FDatabase database_post) i s
  | Some (Render PRestart) => visit (restart i) s (Redirect RShow)
  | Some (Render POwner) => request_visit (Post FOwner owner_post) i s
  | Some (Render PConnection) => request_visit (Post FSkip []) i s
  | _ => b
  end.

Lemma visit_rendered i s r p : fst (fst (handle (Get r) i s)) = Render p ->
  visit i s (Redirect r) = {| instance := i; session := s; screen := Some (Render p) |}.
Proof. intros H. unfold visit, follow. cbn [redirected]. by rewrite H. Qed.

(** A database that waits for its first administrator. *)
Definition ready (d : Database) : Prop :=
  has_users_table d = true /\ users d = [] /\ setup_completed d = false.

(** An instance that waits for one: the processes run with the fallback connection or with what is
    configured, and the databases that can be used are ready. *)
Record waiting i : Prop := {
  waiting_running : running i = None \/ running i = configuration i;
  waiting_sqlite : ready (sqlite i);
  waiting_network : forall p, configuration i = Some p -> payload_network p = true -> ready (network i);
}.

Lemma waiting_control i : waiting i -> ready (control i).
Proof.
  intros [Hr Hs Hn]. unfold control, uses_network. destruct Hr as [->|Hr]; [done|].
  destruct (running i) as [p|]; [|done]. destruct (payload_network p) eqn:Hp; [|done].
  by apply (Hn p).
Qed.

Lemma waiting_canInitialize i : waiting i -> canInitialize i = true /\ has_users_table (control i) = true.
Proof. intros (Ht & Hu & Hc)%waiting_control. unfold canInitialize. by rewrite Ht, Hu, Hc. Qed.

Lemma waiting_restart i : waiting i -> waiting (restart i).
Proof.
  intros [Hr Hs Hn]. split; simpl; [|done..]. destruct (managed i); auto.
Qed.

Lemma restart_not_required i : requiresRestart (restart i) = false.
Proof.
  unfold requiresRestart. simpl. destruct (managed i); [|done]. simpl.
  destruct (configuration i) as [p|]; [|done]. by rewrite bool_decide_true.
Qed.

Lemma setup_page_visit i s r : waiting i -> r <> RHealth -> r <> RAccess ->
  visit i s (Redirect r) = {| instance := i; session := s; screen := Some (setup_page i s) |}.
Proof.
  intros [Hc Ht]%waiting_canInitialize Hh Ha. unfold visit. rewrite setup_page_reached by done.
  by rewrite bool_decide_false.
Qed.

Section completion.
(** The configured token: one that the form can carry, since the framework trims what is posted and a rule
    bounds it; and it is the one that is entered. *)
Hypothesis token_configured : isConfigured = true.
Hypothesis token_short : (String.length token <= 4096)%nat.
Hypothesis token_trimmed : trim token = token.
Hypothesis token_entered : access_typed inputs "setup_token" = Some token.
(** What is entered for the database satisfies the validator, and a database on the network that is chosen
    can be reached, is empty and takes the migration. *)
Hypothesis choice_accepted : validate V (database_rules database_post) database_post = [].
Hypothesis choice_usable :
  payload_network (payload database_post) = true ->
  connects (payload database_post) = true /\ tables (payload database_post) = [] /\
  migrates (payload database_post) = true.
(** So does what is entered for the administrator. *)
Hypothesis owner_accepted : validate V owner_rules owner_post = [].

Lemma choice_prepared :
  payload_network (payload database_post) = true -> prepareNetworkDatabase (payload database_post) = None.
Proof.
  intros (Hc & Ht & Hm)%choice_usable. unfold prepareNetworkDatabase. rewrite Hc, Hm. cbn [negb].
  by rewrite bool_decide_true.
Qed.

Definition authorized s : Session := {|
  authorization := Some mark; login := login s; owner_id := owner_id s |}.

Lemma authorized_granted s : isGranted (authorized s) = true.
Proof. unfold isGranted. rewrite token_configured. by apply bool_decide_eq_true. Qed.

Lemma access_accepted :
  validate V access_rules access_post = [] /\ cleaned access_post "setup_token" = Some token.
Proof.
  unfold access_post. rewrite SetupAccess_entries. unfold held. rewrite token_entered.
  assert (Hc : cleaned [("setup_token", token)] "setup_token" = Some token)
    by (change (Some (trim token) = Some token); by rewrite token_trimmed).
  cbn [default id]. split; [|done]. apply validate_nil. intros f ->%list_elem_of_singleton. cbn [fst snd].
  unfold broken. rewrite Hc. unfold filled. rewrite token_trimmed.
  destruct (str_eq token "") eqn:E; cbn.
  - apply str_eq_true in E. unfold isConfigured in token_configured. by rewrite E in token_configured.
  - apply Nat.leb_le in token_short. by rewrite token_short.
Qed.

Lemma act_access i s : waiting i ->
  act {| instance := i; session := s; screen := Some (Render PAccess) |} =
  {| instance := i; session := authorized s; screen := Some (setup_page i (authorized s)) |}.
Proof.
  intros Hw. pose proof (waiting_canInitialize i Hw) as [Hc Ht]. unfold act, request_visit. cbn [screen instance session].
  unfold handle, middleware, redirect_to_setup. rewrite Hc, uninitialised_no_user by done. cbn -[authorizeAccess access_post].
  unfold authorizeAccess. destruct access_accepted as [-> ->]. rewrite Hc. cbn -[grant visit access_post].
  unfold grant. rewrite token_configured, str_eq_refl. cbn -[visit].
  apply setup_page_visit; [done|..]; unfold next_route; by destruct (requiresRestart i), (requiresSelection i).
Qed.

Lemma act_restart i s : waiting i -> isGranted s = true -> requiresRestart i = true ->
  act {| instance := i; session := s; screen := Some (Render PRestart) |} =
  {| instance := restart i; session := s; screen := Some (Render POwner) |}.
Proof.
  intros Hw Hg Hr. unfold act. cbn [screen instance session].
  rewrite setup_page_visit by (done || by apply waiting_restart). unfold setup_page.
  rewrite token_configured, Hg, restart_not_required. replace (requiresSelection (restart i)) with false; [done|].
  unfold requiresRestart in Hr. unfold requiresSelection, hasManagedConfiguration. simpl.
  destruct (managed i); [|done]. by destruct (configuration i).
Qed.

Lemma selection_without_configuration i : requiresSelection i = true ->
  managed i = true /\ configuration i = None.
Proof.
  unfold requiresSelection, hasManagedConfiguration. destruct (managed i); [|done].
  by destruct (configuration i).
Qed.

Lemma act_database i s : waiting i -> isGranted s = true ->
  requiresRestart i = false -> requiresSelection i = true ->
  exists i', waiting i' /\ requiresRestart i' = true /\
    act {| instance := i; session := s; screen := Some (Render PDatabase) |} =
    {| instance := i'; session := s; screen := Some (Render PRestart) |}.
Proof.
  intros Hw Hg Hr Hs. pose proof (waiting_canInitialize i Hw) as [Hc Ht].
  pose proof (selection_without_configuration i Hs) as [Hm Hconf].
  exists (write_configuration (payload database_post) i).
  assert (Hw' : waiting (write_configuration (payload database_post) i)).
  { destruct Hw as [Hrun Hsq Hn]. split; cbn -[payload database_post].
    - left. rewrite Hconf in Hrun. by destruct Hrun.
    - done.
    - intros p [= <-] Hp. by rewrite Hp. }
  assert (Hr' : requiresRestart (write_configuration (payload database_post) i) = true).
  { unfold requiresRestart. simpl. rewrite Hm. simpl. destruct Hw as [Hrun _ _]. rewrite Hconf in Hrun.
    by replace (running i) with (@None Payload) by (by destruct Hrun). }
  split; [done|]. split; [done|]. unfold act, request_visit. cbn [screen instance session].
  unfold handle, middleware, redirect_to_setup, require_setup_access.
  rewrite Hc, Hg, Hr, Hs, uninitialised_no_user by done. cbn -[storeApplicationDatabase database_post visit].
  unfold storeApplicationDatabase. rewrite Hc, Hg, choice_accepted. cbn -[provision database_post visit].
  unfold provision, hasManagedConfiguration. rewrite Hm, Hconf. cbn -[payload database_post visit payload_network prepareNetworkDatabase].
  replace (if payload_network (payload database_post) then prepareNetworkDatabase (payload database_post) else None)
    with (@None (string * string)).
  2: { pose proof choice_prepared as Hcp. clear -Hcp. by destruct (payload_network _); [rewrite Hcp|]. }
  rewrite setup_page_visit by done. unfold setup_page. by rewrite token_configured, Hg, Hr'.
Qed.
Lemma on_control_control f i : control (on_control f i) = f (control i).
Proof.
  unfold on_control, control. destruct (uses_network i) eqn:E; unfold uses_network in *; simpl; by rewrite E.
Qed.

Lemma on_control_requiresRestart f i : requiresRestart (on_control f i) = requiresRestart i.
Proof. unfold on_control. by destruct (uses_network i). Qed.

(** The administrator of the set-up, signed in. *)
Definition first_administrator : User := {| user_id := create_id []; is_admin := true |}.

Definition initialised i s : Prop :=
  users (control i) = [first_administrator] /\ setup_completed (control i) = true /\
  login s = Some (create_id []) /\ requiresRestart i = false.

Lemma initialised_user i s : initialised i s ->
  current_user i s = Some first_administrator /\ canInitialize i = false.
Proof.
  intros (Hu & Hc & Hl & _). unfold current_user, canInitialize. rewrite Hl, Hu, Hc. simpl.
  by rewrite Z.eqb_refl.
Qed.

(** An initialised instance lets its requests pass. *)
Lemma initialised_passes i s req : initialised i s -> behind_auth req = true ->
  middleware i s req = None.
Proof.
  intros Hi Ha. pose proof (initialised_user i s Hi) as [Hu Hc]. destruct Hi as (_ & _ & _ & Hr).
  unfold middleware, redirect_to_setup. rewrite Ha, Hu, Hc, Hr, orb_true_r.
  by destruct req as [[]|[] es], (requiresSelection i).
Qed.

Lemma act_owner i s : waiting i -> isGranted s = true ->
  requiresRestart i = false -> requiresSelection i = false ->
  exists i' s', initialised i' s' /\ owner_id s' = Some (create_id []) /\
    act {| instance := i; session := s; screen := Some (Render POwner) |} =
    {| instance := i'; session := s'; screen := Some (Render PConnection) |}.
Proof.
  intros Hw Hg Hr Hs. pose proof (waiting_canInitialize i Hw) as [Hc Ht].
  pose proof (waiting_control i Hw) as (_ & Hu & _).
  set (s' := {| authorization := None; login := Some (create_id []); owner_id := Some (create_id []) |}).
  exists (on_control create_owner i), s'.
  assert (Hi : initialised (on_control create_owner i) s').
  { unfold initialised. rewrite on_control_control, on_control_requiresRestart. simpl. by rewrite Hu, Hr. }
  split; [done|]. split; [done|]. unfold act, request_visit. cbn [screen instance session].
  unfold handle, middleware, redirect_to_setup, require_setup_access.
  rewrite Hc, Hg, Hr, Hs, uninitialised_no_user by done. cbn -[store owner_post visit].
  unfold store. rewrite Hc, Hg, owner_accepted. cbn -[visit on_control create_owner]. rewrite Hu. fold s'.
  apply visit_rendered. unfold handle. rewrite initialised_passes by done.
  cbn [get_page fst]. destruct (initialised_user _ _ Hi) as [-> _].
  unfold createConnection, ensureInitialSetupOwner. simpl. by rewrite bool_decide_true.
Qed.

Lemma act_skip i s : initialised i s -> owner_id s = Some (create_id []) ->
  exists s', initialised i s' /\
    act {| instance := i; session := s; screen := Some (Render PConnection) |} =
    {| instance := i; session := s'; screen := Some (Render PDashboard) |}.
Proof.
  intros Hi Ho. exists (forget_owner s). assert (Hi' : initialised i (forget_owner s)) by done.
  split; [done|]. unfold act, request_visit. cbn [screen instance session].
  unfold handle. rewrite initialised_passes by done. destruct (initialised_user _ _ Hi) as [-> _].
  unfold skipConnection, ensureInitialSetupOwner. rewrite Ho. simpl.
  rewrite bool_decide_true by done. apply visit_rendered. unfold handle.
  by rewrite initialised_passes.
Qed.

(** *** From each page to the end *)

Definition finished (b : Browser) : Prop :=
  screen b = Some (Render PDashboard) /\ initialised (instance b) (session b).

(** At most [n] steps to the end. *)
Definition finishes (n : nat) (b : Browser) : Prop := exists k, (k <= n)%nat /\ finished (Nat.iter k act b).

Lemma finishes_step n b : finishes n (act b) -> finishes (S n) b.
Proof.
  intros (k & Hk & Hf). exists (S k). split; [lia|]. by rewrite Nat.iter_succ_r.
Qed.

Lemma finishes_le n m b : (n <= m)%nat -> finishes n b -> finishes m b.
Proof. intros Hn (k & Hk & Hf). exists k. split; [lia|done]. Qed.

Definition at_page i s : Browser := {| instance := i; session := s; screen := Some (setup_page i s) |}.

Lemma finishes_owner i s : waiting i -> isGranted s = true ->
  requiresRestart i = false -> requiresSelection i = false ->
  finishes 2 {| instance := i; session := s; screen := Some (Render POwner) |}.
Proof.
  intros Hw Hg Hr Hs. apply finishes_step. destruct (act_owner i s) as (i' & s' & Hi & Ho & ->); try done.
  apply finishes_step. destruct (act_skip i' s') as (s'' & Hi' & ->); try done. by exists 0%nat.
Qed.

Lemma finishes_restart i s : waiting i -> isGranted s = true -> requiresRestart i = true ->
  finishes 3 {| instance := i; session := s; screen := Some (Render PRestart) |}.
Proof.
  intros Hw Hg Hr. apply finishes_step. rewrite act_restart by done.
  apply finishes_owner; [by apply waiting_restart|done|apply restart_not_required|].
  unfold requiresRestart in Hr. unfold requiresSelection, hasManagedConfiguration. simpl.
  destruct (managed i); [|done]. by destruct (configuration i).
Qed.

Lemma finishes_granted i s : waiting i -> isGranted s = true -> finishes 4 (at_page i s).
Proof.
  intros Hw Hg. unfold at_page, setup_page. rewrite token_configured, Hg. simpl.
  destruct (requiresRestart i) eqn:Hr.
  - apply (finishes_le 3); [lia|]. by apply finishes_restart.
  - destruct (requiresSelection i) eqn:Hs.
    + apply finishes_step. destruct (act_database i s) as (i' & Hw' & Hr' & ->); try done.
      by apply finishes_restart.
    + apply (finishes_le 2); [lia|]. by apply finishes_owner.
Qed.

(** C20.  The set-up can be finished by following its pages: from the start page of an instance that waits
    for its first administrator -- whether its database is still to be chosen, is chosen but not active, is
    active, or is managed by the environment, and whether or not the browser is authorized yet -- at most
    five steps (sending the form that is shown, or restarting the processes where the page asks for it) lead
    to the dashboard, with one administrator, the one who is signed in.

    This needs: that a token is configured, without space around it and of at most 4096 characters, and is the
    one that is entered; that what is entered for the database satisfies the validator, and that a database on
    the network that it names can be reached, has no tables and takes the migration; and that what is entered
    for the administrator satisfies the validator.  An instance waits when its processes run with the
    fallback connection or with what is configured, and the databases it has, SQLite's and a configured one
    on the network, have a table of users, no user and no completed set-up. *)
Theorem setup_completes i s : waiting i ->
  exists n, (n <= 5)%nat /\ finished (Nat.iter n act (visit i s (Redirect RHome))).
Proof.
  intros Hw. change (finishes 5 (visit i s (Redirect RHome))). rewrite setup_page_visit by done.
  destruct (isGranted s) eqn:Hg.
  - apply (finishes_le 4); [lia|]. by apply finishes_granted.
  - unfold setup_page. rewrite token_configured, Hg. simpl. apply finishes_step.
    rewrite act_access by done. apply finishes_granted; [done|]. apply authorized_granted.
Qed.
End completion.

(** ** Requests of many sessions, in any order *)

Inductive happening := Request (k : nat) (req : request) | Restarted.

Record World := { the_instance : Instance; sessions : nat -> Session }.

Definition happen (e : happening) (w : World) : World :=
  match e with
  | Request k req =>
      let '(_, i, s) := handle req (the_instance w) (sessions w k) in
      {| the_instance := i; sessions := fun k' => if (k' =? k)%nat then s else sessions w k' |}
  | Restarted => {| the_instance := restart (the_instance w); sessions := sessions w |}
  end.

Definition history (es : list happening) (w : World) : World := fold_left (fun w e => happen e w) es w.

Lemma history_invariant (P : World -> Prop) es w :
  (forall e w, e ∈ es -> P w -> P (happen e w)) -> P w -> P (history es w).
Proof.
  revert w. induction es as [|e es IH]; intros w H Hw; [done|]. simpl. apply IH.
  - intros e' w' He'. apply H. by right.
  - apply H; [by left|done].
Qed.

(** The accounts and the configuration. *)
Definition accounts i : list User * list User * option Payload :=
  (users (sqlite i), users (network i), configuration i).

Lemma accounts_add_connection es i : accounts (on_control (add_connection es) i) = accounts i.
Proof. unfold on_control. by destruct (uses_network i). Qed.

(** A request carries the token. *)
Definition carries_token (req : request) : bool :=
  match req with
  | Post FAccess es => bool_decide (cleaned es "setup_token" = Some token)
  | _ => false
  end.

Lemma handle_not_granted req i s : isGranted s = false -> carries_token req = false ->
  let '(_, i', s') := handle req i s in accounts i' = accounts i /\ isGranted s' = false.
Proof.
  intros Hg Hc. unfold handle. destruct (middleware i s req); [done|].
  destruct req as [r|[] es]; [done|..].
  - unfold authorizeAccess. destruct (validate _ _ _); [|done]. destruct (negb (canInitialize i)); [done|].
    unfold grant. destruct isConfigured eqn:Hconf; [|done]. destruct (str_eq token _) eqn:E; [|done].
    apply str_eq_true in E. simpl in Hc. apply bool_decide_eq_false in Hc. exfalso.
    destruct (cleaned es "setup_token") as [v|]; [by apply Hc; f_equal|].
    unfold isConfigured in Hconf. by rewrite E in Hconf.
  - unfold storeApplicationDatabase. by rewrite Hg, andb_false_r.
  - unfold store. by rewrite Hg, andb_false_r.
  - destruct (current_user i s) as [u|]; [|done]. unfold storeConnection.
    destruct (negb _); [done|]. destruct (connection_errors V es); [|done].
    by rewrite accounts_add_connection.
  - destruct (current_user i s) as [u|]; [|done]. unfold skipConnection. by destruct (ensureInitialSetupOwner u s).
Qed.

(** C19.  Nobody gets hold of an instance without the deployment token: as long as no request carries
    it, no sequence of requests of any number of sessions (whatever they post, in whatever order,
    with restarts in between) creates an administrator or chooses the database. *)
Theorem nothing_without_token es w :
  (forall k, isGranted (sessions w k) = false) ->
  (forall k req, Request k req ∈ es -> carries_token req = false) ->
  accounts (the_instance (history es w)) = accounts (the_instance w).
Proof.
  intros Hg Ht.
  refine (proj1 (history_invariant (fun w' => accounts (the_instance w') = accounts (the_instance w) /\
    forall k, isGranted (sessions w' k) = false) es w _ (conj eq_refl Hg))).
  intros [k req|] w' He [Ha Hg']; [|done]. simpl.
  pose proof (handle_not_granted req (the_instance w') (sessions w' k) (Hg' k) (Ht k req He)) as H.
  destruct (handle req _ _) as [[r i'] s']. destruct H as [Hi Hs]. simpl. split; [by rewrite Hi|].
  intros k'. by destruct (k' =? k)%nat.
Qed.

(** *** One administrator *)

Definition administrators i : nat := (length (users (sqlite i)) + length (users (network i)))%nat.

(** An instance nobody has initialised. *)
Definition untouched i : Prop := waiting i /\ users (network i) = [].

(** An instance that is initialised and runs with its configuration. *)
Record settled i : Prop := {
  settled_completed : setup_completed (control i) = true;
  settled_running : managed i = true -> running i = configuration i;
  settled_administrators : administrators i = 1%nat;
}.

Lemma settled_cannot_initialize i : settled i -> canInitialize i = false.
Proof. intros [Hc _ _]. unfold canInitialize. by rewrite Hc. Qed.

Lemma settled_restart i : settled i -> settled (restart i).
Proof.
  intros [Hc Hr Ha]. assert (Hrun : running (restart i) = running i)
    by (simpl; destruct (managed i); [symmetry; by apply Hr|done]).
  split; [|by simpl; intros ->|done]. unfold control, uses_network. rewrite Hrun. done.
Qed.

Lemma settled_add_connection es i : settled i -> settled (on_control (add_connection es) i).
Proof.
  intros [Hc Hr Ha]. split; [by rewrite on_control_control| |];
    unfold administrators, on_control in *; by destruct (uses_network i).
Qed.

Lemma handle_settled req i s : settled i -> settled (snd (fst (handle req i s))).
Proof.
  intros Hi. pose proof (settled_cannot_initialize i Hi) as Hc. unfold handle.
  destruct (middleware i s req); [done|]. destruct req as [r|[] es]; [done|..].
  - unfold authorizeAccess. rewrite Hc. by destruct (validate _ _ _).
  - unfold storeApplicationDatabase. by rewrite Hc.
  - unfold store. by rewrite Hc.
  - destruct (current_user i s) as [u|]; [|done]. unfold storeConnection.
    destruct (negb _); [done|]. destruct (connection_errors V es); [|done]. by apply settled_add_connection.
  - destruct (current_user i s) as [u|]; [|done]. unfold skipConnection. by destruct (ensureInitialSetupOwner u s).
Qed.

Lemma provision_untouched es i : untouched i -> untouched (snd (provision es i)).
Proof.
  intros [Hw Hn]. unfold provision. destruct (managed i) eqn:Hm; [|done]. simpl.
  destruct (hasManagedConfiguration i) eqn:Hh; [done|].
  destruct (if payload_network _ then _ else _); [done|].
  unfold hasManagedConfiguration in Hh. rewrite Hm in Hh. simpl in Hh. apply is_some_false in Hh.
  destruct Hw as [Hrun Hsq _]. rewrite Hh in Hrun. split; [|cbn [network write_configuration snd]; by destruct (payload_network _)].
  split; cbn [snd write_configuration running configuration sqlite network].
  - left. by destruct Hrun.
  - done.
  - intros p [= <-] Hp. by rewrite Hp.
Qed.

(** The only way to the form for the administrator is through the active database. *)
Lemma create_owner_settled i : untouched i -> requiresRestart i = false -> requiresSelection i = false ->
  settled (on_control create_owner i).
Proof.
  intros [Hw Hn] Hr Hs. split.
  - by rewrite on_control_control.
  - intros Hm. assert (Hrun : running i = configuration i).
    { unfold on_control in Hm. assert (Hm' : managed i = true) by (by destruct (uses_network i)).
      unfold requiresRestart in Hr. unfold requiresSelection, hasManagedConfiguration in Hs.
      rewrite Hm' in Hr, Hs. destruct (waiting_running i Hw) as [Hnone|]; [|done].
      rewrite Hnone in Hr. by destruct (configuration i). }
    unfold on_control. by destruct (uses_network i).
  - destruct (waiting_control i Hw) as (_ & Hu & _). destruct (waiting_sqlite i Hw) as (_ & Hsq & _).
    unfold administrators, on_control, control in *. destruct (uses_network i); simpl;
      rewrite ?Hn, ?Hsq; simpl; lia.
Qed.

Lemma handle_untouched req i s : untouched i ->
  untouched (snd (fst (handle req i s))) \/ settled (snd (fst (handle req i s))).
Proof.
  intros Hi. pose proof (waiting_canInitialize i (proj1 Hi)) as [Hc Ht].
  pose proof (uninitialised_no_user i s Hc Ht) as Hu. unfold handle.
  destruct (middleware i s req) eqn:Hm; [by left|]. destruct req as [r|[] es]; [by left|..].
  - left. unfold authorizeAccess. destruct (validate _ _ _); [|done]. rewrite Hc. simpl. by destruct (grant _ _).
  - left. unfold storeApplicationDatabase. destruct (negb _); [done|]. destruct (validate _ _ _); [|done].
    pose proof (provision_untouched es i Hi). by destruct (provision es i) as [[e|] i'].
  - unfold middleware, redirect_to_setup in Hm. rewrite Hu, Hc in Hm. simpl in Hm.
    unfold store. rewrite Hc. destruct (isGranted s); [|by left]. simpl in Hm. cbn [andb negb].
    destruct (validate _ _ _); [|by left].
    destruct (requiresRestart i) eqn:Hr; [done|].
    destruct (requiresSelection i) eqn:Hs; [done|]. right. by apply create_owner_settled.
  - left. by rewrite Hu.
  - left. by rewrite Hu.
Qed.

(** There is never a second administrator from the set-up: of any number of sessions that go through
    it at once, in any order and with restarts in between, at most one creates its account, and the
    account is in the database the instance keeps using. *)
Theorem one_administrator es w : untouched (the_instance w) ->
  let i := the_instance (history es w) in
  administrators i = 0%nat \/ administrators i = 1%nat /\ setup_completed (control i) = true.
Proof.
  intros Hw i.
  assert (H : untouched i \/ settled i).
  { apply (history_invariant (fun w => untouched (the_instance w) \/ settled (the_instance w))); [|by left].
    intros [k req|] w' _ [Hu|Hs]; simpl.
    - pose proof (handle_untouched req _ (sessions w' k) Hu). by destruct (handle req _ _) as [[r i'] s'].
    - pose proof (handle_settled req _ (sessions w' k) Hs). right. by destruct (handle req _ _) as [[r i'] s'].
    - left. destruct Hu as [Hu Hn]. split; [by apply waiting_restart|done].
    - right. by apply settled_restart. }
  destruct H as [[Hu Hn]|Hs].
  - left. destruct (waiting_sqlite i Hu) as (_ & Hsq & _). unfold administrators. by rewrite Hn, Hsq.
  - right. split; [apply Hs|apply (settled_completed i Hs)].
Qed.
End server.

(** ** Examples *)

Definition example_token : string := "0123456789abcdef0123456789abcdef".

Definition example_fingerprint (p : Payload) : string :=
  fold_right (fun f acc => (fst f ++ "=" ++ snd f ++ ";" ++ acc)%string) "" p.

(** A validator that knows one port and one address, and finds no value taken. *)
Definition example_validator : Validator := {|
  filter_int := fun v => if str_eq v "5432" then Some 5432 else None;
  is_email := str_eq "ada@example.com";
  taken := fun _ _ => false;
  strong := fun v => (8 <=? String.length v)%nat;
  message := fun field _ => ("The " ++ field ++ " field is invalid.")%string |}.

Definition example_inputs : Inputs := {|
  access_typed := fun _ => Some example_token;
  database_choice := {|
    app_driver := {| app_driver_value := "pgsql"; app_driver_label := "PostgreSQL"; app_default_port := Some 5432 |};
    app_password_shown := false |};
  database_typed := fun name =>
    if existsb (str_eq name) ["host"; "database"; "username"; "password"] then Some "crucible" else None;
  owner_typed := fun name =>
    if str_eq name "email" then Some "ada@example.com"
    else if str_eq name "app_name" then None else Some "Ada Lovelace" |}.

(** A new installation: the database is still to be chosen. *)
Definition example_instance : Instance := {|
  managed := true; configuration := None; running := None; sqlite := migrated; network := migrated |}.

Definition example_server_id (us : list User) : Z := Z.of_nat (length us) + 1.

(** Token, database, restart, administrator, and the first connection skipped. *)
Example five_steps :
  screen (Nat.iter 5
    (act example_token "granted" example_fingerprint example_validator example_server_id [] (fun _ => true)
       (fun _ => []) (fun _ => true) example_inputs "Crucible DB" "")
    (visit example_token "granted" example_fingerprint example_validator example_server_id [] (fun _ => true)
       (fun _ => []) (fun _ => true) example_instance guest_session (Redirect RHome))) =
  Some (Render PDashboard).
Proof. vm_compute. reflexivity. Qed.

Lemma setup_completes_witness : exists n, (n <= 5)%nat /\
  finished example_fingerprint example_server_id (Nat.iter n
    (act example_token "granted" example_fingerprint example_validator example_server_id [] (fun _ => true)
       (fun _ => []) (fun _ => true) example_inputs "Crucible DB" "")
    (visit example_token "granted" example_fingerprint example_validator example_server_id [] (fun _ => true)
       (fun _ => []) (fun _ => true) example_instance guest_session (Redirect RHome))).
Proof.
  apply setup_completes; try (vm_compute; reflexivity).
  - apply Nat.leb_le. vm_compute. reflexivity.
  - intros _. split_and!; reflexivity.
  - split; [by left|done|]. intros p [=].
Defined.

(** Two sessions that guess the token, post the other forms and restart the processes. *)
Definition example_events : list happening :=
  [Request 0 (Get RHome); Request 0 (Post FAccess [("setup_token", "guess")]);
   Request 1 (Post FOwner [("email", "eve@example.com")]); Restarted;
   Request 1 (Post FDatabase [("driver", "sqlite")])].

Lemma nothing_without_token_witness :
  accounts (the_instance (history example_token "granted" example_fingerprint example_validator
    example_server_id [] (fun _ => true) (fun _ => []) (fun _ => true) example_events
    {| the_instance := example_instance; sessions := fun _ => guest_session |})) = ([], [], None).
Proof.
  apply (nothing_without_token example_token "granted" example_fingerprint example_validator
    example_server_id [] (fun _ => true) (fun _ => []) (fun _ => true) example_events
    {| the_instance := example_instance; sessions := fun _ => guest_session |}).
  - intros k. vm_compute. reflexivity.
  - intros k req H. unfold example_events in H. elem_cases H; try discriminate H; injection H as -> ->; reflexivity.
Defined.
