(* ===== verification/GroupForm.v ===== *)
(** * The form of a connection group

    [resources/js/pages/connection-groups/form.tsx]: the name of the group, its description and its
    member connections.  The text fields are uncontrolled; the routes are generated code. *)

From Stdlib Require Import String.
From S2P Require Import Prelude JsString View ConnectionCombobox.

Open Scope string_scope.
Open Scope Z_scope.
Open Scope list_scope.

Record ConnectionGroup := {
  group_id : Z;
  group_name : string;
  group_description : option string;
  database_connection_ids : list Z;
  role_policies_count : Z;
}.

Record Props := {
  connection_group : option ConnectionGroup;
  connections : list ConnectionOption;
}.

(** The ids of the members, as text. *)
Definition State : Type := list string.

Definition initialState (props : Props) : State :=
  match connection_group props with
  | Some connectionGroup => map str_of_Z (database_connection_ids connectionGroup)
  | None => []
  end.

Definition setConnectionIds (values : list string) (s : State) : State := values.

Record Routes := {
  update_form : Z -> string;
  store_form : string;
  index : string;
}.

Section page.
Context (routes : Routes) (props : Props).
Context (processing : bool) (errors : list (string * string)).

Definition isEditing : bool := is_some (connection_group props).

(** Lines 87-127 *)
Definition groupDetails : node State :=
  elem "Card"
    [elem "CardHeader"
       [elem "CardTitle" [Txt "Group details"];
        elem "CardDescription" [Txt "Give this access scope a meaningful, recognizable name."]];
     elem "CardContent"
       [elem "div"
          ([El (Tag "Label") [Attr "for" "name"] [Txt "Group name"];
            El TInput [Attr "id" "name"; Attr "name" "name";
                       Attr "defaultValue" ((group_name <$> connection_group props) ?? "");
                       Attr "placeholder" "Staging databases"; Flag "required" true] []] ++
           InputError (error_of errors "name"));
        elem "div"
          ([El (Tag "Label") [Attr "for" "description"] [Txt "Description"];
            El TInput [Attr "id" "description"; Attr "name" "description";
                       Attr "defaultValue" ((connection_group props ≫= group_description) ?? "");
                       Attr "placeholder" "Shared staging targets"] []] ++
           InputError (error_of errors "description"))]].

(** Lines 139-166 *)
Definition policyWarning : list (node State) :=
  match connection_group props with
  | Some connectionGroup =>
      when (0 <? role_policies_count connectionGroup)
        [elem "div"
           [elem "div"
              [elem "p" [Txt "Membership affects existing role policies"];
               elem "p"
                 [Txt (str_of_Z (role_policies_count connectionGroup) ++ " role " ++
                       (if (role_policies_count connectionGroup =? 1)%Z then "policy uses" else "policies use") ++
                       " this group. Saving a membership change immediately changes their effective access.")%string]]]]
  | None => []
  end.

(** Lines 129-187 *)
Definition memberConnections (s : State) : node State :=
  elem "Card"
    [elem "CardHeader"
       [elem "CardTitle" [Txt "Member connections"];
        elem "CardDescription"
          [Txt "Add explicit targets to this group. A group never includes connections by name, pattern, or tag."]];
     elem "CardContent"
       (policyWarning ++
        if (length (connections props) =? 0)%nat
        then [elem "div" [Txt "No database connections are available yet."]]
        else ConnectionMultiCombobox (connections props)
               (Some "Search and select every connection that belongs to this group.")
               (error_of errors "database_connection_ids") (Some "Connections")
               (Some "database_connection_ids[]") setConnectionIds s)].

(** Lines 189-211 *)
Definition formActions : node State :=
  elem "div"
    [elem "p" [Txt "Access controls are configured on each role. This group only defines the connections that policy applies to."];
     elem "div"
       [El (Tag "Link") [Attr "href" (index routes)] [Txt "Cancel"];
        El TButton [Flag "disabled" processing]
          [Txt (if processing then "Saving..." else if isEditing then "Save group" else "Create group")]]].

(** Lines 80-214 *)
Definition groupForm (s : State) : node State :=
  El (Tag "Form")
    [Attr "action" (match connection_group props with
                    | Some connectionGroup => update_form routes (group_id connectionGroup)
                    | None => store_form routes
                    end)]
    [groupDetails; memberConnections s; formActions].

(** Lines 57-218 *)
Definition ConnectionGroupForm (s : State) : node State :=
  elem "Fragment"
    [El (Tag "Head") [Attr "title" (if isEditing then "Edit connection group" else "New connection group")] [];
     elem "div"
       [PageHeader (if isEditing then "Edit Connection Group" else "New Connection Group")
          (Some (if isEditing then "Update the explicit targets covered by this group."
                 else "Create an explicit set of database targets for reusable role policies.")) [];
        groupForm s]].
End page.

(** ** What the form posts *)

Lemma ConnectionMultiCombobox_posts {S} typed sub cs d e l (f : list string -> S -> S) values :
  flat_map (entries typed sub)
    (ConnectionMultiCombobox cs d e l (Some "database_connection_ids[]") f values) =
  map (pair "database_connection_ids[]") values.
Proof. apply ConnectionMultiCombobox_entries. Qed.

Lemma group_form_entries routes props processing errors typed submitter s :
  entries typed submitter (groupForm routes props processing errors s) =
  [("name", typed "name" ?? ((group_name <$> connection_group props) ?? ""));
   ("description", typed "description" ?? ((connection_group props ≫= group_description) ?? ""))] ++
  when (negb (length (connections props) =? 0)%nat) (map (pair "database_connection_ids[]") s).
Proof.
  unfold groupForm. rewrite entries_Tag. cbn [flat_map].
  replace (entries typed submitter (groupDetails props errors)) with
    [("name", typed "name" ?? ((group_name <$> connection_group props) ?? ""));
     ("description", typed "description" ?? ((connection_group props ≫= group_description) ?? ""))].
  2: { unfold groupDetails. cbn -[InputError]. by rewrite !entries_InputError. }
  f_equal. replace (entries typed submitter (formActions routes props processing)) with (@nil (string * string))
    by (unfold formActions; cbn; by destruct processing).
  rewrite !app_nil_r. unfold memberConnections. rewrite entries_elem. cbn [flat_map].
  rewrite (entries_elem _ _ "CardContent"), flat_map_app, app_nil_r.
  replace (flat_map (entries typed submitter) (policyWarning props)) with (@nil (string * string))
    by (unfold policyWarning; destruct (connection_group props) as [g|]; [by destruct (_ <? _)|done]).
  change (entries typed submitter (elem "CardHeader" _)) with (@nil (string * string)).
  destruct (_ =? 0)%nat; [done|]. apply ConnectionMultiCombobox_posts.
Qed.

(** ** Reachable states *)

Inductive page_step (routes : Routes) (props : Props) : State -> State -> Prop :=
  | step_action s processing errors h now ev :
      h ∈ actions (ConnectionGroupForm routes props processing errors s) ->
      page_step routes props s (h now ev s).

(** The members are connections of the page. *)
Definition members_known (props : Props) (s : State) : Prop :=
  Forall (fun v => v ∈ map (fun c => str_of_Z (option_id c)) (connections props)) s.

Lemma group_form_safe routes props processing errors s :
  all_actions (fun h => forall now ev, members_known props s -> members_known props (h now ev s))
    (ConnectionGroupForm routes props processing errors s).
Proof.
  unfold ConnectionGroupForm, PageHeader, groupForm, groupDetails, memberConnections, formActions. walk.
  - unfold policyWarning. destruct (connection_group props); walk.
  - destruct (_ =? 0)%nat; [by walk|]. apply Forall_forall. intros h Hh now ev Hs.
    destruct (ConnectionMultiCombobox_actions _ _ _ _ _ _ _ _ Hh now ev s) as [->|(chosen & Hc & ->)]; [done|].
    apply Forall_forall. intros v (c & -> & Hin)%list_elem_of_fmap. apply list_elem_of_fmap. eauto.
Qed.

(** The members a form posts are connections of the page, when those that are stored are; a form
    that was not changed posts the stored members in their order. *)
Theorem group_members_posted routes props s processing errors typed submitter :
  members_known props (initialState props) -> rtc (page_step routes props) (initialState props) s ->
  connections props <> [] ->
  let posts s := posted (entries typed submitter (groupForm routes props processing errors s))
                   "database_connection_ids[]" in
  posts s = s /\ members_known props (posts s) /\
  (forall g, connection_group props = Some g ->
     posts (initialState props) = map str_of_Z (database_connection_ids g)).
Proof.
  intros H0 Hr Hne posts. assert (Hp : forall s, posts s = s).
  { intros s'. unfold posts. rewrite group_form_entries, posted_app, posted_when, posted_pairs.
    by destruct (connections props). }
  rewrite !Hp. split_and!; [done| |].
  - clear posts Hp. induction Hr as [|s1 s2 s3 Hs _ IH]; [done|]. apply IH.
    destruct Hs as [s p e h now ev Hh].
    pose proof (group_form_safe routes props p e s) as H. unfold all_actions in H.
    rewrite Forall_forall in H. by apply H.
  - intros g Hg. unfold initialState. by rewrite Hg.
Qed.
