(* ===== verification/ConnectionList.v ===== *)
(** * The list of connections

    [resources/js/pages/connections/index.tsx], whose filters are sent 300 ms after the last change;
    with [DatabaseConnectionController::filters], which reads them.

    A change of a filter is pending until the answer for it has arrived.  The effect of the page
    starts a timer for the pending filters and clears the one before; when it fires, the page is
    reloaded with them.  A reload cancels the one in flight (Inertia's visits are synchronous unless
    asked otherwise), so at most one is. *)

From Stdlib Require Import String.
From S2P Require Import Prelude Lists JsString CrucibleLib View Badges Results Pagination.

Open Scope string_scope.
Open Scope Z_scope.
Open Scope list_scope.

(** ** Data *)

Record DatabaseConnectionSummary := {
  summary_id : Z;
  summary_name : string;
  summary_driver : string;
  host : option string;
  port : option Z;
  database : option string;
  username : option string;
  is_active : bool;
  query_requests_count : option Z;
}.

Record ConnectionFilters := { search : string; driver : string; status : string }.

#[global] Instance ConnectionFilters_eq_dec : EqDecision ConnectionFilters.
Proof. solve_decision. Defined.

Record Props := {
  connections : Paginated DatabaseConnectionSummary;
  filters : ConnectionFilters;
  driver_options : list (string * string);  (** value and label *)
  connection_count : Z;
  can_create : bool;
}.

(** ** State, handlers and effect (lines 47-99) *)

Record State := { pendingFilters : option ConnectionFilters; isFiltering : bool }.

Definition initialState : State := {| pendingFilters := None; isFiltering := false |}.

Definition setPendingFilters (f : option ConnectionFilters -> option ConnectionFilters) (s : State)
    : State := {|
  pendingFilters := f (pendingFilters s); isFiltering := isFiltering s |}.

Definition setIsFiltering (b : bool) (s : State) : State := {|
  pendingFilters := pendingFilters s; isFiltering := b |}.

Definition filterValues (props : Props) (s : State) : ConnectionFilters :=
  pendingFilters s ?? filters props.

Definition hasActiveFilters (props : Props) (s : State) : bool :=
  let v := filterValues props s in truthy (search v) || truthy (driver v) || truthy (status v).

Inductive FilterKey := Search | Driver | Status.

(** [{ ...filters, [key]: value }] *)
Definition set_filter (key : FilterKey) (value : string) (f : ConnectionFilters)
    : ConnectionFilters := {|
  search := match key with Search => value | _ => search f end;
  driver := match key with Driver => value | _ => driver f end;
  status := match key with Status => value | _ => status f end |}.

Definition updateFilter (props : Props) (key : FilterKey) (value : string) : State -> State :=
  setPendingFilters (fun current => Some (set_filter key value (current ?? filters props))).

Definition noFilters : ConnectionFilters := {| search := ""; driver := ""; status := "" |}.

Definition resetFilters : State -> State := setPendingFilters (fun _ => Some noFilters).

(** The query of the reload: the filters that are set. *)
Definition query (f : ConnectionFilters) : list (string * string) :=
  List.filter (fun e => negb (str_eq (snd e) ""))
    [("search", search f); ("driver", driver f); ("status", status f)].

(** [onSuccess]: the filters stay pending when they changed since the request. *)
Definition requestSucceeded (requestedFilters : ConnectionFilters) : State -> State :=
  setPendingFilters (fun current =>
    let requestIsStillCurrent :=
      match current with
      | Some c =>
          str_eq (search c) (search requestedFilters) &&
          str_eq (driver c) (driver requestedFilters) &&
          str_eq (status c) (status requestedFilters)
      | None => false
      end in
    if requestIsStillCurrent then None else current).

(** ** The page (lines 101-371) *)

Record Routes := { create : string; show : Z -> string }.

Section page.
Context (routes : Routes) (props : Props).
Implicit Types (s : State).

Definition newConnection : node State :=
  El (Tag "Link") [Attr "href" (create routes)] [Txt "New connection"].

Definition filterBar s : node State :=
  El (Tag "div") [Attr "role" "search"; Attr "aria-label" "Filter database connections";
                  Flag "aria-busy" (isFiltering s)]
    [elem "div"
       [El TInput [Attr "value" (search (filterValues props s));
                   on_change (updateFilter props Search);
                   Attr "placeholder" "Search name, host, database, or user";
                   Attr "aria-label" "Search connections"] [];
        El TSelect [Attr "value" (driver (filterValues props s));
                    on_change (updateFilter props Driver);
                    Attr "aria-label" "Filter by driver"]
          (choice "" "All drivers"
           :: map (fun option => choice (fst option) (snd option)) (driver_options props));
        El TSelect [Attr "value" (status (filterValues props s));
                    on_change (updateFilter props Status);
                    Attr "aria-label" "Filter by status"]
          [choice "" "All statuses"; choice "active" "Active"; choice "disabled" "Disabled"];
        elem "div"
          (El (Tag "span") [Attr "aria-live" "polite"]
             [Txt (str_of_Z (page_from (connections props) ?? 0) ++ "–" ++
                   str_of_Z (page_to (connections props) ?? 0) ++ " of " ++
                   str_of_Z (page_total (connections props)))%string]
           :: when (hasActiveFilters props s)
                [El TButton [Attr "type" "button"; on_click resetFilters] [Txt "Reset"]])]].

Definition summaryRow (connection : DatabaseConnectionSummary) : node State :=
  El (Tag "tr") [Attr "key" (str_of_Z (summary_id connection))]
    [elem "td"
       [El (Tag "Link") [Attr "href" (show routes (summary_id connection))]
          [Txt (summary_name connection)];
        elem "div" [Txt (username connection ?? "")]];
     elem "td" [Txt (database connection ?? "")];
     elem "td" [Txt (host connection ?? ""); Txt ":"; Txt ((str_of_Z <$> port connection) ?? "")];
     elem "td" [StatusBadge (summary_driver connection)
                  (Some (driverLabel (summary_driver connection)))];
     elem "td" [Txt ((str_of_Z <$> query_requests_count connection) ?? "")];
     elem "td" [StatusBadge (if is_active connection then "active" else "disabled") None];
     elem "td"
       [El (Tag "Link") [Attr "href" (show routes (summary_id connection));
                         Attr "aria-label" ("Open " ++ summary_name connection)%string] []]].

Definition connectionTable s : node State :=
  match page_data (connections props) with
  | [] =>
      let active := hasActiveFilters props s in
      elem "div"
        [EmptyState
           (if active then "No connections match these filters" else "No connections found")
           (Some (if active then "Clear a filter or try a broader search."
                  else "Register a database target before submitting query requests."))
           (if active
            then [El TButton [Attr "type" "button"; on_click resetFilters] [Txt "Reset filters"]]
            else when (can_create props) [newConnection])]
  | rows =>
      elem "div"
        [elem "table"
           [elem "thead"
              [elem "tr" (map (fun text => elem "th" [Txt text])
                 ["Name"; "Database"; "Host"; "Driver"; "Requests"; "Status"; "Open"])];
            elem "tbody" (map summaryRow rows)]]
  end.

Definition ConnectionsIndex s : node State :=
  elem "Fragment"
    [El (Tag "Head") [Attr "title" "Connections"] [];
     elem "div"
       [PageHeader "Connections"
          (Some (str_of_Z (connection_count props) ++ " database " ++
                 (if (connection_count props =? 1)%Z then "connection" else "connections"))%string)
          (when (can_create props) [newConnection]);
        elem "section"
          ([elem "h2" [Txt "Connection registry"]; filterBar s; connectionTable s] ++
           Pagination (connections props) None)]].
End page.

(** ** The page in time *)

Section live.
Context (trim_php : string -> string).

(** [DatabaseConnectionController::filters]; [trim_php] is the framework's. *)
Definition server_filters (f : ConnectionFilters) : ConnectionFilters := {|
  search := trim_php (search f);
  driver := if existsb (str_eq (driver f)) ["pgsql"; "mysql"] then driver f else "";
  status := if existsb (str_eq (status f)) ["active"; "disabled"] then status f else "" |}.

(** Which lists are those of some filters, as far as the page is concerned. *)
Context (listed : ConnectionFilters -> Paginated DatabaseConnectionSummary -> Prop).

(** The page, the filters its timer waits to send, those of the reload in flight, and whether the
    last reload came to nothing.  [chosen] is what was last asked for: by the address of the page
    at first, by the controls later. *)
Record Live := {
  props : Props;
  page : State;
  timer : option ConnectionFilters;
  in_flight : option ConnectionFilters;
  reload_failed : bool;
  chosen : ConnectionFilters;
}.

(** The page after a handler that set the pending filters: the effect restarts the timer. *)
Definition changed (f : State -> State) (l : Live) : Live :=
  let page' := f (page l) in
  {| props := props l; page := page'; timer := pendingFilters page'; in_flight := in_flight l;
     reload_failed := reload_failed l; chosen := filterValues (props l) page' |}.

(** A reload replaces the properties it asked for. *)
Definition reloaded (answer p : Props) : Props := {|
  connections := connections answer; filters := filters answer; driver_options := driver_options p;
  connection_count := connection_count answer; can_create := can_create p |}.

Inductive choice_step : Live -> Live -> Prop :=
  | cs_update key value l : choice_step l (changed (updateFilter (props l) key value) l)
  | cs_reset l : choice_step l (changed resetFilters l).

(** What happens without the user. *)
Inductive background_step : Live -> Live -> Prop :=
  | bs_timer f l : timer l = Some f ->
      background_step l
        {| props := props l; page := setIsFiltering true (page l); timer := None;
           in_flight := Some f; reload_failed := false; chosen := chosen l |}
  | bs_answer f answer l : in_flight l = Some f ->
      filters answer = server_filters f -> listed (filters answer) (connections answer) ->
      let page' := setIsFiltering false (requestSucceeded f (page l)) in
      background_step l
        {| props := reloaded answer (props l); page := page';
           timer := if pendingFilters page' then timer l else None;
           in_flight := None; reload_failed := false; chosen := chosen l |}
  | bs_failure f l : in_flight l = Some f ->
      background_step l
        {| props := props l; page := setIsFiltering false (page l); timer := timer l;
           in_flight := None; reload_failed := true; chosen := chosen l |}.

Definition live_step (l l' : Live) : Prop := choice_step l l' \/ background_step l l'.

(** The page as the server first sends it, for the filters of its address. *)
Definition opened (asked : ConnectionFilters) (p : Props) : Live := {|
  props := p; page := initialState; timer := None; in_flight := None; reload_failed := false;
  chosen := asked |}.

Definition live_reachable (l : Live) : Prop :=
  exists asked p, filters p = server_filters asked /\ listed (filters p) (connections p) /\
    rtc live_step (opened asked p) l.

(** ** What is on display *)

Definition live_ok (l : Live) : Prop :=
  listed (filters (props l)) (connections (props l)) /\
  isFiltering (page l) = is_some (in_flight l) /\
  (in_flight l <> None -> reload_failed l = false) /\
  match pendingFilters (page l) with
  | None => timer l = None /\ in_flight l = None /\ filters (props l) = server_filters (chosen l)
  | Some f => f = chosen l /\
      (timer l = Some f \/ timer l = None /\ (in_flight l = Some f \/ reload_failed l = true))
  end.

Lemma requestSucceeded_spec f s :
  pendingFilters (requestSucceeded f s) =
  if decide (pendingFilters s = Some f) then None else pendingFilters s.
Proof.
  unfold requestSucceeded. simpl. destruct (pendingFilters s) as [c|]; [|by destruct (decide _)].
  destruct (str_eq (search c) (search f) && str_eq (driver c) (driver f) &&
            str_eq (status c) (status f)) eqn:E.
  - bool_hyps. destruct c, f. simpl in *. rewrite !str_eq_true in *. subst.
    by rewrite decide_True.
  - rewrite decide_False; [done|]. intros [= ->]. by rewrite !str_eq_refl in E.
Qed.

Lemma changed_ok f l :
  live_ok l -> is_some (pendingFilters (f (page l))) = true ->
  isFiltering (f (page l)) = isFiltering (page l) -> live_ok (changed f l).
Proof.
  intros (Hl & Hb & Hf & _) Hp Hi. unfold live_ok, changed, filterValues. cbn -[is_some].
  rewrite Hi. destruct (pendingFilters (f (page l))); [|done]. auto 10.
Qed.

Lemma live_step_ok l l' : live_step l l' -> live_ok l -> live_ok l'.
Proof.
  intros [[key value l1|l1]|Hs] Hok; [by apply changed_ok..|].
  destruct Hs as [f l Ht|f answer l Hi Hf Hl page'|f l Hi].
  - destruct Hok as (Hl & _ & _ & Hp). unfold live_ok. simpl.
    destruct (pendingFilters (page l)) as [g|]; [|by destruct Hp as (? & _); congruence].
    destruct Hp as [-> [Ht'|[Ht' _]]]; [|congruence]. rewrite Ht in Ht'. injection Ht' as ->. auto 10.
  - destruct Hok as (_ & _ & Hnf & Hp). unfold live_ok. subst page'. cbn -[requestSucceeded].
    rewrite requestSucceeded_spec. split; [done|]. split; [done|]. split; [done|].
    destruct (pendingFilters (page l)) as [g|] eqn:Hg; cbn.
    + destruct Hp as [-> Ht]. destruct (decide _) as [[= ->]|Hne]; [done|]. cbn. split; [done|].
      destruct Ht as [Ht|[Ht [Hi'|Hi']]]; [auto|congruence|]. rewrite Hnf in Hi'; congruence.
    + destruct Hp as (_ & Hi' & _). congruence.
  - destruct Hok as (Hl & _ & _ & Hp). unfold live_ok. simpl. split; [done|]. split; [done|].
    split; [done|]. destruct (pendingFilters (page l)) as [g|].
    + destruct Hp as [-> [Ht|[Ht _]]]; auto 10.
    + destruct Hp as (_ & Hi' & _). congruence.
Qed.

Lemma live_reachable_ok l : live_reachable l -> live_ok l.
Proof.
  intros (asked & p & Hf & Hl & Hr).
  assert (Hok : live_ok (opened asked p)) by done.
  induction Hr as [l|l l' l'' Hs _ IH]; [done|]. by apply IH, (live_step_ok l).
Qed.

(** The reloads still to come: one for the timer and its answer, and the one in flight. *)
Definition outstanding (l : Live) : nat :=
  (if timer l then 2 else 0) + (if in_flight l then 1 else 0).

Lemma background_outstanding l l' : background_step l l' -> (outstanding l' < outstanding l)%nat.
Proof.
  intros [f l1 Ht|f answer l1 Hi _ _ page'|f l1 Hi]; unfold outstanding; cbn -[pendingFilters];
    rewrite ?Ht, ?Hi.
  - destruct (in_flight l1); lia.
  - destruct (pendingFilters page'), (timer l1); lia.
  - lia.
Qed.

Lemma background_run n l l' : nsteps background_step n l l' ->
  (n + outstanding l' <= outstanding l)%nat /\ chosen l' = chosen l /\ rtc live_step l l'.
Proof.
  induction 1 as [l|n l l1 l' Hs _ IH]; [by split_and!|].
  destruct IH as (Hn & Hc & Hr). pose proof (background_outstanding _ _ Hs). split_and!; [lia| |].
  - rewrite Hc. by destruct Hs.
  - apply rtc_l with l1; [by right|done].
Qed.

Lemma background_stuck l : nf background_step l -> timer l = None /\ in_flight l = None.
Proof.
  intros Hnf. destruct (timer l) as [f|] eqn:Ht; [exfalso; apply Hnf; eexists; by apply bs_timer|].
  destruct (in_flight l) as [f|] eqn:Hi; [|done]. exfalso. apply Hnf. eexists. by apply (bs_failure f).
Qed.

(** Left alone, the list of connections comes to rest after at most three steps (the answer in
    flight, the timer, its answer), whatever was changed before and in whatever order answers and
    timers came.  Then, unless the last reload failed, the page shows the filters that were chosen
    last, as the server reads them, with the list for them. *)
Theorem filters_settle l n l' :
  live_reachable l -> nsteps background_step n l l' ->
  (n <= 3)%nat /\
  (nf background_step l' -> reload_failed l' = false ->
   filterValues (props l') (page l') = server_filters (chosen l) /\
   listed (server_filters (chosen l)) (connections (props l')) /\ isFiltering (page l') = false).
Proof.
  intros (asked & p & Hf & Hl & Hr) Hn. destruct (background_run _ _ _ Hn) as (Hle & Hc & Hr').
  split; [unfold outstanding in Hle; repeat case_match; lia|]. intros Hnf Hok.
  destruct (background_stuck l' Hnf) as [Ht Hi].
  destruct (live_reachable_ok l') as (Hlist & Hb & _ & Hp).
  { exists asked, p. split_and!; [done..|]. by transitivity l. }
  unfold filterValues. rewrite Ht, Hi, Hok in *. rewrite <- Hc.
  destruct (pendingFilters (page l')) as [g|]; [naive_solver|].
  destruct Hp as (_ & _ & Hp). rewrite <- Hp. by split_and!.
Qed.
End live.

(** The search was changed twice; the answer for the first text arrives after the second change. *)
Section example.
Definition example_list : Paginated DatabaseConnectionSummary := {|
  page_data := []; links := []; page_from := None; page_to := None; page_total := 0 |}.

Definition example_props (f : ConnectionFilters) : Props := {|
  connections := example_list; filters := f; driver_options := [("pgsql", "PostgreSQL")];
  connection_count := 3; can_create := true |}.

Definition typed_search (text : string) : ConnectionFilters := set_filter Search text noFilters.

Definition after_two_changes : Live := {|
  props := example_props noFilters;
  page := {| pendingFilters := Some (typed_search "order"); isFiltering := true |};
  timer := Some (typed_search "order"); in_flight := Some (typed_search "or");
  reload_failed := false; chosen := typed_search "order" |}.

Definition settled : Live := {|
  props := example_props (typed_search "order"); page := initialState; timer := None;
  in_flight := None; reload_failed := false; chosen := typed_search "order" |}.

Lemma filters_settle_witness :
  filterValues (props settled) (page settled) = typed_search "order" /\
  isFiltering (page settled) = false /\ (3 <= 3)%nat.
Proof.
  set (listed := fun (_ : ConnectionFilters) (_ : Paginated DatabaseConnectionSummary) => True).
  destruct (filters_settle trim listed after_two_changes 3 settled) as [Hn Hs].
  - exists noFilters, (example_props noFilters). split; [reflexivity|]. split; [exact I|].
    apply rtc_l with (changed (updateFilter (example_props noFilters) Search "or")
                        (opened noFilters (example_props noFilters))).
    { left. apply (cs_update Search "or" (opened noFilters (example_props noFilters))). }
    eapply rtc_l; [right; apply (bs_timer trim listed (typed_search "or")); reflexivity|].
    eapply rtc_l; [left; apply (cs_update Search "order")|]. apply rtc_refl.
  - eapply nsteps_l.
    { apply (bs_answer trim listed (typed_search "or") (example_props (typed_search "or")));
        [reflexivity..|exact I]. }
    eapply nsteps_l; [apply (bs_timer trim listed (typed_search "order")); reflexivity|].
    eapply nsteps_l.
    { apply (bs_answer trim listed (typed_search "order") (example_props (typed_search "order")));
        [reflexivity..|exact I]. }
    apply nsteps_O.
  - destruct Hs as (Hv & _ & Hb).
    + intros [l Hl]. inversion Hl as [f l1 Ht|f answer l1 Hi|f l1 Hi]; [discriminate Ht|discriminate Hi..].
    + reflexivity.
    + split; [exact Hv|]. split; [exact Hb|exact Hn].
Defined.
End example.

(** ** The controls *)

(** Every control of the page changes a filter or resets them: the steps of [choice_step]. *)
Lemma controls_choose_filters routes props s :
  all_actions (fun h => forall now ev s,
      h now ev s = s \/ h now ev s = resetFilters s \/
      exists key value, h now ev s = updateFilter props key value s)
    (ConnectionsIndex routes props s).
Proof.
  unfold ConnectionsIndex, PageHeader, newConnection, filterBar, choice.
  walk; try (intros now [] s'; eauto).
  - unfold connectionTable, EmptyState, newConnection.
    destruct (page_data (connections props)) as [|row rows].
    + destruct (hasActiveFilters props s); walk; auto.
    + walk. unfold summaryRow. walk; apply all_actions_StatusBadge.
  - apply each_actions_Pagination.
Qed.
