(* ===== verification/ConnectionShow.v ===== *)
(** * The page of a connection

    [resources/js/pages/connections/show.tsx]: its settings and access policy, the test of the
    connection, its deletion, and the link that starts a similar connection; with
    [DatabaseConnectionController::createDefaults], which reads that link.

    The menu "More" is rendered open; the dialog of the deletion while it is. *)

From Stdlib Require Import String.
From S2P Require Import Prelude JsString CrucibleLib Hooks View Badges ConnectionForm.

Open Scope string_scope.
Open Scope Z_scope.
Open Scope list_scope.

(** ** Data *)

Record Permission := {
  permission_id : Z;
  role : string;
  access_mode : string;
  can_review : bool;
  read_requires_approval : bool;
  write_requires_approval : bool;
}.

Record Connection := {
  id : Z;
  name : string;
  driver : string;
  host : string;
  port : Z;
  database : string;
  username : string;
  tls_mode : string;
  is_active : bool;
  permissions : list Permission;
}.

Record Props := {
  connection : Connection;
  can_update : bool;
  can_create : bool;
  is_subscribed : bool;
}.

(** [deleteDialogOpen] *)
Definition State := bool.

Definition initialState : State := false.

Definition setDeleteDialogOpen (open : bool) : State -> State := fun _ => open.

(** ** The test of the connection (lines 157-185)

    The server flashes the same toasts ([DatabaseConnectionController::test]). *)

Definition toast (type message : string) : Json :=
  JObject [("type", JString type); ("message", JString message)].

Definition test_toast (succeeded : bool) : Json :=
  if succeeded then toast "success" "Connection test succeeded."
  else toast "error" "Connection test failed. Check the connection settings and audit log.".

(** [onSuccess] and [onError] of the form *)
Definition testSettled (succeeded : bool) (now : Z) : Toaster -> Toaster :=
  showFlashToast now (test_toast succeeded).

(** ** The page *)

Record Routes := {
  unsubscribe : Z -> string;
  subscribe : Z -> string;
  test_connection : Z -> string;
  destroy : Z -> string;
  edit : Z -> string;
  create : list (string * string) -> string;
}.

(** The query of the link that adds a similar connection. *)
Definition similar_query (c : Connection) : list (string * string) :=
  [("driver", driver c); ("host", host c); ("port", str_of_Z (port c)); ("tls_mode", tls_mode c)].

Section page.
Context (routes : Routes) (props : Props) (processing : bool).
Let c := connection props.

Definition policySummary : string :=
  let requiresApproval :=
    existsb (fun p => read_requires_approval p || write_requires_approval p) (permissions c) in
  match permissions c with
  | [] => "No roles have access to this connection."
  | _ =>
      (str_of_nat (length (permissions c)) ++ " " ++
       (if (length (permissions c) =? 1)%nat then "role" else "roles") ++ " configured" ++
       (if requiresApproval then " · approval required" else "") ++ ".")%string
  end.

Definition buttonForm (action text : string) : node State :=
  El (Tag "Form") [Attr "action" action] [El TButton [Flag "disabled" processing] [Txt text]].

(** Lines 195-244 *)
Definition moreMenu : node State :=
  elem "DropdownMenu"
    [elem "DropdownMenuTrigger" [El TButton [] [Txt "More"]];
     elem "DropdownMenuContent"
       (when (can_create props)
          [elem "DropdownMenuItem"
             [El (Tag "Link") [Attr "href" (create routes (similar_query c))]
                [Txt "Add similar connection"]]] ++
        when (can_create props && can_update props) [elem "DropdownMenuSeparator" []] ++
        when (can_update props)
          [El (Tag "DropdownMenuItem") [On "select" (fun _ _ => setDeleteDialogOpen true)]
             [Txt "Delete connection"]])].

(** Lines 93-246 *)
Definition titleBar : node State :=
  elem "header"
    [elem "div"
       [elem "div"
          [El (Tag "SemanticIcon") [Attr "tone" (tone_name (semanticToneForStatus (driver c)))] [];
           elem "h1" [Txt (name c)];
           StatusBadge (driver c) (Some (driverLabel (driver c)));
           StatusBadge (if is_active c then "active" else "disabled") None];
        elem "p" [Txt (host c); Txt ":"; Txt (str_of_Z (port c)); elem "span" [Txt "·"];
                  Txt (database c)]];
     elem "div"
       ((if is_subscribed props then buttonForm (unsubscribe routes (id c)) "Watching"
         else buttonForm (subscribe routes (id c)) "Watch health")
        :: when (can_update props) [buttonForm (test_connection routes (id c)) "Test connection"] ++
        when (can_update props)
          [El (Tag "Link") [Attr "href" (edit routes (id c))] [Txt "Edit"]] ++
        [moreMenu])].

Definition row (term : string) (value : list (node State)) : node State :=
  elem "div" [elem "dt" [Txt term]; elem "dd" value].

(** Lines 248-319 *)
Definition configurationSection : node State :=
  elem "section"
    [elem "div"
       [elem "h2" [Txt "Connection configuration"];
        elem "p" [Txt "Target endpoint, database, and transport settings."]];
     elem "div"
       [elem "div"
          [elem "h3" [Txt "Target"];
           elem "dl"
             [row "Endpoint" [Txt (host c); Txt ":"; Txt (str_of_Z (port c))];
              row "Database" [Txt (database c)];
              row "Driver" [StatusBadge (driver c) (Some (driverLabel (driver c)))]]];
        elem "div"
          [elem "h3" [Txt "Credentials and transport"];
           elem "dl" [row "Username" [Txt (username c)]; row "TLS mode" [Txt (tls_mode c)]]]]].

(** Lines 353-413 *)
Definition permissionRow (p : Permission) : node State :=
  El (Tag "tr") [Attr "key" (str_of_Z (permission_id p))]
    [elem "td" [Txt (role p)];
     elem "td" [StatusBadge (access_mode p) (Some (statusLabel (access_mode p)))];
     elem "td" [StatusBadge (if can_review p then "approved" else "none")
                  (Some (if can_review p then "Can review" else "No review"))];
     elem "td"
       [StatusBadge (if read_requires_approval p then "pending_review" else "completed")
          (Some (if read_requires_approval p then "Read approval" else "Read direct"));
        StatusBadge (if write_requires_approval p then "pending_review" else "completed")
          (Some (if write_requires_approval p then "Write approval" else "Write direct"))]].

(** Lines 321-429 *)
Definition accessSection : node State :=
  elem "section"
    [elem "div" [elem "div" [elem "h2" [Txt "Access policy"]]; elem "p" [Txt policySummary]];
     elem "div"
       [elem "table"
          [elem "thead"
             [elem "tr" (map (fun text => elem "th" [Txt text])
                ["Role"; "Access"; "Review"; "Approval"])];
           elem "tbody"
             (map permissionRow (permissions c) ++
              when (length (permissions c) =? 0)%nat
                [elem "tr" [elem "td" [Txt "No role permissions assigned."]]])]]].

(** Lines 432-465 *)
Definition deletionDialog (deleteDialogOpen : State) : node State :=
  El (Tag "Dialog") [On "openChange" (fun _ _ => setDeleteDialogOpen false)]
    (when deleteDialogOpen
       [elem "DialogContent"
          [elem "DialogHeader"
             [elem "DialogTitle" [Txt "Delete database connection?"];
              elem "DialogDescription"
                [Txt ("This removes " ++ name c ++ " from Crucible DB. Existing audit history remains, but users will no longer be able to request or run queries against this connection.")%string]];
           elem "DialogFooter"
             [elem "DialogClose"
                [El TButton [on_click (setDeleteDialogOpen false)] [Txt "Cancel"]];
              buttonForm (destroy routes (id c)) "Yes, delete"]]]).

(** Lines 88-468 *)
Definition ConnectionShow (s : State) : node State :=
  elem "Fragment"
    [El (Tag "Head") [Attr "title" (name c)] [];
     elem "div" [titleBar; configurationSection; accessSection];
     deletionDialog s].
End page.

(** ** What the server reads from the link *)

Section defaults.
(** The framework's trimming, shortening and conversion to an integer. *)
Context (trim_php : string -> string) (substr : nat -> string -> string) (integer : string -> Z).

Definition defaultPort (driver : string) : Z := if str_eq driver "pgsql" then 5432 else 3306.

(** [createDefaults] on the values of the query; a name that is missing reads as empty. *)
Definition createDefaults (query : list (string * string)) : Defaults :=
  let field name := last (posted query name) ?? "" in
  let driver := if existsb (str_eq (field "driver")) ["mysql"; "pgsql"] then field "driver" else "mysql" in
  let port := integer (field "port") in
  let tls_mode := substr 32 (trim_php (field "tls_mode")) in {|
  defaults_driver := driver;
  defaults_host := substr 255 (trim_php (field "host"));
  defaults_port := if (1 <=? port) && (port <=? 65535) then port else defaultPort driver;
  defaults_tls_mode := if truthy tls_mode && negb (str_eq tls_mode "0") then tls_mode
                       else "preferred" |}.

(** The form that the link opens. *)
Definition similar_form (drivers : list Driver) (c : Connection) : ConnectionForm.Props := {|
  ConnectionForm.connection := None; ConnectionForm.drivers := drivers;
  ConnectionForm.defaults := Some (createDefaults (similar_query c)) |}.

(** A stored connection: the server keeps its fields trimmed and within their lengths. *)
Definition stored_connection (c : Connection) : Prop :=
  existsb (str_eq (driver c)) ["mysql"; "pgsql"] = true /\ 1 <= port c <= 65535 /\
  trim_php (host c) = host c /\ substr 255 (host c) = host c /\
  existsb (fun m => str_eq (fst m) (tls_mode c)) tlsModes = true.

Hypothesis integer_text : forall n, integer (str_of_Z n) = n.
Hypothesis modes_kept : forall m, m ∈ map fst tlsModes -> substr 32 (trim_php m) = m.

(** The form for a similar connection starts with the target of the connection, whatever drivers
    it offers: driver, host, port and TLS mode survive the link. *)
Theorem similar_connection_prefilled drivers c :
  stored_connection c ->
  let s := ConnectionForm.initialState (similar_form drivers c) in
  ConnectionForm.driver s = driver c /\ ConnectionForm.port s = Whole (port c) /\
  ConnectionForm.tlsMode s = tls_mode c /\
  defaults_host (createDefaults (similar_query c)) = host c.
Proof.
  intros (Hd & Hp & Ht & Hs & Hm).
  assert (Hmode : substr 32 (trim_php (tls_mode c)) = tls_mode c /\
                  truthy (tls_mode c) && negb (str_eq (tls_mode c) "0") = true).
  { apply existsb_exists_elem in Hm as (m & Hm & <-%str_eq_true).
    split; [by apply modes_kept, list_elem_of_fmap_2|]. unfold tlsModes in Hm.
    rewrite !elem_of_cons, elem_of_nil in Hm. by destruct_or! Hm; subst. }
  destruct Hmode as [Hk Hn].
  unfold ConnectionForm.initialState, similar_form, createDefaults, initialPort, initialDriver. simpl.
  rewrite integer_text, Hk, Hn, Ht, Hs. simpl in Hd. rewrite Hd.
  rewrite (proj2 (Z.leb_le 1 _)), (proj2 (Z.leb_le _ 65535)) by lia. done.
Qed.
End defaults.

(** ** The result of a test is announced once *)

(** The toast the server flashed and the one of the form's callback come together, in any order:
    within the window, one is shown. *)
Theorem test_announced_once succeeded t1 t2 t :
  0 <= t2 - t1 < toastDedupeWindowMs ->
  (forall x l, shown t = x :: l -> toastDedupeWindowMs <= t1 - shown_at x) ->
  toaster_ok t ->
  exists x, shown (testSettled succeeded t2 (testSettled succeeded t1 t)) = x :: shown t /\
    shown_at x = t1 /\
    toast_message x = if succeeded then "Connection test succeeded."
                      else "Connection test failed. Check the connection settings and audit log.".
Proof.
  intros Hw Hold Hok. unfold testSettled, showFlashToast.
  assert (Hfresh : forall key,
    match lastToast t with
    | Some (k, shownAt) => str_eq k key && (t1 - shownAt <? toastDedupeWindowMs)
    | None => false
    end = false).
  { intros key. unfold toaster_ok in Hok. destruct (shown t) as [|x l] eqn:E; rewrite Hok; [done|].
    specialize (Hold x l eq_refl). rewrite (proj2 (Z.ltb_ge _ _)); [by rewrite andb_false_r|done]. }
  destruct succeeded; simpl; rewrite Hfresh; simpl; rewrite (proj2 (Z.ltb_lt _ _)) by lia; eauto.
Qed.

(** ** The controls *)

(** The connection can be deleted only by one who may update it. *)
Lemma deletion_needs_update routes props processing s h now ev :
  can_update props = false -> s = false ->
  h ∈ actions (ConnectionShow routes props processing s) -> h now ev s = false.
Proof.
  intros Hu -> Hh. assert (H : all_actions (fun h => h now ev false = false)
    (ConnectionShow routes props processing false)).
  { unfold ConnectionShow, titleBar, moreMenu, configurationSection, accessSection, deletionDialog, row, buttonForm.
    rewrite Hu. walk; try apply all_actions_StatusBadge; try done.
    - destruct (is_subscribed props); walk.
    - unfold permissionRow. walk; apply all_actions_StatusBadge. }
  unfold all_actions in H. rewrite Forall_forall in H. by apply H.
Qed.
