(* ===== verification/AccessPages.v ===== *)
(** * The pages of a role and of a connection group

    [resources/js/pages/roles/show.tsx] and [connection-groups/show.tsx]: what a role or a group
    grants.  Neither page keeps a state or has a form. *)

From Stdlib Require Import String.
From S2P Require Import Prelude JsString CrucibleLib View Badges.

Open Scope string_scope.
Open Scope Z_scope.
Open Scope list_scope.

Definition State := unit.

(** ** Data *)

(** [Policy] *)
Record Grant := {
  grant_id : Z;
  access_mode : AccessMode;
  query_access_mode : AccessMode;
  native_proxy_access_mode : AccessMode;
  can_review : bool;
  read_requires_approval : bool;
  write_requires_approval : bool;
  max_write_session_minutes : option Z;
}.

Record Target := {
  target_id : Z;
  target_name : string;
  target_driver : string;
  endpoint : string;
  target_database : string;
  target_is_active : bool;
}.

Record GroupRef := { group_ref_id : Z; group_ref_name : string; group_ref_description : option string }.

Record Person := { person_id : Z; person_name : string; email : string }.

Record Role := {
  role_id : Z;
  role_name : string;
  slug : string;
  role_description : option string;
  is_admin : bool;
  people : list Person;
  policies : list (Grant * Target);
  group_policies : list (Grant * GroupRef);
}.

Record Features := { query_access_enabled : bool; native_client_access_enabled : bool }.

Record RoleRef := { ref_id : Z; ref_name : string; ref_slug : string; ref_is_admin : bool }.

Record Group := {
  group_id : Z;
  group_name : string;
  group_description : option string;
  connections : list Target;
  role_policies : list (Grant * RoleRef);
}.

Record Routes := {
  edit_role : Z -> string;
  show_role : Z -> string;
  edit_group : Z -> string;
  show_group : Z -> string;
  show_connection : Z -> string;
}.

(** ** The cells of a policy (roles/show.tsx, lines 63-115) *)

Definition approvalLabel (policy : Grant) : string :=
  if read_requires_approval policy && write_requires_approval policy then "Read and write"
  else if write_requires_approval policy then "Write only"
  else if read_requires_approval policy then "Read only"
  else "Not required".

(** [max_write_session_minutes ? `${...} min` : 'No limit'] *)
Definition limitText (policy : Grant) : string :=
  match max_write_session_minutes policy with
  | Some minutes => if minutes =? 0 then "No limit" else (str_of_Z minutes ++ " min")%string
  | None => "No limit"
  end.

Definition td (children : list (node State)) : node State := elem "td" children.

Definition modeCells (policy : Grant) : list (node State) :=
  [td [AccessModeBadge (access_mode policy)];
   td [AccessModeBadge (query_access_mode policy)];
   td [AccessModeBadge (native_proxy_access_mode policy)];
   td [Txt (if can_review policy then "May review" else "No")]].

Definition PolicyCells (policy : Grant) : list (node State) :=
  modeCells policy ++ [td [Txt (approvalLabel policy)]; td [Txt (limitText policy)]].

Definition PolicyHeadCells : list string :=
  ["Maximum"; "Query Access"; "Native Client"; "Reviewer"; "Approval"; "Write limit"].

(** ** Parts the pages share *)

Definition tableOf (heads : list string) (rows : list (node State)) : node State :=
  elem "div"
    [elem "table"
       [elem "thead" [elem "tr" (map (fun text => elem "th" [Txt text]) heads)];
        elem "tbody" rows]].

(** A section with a table, or a sentence where there is nothing to list. *)
Definition listing (title : string) (detail : option string) (empty : string) (heads : list string)
    (rows : list (node State)) : node State :=
  elem "section"
    [elem "div"
       (elem "h2" [Txt title] :: match detail with Some d => [elem "p" [Txt d]] | None => [] end);
     match rows with [] => elem "p" [Txt empty] | _ => tableOf heads rows end].

Definition term (name : string) (value : string) : node State :=
  elem "div" [elem "dt" [Txt name]; elem "dd" [Txt value]].

Section pages.
Context (routes : Routes).

(** ** The page of a role *)

Definition disabledWorkflows (features : Features) : list string :=
  when (negb (query_access_enabled features)) ["Query Access"] ++
  when (negb (native_client_access_enabled features)) ["Native Client Access"].

(** Lines 143-195 *)
Definition profileSection (role : Role) (features : Features) : node State :=
  elem "section"
    (elem "div"
       [elem "div"
          [El (Tag "SemanticIcon")
             [Attr "tone" (tone_name (if is_admin role then Success else Info))] [];
           elem "h2" [Txt "Role profile"];
           StatusBadge (if is_admin role then "active" else "none")
             (Some (if is_admin role then "System admin" else "Custom"))]]
     :: elem "dl"
          [term "Slug" (slug role);
           term "Assigned people" (str_of_nat (length (people role)));
           term "Policies" (str_of_nat (length (policies role) + length (group_policies role)))]
     :: when (0 <? length (disabledWorkflows features))%nat
          [elem "div"
             [Txt ("Globally unavailable: " ++ join ", " (disabledWorkflows features) ++
                   ". Stored grants remain configured.")%string]]).

(** Lines 220-231 *)
Definition personRow (person : Person) : node State :=
  El (Tag "tr") [Attr "key" (str_of_Z (person_id person))]
    [td [Txt (person_name person)]; td [Txt (email person)]].

(** Lines 266-300 *)
Definition groupPolicyRow (policy : Grant * GroupRef) : node State :=
  El (Tag "tr") [Attr "key" (str_of_Z (grant_id (fst policy)))]
    (td
       (El (Tag "Link") [Attr "href" (show_group routes (group_ref_id (snd policy)))]
          [Txt (group_ref_name (snd policy))]
        :: when (truthy_opt (group_ref_description (snd policy)))
             [elem "p" [Txt (group_ref_description (snd policy) ?? "")]])
     :: PolicyCells (fst policy)).

(** Lines 329-372 *)
Definition directPolicyRow (policy : Grant * Target) : node State :=
  let target := snd policy in
  El (Tag "tr") [Attr "key" (str_of_Z (grant_id (fst policy)))]
    (td
       [elem "div"
          [El (Tag "Link") [Attr "href" (show_connection routes (target_id target))]
             [Txt (target_name target)];
           StatusBadge (target_driver target) (Some (driverLabel (target_driver target)));
           StatusBadge (if target_is_active target then "active" else "disabled") None];
        elem "p" [Txt (endpoint target); Txt " "; Txt "/"; Txt " "; Txt (target_database target)]]
     :: PolicyCells (fst policy)).

Definition RoleShow (role : Role) (features : Features) : node State :=
  elem "Fragment"
    [El (Tag "Head") [Attr "title" (role_name role)] [];
     elem "div"
       [PageHeader (role_name role) (Some (role_description role ?? "No description provided."))
          (when (negb (is_admin role))
             [El (Tag "Link") [Attr "href" (edit_role routes (role_id role))] [Txt "Edit role"]]);
        profileSection role features;
        listing "Assigned people" None "No people are assigned to this role." ["Name"; "Email"]
          (map personRow (people role));
        listing "Connection group policies"
          (Some "Defaults applied to every current member of each group.")
          "No connection group policies are configured."
          ("Connection group" :: PolicyHeadCells) (map groupPolicyRow (group_policies role));
        listing "Direct connection policies" (Some "Connection-specific grants and exceptions.")
          "No direct connection policies are configured."
          ("Connection" :: PolicyHeadCells) (map directPolicyRow (policies role))]].

(** ** The page of a connection group *)

Definition memberRow (target : Target) : node State :=
  El (Tag "tr") [Attr "key" (str_of_Z (target_id target))]
    [td
       [elem "div"
          [El (Tag "Link") [Attr "href" (show_connection routes (target_id target))]
             [Txt (target_name target)];
           StatusBadge (target_driver target) (Some (driverLabel (target_driver target)))]];
     td [Txt (endpoint target)];
     td [Txt (target_database target)];
     td [StatusBadge (if target_is_active target then "active" else "disabled") None]].

Definition roleRow (policy : Grant * RoleRef) : node State :=
  let required (b : bool) := if b then "Required" else "Not required" in
  El (Tag "tr") [Attr "key" (str_of_Z (grant_id (fst policy)))]
    (td
       [El (Tag "Link") [Attr "href" (show_role routes (ref_id (snd policy)))]
          [Txt (ref_name (snd policy))];
        elem "p" [Txt (ref_slug (snd policy))]]
     :: modeCells (fst policy) ++
     [td [Txt (required (read_requires_approval (fst policy)))];
      td [Txt (required (write_requires_approval (fst policy)))];
      td [Txt (limitText (fst policy))]]).

Definition ConnectionGroupShow (group : Group) : node State :=
  elem "Fragment"
    [El (Tag "Head") [Attr "title" (group_name group)] [];
     elem "div"
       [PageHeader (group_name group) (Some (group_description group ?? "No description provided."))
          [El (Tag "Link") [Attr "href" (edit_group routes (group_id group))] [Txt "Edit group"]];
        elem "section"
          [elem "div"
             [El (Tag "SemanticIcon") [Attr "tone" (tone_name Info)] [];
              elem "h2" [Txt "Group profile"]];
           elem "dl"
             [term "Member connections" (str_of_nat (length (connections group)));
              term "Role policies" (str_of_nat (length (role_policies group)))]];
        listing "Member connections"
          (Some "Explicit database targets included in this access scope.")
          "No database connections belong to this group."
          ["Connection"; "Endpoint"; "Database"; "Status"] (map memberRow (connections group));
        listing "Roles using this group"
          (Some "Policies whose scope changes when group membership changes.")
          "No role policies currently reference this group."
          ["Role"; "Maximum"; "Query Access"; "Native Client"; "Reviewer"; "Read approval";
           "Write approval"; "Write limit"]
          (map roleRow (role_policies group))]].
End pages.

(** ** The tables *)

(** The cells of a row. *)
Definition cells (n : node State) : list (node State) :=
  match n with El _ _ ks => ks | Txt _ => [] end.

(** Every row has a cell under each head of its table. *)
Lemma rows_fit_heads routes :
  (forall p, length (cells (groupPolicyRow routes p)) = length ("Connection group" :: PolicyHeadCells)) /\
  (forall p, length (cells (directPolicyRow routes p)) = length ("Connection" :: PolicyHeadCells)) /\
  (forall p, length (cells (roleRow routes p)) = 8%nat) /\
  (forall t, length (cells (memberRow routes t)) = 4%nat).
Proof. done. Qed.

(** The text of the approvals tells which ones are required. *)
Lemma approvalLabel_inj p q :
  approvalLabel p = approvalLabel q <->
  read_requires_approval p = read_requires_approval q /\
  write_requires_approval p = write_requires_approval q.
Proof.
  unfold approvalLabel.
  destruct (read_requires_approval p), (write_requires_approval p), (read_requires_approval q),
    (write_requires_approval q); naive_solver.
Qed.

(** Nothing on these pages changes anything. *)
Lemma pages_have_no_controls routes role features group :
  actions (RoleShow routes role features) = [] /\ actions (ConnectionGroupShow routes group) = [].
Proof.
  assert (H : forall n : node State, all_actions (fun _ => False) n -> actions n = []).
  { intros n Hn. unfold all_actions in Hn. by destruct (actions n); [|inversion Hn]. }
  assert (Hb : forall P mode, all_actions P (AccessModeBadge (S := State) mode))
    by (intros P []; apply all_actions_StatusBadge).
  assert (Hl : forall P title detail empty heads rows, each_actions P rows ->
    all_actions P (listing title detail empty heads rows)).
  { intros P title detail empty heads rows Hr. unfold listing, tableOf.
    destruct rows; [|apply Forall_app in Hr as [? ?]]; destruct detail; walk; done. }
  split; apply H; unfold RoleShow, ConnectionGroupShow, PageHeader, profileSection, term; walk;
    try apply all_actions_StatusBadge; apply Hl; walk;
    unfold personRow, groupPolicyRow, directPolicyRow, memberRow, roleRow, PolicyCells, modeCells, td;
    walk; auto using all_actions_StatusBadge.
Qed.
