(* ===== verification/RequestList.v ===== *)
(** * The list of query requests

    [resources/js/pages/query-requests/index.tsx] and its filters,
    [components/crucible/query-request-filters.tsx]; with [QueryRequestController::filters], which
    reads them.  The controls of the filters are the browser's: what they hold is [typed]. *)

From Stdlib Require Import String.
From S2P Require Import Prelude Lists JsString CrucibleLib View Badges Results Pagination.

Open Scope string_scope.
Open Scope Z_scope.
Open Scope list_scope.

(** ** Data *)

Record Named := { id : Z; name : string }.

Record QueryRequestSummary := {
  request_id : Z;
  title : string;
  visible : VisibleRequest;  (** its status, kind and latest expiry *)
  effective_query_type : QueryType;
  access_transport : AccessTransport;
  requested_access_mode : option QueryType;
  scheduled_at : option string;
  requester : string;
  request_connections : list Named;
  active_session_expires_at : option string;
}.

Record QueryRequestFilters := {
  search : string;
  status : string;
  filter_kind : string;  (** [request_kind] *)
  query_type : string;
  connection_id : string;
}.

Record QueryRequestFilterOptions := {
  connections : list Named;
  statuses : list QueryRequestStatus;
  request_kinds : list QueryRequestKind;
  query_types : list QueryType;
}.

Record Props := {
  query_requests : Paginated QueryRequestSummary;
  filters : QueryRequestFilters;
  filter_options : QueryRequestFilterOptions;
}.

(** The only state of the page counts the ticks of its timer, every thirty seconds. *)
Definition State := Z.
Definition tickTimer (timerTick : State) : State := timerTick + 1.

Record Routes := { create : string; index : string; show : Z -> string }.

(** ** The filters *)

Section filters.
Context (action clearHref : string) (filters : QueryRequestFilters).
Context (options : QueryRequestFilterOptions) (processing : bool).

(** A [select] of the filters: no filter, or one of the options. *)
Definition filterSelect (field value label all : string) (options : list (node State))
    : node State :=
  El TSelect [Attr "name" field; Attr "defaultValue" value; Attr "aria-label" label]
    (choice "" all :: options).

Definition QueryRequestFiltersForm : node State :=
  El (Tag "Form") [Attr "action" action; Attr "method" "get"]
    [elem "div" [Txt "Filter requests"];
     elem "div"
       [El TInput [Attr "name" "search"; Attr "defaultValue" (search filters);
                   Attr "placeholder" "ID, request, requester, connection";
                   Attr "aria-label" "Search requests"] [];
        filterSelect "status" (status filters) "Filter by status" "All statuses"
          (map (fun status => choice (request_status_text status)
                                (statusLabel (request_status_text status))) (statuses options));
        filterSelect "request_kind" (filter_kind filters) "Filter by request type" "All request types"
          (map (fun kind => choice (request_kind_text kind) (queryRequestKindLabel kind None))
             (request_kinds options));
        filterSelect "query_type" (query_type filters) "Filter by access mode" "All access modes"
          (map (fun type => choice (query_type_text type) (statusLabel (query_type_text type)))
             (query_types options));
        filterSelect "connection_id" (connection_id filters) "Filter by connection" "All connections"
          (map (fun connection => choice (str_of_Z (id connection)) (name connection))
             (connections options));
        elem "div"
          [El TButton [Flag "disabled" processing] [Txt "Apply"];
           El (Tag "Link") [Attr "href" clearHref] [Txt "Reset"]]]].
End filters.

(** ** The page *)

Definition visibleConnectionLimit : nat := 2.

(** Lines 45-107; the popover is rendered open. *)
Definition TargetConnections (connections : list Named) : node State :=
  let visibleConnections := take visibleConnectionLimit connections in
  let hiddenConnectionCount := (length connections - length visibleConnections)%nat in
  let count := str_of_nat (length connections) in
  let items (l : list Named) :=
    map (fun c => El (Tag "li") [Attr "key" (str_of_Z (id c))] [Txt (name c)]) l in
  elem "div"
    (when (1 <? length connections)%nat [elem "div" [elem "span" [Txt (count ++ " targets")%string]]] ++
     El (Tag "ul")
       [Attr "aria-label" (count ++ " targeted " ++
                           (if (length connections =? 1)%nat then "connection" else "connections"))%string]
       (items visibleConnections)
     :: when (0 <? hiddenConnectionCount)%nat
          [elem "Popover"
             [El TButton [Attr "type" "button";
                          Attr "aria-label" ("Show all " ++ count ++ " target connections")%string]
                [Txt ("+" ++ str_of_nat hiddenConnectionCount ++ " more")%string];
              elem "div"
                [elem "h2" [Txt (count ++ " target connections")%string];
                 elem "p" [Txt "Every database included in this request."];
                 elem "ul" (items connections)]]]).

Definition hasActiveFilters (f : QueryRequestFilters) : bool :=
  existsb (fun filter => negb (str_eq filter ""))
    [search f; status f; filter_kind f; query_type f; connection_id f].

(** The session's remaining time, or when the request is scheduled. *)
Definition windowText (intl : string -> option string -> string) (now : Z) (userTimezone : string)
    (request : QueryRequestSummary) : string :=
  if truthy_opt (active_session_expires_at request)
  then formatRemaining now (active_session_expires_at request)
  else if truthy_opt (latest_session_expires_at (visible request))
       then formatRemaining now (latest_session_expires_at (visible request))
       else formatDate intl (scheduled_at request) (Some userTimezone).

Section page.
Context (intl : string -> option string -> string) (routes : Routes).
Context (userTimezone : string) (now : Z) (processing : bool).

(** Lines 222-327 *)
Definition requestRow (request : QueryRequestSummary) : node State :=
  let href := show routes (request_id request) in
  let kind := request_kind (visible request) in
  El (Tag "tr") [Attr "key" (str_of_Z (request_id request))]
    [elem "td"
       [El (Tag "Link")
          [Attr "href" href;
           Attr "aria-label" ("Open request #" ++ str_of_Z (request_id request))%string]
          [Txt ("#" ++ str_of_Z (request_id request))%string]];
     elem "td"
       [El (Tag "Link") [Attr "href" href] [Txt (title request)];
        elem "div" [Txt (requester request)]];
     elem "td" [TargetConnections (request_connections request)];
     elem "td"
       [elem "div"
          [StatusBadge (request_kind_text kind)
             (Some (queryRequestKindLabel kind (Some (access_transport request))));
           if bool_decide (kind = QueryAccess) then SessionAccessBadge (requested_access_mode request)
           else StatusBadge (query_type_text (effective_query_type request))
                  (Some (statusLabel (query_type_text (effective_query_type request))))]];
     elem "td"
       [StatusBadge (request_status_text (visibleQueryRequestStatus now (visible request))) None];
     elem "td" [elem "span" [Txt (windowText intl now userTimezone request)]];
     elem "td"
       [El (Tag "Link") [Attr "href" href; Attr "aria-label" ("Open " ++ title request)%string] []]].

Definition emptyList (active : bool) : node State :=
  elem "div"
    [EmptyState
       (if active then "No requests match these filters" else "No query requests yet")
       (Some (if active then "Clear a filter or broaden your search."
              else "Submit a deployment batch or query-access request to begin governed database work."))
       [if active then El (Tag "Link") [Attr "href" (index routes)] [Txt "Reset filters"]
        else El (Tag "Link") [Attr "href" (create routes)] [Txt "New request"]]].

(** Lines 109-338 *)
Definition QueryRequestsIndex (props : Props) : node State :=
  let total := page_total (query_requests props) in
  elem "Fragment"
    [El (Tag "Head") [Attr "title" "Query requests"] [];
     elem "div"
       [PageHeader "Query Requests"
          (Some (str_of_Z total ++ " request" ++ (if (total =? 1)%Z then "" else "s") ++
                 " visible to you")%string)
          [El (Tag "Link") [Attr "href" (create routes)] [Txt "New request"]];
        elem "section"
          [QueryRequestFiltersForm (index routes) (index routes) (filters props)
             (filter_options props) processing;
           elem "div"
             (match page_data (query_requests props) with
              | [] => emptyList (hasActiveFilters (filters props))
              | rows =>
                  elem "div"
                    [elem "table"
                       [elem "thead"
                          [elem "tr" (map (fun text => elem "th" [Txt text])
                             ["ID"; "Request"; "Connections"; "Type"; "Status"; "Window"; "Open"])];
                        elem "tbody" (map requestRow rows)]]
              end :: Pagination (query_requests props) None)]]].
End page.

(** ** What the server reads *)

Section server.
(** The framework's trimming of a string and conversion to an integer. *)
Context (trim_php : string -> string) (integer : string -> Z).

(** [enumFilter] *)
Definition enumFilter (value : string) (allowed : list string) : string :=
  if existsb (str_eq value) allowed then value else "".

Definition all_statuses : list QueryRequestStatus :=
  [Draft; PendingReview; Approved; Rejected; Scheduled; Running; Completed; Failed; Cancelled].

(** [QueryRequestController::filters] on the values of a request; a name that was not sent reads
    as the empty string. *)
Definition server_filters (es : list (string * string)) : QueryRequestFilters :=
  let field name := last (posted es name) ?? "" in {|
  search := trim_php (field "search");
  status := enumFilter (field "status") (map request_status_text all_statuses);
  filter_kind := enumFilter (field "request_kind")
                   (map request_kind_text [SingleExecution; QueryAccess]);
  query_type := enumFilter (field "query_type") (map query_type_text [ReadQuery; WriteQuery]);
  connection_id := if str_eq (trim_php (field "connection_id")) "" then ""
                   else str_of_Z (integer (field "connection_id")) |}.

Context (action clearHref : string) (options : QueryRequestFilterOptions).

(** What a [select] of the filters posts. *)
Definition filter_value (typed : string -> option string) (field shown : string)
    (values : list string) : string :=
  let v := typed field ?? shown in if existsb (str_eq v) ("" :: values) then v else "".

Lemma filterSelect_entries {A} typed sub (f g : A -> string) field value label all (l : list A) :
  field <> "" ->
  entries typed sub (filterSelect field value label all (map (fun x => choice (f x) (g x)) l)) =
  [(field, filter_value typed field value (map f l))].
Proof.
  intros Hf. unfold filterSelect. cbn [entries]. cbn [flat_map]. rewrite entries_choices.
  unfold own_entries. destruct field as [|a field]; [done|].
  cbn -[selected_option option_of choice map existsb].
  rewrite option_of_choice, option_of_choices. cbn [app].
  by rewrite selected_option_listed_or_first.
Qed.

(** The filters as the controls show them. *)
Definition shown_filters (typed : string -> option string) (f : QueryRequestFilters)
    : list (string * string) :=
  [("search", typed "search" ?? search f);
   ("status", filter_value typed "status" (status f) (map request_status_text (statuses options)));
   ("request_kind", filter_value typed "request_kind" (filter_kind f)
                      (map request_kind_text (request_kinds options)));
   ("query_type", filter_value typed "query_type" (query_type f)
                    (map query_type_text (query_types options)));
   ("connection_id", filter_value typed "connection_id" (connection_id f)
                       (map (fun c => str_of_Z (id c)) (connections options)))].

Lemma filterForm_entries typed sub filters processing :
  entries typed sub (QueryRequestFiltersForm action clearHref filters options processing) =
  shown_filters typed filters.
Proof.
  unfold QueryRequestFiltersForm. rewrite entries_Tag. cbn [flat_map].
  rewrite !entries_elem. cbn [flat_map]. rewrite !filterSelect_entries by done.
  cbn [flat_map entries elem]. unfold own_entries, shown_filters.
  cbn. by destruct processing.
Qed.

(** The filters the server may send: it has read them from some request. *)
Hypothesis trim_twice : forall s, trim_php (trim_php s) = trim_php s.
Hypothesis integer_text : forall n, integer (str_of_Z n) = n.
Hypothesis trim_number : forall n, trim_php (str_of_Z n) = str_of_Z n.
Hypothesis trim_empty : trim_php "" = "".

(** The options of the page are the cases of the enumerations. *)
Hypothesis all_options :
  statuses options = all_statuses /\ request_kinds options = [SingleExecution; QueryAccess] /\
  query_types options = [ReadQuery; WriteQuery].

Lemma enumFilter_again typed field value allowed :
  typed field = None ->
  enumFilter (filter_value typed field (enumFilter value allowed) allowed) allowed =
  enumFilter value allowed.
Proof.
  intros Ht. unfold filter_value. rewrite Ht. cbn [default existsb].
  unfold enumFilter at 1 3. unfold enumFilter.
  destruct (existsb (str_eq value) allowed) eqn:E.
  - by rewrite E, orb_true_r, E.
  - simpl. by destruct (existsb (str_eq "") allowed).
Qed.

Lemma connection_id_read es :
  connection_id (server_filters es) = "" \/
  exists n, connection_id (server_filters es) = str_of_Z n.
Proof. simpl. destruct (str_eq _ ""); [by left|]. right. eauto. Qed.

(** The server's reading of the filters on display, control by control. *)
Lemma server_filters_shown typed f :
  let value k := nth k (map snd (shown_filters typed f)) "" in
  server_filters (shown_filters typed f) = {|
    search := trim_php (value 0%nat);
    status := enumFilter (value 1%nat) (map request_status_text all_statuses);
    filter_kind := enumFilter (value 2%nat) (map request_kind_text [SingleExecution; QueryAccess]);
    query_type := enumFilter (value 3%nat) (map query_type_text [ReadQuery; WriteQuery]);
    connection_id := if str_eq (trim_php (value 4%nat)) "" then ""
                     else str_of_Z (integer (value 4%nat)) |}.
Proof. done. Qed.

(** Applying the filters on display again leaves them as they are, when the connection among them
    is one the page lists; a connection it does not list is dropped. *)
Theorem filters_applied_again es sub processing :
  let f := server_filters es in
  let again := server_filters (entries (fun _ => None) sub
                 (QueryRequestFiltersForm action clearHref f options processing)) in
  search again = search f /\ status again = status f /\ filter_kind again = filter_kind f /\
  query_type again = query_type f /\
  connection_id again =
    (if existsb (fun c => str_eq (connection_id f) (str_of_Z (id c))) (connections options)
     then connection_id f else "").
Proof.
  intros f again. unfold again. rewrite filterForm_entries.
  destruct all_options as (Hs & Hk & Hq). rewrite server_filters_shown.
  cbn [search status filter_kind query_type connection_id shown_filters map snd nth].
  rewrite Hs, Hk, Hq. split_and!.
  - apply trim_twice.
  - by apply enumFilter_again.
  - by apply enumFilter_again.
  - by apply enumFilter_again.
  - unfold filter_value. cbn [default existsb]. rewrite existsb_map.
    destruct (connection_id_read es) as [Hc|[n Hc]]; fold f in Hc; rewrite Hc.
    + simpl. rewrite trim_empty. simpl. by destruct (existsb _ _).
    + destruct (existsb _ (connections options)) eqn:E.
      * rewrite orb_true_r, trim_number, integer_text. by destruct (str_of_Z n).
      * rewrite orb_false_r. destruct (str_of_Z n); simpl; by rewrite trim_empty.
Qed.
End server.
