(* ===== verification/AuditLogs.v ===== *)
(** * The audit log

    [resources/js/pages/audit-logs/index.tsx]: the events of the instance, their filters, and the
    metadata each event shows when it is expanded.  The metadata is a JSON object; it is shown as
    [JSON.stringify(metadata, null, 2)] writes it. *)

From Stdlib Require Import String.
From stdpp Require Import gmap.
From S2P Require Import Prelude Lists JsString CrucibleLib Hooks View Badges Results Pagination.

Open Scope string_scope.
Open Scope Z_scope.
Open Scope list_scope.

(** ** JSON *)

(** The numbers of the metadata are integers (ids, ports, counts); the fields of an object are in
    the order [Object.keys] gives them. *)
Definition unit_string (n : nat) : string := String (ascii_of_nat n) EmptyString.

Definition hex_digit (n : N) : ascii := ascii_of_N (if (n <? 10)%N then 48 + n else 87 + n)%N.

(** The escape of a code unit in a JSON string. *)
Definition json_escape (c : ascii) : string :=
  let n := code c in
  if (n =? 34)%N then ("\" ++ unit_string 34)%string
  else if (n =? 92)%N then "\\"
  else if (n =? 8)%N then "\b"
  else if (n =? 9)%N then "\t"
  else if (n =? 10)%N then "\n"
  else if (n =? 12)%N then "\f"
  else if (n =? 13)%N then "\r"
  else if (n <? 32)%N then
    ("\u00" ++ String (hex_digit (n / 16)) (String (hex_digit (n mod 16)) EmptyString))%string
  else String c EmptyString.

Fixpoint json_escapes (s : string) : string :=
  match s with
  | EmptyString => EmptyString
  | String c s' => (json_escape c ++ json_escapes s')%string
  end.

Definition json_quote (s : string) : string :=
  (unit_string 34 ++ json_escapes s ++ unit_string 34)%string.

(** A non-empty array or object: one element to a line, indented by two more spaces. *)
Definition json_lines (opening closing indent : string) (lines : list string) : string :=
  match lines with
  | [] => (opening ++ closing)%string
  | _ =>
      let inner := (unit_string 10 ++ indent ++ "  ")%string in
      (opening ++ inner ++ join ("," ++ inner) lines ++ unit_string 10 ++ indent ++ closing)%string
  end.

(** [JSON.stringify(value, null, 2)], from an indentation on. *)
Fixpoint stringify (indent : string) (value : Json) : string :=
  match value with
  | JNull => "null"
  | JBool b => if b then "true" else "false"
  | JNumber n => str_of_Z n
  | JString s => json_quote s
  | JArray l => json_lines "[" "]" indent (map (stringify (indent ++ "  ")) l)
  | JObject l =>
      json_lines "{" "}" indent
        (map (fun e => json_quote (fst e) ++ ": " ++ stringify (indent ++ "  ") (snd e))%string l)
  end.

(** ** Data *)

Record AuditLog := {
  log_id : Z;
  log_action : string;
  log_actor : string;
  auditable_type : option string;
  auditable_id : option Z;
  log_ip_address : option string;
  metadata : option (list (string * Json));
  created_at : option string;
}.

Record AuditLogFilters := {
  search : string;
  action : string;
  actor : string;
  ip_address : string;
  event_family : string;
}.

Record Props := {
  audit_logs : Paginated AuditLog;
  filters : AuditLogFilters;
  action_options : list string;  (** [filter_options.actions] *)
}.

Record Routes := { index : string; exportAuditLogs : list (string * string) -> string }.

(** ** State and handler (lines 59-75) *)

(** [expandedLogIds], as the only state of the page *)
Definition State : Type := gset Z.

Definition initialState : State := ∅.

Definition toggleLogDetails (logId : Z) (expandedLogIds : State) : State :=
  if bool_decide (logId ∈ expandedLogIds) then expandedLogIds ∖ {[ logId ]}
  else {[ logId ]} ∪ expandedLogIds.

(** ** The page *)

Definition filters_query (f : AuditLogFilters) : list (string * string) :=
  [("search", search f); ("action", action f); ("actor", actor f); ("ip_address", ip_address f);
   ("event_family", event_family f)].

Section page.
Context (intl : string -> option string -> string) (routes : Routes).
Context (userTimezone : string) (processing : bool).

(** Lines 103-184 *)
Definition filterForm (props : Props) : node State :=
  let f := filters props in
  El (Tag "Form") [Attr "action" (index routes); Attr "method" "get"]
    [elem "div" [Txt "Filters"];
     elem "div"
       [El TInput [Attr "name" "search"; Attr "defaultValue" (search f);
                   Attr "placeholder" "Action, subject, actor, metadata";
                   Attr "aria-label" "Search audit events"] [];
        El TSelect [Attr "name" "action"; Attr "defaultValue" (action f);
                    Attr "aria-label" "Filter by event action"]
          (choice "" "All actions"
           :: map (fun action => choice action action) (action_options props));
        El TInput [Attr "name" "actor"; Attr "defaultValue" (actor f); Attr "placeholder" "Actor";
                   Attr "aria-label" "Filter by actor"] [];
        El TInput [Attr "name" "ip_address"; Attr "defaultValue" (ip_address f);
                   Attr "placeholder" "IP address"; Attr "aria-label" "Filter by IP address"] [];
        El TSelect [Attr "name" "event_family"; Attr "defaultValue" (event_family f);
                    Attr "aria-label" "Filter by event family"]
          [choice "" "All event families"; choice "native_proxy" "Native proxy"]];
     elem "div"
       [El TButton [Flag "disabled" processing] [Txt "Apply"];
        El (Tag "Link") [Attr "href" (index routes)] [Txt "Reset"]]].

(** Lines 281-316 *)
Definition logDetails (log : AuditLog) : node State :=
  El (Tag "tr") [Attr "key" (str_of_Z (log_id log) ++ "-details")%string]
    [elem "td"
       [elem "div"
          [elem "p" [Txt "Metadata"];
           match metadata log with
           | Some ((_ :: _) as l) => elem "pre" [Txt (stringify "" (JObject l))]
           | _ => elem "p" [Txt "No metadata was recorded for this event."]
           end]]].

(** Lines 222-319 *)
Definition logRow (expandedLogIds : State) (log : AuditLog) : list (node State) :=
  let isExpanded := bool_decide (log_id log ∈ expandedLogIds) in
  El (Tag "tr") [Attr "key" (str_of_Z (log_id log))]
    [elem "td"
       [El TButton
          [Attr "type" "button"; on_click (toggleLogDetails (log_id log));
           Flag "aria-expanded" isExpanded;
           Attr "aria-label"
             ((if isExpanded then "Hide" else "Show") ++ " details for " ++ log_action log)%string]
          []];
     elem "td" [elem "span" [Txt (log_action log)]];
     elem "td" [Txt (log_actor log)];
     elem "td"
       [Txt (if truthy_opt (auditable_type log)
             then ((auditable_type log ?? "") ++ " #" ++
                   (str_of_Z <$> auditable_id log) ?? "null")%string
             else "None")];
     elem "td" [Txt (log_ip_address log ?? "n/a")];
     elem "td" [Txt (formatDate intl (created_at log) (Some userTimezone))]]
  :: when isExpanded [logDetails log].

(** Lines 77-330 *)
Definition AuditLogsIndex (props : Props) (s : State) : node State :=
  elem "Fragment"
    [El (Tag "Head") [Attr "title" "Audit logs"] [];
     elem "div"
       [PageHeader "Audit logs"
          (Some (str_of_Z (page_total (audit_logs props)) ++ " recorded events")%string)
          [El (Tag "a") [Attr "href" (exportAuditLogs routes (filters_query (filters props)))]
             [Txt "Export CSV"]];
        DataRegistry "Event stream" (Some "Expand an event to inspect its recorded metadata.") []
          (filterForm props
           :: elem "div"
                [match page_data (audit_logs props) with
                 | [] =>
                     elem "div"
                       [EmptyState "No audit events found"
                          (Some "Events will appear here as users change access, submit reviews, and execute queries.")
                          []]
                 | logs =>
                     elem "div"
                       [elem "table"
                          [elem "thead"
                             [elem "tr" (map (fun text => elem "th" [Txt text])
                                ["Event details"; "Action"; "Actor"; "Subject"; "IP"; "Time"])];
                           elem "tbody" (flat_map (logRow s) logs)]]
                 end]
           :: Pagination (audit_logs props) None)]].
End page.

(** ** Expanding events *)

Lemma elem_of_toggle logId other (s : State) :
  other ∈ toggleLogDetails logId s <->
  if decide (other = logId) then logId ∉ s else other ∈ s.
Proof. unfold toggleLogDetails. repeat case_decide; case_bool_decide; set_solver. Qed.

(** Toggling an event twice changes nothing, and toggling commutes: what is expanded is the events
    that were toggled an odd number of times. *)
Theorem expanded_after_toggles (toggles : list Z) (s : State) logId :
  logId ∈ fold_left (fun s id => toggleLogDetails id s) toggles s <->
  xorb (bool_decide (logId ∈ s)) (Nat.odd (length (List.filter (Z.eqb logId) toggles))) = true.
Proof.
  revert s. induction toggles as [|id toggles IH]; intros s; simpl.
  - rewrite xorb_false_r, bool_decide_eq_true. done.
  - rewrite IH. destruct (Z.eqb_spec logId id) as [<-|Hne]; simpl length.
    + rewrite Nat.odd_succ, <- Nat.negb_odd.
      assert (bool_decide (logId ∈ toggleLogDetails logId s) = negb (bool_decide (logId ∈ s))) as ->.
      { rewrite <- bool_decide_not. apply bool_decide_ext. rewrite elem_of_toggle.
        by rewrite decide_True. }
      by destruct (bool_decide _), (Nat.odd _).
    + assert (bool_decide (logId ∈ toggleLogDetails id s) = bool_decide (logId ∈ s)) as ->; [|done].
      apply bool_decide_ext. rewrite elem_of_toggle. by rewrite decide_False.
Qed.

Example metadata_shown :
  stringify "" (JObject [("port", JNumber 5432); ("roles", JArray [JString "admin"])]) =
  join (unit_string 10)
    ["{"; "  " ++ json_quote "port" ++ ": 5432,"; "  " ++ json_quote "roles" ++ ": [";
     "    " ++ json_quote "admin"; "  ]"; "}"]%string.
Proof. vm_compute. reflexivity. Qed.

(** ** The form *)

(** The filters that are posted: what the controls hold, a [select] only one of its options. *)
Lemma auditFilterForm_entries typed sub routes processing props :
  let value field shown := typed field ?? shown in
  let chosen field shown options :=
    if existsb (str_eq (value field shown)) ("" :: options) then value field shown else "" in
  let f := filters props in
  entries typed sub (filterForm routes processing props) =
  [("search", value "search" (search f)); ("action", chosen "action" (action f) (action_options props));
   ("actor", value "actor" (actor f)); ("ip_address", value "ip_address" (ip_address f));
   ("event_family", chosen "event_family" (event_family f) ["native_proxy"])].
Proof.
  cbv zeta. unfold filterForm. rewrite entries_Tag. cbn [flat_map]. rewrite !entries_elem.
  cbn [flat_map entries]. unfold own_entries. cbn -[selected_option choice option_of existsb].
  rewrite entries_choices, option_of_choice, (option_of_choices id id). cbn [app].
  rewrite (selected_option_listed_or_first id), map_id. unfold current_value.
  cbn -[selected_option existsb].
  rewrite (selected_option_listed_or_first id _ _ ["native_proxy"]).
  by destruct processing.
Qed.
