(* ===== verification/Registries.v ===== *)
(** * Roles, connection groups and notifications

    The lists of [resources/js/pages/roles/index.tsx], [connection-groups/index.tsx] and
    [notifications/index.tsx]; with the deletions of [RoleController] and
    [ConnectionGroupController].  None of these pages keeps a state.  A dialog that confirms a
    deletion is opened by its button only: it is rendered where the button can be pressed. *)

From Stdlib Require Import String.
From S2P Require Import Prelude Lists JsString CrucibleLib View Badges Results Pagination.

Open Scope string_scope.
Open Scope Z_scope.
Open Scope list_scope.

Definition State := unit.

(** The addresses the forms of a page post to. *)
Fixpoint forms (n : node State) : list string :=
  match n with
  | Txt _ => []
  | El t ps ks =>
      (match t, attr "action" ps with
       | Tag name, Some action => when (str_eq name "Form") [action]
       | _, _ => []
       end ++ flat_map forms ks)%list
  end.

(** A link behind an icon, with its tooltip. *)
Definition iconLink (href label tooltip : string) : node State :=
  elem "Tooltip"
    [El (Tag "Link") [Attr "href" href; Attr "aria-label" label] [];
     elem "TooltipContent" [Txt tooltip]].

(** The button that deletes an entry, and the dialog that confirms it. *)
Definition deletion (canDelete : bool) (label tooltip action title : string)
    (description : list (node State)) (submit : string) (processing : bool) : node State :=
  elem "Dialog"
    (elem "Tooltip"
       [elem "DialogTrigger" [El TButton [Flag "disabled" (negb canDelete); Attr "aria-label" label] []];
        elem "TooltipContent" [Txt tooltip]]
     :: when canDelete
          [elem "DialogContent"
             [elem "DialogHeader"
                [elem "DialogTitle" [Txt title]; elem "DialogDescription" description];
              elem "DialogFooter"
                [elem "DialogClose" [El TButton [] [Txt "Cancel"]];
                 El (Tag "Form") [Attr "action" action]
                   [El TButton [Flag "disabled" processing] [Txt submit]]]]]).

Lemma forms_elem name ks : forms (elem name ks) = flat_map forms ks.
Proof. done. Qed.

Lemma deletion_forms canDelete label tooltip action title description submit processing :
  flat_map forms description = [] ->
  forms (deletion canDelete label tooltip action title description submit processing) =
  when canDelete [action].
Proof.
  intros Hd. unfold deletion. destruct canDelete; [|done]. simpl. by rewrite Hd.
Qed.

Lemma forms_when_text b t : flat_map forms (when b [elem "p" [Txt t]]) = [].
Proof. by destruct b. Qed.

Lemma forms_header title description acts :
  forms (PageHeader title description acts) = flat_map forms acts.
Proof.
  unfold PageHeader. destruct acts; simpl; rewrite forms_when_text, ?app_nil_r; done.
Qed.

Lemma forms_registry title description acts children :
  forms (DataRegistry title description acts children) =
  (flat_map forms acts ++ flat_map forms children)%list.
Proof.
  unfold DataRegistry. destruct acts; simpl; rewrite forms_when_text, ?app_nil_r; done.
Qed.

(** What becomes of a request to delete an entry. *)
Inductive Outcome := Forbidden | Refused (message : string) | Deleted.

(** ** Roles *)

Record RoleRecord := {
  role_id : Z;
  role_name : string;
  role_slug : string;
  role_description : option string;
  role_is_admin : bool;
  users_count : nat;
  database_permissions_count : nat;
  connection_group_policies_count : nat;
}.

Record RoleRoutes := {
  role_create : string;
  role_show : Z -> string;
  role_edit : Z -> string;
  role_destroy : Z -> string;
}.

(** Lines 111-117 *)
Definition role_canDelete (role : RoleRecord) : bool :=
  negb (role_is_admin role) && (users_count role =? 0)%nat &&
  (database_permissions_count role =? 0)%nat && (connection_group_policies_count role =? 0)%nat.

(** [RoleController::destroy] *)
Definition destroyRole (user_is_admin : bool) (role : RoleRecord) : Outcome :=
  if negb user_is_admin then Forbidden
  else if role_is_admin role then Forbidden
  else if (0 <? users_count role)%nat || (0 <? database_permissions_count role)%nat ||
          (0 <? connection_group_policies_count role)%nat
  then Refused "Role cannot be deleted while users or connection policies are attached."
  else Deleted.

Section roles.
Context (routes : RoleRoutes) (processing : bool).

Definition editRole (role : RoleRecord) : node State :=
  if role_is_admin role then
    elem "Tooltip"
      [El TButton [Flag "disabled" true; Attr "aria-label" "System role cannot be edited"] [];
       elem "TooltipContent" [Txt "System role cannot be edited"]]
  else iconLink (role_edit routes (role_id role)) ("Edit " ++ role_name role)%string "Edit role".

(** Lines 119-339 *)
Definition roleRow (role : RoleRecord) : node State :=
  El (Tag "tr") [Attr "key" (str_of_Z (role_id role))]
    [elem "td"
       (El (Tag "Link") [Attr "href" (role_show routes (role_id role))] [Txt (role_name role)]
        :: elem "div" [Txt (role_slug role)]
        :: when (truthy_opt (role_description role))
             [elem "div" [Txt (role_description role ?? "")]]);
     elem "td"
       [StatusBadge (if role_is_admin role then "active" else "none")
          (Some (if role_is_admin role then "Admin" else "Custom"))];
     elem "td" [elem "span" [Txt (str_of_nat (users_count role))]];
     elem "td"
       (elem "span" [Txt (str_of_nat (database_permissions_count role +
                                      connection_group_policies_count role))]
        :: when (0 <? connection_group_policies_count role)%nat
             [elem "span" [Txt ("(" ++ str_of_nat (connection_group_policies_count role) ++
                                " groups)")%string]]);
     elem "td"
       [elem "div"
          [iconLink (role_show routes (role_id role)) ("View " ++ role_name role)%string "View role";
           editRole role;
           deletion (role_canDelete role) ("Delete " ++ role_name role)%string
             (if role_canDelete role then "Delete role"
              else "Detach users and policies before deleting")
             (role_destroy routes (role_id role)) "Delete role?"
             [Txt ("This removes " ++ role_name role ++ " from role management. Roles with users or database policies must be detached first.")%string]
             "Yes, delete" processing]]].

Definition newRole : node State :=
  El (Tag "Link") [Attr "href" (role_create routes)] [Txt "New role"].

(** Lines 41-349 *)
Definition RolesIndex (roles : list RoleRecord) : node State :=
  elem "Fragment"
    [El (Tag "Head") [Attr "title" "Roles"] [];
     elem "div"
       [PageHeader "Roles"
          (Some (str_of_nat (length roles) ++ " roles available for user assignment")%string)
          [newRole];
        DataRegistry "Role registry" (Some "Manage custom roles used by the access matrix.") []
          [match roles with
           | [] =>
               elem "div"
                 [EmptyState "No custom roles yet"
                    (Some "Create a role before assigning database policies to people.") [newRole]]
           | _ =>
               elem "div"
                 [elem "table"
                    [elem "thead"
                       [elem "tr" (map (fun text => elem "th" [Txt text])
                          ["Role"; "Type"; "Users"; "Policies"; "Actions"])];
                     elem "tbody" (map roleRow roles)]]
           end]]].
End roles.

(** ** Connection groups *)

Record ConnectionGroup := {
  group_id : Z;
  group_name : string;
  group_description : option string;
  database_connections_count : nat;
  role_policies_count : nat;
}.

Record GroupRoutes := {
  group_create : string;
  group_show : Z -> string;
  group_edit : Z -> string;
  group_destroy : Z -> string;
}.

Definition group_canDelete (connectionGroup : ConnectionGroup) : bool :=
  (role_policies_count connectionGroup =? 0)%nat.

(** [ConnectionGroupController::destroy] *)
Definition destroyGroup (user_is_admin : bool) (connectionGroup : ConnectionGroup) : Outcome :=
  if negb user_is_admin then Forbidden
  else if (0 <? role_policies_count connectionGroup)%nat
  then Refused "Remove this group from all role policies before deleting it."
  else Deleted.

Section groups.
Context (routes : GroupRoutes) (processing : bool).

(** Lines 112-293 *)
Definition groupRow (connectionGroup : ConnectionGroup) : node State :=
  let id := group_id connectionGroup in
  let name := group_name connectionGroup in
  El (Tag "tr") [Attr "key" (str_of_Z id)]
    [elem "td"
       [elem "div"
          (El (Tag "Link") [Attr "href" (group_show routes id)] [Txt name]
           :: when (truthy_opt (group_description connectionGroup))
                [elem "p" [Txt (group_description connectionGroup ?? "")]])];
     elem "td" [elem "span" [Txt (str_of_nat (database_connections_count connectionGroup))]];
     elem "td" [elem "span" [Txt (str_of_nat (role_policies_count connectionGroup))]];
     elem "td"
       [elem "div"
          [iconLink (group_show routes id) ("View " ++ name)%string "View group";
           iconLink (group_edit routes id) ("Edit " ++ name)%string "Edit group";
           deletion (group_canDelete connectionGroup) ("Delete " ++ name)%string
             (if group_canDelete connectionGroup then "Delete group"
              else "Remove the group from role policies before deleting")
             (group_destroy routes id) "Delete connection group?"
             [Txt ("This removes " ++ name ++ " and its explicit member list.")%string]
             "Delete group" processing]]].

Definition newGroup : node State :=
  El (Tag "Link") [Attr "href" (group_create routes)] [Txt "New group"].

(** Lines 46-304 *)
Definition ConnectionGroupsIndex (connection_groups : list ConnectionGroup) : node State :=
  elem "Fragment"
    [El (Tag "Head") [Attr "title" "Connection Groups"] [];
     elem "div"
       [PageHeader "Connection Groups"
          (Some (str_of_nat (length connection_groups) ++
                 " groups organize explicit access scopes")%string) [newGroup];
        DataRegistry "Group registry"
          (Some "Group explicit database targets before applying an access policy to a role.") []
          [match connection_groups with
           | [] =>
               elem "div"
                 [EmptyState "No connection groups yet"
                    (Some "Create a group to apply one role policy across a selected set of database connections.")
                    [newGroup]]
           | _ =>
               elem "div"
                 [elem "table"
                    [elem "thead"
                       [elem "tr" (map (fun text => elem "th" [Txt text])
                          ["Connection group"; "Connections"; "Roles using group"; "Actions"])];
                     elem "tbody" (map groupRow connection_groups)]]
           end]]].
End groups.

(** ** Notifications *)

Inductive Severity := SeverityInfo | SeveritySuccess | SeverityWarning | SeverityCritical.

Record NotificationItem := {
  notification_id : string;
  severity : Severity;
  notification_title : string;
  message : string;
  request_id : option Z;
  action_label : string;
  url : string;
  notified_at : option string;
  read_at : option string;
}.

Record NotificationRoutes := { markAllRead : string; markRead : string -> string }.

Definition severityTone (s : Severity) : SemanticTone :=
  match s with
  | SeverityCritical => Danger
  | SeverityWarning => Pending
  | SeveritySuccess => Success
  | SeverityInfo => Info
  end.

Definition unread (notification : NotificationItem) : bool := negb (is_some (read_at notification)).

Section notifications.
Context (intl : string -> option string -> string) (routes : NotificationRoutes).
Context (userTimezone : string) (processing : bool).

(** Lines 84-161 *)
Definition notificationArticle (notification : NotificationItem) : node State :=
  El (Tag "article") [Attr "key" (notification_id notification)]
    [elem "div"
       [El (Tag "SemanticIcon") [Attr "tone" (tone_name (severityTone (severity notification)))] [];
        elem "div"
          [elem "div"
             (match request_id notification with
              | Some id => [elem "span" [Txt "#"; Txt (str_of_Z id)]]
              | None => []
              end ++
              elem "h2" [Txt (notification_title notification)]
              :: when (unread notification) [elem "span" [Txt "New"]]);
           elem "p" [Txt (message notification)];
           elem "p" [Txt (formatDate intl (notified_at notification) (Some userTimezone))]]];
     elem "div"
       (El (Tag "Link") [Attr "href" (url notification)] [Txt (action_label notification)]
        :: when (unread notification)
             [El (Tag "Form") [Attr "action" (markRead routes (notification_id notification))]
                [El TButton [Flag "disabled" processing] [Txt "Mark read"]]])].

(** Lines 34-170 *)
Definition NotificationsIndex (notifications : Paginated NotificationItem) : node State :=
  let hasUnread := existsb unread (page_data notifications) in
  elem "Fragment"
    [El (Tag "Head") [Attr "title" "Notifications"] [];
     elem "div"
       (PageHeader "Notifications"
          (Some "Operational updates for requests, query access, and connection health.")
          (when hasUnread
             [El (Tag "Form") [Attr "action" (markAllRead routes)]
                [El TButton [Flag "disabled" processing] [Txt "Mark all read"]]])
        :: elem "section"
             [match page_data notifications with
              | [] =>
                  elem "div"
                    [EmptyState "You are all caught up"
                       (Some "Approvals, execution outcomes, session changes, and connection failures will appear here.")
                       []]
              | l => elem "div" (map notificationArticle l)
              end]
        :: Pagination notifications None)].
End notifications.

(** ** What the lists offer *)

Lemma StatusBadge_forms value label : forms (StatusBadge value label) = [].
Proof. done. Qed.

Lemma roleRow_forms routes processing role :
  forms (roleRow routes processing role) =
  when (role_canDelete role) [role_destroy routes (role_id role)].
Proof.
  unfold roleRow. cbn -[deletion editRole StatusBadge role_canDelete].
  rewrite deletion_forms by done. unfold editRole.
  destruct (role_is_admin role), (truthy_opt _), (connection_group_policies_count role); cbn; by rewrite !app_nil_r.
Qed.

(** The rows of a table offer what each row offers. *)
Lemma rows_forms {A} (row : A -> node State) (offered : A -> bool) (address : A -> string) l :
  (forall x, forms (row x) = when (offered x) [address x]) ->
  flat_map forms (map row l) = map address (List.filter offered l).
Proof.
  intros H. induction l as [|x l IH]; [done|]. simpl. rewrite H, IH. by destruct (offered x).
Qed.

Lemma RolesIndex_forms routes processing roles :
  forms (RolesIndex routes processing roles) =
  map (fun role => role_destroy routes (role_id role)) (List.filter role_canDelete roles).
Proof.
  rewrite <- (rows_forms _ _ _ _ (roleRow_forms routes processing)).
  destruct roles as [|role roles]; [done|]. unfold RolesIndex.
  cbn -[roleRow PageHeader DataRegistry].
  rewrite forms_header, forms_registry. cbn -[roleRow]. by rewrite !app_nil_r.
Qed.

Lemma groupRow_forms routes processing group :
  forms (groupRow routes processing group) =
  when (group_canDelete group) [group_destroy routes (group_id group)].
Proof.
  unfold groupRow. cbn -[deletion group_canDelete]. rewrite deletion_forms by done.
  destruct (truthy_opt _); cbn; by rewrite !app_nil_r.
Qed.

Lemma ConnectionGroupsIndex_forms routes processing groups :
  forms (ConnectionGroupsIndex routes processing groups) =
  map (fun group => group_destroy routes (group_id group)) (List.filter group_canDelete groups).
Proof.
  rewrite <- (rows_forms _ _ _ _ (groupRow_forms routes processing)).
  destruct groups as [|group groups]; [done|]. unfold ConnectionGroupsIndex.
  cbn -[groupRow PageHeader DataRegistry].
  rewrite forms_header, forms_registry. cbn -[groupRow]. by rewrite !app_nil_r.
Qed.

Lemma Pagination_forms {T} (pagination : Paginated T) anchor :
  flat_map forms (Pagination pagination anchor) = [].
Proof.
  unfold Pagination. destruct (_ <=? _)%nat; [done|]. cbn -[page_link].
  rewrite !app_nil_r, flat_map_map. apply flat_map_nil_all. intros link. unfold page_link.
  by destruct (Pagination.url link) as [[]|].
Qed.

Lemma article_forms intl routes tz processing n :
  forms (notificationArticle intl routes tz processing n) =
  when (unread n) [markRead routes (notification_id n)].
Proof.
  unfold notificationArticle. simpl. destruct (request_id n), (unread n); done.
Qed.

(** The unread notifications of the page can be marked one by one, and all of them by one button
    when there is any. *)
Lemma NotificationsIndex_forms intl routes tz processing notifications :
  let unread_here := List.filter unread (page_data notifications) in
  forms (NotificationsIndex intl routes tz processing notifications) =
  (match unread_here with [] => [] | _ => [markAllRead routes] end ++
   map (fun n => markRead routes (notification_id n)) unread_here)%list.
Proof.
  cbv zeta. unfold NotificationsIndex.
  rewrite <- (rows_forms _ _ _ _ (article_forms intl routes tz processing)).
  assert (Hall : forall b : bool, b = existsb unread (page_data notifications) ->
    when b [markAllRead routes] =
    match List.filter unread (page_data notifications) with [] => [] | _ => [markAllRead routes] end).
  { intros b ->. induction (page_data notifications) as [|n l IH]; [done|]. simpl.
    by destruct (unread n). }
  rewrite <- (Hall _ eq_refl). cbn -[existsb notificationArticle Pagination PageHeader].
  rewrite forms_header, Pagination_forms, !app_nil_r.
  destruct (existsb _ _), (page_data notifications) as [|n l]; cbn -[notificationArticle];
    by rewrite ?app_nil_r.
Qed.

(** *** Deletions *)

Lemma role_canDelete_spec role : role_canDelete role = true <-> destroyRole true role = Deleted.
Proof.
  unfold role_canDelete, destroyRole. cbn [negb].
  destruct (role_is_admin role), (users_count role), (database_permissions_count role),
    (connection_group_policies_count role); simpl; naive_solver.
Qed.

Lemma group_canDelete_spec group : group_canDelete group = true <-> destroyGroup true group = Deleted.
Proof. unfold group_canDelete, destroyGroup. destruct (role_policies_count group); naive_solver. Qed.

(** The lists offer to delete exactly the roles and the groups whose deletion the server accepts
    from the administrator who sees them. *)
Theorem offered_deletions_accepted role_routes group_routes processing roles groups :
  (forall action, action ∈ forms (RolesIndex role_routes processing roles) <->
     exists role, role ∈ roles /\ destroyRole true role = Deleted /\
                  action = role_destroy role_routes (role_id role)) /\
  (forall action, action ∈ forms (ConnectionGroupsIndex group_routes processing groups) <->
     exists group, group ∈ groups /\ destroyGroup true group = Deleted /\
                   action = group_destroy group_routes (group_id group)).
Proof.
  split; intros action;
    rewrite ?RolesIndex_forms, ?ConnectionGroupsIndex_forms, list_elem_of_fmap;
    setoid_rewrite list_elem_of_In; setoid_rewrite filter_In.
  - setoid_rewrite <- role_canDelete_spec. naive_solver.
  - setoid_rewrite <- group_canDelete_spec. naive_solver.
Qed.
