(* ===== verification/SystemPages.v ===== *)
(** * SSO providers and system status

    The list of [resources/js/pages/settings/authentication-providers/index.tsx], with the deletion of
    [AuthProviderController]; and [resources/js/pages/settings/admin/system-status.tsx], with the
    snapshots of [app/Services/SystemStatus.php].  Neither page keeps a state.

    The routes, the dates of the locale and what the probes of the server find are parameters. *)

From Stdlib Require Import String.
From S2P Require Import Prelude JsString CrucibleLib View Badges Registries.

Open Scope string_scope.
Open Scope Z_scope.
Open Scope list_scope.

(** ** SSO providers *)

Record AuthProviderRecord := {
  auth_provider_id : Z;
  provider_label : string;
  auth_provider_name : string;
  client_id : string;
  allowed_domains : string;
  issuer_url : option string;
  is_enabled : bool;
  callback_url : string;
  user_identities_count : nat;
}.

Record ProviderRoutes := {
  provider_create : string;
  provider_edit : Z -> string;
  provider_test : Z -> string;
  provider_destroy : Z -> string;
}.

(** Lines 106-108 *)
Definition provider_canDelete (provider : AuthProviderRecord) : bool :=
  (user_identities_count provider =? 0)%nat.

(** [AuthProviderController::destroy] *)
Definition destroyProvider (user_is_admin : bool) (provider : AuthProviderRecord) : Outcome :=
  if negb user_is_admin then Forbidden
  else if (0 <? user_identities_count provider)%nat
  then Refused "Provider cannot be deleted while user identities are linked. Disable it instead."
  else Deleted.

Section providers.
Context (routes : ProviderRoutes) (processing : bool).

Definition newProvider : node State := El (Tag "Link") [Attr "href" (provider_create routes)] [Txt "New provider"].

(** Lines 191-256: the dialog is opened by its button only. *)
Definition deleteProvider (provider : AuthProviderRecord) : node State :=
  elem "Dialog"
    (elem "DialogTrigger"
       [El TButton [Flag "disabled" (negb (provider_canDelete provider))] [Txt "Delete"]]
     :: when (provider_canDelete provider)
          [elem "DialogContent"
             [elem "DialogHeader"
                [elem "DialogTitle" [Txt "Delete provider?"];
                 elem "DialogDescription"
                   [Txt "Linked identities must be removed before deleting a provider. Disable it to stop login immediately."]];
              elem "DialogFooter"
                [elem "DialogClose" [El TButton [] [Txt "Cancel"]];
                 El (Tag "Form") [Attr "action" (provider_destroy routes (auth_provider_id provider))]
                   [El TButton [Flag "disabled" processing] [Txt "Delete"]]]]]).

(** Lines 105-261 *)
Definition providerRow (provider : AuthProviderRecord) : node State :=
  El (Tag "tr") [Attr "key" (str_of_Z (auth_provider_id provider))]
    [elem "td"
       (elem "div" [Txt (auth_provider_name provider)]
        :: elem "div" [Txt (provider_label provider ++ " / " ++ client_id provider)%string]
        :: when (truthy_opt (issuer_url provider)) [elem "code" [Txt (issuer_url provider ?? "")]]);
     elem "td"
       [StatusBadge (if is_enabled provider then "active" else "disabled")
          (Some (if is_enabled provider then "Enabled" else "Disabled"))];
     elem "td"
       [Txt (if truthy (allowed_domains provider) then allowed_domains provider else "Any invited email")];
     elem "td" [elem "code" [Txt (callback_url provider)]];
     elem "td" [Txt (str_of_nat (user_identities_count provider))];
     elem "td"
       [elem "div"
          [El (Tag "a") [Attr "href" (provider_test routes (auth_provider_id provider))] [Txt "Test"];
           El (Tag "Link") [Attr "href" (provider_edit routes (auth_provider_id provider))] [Txt "Edit"];
           deleteProvider provider]]].

(** Lines 40-270 *)
Definition AuthProvidersIndex (providers : list AuthProviderRecord) : node State :=
  elem "Fragment"
    [El (Tag "Head") [Attr "title" "SSO providers"] [];
     elem "div"
       [PageHeader "SSO providers"
          (Some "Manage invitation-gated SSO and verify OAuth or OIDC configuration.") [newProvider];
        DataRegistry "Provider registry"
          (Some "Provider credentials are encrypted. Disable a provider to stop new SSO logins.") []
          (if (length providers =? 0)%nat
           then [elem "div"
                   [EmptyState "No SSO providers configured"
                      (Some "Add an OAuth or OIDC provider when invited users should be able to sign in with SSO.")
                      [newProvider]]]
           else [elem "div"
                   [elem "table"
                      [elem "thead"
                         [elem "tr"
                            (map (fun h => elem "th" [Txt h])
                               ["Provider"; "Status"; "Domains"; "Callback URL"; "Linked Users"; "Actions"])];
                       elem "tbody" (map providerRow providers)]]])]].

Lemma providerRow_forms provider :
  forms (providerRow provider) =
  when (provider_canDelete provider) [provider_destroy routes (auth_provider_id provider)].
Proof.
  unfold providerRow, deleteProvider, StatusBadge. cbn.
  by destruct (truthy_opt _), (provider_canDelete provider).
Qed.

Lemma AuthProvidersIndex_forms providers :
  forms (AuthProvidersIndex providers) =
  map (fun p => provider_destroy routes (auth_provider_id p)) (List.filter provider_canDelete providers).
Proof.
  unfold AuthProvidersIndex, DataRegistry, EmptyState, PageHeader. destruct providers as [|p ps]; [done|].
  cbn -[providerRow]. rewrite !app_nil_r, providerRow_forms, flat_map_map.
  rewrite (flat_map_ext _ (fun p => when (provider_canDelete p) [provider_destroy routes (auth_provider_id p)]))
    by apply providerRow_forms.
  assert (H : forall l, flat_map (fun p => when (provider_canDelete p) [provider_destroy routes (auth_provider_id p)]) l =
    map (fun p => provider_destroy routes (auth_provider_id p)) (List.filter provider_canDelete l)).
  { induction l as [|q l IH]; [done|]. cbn. rewrite IH. by destruct (provider_canDelete q). }
  rewrite H. by destruct (provider_canDelete p).
Qed.

(** The list offers to delete exactly the providers whose deletion the server accepts. *)
Theorem offered_provider_deletions providers action :
  action ∈ forms (AuthProvidersIndex providers) <->
  exists p, p ∈ providers /\ destroyProvider true p = Deleted /\
            action = provider_destroy routes (auth_provider_id p).
Proof.
  rewrite AuthProvidersIndex_forms, list_elem_of_fmap. setoid_rewrite list_elem_of_In.
  setoid_rewrite filter_In.
  assert (H : forall p, provider_canDelete p = true <-> destroyProvider true p = Deleted)
    by (intros p; unfold provider_canDelete, destroyProvider; destruct (user_identities_count p); naive_solver).
  setoid_rewrite H. naive_solver.
Qed.
End providers.

(** ** System status *)

Inductive Meta := MetaText (s : string) | MetaNumber (n : Z).

(** A component; a metadata entry that is [null] or left out is [None]. *)
Record ComponentStatus := {
  component_status : string;
  component_detail : string;
  metadata : list (string * option Meta);
}.

Record Snapshot := {
  checked_at : option string;
  components : list (string * ComponentStatus);
}.

Record RuntimeStatus := {
  runtime_driver : string;
  runtime_php_version : string;
  runtime_version : string;
  runtime_status : string;
  runtime_detail : string;
}.

Definition meta (m : list (string * option Meta)) (key : string) : option Meta :=
  match find_first (fun e => str_eq (fst e) key) m with Some e => snd e | None => None end.

Definition meta_text (v : Meta) : string :=
  match v with MetaText s => s | MetaNumber n => str_of_Z n end.

(** [componentPresentation]: the titles of the components. *)
Definition componentPresentation : list (string * string) :=
  [("database", "Control database"); ("redis", "Redis"); ("horizon", "Horizon");
   ("scheduler", "Scheduler"); ("native_proxy", "Native proxy")].

Definition presentation (key : string) : option string :=
  snd <$> find_first (fun e => str_eq (fst e) key) componentPresentation.

Section status.
Context (intl : string -> option string -> string) (timezone : option string).

(** Lines 185-216 *)
Definition metadataDetails (component : string) (m : list (string * option Meta))
    : list (string * option Meta) :=
  if str_eq component "horizon" then
    [("Masters", meta m "masters"); ("Supervisors", meta m "supervisors")]
  else if str_eq component "scheduler" then
    [("Last heartbeat",
      match meta m "last_heartbeat_at" with
      | Some (MetaText at_) => Some (MetaText (formatDate intl (Some at_) timezone))
      | _ => None
      end)]
  else if str_eq component "native_proxy" then
    [("Proxy", meta m "proxy_id"); ("Version", meta m "version")]
  else [].

(** Lines 140-183 *)
Definition StatusCard (title status detail : string) (details : list (string * option Meta)) : node State :=
  elem "article"
    (elem "div"
       [elem "div"
          [El (Tag "SemanticIcon") [Attr "tone" (tone_name (semanticToneForStatus status))] [];
           elem "h2" [Txt title]];
        StatusBadge status None]
     :: elem "p" [Txt detail]
     :: when (0 <? length details)%nat
          [elem "dl"
             (map (fun d => El (Tag "div") [Attr "key" (fst d)]
                [elem "dt" [Txt (fst d)];
                 elem "dd" [Txt ((meta_text <$> snd d) ?? "Not reported")]]) details)]).

Definition needs_attention (status : string) : bool :=
  existsb (str_eq status) ["degraded"; "unhealthy"; "unknown"].

(** Lines 61-67 *)
Definition hasIssue (systemStatus : Snapshot) (runtime : RuntimeStatus) : bool :=
  existsb needs_attention
    (runtime_status runtime :: map (fun c => component_status (snd c)) (components systemStatus)).

Definition runtimeCard (runtime : RuntimeStatus) : node State :=
  StatusCard "Application runtime" (runtime_status runtime) (runtime_detail runtime)
    [("Version", Some (MetaText (runtime_version runtime)));
     ("Runtime", Some (MetaText (runtime_driver runtime)));
     ("PHP", Some (MetaText (runtime_php_version runtime)))].

(** Lines 104-126 *)
Definition componentCard (c : string * ComponentStatus) : list (node State) :=
  match presentation (fst c) with
  | None => []
  | Some title =>
      [StatusCard title (component_status (snd c)) (component_detail (snd c))
         (metadataDetails (fst c) (metadata (snd c)))]
  end.

(** Lines 51-138 *)
Definition SystemStatus (systemStatus : Snapshot) (runtime : RuntimeStatus) : node State :=
  elem "Fragment"
    [El (Tag "Head") [Attr "title" "System status"] [];
     elem "div"
       [PageHeader "System status"
          (Some "Read-only operational snapshots. Checks are refreshed by the scheduler; this page never initiates infrastructure probes.")
          [elem "div"
             [StatusBadge (if hasIssue systemStatus runtime then "degraded" else "healthy")
                (Some (if hasIssue systemStatus runtime then "Needs attention" else "Operational"));
              elem "span" [Txt ("Checked " ++ formatDate intl (checked_at systemStatus) timezone)%string]]];
        elem "section" (runtimeCard runtime :: flat_map componentCard (components systemStatus));
        elem "p"
          [Txt "A status of "; elem "span" [Txt "Unknown"];
           Txt " means no recent snapshot is available. It is not treated as healthy."]]].
End status.

(** *** The snapshots of the server *)

(** What the probes find: a connectivity check that succeeds; the state of Horizon ([None] when it
    cannot be read): masters, supervisors and whether one is paused; the last heartbeat; the health of
    the proxy, its message, its identifier and its version. *)
Record Probes := {
  database_reached : bool;
  redis_reached : bool;
  horizon_read : option (nat * nat * bool);
  heartbeat : option string;
  proxy_health : string;
  proxy_message : option string;
  proxy_id : option string;
  proxy_version : option string;
}.

Definition checked (ok : bool) (up down : string) : ComponentStatus := {|
  component_status := if ok then "healthy" else "unhealthy";
  component_detail := if ok then up else down;
  metadata := [] |}.

(** [databaseStatus], [redisStatus] *)
Definition databaseStatus (p : Probes) : ComponentStatus :=
  checked (database_reached p) "The control database accepted a bounded connectivity check."
    "The control database could not be reached by the status check.".

Definition redisStatus (p : Probes) : ComponentStatus :=
  checked (redis_reached p) "Redis accepted a bounded ping." "Redis could not be reached by the status check.".

(** [horizonStatus] *)
Definition horizonStatus (p : Probes) : ComponentStatus :=
  let counted (masters supervisors : nat) :=
    [("masters", Some (MetaNumber (Z.of_nat masters)));
     ("supervisors", Some (MetaNumber (Z.of_nat supervisors)))] in
  match horizon_read p with
  | None => {| component_status := "unhealthy";
               component_detail := "Horizon state could not be read from Redis."; metadata := counted 0 0 |}
  | Some (O, _, _) =>
      {| component_status := "unhealthy";
         component_detail := "No active Horizon master supervisor was reported."; metadata := counted 0 0 |}
  | Some (masters, supervisors, isPaused) =>
      {| component_status := if isPaused then "degraded" else "healthy";
         component_detail := if isPaused then "Horizon is reporting one or more paused supervisors."
                             else "Horizon is reporting active supervisors.";
         metadata := counted masters supervisors |}
  end%nat.

(** [schedulerStatus] *)
Definition schedulerStatus (p : Probes) : ComponentStatus :=
  if truthy_opt (heartbeat p) then
    {| component_status := "healthy"; component_detail := "The scheduler recorded a recent heartbeat.";
       metadata := [("last_heartbeat_at", MetaText <$> heartbeat p)] |}
  else
    {| component_status := "unhealthy";
       component_detail := "No scheduler heartbeat was observed in the expected interval.";
       metadata := [("last_heartbeat_at", None)] |}.

(** [nativeProxyStatus] *)
Definition nativeProxyStatus (p : Probes) : ComponentStatus := {|
  component_status :=
    if str_eq (proxy_health p) "healthy" then "healthy"
    else if str_eq (proxy_health p) "disabled" then "disabled"
    else if str_eq (proxy_health p) "version_mismatch" then "degraded" else "unhealthy";
  component_detail := proxy_message p ?? "The native proxy reported ready for client connections.";
  metadata := [("proxy_id", MetaText <$> proxy_id p); ("version", MetaText <$> proxy_version p)] |}.

(** [refresh] *)
Definition refresh (now : string) (p : Probes) : Snapshot := {|
  checked_at := Some now;
  components :=
    [("database", databaseStatus p); ("redis", redisStatus p); ("horizon", horizonStatus p);
     ("scheduler", schedulerStatus p); ("native_proxy", nativeProxyStatus p)] |}.

Definition unknown (detail : string) : ComponentStatus := {|
  component_status := "unknown"; component_detail := detail; metadata := [] |}.

(** [latest], from the snapshot in the cache. *)
Definition latest (cached : option Snapshot) (p : Probes) : Snapshot :=
  match cached with
  | Some snapshot => snapshot
  | None => {|
      checked_at := None;
      components :=
        [("database", unknown "The system status check has not reported yet.");
         ("redis", unknown "The system status check has not reported yet.");
         ("horizon", unknown "The system status check has not reported yet.");
         ("scheduler", unknown "The scheduler heartbeat has not reported yet.");
         ("native_proxy", nativeProxyStatus p)] |}
  end.

(** [applicationRuntime] *)
Definition applicationRuntime (driver php version : string) : RuntimeStatus := {|
  runtime_driver := driver; runtime_php_version := php; runtime_version := version;
  runtime_status := "healthy";
  runtime_detail := "This page was served successfully by the configured application runtime." |}.

(** What is in order, as the probes say. *)
Definition in_order (p : Probes) : bool :=
  database_reached p && redis_reached p &&
  match horizon_read p with Some (S _, _, false) => true | _ => false end &&
  truthy_opt (heartbeat p) &&
  (str_eq (proxy_health p) "healthy" || str_eq (proxy_health p) "disabled").

(** The head of the page tells the truth: it says "Operational" exactly when a snapshot was taken and
    everything it probed is in order, and the page has a card for the runtime and one for each of the
    five components. *)
Theorem operational_iff_in_order intl timezone now p p' driver php version :
  let runtime := applicationRuntime driver php version in
  hasIssue (latest (Some (refresh now p)) p') runtime = negb (in_order p) /\
  hasIssue (latest None p') runtime = true /\
  forall cached, cached = None \/ cached = Some (refresh now p) ->
    length (flat_map (componentCard intl timezone) (components (latest cached p'))) = 5%nat.
Proof.
  split; [|split].
  - unfold hasIssue, in_order. simpl. unfold databaseStatus, redisStatus, checked, horizonStatus, schedulerStatus.
    destruct (database_reached p), (redis_reached p), (horizon_read p) as [[[[|m] sup] []]|],
      (truthy_opt (heartbeat p)); try done; simpl;
      destruct (str_eq (proxy_health p) "healthy"); [done|]; destruct (str_eq (proxy_health p) "disabled"); [done|];
      by destruct (str_eq (proxy_health p) "version_mismatch").
  - done.
  - by intros cached [->| ->].
Qed.
