(* ===== verification/Dashboard.v ===== *)
(** * The overview page

    [resources/js/pages/dashboard.tsx]: the summary of the work that waits, the operational queue
    with its filter, the poll and the timer; with [app/Services/DashboardOverview.php], which
    counts the work and collects the queue. *)

From Stdlib Require Import String.
From S2P Require Import Prelude Lists JsString CrucibleLib View Badges.

Open Scope string_scope.
Open Scope Z_scope.
Open Scope list_scope.

(** ** Data (lines 43-135) *)

Inductive OperationalQueueType :=
  | ActiveSession | FailedExecution | PendingReviewItem | PolicyReviewItem | ReadyExecution
  | ScheduledExecution.

Inductive QueueFilter := FilterAll | FilterAttention | FilterLive | FilterReady | FilterScheduled.

#[global] Instance OperationalQueueType_eq_dec : EqDecision OperationalQueueType.
Proof. solve_decision. Defined.
#[global] Instance QueueFilter_eq_dec : EqDecision QueueFilter.
Proof. solve_decision. Defined.

Definition queue_type_text (type : OperationalQueueType) : string :=
  match type with
  | ActiveSession => "active_session"
  | FailedExecution => "failed_execution"
  | PendingReviewItem => "pending_review"
  | PolicyReviewItem => "policy_review"
  | ReadyExecution => "ready_execution"
  | ScheduledExecution => "scheduled_execution"
  end.

Record OperationalQueueItem := {
  item_id : Z;
  item_title : string;
  item_type : OperationalQueueType;
  connection : option string;
  actor : option string;
  timestamp : option string;
  detail : option string;
  related_title : option string;
  item_count : option Z;
  driver : option string;
  item_request_kind : option QueryRequestKind;
  item_query_type : option QueryType;
  item_access_mode : option AccessMode;
}.

Record Summary := {
  pending_reviews : Z;
  policy_reviews : Z;
  ready : Z;
  scheduled : Z;
  failed : Z;
  active_sessions : Z;
  native_proxy_connections : Z;
}.

Record Props := {
  summary : Summary;
  operational_queue : list OperationalQueueItem;
  native_proxy_health : string;  (** its status *)
}.

Record QueuePresentation := { label : string; tone : SemanticTone; status : string; filter : QueueFilter }.

Definition queuePresentation (type : OperationalQueueType) : QueuePresentation :=
  match type with
  | FailedExecution =>
      {| label := "Failed"; tone := Danger; status := "failed"; filter := FilterAttention |}
  | PendingReviewItem =>
      {| label := "Review"; tone := Pending; status := "pending_review"; filter := FilterAttention |}
  | PolicyReviewItem =>
      {| label := "Policy"; tone := Pending; status := "pending"; filter := FilterAttention |}
  | ActiveSession =>
      {| label := "Session"; tone := Success; status := "active"; filter := FilterLive |}
  | ReadyExecution =>
      {| label := "Ready"; tone := Info; status := "approved"; filter := FilterReady |}
  | ScheduledExecution =>
      {| label := "Scheduled"; tone := Info; status := "scheduled"; filter := FilterScheduled |}
  end.

(** The generated routes; [requests_index] takes the query string of the list. *)
Record Routes := {
  showQuerySession : Z -> string;
  editSqlPolicy : option Z -> string;
  showQueryRequest : Z -> string;
  createQueryRequest : string;
  queryRequestsIndex : list (string * string) -> string;
}.

(** ** An item of the queue (lines 180-218) *)

Definition queueHref (routes : Routes) (item : OperationalQueueItem) : string :=
  match item_type item with
  | ActiveSession => showQuerySession routes (item_id item)
  | PolicyReviewItem => editSqlPolicy routes (Some (item_id item))
  | _ => showQueryRequest routes (item_id item)
  end.

(** [.filter(value => Boolean(value))] *)
Definition present (values : list (option string)) : list string :=
  List.filter truthy (omap id values).

Definition queueMetadata (item : OperationalQueueItem) : string :=
  match item_type item with
  | PolicyReviewItem =>
      join " · " (present
        [if truthy_opt (driver item) then Some (driverLabel (driver item ?? "")) else None;
         Some (related_title item ?? "Deployment draft"); actor item])
  | _ => join " · " (present [connection item; actor item])
  end.

Definition queueTimestamp (intl : string -> option string -> string) (now : Z)
    (item : OperationalQueueItem) (timezone : string) : string :=
  if negb (truthy_opt (timestamp item)) then "Time unavailable"
  else match item_type item with
       | ActiveSession => formatRemaining now (timestamp item)
       | _ => formatDate intl (timestamp item) (Some timezone)
       end.

(** ** The state, its timer and its handlers (lines 362-388) *)

Record State := { queueFilter : QueueFilter; timerTick : Z }.

Definition initialState : State := {| queueFilter := FilterAll; timerTick := 0 |}.

Definition setQueueFilter (f : QueueFilter) (s : State) : State := {|
  queueFilter := f; timerTick := timerTick s |}.

(** The interval of thirty seconds: the page is rendered again. *)
Definition interval (s : State) : State := {|
  queueFilter := queueFilter s; timerTick := timerTick s + 1 |}.

(** What the poll of thirty seconds asks the server for. *)
Definition polled : list string :=
  ["summary"; "operational_queue"; "native_proxy_health"; "native_proxy_status"].

(** ** Values of a render (lines 390-431) *)

Definition attentionCount (summary : Summary) : Z :=
  pending_reviews summary + policy_reviews summary + failed summary + ready summary.

Record FilterOption := { option_value : QueueFilter; option_label : string; option_count : Z }.

Definition queueFilterOptions (summary : Summary) : list FilterOption := [
  {| option_value := FilterAll; option_label := "All";
     option_count := attentionCount summary + scheduled summary + active_sessions summary |};
  {| option_value := FilterAttention; option_label := "Attention";
     option_count := attentionCount summary |};
  {| option_value := FilterReady; option_label := "Ready"; option_count := ready summary |};
  {| option_value := FilterScheduled; option_label := "Scheduled";
     option_count := scheduled summary |};
  {| option_value := FilterLive; option_label := "Live";
     option_count := active_sessions summary |} ].

Definition shows (queueFilter : QueueFilter) (type : OperationalQueueType) : bool :=
  bool_decide (queueFilter = FilterAll) ||
  bool_decide (filter (queuePresentation type) = queueFilter).

Definition filteredQueueItems (queue : list OperationalQueueItem) (queueFilter : QueueFilter) :=
  List.filter (fun item => shows queueFilter (item_type item)) queue.

Definition visibleQueueItems (queue : list OperationalQueueItem) (queueFilter : QueueFilter) :=
  take 10 (filteredQueueItems queue queueFilter).

(** ** The page *)

Definition QueueEmptyState (filter : QueueFilter) : node State :=
  let '(title, detail) :=
    match filter with
    | FilterAll =>
        ("No operational work is waiting.",
         "Reviews, ready batches, failures, scheduled work, and live access will appear here.")
    | FilterAttention =>
        ("Nothing needs attention.",
         "Reviews and failed executions will appear here when action is required.")
    | FilterScheduled =>
        ("No executions are scheduled.",
         "Approved work with a future execution time will appear here.")
    | FilterReady =>
        ("No deployment batches are ready to run.",
         "Approved deployment batches appear here until they are dispatched.")
    | FilterLive =>
        ("No query-access sessions are active.",
         "Approved query-access requests appear here while their session is open.")
    end in
  elem "div" [elem "div" [elem "p" [Txt title]; elem "p" [Txt detail]]].

(** Lines 137-178 *)
Definition SummaryGroup (label : string) (value : Z) (valueLabel : string) (tone : SemanticTone)
    (children : list (node State)) : node State :=
  elem "div"
    [El (Tag "SemanticIcon") [Attr "tone" (tone_name tone)] [];
     elem "div"
       [elem "p" [Txt label];
        elem "p" [elem "span" [Txt (str_of_Z value)]; elem "span" [Txt valueLabel]];
        elem "div" children]].

Definition link (href text : string) : node State := El (Tag "Link") [Attr "href" href] [Txt text].

Section page.
Context (intl : string -> option string -> string) (routes : Routes).
Context (userTimezone : string) (isAdmin : bool) (now : Z).

(** Lines 279-357 *)
Definition queueItem (item : OperationalQueueItem) : node State :=
  let presentation := queuePresentation (item_type item) in
  El (Tag "Link")
    [Attr "key" (queue_type_text (item_type item) ++ ":" ++ str_of_Z (item_id item))%string;
     Attr "href" (queueHref routes item)]
    [elem "div"
       [El (Tag "SemanticIcon") [Attr "tone" (tone_name (tone presentation))] [];
        elem "div"
          (elem "div"
             (StatusBadge (status presentation) (Some (label presentation))
              :: elem "span" [Txt "#"; Txt (str_of_Z (item_id item))]
              :: elem "span" [Txt (item_title item)]
              :: (if bool_decide (item_request_kind item = Some QueryAccess)
                  then [SessionAccessBadge (Some
                          (if bool_decide (item_access_mode item = Some AccessWrite)
                           then WriteQuery else ReadQuery))]
                  else match item_query_type item with
                       | Some type => [StatusBadge (query_type_text type) None]
                       | None => []
                       end))
           :: elem "p" [Txt (queueMetadata item)]
           :: when (truthy_opt (detail item)) [elem "p" [Txt (detail item ?? "")]])];
     elem "div"
       [elem "div"
          (match item_count item with
           | Some count =>
               [elem "p" [Txt (str_of_Z count); Txt " ";
                          Txt (if count =? 1 then "request" else "requests")]]
           | None => []
           end ++ [elem "p" [Txt (queueTimestamp intl now item userTimezone)]])]].

(** Lines 262-360 *)
Definition OperationalQueue (items : list OperationalQueueItem) (filter : QueueFilter)
    : node State :=
  match items with
  | [] => QueueEmptyState filter
  | _ => elem "div" (map queueItem items)
  end.

(** Lines 452-560 *)
Definition summarySection (props : Props) : node State :=
  let s := summary props in
  El (Tag "section") [Attr "aria-label" "Operational summary"]
    [SummaryGroup "Attention" (attentionCount s)
       (if attentionCount s =? 1 then "item needs action" else "items need action")
       (if 0 <? attentionCount s then Pending else Neutral)
       (link (queryRequestsIndex routes [("status", "pending_review")])
          ("Reviews " ++ str_of_Z (pending_reviews s))%string
        :: when isAdmin
             [link (editSqlPolicy routes None) ("Policy " ++ str_of_Z (policy_reviews s))%string]
        ++ [link (queryRequestsIndex routes [("status", "failed")])
              ("Failed " ++ str_of_Z (failed s))%string;
            link (queryRequestsIndex routes
                    [("status", "approved"); ("request_kind", "single_execution")])
              ("Ready " ++ str_of_Z (ready s))%string]);
     SummaryGroup "Upcoming" (scheduled s)
       (if scheduled s =? 1 then "scheduled execution" else "scheduled executions") Info
       [link (queryRequestsIndex routes [("status", "scheduled")]) "View scheduled work"];
     SummaryGroup "Live access" (active_sessions s)
       (if active_sessions s =? 1 then "active session" else "active sessions")
       (if 0 <? active_sessions s then Success else Neutral)
       (El TButton [Attr "type" "button"; on_click (setQueueFilter FilterLive)]
          [Txt "Show sessions"]
        :: when (negb (str_eq (native_proxy_health props) "disabled"))
             [elem "span"
                [Txt (str_of_Z (native_proxy_connections s)); Txt " ";
                 Txt (if native_proxy_connections s =? 1 then "proxy connection"
                      else "proxy connections")]])].

(** Lines 583-607 *)
Definition filterButton (s : State) (option : FilterOption) : node State :=
  El TButton [Attr "type" "button";
              Flag "aria-pressed" (bool_decide (queueFilter s = option_value option));
              on_click (setQueueFilter (option_value option))]
    [Txt (option_label option); elem "span" [Txt (str_of_Z (option_count option))]].

(** Lines 562-615 *)
Definition queueSection (props : Props) (s : State) : node State :=
  elem "section"
    ([elem "div"
        [elem "div"
           [elem "h2" [Txt "Operational queue"];
            elem "p" [Txt "Latest queue activity first. Select an item to open its workflow."]];
         El (Tag "div") [Attr "role" "group"; Attr "aria-label" "Filter operational queue"]
           (map (filterButton s) (queueFilterOptions (summary props)))];
      OperationalQueue (visibleQueueItems (operational_queue props) (queueFilter s))
        (queueFilter s)] ++
     when (10 <? length (filteredQueueItems (operational_queue props) (queueFilter s)))%nat
       [elem "p" [Txt "Showing the 10 highest-priority items in this view."]]).

(** Lines 362-619 *)
Definition Dashboard (props : Props) (s : State) : node State :=
  elem "Fragment"
    [El (Tag "Head") [Attr "title" "Overview"] [];
     elem "div"
       [PageHeader "Overview"
          (Some "Operational work across the database targets you can access.")
          [link (createQueryRequest routes) "New request"];
        summarySection props;
        queueSection props s]].
End page.

(** ** The server's side

    [DashboardOverview::for]: the six queries, their counts, and the queue of at most ten items
    of each, sorted by the time each was queued.  That time is not sent: the page can rely on the
    queue being some permutation of the items. *)

Record Work := {
  failedRequests : list OperationalQueueItem;
  pendingReviews : list OperationalQueueItem;
  policyReviewCandidates : list OperationalQueueItem;
  readyRequests : list OperationalQueueItem;
  activeSessions : list OperationalQueueItem;
  scheduledRequests : list OperationalQueueItem;
}.

Definition of_type (type : OperationalQueueType) (items : list OperationalQueueItem) : Prop :=
  Forall (fun item => item_type item = type) items.

(** [requestOperationalQueueItem] and its siblings give the items of a query one type. *)
Definition well_typed (work : Work) : Prop :=
  of_type FailedExecution (failedRequests work) /\
  of_type PendingReviewItem (pendingReviews work) /\
  of_type PolicyReviewItem (policyReviewCandidates work) /\
  of_type ReadyExecution (readyRequests work) /\
  of_type ActiveSession (activeSessions work) /\
  of_type ScheduledExecution (scheduledRequests work).

Definition OPERATIONAL_QUEUE_ITEM_LIMIT : nat := 10.

Definition count_of (items : list OperationalQueueItem) : Z := Z.of_nat (length items).

Definition summary_of (isAdmin : bool) (connections : Z) (work : Work) : Summary := {|
  pending_reviews := count_of (pendingReviews work);
  policy_reviews := if isAdmin then count_of (policyReviewCandidates work) else 0;
  ready := count_of (readyRequests work);
  scheduled := count_of (scheduledRequests work);
  failed := count_of (failedRequests work);
  active_sessions := count_of (activeSessions work);
  native_proxy_connections := connections;
|}.

(** The queue before it is sorted. *)
Definition collected (isAdmin : bool) (work : Work) : list OperationalQueueItem :=
  concat (map (take OPERATIONAL_QUEUE_ITEM_LIMIT)
    [failedRequests work; pendingReviews work;
     if isAdmin then policyReviewCandidates work else [];
     readyRequests work; activeSessions work; scheduledRequests work]).

Definition sent (isAdmin : bool) (work : Work) (props : Props) : Prop :=
  (exists connections, summary props = summary_of isAdmin connections work) /\
  operational_queue props ≡ₚ collected isAdmin work.

(** ** Filters and counts *)

Section counts.
Context (isAdmin : bool) (work : Work).
Hypothesis typed : well_typed work.

Lemma filter_of_type p type items :
  of_type type items ->
  List.filter (fun item => p (item_type item)) items = when (p type) items.
Proof.
  induction 1 as [|item items <- _ IH]; simpl; [by destruct (p _)|]. rewrite IH.
  by destruct (p (item_type item)).
Qed.

Lemma filter_collected p :
  length (List.filter (fun item => p (item_type item)) (collected isAdmin work)) =
  list_sum
    [length (when (p FailedExecution) (take 10 (failedRequests work)));
     length (when (p PendingReviewItem) (take 10 (pendingReviews work)));
     length (when (p PolicyReviewItem && isAdmin) (take 10 (policyReviewCandidates work)));
     length (when (p ReadyExecution) (take 10 (readyRequests work)));
     length (when (p ActiveSession) (take 10 (activeSessions work)));
     length (when (p ScheduledExecution) (take 10 (scheduledRequests work)))].
Proof.
  destruct typed as (Hf & Hp & Hc & Hr & Ha & Hs).
  assert (Hc' : of_type PolicyReviewItem (if isAdmin then policyReviewCandidates work else []))
    by (destruct isAdmin; [done|constructor]).
  unfold collected, OPERATIONAL_QUEUE_ITEM_LIMIT. cbn [map concat]. rewrite !List.filter_app, !length_app.
  rewrite (filter_of_type p FailedExecution), (filter_of_type p PendingReviewItem),
    (filter_of_type p PolicyReviewItem), (filter_of_type p ReadyExecution),
    (filter_of_type p ActiveSession), (filter_of_type p ScheduledExecution) by by apply Forall_take.
  cbn [list_sum fold_right List.filter length]. do 3 f_equal.
  destruct (p PolicyReviewItem), isAdmin; simpl; rewrite ?take_nil; done.
Qed.
End counts.

Ltac evaluate_shows :=
  repeat match goal with |- context [shows ?f ?t] =>
    let b := eval vm_compute in (shows f t) in change (shows f t) with b
  end.

(** When the server has sent the counts and the queue of the same work, the list under each
    filter has as many items as the button's count says, up to the ten that are shown; except
    that the count of "Attention" includes the batches that are ready to run, which its list does
    not show. *)
Theorem queue_counts isAdmin work props option :
  well_typed work -> sent isAdmin work props ->
  option ∈ queueFilterOptions (summary props) ->
  Z.of_nat (length (visibleQueueItems (operational_queue props) (option_value option))) =
  Z.min 10 (option_count option -
            if decide (option_value option = FilterAttention) then ready (summary props) else 0).
Proof.
  intros Htyped [[connections Hs] Hq] Hoption.
  unfold visibleQueueItems, filteredQueueItems. rewrite length_take.
  rewrite (Permutation_length (filter_list_Permutation _ _ _ Hq)).
  rewrite (filter_collected isAdmin work Htyped (shows (option_value option))).
  rewrite Hs in *. unfold queueFilterOptions, attentionCount, summary_of, count_of in *.
  rewrite !elem_of_cons, elem_of_nil in Hoption.
  destruct isAdmin; destruct_or! Hoption; try done; subst option;
    cbn [option_value option_count pending_reviews policy_reviews ready scheduled failed active_sessions];
    evaluate_shows; cbn [andb when length list_sum fold_right]; rewrite ?length_take; case_decide; (done || lia).
Qed.

Definition example_item (type : OperationalQueueType) (id : Z) : OperationalQueueItem := {|
  item_id := id; item_title := "Add index"; item_type := type; connection := Some "orders";
  actor := Some "Ada"; timestamp := Some "2026-10-02T08:30:00Z"; detail := None;
  related_title := None; item_count := None; driver := None; item_request_kind := None;
  item_query_type := None; item_access_mode := None |}.

(** One review and two ready batches. *)
Definition example_work : Work := {|
  failedRequests := []; pendingReviews := [example_item PendingReviewItem 1];
  policyReviewCandidates := [];
  readyRequests := [example_item ReadyExecution 2; example_item ReadyExecution 3];
  activeSessions := []; scheduledRequests := [] |}.

Definition example_props : Props := {|
  summary := summary_of false 0 example_work;
  operational_queue := collected false example_work;
  native_proxy_health := "healthy" |}.

(** "Attention" announces three items and lists one. *)
Lemma queue_counts_witness :
  nth_error (map option_count (queueFilterOptions (summary example_props))) 1 = Some 3 /\
  length (visibleQueueItems (operational_queue example_props) FilterAttention) = 1%nat /\
  Z.of_nat (length (visibleQueueItems (operational_queue example_props) FilterAttention)) = Z.min 10 (3 - 2).
Proof.
  split; [reflexivity|]. split; [reflexivity|].
  apply (queue_counts false example_work example_props
           {| option_value := FilterAttention; option_label := "Attention"; option_count := 3 |}).
  - repeat split; repeat constructor.
  - split; [by exists 0|done].
  - vm_compute. apply list_elem_of_further, list_elem_of_here.
Defined.

(** ** The controls *)

(** An item is listed under "All" and under exactly one of the other filters. *)
Lemma listed_under_one_filter type :
  shows FilterAll type = true /\
  (forall f, f <> FilterAll -> shows f type = true <-> f = filter (queuePresentation type)).
Proof.
  split; [done|]. intros f Hf. unfold shows. rewrite (bool_decide_false _ Hf). simpl.
  rewrite bool_decide_eq_true. naive_solver.
Qed.

(** Every control of the page selects a filter. *)
Lemma controls_select_filter intl routes tz isAdmin now props s :
  all_actions (fun h => exists f, forall now ev s, h now ev s = setQueueFilter f s)
    (Dashboard intl routes tz isAdmin now props s).
Proof.
  unfold Dashboard, PageHeader, summarySection, SummaryGroup, queueSection, filterButton, link.
  walk; eauto.
  unfold OperationalQueue. destruct (visibleQueueItems _ _) as [|item items].
  - unfold QueueEmptyState. destruct (queueFilter s); walk.
  - walk. unfold queueItem. walk; try apply all_actions_StatusBadge.
    + destruct (bool_decide _); [|destruct (item_query_type _)]; walk;
        auto using all_actions_StatusBadge, all_actions_SessionAccessBadge.
    + destruct (item_count _); walk.
Qed.
