(* ===== verification/RequestShow.v ===== *)
(** * The page of a query request: data, state, effects

    [resources/js/pages/query-requests/show.tsx], lines 74-281 and 372-638: the request the server sends,
    the state of the page with its handlers, the values derived at each render, and the effects
    after a render: polling, countdown, and the announcement of an execution's outcome.  The page
    itself is in [RequestShowView].

    [lastExecution] is compared by reference when an effect decides whether to run again: every
    version of the request that the server sends has new execution objects. *)

From Stdlib Require Import String.
From S2P Require Import Prelude Lists JsString JsDate CrucibleLib Results Pagination.

Open Scope string_scope.
Open Scope Z_scope.

(** ** Data *)

Record Connection := {
  connection_id : Z;
  connection_name : string;
  connection_driver : string;
}.

Record Execution := {
  execution_id : Z;
  statement_position : option Z;
  execution_status : ExecutionStatus;
  execution_query_type : QueryType;
  execution_sql : option string;
  started_at : option string;
  duration_ms : option Z;
  row_count : option Z;
  result_truncated : bool;
  sample_rows : option (list Row);
  execution_error : option string;
  executor : option string;
  execution_connection : Connection;
}.

(** [ExecutionStatus | 'skipped'] *)
Inductive ExecutionState := Executed (s : ExecutionStatus) | Skipped.

#[global] Instance ExecutionState_eq_dec : EqDecision ExecutionState.
Proof. solve_decision. Defined.

Record Statement := {
  statement_id : Z;
  position : Z;
  statement_sql : string;
  statement_query_type : QueryType;
  statement_connection : Connection;
  statement_execution : option (ExecutionStatus * option string);  (** status, error message *)
  execution_state : option ExecutionState;
}.

Inductive Resolution := Replaced | Investigated | NotApplicable.

#[global] Instance Resolution_eq_dec : EqDecision Resolution.
Proof. solve_decision. Defined.

Definition resolution_text (r : Resolution) : string :=
  match r with
  | Replaced => "replaced"
  | Investigated => "investigated"
  | NotApplicable => "not_applicable"
  end.

(** A request that another one names; its status where it is shown. *)
Record Related := { related_id : Z; related_title : string; related_status : QueryRequestStatus }.

Record FailureResolution := {
  resolution : Resolution;
  resolution_note : option string;
  resolved_at : string;
  resolved_by : option string;
  replacement_query_request : option Related;
}.

Inductive PreflightStatus := NotRun | Passed | PassedWithWarnings | Blocked | Stale.
Inductive FindingStatus := FindingPassed | FindingWarning | FindingBlocked.

#[global] Instance PreflightStatus_eq_dec : EqDecision PreflightStatus.
Proof. solve_decision. Defined.

Record Message := {
  message_blocked : bool;       (** [level === 'blocked'] *)
  code : string;
  message : string;
  candidate_id : option Z;
}.

Record PreflightStatement := {
  preflight_position : Z;
  finding_status : FindingStatus;
  messages : list Message;
}.

Record Preflight := {
  preflight_status : PreflightStatus;
  warning_count : Z;
  preflight_statements : list PreflightStatement;
}.

Inductive PolicyDecision := PolicyPending | PolicyAllowed | PolicyDenied.

Record PolicyReview := { policy_decision : PolicyDecision; decision_notes : list string }.

Record Review := {
  review_id : Z;
  decision : string;
  comment : option string;
  reviewer : string;
  reviewed_at : option string;
}.

Record AccessSession := {
  session_id : Z;
  session_started_at : option string;
  session_expires_at : option string;
  session_ended_at : option string;
}.

Record QueryRequest := {
  request_id : Z;
  title : string;
  description : option string;
  request_sql : option string;
  statements : list Statement;
  status : QueryRequestStatus;
  revision : Z;
  query_type : QueryType;
  kind : QueryRequestKind;                       (** [request_kind] *)
  access_transport : AccessTransport;
  requested_access_mode : option QueryType;
  requires_approval : bool;
  approval_label : string;
  scheduled_at : option string;
  approved_after_schedule : bool;
  access_duration_minutes : option Z;
  created_at : option string;
  approved_at : option string;
  dispatched_at : option string;
  completed_at : option string;
  cancelled_at : option string;
  cancellation_reason : option string;
  last_error : option string;
  failure_resolution : option FailureResolution;
  preflight : Preflight;
  policy_review : option PolicyReview;
  requester : string;
  cancelled_by : option string;
  retry_of : option Related;
  retries : list Related;
  copied_from : option Related;
  copies : list Related;
  connection : Connection;
  access_connections : list Connection;
  reviews : list Review;
  executions : Paginated Execution;
  sessions : list AccessSession;
  active_session : option (Z * option string);   (** its id and [expires_at] *)
}.

Inductive RetryStrategy := ResumeReadOnly | CreateRetryRequest | RenewAccess.

#[global] Instance RetryStrategy_eq_dec : EqDecision RetryStrategy.
Proof. solve_decision. Defined.

(** A batch that may have replaced a failed one ([ReplacementQueryRequestOption]). *)
Record Candidate := {
  candidate_request_id : Z;
  candidate_title : string;
  candidate_status : QueryRequestStatus;
  candidate_connections : list string;
}.

Record Props := {
  query_request : QueryRequest;
  can_review : bool;
  can_withdraw_review : bool;
  can_update : bool;
  can_dispatch : bool;
  can_cancel : bool;
  can_retry : bool;
  can_create_similar : bool;
  can_resolve_failure : bool;
  replacement_candidates : list Candidate;
  retry_strategy : option RetryStrategy;
  can_start_session : bool;
  can_delete : bool;
  is_subscribed : bool;
  isAdministrator : bool;
  userTimezone : string;
}.

(** The state of the page, with the item of the session storage that its handlers write. *)
Record State := {
  secondsRemaining : option Z;              (** [None] is [NaN] *)
  expandedExecutionIds : list Z;
  isPreflightExpanded : bool;
  isFailureResolutionDialogOpen : bool;
  failureResolution : Resolution;
  replacementQueryRequestId : string;
  awaitingExecution : bool;
  awaiting_item : bool;                     (** the item [executionToastStorageKey] is ['1'] *)
}.

Definition remainingSeconds (now : Z) (expiresAt : option string) : option Z :=
  match expiresAt with
  | None => Some 0
  | Some expiresAt => (fun t => Z.max 0 ((t - now) / 1000)) <$> parse_date expiresAt
  end.

(** ** Values derived at a render *)

Section derived.
(** [format] of sql-formatter: the language and the SQL; [None] when it throws. *)
Context (format : string -> string -> option string).
Context (intl : string -> option string -> string).
Context (props : Props).

Let q := query_request props.

Definition isQueryAccess : bool := bool_decide (kind q = QueryAccess).

Definition isNativeClientAccess : bool :=
  isQueryAccess && bool_decide (access_transport q = NativeProxy).

Definition isActiveQueryAccess : bool := isQueryAccess && bool_decide (status q = Running).

Definition activeSessionExpiresAt : option string := active_session q ≫= snd.

Definition latestSession : option AccessSession := head (sessions q).

Definition latestSessionEndedAt : option string := latestSession ≫= session_ended_at.

(** [Date.parse(a) >= Date.parse(b)], false for an invalid date *)
Definition not_before (a b : string) : bool :=
  match parse_date a, parse_date b with Some a, Some b => b <=? a | _, _ => false end.

Definition latestSessionExpired : bool :=
  match latestSessionEndedAt, latestSession ≫= session_expires_at with
  | Some ended, Some expires => not_before ended expires
  | _, _ => false
  end.

Definition querySessionState (s : State) : string :=
  if isActiveQueryAccess then
    if match secondsRemaining s with Some n => 0 <? n | None => false end
    then remainingLabel (secondsRemaining s) ++ " left"
    else "Expired"
  else if truthy_opt latestSessionEndedAt then
    if latestSessionExpired then "Expired" else "Ended"
  else "Not started".

Definition lastExecution : option Execution := head (page_data (executions q)).

Definition shouldPollExecution (s : State) : bool :=
  bool_decide (kind q = SingleExecution) && negb (is_some (completed_at q)) &&
  (is_some (dispatched_at q) || awaitingExecution s).

(** The statements on display; a request without any shows its own SQL. *)
Definition shown_statements : list Statement :=
  match statements q with
  | [] => [{| statement_id := 0; position := 1; statement_sql := request_sql q ?? "";
              statement_query_type := query_type q; statement_connection := connection q;
              statement_execution := None; execution_state := None |}]
  | l => l
  end.

Definition formatted (s : Statement) : Statement :=
  let language := if str_eq (connection_driver (statement_connection s)) "mysql" then "mysql"
                  else "postgresql" in
  match format language (statement_sql s) with
  | Some sql =>
      {| statement_id := statement_id s; position := position s; statement_sql := sql;
         statement_query_type := statement_query_type s;
         statement_connection := statement_connection s;
         statement_execution := statement_execution s; execution_state := execution_state s |}
  | None => s
  end.

Definition formattedStatements : list Statement := map formatted shown_statements.

Definition hasStatementLevelFailure : bool :=
  existsb (fun s => bool_decide (execution_state s = Some (Executed ExecFailed))) (statements q).

Definition preflightByPosition : list (Z * PreflightStatement) :=
  map_of (map (fun s => (preflight_position s, s)) (preflight_statements (preflight q))).

Definition preflightLabel : string :=
  match preflight_status (preflight q) with
  | NotRun => "Recheck required"
  | Passed => "Ready"
  | PassedWithWarnings => "Ready with warnings"
  | Blocked => "Blocked"
  | Stale => "Recheck required"
  end.

Definition preflightFindings : list (Statement * PreflightStatement) :=
  flat_map (fun s =>
    match map_get (position s) preflightByPosition with
    | Some p => match messages p with [] => [] | _ => [(s, p)] end
    | None => []
    end) formattedStatements.

Definition scheduledAtLabel : string := formatDate intl (scheduled_at q) (Some (userTimezone props)).

Definition targetConnections : list Connection :=
  let connections :=
    match kind q, access_connections q with
    | QueryAccess, (_ :: _) as connections => connections
    | _, _ => map statement_connection formattedStatements
    end in
  map snd (map_of (map (fun c => (connection_id c, c)) connections)).

Definition summarizedTargetConnections : list Connection := take 3 targetConnections.
Definition additionalTargetConnections : list Connection := drop 3 targetConnections.

Definition retries_by (strategy : RetryStrategy) : bool :=
  can_retry props && bool_decide (retry_strategy props = Some strategy).

Definition actionSummary : option string :=
  if is_some (failure_resolution q)
  then Some "The failure is resolved and remains in the execution history."
  else if bool_decide (status q = Cancelled) || retries_by RenewAccess then None
  else Some
    (if bool_decide (status q = Draft)
     then "This draft cannot be reviewed or executed until it is submitted."
     else if can_review props then "Review is required before this request can proceed."
     else if approved_after_schedule q
     then "Scheduled for " ++ scheduledAtLabel ++
          ". It was approved after the planned time and will not run automatically."
     else if is_some (active_session q) then
       if isNativeClientAccess then "A native client session is active."
       else "A Query Access session is active."
     else if can_start_session props then "This approved request is ready to start a session."
     else if can_dispatch props then "This approved batch is ready for ordered execution."
     else if retries_by ResumeReadOnly
     then "Execution stopped. Retry from the failed read-only statement."
     else if can_retry props then "Create a linked retry request for fresh approval."
     else match status q with
          | Failed => "Execution stopped. Review the failed statement below."
          | Completed => "This request has completed."
          | _ => "No action is currently available."
          end).

(** ** Announcements *)

(** The outcome of the last execution as the effect of lines 608-638 shows it. *)
Inductive Toast := ToastSuccess (text : string) | ToastError (text : string).

Definition announcement : list Toast :=
  let last_is st := bool_decide (execution_status <$> lastExecution = Some st) in
  (when (last_is ExecSucceeded)
     [ToastSuccess ("Query executed" ++
        (match lastExecution ≫= executor with
         | Some (String _ _ as who) => " by " ++ who
         | _ => ""
         end) ++ ".")] ++
   when (last_is ExecFailed || bool_decide (status q = Failed))
     [ToastError "Query execution failed. Check execution history."])%list.
End derived.

(** ** Handlers *)

Definition initialState (now : Z) (awaiting_item : bool) (props : Props) : State := {|
  secondsRemaining := remainingSeconds now (activeSessionExpiresAt props);
  expandedExecutionIds := [];
  isPreflightExpanded := false;
  isFailureResolutionDialogOpen := false;
  failureResolution := Replaced;
  replacementQueryRequestId := "";
  awaitingExecution := awaiting_item;
  awaiting_item := awaiting_item |}.

Definition setSecondsRemaining v s := {|
  secondsRemaining := v; expandedExecutionIds := expandedExecutionIds s;
  isPreflightExpanded := isPreflightExpanded s;
  isFailureResolutionDialogOpen := isFailureResolutionDialogOpen s;
  failureResolution := failureResolution s;
  replacementQueryRequestId := replacementQueryRequestId s;
  awaitingExecution := awaitingExecution s; awaiting_item := awaiting_item s |}.

Definition setExpandedExecutionIds v s := {|
  secondsRemaining := secondsRemaining s; expandedExecutionIds := v;
  isPreflightExpanded := isPreflightExpanded s;
  isFailureResolutionDialogOpen := isFailureResolutionDialogOpen s;
  failureResolution := failureResolution s;
  replacementQueryRequestId := replacementQueryRequestId s;
  awaitingExecution := awaitingExecution s; awaiting_item := awaiting_item s |}.

Definition setIsPreflightExpanded v s := {|
  secondsRemaining := secondsRemaining s; expandedExecutionIds := expandedExecutionIds s;
  isPreflightExpanded := v;
  isFailureResolutionDialogOpen := isFailureResolutionDialogOpen s;
  failureResolution := failureResolution s;
  replacementQueryRequestId := replacementQueryRequestId s;
  awaitingExecution := awaitingExecution s; awaiting_item := awaiting_item s |}.

Definition setIsFailureResolutionDialogOpen v s := {|
  secondsRemaining := secondsRemaining s; expandedExecutionIds := expandedExecutionIds s;
  isPreflightExpanded := isPreflightExpanded s;
  isFailureResolutionDialogOpen := v;
  failureResolution := failureResolution s;
  replacementQueryRequestId := replacementQueryRequestId s;
  awaitingExecution := awaitingExecution s; awaiting_item := awaiting_item s |}.

Definition setFailureResolution v s := {|
  secondsRemaining := secondsRemaining s; expandedExecutionIds := expandedExecutionIds s;
  isPreflightExpanded := isPreflightExpanded s;
  isFailureResolutionDialogOpen := isFailureResolutionDialogOpen s;
  failureResolution := v;
  replacementQueryRequestId := replacementQueryRequestId s;
  awaitingExecution := awaitingExecution s; awaiting_item := awaiting_item s |}.

Definition setReplacementQueryRequestId v s := {|
  secondsRemaining := secondsRemaining s; expandedExecutionIds := expandedExecutionIds s;
  isPreflightExpanded := isPreflightExpanded s;
  isFailureResolutionDialogOpen := isFailureResolutionDialogOpen s;
  failureResolution := failureResolution s;
  replacementQueryRequestId := v;
  awaitingExecution := awaitingExecution s; awaiting_item := awaiting_item s |}.

Definition setAwaitingExecution v s := {|
  secondsRemaining := secondsRemaining s; expandedExecutionIds := expandedExecutionIds s;
  isPreflightExpanded := isPreflightExpanded s;
  isFailureResolutionDialogOpen := isFailureResolutionDialogOpen s;
  failureResolution := failureResolution s;
  replacementQueryRequestId := replacementQueryRequestId s;
  awaitingExecution := v; awaiting_item := awaiting_item s |}.

Definition set_awaiting_item v s := {|
  secondsRemaining := secondsRemaining s; expandedExecutionIds := expandedExecutionIds s;
  isPreflightExpanded := isPreflightExpanded s;
  isFailureResolutionDialogOpen := isFailureResolutionDialogOpen s;
  failureResolution := failureResolution s;
  replacementQueryRequestId := replacementQueryRequestId s;
  awaitingExecution := awaitingExecution s; awaiting_item := v |}.

Definition toggleExecutionSql (executionId : Z) (s : State) : State :=
  let current := expandedExecutionIds s in
  setExpandedExecutionIds
    (if existsb (Z.eqb executionId) current
     then List.filter (fun id => negb (id =? executionId)) current
     else current ++ [executionId])%list s.

(** [onClick] of the button that dispatches *)
Definition dispatchClicked (s : State) : State := setAwaitingExecution true (set_awaiting_item true s).

(** [onClick] of the button that retries *)
Definition retryClicked (props : Props) (s : State) : State :=
  if bool_decide (retry_strategy props = Some ResumeReadOnly)
  then setAwaitingExecution true (set_awaiting_item true s) else s.

(** [onSuccess] of the form that records how a failure was handled *)
Definition failureResolved (s : State) : State :=
  setReplacementQueryRequestId "" (setIsFailureResolutionDialogOpen false s).

(** ** Effects *)

(** The page with what its effects keep: whether it polls, whether the countdown's interval runs,
    whether the timer of line 614 is set; and the toasts shown, the last one at the end. *)
Record Page := {
  props : Props;
  state : State;
  polling : bool;
  countdown : bool;
  reset_pending : bool;
  toasts : list Toast;
}.

(** Lines 582-590 *)
Definition poll_effect (props : Props) (s : State) : bool := shouldPollExecution props s.

(** Lines 592-606: the interval, and the remaining time *)
Definition countdown_effect (now : Z) (props : Props) (s : State) : bool * State :=
  (is_some (activeSessionExpiresAt props),
   setSecondsRemaining (remainingSeconds now (activeSessionExpiresAt props)) s).

(** Lines 608-638; the timer of an earlier run has been cleared. *)
Definition announce_effect (props : Props) (s : State) : bool * State * list Toast :=
  if negb (awaitingExecution s) || negb (is_some (completed_at (query_request props)))
  then (false, s, [])
  else (true, set_awaiting_item false s, announcement props).

(** The page after a render with [props'] and [s'], the effects of changed dependencies run. *)
Definition commit (now : Z) (poll_changed countdown_changed announce_changed : bool) (p : Page)
    (props' : Props) (s' : State) : Page :=
  let '(countdown', s1) :=
    if countdown_changed then countdown_effect now props' s' else (countdown p, s') in
  let '(reset', s2, shown) :=
    if announce_changed then announce_effect props' s1 else (reset_pending p, s1, []) in
  {| props := props'; state := s2;
     polling := if poll_changed then poll_effect props' s' else polling p;
     countdown := countdown'; reset_pending := reset'; toasts := (toasts p ++ shown)%list |}.

(** The first render: every effect runs. *)
Definition mount (now : Z) (awaiting_item : bool) (props : Props) : Page :=
  let s := initialState now awaiting_item props in
  commit now true true true
    {| props := props; state := s; polling := false; countdown := false; reset_pending := false;
       toasts := [] |} props s.

(** The dependencies that a new version of the properties and the state change; [sent] tells that
    the server has sent the properties, with new objects for the executions. *)
Definition rerender (now : Z) (sent : bool) (p : Page) (props' : Props) (s' : State) : Page :=
  let q := query_request (props p) in
  let q' := query_request props' in
  commit now
    (negb (bool_decide (shouldPollExecution (props p) (state p) = shouldPollExecution props' s')))
    (negb (bool_decide (activeSessionExpiresAt (props p) = activeSessionExpiresAt props')))
    (negb (bool_decide (awaitingExecution (state p) = awaitingExecution s')) ||
     negb (bool_decide (completed_at q = completed_at q')) ||
     negb (bool_decide (status q = status q')) ||
     (sent && (is_some (lastExecution (props p)) || is_some (lastExecution props'))))
    p props' s'.

(** The timer of line 614 fires. *)
Definition resetFired (now : Z) (p : Page) : Page :=
  rerender now false
    {| props := props p; state := state p; polling := polling p; countdown := countdown p;
       reset_pending := false; toasts := toasts p |} (props p) (setAwaitingExecution false (state p)).

(** ** The page in time *)

Section steps.
(** What a control of the page may do, for properties and a state. *)
Context (control : Props -> State -> State -> Prop).

(** A control is used, the server sends a version of the request (a poll, the answer to a form),
    the form that resolves a failure succeeds, the countdown ticks, or the timer of the
    announcement fires; in any order. *)
Inductive page_step : Page -> Page -> Prop :=
  | ps_control now p s' : control (props p) (state p) s' ->
      page_step p (rerender now false p (props p) s')
  | ps_server now p props' : page_step p (rerender now true p props' (state p))
  | ps_resolved now p : page_step p (rerender now false p (props p) (failureResolved (state p)))
  | ps_tick now p : countdown p = true ->
      page_step p (rerender now false p (props p)
        (setSecondsRemaining (remainingSeconds now (activeSessionExpiresAt (props p))) (state p)))
  | ps_reset now p : reset_pending p = true -> page_step p (resetFired now p).

Definition completed (p : Page) : bool := is_some (completed_at (query_request (props p))).
Definition awaiting (p : Page) : bool := awaitingExecution (state p).

(** The page polls when it should, counts down while a session is open, and the timer of the
    announcement is set exactly while a completed request is awaited. *)
Definition page_ok (p : Page) : Prop :=
  polling p = shouldPollExecution (props p) (state p) /\
  countdown p = is_some (activeSessionExpiresAt (props p)) /\
  reset_pending p = awaiting p && completed p.

Lemma shouldPoll_seconds props v s :
  shouldPollExecution props (setSecondsRemaining v s) = shouldPollExecution props s.
Proof. done. Qed.

Lemma commit_ok now cp cc ca p props' s' :
  (cp = false -> polling p = shouldPollExecution props' s') ->
  (cc = false -> countdown p = is_some (activeSessionExpiresAt props')) ->
  (ca = false -> reset_pending p = awaitingExecution s' && is_some (completed_at (query_request props'))) ->
  page_ok (commit now cp cc ca p props' s').
Proof.
  intros Hp Hc Ha. unfold commit, page_ok, countdown_effect, announce_effect, awaiting, completed.
  destruct cp, cc, ca; simpl;
    destruct (awaitingExecution s') eqn:E, (is_some (completed_at (query_request props'))) eqn:E';
    simpl; rewrite ?shouldPoll_seconds, ?E, ?E'; split_and!; auto.
Qed.

Lemma mount_ok now item props : page_ok (mount now item props).
Proof. by apply commit_ok. Qed.

Lemma rerender_ok now sent p props' s' : page_ok p -> page_ok (rerender now sent p props' s').
Proof.
  intros (Hp & Hc & Ha). apply commit_ok.
  - intros H%negb_false_iff%bool_decide_eq_true. congruence.
  - intros H%negb_false_iff%bool_decide_eq_true. congruence.
  - rewrite !orb_false_iff, !negb_false_iff, !bool_decide_eq_true. intros [[[H1 H2] _] _].
    rewrite Ha. unfold awaiting, completed. congruence.
Qed.

Lemma page_step_ok p p' : page_step p p' -> page_ok p -> page_ok p'.
Proof.
  destruct 1 as [now p s' _|now p props'|now p|now p _|now p Hr]; intros Hok;
    try by apply rerender_ok.
  destruct Hok as (Hp & Hc & Ha). apply commit_ok; simpl.
  - intros H%negb_false_iff%bool_decide_eq_true. congruence.
  - intros H%negb_false_iff%bool_decide_eq_true. congruence.
  - rewrite !orb_false_iff, !negb_false_iff, !bool_decide_eq_true. done.
Qed.

Lemma reachable_ok now item props0 p : rtc page_step (mount now item props0) p -> page_ok p.
Proof.
  intros H. assert (H0 : page_ok (mount now item props0)) by apply mount_ok.
  induction H; [done|]. eauto using page_step_ok.
Qed.

(** *** Waiting for an execution *)

(** No control ends the wait for an execution. *)
Hypothesis control_waits : forall props s s',
  control props s s' -> awaitingExecution s = true -> awaitingExecution s' = true.

(** A step after which the request is still not completed. *)
Definition waiting_step (p p' : Page) : Prop := page_step p p' /\ completed p' = false.

Lemma rerender_completed now sent p props' s' :
  completed (rerender now sent p props' s') = is_some (completed_at (query_request props')).
Proof. unfold completed, rerender, commit. by repeat case_match. Qed.

Lemma rerender_waits now sent p props' s' :
  awaitingExecution s' = true -> is_some (completed_at (query_request props')) = false ->
  awaiting (rerender now sent p props' s') = true /\ toasts (rerender now sent p props' s') = toasts p.
Proof.
  intros Ha Hc. unfold awaiting, rerender, commit, countdown_effect, announce_effect.
  repeat case_match; simplify_eq/=; rewrite ?app_nil_r; try done;
    by rewrite Hc, orb_true_r in *.
Qed.

Lemma waiting_step_waits p p' : waiting_step p p' -> page_ok p -> completed p = false ->
  awaiting p = true -> awaiting p' = true /\ toasts p' = toasts p.
Proof.
  intros [Hs Hc] Hok Hp Ha. destruct Hs as [now p s' H|now p props'|now p|now p _|now p Hr];
    unfold resetFired in *; rewrite ?rerender_completed in Hc; try (by apply rerender_waits; eauto).
  destruct Hok as (_ & _ & Hr'). rewrite Hr', Ha in Hr. by rewrite Hp in Hr.
Qed.

Lemma waiting_run p q : rtc waiting_step p q -> page_ok p -> completed p = false ->
  awaiting p = true ->
  page_ok q /\ completed q = false /\ awaiting q = true /\ toasts q = toasts p.
Proof.
  induction 1 as [p|p p1 q Hs _ IH]; intros Hok Hc Ha; [done|].
  destruct (waiting_step_waits p p1 Hs Hok Hc Ha) as [H1 H2].
  destruct IH as (IH1 & IH2 & IH3 & IH4); [|apply Hs|done|].
  - eapply page_step_ok; [apply Hs|done].
  - split_and!; [done..|congruence].
Qed.

Lemma completing_step q q' : page_step q q' -> page_ok q -> awaiting q = true ->
  completed q = false -> completed q' = true ->
  reset_pending q' = true /\ awaiting_item (state q') = false /\ awaiting q' = true /\
  toasts q' = (toasts q ++ announcement (props q'))%list.
Proof.
  intros Hs Hok Ha Hc Hc'. destruct Hs as [now q s' H|now q props'|now q|now q _|now q Hr];
    unfold resetFired in *; pose proof Hc' as Hd; rewrite rerender_completed in Hd;
    try (unfold completed in Hc; simpl in *; congruence).
  assert (Hne : bool_decide (completed_at (query_request (props q)) = completed_at (query_request props')) = false).
  { apply bool_decide_eq_false. intros E. unfold completed in Hc. congruence. }
  unfold rerender. rewrite Hne, orb_true_r. unfold commit, announce_effect, awaiting, countdown_effect in *.
  repeat case_match; simplify_eq/=; try done; by rewrite ?Ha, ?Hd in *.
Qed.

(** A step that leaves the wait going, and one after which nothing is awaited. *)
Definition awaiting_step (p p' : Page) : Prop := page_step p p' /\ awaiting p' = true.
Definition idle_step (p p' : Page) : Prop := page_step p p' /\ awaiting p' = false.

Lemma rerender_awaiting now sent p props' s' :
  awaiting (rerender now sent p props' s') = awaitingExecution s'.
Proof.
  unfold awaiting, rerender, commit, announce_effect, countdown_effect.
  repeat case_match; simplify_eq/=; congruence.
Qed.

Lemma rerender_props now sent p props' s' : props (rerender now sent p props' s') = props'.
Proof. unfold rerender, commit. by repeat case_match. Qed.

(** A render shows nothing, or the announcement of its version if an execution is awaited and completed. *)
Lemma rerender_toasts now sent p props' s' :
  let r := rerender now sent p props' s' in
  toasts r = toasts p \/
  awaitingExecution s' = true /\ completed r = true /\ toasts r = (toasts p ++ announcement props')%list.
Proof.
  cbv zeta. rewrite rerender_completed. unfold rerender, commit, announce_effect, countdown_effect.
  destruct (awaitingExecution s') eqn:Ea, (is_some (completed_at (query_request props'))) eqn:Ec;
    repeat case_match; simplify_eq/=; rewrite ?app_nil_r; auto; by rewrite ?Ea, ?Ec in *.
Qed.

(** A render that changes neither the properties nor the wait shows nothing. *)
Lemma rerender_quiet now p s' : awaitingExecution s' = awaitingExecution (state p) ->
  toasts (rerender now false p (props p) s') = toasts p.
Proof.
  intros E. unfold rerender. match goal with |- toasts (commit _ ?a ?b ?c _ _ _) = _ =>
    assert (Hc : c = false) by (by rewrite E, !bool_decide_true); rewrite Hc; generalize a b end.
  intros a b. unfold commit, countdown_effect. destruct a, b; cbn; by rewrite app_nil_r.
Qed.

(** While an execution is awaited only a version from the server is announced. *)
Lemma awaiting_step_toasts p p' : awaiting_step p p' -> awaiting p = true ->
  toasts p' = toasts p \/
  (exists now, p' = rerender now true p (props p') (state p)) /\ completed p' = true /\
  toasts p' = (toasts p ++ announcement (props p'))%list.
Proof.
  intros [Hs Ha'] Ha. destruct Hs as [now p s' H|now p props'|now p|now p _|now p Hr].
  - left. apply rerender_quiet. rewrite rerender_awaiting in Ha'. by rewrite Ha'.
  - destruct (rerender_toasts now true p props' (state p)) as [E|(_ & Hc & E)]; [by left|right].
    rewrite rerender_props. eauto.
  - left. by apply rerender_quiet.
  - left. by apply rerender_quiet.
  - unfold resetFired in Ha'. by rewrite rerender_awaiting in Ha'.
Qed.

Lemma awaiting_run p q : rtc awaiting_step p q -> page_ok p -> awaiting p = true -> page_ok q /\ awaiting q = true.
Proof. induction 1 as [p|p p1 q [Hs Ha] _ IH]; [by intros|]. intros Hok _. apply IH; [by eapply page_step_ok|done]. Qed.

Lemma idle_step_toasts p p' : idle_step p p' -> toasts p' = toasts p.
Proof.
  intros [Hs Ha]. destruct Hs as [now p s' H|now p props'|now p|now p _|now p Hr'];
    unfold resetFired in *; rewrite rerender_awaiting in Ha;
    match goal with |- toasts (rerender ?n ?b ?x ?y ?z) = _ =>
      destruct (rerender_toasts n b x y z) as [E|(E & _)]; [exact E|congruence] end.
Qed.

Lemma idle_run p q : rtc idle_step p q -> toasts q = toasts p.
Proof. induction 1 as [p|p p1 q Hs _ IH]; [done|]. rewrite IH. by apply idle_step_toasts. Qed.

Lemma resetFired_ends now q : awaiting (resetFired now q) = false /\ toasts (resetFired now q) = toasts q.
Proof.
  unfold resetFired. rewrite rerender_awaiting. split; [done|].
  match goal with |- toasts (rerender ?n ?b ?x ?y ?z) = _ =>
    destruct (rerender_toasts n b x y z) as [E|(E & _)]; [exact E|done] end.
Qed.
End steps.
