(* ===== verification/RequestShowView.v ===== *)
(** * The page of a query request, rendered

    [resources/js/pages/query-requests/show.tsx], lines 228-245, 283-370 and 640-2361, and
    [resources/js/components/crucible/replacement-query-request-combobox.tsx]: the page as a tree
    of controls in a state of [RequestShow].  Dialogs and collapsible parts that keep their own
    state are rendered open; the dialog that the page itself opens has its content only while it
    is open.  The routes are generated code, the formatter of SQL and of dates are parameters. *)

From Stdlib Require Import String.
From S2P Require Import Prelude Lists JsString CrucibleLib View SqlEditor Badges Results Pagination.
From S2P Require Import ConnectionCombobox RequestShow.

Open Scope string_scope.
Open Scope Z_scope.
Open Scope list_scope.

(** The URLs of the page's links and forms, by the id of what they are about. *)
Record Routes := {
  unsubscribe : Z -> string;
  subscribe : Z -> string;
  session_show : Z -> string;
  session_store : Z -> string;
  dispatch : Z -> string;
  retry : Z -> string;
  create_similar : Z -> string;
  resolve_failure : Z -> string;
  withdraw_review : Z -> string;
  cancel : Z -> string;
  edit : Z -> string;
  destroy : Z -> string;
  show : Z -> string;
  run_preflight : Z -> string;
  review_store : Z -> string;
  export : Z -> string;
  sql_policy_candidate : Z -> string;
}.

(** What Inertia tells the forms, by the name of the form. *)
Record Forms := {
  processing : string -> bool;
  recentlySuccessful : string -> bool;
  form_errors : string -> list (string * string);
}.

(** ** The choice of a replacement *)

Definition connectionSummary (connections : list string) : string :=
  let visibleConnections := take 2 connections in
  let hiddenConnectionCount := (length connections - length visibleConnections)%nat in
  let visibleConnectionNames := join " · " visibleConnections in
  if (0 <? hiddenConnectionCount)%nat
  then (visibleConnectionNames ++ " · +" ++ str_of_nat hiddenConnectionCount ++ " more")%string
  else visibleConnectionNames.

(** The filter of the search; [contains] is that of the combo box. *)
Definition replacement_filter (contains : string -> string -> bool) (candidate : Candidate)
    (query : string) : bool :=
  contains ("#" ++ str_of_Z (candidate_request_id candidate))%string query ||
  contains (candidate_title candidate) query ||
  contains (statusLabel (request_status_text (candidate_status candidate))) query ||
  existsb (fun connection => contains connection query) (candidate_connections candidate).

Definition candidate_label (candidate : Candidate) : string :=
  ("#" ++ str_of_Z (candidate_request_id candidate) ++ " " ++ candidate_title candidate)%string.

(** An item of the list. *)
Definition candidate_item (candidate : Candidate) : node State :=
  El (Tag "Combobox.Item") [Attr "key" (str_of_Z (candidate_request_id candidate))]
    [elem "div"
       [elem "span"
          [elem "span"
             [elem "span" [Txt ("#" ++ str_of_Z (candidate_request_id candidate))%string];
              elem "span" [Txt (candidate_title candidate)]];
           El (Tag "span") [Attr "title" (join " · " (candidate_connections candidate))]
             [Txt (connectionSummary (candidate_connections candidate))]];
        StatusBadge (request_status_text (candidate_status candidate)) None]].

(** A candidate is picked by its position; picking none clears the choice. *)
Definition pick_candidate (candidates : list Candidate) (onValueChange : string -> State -> State)
    : handler State := fun _ ev s =>
  match ev with
  | Pick positions =>
      match picked candidates positions with
      | candidate :: _ => onValueChange (str_of_Z (candidate_request_id candidate)) s
      | [] => onValueChange "" s
      end
  | _ => s
  end.

Definition ReplacementQueryRequestCombobox (candidates : list Candidate) (error : option string)
    (onValueChange : string -> State -> State) (value : string) : list (node State) :=
  let selectedCandidate :=
    find_first (fun c => str_eq (str_of_Z (candidate_request_id c)) value) candidates in
  [El TInput [Attr "type" "hidden"; Attr "name" "replacement_query_request_id"; Attr "value" value] [];
   El (Tag "Combobox")
     [Attr "value" ((candidate_label <$> selectedCandidate) ?? "");
      On "valueChange" (pick_candidate candidates onValueChange);
      Attr "label" "Replacement deployment batch";
      Attr "description" "Search every visible deployment batch newer than this request.";
      Attr "error" (error ?? ""); Flag "required" true]
     [El (Tag "Combobox.TriggerValue") [Attr "placeholder" "Select the new deployment batch"]
        [Txt ((candidate_label <$> selectedCandidate) ?? "Select the new deployment batch")];
      elem "Combobox.Content"
        [elem "Combobox.List" (map candidate_item candidates);
         elem "Combobox.Empty" [elem "div" [elem "span" [Txt "No matching deployment batches"]]]]]].

(** ** Parts of the page *)

(** Lines 228-245 *)
Definition TargetConnectionBadge (c : Connection) : node State :=
  El (Tag "span") [Attr "key" (str_of_Z (connection_id c))]
    [elem "span" [Txt (connection_name c)];
     StatusBadge (connection_driver c) (Some (driverLabel (connection_driver c)))].

(** Lines 283-329 *)
Definition SampleRows (rows : list Row) : node State :=
  let columns := result_columns rows in
  elem "table"
    [elem "thead"
       [elem "tr" (map (fun column => El (Tag "th") [Attr "key" column] [Txt column]) columns)];
     elem "tbody"
       (imap (fun index row =>
          El (Tag "tr") [Attr "key" (str_of_nat index)]
            (map (fun column => El (Tag "td") [Attr "key" column] [Txt (cell row column)]) columns))
          rows)].

(** [number && node] of JSX: zero is shown. *)
Definition number_and (n : option Z) (node : list (node State)) : list (View.node State) :=
  match n with
  | None => []
  | Some n => if n =? 0 then [Txt "0"] else node
  end.

Definition plural (n : Z) (one many : string) : string := if n =? 1 then one else many.

(** The messages of a form for these fields. *)
Definition messages_for (errors : list (string * string)) (fields : list string) : list (node State) :=
  flat_map (fun field => InputError (error_of errors field)) fields.

(** A dialog that keeps its own state: its trigger, its heading and its content. *)
Definition dialog (trigger : list (node State)) (heading : string) (text : string)
    (content : list (node State)) : node State :=
  elem "Dialog"
    [elem "DialogTrigger" [El TButton [Attr "type" "button"] trigger];
     elem "DialogContent"
       (elem "DialogHeader" [elem "DialogTitle" [Txt heading]; elem "DialogDescription" [Txt text]]
        :: content)].

Definition closeButton (text : string) : node State :=
  elem "DialogClose" [El TButton [Attr "type" "button"] [Txt text]].

(** A form with a submit button and nothing else. *)
Definition button_form (action : string) (disabled : bool) (props : list (prop State)) (text : string)
    : node State :=
  El (Tag "Form") [Attr "action" action] [El TButton (Flag "disabled" disabled :: props) [Txt text]].

Definition link_to (href text : string) : node State := El (Tag "Link") [Attr "href" href] [Txt text].

Section page.
Context (format : string -> string -> option string) (intl : string -> option string -> string).
Context (routes : Routes) (forms : Forms) (props : Props).
Implicit Types (s : State).

Let q := query_request props.
Let id := request_id q.

Definition dated (value : option string) : string := formatDate intl value (Some (userTimezone props)).

(** Lines 331-370 *)
Definition ExecutionResult (execution : Execution) : node State :=
  let rows := sample_rows execution ?? [] in
  if truthy_opt (execution_error execution)
  then elem "div" [Txt (execution_error execution ?? "")]
  else
    match rows with
    | [] => elem "div" [Txt "No sample rows recorded for this execution."]
    | _ =>
        elem "div"
          [elem "div"
             [El (Tag "a") [Attr "href" (export routes (execution_id execution))] [Txt "Export CSV"]];
           El (Tag "div") [Attr "role" "region"; Attr "aria-label" "Execution result rows"]
             [SampleRows rows]]
    end.

(** *** The head of the page *)

(** Lines 657-716 *)
Definition statusLine : node State :=
  elem "div"
    ([StatusBadge (request_status_text (status q)) None;
      StatusBadge (request_kind_text (kind q))
        (Some (queryRequestKindLabel (kind q) (Some (access_transport q))))] ++
     when (approved_after_schedule q) [StatusBadge "schedule_missed" (Some "Schedule missed")] ++
     when (truthy_opt (actionSummary intl props))
       [elem "span" [Txt (actionSummary intl props ?? "")]] ++
     [if is_subscribed props
      then button_form (unsubscribe routes id) (processing forms "unsubscribe") [] "Watching"
      else button_form (subscribe routes id) (processing forms "subscribe") [] "Watch updates"]).

(** Lines 728-757 *)
Definition sessionAction : list (node State) :=
  match active_session q with
  | Some (session, _) => [link_to (session_show routes session) "Resume Session"]
  | None =>
      when (can_start_session props)
        [button_form (session_store routes id) (processing forms "session") [] "Start Session"]
  end.

(** Lines 758-790 *)
Definition dispatchForm : node State :=
  button_form (dispatch routes id) (processing forms "dispatch" || recentlySuccessful forms "dispatch")
    [on_click dispatchClicked]
    (if processing forms "dispatch" then "Dispatching..."
     else if recentlySuccessful forms "dispatch" then "Dispatched"
     else if approved_after_schedule q then "Run now"
     else "Execute batch").

(** The texts of a retry, one per strategy. *)
Definition by_strategy {A} (strategy : RetryStrategy) (resume renew create : A) : A :=
  match strategy with
  | ResumeReadOnly => resume
  | RenewAccess => renew
  | CreateRetryRequest => create
  end.

(** Lines 791-876 *)
Definition retryDialog (strategy : RetryStrategy) : node State :=
  dialog [Txt (by_strategy strategy "Retry remaining" "Request access again" "Create retry")]
    (by_strategy strategy "Retry remaining read-only statements?"
       (if isNativeClientAccess props then "Request Native Client Access again?"
        else "Request Query Access again?")
       "Create a retry request?")
    (by_strategy strategy
       "The batch will resume at the failed statement. Previously successful statements will not run again."
       "This creates a linked request with the same selected connections, session level, and duration. Approval is evaluated against your current connection policy."
       "This copies the failed statement and all remaining statements into a linked request. It requires fresh approval before execution.")
    [elem "DialogFooter"
       [closeButton "Cancel";
        button_form (retry routes id) (processing forms "retry") [on_click (retryClicked props)]
          (if processing forms "retry" then "Working..."
           else by_strategy strategy "Retry remaining" "Create access request" "Create retry request")]].

(** Lines 934-972: the choice of a resolution *)
Definition resolutionSelect s errors : node State :=
  elem "div"
    ([El (Tag "Label") [Attr "for" "failure-resolution"] [Txt "Resolution"];
      El TSelect [Attr "id" "failure-resolution"; Attr "name" "resolution";
                  Attr "value" (resolution_text (failureResolution s));
                  on_choose [Replaced; Investigated; NotApplicable] resolution_text setFailureResolution]
        [choice "replaced" "Replaced by a new deployment";
         choice "investigated" "Investigated — no retry needed";
         choice "not_applicable" "Not applicable"]] ++
     messages_for errors ["resolution"]).

(** Lines 993-1021: the notes *)
Definition resolutionNote s errors : node State :=
  let replaced := bool_decide (failureResolution s = Replaced) in
  elem "div"
    ([El (Tag "Label") [Attr "for" "failure-resolution-note"]
        ([Txt "Notes"] ++ when (negb replaced) [Txt " (required)"]);
      El TTextarea [Attr "id" "failure-resolution-note"; Attr "name" "note"; Attr "rows" "3";
                    Flag "required" (negb replaced);
                    Attr "placeholder" "Record why this failure no longer needs action."] []] ++
     messages_for errors ["note"; "query_request"]).

(** Lines 917-1045 *)
Definition resolveForm s : node State :=
  let errors := form_errors forms "resolve" in
  let busy := processing forms "resolve" in
  let replaced := bool_decide (failureResolution s = Replaced) in
  El (Tag "Form") [Attr "action" (resolve_failure routes id)]
    ([resolutionSelect s errors] ++
     when replaced
       (ReplacementQueryRequestCombobox (replacement_candidates props)
          (error_of errors "replacement_query_request_id") setReplacementQueryRequestId
          (replacementQueryRequestId s)) ++
     [resolutionNote s errors;
      elem "DialogFooter"
        [elem "DialogClose"
           [El TButton [Attr "type" "button"; on_click (setIsFailureResolutionDialogOpen false)]
              [Txt "Cancel"]];
         El TButton [Flag "disabled" (busy || (replaced && str_eq (replacementQueryRequestId s) ""))]
           [Txt (if busy then "Recording..." else "Record resolution")]]]).

(** Lines 889-1048: the page opens and closes this dialog; pressing Escape closes it too. *)
Definition resolveDialog s : node State :=
  elem "Dialog"
    ([elem "DialogTrigger"
        [El TButton [Attr "type" "button"; on_click (setIsFailureResolutionDialogOpen true)]
           [Txt "Resolve failure"]]] ++
     when (isFailureResolutionDialogOpen s)
       [El (Tag "DialogContent")
          [On "openChange" (fun _ _ => setIsFailureResolutionDialogOpen false)]
          [elem "DialogHeader"
             [elem "DialogTitle" [Txt "Resolve this failure?"];
              elem "DialogDescription" [Txt "This records how the failed deployment was handled and removes it from the live operational queue. Its execution history remains unchanged."]];
           resolveForm s]]).

(** A form that asks for a reason (lines 1070-1117, 1163-1223). *)
Definition reasonForm (name action field_id label placeholder keep : string) (text : string)
    : node State :=
  El (Tag "Form") [Attr "action" action]
    ([El (Tag "Label") [Attr "for" field_id] [Txt label];
      El TTextarea [Attr "id" field_id; Attr "name" "reason"; Attr "rows" "3"; Flag "required" true;
                    Attr "placeholder" placeholder] []] ++
     messages_for (form_errors forms name) ["reason"; "query_request"] ++
     [elem "DialogFooter"
        [closeButton keep; El TButton [Flag "disabled" (processing forms name)] [Txt text]]]).

(** Lines 1049-1120 *)
Definition withdrawDialog : node State :=
  dialog [Txt "Withdraw from review"] "Withdraw this batch from review?"
    "This returns the Deployment Batch to Draft immediately. Reviewers can no longer approve it, and it cannot execute until you submit it again."
    [reasonForm "withdraw" (withdraw_review routes id) "review-withdrawal-reason" "Reason"
       "Why is this deployment being postponed?" "Keep in review"
       (if processing forms "withdraw" then "Withdrawing..." else "Return to Draft")].

(** Lines 1121-1226 *)
Definition cancelDialog : node State :=
  let running := bool_decide (status q = Running) in
  let session := isActiveQueryAccess props in
  dialog [Txt (if session then "End session" else if running then "Request stop" else "Cancel request")]
    (if session then "End this access session?"
     else if running then "Stop this deployment batch?"
     else "Cancel this query request?")
    (if session then "This ends every active session for this request now. The request remains in audit history as cancelled."
     else if running then "The currently running statement may finish, but no later statements will start. The execution record will be preserved."
     else if isQueryAccess props then "This revokes any active session and keeps the request record for audit history."
     else "This keeps the request and its approval history for audit purposes.")
    [reasonForm "cancel" (cancel routes id) "cancellation-reason"
       (if session then "Reason for ending access" else "Reason")
       (if session then "Why should this access session end?" else "Why is this request being cancelled?")
       (if session then "Keep session" else "Keep request")
       (if processing forms "cancel" then if session then "Ending session..." else "Cancelling..."
        else if session then "End session" else "Cancel request")].

(** Lines 1239-1289 *)
Definition deleteDialog : node State :=
  dialog [El (Tag "span") [Attr "aria-label" "Delete request"] []]
    (if isNativeClientAccess props then "Delete Native Client Access request?"
     else "Delete Query Access request?")
    "This removes the request and its session records from the active workspace. A detailed deletion audit event will remain."
    [elem "DialogFooter"
       [closeButton "Cancel";
        button_form (destroy routes id) (processing forms "delete") [] "Yes, delete"]].

(** Lines 719-1290 *)
Definition requestActions s : node State :=
  elem "div"
    (when (can_review props) [El (Tag "a") [Attr "href" "#review-request"] [Txt "Review request"]] ++
     sessionAction ++
     when (can_dispatch props) [dispatchForm] ++
     match retry_strategy props with
     | Some strategy => when (can_retry props) [retryDialog strategy]
     | None => []
     end ++
     when (can_create_similar props) [link_to (create_similar routes id) "Create similar"] ++
     when (can_resolve_failure props) [resolveDialog s] ++
     when (can_withdraw_review props) [withdrawDialog] ++
     when (can_cancel props) [cancelDialog] ++
     when (can_update props && negb (isQueryAccess props)) [link_to (edit routes id) "Edit"] ++
     when (can_delete props) [deleteDialog]).

(** *** The summary *)

Definition described (term : string) (details : list (node State)) : node State :=
  elem "div" (elem "dt" [Txt term] :: details).

(** Lines 1358-1416 *)
Definition targetSummary : node State :=
  let all := targetConnections format props in
  let additional := additionalTargetConnections format props in
  let more := (0 <? length additional)%nat in
  described (if (length all =? 1)%nat then "Target"
             else ("Targets · " ++ str_of_nat (length all) ++ " total")%string)
    [elem "dd"
       [El (Tag "Collapsible") [Attr "key" (str_of_Z id)]
          ([elem "div" (map TargetConnectionBadge (summarizedTargetConnections format props))] ++
           when more
             [elem "CollapsibleContent" [elem "div" (map TargetConnectionBadge additional)]] ++
           when more
             [elem "CollapsibleTrigger"
                [El TButton [Attr "type" "button"]
                   [elem "span" [Txt ("Show " ++ str_of_nat (length additional) ++ " more targets")%string];
                    elem "span" [Txt "Show fewer targets"]]]])]].

(** Lines 1294-1417 *)
Definition summaryList s : node State :=
  let cancelled := bool_decide (status q = Cancelled) in
  elem "dl"
    [described "Requested by"
       [elem "dd" [Txt (requester q)]; elem "span" [Txt (dated (created_at q))]];
     described "Approval"
       ([elem "dd" [Txt (approval_label q)]] ++
        when (requires_approval q && truthy_opt (approved_at q))
          [elem "span" [Txt (dated (approved_at q))]]);
     described (if isQueryAccess props then "Access" else "Schedule")
       [elem "dd"
          [Txt (if isQueryAccess props
                then ((if bool_decide (requested_access_mode q = Some WriteQuery) then "Read + write"
                       else "Read-only") ++ " · " ++
                      str_of_Z (access_duration_minutes q ?? 60) ++ " min")%string
                else scheduledAtLabel intl props)]];
     described (if isQueryAccess props then "Session" else if cancelled then "Cancelled" else "Finished")
       [elem "dd"
          [Txt (if isQueryAccess props then querySessionState props s
                else dated (if cancelled then cancelled_at q else completed_at q))]];
     targetSummary].

(** Lines 1419-1428 *)
Definition purpose : list (node State) :=
  when (truthy_opt (description q))
    [elem "div" [elem "p" [Txt "Purpose and context"]; elem "p" [Txt (description q ?? "")]]].

(** Lines 1430-1446 *)
Definition cancellation : list (node State) :=
  when (bool_decide (status q = Cancelled))
    [elem "div"
       ([elem "p" [Txt "Cancellation"];
         elem "p" [Txt (if truthy_opt (cancelled_by q)
                        then ("Cancelled by " ++ (cancelled_by q ?? ""))%string else "Cancelled")]] ++
        when (truthy_opt (cancellation_reason q)) [elem "p" [Txt (cancellation_reason q ?? "")]])].

Definition related_link (r : Related) : node State :=
  link_to (show routes (related_id r)) ("#" ++ str_of_Z (related_id r) ++ ": " ++ related_title r)%string.

Definition related_one (label : string) (r : option Related) : list (node State) :=
  match r with Some r => [elem "span" [Txt label; related_link r]] | None => [] end.

Definition related_many (label : string) (rs : list Related) : list (node State) :=
  map (fun r => El (Tag "span") [Attr "key" (str_of_Z (related_id r))]
                  [Txt label; related_link r; StatusBadge (request_status_text (related_status r)) None]) rs.

(** Lines 1448-1519 *)
Definition relatedRequests : list (node State) :=
  when (is_some (retry_of q) || (0 <? length (retries q))%nat || is_some (copied_from q) ||
        (0 <? length (copies q))%nat)
    [elem "div"
       ([elem "span" [Txt "Related requests"]] ++
        related_one "Retry of " (retry_of q) ++ related_many "Retry " (retries q) ++
        related_one "Created from " (copied_from q) ++ related_many "Similar request " (copies q))].

(** Lines 1521-1526 *)
Definition lastError : list (node State) :=
  when (truthy_opt (last_error q) && negb (hasStatementLevelFailure props))
    [elem "div" [Txt (last_error q ?? "")]].

(** Lines 651-1528 *)
Definition statusSection s : node State :=
  El (Tag "section") [Attr "aria-label" "Request status and actions"]
    [elem "div" [elem "div" [statusLine]; requestActions s];
     elem "div" ([summaryList s] ++ purpose ++ cancellation ++ relatedRequests ++ lastError)].

(** Lines 1530-1574 *)
Definition failureResolvedSection : list (node State) :=
  match failure_resolution q with
  | None => []
  | Some r =>
      [elem "section"
         [elem "div"
            [elem "div"
               ([elem "h2" [Txt "Failure resolved"];
                 elem "p"
                   ([Txt (match resolution r with
                          | Replaced => "Replaced by a new deployment batch."
                          | Investigated => "Investigated; no retry was needed."
                          | NotApplicable => "Marked as not applicable."
                          end); Txt " "] ++
                    when (truthy_opt (resolved_by r))
                      [Txt ("Recorded by " ++ (resolved_by r ?? "") ++ " on " ++
                            dated (Some (resolved_at r)) ++ ".")%string])] ++
                when (truthy_opt (resolution_note r)) [elem "p" [Txt (resolution_note r ?? "")]] ++
                match replacement_query_request r with
                | None => []
                | Some r => [link_to (show routes (related_id r))
                               ("View replacement batch # " ++ str_of_Z (related_id r))%string]
                end)]]]
  end.

(** Lines 1576-1611 *)
Definition policyReviewSection : list (node State) :=
  match kind q, policy_review q with
  | SingleExecution, Some review =>
      [elem "section"
         [elem "div"
            ([elem "h2"
                [Txt (match policy_decision review with
                      | PolicyPending => "SQL policy review requested"
                      | PolicyAllowed => "SQL policy request allowed"
                      | PolicyDenied => "SQL policy request denied"
                      end)];
              elem "p"
                [Txt (match policy_decision review with
                      | PolicyPending => "An administrator has been notified. This deployment remains a draft until every candidate is decided."
                      | PolicyAllowed => "Preflight has been refreshed. Review the draft, then submit it explicitly for the normal approval workflow."
                      | PolicyDenied => "The deployment remains blocked. Update the SQL or contact an administrator about the decision note."
                      end)]] ++
             map (fun note => El (Tag "p") [Attr "key" note] [Txt ("Decision note: " ++ note)%string])
               (decision_notes review))]]
  | _, _ => []
  end.

(** *** Preflight *)

(** Lines 1618-1674 *)
Definition preflightHead : node State :=
  let count := length (formattedStatements format props) in
  let warnings := warning_count (preflight q) in
  elem "div"
    [elem "div"
       [El (Tag "h2") [Attr "id" "preflight-title"] [Txt "Execution preflight"];
        elem "p" [Txt (str_of_nat count ++ plural (Z.of_nat count) " statement" " statements" ++
                       " checked. Critical checks run again before execution.")%string]];
     elem "div"
       ([elem "span"
           ([Txt (preflightLabel props)] ++
            when (0 <? warnings)
              [Txt (" · " ++ str_of_Z warnings ++ plural warnings " warning" " warnings")%string])] ++
        when (can_update props)
          [button_form (run_preflight routes id) (processing forms "preflight") [Attr "type" "submit"]
             (if processing forms "preflight" then "Running preflight..." else "Run preflight")])].

(** Lines 1697-1742 *)
Definition preflightMessage (m : Message) : node State :=
  El (Tag "li") [Attr "key" (code m)]
    [elem (if message_blocked m then "CircleX" else "CircleMinus") [];
     elem "span"
       ([Txt (message m)] ++
        when (isAdministrator props)
          (number_and (candidate_id m)
             [Txt " "; link_to (sql_policy_candidate routes (candidate_id m ?? 0))
                         "Review policy candidate"]))].

(** Lines 1683-1760 *)
Definition preflightFindingList : node State :=
  match preflightFindings format props with
  | [] => elem "div" [Txt "All statements are ready to execute."]
  | findings =>
      elem "div"
        (map (fun '(statement, p) =>
           El (Tag "div") [Attr "key" (str_of_Z (position statement))]
             [elem "span" [Txt ("Statement " ++ str_of_Z (position statement))%string];
              elem "ul" (map preflightMessage (messages p));
              elem "span" [Txt (connection_name (statement_connection statement))]]) findings)
  end.

(** The icon of a statement in the checklist. *)
Definition preflightIcon (statement : Statement) : string :=
  match finding_status <$> map_get (position statement) (preflightByPosition props) with
  | Some FindingBlocked => "CircleX"
  | Some FindingWarning => "CircleMinus"
  | _ => "CircleCheck"
  end.

(** Lines 1762-1832 *)
Definition preflightChecklist s : node State :=
  let count := length (formattedStatements format props) in
  Collapsible (isPreflightExpanded s) setIsPreflightExpanded
    ((if isPreflightExpanded s then "Hide" else "Show") ++ " all statement preflight checks")%string
    [elem "span"
       [Txt (if isPreflightExpanded s then "Hide full checklist"
             else ("View full checklist (" ++ str_of_nat count ++ ")")%string)]]
    [elem "div"
       (map (fun statement =>
          El (Tag "div") [Attr "key" (str_of_Z (position statement))]
            [elem "div" [elem (preflightIcon statement) [];
                         elem "span" [Txt ("Statement " ++ str_of_Z (position statement))%string]];
             elem "span" [Txt (connection_name (statement_connection statement))]])
          (formattedStatements format props))].

(** Lines 1613-1836 *)
Definition preflightSection s : list (node State) :=
  when (bool_decide (kind q = SingleExecution))
    [El (Tag "section") [Attr "aria-labelledby" "preflight-title"]
       [preflightHead;
        match preflight_status (preflight q) with
        | NotRun | Stale =>
            elem "div" [Txt "The batch will be checked when it is reviewed or dispatched."]
        | _ => elem "div" [preflightFindingList; preflightChecklist s]
        end]].

(** *** Statements and sessions *)

Definition executed_as (statement : Statement) (st : ExecutionState) : bool :=
  bool_decide (execution_state statement = Some st).

(** Lines 1914-1922 *)
Definition statementView (statement : Statement) : EditorProps State := {|
  SqlEditor.value := statement_sql statement;
  onChange := fun _ s => s;
  SqlEditor.driver := Some (connection_driver (statement_connection statement));
  SqlEditor.tables := [];
  height := None;
  minHeight := Some "8rem";
  readOnly := true;
  placeholder := None;
  autoFocus := false;
  onEditorReady := None;
  onSelectionChange := None;
  onRunShortcut := None |}.

(** Lines 1860-1940 *)
Definition batchStatement (statement : Statement) : node State :=
  let isSkipped := executed_as statement Skipped in
  let succeeded := executed_as statement (Executed ExecSucceeded) in
  let failed := executed_as statement (Executed ExecFailed) in
  let hasFinishedExecution := succeeded || failed || isSkipped in
  El (Tag "div")
    [Attr "key" (str_of_Z (if statement_id statement =? 0 then position statement
                           else statement_id statement))]
    ([elem "div"
        [elem "span"
           ([elem (if succeeded then "CircleCheck" else if failed then "CircleX"
                   else if isSkipped then "CircleMinus" else "FileCode2") [];
             Txt ("Statement " ++ str_of_Z (position statement))%string] ++
            (if isSkipped then [elem "span" [Txt "Skipped"]]
             else when hasFinishedExecution [elem "span" [Txt "Locked"]]));
         elem "span"
           [elem "span" [Txt (connection_name (statement_connection statement))];
            StatusBadge (query_type_text (statement_query_type statement)) None]];
      El (Tag "div") [Flag "aria-disabled" hasFinishedExecution]
        [SqlEditor (statementView statement)]] ++
     match statement_execution statement with
     | Some (ExecFailed, Some (String _ _ as error)) => [elem "div" [elem "span" [Txt error]]]
     | _ => []
     end).

(** Lines 1839-1942 *)
Definition batchSection : node State :=
  let count := length (formattedStatements format props) in
  El (Tag "section") [Attr "aria-labelledby" "sql-batch-title"]
    [elem "div"
       [El (Tag "h2") [Attr "id" "sql-batch-title"]
          [Txt ("SQL Batch (" ++ str_of_nat count ++ " " ++
                plural (Z.of_nat count) "statement" "statements" ++ ")")%string];
        elem "p" [Txt "Statements execute in this order and stop at the first failure."]];
     elem "div" (map batchStatement (formattedStatements format props))].

(** Lines 1944-2020 *)
Definition sessionsSection : node State :=
  let count := length (sessions q) in
  El (Tag "section") [Attr "aria-labelledby" "access-sessions-title"]
    [elem "div"
       [El (Tag "h2") [Attr "id" "access-sessions-title"]
          [Txt (if isNativeClientAccess props then "Native client sessions" else "Query Access sessions")];
        elem "span" [Txt (str_of_nat count ++ " " ++
                          plural (Z.of_nat count) "session" "sessions")%string]];
     elem "div"
       [elem "table"
          [elem "thead" [elem "tr" (map (fun t => elem "th" [Txt t]) ["Started"; "Expires"; "Ended"])];
           elem "tbody"
             (map (fun session =>
                El (Tag "tr") [Attr "key" (str_of_Z (session_id session))]
                  [elem "td" [Txt (dated (session_started_at session))];
                   elem "td" [Txt (dated (session_expires_at session))];
                   elem "td" [Txt (dated (session_ended_at session))]]) (sessions q) ++
              when (count =? 0)%nat
                [elem "tr"
                   [El (Tag "td") [Attr "colSpan" "3"]
                      [Txt (if isNativeClientAccess props then "No native client sessions started."
                            else "No Query Access sessions started.")]]])]]].

(** *** Reviews and executions *)

(** Lines 2023-2103 *)
Definition reviewSection : list (node State) :=
  when (can_review props)
    [El (Tag "section") [Attr "id" "review-request"; Attr "aria-labelledby" "review-title"]
       [elem "div" [El (Tag "h2") [Attr "id" "review-title"] [Txt "Review request"]];
        elem "div"
          [let errors := form_errors forms "review" in
           El (Tag "Form") [Attr "action" (review_store routes id)]
             ([El TInput [Attr "type" "hidden"; Attr "name" "expected_revision";
                          Attr "value" (str_of_Z (revision q))] []] ++
              messages_for errors ["expected_revision"] ++
              [elem "div"
                 ([El (Tag "Label") [Attr "for" "decision"] [Txt "Decision"];
                   El TSelect [Attr "id" "decision"; Attr "name" "decision"; Flag "required" true]
                     [choice "approved" "Approve"; choice "rejected" "Reject"]] ++
                  messages_for errors ["decision"]);
               elem "div"
                 ([El (Tag "Label") [Attr "for" "comment"] [Txt "Comment"];
                   El TTextarea [Attr "id" "comment"; Attr "name" "comment"; Attr "rows" "3"] []] ++
                  messages_for errors ["comment"]);
               El TButton [Attr "type" "submit"; Flag "disabled" (processing forms "review")]
                 [Txt "Submit Review"]])]]].

(** Lines 2257-2284 *)
Definition expandedExecution (execution : Execution) : node State :=
  elem "tr"
    [El (Tag "td") [Attr "colSpan" "9"]
       [elem "div"
          [elem "div"
             [elem "div" [Txt "SQL"];
              elem "pre" [Txt (execution_sql execution ?? "SQL not recorded")]];
           elem "div" [elem "div" [Txt "Result"]; ExecutionResult execution]]]].

(** Lines 2159-2288 *)
Definition executionRow s (execution : Execution) : list (node State) :=
  let isExpanded := existsb (Z.eqb (execution_id execution)) (expandedExecutionIds s) in
  [elem "tr"
     [elem "td" [StatusBadge (execution_status_text (execution_status execution)) None];
      elem "td" [StatusBadge (query_type_text (execution_query_type execution)) None];
      elem "td"
        [El TButton [Attr "type" "button"; on_click (toggleExecutionSql (execution_id execution))]
           [elem "code"
              (number_and (statement_position execution)
                 [elem "span" [Txt ("#" ++ number_or "" (statement_position execution))%string]] ++
               [Txt (execution_sql execution ?? "SQL not recorded")])]];
      elem "td" [elem "span" [Txt (connection_name (execution_connection execution))];
                 elem "span" [Txt (connection_driver (execution_connection execution))]];
      elem "td" [Txt (dated (started_at execution))];
      elem "td" [Txt (str_of_Z (duration_ms execution ?? 0) ++ " ms")%string];
      elem "td" [Txt (executor execution ?? "Not recorded")];
      elem "td" [Txt (str_of_Z (row_count execution ?? 0) ++
                      if result_truncated execution then "+" else "")%string];
      elem "td" [Txt (execution_error execution ?? "")]]] ++
  when isExpanded [expandedExecution execution].

(** Lines 2105-2308 *)
Definition executionHistory s : node State :=
  let total := page_total (executions q) in
  El (Tag "section") [Attr "id" "execution-history"; Attr "aria-labelledby" "execution-history-title"]
    ([elem "div"
        [El (Tag "h2") [Attr "id" "execution-history-title"] [Txt "Execution history"];
         elem "span" [Txt (str_of_Z total ++ " " ++
                           plural total "execution" "executions")%string]];
      elem "div"
        [elem "table"
           [elem "thead"
              [elem "tr" (map (fun t => elem "th" [Txt t])
                 ["Status"; "Type"; "Statement / SQL"; "Connection"; "Started"; "Duration"; "Executor";
                  "Rows"; "Error"])];
            elem "tbody"
              (flat_map (executionRow s) (page_data (executions q)) ++
               when (length (page_data (executions q)) =? 0)%nat
                 [elem "tr" [El (Tag "td") [Attr "colSpan" "8"] [Txt "No executions recorded."]]])]]] ++
     Pagination (executions q) (Some "execution-history")).

(** Lines 2310-2357 *)
Definition reviewHistory : list (node State) :=
  when (0 <? length (reviews q))%nat
    [El (Tag "section") [Attr "aria-labelledby" "reviews-title"]
       [elem "div" [El (Tag "h2") [Attr "id" "reviews-title"] [Txt "Review history"]];
        elem "div"
          (map (fun review =>
             El (Tag "div") [Attr "key" (str_of_Z (review_id review))]
               ([elem "div"
                   [StatusBadge (if str_eq (decision review) "approved" then "approved" else "rejected")
                      (Some (statusLabel (decision review)));
                    elem "span" [Txt (reviewer review)];
                    elem "span" [Txt (dated (reviewed_at review))]]] ++
                when (truthy_opt (comment review)) [elem "p" [Txt (comment review ?? "")]]))
             (reviews q))]].

(** Lines 640-2361 *)
Definition QueryRequestShow s : node State :=
  elem "Fragment"
    [El (Tag "Head") [Attr "title" (title q)] [];
     elem "div"
       ([PageHeader (title q) (Some ("Request #" ++ str_of_Z id)%string) [];
         statusSection s] ++
        failureResolvedSection ++ policyReviewSection ++ preflightSection s ++
        [match kind q with SingleExecution => batchSection | QueryAccess => sessionsSection end] ++
        reviewSection ++ [executionHistory s] ++ reviewHistory)].
End page.

(** ** What the controls do *)

Section controls.
Context (format : string -> string -> option string) (intl : string -> option string -> string).
Context (routes : Routes) (forms : Forms) (props : Props).
Implicit Types (s : State).

(** The handler does not end the wait for an execution. *)
Definition keeps_waiting s (h : handler State) : Prop :=
  forall now ev, awaitingExecution s = true -> awaitingExecution (h now ev s) = true.

Lemma each_actions_messages P errors fields : each_actions P (messages_for errors fields).
Proof.
  unfold messages_for. induction fields as [|f fields IH]; simpl; [constructor|].
  apply each_actions_app; [apply each_actions_InputError|done].
Qed.

Lemma statusLine_waits s : all_actions (keeps_waiting s) (statusLine intl routes forms props).
Proof.
  unfold statusLine, button_form, StatusBadge. walk. destruct (is_subscribed props); walk.
Qed.

Lemma pick_candidate_waits s candidates :
  keeps_waiting s (pick_candidate candidates setReplacementQueryRequestId).
Proof. intros now ev Hs. unfold pick_candidate. by destruct ev as [| | |ps]; [..|destruct (picked _ _)]. Qed.

Lemma resolveDialog_waits s : all_actions (keeps_waiting s) (resolveDialog routes forms props s).
Proof.
  unfold resolveDialog, resolveForm, resolutionSelect, resolutionNote, ReplacementQueryRequestCombobox,
    candidate_item, choice, StatusBadge. walk; try apply each_actions_messages; try (by intros now ev).
  - intros now ev Hs. destruct (choose_handler_spec [Replaced; Investigated; NotApplicable]
      resolution_text setFailureResolution now ev s) as [->|(o & _ & ->)]; done.
  - apply pick_candidate_waits.
Qed.

Lemma reasonForm_waits s name action field_id label placeholder keep text :
  all_actions (keeps_waiting s) (reasonForm forms name action field_id label placeholder keep text).
Proof. unfold reasonForm, closeButton. walk; apply each_actions_messages. Qed.

Lemma requestActions_waits s : all_actions (keeps_waiting s) (requestActions routes forms props s).
Proof.
  unfold requestActions, sessionAction, dispatchForm, button_form, link_to, withdrawDialog,
    cancelDialog, deleteDialog, dialog, closeButton. walk.
  - destruct (active_session _) as [[session ?]|]; walk.
  - by intros now ev.
  - destruct (retry_strategy props) as [strategy|]; unfold retryDialog, dialog, closeButton, button_form; walk.
    intros now ev Hs. unfold retryClicked. by case_bool_decide.
  - apply resolveDialog_waits.
  - apply reasonForm_waits.
  - apply reasonForm_waits.
  - unfold button_form. walk.
Qed.

Lemma related_one_waits s label r : each_actions (keeps_waiting s) (related_one routes label r).
Proof. unfold related_one, related_link, link_to. destruct r; walk. Qed.

Lemma related_many_waits s label rs : each_actions (keeps_waiting s) (related_many routes label rs).
Proof. unfold related_many, related_link, link_to. walk. apply all_actions_StatusBadge. Qed.

Lemma statusSection_waits s : all_actions (keeps_waiting s) (statusSection format intl routes forms props s).
Proof.
  unfold statusSection, summaryList, targetSummary, described, TargetConnectionBadge,
    purpose, cancellation, relatedRequests, lastError. walk;
    auto using statusLine_waits, requestActions_waits, all_actions_StatusBadge, related_one_waits,
      related_many_waits.
Qed.

Lemma preflightSection_waits s : each_actions (keeps_waiting s) (preflightSection format routes forms props s).
Proof.
  unfold preflightSection, preflightHead, button_form. walk.
  assert (Hc : all_actions (keeps_waiting s)
    (elem "div" [preflightFindingList format routes props; preflightChecklist format props s])).
  { unfold preflightFindingList, preflightChecklist, Collapsible. walk; [|by intros now ev].
    destruct (preflightFindings format props) as [|f fs]; walk. destruct x as [statement p]. walk.
    unfold preflightMessage, number_and, link_to. walk. destruct (candidate_id x) as [n|]; [|walk].
    destruct (n =? 0); walk. }
  destruct (preflight_status _); done || walk.
Qed.

Lemma ExecutionResult_waits s execution : all_actions (keeps_waiting s) (ExecutionResult routes execution).
Proof.
  unfold ExecutionResult, SampleRows. destruct (truthy_opt _); [walk|].
  destruct (sample_rows execution ?? []) as [|row rows]; walk.
Qed.

Lemma executionHistory_waits s : all_actions (keeps_waiting s) (executionHistory intl routes props s).
Proof.
  unfold executionHistory. walk; [|apply each_actions_Pagination].
  apply Forall_forall. intros h (n & Hn & Hh)%elem_of_flat_map.
  apply elem_of_flat_map in Hn as (execution & _ & Hn). revert h Hh. apply Forall_forall.
  revert n Hn. cut (each_actions (keeps_waiting s) (executionRow intl routes props s execution)).
  { intros H n Hn. unfold each_actions in H. rewrite Forall_forall in H |- *.
    intros h Hh. apply H. apply elem_of_flat_map. eauto. }
  unfold executionRow, expandedExecution, StatusBadge, number_and. walk.
  - by intros now ev.
  - destruct (statement_position execution) as [n|]; [|walk]. destruct (n =? 0); walk.
  - apply ExecutionResult_waits.
Qed.

Lemma failureResolvedSection_waits s :
  each_actions (keeps_waiting s) (failureResolvedSection intl routes props).
Proof.
  unfold failureResolvedSection, link_to. destruct (failure_resolution (query_request props)) as [r|]; walk.
  destruct (replacement_query_request r); walk.
Qed.

Lemma policyReviewSection_waits s : each_actions (keeps_waiting s) (policyReviewSection props).
Proof.
  unfold policyReviewSection.
  destruct (kind (query_request props)), (policy_review (query_request props)); walk.
Qed.

Lemma batchSection_waits s : all_actions (keeps_waiting s) (batchSection format props).
Proof.
  unfold batchSection, batchStatement. walk; auto using all_actions_StatusBadge.
  - destruct (executed_as x Skipped); walk.
  - apply Forall_forall. intros h Hh now ev.
    by destruct (SqlEditor_actions _ _ now ev s Hh) as [->|[(v & ->)|(run & [=] & _)]].
  - repeat case_match; walk.
Qed.

Lemma sessionsSection_waits s : all_actions (keeps_waiting s) (sessionsSection intl props).
Proof. unfold sessionsSection. walk. Qed.

Lemma reviewSection_waits s : each_actions (keeps_waiting s) (reviewSection routes forms props).
Proof. unfold reviewSection, choice. walk; apply each_actions_messages. Qed.

Lemma reviewHistory_waits s : each_actions (keeps_waiting s) (reviewHistory intl props).
Proof. unfold reviewHistory. walk. apply all_actions_StatusBadge. Qed.

(** The controls of the page never end the wait for an execution. *)
Lemma page_waits s : all_actions (keeps_waiting s) (QueryRequestShow format intl routes forms props s).
Proof.
  unfold QueryRequestShow, PageHeader. walk;
    auto using statusSection_waits, failureResolvedSection_waits, policyReviewSection_waits,
      preflightSection_waits, reviewSection_waits, executionHistory_waits, reviewHistory_waits.
  destruct (kind _); auto using batchSection_waits, sessionsSection_waits.
Qed.
End controls.

(** ** The outcome of an execution *)

(** A control of the page, rendered with some routes and some state of its forms, is used. *)
Definition page_control (format : string -> string -> option string)
    (intl : string -> option string -> string) (routes : Routes) (props : Props) (s s' : State) : Prop :=
  exists forms h now ev, h ∈ actions (QueryRequestShow format intl routes forms props s) /\
    s' = h now ev s.

Lemma page_control_waits format intl routes props s s' :
  page_control format intl routes props s s' -> awaitingExecution s = true -> awaitingExecution s' = true.
Proof.
  intros (forms & h & now & ev & Hh & ->). pose proof (page_waits format intl routes forms props s) as H.
  unfold all_actions in H. rewrite Forall_forall in H. by apply H.
Qed.

(** C30.  The outcome of an execution is announced.  From any state the page can reach in which an execution
    is awaited (its button was pressed, or the page was reloaded since) and the request is not completed,
    however controls, versions of the request, ticks and timers interleave:

    - as long as no version is completed the page goes on waiting, polls when the request is a batch, and
      shows nothing;
    - the first completed version shows its announcement (a success if the last execution succeeded, an error
      if it or the request failed, and nothing otherwise), takes the wait out of the session storage and sets
      a timer;
    - until the timer fires only a further version from the server can show something, which is the
      announcement of a version that is completed (again, if the outcome is the same: [announced_again]);
      the timer stays set exactly while the last version is completed;
    - when the timer fires the wait is over, and from then on nothing is shown until somebody starts
      another. *)
Theorem execution_outcome_announced format intl routes now0 item props0 p q q' :
  let control := page_control format intl routes in
  rtc (page_step control) (mount now0 item props0) p ->
  awaiting p = true -> completed p = false ->
  rtc (waiting_step control) p q ->
  page_step control q q' -> completed q' = true ->
  (polling q = bool_decide (kind (query_request (props q)) = SingleExecution) /\ awaiting q = true /\
   toasts q = toasts p) /\
  (toasts q' = toasts p ++ announcement (props q') /\ awaiting_item (state q') = false /\
   reset_pending q' = true) /\
  forall r, rtc (awaiting_step control) q' r ->
    (forall r', awaiting_step control r r' ->
       toasts r' = toasts r \/
       (exists now, r' = rerender now true r (props r') (state r)) /\ completed r' = true /\
       toasts r' = toasts r ++ announcement (props r')) /\
    reset_pending r = completed r /\
    forall now r', rtc (idle_step control) (resetFired now r) r' ->
      awaiting (resetFired now r) = false /\ toasts r' = toasts r.
Proof.
  intros control Hr Ha Hc Hw Hs Hc'.
  pose proof (reachable_ok control _ _ _ _ Hr) as Hok.
  destruct (waiting_run control (page_control_waits format intl routes) _ _ Hw Hok Hc Ha)
    as (Hokq & Hcq & Haq & Htq).
  destruct (completing_step control _ _ Hs Hokq Haq Hcq Hc') as (Hreset & Hitem & Ha' & Ht').
  split_and!; try done.
  - destruct Hokq as (-> & _ & _). unfold shouldPollExecution. unfold completed, awaiting in *.
    rewrite Haq, Hcq. by rewrite orb_true_r, !andb_true_r.
  - by rewrite Ht', Htq.
  - intros r Hrun. destruct (awaiting_run control _ _ Hrun (page_step_ok _ _ _ Hs Hokq) Ha') as [Hokr Har].
    split_and!.
    + intros r' Hr'. by apply (awaiting_step_toasts control).
    + destruct Hokr as (_ & _ & ->). by rewrite Har.
    + intros now r' Hidle. destruct (resetFired_ends now r) as [H1 H2]. split; [done|].
      by rewrite (idle_run control _ _ Hidle).
Qed.

(** ** The record of a failure *)

Lemma entries_messages typed sub errors fields :
  flat_map (entries typed sub) (messages_for errors fields) = [].
Proof.
  unfold messages_for. induction fields as [|f fields IH]; simpl; [done|].
  by rewrite flat_map_app, entries_InputError, IH.
Qed.

Lemma submits_messages errors fields : flat_map submits (messages_for errors fields) = [].
Proof.
  unfold messages_for. induction fields as [|f fields IH]; simpl; [done|].
  by rewrite flat_map_app, submits_InputError, IH.
Qed.

Lemma ReplacementQueryRequestCombobox_entries typed sub candidates error f value :
  flat_map (entries typed sub) (ReplacementQueryRequestCombobox candidates error f value) =
  [("replacement_query_request_id", value)].
Proof.
  unfold ReplacementQueryRequestCombobox. cbn -[candidate_item]. rewrite !app_nil_r.
  rewrite flat_map_map, flat_map_nil_all by done. done.
Qed.

Lemma ReplacementQueryRequestCombobox_submits candidates error f value :
  flat_map submits (ReplacementQueryRequestCombobox candidates error f value) = [].
Proof. unfold ReplacementQueryRequestCombobox, candidate_item, StatusBadge. walk_submits. Qed.

(** What the record of a failure posts: the resolution that is chosen, the note, and the
    replacement exactly when the resolution is "replaced"; its only button that submits can be pressed
    unless the form is being sent or a replacement is missing. *)
Theorem failure_record_posts routes forms props typed submitter s :
  entries typed submitter (resolveForm routes forms props s) =
    [("resolution", resolution_text (failureResolution s))] ++
    when (bool_decide (failureResolution s = Replaced))
      [("replacement_query_request_id", replacementQueryRequestId s)] ++
    [("note", typed "note" ?? "")] /\
  submits (resolveForm routes forms props s) =
    [("", "", negb (processing forms "resolve") &&
              (negb (bool_decide (failureResolution s = Replaced)) ||
               negb (str_eq (replacementQueryRequestId s) "")))].
Proof.
  split.
  - unfold resolveForm, resolutionSelect, resolutionNote. rewrite entries_Tag, !flat_map_app, entries_when.
    rewrite ReplacementQueryRequestCombobox_entries. cbn -[messages_for selected_option].
    rewrite !entries_messages, !entries_when.
    by destruct (failureResolution s), (processing forms "resolve"), (str_eq (replacementQueryRequestId s) "").
  - unfold resolveForm, resolutionSelect, resolutionNote. cbn -[messages_for ReplacementQueryRequestCombobox].
    rewrite !flat_map_app. cbn -[messages_for ReplacementQueryRequestCombobox].
    rewrite !submits_messages, !submits_when, ReplacementQueryRequestCombobox_submits.
    by destruct (failureResolution s), (processing forms "resolve"), (str_eq (replacementQueryRequestId s) "").
Qed.

(** ** Examples *)

Definition example_routes : Routes :=
  let at_ (path : string) (n : Z) := (path ++ "/" ++ str_of_Z n)%string in {|
  unsubscribe := at_ "unsubscribe"; subscribe := at_ "subscribe"; session_show := at_ "sessions";
  session_store := at_ "session"; dispatch := at_ "dispatch"; retry := at_ "retry";
  create_similar := at_ "similar"; resolve_failure := at_ "resolve"; withdraw_review := at_ "withdraw";
  cancel := at_ "cancel"; edit := at_ "edit"; destroy := at_ "destroy"; show := at_ "requests";
  run_preflight := at_ "preflight"; review_store := at_ "review"; export := at_ "export";
  sql_policy_candidate := at_ "policy" |}.

Definition idle_forms : Forms :=
  {| processing := fun _ => false; recentlySuccessful := fun _ => false; form_errors := fun _ => [] |}.

Definition main_connection : Connection :=
  {| connection_id := 1; connection_name := "main"; connection_driver := "mysql" |}.

Definition example_execution (st : ExecutionStatus) : Execution := {|
  execution_id := 9; statement_position := Some 1; execution_status := st;
  execution_query_type := ReadQuery; execution_sql := Some "select 1"; started_at := None;
  duration_ms := Some 4; row_count := Some 1; result_truncated := false; sample_rows := None;
  execution_error := None; executor := Some "Ada"; execution_connection := main_connection |}.

Definition example_request (st : QueryRequestStatus) (dispatched completed : option string)
    (history : list Execution) : QueryRequest := {|
  request_id := 5; title := "DEP-5"; description := None; request_sql := Some "select 1";
  statements := []; status := st; revision := 2; query_type := ReadQuery; kind := SingleExecution;
  access_transport := Browser; requested_access_mode := None; requires_approval := false;
  approval_label := "Not required"; scheduled_at := None; approved_after_schedule := false;
  access_duration_minutes := None; created_at := None; approved_at := None;
  dispatched_at := dispatched; completed_at := completed; cancelled_at := None;
  cancellation_reason := None; last_error := None; failure_resolution := None;
  preflight := {| preflight_status := Passed; warning_count := 0; preflight_statements := [] |};
  policy_review := None; requester := "Ada"; cancelled_by := None; retry_of := None; retries := [];
  copied_from := None; copies := []; connection := main_connection; access_connections := [];
  reviews := [];
  executions := {| page_data := history; links := []; page_from := None; page_to := None;
                   page_total := Z.of_nat (length history) |};
  sessions := []; active_session := None |}.

Definition example_props (q : QueryRequest) : Props := {|
  query_request := q; can_review := false; can_withdraw_review := false; can_update := false;
  can_dispatch := bool_decide (status q = Approved); can_cancel := false;
  can_retry := bool_decide (status q = Failed); can_create_similar := false;
  can_resolve_failure := false; replacement_candidates := [];
  retry_strategy := if bool_decide (status q = Failed) then Some ResumeReadOnly else None;
  can_start_session := false; can_delete := false; is_subscribed := false;
  isAdministrator := false; userTimezone := "UTC" |}.

Definition ready : Props := example_props (example_request Approved None None []).

Definition running : Props :=
  example_props (example_request Running (Some "2026-10-02T09:00:00Z") None [example_execution ExecRunning]).

Definition succeeded : Props :=
  example_props (example_request Completed (Some "2026-10-02T09:00:00Z") (Some "2026-10-02T09:00:05Z")
    [example_execution ExecSucceeded]).

Definition failed : Props :=
  example_props (example_request Failed (Some "2026-10-02T08:00:00Z") (Some "2026-10-02T08:00:05Z")
    [example_execution ExecFailed]).

Definition no_format (_ sql : string) : option string := Some sql.
Definition plain_dates (value : string) (_ : option string) : string := value.

Notation example_control := (page_control no_format plain_dates example_routes).

(** The [n]-th enabled control of the page is pressed. *)
Definition press (n : nat) (p : Page) : Page :=
  rerender 0 false p (props p)
    (fire (QueryRequestShow no_format plain_dates example_routes idle_forms (props p) (state p))
       n 0 Click (state p)).

Lemma press_step n p :
  (n < length (actions (QueryRequestShow no_format plain_dates example_routes idle_forms (props p)
     (state p))))%nat -> page_step example_control p (press n p).
Proof.
  intros (h & Hh & E)%(fire_action _ n 0 Click (state p)). unfold press. rewrite E.
  apply ps_control. exists idle_forms, h, 0, Click. done.
Qed.

Definition dispatched : Page := press 0 (mount 0 false ready).

Definition batch_running : Page := rerender 1500 true dispatched running (state dispatched).
Definition batch_succeeded : Page := rerender 3000 true batch_running succeeded (state batch_running).

(** A second version that is completed arrives before the timer fires: the outcome is announced again. *)
Definition batch_seen_again : Page := rerender 3000 true batch_succeeded succeeded (state batch_succeeded).

Lemma announced_again :
  page_step example_control batch_succeeded batch_seen_again /\ reset_pending batch_succeeded = true /\
  toasts batch_seen_again = [ToastSuccess "Query executed by Ada."; ToastSuccess "Query executed by Ada."].
Proof. split; [unfold batch_seen_again; apply ps_server|]. split; vm_compute; reflexivity. Qed.

Lemma execution_outcome_announced_witness :
  polling batch_running = true /\
  toasts batch_succeeded = [ToastSuccess "Query executed by Ada."] /\ awaiting_item (state batch_succeeded) = false /\
  reset_pending batch_succeeded = true /\
  forall r', rtc (idle_step example_control) (resetFired 3001 batch_succeeded) r' ->
    toasts r' = [ToastSuccess "Query executed by Ada."].
Proof.
  assert (Et : toasts batch_succeeded = [ToastSuccess "Query executed by Ada."]) by (vm_compute; reflexivity).
  destruct (execution_outcome_announced no_format plain_dates example_routes 0 false ready dispatched
    batch_running batch_succeeded) as ((Hp & _) & (_ & Hi & Hr) & Hafter).
  - apply rtc_once, press_step. vm_compute. lia.
  - vm_compute. reflexivity.
  - vm_compute. reflexivity.
  - apply rtc_once. split; [apply ps_server|vm_compute; reflexivity].
  - apply ps_server.
  - vm_compute. reflexivity.
  - rewrite Hp. split; [vm_compute; reflexivity|]. split; [exact Et|]. split; [exact Hi|]. split; [exact Hr|].
    intros r' Hidle. destruct (Hafter batch_succeeded (rtc_refl _ _)) as (_ & _ & H).
    destruct (H 3001 r' Hidle) as [_ E]. by rewrite E.
Defined.

(** A failed batch is retried: the button, the timer, a running version, a completed version. *)
Definition retried : Page := press 0 (mount 0 false failed).
Definition retry_reset : Page := resetFired 1 retried.
Definition retry_running : Page := rerender 1500 true retry_reset running (state retry_reset).
Definition retry_succeeded : Page := rerender 3000 true retry_running succeeded (state retry_running).

(** A retry announces the failure it was pressed for.  While the request still carries the time of
    its failure, pressing "Retry remaining" at once shows that the execution failed, and takes the wait
    out of the session storage and of the page: the success of the retry is never announced. *)
Theorem retry_announces_old_failure :
  rtc (page_step example_control) (mount 0 false failed) retry_succeeded /\
  toasts retried = [ToastError "Query execution failed. Check execution history."] /\
  awaiting retry_reset = false /\ awaiting_item (state retry_reset) = false /\
  status (query_request (props retry_succeeded)) = Completed /\
  toasts retry_succeeded = toasts retried.
Proof.
  split; [|vm_compute; split_and!; reflexivity].
  apply (rtc_l _ _ retried); [unfold retried; apply press_step; vm_compute; lia|].
  apply (rtc_l _ _ retry_reset); [unfold retry_reset; apply ps_reset; vm_compute; reflexivity|].
  apply (rtc_l _ _ retry_running); [unfold retry_running; apply ps_server|].
  apply rtc_once. unfold retry_succeeded. apply ps_server.
Qed.
